(* ===== verification/_CoqProject ===== *)
-Q . S2P
Prelude.v
Dpdk.v
Packet.v
LookupTpl.v
CoreBase.v
TextParse.v
Policer.v
PgwBase.v
IngressTunnel.v
EgressTunnel.v
TunnelRoundTrip.v
Distributor.v
CapsuleWorkers.v
RxTx.v
Counter.v
Transfer.v
Gtpc.v
GtpcItems.v
GtpcParse.v
CtrlNode.v
CtrlSession.v
CtrlAnswers.v
CtrlKeepalive.v
CtrlRouter.v
CtrlV1.v
ProxyRoutes.v
ProxyEvents.v
Tap.v
SessionFlow.v
App.v
Arch.v
AppRun.v
CtrlApp.v
DbMysql.v
DbSqlite.v
Binlog.v
