(* ===== verification/Prelude.v ===== *)
(** * A verification library for the mixi-pgw gateway

    mixi-pgw is the packet gateway of a mobile network.  Its control plane
    (src/ctrlplane) speaks GTP-C with the serving gateways: it answers their
    requests, keeps the sessions in a database, and announces them to the data
    plane.  Its data plane (src/dataplane) moves the users' packets: one core per
    task, joined by lock-free rings, takes GTP-U packets off and puts them into the
    tunnels, polices and counts them.  A proxy (src/ctrlplane/src/proxy) spreads
    the serving gateways over several control planes.

    Every definition is a translation of the named source, executable by
    [vm_compute]; names are those of the source where Rocq allows it.

    ** What the definitions share (this file)

    A C or C++ operation either returns or faults ([res]).  [RteExit] and
    [RtePanic] are the ways the sources end the process ([rte_exit]; [rte_panic]
    and the control plane's [pgw_panic]), [CppThrow] a thrown exception,
    [Undefined] an access outside an object, a null pointer, a value never set.
    Machine integers are [Z] kept at their width by [u8] ... [u64]; memory blocks are
    lists of bytes; a pointer into a packet is an offset of its buffer, so that
    pointers alias as in the program.  Objects are conserved up to permutation.

    ** The data plane

    - Dpdk: the services of DPDK the sources call, as the class [Dpdk], what they
      rely on as [DpdkOk], and a concrete instance for the witnesses.
    - Packet: inc/mixi_pgw_data_plane_def.hpp, the classification of packets and
      the checksum.  The checksum is the one of RFC 1071.
    - LookupTpl: inc/lookup_tpl.{hh,hpp}, the double-buffered session table.  It
      refines a finite map; Add and Del are sequences of writes, and broken off
      between any two of them the readers see whole entries.
    - CoreBase: inc/core.hpp and src/core/cores.cc, what all cores share: counters,
      burst buffers, the pipelined loop.  Buffered messages are neither lost nor
      doubled; the pipelined loop is the plain loop.
    - TextParse: the text helpers of the same header; they invert printing.
    - Policer: the token buckets inside both tunnel workers; what conforms is
      bounded by burst and rate.
    - PgwBase: src/core/core_pgw_base_worker.cc, the cycle, the warm-up path and
      the binlog notifications of a PGW worker, against the class [PgwWorker], which
      IngressTunnel, EgressTunnel (core_pgw_{ingress,egress}_tunnel_worker.cc) and
      Distributor (the four distributor classes) implement and prove.
    - TunnelRoundTrip: what the egress worker encapsulates, the ingress worker
      restores.
    - CapsuleWorkers: core_encap_worker.cc, core_gtpu2gre_worker.cc,
      core_greterm_worker.cc, against the class [Worker].
    - RxTx: core_rx.cc, core_rx_distributor.cc, core_tx.cc.
    - Counter, Transfer: the counter workers, and the two workers that log and
      transfer what was counted.
    - Tap: core_taprx.cc and core_taptx.cc, the door to the host stack.
    - App, Arch, AppRun: src/app and src/conf (cores, rings, configuration),
      src/arch (the nodes built from them), the state machine that runs them and
      swaps the configuration.  No ring has two readers or two writers, and
      [Connect] puts a new ring into the places a table names.  The machine of AppRun
      runs the threads with the spin lock of app.hpp and the handlers of the signals
      that interrupt them: the configuration is swapped only while no core works, a
      thread gets stuck only when a signal interrupts the holder of the lock, and a
      reload ends.
    - Binlog: src/binlog, the replication client: the events of the database's log,
      parsed to the notifications PgwBase turns into sessions.

    ** The control plane

    - Gtpc: src/pkt and src/cmn, allocation, headers, building and parsing of
      messages.  Building never leaves the packet, what was built is parsed back, and
      parsing returns for all bytes but those of an item the end of the buffer cuts off.
    - GtpcItems, GtpcParse: the information elements and the state a message is
      parsed into: every item is filed where a table of the types and sizes says.
    - CtrlNode: src/cmn and the receive and transmit events: queues (refining
      FIFOs), the cache of serving gateways, properties.
    - CtrlSession, CtrlAnswers: the version 2 request handlers of src/pgw/event,
      and what they answer; CtrlV1: the version 1 handler.
    - CtrlKeepalive, CtrlRouter: echoes and the timer; router advertisements and
      error indications.
    - CtrlApp: the process: the instance and its settings, servers and nodes, the
      threads and the callback that joins the handlers above.  The process boots, and
      a request is answered on the wire.
    - DbMysql: src/db/mysql_execute.c, how rows reach the handlers; DbSqlite:
      src/db/driver_sqlite3.c and parse_sql.c, the driver of the local tests.  Both are
      compared with the abstract database ([Database]) of CtrlNode that the handlers are
      proved against, within the conditions their theorems name.
    - ProxyRoutes, ProxyEvents: src/proxy.
    - SessionFlow: a Create Session Request, from the control plane's answer over the
      tap core to the worker that then serves the user's packets: the composition of
      the two planes.

    ** Bounds

    Loops are structural where the code's bound is visible.  Where fuel is
    needed it is enough, and a theorem says so: the checksum folds three times (a
    64-bit sum needs no more); [Send] and [pgw_send] make the twelve rounds their
    retry counters allow; [str_split] makes at most 1000 fields, as its callers do; a
    number prints in 10 or 20 digits; a message has at most 255 items in its parse and
    PCO loops as each consumes bytes of a bounded block; [WaitLinkup] looks 301 times;
    the configuration reader loops once per byte at most; the words of a statement are
    fewer than its bytes.  The loops of version 1 messages and of a sqlite statement
    need not end: there [Ok None] says "still running", and theorems state the fuel
    that suffices.

    ** What surrounds the program

    DPDK ([Dpdk], [Eal], [Nic]), the build flags ([Build], [CtrlBuild], [PgwBuild]),
    the database ([Database], [Mysql], the client of DbMysql, [Sqlite] with
    [SqliteOk]), memory allocation ([malloc]), the clock, sockets and the values of
    uninitialised memory ([Boot]) are parameters.  Theorems hold for all their values,
    or name what they need.

    ** Not modelled

    - Threads are modelled where they interact (LookupTpl, AppRun, the queues of
      CtrlNode as atomic steps, the start of the nodes in CtrlApp); event loops are not.
    - core_tapbase.cc and the daemon, pid file and socket options are calls into the
      kernel only; the command lines ([App::Init], pgw.c, cmd_delete_bearer.c) are text
      of the user.
    - inc/queue.h is the BSD macro file; CtrlNode models the lists made with it.
    - src/dataplane/src/accm is a store of counters that only its test uses; src/tools
      holds the programs beside the gateway (authentication servers, simulators).
    - src/dataplane/src/arch/pgw_ingress_distributor_a05536*.cc do not compile. *)

From stdpp Require Export base list numbers option strings gmap fin_maps.
From Stdlib Require Export ZArith Lia.

(** ** Notations of the development *)
Declare Scope pgw_scope.
Delimit Scope pgw_scope with pgw.
Notation "'zlen' l" := (Z.of_nat (length l)) (at level 10, l at level 9) : pgw_scope.
Open Scope pgw_scope.
Open Scope Z_scope.

(** ** Outcomes

    A C++ operation either returns, or ends the process or the call in one of
    the ways the sources use: [rte_exit], [rte_panic], a C++ [throw], or it
    leaves the defined behaviour of the language (an access outside the packet
    buffer, a null dereference, control flowing off a non-void function). *)
Inductive fault :=
| RteExit
| RtePanic
| CppThrow
| Undefined.

Inductive res (A : Type) :=
| Ok (a : A)
| Fault (f : fault).
Arguments Ok {A} a.
Arguments Fault {A} f.

#[export] Instance fault_eq_dec : EqDecision fault.
Proof. solve_decision. Defined.

#[export] Instance res_ret : MRet res := @Ok.
#[export] Instance res_bind : MBind res := fun A B k m =>
  match m with Ok a => k a | Fault f => Fault f end.

(** A guard: continue when [b] holds, leave with [f] otherwise. *)
Definition require (b : bool) (f : fault) : res unit :=
  if b then Ok tt else Fault f.

(** Dereference of a possibly null pointer. *)
Definition deref {A} (o : option A) : res A :=
  match o with Some a => Ok a | None => Fault Undefined end.

(** A fold whose step may fault: a loop over a list that threads a state. *)
Fixpoint foldM {A S} (f : S -> A -> res S) (l : list A) (s : S) : res S :=
  match l with
  | [] => Ok s
  | a :: l' => s' ← f s a; foldM f l' s'
  end.

(** ** Machine words *)
Definition wrap (w z : Z) : Z := z mod 2 ^ w.
Abbreviation u8 := (wrap 8).
Abbreviation u16 := (wrap 16).
Abbreviation u32 := (wrap 32).
Abbreviation u64 := (wrap 64).

(** The signed value of a [w]-bit word. *)
Definition signed (w z : Z) : Z :=
  let v := wrap w z in if v <? 2 ^ (w - 1) then v else v - 2 ^ w.

(** A bit-field of [w] bits at bit [o] of a word. *)
Definition bf_get (o w v : Z) : Z := wrap w (Z.shiftr v o).
Definition bf_set (o w x v : Z) : Z :=
  Z.lor (Z.land v (Z.lnot (Z.shiftl (Z.ones w) o))) (Z.shiftl (wrap w x) o).

(** ** Bytes in memory *)
Definition byte_ok (b : Z) : Prop := 0 <= b < 256.
Abbreviation bytes_ok := (Forall byte_ok).

(** The part of [n] elements at offset [p], and its replacement. *)
Definition slice {A} (p n : Z) (l : list A) : list A :=
  take (Z.to_nat n) (drop (Z.to_nat p) l).
Definition splice {A} (p : Z) (bs l : list A) : list A :=
  take (Z.to_nat p) l ++ bs ++ drop (Z.to_nat p + length bs) l.

(** Little-endian integers, the layout of the x86 hosts the data plane runs on. *)
Fixpoint le_load (bs : list Z) : Z :=
  match bs with
  | [] => 0
  | b :: bs' => b + 256 * le_load bs'
  end.
Fixpoint le_store (n : nat) (v : Z) : list Z :=
  match n with
  | O => []
  | S n' => v mod 256 :: le_store n' (v / 256)
  end.

(** The same bytes read as a big-endian (network order) integer. *)
Definition be_load (bs : list Z) : Z := le_load (reverse bs).

(** [htons]/[ntohs] and [htonl]/[ntohl] of a little-endian host. *)
Definition bswap (n : nat) (v : Z) : Z := le_load (reverse (le_store n v)).
Definition htons : Z -> Z := bswap 2.
Definition ntohs : Z -> Z := bswap 2.
Definition htonl : Z -> Z := bswap 4.
Definition ntohl : Z -> Z := bswap 4.

(** ** Automation *)
Create HintDb pgw.

(** Unfold the outcome monad after a rewrite. *)
Ltac res_simpl :=
  repeat (cbn [mbind res_bind mret res_ret require deref foldM fst snd]; cbv beta iota).

(** Invert an outcome that is known to be [Ok]. *)
Ltac inv_ok H := injection H; clear H; intros; subst.

Ltac case_if :=
  match goal with
  | |- context [if ?b then _ else _] => let E := fresh "E" in destruct b eqn:E
  end.

(** Turn the boolean comparisons of the hypotheses into propositions. *)
Ltac to_prop :=
  repeat match goal with
  | H : (_ && _)%bool = true |- _ => apply andb_prop in H as [? ?]
  | H : (_ && _)%bool = false |- _ => apply andb_false_iff in H
  | H : (_ || _)%bool = true |- _ => apply orb_true_iff in H
  | H : (_ || _)%bool = false |- _ => apply orb_false_elim in H as [? ?]
  | H : negb _ = true |- _ => apply negb_true_iff in H
  | H : negb _ = false |- _ => apply negb_false_iff in H
  | H : (_ <? _) = true |- _ => apply Z.ltb_lt in H
  | H : (_ <? _) = false |- _ => apply Z.ltb_ge in H
  | H : (_ <=? _) = true |- _ => apply Z.leb_le in H
  | H : (_ <=? _) = false |- _ => apply Z.leb_gt in H
  | H : (_ =? _) = true |- _ => apply Z.eqb_eq in H
  | H : (_ =? _) = false |- _ => apply Z.eqb_neq in H
  end.

(** ** Words *)
Lemma wrap_range w z : 0 <= w -> 0 <= wrap w z < 2 ^ w.
Proof. intros. unfold wrap. apply Z.mod_pos_bound, Z.pow_pos_nonneg; lia. Qed.

Lemma wrap_small w z : 0 <= z < 2 ^ w -> wrap w z = z.
Proof. apply Z.mod_small. Qed.

Lemma wrap_le w z : 0 <= w -> 0 <= z -> wrap w z <= z.
Proof. intros. unfold wrap. apply Z.mod_le; [lia|]. apply Z.pow_pos_nonneg; lia. Qed.

Lemma wrap_wrap w z : 0 <= w -> wrap w (wrap w z) = wrap w z.
Proof. intros. apply wrap_small, wrap_range; lia. Qed.

Lemma wrap_add w a b : wrap w (wrap w a + wrap w b) = wrap w (a + b).
Proof. unfold wrap. symmetry. apply Zplus_mod. Qed.

Lemma wrap_add_l w a b : wrap w (wrap w a + b) = wrap w (a + b).
Proof. unfold wrap. apply Zplus_mod_idemp_l. Qed.

Lemma wrap_add_r w a b : wrap w (a + wrap w b) = wrap w (a + b).
Proof. unfold wrap. apply Zplus_mod_idemp_r. Qed.

Lemma wrap_ones w z : 0 <= w -> wrap w z = Z.land z (Z.ones w).
Proof. intros. unfold wrap. by rewrite Z.land_ones. Qed.

Lemma testbit_wrap w z i :
  0 <= w -> 0 <= i -> Z.testbit (wrap w z) i = bool_decide (i < w) && Z.testbit z i.
Proof.
  intros. unfold wrap. case_bool_decide.
  - by rewrite Z.mod_pow2_bits_low.
  - rewrite Z.mod_pow2_bits_high; [done|lia].
Qed.

Lemma testbit_ones w i :
  0 <= w -> 0 <= i -> Z.testbit (Z.ones w) i = bool_decide (i < w).
Proof.
  intros. case_bool_decide.
  - rewrite Z.ones_spec_low; [done|lia].
  - rewrite Z.ones_spec_high; [done|lia].
Qed.

Lemma bf_get_set_same o w x v :
  0 <= o -> 0 <= w -> bf_get o w (bf_set o w x v) = wrap w x.
Proof.
  intros Ho Hw. unfold bf_get, bf_set. apply Z.bits_inj'. intros i Hi.
  rewrite !testbit_wrap, Z.shiftr_spec, Z.lor_spec, Z.land_spec by lia.
  rewrite Z.lnot_spec, !Z.shiftl_spec, testbit_ones, testbit_wrap by lia.
  replace (i + o - o) with i by lia.
  repeat case_bool_decide; try lia; cbn; rewrite ?andb_false_r; done.
Qed.

Lemma bf_get_set_other o w o' w' x v :
  0 <= o -> 0 <= w -> 0 <= o' -> 0 <= w' -> o' + w' <= o \/ o + w <= o' ->
  bf_get o' w' (bf_set o w x v) = bf_get o' w' v.
Proof.
  intros Ho Hw Ho' Hw' Hd. unfold bf_get, bf_set. apply Z.bits_inj'. intros i Hi.
  rewrite !testbit_wrap, !Z.shiftr_spec, Z.lor_spec, Z.land_spec by lia.
  rewrite Z.lnot_spec, !Z.shiftl_spec by lia.
  case_bool_decide; [|done]. cbn.
  destruct (decide (i + o' - o < 0)).
  - rewrite !(Z.testbit_neg_r _ (i + o' - o)) by lia. by rewrite andb_true_r, orb_false_r.
  - rewrite testbit_ones, testbit_wrap by lia.
    rewrite bool_decide_eq_false_2 by lia. cbn.
    by rewrite andb_true_r, orb_false_r.
Qed.

(** ** Slices and splices *)
Section slices.
Context {A : Type}.
Implicit Types (l bs : list A) (p n q m : Z).

Lemma length_slice p n l :
  0 <= p -> 0 <= n -> p + n <= zlen l -> length (slice p n l) = Z.to_nat n.
Proof. intros. unfold slice. rewrite length_take, length_drop. lia. Qed.

Lemma zlen_slice p n l :
  0 <= p -> 0 <= n -> p + n <= zlen l -> zlen (slice p n l) = n.
Proof. intros. rewrite length_slice; lia. Qed.

Lemma length_splice p bs l :
  0 <= p -> p + zlen bs <= zlen l -> length (splice p bs l) = length l.
Proof.
  intros. unfold splice. rewrite !length_app, length_take, length_drop. lia.
Qed.

Lemma slice_0_all l : slice 0 (zlen l) l = l.
Proof. unfold slice. rewrite Nat2Z.id. cbn. by rewrite firstn_all. Qed.

Lemma slice_nil p l : slice p 0 l = [].
Proof. done. Qed.

Lemma slice_app_split p n m l :
  0 <= p -> 0 <= n -> 0 <= m -> slice p (n + m) l = slice p n l ++ slice (p + n) m l.
Proof.
  intros. unfold slice.
  rewrite !Z2Nat.inj_add by lia.
  rewrite <-drop_drop. rewrite <-(take_drop (Z.to_nat n) (drop (Z.to_nat p) l)) at 1.
  rewrite take_app. f_equal.
  - rewrite take_take. f_equal. lia.
  - rewrite length_take, length_drop.
    destruct (decide (Z.to_nat n <= length l - Z.to_nat p)%nat).
    + f_equal. lia.
    + rewrite (drop_ge (drop _ l)) by (rewrite length_drop; lia). by rewrite !take_nil.
Qed.

(** A part cut into consecutive pieces. *)
Fixpoint cuts (p : Z) (ns : list Z) (l : list A) : list A :=
  match ns with
  | [] => []
  | n :: ns' => slice p n l ++ cuts (p + n) ns' l
  end.

Lemma slice_cuts p ns l :
  0 <= p -> Forall (fun n => 0 <= n) ns -> slice p (foldr Z.add 0 ns) l = cuts p ns l.
Proof.
  intros Hp Hns. revert p Hp. induction Hns as [|n ns Hn Hns IH]; intros p Hp; cbn; [done|].
  rewrite slice_app_split; [|lia..|].
  - rewrite IH by lia. done.
  - clear -Hns. induction Hns; cbn; lia.
Qed.

Lemma slice_slice p n q m l :
  0 <= p -> 0 <= q -> 0 <= m -> q + m <= n ->
  slice q m (slice p n l) = slice (p + q) m l.
Proof.
  intros. unfold slice.
  rewrite skipn_firstn_comm, take_take, drop_drop.
  f_equal; [lia|]. f_equal. lia.
Qed.

Lemma slice_splice_same p bs l :
  0 <= p -> p + zlen bs <= zlen l -> slice p (zlen bs) (splice p bs l) = bs.
Proof.
  intros. unfold slice, splice.
  rewrite drop_app_length' by (rewrite length_take; lia).
  rewrite take_app_length'; [done|lia].
Qed.

Lemma slice_splice_eq p n q bs l :
  p = q -> n = zlen bs -> 0 <= p -> p + n <= zlen l -> slice p n (splice q bs l) = bs.
Proof. intros -> -> ??. by apply slice_splice_same. Qed.

Lemma slice_splice_before p n q bs l :
  0 <= p -> 0 <= n -> p + n <= q -> q <= zlen l ->
  slice p n (splice q bs l) = slice p n l.
Proof.
  intros. unfold slice, splice.
  rewrite drop_app_le by (rewrite length_take; lia).
  rewrite take_app_le by (rewrite length_drop, length_take; lia).
  rewrite skipn_firstn_comm, take_take. f_equal. lia.
Qed.

Lemma slice_splice_after p n q bs l :
  0 <= q -> 0 <= p -> q + zlen bs <= p -> q + zlen bs <= zlen l ->
  slice p n (splice q bs l) = slice p n l.
Proof.
  intros. unfold slice, splice.
  rewrite (app_assoc (take _ _)), drop_app_ge
    by (rewrite length_app, length_take; lia).
  rewrite drop_drop, length_app, length_take. f_equal. f_equal. lia.
Qed.

Lemma slice_splice_disj p n q bs l :
  0 <= p -> 0 <= n -> 0 <= q -> p + n <= q \/ q + zlen bs <= p -> q + zlen bs <= zlen l ->
  slice p n (splice q bs l) = slice p n l.
Proof.
  intros ??? [?|?] ?; [apply slice_splice_before|apply slice_splice_after]; lia.
Qed.

Lemma slice_splice_inside p n q bs l :
  0 <= q -> q <= p -> 0 <= n -> p + n <= q + zlen bs -> q + zlen bs <= zlen l ->
  slice p n (splice q bs l) = slice (p - q) n bs.
Proof.
  intros. unfold slice, splice.
  rewrite drop_app_ge by (rewrite length_take; lia).
  rewrite length_take.
  rewrite drop_app_le by lia. rewrite take_app_le by (rewrite length_drop; lia).
  f_equal. f_equal. lia.
Qed.

Lemma splice_slice_id p n l :
  0 <= p -> 0 <= n -> p + n <= zlen l -> splice p (slice p n l) l = l.
Proof.
  intros. unfold splice. rewrite length_slice by lia. unfold slice.
  rewrite <-drop_drop, take_drop. apply take_drop.
Qed.

Lemma slice_app_r p n l1 l2 : zlen l1 <= p -> slice p n (l1 ++ l2) = slice (p - zlen l1) n l2.
Proof. intros. unfold slice. rewrite drop_app_ge by lia. f_equal. f_equal. lia. Qed.

Lemma slice_app_l p n l1 l2 :
  0 <= p -> 0 <= n -> p + n <= zlen l1 -> slice p n (l1 ++ l2) = slice p n l1.
Proof.
  intros. unfold slice. rewrite drop_app_le by lia. rewrite take_app_le; [done|].
  rewrite length_drop. lia.
Qed.

Lemma Forall_slice (P : A -> Prop) p n l : Forall P l -> Forall P (slice p n l).
Proof. intros. unfold slice. by apply Forall_take, Forall_drop. Qed.

Lemma Forall_splice (P : A -> Prop) p bs l :
  Forall P bs -> Forall P l -> Forall P (splice p bs l).
Proof.
  intros. unfold splice. rewrite !Forall_app.
  eauto using Forall_take, Forall_drop.
Qed.
End slices.

(** ** Integers in memory *)
Lemma length_le_store n v : length (le_store n v) = n.
Proof. revert v. induction n; intros; cbn; auto. Qed.

Lemma le_store_ok n v : bytes_ok (le_store n v).
Proof.
  revert v. induction n; intros; cbn; constructor; auto.
  unfold byte_ok. apply Z.mod_pos_bound. lia.
Qed.
#[export] Hint Resolve le_store_ok : pgw.

Lemma le_load_range bs : bytes_ok bs -> 0 <= le_load bs < 256 ^ zlen bs.
Proof.
  induction 1 as [|b bs Hb _ IH]; cbn [le_load length]; [cbn; lia|].
  unfold byte_ok in Hb. rewrite Nat2Z.inj_succ, Z.pow_succ_r by lia. lia.
Qed.

Lemma le_load_store n v : le_load (le_store n v) = v mod 256 ^ Z.of_nat n.
Proof.
  revert v. induction n as [|n IH]; intros v; cbn [le_load le_store].
  - by rewrite Z.mod_1_r.
  - rewrite IH, Nat2Z.inj_succ, Z.pow_succ_r by lia.
    rewrite Z.rem_mul_r by (try apply Z.pow_nonzero; lia). lia.
Qed.

Lemma le_store_load bs : bytes_ok bs -> le_store (length bs) (le_load bs) = bs.
Proof.
  induction 1 as [|b bs Hb _ IH]; cbn [le_load length le_store]; [done|].
  unfold byte_ok in Hb. f_equal.
  - rewrite Z.mul_comm, Z_mod_plus_full. by apply Z.mod_small.
  - rewrite Z.mul_comm, Z.div_add by lia. rewrite Z.div_small by lia. by rewrite Z.add_0_l.
Qed.

Lemma le_load_inj bs bs' :
  bytes_ok bs -> bytes_ok bs' -> length bs = length bs' -> le_load bs = le_load bs' -> bs = bs'.
Proof.
  intros H1 H2 Hl He.
  rewrite <-(le_store_load bs), <-(le_store_load bs') by done. by rewrite He, Hl.
Qed.

Lemma Forall_reverse_iff {A} (P : A -> Prop) (l : list A) :
  Forall P l -> Forall P (reverse l).
Proof. by rewrite Forall_reverse. Qed.

(** [bswap] turns the host value of network-order bytes into their value. *)
Lemma bswap_load n bs :
  bytes_ok bs -> length bs = n -> bswap n (le_load bs) = be_load bs.
Proof. intros Hb <-. unfold bswap. by rewrite le_store_load. Qed.

Lemma bswap_bswap n v : bswap n (bswap n v) = v mod 256 ^ Z.of_nat n.
Proof.
  unfold bswap at 2. rewrite bswap_load.
  - unfold be_load. rewrite reverse_involutive. apply le_load_store.
  - apply Forall_reverse_iff, le_store_ok.
  - by rewrite length_reverse, length_le_store.
Qed.

Lemma bswap_range n v : 0 <= bswap n v < 256 ^ Z.of_nat n.
Proof.
  unfold bswap.
  pose proof (le_load_range (reverse (le_store n v))) as H.
  rewrite length_reverse, length_le_store in H.
  apply H, Forall_reverse_iff, le_store_ok.
Qed.

Lemma ntohl_htonl v : 0 <= v < 2 ^ 32 -> ntohl (htonl v) = v.
Proof. intros. unfold ntohl, htonl. rewrite bswap_bswap. by apply Z.mod_small. Qed.

Lemma ntohs_htons v : 0 <= v < 2 ^ 16 -> ntohs (htons v) = v.
Proof. intros. unfold ntohs, htons. rewrite bswap_bswap. by apply Z.mod_small. Qed.

Lemma be_load_range bs : bytes_ok bs -> 0 <= be_load bs < 256 ^ zlen bs.
Proof.
  intros. unfold be_load. rewrite <-(length_reverse bs).
  by apply le_load_range, Forall_reverse_iff.
Qed.

(** Storing [htons v] (or [htonl v]) puts [v] in network order. *)
Lemma be_load_store_bswap n v :
  be_load (le_store n (bswap n v)) = v mod 256 ^ Z.of_nat n.
Proof.
  rewrite <-(bswap_load n); [|apply le_store_ok|apply length_le_store].
  rewrite le_load_store, (Z.mod_small (bswap n v)) by apply bswap_range.
  apply bswap_bswap.
Qed.

(** The bytes of a concrete buffer are bytes. *)
Definition bytes_okb (l : list Z) : bool := forallb (fun b => (0 <=? b) && (b <? 256)) l.
Lemma bytes_okb_ok l : bytes_okb l = true -> bytes_ok l.
Proof.
  induction l as [|b l IH]; cbn; [constructor|]. rewrite !andb_true_iff, Z.leb_le, Z.ltb_lt.
  intros [? ?]. constructor; [done|]. by apply IH.
Qed.

(** ** Induction on a list two elements at a time *)
Lemma list_pair_ind {A} (P : list A -> Prop) :
  P [] -> (forall a, P [a]) -> (forall a b l, P l -> P (a :: b :: l)) -> forall l, P l.
Proof.
  intros H0 H1 H2. fix IH 1. intros [|a [|b l]]; [done|apply H1|apply H2, IH].
Qed.
