(* ===== verification/Dpdk.v ===== *)
(** * The DPDK services the data plane relies on

    DPDK is not part of the repository.  What the sources use of it is the class
    [Dpdk] (packet-type constants, the three operations that move the bounds of
    a packet inside its buffer, the single-producer/single-consumer rings), and
    what they rely on is the class [DpdkOk], whose fields are the documented
    behaviour of those operations.  Every definition of the development that
    calls DPDK is parameterised by a [Dpdk] instance, every theorem that needs
    its behaviour by a [DpdkOk] instance.  [DpdkModel] is a concrete instance
    used by the witnesses.

    [rte_mbuf] keeps the fields the sources touch.  A pointer into the packet
    is an absolute offset of [buf], so two pointers computed before and after
    the packet start moved alias exactly as they do in the program. *)

From S2P Require Import Prelude.

(** ** Packet buffers *)
Record rte_mbuf := mk_mbuf {
  m_addr : Z;          (* address of the mbuf: its identity *)
  buf : list Z;        (* the data buffer, headroom and tailroom included *)
  data_off : Z;
  data_len : Z;
  pkt_len : Z;
  nb_segs : Z;
  next_ : option Z;
  packet_type : Z;
  udata64 : Z;
}.

#[export] Instance rte_mbuf_eq_dec : EqDecision rte_mbuf.
Proof. solve_decision. Defined.

Definition set_buf (b : list Z) (m : rte_mbuf) : rte_mbuf :=
  mk_mbuf (m_addr m) b (data_off m) (data_len m) (pkt_len m) (nb_segs m) (next_ m)
    (packet_type m) (udata64 m).
Definition set_bounds (off dlen plen : Z) (m : rte_mbuf) : rte_mbuf :=
  mk_mbuf (m_addr m) (buf m) off dlen plen (nb_segs m) (next_ m) (packet_type m) (udata64 m).
Definition set_segs (n : Z) (nx : option Z) (m : rte_mbuf) : rte_mbuf :=
  mk_mbuf (m_addr m) (buf m) (data_off m) (data_len m) (pkt_len m) n nx
    (packet_type m) (udata64 m).
Definition set_packet_type (t : Z) (m : rte_mbuf) : rte_mbuf :=
  mk_mbuf (m_addr m) (buf m) (data_off m) (data_len m) (pkt_len m) (nb_segs m) (next_ m)
    t (udata64 m).
Definition set_udata64 (u : Z) (m : rte_mbuf) : rte_mbuf :=
  mk_mbuf (m_addr m) (buf m) (data_off m) (data_len m) (pkt_len m) (nb_segs m) (next_ m)
    (packet_type m) u.

(** [rte_pktmbuf_mtod] and [rte_pktmbuf_mtod_offset]. *)
Definition mtod (m : rte_mbuf) : Z := data_off m.
Definition mtod_offset (m : rte_mbuf) (o : Z) : Z := data_off m + o.

(** The bytes of the packet. *)
Definition pkt_data (m : rte_mbuf) : list Z := slice (data_off m) (data_len m) (buf m).

(** A packet in one segment whose bounds lie inside its buffer. *)
Record mbuf_wf (m : rte_mbuf) : Prop := {
  wf_off : 0 <= data_off m;
  wf_dlen : 0 <= data_len m;
  wf_in : data_off m + data_len m <= zlen (buf m);
  wf_buf : zlen (buf m) < 2 ^ 16;
  wf_plen : pkt_len m = data_len m;
  wf_bytes : bytes_ok (buf m);
  wf_segs : nb_segs m = 1;
  wf_next : next_ m = None;
}.

Lemma wf_set_udata64 u m : mbuf_wf m -> mbuf_wf (set_udata64 u m).
Proof. intros []. by constructor. Qed.

(** ** Checked loads and stores

    [p] is an absolute offset of the buffer; an access that leaves the buffer is
    undefined behaviour. *)
Definition in_buf (p n : Z) (m : rte_mbuf) : bool :=
  (0 <=? p) && (0 <=? n) && (p + n <=? zlen (buf m)).

Definition ld_bytes (n : Z) (m : rte_mbuf) (p : Z) : res (list Z) :=
  if in_buf p n m then Ok (slice p n (buf m)) else Fault Undefined.
Definition st_bytes (m : rte_mbuf) (p : Z) (bs : list Z) : res rte_mbuf :=
  if in_buf p (zlen bs) m then Ok (set_buf (splice p bs (buf m)) m) else Fault Undefined.
Definition ld (n : nat) (m : rte_mbuf) (p : Z) : res Z :=
  bs ← ld_bytes (Z.of_nat n) m p; Ok (le_load bs).
Definition st (n : nat) (m : rte_mbuf) (p v : Z) : res rte_mbuf :=
  st_bytes m p (le_store n v).

(** ** The interface *)
Class Dpdk := {
  RTE_PTYPE_UNKNOWN : Z;
  RTE_PTYPE_L2_MASK : Z;
  RTE_PTYPE_L2_ETHER : Z;
  RTE_PTYPE_L2_ETHER_VLAN : Z;
  RTE_PTYPE_L3_IPV4 : Z;
  RTE_PTYPE_L3_IPV6 : Z;
  RTE_PTYPE_L4_UDP : Z;
  RTE_PTYPE_TUNNEL_GRE : Z;
  RTE_ETH_IS_IPV4_HDR : Z -> bool;
  RTE_ETH_IS_IPV6_HDR : Z -> bool;
  (* a null result leaves the packet as it was *)
  rte_pktmbuf_prepend : rte_mbuf -> Z -> option Z * rte_mbuf;
  rte_pktmbuf_adj : rte_mbuf -> Z -> option Z * rte_mbuf;
  rte_pktmbuf_trim : rte_mbuf -> Z -> Z * rte_mbuf;
  ring : Type -> Type;
  ring_objs : forall {A}, ring A -> list A;
  rte_ring_free_count : forall {A}, ring A -> Z;
  rte_ring_sp_enqueue : forall {A}, ring A -> A -> Z * ring A;
  rte_ring_sp_enqueue_bulk : forall {A}, ring A -> list A -> Z * ring A;
  rte_ring_sc_dequeue_burst : forall {A}, ring A -> Z -> list A * ring A;
}.

Class DpdkOk (D : Dpdk) := {
  (* the packet-type tests look at the L3 bits, which the L3 constants set *)
  is_ipv4_ipv4 t : RTE_ETH_IS_IPV4_HDR (Z.lor t RTE_PTYPE_L3_IPV4) = true;
  prepend_ok m len : 0 <= len <= data_off m -> 0 <= data_len m -> 0 <= pkt_len m ->
    data_len m + len < 2 ^ 16 -> pkt_len m + len < 2 ^ 32 ->
    rte_pktmbuf_prepend m len =
      (Some (data_off m - len), set_bounds (data_off m - len) (data_len m + len) (pkt_len m + len) m);
  prepend_null m len : data_off m < len -> rte_pktmbuf_prepend m len = (None, m);
  adj_ok m len : 0 <= len <= data_len m -> data_len m <= pkt_len m ->
    rte_pktmbuf_adj m len =
      (Some (data_off m + len), set_bounds (data_off m + len) (data_len m - len) (pkt_len m - len) m);
  adj_null m len : data_len m < len -> rte_pktmbuf_adj m len = (None, m);
  trim_ok m len : nb_segs m = 1 -> 0 <= len <= data_len m -> data_len m <= pkt_len m ->
    rte_pktmbuf_trim m len =
      (0, set_bounds (data_off m) (data_len m - len) (pkt_len m - len) m);
  trim_fail m len : nb_segs m = 1 -> data_len m < len -> rte_pktmbuf_trim m len = (-1, m);
  free_count_nonneg {A} (r : ring A) : 0 <= rte_ring_free_count r;
  enqueue_ok {A} (r : ring A) a : 0 < rte_ring_free_count r ->
    (rte_ring_sp_enqueue r a).1 = 0 /\
    ring_objs (rte_ring_sp_enqueue r a).2 = ring_objs r ++ [a] /\
    rte_ring_free_count (rte_ring_sp_enqueue r a).2 = rte_ring_free_count r - 1;
  enqueue_full {A} (r : ring A) a : rte_ring_free_count r = 0 ->
    (rte_ring_sp_enqueue r a).1 < 0 /\ (rte_ring_sp_enqueue r a).2 = r;
  bulk_ok {A} (r : ring A) l : zlen l <= rte_ring_free_count r ->
    (rte_ring_sp_enqueue_bulk r l).1 = zlen l /\
    ring_objs (rte_ring_sp_enqueue_bulk r l).2 = ring_objs r ++ l /\
    rte_ring_free_count (rte_ring_sp_enqueue_bulk r l).2 = rte_ring_free_count r - zlen l;
  bulk_full {A} (r : ring A) l : rte_ring_free_count r < zlen l ->
    (rte_ring_sp_enqueue_bulk r l).1 = 0 /\ (rte_ring_sp_enqueue_bulk r l).2 = r;
  dequeue_objs {A} (r : ring A) n : 0 <= n ->
    (rte_ring_sc_dequeue_burst r n).1 = take (Z.to_nat n) (ring_objs r) /\
    ring_objs (rte_ring_sc_dequeue_burst r n).2 = drop (Z.to_nat n) (ring_objs r);
}.

(** ** The store the cores share

    Rings are addressed by the pointer the application handed to the cores
    with [SetRingAddr]; [w_freed] records what went back to the memory pool. *)
Record world `{Dpdk} (A : Type) := mk_world {
  w_rings : gmap Z (ring A);
  w_freed : list A;
}.
Arguments mk_world {_ A} _ _.
Arguments w_rings {_ A} _.
Arguments w_freed {_ A} _.

Section world.
Context `{D : Dpdk} {A : Type}.
Implicit Types (w : world A) (p : option Z).

(** The ring a pointer designates; a null or dangling pointer is undefined. *)
Definition w_ring p w : res (ring A) :=
  id ← deref p; deref (w_rings w !! id).

Definition w_set p (r : ring A) w : world A :=
  match p with
  | Some id => mk_world (<[id := r]> (w_rings w)) (w_freed w)
  | None => w
  end.

Definition w_free (l : list A) w : world A := mk_world (w_rings w) (w_freed w ++ l).

Definition w_enqueue p (a : A) w : res (Z * world A) :=
  r ← w_ring p w;
  let er := rte_ring_sp_enqueue r a in Ok (er.1, w_set p er.2 w).

Definition w_enqueue_bulk p (l : list A) w : res (Z * world A) :=
  r ← w_ring p w;
  let er := rte_ring_sp_enqueue_bulk r l in Ok (er.1, w_set p er.2 w).

Definition w_dequeue_burst p (n : Z) w : res (list A * world A) :=
  r ← w_ring p w;
  let dr := rte_ring_sc_dequeue_burst r n in Ok (dr.1, w_set p dr.2 w).

(** What a pointer's ring holds. *)
Definition w_objs p w : list A :=
  match w_ring p w with Ok r => ring_objs r | Fault _ => [] end.
Definition w_valid p w : Prop := exists r, w_ring p w = Ok r.
Definition w_room p w : Z :=
  match w_ring p w with Ok r => rte_ring_free_count r | Fault _ => 0 end.
End world.

(** ** Loads and stores inside the buffer *)
Section mem.
Implicit Types (m : rte_mbuf) (p n v : Z).

Lemma in_buf_true p n m : 0 <= p -> 0 <= n -> p + n <= zlen (buf m) -> in_buf p n m = true.
Proof. intros. unfold in_buf. rewrite !andb_true_iff, !Z.leb_le. lia. Qed.

Lemma ld_bytes_ok n m p :
  0 <= p -> 0 <= n -> p + n <= zlen (buf m) -> ld_bytes n m p = Ok (slice p n (buf m)).
Proof. intros. unfold ld_bytes. by rewrite in_buf_true. Qed.

Lemma st_bytes_ok m p bs :
  0 <= p -> p + zlen bs <= zlen (buf m) -> st_bytes m p bs = Ok (set_buf (splice p bs (buf m)) m).
Proof. intros. unfold st_bytes. rewrite in_buf_true by lia. done. Qed.

Lemma ld_ok (n : nat) m p :
  0 <= p -> p + Z.of_nat n <= zlen (buf m) ->
  ld n m p = Ok (le_load (slice p (Z.of_nat n) (buf m))).
Proof. intros. unfold ld. rewrite ld_bytes_ok by lia. done. Qed.

Lemma st_ok (n : nat) m p v :
  0 <= p -> p + Z.of_nat n <= zlen (buf m) ->
  st n m p v = Ok (set_buf (splice p (le_store n v) (buf m)) m).
Proof. intros. unfold st. rewrite st_bytes_ok; rewrite ?length_le_store; done. Qed.

(** A store changes neither the size of the buffer nor the bounds. *)
Lemma zlen_set_buf_splice p bs m :
  0 <= p -> p + zlen bs <= zlen (buf m) -> zlen (splice p bs (buf m)) = zlen (buf m).
Proof. intros. by rewrite length_splice. Qed.

(** Inversion: a load or a store that succeeds stayed inside the buffer. *)
Lemma in_buf_inv p n m : in_buf p n m = true -> 0 <= p /\ 0 <= n /\ p + n <= zlen (buf m).
Proof. unfold in_buf. rewrite !andb_true_iff, !Z.leb_le. lia. Qed.

Lemma ld_range (n : nat) m p v :
  bytes_ok (buf m) -> ld n m p = Ok v -> 0 <= v < 256 ^ Z.of_nat n.
Proof.
  intros Hb. unfold ld, ld_bytes. destruct (in_buf _ _ _) eqn:E; res_simpl; [|done].
  apply in_buf_inv in E. intros [= <-].
  pose proof (le_load_range (slice p (Z.of_nat n) (buf m)) (Forall_slice _ _ _ _ Hb)) as H.
  rewrite zlen_slice in H by lia. done.
Qed.

Lemma ld_packet_data k n m :
  0 <= data_off m -> 0 <= k -> 0 <= n -> k + n <= data_len m ->
  slice (data_off m + k) n (buf m) = slice k n (pkt_data m).
Proof. intros. unfold pkt_data. by rewrite slice_slice by lia. Qed.
End mem.

(** ** Rings *)
Section ring_laws.
Context `{DpdkOk} {A : Type}.
Implicit Types (w : world A) (p q : option Z) (l : list A).

(** Only the ring of [p] may differ. *)
Definition w_frame p w w' : Prop :=
  w_freed w' = w_freed w /\ forall q, q <> p -> w_ring q w' = w_ring q w.

Lemma w_frame_objs p w w' q : w_frame p w w' -> q <> p -> w_objs q w' = w_objs q w.
Proof. intros [_ Hf] Hq. unfold w_objs. by rewrite Hf. Qed.

Lemma w_ring_set p r w : w_valid p w -> w_ring p (w_set p r w) = Ok r.
Proof.
  intros [r0 Hr]. destruct p as [id|]; [|done]. unfold w_ring, w_set. cbn.
  by rewrite lookup_insert_eq.
Qed.

Lemma w_set_frame p r w : w_frame p w (w_set p r w).
Proof.
  split; [by destruct p|]. intros q Hq. destruct p as [id|]; [|done].
  destruct q as [id'|]; [|done]. unfold w_ring, w_set. cbn.
  rewrite lookup_insert_ne; [done|congruence].
Qed.

Lemma w_objs_ring p r w : w_ring p w = Ok r -> w_objs p w = ring_objs r.
Proof. unfold w_objs. by intros ->. Qed.

Lemma w_ring_free l p w : w_ring p (w_free l w) = w_ring p w.
Proof. done. Qed.

Lemma w_objs_free l p w : w_objs p (w_free l w) = w_objs p w.
Proof. done. Qed.

(** Bulk enqueue: everything or nothing. *)
Lemma w_enqueue_bulk_spec p l w :
  w_valid p w ->
  exists ret w', w_enqueue_bulk p l w = Ok (ret, w') /\ w_frame p w w' /\ w_valid p w' /\
    ((ret = zlen l /\ w_objs p w' = w_objs p w ++ l /\ zlen l <= w_room p w) \/
     (ret = 0 /\ w_objs p w' = w_objs p w /\ w_room p w < zlen l)).
Proof.
  intros Hv. pose proof Hv as [r Hr]. unfold w_enqueue_bulk. rewrite Hr. res_simpl.
  eexists _, _. split; [done|].
  split; [apply w_set_frame|].
  split; [eexists; by apply w_ring_set|].
  rewrite (w_objs_ring p _ _ (w_ring_set p _ _ Hv)), (w_objs_ring _ _ _ Hr).
  unfold w_room. rewrite Hr.
  destruct (decide (zlen l <= rte_ring_free_count r)) as [Hf|Hf].
  - left. destruct (bulk_ok r l Hf) as (? & ? & ?). done.
  - right. destruct (bulk_full r l) as (? & E); [lia|]. rewrite E. repeat split; [done|lia].
Qed.

Lemma w_enqueue_spec p a w :
  w_valid p w ->
  exists ret w', w_enqueue p a w = Ok (ret, w') /\ w_frame p w w' /\ w_valid p w' /\
    ((ret = 0 /\ w_objs p w' = w_objs p w ++ [a] /\ 0 < w_room p w) \/
     (ret < 0 /\ w_objs p w' = w_objs p w /\ w_room p w = 0)).
Proof.
  intros Hv. pose proof Hv as [r Hr]. unfold w_enqueue. rewrite Hr. res_simpl.
  eexists _, _. split; [done|].
  split; [apply w_set_frame|].
  split; [eexists; by apply w_ring_set|].
  rewrite (w_objs_ring p _ _ (w_ring_set p _ _ Hv)), (w_objs_ring _ _ _ Hr).
  unfold w_room. rewrite Hr. pose proof (free_count_nonneg r).
  destruct (decide (rte_ring_free_count r = 0)) as [Hf|Hf].
  - right. destruct (enqueue_full r a Hf) as (? & E). by rewrite E.
  - left. destruct (enqueue_ok r a) as (? & ? & ?); [lia|]. repeat split; [done..|lia].
Qed.

Lemma w_dequeue_spec p n w :
  0 <= n -> w_valid p w ->
  exists w', w_dequeue_burst p n w = Ok (take (Z.to_nat n) (w_objs p w), w') /\
    w_frame p w w' /\ w_valid p w' /\ w_objs p w' = drop (Z.to_nat n) (w_objs p w).
Proof.
  intros Hn Hv. pose proof Hv as [r Hr]. unfold w_dequeue_burst. rewrite Hr. res_simpl.
  rewrite (w_objs_ring _ _ _ Hr). destruct (dequeue_objs r n Hn) as [E1 E2]. rewrite E1.
  eexists. split; [done|]. split; [apply w_set_frame|].
  split; [eexists; by apply w_ring_set|].
  by rewrite (w_objs_ring p _ _ (w_ring_set p _ _ Hv)).
Qed.
End ring_laws.

(** ** A concrete instance

    The operations of DPDK written out for single-segment packets, and a ring as
    a bounded queue. *)
Module DpdkModel.
Definition prepend (m : rte_mbuf) (len : Z) : option Z * rte_mbuf :=
  if data_off m <? len then (None, m)
  else (Some (data_off m - len),
        set_bounds (data_off m - len) (u16 (data_len m + len)) (u32 (pkt_len m + len)) m).

Definition adj (m : rte_mbuf) (len : Z) : option Z * rte_mbuf :=
  if data_len m <? len then (None, m)
  else (Some (data_off m + len),
        set_bounds (data_off m + len) (data_len m - len) (pkt_len m - len) m).

Definition trim (m : rte_mbuf) (len : Z) : Z * rte_mbuf :=
  if data_len m <? len then (-1, m)
  else (0, set_bounds (data_off m) (data_len m - len) (pkt_len m - len) m).

(** Number of slots and contents. *)
Definition queue (A : Type) : Type := nat * list A.
Definition room {A} (r : queue A) : Z := Z.of_nat (r.1 - length r.2).

#[export] Instance dpdk : Dpdk := {|
  RTE_PTYPE_UNKNOWN := 0;
  RTE_PTYPE_L2_MASK := 15;
  RTE_PTYPE_L2_ETHER := 1;
  RTE_PTYPE_L2_ETHER_VLAN := 6;
  RTE_PTYPE_L3_IPV4 := 16;
  RTE_PTYPE_L3_IPV6 := 64;
  RTE_PTYPE_L4_UDP := 512;
  RTE_PTYPE_TUNNEL_GRE := 0x2000;
  RTE_ETH_IS_IPV4_HDR t := negb (Z.land t 16 =? 0);
  RTE_ETH_IS_IPV6_HDR t := negb (Z.land t 64 =? 0);
  rte_pktmbuf_prepend := prepend;
  rte_pktmbuf_adj := adj;
  rte_pktmbuf_trim := trim;
  ring := queue;
  ring_objs A r := r.2;
  rte_ring_free_count A r := room r;
  rte_ring_sp_enqueue A r a :=
    if room r =? 0 then (-105, r) else (0, (r.1, r.2 ++ [a]));
  rte_ring_sp_enqueue_bulk A r l :=
    if room r <? zlen l then (0, r) else (zlen l, (r.1, r.2 ++ l));
  rte_ring_sc_dequeue_burst A r n :=
    (take (Z.to_nat n) r.2, (r.1, drop (Z.to_nat n) r.2));
|}.

Lemma room_app {A} (r : queue A) l :
  zlen l <= room r -> room (r.1, r.2 ++ l) = room r - zlen l.
Proof. unfold room. cbn. rewrite length_app. lia. Qed.

Lemma lor_16_test t : (Z.land (Z.lor t 16) 16 =? 0) = false.
Proof.
  apply Z.eqb_neq. intros E. apply (f_equal (fun z => Z.testbit z 4)) in E.
  rewrite Z.land_spec, Z.lor_spec in E. cbn in E. by rewrite orb_true_r in E.
Qed.

#[export] Instance dpdk_ok : DpdkOk dpdk.
Proof.
  constructor; cbn; intros.
  - by rewrite lor_16_test.
  - unfold prepend. rewrite (proj2 (Z.ltb_ge _ _)) by lia. by rewrite !wrap_small by lia.
  - unfold prepend. by rewrite (proj2 (Z.ltb_lt _ _)).
  - unfold adj. by rewrite (proj2 (Z.ltb_ge _ _)) by lia.
  - unfold adj. by rewrite (proj2 (Z.ltb_lt _ _)).
  - unfold trim. by rewrite (proj2 (Z.ltb_ge _ _)) by lia.
  - unfold trim. by rewrite (proj2 (Z.ltb_lt _ _)).
  - unfold room. lia.
  - rewrite (proj2 (Z.eqb_neq _ _)) by lia. cbn. split; [done|]. split; [done|].
    rewrite (room_app r [a]); cbn; lia.
  - rewrite (proj2 (Z.eqb_eq _ _)) by lia. cbn. done.
  - rewrite (proj2 (Z.ltb_ge _ _)) by lia. cbn. split; [done|]. split; [done|].
    by apply room_app.
  - rewrite (proj2 (Z.ltb_lt _ _)) by lia. cbn. done.
  - done.
Qed.
End DpdkModel.
