(* ===== verification/Packet.v ===== *)
(** * Packet layouts and packet classification

    The constants, header layouts and inline functions of
    dataplane/inc/mixi_pgw_data_plane_def.hpp that look at a packet:
    [get_vlan_offset], [is_arp_or_innericmp], [is_pdu], [is_user],
    [check_decapability], [is_ipv], [is_udp], [is_gtpu], [is_gtpc],
    [error_indicate], and the Internet checksum [_checksum]/[_wrapsum].

    Headers are read and written at their byte offsets; multi-byte fields are
    the little-endian host integers the C++ code compares with [htons]/[htonl]
    constants. *)

From S2P Require Import Prelude Dpdk.

(** ** Build configuration: the preprocessor symbols the data plane tests *)
Class Build := {
  ARCH : Z;
  TEST_MODE : bool;              (* __TEST_MODE__ *)
  CANNOT_USE_GRE : bool;         (* __CANNOT_USE_GRE__ *)
  COUNTER_RX : bool;
  TUNNEL_RX : bool;
  NON_SUPPORTED_ERRIND : bool;
}.

(** ** Constants *)
Definition DEFAULT_MBUF_ARRAY_SIZE := 512.
Definition DEFAULT_MBUF_OUT_SIZE := 16.
Definition PREFETCH_OFFSET := 3.
Definition GTPU_VERSION_1 := 1.
Definition GTPU_PROTO_GTP := 1.
Definition GTPU_ERROR_INDICATION := 26.
Definition GTPU_TEIDI_TYPE := 16.
Definition GTPU_PEER_ADDRESS := 133.
Definition GTPU_G_PDU := 255.
Definition GTPU_PORT := 2152.
Definition GTPU_ECHO_REQ := 1.
Definition GTPU_ECHO_RES := 2.
Definition GTPC_PORT := 2123.
Definition GTPC_VERSION_2 := 2.
Definition GTPC_PIGGY_OFF := 0.
Definition SIXRD_ENCAPPER_ADDR := 0x0a0a0a0a.
Definition PGWEGRESSPORT := 50999.
Definition COUNT_TEIDGROUP_PER_CORE := 65536.

Definition PGWID (c : Z) := Z.shiftr (Z.land c 0x00f00000) 20.
Definition GROUPID (c : Z) := Z.shiftr (Z.land c 0x000f0000) 16.
Definition GROUPVAL (c : Z) := Z.land c 0x0000ffff.

Definition POLICER_COLOR_GREEN := 0.
Definition POLICER_COLOR_YELLOW := 1.
Definition POLICER_COLOR_RED := 2.
Definition POLICER_MODE_LTE := 0.
Definition POLICER_MODE_3G := 1.
Definition POLICER_MODE_LOW := 2.

Definition MBFU_FLAG_DC := 0.
Definition MBFU_FLAG_PDU := 1.

(** Ethernet types and IP protocol numbers (system headers). *)
Definition ETHER_TYPE_IPv4 := 0x0800.
Definition ETHER_TYPE_IPv6 := 0x86dd.
Definition ETHER_TYPE_ARP := 0x0806.
Definition ETHER_TYPE_VLAN := 0x8100.
Definition ETHER_MAX_LEN := 1518.
Definition IPPROTO_ICMP := 1.
Definition IPPROTO_TCP := 6.
Definition IPPROTO_UDP := 17.
Definition IPPROTO_IPV6 := 41.
Definition IPPROTO_GRE := 47.
Definition IPPROTO_ICMPV6 := 58.
Definition IPPROTO_OSPFIGP := 89.

(** ** Header sizes and field offsets *)
Definition sizeof_ether_hdr := 14.
Definition sizeof_vlan_hdr := 4.
Definition sizeof_ipv4_hdr := 20.
Definition sizeof_ipv6_hdr := 40.
Definition sizeof_udp_hdr := 8.
Definition sizeof_gtpu_hdr := 8.
Definition sizeof_gtpu_err_indication := 12.

Definition o_d_addr := 0.
Definition o_s_addr := 6.
Definition o_ether_type := 12.
Definition o_version_ihl := 0.
Definition o_total_length := 2.
Definition o_time_to_live := 8.
Definition o_next_proto_id := 9.
Definition o_hdr_checksum := 10.
Definition o_src_addr := 12.
Definition o_dst_addr := 16.
Definition o_ip6_proto := 6.
Definition o_ip6_hop_limits := 7.
Definition o_ip6_src_addr := 8.
Definition o_ip6_dst_addr := 24.
Definition o_src_port := 0.
Definition o_dst_port := 2.
Definition o_dgram_len := 4.
Definition o_dgram_cksum := 6.
Definition o_gtpu_type := 1.
Definition o_gtpu_length := 2.
Definition o_gtpu_tid := 4.

(** ** [mbuf_userdat]: the user word of a packet, a packed bit-field *)
Definition udat_flag (u : Z) := bf_get 0 8 u.
Definition udat_size (u : Z) := bf_get 8 12 u.
Definition udat_color (u : Z) := bf_get 20 2 u.
Definition udat_mode (u : Z) := bf_get 22 2 u.
Definition udat_teid (u : Z) := bf_get 32 32 u.
Definition set_flag (v u : Z) := bf_set 0 8 v u.
Definition set_size (v u : Z) := bf_set 8 12 v u.
Definition set_color (v u : Z) := bf_set 20 2 v u.
Definition set_mode (v u : Z) := bf_set 22 2 v u.
Definition set_teid (v u : Z) := bf_set 32 32 v u.

(** ** Enumerations *)
Inductive TYPE :=
| RX | TX | WORKER | WORKER_TRANSFER | COUNTER | PGW_INGRESS | PGW_EGRESS | TAPRX | TAPTX.

Inductive ORDER :=
| FROM | FROM_00 | FROM_01 | TO | TO_00 | TO_01 | EXTEND.

Inductive KEY :=
| CNT_RX | CNT_TX | CNT_WORKER | BURST_FROM | BURST_TO | OPT | LCORE | PORT | QUEUE
| CNT_PGW_INGRESS | CNT_PGW_EGRESS | FLUSH_DELAY | SOCKET
| POLICER_CIR | POLICER_CBS | POLICER_EIR | POLICER_EBS | RESERVED.

Inductive PACKET_TYPE :=
| NOTIP | PASS | ENCAP | DECAP | ARP | VLAN | MAX.

#[export] Instance TYPE_eq_dec : EqDecision TYPE.
Proof. solve_decision. Defined.
#[export] Instance ORDER_eq_dec : EqDecision ORDER.
Proof. solve_decision. Defined.
#[export] Instance KEY_eq_dec : EqDecision KEY.
Proof. solve_decision. Defined.
#[export] Instance PACKET_TYPE_eq_dec : EqDecision PACKET_TYPE.
Proof. solve_decision. Defined.

(** ** Classification *)

(** The offset of the payload behind up to two VLAN tags, and its protocol. *)
Definition get_vlan_offset (m : rte_mbuf) (eth proto : Z) : res (Z * Z) :=
  if proto =? htons ETHER_TYPE_VLAN then
    let vlan_hdr := eth + sizeof_ether_hdr in
    proto1 ← ld 2 m (vlan_hdr + 2);
    if proto1 =? htons ETHER_TYPE_VLAN then
      proto2 ← ld 2 m (vlan_hdr + sizeof_vlan_hdr + 2);
      Ok (sizeof_vlan_hdr + sizeof_vlan_hdr, proto2)
    else Ok (sizeof_vlan_hdr, proto1)
  else Ok (0, proto).

Section classify.
Context `{D : Dpdk} `{B : Build}.

(** The IPv4 part of [is_arp_or_innericmp]: [ip4] points at the header. *)
Definition inner_ipv4_type (m : rte_mbuf) (ip4 : Z) : res PACKET_TYPE :=
  proto ← ld 1 m (ip4 + o_next_proto_id);
  if proto =? IPPROTO_TCP then
    vihl ← ld 1 m (ip4 + o_version_ihl);
    let tcp := ip4 + Z.shiftl (Z.land vihl 0x0f) 2 in
    dport ← ld 2 m (tcp + o_dst_port);
    bgp ← (if htons dport =? 179 then Ok true
           else sport ← ld 2 m (tcp + o_src_port); Ok (htons sport =? 179));
    if bgp : bool then
      dst ← ld 4 m (ip4 + o_dst_addr);
      if negb (Z.land dst 0xff =? 0x0a) then Ok PASS else Ok ENCAP
    else Ok ENCAP
  else if proto =? IPPROTO_UDP then
    vihl ← ld 1 m (ip4 + o_version_ihl);
    let udp := ip4 + Z.shiftl (Z.land vihl 0x0f) 2 in
    dport ← ld 2 m (udp + o_dst_port);
    if htons dport =? 3784 then
      ttl ← ld 1 m (ip4 + o_time_to_live);
      if ttl =? 255 then Ok PASS else Ok ENCAP
    else Ok ENCAP
  else if proto =? IPPROTO_OSPFIGP then Ok PASS
  else if proto =? IPPROTO_ICMP then
    dst ← ld 4 m (ip4 + o_dst_addr);
    if negb (Z.land dst 0xff =? 0x0a) then Ok PASS else Ok ENCAP
  else Ok ENCAP.

Definition is_arp_or_innericmp (m : rte_mbuf) : res PACKET_TYPE :=
  let eth := mtod m in
  let l2 := Z.land RTE_PTYPE_L2_MASK (packet_type m) in
  if negb (l2 =? RTE_PTYPE_L2_ETHER) && (l2 =? RTE_PTYPE_L2_ETHER_VLAN) then Ok VLAN
  else if negb (l2 =? RTE_PTYPE_L2_ETHER) && negb (l2 =? RTE_PTYPE_UNKNOWN) then Ok PASS
  else
    eth_type ← ld 2 m (eth + o_ether_type);
    let ip := eth + sizeof_ether_hdr in
    if eth_type =? htons ETHER_TYPE_IPv4 then inner_ipv4_type m ip
    else if eth_type =? htons ETHER_TYPE_IPv6 then
      proto ← ld 1 m (ip + o_ip6_proto);
      if proto =? IPPROTO_ICMPV6 then
        hop ← ld 1 m (ip + o_ip6_hop_limits);
        if hop =? 0xff then Ok PASS else Ok ENCAP
      else Ok ENCAP
    else if eth_type =? htons ETHER_TYPE_ARP then Ok PASS
    else if eth_type =? htons ETHER_TYPE_VLAN then Ok VLAN
    else Ok PASS.

(** A G-PDU from the S1-U side: IPv4/UDP to the GTP-U port, type 255. *)
Definition is_pdu (m : rte_mbuf) : res PACKET_TYPE :=
  let eth := mtod m in
  ether_type ← ld 2 m (eth + o_ether_type);
  if ether_type =? htons ETHER_TYPE_IPv4 then
    let ip4 := eth + sizeof_ether_hdr in
    proto ← ld 1 m (ip4 + o_next_proto_id);
    if proto =? IPPROTO_UDP then
      let udp := ip4 + sizeof_ipv4_hdr in
      dst_port ← ld 2 m (udp + o_dst_port);
      if dst_port =? htons GTPU_PORT then
        let gtpu := udp + sizeof_udp_hdr in
        type ← ld 1 m (gtpu + o_gtpu_type);
        if type =? GTPU_G_PDU then Ok DECAP else Ok PASS
      else Ok PASS
    else Ok PASS
  else Ok PASS.

(** A packet for a user equipment: IPv4 to 10.0.0.0/8. *)
Definition is_user (m : rte_mbuf) : res PACKET_TYPE :=
  let eth := mtod m in
  ether_type ← ld 2 m (eth + o_ether_type);
  if ether_type =? htons ETHER_TYPE_IPv4 then
    let ip4 := eth + sizeof_ether_hdr in
    dst ← ld 4 m (ip4 + o_dst_addr);
    if Z.land dst 0xff =? 0x0a then Ok ENCAP else Ok PASS
  else Ok PASS.

(** Without [__CANNOT_USE_GRE__] the UDP branch has an empty body and control
    reaches the end of the non-void function. *)
Definition check_decapability (m : rte_mbuf) : res PACKET_TYPE :=
  let eth := mtod m in
  let l2 := Z.land RTE_PTYPE_L2_MASK (packet_type m) in
  if negb (l2 =? RTE_PTYPE_L2_ETHER) && (l2 =? RTE_PTYPE_L2_ETHER_VLAN) then Ok VLAN
  else if negb (l2 =? RTE_PTYPE_L2_ETHER) && negb (l2 =? RTE_PTYPE_UNKNOWN) then Ok PASS
  else
    eth_type ← ld 2 m (eth + o_ether_type);
    if eth_type =? htons ETHER_TYPE_IPv4 then
      let ip4 := eth + sizeof_ether_hdr in
      proto ← ld 1 m (ip4 + o_next_proto_id);
      if proto =? IPPROTO_UDP then
        if CANNOT_USE_GRE then
          vihl ← ld 1 m (ip4 + o_version_ihl);
          let udp := ip4 + Z.shiftl (Z.land vihl 0x0f) 2 in
          dst_port ← ld 2 m (udp + o_dst_port);
          if htons dst_port =? 2152 then Ok DECAP else Ok PASS
        else Fault Undefined
      else if negb CANNOT_USE_GRE && (proto =? IPPROTO_GRE) then Ok DECAP
      else Ok PASS
    else if eth_type =? htons ETHER_TYPE_IPv6 then Ok PASS
    else if eth_type =? htons ETHER_TYPE_ARP then Ok PASS
    else if eth_type =? htons ETHER_TYPE_VLAN then Ok VLAN
    else Ok PASS.

(** Destination address; for IPv6 the source compares instead of copying, so
    the result is the initial 0. *)
Definition is_ipv (bf : rte_mbuf) : res Z :=
  if RTE_ETH_IS_IPV4_HDR (packet_type bf) then
    ld 4 bf (mtod_offset bf sizeof_ether_hdr + o_dst_addr)
  else if RTE_ETH_IS_IPV6_HDR (packet_type bf) then
    let tmp := 0 in
    _ ← ld_bytes 4 bf (mtod_offset bf sizeof_ether_hdr + o_ip6_dst_addr + 8);
    Ok tmp
  else Ok 0.

Definition is_udp (bf : rte_mbuf) : res Z :=
  if RTE_ETH_IS_IPV4_HDR (packet_type bf) then
    proto ← ld 1 bf (mtod_offset bf sizeof_ether_hdr + o_next_proto_id);
    if proto =? IPPROTO_UDP then
      ld 2 bf (mtod_offset bf (sizeof_ether_hdr + sizeof_ipv4_hdr) + o_dst_port)
    else Ok 0
  else Ok 0.

Definition is_gtpu (bf : rte_mbuf) : res Z :=
  if RTE_ETH_IS_IPV4_HDR (packet_type bf) then
    proto ← ld 1 bf (mtod_offset bf sizeof_ether_hdr + o_next_proto_id);
    if proto =? IPPROTO_UDP then
      dst_port ← ld 2 bf (mtod_offset bf (sizeof_ether_hdr + sizeof_ipv4_hdr) + o_dst_port);
      if dst_port =? htons GTPU_PORT then
        let gtpu := mtod_offset bf (sizeof_ether_hdr + sizeof_ipv4_hdr + sizeof_udp_hdr) in
        type ← ld 1 bf (gtpu + o_gtpu_type);
        if (type =? GTPU_ECHO_REQ) || (type =? GTPU_ECHO_RES) then Ok 0
        else ld 4 bf (gtpu + o_gtpu_tid)
      else Ok 0
    else Ok 0
  else Ok 0.

Definition is_gtpc (bf : rte_mbuf) : res Z :=
  if RTE_ETH_IS_IPV4_HDR (packet_type bf) then
    proto ← ld 1 bf (mtod_offset bf sizeof_ether_hdr + o_next_proto_id);
    if proto =? IPPROTO_UDP then
      dst_port ← ld 2 bf (mtod_offset bf (sizeof_ether_hdr + sizeof_ipv4_hdr) + o_dst_port);
      if dst_port =? htons GTPC_PORT then
        let gtpc := mtod_offset bf (sizeof_ether_hdr + sizeof_ipv4_hdr + sizeof_udp_hdr) in
        length ← ld 2 bf (gtpc + 2);
        if (ntohs length <? 0) || (ETHER_MAX_LEN <? ntohs length) then Ok 0
        else
          flags ← ld 1 bf gtpc;
          let version := bf_get 5 3 flags in
          let piggy := bf_get 4 1 flags in
          if negb (version =? GTPC_VERSION_2) || negb (piggy =? GTPC_PIGGY_OFF) then Ok 0
          else ld 1 bf (gtpc + 1)
      else Ok 0
    else Ok 0
  else Ok 0.

(** Turn a received G-PDU into a GTP-U Error Indication, in place. *)
Definition error_indicate (bf : rte_mbuf) : res rte_mbuf :=
  let eh := mtod_offset bf 0 in
  let ip := mtod_offset bf sizeof_ether_hdr in
  let udp := mtod_offset bf (sizeof_ether_hdr + sizeof_ipv4_hdr) in
  let gtph := mtod_offset bf (sizeof_ether_hdr + sizeof_ipv4_hdr + sizeof_udp_hdr) in
  let errind_len := sizeof_ether_hdr + sizeof_ipv4_hdr + sizeof_udp_hdr + sizeof_gtpu_hdr
                    + sizeof_gtpu_err_indication in
  let prev_len := pkt_len bf in
  let '(rc, bf) := rte_pktmbuf_trim bf (u16 (u64 (prev_len - errind_len))) in
  if rc <? 0 then Fault RtePanic
  else
    let bf := set_segs 1 None bf in
    let bf := set_bounds (data_off bf) (u16 errind_len) (u16 errind_len) bf in
    (* swap mac *)
    t_macaddr ← ld_bytes 6 bf (eh + o_d_addr);
    s_macaddr ← ld_bytes 6 bf (eh + o_s_addr);
    bf ← st_bytes bf (eh + o_d_addr) s_macaddr;
    bf ← st_bytes bf (eh + o_s_addr) t_macaddr;
    (* swap ip *)
    t_ipaddr ← ld 4 bf (ip + o_dst_addr);
    s_ipaddr ← ld 4 bf (ip + o_src_addr);
    bf ← st 4 bf (ip + o_dst_addr) s_ipaddr;
    bf ← st 4 bf (ip + o_src_addr) t_ipaddr;
    bf ← st 2 bf (ip + o_total_length) (htons (errind_len - sizeof_ether_hdr));
    bf ← st 2 bf (ip + o_hdr_checksum) 0;
    (* swap udp port *)
    d_port ← ld 2 bf (udp + o_dst_port);
    bf ← st 2 bf (udp + o_dst_port) d_port;
    d_port ← ld 2 bf (udp + o_dst_port);
    bf ← st 2 bf (udp + o_src_port) d_port;
    bf ← st 2 bf (udp + o_dgram_len) (htons (errind_len - sizeof_ether_hdr - sizeof_ipv4_hdr));
    bf ← st 2 bf (udp + o_dgram_cksum) 0;
    (* error indicate set parameters *)
    let eind := mtod_offset bf (errind_len - sizeof_gtpu_err_indication) in
    bf ← st 1 bf eind GTPU_TEIDI_TYPE;
    tid ← ld 4 bf (gtph + o_gtpu_tid);
    bf ← st 4 bf (eind + 1) tid;
    bf ← st 1 bf (eind + 5) GTPU_PEER_ADDRESS;
    bf ← st 2 bf (eind + 6) (htons 4);
    bf ← st 4 bf (eind + 8) t_ipaddr;
    (* error indicator *)
    bf ← st 1 bf (gtph + o_gtpu_type) GTPU_ERROR_INDICATION;
    bf ← st 4 bf (gtph + o_gtpu_tid) 0;
    st 2 bf (gtph + o_gtpu_length) (htons sizeof_gtpu_err_indication).
End classify.

(** ** The Internet checksum

    [data] are the bytes from the pointer to the end of the object it points
    into.  With an odd length the last step reads a whole 16-bit word. *)
Fixpoint checksum_words (addr : list Z) (count sum : Z) : res Z :=
  match addr with
  | b0 :: b1 :: addr' =>
      if 1 <? count then
        checksum_words addr' (count - 2) (u32 (sum + ntohs (le_load [b0; b1])))
      else if 0 <? count then Ok (u32 (sum + ntohs (le_load [b0; b1])))
      else Ok sum
  | _ => if 0 <? count then Fault Undefined else Ok sum
  end.

(** [while (_sum>>16) _sum = (_sum & 0xffff) + (_sum >> 16)]. *)
Fixpoint checksum_fold (fuel : nat) (sum : Z) : Z :=
  match fuel with
  | O => sum
  | S fuel' =>
      if Z.shiftr sum 16 =? 0 then sum
      else checksum_fold fuel' (u32 (Z.land sum 0xffff + Z.shiftr sum 16))
  end.

Definition _checksum (data : list Z) (len sum : Z) : res Z :=
  s ← checksum_words data len sum;
  Ok (u32 (Z.lnot (checksum_fold 3 s))).

Definition _wrapsum (sum : Z) : Z := htons (Z.land sum 0xffff).

(** ** The checksum agrees with RFC 1071

    The reference adds 16-bit network-order words with the carry added back at
    every step; the code adds in 32 bits and folds the carries at the end. *)
Fixpoint be_words (bs : list Z) : list Z :=
  match bs with
  | b0 :: b1 :: bs' => be_load [b0; b1] :: be_words bs'
  | _ => []
  end.
Definition oc_add (a b : Z) : Z := if 65536 <=? a + b then a + b - 65535 else a + b.
Definition oc_sum (ws : list Z) : Z := foldl oc_add 0 ws.
Definition rfc1071 (bs : list Z) : Z := 0xffff - oc_sum (be_words bs).

Abbreviation sum_list := (foldr Z.add 0).

(** [r] represents [s] modulo 65535, and is 0 only for 0. *)
Definition oc_repr (r s : Z) : Prop :=
  0 <= r < 65536 /\ r mod 65535 = s mod 65535 /\ (r = 0 <-> s = 0).

Lemma oc_repr_unique r r' s : oc_repr r s -> oc_repr r' s -> r = r'.
Proof.
  intros (H1 & E1 & Z1) (H2 & E2 & Z2).
  pose proof (Z.div_mod r 65535). pose proof (Z.div_mod r' 65535). nia.
Qed.

Lemma oc_repr_shift r s k : 0 < r -> 0 < s -> 0 <= r < 65536 -> s = r + 65535 * k -> oc_repr r s.
Proof.
  intros. split_and!; [lia..| |lia]. subst. rewrite Z.mul_comm. by rewrite Z_mod_plus_full.
Qed.

Lemma oc_add_repr r s w :
  oc_repr r s -> 0 <= s -> 0 <= w < 65536 -> oc_repr (oc_add r w) (s + w).
Proof.
  intros (Hr & Em & Hz) Hs Hw. unfold oc_add.
  assert (E : exists k, s = r + 65535 * k).
  { exists (s / 65535 - r / 65535).
    pose proof (Z.div_mod s 65535). pose proof (Z.div_mod r 65535). lia. }
  destruct E as [k ->]. case_if; to_prop.
  - apply (oc_repr_shift _ _ (k + 1)); lia.
  - split_and!; [lia..| |lia].
    replace (r + 65535 * k + w) with (r + w + k * 65535) by lia. by rewrite Z_mod_plus_full.
Qed.

Lemma oc_foldl_repr ws r s :
  oc_repr r s -> 0 <= s -> Forall (fun w => 0 <= w < 65536) ws ->
  oc_repr (foldl oc_add r ws) (s + sum_list ws).
Proof.
  intros Hr Hs Hw. revert r s Hr Hs.
  induction Hw as [|w ws Hw _ IH]; intros r s Hr Hs; cbn [foldl foldr].
  - by rewrite Z.add_0_r.
  - rewrite Z.add_assoc. apply IH; [by apply oc_add_repr|lia].
Qed.

Lemma oc_repr_0 : oc_repr 0 0.
Proof. split_and!; [lia..|done|done]. Qed.

Lemma be_words_range bs : bytes_ok bs -> Forall (fun w => 0 <= w < 65536) (be_words bs).
Proof.
  induction bs as [|b0|b0 b1 bs IH] using list_pair_ind; intros Hb; cbn [be_words]; [done..|].
  inversion Hb as [|?? Hx0 Hb']; inversion Hb' as [|?? Hx1 Hb'']; subst.
  constructor; [|by apply IH]. apply (be_load_range [b0; b1]). eauto 10 using Forall_cons_2, Forall_nil_2.
Qed.

Lemma sum_list_nonneg ws : Forall (fun w => 0 <= w < 65536) ws -> 0 <= sum_list ws <= 65535 * zlen ws.
Proof. induction 1; cbn [foldr length]; lia. Qed.

Lemma length_be_words bs : Nat.Even (length bs) -> zlen bs = 2 * zlen (be_words bs).
Proof.
  induction bs as [|b0|b0 b1 bs IH] using list_pair_ind; intros [k Hk]; cbn [be_words length] in *.
  - done.
  - lia.
  - assert (Nat.Even (length bs)) by (exists (k - 1)%nat; lia). specialize (IH H). lia.
Qed.

(** The 32-bit loop computes the plain sum when it cannot overflow. *)
Lemma checksum_words_sum bs sum :
  bytes_ok bs -> Nat.Even (length bs) -> 0 <= sum -> sum + 65535 * zlen (be_words bs) < 2 ^ 32 ->
  checksum_words bs (zlen bs) sum = Ok (sum + sum_list (be_words bs)).
Proof.
  revert sum.
  induction bs as [|b0|b0 b1 bs IH] using list_pair_ind; intros sum Hb Hev Hs Hlt.
  - cbn. by rewrite Z.add_0_r.
  - destruct Hev as [k Hk]. cbn in Hk. lia.
  - assert (Hev' : Nat.Even (length bs)) by (destruct Hev as [k Hk]; exists (k - 1)%nat; cbn in Hk; lia).
    inversion Hb as [|?? Hx0 Hb']; inversion Hb' as [|?? Hx1 Hb'']; subst.
    assert (Hw : 0 <= be_load [b0; b1] < 65536)
      by (apply (be_load_range [b0; b1]); eauto 10 using Forall_cons_2, Forall_nil_2).
    cbn [checksum_words be_words foldr length] in *.
    rewrite (proj2 (Z.ltb_lt _ _)) by lia.
    unfold ntohs. rewrite (bswap_load 2 [b0; b1]) by (eauto 10 using Forall_cons_2, Forall_nil_2).
    replace (Z.of_nat (S (S (length bs))) - 2) with (zlen bs) by lia.
    rewrite wrap_small by lia. rewrite IH by (done || lia). f_equal. lia.
Qed.

Lemma checksum_fold_step s :
  0 <= s < 2 ^ 32 -> Z.shiftr s 16 <> 0 ->
  u32 (Z.land s 0xffff + Z.shiftr s 16) = s - 65535 * (s / 65536) /\
  0 < s / 65536 < 65536.
Proof.
  intros Hs Hn. change 0xffff with (Z.ones 16) at 1. rewrite Z.shiftr_div_pow2 in Hn |- * by lia.
  rewrite Z.land_ones by lia. change (2 ^ 16) with 65536 in *. pose proof (Z.div_mod s 65536).
  pose proof (Z.mod_pos_bound s 65536). pose proof (Z.div_pos s 65536).
  pose proof (Z.div_lt_upper_bound s 65536 65536).
  rewrite wrap_small by lia. lia.
Qed.

(** Three rounds of folding are enough for every 32-bit sum. *)
Lemma checksum_fold_repr s : 0 <= s < 2 ^ 32 -> oc_repr (checksum_fold 3 s) s.
Proof.
  intros Hs.
  assert (Hstop : forall s, 0 <= s -> Z.shiftr s 16 = 0 -> s < 65536).
  { intros s0 ? E. rewrite Z.shiftr_div_pow2 in E by lia.
    apply Z.div_small_iff in E; lia. }
  assert (Hlow : forall s, 0 <= s < 65536 -> forall n, checksum_fold n s = s).
  { intros s0 H n. destruct n; cbn [checksum_fold]; [done|].
    rewrite Z.shiftr_div_pow2 by lia. by rewrite Z.div_small by lia. }
  cbn [checksum_fold].
  destruct (Z.shiftr s 16 =? 0) eqn:E1; to_prop.
  { apply Hstop in E1; [|lia]. split_and!; [lia..|done|done]. }
  destruct (checksum_fold_step s Hs E1) as [-> H1].
  pose proof (Z.div_mod s 65536). pose proof (Z.mod_pos_bound s 65536).
  set (k1 := s / 65536) in *. set (s1 := s - 65535 * k1) in *.
  destruct (Z.shiftr s1 16 =? 0) eqn:E2; to_prop.
  { apply Hstop in E2; [|lia]. apply (oc_repr_shift _ _ k1); lia. }
  destruct (checksum_fold_step s1 ltac:(lia) E2) as [-> H2].
  pose proof (Z.div_mod s1 65536). pose proof (Z.mod_pos_bound s1 65536).
  set (k2 := s1 / 65536) in *.
  assert (Hs2 : 0 < s1 - 65535 * k2 < 65536) by lia.
  destruct (Z.shiftr (s1 - 65535 * k2) 16 =? 0) eqn:E3; to_prop.
  - apply (oc_repr_shift _ _ (k1 + k2)); lia.
  - rewrite Z.shiftr_div_pow2, Z.div_small in E3 by lia. done.
Qed.

Lemma land_lnot_low s : 0 <= s < 65536 -> Z.land (u32 (Z.lnot s)) 0xffff = 0xffff - s.
Proof.
  intros Hs. change 0xffff with (Z.ones 16) at 1. rewrite Z.land_ones by lia.
  unfold wrap, Z.lnot. replace (Z.pred (- s)) with (2 ^ 32 - 1 - s + (-1) * 2 ^ 32) by lia.
  rewrite Z_mod_plus_full, (Z.mod_small (2 ^ 32 - 1 - s)) by lia.
  replace (2 ^ 32 - 1 - s) with (0xffff - s + 0xffff * 2 ^ 16) by lia.
  rewrite Z_mod_plus_full. apply Z.mod_small. lia.
Qed.

(** The routine as a function of the reference. *)
Lemma checksum_ref bs :
  bytes_ok bs -> Nat.Even (length bs) -> zlen bs < 65536 ->
  exists v, _checksum bs (zlen bs) 0 = Ok v /\ Z.land v 0xffff = rfc1071 bs.
Proof.
  intros Hb Hev Hl. unfold _checksum.
  pose proof (length_be_words bs Hev) as Hw.
  pose proof (sum_list_nonneg _ (be_words_range bs Hb)).
  rewrite checksum_words_sum by (done || lia). res_simpl.
  eexists. split; [done|]. rewrite Z.add_0_l.
  pose proof (checksum_fold_repr (sum_list (be_words bs)) ltac:(lia)) as Hr.
  pose proof Hr as [? _]. rewrite land_lnot_low by lia.
  unfold rfc1071. f_equal.
  eapply oc_repr_unique; [done|].
  apply (oc_foldl_repr _ 0 0 oc_repr_0); [done|by apply be_words_range].
Qed.

Lemma oc_sum_range bs : bytes_ok bs -> 0 <= oc_sum (be_words bs) < 65536.
Proof.
  intros Hb. destruct (oc_foldl_repr _ 0 0 oc_repr_0 ltac:(lia) (be_words_range bs Hb)) as [? _].
  done.
Qed.

Lemma be_words_app l1 l2 :
  Nat.Even (length l1) -> be_words (l1 ++ l2) = be_words l1 ++ be_words l2.
Proof.
  induction l1 as [|b0|b0 b1 bs IH] using list_pair_ind; intros Hev; cbn; [done| |].
  - destruct Hev as [k Hk]. cbn in Hk. lia.
  - f_equal. apply IH. destruct Hev as [k Hk]. exists (k - 1)%nat. cbn in Hk. lia.
Qed.

Lemma sum_list_app l1 l2 : sum_list (l1 ++ l2) = sum_list l1 + sum_list l2.
Proof. induction l1; cbn; lia. Qed.

Lemma oc_sum_repr bs : bytes_ok bs -> oc_repr (oc_sum (be_words bs)) (sum_list (be_words bs)).
Proof.
  intros Hb. apply (oc_foldl_repr _ 0 0 oc_repr_0); [done|]. by apply be_words_range.
Qed.

(** Storing the checksum over a zeroed field makes the one's complement sum of
    the header all ones, which is what a receiver tests. *)
Lemma stored_checksum_valid l1 l2 v :
  bytes_ok (l1 ++ [0; 0] ++ l2) -> Nat.Even (length l1) -> Nat.Even (length l2) ->
  zlen l1 + 2 + zlen l2 < 65536 ->
  _checksum (l1 ++ [0; 0] ++ l2) (zlen l1 + 2 + zlen l2) 0 = Ok v ->
  oc_sum (be_words (l1 ++ le_store 2 (_wrapsum v) ++ l2)) = 0xffff.
Proof.
  intros Hb He1 He2 Hl Hc.
  destruct (checksum_ref (l1 ++ [0; 0] ++ l2) Hb) as (v' & Hc' & Hv).
  { rewrite !length_app. cbn. destruct He1 as [k1 ?], He2 as [k2 ?]. exists (k1 + 1 + k2)%nat. lia. }
  { rewrite !length_app. cbn. lia. }
  replace (zlen (l1 ++ [0; 0] ++ l2)) with (zlen l1 + 2 + zlen l2) in Hc'
    by (rewrite !length_app; cbn; lia).
  rewrite Hc in Hc'. injection Hc' as <-.
  apply Forall_app in Hb as Hb'. destruct Hb' as [Hb1 Hb2].
  assert (Hb2' : bytes_ok l2) by (by inversion Hb2 as [|??? H]; inversion H).
  pose proof (oc_sum_repr _ Hb) as Hr. pose proof (oc_sum_range _ Hb).
  unfold rfc1071 in Hv. set (s := oc_sum _) in *.
  assert (Hw : be_words (le_store 2 (_wrapsum v)) = [0xffff - s]).
  { unfold _wrapsum, htons. rewrite Hv. cbn [le_store be_words]. f_equal.
    pose proof (be_load_store_bswap 2 (65535 - s)) as E. cbn [le_store] in E.
    rewrite E. apply Z.mod_small. cbn. lia. }
  assert (Hb' : bytes_ok (l1 ++ le_store 2 (_wrapsum v) ++ l2))
    by (rewrite !Forall_app; auto using le_store_ok).
  eapply oc_repr_unique; [by apply oc_sum_repr|].
  rewrite be_words_app in Hr by done. rewrite be_words_app by done.
  rewrite be_words_app by (rewrite length_le_store; by exists 1%nat).
  change (be_words ([0; 0] ++ l2)) with (0 :: be_words l2) in Hr.
  rewrite Hw. rewrite !sum_list_app in Hr |- *. cbn [app foldr] in Hr |- *.
  pose proof (sum_list_nonneg _ (be_words_range l1 Hb1)).
  pose proof (sum_list_nonneg _ (be_words_range l2 Hb2')).
  destruct Hr as (_ & Em & Ez).
  set (t := sum_list (be_words l1) + sum_list (be_words l2)) in *.
  replace (sum_list (be_words l1) + (0 + sum_list (be_words l2))) with t in * by lia.
  pose proof (Z.div_mod s 65535). pose proof (Z.div_mod t 65535).
  apply (oc_repr_shift _ _ (t / 65535 - s / 65535)); lia.
Qed.

(** ** Symbolic execution of packet code *)
Create HintDb pkt.
#[export] Hint Unfold sizeof_ether_hdr sizeof_vlan_hdr sizeof_ipv4_hdr sizeof_ipv6_hdr
  sizeof_udp_hdr sizeof_gtpu_hdr sizeof_gtpu_err_indication
  o_d_addr o_s_addr o_ether_type o_version_ihl o_total_length o_time_to_live o_next_proto_id
  o_hdr_checksum o_src_addr o_dst_addr o_ip6_proto o_ip6_hop_limits o_ip6_src_addr
  o_ip6_dst_addr o_src_port o_dst_port o_dgram_len o_dgram_cksum o_gtpu_type o_gtpu_length
  o_gtpu_tid mtod mtod_offset : pkt.

Ltac mem_cbn :=
  cbn [buf data_off data_len pkt_len nb_segs next_ packet_type udata64 m_addr
       set_buf set_bounds set_segs set_packet_type set_udata64].

(** One load. *)
Ltac step_ld :=
  first [ rewrite ld_ok by (mem_cbn; lia) | rewrite ld_bytes_ok by (mem_cbn; lia) ];
  res_simpl; mem_cbn.

Lemma set_buf_set_buf b b' m : set_buf b (set_buf b' m) = set_buf b m.
Proof. done. Qed.

Lemma set_buf_packet_type b b' t m :
  set_buf b (set_packet_type t (set_buf b' m)) = set_packet_type t (set_buf b m).
Proof. done. Qed.

(** Sizes of what is stored. *)
Ltac lens := rewrite ?length_le_store, ?zlen_slice by lia.

(** One store: the new buffer gets a name, its equation, its size, and the
    fact that it holds bytes. *)
Ltac step_st :=
  first [ rewrite st_ok by (mem_cbn; lia) | rewrite st_bytes_ok by (mem_cbn; lens; lia) ];
  res_simpl; mem_cbn; rewrite ?set_buf_set_buf, ?set_buf_packet_type;
  match goal with
  | |- context [set_buf (splice ?p ?bs ?b) _] =>
      let b' := fresh "b" in
      let E := fresh "Eb" in
      let L := fresh "Lb" in
      let O := fresh "Ob" in
      assert (L : zlen (splice p bs b) = zlen b) by (rewrite length_splice; lens; lia);
      assert (O : bytes_ok (splice p bs b))
        by (apply Forall_splice; auto using le_store_ok, Forall_slice);
      remember (splice p bs b) as b' eqn:E
  end.

(** What a part of the final buffer holds: walk back through the stores. *)
Ltac chase :=
  repeat match goal with
  | E : ?b = splice ?q ?bs ?b0 |- context [slice ?p ?n ?b] =>
      rewrite E;
      first [ rewrite (slice_splice_disj p n q bs b0) by (lens; lia)
            | rewrite (slice_splice_eq p n q bs b0) by (lens; lia) ]
  end.

(** A value loaded from one place and stored to another moves the bytes. *)
Lemma le_store_slice n p b :
  bytes_ok b -> 0 <= p -> p + Z.of_nat n <= zlen b ->
  le_store n (le_load (slice p (Z.of_nat n) b)) = slice p (Z.of_nat n) b.
Proof.
  intros. rewrite <-(le_store_load (slice p (Z.of_nat n) b)) at 2 by by apply Forall_slice.
  rewrite length_slice by lia. by rewrite Nat2Z.id.
Qed.

(** Equality of two concatenations, piece by piece. *)
Ltac solve_piece :=
  chase; try done; rewrite ?slice_slice by lia;
  repeat (rewrite le_store_slice by (done || lia); chase); try done; f_equal; lia.
Ltac solve_pieces :=
  repeat (f_equal; [solve [solve_piece]|]); solve_piece.

(** ** Header blocks

    The workers keep header templates as blocks of bytes and assign their fields. *)

(** Assignment to a field of [n] bytes at offset [o] of a header block. *)
Definition fld (n : nat) (o v : Z) (h : list Z) : list Z := splice o (le_store n v) h.

Abbreviation net16 v := (le_store 2 (htons v)).

(** The header block with its checksum recomputed over a zeroed field. *)
Definition checksummed (iph : list Z) : res (list Z) :=
  let iph := fld 2 o_hdr_checksum 0 iph in
  ck ← _checksum iph 20 0;
  Ok (fld 2 o_hdr_checksum (_wrapsum ck) iph).

Lemma checksummed_ok h :
  length h = 20%nat -> bytes_ok h ->
  exists ck, checksummed h = Ok (fld 2 10 ck (fld 2 10 0 h)) /\
    oc_sum (be_words (fld 2 10 ck (fld 2 10 0 h))) = 0xffff.
Proof.
  intros Hl Hb. unfold checksummed. autounfold with pkt.
  assert (E0 : fld 2 10 0 h = take 10 h ++ [0; 0] ++ drop 12 h) by done.
  assert (Hb0 : bytes_ok (take 10 h ++ [0; 0] ++ drop 12 h)).
  { rewrite <-E0. apply Forall_splice; auto using le_store_ok. }
  assert (L1 : length (take 10 h) = 10%nat) by (rewrite length_take; lia).
  assert (L2 : length (drop 12 h) = 8%nat) by (rewrite length_drop; lia).
  destruct (checksum_ref (fld 2 10 0 h)) as (v & Ev & _).
  - by rewrite E0.
  - rewrite E0, !length_app, L1, L2. by exists 10%nat.
  - rewrite E0, !length_app, L1, L2. cbn. lia.
  - assert (Lz : zlen (fld 2 10 0 h) = 20) by (rewrite E0, !length_app, L1, L2; done).
    rewrite Lz in Ev. rewrite Ev. res_simpl. exists (_wrapsum v). split; [done|].
    assert (E1 : fld 2 10 (_wrapsum v) (fld 2 10 0 h) = take 10 h ++ le_store 2 (_wrapsum v) ++ drop 12 h).
    { rewrite E0. unfold fld, splice. rewrite length_le_store.
      change (Z.to_nat 10) with 10%nat. rewrite take_app_length' by done.
      rewrite (drop_app_ge (take 10 h)) by lia. by rewrite L1. }
    rewrite E1. apply stored_checksum_valid; try done.
    + rewrite L1. by exists 5%nat.
    + rewrite L2. by exists 4%nat.
    + rewrite L1, L2. cbn. lia.
    + rewrite L1, L2, <-E0. exact Ev.
Qed.

(** ** Addresses with a replaced first octet

    [(a & 0xffffff00) | 0x0a] on a loaded address replaces its first byte. *)
Lemma land_mask24 v : 0 <= v < 2 ^ 32 -> Z.land v 0xffffff00 = 256 * (v / 256).
Proof.
  intros Hv. replace (256 * (v / 256)) with (Z.shiftl (v / 2 ^ 8) 8)
    by (rewrite Z.shiftl_mul_pow2 by lia; change (2 ^ 8) with 256; lia).
  rewrite <-Z.shiftr_div_pow2 by lia. change 0xffffff00 with (Z.shiftl (Z.ones 24) 8).
  apply Z.bits_inj'. intros i Hi. rewrite Z.land_spec, !Z.shiftl_spec by lia.
  destruct (decide (i < 8)).
  - rewrite !(Z.testbit_neg_r _ (i - 8)) by lia. by rewrite andb_false_r.
  - rewrite Z.shiftr_spec, testbit_ones by lia. replace (i - 8 + 8) with i by lia.
    case_bool_decide; [by rewrite andb_true_r|]. rewrite andb_false_r.
    symmetry. rewrite <-(Z.mod_small v (2 ^ 32)) by lia. apply Z.mod_pow2_bits_high. lia.
Qed.

Lemma lor_low_byte q r : 0 <= r < 256 -> Z.lor (256 * q) r = 256 * q + r.
Proof.
  intros Hr. replace (256 * q) with (Z.shiftl q 8)
    by (rewrite Z.shiftl_mul_pow2 by lia; change (2 ^ 8) with 256; lia).
  rewrite <-(Z.add_0_r (Z.lor _ _)).
  replace 0 with (Z.land (Z.shiftl q 8) r) at 1; [apply Z.add_lor_land|].
  apply Z.bits_inj'. intros i Hi. rewrite Z.land_spec, Z.shiftl_spec, Z.bits_0 by lia.
  destruct (decide (i < 8)).
  - by rewrite Z.testbit_neg_r by lia.
  - rewrite <-(Z.mod_small r (2 ^ 8)) by lia. rewrite Z.mod_pow2_bits_high by lia.
    apply andb_false_r.
Qed.

Lemma replace_first_octet x bs y :
  byte_ok x -> byte_ok y -> bytes_ok bs -> length bs = 3%nat ->
  le_store 4 (Z.lor (Z.land (le_load (x :: bs)) 0xffffff00) y) = y :: bs.
Proof.
  intros Hx Hy Hb Hl. pose proof (le_load_range bs Hb) as Hr. rewrite Hl in Hr. unfold byte_ok in *.
  cbn [le_load]. rewrite land_mask24 by (cbn in Hr; lia).
  replace ((x + 256 * le_load bs) / 256) with (le_load bs)
    by (rewrite Z.mul_comm, Z.div_add, Z.div_small by lia; lia).
  rewrite lor_low_byte by lia. rewrite Z.add_comm, <-(le_store_load (y :: bs)) by (by constructor).
  cbn [length le_load]. by rewrite Hl.
Qed.

Lemma first_octet_10 (l : list Z) p :
  bytes_ok l -> 0 <= p -> p + 4 <= zlen l ->
  le_store 4 (Z.lor (Z.land (le_load (slice p 4 l)) 0xffffff00) 0x0a) = 10 :: slice (p + 1) 3 l.
Proof.
  intros Hb Hp Hl. change (slice p 4 l) with (slice p (1 + 3) l). rewrite slice_app_split by lia.
  pose proof (Forall_slice byte_ok p 1 l Hb) as H1.
  assert (L1 : length (slice p 1 l) = 1%nat) by (rewrite length_slice; lia).
  destruct (slice p 1 l) as [|x [|? ?]]; [done| |done].
  inversion H1. apply replace_first_octet; [done|unfold byte_ok; lia|by apply Forall_slice|].
  rewrite length_slice; lia.
Qed.

(** ** Error Indication *)
Section error_indication.
Context `{DpdkOk} `{B : Build}.

Abbreviation errind_size := 62.

(** The frame an Error Indication carries, from the frame [f] that caused it. *)
Definition errind_frame (f : list Z) : list Z :=
  slice 6 6 f ++ slice 0 6 f ++ slice 12 4 f ++ [0; 48] ++ slice 18 6 f ++ [0; 0] ++
  slice 30 4 f ++ slice 26 4 f ++ slice 36 2 f ++ slice 36 2 f ++ [0; 28] ++ [0; 0] ++
  slice 42 1 f ++ [26] ++ [0; 12] ++ [0; 0; 0; 0] ++
  [16] ++ slice 46 4 f ++ [133] ++ [0; 4] ++ slice 30 4 f.

Lemma error_indicate_frame m :
  mbuf_wf m -> errind_size <= data_len m ->
  exists b, error_indicate m =
    Ok (set_buf b (set_bounds (data_off m) errind_size errind_size (set_segs 1 None m))) /\
    slice (data_off m) errind_size b = errind_frame (pkt_data m) /\ zlen b = zlen (buf m) /\
    bytes_ok b.
Proof.
  intros [] Hl. unfold error_indicate. autounfold with pkt.
  rewrite trim_ok.
  2: done. 2: { rewrite (wrap_small 64), (wrap_small 16) by lia. lia. } 2: lia.
  rewrite (wrap_small 64), !(wrap_small 16) by lia. cbn [Z.ltb Z.compare]. mem_cbn.
  destruct m as [a b off dl pl ns nx pt ud]. cbn in *. subst.
  repeat first [step_ld | step_st].
  eexists. split; [reflexivity|]. split; [|split; [lia|done]].
  rewrite (slice_cuts off [6; 6; 4; 2; 6; 2; 4; 4; 2; 2; 2; 2; 1; 1; 2; 4; 1; 4; 1; 2; 4]); 
    [|lia|by repeat constructor].
  unfold errind_frame, pkt_data. cbn [cuts buf data_off data_len]. rewrite app_nil_r.
  solve_pieces.
Qed.

(** A frame too short to hold the indication: the length passed to
    [rte_pktmbuf_trim] wraps around, the call fails and the process panics. *)
Lemma error_indicate_short m :
  mbuf_wf m -> data_len m < errind_size -> error_indicate m = Fault RtePanic.
Proof.
  intros [] Hl. unfold error_indicate. autounfold with pkt.
  assert (E : u16 (u64 (pkt_len m - (14 + 20 + 8 + 8 + 12))) = pkt_len m - 62 + 2 ^ 16).
  { unfold wrap. replace (pkt_len m - (14 + 20 + 8 + 8 + 12)) with
      (pkt_len m - 62 + 2 ^ 64 + (-1) * 2 ^ 64) by lia.
    rewrite Z_mod_plus_full, (Z.mod_small (_ + 2 ^ 64)) by lia.
    replace (pkt_len m - 62 + 2 ^ 64) with (pkt_len m - 62 + 2 ^ 16 + (2 ^ 48 - 1) * 2 ^ 16) by lia.
    rewrite Z_mod_plus_full. apply Z.mod_small. lia. }
  rewrite E, trim_fail by (done || lia). done.
Qed.
End error_indication.

(** The fields of the user word are independent. *)
Ltac udat_simpl :=
  unfold udat_flag, udat_size, udat_color, udat_mode, udat_teid,
    set_flag, set_size, set_color, set_mode, set_teid;
  repeat first [ rewrite bf_get_set_same by lia | rewrite bf_get_set_other by lia ].

(** ** Classification in terms of the bytes on the wire *)
Definition byte_at (o : Z) (f : list Z) : Z := be_load (slice o 1 f).
Definition be16_at (o : Z) (f : list Z) : Z := be_load (slice o 2 f).

Lemma eqb_htons bs c :
  bytes_ok bs -> length bs = 2%nat -> 0 <= c < 65536 -> (le_load bs =? htons c) = (be_load bs =? c).
Proof.
  intros Hb Hl Hc. rewrite <-(bswap_load 2 bs) by done.
  pose proof (le_load_range bs Hb) as Hr. rewrite Hl in Hr. change (256 ^ zlen [0;0]) with 65536 in Hr.
  apply eq_true_iff_eq. rewrite !Z.eqb_eq. unfold htons. split.
  - intros ->. rewrite bswap_bswap. by apply Z.mod_small.
  - intros <-. rewrite bswap_bswap. symmetry. by apply Z.mod_small.
Qed.

Lemma htons_load bs : bytes_ok bs -> length bs = 2%nat -> htons (le_load bs) = be_load bs.
Proof. intros. by apply bswap_load. Qed.

Lemma le_load_1 b : le_load [b] = be_load [b].
Proof. done. Qed.

Lemma slice_1 p (l : list Z) :
  0 <= p -> p + 1 <= zlen l -> le_load (slice p 1 l) = be_load (slice p 1 l).
Proof.
  intros. destruct (slice p 1 l) as [|x [|y t]] eqn:E; [done..|].
  apply (f_equal length) in E. rewrite length_slice in E by lia. cbn in E. lia.
Qed.

(** The low byte of a loaded word is its first byte. *)
Lemma land_first_byte p (l : list Z) :
  bytes_ok l -> 0 <= p -> p + 4 <= zlen l ->
  Z.land (le_load (slice p 4 l)) 0xff = byte_at p l.
Proof.
  intros Hb Hp Hl. unfold byte_at. change 4 with (1 + 3). rewrite slice_app_split by lia.
  pose proof (Forall_slice byte_ok p 1 l Hb) as H1.
  destruct (slice p 1 l) as [|x [|y t]] eqn:E.
  - apply (f_equal length) in E. rewrite length_slice in E by lia. done.
  - inversion H1 as [|?? Hx _]; subst. cbn [app le_load]. change 0xff with (Z.ones 8).
    rewrite Z.land_ones by lia. change (2 ^ 8) with 256.
    rewrite Z.mul_comm, Z_mod_plus_full. unfold be_load. cbn. unfold byte_ok in Hx.
    rewrite Z.mod_small by lia. lia.
  - apply (f_equal length) in E. rewrite length_slice in E by lia. cbn in E. lia.
Qed.

(** The first [n] bytes from the start of the packet. *)
Definition head_bytes (n : Z) (m : rte_mbuf) : list Z := slice (data_off m) n (buf m).

Lemma ld1_head n m k :
  0 <= data_off m -> 0 <= k -> k + 1 <= n -> data_off m + n <= zlen (buf m) ->
  ld 1 m (data_off m + k) = Ok (byte_at k (head_bytes n m)).
Proof.
  intros. rewrite ld_ok by lia. rewrite slice_1 by lia. unfold byte_at, head_bytes.
  by rewrite slice_slice by lia.
Qed.

Lemma ld2_head n m k c :
  bytes_ok (buf m) -> 0 <= data_off m -> 0 <= k -> k + 2 <= n ->
  data_off m + n <= zlen (buf m) -> 0 <= c < 65536 ->
  exists v, ld 2 m (data_off m + k) = Ok v /\ (v =? htons c) = (be16_at k (head_bytes n m) =? c).
Proof.
  intros. eexists. rewrite ld_ok by lia. split; [done|].
  rewrite eqb_htons; [|by apply Forall_slice|rewrite length_slice by lia; done|done].
  unfold be16_at, head_bytes. by rewrite slice_slice by lia.
Qed.

(** IPv4, UDP, destination port 2152, message type G-PDU. *)
Definition gpdu_frame (f : list Z) : bool :=
  (be16_at 12 f =? ETHER_TYPE_IPv4) && (byte_at 23 f =? IPPROTO_UDP) &&
  (be16_at 36 f =? GTPU_PORT) && (byte_at 43 f =? GTPU_G_PDU).

(** [x + 14 + 9] to [x + 23]. *)
Ltac add_consts :=
  rewrite <-?Z.add_assoc;
  repeat match goal with
  | |- context [Zpos ?a + Zpos ?b] =>
      let c := eval cbv in (Zpos a + Zpos b) in change (Zpos a + Zpos b) with c
  end.

Ltac ld16 m k c n :=
  let v := fresh "v" in let E := fresh "E" in let Ec := fresh "Ec" in
  destruct (ld2_head n m k c) as (v & E & Ec);
  [done|lia|lia|lia|lia|unfold c; lia|];
  rewrite E; res_simpl; rewrite Ec.

Lemma is_pdu_eq m :
  bytes_ok (buf m) -> 0 <= data_off m -> data_off m + 50 <= zlen (buf m) ->
  is_pdu m = Ok (if gpdu_frame (head_bytes 50 m) then DECAP else PASS).
Proof.
  intros Hb Ho Hl. unfold is_pdu, gpdu_frame. autounfold with pkt. add_consts.
  ld16 m 12 ETHER_TYPE_IPv4 50. destruct (_ =? ETHER_TYPE_IPv4); [|done].
  rewrite (ld1_head 50 m 23) by lia. res_simpl. destruct (_ =? IPPROTO_UDP); [|done].
  ld16 m 36 GTPU_PORT 50. destruct (_ =? GTPU_PORT); [|done].
  rewrite (ld1_head 50) by lia. res_simpl. by destruct (_ =? GTPU_G_PDU).
Qed.

(** IPv4 to 10.0.0.0/8. *)
Definition user_frame (f : list Z) : bool :=
  (be16_at 12 f =? ETHER_TYPE_IPv4) && (byte_at 30 f =? 10).

Lemma is_user_eq m :
  bytes_ok (buf m) -> 0 <= data_off m -> data_off m + 34 <= zlen (buf m) ->
  is_user m = Ok (if user_frame (head_bytes 34 m) then ENCAP else PASS).
Proof.
  intros Hb Ho Hl. unfold is_user, user_frame. autounfold with pkt. add_consts.
  ld16 m 12 ETHER_TYPE_IPv4 34. destruct (_ =? ETHER_TYPE_IPv4); [|done].
  rewrite ld_ok by lia. res_simpl. change (Z.of_nat 4) with 4. rewrite land_first_byte by (done || lia).
  unfold byte_at at 1. rewrite <-slice_slice with (n := 34) by lia.
  fold (head_bytes 34 m) (byte_at 30 (head_bytes 34 m)). cbn [andb]. by case_if.
Qed.

(** Control traffic that must not be tunnelled: eBGP and ICMP that is not for
    a user (10.0.0.0/8), single-hop BFD, OSPF, link-local ICMPv6, non-IP. *)
Definition frame_class (f : list Z) : PACKET_TYPE :=
  let user := byte_at 30 f =? 10 in
  let l4 := 14 + 4 * (byte_at 14 f mod 16) in
  if be16_at 12 f =? ETHER_TYPE_IPv4 then
    let proto := byte_at 23 f in
    let control :=
      if proto =? IPPROTO_TCP
      then ((be16_at (l4 + 2) f =? 179) || (be16_at l4 f =? 179)) && negb user
      else if proto =? IPPROTO_UDP then (be16_at (l4 + 2) f =? 3784) && (byte_at 22 f =? 255)
      else if proto =? IPPROTO_OSPFIGP then true
      else (proto =? IPPROTO_ICMP) && negb user in
    if control then PASS else ENCAP
  else if be16_at 12 f =? ETHER_TYPE_IPv6 then
    if (byte_at 20 f =? IPPROTO_ICMPV6) && (byte_at 21 f =? 0xff) then PASS else ENCAP
  else if be16_at 12 f =? ETHER_TYPE_ARP then PASS
  else if be16_at 12 f =? ETHER_TYPE_VLAN then VLAN
  else PASS.

Lemma shiftl_ihl v : Z.shiftl (Z.land v 0x0f) 2 = 4 * (v mod 16).
Proof.
  change 0x0f with (Z.ones 4). rewrite Z.land_ones, Z.shiftl_mul_pow2 by lia.
  change (2 ^ 4) with 16. lia.
Qed.

Lemma htons_ld2 n m k :
  bytes_ok (buf m) -> 0 <= data_off m -> 0 <= k -> k + 2 <= n ->
  data_off m + n <= zlen (buf m) ->
  exists v, ld 2 m (data_off m + k) = Ok v /\ htons v = be16_at k (head_bytes n m) /\
    forall c, 0 <= c < 65536 -> (v =? htons c) = (be16_at k (head_bytes n m) =? c).
Proof.
  intros. eexists. rewrite ld_ok by lia. split; [done|].
  unfold be16_at, head_bytes. rewrite slice_slice by lia. split.
  - apply htons_load; [by apply Forall_slice|rewrite length_slice; lia].
  - intros c Hc. apply eqb_htons; [by apply Forall_slice|rewrite length_slice; lia|lia].
Qed.

Lemma user_byte n m k :
  bytes_ok (buf m) -> 0 <= data_off m -> 0 <= k -> k + 4 <= n ->
  data_off m + n <= zlen (buf m) ->
  exists v, ld 4 m (data_off m + k) = Ok v /\ Z.land v 0xff = byte_at k (head_bytes n m).
Proof.
  intros. eexists. rewrite ld_ok by lia. split; [done|].
  change (Z.of_nat 4) with 4. rewrite land_first_byte by (done || lia).
  unfold byte_at, head_bytes. by rewrite slice_slice by lia.
Qed.

Lemma inner_ipv4_type_eq m :
  bytes_ok (buf m) -> 0 <= data_off m -> data_off m + 78 <= zlen (buf m) ->
  be16_at 12 (head_bytes 78 m) = ETHER_TYPE_IPv4 ->
  inner_ipv4_type m (data_off m + 14) = Ok (frame_class (head_bytes 78 m)).
Proof.
  intros Hb Ho Hl Et. unfold inner_ipv4_type, frame_class. rewrite Et, Z.eqb_refl.
  autounfold with pkt. add_consts.
  rewrite (ld1_head 78 m 23) by lia. res_simpl.
  rewrite (ld1_head 78 m (14 + 0)) by lia. res_simpl. rewrite shiftl_ihl.
  change (14 + 0) with 14.
  set (f := head_bytes 78 m) in *. set (ihl := byte_at 14 f mod 16) in *.
  assert (Hi : 0 <= ihl < 16) by (apply Z.mod_pos_bound; lia).
  destruct (user_byte 78 m 30) as (dst & Ed & Eu); [done|lia..|].
  replace (14 + (4 * ihl + 2)) with (14 + 4 * ihl + 2) by lia.
  replace (data_off m + 14 + 4 * ihl + 2) with (data_off m + (14 + 4 * ihl + 2)) by lia.
  destruct (htons_ld2 78 m (14 + 4 * ihl + 2)) as (dp & Edp & Edq & _); [done|lia..|].
  replace (data_off m + 14 + 4 * ihl + 0) with (data_off m + (14 + 4 * ihl)) by lia.
  replace (data_off m + 14 + 4 * ihl) with (data_off m + (14 + 4 * ihl)) by lia.
  destruct (htons_ld2 78 m (14 + 4 * ihl)) as (sp & Esp & Esq & _); [done|lia..|].
  rewrite Ed, Edp, Esp. res_simpl. rewrite Edq. rewrite Eu.
  rewrite (ld1_head 78 m 22) by lia. res_simpl. fold f.
  destruct (_ =? IPPROTO_TCP).
  { destruct (be16_at (14 + 4 * ihl + 2) f =? 179); cbn [orb]; res_simpl; [by case_if|].
    rewrite Esq. fold f. destruct (be16_at (14 + 4 * ihl) f =? 179); res_simpl; [by case_if|done]. }
  destruct (_ =? IPPROTO_UDP).
  { destruct (_ =? 3784); [by case_if|done]. }
  destruct (_ =? IPPROTO_OSPFIGP); [done|].
  destruct (_ =? IPPROTO_ICMP); [by case_if|done].
Qed.

Lemma is_arp_or_innericmp_eq `{Dpdk} m :
  bytes_ok (buf m) -> 0 <= data_off m -> data_off m + 78 <= zlen (buf m) ->
  (Z.land RTE_PTYPE_L2_MASK (packet_type m) = RTE_PTYPE_L2_ETHER \/
   Z.land RTE_PTYPE_L2_MASK (packet_type m) = RTE_PTYPE_UNKNOWN /\
   RTE_PTYPE_UNKNOWN <> RTE_PTYPE_L2_ETHER_VLAN) ->
  is_arp_or_innericmp m = Ok (frame_class (head_bytes 78 m)).
Proof.
  intros Hb Ho Hl Ht. unfold is_arp_or_innericmp.
  set (l2 := Z.land _ _) in *.
  replace (negb (l2 =? RTE_PTYPE_L2_ETHER) && (l2 =? RTE_PTYPE_L2_ETHER_VLAN)) with false.
  2: { symmetry. destruct Ht as [->|[-> Hn]]; [by rewrite Z.eqb_refl|].
       apply Z.eqb_neq in Hn. rewrite Hn. apply andb_false_r. }
  replace (negb (l2 =? RTE_PTYPE_L2_ETHER) && negb (l2 =? RTE_PTYPE_UNKNOWN)) with false.
  2: { symmetry. destruct Ht as [->|[-> Hn]]; rewrite Z.eqb_refl; [done|apply andb_false_r]. }
  autounfold with pkt. add_consts.
  destruct (htons_ld2 78 m 12) as (v & E & _ & Ec); [done|lia..|].
  rewrite E. res_simpl.
  rewrite !Ec by (unfold ETHER_TYPE_IPv4, ETHER_TYPE_IPv6, ETHER_TYPE_ARP, ETHER_TYPE_VLAN; lia).
  destruct (_ =? ETHER_TYPE_IPv4) eqn:E4.
  { to_prop. by rewrite inner_ipv4_type_eq. }
  unfold frame_class. rewrite E4.
  destruct (_ =? ETHER_TYPE_IPv6).
  { rewrite (ld1_head 78 m 20), (ld1_head 78 m 21) by lia. res_simpl.
    destruct (_ =? IPPROTO_ICMPV6); [|done]. by case_if. }
  destruct (_ =? ETHER_TYPE_ARP); [done|]. by destruct (_ =? ETHER_TYPE_VLAN).
Qed.

(** ** Properties *)

(** C15: [_checksum] (32-bit accumulation, carries folded at the end) computes,
    in its low 16 bits, the RFC 1071 checksum (end-around carry at every step)
    of every even-length block that fits its 16-bit length. *)
Theorem checksum_is_rfc1071 bs :
  bytes_ok bs -> Nat.Even (length bs) -> zlen bs < 65536 ->
  exists v, _checksum bs (zlen bs) 0 = Ok v /\ _wrapsum v = htons (rfc1071 bs).
Proof.
  intros Hb He Hl. destruct (checksum_ref bs Hb He Hl) as (v & E & Ev).
  exists v. split; [done|]. unfold _wrapsum. by rewrite Ev.
Qed.

Lemma checksum_is_rfc1071_witness :
  exists v, _checksum [0x45; 0; 0; 0x30; 0x80; 1; 0xff; 0xff] 8 0 = Ok v /\ _wrapsum v = 0xce3a.
Proof.
  destruct (checksum_is_rfc1071 [0x45; 0; 0; 0x30; 0x80; 1; 0xff; 0xff]) as (v & E & Ev).
  - repeat (constructor; [unfold byte_ok; lia|]). constructor.
  - by exists 4%nat.
  - cbn. lia.
  - exists v. split; [exact E|]. rewrite Ev. vm_compute. reflexivity.
Defined.

(** [is_pdu] answers DECAP exactly for IPv4/UDP frames to port 2152 whose
    GTP-U message type is G-PDU, [is_user] answers ENCAP exactly for IPv4 frames
    to 10.0.0.0/8, and neither reads outside a buffer with 50 bytes left. *)
Theorem tunnel_classification m :
  bytes_ok (buf m) -> 0 <= data_off m -> data_off m + 50 <= zlen (buf m) ->
  is_pdu m = Ok (if gpdu_frame (head_bytes 50 m) then DECAP else PASS) /\
  is_user m = Ok (if user_frame (head_bytes 34 m) then ENCAP else PASS).
Proof. intros. split; [by apply is_pdu_eq|apply is_user_eq; [done|lia..]]. Qed.

(** [is_arp_or_innericmp] lets exactly the control traffic through: eBGP
    and ICMP not addressed to a user, BFD with TTL 255, OSPF, link-local
    ICMPv6 and non-IP frames; VLAN frames are reported, the rest is tunnelled. *)
Theorem control_traffic_passes `{Dpdk} m :
  bytes_ok (buf m) -> 0 <= data_off m -> data_off m + 78 <= zlen (buf m) ->
  Z.land RTE_PTYPE_L2_MASK (packet_type m) = RTE_PTYPE_L2_ETHER ->
  is_arp_or_innericmp m = Ok (frame_class (head_bytes 78 m)).
Proof. intros ??? Ht. apply is_arp_or_innericmp_eq; auto. Qed.

(** The concrete DPDK of the witnesses. *)
#[export] Existing Instance DpdkModel.dpdk_ok.

(** A frame for the witnesses: IPv4/UDP to 10.1.2.3, port 2152, a G-PDU. *)
Definition sample_frame : list Z :=
  [2;0;0;0;0;1; 2;0;0;0;0;2; 8;0] ++
  [0x45;0; 0;92; 0;1; 0;0; 64;17; 0;0; 192;168;0;1; 10;1;2;3] ++
  [8;104; 8;104; 0;72; 0;0] ++ [0x30;255; 0;56; 0;0;1;2] ++ repeat 7 28.
Definition sample_mbuf : rte_mbuf :=
  mk_mbuf 1 (repeat 0 128 ++ sample_frame ++ repeat 0 64) 128 (zlen sample_frame)
    (zlen sample_frame) 1 None 1 0.

Lemma sample_mbuf_wf : mbuf_wf sample_mbuf.
Proof.
  constructor; try (vm_compute; congruence). apply bytes_okb_ok. by vm_compute.
Qed.

Lemma tunnel_classification_witness : is_pdu sample_mbuf = Ok DECAP /\ is_user sample_mbuf = Ok ENCAP.
Proof.
  destruct (tunnel_classification sample_mbuf) as [H1 H2].
  - apply sample_mbuf_wf.
  - vm_compute. congruence.
  - vm_compute. congruence.
  - rewrite H1, H2. vm_compute. split; reflexivity.
Defined.

Lemma control_traffic_passes_witness :
  is_arp_or_innericmp (D := DpdkModel.dpdk) sample_mbuf = Ok ENCAP.
Proof.
  rewrite control_traffic_passes.
  - vm_compute. reflexivity.
  - apply sample_mbuf_wf.
  - vm_compute. congruence.
  - vm_compute. congruence.
  - reflexivity.
Defined.

(** [error_indicate] turns a G-PDU of at least 62 bytes into exactly the
    Error Indication frame: MAC and IP addresses swapped, lengths set, TEID 0,
    the TEID and the peer address of the cause in the information elements.
    Both UDP ports become the old destination port. *)
Theorem error_indicate_layout `{DpdkOk} m :
  mbuf_wf m -> 62 <= data_len m ->
  exists m', error_indicate m = Ok m' /\ pkt_data m' = errind_frame (pkt_data m) /\ mbuf_wf m'.
Proof.
  intros Hw Hl. destruct (error_indicate_frame m Hw Hl) as (b & E & Eb & Lb & Ob).
  eexists. split; [exact E|]. split; [exact Eb|].
  destruct Hw. constructor; mem_cbn; try done; lia.
Qed.

Lemma error_indicate_layout_witness :
  exists m', error_indicate (D := DpdkModel.dpdk) sample_mbuf = Ok m' /\
    zlen (pkt_data m') = 62 /\ mbuf_wf m'.
Proof.
  destruct (error_indicate_layout (D := DpdkModel.dpdk) sample_mbuf) as (m' & E & Ep & Hw).
  - apply sample_mbuf_wf.
  - vm_compute. congruence.
  - exists m'. split; [exact E|]. split; [rewrite Ep; vm_compute; reflexivity|exact Hw].
Defined.

(** a G-PDU shorter than 62 bytes makes [error_indicate] end the whole
    process: the trim length wraps around 16 bits, [rte_pktmbuf_trim] fails and
    [rte_panic] is called. *)
Theorem error_indicate_short_panics `{DpdkOk} m :
  mbuf_wf m -> data_len m < 62 -> error_indicate m = Fault RtePanic.
Proof. apply error_indicate_short. Qed.

Lemma error_indicate_short_panics_witness :
  error_indicate (D := DpdkModel.dpdk) (set_bounds 128 60 60 sample_mbuf) = Fault RtePanic.
Proof.
  apply (error_indicate_short_panics (D := DpdkModel.dpdk)).
  - pose proof sample_mbuf_wf as []. constructor; try done; vm_compute; congruence.
  - vm_compute. reflexivity.
Defined.
