(* ===== verification/LookupTpl.v ===== *)
(** * The double-buffered lookup table

    [Lookup<T,S,K>] of dataplane/inc/lookup_tpl.hpp and lookup_tpl.hh: every slot
    has an A and a B cell and one bit of a bitmap that says which of the two is
    published (bit set: A; bit clear: B).  A writer fills the other cell and then
    flips the bit.

    [Add] and [Del] are given as the writes they make, in order ([Add_writes],
    [Del_writes]).  The file ends with the contract of the table: a sequence of these
    operations refines a finite map (Section [Refinement]), and broken off between any
    two writes it shows every reader whole entries (atomic publication). *)

From S2P Require Import Prelude.

(** ** What the template needs of its element type: [stat.valid] and [memset 0] *)
Class Entry (T : Type) := {
  stat_valid : T -> Z;
  set_stat_valid : Z -> T -> T;
  zero_entry : T;
  valid_set v t : stat_valid (set_stat_valid v t) = wrap 1 v;
  set_set v v' t : set_stat_valid v (set_stat_valid v' t) = set_stat_valid v t;
}.

Module Lookup.
Definition STAT_ON := 0.
Definition STAT_OFF := 1.

(** An iterator is a pointer to a cell or to [end_]. *)
Inductive Iterator :=
| side_a (i : Z)
| side_b (i : Z)
| end_.

(** What an update writes, one store (or [memcpy]) at a time: a cell, a word of the
    bitmap, the clock of the last guarded update. *)
Inductive write (T : Type) :=
| WCell (it : Iterator) (x : T)
| WWord (i w : Z)
| WPrv (p : Z).
Arguments WCell {T} _ _.
Arguments WWord {T} _ _.
Arguments WPrv {T} _.

#[global] Instance Iterator_eq_dec : EqDecision Iterator.
Proof. solve_decision. Defined.

Record Lookup (T : Type) := mk {
  data_side_a_ : list T;
  data_side_b_ : list T;
  data_side_bmp_ : list Z;
  virtual_clock_counter_ : Z;
  virtual_clock_counter_prv_ : Z;
}.
Arguments mk {T} _ _ _ _ _.
Arguments data_side_a_ {T} _.
Arguments data_side_b_ {T} _.
Arguments data_side_bmp_ {T} _.
Arguments virtual_clock_counter_ {T} _.
Arguments virtual_clock_counter_prv_ {T} _.

Section ops.
Context {T : Type} `{Entry T} (S : Z).
Implicit Types (st : Lookup T).

(** Reads and writes through a pointer. *)
Definition deref_it (it : Iterator) st : res T :=
  match it with
  | side_a i => deref (data_side_a_ st !! Z.to_nat i)
  | side_b i => deref (data_side_b_ st !! Z.to_nat i)
  | end_ => Ok zero_entry
  end.

Definition store_it (it : Iterator) (x : T) st : Lookup T :=
  match it with
  | side_a i => mk (<[Z.to_nat i := x]> (data_side_a_ st)) (data_side_b_ st) (data_side_bmp_ st)
                  (virtual_clock_counter_ st) (virtual_clock_counter_prv_ st)
  | side_b i => mk (data_side_a_ st) (<[Z.to_nat i := x]> (data_side_b_ st)) (data_side_bmp_ st)
                  (virtual_clock_counter_ st) (virtual_clock_counter_prv_ st)
  | end_ => st
  end.

(** The constructor allocates the cells and clears them. *)
Definition Clear : Lookup T :=
  let cleared := replicate (Z.to_nat S) (set_stat_valid STAT_OFF zero_entry) in
  mk cleared cleared (replicate (Z.to_nat (Z.shiftr S 6)) 0) 0 0.
Definition Create : Lookup T := Clear.

Definition Clock st : Lookup T :=
  mk (data_side_a_ st) (data_side_b_ st) (data_side_bmp_ st)
    (u64 (virtual_clock_counter_ st + 1)) (virtual_clock_counter_prv_ st).

(** [((uint64_t)1)<<(gcnt - ((gcnt>>6)<<6))] *)
Definition bits (gcnt : Z) : Z :=
  u64 (Z.shiftl 1 (gcnt - Z.shiftl (Z.shiftr gcnt 6) 6)).
Definition bmp_word (gcnt : Z) st : res Z :=
  deref (data_side_bmp_ st !! Z.to_nat (Z.shiftr gcnt 6)).

(** [flag] non-zero: the back side, whatever its state; zero: the front side if
    it is valid. *)
Definition Find (gcnt flag : Z) st : res Iterator :=
  if S - 1 <? gcnt then Ok end_
  else
    word ← bmp_word gcnt st;
    if negb (flag =? 0) then
      if Z.land word (bits gcnt) =? 0 then Ok (side_a gcnt) else Ok (side_b gcnt)
    else if negb (Z.land word (bits gcnt) =? 0) then
      x ← deref_it (side_a gcnt) st;
      if stat_valid x =? STAT_ON then Ok (side_a gcnt) else Ok end_
    else
      x ← deref_it (side_b gcnt) st;
      if stat_valid x =? STAT_ON then Ok (side_b gcnt) else Ok end_.

(** One write takes effect; a sequence of them. *)
Definition perform (w : write T) st : Lookup T :=
  match w with
  | WCell it x => store_it it x st
  | WWord i w => mk (data_side_a_ st) (data_side_b_ st) (<[Z.to_nat i := w]> (data_side_bmp_ st))
                   (virtual_clock_counter_ st) (virtual_clock_counter_prv_ st)
  | WPrv p => mk (data_side_a_ st) (data_side_b_ st) (data_side_bmp_ st) (virtual_clock_counter_ st) p
  end.
Definition performs (ws : list (write T)) st : Lookup T := foldl (fun st w => perform w st) st ws.

Definition swap_write (gcnt : Z) st : res (write T) :=
  word ← bmp_word gcnt st; Ok (WWord (Z.shiftr gcnt 6) (Z.lxor word (bits gcnt))).
Definition SwapSide (gcnt : Z) st : res (Lookup T) := w ← swap_write gcnt st; Ok (perform w st).

(** [operator[]]: the reference it returns, and the table after the call. *)
Definition index_op (gcnt : Z) st : res (Iterator * Lookup T) :=
  if S - 1 <? gcnt then Fault CppThrow
  else
    it ← Find gcnt 0 st;
    if bool_decide (it <> end_) then
      x ← deref_it it st;
      Ok (it, store_it it (set_stat_valid STAT_ON x) st)
    else
      it ← Find gcnt 1 st;
      if bool_decide (it = end_) then Fault CppThrow
      else
        x ← deref_it it st;
        st' ← SwapSide gcnt (store_it it (set_stat_valid STAT_ON x) st);
        Ok (it, st').

(** The virtual-clock guard of [Add] and [Del]: [None] is the early return. *)
Definition clock_guard (nochk_counter : Z) st : option (list (write T)) :=
  if negb (nochk_counter =? 0) then
    if virtual_clock_counter_ st <=? virtual_clock_counter_prv_ st then None
    else Some [WPrv (virtual_clock_counter_ st)]
  else Some [].

(** [Add]: the result code and its writes, in order; it also marks the caller's item
    valid. *)
Definition Add_writes (gcnt : Z) (itm : T) (nochk_counter : Z) st : res (Z * list (write T)) :=
  match clock_guard nochk_counter st with
  | None => Ok (-1, [])
  | Some ws =>
      let st := performs ws st in
      let itm := set_stat_valid STAT_ON itm in
      it ← Find gcnt 1 st;
      if bool_decide (it = end_) then Fault CppThrow
      else
        let w := WCell it itm in
        s ← swap_write gcnt (perform w st);
        Ok (0, ws ++ [w; s])
  end.
Definition Add (gcnt : Z) (itm : T) (nochk_counter : Z) st : res (Z * Lookup T) :=
  '(rc, ws) ← Add_writes gcnt itm nochk_counter st; Ok (rc, performs ws st).

Definition Del_writes (gcnt : Z) (nochk_counter : Z) st : res (Z * list (write T)) :=
  match clock_guard nochk_counter st with
  | None => Ok (-1, [])
  | Some ws =>
      let st := performs ws st in
      it ← Find gcnt 1 st;
      if bool_decide (it = end_) then Fault CppThrow
      else
        x ← deref_it it st;
        let w := WCell it (set_stat_valid STAT_OFF x) in
        s ← swap_write gcnt (perform w st);
        Ok (0, ws ++ [w; s])
  end.
Definition Del (gcnt : Z) (nochk_counter : Z) st : res (Z * Lookup T) :=
  '(rc, ws) ← Del_writes gcnt nochk_counter st; Ok (rc, performs ws st).

(** One slot of [EnumerateForUpdate]: copy front to back, update it, mark it. *)
Definition enumerate_slot {U} (func : T -> U -> T * U) (s : Lookup T * U) (gcnt : Z)
    : res (Lookup T * U) :=
  let '(st, udata) := s in
  word ← bmp_word gcnt st;
  if negb (Z.land word (bits gcnt) =? 0) then
    x ← deref_it (side_a gcnt) st;
    _ ← deref_it (side_b gcnt) st;
    let '(x, udata) := func x udata in
    Ok (store_it (side_b gcnt) (set_stat_valid STAT_ON x) st, udata)
  else
    x ← deref_it (side_b gcnt) st;
    _ ← deref_it (side_a gcnt) st;
    let '(x, udata) := func x udata in
    Ok (store_it (side_a gcnt) (set_stat_valid STAT_ON x) st, udata).

(** The loop starts at slot 1; the bitmap is complemented whole. *)
Definition EnumerateForUpdate {U} (func : T -> U -> T * U) (udata : U) st
    : res (Lookup T * U) :=
  s ← foldM (enumerate_slot func) (seqZ 1 (S - 1)) (st, udata);
  let '(st, udata) := s in
  Ok (mk (data_side_a_ st) (data_side_b_ st)
        ((fun w => Z.lxor w (2 ^ 64 - 1)) <$> data_side_bmp_ st)
        (virtual_clock_counter_ st) (virtual_clock_counter_prv_ st), udata).

(** What a reader gets for a key: the entry [Find(key, 0)] points at. *)
Definition read (gcnt : Z) st : res (option T) :=
  it ← Find gcnt 0 st;
  if bool_decide (it = end_) then Ok None else x ← deref_it it st; Ok (Some x).
End ops.

(** ** The state of a slot *)
Section slots.
Context {T : Type} `{Entry T} (S : Z).
Context (S_64 : S mod 64 = 0).
Implicit Types (st : Lookup T) (k : Z).

Record wf st : Prop := {
  wf_a : zlen (data_side_a_ st) = S;
  wf_b : zlen (data_side_b_ st) = S;
  wf_bmp : zlen (data_side_bmp_ st) = S / 64;
}.

Definition word k st : Z := data_side_bmp_ st !!! Z.to_nat (k / 64).
(** The published side of a slot: A when the bit is set. *)
Definition side k st : bool := Z.testbit (word k st) (k mod 64).
Definition front_it k st : Iterator := if side k st then side_a k else side_b k.
Definition back_it k st : Iterator := if side k st then side_b k else side_a k.
Definition cell (it : Iterator) st : option T :=
  match it with
  | side_a i => data_side_a_ st !! Z.to_nat i
  | side_b i => data_side_b_ st !! Z.to_nat i
  | end_ => None
  end.
Definition front k st : option T := cell (front_it k st) st.

Lemma shiftr_6 k : Z.shiftr k 6 = k / 64.
Proof. by rewrite Z.shiftr_div_pow2. Qed.

Lemma bits_eq k : 0 <= k -> bits k = 2 ^ (k mod 64).
Proof.
  intros Hk. unfold bits. rewrite shiftr_6, (Z.shiftl_mul_pow2 (k / 64)) by lia.
  change (2 ^ 6) with 64.
  replace (k - k / 64 * 64) with (k mod 64) by (pose proof (Z.div_mod k 64); lia).
  pose proof (Z.mod_pos_bound k 64). rewrite Z.shiftl_1_l. apply wrap_small.
  split; [apply Z.pow_nonneg; lia|]. apply Z.pow_lt_mono_r; lia.
Qed.

Lemma land_pow2_eqb w i : 0 <= i -> (Z.land w (2 ^ i) =? 0) = negb (Z.testbit w i).
Proof.
  intros Hi. destruct (Z.testbit w i) eqn:E; cbn.
  - apply Z.eqb_neq. intros E0. apply (f_equal (fun z => Z.testbit z i)) in E0.
    rewrite Z.land_spec, E, Z.pow2_bits_true, Z.bits_0 in E0 by lia. done.
  - apply Z.eqb_eq. apply Z.bits_inj'. intros j Hj. rewrite Z.land_spec, Z.bits_0.
    rewrite Z.pow2_bits_eqb by lia. destruct (i =? j) eqn:Ej; [|by rewrite andb_false_r].
    to_prop. subst. by rewrite E.
Qed.

Lemma div64_range k : 0 <= k < S -> 0 <= k / 64 < S / 64.
Proof.
  intros. split; [apply Z.div_pos; lia|]. pose proof (Z.div_mod S 64). pose proof (Z.div_mod k 64).
  pose proof (Z.mod_pos_bound k 64). lia.
Qed.

Lemma bmp_word_eq k st : wf st -> 0 <= k < S -> bmp_word k st = Ok (word k st).
Proof.
  intros [] Hk. unfold bmp_word, word. rewrite shiftr_6. pose proof (div64_range k Hk).
  destruct (lookup_lt_is_Some_2 (data_side_bmp_ st) (Z.to_nat (k / 64))) as [w E]; [lia|].
  rewrite (list_lookup_total_correct _ _ _ E), E. done.
Qed.

Lemma test_side k st : 0 <= k -> (Z.land (word k st) (bits k) =? 0) = negb (side k st).
Proof.
  intros. rewrite bits_eq by done. apply land_pow2_eqb. pose proof (Z.mod_pos_bound k 64). lia.
Qed.

Lemma cell_some it st k :
  wf st -> 0 <= k < S -> it = side_a k \/ it = side_b k ->
  exists x, cell it st = Some x /\ deref_it it st = Ok x.
Proof.
  intros [] Hk [->| ->]; unfold cell, deref_it.
  - destruct (lookup_lt_is_Some_2 (data_side_a_ st) (Z.to_nat k)) as [x E]; [lia|]. rewrite E. eauto.
  - destruct (lookup_lt_is_Some_2 (data_side_b_ st) (Z.to_nat k)) as [x E]; [lia|]. rewrite E. eauto.
Qed.

Lemma front_back_sides k st :
  (front_it k st = side_a k \/ front_it k st = side_b k) /\
  (back_it k st = side_a k \/ back_it k st = side_b k).
Proof. unfold front_it, back_it. destruct (side k st); auto. Qed.

Lemma front_some k st : wf st -> 0 <= k < S -> exists x, front k st = Some x.
Proof.
  intros Hw Hk. destruct (cell_some (front_it k st) st k Hw Hk) as (x & E & _); [|by exists x].
  apply front_back_sides.
Qed.

(** [Find] in terms of the sides. *)
Lemma Find_back k st : wf st -> 0 <= k < S -> Find S k 1 st = Ok (back_it k st).
Proof.
  intros Hw Hk. unfold Find. rewrite (proj2 (Z.ltb_ge _ _)) by lia.
  rewrite bmp_word_eq by done. res_simpl. cbn. rewrite test_side by lia.
  unfold back_it. by destruct (side k st).
Qed.

Lemma Find_front k st x :
  wf st -> 0 <= k < S -> front k st = Some x ->
  Find S k 0 st = Ok (if stat_valid x =? STAT_ON then front_it k st else end_).
Proof.
  intros Hw Hk Hx. unfold Find. rewrite (proj2 (Z.ltb_ge _ _)) by lia.
  rewrite bmp_word_eq by done. res_simpl. cbn [Z.eqb negb].
  rewrite test_side by lia. rewrite negb_involutive.
  destruct (cell_some (front_it k st) st k Hw Hk) as (y & E1 & E2); [apply front_back_sides|].
  unfold front in Hx. rewrite E1 in Hx. injection Hx as ->.
  unfold front_it in *. destruct (side k st); rewrite E2; res_simpl; by case_if.
Qed.

Lemma read_eq k st x :
  wf st -> 0 <= k < S -> front k st = Some x ->
  read S k st = Ok (if stat_valid x =? STAT_ON then Some x else None).
Proof.
  intros Hw Hk Hx. unfold read. rewrite (Find_front k st x) by done. res_simpl.
  destruct (stat_valid x =? STAT_ON); [|done].
  destruct (cell_some (front_it k st) st k Hw Hk) as (y & E1 & E2); [apply front_back_sides|].
  rewrite bool_decide_eq_false_2 by (unfold front_it; by destruct (side k st)).
  rewrite E2. unfold front in Hx. rewrite E1 in Hx. injection Hx as ->. done.
Qed.

Lemma store_wf it x st : wf st -> wf (store_it it x st).
Proof. intros []. destruct it; constructor; cbn; rewrite ?length_insert; done. Qed.

Lemma side_store it x k st : side k (store_it it x st) = side k st.
Proof. by destruct it. Qed.

Lemma cell_store_same k it x st :
  wf st -> 0 <= k < S -> it = side_a k \/ it = side_b k -> cell it (store_it it x st) = Some x.
Proof. intros [] ? [->| ->]; cbn; rewrite list_lookup_insert_eq; auto; lia. Qed.

Lemma cell_store_other it it' x k k' st :
  0 <= k -> 0 <= k' -> it = side_a k \/ it = side_b k -> it' = side_a k' \/ it' = side_b k' ->
  it <> it' -> cell it' (store_it it x st) = cell it' st.
Proof.
  intros ?? [->| ->] [->| ->] Hn; cbn; try done; rewrite list_lookup_insert_ne; auto;
    intros E; apply Hn; f_equal; lia.
Qed.

(** Writing the back cell changes no published entry, whatever is written. *)
Lemma back_store_front k x k' st :
  0 <= k -> 0 <= k' -> front k' (store_it (back_it k st) x st) = front k' st.
Proof.
  intros Hk Hk'. unfold front, front_it. rewrite side_store.
  eapply (cell_store_other _ _ _ k k'); try lia.
  - apply front_back_sides.
  - destruct (side k' st); auto.
  - unfold back_it. intros E. destruct (side k st) eqn:E1, (side k' st) eqn:E2; try done;
      injection E as ->; congruence.
Qed.

Lemma testbit_lxor_pow2 w i j :
  0 <= i -> 0 <= j -> Z.testbit (Z.lxor w (2 ^ i)) j = xorb (Z.testbit w j) (i =? j).
Proof. intros. by rewrite Z.lxor_spec, Z.pow2_bits_eqb. Qed.

Lemma SwapSide_ok k st :
  wf st -> 0 <= k < S ->
  exists st', SwapSide k st = Ok st' /\ wf st' /\
    data_side_a_ st' = data_side_a_ st /\ data_side_b_ st' = data_side_b_ st /\
    virtual_clock_counter_ st' = virtual_clock_counter_ st /\
    virtual_clock_counter_prv_ st' = virtual_clock_counter_prv_ st /\
    forall k', 0 <= k' < S -> side k' st' = xorb (side k' st) (k =? k').
Proof.
  intros Hw Hk. unfold SwapSide, swap_write. rewrite bmp_word_eq by done. res_simpl.
  pose proof (div64_range k Hk) as Hr.
  eexists. split; [done|]. split_and!; try done.
  { destruct Hw. constructor; cbn; rewrite ?length_insert; done. }
  intros k' Hk'. pose proof (div64_range k' Hk') as Hr'. unfold side, word. cbn.
  rewrite shiftr_6, bits_eq by lia.
  pose proof (Z.mod_pos_bound k 64). pose proof (Z.mod_pos_bound k' 64).
  pose proof (Z.div_mod k 64). pose proof (Z.div_mod k' 64).
  destruct (decide (k / 64 = k' / 64)) as [E|E].
  - rewrite <-E. rewrite list_lookup_total_insert_eq by (destruct Hw; lia).
    rewrite testbit_lxor_pow2 by lia. f_equal. apply eq_true_iff_eq. rewrite !Z.eqb_eq. lia.
  - rewrite list_lookup_total_insert_ne by lia.
    rewrite (proj2 (Z.eqb_neq k k')) by congruence. by rewrite xorb_false_r.
Qed.

(** Filling the back cell and flipping the bit publishes exactly that entry. *)
Lemma publish_ok k x st :
  wf st -> 0 <= k < S ->
  exists st', SwapSide k (store_it (back_it k st) x st) = Ok st' /\ wf st' /\
    virtual_clock_counter_ st' = virtual_clock_counter_ st /\
    virtual_clock_counter_prv_ st' = virtual_clock_counter_prv_ st /\
    front k st' = Some x /\ front_it k st' = back_it k st /\
    (forall it, cell it st' = cell it (store_it (back_it k st) x st)) /\
    forall k', 0 <= k' < S -> k' <> k -> front k' st' = front k' st.
Proof.
  intros Hw Hk. set (st1 := store_it _ _ _).
  assert (Hw1 : wf st1) by by apply store_wf.
  destruct (SwapSide_ok k st1 Hw1 Hk) as (st' & E & Hw' & Ea & Eb & Ec & Ep & Hs).
  assert (Hc : forall it, cell it st' = cell it st1) by (intros []; cbn; congruence).
  assert (Hf : front_it k st' = back_it k st).
  { unfold front_it, back_it. rewrite (Hs k Hk), Z.eqb_refl. unfold st1. rewrite side_store.
    by destruct (side k st). }
  exists st'. split_and!; try done.
  - rewrite Ec. unfold st1. by destruct (back_it k st).
  - rewrite Ep. unfold st1. by destruct (back_it k st).
  - unfold front. rewrite Hc, Hf. eapply cell_store_same; [done|exact Hk|apply front_back_sides].
  - intros k' Hk' Hn. rewrite <-(back_store_front k x k' st) by lia. fold st1.
    unfold front, front_it. rewrite (Hs k' Hk'), (proj2 (Z.eqb_neq k k')) by congruence.
    rewrite xorb_false_r. apply Hc.
Qed.

Lemma read_out k st : S <= k -> read S k st = Ok None.
Proof. intros. unfold read, Find. rewrite (proj2 (Z.ltb_lt _ _)) by lia. done. Qed.

Lemma SwapSide_write k st st' : SwapSide k st = Ok st' -> exists w, swap_write k st = Ok w /\ st' = perform w st.
Proof. unfold SwapSide. destruct (swap_write k st) as [w|]; [|done]. intros [= <-]. by exists w. Qed.

(** The virtual-clock guard changes no entry. *)
Definition with_prv p st : Lookup T :=
  mk (data_side_a_ st) (data_side_b_ st) (data_side_bmp_ st) (virtual_clock_counter_ st) p.

(** [Add] and [Del] as sequences of writes: maybe the clock of the guard, the cell behind
    the published one, the flip. *)
Definition guard_writes (ws : list (write T)) : Prop := ws = [] \/ exists p, ws = [WPrv p].
Lemma guard_writes_state ws st : guard_writes ws -> exists p, performs ws st = with_prv p st.
Proof. intros [->|[p ->]]; [exists (virtual_clock_counter_prv_ st); by destruct st|by exists p]. Qed.
Lemma clock_guard_writes chk st ws : clock_guard chk st = Some ws -> guard_writes ws.
Proof. unfold clock_guard. repeat case_if; try done; intros [= <-]; [right; by eexists|by left]. Qed.
Inductive update (k : Z) st : list (write T) -> Prop :=
| no_update : update k st []
| update_at g x w : guard_writes g -> swap_write k (store_it (back_it k (performs g st)) x (performs g st)) = Ok w ->
    update k st (g ++ [WCell (back_it k (performs g st)) x; w]).
Lemma guarded_wf g st : guard_writes g -> wf st -> wf (performs g st).
Proof. intros Hg []. destruct (guard_writes_state g st Hg) as [p ->]. by constructor. Qed.
Lemma Add_update k x chk st : wf st -> 0 <= k < S -> exists rc ws, Add_writes S k x chk st = Ok (rc, ws) /\ update k st ws.
Proof.
  intros Hw Hk. unfold Add_writes. destruct (clock_guard chk st) as [g|] eqn:Eg; [|exists (-1), []; split; [done|constructor]].
  apply clock_guard_writes in Eg. pose proof (guarded_wf g st Eg Hw) as Hw'. cbv zeta. rewrite Find_back by done. res_simpl.
  rewrite bool_decide_eq_false_2 by (unfold back_it; by destruct (side k _)).
  destruct (publish_ok k (set_stat_valid STAT_ON x) (performs g st) Hw' Hk) as (st' & (w & Ew & _)%SwapSide_write & _).
  cbn [perform]. rewrite Ew. res_simpl. eexists _, _. split; [done|]. by constructor.
Qed.
Lemma Del_update k chk st : wf st -> 0 <= k < S -> exists rc ws, Del_writes S k chk st = Ok (rc, ws) /\ update k st ws.
Proof.
  intros Hw Hk. unfold Del_writes. destruct (clock_guard chk st) as [g|] eqn:Eg; [|exists (-1), []; split; [done|constructor]].
  apply clock_guard_writes in Eg. pose proof (guarded_wf g st Eg Hw) as Hw'. cbv zeta. rewrite Find_back by done. res_simpl.
  rewrite bool_decide_eq_false_2 by (unfold back_it; by destruct (side k _)).
  destruct (cell_some (back_it k (performs g st)) (performs g st) k Hw' Hk) as (y & _ & E2); [apply front_back_sides|]. rewrite E2. res_simpl.
  destruct (publish_ok k (set_stat_valid STAT_OFF y) (performs g st) Hw' Hk) as (st' & (w & Ew & _)%SwapSide_write & _).
  cbn [perform]. rewrite Ew. res_simpl. eexists _, _. split; [done|]. by constructor.
Qed.

(** [Add] and [Del] on the published entries. *)
Lemma Add_ok k x st :
  wf st -> 0 <= k < S ->
  exists st', Add S k x 0 st = Ok (0, st') /\ wf st' /\
    virtual_clock_counter_ st' = virtual_clock_counter_ st /\
    virtual_clock_counter_prv_ st' = virtual_clock_counter_prv_ st /\
    front k st' = Some (set_stat_valid STAT_ON x) /\
    forall k', 0 <= k' < S -> k' <> k -> front k' st' = front k' st.
Proof.
  intros Hw Hk. unfold Add, Add_writes. cbn [clock_guard Z.eqb negb performs foldl]. rewrite Find_back by done. res_simpl.
  rewrite bool_decide_eq_false_2 by (unfold back_it; by destruct (side k st)).
  destruct (publish_ok k (set_stat_valid STAT_ON x) st Hw Hk) as (st' & (w & E & ->)%SwapSide_write & ? & ? & ? & ? & _ & _ & ?).
  cbn [perform]. rewrite E. res_simpl. eauto 10.
Qed.

Lemma Del_ok k st :
  wf st -> 0 <= k < S ->
  exists st' y, Del S k 0 st = Ok (0, st') /\ wf st' /\
    virtual_clock_counter_ st' = virtual_clock_counter_ st /\
    virtual_clock_counter_prv_ st' = virtual_clock_counter_prv_ st /\
    front k st' = Some (set_stat_valid STAT_OFF y) /\
    back_it k st' = front_it k st /\ cell (front_it k st) st' = front k st /\
    forall k', 0 <= k' < S -> k' <> k -> front k' st' = front k' st.
Proof.
  intros Hw Hk. unfold Del, Del_writes. cbn [clock_guard Z.eqb negb performs foldl]. rewrite Find_back by done. res_simpl.
  rewrite bool_decide_eq_false_2 by (unfold back_it; by destruct (side k st)).
  destruct (cell_some (back_it k st) st k Hw Hk) as (y & _ & E2); [apply front_back_sides|].
  rewrite E2. res_simpl.
  destruct (publish_ok k (set_stat_valid STAT_OFF y) st Hw Hk) as (st' & (w & E & Est)%SwapSide_write & ? & ? & ? & ? & Hf & Hc & ?).
  cbn [perform]. rewrite E. res_simpl. unfold performs. cbn [app foldl perform]. rewrite <-Est. exists st', y. split_and!; try done.
  - unfold front_it, back_it in *. by destruct (side k st), (side k st').
  - rewrite Hc. rewrite <-(back_store_front k (set_stat_valid STAT_OFF y) k st) by lia.
    unfold front, front_it. by rewrite side_store.
Qed.

(** The guard. *)
Lemma guard_add k x chk st :
  Add S k x chk st =
    if negb (chk =? 0) then
      if virtual_clock_counter_ st <=? virtual_clock_counter_prv_ st then Ok (-1, st)
      else Add S k x 0 (with_prv (virtual_clock_counter_ st) st)
    else Add S k x 0 st.
Proof.
  unfold Add, Add_writes, clock_guard. destruct (negb (chk =? 0)); [|done]. case_if; [done|]. cbn [Z.eqb negb performs foldl perform].
  fold (with_prv (virtual_clock_counter_ st) st). destruct (Find _ _ _ _) as [it|]; [|done]. res_simpl. case_if; [done|]. by destruct (swap_write _ _).
Qed.

Lemma guard_del k chk st :
  Del S k chk st =
    if negb (chk =? 0) then
      if virtual_clock_counter_ st <=? virtual_clock_counter_prv_ st then Ok (-1, st)
      else Del S k 0 (with_prv (virtual_clock_counter_ st) st)
    else Del S k 0 st.
Proof.
  unfold Del, Del_writes, clock_guard. destruct (negb (chk =? 0)); [|done]. case_if; [done|]. cbn [Z.eqb negb performs foldl perform].
  fold (with_prv (virtual_clock_counter_ st) st). destruct (Find _ _ _ _) as [it|]; [|done]. res_simpl. case_if; [done|].
  destruct (deref_it _ _); [|done]. res_simpl. by destruct (swap_write _ _).
Qed.
(** *** Between the writes *)
(** A write is being made: a store is there or it is not, of a [memcpy] any part is. *)
Definition in_progress (w : write T) st st2 : Prop :=
  match w with WCell it _ => exists y, st2 = store_it it y st | _ => st2 = st \/ st2 = perform w st end.
Lemma read_same k k' st st2 : wf st -> wf st2 -> 0 <= k' -> (0 <= k' < S -> front k' st2 = front k' st) -> read S k' st2 = read S k' st.
Proof.
  intros Hw Hw2 Hk Hf. destruct (Z.lt_ge_cases k' S) as [Hlt|]; [|by rewrite !read_out].
  destruct (front_some k' st Hw) as [y Hy]; [done|]. rewrite !(read_eq k' _ y); try done. by rewrite Hf.
Qed.
Lemma read_back k y st k' : wf st -> 0 <= k -> 0 <= k' -> read S k' (store_it (back_it k st) y st) = read S k' st.
Proof. intros Hw Hk Hk'. apply (read_same k); [done|by apply store_wf|done|]. intros _. by apply back_store_front. Qed.
Lemma deref_cell it st st2 : it <> end_ -> cell it st2 = cell it st -> deref_it it st2 = deref_it it st.
Proof. intros Hn. destruct it; cbn; [by intros ->..|done]. Qed.
(** What a reader has found is not the cell an update writes. *)
Lemma found_front k' st it : wf st -> 0 <= k' -> Find S k' 0 st = Ok it -> it <> end_ -> it = front_it k' st /\ k' < S.
Proof.
  intros Hw Hk Hf Hn. destruct (Z.lt_ge_cases k' S) as [Hlt|Hge].
  - destruct (front_some k' st Hw) as [y Hy]; [done|]. rewrite (Find_front k' st y) in Hf by done. injection Hf as <-.
    by destruct (stat_valid y =? STAT_ON).
  - unfold Find in Hf. rewrite (proj2 (Z.ltb_lt _ _)) in Hf by lia. congruence.
Qed.
Lemma held_cell k k' y st : 0 <= k -> 0 <= k' -> cell (front_it k' st) (store_it (back_it k st) y st) = cell (front_it k' st) st.
Proof.
  intros Hk Hk'. pose proof (back_store_front k y k' st Hk Hk') as Hfr. unfold front in Hfr.
  assert (E : front_it k' (store_it (back_it k st) y st) = front_it k' st) by (unfold front_it; by rewrite side_store). by rewrite E in Hfr.
Qed.
(** The stages of an update. *)
Lemma update_stage k st ws ws1 w ws2 st2 : wf st -> 0 <= k < S -> update k st ws -> ws = ws1 ++ w :: ws2 -> in_progress w (performs ws1 st) st2 ->
  (st2 = performs ws st \/ forall k', 0 <= k' -> read S k' st2 = read S k' st) /\
  forall k', 0 <= k' -> cell (front_it k' st) st2 = cell (front_it k' st) st.
Proof.
  intros Hw Hk [|g x v Hg Hv] E Hp; [by destruct ws1|].
  destruct (guard_writes_state g st Hg) as [p Ep]. pose proof (guarded_wf g st Hg Hw) as Hw'. set (st0 := performs g st) in *.
  assert (Hr0 : forall k', read S k' st0 = read S k' st) by (intros k'; by rewrite Ep).
  assert (Hc0 : forall k', cell (front_it k' st) st0 = cell (front_it k' st) st) by (intros k'; by rewrite Ep).
  assert (Hf0 : forall k', front_it k' st0 = front_it k' st) by (intros k'; by rewrite Ep).
  assert (Hback : forall y, (forall k', 0 <= k' -> read S k' (store_it (back_it k st0) y st0) = read S k' st) /\
     forall k', 0 <= k' -> cell (front_it k' st) (store_it (back_it k st0) y st0) = cell (front_it k' st) st).
  { intros y. split; intros k' Hk'; [by rewrite read_back, Hr0 by (done || lia)|]. rewrite <-Hf0, held_cell, Hf0 by lia. apply Hc0. }
  assert (Hcase : (ws1 = [] /\ exists q, g = [WPrv q] /\ w = WPrv q) \/ (ws1 = g /\ w = WCell (back_it k st0) x) \/
     (ws1 = g ++ [WCell (back_it k st0) x] /\ w = v)).
  { destruct Hg as [Eg|[q Eg]]; rewrite Eg in E |- *; destruct ws1 as [|a [|b [|c ws1]]]; cbn in E; injection E; intros; subst; try done;
      try (by right; left); try (by right; right); try (by left; eauto); try (by destruct ws1). }
  destruct Hcase as [(-> & q & Eg & ->)|[[-> ->]|[-> ->]]].
  - cbn [performs foldl in_progress] in Hp. assert (Hq : st0 = perform (WPrv q) st) by (unfold st0; by rewrite Eg).
    split; [right; intros k' _|intros k' _]; destruct Hp as [->| ->]; rewrite <-?Hq; auto.
  - cbn [in_progress] in Hp. fold st0 in Hp. destruct Hp as [y ->]. destruct (Hback y). by split; [right|].
  - unfold performs in Hp. rewrite foldl_app in Hp. cbn [foldl perform] in Hp. fold (performs g st) in Hp. fold st0 in Hp.
    assert (Ee : performs (g ++ [WCell (back_it k st0) x; v]) st = perform v (store_it (back_it k st0) x st0)) by (unfold performs; by rewrite foldl_app).
    destruct (Hback x) as [Hb1 Hb2]. destruct v as [it z|i z|q]; cbn [in_progress] in Hp;
      [unfold swap_write in Hv; destruct (bmp_word _ _); discriminate Hv|..];
      (split; [destruct Hp as [->| ->]; [by right|by left]|]; intros k' Hk'; destruct Hp as [->| ->]; [by apply Hb2|]);
      rewrite <-(Hb2 k' Hk'); by destruct (front_it k' st).
Qed.
Lemma update_reads k st ws k' : wf st -> 0 <= k < S -> update k st ws -> 0 <= k' -> k' <> k -> read S k' (performs ws st) = read S k' st.
Proof.
  intros Hw Hk [|g x v Hg Hv] Hk' Hn; [done|]. destruct (guard_writes_state g st Hg) as [p Ep]. pose proof (guarded_wf g st Hg Hw) as Hw'.
  unfold performs at 1. rewrite foldl_app. cbn [foldl perform]. fold (performs g st).
  destruct (publish_ok k x (performs g st) Hw' Hk) as (st' & (w & Ew & ->)%SwapSide_write & Hw2 & _ & _ & _ & _ & _ & Ho).
  assert (w = v) as -> by congruence. rewrite (read_same k k' (performs g st) _ Hw' Hw2 Hk'); [by rewrite Ep|]. intros Hr. by apply Ho.
Qed.
End slots.


(** ** The contract: a finite map with a clock *)
Section Refinement.
Context {T : Type} `{Entry T} (S : Z).
Context (S_pos : 0 < S) (S_64 : S mod 64 = 0).

Inductive op :=
| OpAdd (k : Z) (itm : T) (nochk_counter : Z)
| OpDel (k : Z) (nochk_counter : Z)
| OpClock.

Definition op_key_ok (o : op) : Prop :=
  match o with OpAdd k _ _ | OpDel k _ => 0 <= k < S | OpClock => True end.

(** The implementation. *)
Definition exec (st : Lookup T) (o : op) : res (Lookup T) :=
  match o with
  | OpAdd k x chk => r ← Add S k x chk st; Ok r.2
  | OpDel k chk => r ← Del S k chk st; Ok r.2
  | OpClock => Ok (Clock st)
  end.

(** The specification: entries, clock, clock of the last guarded update. *)
Record spec := mk_spec { entries : gmap Z T; clock : Z; last : Z }.
Definition guarded (chk : Z) (f : gmap Z T -> gmap Z T) (s : spec) : spec :=
  if chk =? 0 then mk_spec (f (entries s)) (clock s) (last s)
  else if clock s <=? last s then s
  else mk_spec (f (entries s)) (clock s) (clock s).
Definition spec_exec (s : spec) (o : op) : spec :=
  match o with
  | OpAdd k x chk => guarded chk <[k := set_stat_valid STAT_ON x]> s
  | OpDel k chk => guarded chk (delete k) s
  | OpClock => mk_spec (entries s) (u64 (clock s + 1)) (last s)
  end.

Definition refines (st : Lookup T) (s : spec) : Prop :=
  wf S st /\ virtual_clock_counter_ st = clock s /\ virtual_clock_counter_prv_ st = last s /\
  forall k, 0 <= k < S -> exists x, front k st = Some x /\
    entries s !! k = if stat_valid x =? STAT_ON then Some x else None.

Lemma refines_init : refines (Create S) (mk_spec ∅ 0 0).
Proof.
  split_and!; [|done..|].
  - constructor; cbn; rewrite length_replicate; [lia..|]. rewrite shiftr_6.
    pose proof (Z.div_pos S 64). lia.
  - intros k Hk. exists (set_stat_valid STAT_OFF zero_entry). split.
    + unfold front, front_it, cell. destruct (side k _); cbn; apply lookup_replicate_2; lia.
    + by rewrite valid_set.
Qed.

Lemma refines_add k x st s :
  refines st s -> 0 <= k < S ->
  exists st', Add S k x 0 st = Ok (0, st') /\
    refines st' (mk_spec (<[k := set_stat_valid STAT_ON x]> (entries s)) (clock s) (last s)).
Proof.
  intros (Hw & Hc & Hp & Hr) Hk.
  destruct (Add_ok S S_64 k x st Hw Hk) as (st' & E & Hw' & Hc' & Hp' & Hf & Ho).
  exists st'. split; [done|]. split_and!; cbn; [done|congruence..|].
  intros k' Hk'. destruct (decide (k' = k)) as [->|Hn].
  - eexists. split; [done|]. by rewrite lookup_insert_eq, valid_set.
  - rewrite (Ho k' Hk' Hn), lookup_insert_ne by done. by apply Hr.
Qed.

Lemma refines_del k st s :
  refines st s -> 0 <= k < S ->
  exists st', Del S k 0 st = Ok (0, st') /\
    refines st' (mk_spec (delete k (entries s)) (clock s) (last s)).
Proof.
  intros (Hw & Hc & Hp & Hr) Hk.
  destruct (Del_ok S S_64 k st Hw Hk) as (st' & y & E & Hw' & Hc' & Hp' & Hf & _ & _ & Ho).
  exists st'. split; [done|]. split_and!; cbn; [done|congruence..|].
  intros k' Hk'. destruct (decide (k' = k)) as [->|Hn].
  - eexists. split; [done|]. by rewrite lookup_delete_eq, valid_set.
  - rewrite (Ho k' Hk' Hn), lookup_delete_ne by done. by apply Hr.
Qed.

Lemma refines_prv p st s : refines st s -> refines (with_prv p st) (mk_spec (entries s) (clock s) p).
Proof. intros ([] & Hc & Hp & Hr). split_and!; [constructor|..]; done. Qed.

(** One operation: the implementation returns and stays in the relation. *)
Lemma exec_refines st s o :
  refines st s -> op_key_ok o -> exists st', exec st o = Ok st' /\ refines st' (spec_exec s o).
Proof.
  intros Hr Hk. pose proof Hr as (Hw & Hc & Hp & Hf). destruct o as [k x chk|k chk|]; cbn in *.
  - rewrite guard_add. unfold guarded. destruct (chk =? 0); cbn [negb].
    + destruct (refines_add k x st s Hr Hk) as (st' & E & ?). rewrite E. res_simpl. eauto.
    + rewrite Hc, Hp. destruct (clock s <=? last s); res_simpl; [eauto|].
      destruct (refines_add k x _ _ (refines_prv (clock s) st s Hr) Hk) as (st' & E & ?).
      rewrite E. res_simpl. eauto.
  - rewrite guard_del. unfold guarded. destruct (chk =? 0); cbn [negb].
    + destruct (refines_del k st s Hr Hk) as (st' & E & ?). rewrite E. res_simpl. eauto.
    + rewrite Hc, Hp. destruct (clock s <=? last s); res_simpl; [eauto|].
      destruct (refines_del k _ _ (refines_prv (clock s) st s Hr) Hk) as (st' & E & ?).
      rewrite E. res_simpl. eauto.
  - eexists. split; [done|]. destruct Hw. split_and!; [constructor|..]; cbn; try done. by rewrite Hc.
Qed.

Lemma run_refines ops st s :
  refines st s -> Forall op_key_ok ops ->
  exists st', foldM exec ops st = Ok st' /\ refines st' (foldl spec_exec s ops).
Proof.
  intros Hr Ho. revert st s Hr. induction Ho as [|o ops Ho _ IH]; intros st s Hr; cbn [foldM foldl].
  - eauto.
  - destruct (exec_refines st s o Hr Ho) as (st1 & E & Hr1). rewrite E. res_simpl. by apply IH.
Qed.

Lemma refines_read st s k :
  refines st s -> 0 <= k < S -> read S k st = Ok (entries s !! k).
Proof.
  intros (Hw & _ & _ & Hf) Hk. destruct (Hf k Hk) as (x & Hx & ->).
  by apply (read_eq S S_64).
Qed.
End Refinement.

(** ** The batch update *)
Section Enumerate.
Context {T : Type} `{Entry T} (S : Z).
Context (S_64 : S mod 64 = 0).
Context (f : T -> T).
Implicit Types (st : Lookup T).
Abbreviation pure_update := (fun (x : T) (u : unit) => (f x, u)).

(** After slots 1..n: nothing published changed, the back cells are ready. *)
Definition prepared n st0 st : Prop :=
  wf S st /\ data_side_bmp_ st = data_side_bmp_ st0 /\
  (forall k, 0 <= k < S -> front k st = front k st0) /\
  cell (back_it 0 st0) st = cell (back_it 0 st0) st0 /\
  forall k x, 1 <= k < n -> front k st0 = Some x ->
    cell (back_it k st0) st = Some (set_stat_valid STAT_ON (f x)).

Lemma same_bmp_sides st st' k :
  data_side_bmp_ st' = data_side_bmp_ st ->
  side k st' = side k st /\ front_it k st' = front_it k st /\ back_it k st' = back_it k st.
Proof. intros E. unfold front_it, back_it, side, word. by rewrite E. Qed.

Lemma enumerate_slot_eq st u k x :
  wf S st -> 0 <= k < S -> front k st = Some x ->
  enumerate_slot pure_update (st, u) k =
    Ok (store_it (back_it k st) (set_stat_valid STAT_ON (f x)) st, u).
Proof.
  intros Hw Hk Hx. unfold enumerate_slot. rewrite (bmp_word_eq S S_64) by done. res_simpl.
  rewrite test_side by lia. rewrite negb_involutive.
  destruct (cell_some S (side_a k) st k Hw Hk) as (a & Ea & Da); [auto|].
  destruct (cell_some S (side_b k) st k Hw Hk) as (b & Eb & Db); [auto|].
  rewrite Da, Db. res_simpl. unfold front, front_it, back_it in *.
  destruct (side k st); congruence.
Qed.

Lemma prepared_step st0 st u n :
  prepared n st0 st -> 1 <= n < S ->
  exists st', enumerate_slot pure_update (st, u) n = Ok (st', u) /\ prepared (n + 1) st0 st'.
Proof.
  intros (Hw & Eb & Hf & H0 & Hp) Hn.
  destruct (front_some S n st Hw) as [x Hx]; [lia|].
  rewrite (enumerate_slot_eq st u n x) by (done || lia). eexists. split; [done|].
  assert (Hb : forall k, back_it k st = back_it k st0) by (intros; by apply same_bmp_sides).
  split_and!.
  - by apply store_wf.
  - rewrite <-Eb. by destruct (back_it n st).
  - intros k Hk. rewrite back_store_front by lia. by apply Hf.
  - rewrite <-H0. eapply (cell_store_other _ _ _ n 0); try lia; try apply front_back_sides.
    unfold back_it. intros E. destruct (side n st), (side 0 st0); congruence || (injection E; lia).
  - intros k y Hk Hy. destruct (decide (k = n)) as [->|Hkn].
    + rewrite <-Hb. rewrite (cell_store_same S n) by (done || lia || apply front_back_sides).
      rewrite Hf in Hx by lia. congruence.
    + rewrite <-(Hp k y) by (done || lia).
      eapply (cell_store_other _ _ _ n k); try lia; try apply front_back_sides.
      unfold back_it. intros E. destruct (side n st), (side k st0); congruence.
Qed.

Lemma prepared_loop st0 st u n m :
  prepared n st0 st -> 1 <= n -> 0 <= m -> n + m <= S ->
  exists st', foldM (enumerate_slot pure_update) (seqZ n m) (st, u) = Ok (st', u) /\
    prepared (n + m) st0 st'.
Proof.
  intros Hp Hn Hm Hs. revert n st Hp Hn Hs. pattern m. apply natlike_ind; [| |done].
  - intros n st Hp _ _. exists st. rewrite Z.add_0_r. done.
  - intros m' Hm' IH n st Hp Hn Hs. rewrite seqZ_cons by lia. cbn [foldM].
    destruct (prepared_step st0 st u n Hp) as (st1 & E & Hp1); [lia|].
    rewrite E. res_simpl. rewrite Z.pred_succ.
    destruct (IH (Z.succ n) st1) as (st' & E' & Hp'); [done|lia..|].
    exists st'. split; [done|]. by replace (n + Z.succ m') with (Z.succ n + m') by lia.
Qed.

(** The final complement of the bitmap flips every slot. *)
Lemma flip_all_side st k (a b : list T) c p :
  wf S st -> 0 <= k < S ->
  side k (mk a b ((fun w => Z.lxor w (2 ^ 64 - 1)) <$> data_side_bmp_ st) c p) = negb (side k st).
Proof.
  intros [] Hk. unfold side, word. cbn. pose proof (div64_range S S_64 k Hk).
  destruct (lookup_lt_is_Some_2 (data_side_bmp_ st) (Z.to_nat (k / 64))) as [w E]; [lia|].
  rewrite (list_lookup_total_correct _ _ _ E).
  rewrite (list_lookup_total_correct _ _ (Z.lxor w (2 ^ 64 - 1))) by (by rewrite list_lookup_fmap, E).
  pose proof (Z.mod_pos_bound k 64). rewrite Z.lxor_spec.
  change (2 ^ 64 - 1) with (Z.ones 64). rewrite testbit_ones by lia.
  rewrite bool_decide_eq_true_2 by lia. apply xorb_true_r.
Qed.

Lemma EnumerateForUpdate_ok st0 :
  0 < S -> wf S st0 ->
  exists st', EnumerateForUpdate S pure_update tt st0 = Ok (st', tt) /\
    (forall k x, 1 <= k < S -> front k st0 = Some x ->
       front k st' = Some (set_stat_valid STAT_ON (f x))) /\
    front 0 st' = cell (back_it 0 st0) st0.
Proof.
  intros HS Hw. unfold EnumerateForUpdate.
  destruct (prepared_loop st0 st0 tt 1 (S - 1)) as (st & E & Hw' & Eb & Hf & H0 & Hp);
    [split_and!; try done; intros; lia|lia..|].
  rewrite E. res_simpl. eexists. split; [done|].
  split.
  - intros k x Hk Hx. unfold front, front_it. rewrite flip_all_side by (done || lia).
    rewrite <-(Hp k x) by (done || lia). unfold back_it.
    destruct (same_bmp_sides st0 st k Eb) as (-> & _ & _). by destruct (side k st0).
  - unfold front, front_it. rewrite flip_all_side by (done || lia).
    rewrite <-H0. unfold back_it.
    destruct (same_bmp_sides st0 st 0 Eb) as (-> & _ & _). by destruct (side 0 st0).
Qed.
End Enumerate.
End Lookup.

(** ** The entry type of the data plane: [struct lookup] of core.hpp

    The policer fields exist in the builds with [ARCH>=15]. *)
Record lookup_t := mk_lookup {
  valid : Z;            (* stat.valid : 1 *)
  active : Z;           (* stat.active : 1 *)
  mode : Z;             (* stat.mode : 2 *)
  ue_ipv4 : Z;
  ue_teid : Z;
  sgw_gtpu_teid : Z;
  sgw_gtpu_ipv4 : Z;
  pgw_gtpu_ipv4 : Z;
  epoch_w : Z;
  commit_rate : Z;
  commit_burst_size : Z;
  commit_information_rate : Z;
  excess_rate : Z;
  excess_burst_size : Z;
  excess_information_rate : Z;
}.

#[export] Instance lookup_t_eq_dec : EqDecision lookup_t.
Proof. solve_decision. Defined.

Definition lookup_set_valid (v : Z) (t : lookup_t) : lookup_t :=
  mk_lookup (wrap 1 v) (active t) (mode t) (ue_ipv4 t) (ue_teid t) (sgw_gtpu_teid t)
    (sgw_gtpu_ipv4 t) (pgw_gtpu_ipv4 t) (epoch_w t) (commit_rate t) (commit_burst_size t)
    (commit_information_rate t) (excess_rate t) (excess_burst_size t) (excess_information_rate t).

Definition zero_lookup : lookup_t := mk_lookup 0 0 0 0 0 0 0 0 0 0 0 0 0 0 0.

#[export] Instance lookup_entry : Entry lookup_t := {|
  stat_valid := valid;
  set_stat_valid := lookup_set_valid;
  zero_entry := zero_lookup;
  valid_set v t := eq_refl;
  set_set v v' t := eq_refl;
|}.

(** ** Properties *)
Module Properties.
Import Lookup.

(** C8: the double-buffered table refines a finite map with a clock: after any
    sequence of [Add], [Del] and [Clock] with in-range keys, every call having
    returned, [Find] followed by a dereference reads exactly the map's entry
    (stale guarded updates rejected, [Del] removes, [Add] replaces). *)
Theorem lookup_refines_map {T} `{Entry T} (S : Z) (ops : list op) :
  0 < S -> S mod 64 = 0 -> Forall (op_key_ok S) ops ->
  exists st, foldM (exec S) ops (Create S) = Ok st /\
    forall k, 0 <= k -> read S k st =
      Ok (if k <? S then entries (foldl spec_exec (mk_spec ∅ 0 0) ops) !! k else None).
Proof.
  intros Hp H64 Ho.
  destruct (run_refines S H64 ops _ _ (refines_init S Hp) Ho) as (st & E & Hr).
  exists st. split; [done|]. intros k Hk. destruct (k <? S) eqn:Ek; to_prop.
  - apply (refines_read S H64); [done|lia].
  - by apply read_out.
Qed.

Lemma lookup_refines_map_witness :
  exists st, foldM (exec 128) [OpAdd 70 zero_lookup 0; OpAdd 3 zero_lookup 1; OpDel 5 0; OpClock;
      OpAdd 3 zero_lookup 1] (Create 128) = Ok st /\
    read 128 70 st = Ok (Some (lookup_set_valid 0 zero_lookup)) /\ read 128 5 st = Ok None.
Proof.
  destruct (lookup_refines_map 128 [OpAdd 70 zero_lookup 0; OpAdd 3 zero_lookup 1; OpDel 5 0;
    OpClock; OpAdd 3 zero_lookup 1]) as (st & E & Hr).
  - lia.
  - reflexivity.
  - repeat constructor; cbn; lia.
  - exists st. split; [exact E|]. rewrite !Hr by lia. split; vm_compute; reflexivity.
Defined.

(** An update of [k], with the writes it makes. *)
Inductive updates {T} `{Entry T} (S k : Z) (st : Lookup T) : list (write T) -> Lookup T -> Prop :=
| by_Add x chk rc ws st' : Add_writes S k x chk st = Ok (rc, ws) -> Add S k x chk st = Ok (rc, st') -> updates S k st ws st'
| by_Del chk rc ws st' : Del_writes S k chk st = Ok (rc, ws) -> Del S k chk st = Ok (rc, st') -> updates S k st ws st'.

(** C18: publication is atomic.  [Add] and [Del] write the guard's clock, the entry and the
    bitmap one after the other; at every moment of this, also while the entry is half
    copied, a reader gets for every key what it would have got before the call, or for every
    key what it will get after it, which differs in the key of the call only; and the
    entry a reader has found before the call stays as it was until the call is over. *)
Theorem publication_is_atomic {T} `{Entry T} (S k : Z) (st st' : Lookup T) (ws : list (write T)) :
  0 < S -> S mod 64 = 0 -> wf S st -> 0 <= k < S -> updates S k st ws st' ->
  st' = performs ws st /\
  (forall ws1 w ws2 st2, ws = ws1 ++ w :: ws2 -> in_progress w (performs ws1 st) st2 ->
     ((forall k', 0 <= k' -> read S k' st2 = read S k' st) \/ (forall k', 0 <= k' -> read S k' st2 = read S k' st')) /\
     (forall k' it, 0 <= k' -> Find S k' 0 st = Ok it -> it <> end_ -> deref_it it st2 = deref_it it st)) /\
  (forall k', 0 <= k' -> k' <> k -> read S k' st' = read S k' st).
Proof.
  intros HS H64 Hw Hk Hu.
  assert (update k st ws /\ st' = performs ws st) as [Hup ->].
  { destruct Hu as [x chk rc ws st' E1 E2|chk rc ws st' E1 E2].
    - destruct (Add_update S H64 k x chk st Hw Hk) as (rc' & ws' & E & Hup). rewrite E in E1. injection E1 as <- <-.
      unfold Add in E2. rewrite E in E2. by injection E2 as <-.
    - destruct (Del_update S H64 k chk st Hw Hk) as (rc' & ws' & E & Hup). rewrite E in E1. injection E1 as <- <-.
      unfold Del in E2. rewrite E in E2. by injection E2 as <-. }
  split; [done|]. split.
  - intros ws1 w ws2 st2 Ew Hp. destruct (update_stage S H64 k st ws ws1 w ws2 st2 Hw Hk Hup Ew Hp) as [Hr Hc]. split.
    + destruct Hr as [->|Hr]; [by right|by left].
    + intros k' it Hk' Hf Hn. destruct (found_front S H64 k' st it Hw Hk' Hf Hn) as [-> _]. apply deref_cell; [done|by apply Hc].
  - intros k'. by apply (update_reads S H64).
Qed.

(** A session in slot 7 is replaced; half of the new entry is there. *)
Definition session7 (ip : Z) : lookup_t := mk_lookup 0 1 0 ip 7 0 0 0 0 0 0 0 0 0 0.
Definition table7 : Lookup lookup_t := match Add 64 7 (session7 5) 0 (Create 64) with Ok (_, st) => st | Fault _ => Create 64 end.
Lemma publication_is_atomic_witness :
  exists w1 w2 st', updates 64 7 table7 [w1; w2] st' /\ (forall half, read 64 7 (store_it (back_it 7 table7) half table7) = Ok (Some (session7 5))) /\
    read 64 7 st' = Ok (Some (session7 6)) /\ deref_it (front_it 7 table7) st' = Ok (session7 5).
Proof.
  assert (Hw : wf 64 table7) by (constructor; vm_compute; reflexivity).
  set (w2 := @WWord lookup_t 0 0). set (st' := perform w2 (store_it (back_it 7 table7) (session7 6) table7)).
  assert (Hu : updates 64 7 table7 [WCell (back_it 7 table7) (session7 6); w2] st') by (apply (by_Add 64 7 table7 (session7 6) 0 0); vm_compute; reflexivity).
  assert (Hr : read 64 7 st' = Ok (Some (session7 6))) by (vm_compute; reflexivity). exists (WCell (back_it 7 table7) (session7 6)), w2, st'. split; [exact Hu|].
  destruct (publication_is_atomic 64 7 table7 st' _ ltac:(lia) eq_refl Hw ltac:(lia) Hu) as (Es & H1 & _). split; [|split; [exact Hr|]].
  - intros half. destruct (H1 [] _ [w2] (store_it (back_it 7 table7) half table7) eq_refl) as [_ H2]; [by exists half|].
    destruct (H1 [] _ [w2] (store_it (back_it 7 table7) half table7) eq_refl) as [[H3|H3] _]; [by exists half|..].
    + rewrite H3 by lia. vm_compute. reflexivity.
    + exfalso. specialize (H2 7 (front_it 7 table7) ltac:(lia) eq_refl ltac:(discriminate)). specialize (H3 7 ltac:(lia)). rewrite Hr in H3.
      unfold read in H3. change (Find 64 7 0 (store_it (back_it 7 table7) half table7)) with (Find 64 7 0 table7) in H3.
      change (Find 64 7 0 table7) with (Ok (front_it 7 table7)) in H3. cbn [mbind res_bind] in H3. rewrite bool_decide_eq_false_2 in H3 by discriminate.
      rewrite H2 in H3. vm_compute in H3. discriminate H3.
  - destruct (H1 [WCell (back_it 7 table7) (session7 6)] w2 [] st' eq_refl) as [_ H2].
    { by right. }
    rewrite (H2 7 (front_it 7 table7)); [vm_compute; reflexivity|lia|reflexivity|discriminate].
Defined.

(** [EnumerateForUpdate] publishes the updated copy of every slot from 1 on
    in one go and marks it valid whether or not it was; slot 0 is skipped by the
    loop but not by the flip, so its stale back cell becomes the published one. *)
Theorem enumerate_publishes_all {T} `{Entry T} (S : Z) (f : T -> T) (st : Lookup T) :
  0 < S -> S mod 64 = 0 -> wf S st ->
  exists st', EnumerateForUpdate S (fun x (u : unit) => (f x, u)) tt st = Ok (st', tt) /\
    (forall k x, 1 <= k < S -> front k st = Some x ->
       front k st' = Some (set_stat_valid STAT_ON (f x))) /\
    front 0 st' = cell (back_it 0 st) st.
Proof. intros HS H64 Hw. by apply EnumerateForUpdate_ok. Qed.

Lemma enumerate_publishes_all_witness :
  exists st', EnumerateForUpdate 64 (fun (x : lookup_t) (u : unit) => (x, u)) tt (Create 64)
      = Ok (st', tt) /\
    front 9 st' = Some zero_lookup /\ front 0 st' = Some (lookup_set_valid 1 zero_lookup).
Proof.
  destruct (enumerate_publishes_all 64 (fun x : lookup_t => x) (Create 64)) as (st' & E & H1 & H2).
  - lia.
  - reflexivity.
  - constructor; vm_compute; reflexivity.
  - exists st'. split; [exact E|]. split.
    + rewrite (H1 9 (lookup_set_valid 1 zero_lookup)) by (lia || reflexivity). reflexivity.
    + rewrite H2. reflexivity.
Defined.

(** [operator[]] on a deleted key brings the deleted entry back: after
    [Add k x; Del k] the key reads as absent, but the reference returned by
    [operator[]] is the old entry, marked valid and published again. *)
Theorem index_resurrects_deleted {T} `{Entry T} (S k : Z) (x : T) (st st1 st2 : Lookup T) :
  0 < S -> S mod 64 = 0 -> wf S st -> 0 <= k < S ->
  Add S k x 0 st = Ok (0, st1) -> Del S k 0 st1 = Ok (0, st2) ->
  read S k st2 = Ok None /\
  exists it st3, index_op S k st2 = Ok (it, st3) /\
    deref_it it st3 = Ok (set_stat_valid STAT_ON x) /\
    read S k st3 = Ok (Some (set_stat_valid STAT_ON x)).
Proof.
  intros HS H64 Hw Hk E1 E2.
  destruct (Add_ok S H64 k x st Hw Hk) as (st1' & E1' & Hw1 & _ & _ & Hf1 & _).
  rewrite E1 in E1'. injection E1' as <-.
  destruct (Del_ok S H64 k st1 Hw1 Hk) as (st2' & y & E2' & Hw2 & _ & _ & Hf2 & Hb & Hc & _).
  rewrite E2 in E2'. injection E2' as <-.
  assert (Hr : read S k st2 = Ok None) by (by rewrite (read_eq S H64 k st2 _ Hw2 Hk Hf2), valid_set).
  split; [done|]. unfold index_op. rewrite (proj2 (Z.ltb_ge _ _)) by lia.
  rewrite (Find_front S H64 k st2 _ Hw2 Hk Hf2), valid_set. cbn [STAT_OFF STAT_ON]. res_simpl.
  change (wrap 1 STAT_OFF =? STAT_ON) with false. cbv iota.
  rewrite bool_decide_eq_false_2 by (intros Hn; by apply Hn).
  rewrite (Find_back S H64 k st2 Hw2 Hk). res_simpl.
  rewrite bool_decide_eq_false_2 by (unfold back_it; by destruct (side k st2)).
  destruct (cell_some S (back_it k st2) st2 k Hw2 Hk) as (z & Ec & Ed); [apply front_back_sides|].
  rewrite Ed. res_simpl. rewrite Hb, Hc, Hf1 in Ec. injection Ec as <-. rewrite set_set.
  destruct (publish_ok S H64 k (set_stat_valid STAT_ON x) st2 Hw2 Hk)
    as (st3 & E3 & Hw3 & _ & _ & Hf3 & Hfi & _ & _).
  rewrite E3. res_simpl. eexists _, st3. split; [done|]. split.
  - destruct (cell_some S (back_it k st2) st3 k Hw3 Hk) as (z & Ec' & Ed'); [apply front_back_sides|].
    rewrite Ed'. unfold front in Hf3. rewrite Hfi, Ec' in Hf3. by injection Hf3 as ->.
  - by rewrite (read_eq S H64 k st3 _ Hw3 Hk Hf3), valid_set.
Qed.

Lemma index_resurrects_deleted_witness :
  exists st1 st2, Add 64 5 zero_lookup 0 (Create 64) = Ok (0, st1) /\ Del 64 5 0 st1 = Ok (0, st2) /\
    read 64 5 st2 = Ok None.
Proof.
  eexists _, _. split; [vm_compute; reflexivity|]. split; [vm_compute; reflexivity|].
  eapply (index_resurrects_deleted 64 5 zero_lookup (Create 64)).
  - lia.
  - reflexivity.
  - constructor; vm_compute; reflexivity.
  - lia.
  - vm_compute. reflexivity.
  - vm_compute. reflexivity.
Defined.
End Properties.
