(* ===== verification/CoreBase.v ===== *)
(** * The base of every core

    [CoreCounter] and [CoreInterface] of dataplane/inc/core.hpp and
    dataplane/src/core/cores.cc: the per-core configuration values, the drop
    counters, the output burst buffer ([SendOrBuffer], [BurstFlush]) and the
    prefetch-pipelined loop every worker runs over a dequeued burst.

    The message type is a parameter: packet cores move [rte_mbuf]s, counter
    cores also move counting messages.  The array [output_] and its fill level
    [output_cnt_] are the list of the entries in use; entries beyond
    [output_cnt_] are never read by the code.  A write behind the array is
    undefined behaviour.

    Ownership: [w_all] lists every object that is in some ring or was freed, so
    "no packet is lost or duplicated" is a permutation between the objects
    before and after an operation. *)

From S2P Require Import Prelude Dpdk Packet.

(** ** Everything the shared store holds *)
Section owned.
Context `{DpdkOk} {A : Type}.
Implicit Types (w : world A) (p : option Z) (l : list A).

Definition rings_objs (m : gmap Z (ring A)) : list A :=
  map_to_list m ≫= fun ir => ring_objs ir.2.
Definition w_all w : list A := w_freed w ++ rings_objs (w_rings w).

Lemma rings_objs_split (m : gmap Z (ring A)) i r :
  m !! i = Some r -> rings_objs m ≡ₚ ring_objs r ++ rings_objs (delete i m).
Proof.
  intros Hi. unfold rings_objs.
  rewrite <-(insert_delete_id m i r) at 1 by done.
  rewrite map_to_list_insert by apply lookup_delete_eq. done.
Qed.

Lemma w_ring_inv p w r : w_ring p w = Ok r -> exists id, p = Some id /\ w_rings w !! id = Some r.
Proof.
  destruct p as [id|]; [|done]. unfold w_ring. cbn.
  destruct (w_rings w !! id) as [r'|] eqn:E; cbn; [|done]. intros [= ->]. eauto.
Qed.

(** Replacing the contents of one ring. *)
Lemma w_all_set p w r r' l l' :
  w_ring p w = Ok r -> l ++ ring_objs r ≡ₚ l' ++ ring_objs r' ->
  l ++ w_all w ≡ₚ l' ++ w_all (w_set p r' w).
Proof.
  intros Hr Hp. destruct (w_ring_inv _ _ _ Hr) as (id & -> & Hi).
  unfold w_all. cbn [w_set w_rings w_freed].
  rewrite (rings_objs_split _ _ _ Hi).
  rewrite (rings_objs_split (<[id := r']> (w_rings w)) id r') by apply lookup_insert_eq.
  rewrite delete_insert_eq.
  rewrite !(Permutation_app_comm (w_freed w)), !app_assoc, Hp. done.
Qed.

Lemma w_all_free l w : w_all (w_free l w) ≡ₚ l ++ w_all w.
Proof.
  unfold w_all, w_free. cbn. by rewrite (Permutation_app_comm (w_freed w) l), <-app_assoc.
Qed.

Lemma w_all_enqueue_bulk p l w ret w' :
  w_enqueue_bulk p l w = Ok (ret, w') ->
  (ret = zlen l /\ w_all w' ≡ₚ l ++ w_all w) \/ (ret = 0 /\ l <> [] /\ w_all w' ≡ₚ w_all w).
Proof.
  unfold w_enqueue_bulk. destruct (w_ring p w) as [r|] eqn:Hr; res_simpl; [|done].
  intros [= <- <-].
  destruct (decide (zlen l <= rte_ring_free_count r)) as [Hf|Hf].
  - left. destruct (bulk_ok r l Hf) as (-> & Eo & _). split; [done|].
    symmetry. apply (w_all_set _ _ r _ l []); [done|]. rewrite Eo, app_nil_l. apply Permutation_app_comm.
  - right. destruct (bulk_full r l) as [-> ->]; [lia|]. split; [done|].
    split; [intros ->; pose proof (free_count_nonneg r); cbn in *; lia|].
    symmetry. by apply (w_all_set _ _ r r [] []).
Qed.

Lemma w_all_enqueue p a w ret w' :
  w_enqueue p a w = Ok (ret, w') ->
  (ret = 0 /\ w_all w' ≡ₚ a :: w_all w) \/ (ret < 0 /\ w_all w' ≡ₚ w_all w).
Proof.
  unfold w_enqueue. destruct (w_ring p w) as [r|] eqn:Hr; res_simpl; [|done].
  intros [= <- <-]. pose proof (free_count_nonneg r).
  destruct (decide (rte_ring_free_count r = 0)) as [Hf|Hf].
  - right. destruct (enqueue_full r a Hf) as [? ->]. split; [done|].
    symmetry. by apply (w_all_set _ _ r r [] []).
  - left. destruct (enqueue_ok r a) as (-> & Eo & _); [lia|]. split; [done|].
    symmetry. apply (w_all_set _ _ r _ [a] []); [done|]. rewrite Eo, app_nil_l. apply Permutation_app_comm.
Qed.

Lemma w_all_dequeue p n w l w' :
  0 <= n -> w_dequeue_burst p n w = Ok (l, w') -> w_all w ≡ₚ l ++ w_all w' /\ zlen l <= n.
Proof.
  intros Hn. unfold w_dequeue_burst. destruct (w_ring p w) as [r|] eqn:Hr; res_simpl; [|done].
  intros [= <- <-]. destruct (dequeue_objs r n Hn) as [E1 E2]. split.
  - apply (w_all_set _ _ r _ []); [done|]. rewrite E1, E2. cbn. by rewrite take_drop.
  - rewrite E1, length_take. lia.
Qed.

(** Pointers stay valid: rings are created before the cores run and never
    destroyed. *)
Definition w_keeps w w' : Prop := forall p, w_valid p w -> w_valid p w'.

Lemma w_keeps_refl w : w_keeps w w.
Proof. by intros p. Qed.

Lemma w_keeps_trans w1 w2 w3 : w_keeps w1 w2 -> w_keeps w2 w3 -> w_keeps w1 w3.
Proof. intros H1 H2 p Hp. by apply H2, H1. Qed.

Lemma w_keeps_free l w : w_keeps w (w_free l w).
Proof. by intros p. Qed.

Lemma w_keeps_set p r w : w_keeps w (w_set p r w).
Proof.
  intros q Hq. destruct (decide (q = p)) as [->|Hn].
  - exists r. by apply w_ring_set.
  - destruct Hq as [r' E]. exists r'. by rewrite (proj2 (w_set_frame p r w) q Hn).
Qed.
End owned.
#[export] Hint Resolve w_keeps_refl w_keeps_free w_keeps_set : pgw.

(** ** [CoreCounter] *)
Record CoreCounter := mk_counter {
  drop_bytes_ : Z;
  drop_count_ : Z;
  transfer_bytes_ : Z;
  transfer_count_ : Z;
}.

Module CoreCounter.
Definition Clear : CoreCounter := mk_counter 0 0 0 0.
Definition HasDropped (c : CoreCounter) : bool :=
  negb (u64 (drop_bytes_ c + drop_count_ c) =? 0).
Definition Inc (drop_bytes drop_count transfer_bytes transfer_count : Z) (c : CoreCounter)
    : CoreCounter :=
  let add (x y : Z) := if negb (y =? 0) then u64 (x + y) else x in
  mk_counter (add (drop_bytes_ c) drop_bytes) (add (drop_count_ c) drop_count)
    (add (transfer_bytes_ c) transfer_bytes) (add (transfer_count_ c) transfer_count).
End CoreCounter.

(** ** [CoreInterface] *)
Record CoreInterface (A : Type) := mk_core {
  port_ : Z;
  queue_ : Z;
  lcore_ : Z;
  socket_ : Z;
  cnt_rx_ : Z;
  cnt_tx_ : Z;
  cnt_wk_ : Z;
  cnt_pgw_in_ : Z;
  cnt_pgw_eg_ : Z;
  burst_fm_ : Z;
  burst_to_ : Z;
  ring_fm_ : option Z;
  ring_to_ : option Z;
  output_ : list A;
  flush_delay_ : Z;
  counter_ : CoreCounter;
}.
Arguments mk_core {A}.
Arguments port_ {A}. Arguments queue_ {A}. Arguments lcore_ {A}. Arguments socket_ {A}.
Arguments cnt_rx_ {A}. Arguments cnt_tx_ {A}. Arguments cnt_wk_ {A}.
Arguments cnt_pgw_in_ {A}. Arguments cnt_pgw_eg_ {A}.
Arguments burst_fm_ {A}. Arguments burst_to_ {A}. Arguments ring_fm_ {A}. Arguments ring_to_ {A}.
Arguments output_ {A}. Arguments flush_delay_ {A}. Arguments counter_ {A}.

Module CoreInterface.
Section core.
Context `{D : Dpdk} `{B : Build} {A : Type}.
Implicit Types (c : CoreInterface A) (w : world A).

Definition set_output (o : list A) c : CoreInterface A :=
  mk_core (port_ c) (queue_ c) (lcore_ c) (socket_ c) (cnt_rx_ c) (cnt_tx_ c) (cnt_wk_ c)
    (cnt_pgw_in_ c) (cnt_pgw_eg_ c) (burst_fm_ c) (burst_to_ c) (ring_fm_ c) (ring_to_ c)
    o (flush_delay_ c) (counter_ c).
Definition set_counter (k : CoreCounter) c : CoreInterface A :=
  mk_core (port_ c) (queue_ c) (lcore_ c) (socket_ c) (cnt_rx_ c) (cnt_tx_ c) (cnt_wk_ c)
    (cnt_pgw_in_ c) (cnt_pgw_eg_ c) (burst_fm_ c) (burst_to_ c) (ring_fm_ c) (ring_to_ c)
    (output_ c) (flush_delay_ c) k.
Definition set_rings (fm to : option Z) c : CoreInterface A :=
  mk_core (port_ c) (queue_ c) (lcore_ c) (socket_ c) (cnt_rx_ c) (cnt_tx_ c) (cnt_wk_ c)
    (cnt_pgw_in_ c) (cnt_pgw_eg_ c) (burst_fm_ c) (burst_to_ c) fm to
    (output_ c) (flush_delay_ c) (counter_ c).

(** [output_cnt_]: how many entries of the burst buffer are in use. *)
Definition output_cnt_ c : Z := zlen (output_ c).

(** [rte_lcore_is_enabled] is DPDK's answer for the core. *)
Definition IsAvailableCore (lcore_is_enabled : Z -> Z) (lcore : Z) : res Z :=
  if lcore_is_enabled lcore =? 0 then Fault RteExit else Ok 0.

(** [flush_delay_] is not initialised by the constructor: it is an argument. *)
Definition construct (lcore_is_enabled : Z -> Z) (flush_uninit : Z) (port queue lcore : Z)
    : res (CoreInterface A) :=
  _ ← (if (15 <=? ARCH) && (ARCH <=? 21) then Ok 0 else IsAvailableCore lcore_is_enabled lcore);
  Ok (mk_core port queue lcore 0 0 0 0 0 0 0 0 None None [] flush_uninit CoreCounter.Clear).

(** Default hooks of the life cycle. *)
Definition VirtualCycle (cnt : Z) : Z := 0.
Definition BeforeCycle : Z := 0.
Definition AfterCycle : Z := 0.

Definition HasDropped c : bool * CoreCounter * CoreInterface A :=
  (CoreCounter.HasDropped (counter_ c), counter_ c, set_counter CoreCounter.Clear c).

Definition GetN (key : KEY) c : Z :=
  match key with
  | CNT_RX => cnt_rx_ c
  | CNT_TX => cnt_tx_ c
  | CNT_WORKER => cnt_wk_ c
  | BURST_FROM => burst_fm_ c
  | BURST_TO => burst_to_ c
  | LCORE => lcore_ c
  | PORT => port_ c
  | QUEUE => queue_ c
  | CNT_PGW_INGRESS => cnt_pgw_in_ c
  | CNT_PGW_EGRESS => cnt_pgw_eg_ c
  | SOCKET => socket_ c
  | _ => u32 (-1)
  end.

Definition SetN (key : KEY) (v : Z) c : CoreInterface A :=
  let sel k x := if bool_decide (key = k) then v else x in
  mk_core (port_ c) (queue_ c) (lcore_ c) (sel SOCKET (socket_ c))
    (sel CNT_RX (cnt_rx_ c)) (sel CNT_TX (cnt_tx_ c)) (sel CNT_WORKER (cnt_wk_ c))
    (sel CNT_PGW_INGRESS (cnt_pgw_in_ c)) (sel CNT_PGW_EGRESS (cnt_pgw_eg_ c))
    (sel BURST_FROM (burst_fm_ c)) (sel BURST_TO (burst_to_ c)) (ring_fm_ c) (ring_to_ c)
    (output_ c) (sel FLUSH_DELAY (flush_delay_ c)) (counter_ c).

(** [counter_.Inc(drop_bytes, drop_count, 0, 0)]. *)
Definition count_drop (bytes count : Z) c : CoreInterface A :=
  set_counter (CoreCounter.Inc bytes count 0 0 (counter_ c)) c.

(** Store the message; once [burst_to_] are there, hand the first [burst_to_]
    to the ring, or free them when it has no room, and restart at 0. *)
Definition SendOrBuffer (mbuf : A) (s : CoreInterface A * world A)
    : res (CoreInterface A * world A) :=
  let '(c, w) := s in
  _ ← require (output_cnt_ c <? DEFAULT_MBUF_ARRAY_SIZE) Undefined;
  let output := output_ c ++ [mbuf] in
  let curpos := output_cnt_ c + 1 in
  if curpos <? burst_to_ c then Ok (set_output output c, w)
  else
    let burst := take (Z.to_nat (burst_to_ c)) output in
    r ← w_enqueue_bulk (ring_to_ c) burst w;
    let '(ret, w) := r in
    let '(c, w) :=
      if ret =? 0 then (count_drop 0 (burst_to_ c) c, w_free burst w) else (c, w) in
    Ok (set_output [] c, w).

(** Hand over what is buffered; free what the ring did not take. *)
Definition BurstFlush (s : CoreInterface A * world A) : res (CoreInterface A * world A) :=
  let '(c, w) := s in
  if 0 <? output_cnt_ c then
    r ← w_enqueue_bulk (ring_to_ c) (output_ c) w;
    let '(ret, w) := r in
    let '(c, w) :=
      if negb (ret =? output_cnt_ c)
      then (count_drop 0 (output_cnt_ c) c, w_free (drop (Z.to_nat ret) (output_ c)) w)
      else (c, w) in
    Ok (set_output [] c, w)
  else Ok (set_output [] c, w).
End core.
End CoreInterface.

(** ** The burst loop

    Three loops over the dequeued burst: prefetch the first packets, process
    packet [n] while prefetching packet [n+3], process the rest.  Prefetching
    only dereferences the array. *)
Section burst_loop.
Context {A S : Type} (body : S -> A -> res S).

Definition prefetch (input : list A) (n : Z) : res unit :=
  _ ← deref (input !! Z.to_nat n); Ok tt.
Definition at_index (input : list A) (s : S) (n : Z) : res S :=
  a ← deref (input !! Z.to_nat n); body s a.

Definition burst_loop (input : list A) (s : S) : res S :=
  let nburst := zlen input in
  _ ← foldM (fun _ n => prefetch input n) (seqZ 0 (Z.min PREFETCH_OFFSET nburst)) tt;
  let k := if PREFETCH_OFFSET <? nburst then nburst - PREFETCH_OFFSET else 0 in
  s ← foldM (fun s n => _ ← prefetch input (n + PREFETCH_OFFSET); at_index input s n) (seqZ 0 k) s;
  foldM (at_index input) (seqZ k (nburst - k)) s.
End burst_loop.

Section burst_loop_lemmas.
Context {A S : Type} (body : S -> A -> res S).
Implicit Types (input : list A) (s : S).

Lemma foldM_app {X} (f : S -> X -> res S) l1 l2 s :
  foldM f (l1 ++ l2) s = (s' ← foldM f l1 s; foldM f l2 s').
Proof.
  revert s. induction l1 as [|x l1 IH]; intros s; cbn [foldM app]; [done|].
  destruct (f s x); res_simpl; [apply IH|done].
Qed.

Lemma foldM_index (f : S -> Z -> res S) input k n s :
  0 <= k -> 0 <= n -> k + n <= zlen input ->
  (forall s' i a, k <= i < k + n -> input !! Z.to_nat i = Some a -> f s' i = body s' a) ->
  foldM f (seqZ k n) s = foldM body (slice k n input) s.
Proof.
  intros Hk Hn Hl Hf. revert k s Hk Hl Hf. pattern n. apply natlike_ind; [done| |done].
  intros m Hm IH k s Hk Hl Hf. rewrite seqZ_cons by lia. rewrite Z.pred_succ. cbn [foldM].
  destruct (lookup_lt_is_Some_2 input (Z.to_nat k)) as [a Ha]; [lia|].
  rewrite (Hf s k a) by (done || lia).
  assert (Hs : slice k (Z.succ m) input = a :: slice (Z.succ k) m input).
  { unfold slice. rewrite (drop_S _ _ _ Ha). replace (Z.to_nat (Z.succ m)) with (Datatypes.S (Z.to_nat m)) by lia.
    cbn [take]. by replace (Z.to_nat (Z.succ k)) with (Datatypes.S (Z.to_nat k)) by lia. }
  rewrite Hs. cbn [foldM]. destruct (body s a); res_simpl; [|done].
  apply IH; [lia..|]. intros s' i a' Hi Ha'. apply Hf; [lia|done].
Qed.

Lemma prefetch_ok input n : 0 <= n < zlen input -> prefetch input n = Ok tt.
Proof.
  intros. unfold prefetch.
  destruct (lookup_lt_is_Some_2 input (Z.to_nat n)) as [a Ha]; [lia|]. by rewrite Ha.
Qed.

(** The pipelined loops process every packet once, in order. *)
Lemma burst_loop_eq input s : burst_loop body input s = foldM body input s.
Proof.
  unfold burst_loop. unfold PREFETCH_OFFSET.
  assert (Hp : foldM (fun (_ : unit) n => prefetch input n) (seqZ 0 (Z.min 3 (zlen input))) tt = Ok tt).
  { assert (Hall : Forall (fun n => 0 <= n < zlen input) (seqZ 0 (Z.min 3 (zlen input)))).
    { apply Forall_forall. intros n. rewrite elem_of_seqZ. lia. }
    induction Hall as [|n l Hn _ IH]; cbn [foldM]; [done|].
    rewrite prefetch_ok by done. res_simpl. done. }
  rewrite Hp. res_simpl.
  set (k := if 3 <? zlen input then zlen input - 3 else 0).
  assert (Hk : 0 <= k /\ k <= zlen input /\ (k = 0 \/ k = zlen input - 3))
    by (unfold k; destruct (3 <? zlen input) eqn:E; to_prop; lia).
  rewrite (foldM_index _ input 0 k); [|lia..|].
  2: { intros s' i a Hi Ha. rewrite prefetch_ok by lia. res_simpl. unfold at_index. by rewrite Ha. }
  assert (E : forall s', foldM (at_index body input) (seqZ k (zlen input - k)) s' =
                         foldM body (slice k (zlen input - k) input) s').
  { intros s'. apply foldM_index; [lia..|]. intros s'' i a _ Ha. unfold at_index. by rewrite Ha. }
  transitivity (s' ← foldM body (slice 0 k input) s; foldM body (slice k (zlen input - k) input) s').
  { destruct (foldM body (slice 0 k input) s); res_simpl; [apply E|done]. }
  rewrite <-foldM_app. f_equal.
  replace (slice k (zlen input - k) input) with (slice (0 + k) (zlen input - k) input) by done.
  rewrite <-slice_app_split by lia.
  replace (k + (zlen input - k)) with (zlen input) by lia. apply slice_0_all.
Qed.
End burst_loop_lemmas.

(** ** The burst buffer keeps every message *)
Section send.
Context `{DpdkOk} {A : Type}.
Implicit Types (c : CoreInterface A) (w : world A).

(** A core connected to a ring, with room left in its burst. *)
Record core_ok c w : Prop := {
  ok_ring : w_valid (ring_to_ c) w;
  ok_burst : burst_to_ c <= DEFAULT_MBUF_ARRAY_SIZE;
  ok_fill : CoreInterface.output_cnt_ c < burst_to_ c;
  ok_count : 0 <= drop_count_ (counter_ c) < 2 ^ 64;
}.

(** Only the burst buffer and the counters differ. *)
Definition same_conf c c' : Prop :=
  exists k o, c' = CoreInterface.set_counter k (CoreInterface.set_output o c).

(** Dropped messages are counted: the counter moves as the freed list does. *)
Definition drops_counted c w c' w' : Prop :=
  drop_count_ (counter_ c') = u64 (drop_count_ (counter_ c) + (zlen (w_freed w') - zlen (w_freed w))).

Lemma same_conf_refl c : same_conf c c.
Proof. exists (counter_ c), (output_ c). by destruct c. Qed.

Lemma same_conf_trans c1 c2 c3 : same_conf c1 c2 -> same_conf c2 c3 -> same_conf c1 c3.
Proof. intros (k & o & ->) (k' & o' & ->). by exists k', o'. Qed.

Lemma inc_drop n c :
  0 <= drop_count_ (counter_ c) < 2 ^ 64 ->
  drop_count_ (counter_ (CoreInterface.count_drop 0 n c)) = u64 (drop_count_ (counter_ c) + n).
Proof.
  intros Hc. unfold CoreInterface.count_drop, CoreCounter.Inc. cbn.
  destruct (n =? 0) eqn:E; cbn; [|done]. to_prop. subst. rewrite Z.add_0_r.
  symmetry. by apply wrap_small.
Qed.

Lemma core_ok_keeps c w w' : core_ok c w -> w_keeps w w' -> core_ok c w'.
Proof. intros [] Hk. constructor; auto. Qed.

Lemma count_drop_ok bytes n c w : core_ok c w -> core_ok (CoreInterface.count_drop bytes n c) w.
Proof.
  intros []. constructor; try done. unfold CoreInterface.count_drop, CoreCounter.Inc. cbn.
  destruct (n =? 0); cbn; [done|]. by apply wrap_range.
Qed.

Lemma SendOrBuffer_ok m c w :
  core_ok c w ->
  exists c' w', CoreInterface.SendOrBuffer m (c, w) = Ok (c', w') /\ core_ok c' w' /\
    same_conf c c' /\ w_keeps w w' /\ drops_counted c w c' w' /\
    output_ c' ++ w_all w' ≡ₚ m :: output_ c ++ w_all w.
Proof.
  intros [Hr Hb Hf Hc]. unfold CoreInterface.SendOrBuffer, CoreInterface.output_cnt_ , DEFAULT_MBUF_ARRAY_SIZE in *.
  unfold require. rewrite (proj2 (Z.ltb_lt (zlen (output_ c)) 512)) by lia. res_simpl.
  destruct (_ <? burst_to_ c) eqn:E; to_prop.
  - eexists _, _. split; [done|]. split_and!; [| |apply w_keeps_refl| |].
    + constructor; cbn; try done. unfold CoreInterface.output_cnt_. cbn. rewrite length_app. cbn. lia.
    + exists (counter_ c), (output_ c ++ [m]). by destruct c.
    + unfold drops_counted. cbn. rewrite Z.sub_diag, Z.add_0_r. symmetry. by apply wrap_small.
    + cbn. rewrite <-app_assoc. cbn. by rewrite <-Permutation_middle.
  - assert (Hlen : zlen (output_ c ++ [m]) = burst_to_ c) by (rewrite length_app; cbn; lia).
    rewrite (take_ge (output_ c ++ [m])) by lia.
    destruct (w_enqueue_bulk_spec (ring_to_ c) (output_ c ++ [m]) w Hr)
      as (ret & w1 & Ee & Hfr & Hv & Hcase).
    rewrite Ee. res_simpl.
    assert (Hk : w_keeps w w1).
    { intros p Hp. destruct (decide (p = ring_to_ c)) as [->|Hn]; [done|].
      destruct Hp as [r E']. exists r. by rewrite (proj2 Hfr p Hn). }
    destruct (w_all_enqueue_bulk _ _ _ _ _ Ee) as [[-> Hp]|[-> [_ Hp]]].
    + rewrite (proj2 (Z.eqb_neq _ _)) by lia. res_simpl.
      eexists _, _. split; [done|]. split_and!; [| |done| |].
      * constructor; cbn; try done. unfold CoreInterface.output_cnt_. cbn. lia.
      * exists (counter_ c), []. by destruct c.
      * unfold drops_counted. cbn. rewrite (proj1 Hfr), Z.sub_diag, Z.add_0_r.
        symmetry. by apply wrap_small.
      * cbn. rewrite Hp, <-app_assoc. cbn. by rewrite <-Permutation_middle.
    + cbn [Z.eqb]. res_simpl. eexists _, _. split; [done|]. split_and!; [| | | |].
      * constructor; cbn; try done.
        -- unfold CoreInterface.output_cnt_. cbn. lia.
        -- change (0 <= drop_count_ (counter_ (CoreInterface.count_drop 0 (burst_to_ c) c)) < 2 ^ 64).
           rewrite inc_drop by done. by apply wrap_range.
      * eexists _, []. by destruct c.
      * eapply w_keeps_trans; [exact Hk|apply w_keeps_free].
      * unfold drops_counted.
        change (counter_ (CoreInterface.set_output [] ?x)) with (counter_ x).
        rewrite inc_drop by done. cbn. rewrite length_app, (proj1 Hfr). f_equal. lia.
      * cbn [CoreInterface.set_output output_ app]. rewrite w_all_free, Hp, <-app_assoc. cbn.
        by rewrite <-Permutation_middle.
Qed.

Lemma BurstFlush_ok c w :
  core_ok c w ->
  exists c' w', CoreInterface.BurstFlush (c, w) = Ok (c', w') /\ core_ok c' w' /\
    same_conf c c' /\ w_keeps w w' /\ drops_counted c w c' w' /\ output_ c' = [] /\
    w_all w' ≡ₚ output_ c ++ w_all w.
Proof.
  intros [Hr Hb Hf Hc]. unfold CoreInterface.BurstFlush, CoreInterface.output_cnt_ in *.
  assert (Hok : forall k w', w_valid (ring_to_ c) w' -> 0 <= drop_count_ k < 2 ^ 64 ->
            core_ok (CoreInterface.set_output [] (CoreInterface.set_counter k c)) w').
  { intros. constructor; cbn; try done. unfold CoreInterface.output_cnt_. cbn. lia. }
  assert (Hsame : same_conf c (CoreInterface.set_output [] c))
    by (exists (counter_ c), []; by destruct c).
  assert (Hnone : forall w', w_freed w' = w_freed w ->
            drops_counted c w (CoreInterface.set_output [] c) w').
  { intros w' E. unfold drops_counted. cbn. rewrite E, Z.sub_diag, Z.add_0_r.
    symmetry. by apply wrap_small. }
  destruct (0 <? _) eqn:E; to_prop.
  2: { destruct (output_ c) as [|a l] eqn:Eo; [|cbn in E; lia].
       eexists _, _. split; [done|].
       split_and!; auto with pgw. apply (Hok (counter_ c)); done. }
  destruct (w_enqueue_bulk_spec (ring_to_ c) (output_ c) w Hr) as (ret & w1 & Ee & Hfr & Hv & _).
  rewrite Ee. res_simpl.
  assert (Hk : w_keeps w w1).
  { intros p Hp. destruct (decide (p = ring_to_ c)) as [->|Hn]; [done|].
    destruct Hp as [r E']. exists r. by rewrite (proj2 Hfr p Hn). }
  destruct (w_all_enqueue_bulk _ _ _ _ _ Ee) as [[-> Hp]|[-> [_ Hp]]].
  - rewrite Z.eqb_refl. cbn [negb]. res_simpl. eexists _, _. split; [done|].
    split_and!; auto. apply (Hok (counter_ c)); done. apply Hnone. by destruct Hfr.
  - rewrite (proj2 (Z.eqb_neq _ _)) by lia. cbn [negb]. res_simpl. rewrite drop_0.
    eexists _, _. split; [done|]. split_and!; auto.
    + apply Hok; [done|].
      change (0 <= drop_count_ (counter_ (CoreInterface.count_drop 0 (zlen (output_ c)) c)) < 2 ^ 64).
      rewrite inc_drop by done. by apply wrap_range.
    + eexists _, []. by destruct c.
    + unfold drops_counted.
      change (counter_ (CoreInterface.set_output [] ?x)) with (counter_ x).
      rewrite inc_drop by done. cbn. rewrite length_app, (proj1 Hfr). f_equal. lia.
    + rewrite w_all_free, Hp. done.
Qed.
End send.

(** ** Properties *)
Module Properties.
Section properties.
Context `{DpdkOk} {A : Type}.

(** C17: [SendOrBuffer] never loses or duplicates a message: the message, the
    buffered ones and everything in the rings or freed before the call are, as a
    multiset, what is buffered, in the rings or freed after it; the burst stays
    below its limit, other pointers stay valid, and exactly the freed messages
    are added to the drop counter. *)
Theorem send_or_buffer_conserves (m : A) (c : CoreInterface A) (w : world A) :
  core_ok c w ->
  exists c' w', CoreInterface.SendOrBuffer m (c, w) = Ok (c', w') /\ core_ok c' w' /\
    same_conf c c' /\ w_keeps w w' /\ drops_counted c w c' w' /\
    output_ c' ++ w_all w' ≡ₚ m :: output_ c ++ w_all w.
Proof. apply SendOrBuffer_ok. Qed.

(** [BurstFlush] empties the burst buffer and conserves messages: each
    buffered one is in the ring or freed and counted as dropped. *)
Theorem burst_flush_conserves (c : CoreInterface A) (w : world A) :
  core_ok c w ->
  exists c' w', CoreInterface.BurstFlush (c, w) = Ok (c', w') /\ core_ok c' w' /\
    same_conf c c' /\ w_keeps w w' /\ drops_counted c w c' w' /\ output_ c' = [] /\
    w_all w' ≡ₚ output_ c ++ w_all w.
Proof. apply BurstFlush_ok. Qed.

(** when [burst_to_] is lowered (SetN) below what is already buffered, the
    next [SendOrBuffer] hands over or frees only the first [burst_to_] messages
    and forgets the others: they are neither in a ring, nor freed, nor buffered. *)
Theorem lowered_burst_loses_messages (m : A) (c : CoreInterface A) (w : world A) :
  w_valid (ring_to_ c) w -> CoreInterface.output_cnt_ c < DEFAULT_MBUF_ARRAY_SIZE ->
  0 < burst_to_ c <= CoreInterface.output_cnt_ c ->
  exists c' w', CoreInterface.SendOrBuffer m (c, w) = Ok (c', w') /\ output_ c' = [] /\
    w_all w' ≡ₚ take (Z.to_nat (burst_to_ c)) (output_ c ++ [m]) ++ w_all w.
Proof.
  intros Hr Hlt Hb. unfold CoreInterface.SendOrBuffer, CoreInterface.output_cnt_,
    DEFAULT_MBUF_ARRAY_SIZE in *.
  unfold require. rewrite (proj2 (Z.ltb_lt (zlen (output_ c)) 512)) by lia. res_simpl.
  rewrite (proj2 (Z.ltb_ge _ (burst_to_ c))) by lia. set (burst := take _ _).
  assert (Hl : zlen burst = burst_to_ c)
    by (unfold burst; rewrite length_take, length_app; cbn; lia).
  destruct (w_enqueue_bulk_spec (ring_to_ c) burst w Hr) as (ret & w1 & Ee & _).
  rewrite Ee. res_simpl.
  destruct (w_all_enqueue_bulk _ _ _ _ _ Ee) as [[-> Hp]|[-> [_ Hp]]].
  - rewrite (proj2 (Z.eqb_neq _ _)) by lia. res_simpl. eauto.
  - cbn [Z.eqb]. res_simpl. eexists _, _. split_and!; [done..|]. by rewrite w_all_free, Hp.
Qed.

(** the prefetch-pipelined triple loop of the workers is the plain loop:
    every packet of the burst is processed exactly once and in order, and the
    prefetching never dereferences an entry behind the burst. *)
Theorem pipelined_loop_is_plain_loop {S} (body : S -> A -> res S) (input : list A) (s : S) :
  burst_loop body input s = foldM body input s.
Proof. apply burst_loop_eq. Qed.
End properties.

(** A core with two buffered messages, a burst of three and a ring with room
    for two: the third message fills the burst, which is dropped. *)
Definition sample_core : CoreInterface Z :=
  mk_core 0 0 1 0 0 0 0 0 0 4 3 (Some 1) (Some 2) [10; 11] 0 CoreCounter.Clear.
Definition sample_world : @world DpdkModel.dpdk Z :=
  @mk_world DpdkModel.dpdk Z {[ 2 := (3%nat, [7]) : DpdkModel.queue Z ]} [].

Lemma sample_core_ok : core_ok sample_core sample_world.
Proof.
  constructor.
  - eexists. vm_compute. reflexivity.
  - vm_compute. congruence.
  - vm_compute. congruence.
  - cbn. lia.
Qed.

Lemma send_or_buffer_conserves_witness :
  exists c' w', CoreInterface.SendOrBuffer 12 (sample_core, sample_world) = Ok (c', w') /\
    output_ c' ++ w_all w' ≡ₚ 12 :: [10; 11] ++ w_all sample_world.
Proof.
  destruct (send_or_buffer_conserves 12 sample_core sample_world) as (c' & w' & E & _ & _ & _ & _ & Hp).
  - exact sample_core_ok.
  - exists c', w'. split; [exact E|exact Hp].
Defined.

Lemma burst_flush_conserves_witness :
  exists c' w', CoreInterface.BurstFlush (sample_core, sample_world) = Ok (c', w') /\
    output_ c' = [] /\ w_all w' ≡ₚ [10; 11] ++ w_all sample_world.
Proof.
  destruct (burst_flush_conserves sample_core sample_world)
    as (c' & w' & E & _ & _ & _ & _ & Ho & Hp).
  - exact sample_core_ok.
  - exists c', w'. split; [exact E|]. split; [exact Ho|exact Hp].
Defined.

Lemma lowered_burst_loses_messages_witness :
  exists c' w',
    CoreInterface.SendOrBuffer 12 (CoreInterface.SetN BURST_TO 1 sample_core, sample_world)
      = Ok (c', w') /\ output_ c' = [] /\ w_all w' ≡ₚ [10] ++ w_all sample_world.
Proof.
  apply (lowered_burst_loses_messages 12 (CoreInterface.SetN BURST_TO 1 sample_core) sample_world).
  - eexists. vm_compute. reflexivity.
  - vm_compute. reflexivity.
  - vm_compute. split; congruence.
Defined.
End Properties.
