(* ===== verification/Policer.v ===== *)
(** * The per-user policer

    The token buckets the tunnel workers run inside their lookup callbacks
    (core_pgw_ingress_tunnel_worker.cc and core_pgw_egress_tunnel_worker.cc):
    refill for the seconds elapsed, then colour the packet green, yellow or red.
    All fields are 32-bit unsigned, so the refill products and sums wrap. *)

From S2P Require Import Prelude Packet LookupTpl.

Definition set_buckets (epoch commit excess : Z) (t : lookup_t) : lookup_t :=
  mk_lookup (valid t) (active t) (mode t) (ue_ipv4 t) (ue_teid t) (sgw_gtpu_teid t)
    (sgw_gtpu_ipv4 t) (pgw_gtpu_ipv4 t) epoch commit (commit_burst_size t)
    (commit_information_rate t) excess (excess_burst_size t) (excess_information_rate t).

Module Policer.
(** Refill of one bucket after [dt] seconds. *)
Definition refill_bucket (burst_size rate information_rate dt : Z) : Z :=
  Z.min burst_size (u32 (rate + u32 (information_rate * dt))).

Definition refill (now : Z) (itm : lookup_t) : lookup_t :=
  let dt := u32 (now - epoch_w itm) in
  if negb (dt =? 0) then
    set_buckets now
      (refill_bucket (commit_burst_size itm) (commit_rate itm) (commit_information_rate itm) dt)
      (refill_bucket (excess_burst_size itm) (excess_rate itm) (excess_information_rate itm) dt)
      itm
  else itm.

(** Colour of a packet of [size] bytes, and the buckets after it. *)
Definition colour (size : Z) (itm : lookup_t) : Z * lookup_t :=
  if size <=? commit_rate itm then
    (POLICER_COLOR_GREEN, set_buckets (epoch_w itm) (u32 (commit_rate itm - size)) (excess_rate itm) itm)
  else if size <=? excess_rate itm then
    (POLICER_COLOR_YELLOW, set_buckets (epoch_w itm) (commit_rate itm) (u32 (excess_rate itm - size)) itm)
  else (POLICER_COLOR_RED, itm).

Definition police (now size : Z) (itm : lookup_t) : Z * lookup_t := colour size (refill now itm).

(** A run over a sequence of packets [(now, size)]: the colours given. *)
Fixpoint run (pkts : list (Z * Z)) (itm : lookup_t) : list Z * lookup_t :=
  match pkts with
  | [] => ([], itm)
  | (now, size) :: pkts' =>
      let '(col, itm1) := police now size itm in
      let '(cols, itm2) := run pkts' itm1 in (col :: cols, itm2)
  end.

(** Bytes of the packets that got a colour. *)
Fixpoint bytes_of (col : Z) (pkts : list (Z * Z)) (cols : list Z) : Z :=
  match pkts, cols with
  | (_, size) :: pkts', c :: cols' => (if c =? col then size else 0) + bytes_of col pkts' cols'
  | _, _ => 0
  end.

(** Well-formed buckets: 32-bit values, at most the burst size. *)
Record wf (t : lookup_t) : Prop := {
  wf_epoch : 0 <= epoch_w t < 2 ^ 32;
  wf_commit : 0 <= commit_rate t <= commit_burst_size t;
  wf_excess : 0 <= excess_rate t <= excess_burst_size t;
  wf_cbs : commit_burst_size t < 2 ^ 32;
  wf_ebs : excess_burst_size t < 2 ^ 32;
  wf_cir : 0 <= commit_information_rate t;
  wf_eir : 0 <= excess_information_rate t;
}.

(** Packets in the order of the clock, with sizes the user word can hold. *)
Fixpoint ordered (now : Z) (pkts : list (Z * Z)) : Prop :=
  match pkts with
  | [] => True
  | (t, size) :: pkts' => now <= t < 2 ^ 32 /\ 0 <= size < 2 ^ 12 /\ ordered t pkts'
  end.
Definition last_time (now : Z) (pkts : list (Z * Z)) : Z := foldl (fun _ p => p.1) now pkts.

(** Without wrap-around: the buckets of the diagram in the sources,
    T(t+) = MIN(BS, T(t-) + IR*T). *)
Definition ideal_bucket (burst_size rate information_rate dt : Z) : Z :=
  Z.min burst_size (rate + information_rate * dt).

Lemma refill_bucket_range bs r ir dt :
  0 <= bs -> 0 <= refill_bucket bs r ir dt <= bs.
Proof.
  intros. unfold refill_bucket.
  pose proof (wrap_range 32 (r + u32 (ir * dt)) ltac:(lia)). lia.
Qed.

(** Wrapping can only lose tokens. *)
Lemma refill_bucket_le bs r ir dt :
  0 <= r -> 0 <= ir -> 0 <= dt -> refill_bucket bs r ir dt <= r + ir * dt.
Proof.
  intros. unfold refill_bucket.
  pose proof (wrap_range 32 (ir * dt) ltac:(lia)).
  pose proof (wrap_le 32 (ir * dt) ltac:(lia) ltac:(nia)).
  pose proof (wrap_le 32 (r + u32 (ir * dt)) ltac:(lia) ltac:(lia)). lia.
Qed.

Lemma refill_bucket_ideal bs r ir dt :
  0 <= r -> 0 <= ir -> 0 <= dt -> r + ir * dt < 2 ^ 32 ->
  refill_bucket bs r ir dt = ideal_bucket bs r ir dt.
Proof.
  intros. unfold refill_bucket, ideal_bucket.
  rewrite (wrap_small 32 (ir * dt)), wrap_small by nia. done.
Qed.

Lemma refill_wf now t : wf t -> 0 <= now < 2 ^ 32 -> wf (refill now t).
Proof.
  intros [] Hn. unfold refill. destruct (negb _); [|by constructor].
  constructor; cbn; try done.
  - apply refill_bucket_range. lia.
  - apply refill_bucket_range. lia.
Qed.

Lemma colour_wf size t : wf t -> 0 <= size -> wf (colour size t).2.
Proof.
  intros [] Hs. unfold colour. repeat case_if; to_prop; constructor; cbn; try done;
    rewrite wrap_small by lia; lia.
Qed.

Lemma police_wf now size t :
  wf t -> 0 <= now < 2 ^ 32 -> 0 <= size -> wf (police now size t).2.
Proof. intros. by apply colour_wf; [apply refill_wf|]. Qed.

Lemma refill_epoch now t : 0 <= epoch_w t <= now -> now < 2 ^ 32 -> epoch_w (refill now t) = now.
Proof.
  intros. unfold refill. rewrite wrap_small by lia. destruct (now - epoch_w t =? 0) eqn:E; cbn; [|done].
  to_prop. lia.
Qed.

(** The colour and what it costs. *)
Lemma police_spec now size t :
  wf t -> epoch_w t <= now -> now < 2 ^ 32 -> 0 <= size ->
  let '(col, t') := police now size t in
  epoch_w t' = now /\
  commit_information_rate t' = commit_information_rate t /\
  excess_information_rate t' = excess_information_rate t /\
  commit_rate t' + (if col =? POLICER_COLOR_GREEN then size else 0)
    <= commit_rate t + commit_information_rate t * (now - epoch_w t) /\
  excess_rate t' + (if col =? POLICER_COLOR_YELLOW then size else 0)
    <= excess_rate t + excess_information_rate t * (now - epoch_w t).
Proof.
  intros Hw He Hn Hs. pose proof (refill_wf now t Hw) as Hw'.
  assert (He' : epoch_w (refill now t) = now) by (apply refill_epoch; destruct Hw; lia).
  assert (Hr : commit_rate (refill now t) <= commit_rate t + commit_information_rate t * (now - epoch_w t) /\
               excess_rate (refill now t) <= excess_rate t + excess_information_rate t * (now - epoch_w t) /\
               commit_information_rate (refill now t) = commit_information_rate t /\
               excess_information_rate (refill now t) = excess_information_rate t).
  { destruct Hw. unfold refill. rewrite wrap_small by lia.
    destruct (now - epoch_w t =? 0) eqn:E; cbn; to_prop; [rewrite E; lia|].
    split_and!; try done; apply refill_bucket_le; lia. }
  destruct Hw' as []; [destruct Hw; lia|].
  unfold police, colour, POLICER_COLOR_GREEN, POLICER_COLOR_YELLOW, POLICER_COLOR_RED.
  repeat case_if; to_prop; cbn; rewrite ?wrap_small by lia; lia.
Qed.

Lemma run_bound pkts t :
  wf t -> ordered (epoch_w t) pkts ->
  bytes_of POLICER_COLOR_GREEN pkts (run pkts t).1
    <= commit_rate t + commit_information_rate t * (last_time (epoch_w t) pkts - epoch_w t) /\
  bytes_of POLICER_COLOR_YELLOW pkts (run pkts t).1
    <= excess_rate t + excess_information_rate t * (last_time (epoch_w t) pkts - epoch_w t).
Proof.
  revert t. induction pkts as [|[now size] pkts IH]; intros t Hw Ho; cbn [run bytes_of].
  - cbn. destruct Hw. rewrite Z.sub_diag. lia.
  - cbn [ordered] in Ho. destruct Ho as (Hn & Hs & Ho).
    pose proof (police_spec now size t Hw ltac:(lia) ltac:(lia) ltac:(lia)) as Hp.
    pose proof (police_wf now size t Hw ltac:(destruct Hw; lia) ltac:(lia)) as Hw1.
    destruct (police now size t) as [col t1]. destruct Hp as (E1 & E2 & E3 & Hg & Hy).
    cbn in Hw1. specialize (IH t1 Hw1). rewrite E1 in IH. specialize (IH Ho).
    destruct (run pkts t1) as [cols t2]. cbn [fst] in IH. cbn [fst bytes_of].
    change (last_time (epoch_w t) ((now, size) :: pkts)) with (last_time now pkts).
    rewrite E2, E3 in IH. lia.
Qed.

(** ** Properties *)

(** C14: conformance of the policer: over any sequence of packets in clock
    order, the bytes coloured green never exceed the initial bucket plus
    CIR times the elapsed seconds, nor the yellow ones the excess bucket plus
    EIR times the elapsed seconds; 32-bit wrap-around in the refill never adds
    tokens. *)
Theorem policer_conformance (pkts : list (Z * Z)) (t : lookup_t) :
  wf t -> ordered (epoch_w t) pkts ->
  bytes_of POLICER_COLOR_GREEN pkts (run pkts t).1
    <= commit_burst_size t + commit_information_rate t * (last_time (epoch_w t) pkts - epoch_w t) /\
  bytes_of POLICER_COLOR_YELLOW pkts (run pkts t).1
    <= excess_burst_size t + excess_information_rate t * (last_time (epoch_w t) pkts - epoch_w t).
Proof. intros Hw Ho. pose proof (run_bound pkts t Hw Ho). destruct Hw. lia. Qed.

(** A fresh entry of a build with the default policer: 128, 12500. *)
Definition fresh_entry : lookup_t :=
  mk_lookup 0 1 0 0x0a010203 0x0ab50123 1 1 1 0 0 12500 128 0 12500 128.

Lemma fresh_entry_wf : wf fresh_entry.
Proof. constructor; cbn; lia. Qed.

Lemma policer_conformance_witness :
  bytes_of POLICER_COLOR_GREEN [(10, 1000); (10, 400); (12, 100)]
    (run [(10, 1000); (10, 400); (12, 100)] fresh_entry).1 <= 12500 + 128 * 12.
Proof.
  apply (policer_conformance [(10, 1000); (10, 400); (12, 100)] fresh_entry).
  - exact fresh_entry_wf.
  - cbn. lia.
Defined.

(** the buckets stay 32-bit values within their burst sizes, and when the
    refill products fit 32 bits the colour is the one of the token-bucket
    diagram: green iff the size fits the refilled commit bucket, else yellow iff
    it fits the refilled excess bucket, else red, only the bucket of the colour
    being charged. *)
Theorem policer_colours (now size : Z) (t : lookup_t) :
  wf t -> 0 <= size -> epoch_w t <= now < 2 ^ 32 ->
  commit_rate t + commit_information_rate t * (now - epoch_w t) < 2 ^ 32 ->
  excess_rate t + excess_information_rate t * (now - epoch_w t) < 2 ^ 32 ->
  let dt := now - epoch_w t in
  let tc := ideal_bucket (commit_burst_size t) (commit_rate t) (commit_information_rate t) dt in
  let te := ideal_bucket (excess_burst_size t) (excess_rate t) (excess_information_rate t) dt in
  let '(col, t') := police now size t in
  wf t' /\
  if size <=? tc then col = POLICER_COLOR_GREEN /\ commit_rate t' = tc - size /\ excess_rate t' = te
  else if size <=? te then
    col = POLICER_COLOR_YELLOW /\ commit_rate t' = tc /\ excess_rate t' = te - size
  else col = POLICER_COLOR_RED /\ commit_rate t' = tc /\ excess_rate t' = te.
Proof.
  intros Hw Hs Hn Hc Hx dt tc te.
  pose proof (police_wf now size t Hw ltac:(destruct Hw; lia) Hs) as Hw'.
  assert (Er : commit_rate (refill now t) = tc /\ excess_rate (refill now t) = te).
  { destruct Hw. unfold refill. rewrite wrap_small by lia. fold dt.
    destruct (dt =? 0) eqn:E; cbn; to_prop.
    - unfold tc, te, ideal_bucket. rewrite E. lia.
    - rewrite !refill_bucket_ideal by (try apply Hc; try apply Hx; lia). done. }
  destruct Er as [Ec Ex].
  assert (0 <= tc /\ 0 <= te /\ tc < 2 ^ 32 /\ te < 2 ^ 32)
    by (destruct Hw; unfold tc, te, ideal_bucket; nia).
  unfold police, colour in *. rewrite Ec, Ex in *.
  destruct (size <=? tc) eqn:E1; [|destruct (size <=? te) eqn:E2]; to_prop; cbn in *;
    (split; [exact Hw'|]); rewrite ?wrap_small by lia; auto.
Qed.

Lemma policer_colours_witness :
  (police 100 500 fresh_entry).1 = POLICER_COLOR_GREEN.
Proof.
  pose proof (policer_colours 100 500 fresh_entry) as H.
  destruct (police 100 500 fresh_entry) as [col t'] eqn:E.
  destruct H as [_ H].
  - exact fresh_entry_wf.
  - lia.
  - cbn. lia.
  - cbn. lia.
  - cbn. lia.
  - cbn in H. apply H.
Defined.

(** a new entry has epoch 0, so its first refill multiplies CIR by the
    whole Unix time and wraps: at every time that is a multiple of 2^25 seconds
    (51*2^25 is in March 2024) a new user under the default CIR of 128 starts
    with empty buckets and its first packet is red. *)
Theorem first_refill_wraps (n size : Z) :
  0 < n < 128 -> 0 < size ->
  police (n * 2 ^ 25) size fresh_entry =
    (POLICER_COLOR_RED, set_buckets (n * 2 ^ 25) 0 0 fresh_entry).
Proof.
  intros Hn Hs.
  assert (Hr : refill (n * 2 ^ 25) fresh_entry = set_buckets (n * 2 ^ 25) 0 0 fresh_entry).
  { unfold refill. cbn [epoch_w fresh_entry]. rewrite Z.sub_0_r, wrap_small by lia.
    rewrite (proj2 (Z.eqb_neq _ 0)) by lia. cbn [negb].
    assert (Ez : refill_bucket 12500 0 128 (n * 2 ^ 25) = 0).
    { unfold refill_bucket, wrap. replace (128 * (n * 2 ^ 25)) with (n * 2 ^ 32) by lia.
      by rewrite Z_mod_mult. }
    cbn [commit_burst_size commit_rate commit_information_rate excess_burst_size excess_rate
         excess_information_rate fresh_entry]. by rewrite Ez. }
  unfold police, colour. rewrite Hr. cbn.
  by rewrite (proj2 (Z.leb_gt _ 0)) by lia.
Qed.

Lemma first_refill_wraps_witness :
  (police 1711276032 60 fresh_entry).1 = POLICER_COLOR_RED.
Proof.
  change 1711276032 with (51 * 2 ^ 25). rewrite first_refill_wraps; [reflexivity|lia|lia].
Defined.
End Policer.
