(* ===== verification/PgwBase.v ===== *)
(** * The base of the PGW workers

    [CorePgwBaseWorker] of dataplane/inc/core.hpp and
    dataplane/src/core/core_pgw_base_worker.cc: the session tables (a hash map
    keyed by TEID or address, or the double-buffered [Lookup] table), [Find], the
    packet cycle with its warm-up part, and the binlog notification path
    ([OnNotify], [VirtualCycle]).

    Each worker class supplies its type and its [ModifyPacket] through the class
    [PgwWorker]; [Cycle] is written against that interface, as the C++ base class
    is against its virtual functions.  [PgwWorkerOk] is what [Cycle] relies on.

    The map lock makes [Find] with its callback and the updates of
    [VirtualCycle] atomic with respect to each other; they are single steps here. *)

From S2P Require Import Prelude Dpdk Packet LookupTpl CoreBase TextParse.

(** The fields of [CorePgwBaseWorker] the operations use. *)
Record PgwBase := mk_base {
  core : CoreInterface rte_mbuf;
  warmup_count_ : Z;
  cpuid_ : Z;
  greipv4_ : Z;
  gresrcipv4_ : Z;
  groupid_ : Z;
  pgwid_ : Z;
  findtype_ : Z;
  findkey_ : Z;
  lookup_ : Lookup.Lookup lookup_t;
  map_ : gmap Z lookup_t;
  ring_err_ind_ : option Z;
  ring_warmup_ : option Z;
  lookup_itm_ : lookup_t;
  now_ : Z;
  policer_cir_ : Z;
  policer_cbs_ : Z;
  policer_eir_ : Z;
  policer_ebs_ : Z;
}.

(** Updates of the fields the operations change. *)
Definition set_core (c : CoreInterface rte_mbuf) (b : PgwBase) : PgwBase :=
  mk_base c (warmup_count_ b) (cpuid_ b) (greipv4_ b) (gresrcipv4_ b) (groupid_ b) (pgwid_ b)
    (findtype_ b) (findkey_ b) (lookup_ b) (map_ b) (ring_err_ind_ b) (ring_warmup_ b)
    (lookup_itm_ b) (now_ b) (policer_cir_ b) (policer_cbs_ b) (policer_eir_ b) (policer_ebs_ b).
Definition set_warmup_count (n : Z) (b : PgwBase) : PgwBase :=
  mk_base (core b) n (cpuid_ b) (greipv4_ b) (gresrcipv4_ b) (groupid_ b) (pgwid_ b)
    (findtype_ b) (findkey_ b) (lookup_ b) (map_ b) (ring_err_ind_ b) (ring_warmup_ b)
    (lookup_itm_ b) (now_ b) (policer_cir_ b) (policer_cbs_ b) (policer_eir_ b) (policer_ebs_ b).
Definition set_tables (l : Lookup.Lookup lookup_t) (m : gmap Z lookup_t) (b : PgwBase) : PgwBase :=
  mk_base (core b) (warmup_count_ b) (cpuid_ b) (greipv4_ b) (gresrcipv4_ b) (groupid_ b) (pgwid_ b)
    (findtype_ b) (findkey_ b) l m (ring_err_ind_ b) (ring_warmup_ b)
    (lookup_itm_ b) (now_ b) (policer_cir_ b) (policer_cbs_ b) (policer_eir_ b) (policer_ebs_ b).
Definition set_find (key now : Z) (itm : lookup_t) (b : PgwBase) : PgwBase :=
  mk_base (core b) (warmup_count_ b) (cpuid_ b) (greipv4_ b) (gresrcipv4_ b) (groupid_ b) (pgwid_ b)
    (findtype_ b) key (lookup_ b) (map_ b) (ring_err_ind_ b) (ring_warmup_ b)
    itm now (policer_cir_ b) (policer_cbs_ b) (policer_eir_ b) (policer_ebs_ b).

Module CorePgwBaseWorker.
Section ops.
Context `{D : Dpdk} `{B : Build}.
Implicit Types (b : PgwBase).

(** Members the constructor leaves uninitialised ([lookup_itm_], [findkey_],
    [now_], the policer values) are arguments. *)
Definition construct (c : CoreInterface rte_mbuf) (uninit_itm : lookup_t)
    (uninit_key uninit_now uninit_cir uninit_cbs uninit_eir uninit_ebs : Z)
    (cpuid greipv4 gresrcipv4 groupid pgwid findtype : Z) : PgwBase :=
  mk_base c 0 cpuid greipv4 gresrcipv4 groupid pgwid findtype uninit_key
    (Lookup.Create COUNT_TEIDGROUP_PER_CORE) ∅ None None uninit_itm uninit_now
    uninit_cir uninit_cbs uninit_eir uninit_ebs.

Definition SetN (key : KEY) (v : Z) b : PgwBase :=
  let sel k x := if bool_decide (key = k) then v else x in
  mk_base (CoreInterface.SetN key v (core b)) (warmup_count_ b) (cpuid_ b) (greipv4_ b)
    (gresrcipv4_ b) (groupid_ b) (pgwid_ b) (findtype_ b) (findkey_ b) (lookup_ b) (map_ b)
    (ring_err_ind_ b) (ring_warmup_ b) (lookup_itm_ b) (now_ b)
    (sel POLICER_CIR (policer_cir_ b)) (sel POLICER_CBS (policer_cbs_ b))
    (sel POLICER_EIR (policer_eir_ b)) (sel POLICER_EBS (policer_ebs_ b)).

Definition GetN (t : KEY) b : Z :=
  if bool_decide (t = OPT) then cpuid_ b else CoreInterface.GetN t (core b).

Definition SetRingAddr (order : ORDER) (ring : option Z) b : res PgwBase :=
  let rings fm to err warm :=
    mk_base (CoreInterface.set_rings fm to (core b)) (warmup_count_ b) (cpuid_ b) (greipv4_ b)
      (gresrcipv4_ b) (groupid_ b) (pgwid_ b) (findtype_ b) (findkey_ b) (lookup_ b) (map_ b)
      err warm (lookup_itm_ b) (now_ b) (policer_cir_ b) (policer_cbs_ b) (policer_eir_ b)
      (policer_ebs_ b) in
  let c := core b in
  match order with
  | FROM => Ok (rings ring (ring_to_ c) (ring_err_ind_ b) (ring_warmup_ b))
  | TO => Ok (rings (ring_fm_ c) ring (ring_err_ind_ b) (ring_warmup_ b))
  | EXTEND => Ok (rings (ring_fm_ c) (ring_to_ c) ring (ring_warmup_ b))
  | FROM_00 => Ok (rings (ring_fm_ c) (ring_to_ c) (ring_err_ind_ b) ring)
  | _ => Fault RteExit
  end.

(** The connection is opened only with a complete URI; [CreateEvent] is the
    binlog client's result code. *)
Definition BeforeCycle (dburi : cstring) (CreateEvent : list Z -> list Z -> list Z -> Z) : res Z :=
  let zeros := replicate 32 0 in
  o ← parse_mysql dburi 31 31 31 (mk_out zeros zeros zeros 0);
  if (char_at 0 (user_o o) =? 0) || (char_at 0 (pwd_o o) =? 0) || (char_at 0 (host_o o) =? 0)
     || (port_o o =? 0) then Fault RtePanic
  else if negb (CreateEvent (host_o o) (user_o o) (pwd_o o) =? 0) then Fault RtePanic
  else Ok 0.

(** [Find(key, out)]: result code and the entry copied to [out]. *)
Definition Find (key : Z) b : res (Z * option lookup_t) :=
  if negb (findtype_ b =? 0) then
    match map_ b !! ntohl key with
    | None => Ok (-1, None)
    | Some it => Ok (0, Some it)
    end
  else if negb (GROUPID key =? groupid_ b) then Ok (-1, None)
  else
    it ← Lookup.Find COUNT_TEIDGROUP_PER_CORE (GROUPVAL (ntohl key)) 0 (lookup_ b);
    if bool_decide (it = Lookup.end_) then Ok (-1, None)
    else x ← Lookup.deref_it it (lookup_ b); Ok (0, Some x).

(** [Find(key, callback, arg)]: the callback updates the entry in place and the
    state [S] behind [arg]; its result code is returned. *)
Definition Find_update {S} (key : Z) (callback : lookup_t -> S -> Z * lookup_t * S)
    (findtype : Z) (map : gmap Z lookup_t) (arg : S) : Z * gmap Z lookup_t * S :=
  if findtype =? 0 then (-1, map, arg)
  else match map !! ntohl key with
       | None => (-1, map, arg)
       | Some it =>
           let '(ret, it', arg') := callback it arg in (ret, <[ntohl key := it']> map, arg')
       end.
End ops.
End CorePgwBaseWorker.

(** ** The virtual functions *)
Class PgwWorker `{Dpdk} (W : Type) := {
  base : W -> PgwBase;
  set_base : PgwBase -> W -> W;
  GetType : TYPE;
  (* [now] is what time(NULL) answers during the call: result code, the packet
     as the call leaves it, the worker and the shared store *)
  ModifyPacket : Z -> rte_mbuf -> W * world rte_mbuf -> res (Z * rte_mbuf * (W * world rte_mbuf));
}.

Module PgwCycle.
Section cycle.
Context `{D : Dpdk} {W : Type} `{!PgwWorker W}.
Implicit Types (x : W) (w : world rte_mbuf).

Definition SendOrBuffer (m : rte_mbuf) (s : W * world rte_mbuf) : res (W * world rte_mbuf) :=
  let '(x, w) := s in
  cw ← CoreInterface.SendOrBuffer m (core (base x), w);
  Ok (set_base (set_core cw.1 (base x)) x, cw.2).

Definition BurstFlush (s : W * world rte_mbuf) : res (W * world rte_mbuf) :=
  let '(x, w) := s in
  cw ← CoreInterface.BurstFlush (core (base x), w);
  Ok (set_base (set_core cw.1 (base x)) x, cw.2).

(** One packet: modify it, send it on when the result is 0. *)
Definition one_packet (time : rte_mbuf -> Z) (s : W * world rte_mbuf) (m : rte_mbuf)
    : res (W * world rte_mbuf) :=
  r ← ModifyPacket (time m) m s;
  let '(rc, m', s') := r in
  if rc =? 0 then SendOrBuffer m' s' else Ok s'.

(** The packets waiting on the ring; an empty ring (or the error code of older
    DPDK releases) skips the loop. *)
Definition receive (time : rte_mbuf -> Z) (s : W * world rte_mbuf) : res (W * world rte_mbuf) :=
  let '(x, w) := s in
  let c := core (base x) in
  r ← w_dequeue_burst (ring_fm_ c) (burst_fm_ c) w;
  let '(input, w) := r in
  _ ← require (zlen input <=? DEFAULT_MBUF_ARRAY_SIZE) Undefined;
  if zlen input =? 0 then Ok (x, w)
  else burst_loop (one_packet time) input (x, w).

Definition GTPC_PRIVATE_EXT_SIZE := 32.
Definition ext_value (i : Z) (m : rte_mbuf) : res Z :=
  let pehdr := mtod_offset m (u32 (pkt_len m - GTPC_PRIVATE_EXT_SIZE)) in
  ld 4 m (pehdr + 12 + 4 * i).

(** The session a warm-up message announces, over the uninitialised [itm]. *)
Definition warmup_item (itm : lookup_t) (m : rte_mbuf) : res lookup_t :=
  ue_ip ← ext_value 2 m;
  ue_t ← ext_value 3 m;
  sgw_ip ← ext_value 0 m;
  sgw_t ← ext_value 1 m;
  pgw_ip ← ext_value 4 m;
  Ok (mk_lookup (valid itm) (active itm) (mode itm) ue_ip ue_t sgw_t sgw_ip pgw_ip
        (epoch_w itm) (commit_rate itm) (commit_burst_size itm) (commit_information_rate itm)
        (excess_rate itm) (excess_burst_size itm) (excess_information_rate itm)).

Definition complete_item (itm : lookup_t) : bool :=
  negb (ue_ipv4 itm =? 0) && negb (ue_teid itm =? 0) && negb (sgw_gtpu_ipv4 itm =? 0) &&
  negb (sgw_gtpu_teid itm =? 0) && negb (pgw_gtpu_ipv4 itm =? 0).

(** One warm-up message: an incomplete one is skipped (and stays allocated). *)
Definition warmup_one (ncore : Z) (s : lookup_t * (W * world rte_mbuf)) (m : rte_mbuf)
    : res (lookup_t * (W * world rte_mbuf)) :=
  let '(itm, (x, w)) := s in
  itm ← warmup_item itm m;
  if negb (complete_item itm) then Ok (itm, (x, w))
  else
    let w := w_free [m] w in
    let b := base x in
    let nkey := if bool_decide (GetType = PGW_EGRESS) then ue_ipv4 itm else ue_teid itm in
    if negb (findtype_ b =? 0) then
      Ok (itm, (set_base (set_tables (lookup_ b) (<[htonl nkey := itm]> (map_ b)) b) x, w))
    else if negb (ncore =? 0) then
      if nkey mod ncore =? groupid_ b then
        r ← Lookup.Add COUNT_TEIDGROUP_PER_CORE (GROUPVAL (ue_teid itm)) itm 0 (lookup_ b);
        Ok (lookup_set_valid Lookup.STAT_ON itm, (set_base (set_tables r.2 (map_ b) b) x, w))
      else Ok (itm, (x, w))
    else Fault RteExit.

(** The warm-up ring, looked at every 14000000/burst cycles. *)
Definition warmup (uninit : lookup_t) (s : W * world rte_mbuf) : res (W * world rte_mbuf) :=
  let '(x, w) := s in
  let b := base x in
  let c := core b in
  _ ← require (negb (burst_fm_ c =? 0)) Undefined;
  let due := 14000000 / burst_fm_ c <? warmup_count_ b in
  let b := set_warmup_count (u64 (warmup_count_ b + 1)) b in
  match due, ring_warmup_ b with
  | true, Some r =>
      let ncore := CorePgwBaseWorker.GetN
                     (if bool_decide (GetType = PGW_EGRESS) then CNT_PGW_EGRESS else CNT_PGW_INGRESS) b in
      let x := set_base (set_warmup_count 0 b) x in
      r ← w_dequeue_burst (Some r) (burst_fm_ c) w;
      let '(input, w) := r in
      _ ← require (zlen input <=? DEFAULT_MBUF_ARRAY_SIZE) Undefined;
      s ← foldM (warmup_one ncore) input (uninit, (x, w));
      Ok s.2
  | _, _ => Ok (set_base b x, w)
  end.

(** One cycle: receive, warm up, flush when [cnt] has reached the delay. *)
Definition Cycle (time : rte_mbuf -> Z) (uninit : lookup_t) (cnt : Z) (s : W * world rte_mbuf)
    : res (Z * Z * (W * world rte_mbuf)) :=
  s ← receive time s;
  s ← warmup uninit s;
  let delay := flush_delay_ (core (base s.1)) in
  if negb (delay =? 0) && (delay <=? cnt) then s ← BurstFlush s; Ok (0, 0, s)
  else Ok (0, cnt, s).
End cycle.
End PgwCycle.

(** ** Binlog notifications *)
Module NotifyImpl.
(** Columns of the table [tunnel]. *)
Definition T_UEIPV4 := 3.
Definition T_PGW_TEID := 4.
Definition T_PGW_GTPU_IPV := 6.
Definition T_SGW_GTPU_TEID := 11.
Definition T_SGW_GTPU_IPV := 12.
Definition T_ACTIVE := 14.
Definition T_QOS := 18.

(** One call of [OnNotify]: event type, column, numeric or text value. *)
Inductive value :=
| TYPE_NUMERIC (v : Z)
| TYPE_TEXT (s : cstring).
Record note := mk_note { event : Z; clmnid : Z; val : value }.

(** [record_t]. *)
Record record := mk_record { evt : Z; lnk : lookup_t }.

Definition set_lnk (act md ueip uet sgwt sgwip pgwip : Z) (t : lookup_t) : lookup_t :=
  mk_lookup (valid t) act md ueip uet sgwt sgwip pgwip (epoch_w t) (commit_rate t)
    (commit_burst_size t) (commit_information_rate t) (excess_rate t) (excess_burst_size t)
    (excess_information_rate t).

(** The address column, when it parses. *)
Definition column_ipv4 (s : cstring) (old : Z) : Z :=
  let '(rc, ipv, _) := get_ipv4 (Some s) (replicate 16 0) 16 in
  if rc =? 0 then le_load (slice 0 4 ipv) else old.

Definition OnNotify (n : note) (rec : record) : record :=
  let t := lnk rec in
  let upd act md ueip uet sgwt sgwip pgwip :=
    mk_record (evt rec) (set_lnk act md ueip uet sgwt sgwip pgwip t) in
  match val n with
  | TYPE_NUMERIC v =>
      if clmnid n =? T_PGW_TEID then
        upd (active t) (mode t) (ue_ipv4 t) (u32 v) (sgw_gtpu_teid t) (sgw_gtpu_ipv4 t) (pgw_gtpu_ipv4 t)
      else if clmnid n =? T_SGW_GTPU_TEID then
        upd (active t) (mode t) (ue_ipv4 t) (ue_teid t) (u32 v) (sgw_gtpu_ipv4 t) (pgw_gtpu_ipv4 t)
      else if clmnid n =? T_ACTIVE then
        upd (wrap 1 v) (mode t) (ue_ipv4 t) (ue_teid t) (sgw_gtpu_teid t) (sgw_gtpu_ipv4 t) (pgw_gtpu_ipv4 t)
      else if clmnid n =? T_QOS then
        upd (active t) (wrap 2 v) (ue_ipv4 t) (ue_teid t) (sgw_gtpu_teid t) (sgw_gtpu_ipv4 t) (pgw_gtpu_ipv4 t)
      else rec
  | TYPE_TEXT s =>
      if clmnid n =? T_SGW_GTPU_IPV then
        upd (active t) (mode t) (ue_ipv4 t) (ue_teid t) (sgw_gtpu_teid t)
          (column_ipv4 s (sgw_gtpu_ipv4 t)) (pgw_gtpu_ipv4 t)
      else if clmnid n =? T_UEIPV4 then
        upd (active t) (mode t) (column_ipv4 s (ue_ipv4 t)) (ue_teid t) (sgw_gtpu_teid t)
          (sgw_gtpu_ipv4 t) (pgw_gtpu_ipv4 t)
      else if clmnid n =? T_PGW_GTPU_IPV then
        upd (active t) (mode t) (ue_ipv4 t) (ue_teid t) (sgw_gtpu_teid t) (sgw_gtpu_ipv4 t)
          (column_ipv4 s (pgw_gtpu_ipv4 t))
      else rec
  end.
End NotifyImpl.

Module PgwVirtualCycle.
Import NotifyImpl.
Section virtual.
Context `{B : Build}.
Implicit Types (b : PgwBase).

(** The last part of [VirtualCycle]: apply a complete record to the table of
    the worker. *)
Definition apply_record (type : TYPE) (rec : record) b : res PgwBase :=
  let t := lnk rec in
  if negb (findtype_ b =? 0) then
    let nkey := if bool_decide (type = PGW_EGRESS) then ue_ipv4 t else ue_teid t in
    let m := map_ b in
    let m' :=
      if evt rec =? 30 then <[htonl nkey := t]> m
      else if evt rec =? 31 then
        if active t =? 0 then delete (htonl nkey) m else <[htonl nkey := t]> m
      else if evt rec =? 32 then delete (htonl nkey) m
      else m in
    Ok (set_tables (lookup_ b) m' b)
  else if (PGWID (ue_teid t) =? pgwid_ b) && (GROUPID (ue_teid t) =? groupid_ b) then
    let add := r ← Lookup.Add COUNT_TEIDGROUP_PER_CORE (GROUPVAL (ue_teid t)) t 0 (lookup_ b);
               Ok (set_tables r.2 (map_ b) b) in
    let del := r ← Lookup.Del COUNT_TEIDGROUP_PER_CORE (GROUPVAL (ue_teid t)) 0 (lookup_ b);
               Ok (set_tables r.2 (map_ b) b) in
    if evt rec =? 30 then add
    else if evt rec =? 31 then if active t =? 0 then del else add
    else if evt rec =? 32 then del
    else Ok b
  else Ok b.

(** [Read] is the binlog client: its result code and the notifications it makes
    while it runs, each handled by [OnNotify] on the zeroed record. *)
Definition VirtualCycle (type : TYPE) (Read : Z * list note) b : res PgwBase :=
  let rec := foldl (fun r n => OnNotify n r) (mk_record 0 zero_lookup) Read.2 in
  if negb (Read.1 =? 0) then Ok b
  else
    let t := lnk rec in
    let t := if 15 <=? ARCH then
               mk_lookup (valid t) (active t) (mode t) (ue_ipv4 t) (ue_teid t) (sgw_gtpu_teid t)
                 (sgw_gtpu_ipv4 t) (pgw_gtpu_ipv4 t) (epoch_w t) (commit_rate t)
                 (policer_cbs_ b) (policer_cir_ b) (excess_rate t) (policer_ebs_ b) (policer_eir_ b)
             else t in
    if (ue_ipv4 t =? 0) || (ue_teid t =? 0) || (sgw_gtpu_ipv4 t =? 0) || (sgw_gtpu_teid t =? 0)
       || (pgw_gtpu_ipv4 t =? 0) then Ok b
    else apply_record type (mk_record (evt rec) t) b.
End virtual.
End PgwVirtualCycle.

(** ** What [Cycle] relies on *)

(** A packet as the drivers deliver it: one segment, headroom for the headers
    that are prepended, and 128 bytes of buffer from its start. *)
Record pkt_room (m : rte_mbuf) : Prop := {
  room_wf : mbuf_wf m;
  room_head : 64 <= data_off m;
  room_tail : data_off m + 128 <= zlen (buf m);
}.

Abbreviation addrs := (fmap m_addr).

Section interface.
Context `{DpdkOk}.

(** A connected worker: its output ring, and its error ring if it has one. *)
Record base_ok (b : PgwBase) (w : world rte_mbuf) : Prop := {
  base_core : core_ok (core b) w;
  base_err : ring_err_ind_ b <> None -> w_valid (ring_err_ind_ b) w;
}.

Lemma base_ok_keeps b w w' : base_ok b w -> w_keeps w w' -> base_ok b w'.
Proof. intros [] Hk. constructor; [by eapply core_ok_keeps|auto]. Qed.

Lemma base_ok_core b c' w w' :
  base_ok b w -> core_ok c' w' -> w_keeps w w' -> base_ok (set_core c' b) w'.
Proof. intros [] Hc Hk. constructor; [done|]. intros He. apply Hk. by apply base_err0. Qed.
End interface.

(** The contract of [ModifyPacket]: it returns, keeps the worker connected and
    its burst buffer as it was, and either hands the packet back (result 0) or
    has put it into a ring or freed it (any other result). *)
Class PgwWorkerOk `{DpdkOk} (W : Type) `{!PgwWorker W} := {
  own_inv : W -> Prop;
  base_set b (x : W) : base (set_base b x) = b;
  own_set c (x : W) : own_inv x -> own_inv (set_base (set_core c (base x)) x);
  modify_ok now m (x : W) w :
    base_ok (base x) w -> own_inv x -> pkt_room m ->
    exists rc m' x' w', ModifyPacket now m (x, w) = Ok (rc, m', (x', w')) /\
      base_ok (base x') w' /\ own_inv x' /\ w_keeps w w' /\
      output_ (core (base x')) = output_ (core (base x)) /\ m_addr m' = m_addr m /\
      addrs (w_all w') ≡ₚ (if rc =? 0 then [] else [m_addr m]) ++ addrs (w_all w);
}.

Section receive.
Context `{DpdkOk} {W : Type} `{!PgwWorker W} `{!PgwWorkerOk W}.
Implicit Types (x : W) (w : world rte_mbuf).

(** What a worker and the store hold, by address. *)
Definition held x w : list Z := addrs (output_ (core (base x)) ++ w_all w).

Lemma one_packet_ok time m x w :
  base_ok (base x) w -> own_inv x -> pkt_room m ->
  exists x' w', PgwCycle.one_packet time (x, w) m = Ok (x', w') /\
    base_ok (base x') w' /\ own_inv x' /\ w_keeps w w' /\ held x' w' ≡ₚ m_addr m :: held x w.
Proof.
  intros Hb Ho Hm. unfold PgwCycle.one_packet.
  destruct (modify_ok (time m) m x w Hb Ho Hm)
    as (rc & m' & x1 & w1 & E & Hb1 & Ho1 & Hk & Eo & Ea & Hp).
  rewrite E. res_simpl. destruct (rc =? 0).
  - unfold PgwCycle.SendOrBuffer.
    destruct (SendOrBuffer_ok m' (core (base x1)) w1) as (c' & w' & Es & Hc & _ & Hk' & _ & Hp');
      [apply Hb1|].
    rewrite Es. res_simpl. eexists _, _. split; [done|]. rewrite base_set.
    split_and!; [by eapply base_ok_core|by apply own_set|by eapply w_keeps_trans|].
    unfold held. rewrite base_set. cbn [core set_core]. rewrite Hp'.
    cbn [fmap list_fmap]. rewrite Ea. constructor.
    rewrite Eo, !fmap_app, Hp. done.
  - eexists _, _. split; [done|]. split_and!; try done.
    unfold held. rewrite Eo, !fmap_app, Hp. cbn. by rewrite <-Permutation_middle.
Qed.

Lemma packets_ok time input x w :
  base_ok (base x) w -> own_inv x -> Forall pkt_room input ->
  exists x' w', foldM (PgwCycle.one_packet time) input (x, w) = Ok (x', w') /\
    base_ok (base x') w' /\ own_inv x' /\ w_keeps w w' /\ held x' w' ≡ₚ addrs input ++ held x w.
Proof.
  intros Hb Ho Hi. revert x w Hb Ho.
  induction Hi as [|m input Hm _ IH]; intros x w Hb Ho; cbn [foldM].
  - eexists _, _. split_and!; auto with pgw.
  - destruct (one_packet_ok time m x w Hb Ho Hm) as (x1 & w1 & E & Hb1 & Ho1 & Hk1 & Hp1).
    rewrite E. res_simpl. destruct (IH x1 w1 Hb1 Ho1) as (x2 & w2 & E2 & Hb2 & Ho2 & Hk2 & Hp2).
    exists x2, w2. split_and!; try done; [by eapply w_keeps_trans|].
    rewrite Hp2, Hp1. cbn. by rewrite <-Permutation_middle.
Qed.

Lemma receive_ok time x w :
  base_ok (base x) w -> own_inv x -> w_valid (ring_fm_ (core (base x))) w ->
  0 <= burst_fm_ (core (base x)) <= DEFAULT_MBUF_ARRAY_SIZE ->
  Forall pkt_room (w_objs (ring_fm_ (core (base x))) w) ->
  exists x' w', PgwCycle.receive time (x, w) = Ok (x', w') /\
    base_ok (base x') w' /\ own_inv x' /\ w_keeps w w' /\ held x' w' ≡ₚ held x w.
Proof.
  intros Hb Ho Hv Hbf Hpk. unfold PgwCycle.receive.
  destruct (w_dequeue_spec _ (burst_fm_ (core (base x))) w (proj1 Hbf) Hv) as (w1 & E & Hfr & Hv1 & _).
  rewrite E. res_simpl.
  destruct (w_all_dequeue _ _ _ _ _ (proj1 Hbf) E) as [Hall Hlen].
  set (input := take _ _) in *.
  assert (Hk : w_keeps w w1).
  { intros p Hp. destruct (decide (p = ring_fm_ (core (base x)))) as [->|Hn]; [done|].
    destruct Hp as [r E']. exists r. by rewrite (proj2 Hfr p Hn). }
  assert (Hb1 : base_ok (base x) w1).
  { by eapply base_ok_keeps. }
  unfold require. rewrite (proj2 (Z.leb_le (zlen input) DEFAULT_MBUF_ARRAY_SIZE)) by lia. res_simpl.
  destruct (zlen input =? 0) eqn:Ez; to_prop.
  - destruct input; [|cbn in Ez; lia]. eexists _, _. split_and!; try done.
    unfold held. by rewrite Hall.
  - rewrite burst_loop_eq.
    destruct (packets_ok time input x w1 Hb1 Ho) as (x' & w' & E' & Hb' & Ho' & Hk' & Hp').
    { by apply Forall_take. }
    exists x', w'. split_and!; try done; [by eapply w_keeps_trans|].
    rewrite Hp'. unfold held. rewrite !fmap_app, Hall, fmap_app. rewrite !app_assoc.
    by rewrite (Permutation_app_comm (addrs input)).
Qed.
End receive.

(** ** Properties *)
Module Properties.
Import NotifyImpl PgwVirtualCycle.

(** C16: with any [ModifyPacket] that keeps its contract, the receive part of a
    cycle returns and loses or duplicates no packet: by address, what is
    buffered, in rings or freed is the same multiset before and after. *)
Theorem receive_conserves_packets `{DpdkOk} {W} `{!PgwWorker W} `{!PgwWorkerOk W}
    (time : rte_mbuf -> Z) (x : W) (w : world rte_mbuf) :
  base_ok (base x) w -> own_inv x -> w_valid (ring_fm_ (core (base x))) w ->
  0 <= burst_fm_ (core (base x)) <= DEFAULT_MBUF_ARRAY_SIZE ->
  Forall pkt_room (w_objs (ring_fm_ (core (base x))) w) ->
  exists x' w', PgwCycle.receive time (x, w) = Ok (x', w') /\
    base_ok (base x') w' /\ own_inv x' /\ held x' w' ≡ₚ held x w.
Proof.
  intros. destruct (receive_ok time x w) as (x' & w' & ? & ? & ? & ? & ?); try done. eauto 10.
Qed.

(** The key a worker files a session under. *)
Definition session_key (type : TYPE) (t : lookup_t) : Z :=
  if bool_decide (type = PGW_EGRESS) then ue_ipv4 t else ue_teid t.

Lemma ntohl_inj k k' :
  0 <= k < 2 ^ 32 -> 0 <= k' < 2 ^ 32 -> ntohl k = ntohl k' -> k = k'.
Proof.
  intros Hk Hk' E. rewrite <-(ntohl_htonl k), <-(ntohl_htonl k') by done.
  unfold ntohl, htonl in *. by rewrite E.
Qed.

(** session events on the hash map: [apply_record] for an insert (30) or an
    update (31) of an active session makes exactly [Find(key)] return it, for an
    update to inactive or a delete (32) makes it fail, and leaves what every
    other key finds unchanged, although the map is keyed in the other byte
    order than [Find]'s argument. *)
Theorem session_events_update_find (type : TYPE) (rec : record) (b : PgwBase) (key : Z) :
  findtype_ b <> 0 -> evt rec = 30 \/ evt rec = 31 \/ evt rec = 32 ->
  0 <= session_key type (lnk rec) < 2 ^ 32 -> 0 <= key < 2 ^ 32 ->
  exists b', apply_record type rec b = Ok b' /\
    CorePgwBaseWorker.Find key b' =
      if key =? session_key type (lnk rec) then
        if (evt rec =? 32) || ((evt rec =? 31) && (active (lnk rec) =? 0)) then Ok (-1, None)
        else Ok (0, Some (lnk rec))
      else CorePgwBaseWorker.Find key b.
Proof.
  intros Hf He Hs Hk. unfold apply_record. fold (session_key type (lnk rec)).
  rewrite (proj2 (Z.eqb_neq _ _) Hf). cbn [negb]. eexists. split; [done|].
  unfold CorePgwBaseWorker.Find. cbn [findtype_ set_tables map_ groupid_ lookup_].
  rewrite (proj2 (Z.eqb_neq _ _) Hf). cbn [negb].
  change (htonl (session_key type (lnk rec))) with (ntohl (session_key type (lnk rec))).
  destruct (key =? session_key type (lnk rec)) eqn:Ek; to_prop.
  - subst key. destruct He as [->|[->| ->]]; cbn [Z.eqb Pos.eqb orb andb].
    + by rewrite lookup_insert_eq.
    + destruct (active (lnk rec) =? 0); [by rewrite lookup_delete_eq|by rewrite lookup_insert_eq].
    + by rewrite lookup_delete_eq.
  - assert (Hn : ntohl (session_key type (lnk rec)) <> ntohl key).
    { intros E. apply Ek. symmetry. by apply ntohl_inj. }
    destruct He as [->|[->| ->]]; cbn [Z.eqb Pos.eqb].
    + by rewrite lookup_insert_ne.
    + destruct (active (lnk rec) =? 0); [by rewrite lookup_delete_ne|by rewrite lookup_insert_ne].
    + by rewrite lookup_delete_ne.
Qed.

Definition sample_session : lookup_t := mk_lookup 0 1 0 0x47030000 7 8 9 10 0 0 0 0 0 0 0.
Definition sample_base : PgwBase :=
  mk_base (mk_core 0 0 1 0 0 0 0 0 0 4 3 (Some 1) (Some 2) [] 0 CoreCounter.Clear) 0 0 0 0 0 0 1 0
    (Lookup.Create 64) ∅ None None zero_lookup 0 0 0 0 0.

Lemma session_events_update_find_witness :
  exists b', apply_record PGW_EGRESS (mk_record 30 sample_session) sample_base = Ok b' /\
    CorePgwBaseWorker.Find 0x47030000 b' = Ok (0, Some sample_session).
Proof.
  apply (session_events_update_find PGW_EGRESS (mk_record 30 sample_session) sample_base 0x47030000).
  - discriminate.
  - left. reflexivity.
  - vm_compute. split; congruence.
  - lia.
Defined.

Lemma OnNotify_evt n rec : evt (OnNotify n rec) = evt rec.
Proof. unfold OnNotify. destruct (val n); repeat case_if; done. Qed.

Lemma notes_evt ns rec : evt (foldl (fun r n => OnNotify n r) rec ns) = evt rec.
Proof.
  revert rec. induction ns as [|n ns IH]; intros rec; cbn; [done|]. by rewrite IH, OnNotify_evt.
Qed.

(** the event type is never stored: [OnNotify] ignores its [event]
    argument and [record.evt] keeps the 0 it was zeroed to, so whatever the
    binlog delivers, [VirtualCycle] leaves the worker and both of its session
    tables exactly as they were. *)
Theorem virtual_cycle_never_updates `{Build} (type : TYPE) (Read : Z * list note) (b : PgwBase) :
  VirtualCycle type Read b = Ok b.
Proof.
  unfold VirtualCycle. destruct (negb _); [done|].
  set (t := if 15 <=? ARCH then _ else _). case_if; [done|].
  rewrite notes_evt. unfold apply_record. cbn [evt lnk Z.eqb].
  case_if; [by destruct b|]. by case_if.
Qed.

(** a complete warm-up message files its session, keyed by TEID (ingress)
    or address (egress), so that [Find] returns it from then on; the message is
    freed.  The fields the message does not carry (mode, policer values) are
    those of an uninitialised local. *)
Theorem warmup_files_session `{Dpdk} {W} `{!PgwWorker W} (itm itm' : lookup_t) (ncore : Z)
    (x : W) (w : world rte_mbuf) (m : rte_mbuf) :
  (forall b, base (set_base b x) = b) -> findtype_ (base x) <> 0 ->
  PgwCycle.warmup_item itm m = Ok itm' -> PgwCycle.complete_item itm' = true ->
  0 <= session_key GetType itm' < 2 ^ 32 ->
  exists x', PgwCycle.warmup_one ncore (itm, (x, w)) m = Ok (itm', (x', w_free [m] w)) /\
    CorePgwBaseWorker.Find (session_key GetType itm') (base x') = Ok (0, Some itm').
Proof.
  intros Hb Hf Hi Hc Hk. unfold PgwCycle.warmup_one. rewrite Hi. res_simpl. rewrite Hc. cbn [negb].
  rewrite (proj2 (Z.eqb_neq _ _) Hf). cbn [negb]. fold (session_key GetType itm').
  eexists. split; [done|]. rewrite Hb.
  unfold CorePgwBaseWorker.Find. cbn [findtype_ set_tables map_].
  rewrite (proj2 (Z.eqb_neq _ _) Hf). cbn [negb].
  change (htonl ?k) with (ntohl k). by rewrite lookup_insert_eq.
Qed.
End Properties.
