(* ===== verification/IngressTunnel.v ===== *)
(** * The ingress tunnel worker

    [CorePgwIngressTunnelWorker] of
    dataplane/src/core/core_pgw_ingress_tunnel_worker.cc: a G-PDU from the S1-U
    side is decapsulated (IPv4 user packets: the outer IPv4, UDP and GTP-U
    headers are removed; IPv6 user packets are handed to the 6rd gateway under a
    new IPv4 header), its session is looked up by TEID and checked against the
    user address, and the packet is coloured by the policer. *)

From S2P Require Import Prelude Dpdk Packet LookupTpl CoreBase Policer PgwBase.

Module CorePgwIngressTunnelWorker.
Section worker.
Context `{D : Dpdk}.
Implicit Types (b : PgwBase) (w : world rte_mbuf) (inpkt : rte_mbuf).

Definition GetType : TYPE := PGW_INGRESS.

(** The callback of [Find]: state behind [arg] is the packet's user word and
    [lookup_itm_]; [findkey_] and [now_] are read from it. *)
Definition on_found (findkey now : Z) (itm : lookup_t) (s : Z * lookup_t)
    : Z * lookup_t * (Z * lookup_t) :=
  let '(u, lookup_itm) := s in
  let ue_ipv4_cmp := Z.land (ue_ipv4 itm) 0xffffff00 in
  let src_addr_cmp := Z.land findkey 0xffffff00 in
  if negb (ue_ipv4_cmp =? src_addr_cmp) then (-1, itm, (u, lookup_itm))
  else
    let '(color, itm) := Policer.police now (udat_size u) itm in
    (0, itm, (set_teid ue_ipv4_cmp (set_color color u), itm)).

(** The 6rd branch: [ipkey] from the IPv6 source; [eh], [gtph] are the pointers
    computed before the packet start moved. *)
Definition sixrd_decap (eh gtph ipkey : Z) inpkt : res rte_mbuf :=
  inpkt ← st 2 inpkt (eh + o_ether_type) (htons ETHER_TYPE_IPv4);
  let pt := Z.lor (Z.land (packet_type inpkt) (Z.lnot RTE_PTYPE_L3_IPV6)) RTE_PTYPE_L3_IPV4 in
  let inpkt := set_packet_type pt inpkt in
  ehdr ← ld_bytes sizeof_ether_hdr inpkt eh;
  inpkt ← st_bytes inpkt (mtod inpkt) ehdr;
  let ip_cap := mtod_offset inpkt sizeof_ether_hdr in
  inpkt ← st_bytes inpkt ip_cap (replicate 20 0);
  inpkt ← st 1 inpkt (ip_cap + o_version_ihl) 0x45;
  inpkt ← st 1 inpkt (ip_cap + 1) 0;
  glen ← ld 2 inpkt (gtph + o_gtpu_length);
  inpkt ← st 2 inpkt (ip_cap + o_total_length) (htons (glen + sizeof_ipv4_hdr));
  inpkt ← st 2 inpkt (ip_cap + 4) 0;
  inpkt ← st 2 inpkt (ip_cap + 6) 0;
  inpkt ← st 1 inpkt (ip_cap + o_time_to_live) 0xff;
  inpkt ← st 1 inpkt (ip_cap + o_next_proto_id) IPPROTO_IPV6;
  inpkt ← st 2 inpkt (ip_cap + o_hdr_checksum) 0;
  inpkt ← st 4 inpkt (ip_cap + o_src_addr) (Z.lor (Z.land ipkey 0xffffff00) 0x0000000a);
  inpkt ← st 4 inpkt (ip_cap + o_dst_addr) (htonl SIXRD_ENCAPPER_ADDR);
  (* the value of rte_ipv4_cksum is discarded *)
  _ ← ld_bytes sizeof_ipv4_hdr inpkt ip_cap;
  let size := pkt_len inpkt - sizeof_ether_hdr - sizeof_ipv4_hdr in
  Ok (set_udata64 (set_size size (udata64 inpkt)) inpkt).

(** The IPv4 branch. *)
Definition ipv4_decap (eh : Z) inpkt : res rte_mbuf :=
  ehdr ← ld_bytes sizeof_ether_hdr inpkt eh;
  inpkt ← st_bytes inpkt (mtod inpkt) ehdr;
  let inpkt := set_packet_type (Z.lor (packet_type inpkt) RTE_PTYPE_L3_IPV4) inpkt in
  let size := pkt_len inpkt - sizeof_ether_hdr in
  Ok (set_udata64 (set_size size (udata64 inpkt)) inpkt).

(** Count a drop and give the packet back to the pool. *)
Definition drop_packet inpkt (s : PgwBase * world rte_mbuf) : PgwBase * world rte_mbuf :=
  let '(b, w) := s in
  (set_core (CoreInterface.count_drop (pkt_len inpkt) 1 (core b)) b, w_free [inpkt] w).

(** After the decapsulation: find the session and colour the packet. *)
Definition lookup_session (now gtph_tid ipkey : Z) inpkt (s : PgwBase * world rte_mbuf)
    : res (Z * rte_mbuf * (PgwBase * world rte_mbuf)) :=
  let '(b, w) := s in
  let now := u32 now in
  let u := set_mode POLICER_MODE_LTE (set_color POLICER_COLOR_GREEN (udata64 inpkt)) in
  let '(ret, map, (u, itm)) :=
    CorePgwBaseWorker.Find_update (ntohl gtph_tid) (on_found ipkey now)
      (findtype_ b) (map_ b) (u, lookup_itm_ b) in
  let b := set_tables (lookup_ b) map (set_find ipkey now itm b) in
  let inpkt := set_udata64 u inpkt in
  if negb (ret =? 0) then
    let b := set_core (CoreInterface.count_drop (pkt_len inpkt) 1 (core b)) b in
    match ring_err_ind_ b with
    | Some r =>
        e ← w_enqueue (Some r) inpkt w;
        let '(rc, w) := e in
        let w := if rc <? 0 then w_free [inpkt] w else w in
        Ok (1, inpkt, (b, w))
    | None => Ok (0, set_udata64 (set_flag MBFU_FLAG_DC u) inpkt, (b, w))
    end
  else
    Ok (0, set_udata64 (set_mode (mode (lookup_itm_ b)) (set_flag MBFU_FLAG_PDU u)) inpkt, (b, w)).

Definition ModifyPacket (now : Z) inpkt (s : PgwBase * world rte_mbuf)
    : res (Z * rte_mbuf * (PgwBase * world rte_mbuf)) :=
  let eh := mtod_offset inpkt 0 in
  let gtph := mtod_offset inpkt (sizeof_ether_hdr + sizeof_ipv4_hdr + sizeof_udp_hdr) in
  let inip_ofst := sizeof_ether_hdr + sizeof_ipv4_hdr + sizeof_udp_hdr + sizeof_gtpu_hdr in
  let iniph := mtod_offset inpkt inip_ofst in
  gtph_tid ← ld 4 inpkt (gtph + o_gtpu_tid);
  let inpkt := set_udata64 0 inpkt in
  opr ← is_pdu inpkt;
  if bool_decide (opr = PASS) then
    Ok (0, set_udata64 (set_flag MBFU_FLAG_DC (udata64 inpkt)) inpkt, s)
  else
    vihl ← ld 1 inpkt (iniph + o_version_ihl);
    if Z.land vihl 0xf0 =? 0x60 then
      ipkey ← ld 4 inpkt (mtod_offset inpkt inip_ofst + o_ip6_src_addr + 4);
      match rte_pktmbuf_adj inpkt (sizeof_udp_hdr + sizeof_gtpu_hdr) with
      | (None, inpkt) => Ok (1, inpkt, drop_packet inpkt s)
      | (Some _, inpkt) =>
          inpkt ← sixrd_decap eh gtph ipkey inpkt;
          lookup_session now gtph_tid ipkey inpkt s
      end
    else if Z.land vihl 0xf0 =? 0x40 then
      ipkey ← ld 4 inpkt (mtod_offset inpkt inip_ofst + o_src_addr);
      match rte_pktmbuf_adj inpkt (sizeof_ipv4_hdr + sizeof_udp_hdr + sizeof_gtpu_hdr) with
      | (None, inpkt) => Ok (1, inpkt, drop_packet inpkt s)
      | (Some _, inpkt) =>
          inpkt ← ipv4_decap eh inpkt;
          lookup_session now gtph_tid ipkey inpkt s
      end
    else Ok (1, inpkt, drop_packet inpkt s).

#[export] Instance ingress_worker : PgwWorker PgwBase := {|
  base b := b;
  set_base b _ := b;
  PgwBase.GetType := GetType;
  PgwBase.ModifyPacket := ModifyPacket;
|}.
End worker.
End CorePgwIngressTunnelWorker.

(** ** Lemmas *)
Section lemmas.
Context `{DpdkOk}.
Import CorePgwIngressTunnelWorker.
Implicit Types (b : PgwBase) (w : world rte_mbuf) (m : rte_mbuf).

(** The IPv4 branch: the outer 36 bytes are gone, the Ethernet header stays. *)
Lemma ipv4_decap_ok m :
  mbuf_wf m -> 36 <= data_len m -> data_off m + 50 <= zlen (buf m) ->
  let m1 := set_bounds (data_off m + 36) (data_len m - 36) (pkt_len m - 36) m in
  exists bf pt u, ipv4_decap (data_off m + 0) m1 = Ok (set_udata64 u (set_packet_type pt (set_buf bf m1))) /\
    pt = Z.lor (packet_type m) RTE_PTYPE_L3_IPV4 /\
    u = set_size (pkt_len m - 36 - 14) (udata64 m) /\
    zlen bf = zlen (buf m) /\ bytes_ok bf /\
    bf = splice (data_off m + 36) (slice (data_off m) 14 (buf m)) (buf m).
Proof.
  intros [] Hl Hb m1. unfold ipv4_decap, m1. autounfold with pkt. rewrite Z.add_0_r. mem_cbn.
  rewrite ld_bytes_ok by (mem_cbn; lia). res_simpl. mem_cbn.
  rewrite st_bytes_ok by (mem_cbn; rewrite ?zlen_slice by lia; lia). res_simpl. mem_cbn.
  eexists _, _, _. split; [done|]. split_and!; try done.
  - rewrite length_splice; rewrite ?zlen_slice by lia; lia.
  - apply Forall_splice; [by apply Forall_slice|done].
Qed.

Lemma ipv4_decap_data m bf :
  mbuf_wf m -> 50 <= data_len m ->
  bf = splice (data_off m + 36) (slice (data_off m) 14 (buf m)) (buf m) ->
  slice (data_off m + 36) (data_len m - 36) bf =
    slice 0 14 (pkt_data m) ++ slice 50 (data_len m - 50) (pkt_data m).
Proof.
  intros [] Hl ->. replace (data_len m - 36) with (14 + (data_len m - 50)) by lia.
  rewrite slice_app_split by lia. unfold pkt_data. rewrite !slice_slice by lia. f_equal.
  - rewrite slice_splice_eq; rewrite ?zlen_slice by lia; try lia. f_equal; lia.
  - rewrite slice_splice_disj; rewrite ?zlen_slice by lia; try lia. f_equal; lia.
Qed.

(** The header the 6rd branch writes: total length always 20, checksum 0. *)
Definition sixrd_header (f : list Z) : list Z :=
  [0x45] ++ [0] ++ [0; 20] ++ [0; 0] ++ [0; 0] ++ [0xff] ++ [41] ++ [0; 0] ++
  (10 :: slice 63 3 f) ++ [10; 10; 10; 10].
Definition sixrd_frame (f : list Z) (n : Z) : list Z :=
  slice 0 12 f ++ [8; 0] ++ sixrd_header f ++ slice 50 (n - 50) f.

Lemma sixrd_decap_ok m ipkey :
  mbuf_wf m -> 16 <= data_len m -> data_off m + 66 <= zlen (buf m) ->
  ipkey = le_load (slice (data_off m + 62) 4 (buf m)) ->
  let m1 := set_bounds (data_off m + 16) (data_len m - 16) (pkt_len m - 16) m in
  exists bf pt, sixrd_decap (data_off m + 0) (data_off m + 42) ipkey m1 =
      Ok (set_udata64 (set_size (pkt_len m - 16 - 14 - 20) (udata64 m)) (set_packet_type pt (set_buf bf m1))) /\
    zlen bf = zlen (buf m) /\ bytes_ok bf /\
    (66 <= data_len m -> slice (data_off m + 16) (data_len m - 16) bf = sixrd_frame (pkt_data m) (data_len m)).
Proof.
  intros [] Hl Hb Ek m1. unfold sixrd_decap, m1. autounfold with pkt.
  destruct m as [a bb off dl pl ns nx pt ud].
  cbn [buf data_off data_len pkt_len] in wf_off, wf_dlen, wf_in, wf_buf, wf_plen, wf_bytes, Hl, Hb, Ek.
  subst pl. rewrite Z.add_0_r. mem_cbn.
  assert (Hz : bytes_ok (replicate 20 0)) by (apply bytes_okb_ok; by vm_compute).
  assert (Lz : zlen (replicate 20 0) = 20) by done.
  remember (replicate 20 0) as zeros eqn:Ezeros.
  clear m1 wf_next wf_segs.
  do 7 (first [step_ld | step_st]).
  (* the GTP-U length field now lies in the zeroed new header *)
  assert (Eg : slice (off + 42 + 2) (Z.of_nat 2) b3 = [0; 0]).
  { change (Z.of_nat 2) with 2. subst b3 b2 b1.
    rewrite !slice_splice_disj by (rewrite ?length_splice by (lens; lia); lens; lia).
    rewrite slice_splice_inside by lia.
    replace (off + 42 + 2 - (off + 16 + 14)) with 14 by lia. by subst zeros. }
  rewrite Eg. change (htons (le_load [0; 0] + 20)) with (htons 20).
  repeat first [step_ld | step_st].
  eexists _, _. split; [reflexivity|]. split_and!; [lia|done|]. intros H66.
  replace (dl - 16) with (foldr Z.add 0 [14; 1; 1; 2; 2; 2; 1; 1; 2; 4; 4; dl - 50])
    by (cbn [foldr]; lia).
  rewrite slice_cuts; [|lia|repeat (constructor; [lia|]); constructor].
  unfold sixrd_frame, sixrd_header, pkt_data. cbn [cuts buf data_off data_len].
  rewrite app_nil_r, (app_assoc (slice 0 12 _)). f_equal.
  { chase. change 14 with (12 + 2) at 1. rewrite slice_app_split by lia. f_equal.
    - chase. rewrite slice_slice by lia. f_equal. lia.
    - chase. done. }
  rewrite <-!app_assoc.
  do 8 (f_equal; [solve [solve_piece]|]).
  f_equal; [|solve_pieces].
  chase. rewrite Ek, first_octet_10 by (done || lia). f_equal.
  rewrite slice_slice by lia. f_equal. lia.
Qed.

(** ** [ModifyPacket] keeps the contract of [Cycle] *)
Definition modify_outcome b w m (r : res (Z * rte_mbuf * (PgwBase * world rte_mbuf))) : Prop :=
  exists rc m' b' w', r = Ok (rc, m', (b', w')) /\ base_ok b' w' /\ w_keeps w w' /\
    output_ (core b') = output_ (core b) /\ m_addr m' = m_addr m /\
    addrs (w_all w') ≡ₚ (if rc =? 0 then [] else [m_addr m]) ++ addrs (w_all w).

Lemma drop_packet_outcome b w m m' :
  base_ok b w -> m_addr m' = m_addr m ->
  modify_outcome b w m (Ok (1, m', drop_packet m' (b, w))).
Proof.
  intros [Hc He] Ha. unfold drop_packet. eexists _, _, _, _. split; [done|]. split_and!; try done.
  - apply (base_ok_keeps _ w); [|apply w_keeps_free].
    constructor; [by apply (count_drop_ok _ _ (core b))|done].
  - apply w_keeps_free.
  - cbn [Z.eqb]. rewrite w_all_free, fmap_app. cbn. by rewrite Ha.
Qed.

Lemma lookup_session_outcome now tid ipkey b w m m' :
  base_ok b w -> m_addr m' = m_addr m ->
  modify_outcome b w m (lookup_session now tid ipkey m' (b, w)).
Proof.
  intros [Hc He] Ha. unfold lookup_session.
  destruct (CorePgwBaseWorker.Find_update _ _ _ _ _) as [[ret map] [u itm]].
  assert (Hb1 : forall k, base_ok (set_core (CoreInterface.count_drop k 1 (core b))
     (set_tables (lookup_ b) map (set_find ipkey (u32 now) itm b))) w).
  { intros k. constructor; [by apply (count_drop_ok _ _ (core b))|done]. }
  destruct (negb (ret =? 0)).
  - cbn [core set_tables set_find ring_err_ind_ set_core].
    destruct (ring_err_ind_ b) as [r|] eqn:Er.
    + destruct (w_enqueue_spec (Some r) (set_udata64 u m') w) as (rc & w1 & Ee & Hfr & Hv & _).
      { by apply He. }
      rewrite Ee. res_simpl.
      assert (Hk : w_keeps w w1).
      { intros p Hp. destruct (decide (p = Some r)) as [->|Hn]; [done|].
        destruct Hp as [r' E']. exists r'. by rewrite (proj2 Hfr p Hn). }
      assert (Hb2 : forall w2, w_keeps w w2 -> base_ok (set_core (CoreInterface.count_drop (pkt_len m') 1 (core b))
        (set_tables (lookup_ b) map (set_find ipkey (u32 now) itm b))) w2).
      { intros w2 Hk2. by eapply base_ok_keeps. }
      destruct (w_all_enqueue _ _ _ _ _ Ee) as [[-> Hp]|[Hlt Hp]]; eexists _, _, _, _; split; try done.
      * split_and!; auto. cbn [Z.eqb Z.ltb Z.compare]. rewrite Hp. cbn. by rewrite Ha.
      * rewrite (proj2 (Z.ltb_lt _ _) Hlt). split_and!; auto.
        cbn [Z.eqb]. rewrite w_all_free, fmap_app, Hp. cbn. by rewrite Ha.
    + eexists _, _, _, _. split; [done|]. split_and!; auto with pgw; try done.
  - eexists _, _, _, _. split; [done|]. split_and!; auto with pgw; try done.
Qed.

Lemma bounds_ld4 m p : bytes_ok (buf m) -> 0 <= p -> p + 4 <= zlen (buf m) ->
  ld 4 m p = Ok (le_load (slice p 4 (buf m))).
Proof. intros. by rewrite ld_ok by lia. Qed.

Lemma ModifyPacket_outcome now m b w :
  base_ok b w -> pkt_room m -> modify_outcome b w m (ModifyPacket now m (b, w)).
Proof.
  intros Hb [Hw Hh Ht]. pose proof Hw as []. unfold ModifyPacket. autounfold with pkt.
  rewrite (bounds_ld4 m) by (done || lia). res_simpl.
  rewrite is_pdu_eq by (mem_cbn; done || lia). res_simpl.
  destruct (gpdu_frame _).
  2: { rewrite bool_decide_eq_true_2 by done. eexists _, _, _, _.
       split; [done|]. split_and!; auto with pgw. }
  rewrite bool_decide_eq_false_2 by done.
  rewrite (ld_ok 1) by (mem_cbn; lia). res_simpl. set (vihl := le_load _).
  destruct (Z.land vihl 0xf0 =? 0x60).
  { rewrite bounds_ld4 by (mem_cbn; done || lia). res_simpl. mem_cbn.
    destruct (decide (16 <= data_len m)) as [Hd|Hd].
    - rewrite adj_ok by (mem_cbn; lia). mem_cbn.
      change (8 + 8) with 16. change (14 + 20 + 8) with 42.
      destruct (sixrd_decap_ok (set_udata64 0 m) (le_load (slice (data_off m + 62) 4 (buf m)))
        (wf_set_udata64 0 m Hw) Hd) as (bf & pt & E & _); [mem_cbn; lia|done|].
      revert E. mem_cbn. intros E.
      replace (data_off m + (42 + 8) + 8 + 4) with (data_off m + 62) by lia.
      rewrite E. res_simpl. by apply lookup_session_outcome.
    - rewrite adj_null by (mem_cbn; lia). by apply drop_packet_outcome. }
  destruct (Z.land vihl 0xf0 =? 0x40).
  { rewrite bounds_ld4 by (mem_cbn; done || lia). res_simpl. mem_cbn.
    destruct (decide (36 <= data_len m)) as [Hd|Hd].
    - rewrite adj_ok by (mem_cbn; lia). mem_cbn.
      change (20 + 8 + 8) with 36.
      destruct (ipv4_decap_ok (set_udata64 0 m) (wf_set_udata64 0 m Hw) Hd)
        as (bf & pt & u & E & _); [mem_cbn; lia|].
      revert E. mem_cbn. intros E. rewrite E. res_simpl. by apply lookup_session_outcome.
    - rewrite adj_null by (mem_cbn; lia). by apply drop_packet_outcome. }
  by apply drop_packet_outcome.
Qed.
End lemmas.

#[export] Instance ingress_worker_ok {D : Dpdk} {H : DpdkOk D} :
  @PgwWorkerOk D H PgwBase CorePgwIngressTunnelWorker.ingress_worker.
Proof.
  refine (Build_PgwWorkerOk D H PgwBase _ (fun _ => True) _ _ _); [done|done|].
  intros now m x w Hb _ Hm.
  destruct (ModifyPacket_outcome now m x w Hb Hm) as (rc & m' & b' & w' & E & ? & ? & ? & ? & ?).
  exists rc, m', b', w'. auto 10.
Defined.

(** ** Properties *)
Module Properties.
Import CorePgwIngressTunnelWorker.
Section properties.
Context `{DpdkOk}.
Implicit Types (b : PgwBase) (w : world rte_mbuf) (m : rte_mbuf).

(** The bytes of the TEID of a G-PDU, as the host reads them. *)
Definition wire_tid (f : list Z) : Z := le_load (slice 46 4 f).

(** What the lookup leaves of a decapsulated packet. *)
Lemma lookup_session_found now tid ipkey b w m itm u0 s :
  findtype_ b <> 0 -> map_ b !! tid = Some itm -> 0 <= tid < 2 ^ 32 ->
  Z.land (ue_ipv4 itm) 0xffffff00 = Z.land ipkey 0xffffff00 ->
  udata64 m = set_size s u0 ->
  let '(col, itm') := Policer.police (u32 now) (wrap 12 s) itm in
  exists b', lookup_session now tid ipkey m (b, w) =
      Ok (0, set_udata64 (set_mode (mode itm') (set_flag MBFU_FLAG_PDU
        (set_teid (Z.land (ue_ipv4 itm) 0xffffff00) (set_color col
          (set_mode POLICER_MODE_LTE (set_color POLICER_COLOR_GREEN (set_size s u0))))))) m, (b', w)) /\
    map_ b' = <[tid := itm']> (map_ b) /\ core b' = core b.
Proof.
  intros Hf Hm Ht Ha Hu. unfold lookup_session, CorePgwBaseWorker.Find_update.
  rewrite (proj2 (Z.eqb_neq _ _) Hf). unfold ntohl. rewrite bswap_bswap.
  change (256 ^ Z.of_nat 4) with (2 ^ 32). rewrite Z.mod_small by done. rewrite Hm.
  unfold on_found. rewrite Ha, Z.eqb_refl. cbn [negb]. rewrite Hu.
  replace (udat_size _) with (wrap 12 s) by (by udat_simpl).
  destruct (Policer.police _ _ _) as [col itm']. cbn [Z.eqb negb].
  eexists. split; [reflexivity|done].
Qed.

(** Where the head of a packet lies in its data. *)
Lemma head_data n k j m :
  mbuf_wf m -> 0 <= k -> 0 <= j -> k + j <= n -> n <= data_len m ->
  slice k j (head_bytes n m) = slice k j (pkt_data m).
Proof. intros [] ????. unfold head_bytes, pkt_data. by rewrite !slice_slice by lia. Qed.

Lemma wire_load4 k m :
  mbuf_wf m -> 0 <= k -> k + 4 <= data_len m ->
  le_load (slice (data_off m + k) 4 (buf m)) = le_load (slice k 4 (pkt_data m)).
Proof. intros [] ??. unfold pkt_data. by rewrite slice_slice by lia. Qed.

Lemma le4_range k m : mbuf_wf m -> 0 <= k -> k + 4 <= data_len m ->
  0 <= le_load (slice k 4 (pkt_data m)) < 2 ^ 32.
Proof.
  intros [] ??.
  assert (Hs : bytes_ok (slice k 4 (pkt_data m))) by (unfold pkt_data; by apply Forall_slice, Forall_slice).
  pose proof (le_load_range _ Hs) as Hr. rewrite zlen_slice in Hr; [done|lia|lia|].
  unfold pkt_data. rewrite zlen_slice by lia. lia.
Qed.

(** [ModifyPacket] on a G-PDU, in terms of the received bytes. *)
Lemma ModifyPacket_gpdu now m (s : PgwBase * world rte_mbuf) :
  mbuf_wf m -> 70 <= data_len m -> gpdu_frame (head_bytes 50 m) = true ->
  let f := pkt_data m in
  let key := le_load (slice 62 4 f) in
  let version := Z.land (byte_at 50 f) 0xf0 in
  let moved n := set_bounds (data_off m + n) (data_len m - n) (pkt_len m - n) (set_udata64 0 m) in
  ModifyPacket now m s =
    if version =? 0x60 then
      m' ← sixrd_decap (data_off m + 0) (data_off m + 42) key (moved 16);
      lookup_session now (wire_tid f) key m' s
    else if version =? 0x40 then
      m' ← ipv4_decap (data_off m + 0) (moved 36);
      lookup_session now (wire_tid f) key m' s
    else Ok (1, set_udata64 0 m, drop_packet (set_udata64 0 m) s).
Proof.
  intros Hw Hl Hg f key version moved. pose proof Hw as [].
  unfold ModifyPacket. autounfold with pkt.
  rewrite (bounds_ld4 m) by (done || lia). res_simpl.
  rewrite is_pdu_eq by (mem_cbn; done || lia). res_simpl.
  change (head_bytes 50 (set_udata64 0 m)) with (head_bytes 50 m). rewrite Hg.
  rewrite bool_decide_eq_false_2 by done.
  rewrite (ld_ok 1) by (mem_cbn; lia). res_simpl. mem_cbn. change (Z.of_nat 1) with 1.
  rewrite slice_1 by lia.
  replace (be_load (slice (data_off m + (14 + 20 + 8 + 8) + 0) 1 (buf m))) with (byte_at 50 f).
  2: { unfold f, byte_at, pkt_data. rewrite slice_slice by lia. do 2 f_equal. lia. }
  fold version.
  replace (data_off m + (14 + 20 + 8) + 4) with (data_off m + 46) by lia.
  replace (data_off m + (14 + 20 + 8)) with (data_off m + 42) by lia.
  replace (data_off m + (14 + 20 + 8 + 8) + 8 + 4) with (data_off m + 62) by lia.
  replace (data_off m + (14 + 20 + 8 + 8) + 12) with (data_off m + 62) by lia.
  rewrite !bounds_ld4 by (mem_cbn; done || lia). res_simpl. mem_cbn.
  rewrite !adj_ok by (mem_cbn; lia). mem_cbn.
  rewrite !wire_load4 by (done || lia). done.
Qed.

(** Decapsulation of an IPv4 user packet. *)
Lemma decapsulates_ipv4 (now : Z) (m : rte_mbuf) b w (itm : lookup_t) :
  mbuf_wf m -> 70 <= data_len m -> gpdu_frame (head_bytes 50 m) = true ->
  Z.land (byte_at 50 (pkt_data m)) 0xf0 = 0x40 ->
  findtype_ b <> 0 -> map_ b !! wire_tid (pkt_data m) = Some itm ->
  Z.land (ue_ipv4 itm) 0xffffff00 = Z.land (le_load (slice 62 4 (pkt_data m))) 0xffffff00 ->
  let '(col, itm') := Policer.police (u32 now) (wrap 12 (data_len m - 50)) itm in
  exists m' b', ModifyPacket now m (b, w) = Ok (0, m', (b', w)) /\
    pkt_data m' = slice 0 14 (pkt_data m) ++ slice 50 (data_len m - 50) (pkt_data m) /\
    udat_flag (udata64 m') = MBFU_FLAG_PDU /\ udat_color (udata64 m') = wrap 2 col /\
    udat_size (udata64 m') = wrap 12 (data_len m - 50) /\ udat_mode (udata64 m') = wrap 2 (mode itm') /\
    udat_teid (udata64 m') = u32 (Z.land (ue_ipv4 itm) 0xffffff00) /\
    map_ b' = <[wire_tid (pkt_data m) := itm']> (map_ b) /\ core b' = core b.
Proof.
  intros Hw Hl Hg Hv Hf Hm Ha. pose proof Hw as [].
  rewrite ModifyPacket_gpdu by done. rewrite Hv. cbn [Z.eqb Pos.eqb].
  destruct (ipv4_decap_ok (set_udata64 0 m) (wf_set_udata64 0 m Hw)) as
    (bf & pt & u & E & _ & Eu & Lb & Ob & Eb); [mem_cbn; lia|mem_cbn; lia|].
  revert E Eu Lb Eb. mem_cbn. intros E Eu Lb Eb. rewrite E. res_simpl.
  replace (data_len m - 50) with (pkt_len m - 36 - 14) by lia.
  pose proof (lookup_session_found now (wire_tid (pkt_data m)) (le_load (slice 62 4 (pkt_data m))) b w
    (set_udata64 u (set_packet_type pt (set_buf bf
       (set_bounds (data_off m + 36) (data_len m - 36) (pkt_len m - 36) (set_udata64 0 m)))))
    itm 0 (pkt_len m - 36 - 14)) as HL.
  destruct (Policer.police _ _ _) as [col itm'].
  destruct HL as (b' & EL & Em & Ec); [done|done|apply le4_range; done || lia|done|done|].
  rewrite EL. eexists _, b'. split; [reflexivity|]. mem_cbn.
  split_and!; [|by udat_simpl..|done|done].
  unfold pkt_data. mem_cbn. replace (pkt_len m - 36 - 14) with (data_len m - 50) by lia.
  apply (ipv4_decap_data m); [done|lia|done].
Qed.

(** C11: decapsulation of an IPv4 user packet: for a G-PDU whose session is
    known and whose inner source matches it, the result is the original Ethernet
    header followed by exactly the inner packet; the packet is marked as user
    data, carries its colour, size, mode and user address, and only that
    session's buckets change. *)
Theorem ingress_decapsulates_ipv4 (now : Z) (m : rte_mbuf) b w (itm : lookup_t) :
  mbuf_wf m -> 70 <= data_len m -> gpdu_frame (head_bytes 50 m) = true ->
  Z.land (byte_at 50 (pkt_data m)) 0xf0 = 0x40 ->
  findtype_ b <> 0 -> map_ b !! wire_tid (pkt_data m) = Some itm ->
  Z.land (ue_ipv4 itm) 0xffffff00 = Z.land (le_load (slice 62 4 (pkt_data m))) 0xffffff00 ->
  let '(col, itm') := Policer.police (u32 now) (wrap 12 (data_len m - 50)) itm in
  exists m' b', ModifyPacket now m (b, w) = Ok (0, m', (b', w)) /\
    pkt_data m' = slice 0 14 (pkt_data m) ++ slice 50 (data_len m - 50) (pkt_data m) /\
    udat_flag (udata64 m') = MBFU_FLAG_PDU /\ udat_color (udata64 m') = wrap 2 col /\
    udat_size (udata64 m') = wrap 12 (data_len m - 50) /\ udat_mode (udata64 m') = wrap 2 (mode itm') /\
    udat_teid (udata64 m') = u32 (Z.land (ue_ipv4 itm) 0xffffff00) /\
    map_ b' = <[wire_tid (pkt_data m) := itm']> (map_ b) /\ core b' = core b.
Proof. apply decapsulates_ipv4. Qed.

(** an IPv6 user packet for the 6rd gateway keeps its payload, but the new
    IPv4 header always says total length 20 (the GTP-U length is read after the
    memory it lies in was cleared) and its checksum is 0 (the computed value is
    discarded). *)
Theorem sixrd_header_is_wrong (now : Z) (m : rte_mbuf) b w (itm : lookup_t) :
  mbuf_wf m -> 90 <= data_len m -> gpdu_frame (head_bytes 50 m) = true ->
  Z.land (byte_at 50 (pkt_data m)) 0xf0 = 0x60 ->
  findtype_ b <> 0 -> map_ b !! wire_tid (pkt_data m) = Some itm ->
  Z.land (ue_ipv4 itm) 0xffffff00 = Z.land (le_load (slice 62 4 (pkt_data m))) 0xffffff00 ->
  exists m' b', ModifyPacket now m (b, w) = Ok (0, m', (b', w)) /\
    pkt_data m' = sixrd_frame (pkt_data m) (data_len m) /\
    be16_at 16 (pkt_data m') = 20 /\ be16_at 24 (pkt_data m') = 0.
Proof.
  intros Hw Hl Hg Hv Hf Hm Ha. pose proof Hw as [].
  rewrite ModifyPacket_gpdu by (done || lia). rewrite Hv. cbn [Z.eqb Pos.eqb].
  destruct (sixrd_decap_ok (set_udata64 0 m) (le_load (slice 62 4 (pkt_data m)))
    (wf_set_udata64 0 m Hw)) as (bf & pt & E & Lb & Ob & Ed);
    [mem_cbn; lia|mem_cbn; lia|mem_cbn; symmetry; apply (wire_load4 62 m); done || lia|].
  revert E Lb Ed. mem_cbn. intros E Lb Ed. rewrite E. res_simpl.
  pose proof (lookup_session_found now (wire_tid (pkt_data m)) (le_load (slice 62 4 (pkt_data m))) b w
    (set_udata64 (set_size (pkt_len m - 16 - 14 - 20) 0) (set_packet_type pt (set_buf bf
       (set_bounds (data_off m + 16) (data_len m - 16) (pkt_len m - 16) (set_udata64 0 m)))))
    itm 0 (pkt_len m - 16 - 14 - 20)) as HL.
  destruct (Policer.police _ _ _) as [col itm'].
  destruct HL as (b' & EL & _ & _); [done|done|apply le4_range; done || lia|done|done|].
  rewrite EL. eexists _, b'. split; [reflexivity|]. 
  assert (Hd : forall x, x = sixrd_frame (pkt_data m) (data_len m) -> be16_at 16 x = 20 /\ be16_at 24 x = 0).
  { intros x ->. unfold be16_at, sixrd_frame.
    assert (L12 : zlen (slice 0 12 (pkt_data m)) = 12)
      by (rewrite zlen_slice; [done|lia..|unfold pkt_data; rewrite zlen_slice by lia; lia]).
    rewrite (slice_app_r 16), (slice_app_r 24), L12 by lia. split; reflexivity. }
  split; [|apply Hd]; unfold pkt_data at 1; mem_cbn; apply Ed; lia.
Qed.
End properties.

(** A G-PDU with an inner packet of [n] bytes that starts with [v], from user
    10.1.2.3, and a worker that knows its session. *)
Definition gpdu (inner : list Z) : rte_mbuf :=
  let f := [2;0;0;0;0;1; 2;0;0;0;0;2; 8;0] ++
    [0x45;0; 0;92; 0;1; 0;0; 64;17; 0;0; 192;168;0;1; 192;168;0;2] ++
    [8;104; 8;104; 0;72; 0;0] ++ [0x30;255; 0;56; 0;0;1;2] ++ inner in
  mk_mbuf 77 (repeat 0 128 ++ f ++ repeat 0 128) 128 (zlen f) (zlen f) 1 None 0 0.
Definition inner_v4 : list Z :=
  [0x45;0; 0;28; 0;1; 0;0; 64;17; 0;0; 10;1;2;3; 8;8;8;8] ++ repeat 7 8.
Definition inner_v6 : list Z :=
  [0x60;0;0;0; 0;0; 59;64; 32;1;13;184; 10;1;2;3; 0;0;0;0;0;0;0;1] ++ repeat 9 16.
Definition user_session : lookup_t := mk_lookup 0 1 1 0x03020100 0 8 9 10 0 0 12500 128 0 12500 128.
Definition knowing : PgwBase :=
  mk_base (mk_core 0 0 1 0 0 0 0 0 0 4 3 (Some 1) (Some 2) [] 0 CoreCounter.Clear) 0 0 0 0 0 0 1 0
    (Lookup.Create 64) {[ 0x02010000 := user_session ]} None None zero_lookup 0 0 0 0 0.
Definition store_with (l : list rte_mbuf) : @world DpdkModel.dpdk rte_mbuf :=
  @mk_world DpdkModel.dpdk rte_mbuf
    (<[1 := (8%nat, l) : DpdkModel.queue rte_mbuf]> {[ 2 := (8%nat, []) : DpdkModel.queue rte_mbuf ]}) [].

Lemma ingress_gpdu_wf : mbuf_wf (gpdu inner_v4) /\ mbuf_wf (gpdu inner_v6).
Proof.
  split; (constructor; try (vm_compute; congruence)); apply bytes_okb_ok; vm_compute; reflexivity.
Qed.

Lemma ingress_decapsulates_ipv4_witness :
  exists m' b', ModifyPacket (D := DpdkModel.dpdk) 100 (gpdu inner_v4) (knowing, store_with [])
      = Ok (0, m', (b', store_with [])) /\
    pkt_data m' = [2;0;0;0;0;1; 2;0;0;0;0;2; 8;0] ++ inner_v4.
Proof.
  pose proof (ingress_decapsulates_ipv4 (D := DpdkModel.dpdk) 100 (gpdu inner_v4) knowing
    (store_with []) user_session) as W.
  destruct (Policer.police _ _ _) as [col itm'].
  destruct W as (m' & b' & E & Ed & _).
  - exact (proj1 ingress_gpdu_wf).
  - vm_compute. congruence.
  - vm_compute. reflexivity.
  - vm_compute. reflexivity.
  - discriminate.
  - vm_compute. reflexivity.
  - vm_compute. reflexivity.
  - exists m', b'. split; [exact E|]. rewrite Ed. vm_compute. reflexivity.
Defined.

Lemma sixrd_header_is_wrong_witness :
  exists m' b', ModifyPacket (D := DpdkModel.dpdk) 100 (gpdu inner_v6) (knowing, store_with [])
      = Ok (0, m', (b', store_with [])) /\
    be16_at 16 (pkt_data m') = 20 /\ be16_at 24 (pkt_data m') = 0.
Proof.
  destruct (sixrd_header_is_wrong (D := DpdkModel.dpdk) 100 (gpdu inner_v6) knowing
    (store_with []) user_session) as (m' & b' & E & _ & H1 & H2).
  - exact (proj2 ingress_gpdu_wf).
  - vm_compute. congruence.
  - vm_compute. reflexivity.
  - vm_compute. reflexivity.
  - discriminate.
  - vm_compute. reflexivity.
  - vm_compute. reflexivity.
  - exists m', b'. split; [exact E|]. split; [exact H1|exact H2].
Defined.

Lemma receive_conserves_packets_witness :
  exists x' w', PgwCycle.receive (D := DpdkModel.dpdk) (fun _ => 100)
      (knowing, store_with [gpdu inner_v4]) = Ok (x', w') /\
    held x' w' ≡ₚ held knowing (store_with [gpdu inner_v4]).
Proof.
  destruct (PgwBase.Properties.receive_conserves_packets (D := DpdkModel.dpdk) (W := PgwBase)
    (fun _ => 100) knowing (store_with [gpdu inner_v4])) as (x' & w' & E & _ & _ & Hp).
  - constructor; [|done]. constructor.
    + eexists. vm_compute. reflexivity.
    + vm_compute. congruence.
    + vm_compute. congruence.
    + cbn. lia.
  - exact I.
  - eexists. vm_compute. reflexivity.
  - vm_compute. split; congruence.
  - constructor; [|constructor]. constructor.
    + exact (proj1 ingress_gpdu_wf).
    + vm_compute. congruence.
    + vm_compute. congruence.
  - exists x', w'. split; [exact E|exact Hp].
Defined.
(** A warm-up message that announces user 10.1.2.3 with TEID 0x102. *)
Definition announce : rte_mbuf :=
  let f := repeat 0 12 ++ [192;168;0;1; 0;0;0;9; 10;1;2;3; 0;0;1;2; 192;168;0;2] in
  mk_mbuf 79 (repeat 0 128 ++ f ++ repeat 0 128) 128 (zlen f) (zlen f) 1 None 0 0.

Lemma warmup_files_session_witness :
  exists itm' x', PgwCycle.warmup_one (D := DpdkModel.dpdk) (W := PgwBase) 0
      (zero_lookup, (knowing, store_with [])) announce
      = Ok (itm', (x', w_free [announce] (store_with []))) /\
    CorePgwBaseWorker.Find 0x02010000 (base (H := DpdkModel.dpdk) x') = Ok (0, Some itm').
Proof.
  destruct (PgwBase.Properties.warmup_files_session (H := DpdkModel.dpdk) (W := PgwBase) zero_lookup
    (mk_lookup 0 0 0 0x0302010a 0x02010000 0x09000000 0x0100a8c0 0x0200a8c0 0 0 0 0 0 0 0) 0 knowing
    (store_with []) announce) as (x' & E & Ef).
  - reflexivity.
  - discriminate.
  - vm_compute. reflexivity.
  - vm_compute. reflexivity.
  - vm_compute. split; congruence.
  - eexists _, x'. split; [exact E|exact Ef].
Defined.
End Properties.
