(* ===== verification/EgressTunnel.v ===== *)
(** * The egress tunnel worker

    [CorePgwEgressTunnelWorker] of
    dataplane/src/core/core_pgw_egress_tunnel_worker.cc: a packet for a user is
    coloured by the policer of its session and encapsulated in IPv4/UDP/GTP-U
    towards the serving gateway.  The three headers are templates the worker
    keeps and patches for every packet; they are byte blocks of 20, 8 and 8
    bytes here. *)

From S2P Require Import Prelude Dpdk Packet LookupTpl CoreBase Policer PgwBase.

Record EgressWorker := mk_egress {
  ebase : PgwBase;
  gtpuh_ : list Z;
  udph_ : list Z;
  iph_ : list Z;
}.

Module CorePgwEgressTunnelWorker.
Section worker.
Context `{D : Dpdk}.
Implicit Types (x : EgressWorker) (w : world rte_mbuf) (inpkt : rte_mbuf).

Definition GetType : TYPE := PGW_EGRESS.

(** The constructor fills the templates ([malloc] succeeded). *)
Definition construct (b : PgwBase) (srcipv4 : Z) : EgressWorker :=
  let zeros n := replicate n 0 in
  let gtpuh := fld 1 0 (Z.lor (Z.shiftl GTPU_PROTO_GTP 4) (Z.shiftl GTPU_VERSION_1 5)) (zeros 8%nat) in
  let gtpuh := fld 1 1 GTPU_G_PDU gtpuh in
  let udph := fld 2 0 (htons GTPU_PORT) (zeros 8%nat) in
  let udph := fld 2 2 (htons GTPU_PORT) udph in
  let udph := fld 2 4 0 udph in
  let udph := fld 2 6 0 udph in
  let iph := fld 1 0 0x45 (zeros 20%nat) in
  let iph := fld 1 1 0 iph in
  let iph := fld 2 2 0 iph in
  let iph := fld 2 4 1 iph in
  let iph := fld 2 6 0 iph in
  let iph := fld 1 8 64 iph in
  let iph := fld 1 9 IPPROTO_UDP iph in
  let iph := fld 2 10 0 iph in
  let iph := fld 4 12 (htonl srcipv4) iph in
  let iph := fld 4 16 0 iph in
  mk_egress b gtpuh udph iph.

(** The callback of [Find]. *)
Definition on_found (now : Z) (itm : lookup_t) (s : Z * lookup_t) : Z * lookup_t * (Z * lookup_t) :=
  let '(u, _) := s in
  let '(color, itm) := Policer.police now (udat_size u) itm in
  (0, itm, (set_color color u, itm)).

(** Patch the templates for a packet of [len] bytes and session [itm]. *)
Definition patch (len : Z) (itm : lookup_t) x : res EgressWorker :=
  let iph := fld 2 o_total_length (htons (len - sizeof_ether_hdr)) (iph_ x) in
  iph ← checksummed iph;
  let udph := fld 2 o_dgram_cksum 0 (udph_ x) in
  let udph := fld 2 o_dgram_len (htons (len - sizeof_ether_hdr - sizeof_ipv4_hdr)) udph in
  let gtpuh := fld 2 o_gtpu_length
    (htons (len - sizeof_ether_hdr - sizeof_ipv4_hdr - sizeof_udp_hdr - 8)) (gtpuh_ x) in
  let gtpuh := fld 4 o_gtpu_tid (sgw_gtpu_teid itm) gtpuh in
  let iph := fld 4 o_src_addr (pgw_gtpu_ipv4 itm) iph in
  let iph := fld 4 o_dst_addr (sgw_gtpu_ipv4 itm) iph in
  iph ← checksummed iph;
  Ok (mk_egress (ebase x) gtpuh udph iph).

(** [rte_pktmbuf_prepend], the Ethernet header moved to the new start; the
    result of the prepend is used unchecked. *)
Definition prepend_move (prepend_len : Z) inpkt : res (Z * rte_mbuf) :=
  let '(p, inpkt) := rte_pktmbuf_prepend inpkt prepend_len in
  pkt ← deref p;
  ehdr ← ld_bytes sizeof_ether_hdr inpkt (pkt + prepend_len);
  inpkt ← st_bytes inpkt pkt ehdr;
  Ok (pkt, inpkt).

(** Encapsulate: make room, patch the templates, copy them in. *)
Definition encapsulate (sixrd : bool) (eth : Z) (itm : lookup_t) inpkt x
    : res (rte_mbuf * EgressWorker) :=
  r ← (if sixrd then
         inpkt ← st 2 inpkt (eth + o_ether_type) (htons ETHER_TYPE_IPv4);
         prepend_move (sizeof_udp_hdr + sizeof_gtpu_hdr) inpkt
       else prepend_move (sizeof_ipv4_hdr + sizeof_udp_hdr + sizeof_gtpu_hdr) inpkt);
  let '(pkt, inpkt) := r in
  x ← patch (pkt_len inpkt) itm x;
  let ofst := sizeof_ether_hdr in
  inpkt ← st_bytes inpkt (pkt + ofst) (iph_ x);
  let ofst := ofst + sizeof_ipv4_hdr in
  inpkt ← st_bytes inpkt (pkt + ofst) (udph_ x);
  let ofst := ofst + sizeof_udp_hdr in
  inpkt ← st_bytes inpkt (pkt + ofst) (gtpuh_ x);
  Ok (set_packet_type (Z.lor RTE_PTYPE_L3_IPV4 RTE_PTYPE_L4_UDP) inpkt, x).

Definition ModifyPacket (now : Z) inpkt (s : EgressWorker * world rte_mbuf)
    : res (Z * rte_mbuf * (EgressWorker * world rte_mbuf)) :=
  let '(x, w) := s in
  let b := ebase x in
  let eth := mtod inpkt in
  let inpkt := set_udata64 0 inpkt in
  let prevlen := pkt_len inpkt in
  opr ← is_user inpkt;
  if bool_decide (opr = PASS) then
    Ok (0, set_udata64 (set_flag MBFU_FLAG_DC (udata64 inpkt)) inpkt, s)
  else
    let ip := mtod_offset inpkt sizeof_ether_hdr in
    src ← ld 4 inpkt (ip + o_src_addr);
    let sixrd := src =? htonl SIXRD_ENCAPPER_ADDR in
    ipkey ← (if sixrd then
               k ← ld 4 inpkt (mtod_offset inpkt (sizeof_ether_hdr + sizeof_ipv4_hdr) + o_ip6_dst_addr + 4);
               Ok (Z.lor (Z.land k 0xffffff00) 0x0000000a)
             else ld 4 inpkt (mtod_offset inpkt sizeof_ether_hdr + o_dst_addr));
    let u := set_size (prevlen - sizeof_ether_hdr) (udata64 inpkt) in
    let u := set_teid (findkey_ b) u in
    let u := set_mode POLICER_MODE_LTE (set_color POLICER_COLOR_GREEN u) in
    let findkey := Z.land ipkey 0xffffff00 in
    let now := u32 now in
    let '(ret, map, (u, itm)) :=
      CorePgwBaseWorker.Find_update findkey (on_found now) (findtype_ b) (map_ b) (u, lookup_itm_ b) in
    let b := set_tables (lookup_ b) map (set_find findkey now itm b) in
    let inpkt := set_udata64 u inpkt in
    if negb (ret =? 0) then
      let b := set_core (CoreInterface.count_drop (pkt_len inpkt) 1 (core b)) b in
      let x := mk_egress b (gtpuh_ x) (udph_ x) (iph_ x) in
      match ring_err_ind_ b with
      | Some r =>
          e ← w_enqueue (Some r) inpkt w;
          let '(rc, w) := e in
          let w := if rc <? 0 then w_free [inpkt] w else w in
          Ok (1, inpkt, (x, w))
      | None => Ok (0, set_udata64 (set_flag MBFU_FLAG_DC u) inpkt, (x, w))
      end
    else
      src ← ld 4 inpkt (ip + o_src_addr);
      r ← encapsulate (src =? htonl SIXRD_ENCAPPER_ADDR) eth itm inpkt
            (mk_egress b (gtpuh_ x) (udph_ x) (iph_ x));
      let '(inpkt, x) := r in
      let u := set_mode (mode (lookup_itm_ (ebase x))) (set_flag MBFU_FLAG_PDU (udata64 inpkt)) in
      Ok (0, set_udata64 u inpkt, (x, w)).

#[export] Instance egress_worker : PgwWorker EgressWorker := {|
  base := ebase;
  set_base b x := mk_egress b (gtpuh_ x) (udph_ x) (iph_ x);
  PgwBase.GetType := GetType;
  PgwBase.ModifyPacket := ModifyPacket;
|}.
End worker.
End CorePgwEgressTunnelWorker.

(** ** The templates *)

(** The constant parts of the templates, which no packet changes. *)
Record templates_ok (x : EgressWorker) : Prop := {
  t_ip : exists l i, iph_ x = [0x45; 0] ++ l ++ [1; 0; 0; 0; 64; 17] ++ i /\
           length l = 2%nat /\ length i = 10%nat /\ bytes_ok l /\ bytes_ok i;
  t_udp : exists l, udph_ x = [8; 104; 8; 104] ++ l /\ length l = 4%nat /\ bytes_ok l;
  t_gtp : exists l, gtpuh_ x = [0x30; 255] ++ l /\ length l = 6%nat /\ bytes_ok l;
}.

(** The headers of a packet of [len] bytes of session [itm]. *)
Definition ip_header (len ck : Z) (itm : lookup_t) : list Z :=
  [0x45; 0] ++ net16 (len - 14) ++ [1; 0; 0; 0; 64; 17] ++ le_store 2 ck ++
  le_store 4 (pgw_gtpu_ipv4 itm) ++ le_store 4 (sgw_gtpu_ipv4 itm).
Definition udp_header (len : Z) : list Z := [8; 104; 8; 104] ++ net16 (len - 34) ++ [0; 0].
Definition gtpu_header (len : Z) (itm : lookup_t) : list Z :=
  [0x30; 255] ++ net16 (len - 50) ++ le_store 4 (sgw_gtpu_teid itm).

Section templates.
Import CorePgwEgressTunnelWorker.

Lemma patch_ok len itm x :
  templates_ok x ->
  exists ck gh uh ih, patch len itm x = Ok (mk_egress (ebase x) gh uh ih) /\
    templates_ok (mk_egress (ebase x) gh uh ih) /\
    gh = gtpu_header len itm /\ uh = udp_header len /\ ih = ip_header len ck itm /\
    oc_sum (be_words ih) = 0xffff.
Proof.
  intros [(l & i & Ei & Ll & Li & Bl & Bi) (lu & Eu & Llu & Blu) (lg & Eg & Llg & Blg)].
  destruct l as [|l0 [|l1 [|? ?]]]; try done.
  do 10 (destruct i as [|? i]; [done|]). destruct i; [|done].
  do 4 (destruct lu as [|? lu]; [done|]). destruct lu; [|done].
  do 6 (destruct lg as [|? lg]; [done|]). destruct lg; [|done].
  unfold patch. autounfold with pkt. rewrite Ei, Eu, Eg.
  replace (len - 14 - 20 - 8 - 8) with (len - 50) by lia.
  replace (len - 14 - 20) with (len - 34) by lia.
  set (h1 := fld 2 2 (htons (len - 14)) _).
  assert (B1 : bytes_ok h1).
  { apply Forall_splice; [apply le_store_ok|]. rewrite !Forall_app. split_and!; try done;
      apply bytes_okb_ok; by vm_compute. }
  destruct (checksummed_ok h1) as (ck1 & E1 & _); [done|done|]. rewrite E1. res_simpl.
  set (h2 := fld 4 16 (sgw_gtpu_ipv4 itm) _).
  assert (B2 : bytes_ok h2) by (do 4 (apply Forall_splice; [apply le_store_ok|]); exact B1).
  destruct (checksummed_ok h2) as (ck & E2 & Hck); [done|done|]. rewrite E2. res_simpl.
  eexists ck, _, _, _. split; [reflexivity|].
  assert (Eih : fld 2 10 ck (fld 2 10 0 h2) = ip_header len ck itm) by done.
  split_and!; try done.
  constructor; cbn [iph_ udph_ gtpuh_].
  - rewrite Eih. unfold ip_header.
    eexists (net16 (len - 14)), (le_store 2 ck ++ le_store 4 (pgw_gtpu_ipv4 itm) ++ le_store 4 (sgw_gtpu_ipv4 itm)).
    split_and!; try done; rewrite ?Forall_app; auto using le_store_ok.
  - exists (net16 (len - 34) ++ [0; 0]). split; [reflexivity|]. split; [reflexivity|].
    apply Forall_app. split; [apply le_store_ok|]. apply bytes_okb_ok. by vm_compute.
  - exists (net16 (len - 50) ++ le_store 4 (sgw_gtpu_teid itm)).
    split; [reflexivity|]. split; [reflexivity|]. apply Forall_app. auto using le_store_ok.
Qed.

Lemma construct_templates b src : templates_ok (construct b src).
Proof.
  constructor.
  - exists [0; 0], ([0; 0] ++ le_store 4 (htonl src) ++ [0; 0; 0; 0]).
    split; [reflexivity|]. split; [reflexivity|]. split; [reflexivity|].
    assert (Hz : forall n, bytes_ok (replicate n 0)).
    { intros n. apply Forall_replicate. unfold byte_ok. lia. }
    split; [apply (Hz 2%nat)|]. apply Forall_app. split; [apply (Hz 2%nat)|].
    apply Forall_app. split; [apply le_store_ok|apply (Hz 4%nat)].
  - eexists [0; 0; 0; 0]. split_and!; try done. apply bytes_okb_ok. by vm_compute.
  - eexists [0; 0; 0; 0; 0; 0]. split_and!; try done. apply bytes_okb_ok. by vm_compute.
Qed.
End templates.

(** ** Encapsulation *)
Section encapsulation.
Context `{DpdkOk}.
Import CorePgwEgressTunnelWorker.
Implicit Types (x : EgressWorker) (w : world rte_mbuf) (m : rte_mbuf).

Definition tunnel_headers (len ck : Z) (itm : lookup_t) : list Z :=
  ip_header len ck itm ++ udp_header len ++ gtpu_header len itm.

Lemma zlen_headers len ck itm :
  zlen (ip_header len ck itm) = 20 /\ zlen (udp_header len) = 8 /\ zlen (gtpu_header len itm) = 8.
Proof. done. Qed.

Lemma headers_bytes len ck itm :
  bytes_ok (ip_header len ck itm) /\ bytes_ok (udp_header len) /\ bytes_ok (gtpu_header len itm).
Proof.
  assert (Hl : forall l, bytes_okb l = true -> bytes_ok l) by apply bytes_okb_ok.
  unfold ip_header, udp_header, gtpu_header.
  split_and!; rewrite ?Forall_app; repeat split; auto using le_store_ok; by apply Hl; vm_compute.
Qed.

Definition moved (n : Z) m : rte_mbuf :=
  set_bounds (data_off m - n) (data_len m + n) (pkt_len m + n) m.

(** Room for [n] bytes in front; the Ethernet header is copied to the start. *)
Lemma prepend_move_ok n m :
  mbuf_wf m -> 0 <= n <= data_off m -> data_off m + 14 <= zlen (buf m) -> data_len m + n < 2 ^ 16 ->
  exists bf, prepend_move n m = Ok (data_off m - n, set_buf bf (moved n m)) /\
    bf = splice (data_off m - n) (slice (data_off m) 14 (buf m)) (buf m) /\
    zlen bf = zlen (buf m) /\ bytes_ok bf.
Proof.
  intros [] Hn Hl H16. unfold prepend_move, moved. autounfold with pkt.
  rewrite prepend_ok by lia. res_simpl. mem_cbn.
  rewrite ld_bytes_ok by (mem_cbn; lia). res_simpl. mem_cbn.
  replace (data_off m - n + n) with (data_off m) by lia.
  rewrite st_bytes_ok by (mem_cbn; lens; lia). res_simpl. mem_cbn.
  eexists. split; [reflexivity|]. split_and!; try done.
  - rewrite length_splice; lens; lia.
  - by apply Forall_splice; [apply Forall_slice|].
Qed.

(** The templates copied behind the Ethernet header. *)
Lemma write_headers n m bf len itm x :
  templates_ok x -> len = pkt_len m + n ->
  0 <= data_off m - n -> data_off m - n + 50 <= zlen bf -> bytes_ok bf ->
  exists ck x' b', (x' ← patch (pkt_len (set_buf bf (moved n m))) itm x;
    m1 ← st_bytes (set_buf bf (moved n m)) (data_off m - n + 14) (iph_ x');
    m2 ← st_bytes m1 (data_off m - n + (14 + 20)) (udph_ x');
    m3 ← st_bytes m2 (data_off m - n + (14 + 20 + 8)) (gtpuh_ x');
    Ok (set_packet_type (Z.lor RTE_PTYPE_L3_IPV4 RTE_PTYPE_L4_UDP) m3, x')) =
      Ok (set_packet_type (Z.lor RTE_PTYPE_L3_IPV4 RTE_PTYPE_L4_UDP) (set_buf b' (moved n m)), x') /\
    templates_ok x' /\ ebase x' = ebase x /\ zlen b' = zlen bf /\ bytes_ok b' /\
    oc_sum (be_words (ip_header len ck itm)) = 0xffff /\
    slice (data_off m - n) 14 b' = slice (data_off m - n) 14 bf /\
    slice (data_off m - n + 14) 36 b' = tunnel_headers len ck itm /\
    forall p k, data_off m - n + 50 <= p -> 0 <= k -> slice p k b' = slice p k bf.
Proof.
  intros Ht -> Ho Hb Hby.
  change (pkt_len (set_buf bf (moved n m))) with (pkt_len m + n).
  destruct (patch_ok (pkt_len m + n) itm x Ht) as (ck & gh & uh & ih & E & Ht' & -> & -> & -> & Hck).
  rewrite E. res_simpl. cbn [iph_ udph_ gtpuh_].
  destruct (zlen_headers (pkt_len m + n) ck itm) as (Li & Lu & Lg).
  destruct (headers_bytes (pkt_len m + n) ck itm) as (Oi & Ou & Og).
  exists ck. unfold tunnel_headers.
  remember (ip_header _ _ _) as ih eqn:Eih. remember (udp_header _) as uh eqn:Euh.
  remember (gtpu_header _ _) as gh eqn:Egh. clear Eih Euh Egh.
  unfold moved. step_st. step_st. step_st.
  eexists _, _. split; [reflexivity|]. split_and!; try done; try lia.
  - chase. done.
  - change 36 with (foldr Z.add 0 [20; 8; 8]).
    rewrite slice_cuts; [|lia|repeat (constructor; [lia|]); constructor].
    cbn [cuts]. rewrite app_nil_r. repeat (f_equal; [chase; done|]). chase. done.
  - intros p k Hp Hk. chase. done.
Qed.

(** The encapsulated frame: Ethernet header, the new headers, the packet. *)
Lemma encapsulate_v4 eth itm m x :
  mbuf_wf m -> 36 <= data_off m -> data_off m + 14 <= zlen (buf m) -> templates_ok x ->
  exists ck x' b', encapsulate false eth itm m x =
      Ok (set_packet_type (Z.lor RTE_PTYPE_L3_IPV4 RTE_PTYPE_L4_UDP) (set_buf b' (moved 36 m)), x') /\
    templates_ok x' /\ ebase x' = ebase x /\ zlen b' = zlen (buf m) /\ bytes_ok b' /\
    oc_sum (be_words (ip_header (data_len m + 36) ck itm)) = 0xffff /\
    (14 <= data_len m -> slice (data_off m - 36) (data_len m + 36) b' =
      slice 0 14 (pkt_data m) ++ tunnel_headers (data_len m + 36) ck itm ++
      slice 14 (data_len m - 14) (pkt_data m)).
Proof.
  intros Hw Ho Hl Ht. pose proof Hw as []. unfold encapsulate. autounfold with pkt.
  change (20 + 8 + 8) with 36.
  destruct (prepend_move_ok 36 m Hw) as (bf & E & Eb & Lb & Ob); [lia..|].
  rewrite E. res_simpl.
  destruct (write_headers 36 m bf (data_len m + 36) itm x Ht)
    as (ck & x' & b' & E' & Ht' & Ex & Lb' & Ob' & Hck & Hs1 & Hs2 & Hs3); [lia..|done|].
  change (14 + 20) with 34 in *. change (34 + 8) with 42 in *. rewrite E'.
  exists ck, x', b'. split_and!; try done; [lia|]. intros H14.
  replace (data_len m + 36) with (foldr Z.add 0 [14; 36; data_len m - 14]) at 1 by (cbn [foldr]; lia).
  rewrite slice_cuts; [|lia|repeat (constructor; [lia|]); constructor].
  cbn [cuts]. rewrite app_nil_r, Hs1, Hs2. rewrite Hs3 by lia. subst bf. f_equal; [|f_equal].
  - rewrite slice_splice_eq; lens; try lia. unfold pkt_data. rewrite slice_slice by lia. f_equal; lia.
  - rewrite slice_splice_disj; lens; try lia. unfold pkt_data. rewrite slice_slice by lia. f_equal; lia.
Qed.

Lemma encapsulate_6rd itm m x :
  mbuf_wf m -> 16 <= data_off m -> data_off m + 34 <= zlen (buf m) -> templates_ok x ->
  exists ck x' b', encapsulate true (data_off m) itm m x =
      Ok (set_packet_type (Z.lor RTE_PTYPE_L3_IPV4 RTE_PTYPE_L4_UDP) (set_buf b' (moved 16 m)), x') /\
    templates_ok x' /\ ebase x' = ebase x /\ zlen b' = zlen (buf m) /\ bytes_ok b' /\
    oc_sum (be_words (ip_header (data_len m + 16) ck itm)) = 0xffff /\
    (34 <= data_len m -> slice (data_off m - 16) (data_len m + 16) b' =
      slice 0 12 (pkt_data m) ++ [8; 0] ++ tunnel_headers (data_len m + 16) ck itm ++
      slice 34 (data_len m - 34) (pkt_data m)).
Proof.
  intros Hw Ho Hl Ht. pose proof Hw as []. unfold encapsulate. autounfold with pkt.
  change (8 + 8) with 16. rewrite st_ok by lia. res_simpl.
  set (b0 := splice (data_off m + 12) _ _).
  assert (L0 : zlen b0 = zlen (buf m)) by (unfold b0; rewrite length_splice; lens; lia).
  assert (O0 : bytes_ok b0) by (by apply Forall_splice; [apply le_store_ok|]).
  destruct (prepend_move_ok 16 (set_buf b0 m)) as (bf & E & Eb & Lb & Ob);
    [constructor; mem_cbn; done || lia|mem_cbn; lia..|].
  revert E Eb Lb. mem_cbn. intros E Eb Lb. rewrite E. res_simpl.
  destruct (write_headers 16 (set_buf b0 m) bf (data_len m + 16) itm x Ht)
    as (ck & x' & b' & E' & Ht' & Ex & Lb' & Ob' & Hck & Hs1 & Hs2 & Hs3); [mem_cbn; lia..|done|].
  revert E' Hs1 Hs2 Hs3. mem_cbn. intros E' Hs1 Hs2 Hs3.
  change (14 + 20) with 34 in *. change (34 + 8) with 42 in *. rewrite E'.
  exists ck, x', b'. split_and!; try done; [lia|]. intros H34.
  replace (data_len m + 16) with (foldr Z.add 0 [14; 36; data_len m - 34]) at 1 by (cbn [foldr]; lia).
  rewrite slice_cuts; [|lia|repeat (constructor; [lia|]); constructor].
  cbn [cuts]. rewrite app_nil_r, Hs1, Hs2. rewrite Hs3 by lia. subst bf. rewrite (app_assoc (slice 0 12 _)). f_equal; [|f_equal].
  - rewrite slice_splice_eq; lens; try lia. change (slice (data_off m) 14 b0) with (slice (data_off m) (12 + 2) b0).
    rewrite (slice_app_split (data_off m) 12 2) by lia. unfold b0, pkt_data. rewrite slice_slice by lia. f_equal.
    + rewrite slice_splice_disj; lens; try lia. f_equal; lia.
    + rewrite slice_splice_eq; lens; try lia. done.
  - rewrite slice_splice_disj; lens; try lia. unfold b0, pkt_data. rewrite slice_slice by lia.
    rewrite slice_splice_disj; lens; try lia. f_equal; lia.
Qed.

(** ** The contract of [Cycle] *)
Definition egress_outcome x w m (r : res (Z * rte_mbuf * (EgressWorker * world rte_mbuf))) : Prop :=
  exists rc m' x' w', r = Ok (rc, m', (x', w')) /\ base_ok (ebase x') w' /\ templates_ok x' /\
    w_keeps w w' /\ output_ (core (ebase x')) = output_ (core (ebase x)) /\ m_addr m' = m_addr m /\
    addrs (w_all w') ≡ₚ (if rc =? 0 then [] else [m_addr m]) ++ addrs (w_all w).

Lemma encapsulate_total sixrd itm m x :
  pkt_room m -> templates_ok x ->
  exists m' x', encapsulate sixrd (data_off m) itm m x = Ok (m', x') /\ templates_ok x' /\
    ebase x' = ebase x /\ m_addr m' = m_addr m.
Proof.
  intros [Hw Ho Hl] Ht. destruct sixrd.
  - destruct (encapsulate_6rd itm m x Hw) as (ck & x' & b' & E & ? & ? & _); [lia..|done|]. eauto 10.
  - destruct (encapsulate_v4 (data_off m) itm m x Hw) as (ck & x' & b' & E & ? & ? & _); [lia..|done|].
    eauto 10.
Qed.

Lemma room_udata64 u m : pkt_room m -> pkt_room (set_udata64 u m).
Proof. intros []. constructor; [by apply wf_set_udata64|done|done]. Qed.

(** A packet whose session is unknown: to the error ring, or passed on. *)
Lemma not_found_outcome b w m m' x u :
  base_ok b w -> templates_ok x -> m_addr m' = m_addr m ->
  output_ (core b) = output_ (core (ebase x)) ->
  let b := set_core (CoreInterface.count_drop (pkt_len m') 1 (core b)) b in
  let x' := mk_egress b (gtpuh_ x) (udph_ x) (iph_ x) in
  egress_outcome x w m
    (match ring_err_ind_ b with
     | Some r => e ← w_enqueue (Some r) m' w;
         let '(rc, w) := e in
         let w := if rc <? 0 then w_free [m'] w else w in Ok (1, m', (x', w))
     | None => Ok (0, set_udata64 u m', (x', w))
     end).
Proof.
  intros Hb Ht Ha Ho b1 x'.
  assert (Hb1 : base_ok b1 w).
  { destruct Hb. constructor; [by apply (count_drop_ok _ _ (core b))|done]. }
  assert (Ht' : templates_ok x') by (destruct Ht; by constructor).
  destruct (ring_err_ind_ b1) as [r|] eqn:Er.
  - destruct (w_enqueue_spec (Some r) m' w) as (rc & w1 & Ee & Hfr & Hv & _).
    { rewrite <-Er. apply Hb1. by rewrite Er. }
    rewrite Ee. res_simpl.
    assert (Hk : w_keeps w w1).
    { intros p Hp. destruct (decide (p = Some r)) as [->|Hn]; [done|].
      destruct Hp as [r' E']. exists r'. by rewrite (proj2 Hfr p Hn). }
    destruct (w_all_enqueue _ _ _ _ _ Ee) as [[-> Hp]|[Hlt Hp]].
    + exists 1, m', x', w1. split; [done|]. split_and!; try done; [by eapply base_ok_keeps|].
      cbn [Z.eqb]. rewrite Hp. cbn. by rewrite Ha.
    + rewrite (proj2 (Z.ltb_lt _ _) Hlt). exists 1, m', x', (w_free [m'] w1). split; [done|].
      split_and!; try done; [by eapply base_ok_keeps|].
      cbn [Z.eqb]. rewrite w_all_free, fmap_app, Hp. cbn. by rewrite Ha.
  - exists 0, (set_udata64 u m'), x', w. split_and!; auto with pgw.
Qed.

Lemma egress_ModifyPacket_outcome now m x w :
  base_ok (ebase x) w -> templates_ok x -> pkt_room m ->
  egress_outcome x w m (ModifyPacket now m (x, w)).
Proof.
  intros Hb Ht Hm. pose proof Hm as [Hw Hh Htl]. pose proof Hw as [].
  unfold ModifyPacket. autounfold with pkt.
  rewrite is_user_eq by (mem_cbn; done || lia). res_simpl.
  destruct (user_frame _).
  2: { rewrite bool_decide_eq_true_2 by done. exists 0, (set_udata64 (set_flag MBFU_FLAG_DC 0) (set_udata64 0 m)), x, w.
       split_and!; auto with pgw. }
  rewrite bool_decide_eq_false_2 by done.
  rewrite (ld_ok 4 (set_udata64 0 m) (data_off (set_udata64 0 m) + 14 + 12)) by (mem_cbn; lia). res_simpl.
  match goal with |- context [le_load ?l =? htonl _] => set (six := le_load l =? htonl SIXRD_ENCAPPER_ADDR) end.
  assert (Ek : exists ipkey, (if six then k ← ld 4 (set_udata64 0 m) (data_off (set_udata64 0 m) + (14 + 20) + 24 + 4);
      Ok (Z.lor (Z.land k 4294967040) 10) else ld 4 (set_udata64 0 m) (data_off (set_udata64 0 m) + 14 + 16)) = Ok ipkey).
  { destruct six; rewrite ld_ok by (mem_cbn; lia); res_simpl; eauto. }
  destruct Ek as [ipkey Ek]. rewrite Ek. res_simpl.
  destruct (CorePgwBaseWorker.Find_update _ _ _ _ _) as [[ret map] [u itm]].
  assert (Hb1 : base_ok (set_tables (lookup_ (ebase x)) map
    (set_find (Z.land ipkey 4294967040) (u32 now) itm (ebase x))) w) by (destruct Hb; by constructor).
  destruct (negb (ret =? 0)).
  { by apply not_found_outcome. }
  rewrite ld_ok by (mem_cbn; lia). res_simpl.
  match goal with |- context [encapsulate ?b ?e ?i ?p ?y] =>
    destruct (encapsulate_total b i p y) as (m' & x' & E & Ht' & Ex & Ea) end.
  - by apply room_udata64, room_udata64.
  - destruct Ht; by constructor.
  - revert E. mem_cbn. intros E. rewrite E. res_simpl. eexists _, _, _, _. split; [done|].
    rewrite Ex. split_and!; auto with pgw.
Qed.
End encapsulation.

#[export] Instance egress_worker_ok {D : Dpdk} {H : DpdkOk D} :
  @PgwWorkerOk D H EgressWorker CorePgwEgressTunnelWorker.egress_worker.
Proof.
  refine (Build_PgwWorkerOk D H EgressWorker _ templates_ok _ _ _).
  - done.
  - intros c x []. by constructor.
  - intros now m x w Hb Ho Hm. apply (egress_ModifyPacket_outcome now m x w Hb Ho Hm).
Defined.

(** ** Properties *)
Module Properties.
Import CorePgwEgressTunnelWorker.
Section properties.
Context `{DpdkOk}.
Implicit Types (x : EgressWorker) (w : world rte_mbuf) (m : rte_mbuf).

(** Source and destination of the received packet, as the host reads them. *)
Definition wire_src (f : list Z) : Z := le_load (slice 26 4 f).
Definition wire_dst (f : list Z) : Z := le_load (slice 30 4 f).

Lemma wire_load_at k m :
  mbuf_wf m -> 0 <= k -> k + 4 <= data_len m ->
  ld 4 m (data_off m + k) = Ok (le_load (slice k 4 (pkt_data m))).
Proof. intros [] ??. rewrite ld_ok by lia. unfold pkt_data. by rewrite slice_slice by lia. Qed.

(** [ModifyPacket] on an IPv4 packet of a known session. *)
Lemma ModifyPacket_known now m x w itm :
  mbuf_wf m -> 36 <= data_off m -> 34 <= data_len m -> templates_ok x ->
  user_frame (head_bytes 34 m) = true -> wire_src (pkt_data m) <> htonl SIXRD_ENCAPPER_ADDR ->
  findtype_ (ebase x) <> 0 ->
  map_ (ebase x) !! ntohl (Z.land (wire_dst (pkt_data m)) 0xffffff00) = Some itm ->
  let key := Z.land (wire_dst (pkt_data m)) 0xffffff00 in
  let '(col, itm') := Policer.police (u32 now) (wrap 12 (data_len m - 14)) itm in
  exists ck x' b', ModifyPacket now m (x, w) =
      Ok (0, set_udata64 (set_mode (mode itm') (set_flag MBFU_FLAG_PDU (set_color col
           (set_mode POLICER_MODE_LTE (set_color POLICER_COLOR_GREEN (set_teid (findkey_ (ebase x))
             (set_size (data_len m - 14) 0)))))))
           (set_packet_type (Z.lor RTE_PTYPE_L3_IPV4 RTE_PTYPE_L4_UDP) (set_buf b' (moved 36 m))), (x', w)) /\
    templates_ok x' /\ findkey_ (ebase x') = key /\
    map_ (ebase x') = <[ntohl key := itm']> (map_ (ebase x)) /\
    zlen b' = zlen (buf m) /\ bytes_ok b' /\
    oc_sum (be_words (ip_header (data_len m + 36) ck itm')) = 0xffff /\
    slice (data_off m - 36) (data_len m + 36) b' =
      slice 0 14 (pkt_data m) ++ tunnel_headers (data_len m + 36) ck itm' ++
      slice 14 (data_len m - 14) (pkt_data m).
Proof.
  intros Hw Ho Hl Ht Hu Hs Hf Hm key. pose proof Hw as [].
  unfold ModifyPacket. autounfold with pkt.
  rewrite is_user_eq by (mem_cbn; done || lia). res_simpl.
  change (head_bytes 34 (set_udata64 0 m)) with (head_bytes 34 m). rewrite Hu.
  rewrite bool_decide_eq_false_2 by done.
  mem_cbn. replace (data_off m + 14 + 12) with (data_off m + 26) by lia.
  replace (data_off m + 14 + 16) with (data_off m + 30) by lia.
  assert (E26 : forall u, ld 4 (set_udata64 u m) (data_off m + 26) = Ok (wire_src (pkt_data m)))
    by (intros u; apply (wire_load_at 26 (set_udata64 u m)); [by apply wf_set_udata64|mem_cbn; lia..]).
  assert (E30 : ld 4 (set_udata64 0 m) (data_off m + 30) = Ok (wire_dst (pkt_data m)))
    by (apply (wire_load_at 30 (set_udata64 0 m)); [by apply wf_set_udata64|mem_cbn; lia..]).
  rewrite E26. res_simpl. rewrite (proj2 (Z.eqb_neq _ _) Hs). rewrite E30. res_simpl.
  unfold CorePgwBaseWorker.Find_update. rewrite (proj2 (Z.eqb_neq _ _) Hf).
  fold key. fold key in Hm. rewrite Hm. unfold on_found.
  replace (udat_size _) with (wrap 12 (data_len m - 14)) by (udat_simpl; by rewrite wf_plen).
  destruct (Policer.police _ _ _) as [col itm']. cbn [Z.eqb negb].
  change (set_udata64 ?a (set_udata64 ?b m)) with (set_udata64 a m).
  rewrite E26. res_simpl. rewrite (proj2 (Z.eqb_neq _ _) Hs).
  match goal with |- context [encapsulate false ?e ?i ?p ?y] =>
    destruct (encapsulate_v4 e i p y) as (ck & x' & b' & E & Ht' & Ex & Lb & Ob & Hck & Hd) end.
  - by apply wf_set_udata64.
  - done.
  - mem_cbn. lia.
  - destruct Ht. by constructor.
  - rewrite E. res_simpl. exists ck, x', b'. rewrite Ex.
    split_and!; try done; [by rewrite wf_plen|apply Hd; mem_cbn; lia].
Qed.

(** Encapsulation of a user packet. *)
Lemma encapsulates now m x w itm :
  mbuf_wf m -> 36 <= data_off m -> 34 <= data_len m -> templates_ok x ->
  user_frame (head_bytes 34 m) = true -> wire_src (pkt_data m) <> htonl SIXRD_ENCAPPER_ADDR ->
  findtype_ (ebase x) <> 0 ->
  map_ (ebase x) !! ntohl (Z.land (wire_dst (pkt_data m)) 0xffffff00) = Some itm ->
  let key := Z.land (wire_dst (pkt_data m)) 0xffffff00 in
  let '(col, itm') := Policer.police (u32 now) (wrap 12 (data_len m - 14)) itm in
  exists ck m' x', ModifyPacket now m (x, w) = Ok (0, m', (x', w)) /\
    pkt_data m' = slice 0 14 (pkt_data m) ++ tunnel_headers (data_len m + 36) ck itm' ++
                  slice 14 (data_len m - 14) (pkt_data m) /\
    oc_sum (be_words (ip_header (data_len m + 36) ck itm')) = 0xffff /\
    mbuf_wf m' /\ templates_ok x' /\
    udat_flag (udata64 m') = MBFU_FLAG_PDU /\ udat_color (udata64 m') = wrap 2 col /\
    udat_size (udata64 m') = wrap 12 (data_len m - 14) /\ udat_mode (udata64 m') = wrap 2 (mode itm') /\
    map_ (ebase x') = <[ntohl key := itm']> (map_ (ebase x)).
Proof.
  intros Hw Ho Hl Ht Hu Hs Hf Hm key. pose proof Hw as [].
  pose proof (ModifyPacket_known now m x w itm Hw Ho Hl Ht Hu Hs Hf Hm) as HM. fold key in HM.
  destruct (Policer.police _ _ _) as [col itm'].
  destruct HM as (ck & x' & b' & E & Ht' & _ & Em & Lb & Ob & Hck & Hd).
  exists ck. eexists _, x'. split; [exact E|]. unfold pkt_data at 1. mem_cbn.
  split_and!; try done; try by udat_simpl.
  constructor; unfold moved; mem_cbn; try done; lia.
Qed.

(** C10: encapsulation: a user packet of a known session leaves as the original
    Ethernet header, a 20-byte IPv4 header whose one's complement sum is all
    ones (a valid checksum) with the gateways' addresses, a UDP header to port
    2152, a G-PDU header with the session's TEID, all lengths right, and then
    exactly the received packet; colour, size and mode are in the user word,
    and only that session's buckets change. *)
Theorem egress_encapsulates now m x w itm :
  mbuf_wf m -> 36 <= data_off m -> 34 <= data_len m -> templates_ok x ->
  user_frame (head_bytes 34 m) = true -> wire_src (pkt_data m) <> htonl SIXRD_ENCAPPER_ADDR ->
  findtype_ (ebase x) <> 0 ->
  map_ (ebase x) !! ntohl (Z.land (wire_dst (pkt_data m)) 0xffffff00) = Some itm ->
  let key := Z.land (wire_dst (pkt_data m)) 0xffffff00 in
  let '(col, itm') := Policer.police (u32 now) (wrap 12 (data_len m - 14)) itm in
  exists ck m' x', ModifyPacket now m (x, w) = Ok (0, m', (x', w)) /\
    pkt_data m' = slice 0 14 (pkt_data m) ++ tunnel_headers (data_len m + 36) ck itm' ++
                  slice 14 (data_len m - 14) (pkt_data m) /\
    oc_sum (be_words (ip_header (data_len m + 36) ck itm')) = 0xffff /\
    mbuf_wf m' /\ templates_ok x' /\
    udat_flag (udata64 m') = MBFU_FLAG_PDU /\ udat_color (udata64 m') = wrap 2 col /\
    udat_size (udata64 m') = wrap 12 (data_len m - 14) /\ udat_mode (udata64 m') = wrap 2 (mode itm') /\
    map_ (ebase x') = <[ntohl key := itm']> (map_ (ebase x)).
Proof. apply encapsulates. Qed.

(** the user word names the wrong user: the TEID a packet is counted under
    is the lookup key of the previous packet ([findkey_] is assigned after it was
    copied); this packet's key is only left for the next one. *)
Theorem egress_counts_previous_user now m x w itm :
  mbuf_wf m -> 36 <= data_off m -> 34 <= data_len m -> templates_ok x ->
  user_frame (head_bytes 34 m) = true -> wire_src (pkt_data m) <> htonl SIXRD_ENCAPPER_ADDR ->
  findtype_ (ebase x) <> 0 ->
  map_ (ebase x) !! ntohl (Z.land (wire_dst (pkt_data m)) 0xffffff00) = Some itm ->
  exists m' x', ModifyPacket now m (x, w) = Ok (0, m', (x', w)) /\
    udat_teid (udata64 m') = u32 (findkey_ (ebase x)) /\
    findkey_ (ebase x') = Z.land (wire_dst (pkt_data m)) 0xffffff00.
Proof.
  intros Hw Ho Hl Ht Hu Hs Hf Hm.
  pose proof (ModifyPacket_known now m x w itm Hw Ho Hl Ht Hu Hs Hf Hm) as HM.
  destruct (Policer.police _ _ _) as [col itm'].
  destruct HM as (ck & x' & b' & E & _ & Ek & _).
  eexists _, x'. split; [exact E|]. mem_cbn. split; [by udat_simpl|done].
Qed.
End properties.

(** A packet from 8.8.8.8 to user 10.1.2.3, and a worker that knows the user. *)
Definition to_user : rte_mbuf :=
  let f := [2;0;0;0;0;1; 2;0;0;0;0;2; 8;0] ++
    [0x45;0; 0;28; 0;1; 0;0; 64;17; 0;0; 8;8;8;8; 10;1;2;3] ++ repeat 7 8 in
  mk_mbuf 78 (repeat 0 128 ++ f ++ repeat 0 128) 128 (zlen f) (zlen f) 1 None 0 0.
Definition session : lookup_t :=
  mk_lookup 0 1 1 0x03020100 0 0x04030201 0x0200a8c0 0x0100a8c0 0 0 12500 128 0 12500 128.
Definition knowing : EgressWorker :=
  construct (mk_base (mk_core 0 0 1 0 0 0 0 0 0 4 3 (Some 1) (Some 2) [] 0 CoreCounter.Clear)
    0 0 0 0 0 0 1 0 (Lookup.Create 64) {[ 0x00010203 := session ]} None None zero_lookup 0 0 0 0 0) 0.
Definition no_rings : @world DpdkModel.dpdk rte_mbuf := @mk_world DpdkModel.dpdk rte_mbuf ∅ [].

Lemma to_user_wf : mbuf_wf to_user.
Proof.
  constructor; try (vm_compute; congruence). apply bytes_okb_ok. vm_compute. reflexivity.
Qed.

Lemma egress_encapsulates_witness :
  exists m' x', ModifyPacket (D := DpdkModel.dpdk) 100 to_user (knowing, no_rings)
      = Ok (0, m', (x', no_rings)) /\ data_len m' = 78 /\ mbuf_wf m'.
Proof.
  pose proof (egress_encapsulates (D := DpdkModel.dpdk) 100 to_user knowing no_rings session) as W.
  destruct (Policer.police _ _ _) as [col itm'].
  destruct W as (ck & m' & x' & E & Ed & _ & Hw & _).
  - exact to_user_wf.
  - vm_compute. congruence.
  - vm_compute. congruence.
  - apply construct_templates.
  - vm_compute. reflexivity.
  - vm_compute. congruence.
  - discriminate.
  - vm_compute. reflexivity.
  - exists m', x'. split; [exact E|]. split; [|exact Hw].
    apply (f_equal (fun l => zlen l)) in Ed. unfold pkt_data at 1 in Ed.
    rewrite zlen_slice in Ed by apply Hw. rewrite Ed. reflexivity.
Defined.

Lemma egress_counts_previous_user_witness :
  exists m' x', ModifyPacket (D := DpdkModel.dpdk) 100 to_user (knowing, no_rings)
      = Ok (0, m', (x', no_rings)) /\
    udat_teid (udata64 m') = 0 /\ findkey_ (ebase x') = 0x03020100.
Proof.
  destruct (egress_counts_previous_user (D := DpdkModel.dpdk) 100 to_user knowing no_rings session)
    as (m' & x' & E & Ht & Ek).
  - exact to_user_wf.
  - vm_compute. congruence.
  - vm_compute. congruence.
  - apply construct_templates.
  - vm_compute. reflexivity.
  - vm_compute. congruence.
  - discriminate.
  - vm_compute. reflexivity.
  - exists m', x'. split; [exact E|]. split; [exact Ht|exact Ek].
Defined.
End Properties.
