(* ===== verification/TunnelRoundTrip.v ===== *)
(** * The tunnel as a whole

    The egress worker of one gateway and the ingress worker of another, composed:
    what [CorePgwEgressTunnelWorker] encapsulates, [CorePgwIngressTunnelWorker]
    decapsulates to the frame it started from. *)

From S2P Require Import Prelude Dpdk Packet LookupTpl CoreBase Policer PgwBase IngressTunnel EgressTunnel.

Section frame.
Implicit Types (f : list Z) (itm : lookup_t).

(** The frame the egress worker builds around [f]. *)
Definition tunnelled (f : list Z) (ck : Z) (itm : lookup_t) : list Z :=
  slice 0 14 f ++ tunnel_headers (zlen f + 36) ck itm ++ slice 14 (zlen f - 14) f.

Lemma zlen_tunnelled f ck itm : 14 <= zlen f -> zlen (tunnelled f ck itm) = zlen f + 36.
Proof.
  intros. unfold tunnelled, tunnel_headers. destruct (zlen_headers (zlen f + 36) ck itm) as (? & ? & ?).
  rewrite !length_app. pose proof (zlen_slice 0 14 f). pose proof (zlen_slice 14 (zlen f - 14) f). lia.
Qed.

(** A part of the original packet behind the headers. *)
Lemma tunnelled_payload f ck itm k n :
  14 <= k -> 0 <= n -> k + n <= zlen f -> slice (k + 36) n (tunnelled f ck itm) = slice k n f.
Proof.
  intros. unfold tunnelled, tunnel_headers. destruct (zlen_headers (zlen f + 36) ck itm) as (L1 & L2 & L3).
  assert (L0 : zlen (slice 0 14 f) = 14) by (apply zlen_slice; lia).
  rewrite slice_app_r by lia. rewrite slice_app_r by (rewrite !length_app; lia).
  rewrite slice_slice by (rewrite ?length_app; lia). f_equal. rewrite !length_app. lia.
Qed.

Lemma tunnelled_ether f ck itm k n :
  0 <= k -> 0 <= n -> k + n <= 14 -> 14 <= zlen f -> slice k n (tunnelled f ck itm) = slice k n f.
Proof.
  intros. unfold tunnelled. assert (L0 : zlen (slice 0 14 f) = 14) by (apply zlen_slice; lia).
  rewrite slice_app_l by lia. by apply slice_slice.
Qed.

Lemma tunnelled_header f ck itm k n :
  14 <= k -> 0 <= n -> k + n <= 50 -> 14 <= zlen f ->
  slice k n (tunnelled f ck itm) = slice (k - 14) n (tunnel_headers (zlen f + 36) ck itm).
Proof.
  intros. unfold tunnelled. assert (L0 : zlen (slice 0 14 f) = 14) by (apply zlen_slice; lia).
  assert (L : zlen (tunnel_headers (zlen f + 36) ck itm) = 36) by done.
  rewrite slice_app_r by lia. rewrite slice_app_l by lia. by rewrite L0.
Qed.

(** The tunnelled frame is a G-PDU, and its TEID is the session's. *)
Lemma tunnelled_is_gpdu f ck itm :
  14 <= zlen f -> be16_at 12 f = ETHER_TYPE_IPv4 -> gpdu_frame (tunnelled f ck itm) = true.
Proof.
  intros Hl He. unfold gpdu_frame, be16_at, byte_at in *.
  rewrite tunnelled_ether by lia. rewrite He. rewrite !tunnelled_header by lia.
  reflexivity.
Qed.

Lemma tunnelled_tid f ck itm :
  14 <= zlen f -> 0 <= sgw_gtpu_teid itm < 2 ^ 32 ->
  IngressTunnel.Properties.wire_tid (tunnelled f ck itm) = sgw_gtpu_teid itm.
Proof.
  intros Hl Ht. unfold IngressTunnel.Properties.wire_tid. rewrite tunnelled_header by lia.
  change (slice (46 - 14) 4 _) with (le_store 4 (sgw_gtpu_teid itm)).
  rewrite le_load_store. by apply Z.mod_small.
Qed.
End frame.

Lemma frame_head_slice n k j f :
  0 <= k -> 0 <= j -> k + j <= n -> slice k j (slice 0 n f) = slice k j (f : list Z).
Proof. intros. by rewrite slice_slice by lia. Qed.

Lemma gpdu_frame_head f : 50 <= zlen f -> gpdu_frame (slice 0 50 f) = gpdu_frame f.
Proof. intros. unfold gpdu_frame, be16_at, byte_at. by rewrite !frame_head_slice by lia. Qed.

(** The policer touches only the buckets of a session. *)
Lemma police_keeps_teid now size itm col itm' :
  Policer.police now size itm = (col, itm') -> sgw_gtpu_teid itm' = sgw_gtpu_teid itm.
Proof.
  unfold Policer.police, Policer.colour, Policer.refill. intros E.
  repeat case_match; simplify_eq; done.
Qed.

Lemma user_frame_ether f : user_frame f = true -> be16_at 12 f = ETHER_TYPE_IPv4.
Proof. unfold user_frame. intros E. by to_prop. Qed.

Module Properties.
Section properties.
Context `{DpdkOk}.

(** C2: round trip: a user frame of a known session that the egress worker
    encapsulates is accepted by an ingress worker that knows the session under
    the TEID of the tunnel, and decapsulated to exactly the original frame. *)
Theorem tunnel_roundtrip now now' (m : rte_mbuf) (x : EgressWorker) (w : world rte_mbuf)
    (b : PgwBase) (w' : world rte_mbuf) (itm peer : lookup_t) :
  mbuf_wf m -> 36 <= data_off m -> 34 <= data_len m -> templates_ok x ->
  user_frame (head_bytes 34 m) = true ->
  EgressTunnel.Properties.wire_src (pkt_data m) <> htonl SIXRD_ENCAPPER_ADDR ->
  findtype_ (ebase x) <> 0 ->
  map_ (ebase x) !! ntohl (Z.land (EgressTunnel.Properties.wire_dst (pkt_data m)) 0xffffff00) = Some itm ->
  0 <= sgw_gtpu_teid itm < 2 ^ 32 ->
  Z.land (byte_at 14 (pkt_data m)) 0xf0 = 0x40 ->
  findtype_ b <> 0 -> map_ b !! sgw_gtpu_teid itm = Some peer ->
  Z.land (ue_ipv4 peer) 0xffffff00 = Z.land (EgressTunnel.Properties.wire_src (pkt_data m)) 0xffffff00 ->
  exists m1 x1 m2 b2,
    CorePgwEgressTunnelWorker.ModifyPacket now m (x, w) = Ok (0, m1, (x1, w)) /\
    CorePgwIngressTunnelWorker.ModifyPacket now' m1 (b, w') = Ok (0, m2, (b2, w')) /\
    pkt_data m2 = pkt_data m.
Proof.
  intros Hw Ho Hl Ht Hu Hs Hf Hm Hteid Hv Hfb Hmb Ha. pose proof Hw as [].
  assert (Lf : zlen (pkt_data m) = data_len m) by (unfold pkt_data; rewrite zlen_slice; lia).
  pose proof (EgressTunnel.Properties.encapsulates now m x w itm Hw Ho Hl Ht Hu Hs Hf Hm) as HE.
  cbv zeta in HE. destruct (Policer.police _ _ itm) as [col itm'] eqn:Ep.
  destruct HE as (ck & m1 & x1 & E1 & D1 & _ & W1 & _).
  assert (Et : sgw_gtpu_teid itm' = sgw_gtpu_teid itm) by (by eapply police_keeps_teid).
  rewrite <-Lf in D1. fold (tunnelled (pkt_data m) ck itm') in D1.
  assert (L1 : data_len m1 = data_len m + 36).
  { apply (f_equal (fun l => zlen l)) in D1. rewrite zlen_tunnelled in D1 by lia.
    destruct W1. unfold pkt_data at 1 in D1. rewrite zlen_slice in D1 by lia. lia. }
  assert (Hg : gpdu_frame (head_bytes 50 m1) = true).
  { replace (head_bytes 50 m1) with (slice 0 50 (pkt_data m1)).
    - rewrite gpdu_frame_head, D1 by (rewrite D1, zlen_tunnelled; lia).
      apply tunnelled_is_gpdu; [lia|]. apply user_frame_ether in Hu.
      revert Hu. unfold be16_at. rewrite IngressTunnel.Properties.head_data by (done || lia). done.
    - destruct W1. unfold pkt_data, head_bytes. rewrite slice_slice by lia. f_equal. lia. }
  pose proof (IngressTunnel.Properties.decapsulates_ipv4 now' m1 b w' peer) as HI.
  rewrite D1, tunnelled_tid in HI by lia. unfold byte_at in HI.
  change (slice 50 1) with (@slice Z (14 + 36) 1) in HI. change (slice 62 4) with (@slice Z (26 + 36) 4) in HI.
  rewrite !tunnelled_payload in HI by lia.
  destruct (Policer.police _ _ peer) as [col2 peer'].
  destruct HI as (m2 & b2 & E2 & D2 & _); try done; [lia|by rewrite Et|].
  exists m1, x1, m2, b2. split; [done|]. split; [done|]. rewrite D2, L1.
  replace (data_len m + 36 - 50) with (data_len m - 14) by lia.
  rewrite tunnelled_ether by lia. change (slice 50) with (@slice Z (14 + 36)).
  rewrite tunnelled_payload by lia.
  change 14 with (0 + 14) at 2. rewrite <-slice_app_split by lia.
  replace (14 + (data_len m - 14)) with (zlen (pkt_data m)) by lia. apply slice_0_all.
Qed.
End properties.

(** The far gateway knows the sender 8.8.8.8 under the tunnel's TEID. *)
Definition far_gateway : PgwBase :=
  set_tables (Lookup.Create 64)
    {[ 0x04030201 := mk_lookup 0 1 1 0x08080808 0 8 9 10 0 0 12500 128 0 12500 128 ]}
    IngressTunnel.Properties.knowing.

Lemma tunnel_roundtrip_witness :
  exists m1 x1 m2 b2,
    CorePgwEgressTunnelWorker.ModifyPacket (D := DpdkModel.dpdk) 100 EgressTunnel.Properties.to_user
      (EgressTunnel.Properties.knowing, EgressTunnel.Properties.no_rings)
      = Ok (0, m1, (x1, EgressTunnel.Properties.no_rings)) /\
    CorePgwIngressTunnelWorker.ModifyPacket (D := DpdkModel.dpdk) 101 m1
      (far_gateway, EgressTunnel.Properties.no_rings)
      = Ok (0, m2, (b2, EgressTunnel.Properties.no_rings)) /\
    pkt_data m2 = pkt_data EgressTunnel.Properties.to_user.
Proof.
  apply (tunnel_roundtrip (D := DpdkModel.dpdk) 100 101 EgressTunnel.Properties.to_user
    EgressTunnel.Properties.knowing EgressTunnel.Properties.no_rings far_gateway
    EgressTunnel.Properties.no_rings EgressTunnel.Properties.session
    (mk_lookup 0 1 1 0x08080808 0 8 9 10 0 0 12500 128 0 12500 128)).
  - exact EgressTunnel.Properties.to_user_wf.
  - vm_compute. congruence.
  - vm_compute. congruence.
  - apply construct_templates.
  - vm_compute. reflexivity.
  - vm_compute. congruence.
  - discriminate.
  - vm_compute. reflexivity.
  - vm_compute. split; congruence.
  - vm_compute. reflexivity.
  - discriminate.
  - vm_compute. reflexivity.
  - vm_compute. reflexivity.
Defined.
End Properties.
