(* ===== verification/Distributor.v ===== *)
(** * The distributor workers

    The four workers that re-address tunnelled packets instead of removing the
    tunnel: [CorePgwIngressDistributorWorker] and
    [CorePgwEgressDistributorWorker] (dataplane/src/core/
    core_pgw_{ingress,egress}_distributor_worker.cc) and their predecessors
    [CorePgwIngressWorker] and [CorePgwEgressWorker]
    (core_pgw_{ingress,egress}_worker.cc).

    On ingress the UDP and GTP-U headers of a G-PDU are overwritten in place with
    12 bytes of IP options and a 4-byte GRE header; on egress the addresses and
    the TEID of the outer headers are replaced. *)

From S2P Require Import Prelude Dpdk Packet LookupTpl CoreBase PgwBase.

(** ** What the workers share *)
Section helpers.
Implicit Types (m : rte_mbuf).

(** [t = eh->d_addr; eh->d_addr = eh->s_addr; eh->s_addr = t]. *)
Definition swap_mac (eh : Z) m : res rte_mbuf :=
  t_macaddr ← ld_bytes 6 m (eh + o_d_addr);
  s_macaddr ← ld_bytes 6 m (eh + o_s_addr);
  m ← st_bytes m (eh + o_d_addr) s_macaddr;
  st_bytes m (eh + o_s_addr) t_macaddr.

(** [ip->hdr_checksum = _wrapsum(_checksum(ip, len, 0))]. *)
Definition put_checksum (ip len : Z) m : res rte_mbuf :=
  ck ← _checksum (drop (Z.to_nat ip) (buf m)) len 0;
  st 2 m (ip + o_hdr_checksum) (_wrapsum ck).

Definition nops : list Z := replicate 12 1.
End helpers.

(** ** [CorePgwIngressDistributorWorker] *)
Module CorePgwIngressDistributorWorker.
Section worker.
Context `{D : Dpdk} `{B : Build}.
Implicit Types (b : PgwBase) (w : world rte_mbuf) (inpkt : rte_mbuf).

Definition GetType : TYPE := PGW_INGRESS.
Definition greo : list Z := [0x00; 0x00; 0x08; 0x00].

(** Hand the packet to the tap; the caller sends it on as well when this
    succeeds, since the result is 0. *)
Definition to_tap inpkt (s : PgwBase * world rte_mbuf)
    : res (Z * rte_mbuf * (PgwBase * world rte_mbuf)) :=
  let '(b, w) := s in
  e ← w_enqueue (ring_err_ind_ b) inpkt w;
  let '(rc, w) := e in
  if rc <? 0 then Ok (1, inpkt, (b, w_free [inpkt] w)) else Ok (0, inpkt, (b, w)).

Definition drop_count inpkt b : PgwBase :=
  set_core (CoreInterface.count_drop (pkt_len inpkt) 1 (core b)) b.

(** The rewrite of a packet of a known session. *)
Definition rewrite b inpkt : res rte_mbuf :=
  let eh := mtod_offset inpkt 0 in
  let ip := mtod_offset inpkt sizeof_ether_hdr in
  let nop := mtod_offset inpkt (sizeof_ether_hdr + sizeof_ipv4_hdr) in
  let gre := mtod_offset inpkt (sizeof_ether_hdr + sizeof_ipv4_hdr + zlen nops) in
  if negb CANNOT_USE_GRE then
    inpkt ← st 1 inpkt (ip + o_version_ihl) 0x48;
    inpkt ← st 4 inpkt (ip + o_src_addr) (htonl (gresrcipv4_ b));
    inpkt ← st 4 inpkt (ip + o_dst_addr) (htonl (greipv4_ b));
    inpkt ← st 1 inpkt (ip + o_next_proto_id) IPPROTO_GRE;
    inpkt ← st 2 inpkt (ip + o_hdr_checksum) 0;
    inpkt ← st_bytes inpkt nop nops;
    inpkt ← st_bytes inpkt gre greo;
    inpkt ← put_checksum ip (Z.shiftl 0x08 2) inpkt;
    inpkt ← swap_mac eh inpkt;
    Ok (set_packet_type (Z.lor RTE_PTYPE_L3_IPV4 RTE_PTYPE_TUNNEL_GRE) inpkt)
  else
    inpkt ← st 4 inpkt (ip + o_src_addr) (htonl (gresrcipv4_ b));
    inpkt ← st 4 inpkt (ip + o_dst_addr) (htonl (greipv4_ b));
    inpkt ← st 2 inpkt (ip + o_hdr_checksum) 0;
    inpkt ← put_checksum ip 20 inpkt;
    swap_mac eh inpkt.

(** The user address of the inner packet, or nothing for neither IPv4 nor IPv6. *)
Definition inner_key inpkt (iniph : Z) : res (option Z) :=
  vihl ← ld 1 inpkt (iniph + o_version_ihl);
  if Z.land vihl 0xf0 =? 0x40 then
    k ← ld 4 inpkt (iniph + o_src_addr); Ok (Some k)
  else if Z.land vihl 0xf0 =? 0x60 then
    k ← ld 4 inpkt (iniph + o_ip6_src_addr + 4); Ok (Some k)
  else Ok None.

Definition ModifyPacket inpkt (s : PgwBase * world rte_mbuf)
    : res (Z * rte_mbuf * (PgwBase * world rte_mbuf)) :=
  let '(b, w) := s in
  let gtph := mtod_offset inpkt (sizeof_ether_hdr + sizeof_ipv4_hdr + sizeof_udp_hdr) in
  let inip_ofst := sizeof_ether_hdr + sizeof_ipv4_hdr + sizeof_udp_hdr + sizeof_gtpu_hdr in
  let iniph := mtod_offset inpkt inip_ofst in
  key ← inner_key inpkt iniph;
  match key with
  | None => Ok (1, inpkt, (drop_count inpkt b, w_free [inpkt] w))
  | Some ipkey =>
      tid ← ld 4 inpkt (gtph + o_gtpu_tid);
      found ← CorePgwBaseWorker.Find (ntohl tid) b;
      match found with
      | (0, Some itm) =>
          let ue_ipv4_cmp := Z.land (ue_ipv4 itm) 0xffffff00 in
          let src_addr_cmp := Z.land ipkey 0xffffff00 in
          if negb (ue_ipv4_cmp =? src_addr_cmp) then to_tap inpkt (drop_count inpkt b, w)
          else inpkt ← rewrite b inpkt; Ok (0, inpkt, (b, w))
      | _ =>
          if TEST_MODE then
            inpkt' ← error_indicate inpkt; Ok (0, inpkt', (drop_count inpkt b, w))
          else to_tap inpkt (drop_count inpkt b, w)
      end
  end.

#[export] Instance ingress_distributor : PgwWorker PgwBase := {|
  base b := b;
  set_base b _ := b;
  PgwBase.GetType := GetType;
  PgwBase.ModifyPacket _ := ModifyPacket;
|}.
End worker.
End CorePgwIngressDistributorWorker.

(** ** [CorePgwEgressDistributorWorker] *)
Module CorePgwEgressDistributorWorker.
Section worker.
Context `{D : Dpdk} `{B : Build}.
Implicit Types (b : PgwBase) (w : world rte_mbuf) (inpkt : rte_mbuf).

Definition GetType : TYPE := PGW_EGRESS.

Definition drop_count inpkt b : PgwBase :=
  set_core (CoreInterface.count_drop (pkt_len inpkt) 1 (core b)) b.

Definition inner_key inpkt (iniph : Z) : res (option Z) :=
  vihl ← ld 1 inpkt (iniph + o_version_ihl);
  if Z.land vihl 0xf0 =? 0x40 then
    k ← ld 4 inpkt (iniph + o_dst_addr); Ok (Some k)
  else if Z.land vihl 0xf0 =? 0x60 then
    k ← ld 4 inpkt (iniph + o_ip6_dst_addr + 4); Ok (Some k)
  else Ok None.

Definition rewrite (itm : lookup_t) inpkt : res rte_mbuf :=
  let eh := mtod_offset inpkt 0 in
  let ip_ot := mtod_offset inpkt sizeof_ether_hdr in
  let udp := mtod_offset inpkt (sizeof_ether_hdr + sizeof_ipv4_hdr) in
  let gtph := mtod_offset inpkt (sizeof_ether_hdr + sizeof_ipv4_hdr + sizeof_udp_hdr) in
  inpkt ← st 4 inpkt (gtph + o_gtpu_tid) (sgw_gtpu_teid itm);
  inpkt ← st 2 inpkt (udp + o_dst_port) (htons GTPU_PORT);
  inpkt ← st 2 inpkt (udp + o_src_port) (htons GTPU_PORT);
  inpkt ← st 4 inpkt (ip_ot + o_src_addr) (pgw_gtpu_ipv4 itm);
  inpkt ← st 4 inpkt (ip_ot + o_dst_addr) (sgw_gtpu_ipv4 itm);
  inpkt ← st 2 inpkt (ip_ot + o_hdr_checksum) 0;
  inpkt ← put_checksum ip_ot 20 inpkt;
  swap_mac eh inpkt.

Definition ModifyPacket inpkt (s : PgwBase * world rte_mbuf)
    : res (Z * rte_mbuf * (PgwBase * world rte_mbuf)) :=
  let '(b, w) := s in
  let inip_ofst := sizeof_ether_hdr + sizeof_ipv4_hdr + sizeof_udp_hdr + sizeof_gtpu_hdr in
  let iniph := mtod_offset inpkt inip_ofst in
  key ← inner_key inpkt iniph;
  match key with
  | None => Ok (1, inpkt, (drop_count inpkt b, w_free [inpkt] w))
  | Some ipkey =>
      found ← CorePgwBaseWorker.Find (Z.land ipkey 0xffffff00) b;
      match found with
      | (0, Some itm) => inpkt ← rewrite itm inpkt; Ok (0, inpkt, (b, w))
      | _ =>
          let b' := drop_count inpkt b in
          if negb NON_SUPPORTED_ERRIND then
            inpkt ← error_indicate inpkt; Ok (0, inpkt, (b', w))
          else
            e ← w_enqueue (ring_err_ind_ b) inpkt w;
            let '(rc, w) := e in
            let w := if rc <? 0 then w_free [inpkt] w else w in
            Ok (1, inpkt, (b', w))
      end
  end.

#[export] Instance egress_distributor : PgwWorker PgwBase := {|
  base b := b;
  set_base b _ := b;
  PgwBase.GetType := GetType;
  PgwBase.ModifyPacket _ := ModifyPacket;
|}.
End worker.
End CorePgwEgressDistributorWorker.

(** ** [CorePgwIngressWorker] *)
Module CorePgwIngressWorker.
Section worker.
Context `{D : Dpdk}.
Implicit Types (b : PgwBase) (w : world rte_mbuf) (inpkt : rte_mbuf).

Definition GetType : TYPE := PGW_INGRESS.
Definition greo : list Z := [0x00; 0x00; 0x80; 0x00].

Definition rewrite b inpkt : res rte_mbuf :=
  let ip := mtod_offset inpkt sizeof_ether_hdr in
  let nop := mtod_offset inpkt (sizeof_ether_hdr + sizeof_ipv4_hdr) in
  let gre := mtod_offset inpkt (sizeof_ether_hdr + sizeof_ipv4_hdr + zlen nops) in
  inpkt ← st 1 inpkt (ip + o_version_ihl) 0x48;
  inpkt ← st 4 inpkt (ip + o_src_addr) (gresrcipv4_ b);
  inpkt ← st 4 inpkt (ip + o_dst_addr) (greipv4_ b);
  inpkt ← st 1 inpkt (ip + o_next_proto_id) IPPROTO_GRE;
  inpkt ← st 2 inpkt (ip + o_hdr_checksum) 0;
  inpkt ← st_bytes inpkt nop nops;
  inpkt ← st_bytes inpkt gre greo;
  Ok (set_packet_type (Z.lor RTE_PTYPE_L3_IPV4 RTE_PTYPE_TUNNEL_GRE) inpkt).

Definition ModifyPacket inpkt (s : PgwBase * world rte_mbuf)
    : res (Z * rte_mbuf * (PgwBase * world rte_mbuf)) :=
  let '(b, w) := s in
  let gtph := mtod_offset inpkt (sizeof_ether_hdr + sizeof_ipv4_hdr + sizeof_udp_hdr) in
  tid ← ld 4 inpkt (gtph + o_gtpu_tid);
  found ← CorePgwBaseWorker.Find (ntohl tid) b;
  if negb (found.1 =? 0) then Ok (1, inpkt, (b, w_free [inpkt] w))
  else inpkt ← rewrite b inpkt; Ok (0, inpkt, (b, w)).

#[export] Instance ingress_legacy : PgwWorker PgwBase := {|
  base b := b;
  set_base b _ := b;
  PgwBase.GetType := GetType;
  PgwBase.ModifyPacket _ := ModifyPacket;
|}.
End worker.
End CorePgwIngressWorker.

(** ** [CorePgwEgressWorker] *)
Module CorePgwEgressWorker.
Section worker.
Context `{D : Dpdk}.
Implicit Types (b : PgwBase) (w : world rte_mbuf) (inpkt : rte_mbuf).

Definition GetType : TYPE := PGW_EGRESS.

Definition rewrite b (itm : lookup_t) inpkt : res rte_mbuf :=
  let ip_ot := mtod_offset inpkt sizeof_ether_hdr in
  let gtph := mtod_offset inpkt (sizeof_ether_hdr + sizeof_ipv4_hdr + sizeof_udp_hdr) in
  inpkt ← st 4 inpkt (gtph + o_gtpu_tid) (sgw_gtpu_teid itm);
  inpkt ← st 4 inpkt (ip_ot + o_src_addr) (gresrcipv4_ b);
  inpkt ← st 4 inpkt (ip_ot + o_dst_addr) (sgw_gtpu_ipv4 itm);
  st 2 inpkt (ip_ot + o_hdr_checksum) 0.

Definition inner_key inpkt (inip : Z) : res (option Z) :=
  if RTE_ETH_IS_IPV4_HDR (packet_type inpkt) then
    k ← ld 4 inpkt (inip + o_dst_addr); Ok (Some k)
  else if RTE_ETH_IS_IPV6_HDR (packet_type inpkt) then
    k ← ld 4 inpkt (inip + o_ip6_dst_addr + 12); Ok (Some k)
  else Ok None.

Definition ModifyPacket inpkt (s : PgwBase * world rte_mbuf)
    : res (Z * rte_mbuf * (PgwBase * world rte_mbuf)) :=
  let '(b, w) := s in
  let inip_ofst := sizeof_ether_hdr + sizeof_ipv4_hdr + sizeof_udp_hdr + sizeof_gtpu_hdr in
  key ← inner_key inpkt (mtod_offset inpkt inip_ofst);
  match key with
  | None => Ok (1, inpkt, (b, w_free [inpkt] w))
  | Some ipkey =>
      found ← CorePgwBaseWorker.Find ipkey b;
      match found with
      | (0, Some itm) => inpkt ← rewrite b itm inpkt; Ok (0, inpkt, (b, w))
      | _ => Ok (1, inpkt, (b, w_free [inpkt] w))
      end
  end.

#[export] Instance egress_legacy : PgwWorker PgwBase := {|
  base b := b;
  set_base b _ := b;
  PgwBase.GetType := GetType;
  PgwBase.ModifyPacket _ := ModifyPacket;
|}.
End worker.
End CorePgwEgressWorker.

(** ** Lemmas *)

(** The checksum reads only [len] bytes. *)
Lemma checksum_words_app l1 l2 sum :
  Nat.Even (length l1) -> checksum_words (l1 ++ l2) (zlen l1) sum = checksum_words l1 (zlen l1) sum.
Proof.
  revert sum. induction l1 as [|b0|b0 b1 l1 IH] using list_pair_ind; intros sum [k Hk].
  - destruct l2 as [|? [|? ?]]; reflexivity.
  - cbn in Hk. lia.
  - cbn [app checksum_words length]. rewrite (proj2 (Z.ltb_lt _ _)) by lia.
    replace (Z.of_nat (S (S (length l1))) - 2) with (zlen l1) by lia.
    apply IH. exists (k - 1)%nat. cbn in Hk. lia.
Qed.

Lemma checksum_slice ip len sum (l : list Z) :
  0 <= ip -> 0 <= len -> ip + len <= zlen l -> Nat.Even (Z.to_nat len) ->
  _checksum (drop (Z.to_nat ip) l) len sum = _checksum (slice ip len l) len sum.
Proof.
  intros Hi Hl Hb He. unfold _checksum.
  rewrite <-(take_drop (Z.to_nat len) (drop (Z.to_nat ip) l)) at 1. fold (slice ip len l).
  pose proof (checksum_words_app (slice ip len l) (drop (Z.to_nat len) (drop (Z.to_nat ip) l)) sum) as E.
  rewrite zlen_slice, length_slice in E by lia. by rewrite E.
Qed.

(** The checksum stored over a zeroed field makes the header valid. *)
Lemma put_checksum_ok ip len m :
  bytes_ok (buf m) -> 0 <= ip -> 12 <= len < 65536 -> ip + len <= zlen (buf m) ->
  Nat.Even (Z.to_nat len) -> slice (ip + 10) 2 (buf m) = [0; 0] ->
  exists ck, put_checksum ip len m = Ok (set_buf (splice (ip + 10) (le_store 2 ck) (buf m)) m) /\
    oc_sum (be_words (slice ip len (splice (ip + 10) (le_store 2 ck) (buf m)))) = 0xffff.
Proof.
  intros Hb Hi Hl Hn He Hz. unfold put_checksum. autounfold with pkt.
  rewrite checksum_slice by (done || lia).
  set (l1 := slice ip 10 (buf m)). set (l2 := slice (ip + 12) (len - 12) (buf m)).
  assert (Es : slice ip len (buf m) = l1 ++ [0; 0] ++ l2).
  { rewrite <-Hz. replace len with (10 + (2 + (len - 12))) at 1 by lia. rewrite !slice_app_split by lia.
    unfold l1, l2. do 2 f_equal. f_equal; lia. }
  assert (L1 : length l1 = 10%nat) by (apply length_slice; lia).
  assert (L2 : zlen l2 = len - 12) by (apply zlen_slice; lia).
  rewrite Es. replace len with (zlen l1 + 2 + zlen l2) by lia.
  destruct (checksum_ref (l1 ++ [0; 0] ++ l2)) as (v & Ev & _).
  - rewrite <-Es. by apply Forall_slice.
  - rewrite <-Es, length_slice by lia. done.
  - rewrite !length_app. cbn. lia.
  - replace (zlen (l1 ++ [0; 0] ++ l2)) with (zlen l1 + 2 + zlen l2) in Ev
      by (rewrite !length_app; cbn; lia).
    rewrite Ev. res_simpl. rewrite st_ok by lia. exists (_wrapsum v). split; [done|].
    replace (slice ip _ _) with (l1 ++ le_store 2 (_wrapsum v) ++ l2).
    + apply stored_checksum_valid; [| | | |done].
      * rewrite <-Es. by apply Forall_slice.
      * rewrite L1. by exists 5%nat.
      * destruct He as [k Hk]. exists (k - 6)%nat. lia.
      * lia.
    + replace (zlen l1 + 2 + zlen l2) with (10 + (2 + (len - 12))) by lia.
      rewrite !slice_app_split by lia.
      rewrite slice_splice_before, slice_splice_eq by (rewrite ?length_le_store; lia).
      f_equal. f_equal. rewrite slice_splice_after by (rewrite ?length_le_store; lia).
      unfold l2. f_equal. lia.
Qed.

(** One store of the checksum, as [step_st] does for the others. *)
Ltac step_ck ck Hck E :=
  match goal with
  | |- context [put_checksum ?p ?n ?m] =>
      let Eck := fresh in
      destruct (put_checksum_ok p n m) as (ck & Eck & Hck);
        [mem_cbn; done|lia|lia|mem_cbn; lia|by apply Nat.even_spec|mem_cbn; chase; done|];
      rewrite Eck; clear Eck; res_simpl; mem_cbn; revert Hck; mem_cbn; intros Hck
  end;
  rewrite ?set_buf_set_buf;
  match goal with
  | |- context [set_buf (splice ?p ?bs ?b) _] =>
      let L := fresh "Lb" in
      let O := fresh "Ob" in
      let b' := fresh "b" in
      assert (L : zlen (splice p bs b) = zlen b) by (rewrite length_splice; lens; lia);
      assert (O : bytes_ok (splice p bs b)) by (apply Forall_splice; auto using le_store_ok);
      remember (splice p bs b) as b' eqn:E
  end.

(** ** The rewritten frames *)

(** Ethernet header with the addresses exchanged. *)
Definition swapped (f : list Z) : list Z := slice 6 6 f ++ slice 0 6 f ++ slice 12 2 f.

(** The IPv4 header of the GRE tunnel: 20 bytes and 12 bytes of options. *)
Definition gre_ip_header (ck src dst : Z) (f : list Z) : list Z :=
  [0x48] ++ slice 15 8 f ++ [47] ++ le_store 2 ck ++ le_store 4 src ++ le_store 4 dst ++ nops.

(** The G-PDU [f] with its tunnel headers replaced by GRE. *)
Definition gre_frame (ck src dst : Z) (f : list Z) : list Z :=
  swapped f ++ gre_ip_header ck src dst f ++ [0; 0; 8; 0] ++ slice 50 (zlen f - 50) f.

(** The outer IPv4 header with other addresses. *)
Definition readdressed (ck src dst : Z) (f : list Z) : list Z :=
  slice 14 10 f ++ le_store 2 ck ++ le_store 4 src ++ le_store 4 dst.

Section frames.
Context `{D : Dpdk}.
Implicit Types (m : rte_mbuf) (b : PgwBase).

Lemma zlen_pkt_data m : mbuf_wf m -> zlen (pkt_data m) = data_len m.
Proof. intros []. unfold pkt_data. rewrite zlen_slice; lia. Qed.

Lemma shiftl_8_2 : Z.shiftl 0x08 2 = 32.
Proof. reflexivity. Qed.

Lemma ingress_rewrite_gre `{B : Build} b m :
  CANNOT_USE_GRE = false -> mbuf_wf m -> 50 <= data_len m ->
  exists ck bf', CorePgwIngressDistributorWorker.rewrite b m =
      Ok (set_packet_type (Z.lor RTE_PTYPE_L3_IPV4 RTE_PTYPE_TUNNEL_GRE) (set_buf bf' m)) /\
    slice (data_off m) (data_len m) bf' =
      gre_frame ck (htonl (gresrcipv4_ b)) (htonl (greipv4_ b)) (pkt_data m) /\
    oc_sum (be_words (gre_ip_header ck (htonl (gresrcipv4_ b)) (htonl (greipv4_ b)) (pkt_data m))) = 0xffff /\
    zlen bf' = zlen (buf m) /\ bytes_ok bf'.
Proof.
  intros Hg Hw Hl. pose proof (zlen_pkt_data m Hw) as Lf. destruct Hw.
  unfold CorePgwIngressDistributorWorker.rewrite, swap_mac. rewrite Hg. cbn [negb].
  rewrite shiftl_8_2. unfold CorePgwIngressDistributorWorker.greo, gre_frame, gre_ip_header, swapped.
  assert (On : bytes_ok nops) by (apply bytes_okb_ok; by vm_compute).
  assert (Ln : zlen nops = 12) by done. remember nops as nops' eqn:En.
  assert (Og : bytes_ok [0; 0; 8; 0]) by (apply bytes_okb_ok; by vm_compute).
  assert (Lg : zlen [0; 0; 8; 0] = 4) by done. remember [0; 0; 8; 0] as greo eqn:Eg.
  autounfold with pkt. rewrite Ln, Lf. destruct m as [a bf off dl pl ns nx pt ud].
  cbn in * |-. subst pl ns nx. mem_cbn. rewrite Z.add_0_r.
  do 7 step_st.
  step_ck ck Hck E7.
  do 2 step_ld. do 2 step_st.
  eexists ck, _. split; [reflexivity|].
  assert (Eh : slice (off + 14) 32 b7 = [72] ++ slice 15 8 (slice off dl bf) ++ [47] ++ le_store 2 ck ++
      le_store 4 (htonl (gresrcipv4_ b)) ++ le_store 4 (htonl (greipv4_ b)) ++ nops').
  { rewrite (slice_cuts (off + 14) [1; 8; 1; 2; 4; 4; 12]); [|lia|by repeat constructor].
    cbn [cuts]. rewrite app_nil_r. solve_pieces. }
  unfold pkt_data. cbn [buf data_off data_len]. rewrite <-Eh.
  split_and!; [|done|lia|done].
  replace dl with (foldr Z.add 0 [6; 6; 2; 32; 4; dl - 50]) at 1 by (cbn [foldr]; lia).
  rewrite slice_cuts; [|lia|repeat (constructor; [lia|]); constructor].
  cbn [cuts]. rewrite app_nil_r, <-!app_assoc.
  clear Eh Hck. solve_pieces.
Qed.

(** Without GRE only the addresses of the outer header change. *)
Lemma ingress_rewrite_udp `{B : Build} b m :
  CANNOT_USE_GRE = true -> mbuf_wf m -> 50 <= data_len m ->
  exists ck bf', CorePgwIngressDistributorWorker.rewrite b m = Ok (set_buf bf' m) /\
    slice (data_off m) (data_len m) bf' =
      swapped (pkt_data m) ++
      readdressed ck (htonl (gresrcipv4_ b)) (htonl (greipv4_ b)) (pkt_data m) ++
      slice 34 (data_len m - 34) (pkt_data m) /\
    oc_sum (be_words (readdressed ck (htonl (gresrcipv4_ b)) (htonl (greipv4_ b)) (pkt_data m))) = 0xffff /\
    zlen bf' = zlen (buf m) /\ bytes_ok bf'.
Proof.
  intros Hg Hw Hl. destruct Hw.
  unfold CorePgwIngressDistributorWorker.rewrite, swap_mac, readdressed, swapped. rewrite Hg. cbn [negb].
  autounfold with pkt. destruct m as [a bf off dl pl ns nx pt ud].
  cbn in * |-. subst pl ns nx. mem_cbn. rewrite Z.add_0_r.
  do 3 step_st. step_ck ck Hck E3.
  do 2 step_ld. do 2 step_st.
  eexists ck, _. split; [reflexivity|].
  unfold pkt_data. cbn [buf data_off data_len].
  assert (Eh : slice (off + 14) 20 b3 = slice 14 10 (slice off dl bf) ++ le_store 2 ck ++
      le_store 4 (htonl (gresrcipv4_ b)) ++ le_store 4 (htonl (greipv4_ b))).
  { rewrite (slice_cuts (off + 14) [10; 2; 4; 4]); [|lia|by repeat constructor].
    cbn [cuts]. rewrite app_nil_r. solve_pieces. }
  rewrite <-Eh. split_and!; [|done|lia|done].
  replace dl with (foldr Z.add 0 [6; 6; 2; 20; dl - 34]) at 1 by (cbn [foldr]; lia).
  rewrite slice_cuts; [|lia|repeat (constructor; [lia|]); constructor].
  cbn [cuts]. rewrite app_nil_r, <-!app_assoc.
  clear Eh Hck. solve_pieces.
Qed.

(** The egress rewrite: addresses, UDP ports and TEID. *)
Definition egress_frame (ck : Z) (itm : lookup_t) (f : list Z) : list Z :=
  swapped f ++ readdressed ck (pgw_gtpu_ipv4 itm) (sgw_gtpu_ipv4 itm) f ++
  [8; 104; 8; 104] ++ slice 38 8 f ++ le_store 4 (sgw_gtpu_teid itm) ++ slice 50 (zlen f - 50) f.

Lemma egress_rewrite_ok itm m :
  mbuf_wf m -> 50 <= data_len m ->
  exists ck bf', CorePgwEgressDistributorWorker.rewrite itm m = Ok (set_buf bf' m) /\
    slice (data_off m) (data_len m) bf' = egress_frame ck itm (pkt_data m) /\
    oc_sum (be_words (readdressed ck (pgw_gtpu_ipv4 itm) (sgw_gtpu_ipv4 itm) (pkt_data m))) = 0xffff /\
    zlen bf' = zlen (buf m) /\ bytes_ok bf'.
Proof.
  intros Hw Hl. pose proof (zlen_pkt_data m Hw) as Lf. destruct Hw.
  unfold CorePgwEgressDistributorWorker.rewrite, swap_mac, egress_frame, readdressed, swapped.
  rewrite Lf. autounfold with pkt. destruct m as [a bf off dl pl ns nx pt ud].
  cbn in * |-. subst pl ns nx. mem_cbn. rewrite Z.add_0_r.
  do 6 step_st. step_ck ck Hck E6.
  do 2 step_ld. do 2 step_st.
  eexists ck, _. split; [reflexivity|].
  unfold pkt_data. cbn [buf data_off data_len].
  assert (Eh : slice (off + 14) 20 b5 = slice 14 10 (slice off dl bf) ++ le_store 2 ck ++
      le_store 4 (pgw_gtpu_ipv4 itm) ++ le_store 4 (sgw_gtpu_ipv4 itm)).
  { rewrite (slice_cuts (off + 14) [10; 2; 4; 4]); [|lia|by repeat constructor].
    cbn [cuts]. rewrite app_nil_r. solve_pieces. }
  rewrite <-Eh. split_and!; [|done|lia|done].
  change [8; 104; 8; 104] with ([8; 104] ++ [8; 104]).
  replace dl with (foldr Z.add 0 [6; 6; 2; 20; 2; 2; 8; 4; dl - 50]) at 1 by (cbn [foldr]; lia).
  rewrite slice_cuts; [|lia|repeat (constructor; [lia|]); constructor].
  cbn [cuts]. rewrite app_nil_r, <-!app_assoc.
  clear Eh Hck. solve_pieces.
Qed.
End frames.

(** ** The legacy workers keep the contract of [Cycle] *)
Section legacy.
Context `{DpdkOk}.
Implicit Types (b : PgwBase) (w : world rte_mbuf) (m : rte_mbuf).

(** A worker whose sessions are in the hash map (as the constructors choose). *)
Definition uses_map b : Prop := findtype_ b <> 0.

Lemma Find_total key b : uses_map b -> exists r, CorePgwBaseWorker.Find key b = Ok r /\
  (r.1 = 0 -> exists itm, r.2 = Some itm).
Proof.
  intros Hf. unfold CorePgwBaseWorker.Find. rewrite (proj2 (Z.eqb_neq _ _) Hf). cbn [negb].
  destruct (map_ b !! _); eexists; (split; [reflexivity|]); cbn; [eauto|done].
Qed.

(** Dropped, or handed back with the same identity. *)
Lemma dropped_outcome m w :
  addrs (w_all (w_free [m] w)) ≡ₚ [m_addr m] ++ addrs (w_all w).
Proof. by rewrite w_all_free, fmap_app. Qed.

Lemma ingress_legacy_total b m :
  pkt_room m -> exists m', CorePgwIngressWorker.rewrite b m = Ok m' /\ m_addr m' = m_addr m.
Proof.
  intros [[] Hh Ht]. unfold CorePgwIngressWorker.rewrite. autounfold with pkt.
  assert (On : bytes_ok nops) by (apply bytes_okb_ok; by vm_compute).
  assert (Og : bytes_ok CorePgwIngressWorker.greo) by (apply bytes_okb_ok; by vm_compute).
  assert (Ln : zlen nops = 12) by done. assert (Lg : zlen CorePgwIngressWorker.greo = 4) by done.
  rewrite Ln. do 7 step_st. eauto.
Qed.

Lemma egress_legacy_total b itm m :
  pkt_room m -> exists m', CorePgwEgressWorker.rewrite b itm m = Ok m' /\ m_addr m' = m_addr m.
Proof.
  intros [[] Hh Ht]. unfold CorePgwEgressWorker.rewrite. autounfold with pkt.
  do 4 step_st. eauto.
Qed.

Lemma egress_legacy_key m p :
  pkt_room m -> p = data_off m + 50 -> exists k, CorePgwEgressWorker.inner_key m p = Ok k.
Proof.
  intros [[] Hh Ht] ->. unfold CorePgwEgressWorker.inner_key. autounfold with pkt.
  repeat case_if; rewrite ?ld_ok by lia; res_simpl; eauto.
Qed.
End legacy.

#[export] Instance ingress_legacy_ok {D : Dpdk} {H : DpdkOk D} :
  @PgwWorkerOk D H PgwBase CorePgwIngressWorker.ingress_legacy.
Proof.
  refine (Build_PgwWorkerOk D H PgwBase _ uses_map _ _ _); [done|done|].
  intros now m b w Hb Hf Hm.
  cbn [base set_base PgwBase.ModifyPacket CorePgwIngressWorker.ingress_legacy] in *.
  pose proof Hm as [[] ? ?]. unfold CorePgwIngressWorker.ModifyPacket. autounfold with pkt.
  rewrite ld_ok by lia. res_simpl.
  destruct (Find_total (ntohl (le_load (slice (data_off m + (14 + 20 + 8) + 4) (Z.of_nat 4) (buf m)))) b Hf)
    as (r & -> & _). res_simpl.
  destruct (r.1 =? 0) eqn:Er; cbn [negb].
  - destruct (ingress_legacy_total b m Hm) as (m' & -> & Ea). res_simpl.
    exists 0, m', b, w. split_and!; auto with pgw.
  - exists 1, m, b, (w_free [m] w). split_and!; auto with pgw; [by eapply base_ok_keeps; auto with pgw|].
    apply dropped_outcome.
Defined.

#[export] Instance egress_legacy_ok {D : Dpdk} {H : DpdkOk D} :
  @PgwWorkerOk D H PgwBase CorePgwEgressWorker.egress_legacy.
Proof.
  refine (Build_PgwWorkerOk D H PgwBase _ uses_map _ _ _); [done|done|].
  intros now m b w Hb Hf Hm.
  cbn [base set_base PgwBase.ModifyPacket CorePgwEgressWorker.egress_legacy] in *.
  unfold CorePgwEgressWorker.ModifyPacket. autounfold with pkt.
  destruct (egress_legacy_key m (data_off m + (14 + 20 + 8 + 8)) Hm) as [k ->]; [lia|]. res_simpl.
  assert (Hdrop : exists rc m' x' w', Ok (1, m, (b, w_free [m] w)) = Ok (rc, m', (x', w')) /\
    base_ok x' w' /\ uses_map x' /\ w_keeps w w' /\ output_ (core x') = output_ (core b) /\
    m_addr m' = m_addr m /\ addrs (w_all w') ≡ₚ (if rc =? 0 then [] else [m_addr m]) ++ addrs (w_all w)).
  { exists 1, m, b, (w_free [m] w). split_and!; auto with pgw; [by eapply base_ok_keeps; auto with pgw|].
    apply dropped_outcome. }
  destruct k as [k|]; [|exact Hdrop].
  destruct (Find_total k b Hf) as ([rc o] & -> & Hr). res_simpl.
  destruct (decide (rc = 0)) as [->|Hn].
  - destruct (Hr eq_refl) as [itm Eo]. cbn in Eo. rewrite Eo.
    destruct (egress_legacy_total b itm m Hm) as (m' & -> & Ea). res_simpl.
    exists 0, m', b, w. split_and!; auto with pgw.
  - by destruct rc.
Defined.

(** ** Properties *)
Module Properties.
Section properties.
Context `{DpdkOk} `{B : Build}.
Implicit Types (b : PgwBase) (w : world rte_mbuf) (m : rte_mbuf) (f : list Z).

(** The session table entry of the hash map [Find] searches. *)
Lemma Find_map key b itm :
  findtype_ b <> 0 -> map_ b !! ntohl key = Some itm ->
  CorePgwBaseWorker.Find key b = Ok (0, Some itm).
Proof.
  intros Hf Hm. unfold CorePgwBaseWorker.Find. rewrite (proj2 (Z.eqb_neq _ _) Hf). cbn [negb].
  by rewrite Hm.
Qed.

Lemma Find_map_none key b :
  findtype_ b <> 0 -> map_ b !! ntohl key = None ->
  CorePgwBaseWorker.Find key b = Ok (-1, None).
Proof.
  intros Hf Hm. unfold CorePgwBaseWorker.Find. rewrite (proj2 (Z.eqb_neq _ _) Hf). cbn [negb].
  by rewrite Hm.
Qed.

Lemma ld1_at k m :
  mbuf_wf m -> 0 <= k -> k + 1 <= data_len m -> ld 1 m (data_off m + k) = Ok (byte_at k (pkt_data m)).
Proof.
  intros [] ??. rewrite ld_ok by lia. unfold byte_at, pkt_data. change (Z.of_nat 1) with 1.
  rewrite slice_1 by lia. by rewrite slice_slice by lia.
Qed.

Lemma ld4_at k m :
  mbuf_wf m -> 0 <= k -> k + 4 <= data_len m ->
  ld 4 m (data_off m + k) = Ok (le_load (slice k 4 (pkt_data m))).
Proof. intros [] ??. rewrite ld_ok by lia. unfold pkt_data. by rewrite slice_slice by lia. Qed.

Lemma ld4_range k m :
  mbuf_wf m -> 0 <= k -> k + 4 <= data_len m -> 0 <= le_load (slice k 4 (pkt_data m)) < 2 ^ 32.
Proof.
  intros Hw ??. pose proof (ld4_at k m Hw ltac:(lia) ltac:(lia)) as E.
  apply ld_range in E; [done|apply Hw].
Qed.

(** The key the ingress workers look for: version 4 and 6 have it in the same
    place, the IPv4 source or bytes 4 to 7 of the IPv6 source. *)
Definition user_key f : option Z :=
  let v := Z.land (byte_at 50 f) 0xf0 in
  if (v =? 0x40) || (v =? 0x60) then Some (le_load (slice 62 4 f)) else None.

Lemma inner_key_eq m :
  mbuf_wf m -> 66 <= data_len m ->
  CorePgwIngressDistributorWorker.inner_key m (data_off m + 50) = Ok (user_key (pkt_data m)).
Proof.
  intros Hw Hl. unfold CorePgwIngressDistributorWorker.inner_key, user_key. autounfold with pkt.
  rewrite Z.add_0_r, <-!Z.add_assoc. change (50 + 12) with 62. change (50 + (8 + 4)) with 62.
  rewrite ld1_at, !ld4_at by (done || lia). res_simpl. destruct (_ =? 64); [done|]. by destruct (_ =? 96).
Qed.

(** [ModifyPacket] of the ingress distributor in terms of the frame. *)
Lemma ingress_ModifyPacket_eq m b w :
  mbuf_wf m -> 66 <= data_len m -> findtype_ b <> 0 ->
  CorePgwIngressDistributorWorker.ModifyPacket m (b, w) =
    match user_key (pkt_data m) with
    | None => Ok (1, m, (CorePgwIngressDistributorWorker.drop_count m b, w_free [m] w))
    | Some key =>
        match map_ b !! le_load (slice 46 4 (pkt_data m)) with
        | Some itm =>
            if negb (Z.land (ue_ipv4 itm) 0xffffff00 =? Z.land key 0xffffff00) then
              CorePgwIngressDistributorWorker.to_tap m (CorePgwIngressDistributorWorker.drop_count m b, w)
            else m' ← CorePgwIngressDistributorWorker.rewrite b m; Ok (0, m', (b, w))
        | None =>
            if TEST_MODE then
              m' ← error_indicate m; Ok (0, m', (CorePgwIngressDistributorWorker.drop_count m b, w))
            else CorePgwIngressDistributorWorker.to_tap m (CorePgwIngressDistributorWorker.drop_count m b, w)
        end
    end.
Proof.
  intros Hw Hl Hf. unfold CorePgwIngressDistributorWorker.ModifyPacket. autounfold with pkt.
  change (14 + 20 + 8 + 8) with 50. change (14 + 20 + 8) with 42.
  rewrite inner_key_eq by done. res_simpl. destruct (user_key _); [|done].
  rewrite <-Z.add_assoc. change (42 + 4) with 46. rewrite ld4_at by (done || lia). res_simpl.
  set (tid := le_load (slice 46 4 (pkt_data m))).
  assert (Et : ntohl (ntohl tid) = tid) by (apply (ntohl_htonl tid); apply ld4_range; done || lia).
  destruct (map_ b !! tid) as [itm|] eqn:Em.
  - rewrite (Find_map _ _ itm) by (done || by rewrite Et). done.
  - rewrite Find_map_none by (done || by rewrite Et). done.
Qed.

(** A G-PDU of a known session becomes a GRE packet. *)
Lemma distributes_as_gre m b w (itm : lookup_t) (key : Z) :
  CANNOT_USE_GRE = false -> mbuf_wf m -> 66 <= data_len m -> findtype_ b <> 0 ->
  user_key (pkt_data m) = Some key ->
  map_ b !! le_load (slice 46 4 (pkt_data m)) = Some itm ->
  Z.land (ue_ipv4 itm) 0xffffff00 = Z.land key 0xffffff00 ->
  exists ck m', CorePgwIngressDistributorWorker.ModifyPacket m (b, w) = Ok (0, m', (b, w)) /\
    pkt_data m' = gre_frame ck (htonl (gresrcipv4_ b)) (htonl (greipv4_ b)) (pkt_data m) /\
    oc_sum (be_words (gre_ip_header ck (htonl (gresrcipv4_ b)) (htonl (greipv4_ b)) (pkt_data m))) = 0xffff /\
    mbuf_wf m' /\ data_len m' = data_len m.
Proof.
  intros Hg Hw Hl Hf Hk Hm Ha. rewrite ingress_ModifyPacket_eq, Hk, Hm, Ha, Z.eqb_refl by done.
  cbn [negb].
  destruct (ingress_rewrite_gre b m Hg Hw) as (ck & bf & E & Ed & Eck & Lb & Ob); [lia|].
  rewrite E. res_simpl. eexists ck, _. split; [reflexivity|]. destruct Hw.
  split_and!; try done. constructor; mem_cbn; try done; lia.
Qed.

(** a G-PDU of a known session is turned, in place and without changing its
    size, into a GRE packet between the configured addresses: MAC addresses
    swapped, a 32-byte IPv4 header (12 bytes of no-op options) with a valid
    checksum where the UDP header and the start of the GTP-U header were, the
    4-byte GRE header, and the inner packet untouched. *)
Theorem ingress_distributor_gre m b w (itm : lookup_t) (key : Z) :
  CANNOT_USE_GRE = false -> mbuf_wf m -> 66 <= data_len m -> findtype_ b <> 0 ->
  user_key (pkt_data m) = Some key ->
  map_ b !! le_load (slice 46 4 (pkt_data m)) = Some itm ->
  Z.land (ue_ipv4 itm) 0xffffff00 = Z.land key 0xffffff00 ->
  exists ck m', CorePgwIngressDistributorWorker.ModifyPacket m (b, w) = Ok (0, m', (b, w)) /\
    pkt_data m' = gre_frame ck (htonl (gresrcipv4_ b)) (htonl (greipv4_ b)) (pkt_data m) /\
    oc_sum (be_words (gre_ip_header ck (htonl (gresrcipv4_ b)) (htonl (greipv4_ b)) (pkt_data m))) = 0xffff /\
    mbuf_wf m' /\ data_len m' = data_len m.
Proof. apply distributes_as_gre. Qed.

(** a packet that the ingress distributor cannot attribute (unknown TEID, or
    a user address that does not match) is handed to the tap ring and, because
    the result is still 0, to the next stage as well: two owners hold the same
    buffer, and each will free it. *)
Theorem rejected_packet_has_two_owners (time : rte_mbuf -> Z) m b w (key : Z) :
  TEST_MODE = false -> mbuf_wf m -> 66 <= data_len m -> findtype_ b <> 0 ->
  user_key (pkt_data m) = Some key ->
  (forall itm, map_ b !! le_load (slice 46 4 (pkt_data m)) = Some itm ->
     Z.land (ue_ipv4 itm) 0xffffff00 <> Z.land key 0xffffff00) ->
  base_ok b w -> w_valid (ring_err_ind_ b) w -> 0 < w_room (ring_err_ind_ b) w ->
  exists b' w', PgwCycle.one_packet (W := PgwBase)
      (PgwWorker0 := CorePgwIngressDistributorWorker.ingress_distributor) time (b, w) m = Ok (b', w') /\
    addrs (output_ (core b') ++ w_all w') ≡ₚ
      m_addr m :: m_addr m :: addrs (output_ (core b) ++ w_all w).
Proof.
  intros Ht Hw Hl Hf Hk Hn Hb Hv Hr. unfold PgwCycle.one_packet.
  cbn [PgwBase.ModifyPacket CorePgwIngressDistributorWorker.ingress_distributor].
  set (b1 := CorePgwIngressDistributorWorker.drop_count m b).
  assert (E : CorePgwIngressDistributorWorker.ModifyPacket m (b, w) =
              CorePgwIngressDistributorWorker.to_tap m (b1, w)).
  { rewrite ingress_ModifyPacket_eq, Hk, Ht by done. destruct (map_ b !! _) as [itm|]; [|done].
    by rewrite (proj2 (Z.eqb_neq _ _) (Hn itm eq_refl)). }
  rewrite E. unfold CorePgwIngressDistributorWorker.to_tap. change (ring_err_ind_ b1) with (ring_err_ind_ b).
  destruct (w_enqueue_spec (ring_err_ind_ b) m w Hv) as (rc & w1 & Ee & Hfr & Hv1 & Hc). rewrite Ee. res_simpl.
  destruct Hc as [(-> & _)|(_ & _ & ?)]; [|lia]. cbn [Z.ltb Z.compare]. res_simpl.
  destruct (w_all_enqueue _ _ _ _ _ Ee) as [[_ Hp]|[? _]]; [|lia].
  unfold PgwCycle.SendOrBuffer. cbn [base CorePgwIngressDistributorWorker.ingress_distributor].
  destruct (SendOrBuffer_ok m (core b1) w1) as (c' & w' & Es & _ & _ & _ & _ & Hp').
  { apply (core_ok_keeps _ w).
    - apply (count_drop_ok _ _ (core b)), Hb.
    - unfold w_enqueue in Ee. destruct (w_ring _ w); res_simpl; simplify_eq/=. apply w_keeps_set. }
  cbn [Z.eqb]. rewrite Es. res_simpl. eexists _, _. split; [done|].
  cbn [core set_core set_base]. rewrite Hp'. cbn [fmap list_fmap]. constructor.
  change (output_ (core b1)) with (output_ (core b)). rewrite Hp, !fmap_app. cbn.
  by rewrite <-Permutation_middle.
Qed.
(** The address a packet towards a user is looked up under. *)
Definition user_dst f : option Z :=
  let v := Z.land (byte_at 50 f) 0xf0 in
  if v =? 0x40 then Some (le_load (slice 66 4 f))
  else if v =? 0x60 then Some (le_load (slice 78 4 f)) else None.

(** the egress distributor sends a packet of a known session on to the
    session's serving gateway: MAC addresses swapped, outer addresses, UDP ports
    and TEID replaced, the outer checksum valid, every other byte unchanged. *)
Theorem egress_distributor_readdresses m b w (itm : lookup_t) (key : Z) :
  mbuf_wf m -> 82 <= data_len m -> findtype_ b <> 0 ->
  user_dst (pkt_data m) = Some key -> map_ b !! ntohl (Z.land key 0xffffff00) = Some itm ->
  exists ck m', CorePgwEgressDistributorWorker.ModifyPacket m (b, w) = Ok (0, m', (b, w)) /\
    pkt_data m' = egress_frame ck itm (pkt_data m) /\
    oc_sum (be_words (readdressed ck (pgw_gtpu_ipv4 itm) (sgw_gtpu_ipv4 itm) (pkt_data m))) = 0xffff /\
    mbuf_wf m' /\ data_len m' = data_len m.
Proof.
  intros Hw Hl Hf Hk Hm. unfold CorePgwEgressDistributorWorker.ModifyPacket.
  assert (Ek : CorePgwEgressDistributorWorker.inner_key m (data_off m + 50) = Ok (user_dst (pkt_data m))).
  { unfold CorePgwEgressDistributorWorker.inner_key, user_dst. autounfold with pkt.
    rewrite Z.add_0_r, <-!Z.add_assoc. change (50 + 16) with 66. change (50 + (24 + 4)) with 78.
    rewrite ld1_at, !ld4_at by (done || lia). res_simpl. destruct (_ =? 64); [done|]. by destruct (_ =? 96). }
  autounfold with pkt. change (14 + 20 + 8 + 8) with 50. rewrite Ek, Hk. res_simpl.
  rewrite (Find_map _ _ itm) by done. res_simpl.
  destruct (egress_rewrite_ok itm m Hw) as (ck & bf & E & Ed & Eck & Lb & Ob); [lia|].
  rewrite E. res_simpl. eexists ck, _. split; [reflexivity|]. destruct Hw.
  split_and!; try done. constructor; mem_cbn; try done; lia.
Qed.
End properties.

(** A build with GRE, a G-PDU from user 10.1.2.3 and a worker that knows it. *)
#[local] Instance gre_build : Build := {|
  ARCH := 11; TEST_MODE := false; CANNOT_USE_GRE := false; COUNTER_RX := false;
  TUNNEL_RX := false; NON_SUPPORTED_ERRIND := true |}.
Definition gpdu : rte_mbuf :=
  let f := [2;0;0;0;0;1; 2;0;0;0;0;2; 8;0] ++
    [0x45;0; 0;64; 0;1; 0;0; 64;17; 0;0; 192;168;0;1; 192;168;0;2] ++
    [8;104; 8;104; 0;44; 0;0] ++ [0x30;255; 0;28; 0;0;1;2] ++
    [0x45;0; 0;28; 0;1; 0;0; 64;17; 0;0; 10;1;2;3; 10;1;2;3] ++ repeat 7 12 in
  mk_mbuf 77 (repeat 0 128 ++ f ++ repeat 0 128) 128 (zlen f) (zlen f) 1 None 0 0.
Definition user_session : lookup_t :=
  mk_lookup 0 1 1 0x03020100 0 0x04030201 0x0200a8c0 0x0100a8c0 0 0 0 0 0 0 0.
Definition knowing : PgwBase :=
  mk_base (mk_core 0 0 1 0 0 0 0 0 0 4 3 (Some 1) (Some 2) [] 0 CoreCounter.Clear) 0 0 0xac100001
    0xac100002 0 0 1 0 (Lookup.Create 64)
    (<[0x02010000 := user_session]> {[ 0x00010203 := user_session ]}) (Some 3) None zero_lookup 0 0 0 0 0.
Definition rings : @world DpdkModel.dpdk rte_mbuf :=
  @mk_world DpdkModel.dpdk rte_mbuf
    (<[2 := (8%nat, []) : DpdkModel.queue rte_mbuf]> {[ 3 := (8%nat, []) : DpdkModel.queue rte_mbuf ]}) [].
(** The same worker without any session. *)
Definition knowing_none : PgwBase := set_tables (Lookup.Create 64) ∅ knowing.

Lemma gpdu_wf : mbuf_wf gpdu.
Proof.
  constructor; try (vm_compute; congruence). apply bytes_okb_ok. vm_compute. reflexivity.
Qed.

Lemma ingress_distributor_gre_witness :
  exists ck m', CorePgwIngressDistributorWorker.ModifyPacket gpdu (knowing, rings)
      = Ok (0, m', (knowing, rings)) /\
    pkt_data m' = gre_frame ck 0x020010ac 0x010010ac (pkt_data gpdu) /\ data_len m' = 82.
Proof.
  destruct (ingress_distributor_gre (D := DpdkModel.dpdk) gpdu knowing rings user_session 0x0302010a)
    as (ck & m' & E & Ed & _ & _ & El).
  - reflexivity.
  - exact gpdu_wf.
  - vm_compute. congruence.
  - discriminate.
  - vm_compute. reflexivity.
  - vm_compute. reflexivity.
  - vm_compute. reflexivity.
  - exists ck, m'. split; [exact E|]. split; [exact Ed|exact El].
Defined.

Lemma rejected_packet_has_two_owners_witness :
  exists b' w', PgwCycle.one_packet (W := PgwBase)
      (PgwWorker0 := CorePgwIngressDistributorWorker.ingress_distributor)
      (fun _ => 0) (knowing_none, rings) gpdu = Ok (b', w') /\
    addrs (output_ (core b') ++ w_all w') ≡ₚ [77; 77].
Proof.
  destruct (rejected_packet_has_two_owners (D := DpdkModel.dpdk) (fun _ => 0) gpdu knowing_none rings
    0x0302010a) as (b' & w' & E & Hp).
  - reflexivity.
  - exact gpdu_wf.
  - vm_compute. congruence.
  - discriminate.
  - vm_compute. reflexivity.
  - intros itm Hi. vm_compute in Hi. discriminate Hi.
  - constructor.
    + constructor; [eexists; vm_compute; reflexivity|vm_compute; congruence|vm_compute; congruence|cbn; lia].
    + intros _. eexists. vm_compute. reflexivity.
  - eexists. vm_compute. reflexivity.
  - vm_compute. reflexivity.
  - exists b', w'. split; [exact E|exact Hp].
Defined.

Lemma egress_distributor_readdresses_witness :
  exists ck m', CorePgwEgressDistributorWorker.ModifyPacket gpdu (knowing, rings)
      = Ok (0, m', (knowing, rings)) /\
    pkt_data m' = egress_frame ck user_session (pkt_data gpdu) /\ data_len m' = 82.
Proof.
  destruct (egress_distributor_readdresses (D := DpdkModel.dpdk) gpdu knowing rings user_session 0x0302010a)
    as (ck & m' & E & Ed & _ & _ & El).
  - exact gpdu_wf.
  - vm_compute. congruence.
  - discriminate.
  - vm_compute. reflexivity.
  - vm_compute. reflexivity.
  - exists ck, m'. split; [exact E|]. split; [exact Ed|exact El].
Defined.
End Properties.
