(* ===== verification/CapsuleWorkers.v ===== *)
(** * The encapsulation workers

    The worker cores that classify every packet of a burst and then change its
    capsule: [CoreEncapWorker] (dataplane/src/core/core_encap_worker.cc, adds
    IPv4/UDP/GTP-U), [CoreGtpu2GreWorker] (core_gtpu2gre_worker.cc, GTP-U to GRE
    in place) and [CoreGretermWorker] (core_greterm_worker.cc, removes GRE or
    GTP-U).  Their [Cycle]s differ in the classification, the [ModifyPacket] and
    whether the burst buffer is flushed; the class [Worker] is that difference,
    [WorkerCycle.Cycle] the common loop. *)

From S2P Require Import Prelude Dpdk Packet CoreBase PgwBase Distributor.

Class Worker `{Dpdk} (W : Type) := {
  wcore : W -> CoreInterface rte_mbuf;
  set_wcore : CoreInterface rte_mbuf -> W -> W;
  classify : rte_mbuf -> res PACKET_TYPE;
  modify : rte_mbuf -> W * world rte_mbuf -> res (Z * rte_mbuf * (W * world rte_mbuf));
  flushes : bool;
}.

Module WorkerCycle.
Section cycle.
Context `{D : Dpdk} {W : Type} `{!Worker W}.
Implicit Types (x : W) (w : world rte_mbuf).

Definition SendOrBuffer (m : rte_mbuf) (s : W * world rte_mbuf) : res (W * world rte_mbuf) :=
  cw ← CoreInterface.SendOrBuffer m (wcore s.1, s.2);
  Ok (set_wcore cw.1 s.1, cw.2).

Definition BurstFlush (s : W * world rte_mbuf) : res (W * world rte_mbuf) :=
  cw ← CoreInterface.BurstFlush (wcore s.1, s.2);
  Ok (set_wcore cw.1 s.1, cw.2).

(** Pass-through packets are sent as they are, VLAN packets dropped, the rest
    changed and sent. *)
Definition one_packet (s : W * world rte_mbuf) (m : rte_mbuf) : res (W * world rte_mbuf) :=
  opr ← classify m;
  if bool_decide (opr = PASS) then SendOrBuffer m s
  else if bool_decide (opr = VLAN) then
    let '(x, w) := s in
    Ok (set_wcore (CoreInterface.count_drop (pkt_len m) 1 (wcore x)) x, w_free [m] w)
  else
    r ← modify m s;
    let '(rc, m', s') := r in
    if rc =? 0 then SendOrBuffer m' s' else Ok s'.

(** One cycle; [cnt] is the caller's cycle counter. *)
Definition Cycle (cnt : Z) (s : W * world rte_mbuf) : res (Z * (W * world rte_mbuf)) :=
  let '(x, w) := s in
  r ← w_dequeue_burst (ring_fm_ (wcore x)) (burst_fm_ (wcore x)) w;
  let '(input, w) := r in
  _ ← require (zlen input <=? DEFAULT_MBUF_ARRAY_SIZE) Undefined;
  s ← (if zlen input =? 0 then Ok (x, w) else burst_loop one_packet input (x, w));
  let fd := flush_delay_ (wcore s.1) in
  if flushes && negb (fd =? 0) && (cnt =? fd) then
    s ← BurstFlush s; Ok (0, s)
  else Ok (cnt, s).
End cycle.
End WorkerCycle.

(** [SetRingAddr] of the three workers: [FROM] and [TO] only. *)
Definition worker_SetRingAddr {A} (order : ORDER) (ring : option Z) (c : CoreInterface A)
    : res (CoreInterface A) :=
  match order with
  | FROM => Ok (CoreInterface.set_rings ring (ring_to_ c) c)
  | TO => Ok (CoreInterface.set_rings (ring_fm_ c) ring c)
  | _ => Fault RteExit
  end.

(** ** [CoreEncapWorker] *)
Module CoreEncapWorker.
Record EncapWorker := mk_encap {
  ecore : CoreInterface rte_mbuf;
  srcipv4_ : Z;
  gtpuh_ : list Z;
  udph_ : list Z;
  iph_ : list Z;
}.

Section worker.
Context `{D : Dpdk} `{B : Build}.
Implicit Types (x : EncapWorker) (w : world rte_mbuf) (inpkt : rte_mbuf).

Definition construct (c : CoreInterface rte_mbuf) (srcipv4 : Z) : EncapWorker :=
  let zeros n := replicate n 0 in
  let gtpuh := fld 1 0 (Z.lor (Z.shiftl GTPU_PROTO_GTP 4) (Z.shiftl GTPU_VERSION_1 5)) (zeros 8%nat) in
  let gtpuh := fld 1 1 GTPU_G_PDU gtpuh in
  let udph := fld 2 0 (htons PGWEGRESSPORT) (zeros 8%nat) in
  let udph := fld 2 2 (htons PGWEGRESSPORT) udph in
  let udph := fld 2 4 0 udph in
  let udph := fld 2 6 0 udph in
  let iph := fld 1 0 0x45 (zeros 20%nat) in
  let iph := fld 1 1 0 iph in
  let iph := fld 2 2 0 iph in
  let iph := fld 2 4 1 iph in
  let iph := fld 2 6 0 iph in
  let iph := fld 1 8 64 iph in
  let iph := fld 1 9 IPPROTO_UDP iph in
  let iph := fld 2 10 0 iph in
  let iph := fld 4 12 (htonl srcipv4) iph in
  let iph := fld 4 16 0 iph in
  mk_encap c srcipv4 gtpuh udph iph.

Definition GetType : TYPE := WORKER.

Definition GetN (t : KEY) x : Z :=
  if bool_decide (t = OPT) then srcipv4_ x else CoreInterface.GetN t (ecore x).

Definition set_ecore (c : CoreInterface rte_mbuf) x : EncapWorker :=
  mk_encap c (srcipv4_ x) (gtpuh_ x) (udph_ x) (iph_ x).
Definition SetRingAddr (order : ORDER) (ring : option Z) x : res EncapWorker :=
  c ← worker_SetRingAddr order ring (ecore x); Ok (set_ecore c x).

Definition drop inpkt (bytes : Z) (s : EncapWorker * world rte_mbuf)
    : res (Z * rte_mbuf * (EncapWorker * world rte_mbuf)) :=
  let '(x, w) := s in
  Ok (1, inpkt, (set_ecore (CoreInterface.count_drop bytes 1 (ecore x)) x, w_free [inpkt] w)).

(** The inner destination copied to the template; for IPv6 the embedded IPv4
    address, and the frame becomes IPv4. *)
Definition outer_dst (len : Z) inpkt (iph : list Z) : res (option (rte_mbuf * list Z)) :=
  if RTE_ETH_IS_IPV4_HDR (packet_type inpkt) then
    let ip4 := mtod_offset inpkt (sizeof_ether_hdr + len) in
    dst ← ld 4 inpkt (ip4 + o_dst_addr);
    Ok (Some (inpkt, fld 4 o_dst_addr dst iph))
  else if RTE_ETH_IS_IPV6_HDR (packet_type inpkt) then
    let eth := mtod inpkt in
    let ip6 := mtod_offset inpkt (sizeof_ether_hdr + len) in
    dst ← ld 4 inpkt (ip6 + o_ip6_dst_addr + 4);
    let iph := fld 4 o_dst_addr (Z.lor (Z.land dst 0xffffff00) 0x0000000a) iph in
    inpkt ← st 2 inpkt (eth + o_ether_type) (htons ETHER_TYPE_IPv4);
    Ok (Some (inpkt, iph))
  else Ok None.

Definition ModifyPacket inpkt (s : EncapWorker * world rte_mbuf)
    : res (Z * rte_mbuf * (EncapWorker * world rte_mbuf)) :=
  let '(x, w) := s in
  let len := sizeof_ipv4_hdr + sizeof_udp_hdr + sizeof_gtpu_hdr in
  match rte_pktmbuf_prepend inpkt len with
  | (None, inpkt) => drop inpkt 0 s
  | (Some pkt, inpkt) =>
      ehdr ← ld_bytes sizeof_ether_hdr inpkt (pkt + len);
      inpkt ← st_bytes inpkt pkt ehdr;
      r ← outer_dst len inpkt (iph_ x);
      match r with
      | None => drop inpkt (pkt_len inpkt) s
      | Some (inpkt, iph) =>
          let plen := pkt_len inpkt in
          let iph := fld 2 o_total_length (htons (plen - sizeof_ether_hdr)) iph in
          iph ← checksummed iph;
          let udph := fld 2 o_dgram_cksum 0 (udph_ x) in
          let udph := fld 2 o_dgram_len (htons (plen - sizeof_ether_hdr - sizeof_ipv4_hdr)) udph in
          let gtpuh := fld 2 o_gtpu_length
            (htons (plen - sizeof_ether_hdr - sizeof_ipv4_hdr - sizeof_udp_hdr - 8)) (gtpuh_ x) in
          let ofst := sizeof_ether_hdr in
          inpkt ← st_bytes inpkt (pkt + ofst) iph;
          let ofst := ofst + sizeof_ipv4_hdr in
          inpkt ← st_bytes inpkt (pkt + ofst) udph;
          let ofst := ofst + sizeof_udp_hdr in
          inpkt ← st_bytes inpkt (pkt + ofst) gtpuh;
          Ok (0, set_packet_type (Z.lor RTE_PTYPE_L3_IPV4 RTE_PTYPE_L4_UDP) inpkt,
              (mk_encap (ecore x) (srcipv4_ x) gtpuh udph iph, w))
      end
  end.

#[export] Instance encap_worker : Worker EncapWorker := {|
  wcore := ecore;
  set_wcore := set_ecore;
  classify := is_arp_or_innericmp;
  modify := ModifyPacket;
  flushes := true;
|}.
End worker.
End CoreEncapWorker.

(** ** [CoreGtpu2GreWorker] *)
Module CoreGtpu2GreWorker.
Record Gtpu2GreWorker := mk_g2g { gcore : CoreInterface rte_mbuf; pgwipv4_ : Z }.

Section worker.
Context `{D : Dpdk} `{B : Build}.
Implicit Types (x : Gtpu2GreWorker) (w : world rte_mbuf) (inpkt : rte_mbuf).

Definition construct (c : CoreInterface rte_mbuf) (pgwipv4 : Z) : Gtpu2GreWorker := mk_g2g c pgwipv4.
Definition GetType : TYPE := WORKER.
Definition GetN (t : KEY) x : Z :=
  if bool_decide (t = OPT) then pgwipv4_ x else CoreInterface.GetN t (gcore x).
Definition SetN (key : KEY) (v : Z) x : Gtpu2GreWorker :=
  if bool_decide (key = OPT) then mk_g2g (gcore x) v
  else mk_g2g (CoreInterface.SetN key v (gcore x)) (pgwipv4_ x).
Definition SetRingAddr (order : ORDER) (ring : option Z) x : res Gtpu2GreWorker :=
  c ← worker_SetRingAddr order ring (gcore x); Ok (mk_g2g c (pgwipv4_ x)).

Definition greo : list Z := [0x00; 0x00; 0x80; 0x00].

Definition ModifyPacket inpkt (s : Gtpu2GreWorker * world rte_mbuf)
    : res (Z * rte_mbuf * (Gtpu2GreWorker * world rte_mbuf)) :=
  let '(x, w) := s in
  let ip := mtod_offset inpkt sizeof_ether_hdr in
  let nop := mtod_offset inpkt (sizeof_ether_hdr + sizeof_ipv4_hdr) in
  let gre := mtod_offset inpkt (sizeof_ether_hdr + sizeof_ipv4_hdr + zlen nops) in
  inpkt ← st 1 inpkt (ip + o_version_ihl) 0x48;
  inpkt ← st 4 inpkt (ip + o_dst_addr) (pgwipv4_ x);
  inpkt ← st 1 inpkt (ip + o_next_proto_id) IPPROTO_GRE;
  inpkt ← st 2 inpkt (ip + o_hdr_checksum) 0;
  inpkt ← st_bytes inpkt nop nops;
  inpkt ← st_bytes inpkt gre greo;
  Ok (0, set_packet_type (Z.lor RTE_PTYPE_L3_IPV4 RTE_PTYPE_TUNNEL_GRE) inpkt, (x, w)).

#[export] Instance gtpu2gre_worker : Worker Gtpu2GreWorker := {|
  wcore := gcore;
  set_wcore c x := mk_g2g c (pgwipv4_ x);
  classify := is_arp_or_innericmp;
  modify := ModifyPacket;
  flushes := false;
|}.
End worker.
End CoreGtpu2GreWorker.

(** ** [CoreGretermWorker] *)
Module CoreGretermWorker.
Record GretermWorker := mk_greterm { tcore : CoreInterface rte_mbuf; opt_ : Z }.

Section worker.
Context `{D : Dpdk} `{B : Build}.
Implicit Types (x : GretermWorker) (w : world rte_mbuf) (inpkt : rte_mbuf).

Definition construct (c : CoreInterface rte_mbuf) (reserved : Z) : GretermWorker := mk_greterm c reserved.
Definition GetType : TYPE := WORKER.
Definition SetRingAddr (order : ORDER) (ring : option Z) x : res GretermWorker :=
  c ← worker_SetRingAddr order ring (tcore x); Ok (mk_greterm c (opt_ x)).

Definition drop inpkt (s : GretermWorker * world rte_mbuf)
    : res (Z * rte_mbuf * (GretermWorker * world rte_mbuf)) :=
  let '(x, w) := s in
  Ok (1, inpkt, (mk_greterm (CoreInterface.count_drop (pkt_len inpkt) 1 (tcore x)) (opt_ x),
                 w_free [inpkt] w)).

(** After the guards: remove 36 bytes, put the saved Ethernet header back with
    the type of the inner packet. *)
Definition decap inpkt (s : GretermWorker * world rte_mbuf)
    : res (Z * rte_mbuf * (GretermWorker * world rte_mbuf)) :=
  eh ← ld_bytes sizeof_ether_hdr inpkt (mtod inpkt);
  match rte_pktmbuf_adj inpkt 36 with
  | (None, inpkt) => drop inpkt s
  | (Some _, inpkt) =>
      let ip := mtod_offset inpkt sizeof_ether_hdr in
      vihl ← ld 1 inpkt (ip + o_version_ihl);
      let '(eh, pt) :=
        if negb (Z.land vihl 0xf0 =? 0x40) then
          (fld 2 o_ether_type (htons ETHER_TYPE_IPv6) eh,
           Z.lor (Z.land (packet_type inpkt) (Z.lnot RTE_PTYPE_L3_IPV4)) RTE_PTYPE_L3_IPV6)
        else (eh, Z.lor (packet_type inpkt) RTE_PTYPE_L3_IPV4) in
      let inpkt := set_packet_type pt inpkt in
      inpkt ← st_bytes inpkt (mtod inpkt) eh;
      Ok (0, inpkt, s)
  end.

Definition ModifyPacket inpkt (s : GretermWorker * world rte_mbuf)
    : res (Z * rte_mbuf * (GretermWorker * world rte_mbuf)) :=
  let ip := mtod_offset inpkt sizeof_ether_hdr in
  vihl ← ld 1 inpkt (ip + o_version_ihl);
  let iphlen := Z.shiftl (Z.land vihl 0x0f) 2 in
  proto ← ld 1 inpkt (ip + o_next_proto_id);
  if negb CANNOT_USE_GRE then
    if negb (proto =? IPPROTO_GRE) then drop inpkt s
    else if negb (iphlen =? 32) then drop inpkt s
    else decap inpkt s
  else
    if negb (proto =? IPPROTO_UDP) then drop inpkt s
    else if negb (iphlen =? 20) then drop inpkt s
    else decap inpkt s.

#[export] Instance greterm_worker : Worker GretermWorker := {|
  wcore := tcore;
  set_wcore c x := mk_greterm c (opt_ x);
  classify := check_decapability;
  modify := ModifyPacket;
  flushes := true;
|}.
End worker.
End CoreGretermWorker.

(** ** What the cycle relies on *)
Class WorkerOk `{DpdkOk} (W : Type) `{!Worker W} := {
  worker_inv : W -> Prop;
  wcore_set c (x : W) : wcore (set_wcore c x) = c;
  worker_inv_set c (x : W) : worker_inv x -> worker_inv (set_wcore c x);
  classify_total m : pkt_room m -> exists t, classify m = Ok t;
  modify_total m (x : W) w :
    core_ok (wcore x) w -> worker_inv x -> pkt_room m ->
    exists rc m' x' w', modify m (x, w) = Ok (rc, m', (x', w')) /\
      core_ok (wcore x') w' /\ worker_inv x' /\ w_keeps w w' /\
      output_ (wcore x') = output_ (wcore x) /\ m_addr m' = m_addr m /\
      addrs (w_all w') ≡ₚ (if rc =? 0 then [] else [m_addr m]) ++ addrs (w_all w);
}.

Section cycle_lemmas.
Context `{DpdkOk} {W : Type} `{!Worker W} `{!WorkerOk W}.
Implicit Types (x : W) (w : world rte_mbuf).

(** What a worker and the store hold, by address. *)
Definition owned x w : list Z := addrs (output_ (wcore x) ++ w_all w).

Definition worker_ok x w : Prop := core_ok (wcore x) w /\ worker_inv x.

Lemma send_ok m x w :
  worker_ok x w ->
  exists x' w', WorkerCycle.SendOrBuffer m (x, w) = Ok (x', w') /\ worker_ok x' w' /\
    w_keeps w w' /\ owned x' w' ≡ₚ m_addr m :: owned x w.
Proof.
  intros [Hc Hi]. unfold WorkerCycle.SendOrBuffer. cbn [fst snd].
  destruct (SendOrBuffer_ok m (wcore x) w Hc) as (c' & w' & E & Hc' & _ & Hk & _ & Hp).
  rewrite E. res_simpl. eexists _, _. split; [done|]. unfold worker_ok, owned. rewrite wcore_set, Hp.
  split_and!; auto using worker_inv_set.
Qed.

Lemma worker_packet_ok m x w :
  worker_ok x w -> pkt_room m ->
  exists x' w', WorkerCycle.one_packet (x, w) m = Ok (x', w') /\ worker_ok x' w' /\
    w_keeps w w' /\ owned x' w' ≡ₚ m_addr m :: owned x w.
Proof.
  intros Ho Hm. unfold WorkerCycle.one_packet.
  destruct (classify_total m Hm) as [t ->]. res_simpl.
  case_bool_decide; [by apply send_ok|]. destruct Ho as [Hc Hi]. case_bool_decide.
  - eexists _, _. split; [done|]. unfold worker_ok, owned. rewrite wcore_set.
    split_and!; auto using worker_inv_set with pgw.
    + apply (core_ok_keeps _ w); [by apply count_drop_ok|apply w_keeps_free].
    + change (output_ (CoreInterface.count_drop _ _ ?c)) with (output_ c).
      rewrite !fmap_app, w_all_free, fmap_app. cbn. by rewrite <-Permutation_middle.
  - destruct (modify_total m x w Hc Hi Hm) as (rc & m' & x1 & w1 & E & Hc1 & Hi1 & Hk & Eo & Ea & Hp).
    rewrite E. res_simpl. destruct (rc =? 0).
    + destruct (send_ok m' x1 w1) as (x2 & w2 & E2 & Ho2 & Hk2 & Hp2); [done|].
      exists x2, w2. split_and!; try done; [by eapply w_keeps_trans|].
      rewrite Hp2, Ea. constructor. unfold owned. rewrite Eo, !fmap_app, Hp. done.
    + eexists _, _. split; [done|]. split_and!; try done.
      unfold owned. rewrite Eo, !fmap_app, Hp. cbn. by rewrite <-Permutation_middle.
Qed.

Lemma worker_burst_ok input x w :
  worker_ok x w -> Forall pkt_room input ->
  exists x' w', foldM WorkerCycle.one_packet input (x, w) = Ok (x', w') /\ worker_ok x' w' /\
    w_keeps w w' /\ owned x' w' ≡ₚ addrs input ++ owned x w.
Proof.
  intros Ho Hi. revert x w Ho. induction Hi as [|m input Hm _ IH]; intros x w Ho; cbn [foldM].
  - eexists _, _. split_and!; auto with pgw.
  - destruct (worker_packet_ok m x w Ho Hm) as (x1 & w1 & E & Ho1 & Hk1 & Hp1).
    rewrite E. res_simpl. destruct (IH x1 w1 Ho1) as (x2 & w2 & E2 & Ho2 & Hk2 & Hp2).
    exists x2, w2. split_and!; try done; [by eapply w_keeps_trans|].
    rewrite Hp2, Hp1. cbn. by rewrite <-Permutation_middle.
Qed.

Lemma worker_flush_ok x w :
  worker_ok x w ->
  exists x' w', WorkerCycle.BurstFlush (x, w) = Ok (x', w') /\ worker_ok x' w' /\
    output_ (wcore x') = [] /\ owned x' w' ≡ₚ owned x w.
Proof.
  intros [Hc Hi]. unfold WorkerCycle.BurstFlush. cbn [fst snd].
  destruct (BurstFlush_ok (wcore x) w Hc) as (c' & w' & E & Hc' & _ & _ & _ & Eo & Hp).
  rewrite E. res_simpl. eexists _, _. split; [done|]. unfold worker_ok, owned. rewrite wcore_set.
  split_and!; auto using worker_inv_set. by rewrite Eo, Hp.
Qed.

Lemma cycle_ok cnt x w :
  worker_ok x w -> w_valid (ring_fm_ (wcore x)) w ->
  0 <= burst_fm_ (wcore x) <= DEFAULT_MBUF_ARRAY_SIZE ->
  Forall pkt_room (w_objs (ring_fm_ (wcore x)) w) ->
  exists cnt' x' w', WorkerCycle.Cycle cnt (x, w) = Ok (cnt', (x', w')) /\ worker_ok x' w' /\
    owned x' w' ≡ₚ owned x w.
Proof.
  intros Ho Hv Hbf Hpk. unfold WorkerCycle.Cycle.
  destruct (w_dequeue_spec _ (burst_fm_ (wcore x)) w (proj1 Hbf) Hv) as (w1 & E & _).
  rewrite E. res_simpl. destruct (w_all_dequeue _ _ _ _ _ (proj1 Hbf) E) as [Hall Hlen].
  assert (Hk : w_keeps w w1).
  { unfold w_dequeue_burst in E. destruct (w_ring _ w); res_simpl; simplify_eq/=. apply w_keeps_set. }
  set (input := take _ _) in *. unfold require.
  rewrite (proj2 (Z.leb_le (zlen input) DEFAULT_MBUF_ARRAY_SIZE)) by lia. res_simpl.
  assert (Hs : exists x2 w2, (if zlen input =? 0 then Ok (x, w1)
      else burst_loop WorkerCycle.one_packet input (x, w1)) = Ok (x2, w2) /\
      worker_ok x2 w2 /\ owned x2 w2 ≡ₚ owned x w).
  { destruct (worker_burst_ok input x w1) as (x2 & w2 & E2 & Ho2 & _ & Hp2).
    - destruct Ho. split; [by eapply core_ok_keeps|done].
    - by apply Forall_take.
    - exists x2, w2. split_and!; [|done|].
      + rewrite burst_loop_eq. destruct (zlen input =? 0) eqn:Ez; [|done]. to_prop.
        destruct input; [done|cbn in Ez; lia].
      + rewrite Hp2. unfold owned. rewrite !fmap_app, Hall, fmap_app, !app_assoc.
        by rewrite (Permutation_app_comm (addrs input)). }
  destruct Hs as (x2 & w2 & -> & Ho2 & Hp2). res_simpl. case_if; [|by exists cnt, x2, w2].
  destruct (worker_flush_ok x2 w2 Ho2) as (x3 & w3 & -> & Ho3 & _ & Hp3). res_simpl.
  exists 0, x3, w3. split_and!; try done. by rewrite Hp3.
Qed.
End cycle_lemmas.

(** ** Classification of a packet inside its buffer always returns *)
Section classification.
Context `{D : Dpdk} `{B : Build}.
Implicit Types (m : rte_mbuf).

(** A load inside the first 128 bytes. *)
Ltac some_load :=
  match goal with
  | |- context [ld ?n ?m ?p] =>
      rewrite (ld_ok n m p) by (rewrite ?shiftl_ihl; lia); res_simpl
  end.

Lemma inner_ipv4_total m :
  pkt_room m -> exists t, inner_ipv4_type m (data_off m + 14) = Ok t.
Proof.
  intros [[] ? ?]. unfold inner_ipv4_type. autounfold with pkt.
  assert (Hi : forall v, 0 <= v mod 16 < 16) by (intros; apply Z.mod_pos_bound; lia).
  rewrite (ld_ok 1 m (data_off m + 14 + 9)), (ld_ok 1 m (data_off m + 14 + 0)) by lia. res_simpl.
  set (vihl := le_load (slice (data_off m + 14 + 0) _ _)). pose proof (Hi vihl).
  rewrite shiftl_ihl. repeat (some_load || (case_if; res_simpl)); eauto.
Qed.

Lemma is_arp_or_innericmp_total m : pkt_room m -> exists t, is_arp_or_innericmp m = Ok t.
Proof.
  intros Hm. pose proof Hm as [[] ? ?]. unfold is_arp_or_innericmp. autounfold with pkt.
  destruct (inner_ipv4_total m Hm) as [t Et].
  repeat (some_load || (case_if; res_simpl)); eauto.
Qed.

Lemma check_decapability_total m :
  CANNOT_USE_GRE = true -> pkt_room m -> exists t, check_decapability m = Ok t.
Proof.
  intros Hg Hm. pose proof Hm as [[] ? ?]. unfold check_decapability. autounfold with pkt. rewrite Hg.
  assert (Hi : forall v, 0 <= v mod 16 < 16) by (intros; apply Z.mod_pos_bound; lia).
  rewrite (ld_ok 1 m (data_off m + 14 + 0)) by lia.
  set (vihl := le_load (slice (data_off m + 14 + 0) _ _)). pose proof (Hi vihl).
  repeat (some_load || (case_if; res_simpl) || (res_simpl; rewrite shiftl_ihl)); eauto.
Qed.
End classification.

(** ** [CoreEncapWorker]: templates and frame *)
Section encap.
Context `{DpdkOk} `{B : Build}.
Import CoreEncapWorker.
Implicit Types (x : EncapWorker) (m : rte_mbuf) (f : list Z).

(** The parts of the templates no packet changes. *)
Record encap_templates x : Prop := {
  et_ip : exists l k d, iph_ x = [0x45; 0] ++ l ++ [1; 0; 0; 0; 64; 17] ++ k ++
            le_store 4 (htonl (srcipv4_ x)) ++ d /\
            length l = 2%nat /\ length k = 2%nat /\ length d = 4%nat /\ bytes_ok (l ++ k ++ d);
  et_udp : exists l, udph_ x = [199; 55; 199; 55] ++ l /\ length l = 4%nat /\ bytes_ok l;
  et_gtp : exists l, gtpuh_ x = [0x30; 255] ++ l ++ [0; 0; 0; 0] /\ length l = 2%nat /\ bytes_ok l;
}.

Lemma encap_construct_templates c src : encap_templates (construct c src).
Proof.
  assert (Hl : forall l, bytes_okb l = true -> bytes_ok l) by apply bytes_okb_ok.
  constructor.
  - exists [0; 0], [0; 0], [0; 0; 0; 0]. split; [reflexivity|]. split_and!; try done. apply Hl. by vm_compute.
  - exists [0; 0; 0; 0]. split; [reflexivity|]. split; [done|]. apply Hl. by vm_compute.
  - exists [0; 0]. split; [reflexivity|]. split; [done|]. apply Hl. by vm_compute.
Qed.

(** The headers of a packet of [len] bytes towards [dst]. *)
Definition encap_ip (len ck src : Z) (dst : list Z) : list Z :=
  [0x45; 0] ++ net16 (len - 14) ++ [1; 0; 0; 0; 64; 17] ++ le_store 2 ck ++ le_store 4 (htonl src) ++ dst.
Definition encap_udp (len : Z) : list Z := [199; 55; 199; 55] ++ net16 (len - 34) ++ [0; 0].
Definition encap_gtpu (len : Z) : list Z := [0x30; 255] ++ net16 (len - 50) ++ [0; 0; 0; 0].

(** The patched templates for a destination address [dst]. *)
Lemma encap_patch len dst x :
  encap_templates x ->
  exists ck, let ih := encap_ip len ck (srcipv4_ x) (le_store 4 dst) in
    checksummed (fld 2 2 (htons (len - 14)) (fld 4 16 dst (iph_ x))) = Ok ih /\
    oc_sum (be_words ih) = 0xffff /\
    fld 2 4 (htons (len - 34)) (fld 2 6 0 (udph_ x)) = encap_udp len /\
    fld 2 2 (htons (len - 50)) (gtpuh_ x) = encap_gtpu len /\
    encap_templates (mk_encap (ecore x) (srcipv4_ x) (encap_gtpu len) (encap_udp len) ih) /\
    bytes_ok ih /\ bytes_ok (encap_udp len) /\ bytes_ok (encap_gtpu len).
Proof.
  intros [(l & k & d & Ei & Ll & Lk & Ld & Bi) (lu & Eu & Llu & Blu) (lg & Eg & Llg & Blg)].
  apply Forall_app in Bi as [Bl Bkd]. apply Forall_app in Bkd as [Bk Bd].
  destruct l as [|l0 [|l1 [|? ?]]]; try done. destruct k as [|k0 [|k1 [|? ?]]]; try done.
  do 4 (destruct d as [|? d]; [done|]). destruct d; [|done].
  do 4 (destruct lu as [|? lu]; [done|]). destruct lu; [|done].
  destruct lg as [|g0 [|g1 [|? ?]]]; try done.
  assert (Hl : forall l, bytes_okb l = true -> bytes_ok l) by apply bytes_okb_ok.
  rewrite Ei, Eu, Eg. set (h1 := fld 2 2 _ _).
  assert (B1 : bytes_ok h1).
  { apply Forall_splice; [apply le_store_ok|]. apply Forall_splice; [apply le_store_ok|].
    rewrite !Forall_app. split_and!; auto using le_store_ok; by apply Hl; vm_compute. }
  destruct (checksummed_ok h1) as (ck & E1 & Hck); [done|done|].
  exists ck. rewrite E1.
  assert (Eih : fld 2 10 ck (fld 2 10 0 h1) = encap_ip len ck (srcipv4_ x) (le_store 4 dst)) by done.
  rewrite Eih in Hck |- *. cbv zeta.
  assert (Bi : bytes_ok (encap_ip len ck (srcipv4_ x) (le_store 4 dst))).
  { rewrite <-Eih. do 2 (apply Forall_splice; [apply le_store_ok|]). exact B1. }
  assert (Bu : bytes_ok (encap_udp len)).
  { unfold encap_udp. rewrite !Forall_app. split_and!; auto using le_store_ok; by apply Hl; vm_compute. }
  assert (Bg : bytes_ok (encap_gtpu len)).
  { unfold encap_gtpu. rewrite !Forall_app. split_and!; auto using le_store_ok; by apply Hl; vm_compute. }
  split_and!; try done. constructor; cbn [iph_ udph_ gtpuh_ srcipv4_].
  - exists (net16 (len - 14)), (le_store 2 ck), (le_store 4 dst). split_and!; try done.
    rewrite !Forall_app. auto using le_store_ok.
  - exists (net16 (len - 34) ++ [0; 0]). split_and!; try done.
    rewrite Forall_app. split; [apply le_store_ok|]. apply Hl. by vm_compute.
  - exists (net16 (len - 50)). split_and!; try done. apply le_store_ok.
Qed.

(** The Ethernet header and outer destination of the encapsulated frame, by the
    kind of packet the driver reported. *)
Definition encap_parts (pt : Z) f : option (list Z * list Z) :=
  if RTE_ETH_IS_IPV4_HDR pt then Some (slice 0 14 f, slice 30 4 f)
  else if RTE_ETH_IS_IPV6_HDR pt then Some (slice 0 12 f ++ [8; 0], 10 :: slice 43 3 f)
  else None.

Definition encap_frame (ck src : Z) (eth dst f : list Z) : list Z :=
  eth ++ encap_ip (zlen f + 36) ck src dst ++ encap_udp (zlen f + 36) ++ encap_gtpu (zlen f + 36) ++
  slice 14 (zlen f - 14) f.

Lemma outer_dst_ok m iph :
  bytes_ok (buf m) -> 0 <= data_off m -> data_off m + 82 <= zlen (buf m) ->
  RTE_ETH_IS_IPV4_HDR (packet_type m) || RTE_ETH_IS_IPV6_HDR (packet_type m) = true ->
  exists dst b1, outer_dst 36 m iph = Ok (Some (set_buf b1 m, fld 4 16 dst iph)) /\
    zlen b1 = zlen (buf m) /\ bytes_ok b1 /\
    (forall p n, 0 <= p -> 0 <= n -> p + n <= data_off m + 12 \/ data_off m + 14 <= p ->
       slice p n b1 = slice p n (buf m)) /\
    (slice (data_off m + 12) 2 b1, le_store 4 dst) =
      if RTE_ETH_IS_IPV4_HDR (packet_type m)
      then (slice (data_off m + 12) 2 (buf m), slice (data_off m + 66) 4 (buf m))
      else ([8; 0], 10 :: slice (data_off m + 79) 3 (buf m)).
Proof.
  intros Hb Ho Hl Ht. unfold outer_dst. autounfold with pkt.
  destruct (RTE_ETH_IS_IPV4_HDR _).
  - rewrite ld_ok by lia. res_simpl. eexists _, (buf m). split; [by destruct m|]. split_and!; try done.
    f_equal. rewrite le_store_slice by (done || lia). change (Z.of_nat 4) with 4. f_equal. lia.
  - cbn [orb] in Ht. rewrite Ht. rewrite ld_ok by lia. res_simpl. rewrite st_ok by lia. res_simpl.
    eexists _, _. split; [reflexivity|].
    split_and!.
    + rewrite length_splice; lens; lia.
    + apply Forall_splice; [apply le_store_ok|done].
    + intros p n Hp Hn Hd. rewrite slice_splice_disj; lens; try lia. done.
    + change (Z.of_nat 4) with 4. rewrite first_octet_10 by (done || lia).
      rewrite slice_splice_eq by (lens; lia).
      change (le_store 2 (htons ETHER_TYPE_IPv4)) with [8; 0]. do 3 f_equal. lia.
Qed.

(** What [ModifyPacket] makes of an IPv4 or IPv6 packet with headroom. *)
Lemma encap_ModifyPacket m x w :
  mbuf_wf m -> 36 <= data_off m -> data_off m + 46 <= zlen (buf m) -> encap_templates x ->
  RTE_ETH_IS_IPV4_HDR (packet_type m) || RTE_ETH_IS_IPV6_HDR (packet_type m) = true ->
  exists ck x' b', ModifyPacket m (x, w) =
      Ok (0, set_packet_type (Z.lor RTE_PTYPE_L3_IPV4 RTE_PTYPE_L4_UDP) (set_buf b'
            (set_bounds (data_off m - 36) (data_len m + 36) (data_len m + 36) m)), (x', w)) /\
    encap_templates x' /\ ecore x' = ecore x /\ srcipv4_ x' = srcipv4_ x /\
    zlen b' = zlen (buf m) /\ bytes_ok b' /\
    (46 <= data_len m -> exists eth dst, encap_parts (packet_type m) (pkt_data m) = Some (eth, dst) /\
       slice (data_off m - 36) (data_len m + 36) b' = encap_frame ck (srcipv4_ x) eth dst (pkt_data m) /\
       oc_sum (be_words (encap_ip (data_len m + 36) ck (srcipv4_ x) dst)) = 0xffff).
Proof.
  intros Hw Ho Hl Ht Hv. pose proof (zlen_pkt_data m Hw) as Lf. pose proof Hw as [].
  unfold ModifyPacket. autounfold with pkt. change (20 + 8 + 8) with 36.
  rewrite prepend_ok by lia. mem_cbn. rewrite wf_plen.
  set (m1 := set_bounds (data_off m - 36) (data_len m + 36) (data_len m + 36) m).
  rewrite ld_bytes_ok by (unfold m1; mem_cbn; lia). res_simpl.
  replace (data_off m - 36 + 36) with (data_off m) by lia. change (buf m1) with (buf m).
  rewrite st_bytes_ok by (unfold m1; mem_cbn; lens; lia). res_simpl. change (buf m1) with (buf m).
  set (b0 := splice (data_off m - 36) _ _).
  assert (L0 : zlen b0 = zlen (buf m)) by (unfold b0; rewrite length_splice; lens; lia).
  assert (O0 : bytes_ok b0) by (by apply Forall_splice; [apply Forall_slice|]).
  assert (Eb0 : b0 = splice (data_off m - 36) (slice (data_off m) 14 (buf m)) (buf m)) by done. clearbody b0.
  destruct (outer_dst_ok (set_buf b0 m1) (iph_ x)) as (dst & b1 & E & L1 & O1 & S1 & Sd);
    [unfold m1; mem_cbn; done || lia..|done|].
  rewrite E. res_simpl. rewrite set_buf_set_buf in *. revert L1 S1 Sd. unfold m1. mem_cbn. intros L1 S1 Sd.
  replace (data_len m + 36 - 14 - 20 - 8 - 8) with (data_len m + 36 - 50) by lia.
  replace (data_len m + 36 - 14 - 20) with (data_len m + 36 - 34) by lia.
  destruct (encap_patch (data_len m + 36) dst x Ht) as (ck & Ei & Hck & Eu & Eg & Ht' & Bi & Bu & Bg).
  rewrite Ei, Eu, Eg. res_simpl. exists ck.
  set (src := srcipv4_ x) in *. set (len := data_len m + 36) in *.
  assert (Li : zlen (encap_ip len ck src (le_store 4 dst)) = 20) by done.
  assert (Lu : zlen (encap_udp len) = 8) by done. assert (Lg : zlen (encap_gtpu len) = 8) by done.
  unfold encap_frame. rewrite Lf. fold len.
  remember (encap_ip len ck src (le_store 4 dst)) as ih eqn:Eih.
  remember (encap_udp len) as uh eqn:Euh. remember (encap_gtpu len) as gh eqn:Egh.
  clear E Ei Eu Eg Euh Egh m1. step_st. step_st. step_st.
  eexists _, _. split; [reflexivity|]. split_and!; try done; [lia|]. intros Hd.
  destruct m as [a bf off dl pl ns nx pt ud]. cbn [buf data_off data_len packet_type] in *.
  assert (Hb : forall p n, 0 <= p -> 0 <= n -> off + 14 <= p -> p + n <= off + dl ->
    slice p n b0 = slice (p - off) n (slice off dl bf)).
  { intros p n ????. rewrite slice_slice by lia. subst b0. rewrite slice_splice_disj by (lens; lia).
    f_equal. lia. }
  assert (He : forall k n, 0 <= k -> 0 <= n -> k + n <= 14 ->
    slice (off - 36 + k) n b0 = slice k n (slice off dl bf)).
  { intros k n ???. rewrite slice_slice by lia. subst b0. rewrite slice_splice_inside by (lens; lia).
    rewrite slice_slice by lia. f_equal. lia. }
  exists (slice (off - 36) 14 b1), (le_store 4 dst). unfold pkt_data. cbn [buf data_off data_len].
  split_and!; [| |by rewrite <-Eih].
  - unfold encap_parts. replace (slice (off - 36) 14 b1) with (slice (off - 36) (12 + 2) b1) by done.
    rewrite slice_app_split by lia. rewrite S1 by lia.
    replace (slice (off - 36) 12 b0) with (slice (off - 36 + 0) 12 b0) by (f_equal; lia).
    rewrite He by lia. destruct (RTE_ETH_IS_IPV4_HDR pt).
    + apply pair_eq in Sd as [-> ->]. rewrite He by lia. rewrite Hb by lia. do 2 f_equal.
      * rewrite <-slice_app_split by lia. done.
      * f_equal. lia.
    + cbn [orb] in Hv. rewrite Hv. apply pair_eq in Sd as [-> ->]. do 3 f_equal. rewrite Hb by lia. f_equal. lia.
  - clear Hck. replace len with (foldr Z.add 0 [14; 20; 8; 8; dl - 14]) at 1 by (cbn [foldr]; lia).
    rewrite slice_cuts; [|lia|repeat (constructor; [lia|]); constructor].
    cbn [cuts]. rewrite app_nil_r. rewrite <-Eih.
    f_equal; [by chase|]. f_equal; [by chase|]. f_equal; [by chase|]. f_equal; [by chase|].
    chase. rewrite S1 by lia. rewrite Hb by lia. f_equal. lia.
Qed.
End encap.

(** ** [CoreGretermWorker] *)
Section greterm.
Context `{DpdkOk} `{B : Build}.
Import CoreGretermWorker.
Implicit Types (x : GretermWorker) (m : rte_mbuf) (f : list Z) (s : GretermWorker * world rte_mbuf).

(** The frame without its tunnel headers. *)
Definition inner_frame f : list Z :=
  slice 0 12 f ++ (if Z.land (byte_at 50 f) 0xf0 =? 0x40 then slice 12 2 f else [0x86; 0xdd]) ++
  slice 50 (zlen f - 50) f.

Lemma decap_ok m s :
  mbuf_wf m -> 36 <= data_len m -> data_off m + 51 <= zlen (buf m) ->
  exists pt b', decap m s = Ok (0, set_packet_type pt (set_buf b'
      (set_bounds (data_off m + 36) (data_len m - 36) (data_len m - 36) m)), s) /\
    zlen b' = zlen (buf m) /\ bytes_ok b' /\
    (51 <= data_len m -> slice (data_off m + 36) (data_len m - 36) b' = inner_frame (pkt_data m)).
Proof.
  intros Hw Hl Hb. pose proof (zlen_pkt_data m Hw) as Lf. pose proof Hw as []. unfold decap.
  autounfold with pkt. rewrite ld_bytes_ok by lia. res_simpl.
  rewrite adj_ok by lia. mem_cbn. rewrite wf_plen. rewrite ld_ok by (mem_cbn; lia). res_simpl. mem_cbn.
  set (eh := slice (data_off m) 14 (buf m)).
  assert (Le : length eh = 14%nat) by (apply length_slice; lia).
  assert (Oe : bytes_ok eh) by (by apply Forall_slice).
  set (vihl := le_load _).
  set (r := if negb (Z.land vihl 0xf0 =? 0x40) then _ else _).
  assert (Hr : length r.1 = 14%nat /\ bytes_ok r.1 /\
    r.1 = slice 0 12 eh ++ (if Z.land vihl 0xf0 =? 0x40 then slice 12 2 eh else [0x86; 0xdd])).
  { unfold r. destruct (Z.land vihl 0xf0 =? 0x40); cbn [negb fst].
    - split_and!; try done. rewrite <-slice_app_split by lia. unfold slice.
      by rewrite drop_0, take_ge by (rewrite Le; done).
    - unfold fld. split_and!.
      + rewrite length_splice; rewrite ?Le, ?length_le_store; done.
      + apply Forall_splice; [apply le_store_ok|done].
      + unfold splice. rewrite (drop_ge eh) by (rewrite Le, length_le_store; done). by rewrite app_nil_r. }
  destruct r as [eh' pt]. cbn [fst] in Hr. destruct Hr as (Le' & Oe' & Er).
  rewrite st_bytes_ok by (mem_cbn; lia). res_simpl. mem_cbn.
  exists pt, (splice (data_off m + 36) eh' (buf m)). split; [reflexivity|].
  split_and!; [rewrite length_splice; lia|by apply Forall_splice|]. intros Hd.
  replace (data_len m - 36) with (14 + (data_len m - 50)) by lia. rewrite slice_app_split by lia.
  rewrite slice_splice_eq by lia. rewrite slice_splice_disj by lia.
  rewrite Er. unfold inner_frame. rewrite <-app_assoc, Lf. unfold byte_at, pkt_data.
  rewrite !slice_slice by lia. unfold vihl. change (Z.of_nat 1) with 1. rewrite slice_1 by lia.
  unfold eh. rewrite !slice_slice by lia. rewrite !Z.add_0_r.
  replace (data_off m + 36 + 14) with (data_off m + 50) by lia. done.
Qed.

(** The guards: GRE with a 32-byte header, or UDP with a 20-byte header. *)
Definition terminable f : bool :=
  if CANNOT_USE_GRE then (byte_at 23 f =? IPPROTO_UDP) && (byte_at 14 f mod 16 =? 5)
  else (byte_at 23 f =? IPPROTO_GRE) && (byte_at 14 f mod 16 =? 8).

Lemma greterm_ModifyPacket m s :
  bytes_ok (buf m) -> 0 <= data_off m -> data_off m + 24 <= zlen (buf m) ->
  ModifyPacket m s = if terminable (head_bytes 24 m) then decap m s else drop m s.
Proof.
  intros Hb Ho Hl. unfold ModifyPacket, terminable. autounfold with pkt. add_consts.
  rewrite (ld1_head 24 m (14 + 0)), (ld1_head 24 m 23) by lia. res_simpl. rewrite shiftl_ihl. change (14 + 0) with 14.
  destruct CANNOT_USE_GRE; cbn [negb].
  - destruct (_ =? IPPROTO_UDP); cbn [negb andb]; [|done].
    destruct (byte_at 14 _ mod 16 =? 5) eqn:E; to_prop.
    + by rewrite E.
    + by rewrite (proj2 (Z.eqb_neq _ _)) by lia.
  - destruct (_ =? IPPROTO_GRE); cbn [negb andb]; [|done].
    destruct (byte_at 14 _ mod 16 =? 8) eqn:E; to_prop.
    + by rewrite E.
    + by rewrite (proj2 (Z.eqb_neq _ _)) by lia.
Qed.
End greterm.

(** ** The workers keep the contract *)
Section contracts.
Context `{DpdkOk} `{B : Build}.
Implicit Types (w : world rte_mbuf) (m : rte_mbuf).

(** A packet a worker drops: counted and freed. *)
Lemma drop_outcome bytes (c : CoreInterface rte_mbuf) m m' w :
  core_ok c w -> m_addr m' = m_addr m ->
  core_ok (CoreInterface.count_drop bytes 1 c) (w_free [m'] w) /\ w_keeps w (w_free [m'] w) /\
  output_ (CoreInterface.count_drop bytes 1 c) = output_ c /\
  addrs (w_all (w_free [m'] w)) ≡ₚ [m_addr m] ++ addrs (w_all w).
Proof.
  intros Hc Ha. split_and!; auto with pgw.
  - apply (core_ok_keeps _ w); [by apply count_drop_ok|apply w_keeps_free].
  - rewrite w_all_free, fmap_app. cbn. by rewrite Ha.
Qed.

#[export] Instance encap_worker_ok : @WorkerOk D H _ CoreEncapWorker.encap_worker.
Proof.
  refine (Build_WorkerOk D H _ _ encap_templates _ _ _ _).
  - done.
  - intros c x []. by constructor.
  - apply is_arp_or_innericmp_total.
  - intros m x w Hc Hi [Hw Hh Ht]. pose proof Hw as [].
    cbn [modify wcore CoreEncapWorker.encap_worker] in *.
    destruct (RTE_ETH_IS_IPV4_HDR (packet_type m) || RTE_ETH_IS_IPV6_HDR (packet_type m)) eqn:Ev.
    + destruct (encap_ModifyPacket m x w) as (ck & x' & b' & E & Ht' & Ex & _); [done || lia..|].
      rewrite E. eexists 0, _, x', w. split; [reflexivity|]. rewrite Ex. split_and!; auto with pgw.
    + apply orb_false_elim in Ev as [E4 E6]. unfold CoreEncapWorker.ModifyPacket. autounfold with pkt.
      rewrite prepend_ok by lia. mem_cbn. rewrite ld_bytes_ok by (mem_cbn; lia). res_simpl.
      rewrite st_bytes_ok by (mem_cbn; lens; lia). res_simpl.
      unfold CoreEncapWorker.outer_dst. mem_cbn. rewrite E4, E6. res_simpl.
      unfold CoreEncapWorker.drop. eexists 1, _, _, _. split; [reflexivity|]. cbn [Z.eqb].
      match goal with |- context [w_free [?m'] _] =>
        destruct (drop_outcome (pkt_len m') (CoreEncapWorker.ecore x) m m' w Hc eq_refl) as (? & ? & ? & ?) end.
      split_and!; try done. destruct Hi. by constructor.
Defined.

#[export] Instance gtpu2gre_worker_ok : @WorkerOk D H _ CoreGtpu2GreWorker.gtpu2gre_worker.
Proof.
  refine (Build_WorkerOk D H _ _ (fun _ => True) _ _ _ _); [done|done|apply is_arp_or_innericmp_total|].
  intros m x w Hc Hi [Hw Hh Ht]. pose proof Hw as [].
  cbn [modify wcore CoreGtpu2GreWorker.gtpu2gre_worker] in *.
  unfold CoreGtpu2GreWorker.ModifyPacket. autounfold with pkt.
  assert (On : bytes_ok nops) by (apply bytes_okb_ok; by vm_compute).
  assert (Og : bytes_ok CoreGtpu2GreWorker.greo) by (apply bytes_okb_ok; by vm_compute).
  assert (Ln : zlen nops = 12) by done. assert (Lg : zlen CoreGtpu2GreWorker.greo = 4) by done.
  rewrite Ln. do 6 step_st. eexists 0, _, x, w. split; [reflexivity|]. split_and!; auto with pgw.
Defined.

(** With GRE the classification of a UDP packet has no defined result, so the
    contract holds only in builds without it. *)
Definition greterm_worker_ok (Hg : CANNOT_USE_GRE = true) : @WorkerOk D H _ CoreGretermWorker.greterm_worker.
Proof.
  refine (Build_WorkerOk D H _ _ (fun _ => True) _ _ _ _); [done|done| |].
  - intros m. by apply check_decapability_total.
  - intros m x w Hc Hi [Hw Hh Ht]. pose proof Hw as [].
    cbn [modify wcore CoreGretermWorker.greterm_worker] in *.
    rewrite greterm_ModifyPacket by (done || lia).
    assert (Hd : forall m', m_addr m' = m_addr m -> exists rc m'' x' w',
      CoreGretermWorker.drop m' (x, w) = Ok (rc, m'', (x', w')) /\ core_ok (CoreGretermWorker.tcore x') w' /\
      True /\ w_keeps w w' /\ output_ (CoreGretermWorker.tcore x') = output_ (CoreGretermWorker.tcore x) /\
      m_addr m'' = m_addr m /\
      addrs (w_all w') ≡ₚ (if rc =? 0 then [] else [m_addr m]) ++ addrs (w_all w)).
    { intros m' Ha. unfold CoreGretermWorker.drop. eexists 1, m', _, _. split; [reflexivity|]. cbn [Z.eqb].
      destruct (drop_outcome (pkt_len m') (CoreGretermWorker.tcore x) m m' w Hc Ha) as (? & ? & ? & ?).
      by split_and!. }
    destruct (terminable _); [|by apply Hd].
    destruct (decide (36 <= data_len m)) as [Hl|Hl].
    + destruct (decap_ok m (x, w) Hw Hl) as (pt & b' & E & _); [lia|]. rewrite E.
      eexists 0, _, x, w. split; [reflexivity|]. split_and!; auto with pgw.
    + unfold CoreGretermWorker.decap. autounfold with pkt. rewrite ld_bytes_ok by lia. res_simpl.
      rewrite adj_null by lia. by apply Hd.
Defined.
End contracts.

(** ** Properties *)
Module Properties.
Section properties.
Context `{DpdkOk} `{B : Build}.
Implicit Types (w : world rte_mbuf) (m : rte_mbuf) (f : list Z).

(** one cycle of any of these workers returns and loses or duplicates no
    packet: what is buffered, in rings or freed is, by address, the same
    multiset before and after, the flush of the burst buffer included. *)
Theorem worker_cycle_conserves {W} `{!Worker W} `{!WorkerOk W} (cnt : Z) (x : W) w :
  worker_ok x w -> w_valid (ring_fm_ (wcore x)) w ->
  0 <= burst_fm_ (wcore x) <= DEFAULT_MBUF_ARRAY_SIZE ->
  Forall pkt_room (w_objs (ring_fm_ (wcore x)) w) ->
  exists cnt' x' w', WorkerCycle.Cycle cnt (x, w) = Ok (cnt', (x', w')) /\ worker_ok x' w' /\
    owned x' w' ≡ₚ owned x w.
Proof. apply cycle_ok. Qed.

(** encapsulation by the encap worker: an IPv4 packet leaves behind its
    Ethernet header and an IPv4/UDP/GTP-U tunnel to its own destination, an IPv6
    packet behind an IPv4 Ethernet header and a tunnel to the IPv4 address
    embedded in its destination (first octet 10); lengths and checksum are
    right and the packet itself is unchanged. *)
Theorem encap_adds_tunnel m (x : CoreEncapWorker.EncapWorker) w (eth dst : list Z) :
  mbuf_wf m -> 36 <= data_off m -> 46 <= data_len m -> encap_templates x ->
  encap_parts (packet_type m) (pkt_data m) = Some (eth, dst) ->
  exists ck m' x', CoreEncapWorker.ModifyPacket m (x, w) = Ok (0, m', (x', w)) /\
    pkt_data m' = encap_frame ck (CoreEncapWorker.srcipv4_ x) eth dst (pkt_data m) /\
    oc_sum (be_words (encap_ip (data_len m + 36) ck (CoreEncapWorker.srcipv4_ x) dst)) = 0xffff /\
    mbuf_wf m' /\ encap_templates x'.
Proof.
  intros Hw Ho Hl Ht Hp. pose proof Hw as [].
  destruct (encap_ModifyPacket m x w Hw Ho) as (ck & x' & b' & E & Ht' & _ & _ & Lb & Ob & Hf);
    [lia|done| |].
  { unfold encap_parts in Hp. destruct (RTE_ETH_IS_IPV4_HDR _); [done|]. by destruct (RTE_ETH_IS_IPV6_HDR _). }
  destruct Hf as (eth' & dst' & E' & Hfr & Hck); [done|]. rewrite Hp in E'. injection E' as <- <-.
  eexists ck, _, x'. split; [exact E|]. split_and!; try done. constructor; mem_cbn; try done; lia.
Qed.

(** without headroom for the 36 bytes the encap worker drops the packet:
    result 1, the packet freed, one drop counted, nothing else changed. *)
Theorem encap_without_headroom m (x : CoreEncapWorker.EncapWorker) w :
  data_off m < 36 ->
  CoreEncapWorker.ModifyPacket m (x, w) =
    Ok (1, m, (CoreEncapWorker.set_ecore
                 (CoreInterface.count_drop 0 1 (CoreEncapWorker.ecore x)) x, w_free [m] w)).
Proof.
  intros Ho. unfold CoreEncapWorker.ModifyPacket. autounfold with pkt.
  by rewrite prepend_null by lia.
Qed.

(** A rewritten frame passes the guards of the GRE termination. *)
Lemma gre_frame_terminable ck src dst f :
  CANNOT_USE_GRE = false -> 50 <= zlen f -> bytes_ok f -> terminable (slice 0 24 (gre_frame ck src dst f)) = true.
Proof.
  intros Hg Hl Hb. unfold terminable. rewrite Hg. unfold byte_at. rewrite !slice_slice by lia.
  assert (L1 : zlen (swapped f) = 14) by (unfold swapped; rewrite !length_app, !length_slice by lia; lia).
  assert (L2 : zlen (slice 15 8 f) = 8) by (apply zlen_slice; lia).
  unfold gre_frame, gre_ip_header. rewrite !(slice_app_r _ _ (swapped f)), L1 by lia.
  rewrite <-!app_assoc. rewrite (slice_app_r 9 1 [72]) by (cbn; lia).
  change (0 + 23 - 14 - zlen [72]) with 8. rewrite (slice_app_r 8 1 (slice 15 8 f)), L2 by lia. done.
Qed.
(** C28: the GRE tunnel end to end: a G-PDU of a known session that the ingress
    distributor turns into a GRE packet passes the guards of the GRE
    termination, which leaves the Ethernet header with swapped addresses and the
    type of the inner packet, followed by exactly the inner packet. *)
Theorem gre_tunnel_delivers_inner m b w (itm : LookupTpl.lookup_t) (key : Z)
    (x : CoreGretermWorker.GretermWorker) w' :
  CANNOT_USE_GRE = false -> mbuf_wf m -> 66 <= data_len m -> findtype_ b <> 0 ->
  Distributor.Properties.user_key (pkt_data m) = Some key ->
  map_ b !! le_load (slice 46 4 (pkt_data m)) = Some itm ->
  Z.land (LookupTpl.ue_ipv4 itm) 0xffffff00 = Z.land key 0xffffff00 ->
  exists m1 m2, CorePgwIngressDistributorWorker.ModifyPacket m (b, w) = Ok (0, m1, (b, w)) /\
    CoreGretermWorker.ModifyPacket m1 (x, w') = Ok (0, m2, (x, w')) /\
    pkt_data m2 = slice 6 6 (pkt_data m) ++ slice 0 6 (pkt_data m) ++
      (if Z.land (byte_at 50 (pkt_data m)) 0xf0 =? 0x40 then slice 12 2 (pkt_data m) else [0x86; 0xdd]) ++
      slice 50 (data_len m - 50) (pkt_data m).
Proof.
  intros Hg Hw Hl Hf Hk Hm Ha.
  destruct (Distributor.Properties.distributes_as_gre m b w itm key) as (ck & m1 & E1 & D1 & _ & W1 & L1); try done.
  pose proof (zlen_pkt_data m Hw) as Lf. pose proof W1 as [].
  assert (Bf : bytes_ok (pkt_data m)) by (apply Forall_slice, Hw).
  assert (Eh : head_bytes 24 m1 = slice 0 24 (pkt_data m1))
    by (unfold head_bytes, pkt_data; rewrite slice_slice by lia; f_equal; lia).
  destruct (decap_ok m1 (x, w') W1) as (pt & b' & E2 & _ & _ & D2); [lia..|].
  exists m1. eexists. split; [done|]. split.
  { rewrite greterm_ModifyPacket by (done || lia). rewrite Eh, D1, gre_frame_terminable by (done || lia).
    exact E2. }
  unfold pkt_data at 1. mem_cbn. rewrite D2 by lia. rewrite D1. unfold inner_frame, gre_frame.
  set (f := pkt_data m) in *. set (hd := gre_ip_header _ _ _ f).
  assert (La : zlen (slice 6 6 f) = 6 /\ zlen (slice 0 6 f) = 6 /\ zlen (slice 12 2 f) = 2)
    by (rewrite !zlen_slice by lia; done). destruct La as (La & Lb & Lc).
  assert (Lh : zlen hd = 32).
  { unfold hd, gre_ip_header. rewrite !length_app, length_slice by lia. done. }
  assert (Ls : zlen (swapped f) = 14) by (unfold swapped; rewrite !length_app; lia).
  assert (Lp : zlen (slice 50 (zlen f - 50) f) = zlen f - 50) by (apply zlen_slice; lia).
  replace (zlen (swapped f ++ hd ++ [0; 0; 8; 0] ++ slice 50 (zlen f - 50) f) - 50) with (zlen f - 50)
    by (rewrite !length_app; cbn [length]; lia).
  unfold byte_at. rewrite !(slice_app_r 50 _ (swapped f)), Ls by lia.
  rewrite !(slice_app_r (50 - 14) _ hd), Lh by lia. change (50 - 14 - 32) with 4.
  rewrite !(slice_app_r 4 _ [0; 0; 8; 0]) by done. change (4 - zlen [0; 0; 8; 0]) with 0.
  rewrite !slice_slice by lia. change (50 + 0) with 50. rewrite !(slice_app_l _ _ (swapped f)) by lia. unfold swapped.
  rewrite !app_assoc. f_equal; [f_equal|by rewrite Lf].
  - rewrite <-app_assoc, (app_assoc (slice 6 6 f)), slice_app_l by (rewrite ?length_app; lia).
    unfold slice at 1. rewrite drop_0, take_ge by (rewrite length_app; lia). done.
  - case_if; [|done]. rewrite <-app_assoc, (app_assoc (slice 6 6 f)).
    rewrite slice_app_r by (rewrite length_app; lia). rewrite length_app.
    replace (12 - _) with 0 by lia. by rewrite slice_slice by lia.
Qed.
End properties.

(** An encap worker, a packet from a user to 8.8.8.8 that the driver reported as
    IPv4, and the store. *)
#[local] Instance gre_build : Build := {|
  ARCH := 11; TEST_MODE := false; CANNOT_USE_GRE := false; COUNTER_RX := false;
  TUNNEL_RX := false; NON_SUPPORTED_ERRIND := true |}.
Definition sample_encap : CoreEncapWorker.EncapWorker :=
  CoreEncapWorker.construct
    (mk_core 0 0 1 0 0 0 0 0 0 4 3 (Some 1) (Some 2) [] 9 CoreCounter.Clear) 0xc0a80001.
Definition user_packet : rte_mbuf :=
  let f := [2;0;0;0;0;1; 2;0;0;0;0;2; 8;0] ++
    [0x45;0; 0;32; 0;1; 0;0; 64;17; 0;0; 10;1;2;3; 8;8;8;8] ++ repeat 7 12 in
  mk_mbuf 78 (repeat 0 128 ++ f ++ repeat 0 128) 128 (zlen f) (zlen f) 1 None 17 0.
Definition store_with (l : list rte_mbuf) : @world DpdkModel.dpdk rte_mbuf :=
  @mk_world DpdkModel.dpdk rte_mbuf
    (<[1 := (8%nat, l) : DpdkModel.queue rte_mbuf]> {[ 2 := (8%nat, []) : DpdkModel.queue rte_mbuf ]}) [].

Lemma user_packet_wf : mbuf_wf user_packet.
Proof.
  constructor; try (vm_compute; congruence). apply bytes_okb_ok. vm_compute. reflexivity.
Qed.

Lemma worker_cycle_conserves_witness :
  exists cnt' x' w', WorkerCycle.Cycle (Worker0 := CoreEncapWorker.encap_worker) 9
      (sample_encap, store_with [user_packet; user_packet]) = Ok (cnt', (x', w')) /\
    owned (Worker0 := CoreEncapWorker.encap_worker) x' w' ≡ₚ [78; 78].
Proof.
  destruct (worker_cycle_conserves (D := DpdkModel.dpdk) (Worker0 := CoreEncapWorker.encap_worker)
    9 sample_encap (store_with [user_packet; user_packet])) as (cnt' & x' & w' & E & _ & Hp).
  - split; [|apply encap_construct_templates]. constructor.
    + eexists. vm_compute. reflexivity.
    + vm_compute. congruence.
    + vm_compute. congruence.
    + cbn. lia.
  - eexists. vm_compute. reflexivity.
  - vm_compute. split; congruence.
  - assert (Hr : pkt_room user_packet) by (constructor; [exact user_packet_wf|vm_compute; congruence..]).
    constructor; [exact Hr|]. constructor; [exact Hr|constructor].
  - exists cnt', x', w'. split; [exact E|]. rewrite Hp. vm_compute. reflexivity.
Defined.

Lemma encap_adds_tunnel_witness :
  exists ck m' x', CoreEncapWorker.ModifyPacket user_packet (sample_encap, store_with [])
      = Ok (0, m', (x', store_with [])) /\
    pkt_data m' = encap_frame ck 0xc0a80001 [2;0;0;0;0;1; 2;0;0;0;0;2; 8;0] [8;8;8;8] (pkt_data user_packet).
Proof.
  destruct (encap_adds_tunnel (D := DpdkModel.dpdk) user_packet sample_encap (store_with [])
    [2;0;0;0;0;1; 2;0;0;0;0;2; 8;0] [8;8;8;8]) as (ck & m' & x' & E & Ed & _).
  - exact user_packet_wf.
  - vm_compute. congruence.
  - vm_compute. congruence.
  - apply encap_construct_templates.
  - vm_compute. reflexivity.
  - exists ck, m', x'. split; [exact E|exact Ed].
Defined.

(** The same packet at the start of its buffer. *)
Definition no_headroom : rte_mbuf := set_bounds 20 46 46 user_packet.

Lemma encap_without_headroom_witness :
  CoreEncapWorker.ModifyPacket no_headroom (sample_encap, store_with []) =
    Ok (1, no_headroom, (CoreEncapWorker.set_ecore (CoreInterface.count_drop 0 1
      (CoreEncapWorker.ecore sample_encap)) sample_encap, w_free [no_headroom] (store_with []))).
Proof.
  apply (encap_without_headroom (D := DpdkModel.dpdk)). vm_compute. reflexivity.
Defined.

Definition sample_greterm : CoreGretermWorker.GretermWorker :=
  CoreGretermWorker.construct
    (mk_core 0 0 1 0 0 0 0 0 0 4 3 (Some 1) (Some 2) [] 9 CoreCounter.Clear) 0.

Lemma gre_tunnel_delivers_inner_witness :
  exists m1 m2, CorePgwIngressDistributorWorker.ModifyPacket Distributor.Properties.gpdu
      (Distributor.Properties.knowing, store_with []) = Ok (0, m1, (Distributor.Properties.knowing, store_with [])) /\
    CoreGretermWorker.ModifyPacket m1 (sample_greterm, store_with []) = Ok (0, m2, (sample_greterm, store_with [])) /\
    pkt_data m2 = [2;0;0;0;0;2; 2;0;0;0;0;1; 8;0] ++
      [0x45;0; 0;28; 0;1; 0;0; 64;17; 0;0; 10;1;2;3; 10;1;2;3] ++ repeat 7 12.
Proof.
  destruct (gre_tunnel_delivers_inner (D := DpdkModel.dpdk) Distributor.Properties.gpdu
    Distributor.Properties.knowing (store_with []) Distributor.Properties.user_session 0x0302010a
    sample_greterm (store_with [])) as (m1 & m2 & E1 & E2 & Ed).
  - reflexivity.
  - exact Distributor.Properties.gpdu_wf.
  - vm_compute. congruence.
  - discriminate.
  - vm_compute. reflexivity.
  - vm_compute. reflexivity.
  - vm_compute. reflexivity.
  - exists m1, m2. split; [exact E1|]. split; [exact E2|]. rewrite Ed. vm_compute. reflexivity.
Defined.
End Properties.
