(* ===== verification/RxTx.v ===== *)
(** * Receive and transmit cores

    [CoreRx] (dataplane/src/core/core_rx.cc), [CoreRxDistributor]
    (core_rx_distributor.cc) and [CoreTx] (core_tx.cc): packets from the NIC are
    spread over the worker rings, one output buffer per worker; packets of the
    worker rings are collected and handed to the NIC.

    The NIC is a parameter: what [rte_eth_rx_burst] returned is the argument
    [nic] of a cycle, and [tx_burst] answers how many of the packets offered to
    [rte_eth_tx_burst] were accepted.  Packets on the wire are collected in the
    transmit state.  Builds with [__TEST_MODE__] use rings instead. *)

From S2P Require Import Prelude Dpdk Packet CoreBase PgwBase Distributor.

(** ** One output buffer per worker *)
Record RxState := mk_rx {
  rcore : CoreInterface rte_mbuf;
  ring_rx_ : list (option Z);
  output_rx_ : list (list rte_mbuf);   (* filled part of each output_rx_[k] *)
}.

Module RxBuffers.
Section buffers.
Context `{D : Dpdk}.
Implicit Types (s : RxState) (w : world rte_mbuf).

Definition set_rcore (c : CoreInterface rte_mbuf) s : RxState := mk_rx c (ring_rx_ s) (output_rx_ s).

(** [output_cnt_rx_] is cleared, no ring is connected. *)
Definition construct (c : CoreInterface rte_mbuf) : RxState :=
  mk_rx c [] (replicate (Z.to_nat DEFAULT_MBUF_OUT_SIZE) []).

Definition set_output (wk : Z) (o : list rte_mbuf) s : RxState :=
  mk_rx (rcore s) (ring_rx_ s) (<[Z.to_nat wk := o]> (output_rx_ s)).

(** Access outside of the arrays, or of the ring vector, is undefined. *)
Definition output_at (wk : Z) s : res (list rte_mbuf) :=
  _ ← require (0 <=? wk) Undefined; deref (output_rx_ s !! Z.to_nat wk).
Definition ring_at (wk : Z) s : res (option Z) :=
  _ ← require (0 <=? wk) Undefined; deref (ring_rx_ s !! Z.to_nat wk).

(** [SendOrBufferRx] and [SendOrBufferDistributeRx]. *)
Definition SendOrBufferRx (wk : Z) (mbuf : rte_mbuf) (sw : RxState * world rte_mbuf)
    : res (RxState * world rte_mbuf) :=
  let '(s, w) := sw in
  out ← output_at wk s;
  _ ← require (zlen out <? DEFAULT_MBUF_ARRAY_SIZE) Undefined;
  let out := out ++ [mbuf] in
  let burst_to := burst_to_ (rcore s) in
  if zlen out <? burst_to then Ok (set_output wk out s, w)
  else
    ring ← ring_at wk s;
    let burst := take (Z.to_nat burst_to) out in
    e ← w_enqueue_bulk ring burst w;
    let '(ret, w) := e in
    if ret =? 0 then
      Ok (set_output wk [] (set_rcore (CoreInterface.count_drop 0 burst_to (rcore s)) s), w_free burst w)
    else Ok (set_output wk [] s, w).

(** One turn of the flush loop; [counted] is the number of drops counted. *)
Definition flush_one (counted : Z -> RxState -> Z) (sw : RxState * world rte_mbuf) (n : Z)
    : res (RxState * world rte_mbuf) :=
  let '(s, w) := sw in
  out ← output_at n s;
  if zlen out =? 0 then Ok (s, w)
  else
    ring ← ring_at n s;
    e ← w_enqueue_bulk ring out w;
    let '(ret, w) := e in
    if ret =? 0 then
      Ok (set_output n [] (set_rcore (CoreInterface.count_drop 0 (counted (zlen out) s) (rcore s)) s),
          w_free out w)
    else Ok (set_output n [] s, w).

Definition flush (counted : Z -> RxState -> Z) (sw : RxState * world rte_mbuf)
    : res (RxState * world rte_mbuf) :=
  foldM (flush_one counted) (seqZ 0 (cnt_wk_ (rcore sw.1))) sw.

(** [SetRingAddr(TO)]: one more worker ring, [CNT_WORKER] updated. *)
Definition push_ring (ring : option Z) s : RxState :=
  let rings := ring_rx_ s ++ [ring] in
  mk_rx (CoreInterface.SetN CNT_WORKER (zlen rings) (rcore s)) rings (output_rx_ s).
End buffers.
End RxBuffers.

(** ** [CoreRx] *)
Module CoreRx.
Record CoreRx := mk { rx : RxState; type_ : Z; ring_test_from_ : option Z }.

Section rx.
Context `{D : Dpdk} `{B : Build}.
Implicit Types (x : CoreRx) (w : world rte_mbuf) (m : rte_mbuf).

Definition COUNTER_INGRESS := 0xfe.
Definition TUNNEL_EGRESS := 0xff.

Definition GetType : TYPE := RX.
Definition construct (c : CoreInterface rte_mbuf) (type : Z) (test_uninit : option Z) : CoreRx :=
  mk (RxBuffers.construct c) type test_uninit.

Definition SetRingAddr (order : ORDER) (ring : option Z) x : res CoreRx :=
  match order with
  | TO => Ok (mk (RxBuffers.push_ring ring (rx x)) (type_ x) (ring_test_from_ x))
  | FROM => if TEST_MODE then
              let s := rx x in
              Ok (mk (RxBuffers.set_rcore (CoreInterface.SetN CNT_WORKER (zlen (ring_rx_ s)) (rcore s)) s)
                    (type_ x) ring)
            else Fault RteExit
  | _ => Fault RteExit
  end.

(** Where in the packet the byte lies that selects the worker. *)
Definition flow_pos (type : Z) m : res Z :=
  let v4 vihl := Z.land vihl 0xf0 =? 0x40 in
  let inner := sizeof_ether_hdr + sizeof_ipv4_hdr + sizeof_udp_hdr + sizeof_gtpu_hdr in
  if COUNTER_RX then
    vihl ← ld 1 m (mtod_offset m inner + o_version_ihl);
    if type =? COUNTER_INGRESS then Ok (65 + (if v4 vihl then 0 else 0))
    else Ok (65 + (if v4 vihl then 4 else 16))
  else if TUNNEL_RX then
    if type =? TUNNEL_EGRESS then
      vihl ← ld 1 m (mtod_offset m inner + o_version_ihl);
      Ok (29 + (if v4 vihl then 36 else 36))
    else
      vihl ← ld 1 m (mtod_offset m sizeof_ether_hdr + o_version_ihl);
      Ok (29 + (if v4 vihl then 4 else 16))
  else Ok 33.

(** [(unsigned)pkt[pos] % wk_cnt]: [char] is signed. *)
Definition flow_worker (wk_cnt type : Z) m : res Z :=
  pos ← flow_pos type m;
  b ← ld 1 m (mtod m + pos);
  _ ← require (negb (wk_cnt =? 0)) Undefined;
  Ok (u32 (signed 8 b) mod wk_cnt).

Definition one_packet (wk_cnt type : Z) (sw : RxState * world rte_mbuf) m
    : res (RxState * world rte_mbuf) :=
  wk ← flow_worker wk_cnt type m;
  RxBuffers.SendOrBufferRx wk m sw.

Definition BurstFlushRx : RxState * world rte_mbuf -> res (RxState * world rte_mbuf) :=
  RxBuffers.flush (fun n _ => n).

Definition Cycle (nic : list rte_mbuf) (cnt : Z) (xw : CoreRx * world rte_mbuf)
    : res (Z * (CoreRx * world rte_mbuf)) :=
  let '(x, w) := xw in
  let s := rx x in
  i ← (if TEST_MODE then w_dequeue_burst (ring_test_from_ x) (burst_fm_ (rcore s)) w else Ok (nic, w));
  let '(input, w) := i in
  _ ← require (zlen input <=? DEFAULT_MBUF_ARRAY_SIZE) Undefined;
  sw ← (if zlen input =? 0 then Ok (s, w)
        else burst_loop (one_packet (CoreInterface.GetN CNT_WORKER (rcore s)) (type_ x)) input (s, w));
  let fd := flush_delay_ (rcore sw.1) in
  let back sw := (mk sw.1 (type_ x) (ring_test_from_ x), sw.2) in
  if negb (fd =? 0) && (fd <=? cnt) then
    sw ← BurstFlushRx sw; Ok (0, back sw)
  else Ok (cnt, back sw).
End rx.
End CoreRx.

(** ** [CoreRxDistributor] *)
Module CoreRxDistributor.
Record CoreRxDistributor := mk { rx : RxState; ring_tap_tx_ : option Z; ring_test_from_ : option Z }.

Section rx.
Context `{D : Dpdk} `{B : Build}.
Implicit Types (x : CoreRxDistributor) (w : world rte_mbuf) (m : rte_mbuf).

Definition INGRESS := 0.
Definition EGRESS := 1.
Definition MAXCOUNT := 2.

Definition GetType : TYPE := RX.
Definition construct (c : CoreInterface rte_mbuf) (test_uninit : option Z) : CoreRxDistributor :=
  mk (RxBuffers.construct c) None test_uninit.

Definition BeforeCycle x : res Z :=
  if negb (CoreInterface.GetN CNT_WORKER (rcore (rx x)) =? MAXCOUNT) then Fault RtePanic else Ok 0.

Definition recount (s : RxState) : RxState :=
  RxBuffers.set_rcore (CoreInterface.SetN CNT_WORKER (zlen (ring_rx_ s)) (rcore s)) s.
Definition SetRingAddr (order : ORDER) (ring : option Z) x : res CoreRxDistributor :=
  match order with
  | TO => Ok (mk (RxBuffers.push_ring ring (rx x)) (ring_tap_tx_ x) (ring_test_from_ x))
  | EXTEND => Ok (mk (recount (rx x)) ring (ring_test_from_ x))
  | FROM => if TEST_MODE then Ok (mk (recount (rx x)) (ring_tap_tx_ x) ring) else Fault RteExit
  | _ => Fault RteExit
  end.

Definition SendTapInterface (tap : option Z) m w : res (world rte_mbuf) :=
  e ← w_enqueue tap m w;
  let '(rc, w) := e in Ok (if rc <? 0 then w_free [m] w else w).

(** UDP to the egress port goes to the egress worker, other GTP-U to the
    ingress worker, the rest to the tap. *)
Definition one_packet (tap : option Z) (sw : RxState * world rte_mbuf) m
    : res (RxState * world rte_mbuf) :=
  udpdport ← is_udp m;
  if udpdport =? htons PGWEGRESSPORT then RxBuffers.SendOrBufferRx EGRESS m sw
  else
    teid ← is_gtpu m;
    if teid =? 0 then w ← SendTapInterface tap m sw.2; Ok (sw.1, w)
    else RxBuffers.SendOrBufferRx INGRESS m sw.

(** The flush counts [burst_to_] drops whatever it drops. *)
Definition BurstFlushDistributeRx : RxState * world rte_mbuf -> res (RxState * world rte_mbuf) :=
  RxBuffers.flush (fun _ s => burst_to_ (rcore s)).

Definition Cycle (nic : list rte_mbuf) (cnt : Z) (xw : CoreRxDistributor * world rte_mbuf)
    : res (Z * (CoreRxDistributor * world rte_mbuf)) :=
  let '(x, w) := xw in
  let s := rx x in
  i ← (if TEST_MODE then w_dequeue_burst (ring_test_from_ x) (burst_fm_ (rcore s)) w else Ok (nic, w));
  let '(input, w) := i in
  _ ← require (zlen input <=? DEFAULT_MBUF_ARRAY_SIZE) Undefined;
  sw ← (if zlen input =? 0 then Ok (s, w) else burst_loop (one_packet (ring_tap_tx_ x)) input (s, w));
  let fd := flush_delay_ (rcore sw.1) in
  let back sw := (mk sw.1 (ring_tap_tx_ x) (ring_test_from_ x), sw.2) in
  if negb (fd =? 0) && (cnt =? fd) then
    sw ← BurstFlushDistributeRx sw; Ok (0, back sw)
  else Ok (cnt, back sw).
End rx.
End CoreRxDistributor.

(** ** [CoreTx] *)
Module CoreTx.
Record CoreTx := mk {
  tcore : CoreInterface rte_mbuf;
  ring_tx_ : list (option Z);
  ring_test_to_ : option Z;
  debug_flag_ : Z;
  wire : list rte_mbuf;       (* what the NIC accepted, in order *)
}.

Section tx.
Context `{D : Dpdk} `{B : Build}.
(** [rte_eth_tx_burst]: how many of the offered packets were accepted. *)
Variable tx_burst : list rte_mbuf -> Z.
Implicit Types (x : CoreTx) (w : world rte_mbuf) (m : rte_mbuf).

Definition GetType : TYPE := TX.
Definition construct (c : CoreInterface rte_mbuf) (test_uninit : option Z) (debug_flag : Z) : CoreTx :=
  mk c [] test_uninit debug_flag [].

Definition SetRingAddr (order : ORDER) (ring : option Z) x : res CoreTx :=
  let count rings := CoreInterface.SetN CNT_WORKER (zlen rings) (tcore x) in
  match order with
  | FROM => let rings := ring_tx_ x ++ [ring] in
            Ok (mk (count rings) rings (ring_test_to_ x) (debug_flag_ x) (wire x))
  | TO => if TEST_MODE then Ok (mk (count (ring_tx_ x)) (ring_tx_ x) ring (debug_flag_ x) (wire x))
          else Fault RteExit
  | _ => Fault RteExit
  end.

(** Test builds: exchange the addresses of the outer header. *)
Definition swap_ip m : res rte_mbuf :=
  let ip := mtod_offset m sizeof_ether_hdr in
  t_ipaddr ← ld 4 m (ip + o_dst_addr);
  s_ipaddr ← ld 4 m (ip + o_src_addr);
  m ← st 4 m (ip + o_dst_addr) s_ipaddr;
  m ← st 4 m (ip + o_src_addr) t_ipaddr;
  m ← st 2 m (ip + o_hdr_checksum) 0;
  put_checksum ip 20 m.

(** Offer the buffered packets: to the NIC, or to the test ring; the packets
    behind the accepted ones are freed, and all of them counted as dropped. *)
Definition transmit (output : list rte_mbuf) x w : res (CoreTx * world rte_mbuf) :=
  r ← (if TEST_MODE then
         output ← (if negb (Z.land (debug_flag_ x) 0x0001 =? 0)
                   then foldM (fun l m => m ← swap_ip m; Ok (l ++ [m])) output [] else Ok output);
         e ← w_enqueue_bulk (ring_test_to_ x) output w;
         Ok (output, e.1, wire x, e.2)
       else
         let n := tx_burst output in
         Ok (output, n, wire x ++ take (Z.to_nat n) output, w));
  let '(output, n, wire, w) := r in
  let c := CoreInterface.set_output [] (tcore x) in
  let y c := mk c (ring_tx_ x) (ring_test_to_ x) (debug_flag_ x) wire in
  if n <? zlen output then
    Ok (y (CoreInterface.count_drop 0 (zlen output) c), w_free (drop (Z.to_nat n) output) w)
  else Ok (y c, w).

Definition BurstFlushTx (xw : CoreTx * world rte_mbuf) : res (CoreTx * world rte_mbuf) :=
  let '(x, w) := xw in
  if 0 <? CoreInterface.output_cnt_ (tcore x) then transmit (output_ (tcore x)) x w
  else Ok (mk (CoreInterface.set_output [] (tcore x)) (ring_tx_ x) (ring_test_to_ x) (debug_flag_ x) (wire x), w).

(** One worker ring: read behind what is already buffered. *)
Definition drain_ring (xw : CoreTx * world rte_mbuf) (n : Z) : res (CoreTx * world rte_mbuf) :=
  let '(x, w) := xw in
  let c := tcore x in
  ring ← deref (ring_tx_ x !! Z.to_nat n);
  r ← w_dequeue_burst ring (burst_fm_ c) w;
  let '(got, w) := r in
  let output := output_ c ++ got in
  _ ← require (zlen output <=? DEFAULT_MBUF_ARRAY_SIZE) Undefined;
  if zlen got =? 0 then Ok (x, w)
  else
    if zlen output <? burst_to_ c then
      Ok (mk (CoreInterface.set_output output c) (ring_tx_ x) (ring_test_to_ x) (debug_flag_ x) (wire x), w)
    else transmit output x w.

Definition Cycle (cnt : Z) (xw : CoreTx * world rte_mbuf) : res (Z * (CoreTx * world rte_mbuf)) :=
  xw ← foldM drain_ring (seqZ 0 (CoreInterface.GetN CNT_WORKER (tcore xw.1))) xw;
  let fd := flush_delay_ (tcore xw.1) in
  if negb (fd =? 0) && (fd <=? cnt) then
    xw ← BurstFlushTx xw; Ok (0, xw)
  else Ok (cnt, xw).
End tx.
End CoreTx.

(** ** Lemmas on the buffers *)
Section rx_lemmas.
Context `{DpdkOk}.
Implicit Types (s : RxState) (w : world rte_mbuf) (m : rte_mbuf) (k j : nat).

Lemma concat_insert_perm {A} (l : list (list A)) k o o' :
  l !! k = Some o -> o ++ concat (<[k := o']> l) ≡ₚ o' ++ concat l.
Proof.
  intros Hk. assert (Hlt : (k < length l)%nat) by (by eapply lookup_lt_Some).
  rewrite insert_take_drop by done. rewrite <-(take_drop_middle l k o Hk) at 3.
  rewrite !concat_app. cbn [concat]. solve_Permutation.
Qed.

Lemma bulk_room p l w ret w' :
  w_enqueue_bulk p l w = Ok (ret, w') -> zlen l <= w_room p w ->
  ret = zlen l /\ w_room p w' = w_room p w - zlen l /\ w_objs p w' = w_objs p w ++ l.
Proof.
  unfold w_enqueue_bulk. destruct (w_ring p w) as [r|] eqn:Hr; res_simpl; [|done].
  intros [= <- <-] Hl. unfold w_room in *. rewrite Hr in *.
  assert (Hv : w_valid p w) by (by exists r).
  destruct (bulk_ok r l Hl) as (-> & Eo & Ec). rewrite w_ring_set by done.
  split_and!; [done|done|]. by rewrite (w_objs_ring _ _ _ Hr), (w_objs_ring _ _ _ (w_ring_set p _ w Hv)).
Qed.

(** Connected to [cnt_wk_] distinct rings, every buffer below the burst size. *)
Record rx_ok s w : Prop := {
  rx_out : length (output_rx_ s) = 16%nat;
  rx_fill : Forall (fun o => zlen o < burst_to_ (rcore s)) (output_rx_ s);
  rx_burst : burst_to_ (rcore s) <= DEFAULT_MBUF_ARRAY_SIZE;
  rx_rings : Forall (fun r => w_valid r w) (ring_rx_ s);
  rx_nodup : NoDup (ring_rx_ s);
  rx_cnt : cnt_wk_ (rcore s) = zlen (ring_rx_ s);
  rx_max : (length (ring_rx_ s) <= 16)%nat;
}.

(** Only buffers and counters differ. *)
Definition same_rx s s' : Prop :=
  ring_rx_ s' = ring_rx_ s /\ exists c, rcore s' = CoreInterface.set_counter c (rcore s).

Lemma same_rx_refl s : same_rx s s.
Proof. split; [done|]. exists (counter_ (rcore s)). by destruct s as [[] ? ?]. Qed.

Lemma same_rx_trans s1 s2 s3 : same_rx s1 s2 -> same_rx s2 s3 -> same_rx s1 s3.
Proof.
  intros (E1 & c1 & Ec1) (E2 & c2 & Ec2). split; [congruence|]. exists c2. by rewrite Ec2, Ec1.
Qed.

(** What worker [k] will see, in order: its ring, then the buffer. *)
Definition ring_of k s : option Z := ring_rx_ s !!! k.
Definition stream k s w : list rte_mbuf := w_objs (ring_of k s) w ++ output_rx_ s !!! k.
(** Room left for worker [k]. *)
Definition slack k s w : Z := w_room (ring_of k s) w - zlen (output_rx_ s !!! k).
(** Everything the core or the store holds. *)
Definition rx_held s w : list rte_mbuf := concat (output_rx_ s) ++ w_all w.

Lemma ring_of_ne s k j :
  NoDup (ring_rx_ s) -> (k < length (ring_rx_ s))%nat -> (j < length (ring_rx_ s))%nat -> j <> k ->
  ring_of j s <> ring_of k s.
Proof.
  intros Hn Hk Hj Hne E. apply Hne.
  pose proof (list_lookup_lookup_total_lt _ _ Hj) as Ej. fold (ring_of j s) in Ej. rewrite E in Ej.
  eapply NoDup_lookup; [done|exact Ej|]. by apply list_lookup_lookup_total_lt.
Qed.

(** A buffer replaced, the store changed only in the ring of [k]. *)
Lemma stream_other s w s' w' k j o :
  rx_ok s w -> (k < length (ring_rx_ s))%nat -> (j < length (ring_rx_ s))%nat -> j <> k ->
  ring_rx_ s' = ring_rx_ s -> output_rx_ s' = <[k := o]> (output_rx_ s) ->
  (forall q, q <> ring_of k s -> w_ring q w' = w_ring q w) ->
  stream j s' w' = stream j s w /\ slack j s' w' = slack j s w.
Proof.
  intros Ho Hk Hj Hne Er Eo Hq. unfold stream, slack, ring_of, w_objs, w_room.
  rewrite Er, Eo, list_lookup_total_insert_ne by done.
  rewrite Hq; [done|]. apply ring_of_ne; [apply Ho|done..].
Qed.

Lemma rx_ok_step s w s' w' k o :
  rx_ok s w -> same_rx s s' -> output_rx_ s' = <[k := o]> (output_rx_ s) ->
  zlen o < burst_to_ (rcore s) -> w_keeps w w' -> rx_ok s' w'.
Proof.
  intros [] (Er & c & Ec) Eo Hl Hk. constructor; rewrite ?Er, ?Ec, ?Eo; cbn; try done.
  - by rewrite length_insert.
  - by apply Forall_insert.
  - eapply Forall_impl; [done|]. intros r. apply Hk.
Qed.

Lemma enqueue_keeps p l w ret w' : w_enqueue_bulk p l w = Ok (ret, w') -> w_keeps w w'.
Proof.
  unfold w_enqueue_bulk. destruct (w_ring p w); res_simpl; [|done]. intros [= <- <-]. apply w_keeps_set.
Qed.

Lemma set_output_same (wk : Z) o s : same_rx s (RxBuffers.set_output wk o s).
Proof. split; [done|]. exists (counter_ (rcore s)). cbn. by destruct (rcore s). Qed.

(** What one send to worker [k] does. *)
Definition sent k m s w s' w' : Prop :=
  rx_ok s' w' /\ same_rx s s' /\ rx_held s' w' ≡ₚ m :: rx_held s w /\
  (forall j, (j < length (ring_rx_ s))%nat -> j <> k ->
     stream j s' w' = stream j s w /\ slack j s' w' = slack j s w) /\
  (1 <= slack k s w -> stream k s' w' = stream k s w ++ [m] /\ slack k s' w' = slack k s w - 1).

Lemma rx_lookup s w k :
  rx_ok s w -> (k < length (ring_rx_ s))%nat ->
  output_rx_ s !! k = Some (output_rx_ s !!! k) /\ ring_rx_ s !! k = Some (ring_of k s) /\
  zlen (output_rx_ s !!! k) < burst_to_ (rcore s) /\ w_valid (ring_of k s) w.
Proof.
  intros [] Hk.
  assert (Ho : output_rx_ s !! k = Some (output_rx_ s !!! k)) by (apply list_lookup_lookup_total_lt; lia).
  assert (Hr : ring_rx_ s !! k = Some (ring_of k s)) by (by apply list_lookup_lookup_total_lt).
  split_and!; [done|done| |].
  - by apply (Forall_lookup_1 _ _ _ _ rx_fill0 Ho).
  - by apply (Forall_lookup_1 _ _ _ _ rx_rings0 Hr).
Qed.

Lemma SendOrBufferRx_ok k m s w :
  rx_ok s w -> (k < length (ring_rx_ s))%nat ->
  exists s' w', RxBuffers.SendOrBufferRx (Z.of_nat k) m (s, w) = Ok (s', w') /\ sent k m s w s' w'.
Proof.
  intros Ho Hk. destruct (rx_lookup s w k Ho Hk) as (Eo & Er & Hf & Hv).
  unfold RxBuffers.SendOrBufferRx, RxBuffers.output_at, RxBuffers.ring_at, require.
  rewrite (proj2 (Z.leb_le 0 (Z.of_nat k))) by lia. res_simpl. rewrite Nat2Z.id, Eo. res_simpl.
  pose proof (rx_burst _ _ Ho) as Hb. set (out := output_rx_ s !!! k) in *.
  rewrite (proj2 (Z.ltb_lt (zlen out) DEFAULT_MBUF_ARRAY_SIZE)) by lia. res_simpl.
  assert (Hlast : zlen (out ++ [m]) = zlen out + 1) by (rewrite length_app; cbn; lia).
  assert (Hout : forall o', <[k := o']> (output_rx_ s) !!! k = o')
    by (intros; apply list_lookup_total_insert_eq; rewrite (rx_out _ _ Ho); pose proof (rx_max _ _ Ho); lia).
  destruct (_ <? burst_to_ (rcore s)) eqn:E; to_prop.
  - eexists _, w. split; [reflexivity|]. unfold sent.
    assert (Hs : output_rx_ (RxBuffers.set_output (Z.of_nat k) (out ++ [m]) s) = <[k := out ++ [m]]> (output_rx_ s))
      by (cbn; by rewrite Nat2Z.id).
    split_and!.
    + eapply rx_ok_step; [done|apply set_output_same|exact Hs|done|apply w_keeps_refl].
    + apply set_output_same.
    + unfold rx_held. rewrite Hs. apply (Permutation_app_inv_l out).
      rewrite app_assoc, (concat_insert_perm _ k out) by done. rewrite <-!app_assoc. cbn.
      by rewrite <-Permutation_middle.
    + intros j Hj Hn. eapply stream_other; [done|exact Hk|done..].
    + intros _. unfold stream, slack. change (ring_of k (RxBuffers.set_output _ _ s)) with (ring_of k s).
      fold out. rewrite Hs, Hout, Hlast. split; [by rewrite app_assoc|lia].
  - rewrite Er. res_simpl. rewrite (take_ge (out ++ [m])) by lia.
    destruct (w_enqueue_bulk_spec (ring_of k s) (out ++ [m]) w Hv) as (ret & w1 & Ee & Hfr & Hv1 & _).
    rewrite Ee. res_simpl. pose proof (enqueue_keeps _ _ _ _ _ Ee) as Hkp.
    assert (Hz : zlen (@nil rte_mbuf) < burst_to_ (rcore s)) by (cbn; lia).
    destruct (w_all_enqueue_bulk _ _ _ _ _ Ee) as [[-> Hp]|[-> [_ Hp]]].
    + rewrite (proj2 (Z.eqb_neq _ _)) by lia. eexists _, w1. split; [reflexivity|]. unfold sent.
      assert (Hs : output_rx_ (RxBuffers.set_output (Z.of_nat k) [] s) = <[k := []]> (output_rx_ s))
        by (cbn; by rewrite Nat2Z.id).
      split_and!.
      * eapply rx_ok_step; [done|apply set_output_same|exact Hs|done|done].
      * apply set_output_same.
      * unfold rx_held. rewrite Hs. apply (Permutation_app_inv_l out).
        rewrite app_assoc, (concat_insert_perm _ k out) by done. rewrite Hp. cbn. rewrite <-!app_assoc.
        cbn. solve_Permutation.
      * intros j Hj Hn. eapply stream_other; [done|exact Hk|done..|apply Hfr].
      * intros Hsl. unfold stream, slack in *. change (ring_of k (RxBuffers.set_output _ _ s)) with (ring_of k s).
        rewrite Hs, Hout. destruct (bulk_room _ _ _ _ _ Ee) as (_ & Erm & Eob); [fold out in Hsl; lia|].
        rewrite Eob, Erm, Hlast, app_nil_r. split; [by rewrite app_assoc|cbn; fold out; lia].
    + cbn [Z.eqb]. eexists _, _. split; [reflexivity|]. unfold sent.
      set (s1 := RxBuffers.set_output _ _ _).
      assert (Hs : output_rx_ s1 = <[k := []]> (output_rx_ s)) by (unfold s1; cbn; by rewrite Nat2Z.id).
      assert (Hsame : same_rx s s1) by (split; [done|]; eexists; reflexivity).
      split_and!.
      * eapply rx_ok_step; [done|done|exact Hs|done|]. eapply w_keeps_trans; [done|apply w_keeps_free].
      * done.
      * unfold rx_held. rewrite Hs, w_all_free, Hp. apply (Permutation_app_inv_l out).
        rewrite app_assoc, (concat_insert_perm _ k out) by done. cbn. rewrite <-!app_assoc. cbn. solve_Permutation.
      * intros j Hj Hn. eapply stream_other; [done|exact Hk|done..|apply Hfr].
      * intros Hsl. destruct (bulk_room _ _ _ _ _ Ee) as (Hr & _); [unfold slack in Hsl; fold out in Hsl; lia|lia].
Qed.

(** One turn of the flush loop. *)
Lemma flush_one_ok counted k s w :
  rx_ok s w -> (k < length (ring_rx_ s))%nat ->
  exists s' w', RxBuffers.flush_one counted (s, w) (Z.of_nat k) = Ok (s', w') /\
    rx_ok s' w' /\ same_rx s s' /\ rx_held s' w' ≡ₚ rx_held s w /\ output_rx_ s' !!! k = [] /\
    (forall j, j <> k -> output_rx_ s' !!! j = output_rx_ s !!! j) /\
    (forall j, (j < length (ring_rx_ s))%nat -> 0 <= slack j s w ->
       stream j s' w' = stream j s w /\ slack j s' w' = slack j s w).
Proof.
  intros Ho Hk. destruct (rx_lookup s w k Ho Hk) as (Eo & Er & Hf & Hv).
  unfold RxBuffers.flush_one, RxBuffers.output_at, RxBuffers.ring_at, require.
  rewrite (proj2 (Z.leb_le 0 (Z.of_nat k))) by lia. res_simpl. rewrite Nat2Z.id, Eo. res_simpl.
  set (out := output_rx_ s !!! k) in *.
  destruct (zlen out =? 0) eqn:Ez; to_prop.
  { exists s, w. split; [done|]. split_and!; auto using same_rx_refl. fold out. by destruct out. }
  rewrite Er. res_simpl.
  destruct (w_enqueue_bulk_spec (ring_of k s) out w Hv) as (ret & w1 & Ee & Hfr & Hv1 & _).
  rewrite Ee. res_simpl. pose proof (enqueue_keeps _ _ _ _ _ Ee) as Hkp.
  assert (Hout : forall o', <[k := o']> (output_rx_ s) !!! k = o')
    by (intros; apply list_lookup_total_insert_eq; rewrite (rx_out _ _ Ho); pose proof (rx_max _ _ Ho); lia).
  assert (Hne : forall o' j, j <> k -> <[k := o']> (output_rx_ s) !!! j = output_rx_ s !!! j)
    by (intros; by apply list_lookup_total_insert_ne).
  assert (Hz : zlen (@nil rte_mbuf) < burst_to_ (rcore s)) by (cbn; lia).
  assert (Hheld : forall w', w_all w' ≡ₚ out ++ w_all w ->
    concat (<[k := []]> (output_rx_ s)) ++ w_all w' ≡ₚ rx_held s w).
  { intros w' Hp. unfold rx_held. apply (Permutation_app_inv_l out).
    rewrite app_assoc, (concat_insert_perm _ k out) by done. rewrite Hp. cbn. solve_Permutation. }
  destruct (w_all_enqueue_bulk _ _ _ _ _ Ee) as [[-> Hp]|[-> [_ Hp]]].
  - rewrite (proj2 (Z.eqb_neq _ _) Ez). eexists _, w1. split; [reflexivity|].
    set (s1 := RxBuffers.set_output _ _ _).
    assert (Hs : output_rx_ s1 = <[k := []]> (output_rx_ s)) by (unfold s1; cbn; by rewrite Nat2Z.id).
    assert (Hsame : same_rx s s1) by apply set_output_same.
    split_and!; [by eapply rx_ok_step|done|unfold rx_held; rewrite Hs; by apply Hheld|by rewrite Hs|by rewrite Hs; auto|].
    intros j Hj Hsl. destruct (decide (j = k)) as [->|Hn].
    + unfold stream, slack in *. change (ring_of k s1) with (ring_of k s). rewrite Hs, Hout. fold out in Hsl |- *.
      destruct (bulk_room _ _ _ _ _ Ee) as (_ & Erm & Eob); [lia|].
      rewrite Eob, Erm, app_nil_r. split; [done|cbn; lia].
    + eapply stream_other; [done|exact Hk|done..|apply Hfr].
  - cbn [Z.eqb]. eexists _, _. split; [reflexivity|].
    set (s1 := RxBuffers.set_output _ _ _).
    assert (Hs : output_rx_ s1 = <[k := []]> (output_rx_ s)) by (unfold s1; cbn; by rewrite Nat2Z.id).
    assert (Hsame : same_rx s s1) by (split; [done|]; eexists; reflexivity).
    split_and!; [eapply rx_ok_step; [done..|by eapply w_keeps_trans; [|apply w_keeps_free]]|done| |by rewrite Hs|by rewrite Hs; auto|].
    + unfold rx_held. rewrite Hs. apply Hheld. by rewrite w_all_free, Hp.
    + intros j Hj Hsl. destruct (decide (j = k)) as [->|Hn].
      * destruct (bulk_room _ _ _ _ _ Ee) as (Hr & _); [unfold slack in Hsl; fold out in Hsl; lia|lia].
      * eapply stream_other; [done|exact Hk|done..|apply Hfr].
Qed.

Lemma flush_ok counted s w :
  rx_ok s w ->
  exists s' w', RxBuffers.flush counted (s, w) = Ok (s', w') /\
    rx_ok s' w' /\ same_rx s s' /\ rx_held s' w' ≡ₚ rx_held s w /\
    (forall j, (j < length (ring_rx_ s))%nat -> output_rx_ s' !!! j = []) /\
    (forall j, (j < length (ring_rx_ s))%nat -> 0 <= slack j s w ->
       stream j s' w' = stream j s w /\ slack j s' w' = slack j s w).
Proof.
  intros Ho. unfold RxBuffers.flush. cbn [fst]. rewrite (rx_cnt _ _ Ho).
  (* the first [n] buffers flushed *)
  assert (Hn : forall n, (n <= length (ring_rx_ s))%nat -> exists s' w',
    foldM (RxBuffers.flush_one counted) (seqZ 0 (Z.of_nat n)) (s, w) = Ok (s', w') /\
    rx_ok s' w' /\ same_rx s s' /\ rx_held s' w' ≡ₚ rx_held s w /\
    (forall j, (j < n)%nat -> output_rx_ s' !!! j = []) /\
    (forall j, (j < length (ring_rx_ s))%nat -> 0 <= slack j s w ->
       stream j s' w' = stream j s w /\ slack j s' w' = slack j s w)).
  { induction n as [|n IH]; intros Hle.
    - exists s, w. split_and!; auto using same_rx_refl. lia.
    - destruct IH as (s1 & w1 & E & Ho1 & Hs1 & Hp1 & He1 & Hst1); [lia|].
      assert (El : length (ring_rx_ s1) = length (ring_rx_ s)) by (by rewrite (proj1 Hs1)).
      destruct (flush_one_ok counted n s1 w1 Ho1) as (s2 & w2 & E2 & Ho2 & Hs2 & Hp2 & He2 & Hne2 & Hst2); [lia|].
      rewrite seqZ_S, foldM_app, E. res_simpl. rewrite Z.add_0_l. cbn [foldM]. rewrite E2. res_simpl. exists s2, w2. split; [done|].
      split_and!; [done|by eapply same_rx_trans|by rewrite Hp2| |].
      + intros j Hj. destruct (decide (j = n)) as [->|]; [done|]. rewrite Hne2 by done. apply He1. lia.
      + intros j Hj Hsl. destruct (Hst1 j Hj Hsl) as [Ea Eb].
        destruct (Hst2 j) as [Ec Ed]; [lia|lia|]. split; congruence. }
  destruct (Hn (length (ring_rx_ s))) as (s' & w' & Hall); [lia|]. by exists s', w'.
Qed.

(** A burst sent packet by packet to the workers [f] selects. *)
Lemma burst_sent (f : rte_mbuf -> nat) input s w :
  rx_ok s w -> Forall (fun m => (f m < length (ring_rx_ s))%nat) input ->
  exists s' w', foldM (fun sw m => RxBuffers.SendOrBufferRx (Z.of_nat (f m)) m sw) input (s, w) = Ok (s', w') /\
    rx_ok s' w' /\ same_rx s s' /\ rx_held s' w' ≡ₚ input ++ rx_held s w /\
    forall k, (k < length (ring_rx_ s))%nat -> zlen (filter (fun m => f m = k) input) <= slack k s w ->
      stream k s' w' = stream k s w ++ filter (fun m => f m = k) input /\
      slack k s' w' = slack k s w - zlen (filter (fun m => f m = k) input).
Proof.
  intros Ho Hi. revert s w Ho Hi. induction input as [|m input IH]; intros s w Ho Hi; cbn [foldM].
  - exists s, w. split_and!; auto using same_rx_refl. intros k _ _. rewrite app_nil_r. cbn. split; [done|lia].
  - inversion Hi as [|?? Hm Hi']; subst.
    destruct (SendOrBufferRx_ok (f m) m s w Ho Hm) as (s1 & w1 & E & Ho1 & Hs1 & Hp1 & Hne1 & Heq1).
    rewrite E. res_simpl. assert (Er : ring_rx_ s1 = ring_rx_ s) by apply Hs1.
    destruct (IH s1 w1 Ho1) as (s2 & w2 & E2 & Ho2 & Hs2 & Hp2 & Hst2); [by rewrite Er|].
    exists s2, w2. split_and!; [done|done|by eapply same_rx_trans| |].
    + rewrite Hp2, Hp1. by rewrite <-Permutation_middle.
    + intros k Hk. rewrite filter_cons. rewrite Er in Hst2. destruct (decide (f m = k)) as [<-|Hn].
      * cbn [length]. intros Hsl. destruct Heq1 as [Ea Eb]; [lia|].
        destruct (Hst2 (f m) Hk) as [Ec Ed]; [lia|]. rewrite Ec, Ed, Ea, Eb, <-app_assoc. split; [done|lia].
      * intros Hsl. destruct (Hne1 k Hk) as [Ea Eb]; [done|].
        destruct (Hst2 k Hk) as [Ec Ed]; [lia|]. rewrite Ec, Ed, Ea, Eb. done.
Qed.

Lemma foldM_ext_in {A T} (f g : T -> A -> res T) (l : list A) (t : T) :
  Forall (fun a => forall t', f t' a = g t' a) l -> foldM f l t = foldM g l t.
Proof.
  intros Hl. revert t. induction Hl as [|a l Ha _ IH]; intros t; cbn [foldM]; [done|].
  rewrite Ha. destruct (g t a); res_simpl; [apply IH|done].
Qed.
End rx_lemmas.

(** ** Transmission *)
Section tx_lemmas.
Context `{DpdkOk} `{B : Build}.
Variable tx_burst : list rte_mbuf -> Z.
Hypothesis tx_burst_range : forall l, 0 <= tx_burst l <= zlen l.
Hypothesis no_test : TEST_MODE = false.
Import CoreTx.
Implicit Types (x : CoreTx) (w : world rte_mbuf).

Record tx_ok x w : Prop := {
  tx_rings : Forall (fun r => w_valid r w) (ring_tx_ x);
  tx_cnt : cnt_wk_ (tcore x) = zlen (ring_tx_ x);
  tx_fill : CoreInterface.output_cnt_ (tcore x) < burst_to_ (tcore x);
  tx_fm : 0 <= burst_fm_ (tcore x);
  tx_room : burst_to_ (tcore x) - 1 + burst_fm_ (tcore x) <= DEFAULT_MBUF_ARRAY_SIZE;
}.

(** Everything the core, the NIC or the store holds. *)
Definition tx_held x w : list rte_mbuf := wire x ++ output_ (tcore x) ++ w_all w.

(** One step of the core: the burst buffer below its limit, packets conserved,
    what is on the wire only extended. *)
Definition tx_step x w x' w' : Prop :=
  tx_ok x' w' /\ ring_tx_ x' = ring_tx_ x /\ w_keeps w w' /\ tx_held x' w' ≡ₚ tx_held x w /\
  wire x `prefix_of` wire x'.

Lemma tx_step_refl x w : tx_ok x w -> tx_step x w x w.
Proof. intros. split_and!; auto with pgw. Qed.

Lemma tx_step_trans x1 w1 x2 w2 x3 w3 :
  tx_step x1 w1 x2 w2 -> tx_step x2 w2 x3 w3 -> tx_step x1 w1 x3 w3.
Proof.
  intros (? & ? & ? & Hp & ?) (? & ? & ? & Hp' & ?).
  split_and!; [done|congruence|by eapply w_keeps_trans|by rewrite Hp'|by etrans].
Qed.

(** Only buffer, counter and wire change. *)
Lemma tx_ok_change x w x' w' o k :
  tx_ok x w -> tcore x' = CoreInterface.set_counter k (CoreInterface.set_output o (tcore x)) ->
  ring_tx_ x' = ring_tx_ x -> zlen o < burst_to_ (tcore x) -> w_keeps w w' -> tx_ok x' w'.
Proof.
  intros [] Ec Er Ho Hk. constructor; rewrite ?Er, ?Ec; cbn; try done.
  eapply Forall_impl; [done|]. intros r. apply Hk.
Qed.

Lemma transmit_ok output x w :
  tx_ok x w -> exists x' w', transmit tx_burst output x w = Ok (x', w') /\
    tx_ok x' w' /\ ring_tx_ x' = ring_tx_ x /\ w_keeps w w' /\ output_ (tcore x') = [] /\
    wire x `prefix_of` wire x' /\ wire x' ++ w_all w' ≡ₚ wire x ++ output ++ w_all w.
Proof.
  intros Ho. unfold transmit. rewrite no_test. res_simpl. pose proof (tx_burst_range output) as Hr.
  assert (Hz : zlen (@nil rte_mbuf) < burst_to_ (tcore x))
    by (pose proof (tx_fill _ _ Ho); unfold CoreInterface.output_cnt_ in *; cbn; lia).
  destruct (_ <? zlen output) eqn:E; to_prop; eexists _, _; (split; [reflexivity|]).
  - split_and!; try done; [| |by apply prefix_app_r|].
    + eapply tx_ok_change; [done|reflexivity|done|done|apply w_keeps_free].
    + apply w_keeps_free.
    + cbn [wire]. rewrite w_all_free, <-!app_assoc. by rewrite (app_assoc (take _ _)), take_drop.
  - split_and!; try done; [| |by apply prefix_app_r|].
    + eapply (tx_ok_change x w _ w [] (counter_ (tcore x))); [done| |done|done|apply w_keeps_refl].
      cbn. by destruct (tcore x).
    + apply w_keeps_refl.
    + cbn [wire]. rewrite (take_ge output) by lia. by rewrite <-app_assoc.
Qed.

Lemma drain_ring_ok n x w :
  tx_ok x w -> (n < length (ring_tx_ x))%nat ->
  exists x' w', drain_ring tx_burst (x, w) (Z.of_nat n) = Ok (x', w') /\ tx_step x w x' w'.
Proof.
  intros Ho Hn. unfold drain_ring. rewrite Nat2Z.id.
  destruct (lookup_lt_is_Some_2 (ring_tx_ x) n Hn) as [r Er]. rewrite Er. res_simpl.
  assert (Hv : w_valid r w) by (by apply (Forall_lookup_1 _ _ _ _ (tx_rings _ _ Ho) Er)).
  destruct (w_dequeue_spec r (burst_fm_ (tcore x)) w (tx_fm _ _ Ho) Hv) as (w1 & E & _).
  rewrite E. res_simpl. destruct (w_all_dequeue _ _ _ _ _ (tx_fm _ _ Ho) E) as [Hall Hlen].
  assert (Hk : w_keeps w w1).
  { unfold w_dequeue_burst in E. destruct (w_ring _ w); res_simpl; simplify_eq/=. apply w_keeps_set. }
  set (got := take _ _) in *. pose proof Ho as []. unfold CoreInterface.output_cnt_, require in *.
  assert (Hl : zlen (output_ (tcore x) ++ got) = zlen (output_ (tcore x)) + zlen got)
    by (rewrite length_app; lia).
  rewrite (proj2 (Z.leb_le _ DEFAULT_MBUF_ARRAY_SIZE)) by lia. res_simpl.
  assert (Ho1 : tx_ok x w1).
  { constructor; try done. eapply Forall_impl; [done|]. intros q. apply Hk. }
  destruct (zlen got =? 0) eqn:Ez; to_prop.
  { exists x, w1. split; [done|]. split_and!; try done. unfold tx_held. rewrite Hall.
    destruct got; [done|cbn in Ez; lia]. }
  destruct (_ <? burst_to_ (tcore x)) eqn:Eb; to_prop.
  - eexists _, w1. split; [reflexivity|]. split_and!; try done.
    + eapply (tx_ok_change x w _ w1 _ (counter_ (tcore x))); [done| |done|done|done]. cbn. by destruct (tcore x).
    + unfold tx_held. cbn. rewrite Hall. by rewrite <-app_assoc.
  - destruct (transmit_ok (output_ (tcore x) ++ got) x w1 Ho1) as (x' & w' & Et & Hx & Hr & Hk' & Eo & Hpre & Hp).
    rewrite Et. exists x', w'. split; [done|]. split_and!; try done; [by eapply w_keeps_trans|].
    unfold tx_held. rewrite Eo, Hall. cbn. rewrite Hp. by rewrite <-!app_assoc.
Qed.

Lemma drain_all_ok x w :
  tx_ok x w ->
  exists x' w', foldM (drain_ring tx_burst) (seqZ 0 (CoreInterface.GetN CNT_WORKER (tcore x))) (x, w)
    = Ok (x', w') /\ tx_step x w x' w'.
Proof.
  intros Ho. cbn [CoreInterface.GetN]. rewrite (tx_cnt _ _ Ho).
  assert (Hn : forall n, (n <= length (ring_tx_ x))%nat -> exists x' w',
    foldM (drain_ring tx_burst) (seqZ 0 (Z.of_nat n)) (x, w) = Ok (x', w') /\ tx_step x w x' w').
  { induction n as [|n IH]; intros Hle; [exists x, w; auto using tx_step_refl|].
    destruct IH as (x1 & w1 & E & Hs); [lia|].
    destruct (drain_ring_ok n x1 w1) as (x2 & w2 & E2 & Hs2); [apply Hs|destruct Hs as (? & -> & _); lia|].
    rewrite seqZ_S, foldM_app, E. res_simpl. rewrite Z.add_0_l. cbn [foldM]. rewrite E2. res_simpl.
    exists x2, w2. split; [done|]. by eapply tx_step_trans. }
  by apply Hn.
Qed.

Lemma BurstFlushTx_ok x w :
  tx_ok x w -> exists x' w', BurstFlushTx tx_burst (x, w) = Ok (x', w') /\ tx_step x w x' w'.
Proof.
  intros Ho. unfold BurstFlushTx. destruct (0 <? _) eqn:E; to_prop.
  - destruct (transmit_ok (output_ (tcore x)) x w Ho) as (x' & w' & Et & Hx & Hr & Hk' & Eo & Hpre & Hp).
    rewrite Et. exists x', w'. split; [done|]. split_and!; try done.
    unfold tx_held. by rewrite Eo.
  - eexists _, w. split; [reflexivity|]. unfold CoreInterface.output_cnt_ in E.
    assert (En : output_ (tcore x) = []) by (destruct (output_ (tcore x)); [done|cbn in E; lia]).
    split_and!; auto with pgw.
    + eapply (tx_ok_change x w _ w [] (counter_ (tcore x))); [done| |done| |apply w_keeps_refl].
      * cbn. by destruct (tcore x).
      * pose proof (tx_fill _ _ Ho) as Hf. unfold CoreInterface.output_cnt_ in Hf. by rewrite En in Hf.
    + unfold tx_held. cbn. by rewrite En.
Qed.
End tx_lemmas.

(** ** Properties *)
Module Properties.
Section properties.
Context `{DpdkOk} `{B : Build}.
Implicit Types (w : world rte_mbuf) (m : rte_mbuf).

(** The worker a packet goes to. *)
Definition flow (n type : Z) m : nat :=
  match CoreRx.flow_worker n type m with Ok k => Z.to_nat k | Fault _ => 0%nat end.

Lemma flow_worker_eq n type m :
  0 < n -> pkt_room m ->
  CoreRx.flow_worker n type m = Ok (Z.of_nat (flow n type m)) /\ (flow n type m < Z.to_nat n)%nat.
Proof.
  intros Hn [[] ? ?].
  assert (Hp : exists p, CoreRx.flow_pos type m = Ok p /\ 0 <= p <= 81).
  { unfold CoreRx.flow_pos. autounfold with pkt.
    repeat ((rewrite ld_ok by lia; res_simpl) || case_if); eexists; (split; [reflexivity|]); lia. }
  destruct Hp as (p & Ep & Hp). unfold flow, CoreRx.flow_worker. autounfold with pkt. rewrite Ep. res_simpl.
  rewrite ld_ok by lia. res_simpl. unfold require. rewrite (proj2 (Z.eqb_neq n 0)) by lia. cbn [negb]. res_simpl.
  pose proof (Z.mod_pos_bound (u32 (signed 8 (le_load (slice (data_off m + p) (Z.of_nat 1) (buf m))))) n Hn).
  split; [f_equal; lia|lia].
Qed.

(** the receive core keeps flows together and in order: in one cycle every
    received packet goes to the worker its flow byte selects; for each worker
    with room, ring followed by buffer is what it was followed by exactly its
    packets in the order of arrival, also when the cycle flushes; and in any
    case no packet is lost or duplicated. *)
Theorem rx_keeps_flow_order (nic : list rte_mbuf) (cnt : Z) (x : CoreRx.CoreRx) w :
  TEST_MODE = false -> rx_ok (CoreRx.rx x) w -> 0 < zlen (ring_rx_ (CoreRx.rx x)) ->
  Forall pkt_room nic -> zlen nic <= DEFAULT_MBUF_ARRAY_SIZE ->
  let s := CoreRx.rx x in
  let n := zlen (ring_rx_ s) in
  exists cnt' x' w', CoreRx.Cycle nic cnt (x, w) = Ok (cnt', (x', w')) /\
    rx_ok (CoreRx.rx x') w' /\ rx_held (CoreRx.rx x') w' ≡ₚ nic ++ rx_held s w /\
    forall k, (k < length (ring_rx_ s))%nat ->
      zlen (filter (fun m => flow n (CoreRx.type_ x) m = k) nic) <= slack k s w ->
      stream k (CoreRx.rx x') w' = stream k s w ++ filter (fun m => flow n (CoreRx.type_ x) m = k) nic.
Proof.
  intros Ht Ho Hn Hr Hl s n. unfold CoreRx.Cycle. rewrite Ht. res_simpl. unfold require.
  rewrite (proj2 (Z.leb_le _ _) Hl). res_simpl. fold s. fold s in Ho.
  set (f := flow n (CoreRx.type_ x)).
  destruct (burst_sent f nic s w Ho) as (s1 & w1 & E & Ho1 & Hs1 & Hp1 & Hst1).
  { eapply Forall_impl; [exact Hr|]. intros m Hm. destruct (flow_worker_eq n (CoreRx.type_ x) m Hn Hm). unfold f. lia. }
  assert (Eb : (if zlen nic =? 0 then Ok (s, w) else burst_loop (CoreRx.one_packet
    (CoreInterface.GetN CNT_WORKER (rcore s)) (CoreRx.type_ x)) nic (s, w)) = Ok (s1, w1)).
  { rewrite burst_loop_eq, <-E. destruct (zlen nic =? 0) eqn:Ez; to_prop.
    - by destruct nic; [|cbn in Ez; lia].
    - apply foldM_ext_in. eapply Forall_impl; [exact Hr|]. intros m Hm sw.
      unfold CoreRx.one_packet. cbn [CoreInterface.GetN]. rewrite (rx_cnt _ _ Ho). fold n.
      by rewrite (proj1 (flow_worker_eq n (CoreRx.type_ x) m Hn Hm)). }
  rewrite Eb. res_simpl. case_if.
  - destruct (flush_ok (fun n _ => n) s1 w1 Ho1) as (s2 & w2 & E2 & Ho2 & Hs2 & Hp2 & _ & Hst2).
    unfold CoreRx.BurstFlushRx. rewrite E2. res_simpl. eexists _, _, w2. split; [reflexivity|]. cbn [CoreRx.rx].
    split_and!; [done|by rewrite Hp2|]. intros k Hk Hsl. destruct (Hst1 k Hk Hsl) as [Ea Es].
    rewrite <-Ea. apply Hst2; [by rewrite (proj1 Hs1)|lia].
  - eexists _, _, w1. split; [reflexivity|]. cbn [CoreRx.rx].
    split_and!; [done|done|]. intros k Hk Hsl. by apply Hst1.
Qed.

(** transmission: a cycle drains the worker rings and hands full bursts to
    the NIC without losing or duplicating a packet (each is on the wire, still
    buffered, in a ring or freed), packets on the wire keep their place, and the
    burst buffer never overflows, for any number of packets the NIC accepts. *)
Theorem tx_conserves (tx_burst : list rte_mbuf -> Z) (cnt : Z) (x : CoreTx.CoreTx) w :
  (forall l, 0 <= tx_burst l <= zlen l) -> TEST_MODE = false -> tx_ok x w ->
  exists cnt' x' w', CoreTx.Cycle tx_burst cnt (x, w) = Ok (cnt', (x', w')) /\ tx_ok x' w' /\
    CoreTx.wire x' ++ output_ (CoreTx.tcore x') ++ w_all w' ≡ₚ
      CoreTx.wire x ++ output_ (CoreTx.tcore x) ++ w_all w /\
    CoreTx.wire x `prefix_of` CoreTx.wire x'.
Proof.
  intros Hb Ht Ho. unfold CoreTx.Cycle. cbn [fst].
  destruct (drain_all_ok tx_burst Hb Ht x w Ho) as (x1 & w1 & E & Hs). rewrite E. res_simpl.
  case_if; [|eexists _, x1, w1; split; [reflexivity|]; by destruct Hs as (? & ? & ? & ? & ?)].
  destruct (BurstFlushTx_ok tx_burst Hb Ht x1 w1 (proj1 Hs)) as (x2 & w2 & E2 & Hs2). rewrite E2. res_simpl.
  destruct (tx_step_trans _ _ _ _ _ _ Hs Hs2) as (? & ? & ? & ? & ?).
  eexists _, x2, w2. by split; [reflexivity|].
Qed.

(** drops are over-counted on transmission: when the NIC accepts only part of
    a flush, the packets behind it are freed, but the drop counter grows by the
    size of the whole burst. *)
Theorem tx_overcounts_drops (tx_burst : list rte_mbuf -> Z) (x : CoreTx.CoreTx) w :
  TEST_MODE = false -> 0 <= tx_burst (output_ (CoreTx.tcore x)) < zlen (output_ (CoreTx.tcore x)) ->
  0 <= drop_count_ (counter_ (CoreTx.tcore x)) < 2 ^ 64 ->
  exists x' w', CoreTx.BurstFlushTx tx_burst (x, w) = Ok (x', w') /\
    zlen (w_freed w') - zlen (w_freed w) =
      zlen (output_ (CoreTx.tcore x)) - tx_burst (output_ (CoreTx.tcore x)) /\
    drop_count_ (counter_ (CoreTx.tcore x')) =
      u64 (drop_count_ (counter_ (CoreTx.tcore x)) + zlen (output_ (CoreTx.tcore x))).
Proof.
  intros Ht Hb Hc. unfold CoreTx.BurstFlushTx, CoreInterface.output_cnt_.
  rewrite (proj2 (Z.ltb_lt 0 _)) by lia. unfold CoreTx.transmit. rewrite Ht. res_simpl.
  rewrite (proj2 (Z.ltb_lt _ (zlen (output_ (CoreTx.tcore x))))) by lia. eexists _, _. split; [reflexivity|]. split.
  - cbn. rewrite length_app, length_drop. lia.
  - cbn [CoreTx.tcore]. rewrite (inc_drop (zlen (output_ (CoreTx.tcore x)))) by done. done.
Qed.

(** the flush of the receive distributor counts the configured burst size
    for a dropped buffer, whatever the number of packets it freed. *)
Theorem distributor_flush_counts_burst k (s : RxState) w :
  rx_ok s w -> (k < length (ring_rx_ s))%nat -> w_room (ring_of k s) w < zlen (output_rx_ s !!! k) ->
  0 <= drop_count_ (counter_ (rcore s)) < 2 ^ 64 ->
  exists s' w', RxBuffers.flush_one (fun _ s => burst_to_ (rcore s)) (s, w) (Z.of_nat k) = Ok (s', w') /\
    zlen (w_freed w') - zlen (w_freed w) = zlen (output_rx_ s !!! k) /\
    zlen (output_rx_ s !!! k) < burst_to_ (rcore s) /\
    drop_count_ (counter_ (rcore s')) = u64 (drop_count_ (counter_ (rcore s)) + burst_to_ (rcore s)).
Proof.
  intros Ho Hk Hr Hc. destruct (rx_lookup s w k Ho Hk) as (Eo & Er & Hf & Hv).
  unfold RxBuffers.flush_one, RxBuffers.output_at, RxBuffers.ring_at, require.
  rewrite (proj2 (Z.leb_le 0 (Z.of_nat k))) by lia. res_simpl. rewrite Nat2Z.id, Eo. res_simpl.
  destruct (w_enqueue_bulk_spec (ring_of k s) (output_rx_ s !!! k) w Hv)
    as (ret & w1 & Ee & Hfr & _ & [(_ & _ & ?)|(-> & _)]); [lia|].
  destruct Hv as [r Hv]. assert (0 <= w_room (ring_of k s) w) by (unfold w_room; rewrite Hv; apply free_count_nonneg).
  rewrite (proj2 (Z.eqb_neq _ 0)) by lia. rewrite Er. res_simpl. rewrite Ee. res_simpl. cbn [Z.eqb].
  eexists _, _. split; [reflexivity|]. split_and!; [|done|].
  - cbn. rewrite length_app, (proj1 Hfr). lia.
  - cbn [rcore RxBuffers.set_output RxBuffers.set_rcore]. by rewrite (inc_drop _ (rcore s)).
Qed.

(** What the receive distributor makes of a packet: the driver must have
    reported IPv4. *)
Inductive route := ToEgress | ToIngress | ToTap.
Definition rx_route m : route :=
  let f := head_bytes 50 m in
  if RTE_ETH_IS_IPV4_HDR (packet_type m) && (byte_at 23 f =? IPPROTO_UDP) then
    if be16_at 36 f =? PGWEGRESSPORT then ToEgress
    else if (be16_at 36 f =? GTPU_PORT) && negb (byte_at 43 f =? GTPU_ECHO_REQ) &&
            negb (byte_at 43 f =? GTPU_ECHO_RES) && negb (le_load (slice 46 4 f) =? 0)
         then ToIngress else ToTap
  else ToTap.

(** routing by the receive distributor: of the packets reported as IPv4, UDP
    to port 50999 goes to the egress worker, GTP-U that is neither an echo
    request nor a response and has a non-zero TEID to the ingress worker;
    everything else goes to the tap, or is freed when the tap ring is full. *)
Theorem rx_distributor_routes (tap : option Z) (sw : RxState * world rte_mbuf) m :
  bytes_ok (buf m) -> 0 <= data_off m -> data_off m + 50 <= zlen (buf m) ->
  CoreRxDistributor.one_packet tap sw m =
    match rx_route m with
    | ToEgress => RxBuffers.SendOrBufferRx CoreRxDistributor.EGRESS m sw
    | ToIngress => RxBuffers.SendOrBufferRx CoreRxDistributor.INGRESS m sw
    | ToTap => w ← CoreRxDistributor.SendTapInterface tap m sw.2; Ok (sw.1, w)
    end.
Proof.
  intros Hb Ho Hl. unfold CoreRxDistributor.one_packet, rx_route, is_udp, is_gtpu. autounfold with pkt.
  destruct (RTE_ETH_IS_IPV4_HDR _); cbn [andb]; [|done]. add_consts.
  rewrite (ld1_head 50 m 23) by lia. res_simpl. destruct (_ =? IPPROTO_UDP); [|done].
  assert (L2 : length (slice 36 2 (head_bytes 50 m)) = 2%nat)
    by (unfold head_bytes; rewrite length_slice; [done|lia|lia|rewrite zlen_slice; lia]).
  assert (B2 : bytes_ok (slice 36 2 (head_bytes 50 m))) by (unfold head_bytes; by apply Forall_slice, Forall_slice).
  assert (E2 : ld 2 m (data_off m + 36) = Ok (le_load (slice 36 2 (head_bytes 50 m))))
    by (rewrite ld_ok by lia; unfold head_bytes; by rewrite slice_slice by lia).
  assert (E4 : ld 4 m (data_off m + 46) = Ok (le_load (slice 46 4 (head_bytes 50 m))))
    by (rewrite ld_ok by lia; unfold head_bytes; by rewrite slice_slice by lia).
  rewrite E2. res_simpl. rewrite (eqb_htons _ PGWEGRESSPORT) by (done || unfold PGWEGRESSPORT; lia).
  unfold be16_at. destruct (_ =? PGWEGRESSPORT); [done|].
  rewrite (eqb_htons _ GTPU_PORT) by (done || unfold GTPU_PORT; lia).
  destruct (_ =? GTPU_PORT); cbn [andb]; [|done].
  rewrite (ld1_head 50 m 43) by lia. res_simpl.
  destruct (_ =? GTPU_ECHO_REQ); cbn [negb orb andb]; [done|].
  destruct (_ =? GTPU_ECHO_RES); cbn [negb orb andb]; [done|].
  rewrite E4. res_simpl. by destruct (_ =? 0).
Qed.
End properties.

(** Two worker rings, a full one and an empty one, and a received G-PDU. *)
#[local] Instance plain_build : Build := {|
  ARCH := 11; TEST_MODE := false; CANNOT_USE_GRE := false; COUNTER_RX := false;
  TUNNEL_RX := false; NON_SUPPORTED_ERRIND := true |}.
Definition pkt (a : Z) : rte_mbuf :=
  let g := set_packet_type 17 Distributor.Properties.gpdu in
  mk_mbuf a (buf g) (data_off g) (data_len g) (pkt_len g) 1 None (packet_type g) 0.
Definition rings2 : @world DpdkModel.dpdk rte_mbuf :=
  @mk_world DpdkModel.dpdk rte_mbuf
    (<[5 := (0%nat, []) : DpdkModel.queue rte_mbuf]> {[ 6 := (9%nat, [pkt 1]) : DpdkModel.queue rte_mbuf ]}) [].
Definition rx2 : RxState :=
  mk_rx (mk_core 0 0 1 0 0 0 2 0 0 4 3 None None [] 0 CoreCounter.Clear) [Some 6; Some 5]
    ([] :: [pkt 2] :: replicate 14 []).

Lemma pkt_is_room a : pkt_room (pkt a).
Proof.
  constructor; [|vm_compute; congruence..].
  constructor; try (vm_compute; congruence). apply bytes_okb_ok. vm_compute. reflexivity.
Qed.

Lemma rx2_ok : rx_ok rx2 rings2.
Proof.
  constructor; try (vm_compute; congruence).
  - repeat (constructor; [vm_compute; congruence|]). constructor.
  - repeat (constructor; [eexists; vm_compute; reflexivity|]). constructor.
  - apply (bool_decide_unpack _). vm_compute. exact I.
  - cbn. lia.
Qed.

Lemma rx_keeps_flow_order_witness :
  exists cnt' x' w', CoreRx.Cycle [pkt 7; pkt 8] 0 (CoreRx.mk rx2 0 None, rings2) = Ok (cnt', (x', w')) /\
    stream 0 (CoreRx.rx x') w' = [pkt 1; pkt 7; pkt 8].
Proof.
  destruct (rx_keeps_flow_order (D := DpdkModel.dpdk) [pkt 7; pkt 8] 0 (CoreRx.mk rx2 0 None) rings2)
    as (cnt' & x' & w' & E & _ & _ & Hst).
  - reflexivity.
  - exact rx2_ok.
  - vm_compute. reflexivity.
  - constructor; [apply pkt_is_room|]. constructor; [apply pkt_is_room|constructor].
  - vm_compute. congruence.
  - exists cnt', x', w'. split; [exact E|]. rewrite Hst.
    + vm_compute. reflexivity.
    + cbn. lia.
    + vm_compute. congruence.
Defined.

(** A transmit core with one buffered packet; the NIC accepts one per call. *)
Definition tx2 : CoreTx.CoreTx :=
  CoreTx.mk (mk_core 0 0 1 0 0 0 2 0 0 4 3 None None [pkt 2; pkt 3] 0 CoreCounter.Clear) [Some 5; Some 6] None 0 [].
Definition accept_one (l : list rte_mbuf) : Z := Z.min 1 (zlen l).

Lemma tx_conserves_witness :
  exists cnt' x' w', CoreTx.Cycle accept_one 0 (tx2, rings2) = Ok (cnt', (x', w')) /\
    CoreTx.wire x' ++ output_ (CoreTx.tcore x') ++ w_all w' ≡ₚ [pkt 2; pkt 3] ++ w_all rings2.
Proof.
  destruct (tx_conserves (D := DpdkModel.dpdk) accept_one 0 tx2 rings2) as (cnt' & x' & w' & E & _ & Hp & _).
  - intros l. unfold accept_one. lia.
  - reflexivity.
  - constructor; try (vm_compute; congruence).
    repeat (constructor; [eexists; vm_compute; reflexivity|]). constructor.
  - exists cnt', x', w'. split; [exact E|exact Hp].
Defined.

Lemma tx_overcounts_drops_witness :
  exists x' w', CoreTx.BurstFlushTx accept_one (tx2, rings2) = Ok (x', w') /\
    zlen (w_freed w') - 0 = 1 /\ drop_count_ (counter_ (CoreTx.tcore x')) = 2.
Proof.
  apply (tx_overcounts_drops (D := DpdkModel.dpdk) accept_one tx2 rings2).
  - reflexivity.
  - vm_compute. split; congruence.
  - cbn. lia.
Defined.

Lemma distributor_flush_counts_burst_witness :
  exists s' w', RxBuffers.flush_one (fun _ s => burst_to_ (rcore s)) (rx2, rings2) 1 = Ok (s', w') /\
    zlen (w_freed w') - 0 = 1 /\ 1 < 3 /\ drop_count_ (counter_ (rcore s')) = 3.
Proof.
  apply (distributor_flush_counts_burst (D := DpdkModel.dpdk) 1%nat rx2 rings2).
  - exact rx2_ok.
  - cbn. lia.
  - vm_compute. reflexivity.
  - cbn. lia.
Defined.

Lemma rx_distributor_routes_witness :
  CoreRxDistributor.one_packet (Some 6) (rx2, rings2) (pkt 7) =
    RxBuffers.SendOrBufferRx CoreRxDistributor.INGRESS (pkt 7) (rx2, rings2).
Proof.
  apply (rx_distributor_routes (D := DpdkModel.dpdk) (Some 6) (rx2, rings2) (pkt 7)).
  - apply bytes_okb_ok. vm_compute. reflexivity.
  - vm_compute. congruence.
  - vm_compute. congruence.
Defined.
End Properties.
