(* ===== verification/Counter.v ===== *)
(** * The counter workers

    [CoreCounterWorker] (dataplane/src/core/core_counter_worker.cc) and its two
    subclasses [CoreCounterIngressWorker] and [CoreCounterEgressWorker]
    (core_counter_ingress_worker.cc, core_counter_egress_worker.cc): traffic is
    aggregated per user in 16 hash maps and forwarded in messages of at most 64
    entries towards the log and transfer workers.

    Packets and counting messages are different kinds of objects: packets live
    in a [world rte_mbuf] (input and pass-through rings), messages in a
    [world counting] (the ring behind [SendOrBuffer]).  A message is the record
    the code writes into a fresh buffer; the entries beyond [count] are never
    read.  What the code does not fix is a parameter: [iter], the order in which
    a hash map is traversed, [alloc], whether the n-th buffer of a call could be
    allocated, the clock [now], and the value of the uninitialised [map_tail].
    The time stamp counters, which are only logged, are left out. *)

From S2P Require Import Prelude Dpdk Packet CoreBase RxTx.

Record counting_item := mk_item { key : Z; used : Z; used_3g : Z; used_low : Z }.
Record counting := mk_counting { ctype : Z; len : Z; count : Z; items : list counting_item }.
Definition sizeof_counting := 1036.

#[export] Instance counting_item_eq_dec : EqDecision counting_item.
Proof. solve_decision. Defined.

Definition COUNT_MAP_SZ := 16.
Definition TRANSFER_RING_BURST := 64.
Definition TRANSFER_RING_SZ := 1024.
Definition THRESHOLD_TRANSFER := 1048576.
Definition DCOUNTER_LIMIT := 10000.
Definition COUNTER_EGRESS := 0xff.

Record CounterWorker := mk_cw {
  ccore : CoreInterface counting;
  type_ : Z;
  cur_ : Z;
  map_ : list (gmap Z counting_item);
  forward_count_ : Z;
  virtual_count_ : Z;
  counting_count_ : Z;
  traffic_bytes_ : Z;
  ring_pass_through_ : option Z;
  output_pass_through_ : list rte_mbuf;
}.

Module CoreCounterWorker.
Section worker.
Context `{D : Dpdk}.
Implicit Types (x : CounterWorker) (wp : world rte_mbuf) (wm : world counting) (m : rte_mbuf).

(** [output_cnt_pass_through_] is not initialised: what the first
    [output_cnt_pass_through_] entries hold is an argument. *)
Definition construct (c : CoreInterface counting) (type : Z) (uninit : list rte_mbuf) : CounterWorker :=
  mk_cw c type 0 (replicate (Z.to_nat COUNT_MAP_SZ) ∅) 0 0 0 0 None uninit.

Definition GetType : TYPE := WORKER.

Definition set_ccore (c : CoreInterface counting) x : CounterWorker :=
  mk_cw c (type_ x) (cur_ x) (map_ x) (forward_count_ x) (virtual_count_ x) (counting_count_ x)
    (traffic_bytes_ x) (ring_pass_through_ x) (output_pass_through_ x).
Definition set_pass (o : list rte_mbuf) x : CounterWorker :=
  mk_cw (ccore x) (type_ x) (cur_ x) (map_ x) (forward_count_ x) (virtual_count_ x) (counting_count_ x)
    (traffic_bytes_ x) (ring_pass_through_ x) o.

Definition SetRingAddr (order : ORDER) (ring : option Z) x : res CounterWorker :=
  match order with
  | FROM => Ok (set_ccore (CoreInterface.set_rings ring (ring_to_ (ccore x)) (ccore x)) x)
  | TO => Ok (set_ccore (CoreInterface.set_rings (ring_fm_ (ccore x)) ring (ccore x)) x)
  | EXTEND => Ok (mk_cw (ccore x) (type_ x) (cur_ x) (map_ x) (forward_count_ x) (virtual_count_ x)
                    (counting_count_ x) (traffic_bytes_ x) ring (output_pass_through_ x))
  | _ => Fault RteExit
  end.

(** ** Aggregation *)

(** Add [val] to the field of the mode. *)
Definition add_used (mode val : Z) (it : counting_item) : counting_item :=
  if mode =? POLICER_MODE_LOW then mk_item (key it) (used it) (used_3g it) (u32 (used_low it + val))
  else if mode =? POLICER_MODE_3G then mk_item (key it) (used it) (u32 (used_3g it + val)) (used_low it)
  else mk_item (key it) (u32 (used it + val)) (used_3g it) (used_low it).

Definition new_item (now mode val : Z) : counting_item :=
  if mode =? POLICER_MODE_LOW then mk_item (u32 now) 0 0 val
  else if mode =? POLICER_MODE_3G then mk_item (u32 now) 0 val 0
  else mk_item (u32 now) val 0 0.

Definition Counting (now key used mode : Z) x : CounterWorker :=
  let idx := Z.to_nat (key mod COUNT_MAP_SZ) in
  let mp := map_ x !!! idx in
  let val := used in
  let it := match mp !! key with Some it => add_used mode val it | None => new_item now mode val end in
  mk_cw (ccore x) (type_ x) (cur_ x) (<[idx := <[key := it]> mp]> (map_ x)) (forward_count_ x)
    (virtual_count_ x) (u64 (counting_count_ x + 1)) (u64 (traffic_bytes_ x + val))
    (ring_pass_through_ x) (output_pass_through_ x).

(** ** Forwarding *)
Variable iter : gmap Z counting_item -> list (Z * counting_item).
Variable alloc : Z -> bool.

(** The state of the loops of [ForwardTransfer]. *)
Record fwd := mk_fwd {
  maps : list (gmap Z counting_item);
  pending : list counting_item;       (* item[0 .. counter) of the open message *)
  dcounter : Z;
  ringid : Z;
  skip_next : bool;
  map_tail : option Z;
  out : CoreInterface counting * world counting;
}.

Definition BE24 (len : Z) : Z :=
  u8 len * 65536 + u8 (Z.shiftr len 8) * 256 + u8 (Z.shiftr len 16).

Definition message (type : Z) (its : list counting_item) : counting :=
  mk_counting (u8 type) (BE24 sizeof_counting) (zlen its) its.

(** Erase the entry, then stop at the limit. *)
Definition erase (n idx k : Z) (f : fwd) : bool * fwd :=
  let maps := <[Z.to_nat idx := delete k (maps f !!! Z.to_nat idx)]> (maps f) in
  if DCOUNTER_LIMIT <=? dcounter f then
    (true, mk_fwd maps (pending f) (dcounter f) (ringid f) true (map_tail f) (out f))
  else (false, mk_fwd maps (pending f) (dcounter f) (ringid f) (skip_next f) (Some (n + 1)) (out f)).

Definition ripe (now : Z) (it : counting_item) : bool :=
  (THRESHOLD_TRANSFER <? used it) || (key it <? now - 60).

(** One entry of map [idx], the [n]-th to be visited; [true] leaves the loop. *)
Definition visit (type now n idx : Z) (f : fwd) (e : Z * counting_item) : res (bool * fwd) :=
  let '(k, it) := e in
  if ripe now it then
    let its := pending f ++ [mk_item k (used it) (used_3g it) (used_low it)] in
    let dc := dcounter f + 1 in
    if TRANSFER_RING_BURST <=? zlen its then
      o ← CoreInterface.SendOrBuffer (message type its) (out f);
      let rid := ringid f + 1 in
      if TRANSFER_RING_SZ <=? rid then Ok (true, mk_fwd (maps f) [] dc rid true (map_tail f) o)
      else
        _ ← require (alloc rid) RteExit;
        Ok (erase n idx k (mk_fwd (maps f) [] dc rid (skip_next f) (map_tail f) o))
    else Ok (erase n idx k (mk_fwd (maps f) its dc (ringid f) (skip_next f) (map_tail f) (out f)))
  else
    Ok (false, mk_fwd (maps f) (pending f) (dcounter f) (ringid f) (skip_next f) (Some (n + 1)) (out f)).

Fixpoint visit_map (type now n idx : Z) (es : list (Z * counting_item)) (f : fwd) : res fwd :=
  match es with
  | [] => Ok f
  | e :: es' =>
      r ← visit type now n idx f e;
      if (r.1 : bool) then Ok r.2 else visit_map type now n idx es' r.2
  end.

(** The maps in the order [sort], starting at [cur_]. *)
Definition sort (cur : Z) : list Z := seqZ cur (COUNT_MAP_SZ - cur) ++ seqZ 0 cur.

Fixpoint visit_maps (type now n : Z) (order : list Z) (f : fwd) : res fwd :=
  match order with
  | [] => Ok f
  | idx :: order' =>
      if skip_next f then Ok f
      else
        f ← visit_map type now n idx (iter (maps f !!! Z.to_nat idx)) f;
        visit_maps type now (n + 1) order' f
  end.

(** The new position: [map_tail] is used even if no entry was visited. *)
Definition advance (cur tail : Z) : Z :=
  if tail =? COUNT_MAP_SZ then 0
  else
    let cur := u32 (cur + tail) in
    if COUNT_MAP_SZ <=? cur then cur mod COUNT_MAP_SZ else cur.

(** Worker and store after the call, and the number of buffers that were
    allocated but neither sent nor freed. *)
Definition ForwardTransfer (now uninit_tail : Z) (s : CounterWorker * world counting)
    : res (CounterWorker * world counting * Z) :=
  let '(x, wm) := s in
  _ ← require (alloc 0) RteExit;
  f ← visit_maps (type_ x) now 0 (sort (cur_ x)) (mk_fwd (map_ x) [] 0 0 false None (ccore x, wm));
  o ← (if 0 <? zlen (pending f) then CoreInterface.SendOrBuffer (message (type_ x) (pending f)) (out f)
       else Ok (out f));
  let leaked := if (zlen (pending f) =? 0) && negb (dcounter f =? 0) && (ringid f <? TRANSFER_RING_SZ)
                then 1 else 0 in
  o ← CoreInterface.BurstFlush o;
  Ok (mk_cw o.1 (type_ x) (advance (cur_ x) (default uninit_tail (map_tail f))) (maps f)
        (u64 (forward_count_ x + dcounter f)) (virtual_count_ x) (counting_count_ x) (traffic_bytes_ x)
        (ring_pass_through_ x) (output_pass_through_ x), o.2, leaked).

(** ** Pass-through *)
Definition SendOrBufferPassThrough m (s : CounterWorker * world rte_mbuf)
    : res (CounterWorker * world rte_mbuf) :=
  let '(x, wp) := s in
  match ring_pass_through_ x with
  | None => Ok (x, wp)
  | Some _ =>
      _ ← require (zlen (output_pass_through_ x) <? DEFAULT_MBUF_ARRAY_SIZE) Undefined;
      let o := output_pass_through_ x ++ [m] in
      let burst_to := burst_to_ (ccore x) in
      if zlen o <? burst_to then Ok (set_pass o x, wp)
      else
        let burst := take (Z.to_nat burst_to) o in
        e ← w_enqueue_bulk (ring_pass_through_ x) burst wp;
        let '(ret, wp) := e in
        if ret =? 0 then
          Ok (set_pass [] (set_ccore (CoreInterface.count_drop 0 burst_to (ccore x)) x), w_free burst wp)
        else Ok (set_pass [] x, wp)
  end.

Definition BurstFlushPassthrough (s : CounterWorker * world rte_mbuf) : res (CounterWorker * world rte_mbuf) :=
  let '(x, wp) := s in
  let o := output_pass_through_ x in
  if zlen o =? 0 then Ok (x, wp)
  else
    match ring_pass_through_ x with
    | None => Ok (x, wp)
    | Some _ =>
        e ← w_enqueue_bulk (ring_pass_through_ x) o wp;
        let '(ret, wp) := e in
        if ret =? 0 then
          Ok (set_pass [] (set_ccore (CoreInterface.count_drop 0 (zlen o) (ccore x)) x), w_free o wp)
        else Ok (set_pass [] x, wp)
    end.

(** ** The cycle of the base class: count G-PDUs, free every packet *)

(** User and size a packet is counted with. *)
Definition counted (type : Z) m : res (option (Z * Z)) :=
  if RTE_ETH_IS_IPV4_HDR (packet_type m) then
    let ipv4 := mtod_offset m sizeof_ether_hdr in
    proto ← ld 1 m (ipv4 + o_next_proto_id);
    if proto =? IPPROTO_UDP then
      let udp := mtod_offset m (sizeof_ether_hdr + sizeof_ipv4_hdr) in
      port ← ld 2 m (udp + o_dst_port);
      if port =? htons GTPU_PORT then
        let gtpu := mtod_offset m (sizeof_ether_hdr + sizeof_ipv4_hdr + sizeof_udp_hdr) in
        len ← ld 2 m (gtpu + o_gtpu_length);
        let used := htons len in
        let inip := mtod_offset m (sizeof_ether_hdr + sizeof_ipv4_hdr + sizeof_udp_hdr + sizeof_gtpu_hdr) in
        dst ← ld 4 m (inip + o_dst_addr);
        src ← ld 4 m (inip + o_src_addr);
        vihl ← ld 1 m (inip + o_version_ihl);
        ds ← (if negb (Z.land vihl 0xf0 =? 0x40) then
                dst ← ld 4 m (inip + o_ip6_dst_addr + 4);
                src ← ld 4 m (inip + o_ip6_src_addr + 4);
                Ok (dst, src)
              else Ok (dst, src));
        flags ← ld 1 m gtpu;
        type_ ← ld 1 m (gtpu + o_gtpu_type);
        if (bf_get 5 3 flags =? GTPU_VERSION_1) && (type_ =? 0xff) then
          Ok (Some (if type =? CoreRx.COUNTER_INGRESS then ntohl ds.2 else ntohl ds.1, used))
        else Ok None
      else Ok None
    else Ok None
  else Ok None.

Definition count_packet (now : Z) (s : CounterWorker * world rte_mbuf) m
    : res (CounterWorker * world rte_mbuf) :=
  let '(x, wp) := s in
  c ← counted (type_ x) m;
  let x := match c with Some (k, u) => Counting now k u 0 x | None => x end in
  Ok (x, w_free [m] wp).

Definition Cycle (now uninit_tail cnt : Z) (s : CounterWorker * world rte_mbuf * world counting)
    : res (CounterWorker * world rte_mbuf * world counting) :=
  let '(x, wp, wm) := s in
  r ← w_dequeue_burst (ring_fm_ (ccore x)) (burst_fm_ (ccore x)) wp;
  let '(input, wp) := r in
  _ ← require (zlen input <=? DEFAULT_MBUF_ARRAY_SIZE) Undefined;
  s ← (if zlen input =? 0 then Ok (x, wp)
       else
         let x := mk_cw (ccore x) (type_ x) (cur_ x) (map_ x) (forward_count_ x)
                    (u64 (virtual_count_ x + zlen input)) (counting_count_ x) (traffic_bytes_ x)
                    (ring_pass_through_ x) (output_pass_through_ x) in
         burst_loop (count_packet now) input (x, wp));
  let '(x, wp) := s in
  let fd := flush_delay_ (ccore x) in
  _ ← require (negb (fd =? 0)) Undefined;
  if cnt mod fd =? 0 then
    r ← ForwardTransfer now uninit_tail (x, wm);
    let '(x, wm, _) := r in Ok (x, wp, wm)
  else Ok (x, wp, wm).

(** ** The cycle of the ingress and egress counters: apply the policer's colour,
    count and pass on *)
Definition police_packet (now : Z) (s : CounterWorker * world rte_mbuf) m
    : res (CounterWorker * world rte_mbuf) :=
  let '(x, wp) := s in
  let u := udata64 m in
  if (udat_mode u =? POLICER_MODE_LOW) && negb (udat_color u =? POLICER_COLOR_GREEN) then
    Ok (x, w_free [m] wp)
  else if (udat_mode u =? POLICER_MODE_3G) && (udat_color u =? POLICER_COLOR_RED) then
    Ok (x, w_free [m] wp)
  else
    let x := if negb (Z.land (udat_flag u) MBFU_FLAG_PDU =? 0)
             then Counting now (udat_teid u) (udat_size u) (udat_mode u) x else x in
    SendOrBufferPassThrough m (x, wp).

Definition PoliceCycle (now uninit_tail cnt : Z) (s : CounterWorker * world rte_mbuf * world counting)
    : res (Z * (CounterWorker * world rte_mbuf * world counting)) :=
  let '(x, wp, wm) := s in
  r ← w_dequeue_burst (ring_fm_ (ccore x)) (burst_fm_ (ccore x)) wp;
  let '(input, wp) := r in
  _ ← require (zlen input <=? DEFAULT_MBUF_ARRAY_SIZE) Undefined;
  s ← (if zlen input =? 0 then Ok (x, wp) else burst_loop (police_packet now) input (x, wp));
  let '(x, wp) := s in
  if flush_delay_ (ccore x) <=? cnt then
    r ← ForwardTransfer now uninit_tail (x, wm);
    let '(x, wm, _) := r in
    s ← BurstFlushPassthrough (x, wp);
    Ok (0, (s.1, s.2, wm))
  else Ok (cnt, (x, wp, wm)).
End worker.
End CoreCounterWorker.

(** The two subclasses differ only in the type they report. *)
Module CoreCounterIngressWorker.
Section worker.
Context `{D : Dpdk}.
Definition construct (c : CoreInterface counting) (uninit : list rte_mbuf) : CounterWorker :=
  CoreCounterWorker.construct c CoreRx.COUNTER_INGRESS uninit.
Definition GetType : TYPE := COUNTER.
Definition Cycle := CoreCounterWorker.PoliceCycle.
End worker.
End CoreCounterIngressWorker.

Module CoreCounterEgressWorker.
Section worker.
Context `{D : Dpdk}.
Definition construct (c : CoreInterface counting) (uninit : list rte_mbuf) : CounterWorker :=
  CoreCounterWorker.construct c COUNTER_EGRESS uninit.
Definition GetType : TYPE := COUNTER.
Definition Cycle := CoreCounterWorker.PoliceCycle.
End worker.
End CoreCounterEgressWorker.

(** ** What was counted for whom

    [slot] is the field of an entry a mode is counted in; [billed k mode l] is
    what the entries [l] charge user [k] with in that field. *)
Definition slot_of (mode : Z) : Z :=
  if mode =? POLICER_MODE_LOW then 2 else if mode =? POLICER_MODE_3G then 1 else 0.
Definition slot (s : Z) (it : counting_item) : Z :=
  if s =? 2 then used_low it else if s =? 1 then used_3g it else used it.
Definition billed_item (k s : Z) (it : counting_item) : Z := if key it =? k then slot s it else 0.
Fixpoint billed (k s : Z) (l : list counting_item) : Z :=
  match l with [] => 0 | it :: l => billed_item k s it + billed k s l end.

(** An entry as it is forwarded: the map key in place of the time. *)
Definition report (e : Z * counting_item) : counting_item :=
  mk_item e.1 (used e.2) (used_3g e.2) (used_low e.2).
Definition entries_of (m : gmap Z counting_item) : list counting_item := report <$> map_to_list m.
Definition entries (ms : list (gmap Z counting_item)) : list counting_item := concat (entries_of <$> ms).

Lemma billed_app k s l1 l2 : billed k s (l1 ++ l2) = billed k s l1 + billed k s l2.
Proof. induction l1 as [|it l1 IH]; cbn [billed app]; lia. Qed.

#[export] Instance billed_perm k s : Proper ((≡ₚ) ==> eq) (billed k s).
Proof. intros l1 l2 Hp. induction Hp; cbn [billed]; lia. Qed.

Lemma entries_of_delete (m : gmap Z counting_item) k it :
  m !! k = Some it -> entries_of m ≡ₚ report (k, it) :: entries_of (delete k m).
Proof.
  intros Hk. unfold entries_of. rewrite <-(insert_delete_id m k it) at 1 by done.
  rewrite map_to_list_insert by apply lookup_delete_eq. done.
Qed.

Lemma entries_insert ms (i : nat) m m' :
  ms !! i = Some m -> entries_of m ++ entries (<[i := m']> ms) ≡ₚ entries_of m' ++ entries ms.
Proof.
  intros Hi. unfold entries. rewrite list_fmap_insert.
  apply concat_insert_perm. by rewrite list_lookup_fmap, Hi.
Qed.

(** Taking the entry of [k] out of map [i]. *)
Lemma entries_delete ms (i : nat) m k it :
  ms !! i = Some m -> m !! k = Some it ->
  report (k, it) :: entries (<[i := delete k m]> ms) ≡ₚ entries ms.
Proof.
  intros Hi Hk. apply (Permutation_app_inv_l (entries_of (delete k m))).
  rewrite <-(entries_insert ms i m (delete k m) Hi), (entries_of_delete m k it Hk).
  cbn [app]. by rewrite <-Permutation_middle.
Qed.

(** Storing an entry for [k] in map [i]. *)
Lemma entries_put ms (i : nat) m k it :
  ms !! i = Some m ->
  entries (<[i := <[k := it]> m]> ms) ≡ₚ report (k, it) :: entries (<[i := delete k m]> ms).
Proof.
  intros Hi. symmetry.
  rewrite <-(entries_delete (<[i := <[k := it]> m]> ms) i (<[k := it]> m) k it);
    [|by eapply list_lookup_insert_eq, lookup_lt_Some|apply lookup_insert_eq].
  rewrite list_insert_insert_eq, delete_insert_eq. done.
Qed.

(** ** Counting charges exactly the packet *)
Section counting_lemmas.
Context `{D : Dpdk}.
Implicit Types (x : CounterWorker).
Import CoreCounterWorker.

Lemma slot_add_used s mode v it :
  slot_of s = slot_of mode -> slot (slot_of s) (add_used mode v it) = u32 (slot (slot_of s) it + v).
Proof.
  intros ->. unfold slot_of, add_used. repeat case_match; to_prop; done.
Qed.

Lemma slot_add_used_ne s mode v it :
  slot_of s <> slot_of mode -> slot (slot_of s) (add_used mode v it) = slot (slot_of s) it.
Proof. unfold slot_of, add_used. intros. repeat case_match; to_prop; done. Qed.

Lemma slot_new_item s now mode v :
  slot (slot_of s) (new_item now mode v) = if slot_of s =? slot_of mode then v else 0.
Proof. unfold slot_of, new_item. repeat case_match; to_prop; try done; lia. Qed.

Lemma slot_report s k it : slot s (report (k, it)) = slot s it.
Proof. done. Qed.

(** What a counted packet adds to user [k] in the field of [s]. *)
Definition charge (k s key used mode : Z) : Z :=
  if (key =? k) && (slot_of s =? slot_of mode) then used else 0.

Lemma Counting_bills now key used mode x k s :
  length (map_ x) = 16%nat ->
  u32 (billed k (slot_of s) (entries (map_ (Counting now key used mode x)))) =
  u32 (billed k (slot_of s) (entries (map_ x)) + charge k s key used mode).
Proof.
  intros Hl. unfold Counting, charge. cbn [map_]. unfold COUNT_MAP_SZ.
  set (i := Z.to_nat (key mod 16)).
  assert (Hi : (i < 16)%nat) by (unfold i; pose proof (Z.mod_pos_bound key 16); lia).
  destruct (lookup_lt_is_Some_2 (map_ x) i) as [m Hm]; [lia|].
  rewrite (list_lookup_total_correct _ _ _ Hm), (entries_put _ _ _ _ _ Hm). cbn [billed].
  unfold billed_item. cbn [Counter.key report fst]. rewrite slot_report.
  destruct (m !! key) as [it|] eqn:Hk.
  - rewrite <-(entries_delete _ _ _ _ _ Hm Hk). cbn [billed]. unfold billed_item.
    cbn [Counter.key report fst]. rewrite slot_report.
    destruct (key =? k); cbn [andb]; [|f_equal; lia].
    destruct (slot_of s =? slot_of mode) eqn:E; to_prop.
    + rewrite slot_add_used, wrap_add_l by done. f_equal. lia.
    + rewrite slot_add_used_ne by done. f_equal. lia.
  - rewrite delete_id, (list_insert_id _ _ _ Hm) by done. rewrite slot_new_item.
    destruct (key =? k); cbn [andb]; f_equal; lia.
Qed.

Lemma Counting_length now key used mode x :
  length (map_ (Counting now key used mode x)) = length (map_ x).
Proof. apply length_insert. Qed.
End counting_lemmas.

(** ** Forwarding moves entries into messages *)
Section forward_lemmas.
Context `{DpdkOk}.
Context (iter : gmap Z counting_item -> list (Z * counting_item)) (alloc : Z -> bool).
Context (iter_perm : forall m, iter m ≡ₚ map_to_list m) (alloc_ok : forall n, alloc n = true).
Implicit Types (f : CoreCounterWorker.fwd) (o : CoreInterface counting * world counting).
Import CoreCounterWorker.

(** Messages buffered, in a ring or freed; the entries they report. *)
Definition msgs_held o : list counting := output_ o.1 ++ w_all o.2.
Definition told (l : list counting) : list counting_item := concat (items <$> l).

Definition message_ok (type : Z) (c : counting) : Prop :=
  ctype c = u8 type /\ len c = BE24 sizeof_counting /\ count c = zlen (items c) /\ 1 <= count c <= TRANSFER_RING_BURST.

(** Inside a call that started with maps [ms] and store [o]; [extra] are entries
    that are already in the open message and not yet erased. *)
Record fwd_ok (type : Z) (ms : list (gmap Z counting_item)) o (extra : list counting_item) f : Prop := {
  f_core : core_ok (out f).1 (out f).2;
  f_conf : same_conf o.1 (out f).1;
  f_keeps : w_keeps o.2 (out f).2;
  f_maps : length (maps f) = 16%nat;
  f_room : zlen (pending f) < TRANSFER_RING_BURST;
  f_ring : 0 <= ringid f;
  f_count : dcounter f = TRANSFER_RING_BURST * ringid f + zlen (pending f);
  f_limit : dcounter f <= DCOUNTER_LIMIT;
  f_told : exists new, msgs_held (out f) ≡ₚ new ++ msgs_held o /\ Forall (message_ok type) new /\
             zlen (told new) = TRANSFER_RING_BURST * ringid f /\
             told new ++ pending f ++ entries (maps f) ≡ₚ extra ++ entries ms;
}.

Lemma told_app l1 l2 : told (l1 ++ l2) = told l1 ++ told l2.
Proof. unfold told. by rewrite fmap_app, concat_app. Qed.

#[export] Instance told_perm : Proper ((≡ₚ) ==> (≡ₚ)) told.
Proof. unfold told. by intros l1 l2 ->. Qed.

(** Closing the open message. *)
Lemma send_message type its o :
  core_ok o.1 o.2 -> 1 <= zlen its <= TRANSFER_RING_BURST ->
  exists o', CoreInterface.SendOrBuffer (message type its) o = Ok o' /\ core_ok o'.1 o'.2 /\
    same_conf o.1 o'.1 /\ w_keeps o.2 o'.2 /\
    msgs_held o' ≡ₚ message type its :: msgs_held o /\ message_ok type (message type its).
Proof.
  destruct o as [c w]. intros Hc Hl.
  destruct (SendOrBuffer_ok (message type its) c w Hc) as (c' & w' & E & ? & ? & ? & _ & Hp).
  exists (c', w'). by split_and!.
Qed.

(** One entry of map [idx]. *)
Definition visited (now idx : Z) f (e : Z * counting_item) (b : bool) f' : Prop :=
  b = skip_next f' /\ skip_next f' = (DCOUNTER_LIMIT <=? dcounter f') /\
  (forall j, j <> Z.to_nat idx -> maps f' !! j = maps f !! j) /\
  (forall m, maps f !! Z.to_nat idx = Some m ->
     maps f' !! Z.to_nat idx = Some (if ripe now e.2 then delete e.1 m else m)).

Lemma erase_ok type ms o n idx k it m f :
  fwd_ok type ms o [report (k, it)] f -> skip_next f = false ->
  maps f !! Z.to_nat idx = Some m -> m !! k = Some it ->
  fwd_ok type ms o [] (erase n idx k f).2 /\
  (erase n idx k f).1 = skip_next (erase n idx k f).2 /\
  skip_next (erase n idx k f).2 = (DCOUNTER_LIMIT <=? dcounter (erase n idx k f).2) /\
  maps (erase n idx k f).2 = <[Z.to_nat idx := delete k m]> (maps f).
Proof.
  intros Ho Hs Hm Hk. unfold erase. rewrite (list_lookup_total_correct _ _ _ Hm).
  assert (Hg : forall b t, fwd_ok type ms o []
            (mk_fwd (<[Z.to_nat idx := delete k m]> (maps f)) (pending f) (dcounter f) (ringid f) b t (out f))).
  { intros b t. destruct Ho as [? ? ? Hl ? ? ? ? (new & Hh & Hf & Hn & Hp)].
    constructor; try done; cbn; [by rewrite length_insert|].
    exists new. split_and!; try done. apply (Permutation_cons_inv (a := report (k, it))).
    rewrite <-(Hp : _ ≡ₚ report (k, it) :: entries ms), <-(entries_delete _ _ _ _ _ Hm Hk). solve_Permutation. }
  destruct (DCOUNTER_LIMIT <=? dcounter f) eqn:E; cbn [fst snd skip_next dcounter maps]; rewrite ?E; auto.
Qed.

Lemma visit_ok type ms o now n idx e f :
  fwd_ok type ms o [] f -> skip_next f = false -> dcounter f < DCOUNTER_LIMIT ->
  (exists m, maps f !! Z.to_nat idx = Some m /\ m !! e.1 = Some e.2) ->
  exists b f', visit alloc type now n idx f e = Ok (b, f') /\ fwd_ok type ms o [] f' /\
    visited now idx f e b f'.
Proof.
  destruct e as [k it]. cbn [fst snd]. intros Ho Hs Hd (m & Hm & Hk). unfold visit, visited. cbn [fst snd].
  destruct (ripe now it) eqn:Hr.
  2: { eexists _, _. split; [done|]. split; [by destruct Ho|]. cbn. split_and!; [done| |done|].
       - rewrite Hs. symmetry. apply Z.leb_gt. done.
       - intros m' Hm'. done. }
  change (mk_item k (used it) (used_3g it) (used_low it)) with (report (k, it)).
  set (its := pending f ++ [report (k, it)]).
  assert (Hl : zlen its = zlen (pending f) + 1) by (unfold its; rewrite length_app; cbn; lia).
  assert (Hmaps : forall f', maps f' = <[Z.to_nat idx := delete k m]> (maps f) ->
     (forall j, j <> Z.to_nat idx -> maps f' !! j = maps f !! j) /\
     (forall m0, maps f !! Z.to_nat idx = Some m0 -> maps f' !! Z.to_nat idx = Some (delete k m0))).
  { intros f' ->. split; [intros j Hj; by apply list_lookup_insert_ne|].
    intros m0 Hm0. simplify_eq. by eapply list_lookup_insert_eq, lookup_lt_Some. }
  pose proof Ho as [Hc Hcf Hkp Hlen Hroom Hrid Hcnt Hlim (new & Hh & Hf & Hn & Hp)].
  unfold TRANSFER_RING_BURST, DCOUNTER_LIMIT in *.
  destruct (64 <=? zlen its) eqn:Hfull; to_prop.
  - destruct (send_message type its (out f) Hc) as (o' & -> & Hc' & Hcf' & Hk' & Hh' & Hmo);
      [unfold TRANSFER_RING_BURST; lia|].
    res_simpl. rewrite (proj2 (Z.leb_gt TRANSFER_RING_SZ _)) by (unfold TRANSFER_RING_SZ; lia).
    rewrite alloc_ok. res_simpl.
    destruct (erase_ok type ms o n idx k it m
      (mk_fwd (maps f) [] (dcounter f + 1) (ringid f + 1) (skip_next f) (map_tail f) o')) as (Ho' & E1 & E2 & E3);
      try done.
    { constructor; cbn; unfold TRANSFER_RING_BURST, DCOUNTER_LIMIT; try done; try lia.
      - by eapply same_conf_trans.
      - by eapply w_keeps_trans.
      - exists (message type its :: new). split_and!.
        + by rewrite Hh', Hh.
        + by constructor.
        + unfold told in *. cbn [fmap list_fmap concat message items]. rewrite length_app. lia.
        + unfold told in *. cbn [fmap list_fmap concat message items app] in *. unfold its.
          rewrite <-Hp. solve_Permutation. }
    eexists _, _. rewrite <-surjective_pairing. split; [done|]. split; [done|]. split; [done|]. split; [done|].
    by apply Hmaps.
  - destruct (erase_ok type ms o n idx k it m
      (mk_fwd (maps f) its (dcounter f + 1) (ringid f) (skip_next f) (map_tail f) (out f))) as (Ho' & E1 & E2 & E3);
      try done.
    { constructor; cbn; unfold TRANSFER_RING_BURST, DCOUNTER_LIMIT; try done; try lia.
      exists new. split_and!; try done. unfold its. cbn [app] in *. rewrite <-Hp. solve_Permutation. }
    eexists _, _. rewrite <-surjective_pairing. split; [done|]. split; [done|]. split; [done|]. split; [done|].
    by apply Hmaps.
Qed.

Definition limit_sync f : Prop := skip_next f = (DCOUNTER_LIMIT <=? dcounter f).

Lemma limit_sync_lt f : limit_sync f -> skip_next f = false -> dcounter f < DCOUNTER_LIMIT.
Proof. unfold limit_sync. intros -> E. by to_prop. Qed.

(** What is left of a map once its entries [es] were visited. *)
Definition cleared (now : Z) (es : list (Z * counting_item)) (m m' : gmap Z counting_item) : Prop :=
  forall k it, m' !! k = Some it -> m !! k = Some it /\ ((k, it) ∈ es -> ripe now it = false).

Lemma visit_map_ok type ms o now n idx es f m :
  fwd_ok type ms o [] f -> limit_sync f -> skip_next f = false ->
  maps f !! Z.to_nat idx = Some m -> NoDup es.*1 -> Forall (fun e => m !! e.1 = Some e.2) es ->
  exists f' m', visit_map alloc type now n idx es f = Ok f' /\ fwd_ok type ms o [] f' /\ limit_sync f' /\
    (forall j, j <> Z.to_nat idx -> maps f' !! j = maps f !! j) /\
    maps f' !! Z.to_nat idx = Some m' /\ (skip_next f' = false -> cleared now es m m').
Proof.
  revert f m. induction es as [|e es IH]; intros f m Ho Hy Hs Hm Hnd Hall; cbn [visit_map].
  { exists f, m. split_and!; try done. intros _ k it Hk. split; [done|]. by intros ?%elem_of_nil. }
  inversion_clear Hall as [|? ? He Hall']. cbn in Hnd. apply NoDup_cons in Hnd as [Hni Hnd].
  destruct (visit_ok type ms o now n idx e f Ho Hs) as (b & f1 & -> & Ho1 & -> & Hy1 & Hj & Hi);
    [by apply limit_sync_lt|by exists m|].
  res_simpl. cbn [fst snd]. specialize (Hi m Hm). change (limit_sync f1) in Hy1.
  destruct (skip_next f1) eqn:Hs1; [eexists f1, _; split_and!; try done; congruence|].
  destruct (IH f1 _ Ho1 Hy1 Hs1 Hi Hnd) as (f' & m' & Ef & Ho' & Hy' & Hj' & Hm' & Hc).
  { apply Forall_forall. intros [k it] Hin. pose proof (proj1 (Forall_forall _ _) Hall' _ Hin) as Hk.
    cbn in *. case_match; [|done]. rewrite lookup_delete_ne; [done|].
    intros <-. apply Hni, list_elem_of_fmap. by exists (e.1, it). }
  exists f', m'. split_and!; try done; [intros j Hne; by rewrite Hj', Hj|].
  intros Hs' k it Hk. destruct (Hc Hs' k it Hk) as [Hk1 Hr].
  assert (Hkm : m !! k = Some it) by (case_match; [by apply lookup_delete_Some in Hk1 as [_ ?]|done]).
  split; [done|]. intros [Heq|Hin]%elem_of_cons; [|by apply Hr].
  destruct (ripe now it) eqn:E; [|done]. rewrite <-Heq in Hk1. cbn in Hk1. rewrite E in Hk1.
  by rewrite lookup_delete_eq in Hk1.
Qed.

(** The maps of [order]: unless the limit was hit, no ripe entry is left. *)
Lemma visit_maps_ok type ms o now n order f :
  fwd_ok type ms o [] f -> limit_sync f -> NoDup order -> Forall (fun i => 0 <= i < 16) order ->
  exists f', visit_maps iter alloc type now n order f = Ok f' /\ fwd_ok type ms o [] f' /\ limit_sync f' /\
    (forall j, Z.of_nat j ∉ order -> maps f' !! j = maps f !! j) /\
    (skip_next f' = false -> forall i m' k it,
       i ∈ order -> maps f' !! Z.to_nat i = Some m' -> m' !! k = Some it -> ripe now it = false).
Proof.
  revert n f. induction order as [|idx order IH]; intros n f Ho Hy Hnd Hall; cbn [visit_maps].
  { exists f. split_and!; try done. intros _ i ? ? ? Hi. by apply elem_of_nil in Hi. }
  destruct (skip_next f) eqn:Hs; [exists f; split_and!; try done; congruence|].
  apply NoDup_cons in Hnd as [Hni Hnd]. apply Forall_cons in Hall as [Hi Hall].
  destruct (lookup_lt_is_Some_2 (maps f) (Z.to_nat idx)) as [m Hm]; [rewrite (f_maps _ _ _ _ _ Ho); lia|].
  rewrite (list_lookup_total_correct _ _ _ Hm).
  destruct (visit_map_ok type ms o now n idx (iter m) f m Ho Hy Hs Hm)
    as (f1 & m1 & -> & Ho1 & Hy1 & Hj1 & Hm1 & Hc1).
  { rewrite iter_perm. apply NoDup_fst_map_to_list. }
  { rewrite iter_perm. apply Forall_forall. intros [k it] Hin. by apply elem_of_map_to_list in Hin. }
  res_simpl. destruct (IH (n + 1) f1 Ho1 Hy1 Hnd Hall) as (f' & Ef & Ho' & Hy' & Hj' & Hc').
  exists f'. split_and!; try done.
  - intros j Hj. apply not_elem_of_cons in Hj as [Hj1' Hj2]. rewrite Hj', Hj1; [done|lia|done].
  - intros Hs' i m' k it [->|Hin]%elem_of_cons Hm' Hk; [|by eapply Hc'].
    rewrite Hj' in Hm' by (by rewrite Z2Nat.id by lia). simplify_eq.
    destruct (skip_next f1) eqn:Hs1.
    + destruct order; cbn [visit_maps] in Ef; rewrite ?Hs1 in Ef; simplify_eq; congruence.
    + destruct (Hc1 eq_refl k it Hk) as [Hkm Hr]. apply Hr. rewrite iter_perm. by apply elem_of_map_to_list.
Qed.

Lemma sort_perm cur : 0 <= cur < 16 -> sort cur ≡ₚ seqZ 0 16.
Proof.
  intros Hc. unfold sort, COUNT_MAP_SZ. rewrite Permutation_app_comm.
  replace 16 with (cur + (16 - cur)) at 2 by lia. rewrite seqZ_app by lia. done.
Qed.

Lemma advance_range cur tail : 0 <= advance cur tail < 16.
Proof.
  unfold advance, COUNT_MAP_SZ. destruct (tail =? 16); [lia|].
  pose proof (wrap_range 32 (cur + tail)). destruct (16 <=? u32 (cur + tail)) eqn:E; to_prop.
  - apply Z.mod_pos_bound. lia.
  - unfold u32 in *. lia.
Qed.

(** A call that forwarded the messages [new]. *)
Record forwarded (now : Z) (x : CounterWorker) (wm : world counting)
    (x' : CounterWorker) (wm' : world counting) (leaked : Z) (new : list counting) : Prop := {
  fd_core : core_ok (ccore x') wm' /\ same_conf (ccore x) (ccore x') /\ w_keeps wm wm';
  fd_maps : length (map_ x') = 16%nat /\ 0 <= cur_ x' < COUNT_MAP_SZ;
  fd_same : type_ x' = type_ x /\ ring_pass_through_ x' = ring_pass_through_ x /\
            output_pass_through_ x' = output_pass_through_ x;
  fd_sent : output_ (ccore x') = [] /\ w_all wm' ≡ₚ new ++ output_ (ccore x) ++ w_all wm;
  fd_messages : Forall (message_ok (type_ x)) new;
  fd_entries : told new ++ entries (map_ x') ≡ₚ entries (map_ x);
  fd_limit : zlen (told new) <= DCOUNTER_LIMIT;
  fd_ripe : zlen (told new) < DCOUNTER_LIMIT -> forall i m k it,
    map_ x' !! i = Some m -> m !! k = Some it -> ripe now it = false;
  fd_leak : leaked = if (0 <? zlen (told new)) && (zlen (told new) mod TRANSFER_RING_BURST =? 0) then 1 else 0;
}.

(** Closing a call: send what is pending. *)
Lemma close_message type ms o f :
  fwd_ok type ms o [] f ->
  exists o' new,
    (if 0 <? zlen (pending f) then CoreInterface.SendOrBuffer (message type (pending f)) (out f) else Ok (out f))
      = Ok o' /\
    core_ok o'.1 o'.2 /\ same_conf o.1 o'.1 /\ w_keeps o.2 o'.2 /\ msgs_held o' ≡ₚ new ++ msgs_held o /\
    Forall (message_ok type) new /\ told new ++ entries (maps f) ≡ₚ entries ms /\ zlen (told new) = dcounter f.
Proof.
  intros [Hc Hcf Hkp Hlen Hroom Hrid Hcnt Hlim (new & Hh & Hf & Hn & Hp)].
  destruct (0 <? zlen (pending f)) eqn:E; to_prop.
  - destruct (send_message type (pending f) (out f) Hc) as (o' & -> & ? & ? & ? & Hh' & Hmo); [lia|].
    exists o', (message type (pending f) :: new). unfold told in *. cbn [fmap list_fmap concat message items].
    split_and!; try done.
    + by eapply same_conf_trans.
    + by eapply w_keeps_trans.
    + by rewrite Hh', Hh.
    + by constructor.
    + rewrite <-Hp. solve_Permutation.
    + rewrite length_app. lia.
  - assert (Hnil : pending f = []) by (destruct (pending f); [done|cbn in E; lia]).
    rewrite Hnil in *. exists (out f), new. split_and!; try done. cbn in Hcnt. lia.
Qed.

Lemma leak_iff f :
  0 <= ringid f -> ringid f < TRANSFER_RING_SZ -> zlen (pending f) < TRANSFER_RING_BURST ->
  dcounter f = TRANSFER_RING_BURST * ringid f + zlen (pending f) ->
  (zlen (pending f) =? 0) && negb (dcounter f =? 0) && (ringid f <? TRANSFER_RING_SZ) =
  (0 <? dcounter f) && (dcounter f mod TRANSFER_RING_BURST =? 0).
Proof.
  unfold TRANSFER_RING_SZ, TRANSFER_RING_BURST. intros. rewrite (proj2 (Z.ltb_lt (ringid f) 1024)), andb_true_r by lia.
  assert (Hm : dcounter f mod 64 = zlen (pending f)).
  { replace (dcounter f) with (zlen (pending f) + ringid f * 64) by lia.
    rewrite Z_mod_plus_full. apply Z.mod_small. lia. }
  rewrite Hm. destruct (zlen (pending f) =? 0) eqn:E1, (dcounter f =? 0) eqn:E2, (0 <? dcounter f) eqn:E3;
    to_prop; cbn; try done; lia.
Qed.

Lemma ForwardTransfer_ok now uninit_tail x wm :
  core_ok (ccore x) wm -> length (map_ x) = 16%nat -> 0 <= cur_ x < COUNT_MAP_SZ ->
  exists x' wm' leaked new,
    ForwardTransfer iter alloc now uninit_tail (x, wm) = Ok (x', wm', leaked) /\
    forwarded now x wm x' wm' leaked new.
Proof.
  intros Hc Hl Hcur. unfold ForwardTransfer. rewrite alloc_ok. res_simpl.
  destruct (visit_maps_ok (type_ x) (map_ x) (ccore x, wm) now 0 (sort (cur_ x))
              (mk_fwd (map_ x) [] 0 0 false None (ccore x, wm))) as (f & -> & Ho & Hy & _ & Hr).
  { constructor; cbn; try done; [apply same_conf_refl|apply w_keeps_refl|]. exists []. by split_and!. }
  { done. }
  { rewrite sort_perm by done. apply NoDup_seqZ. }
  { rewrite sort_perm by done. apply Forall_forall. intros i. rewrite elem_of_seqZ. lia. }
  res_simpl. destruct (close_message _ _ _ _ Ho) as (o' & new & -> & Hc1 & Hcf1 & Hk1 & Hh & Hm & He & Hn).
  res_simpl. destruct o' as [c1 w1]. cbn [fst snd] in *.
  destruct (BurstFlush_ok c1 w1 Hc1) as (c2 & w2 & -> & Hc2 & Hcf2 & Hk2 & _ & Ho2 & Hp2).
  res_simpl. eexists _, _, _, new. split; [done|].
  pose proof Ho as [? ? ? ? ? Hrid ? Hlim _].
  constructor; cbn; try done.
  - split_and!; [done|exact (same_conf_trans _ _ _ Hcf1 Hcf2)|exact (w_keeps_trans _ _ _ Hk1 Hk2)].
  - split; [done|]. apply advance_range.
  - split; [done|]. rewrite Hp2. apply Hh.
  - lia.
  - intros Hlt i m k it Hi Hk.
    assert (Hs : skip_next f = false) by (rewrite Hy; apply Z.leb_gt; lia).
    eapply (Hr Hs (Z.of_nat i)); [|by rewrite Nat2Z.id; exact Hi|exact Hk].
    rewrite sort_perm by done. apply elem_of_seqZ. apply lookup_lt_Some in Hi. lia.
  - rewrite Hn. rewrite leak_iff; try done. unfold TRANSFER_RING_SZ, TRANSFER_RING_BURST, DCOUNTER_LIMIT in *. lia.
Qed.
End forward_lemmas.

(** ** The pass-through buffer *)
Section pass_lemmas.
Context `{DpdkOk}.
Implicit Types (x : CounterWorker) (wp : world rte_mbuf) (wm : world counting) (m : rte_mbuf).
Import CoreCounterWorker.

(** A counter worker connected to its three rings. *)
Record counter_ok x wp wm : Prop := {
  c_core : core_ok (ccore x) wm;
  c_maps : length (map_ x) = 16%nat;
  c_cur : 0 <= cur_ x < COUNT_MAP_SZ;
  c_fm : w_valid (ring_fm_ (ccore x)) wp;
  c_burst : 0 <= burst_fm_ (ccore x) <= DEFAULT_MBUF_ARRAY_SIZE;
  c_pass : w_valid (ring_pass_through_ x) wp;
  c_fill : zlen (output_pass_through_ x) < burst_to_ (ccore x);
}.

(** Packets the worker answers for; the ordered stream behind it and the room
    left in that direction. *)
Definition pass_held x wp : list rte_mbuf := output_pass_through_ x ++ w_all wp.
Definition pass_stream x wp : list rte_mbuf := w_objs (ring_pass_through_ x) wp ++ output_pass_through_ x.
Definition pass_slack x wp : Z := w_room (ring_pass_through_ x) wp - zlen (output_pass_through_ x).

(** Only buffers and drop counters differ. *)
Definition pass_same x x' : Prop :=
  exists k o, x' = set_pass o (set_ccore (CoreInterface.set_counter k (ccore x)) x).

Lemma pass_same_refl x : pass_same x x.
Proof. exists (counter_ (ccore x)), (output_pass_through_ x). by destruct x as [[]]. Qed.

Lemma pass_same_ok x wp wm x' wp' :
  counter_ok x wp wm -> pass_same x x' -> w_keeps wp wp' ->
  0 <= drop_count_ (counter_ (ccore x')) < 2 ^ 64 ->
  zlen (output_pass_through_ x') < burst_to_ (ccore x) -> counter_ok x' wp' wm.
Proof.
  intros [[] ? ? ? ? ? ?] (k & o & ->) Hk Hd Hf. constructor; try done; by apply Hk.
Qed.

Lemma drop_range n x :
  0 <= drop_count_ (counter_ (ccore x)) < 2 ^ 64 ->
  0 <= drop_count_ (counter_ (CoreInterface.count_drop 0 n (ccore x))) < 2 ^ 64.
Proof. intros. rewrite inc_drop by done. by apply wrap_range. Qed.

(** Handing [l] to the pass-through ring, or dropping it. *)
Lemma pass_bulk_ok l x wp wm :
  counter_ok x wp wm -> l <> [] ->
  exists ret wp1 x' wp', w_enqueue_bulk (ring_pass_through_ x) l wp = Ok (ret, wp1) /\
    (if ret =? 0 then (set_pass [] (set_ccore (CoreInterface.count_drop 0 (zlen l) (ccore x)) x), w_free l wp1)
     else (set_pass [] x, wp1)) = (x', wp') /\
    counter_ok x' wp' wm /\ pass_same x x' /\ pass_held x' wp' ≡ₚ l ++ w_all wp /\
    (zlen l <= w_room (ring_pass_through_ x) wp ->
       w_freed wp' = w_freed wp /\ pass_stream x' wp' = w_objs (ring_pass_through_ x) wp ++ l /\
       pass_slack x' wp' = w_room (ring_pass_through_ x) wp - zlen l).
Proof.
  intros Ho Hne. destruct (w_enqueue_bulk_spec _ l wp (c_pass _ _ _ Ho)) as (ret & wp1 & Ee & Hfr & _).
  pose proof (enqueue_keeps _ _ _ _ _ Ee) as Hk. exists ret, wp1. rewrite Ee.
  assert (0 < zlen l) by (destruct l; [done|cbn; lia]).
  assert (0 < burst_to_ (ccore x)) by (pose proof (c_fill _ _ _ Ho); lia).
  assert (Hroom : zlen l <= w_room (ring_pass_through_ x) wp -> ret = zlen l) by (intros; by eapply bulk_room).
  destruct (w_all_enqueue_bulk _ _ _ _ _ Ee) as [[-> Hp]|[-> [_ Hp]]].
  - rewrite (proj2 (Z.eqb_neq (zlen l) 0)) by lia. do 2 eexists. split; [done|]. split; [done|].
    assert (Hs : pass_same x (set_pass [] x)) by (exists (counter_ (ccore x)), []; by destruct x as [[]]).
    split_and!; try done.
    + eapply pass_same_ok; try done. apply (c_core _ _ _ Ho).
    + intros Hl. destruct (bulk_room _ _ _ _ _ Ee Hl) as (_ & Er & Eo).
      unfold pass_stream, pass_slack. cbn. rewrite Eo, Er, app_nil_r. split_and!; [by destruct Hfr|done|lia].
  - cbn [Z.eqb]. do 2 eexists. split; [done|]. split; [done|].
    assert (Hs : pass_same x (set_pass [] (set_ccore (CoreInterface.count_drop 0 (zlen l) (ccore x)) x)))
      by (by eexists _, []).
    split_and!; try done.
    + eapply pass_same_ok; try done. apply drop_range, (c_core _ _ _ Ho).
    + unfold pass_held. cbn [set_pass output_pass_through_ app]. by rewrite w_all_free, Hp.
    + intros Hl%Hroom. lia.
Qed.

Lemma SendOrBufferPassThrough_ok m x wp wm :
  counter_ok x wp wm ->
  exists x' wp', SendOrBufferPassThrough m (x, wp) = Ok (x', wp') /\ counter_ok x' wp' wm /\ pass_same x x' /\
    pass_held x' wp' ≡ₚ m :: pass_held x wp /\
    (1 <= pass_slack x wp -> w_freed wp' = w_freed wp /\ pass_stream x' wp' = pass_stream x wp ++ [m] /\
       pass_slack x' wp' = pass_slack x wp - 1).
Proof.
  intros Ho. unfold SendOrBufferPassThrough. pose proof Ho as [[_ Hb _ Hd] _ _ _ _ Hv Hf].
  destruct (ring_pass_through_ x) as [r|] eqn:Er; [|by destruct Hv]. rewrite <-Er.
  unfold require. rewrite (proj2 (Z.ltb_lt _ DEFAULT_MBUF_ARRAY_SIZE)) by lia. res_simpl.
  set (l := output_pass_through_ x ++ [m]).
  assert (Hl : zlen l = zlen (output_pass_through_ x) + 1) by (unfold l; rewrite length_app; cbn; lia).
  destruct (zlen l <? burst_to_ (ccore x)) eqn:E; to_prop.
  - eexists _, _. split; [done|].
    assert (Hs : pass_same x (set_pass l x)) by (exists (counter_ (ccore x)), l; by destruct x as [[]]).
    split_and!; [by eapply pass_same_ok; eauto using w_keeps_refl|done|..].
    + unfold pass_held, l. cbn. solve_Permutation.
    + intros _. unfold pass_stream, pass_slack. cbn. rewrite Hl. unfold l. rewrite app_assoc. split_and!; [done..|lia].
  - assert (Eb : burst_to_ (ccore x) = zlen l) by lia. rewrite Eb, take_ge by lia.
    destruct (pass_bulk_ok l x wp wm Ho) as (ret & wp1 & x' & wp' & -> & Hx & Ho' & Hs & Hp & Hroom);
      [unfold l; by intros [_ ?]%app_nil|].
    res_simpl. exists x', wp'. split; [destruct (ret =? 0); by simplify_eq|]. split_and!; try done.
    + rewrite Hp. unfold pass_held, l. solve_Permutation.
    + unfold pass_slack. intros Hsl. destruct Hroom as (? & -> & Hsl'); [lia|].
      split_and!; [done|unfold pass_stream, l; by rewrite app_assoc|unfold pass_slack in *; lia].
Qed.

Lemma BurstFlushPassthrough_ok x wp wm :
  counter_ok x wp wm ->
  exists x' wp', BurstFlushPassthrough (x, wp) = Ok (x', wp') /\ counter_ok x' wp' wm /\ pass_same x x' /\
    pass_held x' wp' ≡ₚ pass_held x wp /\ output_pass_through_ x' = [] /\
    (0 <= pass_slack x wp -> w_freed wp' = w_freed wp /\ pass_stream x' wp' = pass_stream x wp).
Proof.
  intros Ho. unfold BurstFlushPassthrough. pose proof (c_pass _ _ _ Ho) as Hv.
  destruct (zlen (output_pass_through_ x) =? 0) eqn:E; to_prop.
  { exists x, wp. split_and!; try done; [apply pass_same_refl|]. by destruct (output_pass_through_ x). }
  destruct (ring_pass_through_ x) as [r|] eqn:Er; [|by destruct Hv]. rewrite <-Er.
  destruct (pass_bulk_ok (output_pass_through_ x) x wp wm Ho)
    as (ret & wp1 & x' & wp' & -> & Hx & Ho' & Hs & Hp & Hroom); [by intros Hn; rewrite Hn in E|].
  res_simpl. exists x', wp'. split; [destruct (ret =? 0); by simplify_eq|]. split_and!; try done.
  - by destruct (ret =? 0); simplify_eq.
  - unfold pass_slack. intros Hsl. destruct Hroom as (? & -> & _); [lia|]. done.
Qed.
End pass_lemmas.

(** ** Charging packets *)
Section bill_lemmas.
Context `{DpdkOk}.
Implicit Types (x : CounterWorker) (wp : world rte_mbuf) (wm : world counting) (m : rte_mbuf).
Import CoreCounterWorker.

(** What user [k] has been charged in the field of mode [s]: in the maps and in
    all messages sent so far, as a 32-bit counter. *)
Definition ledger (k s : Z) x wm : Z :=
  u32 (billed k (slot_of s) (told (msgs_held (ccore x, wm)) ++ entries (map_ x))).

Lemma ledger_Counting now key used mode x wm k s :
  length (map_ x) = 16%nat ->
  ledger k s (Counting now key used mode x) wm = u32 (ledger k s x wm + charge k s key used mode).
Proof.
  intros Hl. unfold ledger. rewrite !billed_app, wrap_add_l, <-Z.add_assoc.
  rewrite <-(wrap_add_r 32 _ (billed k (slot_of s) (entries (map_ (Counting _ _ _ _ _))))).
  change (wrap 32) with u32. rewrite Counting_bills by done. apply wrap_add_r.
Qed.

Lemma ledger_same k s x x' wm : pass_same x x' -> ledger k s x' wm = ledger k s x wm.
Proof. by intros (c & o & ->). Qed.

Lemma ledger_forward now x wm x' wm' leaked new k s :
  forwarded now x wm x' wm' leaked new -> ledger k s x' wm' = ledger k s x wm.
Proof.
  intros [_ _ _ [Ho Hp] _ He _ _ _]. unfold ledger, msgs_held. cbn [fst snd]. rewrite Ho. cbn [app].
  f_equal. apply billed_perm. rewrite Hp, told_app, <-He. solve_Permutation.
Qed.

(** The policer's verdict: low speed passes green only, 3G all but red. *)
Definition conforms m : bool :=
  let u := udata64 m in
  if udat_mode u =? POLICER_MODE_LOW then udat_color u =? POLICER_COLOR_GREEN
  else if udat_mode u =? POLICER_MODE_3G then negb (udat_color u =? POLICER_COLOR_RED)
  else true.

(** What a packet has to add to [ledger k s]. *)
Definition due (k s : Z) m : Z :=
  let u := udata64 m in
  if conforms m && negb (Z.land (udat_flag u) MBFU_FLAG_PDU =? 0)
  then charge k s (udat_teid u) (udat_size u) (udat_mode u) else 0.
Definition dues (k s : Z) (l : list rte_mbuf) : Z := foldr (fun m acc => due k s m + acc) 0 l.

Lemma dues_app k s l1 l2 : dues k s (l1 ++ l2) = dues k s l1 + dues k s l2.
Proof. unfold dues. induction l1 as [|m l1 IH]; cbn [foldr app]; lia. Qed.

(** The packets with verdict [b]. *)
Definition keep (b : bool) (l : list rte_mbuf) : list rte_mbuf :=
  List.filter (fun m => Bool.eqb (conforms m) b) l.

(** From [x, wp] to [x', wp'], having processed [l]. *)
Record policed (wm : world counting) x wp x' wp' (l : list rte_mbuf) : Prop := {
  pd_ok : counter_ok x' wp' wm;
  pd_conf : same_conf (ccore x) (ccore x') /\ ring_pass_through_ x' = ring_pass_through_ x;
  pd_held : pass_held x' wp' ≡ₚ l ++ pass_held x wp;
  pd_bill : forall k s, ledger k s x' wm = u32 (ledger k s x wm + dues k s l);
  pd_order : zlen l <= pass_slack x wp ->
    pass_stream x' wp' = pass_stream x wp ++ keep true l /\
    w_freed wp' = w_freed wp ++ keep false l /\ pass_slack x wp - zlen l <= pass_slack x' wp';
}.

Lemma pass_same_conf x x' : pass_same x x' -> same_conf (ccore x) (ccore x') /\ ring_pass_through_ x' = ring_pass_through_ x.
Proof. intros (k & o & ->). split; [|done]. exists k, (output_ (ccore x)). by destruct x as [[]]. Qed.

Lemma ledger_small k s x wm : u32 (ledger k s x wm) = ledger k s x wm.
Proof. by apply wrap_wrap. Qed.

Lemma police_packet_verdict now x wp m :
  police_packet now (x, wp) m =
  if conforms m then
    SendOrBufferPassThrough m
      (if negb (Z.land (udat_flag (udata64 m)) MBFU_FLAG_PDU =? 0)
       then Counting now (udat_teid (udata64 m)) (udat_size (udata64 m)) (udat_mode (udata64 m)) x else x, wp)
  else Ok (x, w_free [m] wp).
Proof.
  unfold police_packet, conforms. cbn zeta.
  destruct (udat_mode (udata64 m) =? POLICER_MODE_LOW) eqn:E1; cbn [andb].
  - destruct (_ =? POLICER_COLOR_GREEN); cbn [negb]; [|done].
    rewrite (Z.eqb_eq _ _) in E1. rewrite E1. done.
  - destruct (udat_mode (udata64 m) =? POLICER_MODE_3G) eqn:E2; cbn [andb]; [|done].
    by destruct (_ =? POLICER_COLOR_RED).
Qed.

Lemma police_packet_ok now m x wp wm :
  counter_ok x wp wm ->
  exists x' wp', police_packet now (x, wp) m = Ok (x', wp') /\ policed wm x wp x' wp' [m].
Proof.
  intros Ho. rewrite police_packet_verdict. unfold due.
  destruct (conforms m) eqn:Hc.
  2: { eexists _, _. split; [done|]. constructor.
       - eapply pass_same_ok; try done; [apply pass_same_refl|apply w_keeps_free|apply (c_core _ _ _ Ho)|apply (c_fill _ _ _ Ho)].
       - apply pass_same_conf, pass_same_refl.
       - unfold pass_held. rewrite w_all_free. solve_Permutation.
       - intros k s. cbn. unfold due. rewrite Hc, Z.add_0_r. by rewrite ledger_small.
       - intros _. cbn. rewrite Hc. cbn. rewrite app_nil_r. split_and!; try done.
         unfold pass_slack. cbn. change (w_room ?r (w_free [m] wp)) with (w_room r wp). lia. }
  set (x1 := if negb _ then _ else x).
  assert (Hx1 : counter_ok x1 wp wm /\ ccore x1 = ccore x /\ ring_pass_through_ x1 = ring_pass_through_ x /\
                output_pass_through_ x1 = output_pass_through_ x).
  { unfold x1. case_match; [|done]. split; [|done]. destruct Ho. constructor; try done.
    by rewrite Counting_length. }
  assert (Hb : forall k s, ledger k s x1 wm = u32 (ledger k s x wm + due k s m)).
  { intros k s. unfold x1, due. rewrite Hc. cbn [andb]. case_match.
    - apply ledger_Counting, (c_maps _ _ _ Ho).
    - by rewrite Z.add_0_r, ledger_small. }
  clearbody x1. destruct Hx1 as (Ho1 & Hcore & Hring & Hout).
  destruct (SendOrBufferPassThrough_ok m x1 wp wm Ho1) as (x' & wp' & -> & Ho' & Hs & Hp & Hsl).
  destruct (pass_same_conf _ _ Hs) as [Hsc Hsr]. rewrite Hcore in Hsc.
  exists x', wp'. split; [done|].
  assert (Hold : pass_held x1 wp = pass_held x wp /\ pass_stream x1 wp = pass_stream x wp /\ pass_slack x1 wp = pass_slack x wp)
    by (unfold pass_held, pass_stream, pass_slack; by rewrite Hring, Hout).
  destruct Hold as (Eh & Es & El). rewrite Eh, Es, El in *. constructor; try done.
  - split; [done|]. by rewrite Hsr.
  - intros k s. rewrite (ledger_same _ _ _ _ _ Hs), Hb. cbn. by rewrite Z.add_0_r.
  - cbn. rewrite Hc. cbn. intros Hl. destruct (Hsl Hl) as (Hf & -> & Hsl'). rewrite app_nil_r. split_and!; [done..|lia].
Qed.

Lemma policed_trans wm x1 w1 x2 w2 x3 w3 l1 l2 :
  policed wm x1 w1 x2 w2 l1 -> policed wm x2 w2 x3 w3 l2 -> policed wm x1 w1 x3 w3 (l1 ++ l2).
Proof.
  intros [Ho1 [Hc1 Hr1] Hh1 Hb1 Hs1] [Ho2 [Hc2 Hr2] Hh2 Hb2 Hs2]. constructor; [done|..].
  - split; [exact (same_conf_trans _ _ _ Hc1 Hc2)|congruence].
  - rewrite Hh2, Hh1. solve_Permutation.
  - intros k s. rewrite Hb2, Hb1, wrap_add_l. f_equal. rewrite dues_app. lia.
  - unfold keep in *. rewrite length_app, !List.filter_app. intros Hl.
    destruct Hs1 as (E1 & E2 & Hl1); [lia|]. destruct Hs2 as (-> & -> & Hl2); [lia|].
    rewrite E1, E2, <-!app_assoc. split_and!; [done..|lia].
Qed.

Lemma policed_refl wm x wp : counter_ok x wp wm -> policed wm x wp x wp [].
Proof.
  intros Ho. constructor; try done.
  - apply pass_same_conf, pass_same_refl.
  - intros k s. cbn. by rewrite Z.add_0_r, ledger_small.
  - intros _. cbn. rewrite !app_nil_r. split_and!; [done..|lia].
Qed.

Lemma police_burst_ok now input x wp wm :
  counter_ok x wp wm ->
  exists x' wp', foldM (police_packet now) input (x, wp) = Ok (x', wp') /\ policed wm x wp x' wp' input.
Proof.
  revert x wp. induction input as [|m input IH]; intros x wp Ho; cbn [foldM].
  { exists x, wp. split; [done|]. by apply policed_refl. }
  destruct (police_packet_ok now m x wp wm Ho) as (x1 & w1 & -> & Hp1). res_simpl.
  destruct (IH x1 w1 (pd_ok _ _ _ _ _ _ Hp1)) as (x' & wp' & -> & Hp2).
  exists x', wp'. split; [done|]. exact (policed_trans _ _ _ _ _ _ _ [m] input Hp1 Hp2).
Qed.

Lemma forwarded_ok now x wp wm x' wm' leaked new :
  counter_ok x wp wm -> forwarded now x wm x' wm' leaked new -> counter_ok x' wp wm'.
Proof.
  intros [Hc ? ? Hfm Hb Hp Hf] [(Hc' & (k & o & Ec) & _) [Hm Hcur] (_ & Er & Eo) _ _ _ _ _ _].
  constructor; rewrite ?Er, ?Eo; try done; by rewrite Ec.
Qed.

Lemma pass_same_fields x x' wp :
  ring_pass_through_ x' = ring_pass_through_ x -> output_pass_through_ x' = output_pass_through_ x ->
  pass_held x' wp = pass_held x wp /\ pass_stream x' wp = pass_stream x wp /\ pass_slack x' wp = pass_slack x wp.
Proof. unfold pass_held, pass_stream, pass_slack. by intros -> ->. Qed.

(** Taking the burst from the input ring. *)
Lemma counter_dequeue x wp wm :
  counter_ok x wp wm ->
  let input := take (Z.to_nat (burst_fm_ (ccore x))) (w_objs (ring_fm_ (ccore x)) wp) in
  exists wp0, w_dequeue_burst (ring_fm_ (ccore x)) (burst_fm_ (ccore x)) wp = Ok (input, wp0) /\
    w_all wp ≡ₚ input ++ w_all wp0 /\ (zlen input <=? DEFAULT_MBUF_ARRAY_SIZE) = true /\
    w_freed wp0 = w_freed wp /\ counter_ok x wp0 wm /\
    (ring_fm_ (ccore x) <> ring_pass_through_ x ->
       pass_stream x wp0 = pass_stream x wp /\ pass_slack x wp0 = pass_slack x wp).
Proof.
  intros Ho input. pose proof (c_burst _ _ _ Ho) as [Hb0 Hb1].
  destruct (w_dequeue_spec _ _ wp Hb0 (c_fm _ _ _ Ho)) as (wp0 & Ed & [Hf Hfr] & _ & _).
  destruct (w_all_dequeue _ _ _ _ _ Hb0 Ed) as [Hall Hlen].
  exists wp0. split_and!; try done.
  - apply Z.leb_le. unfold input. lia.
  - eapply pass_same_ok; try done;
      [apply pass_same_refl| |apply (c_core _ _ _ Ho)|apply (c_fill _ _ _ Ho)].
    unfold w_dequeue_burst in Ed. destruct (w_ring _ wp); res_simpl; simplify_eq/=. apply w_keeps_set.
  - intros Hne. unfold pass_stream, pass_slack, w_objs, w_room. by rewrite (Hfr _ (not_eq_sym Hne)).
Qed.

(** An empty burst needs no case of its own. *)
Lemma burst_or_nothing {S} (f : S -> rte_mbuf -> res S) (l : list rte_mbuf) (s : S) :
  (if zlen l =? 0 then Ok s else burst_loop f l s) = foldM f l s.
Proof. rewrite burst_loop_eq. by destruct l. Qed.

(** *** The counting-only cycle *)
Definition readable m : Prop := 0 <= data_off m /\ data_off m + 128 <= zlen (buf m).

Lemma counted_returns type m : readable m -> exists c, counted type m = Ok c.
Proof.
  intros [Ho Hl]. unfold counted. autounfold with pkt.
  repeat ((rewrite ld_ok by lia; res_simpl) || case_if); by eexists.
Qed.

(** The user and the size a packet is counted with, and what that adds. *)
Definition gpdu_due (type k s : Z) m : Z :=
  match counted type m with Ok (Some (key, used)) => charge k s key used 0 | _ => 0 end.
Definition gpdu_dues (type k s : Z) (l : list rte_mbuf) : Z :=
  foldr (fun m acc => gpdu_due type k s m + acc) 0 l.

(** Only the maps and the statistics differ. *)
Definition counted_same x x' : Prop :=
  ccore x' = ccore x /\ type_ x' = type_ x /\ cur_ x' = cur_ x /\ length (map_ x') = length (map_ x).

Lemma count_burst_ok now l x wp wm :
  length (map_ x) = 16%nat -> Forall readable l ->
  exists x', foldM (count_packet now) l (x, wp) = Ok (x', w_free l wp) /\ counted_same x x' /\
    forall k s, ledger k s x' wm = u32 (ledger k s x wm + gpdu_dues (type_ x) k s l).
Proof.
  intros Hl Hall. revert x wp Hl. induction Hall as [|m l Hm _ IH]; intros x wp Hl; cbn [foldM].
  { exists x. split_and!; try done; [|by intros; rewrite Z.add_0_r, ledger_small].
    unfold w_free. rewrite app_nil_r. by destruct wp. }
  destruct (counted_returns (type_ x) m Hm) as [c Ec].
  assert (Ep : count_packet now (x, wp) m =
    Ok (match c with Some (k, u) => Counting now k u 0 x | None => x end, w_free [m] wp))
    by (unfold count_packet; by rewrite Ec).
  rewrite Ep. res_simpl.
  set (x1 := match c with Some _ => _ | None => x end).
  assert (Hx1 : counted_same x x1) by (unfold x1; destruct c as [[]|]; split_and!; try done; apply Counting_length).
  assert (Hb : forall k s, ledger k s x1 wm = u32 (ledger k s x wm + gpdu_due (type_ x) k s m)).
  { intros k s. unfold gpdu_due. rewrite Ec. unfold x1. destruct c as [[key used]|].
    - by apply ledger_Counting.
    - by rewrite Z.add_0_r, ledger_small. }
  clearbody x1. destruct Hx1 as (E1 & E2 & E3 & E4).
  destruct (IH x1 (w_free [m] wp)) as (x' & Ex & (F1 & F2 & F3 & F4) & Hx'); [by rewrite E4|].
  exists x'. split_and!.
  - rewrite Ex. unfold w_free. cbn. by rewrite <-app_assoc.
  - split_and!; congruence.
  - intros k s. rewrite Hx', Hb, E2, wrap_add_l. f_equal. unfold gpdu_dues. cbn. lia.
Qed.
End bill_lemmas.

(** ** Properties *)
Module Properties.
Section properties.
Context `{DpdkOk}.
Context (iter : gmap Z counting_item -> list (Z * counting_item)) (alloc : Z -> bool).
Context (iter_perm : forall m, iter m ≡ₚ map_to_list m) (alloc_ok : forall n, alloc n = true).
Import CoreCounterWorker.

(** [ForwardTransfer] returns, moves entries from the 16 maps into messages
    of 1 to 64 entries with the right [count] and type, loses and duplicates
    none (the ringid limit that would leave a sent entry in its map is never
    reached), forwards at most 10000 entries and, below that limit, every entry
    that is over the threshold or older than a minute; the start position stays
    a map index, and exactly when the number of entries is a positive multiple of
    64 one buffer is neither sent nor freed. *)
Theorem forward_transfer_moves_entries (now uninit_tail : Z) (x : CounterWorker) (wm : world counting) :
  core_ok (ccore x) wm -> length (map_ x) = 16%nat -> 0 <= cur_ x < COUNT_MAP_SZ ->
  exists x' wm' leaked new,
    ForwardTransfer iter alloc now uninit_tail (x, wm) = Ok (x', wm', leaked) /\
    forwarded now x wm x' wm' leaked new.
Proof. by apply ForwardTransfer_ok. Qed.

(** C19: a cycle of the ingress or egress counter returns; it charges every user,
    in the field of the packet's mode, exactly the sizes of the conforming
    G-PDUs of the burst (map entries and all messages ever sent together, modulo
    2^32), whether or not the cycle forwards; no packet is lost or duplicated;
    while the pass-through ring has room, the conforming packets follow the
    earlier ones in order and exactly the others are freed; and after
    [flush_delay_] cycles both buffers are empty and the cycle counter restarts. *)
Theorem counter_charges_conforming_packets (now uninit_tail cnt : Z) (x : CounterWorker)
    (wp : world rte_mbuf) (wm : world counting) :
  counter_ok x wp wm -> ring_fm_ (ccore x) <> ring_pass_through_ x ->
  let input := take (Z.to_nat (burst_fm_ (ccore x))) (w_objs (ring_fm_ (ccore x)) wp) in
  exists cnt' x' wp' wm',
    PoliceCycle iter alloc now uninit_tail cnt (x, wp, wm) = Ok (cnt', (x', wp', wm')) /\
    counter_ok x' wp' wm' /\
    pass_held x' wp' ≡ₚ pass_held x wp /\
    (forall k s, ledger k s x' wm' = u32 (ledger k s x wm + dues k s input)) /\
    (zlen input <= pass_slack x wp ->
       pass_stream x' wp' = pass_stream x wp ++ keep true input /\
       w_freed wp' = w_freed wp ++ keep false input) /\
    (flush_delay_ (ccore x) <= cnt ->
       cnt' = 0 /\ output_pass_through_ x' = [] /\ output_ (ccore x') = []).
Proof.
  intros Ho Hne input. unfold PoliceCycle.
  destruct (counter_dequeue x wp wm Ho) as (wp0 & -> & Hall & Hlen & Hf0 & Ho0 & Hs0).
  fold input in Hall, Hlen. fold input. res_simpl. unfold require. rewrite Hlen. res_simpl. rewrite burst_or_nothing.
  destruct (police_burst_ok now input x wp0 wm Ho0) as (x1 & wp1 & -> & [Ho1 [Hc1 Hr1] Hh1 Hb1 Hs1]).
  assert (Hh1' : pass_held x1 wp1 ≡ₚ pass_held x wp) by (rewrite Hh1; unfold pass_held; rewrite Hall; solve_Permutation).
  destruct (Hs0 Hne) as [Es0 El0]. rewrite Es0, El0, Hf0 in Hs1. res_simpl.
  assert (Hfd : flush_delay_ (ccore x1) = flush_delay_ (ccore x)) by (by destruct Hc1 as (? & ? & ->)).
  rewrite Hfd. destruct (_ <=? cnt) eqn:Ecnt; to_prop.
  2: { exists cnt, x1, wp1, wm. split_and!; try done; [|lia]. intros Hl. by destruct (Hs1 Hl) as (? & ? & _). }
  destruct (ForwardTransfer_ok iter alloc iter_perm alloc_ok now uninit_tail x1 wm) as (x2 & wm2 & lk & new & -> & Hf);
    [apply Ho1..|].
  res_simpl. pose proof (forwarded_ok _ _ _ _ _ _ _ _ Ho1 Hf) as Ho2.
  destruct (pass_same_fields x1 x2 wp1) as (Eh2 & Es2 & El2); [apply (fd_same _ _ _ _ _ _ _ Hf)..|].
  destruct (BurstFlushPassthrough_ok x2 wp1 wm2 Ho2) as (x3 & wp3 & -> & Ho3 & Hs3 & Hp3 & Ho3' & Hst).
  res_simpl. exists 0, x3, wp3, wm2. split_and!; try done.
  - by rewrite Hp3, Eh2.
  - intros k s. rewrite (ledger_same _ _ _ _ _ Hs3), (ledger_forward _ _ _ _ _ _ _ _ _ Hf). apply Hb1.
  - intros Hl. destruct (Hs1 Hl) as (E1 & E2 & E3). rewrite El2, Es2 in Hst.
    destruct Hst as [-> ->]; [lia|]. done.
  - intros _. split_and!; [done..|]. destruct Hs3 as (? & ? & ->). apply (fd_sent _ _ _ _ _ _ _ Hf).
Qed.

(** a cycle of the counting-only worker returns, frees every packet of the
    burst, and charges the users of the G-PDUs among them exactly their
    GTP-U lengths: what is in the maps and in all messages sent grows by the sum
    of these lengths, modulo 2^32, also when the cycle forwards. *)
Theorem count_cycle_charges_gpdus (now uninit_tail cnt : Z) (x : CounterWorker)
    (wp : world rte_mbuf) (wm : world counting) :
  core_ok (ccore x) wm -> length (map_ x) = 16%nat -> 0 <= cur_ x < COUNT_MAP_SZ ->
  w_valid (ring_fm_ (ccore x)) wp -> 0 <= burst_fm_ (ccore x) <= DEFAULT_MBUF_ARRAY_SIZE ->
  flush_delay_ (ccore x) <> 0 -> Forall readable (w_objs (ring_fm_ (ccore x)) wp) ->
  let input := take (Z.to_nat (burst_fm_ (ccore x))) (w_objs (ring_fm_ (ccore x)) wp) in
  exists x' wp' wm', Cycle iter alloc now uninit_tail cnt (x, wp, wm) = Ok (x', wp', wm') /\
    core_ok (ccore x') wm' /\ length (map_ x') = 16%nat /\ 0 <= cur_ x' < COUNT_MAP_SZ /\
    w_freed wp' = w_freed wp ++ input /\ w_all wp' ≡ₚ w_all wp /\
    (forall k s, ledger k s x' wm' = u32 (ledger k s x wm + gpdu_dues (type_ x) k s input)).
Proof.
  intros Hc Hm Hcur Hv Hb Hfd Hr input. unfold Cycle.
  destruct (w_dequeue_spec _ _ wp (proj1 Hb) Hv) as (wp0 & Ed & [Hf _] & _ & _). fold input in Ed.
  destruct (w_all_dequeue _ _ _ _ _ (proj1 Hb) Ed) as [Hall Hlen].
  rewrite Ed. res_simpl. unfold require. rewrite (proj2 (Z.leb_le _ DEFAULT_MBUF_ARRAY_SIZE)) by lia. res_simpl.
  set (x0 := mk_cw (ccore x) _ _ _ _ _ _ _ _ _).
  assert (Hrun : exists x1, (if zlen input =? 0 then Ok (x, wp0) else burst_loop (count_packet now) input (x0, wp0))
                 = Ok (x1, w_free input wp0) /\ counted_same x x1 /\
                 forall k s, ledger k s x1 wm = u32 (ledger k s x wm + gpdu_dues (type_ x) k s input)).
  { destruct (zlen input =? 0) eqn:E; to_prop.
    - destruct (count_burst_ok now input x wp0 wm Hm) as (x1 & Ex & ? & ?); [by apply Forall_take|].
      assert (Hn : input = []) by (by destruct input). rewrite Hn in *. cbn [foldM] in Ex. exists x1. split_and!; done.
    - rewrite burst_loop_eq. apply (count_burst_ok now input x0 wp0 wm Hm). by apply Forall_take. }
  destruct Hrun as (x1 & -> & (E1 & E2 & E3 & E4) & Hx1). clear x0. res_simpl.
  assert (Hfree : w_freed (w_free input wp0) = w_freed wp ++ input /\ w_all (w_free input wp0) ≡ₚ w_all wp)
    by (split; [cbn; by rewrite Hf|by rewrite w_all_free, Hall]).
  rewrite E1, (proj2 (Z.eqb_neq (flush_delay_ (ccore x)) 0)) by done. cbn [negb]. res_simpl.
  destruct (cnt mod _ =? 0).
  2: { exists x1, (w_free input wp0), wm. rewrite E1, E3, E4. destruct Hfree. done. }
  destruct (ForwardTransfer_ok iter alloc iter_perm alloc_ok now uninit_tail x1 wm) as (x2 & wm2 & lk & new & -> & Hfw);
    [by rewrite ?E1, ?E3, ?E4..|].
  res_simpl. exists x2, (w_free input wp0), wm2. pose proof Hfw as [(? & _) [? ?] _ _ _ _ _ _ _].
  destruct Hfree. do 6 (split; [done|]). intros k s. rewrite (ledger_forward _ _ _ _ _ _ _ _ _ Hfw). apply Hx1.
Qed.
End properties.

(** A worker with one entry over the threshold and a fresh one; a green G-PDU, a
    red 3G packet and a packet for the counting-only worker. *)
Definition some_maps : list (gmap Z counting_item) :=
  <[1%nat := {[ 17 := mk_item 990 2000000 7 0 ]}]>
    (<[2%nat := {[ 2 := mk_item 990 10 0 0 ]}]> (replicate 16 ∅)).
Definition marked (a teid mode color size : Z) : rte_mbuf :=
  let g := RxTx.Properties.pkt a in
  mk_mbuf a (buf g) (data_off g) (data_len g) (pkt_len g) 1 None (packet_type g)
    (teid * 2 ^ 32 + mode * 2 ^ 22 + color * 2 ^ 20 + size * 2 ^ 8 + MBFU_FLAG_PDU).
Definition some_packets : @world DpdkModel.dpdk rte_mbuf :=
  @mk_world DpdkModel.dpdk rte_mbuf
    (<[1 := (9%nat, [marked 1 17 POLICER_MODE_LTE POLICER_COLOR_RED 100;
                     marked 2 17 POLICER_MODE_3G POLICER_COLOR_RED 200;
                     marked 3 17 POLICER_MODE_3G POLICER_COLOR_GREEN 300]) : DpdkModel.queue rte_mbuf]>
      {[ 3 := (9%nat, []) : DpdkModel.queue rte_mbuf ]}) [].
Definition some_messages : @world DpdkModel.dpdk counting :=
  @mk_world DpdkModel.dpdk counting {[ 2 := (4%nat, []) : DpdkModel.queue counting ]} [].
Definition some_worker : CounterWorker :=
  mk_cw (mk_core 0 0 1 0 0 0 0 0 0 4 3 (Some 1) (Some 2) [] 1 CoreCounter.Clear) 0xfe 5 some_maps
    0 0 0 0 (Some 3) [].

Lemma some_core_ok : core_ok (ccore some_worker) some_messages.
Proof.
  constructor; [eexists; vm_compute; reflexivity|vm_compute; congruence|vm_compute; congruence|cbn; lia].
Qed.

Lemma some_worker_ok : counter_ok some_worker some_packets some_messages.
Proof.
  constructor; [apply some_core_ok|reflexivity|vm_compute; split; congruence|eexists; vm_compute; reflexivity|
    vm_compute; split; congruence|eexists; vm_compute; reflexivity|reflexivity].
Qed.

Lemma forward_transfer_moves_entries_witness :
  exists x' wm' leaked new,
    CoreCounterWorker.ForwardTransfer map_to_list (fun _ => true) 1000 0 (some_worker, some_messages)
      = Ok (x', wm', leaked) /\
    told new ++ entries (map_ x') ≡ₚ entries some_maps /\ Forall (message_ok 0xfe) new.
Proof.
  destruct (forward_transfer_moves_entries (D := DpdkModel.dpdk) map_to_list (fun _ => true)
              (fun m => reflexivity _) (fun _ => eq_refl) 1000 0 some_worker some_messages)
    as (x' & wm' & lk & new & E & [_ _ _ _ Hm He _ _ _]).
  - exact some_core_ok.
  - reflexivity.
  - vm_compute. split; congruence.
  - exists x', wm', lk, new. split; [exact E|]. split; [exact He|exact Hm].
Defined.

Lemma counter_charges_conforming_packets_witness :
  exists cnt' x' wp' wm',
    CoreCounterWorker.PoliceCycle map_to_list (fun _ => true) 1000 0 1 (some_worker, some_packets, some_messages)
      = Ok (cnt', (x', wp', wm')) /\
    ledger 17 POLICER_MODE_LTE x' wm' = 2000100 /\ ledger 17 POLICER_MODE_3G x' wm' = 307.
Proof.
  destruct (counter_charges_conforming_packets (D := DpdkModel.dpdk) map_to_list (fun _ => true)
              (fun m => reflexivity _) (fun _ => eq_refl) 1000 0 1 some_worker some_packets some_messages)
    as (cnt' & x' & wp' & wm' & E & _ & _ & Hl & _).
  - exact some_worker_ok.
  - vm_compute. congruence.
  - exists cnt', x', wp', wm'. split; [exact E|]. rewrite !Hl. vm_compute. split; reflexivity.
Defined.

Lemma count_cycle_charges_gpdus_witness :
  exists x' wp' wm',
    CoreCounterWorker.Cycle map_to_list (fun _ => true) 1000 0 1 (some_worker, some_packets, some_messages)
      = Ok (x', wp', wm') /\ zlen (w_freed wp') = 3 /\ ledger 0x0a010203 0 x' wm' = 84.
Proof.
  destruct (count_cycle_charges_gpdus (D := DpdkModel.dpdk) map_to_list (fun _ => true)
              (fun m => reflexivity _) (fun _ => eq_refl) 1000 0 1 some_worker some_packets some_messages)
    as (x' & wp' & wm' & E & _ & _ & _ & Hf & _ & Hl).
  - exact some_core_ok.
  - reflexivity.
  - vm_compute. split; congruence.
  - eexists. vm_compute. reflexivity.
  - vm_compute. split; congruence.
  - vm_compute. congruence.
  - repeat constructor; vm_compute; congruence.
  - exists x', wp', wm'. split; [exact E|]. rewrite Hf, Hl. vm_compute. split; reflexivity.
Defined.
End Properties.
