(* ===== verification/Transfer.v ===== *)
(** * The workers behind the counters

    [CoreCounterLogWorker] (dataplane/src/core/core_counter_log_worker.cc) writes
    the counting messages to the traffic_log table, [CoreTransferWorker]
    (core_transfer_worker.cc) sends them over TCP.  Both run two threads: [Cycle]
    moves messages from the counters' ring to an internal ring, [VirtualCycle]
    drains that ring on another core.

    Messages are packets here: what [Counter.message] describes is read back from
    the bytes of a [counting_t].  The database and the socket are parameters: the
    results of [mysql_init], [mysql_real_connect] and [mysql_query], and for every
    call of [select] and [send] what it returned.  C strings are lists of
    character codes as in TextParse. *)

From S2P Require Import Prelude Dpdk Packet CoreBase TextParse CapsuleWorkers Counter.

(** ** The common [Cycle]: from the input ring into the internal one *)
Module HostStackCycle.
Section cycle.
Context `{D : Dpdk}.
Implicit Types (c : CoreInterface rte_mbuf) (w : world rte_mbuf).

(** The cycle that only logs. *)
Definition debug_cycle (cnt : Z) : bool :=
  negb (cnt =? 0) && ((cnt =? 2 ^ 64 - 1) || (cnt mod (512 * 1024 * 1024) =? 0)).

Definition forward_burst (s : CoreInterface rte_mbuf * world rte_mbuf)
    : res (CoreInterface rte_mbuf * world rte_mbuf) :=
  let '(c, w) := s in
  r ← w_dequeue_burst (ring_fm_ c) (burst_fm_ c) w;
  let '(input, w) := r in
  _ ← require (zlen input <=? DEFAULT_MBUF_ARRAY_SIZE) Undefined;
  if zlen input =? 0 then Ok (c, w)
  else burst_loop (fun s m => CoreInterface.SendOrBuffer m s) input (c, w).
End cycle.
End HostStackCycle.

(** ** [CoreCounterLogWorker] *)
Module CoreCounterLogWorker.
Record LogWorker := mk_log {
  gcore : CoreInterface rte_mbuf;
  cpuid_ : Z;
  transfer_count_ : Z;
  dburi_ : cstring;
  dbhandle_ : bool;
}.

Section worker.
Context `{D : Dpdk}.
Implicit Types (x : LogWorker) (w : world rte_mbuf) (m : rte_mbuf).

Definition construct (c : CoreInterface rte_mbuf) (dburi : cstring) (cpuid : Z) : LogWorker :=
  mk_log c cpuid 0 dburi false.
Definition GetType : TYPE := WORKER_TRANSFER.
Definition GetN (t : KEY) x : Z :=
  match t with OPT => cpuid_ x | _ => CoreInterface.GetN t (gcore x) end.

Definition set_gcore (c : CoreInterface rte_mbuf) x : LogWorker :=
  mk_log c (cpuid_ x) (transfer_count_ x) (dburi_ x) (dbhandle_ x).
Definition SetRingAddr (order : ORDER) (ring : option Z) x : res LogWorker :=
  c ← worker_SetRingAddr order ring (gcore x); Ok (set_gcore c x).

Definition BeforeCycle (mysql_init : bool) (mysql_real_connect : list Z -> list Z -> list Z -> Z -> bool) x
    : res LogWorker :=
  let zeros := replicate 32 0 in
  o ← parse_mysql (dburi_ x) 31 31 31 (mk_out zeros zeros zeros 0);
  if (char_at 0 (user_o o) =? 0) || (char_at 0 (pwd_o o) =? 0) || (char_at 0 (host_o o) =? 0)
     || (port_o o =? 0) then Fault RtePanic
  else if negb mysql_init then Fault RtePanic
  else if negb (mysql_real_connect (host_o o) (user_o o) (pwd_o o) (port_o o)) then Fault RtePanic
  else Ok (mk_log (gcore x) (cpuid_ x) (transfer_count_ x) (dburi_ x) true).
Definition AfterCycle x : LogWorker :=
  mk_log (gcore x) (cpuid_ x) (transfer_count_ x) (dburi_ x) false.

Definition Cycle (cnt : Z) (s : LogWorker * world rte_mbuf) : res (LogWorker * world rte_mbuf) :=
  let '(x, w) := s in
  if HostStackCycle.debug_cycle cnt then
    r ← CoreInterface.BurstFlush (gcore x, w);
    Ok (mk_log r.1 (cpuid_ x) 0 (dburi_ x) (dbhandle_ x), r.2)
  else
    r ← HostStackCycle.forward_burst (gcore x, w);
    Ok (set_gcore r.1 x, r.2).

(** *** Writing a burst *)

(** Text of the statement, rows so far, [transfer_count_]. *)
Record sql_state := mk_sql { sql : cstring; counter : Z; transferred : Z }.

(** One row for the traffic [used] of mode [kind]; nothing for no traffic. *)
Definition append_row (type key kind used : Z) (s : sql_state) : sql_state :=
  let used_sgi := if type =? COUNTER_EGRESS then used else 0 in
  let used_s5 := if type =? COUNTER_EGRESS then 0 else used in
  if negb (used_s5 =? 0) || negb (used_sgi =? 0) then
    let bf := snprintf 127 ((if counter s =? 0 then [] else lit ",") ++ lit "(" ++ print_u key ++ lit "," ++
                print_u used_s5 ++ lit "," ++ print_u used_sgi ++ lit "," ++ print_u kind ++ lit ")") in
    mk_sql (sql s ++ bf) (u32 (counter s + 1)) (u64 (transferred s + 1))
  else s.

(** Offsets of [counting_t] and [counting_item_t]. *)
Definition o_count := 4.
Definition o_items := 12.
Definition sizeof_item := 16.

Definition append_item m (type : Z) (s : sql_state) (i : Z) : res sql_state :=
  let p := mtod m + o_items + sizeof_item * i in
  key ← ld 4 m p;
  used ← ld 4 m (p + 4);
  used_3g ← ld 4 m (p + 8);
  used_low ← ld 4 m (p + 12);
  Ok (append_row type key 2 used_low (append_row type key 1 used_3g (append_row type key 0 used s))).

(** A message; [None] when its size is wrong, which ends the call. *)
Definition append_message (s : sql_state) m : res (option sql_state) :=
  if negb (pkt_len m =? sizeof_counting) then Ok None
  else
    type ← ld 1 m (mtod m);
    count ← ld 4 m (mtod m + o_count);
    s ← foldM (append_item m type) (seqZ 0 count) s;
    Ok (Some s).

Fixpoint append_burst (input : list rte_mbuf) (s : sql_state) w : res (option sql_state * sql_state * world rte_mbuf) :=
  match input with
  | [] => Ok (Some s, s, w)
  | m :: input' =>
      r ← append_message s m;
      match r with
      | None => Ok (None, s, w)
      | Some s => append_burst input' s (w_free [m] w)
      end
  end.

Definition insert_into : cstring :=
  lit "INSERT INTO traffic_log(`teid`,`used_s5`,`used_sgi`,`type`)VALUES".

(** Result code, worker, store and the statement that was sent, if any.  On a
    message of the wrong size the call returns with the messages it has not
    reached neither freed nor in a ring. *)
Definition VirtualCycle (mysql_query : cstring -> Z) (s : LogWorker * world rte_mbuf)
    : res (Z * (LogWorker * world rte_mbuf) * option cstring) :=
  let '(x, w) := s in
  r ← w_dequeue_burst (ring_to_ (gcore x)) (burst_to_ (gcore x)) w;
  let '(input, w) := r in
  _ ← require (zlen input <=? DEFAULT_MBUF_ARRAY_SIZE) Undefined;
  if zlen input =? 0 then Ok (0, (x, w), None)
  else
    r ← append_burst input (mk_sql insert_into 0 (transfer_count_ x)) w;
    let '(o, last, w) := r in
    let x := mk_log (gcore x) (cpuid_ x) (transferred last) (dburi_ x) (dbhandle_ x) in
    match o with
    | None => Ok (-1, (x, w), None)
    | Some s =>
        if negb (mysql_query (sql s) =? 0) then Ok (-1, (x, w), Some (sql s))
        else Ok (0, (x, w), Some (sql s))
    end.
End worker.
End CoreCounterLogWorker.

(** ** [CoreTransferWorker] *)
Module CoreTransferWorker.
Record TransferWorker := mk_transfer {
  tcore : CoreInterface rte_mbuf;
  cpuid_ : Z;
  sock_ : Z;
  transfer_count_ : Z;
  transfer_bytes_ : Z;
  drop_bytes_ : Z;
}.

(** What a round of the send loop sees: [select] failed (interrupted or not),
    timed out, or returned a descriptor set, with the number of bytes the socket
    takes (negative: [send] fails) when it is in the set. *)
Inductive round :=
| SelectFailed (eintr : bool)
| SelectTimeout
| SelectReady (isset : bool) (room : Z).

Section worker.
Context `{D : Dpdk}.
Implicit Types (x : TransferWorker) (w : world rte_mbuf) (m : rte_mbuf).

Definition GetType : TYPE := WORKER_TRANSFER.
Definition GetN (t : KEY) x : Z :=
  match t with OPT => cpuid_ x | _ => CoreInterface.GetN t (tcore x) end.
Definition set_tcore (c : CoreInterface rte_mbuf) x : TransferWorker :=
  mk_transfer c (cpuid_ x) (sock_ x) (transfer_count_ x) (transfer_bytes_ x) (drop_bytes_ x).
Definition SetRingAddr (order : ORDER) (ring : option Z) x : res TransferWorker :=
  c ← worker_SetRingAddr order ring (tcore x); Ok (set_tcore c x).

Definition Cycle (cnt : Z) (s : TransferWorker * world rte_mbuf) : res (TransferWorker * world rte_mbuf) :=
  let '(x, w) := s in
  if HostStackCycle.debug_cycle cnt then
    Ok (mk_transfer (tcore x) (cpuid_ x) (sock_ x) 0 0 0, w)
  else
    r ← HostStackCycle.forward_burst (tcore x, w);
    Ok (set_tcore r.1 x, r.2).

(** *** Sending one payload

    [env n] is the n-th round of the process; the loop state is the number of
    the next round, [retrycnt], [allsend] and the bytes put on the connection.
    [select] has been called when the retry count is tested. *)
Variable env : nat -> round.

Fixpoint send_loop (fuel : nat) (data : list Z) (n : nat) (retrycnt allsend : Z) (wire : list Z)
    : res (Z * nat * list Z) :=
  match fuel with
  | O => Fault Undefined
  | S fuel' =>
      let r := env n in
      let n := S n in
      if 10 <? retrycnt then Ok (-1, n, wire)
      else
        let retrycnt := retrycnt + 1 in
        match r with
        | SelectFailed true => send_loop fuel' data n retrycnt allsend wire
        | SelectFailed false => Ok (-1, n, wire)
        | SelectTimeout => send_loop fuel' data n retrycnt allsend wire
        | SelectReady false _ => send_loop fuel' data n retrycnt allsend wire
        | SelectReady true room =>
            let sendlen := Z.min room (zlen data - allsend) in
            if sendlen <? 0 then Fault RteExit
            else
              let wire := wire ++ slice allsend sendlen data in
              let allsend := allsend + sendlen in
              if zlen data <=? allsend then Ok (allsend, n, wire)
              else send_loop fuel' data n retrycnt allsend wire
        end
  end.

(** Twelve rounds are enough: the retry count is 11 in the last one. *)
Definition Send (data : list Z) (n : nat) (wire : list Z) : res (Z * nat * list Z) :=
  send_loop 12 data n 0 0 wire.

(** Worker, store, next round, bytes on the connection. *)
Definition send_packet (s : TransferWorker * world rte_mbuf * nat * list Z) m
    : res (TransferWorker * world rte_mbuf * nat * list Z) :=
  let '(x, w, n, wire) := s in
  payload ← ld_bytes (pkt_len m) m (mtod m);
  r ← Send payload n wire;
  let '(ret, n, wire) := r in
  let x := mk_transfer (tcore x) (cpuid_ x) (sock_ x) (u64 (transfer_count_ x + 1))
             (if ret <? 0 then transfer_bytes_ x else u64 (transfer_bytes_ x + pkt_len m))
             (if ret <? 0 then u64 (drop_bytes_ x + pkt_len m) else drop_bytes_ x) in
  Ok (x, w_free [m] w, n, wire).

Definition VirtualCycle (s : TransferWorker * world rte_mbuf * nat * list Z)
    : res (TransferWorker * world rte_mbuf * nat * list Z) :=
  let '(x, w, n, wire) := s in
  r ← w_dequeue_burst (ring_to_ (tcore x)) (burst_to_ (tcore x)) w;
  let '(input, w) := r in
  _ ← require (zlen input <=? DEFAULT_MBUF_ARRAY_SIZE) Undefined;
  foldM send_packet input (x, w, n, wire).
End worker.
End CoreTransferWorker.

(** ** The rows of the traffic log *)
Record row := mk_row { r_key : Z; r_s5 : Z; r_sgi : Z; r_kind : Z }.

Definition row_text (r : row) : cstring :=
  lit "(" ++ print_u (r_key r) ++ lit "," ++ print_u (r_s5 r) ++ lit "," ++ print_u (r_sgi r) ++ lit "," ++
  print_u (r_kind r) ++ lit ")".

Fixpoint join (l : list cstring) : cstring :=
  match l with
  | [] => []
  | [a] => a
  | a :: l' => a ++ lit "," ++ join l'
  end.

(** What one item says: a row per mode that has traffic. *)
Definition mode_row (type key kind used : Z) : list row :=
  if used =? 0 then []
  else if type =? COUNTER_EGRESS then [mk_row key 0 used kind] else [mk_row key used 0 kind].
Definition item_rows (type : Z) (it : counting_item) : list row :=
  mode_row type (key it) 0 (used it) ++ mode_row type (key it) 1 (used_3g it) ++
  mode_row type (key it) 2 (used_low it).
Definition message_rows (c : counting) : list row := items c ≫= item_rows (ctype c).

Definition statement (rows : list row) : cstring :=
  CoreCounterLogWorker.insert_into ++ join (row_text <$> rows).

(** Traffic of user [k] and mode [kind] in the rows, towards the network (S5)
    and towards the users (SGi). *)
Fixpoint logged (dir : row -> Z) (k kind : Z) (l : list row) : Z :=
  match l with
  | [] => 0
  | r :: l => (if (r_key r =? k) && (r_kind r =? kind) then dir r else 0) + logged dir k kind l
  end.

Lemma logged_app dir k kind l1 l2 : logged dir k kind (l1 ++ l2) = logged dir k kind l1 + logged dir k kind l2.
Proof. induction l1 as [|r l1 IH]; cbn [logged app]; lia. Qed.

Lemma logged_item type it k kind :
  0 <= kind <= 2 ->
  logged r_sgi k kind (item_rows type it) = (if type =? COUNTER_EGRESS then billed_item k kind it else 0) /\
  logged r_s5 k kind (item_rows type it) = (if type =? COUNTER_EGRESS then 0 else billed_item k kind it).
Proof.
  intros Hk. unfold item_rows, billed_item, slot. rewrite !logged_app. unfold mode_row.
  assert (kind = 0 \/ kind = 1 \/ kind = 2) as [->|[->| ->]] by lia;
    destruct (type =? COUNTER_EGRESS), (key it =? k) eqn:E,
      (used it =? 0) eqn:E0, (used_3g it =? 0) eqn:E1, (used_low it =? 0) eqn:E2; to_prop;
    cbn [logged r_key r_kind r_sgi r_s5]; rewrite ?(proj2 (Z.eqb_eq (key it) k)), ?(proj2 (Z.eqb_neq (key it) k)) by done;
    cbn; rewrite ?E0, ?E1, ?E2; split; lia.
Qed.

(** Rows account for exactly what the messages charge. *)
Lemma logged_messages cs k kind :
  0 <= kind <= 2 ->
  logged r_sgi k kind (cs ≫= message_rows) =
    billed k kind (told (List.filter (fun c => ctype c =? COUNTER_EGRESS) cs)) /\
  logged r_s5 k kind (cs ≫= message_rows) =
    billed k kind (told (List.filter (fun c => negb (ctype c =? COUNTER_EGRESS)) cs)).
Proof.
  intros Hk.
  assert (Hits : forall type its,
    logged r_sgi k kind (its ≫= item_rows type) = (if type =? COUNTER_EGRESS then billed k kind its else 0) /\
    logged r_s5 k kind (its ≫= item_rows type) = (if type =? COUNTER_EGRESS then 0 else billed k kind its)).
  { intros type its. induction its as [|it its [IH1 IH2]]; [by destruct (type =? _)|].
    rewrite bind_cons, !logged_app. destruct (logged_item type it k kind Hk) as [E1 E2].
    rewrite E1, E2, IH1, IH2. cbn [billed]. destruct (type =? _); lia. }
  induction cs as [|c cs [IH1 IH2]]; [done|]. rewrite bind_cons, !logged_app, IH1, IH2.
  unfold message_rows. destruct (Hits (ctype c) (items c)) as [E1 E2]. rewrite E1, E2. cbn [List.filter].
  destruct (ctype c =? COUNTER_EGRESS) eqn:E; cbn [negb]; unfold told; cbn [fmap list_fmap concat];
    rewrite ?billed_app; unfold told; split; lia.
Qed.

(** ** Text *)
Lemma length_row_text r : (length (row_text r) <= 45)%nat.
Proof.
  unfold row_text, print_u. rewrite !length_app.
  pose proof (length_print_digits 10 (r_key r) []). pose proof (length_print_digits 10 (r_s5 r) []).
  pose proof (length_print_digits 10 (r_sgi r) []). pose proof (length_print_digits 10 (r_kind r) []).
  cbn [length] in *. change (length (lit "(")) with 1%nat. change (length (lit ",")) with 1%nat.
  change (length (lit ")")) with 1%nat. lia.
Qed.

Lemma join_snoc l a : join (l ++ [a]) = match l with [] => a | _ => join l ++ lit "," ++ a end.
Proof.
  induction l as [|b l IH]; [done|]. cbn [app].
  destruct l as [|b' l]; [done|]. cbn [app] in *. change (join (b :: b' :: l ++ [a])) with
    (b ++ lit "," ++ join (b' :: l ++ [a])). rewrite IH.
  change (join (b :: b' :: l)) with (b ++ lit "," ++ join (b' :: l)). by rewrite <-!app_assoc.
Qed.

(** A reader for the rows: what is printed can be read back. *)
Fixpoint read_u (acc : Z) (s : cstring) : Z * cstring :=
  match s with
  | c :: s' => if isdigit c then read_u (10 * acc + (c - 48)) s' else (acc, s)
  | [] => (acc, [])
  end.

Lemma read_u_print v c rest :
  0 <= v < 2 ^ 32 -> isdigit c = false -> read_u 0 (print_u v ++ c :: rest) = (v, c :: rest).
Proof.
  intros Hv Hc. unfold print_u. destruct (print_digits_value 10 v []) as (ds & -> & HF & Hs); [lia| |].
  { change (10 ^ Z.of_nat 10) with 10000000000. lia. }
  rewrite app_nil_r. unfold digits_of in Hs. revert Hs. generalize 0.
  induction HF as [|d ds Hd _ IH]; intros a; cbn [foldl app read_u]; [by rewrite Hc; intros ->|].
  rewrite Hd. apply IH.
Qed.

Definition read_row (s : cstring) : row * cstring :=
  let '(k, s) := read_u 0 (drop 1 s) in
  let '(a, s) := read_u 0 (drop 1 s) in
  let '(b, s) := read_u 0 (drop 1 s) in
  let '(t, s) := read_u 0 (drop 1 s) in
  (mk_row k a b t, drop 1 s).
Fixpoint read_rows (n : nat) (s : cstring) : list row :=
  match n with
  | O => []
  | S n => let '(r, s) := read_row s in r :: read_rows n (drop 1 s)
  end.

Definition row_ok (r : row) : Prop :=
  0 <= r_key r < 2 ^ 32 /\ 0 <= r_s5 r < 2 ^ 32 /\ 0 <= r_sgi r < 2 ^ 32 /\ 0 <= r_kind r < 2 ^ 32.

Lemma read_row_text r rest : row_ok r -> read_row (row_text r ++ rest) = (r, rest).
Proof.
  destruct r as [k a b t]. intros (Hk & Ha & Hb & Ht). unfold read_row, row_text. cbn [r_key r_s5 r_sgi r_kind] in *.
  rewrite <-!app_assoc. change (lit "(") with [40]. change (lit ",") with [44]. change (lit ")") with [41].
  cbn [app drop]. do 4 (rewrite skipn_O, read_u_print by done; cbn [drop]). done.
Qed.

Lemma read_rows_join rows :
  Forall row_ok rows -> read_rows (length rows) (join (row_text <$> rows)) = rows.
Proof.
  intros HF. induction HF as [|r rows Hr HF IH]; [done|]. destruct rows as [|r' rows].
  - cbn [fmap list_fmap join length read_rows]. rewrite <-(app_nil_r (row_text r)), read_row_text by done. done.
  - change (join (row_text <$> r :: r' :: rows)) with (row_text r ++ lit "," ++ join (row_text <$> r' :: rows)).
    change (read_rows (length (r :: r' :: rows)) ?x) with
      (let '(q, s) := read_row x in q :: read_rows (length (r' :: rows)) (drop 1 s)).
    rewrite read_row_text by done. change (lit ",") with [44]. cbn [app drop]. by rewrite skipn_O, IH.
Qed.

(** ** The statement grows by the rows of each item *)
Section log_lemmas.
Context `{DpdkOk}.
Implicit Types (m : rte_mbuf) (c : counting).
Import CoreCounterLogWorker.

Record sql_holds (t0 : Z) (rows : list row) (s : sql_state) : Prop := {
  sh_text : sql s = statement rows;
  sh_counter : counter s = zlen rows;
  sh_count : transferred s = u64 (t0 + zlen rows);
}.

Lemma append_row_ok t0 rows type key kind used s :
  sql_holds t0 rows s -> zlen rows + 1 < 2 ^ 32 ->
  sql_holds t0 (rows ++ mode_row type key kind used) (append_row type key kind used s).
Proof.
  intros [Ht Hc Hn] Hl. unfold append_row, mode_row.
  destruct (used =? 0) eqn:E; to_prop.
  { subst. rewrite app_nil_r. destruct (type =? COUNTER_EGRESS); by constructor. }
  assert (Hrow : forall r, snprintf 127 ((if counter s =? 0 then [] else lit ",") ++ row_text r) =
                 (if counter s =? 0 then [] else lit ",") ++ row_text r).
  { intros r. unfold snprintf. apply take_ge. rewrite length_app. pose proof (length_row_text r).
    destruct (counter s =? 0); [cbn [length]|change (length (lit ",")) with 1%nat]; lia. }
  assert (Hadd : forall r, sql_holds t0 (rows ++ [r]) (mk_sql (sql s ++ (if counter s =? 0 then [] else lit ",") ++ row_text r)
                   (u32 (counter s + 1)) (u64 (transferred s + 1)))).
  { intros r. constructor; cbn [sql counter transferred].
    - rewrite Ht. unfold statement. rewrite fmap_app. change (row_text <$> [r]) with [row_text r].
      rewrite join_snoc, Hc. destruct rows; [done|].
      rewrite (proj2 (Z.eqb_neq _ 0)) by (cbn; lia). cbn [fmap list_fmap]. by rewrite <-!app_assoc.
    - rewrite length_app, Hc. cbn. rewrite wrap_small by lia. lia.
    - rewrite Hn, length_app. cbn. rewrite wrap_add_l. f_equal. lia. }
  destruct (type =? COUNTER_EGRESS); cbn [Z.eqb negb orb]; rewrite (proj2 (Z.eqb_neq used 0)) by done;
    cbn [negb orb]; [specialize (Hrow (mk_row key 0 used kind))|specialize (Hrow (mk_row key used 0 kind))];
    unfold row_text in Hrow at 1; cbn [r_key r_s5 r_sgi r_kind] in Hrow; rewrite Hrow; apply Hadd.
Qed.

(** *** The bytes of a [counting_t] *)
Definition item_bytes (it : counting_item) : list Z :=
  le_store 4 (key it) ++ le_store 4 (used it) ++ le_store 4 (used_3g it) ++ le_store 4 (used_low it).
Definition counting_bytes (reserved : list Z) c : list Z :=
  le_store 1 (ctype c) ++ le_store 3 (len c) ++ le_store 4 (count c) ++ reserved ++
  concat (item_bytes <$> items c).

Definition item_ok (it : counting_item) : Prop :=
  0 <= key it < 2 ^ 32 /\ 0 <= used it < 2 ^ 32 /\ 0 <= used_3g it < 2 ^ 32 /\ 0 <= used_low it < 2 ^ 32.

(** The packet [m] carries the message [c]. *)
Definition carries c m : Prop :=
  mbuf_wf m /\ pkt_len m = sizeof_counting /\ 0 <= ctype c < 256 /\
  count c = zlen (items c) /\ 1 <= count c <= TRANSFER_RING_BURST /\ Forall item_ok (items c) /\
  exists reserved rest, zlen reserved = 4 /\ pkt_data m = counting_bytes reserved c ++ rest.

Lemma length_item_bytes it : length (item_bytes it) = 16%nat.
Proof. unfold item_bytes. by rewrite !length_app, !length_le_store. Qed.

Lemma concat_items its : length (concat (item_bytes <$> its)) = (16 * length its)%nat.
Proof.
  induction its as [|it its IH]; [done|]. rewrite fmap_cons. cbn [concat length].
  rewrite length_app, length_item_bytes, IH. lia.
Qed.

Lemma ld_data (n : nat) m p :
  mbuf_wf m -> 0 <= p -> p + Z.of_nat n <= data_len m ->
  ld n m (mtod m + p) = Ok (le_load (slice p (Z.of_nat n) (pkt_data m))).
Proof.
  intros [] Hp Hl. unfold mtod. rewrite ld_ok by lia. by rewrite ld_packet_data by lia.
Qed.

(** Field [q] of item [i]. *)
Lemma slice_item reserved c rest (i : nat) it q n :
  zlen reserved = 4 -> items c !! i = Some it -> 0 <= q -> 0 <= n -> q + n <= 16 ->
  slice (12 + 16 * Z.of_nat i + q) n (counting_bytes reserved c ++ rest) = slice q n (item_bytes it).
Proof.
  intros Hr Hi Hq Hn Hl. unfold counting_bytes.
  rewrite <-(take_drop_middle (items c) i it Hi), fmap_app, fmap_cons, concat_app. cbn [concat].
  assert (Ei : length (take i (items c)) = i) by (apply length_take_le; apply lookup_lt_Some in Hi; lia).
  set (pre := le_store 1 (ctype c) ++ le_store 3 (len c) ++ le_store 4 (count c) ++ reserved ++
                concat (item_bytes <$> take i (items c))).
  assert (Hpre : zlen pre = 12 + 16 * Z.of_nat i)
    by (unfold pre; rewrite !length_app, !length_le_store, concat_items, Ei; lia).
  set (post := concat (item_bytes <$> drop (S i) (items c)) ++ rest).
  transitivity (slice (12 + 16 * Z.of_nat i + q) n (pre ++ item_bytes it ++ post));
    [f_equal; unfold pre, post; by rewrite <-!app_assoc|].
  rewrite slice_app_r by lia. rewrite Hpre. replace (12 + 16 * Z.of_nat i + q - _) with q by lia.
  apply slice_app_l; [lia..|]. rewrite length_item_bytes. lia.
Qed.

Lemma item_fields it :
  item_ok it ->
  le_load (slice 0 4 (item_bytes it)) = key it /\ le_load (slice 4 4 (item_bytes it)) = used it /\
  le_load (slice 8 4 (item_bytes it)) = used_3g it /\ le_load (slice 12 4 (item_bytes it)) = used_low it.
Proof.
  intros (Hk & Hu & H3 & Hw).
  change (le_load (le_store 4 (key it)) = key it /\ le_load (le_store 4 (used it)) = used it /\
          le_load (le_store 4 (used_3g it)) = used_3g it /\ le_load (le_store 4 (used_low it)) = used_low it).
  rewrite !le_load_store. change (256 ^ Z.of_nat 4) with (2 ^ 32). by rewrite !Z.mod_small.
Qed.

(** The three rows of an item at once. *)
Definition add_item (type : Z) (s : sql_state) (it : counting_item) : sql_state :=
  append_row type (key it) 2 (used_low it)
    (append_row type (key it) 1 (used_3g it) (append_row type (key it) 0 (used it) s)).

Lemma append_item_eq type c m (i : nat) it s :
  carries c m -> items c !! i = Some it -> append_item m type s (Z.of_nat i) = Ok (add_item type s it).
Proof.
  intros (Hwf & Hpl & _ & Hcnt & Hc64 & Hits & reserved & rest & Hres & Hdata) Hi. unfold append_item.
  pose proof (lookup_lt_Some _ _ _ Hi) as Hlt. pose proof Hwf as [_ _ _ _ Hpd _ _ _].
  unfold sizeof_counting, TRANSFER_RING_BURST, o_items, sizeof_item in *.
  assert (Hld : forall q, 0 <= q -> q + 4 <= 16 ->
    ld 4 m (mtod m + 12 + 16 * Z.of_nat i + q) = Ok (le_load (slice q 4 (item_bytes it)))).
  { intros q Hq Hq'. replace (mtod m + 12 + 16 * Z.of_nat i + q) with (mtod m + (12 + 16 * Z.of_nat i + q)) by lia.
    rewrite ld_data by (done || lia). rewrite Hdata. by rewrite (slice_item reserved c rest i it) by (done || lia). }
  pose proof (Hld 0) as L0. rewrite Z.add_0_r in L0. rewrite L0, !Hld by lia. res_simpl.
  destruct (item_fields it) as (-> & -> & -> & ->); [by eapply Forall_lookup_1|]. done.
Qed.

Lemma length_mode_row type k kind u : zlen (mode_row type k kind u) <= 1.
Proof. unfold mode_row. repeat case_if; cbn; lia. Qed.

Lemma length_item_rows type it : zlen (item_rows type it) <= 3.
Proof.
  unfold item_rows. rewrite !length_app. pose proof (length_mode_row type (key it) 0 (used it)).
  pose proof (length_mode_row type (key it) 1 (used_3g it)). pose proof (length_mode_row type (key it) 2 (used_low it)). lia.
Qed.

Lemma add_item_ok t0 rows type it s :
  sql_holds t0 rows s -> zlen rows + 3 < 2 ^ 32 -> sql_holds t0 (rows ++ item_rows type it) (add_item type s it).
Proof.
  intros Hs Hl. unfold item_rows, add_item. rewrite !app_assoc.
  pose proof (length_mode_row type (key it) 0 (used it)). pose proof (length_mode_row type (key it) 1 (used_3g it)).
  apply append_row_ok; [|rewrite !length_app; lia]. apply append_row_ok; [|rewrite !length_app; lia].
  apply append_row_ok; [done|lia].
Qed.

Lemma add_items_ok t0 rows type its s :
  sql_holds t0 rows s -> zlen rows + 3 * zlen its < 2 ^ 32 ->
  exists s', foldM (fun s it => Ok (add_item type s it)) its s = Ok s' /\
    sql_holds t0 (rows ++ (its ≫= item_rows type)) s'.
Proof.
  revert rows s. induction its as [|it its IH]; intros rows s Hs Hl; cbn [foldM].
  { exists s. by rewrite app_nil_r. }
  cbn [length] in Hl. res_simpl. pose proof (length_item_rows type it).
  destruct (IH (rows ++ item_rows type it) (add_item type s it)) as (s' & -> & Hs').
  { apply add_item_ok; [done|lia]. }
  { rewrite length_app. lia. }
  exists s'. split; [done|]. by rewrite bind_cons, app_assoc.
Qed.

Lemma append_message_ok t0 rows c m s :
  carries c m -> sql_holds t0 rows s -> zlen rows + 192 < 2 ^ 32 ->
  exists s', append_message s m = Ok (Some s') /\ sql_holds t0 (rows ++ message_rows c) s'.
Proof.
  intros Hm Hs Hl. pose proof Hm as (Hwf & Hpl & Ht & Hcnt & Hc64 & _ & reserved & rest & Hres & Hdata).
  pose proof Hwf as [_ _ _ _ Hpd _ _ _]. unfold append_message. rewrite Hpl, Z.eqb_refl. cbn [negb].
  unfold sizeof_counting, TRANSFER_RING_BURST, o_count in *.
  assert (Hld1 : ld 1 m (mtod m) = Ok (ctype c)).
  { rewrite <-(Z.add_0_r (mtod m)), ld_data by (done || lia). rewrite Hdata. unfold counting_bytes.
    rewrite <-app_assoc, slice_app_l by (rewrite ?length_le_store; lia).
    change (Z.of_nat 1) with (zlen (le_store 1 (ctype c))). rewrite slice_0_all, le_load_store. by rewrite Z.mod_small. }
  assert (Hld4 : ld 4 m (mtod m + 4) = Ok (count c)).
  { rewrite ld_data by (done || lia). rewrite Hdata. unfold counting_bytes.
    rewrite <-!app_assoc. rewrite (app_assoc (le_store 1 _)), slice_app_r by (rewrite length_app, !length_le_store; lia).
    rewrite length_app, !length_le_store. rewrite slice_app_l by (rewrite ?length_le_store; lia).
    change (4 - Z.of_nat (1 + 3)) with 0. change (Z.of_nat 4) with (zlen (le_store 4 (count c))).
    rewrite slice_0_all, le_load_store. rewrite Z.mod_small; [done|]. change (256 ^ Z.of_nat 4) with (2 ^ 32). lia. }
  rewrite Hld1, Hld4. res_simpl.
  rewrite (foldM_index (fun s it => Ok (add_item (ctype c) s it)) (append_item m (ctype c)) (items c) 0 (count c) s); [|lia..|].
  2: { intros s' i it Hi Hit. replace i with (Z.of_nat (Z.to_nat i)) by lia. by apply (append_item_eq _ c). }
  rewrite Hcnt, slice_0_all.
  destruct (add_items_ok t0 rows (ctype c) (items c) s Hs) as (s' & -> & Hs'); [lia|].
  res_simpl. by exists s'.
Qed.

Lemma append_burst_ok t0 rows cs input s w :
  Forall2 carries cs input -> sql_holds t0 rows s -> zlen rows + 192 * zlen input < 2 ^ 32 ->
  exists s', append_burst input s w = Ok (Some s', s', w_free input w) /\
    sql_holds t0 (rows ++ (cs ≫= message_rows)) s'.
Proof.
  intros Hf. revert rows s w. induction Hf as [|c m cs input Hm _ IH]; intros rows s w Hs Hl; cbn [append_burst].
  { exists s. rewrite app_nil_r. split; [|done]. unfold w_free. rewrite app_nil_r. by destruct w. }
  cbn [length] in Hl. destruct (append_message_ok t0 rows c m s Hm Hs) as (s1 & -> & Hs1); [lia|]. res_simpl.
  assert (Hn : zlen (message_rows c) <= 192).
  { destruct Hm as (_ & _ & _ & Hcnt & Hc64 & _). unfold TRANSFER_RING_BURST in *. unfold message_rows.
    assert (zlen (items c ≫= item_rows (ctype c)) <= 3 * zlen (items c)); [|lia].
    clear. induction (items c) as [|it its IHi]; [cbn; lia|]. rewrite bind_cons, length_app. cbn [length].
    pose proof (length_item_rows (ctype c) it). lia. }
  destruct (IH (rows ++ message_rows c) s1 (w_free [m] w) Hs1) as (s' & -> & Hs').
  { rewrite length_app. lia. }
  exists s'. rewrite bind_cons, app_assoc. split; [|done]. unfold w_free. cbn. by rewrite <-app_assoc.
Qed.

Lemma message_rows_ok c : Forall item_ok (items c) -> Forall row_ok (message_rows c).
Proof.
  unfold message_rows. intros HF. induction HF as [|it its (Hk & Hu & H3 & Hw) _ IH]; [constructor|].
  rewrite bind_cons. apply Forall_app. split; [|done]. unfold item_rows, mode_row.
  repeat apply Forall_app_2; repeat case_if; repeat constructor; unfold row_ok; cbn; lia.
Qed.
End log_lemmas.

(** ** Moving messages to the internal ring *)
Section forward_lemmas.
Context `{DpdkOk}.
Implicit Types (c : CoreInterface rte_mbuf) (w : world rte_mbuf).

Lemma send_burst_ok input c w :
  core_ok c w ->
  exists c' w', foldM (fun s m => CoreInterface.SendOrBuffer m s) input (c, w) = Ok (c', w') /\ core_ok c' w' /\
    same_conf c c' /\ output_ c' ++ w_all w' ≡ₚ input ++ output_ c ++ w_all w.
Proof.
  revert c w. induction input as [|m input IH]; intros c w Ho; cbn [foldM].
  { exists c, w. split_and!; try done. apply same_conf_refl. }
  destruct (SendOrBuffer_ok m c w Ho) as (c1 & w1 & -> & Ho1 & Hs1 & _ & _ & Hp1). res_simpl.
  destruct (IH c1 w1 Ho1) as (c2 & w2 & -> & Ho2 & Hs2 & Hp2). exists c2, w2.
  split_and!; try done; [exact (same_conf_trans _ _ _ Hs1 Hs2)|]. rewrite Hp2, Hp1. solve_Permutation.
Qed.

Lemma forward_burst_ok c w :
  core_ok c w -> w_valid (ring_fm_ c) w -> 0 <= burst_fm_ c <= DEFAULT_MBUF_ARRAY_SIZE ->
  exists c' w', HostStackCycle.forward_burst (c, w) = Ok (c', w') /\ core_ok c' w' /\ same_conf c c' /\
    output_ c' ++ w_all w' ≡ₚ output_ c ++ w_all w.
Proof.
  intros Ho Hv Hb. unfold HostStackCycle.forward_burst.
  destruct (w_dequeue_spec _ (burst_fm_ c) w (proj1 Hb) Hv) as (w1 & E & _).
  rewrite E. res_simpl. destruct (w_all_dequeue _ _ _ _ _ (proj1 Hb) E) as [Hall Hlen].
  assert (Hk : w_keeps w w1).
  { unfold w_dequeue_burst in E. destruct (w_ring _ w); res_simpl; simplify_eq/=. apply w_keeps_set. }
  unfold require. rewrite (proj2 (Z.leb_le _ DEFAULT_MBUF_ARRAY_SIZE)) by lia. res_simpl. rewrite burst_or_nothing.
  destruct (send_burst_ok (take (Z.to_nat (burst_fm_ c)) (w_objs (ring_fm_ c) w)) c w1) as (c2 & w2 & -> & Ho2 & Hs2 & Hp2);
    [by eapply core_ok_keeps|].
  exists c2, w2. split_and!; try done. rewrite Hp2, Hall. solve_Permutation.
Qed.
End forward_lemmas.

(** ** Sending *)
Section send_lemmas.
Context `{DpdkOk}.
Context (env : nat -> CoreTransferWorker.round).
Import CoreTransferWorker.

(** [send] fails in one of the rounds. *)
Definition breaks (n n' : nat) : Prop := exists i room, (n <= i < n')%nat /\ env i = SelectReady true room /\ room < 0.

(** What a call that returned [ret] has put on the connection. *)
Definition delivered (data bytes : list Z) (ret : Z) : Prop :=
  (ret = zlen data /\ bytes = data) \/
  (ret = -1 /\ exists k, bytes = take k data /\ (data <> [] -> (k < length data)%nat)).

Lemma send_loop_ok fuel data n r k wire :
  0 <= r <= 11 -> 12 - r <= Z.of_nat fuel -> 0 <= k -> k < zlen data \/ (k = 0 /\ data = []) ->
  (exists ret n' rest, send_loop env fuel data n r k wire = Ok (ret, n', wire ++ rest) /\
     (n' <= n + Z.to_nat (12 - r))%nat /\ delivered data (take (Z.to_nat k) data ++ rest) ret) \/
  (send_loop env fuel data n r k wire = Fault RteExit /\ breaks n (n + Z.to_nat (12 - r))).
Proof.
  revert n r k wire. induction fuel as [|fuel IH]; intros n r k wire Hr Hf Hk Hkd; [lia|]. cbn [send_loop].
  assert (Hstop : exists ret n' rest, Ok (-1, S n, wire) = Ok (ret, n', wire ++ rest) /\
     (n' <= n + Z.to_nat (12 - r))%nat /\ delivered data (take (Z.to_nat k) data ++ rest) ret).
  { exists (-1), (S n), []. rewrite app_nil_r. split; [done|]. split; [lia|]. right. split; [done|].
    exists (Z.to_nat k). rewrite app_nil_r. split; [done|]. intros Hne. destruct Hkd as [|[_ ?]]; [lia|done]. }
  destruct (10 <? r) eqn:E10; to_prop; [by left|].
  assert (Hnext : forall k' wire' pre, wire' = wire ++ pre -> take (Z.to_nat k') data = take (Z.to_nat k) data ++ pre ->
     0 <= k' -> k' < zlen data \/ (k' = 0 /\ data = []) ->
     (exists ret n' rest, send_loop env fuel data (S n) (r + 1) k' wire' = Ok (ret, n', wire ++ rest) /\
       (n' <= n + Z.to_nat (12 - r))%nat /\ delivered data (take (Z.to_nat k) data ++ rest) ret) \/
     (send_loop env fuel data (S n) (r + 1) k' wire' = Fault RteExit /\ breaks n (n + Z.to_nat (12 - r)))).
  { intros k' wire' pre -> Epre Hk' Hkd'.
    destruct (IH (S n) (r + 1) k' (wire ++ pre)) as [(ret & n' & rest & -> & Hn & Hd)|[-> (i & room & Hi & Hb)]]; [lia..|done| |].
    - left. exists ret, n', (pre ++ rest). rewrite !app_assoc. split; [done|]. split; [lia|].
      rewrite Epre in Hd. by rewrite <-app_assoc in Hd |- *.
    - right. split; [done|]. exists i, room. split; [lia|done]. }
  pose proof (fun a b => Hnext k wire [] (eq_sym (app_nil_r wire)) (eq_sym (app_nil_r _)) a b) as Hsame.
  destruct (env n) as [[]| |[] room] eqn:En; [by apply Hsame|by left|by apply Hsame| |by apply Hsame].
  destruct (_ <? 0) eqn:E0; to_prop.
  { right. split; [done|]. exists n, room. split; [lia|]. split; [done|]. lia. }
  set (sl := Z.min room (zlen data - k)) in *.
  assert (Epre : take (Z.to_nat (k + sl)) data = take (Z.to_nat k) data ++ slice k sl data).
  { unfold slice. replace (Z.to_nat (k + sl)) with (Z.to_nat k + Z.to_nat sl)%nat by lia. by rewrite take_take_drop. }
  destruct (zlen data <=? k + sl) eqn:Ed; to_prop.
  - left. exists (k + sl), (S n), (slice k sl data). split; [done|]. split; [lia|]. left.
    split; [unfold sl in *; lia|]. rewrite <-Epre. apply take_ge. lia.
  - apply (Hnext (k + sl) _ (slice k sl data)); [done|done|lia|]. left. lia.
Qed.

(** More fuel changes nothing. *)
Lemma send_loop_fuel f1 f2 data n r k wire :
  0 <= r <= 11 -> 12 - r <= Z.of_nat f1 -> 12 - r <= Z.of_nat f2 ->
  send_loop env f1 data n r k wire = send_loop env f2 data n r k wire.
Proof.
  revert f2 n r k wire. induction f1 as [|f1 IH]; intros f2 n r k wire Hr H1 H2; [lia|].
  destruct f2 as [|f2]; [lia|]. cbn [send_loop]. destruct (10 <? r) eqn:E; to_prop; [done|].
  destruct (env n) as [[]| |[] room]; try done; try (apply IH; lia). repeat case_if; try done. apply IH; lia.
Qed.

(** The socket never fails. *)
Definition socket_up : Prop := forall i room, env i = SelectReady true room -> 0 <= room.

Lemma Send_ok data n wire :
  (exists ret n' rest, Send env data n wire = Ok (ret, n', wire ++ rest) /\ (n' <= n + 12)%nat /\ delivered data rest ret) \/
  (Send env data n wire = Fault RteExit /\ breaks n (n + 12)).
Proof.
  unfold Send. destruct (send_loop_ok 12 data n 0 0 wire) as [(ret & n' & rest & -> & Hn & Hd)|[-> Hb]]; [lia..| | |].
  - destruct data; [by right|left; cbn; lia].
  - left. exists ret, n', rest. done.
  - right. done.
Qed.

(** Messages of a burst: the bytes sent and the result for each. *)
Definition sent_sum (ok : bool) (input : list rte_mbuf) (crs : list (list Z * Z)) : Z :=
  foldr (fun mc acc => (if Bool.eqb (0 <=? mc.2.2) ok then pkt_len mc.1 else 0) + acc) 0 (zip input crs).

(** A step that is known to return, without unfolding it. *)
Lemma bind_Ok {A B} (f : A -> res B) (r : res A) a : r = Ok a -> r ≫= f = f a.
Proof. by intros ->. Qed.

Lemma sent_sum_one ok m bytes ret :
  sent_sum ok [m] [(bytes, ret)] = if Bool.eqb (0 <=? ret) ok then pkt_len m else 0.
Proof. unfold sent_sum. cbn [zip zip_with foldr fst snd]. lia. Qed.

Lemma count_if (b : bool) a p : u64 (if b then u64 (a + p) else a) = u64 (a + (if b then p else 0)).
Proof. destruct b; [by apply wrap_wrap|by rewrite Z.add_0_r]. Qed.

Lemma send_packet_eq m x w n wire ret n' wire' :
  mbuf_wf m -> Send env (pkt_data m) n wire = Ok (ret, n', wire') ->
  send_packet env (x, w, n, wire) m =
  Ok (mk_transfer (tcore x) (cpuid_ x) (sock_ x) (u64 (transfer_count_ x + 1))
        (if ret <? 0 then transfer_bytes_ x else u64 (transfer_bytes_ x + pkt_len m))
        (if ret <? 0 then u64 (drop_bytes_ x + pkt_len m) else drop_bytes_ x), w_free [m] w, n', wire').
Proof.
  intros [? ? ? ? Hp _ _ _] E. unfold send_packet, mtod.
  assert (Hld : ld_bytes (pkt_len m) m (data_off m) = Ok (pkt_data m)).
  { rewrite ld_bytes_ok by lia. rewrite Hp. reflexivity. }
  rewrite (bind_Ok _ _ _ Hld). cbv beta. rewrite (bind_Ok _ _ _ E). reflexivity.
Qed.

Lemma send_packet_ok m x w n wire :
  socket_up -> mbuf_wf m ->
  exists x' n' bytes ret, send_packet env (x, w, n, wire) m = Ok (x', w_free [m] w, n', wire ++ bytes) /\
    delivered (pkt_data m) bytes ret /\ tcore x' = tcore x /\
    transfer_count_ x' = u64 (transfer_count_ x + 1) /\
    u64 (transfer_bytes_ x') = u64 (transfer_bytes_ x + sent_sum true [m] [(bytes, ret)]) /\
    u64 (drop_bytes_ x') = u64 (drop_bytes_ x + sent_sum false [m] [(bytes, ret)]).
Proof.
  intros Hup Hm. destruct (Send_ok (pkt_data m) n wire) as [(ret & n' & bytes & E & _ & Hd)|[_ (i & room & _ & Hi & Hr)]].
  2: { specialize (Hup i room Hi). lia. }
  eexists _, n', bytes, ret. split; [exact (send_packet_eq m x w n wire ret n' _ Hm E)|].
  split; [exact Hd|]. rewrite !sent_sum_one.
  cbn [tcore transfer_count_ transfer_bytes_ drop_bytes_]. split; [reflexivity|]. split; [reflexivity|].
  destruct (ret <? 0) eqn:Er; to_prop.
  - rewrite (proj2 (Z.leb_gt 0 ret)) by lia. split; [apply (count_if false _ 0)|apply (count_if true)].
  - rewrite (proj2 (Z.leb_le 0 ret)) by lia. split; [apply (count_if true)|apply (count_if false _ 0)].
Qed.

Lemma sum_step a b m cr input crs ok :
  u64 a = u64 (b + sent_sum ok [m] [cr]) ->
  u64 (a + sent_sum ok input crs) = u64 (b + sent_sum ok (m :: input) (cr :: crs)).
Proof.
  intros E. destruct cr as [bytes ret]. rewrite sent_sum_one in E. rewrite <-wrap_add_l, E, wrap_add_l.
  f_equal. unfold sent_sum. cbn [zip zip_with foldr fst snd]. lia.
Qed.

Lemma send_packets_ok input x w n wire :
  socket_up -> Forall mbuf_wf input ->
  exists x' n' crs,
    foldM (send_packet env) input (x, w, n, wire) = Ok (x', w_free input w, n', wire ++ concat crs.*1) /\
    Forall2 (fun m cr => delivered (pkt_data m) cr.1 cr.2) input crs /\
    tcore x' = tcore x /\ u64 (transfer_count_ x') = u64 (transfer_count_ x + zlen input) /\
    u64 (transfer_bytes_ x') = u64 (transfer_bytes_ x + sent_sum true input crs) /\
    u64 (drop_bytes_ x') = u64 (drop_bytes_ x + sent_sum false input crs).
Proof.
  intros Hup HF. revert x w n wire. induction HF as [|m input Hm _ IH]; intros x w n wire; cbn [foldM].
  { exists x, n, []. cbn -[u64]. rewrite app_nil_r, !Z.add_0_r. split_and!; try done.
    unfold w_free. rewrite app_nil_r. by destruct w. }
  destruct (send_packet_ok m x w n wire Hup Hm) as (x1 & n1 & bytes & ret & -> & Hd & Et & Ec & Eb & Edr). res_simpl.
  destruct (IH x1 (w_free [m] w) n1 (wire ++ bytes)) as (x' & n' & crs & -> & HF2 & Et' & Ec' & Eb' & Edr').
  exists x', n', ((bytes, ret) :: crs). rewrite fmap_cons. cbn [concat fst]. split_and!.
  - unfold w_free. cbn. by rewrite <-!app_assoc.
  - by constructor.
  - congruence.
  - rewrite Ec', Ec, wrap_add_l. cbn [length]. f_equal. lia.
  - rewrite Eb'. by apply sum_step.
  - rewrite Edr'. by apply sum_step.
Qed.
End send_lemmas.

(** ** Properties *)
Module Properties.
Section properties.
Context `{DpdkOk}.
Implicit Types (w : world rte_mbuf).

(** the log worker writes everything that was counted: from a burst of
    packets that carry counting messages it sends one INSERT statement whose text
    reads back as the rows of the messages, and per user and mode these rows add up,
    for each direction, to exactly what the messages charge; every message is freed
    once, the row counter grows by the rows, and the result is that of the query. *)
Theorem log_writes_all_usage (mysql_query : cstring -> Z) (x : CoreCounterLogWorker.LogWorker) w
    (cs : list counting) :
  let c := CoreCounterLogWorker.gcore x in
  let input := take (Z.to_nat (burst_to_ c)) (w_objs (ring_to_ c) w) in
  let rows := cs ≫= message_rows in
  w_valid (ring_to_ c) w -> 0 <= burst_to_ c <= DEFAULT_MBUF_ARRAY_SIZE ->
  0 <= CoreCounterLogWorker.transfer_count_ x < 2 ^ 64 -> input <> [] -> Forall2 carries cs input ->
  exists x' w',
    CoreCounterLogWorker.VirtualCycle mysql_query (x, w) =
      Ok (if mysql_query (statement rows) =? 0 then 0 else -1, (x', w'), Some (statement rows)) /\
    read_rows (length rows) (drop (length CoreCounterLogWorker.insert_into) (statement rows)) = rows /\
    (forall k kind, 0 <= kind <= 2 ->
       logged r_sgi k kind rows = billed k kind (told (List.filter (fun c => ctype c =? COUNTER_EGRESS) cs)) /\
       logged r_s5 k kind rows = billed k kind (told (List.filter (fun c => negb (ctype c =? COUNTER_EGRESS)) cs))) /\
    w_freed w' = w_freed w ++ input /\ w_all w' ≡ₚ w_all w /\
    CoreCounterLogWorker.transfer_count_ x' = u64 (CoreCounterLogWorker.transfer_count_ x + zlen rows).
Proof.
  intros c input rows Hv Hb Ht Hne Hc. unfold CoreCounterLogWorker.VirtualCycle.
  change (CoreCounterLogWorker.gcore x) with c.
  destruct (w_dequeue_spec _ (burst_to_ c) w (proj1 Hb) Hv) as (w1 & E & [Hf _] & _).
  fold input in E. rewrite E. res_simpl. destruct (w_all_dequeue _ _ _ _ _ (proj1 Hb) E) as [Hall Hlen].
  unfold require, DEFAULT_MBUF_ARRAY_SIZE in *. rewrite (proj2 (Z.leb_le _ 512)) by lia. res_simpl.
  rewrite (proj2 (Z.eqb_neq (zlen input) 0)) by (destruct input; [done|cbn; lia]).
  destruct (append_burst_ok (CoreCounterLogWorker.transfer_count_ x) [] cs input
    (CoreCounterLogWorker.mk_sql CoreCounterLogWorker.insert_into 0 (CoreCounterLogWorker.transfer_count_ x)) w1 Hc)
    as (s' & -> & [Es _ Ec]).
  { constructor; cbn [length]; [unfold statement; by rewrite app_nil_r|done|]. rewrite Z.add_0_r. symmetry. by apply wrap_small. }
  { cbn [length]. lia. }
  res_simpl. cbn [app] in *. fold rows in Es, Ec. rewrite Es.
  eexists _, (w_free input w1). split; [by destruct (mysql_query (statement rows) =? 0)|].
  split; [|split; [by apply logged_messages|]].
  - unfold statement. rewrite drop_app_length. apply read_rows_join. unfold rows. clear -Hc.
    induction Hc as [|c0 m cs' input' Hm _ IH]; [constructor|]. rewrite bind_cons. apply Forall_app. split; [|done].
    apply message_rows_ok, Hm.
  - cbn [CoreCounterLogWorker.transfer_count_]. split_and!; [cbn; by rewrite Hf|by rewrite w_all_free, Hall|exact Ec].
Qed.

(** a cycle of the log or of the transfer worker returns and neither loses nor
    duplicates a message: what its buffer and the rings hold, with what was freed,
    stays the same; the logging-only cycle of the log worker also empties the
    buffer. *)
Theorem host_stack_cycles_conserve (cnt : Z) (x : CoreCounterLogWorker.LogWorker)
    (t : CoreTransferWorker.TransferWorker) w :
  CoreCounterLogWorker.gcore x = CoreTransferWorker.tcore t ->
  let c := CoreCounterLogWorker.gcore x in
  core_ok c w -> w_valid (ring_fm_ c) w -> 0 <= burst_fm_ c <= DEFAULT_MBUF_ARRAY_SIZE ->
  (exists x' w', CoreCounterLogWorker.Cycle cnt (x, w) = Ok (x', w') /\
     core_ok (CoreCounterLogWorker.gcore x') w' /\
     output_ (CoreCounterLogWorker.gcore x') ++ w_all w' ≡ₚ output_ c ++ w_all w /\
     (HostStackCycle.debug_cycle cnt = true -> output_ (CoreCounterLogWorker.gcore x') = [])) /\
  (exists t' w', CoreTransferWorker.Cycle cnt (t, w) = Ok (t', w') /\
     core_ok (CoreTransferWorker.tcore t') w' /\
     output_ (CoreTransferWorker.tcore t') ++ w_all w' ≡ₚ output_ c ++ w_all w).
Proof.
  intros Ext c Ho Hv Hb. unfold CoreCounterLogWorker.Cycle, CoreTransferWorker.Cycle. rewrite <-Ext.
  change (CoreCounterLogWorker.gcore x) with c.
  destruct (forward_burst_ok c w Ho Hv Hb) as (c' & w' & Ef & Ho' & _ & Hp').
  destruct (HostStackCycle.debug_cycle cnt).
  - destruct (BurstFlush_ok c w Ho) as (c2 & w2 & E2 & Ho2 & _ & _ & _ & Eo2 & Hp2). rewrite E2. res_simpl. split.
    + eexists _, _. split; [done|]. cbn [CoreCounterLogWorker.gcore]. rewrite Eo2, Hp2. done.
    + eexists _, _. split; [done|]. cbn [CoreTransferWorker.tcore]. done.
  - rewrite Ef. res_simpl. split.
    + eexists _, _. split; [done|]. cbn. done.
    + eexists _, _. split; [done|]. cbn. done.
Qed.

(** [Send] ends after at most twelve calls of [select], whatever they return
    (more fuel gives the same result); it puts a prefix of the payload on the
    connection, returns the payload length exactly when that is all of it and -1
    otherwise, or leaves the process because [send] failed. *)
Theorem send_terminates (env : nat -> CoreTransferWorker.round) (data wire : list Z) (n fuel : nat) :
  (12 <= fuel)%nat ->
  CoreTransferWorker.send_loop env fuel data n 0 0 wire = CoreTransferWorker.Send env data n wire /\
  ((exists ret n' rest, CoreTransferWorker.Send env data n wire = Ok (ret, n', wire ++ rest) /\
      (n' <= n + 12)%nat /\ delivered data rest ret) \/
   (CoreTransferWorker.Send env data n wire = Fault RteExit /\ breaks env n (n + 12))).
Proof. intros Hf. split; [apply send_loop_fuel; lia|apply Send_ok]. Qed.

(** while the socket does not fail, [VirtualCycle] of the transfer worker
    returns, frees every message of the burst once, and puts on the connection,
    in order, each payload or a proper prefix of it; the whole ones are added
    to the transferred bytes, the cut ones to the dropped bytes, all to the
    message count. *)
Theorem transfer_delivers_in_order (env : nat -> CoreTransferWorker.round)
    (x : CoreTransferWorker.TransferWorker) w (n : nat) (wire : list Z) :
  let c := CoreTransferWorker.tcore x in
  let input := take (Z.to_nat (burst_to_ c)) (w_objs (ring_to_ c) w) in
  socket_up env -> w_valid (ring_to_ c) w -> 0 <= burst_to_ c <= DEFAULT_MBUF_ARRAY_SIZE ->
  Forall mbuf_wf (w_objs (ring_to_ c) w) ->
  exists x' w' n' crs,
    CoreTransferWorker.VirtualCycle env (x, w, n, wire) = Ok (x', w', n', wire ++ concat crs.*1) /\
    Forall2 (fun m cr => delivered (pkt_data m) cr.1 cr.2) input crs /\
    w_freed w' = w_freed w ++ input /\ w_all w' ≡ₚ w_all w /\
    u64 (CoreTransferWorker.transfer_count_ x') = u64 (CoreTransferWorker.transfer_count_ x + zlen input) /\
    u64 (CoreTransferWorker.transfer_bytes_ x') = u64 (CoreTransferWorker.transfer_bytes_ x + sent_sum true input crs) /\
    u64 (CoreTransferWorker.drop_bytes_ x') = u64 (CoreTransferWorker.drop_bytes_ x + sent_sum false input crs).
Proof.
  intros c input Hup Hv Hb HF. unfold CoreTransferWorker.VirtualCycle. change (CoreTransferWorker.tcore x) with c.
  destruct (w_dequeue_spec _ (burst_to_ c) w (proj1 Hb) Hv) as (w1 & E & [Hf _] & _).
  fold input in E. rewrite E. res_simpl. destruct (w_all_dequeue _ _ _ _ _ (proj1 Hb) E) as [Hall Hlen].
  unfold require. rewrite (proj2 (Z.leb_le _ DEFAULT_MBUF_ARRAY_SIZE)) by lia. res_simpl.
  destruct (send_packets_ok env input x w1 n wire Hup) as (x' & n' & crs & -> & HF2 & _ & E1 & E2 & E3);
    [by apply Forall_take|].
  exists x', (w_free input w1), n', crs. split; [done|]. split; [done|]. split; [cbn; by rewrite Hf|].
  split; [by rewrite w_all_free, Hall|]. done.
Qed.
End properties.

(** Two packets that carry messages, one per direction. *)
Definition some_message (type : Z) : counting :=
  mk_counting type (CoreCounterWorker.BE24 sizeof_counting) 2 [mk_item 17 300 7 0; mk_item 2 0 0 9].
Definition message_packet (a type : Z) : rte_mbuf :=
  let d := counting_bytes [0; 0; 0; 0] (some_message type) in
  mk_mbuf a (repeat 0 64 ++ d ++ repeat 0 (1036 - length d) ++ repeat 0 64) 64 1036 1036 1 None 0 0.
Definition log_core : CoreInterface rte_mbuf :=
  mk_core 0 0 1 0 0 0 0 0 0 4 3 (Some 1) (Some 2) [] 1 CoreCounter.Clear.
Definition log_world : @world DpdkModel.dpdk rte_mbuf :=
  @mk_world DpdkModel.dpdk rte_mbuf
    (<[1 := (9%nat, [message_packet 1 0xff]) : DpdkModel.queue rte_mbuf]>
      {[ 2 := (9%nat, [message_packet 2 0xff; message_packet 3 0xfe]) : DpdkModel.queue rte_mbuf ]}) [].
Definition log_worker : CoreCounterLogWorker.LogWorker := CoreCounterLogWorker.construct log_core [] 3.
Definition transfer_worker : CoreTransferWorker.TransferWorker :=
  CoreTransferWorker.mk_transfer log_core 3 9 0 0 0.

Lemma message_packet_wf a type : type = 0xff \/ type = 0xfe -> mbuf_wf (message_packet a type).
Proof.
  intros [-> | ->]; (constructor; [vm_compute; congruence..|apply bytes_okb_ok; vm_compute; reflexivity|reflexivity|reflexivity]).
Qed.

Lemma message_packet_carries a type :
  type = 0xff \/ type = 0xfe -> carries (some_message type) (message_packet a type).
Proof.
  intros Ht. split; [by apply message_packet_wf|]. split; [reflexivity|].
  split; [destruct Ht as [-> | ->]; cbn; lia|]. split; [reflexivity|]. split; [vm_compute; split; congruence|].
  split; [repeat constructor; cbn; lia|].
  exists [0; 0; 0; 0], (repeat 0 (1036 - length (counting_bytes [0; 0; 0; 0] (some_message type)))).
  split; [reflexivity|]. destruct Ht as [-> | ->]; vm_compute; reflexivity.
Qed.

Lemma log_writes_all_usage_witness :
  exists x' w' sql,
    CoreCounterLogWorker.VirtualCycle (fun _ => 0) (log_worker, log_world) = Ok (0, (x', w'), Some sql) /\
    zlen (w_freed w') = 2 /\
    sql = CoreCounterLogWorker.insert_into ++ lit "(17,0,300,0),(17,0,7,1),(2,0,9,2),(17,300,0,0),(17,7,0,1),(2,9,0,2)".
Proof.
  destruct (log_writes_all_usage (D := DpdkModel.dpdk) (fun _ => 0) log_worker log_world
              [some_message 0xff; some_message 0xfe]) as (x' & w' & E & _ & _ & Hf & _).
  - eexists. vm_compute. reflexivity.
  - vm_compute. split; congruence.
  - vm_compute. split; congruence.
  - vm_compute. discriminate.
  - constructor; [apply message_packet_carries; by left|].
    constructor; [apply message_packet_carries; by right|constructor].
  - eexists x', w', _. split; [exact E|]. rewrite Hf. split; [reflexivity|]. vm_compute. reflexivity.
Defined.

Lemma log_core_ok : core_ok log_core log_world.
Proof.
  constructor; [eexists; vm_compute; reflexivity|vm_compute; congruence|vm_compute; congruence|cbn; lia].
Qed.

Lemma host_stack_cycles_conserve_witness :
  exists x' w', CoreCounterLogWorker.Cycle 1 (log_worker, log_world) = Ok (x', w') /\
    output_ (CoreCounterLogWorker.gcore x') ++ w_all w' ≡ₚ w_all log_world.
Proof.
  destruct (host_stack_cycles_conserve (D := DpdkModel.dpdk) 1 log_worker transfer_worker log_world)
    as [(x' & w' & E & _ & Hp & _) _].
  - reflexivity.
  - exact log_core_ok.
  - eexists. vm_compute. reflexivity.
  - vm_compute. split; congruence.
  - exists x', w'. split; [exact E|exact Hp].
Defined.

(** A socket that takes five bytes in every other round. *)
Definition slow_socket (n : nat) : CoreTransferWorker.round :=
  if Nat.even n then CoreTransferWorker.SelectReady true 5 else CoreTransferWorker.SelectTimeout.

Lemma send_terminates_witness :
  CoreTransferWorker.send_loop slow_socket 100 (seqZ 0 12) 0 0 0 [] = Ok (12, 5%nat, seqZ 0 12).
Proof.
  rewrite (proj1 (send_terminates slow_socket (seqZ 0 12) [] 0 100 ltac:(lia))). vm_compute. reflexivity.
Defined.

Lemma transfer_delivers_in_order_witness :
  exists x' w' n' wire',
    CoreTransferWorker.VirtualCycle slow_socket (transfer_worker, log_world, 0%nat, []) = Ok (x', w', n', wire') /\
    zlen (w_freed w') = 2.
Proof.
  destruct (transfer_delivers_in_order (D := DpdkModel.dpdk) slow_socket transfer_worker log_world 0 [])
    as (x' & w' & n' & crs & E & _ & Hf & _).
  - intros i room. unfold slow_socket. destruct (Nat.even i); [|discriminate]. intros [= <-]. lia.
  - eexists. vm_compute. reflexivity.
  - vm_compute. split; congruence.
  - constructor; [apply message_packet_wf; by left|]. constructor; [apply message_packet_wf; by right|constructor].
  - eexists x', w', n', _. split; [exact E|]. rewrite Hf. reflexivity.
Defined.
End Properties.
