(* ===== verification/Gtpc.v ===== *)
(** * GTP-C packets of the control plane

    The packet object of ctrlplane/src/pkt and ctrlplane/src/cmn: allocation,
    release and conversion (gtp_alloc_packet.c, gtp_free_packet.c,
    gtp_memory_status.c, alloc_packet.c, free_packet.c), header access and
    validation (gtpc_header.c, gtpc_validate_header.c, gtpu_validate_header.c),
    and the item list (gtpc_append_item, gtpc_v1_append_item,
    gtpc_iterate_item of gtpc_item_func.c), with the constants and structures of
    ctrlplane/inc/gtpc_def.h they use.

    Memory blocks are byte lists; a pointer into a block is the suffix of the
    block it designates.  [malloc n] tells whether the [n]-th allocation of a run
    succeeds, so that every allocation failure is covered. *)

From S2P Require Import Prelude.

(** ** Checked accesses to a block of bytes *)
Definition inside (p n : Z) (b : list Z) : bool := (0 <=? p) && (0 <=? n) && (p + n <=? zlen b).
Definition rd_bytes (n : Z) (b : list Z) (p : Z) : res (list Z) :=
  if inside p n b then Ok (slice p n b) else Fault Undefined.
Definition wr_bytes (b : list Z) (p : Z) (bs : list Z) : res (list Z) :=
  if inside p (zlen bs) b then Ok (splice p bs b) else Fault Undefined.
Definition rd (n : nat) (b : list Z) (p : Z) : res Z :=
  bs ← rd_bytes (Z.of_nat n) b p; Ok (le_load bs).
Definition wr (n : nat) (b : list Z) (p v : Z) : res (list Z) := wr_bytes b p (le_store n v).
(** Assignment to a bit-field of [w] bits at bit [o] of the byte at [p]. *)
Definition wr_bits (b : list Z) (p o w x : Z) : res (list Z) :=
  v ← rd 1 b p; wr 1 b p (bf_set o w x v).

(** ** Constants *)
Definition OK := 0.
Definition ERR := -1.
(** gtpc_def.h repeats it as 1518 under [#ifndef], after pgw_def.h has been read. *)
Definition ETHER_MAX_LEN := 1514.
Definition GTPC_VERSION_1 := 1.
Definition GTPC_VERSION_2 := 2.
Definition GTPC_PIGGY_OFF := 0.
Definition GTPC_TEID_OFF := 0.
Definition GTPC_TEID_ON := 1.
Definition GTPC_ECHO_REQ := 1.
Definition GTPC_ECHO_RES := 2.
Definition GTPC_VERSION_NOT_SUPPORTED_INDICATION := 3.
Definition GTPC_CREATE_SESSION_REQ := 32.
Definition GTPC_CREATE_SESSION_RES := 33.
Definition GTPC_MODIFY_BEARER_REQ := 34.
Definition GTPC_MODIFY_BEARER_RES := 35.
Definition GTPC_DELETE_SESSION_REQ := 36.
Definition GTPC_DELETE_SESSION_RES := 37.
Definition GTPC_DELETE_BEARER_REQ := 99.
Definition GTPC_DELETE_BEARER_RES := 100.
Definition GTPC_SUSPEND_NOTIFICATION := 162.
Definition GTPC_RESUME_NOTIFICATION := 164.
Definition GTPC_CAPABILITY_ITEM_COUNT : nat := 255.
Definition GTPC_V1_PT_GTP := 1.
Definition GTPC_V1_SEQNUM_YES := 1.
Definition GTPC_V1_NPDU_NO := 0.
Definition GTPC_V1_EXTENSION_NO := 0.
Definition GTPU_VERSION_1 := 1.
Definition GTPU_PROTO_GTP := 1.
Definition GTPU_NPDU_OFF := 0.
Definition GTPU_ECHO_REQ := 1.
Definition GTPU_ECHO_RES := 2.
Definition GTPU_G_PDU := 255.

(** ** Layouts *)
Definition sizeof_gtpc_header := 12.
Definition sizeof_gtpc_v1_header := 8.
Definition sizeof_gtpc_comm_header := 4.
Definition sizeof_sockaddr_in := 16.
Definition o_flags := 0.
Definition o_type := 1.
Definition o_length := 2.
Definition o_teid := 4.
(** [v2_flags]: spare:3, teid:1, piggy:1, version:3. *)
Definition v2_teid (f : Z) := bf_get 3 1 f.
Definition v2_piggy (f : Z) := bf_get 4 1 f.
Definition v2_version (f : Z) := bf_get 5 3 f.
(** [gtpc_comm_header]: type, length, instance. *)
Definition o_ie_type := 0.
Definition o_ie_length := 1.
Definition o_ie_inst := 3.

(** ** Data *)
Record gtp_item := mk_item { i_type : Z; i_length : Z; i_offset : Z }.
Record gtp_packet := mk_packet {
  items : list gtp_item;
  count : Z;
  length_ : Z;
  offset : Z;
  packet : list Z;      (* the data area and the magic code behind it *)
  saddr : list Z;
  saddrlen : Z;
  caddr : list Z;
  caddrlen : Z;
}.
(** [packet_t], the generic packet; the queue link is left to the queues. *)
Record packet_t := mk_packet_t {
  datalen : Z;
  data : list Z;
  p_saddr : list Z;
  p_saddrlen : Z;
  p_caddr : list Z;
  p_caddrlen : Z;
}.

(** The accounting variables of gtp_memory_status.c and the number of [malloc]
    calls so far. *)
Record gtp_memory := mk_memory {
  gtp_memory_status_count : Z;
  gtp_memory_alloc_count : Z;
  gtp_memory_free_count : Z;
  pgw_memory_status_count : Z;
  pgw_memory_alloc_count : Z;
  pgw_memory_free_count : Z;
  pgw_memory_free_err_count : Z;
  mallocs : nat;
}.
Definition memory0 : gtp_memory := mk_memory 0 0 0 0 0 0 0 0.
Definition count_gtp (status alloc freed : Z) (s : gtp_memory) : gtp_memory :=
  mk_memory (u64 (gtp_memory_status_count s + status)) (u64 (gtp_memory_alloc_count s + alloc))
    (u64 (gtp_memory_free_count s + freed)) (pgw_memory_status_count s) (pgw_memory_alloc_count s)
    (pgw_memory_free_count s) (pgw_memory_free_err_count s) (mallocs s).
Definition count_pgw (alloc freed err : Z) (s : gtp_memory) : gtp_memory :=
  mk_memory (gtp_memory_status_count s) (gtp_memory_alloc_count s) (gtp_memory_free_count s)
    (pgw_memory_status_count s) (u64 (pgw_memory_alloc_count s + alloc))
    (u64 (pgw_memory_free_count s + freed)) (u64 (pgw_memory_free_err_count s + err)) (mallocs s).
Definition next_malloc (s : gtp_memory) : gtp_memory :=
  mk_memory (gtp_memory_status_count s) (gtp_memory_alloc_count s) (gtp_memory_free_count s)
    (pgw_memory_status_count s) (pgw_memory_alloc_count s) (pgw_memory_free_count s)
    (pgw_memory_free_err_count s) (S (mallocs s)).

Definition magic : list Z := [0xde; 0xad; 0xc0; 0xde].
Definition bzero (n : Z) : list Z := replicate (Z.to_nat n) 0.
(** [memcpy] of [n] bytes between two [sockaddr_in]; more overruns them. *)
Definition copy_addr (dst src : list Z) (n : Z) : res (list Z) :=
  bs ← rd_bytes n src 0; wr_bytes dst 0 bs.

(** ** Header tests *)
Definition is_echo (type : Z) : bool := (type =? GTPC_ECHO_REQ) || (type =? GTPC_ECHO_RES).
Definition gtpc_type_headerlen (type : Z) : Z :=
  if is_echo type then sizeof_gtpc_header - 4 else sizeof_gtpc_header.
Definition gtpc_type_issupported (type : Z) : bool :=
  existsb (Z.eqb type)
    [GTPC_ECHO_REQ; GTPC_ECHO_RES; GTPC_VERSION_NOT_SUPPORTED_INDICATION; GTPC_CREATE_SESSION_REQ;
     GTPC_CREATE_SESSION_RES; GTPC_MODIFY_BEARER_REQ; GTPC_MODIFY_BEARER_RES; GTPC_DELETE_SESSION_REQ;
     GTPC_DELETE_SESSION_RES; GTPC_DELETE_BEARER_REQ; GTPC_DELETE_BEARER_RES; GTPC_SUSPEND_NOTIFICATION;
     GTPC_RESUME_NOTIFICATION].

Definition gtpc_validate_header (b : list Z) : res Z :=
  len ← rd 2 b o_length;
  if ntohs len <? sizeof_gtpc_comm_header then Ok ERR else
  flags ← rd 1 b o_flags;
  if (v2_version flags =? GTPC_VERSION_2) && negb (v2_piggy flags =? GTPC_PIGGY_OFF) then Ok ERR else
  if negb (v2_version flags =? GTPC_VERSION_2) && (v2_version flags =? GTPC_VERSION_1) then Ok OK else
  type ← rd 1 b o_type;
  if negb (gtpc_type_issupported type) then Ok ERR else
  if gtpc_type_headerlen type >? sizeof_gtpc_header then Ok ERR else Ok OK.
Definition gtpc_validate_header_ (p : gtp_packet) : res Z := gtpc_validate_header (packet p).

Definition gtpu_validate_header (b : list Z) : res Z :=
  flags ← rd 1 b o_flags;
  if negb (bf_get 5 3 flags =? GTPU_VERSION_1) then Ok ERR else
  if negb (bf_get 4 1 flags =? GTPU_PROTO_GTP) then Ok ERR else
  if negb (bf_get 0 1 flags =? GTPU_NPDU_OFF) then Ok ERR else
  type ← rd 1 b o_type;
  if negb (type =? GTPU_ECHO_REQ) && negb (type =? GTPU_G_PDU) && negb (type =? GTPU_ECHO_RES)
  then Ok ERR else Ok OK.

(** Header access; a null packet has no header. *)
Definition gtpc_header (p : option packet_t) : option (list Z) := data <$> p.
Definition gtpc_header_ (p : option gtp_packet) : option (list Z) := packet <$> p.
Definition gtpc_v1_header (p : option packet_t) : option (list Z) := data <$> p.
Definition gtpc_v1_header_ (p : option gtp_packet) : option (list Z) := packet <$> p.
Definition gtpu_header (p : option packet_t) : option (list Z) := data <$> p.

(** ** Operations *)
Section operations.
Variable malloc : nat -> bool.
Implicit Types (s : gtp_memory) (type len : Z).

(** The zeroed block both allocators start from, magic code set. *)
Definition fresh_block : res (list Z) :=
  wr_bytes (bzero (ETHER_MAX_LEN + 4)) ETHER_MAX_LEN magic.
Definition new_packet (off : Z) (b : list Z) : gtp_packet :=
  mk_packet [] 0 ETHER_MAX_LEN off b (bzero sizeof_sockaddr_in) 0 (bzero sizeof_sockaddr_in) 0.

Definition gtpc_alloc_packet type s : res (Z * option gtp_packet * gtp_memory) :=
  if negb (malloc (mallocs s)) then Ok (ERR, None, next_malloc s) else
  let s := count_gtp 0 1 0 (next_malloc s) in
  b ← fresh_block;
  b ← wr 2 b o_length (htons (if is_echo type then 4 else 8));
  b ← wr_bits b o_flags 3 1 (if is_echo type then GTPC_TEID_OFF else GTPC_TEID_ON);
  b ← wr_bits b o_flags 4 1 GTPC_PIGGY_OFF;
  b ← wr_bits b o_flags 5 3 GTPC_VERSION_2;
  b ← wr 1 b o_type type;
  Ok (OK, Some (new_packet (if is_echo type then sizeof_gtpc_header - 4 else sizeof_gtpc_header) b), s).

Definition gtpc_v1_alloc_packet type s : res (Z * option gtp_packet * gtp_memory) :=
  if negb (malloc (mallocs s)) then Ok (ERR, None, next_malloc s) else
  let s := count_gtp 0 1 0 (next_malloc s) in
  b ← fresh_block;
  b ← wr 2 b o_length (htons 0);
  b ← wr 1 b o_type type;
  b ← wr_bits b o_flags 5 3 GTPC_VERSION_1;
  b ← wr_bits b o_flags 1 1 GTPC_V1_SEQNUM_YES;
  b ← wr_bits b o_flags 0 1 GTPC_V1_NPDU_NO;
  b ← wr_bits b o_flags 2 1 GTPC_V1_EXTENSION_NO;
  b ← wr_bits b o_flags 4 1 GTPC_V1_PT_GTP;
  b ← wr_bits b o_flags 3 1 0;
  Ok (OK, Some (new_packet sizeof_gtpc_v1_header b), s).

(** Append an item; [d] is the block from the data pointer on. *)
Definition append (p : gtp_packet) type (d : list Z) len : res gtp_packet :=
  bs ← rd_bytes len d 0;
  b ← wr_bytes (packet p) (offset p) bs;
  l ← rd 2 b o_length;
  b ← wr 2 b o_length (htons (ntohs l + len));
  Ok (mk_packet (items p ++ [mk_item type len (offset p)]) (u16 (count p + 1)) (length_ p)
        (u16 (offset p + len)) b (saddr p) (saddrlen p) (caddr p) (caddrlen p)).
Definition gtpc_append_item (pkt : option gtp_packet) type (d : option (list Z)) len s :
    res (Z * option gtp_packet * gtp_memory) :=
  match pkt, d with
  | Some p, Some d =>
    if len =? 0 then Ok (ERR, pkt, s) else
    if length_ p <=? offset p + len then Ok (ERR, pkt, s) else
    if negb (malloc (mallocs s)) then Ok (ERR, pkt, next_malloc s) else
    p ← append p type d len;
    Ok (OK, Some p, next_malloc s)
  | _, _ => Ok (ERR, pkt, s)
  end.
(** The length field is at the same place of the version 1 header. *)
Definition gtpc_v1_append_item := gtpc_append_item.

Definition gtpc_free_packet (pkt : option gtp_packet) s : res (Z * option gtp_packet * gtp_memory) :=
  match pkt with
  | None => Ok (ERR, None, s)
  | Some p =>
    m ← rd_bytes 4 (packet p) ETHER_MAX_LEN;
    Ok (OK, None, count_gtp (if bool_decide (m = magic) then 0 else 1) 0 1 s)
  end.

Definition gtpc_copy_packet_addr (d s : gtp_packet) : res gtp_packet :=
  sa ← copy_addr (saddr d) (saddr s) (saddrlen s);
  ca ← copy_addr (caddr d) (caddr s) (caddrlen s);
  Ok (mk_packet (items d) (count d) (length_ d) (offset d) (packet d) sa (saddrlen s) ca (caddrlen s)).

(** The parse loop; [fuel] counts the rounds left of GTPC_CAPABILITY_ITEM_COUNT. *)
Definition release (p : gtp_packet) s : res (Z * option gtp_packet * gtp_memory) :=
  '(_, pp, s) ← gtpc_free_packet (Some p) s; Ok (ERR, pp, s).
Fixpoint parse_items (fuel : nat) (payload : list Z) (len off : Z) (p : gtp_packet) s :
    res (Z * option gtp_packet * gtp_memory) :=
  match fuel with
  | O => release p s
  | S fuel =>
    if len <=? off then release p s else
    l ← rd 2 payload (off + o_ie_length);
    let hlen := u16 (ntohs l + sizeof_gtpc_comm_header) in
    ty ← rd 1 payload (off + o_ie_type);
    '(rc, pp, s) ← gtpc_append_item (Some p) ty (Some (drop (Z.to_nat off) payload)) hlen s;
    p ← deref pp;
    if negb (rc =? OK) then release p s else
    let off := u16 (off + hlen) in
    if off >? len then Ok (ERR, Some p, s) else
    if off =? len then Ok (OK, Some p, s) else
    parse_items fuel payload len off p s
  end.
Definition gtpc_alloc_packet_from_payload (ppkt : option gtp_packet) (payload : option (list Z)) len s :
    res (Z * option gtp_packet * gtp_memory) :=
  match payload with
  | None => Ok (ERR, ppkt, s)
  | Some payload =>
    if len =? 0 then Ok (ERR, ppkt, s) else
    v ← gtpc_validate_header payload;
    if negb (v =? OK) then Ok (ERR, ppkt, s) else
    l ← rd 2 payload o_length;
    if negb (ntohs l + 4 =? len) then Ok (ERR, ppkt, s) else
    type ← rd 1 payload o_type;
    let off := gtpc_type_headerlen type in
    if off >? len then Ok (ERR, ppkt, s) else
    '(rc, pp, s) ← gtpc_alloc_packet type s;
    if negb (rc =? OK) then Ok (ERR, pp, s) else
    if off =? len then Ok (OK, pp, s) else
    p ← deref pp;
    parse_items GTPC_CAPABILITY_ITEM_COUNT payload len off p s
  end.

(** Generic packets of ctrlplane/src/cmn. *)
Definition pgw_alloc_packet len s : Z * option packet_t * gtp_memory :=
  if malloc (mallocs s) then
    (OK, Some (mk_packet_t len (bzero len) (bzero sizeof_sockaddr_in) 0 (bzero sizeof_sockaddr_in) 0),
     count_pgw 1 0 0 (next_malloc s))
  else (ERR, None, next_malloc s).
Definition pgw_free_packet (p : option packet_t) s : Z * gtp_memory :=
  match p with
  | Some _ => (OK, count_pgw 0 1 0 s)
  | None => (ERR, count_pgw 0 0 1 s)
  end.
Definition pgw_swap_address (p : packet_t) : packet_t :=
  mk_packet_t (datalen p) (data p) (p_caddr p) (p_caddrlen p) (p_saddr p) (p_saddrlen p).
Definition pgw_duplicate_packet (src : packet_t) s : res (Z * option packet_t * gtp_memory) :=
  match pgw_alloc_packet (datalen src) s with
  | (rc, Some dst, s) =>
    sa ← copy_addr (p_saddr dst) (p_saddr src) sizeof_sockaddr_in;
    ca ← copy_addr (p_caddr dst) (p_caddr src) sizeof_sockaddr_in;
    bs ← rd_bytes (datalen src) (data src) 0;
    d ← wr_bytes (data dst) 0 bs;
    Ok (OK, Some (mk_packet_t (datalen src) d sa (p_saddrlen src) ca (p_caddrlen src)), s)
  | (rc, None, s) => Ok (ERR, None, s)
  end.

(** The result is the generic packet, or null when it could not be allocated. *)
Definition gtpc_convert_to_packet (p : gtp_packet) s : res (option packet_t * gtp_memory) :=
  match pgw_alloc_packet (offset p) s with
  | (rc, Some conv, s) =>
    bs ← rd_bytes (offset p) (packet p) 0;
    d ← wr_bytes (data conv) 0 bs;
    sa ← copy_addr (p_saddr conv) (saddr p) (saddrlen p);
    ca ← copy_addr (p_caddr conv) (caddr p) (caddrlen p);
    '(_, _, s) ← gtpc_free_packet (Some p) s;
    Ok (Some (mk_packet_t (offset p) d sa (saddrlen p) ca (caddrlen p)), s)
  | (rc, None, s) => Ok (None, s)
  end.

Definition gtpc_memory_status s : Z := gtp_memory_status_count s.
Definition gtpc_memory_print s : Z :=
  if u64 (u64 (gtp_memory_status_count s +
            (if gtp_memory_alloc_count s =? gtp_memory_free_count s then 0 else 1)) +
          u64 (pgw_memory_status_count s +
            (if pgw_memory_alloc_count s =? pgw_memory_free_count s then 0 else 1))) =? 0
  then OK else ERR.
End operations.

(** [gtpc_iterate_item]: the callback gets the type, the block from the item on,
    the item length and its own state. *)
Section iterate.
Context {S : Type} (callback : Z -> list Z -> Z -> S -> res (Z * S)).
Fixpoint iterate_items (b : list Z) (l : list gtp_item) (arg : S) : res (Z * S) :=
  match l with
  | [] => Ok (OK, arg)
  | it :: l =>
    '(rc, arg) ← callback (u8 (i_type it)) (drop (Z.to_nat (i_offset it)) b) (i_length it) arg;
    if negb (rc =? OK) then Ok (ERR, arg) else iterate_items b l arg
  end.
Definition gtpc_iterate_item (pkt : option gtp_packet) (arg : S) : res (Z * S) :=
  match pkt with
  | None => Ok (ERR, arg)
  | Some p => iterate_items (packet p) (items p) arg
  end.
End iterate.

(** ** Accesses *)
Ltac szlia := unfold o_flags, o_type, o_length, o_ie_type, o_ie_length, ETHER_MAX_LEN, sizeof_gtpc_comm_header in *; lia.

Lemma inside_true p n b : 0 <= p -> 0 <= n -> p + n <= zlen b -> inside p n b = true.
Proof. intros. unfold inside. rewrite !andb_true_iff, !Z.leb_le. lia. Qed.

Lemma rd_bytes_ok n b p : 0 <= p -> 0 <= n -> p + n <= zlen b -> rd_bytes n b p = Ok (slice p n b).
Proof. intros. unfold rd_bytes. by rewrite inside_true. Qed.

Lemma wr_bytes_ok b p bs : 0 <= p -> p + zlen bs <= zlen b -> wr_bytes b p bs = Ok (splice p bs b).
Proof. intros. unfold wr_bytes. by rewrite inside_true by lia. Qed.

Lemma rd_ok n b p : 0 <= p -> p + Z.of_nat n <= zlen b -> rd n b p = Ok (le_load (slice p (Z.of_nat n) b)).
Proof. intros. unfold rd. by rewrite rd_bytes_ok by lia. Qed.

Lemma wr_ok n b p v : 0 <= p -> p + Z.of_nat n <= zlen b -> wr n b p v = Ok (splice p (le_store n v) b).
Proof. intros. unfold wr. apply wr_bytes_ok; rewrite ?length_le_store; lia. Qed.

(** A read that returns looks only at bytes of the block. *)
Lemma rd_bytes_inv n b p bs :
  rd_bytes n b p = Ok bs -> 0 <= p /\ 0 <= n /\ p + n <= zlen b /\ bs = slice p n b.
Proof. unfold rd_bytes, inside. intros E. case_match eqn:Eb; [|done]. inv_ok E. to_prop. done. Qed.

Lemma rd_inv n b p v :
  rd n b p = Ok v -> 0 <= p /\ p + Z.of_nat n <= zlen b /\ v = le_load (slice p (Z.of_nat n) b).
Proof.
  unfold rd. destruct (rd_bytes _ _ _) as [bs|] eqn:E; [|done]. intros [= <-].
  apply rd_bytes_inv in E as (? & _ & ? & ->). done.
Qed.

Lemma rd_range n b p v : bytes_ok b -> rd n b p = Ok v -> 0 <= v < 256 ^ Z.of_nat n.
Proof.
  intros Hb E. apply rd_inv in E as (? & ? & ->).
  pose proof (le_load_range (slice p (Z.of_nat n) b)) as H1. rewrite zlen_slice in H1 by lia.
  by apply H1, Forall_slice.
Qed.

Lemma bytes_le_store_ok p n v b : bytes_ok b -> bytes_ok (splice p (le_store n v) b).
Proof. intros. apply Forall_splice; [apply le_store_ok|done]. Qed.

Lemma ntohs_stored v : ntohs (le_load (le_store 2 (htons v))) = v mod 2 ^ 16.
Proof.
  unfold ntohs, htons. rewrite le_load_store, (Z.mod_small (bswap 2 v)) by apply bswap_range.
  apply bswap_bswap.
Qed.

(** ** Well-formed packets

    A packet under construction: its block with the magic code behind the data
    area, the length field of its header ([base] bytes of the header are not
    counted), and items that tile the area between the header and the write
    offset. *)
Fixpoint tiles (o : Z) (l : list gtp_item) (e : Z) : Prop :=
  match l with
  | [] => o = e
  | it :: l => i_offset it = o /\ 0 < i_length it /\ tiles (o + i_length it) l e
  end.

Record pkt_wf (hl base : Z) (p : gtp_packet) : Prop := {
  wf_size : zlen (packet p) = ETHER_MAX_LEN + 4;
  wf_bytes : bytes_ok (packet p);
  wf_magic : slice ETHER_MAX_LEN 4 (packet p) = magic;
  wf_cap : length_ p = ETHER_MAX_LEN;
  wf_off : hl <= offset p < ETHER_MAX_LEN;
  wf_hl : 4 <= hl /\ 0 <= base <= hl;
  wf_len : ntohs (le_load (slice o_length 2 (packet p))) = offset p - base;
  wf_items : tiles hl (items p) (offset p);
  wf_count : count p = u16 (zlen (items p));
}.

(** What a packet carries: the type and the bytes of every item. *)
Definition item_bytes (b : list Z) (it : gtp_item) : Z * list Z :=
  (i_type it, slice (i_offset it) (i_length it) b).
Definition contents (p : gtp_packet) : list (Z * list Z) := item_bytes (packet p) <$> items p.
(** The bytes behind the header. *)
Definition body (hl : Z) (p : gtp_packet) : list Z := slice hl (offset p - hl) (packet p).

Lemma tiles_le o l e : tiles o l e -> o <= e.
Proof. revert o. induction l as [|it l IH]; cbn; intros o H; [lia|]. destruct H as (_ & ? & H). apply IH in H. lia. Qed.

Lemma tiles_snoc o l e type len :
  tiles o l e -> 0 < len -> tiles o (l ++ [mk_item type len e]) (e + len).
Proof.
  revert o. induction l as [|it l IH]; cbn; intros o H Hl; [by subst|].
  destruct H as (? & ? & H). auto.
Qed.

Lemma tiles_body b o l e :
  0 <= o -> tiles o l e -> slice o (e - o) b = concat (item_bytes b <$> l).*2.
Proof.
  revert o. induction l as [|it l IH]; cbn; intros o Ho H.
  - subst. by rewrite Z.sub_diag.
  - destruct H as (<- & Hl & H). pose proof (tiles_le _ _ _ H).
    rewrite <-(IH (i_offset it + i_length it)) by (done || lia).
    rewrite <-slice_app_split by lia. f_equal. lia.
Qed.

(** The bytes between header and offset decide what a packet carries. *)
Lemma tiles_ext b b' o l e :
  tiles o l e -> (forall q n, o <= q -> 0 <= n -> q + n <= e -> slice q n b = slice q n b') ->
  item_bytes b <$> l = item_bytes b' <$> l.
Proof.
  revert o. induction l as [|it l IH]; cbn; intros o H E; [done|].
  destruct H as (Hi & Hl & H). pose proof (tiles_le _ _ _ H). f_equal.
  - unfold item_bytes. rewrite E by lia. done.
  - apply (IH (o + i_length it)); [done|]. intros. apply E; lia.
Qed.

Section packets.
Variable malloc : nat -> bool.
Implicit Types (s : gtp_memory) (p : gtp_packet) (d : list Z).

Lemma append_ok hl base p type d len :
  pkt_wf hl base p -> 0 < len -> offset p + len < ETHER_MAX_LEN -> len <= zlen d -> bytes_ok d ->
  exists p', append p type d len = Ok p' /\ pkt_wf hl base p' /\
    contents p' = contents p ++ [(type, slice 0 len d)] /\
    offset p' = offset p + len /\
    slice 0 2 (packet p') = slice 0 2 (packet p) /\
    slice 4 (hl - 4) (packet p') = slice 4 (hl - 4) (packet p) /\
    saddr p' = saddr p /\ saddrlen p' = saddrlen p /\ caddr p' = caddr p /\ caddrlen p' = caddrlen p.
Proof.
  intros [Hs Hb Hm Hc Ho Hh Hl Ht Hn] Hlen Hfit Hd Hdb. unfold append.
  assert (Ld : zlen (slice 0 len d) = len) by (apply zlen_slice; lia).
  rewrite rd_bytes_ok by lia. res_simpl. rewrite wr_bytes_ok by (szlia). res_simpl.
  set (b1 := splice (offset p) (slice 0 len d) (packet p)).
  assert (L1 : zlen b1 = ETHER_MAX_LEN + 4).
  { unfold b1. rewrite length_splice by (szlia). done. }
  rewrite rd_ok by (szlia). res_simpl.
  rewrite wr_ok by (szlia). res_simpl.
  set (b2 := splice o_length _ b1).
  assert (E1 : slice o_length 2 b1 = slice o_length 2 (packet p)).
  { unfold b1. apply slice_splice_disj; szlia. }
  assert (E2 : forall q n, 4 <= q -> 0 <= n -> q + n <= offset p -> slice q n b2 = slice q n (packet p)).
  { intros q n ???. unfold b2, b1. rewrite !slice_splice_disj; [done|..];
      rewrite ?length_splice, ?length_le_store; szlia. }
  exists (mk_packet (items p ++ [mk_item type len (offset p)]) (u16 (count p + 1)) (length_ p)
    (u16 (offset p + len)) b2 (saddr p) (saddrlen p) (caddr p) (caddrlen p)).
  rewrite (wrap_small 16 (offset p + len)) by (szlia).
  split; [done|]. split; [|split; [|split; [done|]]].
  - split; cbn [packet length_ offset items count]; try done; try lia.
    + unfold b2. by rewrite length_splice by (rewrite ?length_le_store; szlia).
    + apply bytes_le_store_ok. apply Forall_splice; [by apply Forall_slice|done].
    + unfold b2, b1. rewrite !slice_splice_disj; [done|..];
        rewrite ?length_splice, ?length_le_store; szlia.
    + unfold b2. rewrite (slice_splice_eq o_length 2) by
        (rewrite ?length_le_store; szlia).
      change (Z.of_nat 2) with 2. rewrite ntohs_stored, E1, Hl, Z.mod_small by (szlia). lia.
    + apply tiles_snoc; [done|lia].
    + rewrite Hn, length_app, Nat2Z.inj_add. apply wrap_add_l.
  - unfold contents. cbn [packet items]. rewrite fmap_app. f_equal.
    + apply (tiles_ext _ _ _ _ _ Ht). intros. apply E2; lia.
    + cbn. unfold item_bytes. cbn. do 2 f_equal. unfold b2, b1.
      rewrite slice_splice_disj by (rewrite ?length_splice, ?length_le_store; szlia).
      apply slice_splice_eq; szlia.
  - cbn [packet]. split; [|split; [apply E2; lia|done]]. unfold b2, b1.
    rewrite !slice_splice_disj; [done|..];
      rewrite ?length_splice, ?length_le_store; szlia.
Qed.

Lemma fresh_block_eq : fresh_block = Ok (bzero ETHER_MAX_LEN ++ magic).
Proof. reflexivity. Qed.

(** The block of a new version 2 packet. *)
Definition v2_block (type : Z) : list Z :=
  [if is_echo type then 0x40 else 0x48; type mod 256; 0; if is_echo type then 4 else 8] ++
  bzero (ETHER_MAX_LEN - 4) ++ magic.
Definition v1_block (type : Z) : list Z :=
  [0x32; type mod 256; 0; 0] ++ bzero (ETHER_MAX_LEN - 4) ++ magic.

Lemma gtpc_alloc_packet_eq type s :
  malloc (mallocs s) = true ->
  gtpc_alloc_packet malloc type s =
    Ok (OK, Some (new_packet (gtpc_type_headerlen type) (v2_block type)), count_gtp 0 1 0 (next_malloc s)).
Proof.
  intros Hm. unfold gtpc_alloc_packet, gtpc_type_headerlen, v2_block. rewrite Hm. cbn [negb].
  unfold wr. change (le_store 1 type) with [type mod 256]. generalize (count_gtp 0 1 0 (next_malloc s)) as s'. intros s'.
  remember (type mod 256) as t eqn:Et. clear Et.
  destruct (is_echo type); vm_compute; reflexivity.
Qed.

Lemma gtpc_v1_alloc_packet_eq type s :
  malloc (mallocs s) = true ->
  gtpc_v1_alloc_packet malloc type s =
    Ok (OK, Some (new_packet sizeof_gtpc_v1_header (v1_block type)), count_gtp 0 1 0 (next_malloc s)).
Proof.
  intros Hm. unfold gtpc_v1_alloc_packet, v1_block. rewrite Hm. cbn [negb].
  unfold wr. change (le_store 1 type) with [type mod 256]. generalize (count_gtp 0 1 0 (next_malloc s)) as s'. intros s'.
  remember (type mod 256) as t eqn:Et. clear Et.
  vm_compute. reflexivity.
Qed.

Lemma new_packet_wf hl base b :
  4 <= hl < ETHER_MAX_LEN -> 0 <= base <= hl -> zlen b = ETHER_MAX_LEN + 4 -> bytes_ok b ->
  slice ETHER_MAX_LEN 4 b = magic -> ntohs (le_load (slice o_length 2 b)) = hl - base ->
  pkt_wf hl base (new_packet hl b).
Proof. intros. split; cbn [new_packet packet length_ offset items count tiles length]; try done; lia. Qed.

Lemma block_bytes (b0 t b2 b3 : Z) :
  byte_ok b0 -> byte_ok t -> byte_ok b2 -> byte_ok b3 ->
  bytes_ok ([b0; t; b2; b3] ++ bzero (ETHER_MAX_LEN - 4) ++ magic).
Proof.
  intros. apply Forall_app_2; [rewrite !Forall_cons; auto using Forall_nil_2|]. apply Forall_app_2.
  - apply Forall_replicate. unfold byte_ok. lia.
  - unfold magic, byte_ok. repeat constructor; lia.
Qed.

Lemma v2_packet_wf type : pkt_wf (gtpc_type_headerlen type) 4 (new_packet (gtpc_type_headerlen type) (v2_block type)).
Proof.
  apply new_packet_wf; unfold gtpc_type_headerlen, v2_block; destruct (is_echo type);
    try (vm_compute; intuition congruence); apply block_bytes; unfold byte_ok;
    try (pose proof (Z.mod_pos_bound type 256)); lia.
Qed.

Lemma v1_packet_wf type : pkt_wf sizeof_gtpc_v1_header 8 (new_packet sizeof_gtpc_v1_header (v1_block type)).
Proof.
  apply new_packet_wf; unfold v1_block;
    try (vm_compute; intuition congruence); apply block_bytes; unfold byte_ok;
    try (pose proof (Z.mod_pos_bound type 256)); lia.
Qed.


(** Whether an item of [len] bytes is taken at offset [off]. *)
Definition room (off len : Z) : bool := negb (len =? 0) && (off + len <? ETHER_MAX_LEN).

(** What changed between two versions of a packet besides items and offset. *)
Definition same_frame (hl : Z) p p' : Prop :=
  slice 0 2 (packet p') = slice 0 2 (packet p) /\
  slice 4 (hl - 4) (packet p') = slice 4 (hl - 4) (packet p) /\
  saddr p' = saddr p /\ saddrlen p' = saddrlen p /\ caddr p' = caddr p /\ caddrlen p' = caddrlen p.

Lemma same_frame_refl hl p : same_frame hl p p.
Proof. done. Qed.
Lemma same_frame_trans hl p1 p2 p3 : same_frame hl p1 p2 -> same_frame hl p2 p3 -> same_frame hl p1 p3.
Proof. unfold same_frame. intros (?&?&?&?&?&?) (?&?&?&?&?&?). split_and!; congruence. Qed.

Lemma gtpc_append_item_refused p type d len s :
  length_ p = ETHER_MAX_LEN -> room (offset p) len = false ->
  gtpc_append_item malloc (Some p) type (Some d) len s = Ok (ERR, Some p, s).
Proof.
  intros Hc. unfold room, gtpc_append_item. rewrite Hc.
  destruct (Z.eqb_spec len 0); [done|]. cbn [negb andb]. intros ->%Z.ltb_ge%Z.leb_le. done.
Qed.

Lemma gtpc_append_item_nomem p type d len s :
  length_ p = ETHER_MAX_LEN -> room (offset p) len = true -> malloc (mallocs s) = false ->
  gtpc_append_item malloc (Some p) type (Some d) len s = Ok (ERR, Some p, next_malloc s).
Proof.
  intros Hc Hr Hm. unfold room, gtpc_append_item in *. rewrite Hc, Hm. to_prop.
  rewrite (proj2 (Z.eqb_neq len 0)), (proj2 (Z.leb_gt _ _)) by lia. done.
Qed.

Lemma gtpc_append_item_ok hl base p type d len s :
  pkt_wf hl base p -> 0 <= len <= zlen d -> bytes_ok d -> room (offset p) len = true ->
  malloc (mallocs s) = true ->
  exists p', gtpc_append_item malloc (Some p) type (Some d) len s = Ok (OK, Some p', next_malloc s) /\
    pkt_wf hl base p' /\ contents p' = contents p ++ [(type, slice 0 len d)] /\
    offset p' = offset p + len /\ same_frame hl p p'.
Proof.
  intros Hw Hd Hb Hr Hm. unfold room, gtpc_append_item in *. to_prop.
  rewrite (proj2 (Z.eqb_neq len 0)), (wf_cap _ _ _ Hw), (proj2 (Z.leb_gt _ _)), Hm by lia. cbn [negb].
  destruct (append_ok hl base p type d len Hw) as (p' & -> & Hw' & Hc & Ho & Hf); [lia..|done|].
  res_simpl. by exists p'.
Qed.

Lemma gtpc_free_packet_ok hl base p s :
  pkt_wf hl base p -> gtpc_free_packet (Some p) s = Ok (OK, None, count_gtp 0 0 1 s).
Proof.
  intros []. unfold gtpc_free_packet. rewrite rd_bytes_ok by szlia. res_simpl.
  by rewrite wf_magic0, bool_decide_eq_true_2.
Qed.

Lemma body_contents hl base p : pkt_wf hl base p -> body hl p = concat (contents p).*2.
Proof. intros []. unfold body, contents. apply tiles_body; [lia|done]. Qed.

(** ** Building *)
Definition request : Type := Z * list Z * Z.
Definition request_ok (r : request) : Prop := 0 <= r.2 <= zlen r.1.2 /\ bytes_ok r.1.2.
(** A sequence of calls of [gtpc_append_item]. *)
Definition append_all (l : list request) (st : option gtp_packet * gtp_memory) :
    res (option gtp_packet * gtp_memory) :=
  foldM (fun '(pp, s) '(type, d, len) =>
    '(_, pp, s) ← gtpc_append_item malloc pp type (Some d) len s; Ok (pp, s)) l st.
(** The requests that are taken: those that leave room and find memory. *)
Fixpoint taken (off : Z) (n : nat) (l : list request) : list (Z * list Z) :=
  match l with
  | [] => []
  | (type, d, len) :: l =>
    if room off len then
      if malloc n then (type, slice 0 len d) :: taken (off + len) (S n) l else taken off (S n) l
    else taken off n l
  end.

(** Two states of the counters that differ in the number of allocations only. *)
Definition same_counts s s' : Prop :=
  gtp_memory_status_count s' = gtp_memory_status_count s /\
  gtp_memory_alloc_count s' = gtp_memory_alloc_count s /\
  gtp_memory_free_count s' = gtp_memory_free_count s /\
  pgw_memory_status_count s' = pgw_memory_status_count s /\
  pgw_memory_alloc_count s' = pgw_memory_alloc_count s /\
  pgw_memory_free_count s' = pgw_memory_free_count s /\
  pgw_memory_free_err_count s' = pgw_memory_free_err_count s.

Lemma append_all_cons type d len l pp s :
  append_all ((type, d, len) :: l) (pp, s) =
    ('(_, pp, s) ← gtpc_append_item malloc pp type (Some d) len s; append_all l (pp, s)).
Proof. unfold append_all. cbn [foldM]. by destruct (gtpc_append_item _ _ _ _ _ _) as [[[??]?]|]. Qed.

Lemma append_all_ok hl base l p s :
  pkt_wf hl base p -> Forall request_ok l ->
  exists p' s', append_all l (Some p, s) = Ok (Some p', s') /\ pkt_wf hl base p' /\
    contents p' = contents p ++ taken (offset p) (mallocs s) l /\
    same_frame hl p p' /\ same_counts s s'.
Proof.
  intros Hw Hl. revert p s Hw. induction Hl as [|[[type d] len] l [Hd Hb] Hl IH]; intros p s Hw; cbn [taken].
  { exists p, s. rewrite app_nil_r. done. }
  cbn [fst snd] in Hd, Hb. rewrite append_all_cons.
  destruct (room (offset p) len) eqn:Er.
  - destruct (malloc (mallocs s)) eqn:Em.
    + destruct (gtpc_append_item_ok hl base p type d len s) as (p1 & -> & Hw1 & Hc & Ho & Hf); try done.
      res_simpl. destruct (IH p1 (next_malloc s) Hw1) as (p' & s' & -> & Hw' & Hc' & Hf' & Hs).
      exists p', s'. rewrite Hc', Hc, <-app_assoc, Ho. split; [done|]. split; [done|]. split; [done|].
      split; [by eapply same_frame_trans|done].
    + rewrite gtpc_append_item_nomem by (done || by destruct Hw). res_simpl. apply (IH p (next_malloc s) Hw).
  - rewrite gtpc_append_item_refused by (done || by destruct Hw). res_simpl. apply (IH p s Hw).
Qed.

(** ** Parsing *)

(** The length the parser gives the item at [off]: the 16-bit length field and
    the common header, in 16 bits. *)
Definition item_len (payload : list Z) (off : Z) : Z :=
  u16 (be_load (slice (off + o_ie_length) 2 payload) + sizeof_gtpc_comm_header).
Definition item_type (payload : list Z) (off : Z) : Z := le_load (slice off 1 payload).

(** The items [its] tile the payload from [off] to [len]. *)
Fixpoint tiled (payload : list Z) (off : Z) (its : list (Z * list Z)) (len : Z) : Prop :=
  match its with
  | [] => off = len
  | it :: its =>
    it = (item_type payload off, slice off (item_len payload off) payload) /\
    0 < item_len payload off /\ off + 3 <= zlen payload /\ off + item_len payload off <= zlen payload /\
    tiled payload (off + item_len payload off) its len
  end.

(** A well-formed item: its type, and a length field that counts the bytes
    behind the common header. *)
Definition tlv_ok (e : Z * list Z) : Prop :=
  4 <= zlen e.2 < 2 ^ 16 /\ bytes_ok e.2 /\ slice 0 1 e.2 = [e.1] /\ be_load (slice 1 2 e.2) = zlen e.2 - 4.

Lemma tiled_le payload off its len : tiled payload off its len -> off <= len.
Proof.
  revert off. induction its as [|it its IH]; cbn; intros off H; [lia|].
  destruct H as (_ & ? & _ & _ & H). apply IH in H. lia.
Qed.

Lemma tlvs_tiled payload off its :
  0 <= off -> Forall tlv_ok its -> off + zlen (concat its.*2) <= zlen payload ->
  slice off (zlen (concat its.*2)) payload = concat its.*2 ->
  tiled payload off its (off + zlen (concat its.*2)).
Proof.
  intros Ho Hi. revert off Ho. induction Hi as [|[t bs] its (Hl & Hb & Ht & Hn) Hi IH]; intros off Ho Hp E; cbn in *; [lia|].
  rewrite length_app in *.
  assert (E1 : slice off (zlen bs) payload = bs).
  { rewrite Nat2Z.inj_add, slice_app_split in E by lia. apply app_inj_1 in E as [E _]; [done|].
    rewrite length_slice; lia. }
  assert (E2 : slice (off + zlen bs) (zlen (concat its.*2)) payload = concat its.*2).
  { rewrite Nat2Z.inj_add, slice_app_split in E by lia. apply app_inj_1 in E as [_ E]; [done|].
    rewrite length_slice; lia. }
  assert (Il : item_len payload off = zlen bs).
  { unfold item_len, o_ie_length, sizeof_gtpc_comm_header.
    rewrite <-(slice_slice off (zlen bs)), E1, Hn, wrap_small by lia. lia. }
  assert (It : item_type payload off = t).
  { unfold item_type. rewrite <-(Z.add_0_r off), <-(slice_slice off (zlen bs)), E1, Ht by lia. cbn. lia. }
  rewrite Il, It, E1. split; [done|]. do 3 (split; [lia|]).
  rewrite Nat2Z.inj_add, Z.add_assoc. apply IH; [lia|lia|done].
Qed.

Lemma slice_drop (q n : Z) (l : list Z) : 0 <= q -> slice 0 n (drop (Z.to_nat q) l) = slice q n l.
Proof. intros. unfold slice. by rewrite drop_0. Qed.

(** One round of the loop. *)
Lemma parse_items_step fuel payload len off p s :
  0 <= off < len -> off + 3 <= zlen payload -> bytes_ok payload ->
  parse_items malloc (S fuel) payload len off p s =
    ('(rc, pp, s) ← gtpc_append_item malloc (Some p) (item_type payload off)
                      (Some (drop (Z.to_nat off) payload)) (item_len payload off) s;
     p ← deref pp;
     if negb (rc =? OK) then release p s else
     let off := u16 (off + item_len payload off) in
     if off >? len then Ok (ERR, Some p, s) else
     if off =? len then Ok (OK, Some p, s) else
     parse_items malloc fuel payload len off p s).
Proof.
  intros Ho Hp Hb. cbn [parse_items]. rewrite (proj2 (Z.leb_gt len off)) by lia.
  rewrite !rd_ok by szlia. res_simpl. change (Z.of_nat 2) with 2. change (Z.of_nat 1) with 1.
  unfold item_len, item_type, ntohs. rewrite bswap_load.
  - unfold o_ie_type. rewrite Z.add_0_r. done.
  - by apply Forall_slice.
  - rewrite length_slice; szlia.
Qed.

(** An item that starts in the message and whose header, or whose claimed end, is not in
    the buffer (the packet has room for the copy). *)
Definition cut_off (payload : list Z) (len off : Z) : Prop :=
  off < len /\ (zlen payload < off + 3 \/ zlen payload < off + item_len payload off < ETHER_MAX_LEN).
(** The items before it are tiled. *)
Definition leaves_buffer (payload : list Z) (off len : Z) : Prop :=
  exists its off', tiled payload off its off' /\ cut_off payload len off'.

(** A message its items tile does not leave its buffer, nor does one in a buffer of a frame. *)
Lemma tiled_stays payload off its len : tiled payload off its len -> ~ leaves_buffer payload off len.
Proof.
  intros Ht (its' & off' & Ht' & Hlt & Hc). revert off its' Ht Ht'.
  induction its as [|it its IH]; intros off its' Ht Ht'.
  - cbn in Ht. apply tiled_le in Ht'. lia.
  - destruct its' as [|it' its']; cbn in Ht, Ht'; destruct Ht as (_ & _ & ? & ? & Ht).
    + subst off'. lia.
    + destruct Ht' as (_ & _ & _ & _ & Ht'). by eapply IH.
Qed.
Lemma frame_stays payload off len : len + 2 <= zlen payload -> ETHER_MAX_LEN <= zlen payload -> ~ leaves_buffer payload off len.
Proof. intros H1 H2 (its & off' & _ & Hlt & Hc). lia. Qed.

Lemma rd_bytes_out n b q : zlen b < q + n -> rd_bytes n b q = Fault Undefined.
Proof. intros Hq. unfold rd_bytes, inside. rewrite (proj2 (Z.leb_gt (q + n) _)) by lia. by rewrite andb_false_r. Qed.
Lemma parse_items_header_cut fuel payload len off p s :
  0 <= off < len -> zlen payload < off + 3 -> parse_items malloc (S fuel) payload len off p s = Fault Undefined.
Proof.
  intros Ho Hp. cbn [parse_items]. rewrite (proj2 (Z.leb_gt len off)) by lia.
  assert (E : rd 2 payload (off + o_ie_length) = Fault Undefined) by (unfold rd; rewrite rd_bytes_out; [done|unfold o_ie_length; lia]).
  by rewrite E.
Qed.
(** A copy that reads behind its source. *)
Lemma gtpc_append_item_overreads p type d len s :
  room (offset p) len = true -> length_ p = ETHER_MAX_LEN -> malloc (mallocs s) = true -> zlen d < len ->
  gtpc_append_item malloc (Some p) type (Some d) len s = Fault Undefined.
Proof.
  intros Hr Hc Hm Hd. unfold room, gtpc_append_item in *. rewrite Hc, Hm. to_prop.
  rewrite (proj2 (Z.eqb_neq len 0)), (proj2 (Z.leb_gt _ _)) by lia. cbn [negb]. unfold append. by rewrite rd_bytes_out by lia.
Qed.

Lemma release_ok hl base p s :
  pkt_wf hl base p -> release p s = Ok (ERR, None, count_gtp 0 0 1 s).
Proof. intros Hw. unfold release. by rewrite (gtpc_free_packet_ok hl base). Qed.

(** The ways a parse can end. *)
Definition parsed (hl : Z) (fuel : nat) (payload : list Z) (len off : Z) p s rc (pp : option gtp_packet) s' : Prop :=
  (rc = OK /\ exists p' its, pp = Some p' /\ pkt_wf hl 4 p' /\ offset p' = len /\
     tiled payload off its len /\ (length its <= fuel)%nat /\ contents p' = contents p ++ its /\
     same_frame hl p p' /\ same_counts s s') \/
  (rc = ERR /\ pp = None /\ same_counts (count_gtp 0 0 1 s) s') \/
  (rc = ERR /\ exists p', pp = Some p' /\ pkt_wf hl 4 p' /\ len < offset p' /\ same_counts s s').

Lemma parse_items_sound hl fuel payload len off p s :
  pkt_wf hl 4 p -> offset p = off -> off <= len < 2 ^ 16 -> bytes_ok payload ->
  (exists rc pp s', parse_items malloc fuel payload len off p s = Ok (rc, pp, s') /\ parsed hl fuel payload len off p s rc pp s') \/
  (parse_items malloc fuel payload len off p s = Fault Undefined /\ leaves_buffer payload off len).
Proof.
  intros Hw Ho Hl Hb. revert off p s Hw Ho Hl.
  induction fuel as [|fuel IH]; intros off p s Hw Ho Hl.
  { left. cbn [parse_items]. rewrite (release_ok hl 4) by done. eexists _, _, _. split; [done|]. right. by left. }
  pose proof (wf_off _ _ _ Hw) as Hoff. pose proof (wf_hl _ _ _ Hw).
  destruct (decide (len <= off)) as [Hge|Hlt].
  { left. cbn [parse_items]. rewrite (proj2 (Z.leb_le len off)) by lia. rewrite (release_ok hl 4) by done.
    eexists _, _, _. split; [done|]. right. by left. }
  destruct (Z.lt_ge_cases (zlen payload) (off + 3)) as [Hcut|Hin].
  { right. split; [apply parse_items_header_cut; lia|]. exists [], off. split; [done|]. split; [lia|by left]. }
  rewrite parse_items_step by (done || lia).
  assert (Hn : 0 <= item_len payload off) by (apply wrap_range; lia).
  destruct (room off (item_len payload off)) eqn:Er.
  2:{ left. rewrite gtpc_append_item_refused by (destruct Hw; congruence). res_simpl. cbn [negb Z.eqb].
      rewrite (release_ok hl 4) by done. eexists _, _, _. split; [done|]. right. by left. }
  destruct (malloc (mallocs s)) eqn:Em.
  2:{ left. rewrite gtpc_append_item_nomem by (destruct Hw; congruence). res_simpl. cbn [negb Z.eqb].
      rewrite (release_ok hl 4) by done. eexists _, _, _. split; [done|]. right. by left. }
  destruct (Z.lt_ge_cases (zlen payload) (off + item_len payload off)) as [Hover|Hfit].
  { right. rewrite gtpc_append_item_overreads; [|by rewrite Ho|by destruct Hw|done|rewrite length_drop; lia]. split; [done|].
    exists [], off. split; [done|]. split; [lia|]. right. unfold room in Er. to_prop. lia. }
  destruct (gtpc_append_item_ok hl 4 p (item_type payload off) (drop (Z.to_nat off) payload)
              (item_len payload off) s) as (p1 & -> & Hw1 & Hc1 & Ho1 & Hf1); try done.
  { rewrite length_drop. lia. }
  { by apply Forall_drop. }
  { by rewrite Ho. }
  res_simpl. cbn [negb Z.eqb]. rewrite slice_drop in Hc1 by lia.
  unfold room in Er. to_prop. rewrite wrap_small by szlia.
  destruct (Z.gtb_spec (off + item_len payload off) len).
  { left. eexists _, _, _. split; [done|]. right. right. split; [done|]. exists p1. split; [done|]. split; [done|]. split; [lia|done]. }
  assert (Ht : forall its o, tiled payload (off + item_len payload off) its o ->
            tiled payload off ((item_type payload off, slice off (item_len payload off) payload) :: its) o).
  { intros its o Hi. cbn. split; [done|]. split; [lia|]. split; [lia|]. split; [lia|done]. }
  destruct (Z.eqb_spec (off + item_len payload off) len).
  { left. eexists _, _, _. split; [done|]. left. split; [done|]. exists p1, [(item_type payload off, slice off (item_len payload off) payload)].
    split; [done|]. split; [done|]. split; [lia|]. split; [by apply Ht|]. split; [cbn; lia|done]. }
  destruct (IH (off + item_len payload off) p1 (next_malloc s)) as [(rc & pp & s' & -> & Hp)|(-> & its & o & Hi & Hcut)]; [done|lia|lia| |].
  2:{ right. split; [done|]. eexists _, o. split; [by apply Ht|done]. }
  left. exists rc, pp, s'. split; [done|]. destruct Hp as [(-> & p' & its & -> & Hw' & Ho' & Hi & Hk & Hc & Hf & Hs)|Hp].
  - left. split; [done|]. eexists p', (_ :: its). split; [done|]. split; [done|]. split; [done|]. split; [by apply Ht|].
    split; [cbn; lia|]. rewrite Hc, Hc1, <-app_assoc. split; [done|]. split; [by eapply same_frame_trans|done].
  - right. destruct Hp as [Hp|Hp]; [by left|by right].
Qed.

Lemma parse_items_complete hl fuel payload len off p s it its :
  pkt_wf hl 4 p -> offset p = off -> len < ETHER_MAX_LEN -> bytes_ok payload ->
  (forall n, malloc n = true) -> tiled payload off (it :: its) len -> (length its < fuel)%nat ->
  exists p' s', parse_items malloc fuel payload len off p s = Ok (OK, Some p', s') /\
    pkt_wf hl 4 p' /\ offset p' = len /\ contents p' = contents p ++ it :: its /\
    same_frame hl p p' /\ same_counts s s'.
Proof.
  intros Hw Ho Hl Hb Hm. revert fuel off p s it Hw Ho.
  induction its as [|it' its IH]; intros fuel off p s it Hw Ho Ht Hk; (destruct fuel as [|fuel]; [lia|]).
  all: pose proof (wf_off _ _ _ Hw); pose proof (wf_hl _ _ _ Hw).
  all: destruct Ht as (-> & Hn & H3 & Hin & Ht); pose proof (tiled_le _ _ _ _ Ht).
  all: rewrite parse_items_step by (done || lia).
  all: destruct (gtpc_append_item_ok hl 4 p (item_type payload off) (drop (Z.to_nat off) payload)
              (item_len payload off) s) as (p1 & -> & Hw1 & Hc1 & Ho1 & Hf1); try done;
       [rewrite length_drop; lia|by apply Forall_drop| |].
  1,3: unfold room; rewrite (proj2 (Z.eqb_neq _ 0)), (proj2 (Z.ltb_lt _ _)) by lia; done.
  all: res_simpl; cbn [negb Z.eqb]; rewrite slice_drop in Hc1 by lia; rewrite wrap_small by szlia.
  - cbn in Ht. rewrite (Z.gtb_ltb _ len), (proj2 (Z.ltb_ge _ _)), (proj2 (Z.eqb_eq _ len)) by lia.
    exists p1, (next_malloc s). split; [done|]. split; [done|]. split; [lia|]. done.
  - pose proof Ht as (_ & Hpos & _ & _ & Ht'). pose proof (tiled_le _ _ _ _ Ht').
    rewrite (Z.gtb_ltb _ len), (proj2 (Z.ltb_ge _ _)), (proj2 (Z.eqb_neq _ len)) by lia.
    destruct (IH fuel (off + item_len payload off) p1 (next_malloc s) it') as (p' & s' & -> & Hw' & Ho' & Hc & Hf & Hs);
      [done|lia|done|cbn in Hk; lia|].
    exists p', s'. rewrite Hc, Hc1, <-app_assoc. split; [done|]. split; [done|]. split; [done|]. split; [done|].
    split; [by eapply same_frame_trans|done].
Qed.

(** ** Whole messages *)

(** What the header checks of the parser amount to. *)
Definition accepts_header (payload : list Z) (len : Z) : Prop :=
  gtpc_validate_header payload = Ok OK /\ be_load (slice o_length 2 payload) + 4 = len /\
  gtpc_type_headerlen (item_type payload o_type) <= len.

Lemma rd_be payload q : 0 <= q -> q + 2 <= zlen payload -> bytes_ok payload ->
  exists v, rd 2 payload q = Ok v /\ ntohs v = be_load (slice q 2 payload).
Proof.
  intros. eexists. rewrite rd_ok by lia. split; [done|]. unfold ntohs. apply bswap_load.
  - by apply Forall_slice.
  - rewrite length_slice; lia.
Qed.

Lemma rd_byte payload q : 0 <= q -> q + 1 <= zlen payload -> rd 1 payload q = Ok (item_type payload q).
Proof. intros. rewrite rd_ok by lia. done. Qed.

Lemma gtpc_validate_header_total payload :
  4 <= zlen payload -> bytes_ok payload ->
  exists rc, gtpc_validate_header payload = Ok rc /\ (rc = OK \/ rc = ERR).
Proof.
  intros. unfold gtpc_validate_header.
  destruct (rd_be payload o_length) as (v & -> & _); [szlia..|done|].
  rewrite !rd_byte by szlia. res_simpl. repeat case_if; eauto.
Qed.

(** The parser up to its loop. *)
Lemma from_payload_eq ppkt payload len s :
  4 <= zlen payload -> bytes_ok payload -> 0 < len ->
  let type := item_type payload o_type in
  let hl := gtpc_type_headerlen type in
  (accepts_header payload len /\
   gtpc_alloc_packet_from_payload malloc ppkt (Some payload) len s =
     (if malloc (mallocs s) then
        let s := count_gtp 0 1 0 (next_malloc s) in
        let p := new_packet hl (v2_block type) in
        if hl =? len then Ok (OK, Some p, s)
        else parse_items malloc GTPC_CAPABILITY_ITEM_COUNT payload len hl p s
      else Ok (ERR, None, next_malloc s))) \/
  (~ accepts_header payload len /\
   gtpc_alloc_packet_from_payload malloc ppkt (Some payload) len s = Ok (ERR, ppkt, s)).
Proof.
  intros Hp Hb Hl type hl. unfold gtpc_alloc_packet_from_payload, accepts_header. fold type. fold hl.
  rewrite (proj2 (Z.eqb_neq len 0)) by lia.
  destruct (gtpc_validate_header_total payload) as (rc & -> & [->| ->]); [done|done| |].
  2: { res_simpl. right. split; [|done]. by intros [[=] _]. }
  destruct (rd_be payload o_length) as (v & -> & Ev); [szlia..|done|]. rewrite rd_byte by szlia.
  res_simpl. fold type. fold hl. cbn [negb Z.eqb OK]. rewrite Ev.
  destruct (Z.eqb_spec (be_load (slice o_length 2 payload) + 4) len) as [El|El]; cbn [negb].
  2: { right. split; [|done]. by intros (_ & ? & _). }
  destruct (Z.gtb_spec hl len).
  { right. split; [|done]. intros (_ & _ & ?). lia. }
  left. split; [done|]. destruct (malloc (mallocs s)) eqn:Em.
  - rewrite gtpc_alloc_packet_eq by done. done.
  - unfold gtpc_alloc_packet. rewrite Em. done.
Qed.

(** A message whose items tile it is parsed into its items. *)
Lemma from_payload_complete ppkt payload its s :
  let type := item_type payload o_type in
  let hl := gtpc_type_headerlen type in
  let len := hl + zlen (concat its.*2) in
  bytes_ok payload -> accepts_header payload len -> (forall n, malloc n = true) -> Forall tlv_ok its -> (length its <= 255)%nat ->
  len < ETHER_MAX_LEN -> len <= zlen payload -> slice hl (zlen (concat its.*2)) payload = concat its.*2 ->
  exists p' s', gtpc_alloc_packet_from_payload malloc ppkt (Some payload) len s = Ok (OK, Some p', s') /\
    contents p' = its /\ pkt_wf hl 4 p' /\ same_counts (count_gtp 0 1 0 s) s'.
Proof.
  intros type hl len Hb Ha Hm Hi Hk Hl Hz Es.
  assert (Hh : 8 <= hl <= 12) by (unfold hl, gtpc_type_headerlen, sizeof_gtpc_header; case_if; lia).
  destruct (from_payload_eq ppkt payload len s) as [[_ ->]|[Hn _]]; [lia|done|lia| |done].
  fold type. fold hl. rewrite Hm. cbv zeta. destruct its as [|it its].
  { unfold len. change (zlen (concat (([] : list (Z * list Z)).*2))) with 0. rewrite Z.add_0_r, Z.eqb_refl. eexists _, _. split; [done|]. split; [done|]. split; [apply v2_packet_wf|done]. }
  assert (Hp : 0 < zlen (concat (it :: its).*2)).
  { inversion Hi as [|? ? Hit ?]. destruct Hit as (Hlt & _). cbn. rewrite length_app. lia. }
  rewrite (proj2 (Z.eqb_neq hl _)) by lia.
  destruct (parse_items_complete hl GTPC_CAPABILITY_ITEM_COUNT payload len hl
    (new_packet hl (v2_block type)) (count_gtp 0 1 0 (next_malloc s)) it its) as (p' & s' & -> & Hwp & _ & Ec & _ & Hs);
    [apply v2_packet_wf|done|lia|done|done|by apply tlvs_tiled; [lia| | |]|unfold GTPC_CAPABILITY_ITEM_COUNT; cbn [length] in Hk; lia|].
  by exists p', s'.
Qed.

(** The ways the parser of a message can end. *)
Definition message_parsed (payload : list Z) (len : Z) (ppkt : option gtp_packet) s rc (pp : option gtp_packet) s' : Prop :=
  let hl := gtpc_type_headerlen (item_type payload o_type) in
  (rc = OK /\ accepts_header payload len /\
     exists p, pp = Some p /\ pkt_wf hl 4 p /\ offset p = len /\
       tiled payload hl (contents p) len /\ (length (contents p) <= 255)%nat /\
       same_counts (count_gtp 0 1 0 s) s') \/
  (rc = ERR /\ ~ accepts_header payload len /\ pp = ppkt /\ s' = s) \/
  (rc = ERR /\ accepts_header payload len /\
     ((pp = None /\ (same_counts s s' \/ same_counts (count_gtp 0 0 1 (count_gtp 0 1 0 s)) s')) \/
      (exists p, pp = Some p /\ pkt_wf hl 4 p /\ len < offset p /\ same_counts (count_gtp 0 1 0 s) s'))).

Lemma from_payload_sound ppkt payload len s :
  bytes_ok payload -> 0 < len < 2 ^ 16 -> 4 <= zlen payload ->
  (exists rc pp s', gtpc_alloc_packet_from_payload malloc ppkt (Some payload) len s = Ok (rc, pp, s') /\
     message_parsed payload len ppkt s rc pp s') \/
  (gtpc_alloc_packet_from_payload malloc ppkt (Some payload) len s = Fault Undefined /\ accepts_header payload len /\
     leaves_buffer payload (gtpc_type_headerlen (item_type payload o_type)) len).
Proof.
  intros Hb Hl H1. unfold message_parsed. set (hl := gtpc_type_headerlen _).
  pose proof (v2_packet_wf (item_type payload o_type)) as Hw. fold hl in Hw.
  destruct (from_payload_eq ppkt payload len s) as [[Ha ->]|[Ha ->]]; [done|done|lia| |].
  2: { left. eexists _, _, _. split; [done|]. right. by left. }
  fold hl. pose proof Ha as (_ & _ & Hh). fold hl in Hh.
  destruct (malloc (mallocs s)) eqn:Em; cbv zeta.
  2: { left. eexists _, _, _. split; [done|]. right. right. split; [done|]. split; [done|]. left. split; [done|]. by left. }
  destruct (Z.eqb_spec hl len) as [E|E].
  { left. eexists _, _, _. split; [done|]. left. split; [done|]. split; [done|]. eexists. split; [done|]. split; [done|].
    split; [done|]. split; [done|]. split; [cbn; lia|done]. }
  destruct (parse_items_sound hl GTPC_CAPABILITY_ITEM_COUNT payload len hl _ (count_gtp 0 1 0 (next_malloc s)) Hw)
    as [(rc & pp & s' & -> & Hp)|[-> Hleave]]; [done|lia|done| |by right].
  left. exists rc, pp, s'. split; [done|].
  destruct Hp as [(-> & p' & its & -> & Hw' & Ho & Ht & Hk & Hc & _ & Hs)|[(-> & -> & Hs)|(-> & p' & -> & Hw' & Ho & Hs)]].
  - left. split; [done|]. split; [done|]. exists p'. cbn in Hc. rewrite Hc. done.
  - right. right. split; [done|]. split; [done|]. left. split; [done|]. by right.
  - right. right. split; [done|]. split; [done|]. right. by exists p'.
Qed.

Lemma splice_all {A} (bs b : list A) : length bs = length b -> splice 0 bs b = bs.
Proof. intros E. unfold splice. rewrite E. change (Z.to_nat 0) with O. by rewrite Nat.add_0_l, firstn_O, drop_all, app_nil_r. Qed.

Definition addrs_ok p : Prop :=
  zlen (saddr p) = sizeof_sockaddr_in /\ zlen (caddr p) = sizeof_sockaddr_in /\
  0 <= saddrlen p <= sizeof_sockaddr_in /\ 0 <= caddrlen p <= sizeof_sockaddr_in.

Lemma copy_addr_ok dst src n :
  zlen dst = sizeof_sockaddr_in -> zlen src = sizeof_sockaddr_in -> 0 <= n <= sizeof_sockaddr_in ->
  copy_addr dst src n = Ok (splice 0 (slice 0 n src) dst).
Proof.
  intros. unfold copy_addr. rewrite rd_bytes_ok by lia. res_simpl.
  apply wr_bytes_ok; [lia|]. rewrite zlen_slice; lia.
Qed.

Lemma gtpc_convert_to_packet_ok hl base p s :
  pkt_wf hl base p -> addrs_ok p -> malloc (mallocs s) = true ->
  gtpc_convert_to_packet malloc p s =
    Ok (Some (mk_packet_t (offset p) (slice 0 (offset p) (packet p))
          (splice 0 (slice 0 (saddrlen p) (saddr p)) (bzero sizeof_sockaddr_in)) (saddrlen p)
          (splice 0 (slice 0 (caddrlen p) (caddr p)) (bzero sizeof_sockaddr_in)) (caddrlen p)),
        count_gtp 0 0 1 (count_pgw 1 0 0 (next_malloc s))).
Proof.
  intros Hw (Hs & Hc & Hsl & Hcl) Hm. pose proof (wf_off _ _ _ Hw). pose proof (wf_hl _ _ _ Hw). pose proof (wf_size _ _ _ Hw).
  unfold gtpc_convert_to_packet, pgw_alloc_packet. rewrite Hm. cbn [data p_saddr p_caddr].
  assert (Ls : zlen (slice 0 (offset p) (packet p)) = offset p) by (apply zlen_slice; szlia).
  assert (Lz : zlen (bzero (offset p)) = offset p) by (unfold bzero; rewrite length_replicate; lia).
  rewrite rd_bytes_ok by szlia. res_simpl. rewrite wr_bytes_ok by lia. res_simpl.
  rewrite splice_all by lia. rewrite !copy_addr_ok by done. res_simpl.
  rewrite (gtpc_free_packet_ok hl base) by done. done.
Qed.

Definition to_request (it : Z * list Z) : request := (it.1, it.2, zlen it.2).

Lemma taken_all off n its :
  (forall k, malloc k = true) -> Forall tlv_ok its -> off + zlen (concat its.*2) < ETHER_MAX_LEN ->
  taken off n (to_request <$> its) = its.
Proof.
  intros Hm Hi. revert off n. induction Hi as [|[t bs] its (Hl & Hi) _ IH]; intros off n Hf; [done|].
  cbn -[room] in *. rewrite length_app in Hf. unfold room.
  rewrite (proj2 (Z.eqb_neq (zlen bs) 0)), (proj2 (Z.ltb_lt (off + zlen bs) _)) by lia. cbn [negb andb].
  rewrite Hm, slice_0_all, IH by lia. done.
Qed.

Lemma requests_ok its : Forall tlv_ok its -> Forall request_ok (to_request <$> its).
Proof.
  intros Hi. apply Forall_fmap. eapply Forall_impl; [done|]. intros [t bs] (Hl & Hb & _).
  split; cbn; [lia|done].
Qed.

(** The wire image of a built packet passes the header checks. *)
Lemma built_header p type :
  pkt_wf (gtpc_type_headerlen type) 4 p -> same_frame (gtpc_type_headerlen type)
    (new_packet (gtpc_type_headerlen type) (v2_block type)) p ->
  gtpc_type_issupported type = true ->
  let payload := slice 0 (offset p) (packet p) in
  accepts_header payload (offset p) /\ item_type payload o_type = type /\ zlen payload = offset p /\
  bytes_ok payload.
Proof.
  intros Hw (Hf & _) Hs payload. pose proof (wf_off _ _ _ Hw). pose proof (wf_size _ _ _ Hw).
  assert (Hh : 8 <= gtpc_type_headerlen type <= 12).
  { unfold gtpc_type_headerlen, sizeof_gtpc_header. case_if; lia. }
  assert (Lp : zlen payload = offset p) by (apply zlen_slice; szlia).
  assert (Hb : bytes_ok payload) by (apply Forall_slice; by destruct Hw).
  assert (Hr : type mod 256 = type).
  { unfold gtpc_type_issupported in Hs. apply existsb_exists in Hs as (t & Hin & ->%Z.eqb_eq).
    cbn in Hin. repeat destruct Hin as [<-|Hin]; try reflexivity. done. }
  assert (Hx : forall q, 0 <= q < 2 -> item_type payload q = item_type (v2_block type) q).
  { intros q Hq. unfold item_type, payload. rewrite slice_slice by lia.
    rewrite <-(slice_slice 0 2 q 1 (packet p)), Hf by lia. by rewrite slice_slice by lia. }
  assert (Et : item_type payload o_type = type).
  { rewrite Hx by szlia. change (type mod 256 + 256 * 0 = type). lia. }
  assert (El : be_load (slice o_length 2 payload) = offset p - 4).
  { unfold payload. rewrite slice_slice by szlia. rewrite <-(wf_len _ _ _ Hw). unfold ntohs. symmetry. apply bswap_load.
    - apply Forall_slice. by destruct Hw.
    - rewrite length_slice; szlia. }
  split; [|done]. split; [|split; [lia|rewrite Et; lia]].
  unfold gtpc_validate_header. destruct (rd_be payload o_length) as (v & -> & Ev); [szlia..|done|].
  rewrite !rd_byte by szlia. res_simpl. rewrite Ev, El, Et. rewrite (proj2 (Z.ltb_ge _ _)) by szlia.
  rewrite (Hx o_flags) by szlia.
  replace (item_type (v2_block type) o_flags) with (if is_echo type then 0x40 else 0x48)
    by (unfold item_type, v2_block; by destruct (is_echo type)).
  rewrite Hs, Z.gtb_ltb, (proj2 (Z.ltb_ge _ _)) by (unfold sizeof_gtpc_header; lia).
  by destruct (is_echo type).
Qed.
End packets.

(** The wire image of a built message, parsed again. *)
Lemma built_message_parses (malloc : nat -> bool) (type : Z) (its : list (Z * list Z)) s :
  (forall n, malloc n = true) -> gtpc_type_issupported type = true ->
  Forall tlv_ok its -> (length its <= 255)%nat ->
  gtpc_type_headerlen type + zlen (concat its.*2) < ETHER_MAX_LEN ->
  exists p0 s0 p s1 conv s2 p' s3,
    gtpc_alloc_packet malloc type s = Ok (OK, Some p0, s0) /\
    append_all malloc (to_request <$> its) (Some p0, s0) = Ok (Some p, s1) /\
    gtpc_convert_to_packet malloc p s1 = Ok (Some conv, s2) /\
    datalen conv = gtpc_type_headerlen type + zlen (concat its.*2) /\
    gtpc_alloc_packet_from_payload malloc None (Some (data conv)) (datalen conv) s2 = Ok (OK, Some p', s3) /\
    contents p' = its /\ pkt_wf (gtpc_type_headerlen type) 4 p'.
Proof.
  intros Hm Hs Hi Hk Hf. set (hl := gtpc_type_headerlen type) in *.
  assert (Hh : 8 <= hl <= 12) by (unfold hl, gtpc_type_headerlen, sizeof_gtpc_header; case_if; lia).
  eexists _, _. pose proof (v2_packet_wf type) as Hw. fold hl in Hw.
  destruct (append_all_ok malloc hl 4 (to_request <$> its) _ (count_gtp 0 1 0 (next_malloc s)) Hw (requests_ok _ Hi))
    as (p & s1 & Ea & Hw' & Hc & Hfr & _).
  rewrite taken_all in Hc by done. change (contents (new_packet hl (v2_block type))) with (@nil (Z * list Z)) in Hc.
  pose proof (body_contents hl 4 p Hw') as Hb. rewrite Hc in Hb. cbn [app] in Hb.
  pose proof (wf_off _ _ _ Hw') as Hoff. pose proof (wf_size _ _ _ Hw') as Hsz.
  assert (Lo : offset p = hl + zlen (concat its.*2)).
  { rewrite <-Hb. unfold body. rewrite zlen_slice by szlia. lia. }
  assert (Hadr : addrs_ok p).
  { destruct Hfr as (_ & _ & E1 & E2 & E3 & E4). unfold addrs_ok. rewrite E1, E2, E3, E4. vm_compute. intuition congruence. }
  destruct (built_header p type Hw' Hfr Hs) as (Ha & Et & Lp & Hby). fold hl in Ha.
  eexists p, s1, _, _. pose proof (gtpc_convert_to_packet_ok malloc hl 4 p s1 Hw' Hadr (Hm _)) as Ec.
  set (payload := slice 0 (offset p) (packet p)) in *.
  set (s2 := count_gtp 0 0 1 (count_pgw 1 0 0 (next_malloc s1))) in *.
  assert (exists p' s3, gtpc_alloc_packet_from_payload malloc None (Some payload) (offset p) s2 = Ok (OK, Some p', s3) /\
    contents p' = its /\ pkt_wf hl 4 p') as (p' & s3 & E3 & Ec3).
  { rewrite Lo in Ha |- *. destruct (from_payload_complete malloc None payload its s2) as (p' & s3 & E & Ec' & Hwp & _);
      rewrite ?Et; fold hl; [done..|lia|lia| |].
    - rewrite <-Hb at 2. unfold payload, body. rewrite slice_slice by (rewrite ?zlen_slice; szlia). f_equal. lia.
    - rewrite Et in E, Hwp. fold hl in E, Hwp. by exists p', s3. }
  exists p', s3. rewrite gtpc_alloc_packet_eq by done. split; [done|]. split; [exact Ea|]. split; [exact Ec|].
  cbn [data datalen]. done.
Qed.

Module Properties.
Section properties.
Variable malloc : nat -> bool.

(** C12: a GTP-C packet, version 2 or version 1, can be filled with any sequence of
    items, allocation failures included, without touching the bytes behind its
    data area: the requests that leave room and find memory are taken in order,
    the others refused, the item bytes follow the header without gaps, the header
    length stays the length of the message, and releasing the packet does not
    count an overrun. *)
Theorem building_never_overruns (v1 : bool) (type : Z) (l : list request) (s : gtp_memory) :
  malloc (mallocs s) = true -> Forall request_ok l ->
  let hl := if v1 then sizeof_gtpc_v1_header else gtpc_type_headerlen type in
  let base := if v1 then 8 else 4 in
  exists p0 s0 p s1,
    (if v1 then gtpc_v1_alloc_packet malloc type s else gtpc_alloc_packet malloc type s) = Ok (OK, Some p0, s0) /\
    append_all malloc l (Some p0, s0) = Ok (Some p, s1) /\
    contents p = taken malloc hl (mallocs s0) l /\
    body hl p = concat (contents p).*2 /\
    be_load (slice o_length 2 (packet p)) = offset p - base /\ offset p < ETHER_MAX_LEN /\
    gtpc_free_packet (Some p) s1 = Ok (OK, None, count_gtp 0 0 1 s1) /\
    gtp_memory_status_count s1 = u64 (gtp_memory_status_count s).
Proof.
  intros Hm Hl hl base.
  assert (exists p0, pkt_wf hl base p0 /\ contents p0 = [] /\ offset p0 = hl /\
    (if v1 then gtpc_v1_alloc_packet malloc type s else gtpc_alloc_packet malloc type s) =
      Ok (OK, Some p0, count_gtp 0 1 0 (next_malloc s))) as (p0 & Hw & Hc & Ho & ->).
  { destruct v1.
    - eexists. rewrite gtpc_v1_alloc_packet_eq by done. split; [apply v1_packet_wf|done].
    - eexists. rewrite gtpc_alloc_packet_eq by done. split; [apply v2_packet_wf|done]. }
  destruct (append_all_ok malloc hl base l p0 (count_gtp 0 1 0 (next_malloc s)) Hw Hl)
    as (p & s1 & Ea & Hw' & Hc' & _ & Hs & _).
  eexists p0, _, p, s1. split; [done|]. split; [exact Ea|]. split; [by rewrite Hc', Hc, Ho|].
  split; [by apply (body_contents hl base)|].
  split. { rewrite <-(wf_len _ _ _ Hw'). unfold ntohs. symmetry. pose proof (wf_size _ _ _ Hw'). apply bswap_load;
             [apply Forall_slice; by destruct Hw'|rewrite length_slice; szlia]. }
  split; [by destruct (wf_off _ _ _ Hw')|]. split; [by apply (gtpc_free_packet_ok hl base)|].
  rewrite Hs. cbn. by rewrite Z.add_0_r.
Qed.

(** C9: round trip: a message of a supported type built from well-formed items,
    converted to a generic packet and parsed again, gives a well-formed packet with
    the same items. *)
Theorem message_roundtrip (type : Z) (its : list (Z * list Z)) (s : gtp_memory) :
  (forall n, malloc n = true) -> gtpc_type_issupported type = true ->
  Forall tlv_ok its -> (length its <= 255)%nat ->
  gtpc_type_headerlen type + zlen (concat its.*2) < ETHER_MAX_LEN ->
  exists p0 s0 p s1 conv s2 p' s3,
    gtpc_alloc_packet malloc type s = Ok (OK, Some p0, s0) /\
    append_all malloc (to_request <$> its) (Some p0, s0) = Ok (Some p, s1) /\
    gtpc_convert_to_packet malloc p s1 = Ok (Some conv, s2) /\
    datalen conv = gtpc_type_headerlen type + zlen (concat its.*2) /\
    gtpc_alloc_packet_from_payload malloc None (Some (data conv)) (datalen conv) s2 = Ok (OK, Some p', s3) /\
    contents p' = its /\ pkt_wf (gtpc_type_headerlen type) 4 p'.
Proof. apply built_message_parses. Qed.

(** C13: the parser of messages, on any bytes in a buffer of any size from the length
    field on and with any allocation failures, runs at most 255 rounds and then either
    returns or has read behind the buffer.  It accepts only messages with a valid
    header whose items tile the message exactly, and then gives their items; a rejected
    header leaves everything as it was, any other failure gives no packet back or,
    when an item overruns the message, an allocated one.  It reads behind the buffer only
    when the items lead to one that starts in the message and claims more bytes than
    the buffer has: never in a message its items tile, as in the buffers of exactly the
    message [pgw_alloc_packet] makes, and never in a buffer of a full frame and two
    bytes more than the message. *)
Theorem parse_is_safe_and_sound (ppkt : option gtp_packet) (payload : list Z) (len : Z) (s : gtp_memory) :
  bytes_ok payload -> 0 < len < 2 ^ 16 -> 4 <= zlen payload ->
  let hl := gtpc_type_headerlen (item_type payload o_type) in
  ((exists rc pp s', gtpc_alloc_packet_from_payload malloc ppkt (Some payload) len s = Ok (rc, pp, s') /\
      message_parsed payload len ppkt s rc pp s') \/
   (gtpc_alloc_packet_from_payload malloc ppkt (Some payload) len s = Fault Undefined /\ accepts_header payload len /\
      leaves_buffer payload hl len)) /\
  (forall its, tiled payload hl its len -> ~ leaves_buffer payload hl len) /\
  (len + 2 <= zlen payload -> ETHER_MAX_LEN <= zlen payload -> ~ leaves_buffer payload hl len).
Proof.
  intros Hb Hl H4 hl. split; [by apply from_payload_sound|]. split; [intros its; apply tiled_stays|apply frame_stays].
Qed.
End properties.

Definition all_ok (n : nat) : bool := true.
Definition recovery_item : list Z := [3; 0; 1; 0; 7].

Lemma building_never_overruns_witness :
  exists p0 s0 p s1,
    gtpc_alloc_packet all_ok 32 memory0 = Ok (OK, Some p0, s0) /\
    append_all all_ok [(3, recovery_item, 5); (9, bzero 2000, 2000); (3, recovery_item, 5)] (Some p0, s0) = Ok (Some p, s1) /\
    contents p = [(3, recovery_item); (3, recovery_item)] /\
    gtp_memory_status_count s1 = 0.
Proof.
  destruct (building_never_overruns all_ok false 32 [(3, recovery_item, 5); (9, bzero 2000, 2000); (3, recovery_item, 5)]
    memory0 eq_refl) as (p0 & s0 & p & s1 & E0 & Ea & Ec & _ & _ & _ & _ & Es).
  - repeat (apply Forall_cons_2; [split; [vm_compute; split; congruence|]|]); try apply Forall_nil_2.
    + unfold recovery_item, byte_ok. repeat constructor; lia.
    + apply Forall_replicate. unfold byte_ok. lia.
    + unfold recovery_item, byte_ok. repeat constructor; lia.
  - exists p0, s0, p, s1. split; [exact E0|]. split; [exact Ea|]. rewrite Ec, Es.
    split; vm_compute; reflexivity.
Defined.

Lemma recovery_item_ok : tlv_ok (3, recovery_item).
Proof.
  split; [vm_compute; split; congruence|]. split; [unfold recovery_item, byte_ok; repeat constructor; lia|].
  split; reflexivity.
Qed.

Lemma message_roundtrip_witness :
  exists p0 s0 p s1 conv s2 p' s3,
    gtpc_alloc_packet all_ok 1 memory0 = Ok (OK, Some p0, s0) /\
    append_all all_ok [to_request (3, recovery_item)] (Some p0, s0) = Ok (Some p, s1) /\
    gtpc_convert_to_packet all_ok p s1 = Ok (Some conv, s2) /\ datalen conv = 13 /\
    gtpc_alloc_packet_from_payload all_ok None (Some (data conv)) (datalen conv) s2 = Ok (OK, Some p', s3) /\
    contents p' = [(3, recovery_item)] /\ pkt_wf (gtpc_type_headerlen 1) 4 p'.
Proof.
  apply (message_roundtrip all_ok 1 [(3, recovery_item)] memory0).
  - done.
  - reflexivity.
  - apply Forall_cons_2; [apply recovery_item_ok|apply Forall_nil_2].
  - vm_compute. lia.
  - vm_compute. reflexivity.
Defined.

(** A request whose item claims two bytes it does not have, in a buffer of a
    frame. *)
Definition overlong_message : list Z := [0x48; 32; 0; 12; 0; 0; 0; 1; 0; 0; 1; 0; 3; 0; 2; 0].
Definition in_frame (m : list Z) : list Z := m ++ bzero (1520 - zlen m).

(** A recovery request in a buffer of exactly its length is accepted with its item; the
    overlong request in a buffer of a frame gets an error. *)
Definition recovery_message : list Z := [0x48; 32; 0; 13; 0; 0; 0; 1; 0; 0; 1; 0; 3; 0; 1; 0; 7].
Lemma parse_is_safe_and_sound_witness :
  (exists p s', gtpc_alloc_packet_from_payload all_ok None (Some recovery_message) 17 memory0 = Ok (OK, Some p, s') /\
     contents p = [(3, recovery_item)] /\ pkt_wf 12 4 p) /\
  exists pp s', gtpc_alloc_packet_from_payload all_ok None (Some (in_frame overlong_message)) 16 memory0 = Ok (ERR, pp, s').
Proof.
  split.
  - destruct (parse_is_safe_and_sound all_ok None recovery_message 17 memory0) as (Hres & Hstay & _);
      [by apply bytes_okb_ok|lia|vm_compute; congruence|].
    assert (Ht : tiled recovery_message 12 [(3, recovery_item)] 17) by (vm_compute; intuition congruence).
    destruct Hres as [(rc & pp & s' & E & Hp)|(_ & _ & Hl)]; [|by destruct (Hstay _ Ht)].
    assert (Hrc : match gtpc_alloc_packet_from_payload all_ok None (Some recovery_message) 17 memory0 with
                  | Ok (rc, Some p, _) => rc = OK /\ contents p = [(3, recovery_item)] | _ => False end) by (vm_compute; done).
    rewrite E in Hrc. destruct pp as [p|]; [|done]. destruct Hrc as [-> Hc]. exists p, s'. split; [exact E|]. split; [exact Hc|].
    destruct Hp as [(_ & _ & p' & [= <-] & Hw & _)|[(Hn & _)|(Hn & _)]]; [exact Hw|discriminate Hn..].
  - destruct (parse_is_safe_and_sound all_ok None (in_frame overlong_message) 16 memory0) as (Hres & _ & Hstay);
      [by apply bytes_okb_ok|lia|vm_compute; congruence|].
    destruct Hres as [(rc & pp & s' & E & Hp)|(_ & _ & Hl)]; [|by destruct Hstay; [vm_compute; congruence..|]].
    assert (Hrc : match gtpc_alloc_packet_from_payload all_ok None (Some (in_frame overlong_message)) 16 memory0 with
                  | Ok (rc, _, _) => rc = ERR | _ => False end) by (vm_compute; done).
    rewrite E in Hrc. subst rc. exists pp, s'. exact E.
Defined.

(** The parser returns an error and an allocated packet for a message whose last
    item overruns it. *)
Theorem overlong_item_leaks :
  exists p s', gtpc_alloc_packet_from_payload all_ok None (Some (in_frame overlong_message)) 16 memory0 =
      Ok (ERR, Some p, s') /\
    gtp_memory_alloc_count s' = 1 /\ gtp_memory_free_count s' = 0.
Proof. vm_compute. eexists _, _. split; [reflexivity|]. done. Qed.

(** In a buffer of exactly the message length, as [pgw_alloc_packet] makes them,
    the copy of that item reads behind the buffer. *)
Theorem overlong_item_overreads :
  gtpc_alloc_packet_from_payload all_ok None (Some overlong_message) 16 memory0 = Fault Undefined.
Proof. vm_compute. reflexivity. Qed.

(** An item of claimed length 0xfffd is taken as an item of one byte. *)
Theorem wrapped_length_accepted :
  exists p s', gtpc_alloc_packet_from_payload all_ok None
      (Some (in_frame [0x48; 32; 0; 9; 0; 0; 0; 1; 0; 0; 1; 0; 3; 0xff; 0xfd])) 13 memory0 = Ok (OK, Some p, s') /\
    contents p = [(3, [3])].
Proof. vm_compute. eexists _, _. split; reflexivity. Qed.
End Properties.
