(* ===== verification/GtpcItems.v ===== *)
(** * Information elements of GTP-C messages

    The item structures of ctrlplane/inc/gtpc_def.h and the functions of
    ctrlplane/src/pkt/gtpc_item_func.c that fill them: digit strings
    ([gtpc_digits_get], [gtpc_digits_set]), the [gtpc_..._set] and
    [gtpc_..._length] functions, and the bearer context with its children.

    An item is the byte block of its packed structure.  A setter returns its
    result code and the block it leaves behind. *)

From S2P Require Import Prelude TextParse Gtpc.

(** ** Constants *)
Definition GTPC_TYPE_IMSI := 1.
Definition GTPC_TYPE_CAUSE := 2.
Definition GTPC_TYPE_RECOVERY := 3.
Definition GTPC_TYPE_AMBR := 72.
Definition GTPC_TYPE_EBI := 73.
Definition GTPC_TYPE_MEI := 75.
Definition GTPC_TYPE_MSISDN := 76.
Definition GTPC_TYPE_PCO := 78.
Definition GTPC_TYPE_PAA := 79.
Definition GTPC_TYPE_BEARER_QOS := 80.
Definition GTPC_TYPE_RAT_TYPE := 82.
Definition GTPC_TYPE_F_TEID := 87.
Definition GTPC_TYPE_BEARER_CTX := 93.
Definition GTPC_TYPE_CHARGING_ID := 94.
Definition GTPC_TYPE_PDN_TYPE := 99.
Definition GTPC_TYPE_APN_RESTRICTION := 127.
Definition GTPC_TYPE_PRIVATE_EXTENSION := 255.
Definition GTPC_IMSI_LEN := 8.
Definition GTPC_MEI_LEN := 8.
Definition GTPC_MSISDN_LEN := 6.
Definition GTPC_PCO_LEN := 253.
Definition GTPC_PAA_ADRS_LEN := 21.

(** ** Structure sizes and fields *)
Definition sizeof_gtpc_imsi := 4 + GTPC_IMSI_LEN.
Definition sizeof_gtpc_cause := 10.
Definition sizeof_gtpc_recovery := 5.
Definition sizeof_gtpc_ambr := 12.
Definition sizeof_gtpc_ebi := 5.
Definition sizeof_gtpc_mei := 4 + GTPC_MEI_LEN.
Definition sizeof_gtpc_msisdn := 4 + GTPC_MSISDN_LEN.
Definition sizeof_gtpc_pco := 5 + GTPC_PCO_LEN.
Definition sizeof_gtpc_paa := 5 + GTPC_PAA_ADRS_LEN.
Definition sizeof_gtpc_bearer_qos := 26.
Definition sizeof_gtpc_rat := 5.
Definition sizeof_gtpc_f_teid := 25.
Definition sizeof_gtpc_charging_id := 8.
Definition sizeof_gtpc_pdn_type := 5.
Definition sizeof_gtpc_apn_restriction := 5.
Definition sizeof_bearer_child := 256.
Definition sizeof_gtpc_bearer_ctx := 4 + sizeof_bearer_child + 2.
Definition o_body := 4.              (* first byte behind the common header *)
Definition o_f_teid_key := 5.
Definition o_f_teid_blk := 9.
Definition o_ambr_downlink := 8.
Definition o_qos_qci := 5.
Definition o_qos_rate := 6.
Definition o_pco_head := 4.
Definition o_pco := 5.
Definition o_paa := 5.
Definition o_bearer_offset := 4 + sizeof_bearer_child.

(** ** Digits: [gtpc_numberdigit_t], a low and a high nibble *)
Definition low (b : Z) : Z := bf_get 0 4 b.
Definition high (b : Z) : Z := bf_get 4 4 b.
Definition print_d (v : Z) : cstring := print_digits 10 v [].

(** One round of the loop of [gtpc_digits_get]: the text buffer [bf] and its
    copy [tbf]. *)
Definition digits_step (st : cstring * cstring) (b : Z) : cstring * cstring :=
  let '(bf, tbf) := st in
  if (high b =? 0xf) && (low b =? 0xf) then st else
  let bf := snprintf 127 (tbf ++ (if high b =? 0xf then print_d (low b)
                                  else if low b =? 0xf then print_d (high b)
                                  else print_d (low b) ++ print_d (high b))) in
  (bf, take 127 bf).
(** [erange] tells whether [errno] is ERANGE when the function is entered; the
    function does not clear it. *)
Definition gtpc_digits_get (erange : bool) (digits : list Z) (len : Z) : res Z :=
  bs ← rd_bytes len digits 0;
  let bf := (foldl digits_step ([], []) bs).1 in
  if erange || (2 ^ 64 <=? digits_value 0 bf) then Ok (u64 (-1)) else Ok (strtoul10 bf).

Fixpoint set_digits (b : list Z) (i : Z) (s : cstring) : res (list Z) :=
  match s with
  | [] => Ok b
  | [c] => wr_bits b i 0 4 (c - 48)
  | c :: c' :: s => b ← wr_bits b i 0 4 (c - 48); b ← wr_bits b i 4 4 (c' - 48); set_digits b (i + 1) s
  end.
Definition gtpc_digits_set (digits : list Z) (len digit : Z) : res (Z * list Z) :=
  let bf := snprintf 31 (print_digits 20 digit []) in
  b ← wr_bytes digits 0 (replicate (Z.to_nat len) 0xff);
  if zlen bf <=? len * 2 then b ← set_digits b 0 bf; Ok (OK, b) else Ok (ERR, b).

(** ** Setters *)
Definition set_head (b : list Z) (type len : Z) : res (list Z) :=
  b ← wr 1 b o_ie_type type; wr 2 b o_ie_length (htons len).
Definition item_length (b : list Z) : res Z :=
  l ← rd 2 b o_ie_length; Ok (u16 (ntohs l + sizeof_gtpc_comm_header)).

(** The three items that hold a digit string. *)
Definition digits_item (type n digit : Z) : res (Z * list Z) :=
  let b := bzero (4 + n) in
  '(rc, d) ← gtpc_digits_set (drop 4 b) n digit;
  b ← wr_bytes b o_body d;
  if negb (rc =? OK) then Ok (ERR, b) else
  b ← set_head b type n;
  Ok (OK, b).
Definition gtpc_imsi_set := digits_item GTPC_TYPE_IMSI GTPC_IMSI_LEN.
Definition gtpc_msisdn_set := digits_item GTPC_TYPE_MSISDN GTPC_MSISDN_LEN.
Definition gtpc_mei_set := digits_item GTPC_TYPE_MEI GTPC_MEI_LEN.
Definition gtpc_msisdn_length := item_length.

(** The items of one byte of value. *)
Definition byte_item (size type len v : Z) : res (Z * list Z) :=
  b ← set_head (bzero size) type len;
  b ← wr 1 b o_body v;
  Ok (OK, b).
Definition gtpc_recovery_set (restart_counter : Z) :=
  byte_item sizeof_gtpc_recovery GTPC_TYPE_RECOVERY 1 restart_counter.
Definition gtpc_recovery_length := item_length.
Definition gtpc_cause_set (cause : Z) := byte_item sizeof_gtpc_cause GTPC_TYPE_CAUSE 2 cause.
Definition gtpc_cause_length := item_length.
Definition gtpc_apn_restriction_set (type : Z) :=
  byte_item sizeof_gtpc_apn_restriction GTPC_TYPE_APN_RESTRICTION 1 type.
Definition gtpc_apn_restriction_length := item_length.

(** [ipv4] and [ipv6] are the blocks the two pointers designate, if not null. *)
Definition gtpc_f_teid_set (inst iftype teid : Z) (ipv4 ipv6 : option (list Z)) : res (Z * list Z) :=
  let b := bzero sizeof_gtpc_f_teid in
  match ipv4, ipv6 with
  | None, None => Ok (ERR, b)
  | _, _ =>
    b ← wr 1 b o_ie_type GTPC_TYPE_F_TEID;
    b ← wr_bits b o_ie_inst 0 4 inst;
    b ← wr 4 b o_f_teid_key (htonl teid);
    b ← wr_bits b o_body 0 5 iftype;
    match ipv4, ipv6 with
    | Some a, _ =>
      b ← wr_bits b o_body 7 1 1;
      a ← rd_bytes 4 a 0; b ← wr_bytes b o_f_teid_blk a;
      b ← wr 2 b o_ie_length (htons 9);
      Ok (OK, b)
    | None, Some a =>
      b ← wr_bits b o_body 6 1 1;
      a ← rd_bytes 16 a 0; b ← wr_bytes b o_f_teid_blk a;
      b ← wr 2 b o_ie_length (htons 21);
      Ok (OK, b)
    | None, None => Ok (ERR, b)
    end
  end.
Definition gtpc_f_teid_length := item_length.

Definition gtpc_ambr_set (uplink downlink : Z) : res (Z * list Z) :=
  b ← wr 4 (bzero sizeof_gtpc_ambr) o_body (htonl uplink);
  b ← wr 4 b o_ambr_downlink (htonl downlink);
  b ← set_head b GTPC_TYPE_AMBR 8;
  Ok (OK, b).
Definition gtpc_ambr_length := item_length.

Definition gtpc_charging_id_set (cid : Z) : res (Z * list Z) :=
  b ← wr 4 (bzero sizeof_gtpc_charging_id) o_body (htonl cid);
  b ← set_head b GTPC_TYPE_CHARGING_ID 4;
  Ok (OK, b).
Definition gtpc_charging_id_length := item_length.

Definition gtpc_ebi_set (inst ebi : Z) : res (Z * list Z) :=
  b ← wr_bits (bzero sizeof_gtpc_ebi) o_ie_inst 0 4 inst;
  b ← set_head b GTPC_TYPE_EBI 1;
  b ← wr_bits b o_body 0 4 ebi;
  Ok (OK, b).
Definition gtpc_ebi_length := item_length.

(** Only the options are cleared: the rest of the item keeps what was there. *)
Definition gtpc_pco_set (item pco : list Z) (len : Z) : res (Z * list Z) :=
  b ← wr_bytes item o_pco (bzero GTPC_PCO_LEN);
  if GTPC_PCO_LEN <=? len then Ok (ERR, b) else
  b ← set_head b GTPC_TYPE_PCO len;
  d ← rd_bytes len pco 0;
  b ← wr_bytes b o_pco d;
  Ok (OK, b).
Definition gtpc_pco_length := item_length.

Definition gtpc_paa_set (pdntype : Z) (paa : list Z) (len : Z) : res (Z * list Z) :=
  let b := bzero sizeof_gtpc_paa in
  if len >? GTPC_PAA_ADRS_LEN then Ok (ERR, b) else
  b ← set_head b GTPC_TYPE_PAA (len + 1);
  b ← wr_bits b o_body 0 3 pdntype;
  d ← rd_bytes len paa 0;
  b ← wr_bytes b o_paa d;
  Ok (OK, b).
Definition gtpc_paa_length := item_length.

(** [XHTONLL] of a little-endian host. *)
Definition XHTONLL (x : Z) : Z :=
  Z.lor (Z.shiftl (htonl (Z.land x 0xffffffff)) 32) (htonl (Z.shiftr x 32)).
(** The five low-order bytes of a rate, in network order. *)
Definition rate_bytes (v : Z) : list Z := slice 3 5 (le_store 8 (XHTONLL v)).
Definition gtpc_gtpc_bearer_qos_set (flags qci max_uplink max_downlink guaranteed_uplink guaranteed_downlink : Z)
    : res (Z * list Z) :=
  b ← wr 1 (bzero sizeof_gtpc_bearer_qos) o_body flags;
  b ← wr 1 b o_qos_qci qci;
  b ← wr_bytes b (o_qos_rate + 0) (rate_bytes max_uplink);
  b ← wr_bytes b (o_qos_rate + 5) (rate_bytes max_downlink);
  b ← wr_bytes b (o_qos_rate + 10) (rate_bytes guaranteed_uplink);
  b ← wr_bytes b (o_qos_rate + 15) (rate_bytes guaranteed_downlink);
  b ← wr 2 b o_ie_length (htons (sizeof_gtpc_bearer_qos - sizeof_gtpc_comm_header));
  b ← wr 1 b o_ie_type GTPC_TYPE_BEARER_QOS;
  Ok (OK, b).
Definition gtpc_bearer_qos_length := item_length.

(** ** Bearer context *)
Definition gtpc_bearer_ctx_set : res (Z * list Z) :=
  b ← wr 2 (bzero sizeof_gtpc_bearer_ctx) o_ie_length (htons 0);
  b ← wr 1 b o_ie_type GTPC_TYPE_BEARER_CTX;
  b ← wr 2 b o_bearer_offset 0;
  Ok (OK, b).
Definition gtpc_bearer_ctx_length (item : list Z) : res Z :=
  o ← rd 2 item o_bearer_offset; Ok (u16 (o + sizeof_gtpc_comm_header)).
Definition gtpc_bearer_ctx_add_child (item child : list Z) (len : Z) : res (Z * list Z) :=
  o ← rd 2 item o_bearer_offset;
  if sizeof_bearer_child <=? o + len then Ok (ERR, item) else
  l ← rd 2 item o_ie_length;
  b ← wr 2 item o_ie_length (htons (ntohs l + len));
  d ← rd_bytes len child 0;
  b ← wr_bytes b (o_body + o) d;
  b ← wr 2 b o_bearer_offset (u16 (o + len));
  Ok (OK, b).

Section bearer.
Context {S : Type} (callback : Z -> list Z -> Z -> S -> res (Z * S)).
(** The loop over the children; [item] is the block from the item on.  [fuel]
    counts the rounds left of GTPC_CAPABILITY_ITEM_COUNT. *)
Fixpoint iterate_children (fuel : nat) (item : list Z) (len cur : Z) (arg : S) : res (Z * S) :=
  match fuel with
  | O => Ok (ERR, arg)
  | Datatypes.S fuel =>
    if len <=? cur then Ok (ERR, arg) else
    l ← rd 2 item (o_body + cur + o_ie_length);
    let hlen := u16 (ntohs l + sizeof_gtpc_comm_header) in
    ty ← rd 1 item (o_body + cur + o_ie_type);
    '(rc, arg) ← callback ty (drop (Z.to_nat (o_body + cur)) item) hlen arg;
    if negb (rc =? OK) then Ok (ERR, arg) else
    let cur := u16 (cur + hlen) in
    if cur >? len then Ok (ERR, arg) else
    if cur =? len then Ok (OK, arg) else
    iterate_children fuel item len cur arg
  end.
Definition gtpc_iterate_bearer_ctx_item (item : list Z) (arg : S) : res (Z * S) :=
  l ← rd 2 item o_ie_length;
  iterate_children GTPC_CAPABILITY_ITEM_COUNT item (ntohs l) 0 arg.
End bearer.

(** ** Digit strings *)
Lemma forall_digits (P : Z -> Z -> bool) :
  forallb (fun x => forallb (P x) (seqZ 0 10)) (seqZ 0 10) = true ->
  forall x y, 0 <= x < 10 -> 0 <= y < 10 -> P x y = true.
Proof.
  intros H x y Hx Hy. rewrite forallb_forall in H.
  specialize (H x). rewrite forallb_forall in H.
  assert (Hin : forall z, 0 <= z < 10 -> In z (seqZ 0 10)).
  { intros z Hz. apply list_elem_of_In, elem_of_seqZ. lia. }
  apply H; by apply Hin.
Qed.

(** Two digits in a byte; a missing second digit is 0xf. *)
Lemma pack_two x y :
  0 <= x < 10 -> 0 <= y < 10 -> bf_set 4 4 y (bf_set 0 4 x 0xff) = x + 16 * y /\
  bf_set 0 4 x 0xff = x + 0xf0 /\ low (x + 16 * y) = x /\ high (x + 16 * y) = y /\
  low (x + 0xf0) = x /\ high (x + 0xf0) = 0xf /\ print_d x = [x + 48].
Proof.
  intros Hx Hy.
  pose (P x y := (bf_set 4 4 y (bf_set 0 4 x 0xff) =? x + 16 * y) && (bf_set 0 4 x 0xff =? x + 0xf0) &&
    (low (x + 16 * y) =? x) && (high (x + 16 * y) =? y) && (low (x + 0xf0) =? x) && (high (x + 0xf0) =? 0xf) &&
    bool_decide (print_d x = [x + 48])).
  assert (HP : P x y = true) by (apply forall_digits; [vm_compute; reflexivity|done|done]).
  unfold P in HP. rewrite !andb_true_iff, !Z.eqb_eq, bool_decide_eq_true in HP. tauto.
Qed.

(** The bytes a digit string is packed into. *)
Fixpoint pack (s : cstring) : list Z :=
  match s with
  | [] => []
  | [c] => [c - 48 + 0xf0]
  | c :: c' :: s => c - 48 + 16 * (c' - 48) :: pack s
  end.
Abbreviation digit_string := (Forall (fun c => isdigit c = true)).

Lemma isdigit_range c : isdigit c = true -> 0 <= c - 48 < 10.
Proof. unfold isdigit. intros. to_prop. lia. Qed.

Lemma length_pack s : (2 * length (pack s) <= length s + 1)%nat.
Proof. induction s as [| |a b s IH] using list_pair_ind; cbn [pack length]; lia. Qed.

Lemma wr_bits_at pre v rest o w x :
  0 <= bf_set o w x v < 256 -> 0 <= v ->
  wr_bits (pre ++ v :: rest) (zlen pre) o w x = Ok (pre ++ bf_set o w x v :: rest).
Proof.
  intros Hb Hv. unfold wr_bits. rewrite rd_ok by (rewrite ?length_app; cbn [length]; lia). res_simpl.
  rewrite slice_app_r by lia. rewrite Z.sub_diag.
  change (slice 0 (Z.of_nat 1) (v :: rest)) with [v]. cbn [le_load]. rewrite Z.mul_0_r, Z.add_0_r.
  rewrite wr_ok by (rewrite ?length_app; cbn [length]; lia). f_equal. unfold splice. cbn [le_store length].
  rewrite Z.mod_small by lia. rewrite Nat2Z.id, take_app_length, Nat.add_comm. cbn [Nat.add].
  f_equal. cbn [app]. f_equal. rewrite drop_app_ge by lia.
  replace (S (length pre) - length pre)%nat with 1%nat by lia. done.
Qed.

Lemma set_digits_pack s pre k :
  digit_string s -> (length (pack s) <= k)%nat ->
  set_digits (pre ++ replicate k 0xff) (zlen pre) s = Ok (pre ++ pack s ++ replicate (k - length (pack s)) 0xff).
Proof.
  revert pre k. induction s as [|c|c c' s IH] using list_pair_ind; intros pre k Hs Hk.
  - cbn. by rewrite Nat.sub_0_r.
  - cbn [pack length set_digits] in *. destruct k as [|k]; [lia|]. cbn [replicate].
    apply Forall_inv, isdigit_range in Hs. destruct (pack_two (c - 48) 0) as (_ & E & _); [done|lia|].
    rewrite wr_bits_at by lia. rewrite E. cbn [app]. by rewrite Nat.sub_succ, Nat.sub_0_r.
  - cbn [pack length set_digits] in *. destruct k as [|k]; [lia|]. cbn [replicate].
    apply Forall_cons_1 in Hs as [Hc [Hc' Hs]%Forall_cons_1]. apply isdigit_range in Hc, Hc'.
    destruct (pack_two (c - 48) (c' - 48)) as (E2 & E1 & _); [done|done|].
    rewrite wr_bits_at by lia. res_simpl. rewrite wr_bits_at by lia. res_simpl. rewrite E2.
    change (pre ++ c - 48 + 16 * (c' - 48) :: replicate k 255) with
      (pre ++ [c - 48 + 16 * (c' - 48)] ++ replicate k 255).
    rewrite (app_assoc pre). replace (zlen pre + 1) with (zlen (pre ++ [c - 48 + 16 * (c' - 48)]))
      by (rewrite length_app; cbn; lia).
    rewrite IH by (done || lia). by rewrite <-app_assoc.
Qed.

Lemma digits_step_pack s t :
  digit_string s -> (length (t ++ s) <= 126)%nat -> foldl digits_step (t, t) (pack s) = (t ++ s, t ++ s).
Proof.
  assert (Hfull : forall u : cstring, (length u <= 126)%nat -> (snprintf 127 u, take 127 (snprintf 127 u)) = (u, u)).
  { intros u Hu. unfold snprintf. rewrite (take_ge u) by lia. rewrite take_ge by lia. done. }
  revert t. induction s as [|c|c c' s IH] using list_pair_ind; intros t Hs Hl.
  - cbn. by rewrite app_nil_r.
  - apply Forall_inv, isdigit_range in Hs. cbn [pack foldl]. unfold digits_step.
    destruct (pack_two (c - 48) 0) as (_ & _ & _ & _ & -> & -> & ->); [done|lia|].
    rewrite (proj2 (Z.eqb_neq (c - 48) 0xf)) by lia. cbn [Z.eqb Pos.eqb andb].
    rewrite Z.sub_add. by apply Hfull.
  - apply Forall_cons_1 in Hs as [Hc [Hc' Hs]%Forall_cons_1]. apply isdigit_range in Hc, Hc'.
    cbn [pack foldl]. unfold digits_step at 2.
    destruct (pack_two (c - 48) (c' - 48)) as (_ & _ & -> & -> & _ & _ & ->); [done|done|].
    destruct (pack_two (c' - 48) 0) as (_ & _ & _ & _ & _ & _ & ->); [done|lia|].
    rewrite (proj2 (Z.eqb_neq (c - 48) 0xf)), (proj2 (Z.eqb_neq (c' - 48) 0xf)) by lia. cbn [andb].
    rewrite !Z.sub_add. cbn [app]. rewrite Hfull by (rewrite length_app in *; cbn [length] in *; lia).
    change (t ++ c :: c' :: s) with (t ++ [c; c'] ++ s) in *. rewrite (app_assoc t) in *. by apply IH.
Qed.

Lemma digits_step_fill k t : foldl digits_step (t, t) (replicate k 0xff) = (t, t).
Proof. induction k as [|k IH]; [done|]. apply IH. Qed.

Lemma digits_value_of acc ds : digit_string ds -> digits_value acc ds = foldl (fun a c => 10 * a + (c - 48)) acc ds.
Proof. intros H. revert acc. induction H as [|c ds Hc _ IH]; intros acc; cbn; [done|]. by rewrite Hc. Qed.

Lemma strtoul10_digits ds :
  digit_string ds -> 0 <= digits_of ds < 2 ^ 64 -> digits_value 0 ds = digits_of ds /\ strtoul10 ds = digits_of ds.
Proof.
  intros Hd Hr. assert (E : digits_value 0 ds = digits_of ds) by (by apply digits_value_of). split; [done|].
  unfold strtoul10. assert (Hs : skip_space ds = ds).
  { destruct Hd as [|c ds Hc _]; [done|]. cbn. apply isdigit_range in Hc. unfold isspace.
    rewrite (proj2 (Z.eqb_neq c 32)), (proj2 (Z.leb_gt c 13)), andb_false_r by lia. done. }
  rewrite Hs. destruct Hd as [|c ds Hc Hd].
  { done. }
  apply isdigit_range in Hc. rewrite (proj2 (Z.eqb_neq c 45)), (proj2 (Z.eqb_neq c 43)) by lia.
  rewrite E, (proj2 (Z.leb_gt _ _)) by lia. done.
Qed.

Lemma length_print_digits_pow fuel v acc k :
  (0 < k)%nat -> 0 <= v < 10 ^ Z.of_nat k -> (length (print_digits fuel v acc) <= k + length acc)%nat.
Proof.
  revert v acc k. induction fuel as [|fuel IH]; intros v acc k Hk Hv; cbn [print_digits]; [lia|].
  destruct (v <? 10) eqn:E; to_prop; cbn [length]; [lia|].
  destruct k as [|[|k]]; [lia|cbn in Hv; lia|].
  rewrite (Nat2Z.inj_succ (S k)), Z.pow_succ_r in Hv by lia.
  specialize (IH (v / 10) ((48 + v mod 10) :: acc) (S k)). cbn [length] in IH.
  assert (0 <= v / 10 < 10 ^ Z.of_nat (S k))
    by (split; [apply Z.div_pos; lia|apply Z.div_lt_upper_bound; lia]). lia.
Qed.

Lemma digits_of_bound ds : digit_string ds -> 0 <= digits_of ds < 10 ^ zlen ds.
Proof.
  intros H. induction ds as [|c ds IH] using rev_ind; [cbn; lia|].
  apply Forall_app in H as [Hd Hc]. apply Forall_inv, isdigit_range in Hc. specialize (IH Hd).
  unfold digits_of in *. rewrite foldl_app, length_app, Nat2Z.inj_add, Z.pow_add_r by lia. cbn. lia.
Qed.

(** The decimal text of a 64-bit number. *)
Lemma print_llu v :
  0 <= v < 2 ^ 64 -> exists ds, snprintf 31 (print_digits 20 v []) = ds /\ digit_string ds /\ digits_of ds = v /\
    (length ds <= 20)%nat.
Proof.
  intros Hv. destruct (print_digits_value 20 v []) as (ds & E & Hd & Ho); [lia|split; [lia|]|].
  { change (10 ^ Z.of_nat 20) with 100000000000000000000. lia. }
  pose proof (length_print_digits 20 v []) as Hl. rewrite E, app_nil_r in *. cbn in Hl.
  exists ds. split; [|by auto with lia]. unfold snprintf. apply take_ge. lia.
Qed.

Lemma gtpc_digits_set_ok d n v :
  zlen d = n -> 0 <= v < 2 ^ 64 -> v < 10 ^ (2 * n) -> 0 < n ->
  exists b, gtpc_digits_set d n v = Ok (OK, b) /\ zlen b = n /\ bytes_ok b /\ gtpc_digits_get false b n = Ok v.
Proof.
  intros Hd Hv Hn Hp. destruct (print_llu v Hv) as (ds & E & Hds & Ho & Hl).
  assert (Hln : (length ds <= 2 * Z.to_nat n)%nat).
  { pose proof (length_print_digits_pow 20 v [] (2 * Z.to_nat n)) as H1. rewrite <-E. unfold snprintf. rewrite length_take.
    rewrite Nat2Z.inj_mul, Z2Nat.id in H1 by lia. cbn [length] in H1. change (Z.of_nat 2) with 2 in H1. lia. }
  pose proof (length_pack ds) as Hk. unfold gtpc_digits_set. rewrite E, wr_bytes_ok by (rewrite ?length_replicate; lia).
  res_simpl. rewrite splice_all by (rewrite length_replicate; lia). rewrite (proj2 (Z.leb_le _ _)) by lia.
  pose proof (set_digits_pack ds [] (Z.to_nat n) Hds) as ES. cbn [length app] in ES. change (Z.of_nat 0) with 0 in ES.
  rewrite ES by lia. res_simpl. eexists. split; [done|].
  assert (Lb : zlen (pack ds ++ replicate (Z.to_nat n - length (pack ds)) 255) = n)
    by (rewrite length_app, length_replicate; lia).
  split; [done|]. split.
  { apply Forall_app_2; [|apply Forall_replicate; unfold byte_ok; lia]. clear -Hds.
    induction ds as [|c|c c' ds IH] using list_pair_ind; cbn [pack]; [constructor|..].
    - apply Forall_inv, isdigit_range in Hds. constructor; [unfold byte_ok; lia|constructor].
    - apply Forall_cons_1 in Hds as [Hc [Hc' Hs]%Forall_cons_1]. apply isdigit_range in Hc, Hc'.
      constructor; [unfold byte_ok; lia|auto]. }
  unfold gtpc_digits_get. rewrite rd_bytes_ok by lia. res_simpl.
  set (b := pack ds ++ _) in *. assert (Eb : slice 0 n b = b) by (rewrite <-Lb; apply slice_0_all). rewrite Eb. unfold b.
  rewrite foldl_app, (digits_step_pack ds []), digits_step_fill by (done || cbn; lia). cbn [app fst].
  destruct (strtoul10_digits ds Hds) as [E1 E2]; [lia|]. rewrite E1, E2, Ho.
  rewrite (proj2 (Z.leb_gt _ _)) by lia. done.
Qed.

Lemma gtpc_digits_set_err d n v :
  zlen d = n -> 0 <= v < 2 ^ 64 -> 10 ^ (2 * n) <= v -> 0 < n ->
  gtpc_digits_set d n v = Ok (ERR, replicate (Z.to_nat n) 0xff).
Proof.
  intros Hd Hv Hn Hp. destruct (print_llu v Hv) as (ds & E & Hds & Ho & Hl).
  unfold gtpc_digits_set. rewrite E, wr_bytes_ok by (rewrite ?length_replicate; lia). res_simpl.
  rewrite splice_all by (rewrite length_replicate; lia). rewrite (proj2 (Z.leb_gt _ _)); [done|].
  pose proof (digits_of_bound ds Hds) as Hb. rewrite Ho in Hb.
  apply Z.nle_gt. intros Hc. pose proof (Z.pow_le_mono_r 10 (zlen ds) (2 * n)). lia.
Qed.

(** ** Wire forms of the items *)
Definition be_store (n : nat) (v : Z) : list Z := reverse (le_store n v).

Lemma le_store_bswap n v : le_store n (bswap n v) = be_store n v.
Proof.
  unfold be_store. apply le_load_inj.
  - apply le_store_ok.
  - apply Forall_reverse_iff, le_store_ok.
  - by rewrite length_reverse, !length_le_store.
  - rewrite le_load_store. apply Z.mod_small, bswap_range.
Qed.

Lemma be_store_2 v : exists a b, be_store 2 v = [a; b].
Proof. eexists _, _. reflexivity. Qed.
Lemma be_store_4 v : exists a b c d, be_store 4 v = [a; b; c; d].
Proof. eexists _, _, _, _. reflexivity. Qed.

Lemma wr_htonl b p v : wr 4 b p (htonl v) = wr_bytes b p (be_store 4 v).
Proof. unfold wr, htonl. by rewrite le_store_bswap. Qed.

Lemma le_load_app a b : le_load (a ++ b) = le_load a + 256 ^ zlen a * le_load b.
Proof.
  induction a as [|x a IH]; cbn [app le_load length]; [cbn; lia|].
  rewrite IH, Nat2Z.inj_succ, Z.pow_succ_r by lia. lia.
Qed.

Lemma lor_high_low k a b : 0 <= k -> 0 <= b < 2 ^ k -> Z.lor (Z.shiftl a k) b = a * 2 ^ k + b.
Proof.
  intros Hk Hb. rewrite Z.shiftl_mul_pow2 by lia.
  assert (Hz : Z.land (a * 2 ^ k) b = 0).
  { apply Z.bits_inj'. intros i Hi. rewrite Z.land_spec, Z.bits_0.
    destruct (decide (i < k)).
    - by rewrite Z.mul_pow2_bits_low by lia.
    - rewrite <-(Z.mod_small b (2 ^ k)), Z.mod_pow2_bits_high, andb_false_r by lia. done. }
  rewrite <-Z.lxor_lor, <-Z.add_nocarry_lxor by done. done.
Qed.

Lemma XHTONLL_bswap v : 0 <= v < 2 ^ 64 -> XHTONLL v = bswap 8 v.
Proof.
  intros Hv. unfold XHTONLL. rewrite lor_high_low by (lia || apply bswap_range).
  change 0xffffffff with (Z.ones 32). rewrite Z.land_ones, Z.shiftr_div_pow2 by lia.
  unfold bswap at 1.
  assert (E : le_store 8 v = le_store 4 (v mod 2 ^ 32) ++ le_store 4 (v / 2 ^ 32)).
  { apply le_load_inj.
    - apply le_store_ok.
    - apply Forall_app_2; apply le_store_ok.
    - by rewrite length_app, !length_le_store.
    - rewrite le_load_app, !le_load_store, length_le_store. change (256 ^ Z.of_nat 8) with (2 ^ 64).
      change (256 ^ Z.of_nat 4) with (2 ^ 32). rewrite Z.mod_mod by lia.
      rewrite (Z.mod_small v), (Z.mod_small (v / 2 ^ 32)) by
        (try (split; [apply Z.div_pos|apply Z.div_lt_upper_bound]); lia).
      pose proof (Z.div_mod v (2 ^ 32)). lia. }
  rewrite E, reverse_app, le_load_app, length_reverse, length_le_store.
  change (256 ^ Z.of_nat 4) with (2 ^ 32). fold (bswap 4 (v / 2 ^ 32)). fold (bswap 4 (v mod 2 ^ 32)).
  unfold htonl. lia.
Qed.

Lemma rate_bytes_eq v : 0 <= v < 2 ^ 64 -> rate_bytes v = be_store 5 v.
Proof. intros. unfold rate_bytes. rewrite XHTONLL_bswap, le_store_bswap by done. reflexivity. Qed.

(** A block whose common header announces [len] bytes. *)
Definition headed (type len : Z) (b : list Z) : Prop :=
  exists inst rest, b = type :: be_store 2 len ++ inst :: rest /\ len <= zlen rest.

Lemma be_store_load n v : 0 <= v < 256 ^ Z.of_nat n -> be_load (be_store n v) = v.
Proof. intros. unfold be_load, be_store. rewrite reverse_involutive, le_load_store. by apply Z.mod_small. Qed.

Lemma length_be_store n v : length (be_store n v) = n.
Proof. unfold be_store. by rewrite length_reverse, length_le_store. Qed.

Lemma be_store_ok n v : bytes_ok (be_store n v).
Proof. apply Forall_reverse_iff, le_store_ok. Qed.

Lemma headed_tlv type len b :
  headed type len b -> bytes_ok b -> 0 <= len < 2 ^ 16 - 4 ->
  tlv_ok (type, slice 0 (4 + len) b) /\ item_length b = Ok (4 + len) /\ 4 + len <= zlen b.
Proof.
  intros (inst & rest & -> & Hl) Hb Hr. cbn [length]. rewrite length_app, length_be_store. cbn [length].
  assert (Hz : 4 + len <= zlen (type :: be_store 2 len ++ inst :: rest))
    by (cbn [length]; rewrite length_app, length_be_store; cbn [length]; lia).
  assert (E1 : slice 1 2 (type :: be_store 2 len ++ inst :: rest) = be_store 2 len).
  { change (type :: be_store 2 len ++ inst :: rest) with ([type] ++ be_store 2 len ++ inst :: rest).
    rewrite slice_app_r by (cbn; lia). cbn [length]. rewrite slice_app_l by (rewrite ?length_be_store; lia).
    replace 2 with (zlen (be_store 2 len)) at 1 by (rewrite length_be_store; done).
    change (1 - Z.of_nat 1) with 0. apply slice_0_all. }
  split; [|split; [|lia]].
  - unfold tlv_ok. cbn [fst snd]. rewrite zlen_slice by lia. split; [lia|]. split; [by apply Forall_slice|].
    rewrite !slice_slice by lia. split; [done|]. change (0 + 1) with 1. rewrite E1.
    rewrite be_store_load by (cbn; lia). lia.
  - unfold item_length. rewrite rd_ok by szlia. res_simpl. unfold o_ie_length. change (Z.of_nat 2) with 2.
    rewrite E1. unfold ntohs. rewrite bswap_load by (apply be_store_ok || apply length_be_store).
    rewrite be_store_load by (cbn; lia). rewrite wrap_small by szlia. f_equal. szlia.
Qed.

Lemma set_head_eq a b c d rest type len :
  byte_ok type -> set_head (a :: b :: c :: d :: rest) type len = Ok (type :: be_store 2 len ++ d :: rest).
Proof.
  intros Ht. unfold set_head. rewrite wr_ok by (cbn [length]; szlia). res_simpl.
  cbn [le_store]. rewrite Z.mod_small by done.
  change (splice o_ie_type [type] (a :: b :: c :: d :: rest)) with (type :: b :: c :: d :: rest).
  rewrite wr_ok by (cbn [length]; szlia). unfold htons. rewrite le_store_bswap.
  destruct (be_store_2 len) as (x & y & ->). reflexivity.
Qed.

(** Values of the bit-fields. *)
Lemma nibble_set x : 0 <= x < 16 -> bf_set 0 4 x 0 = x.
Proof.
  intros Hx. assert (H : forallb (fun x => bf_set 0 4 x 0 =? x) (seqZ 0 16) = true) by reflexivity.
  rewrite forallb_forall in H. apply Z.eqb_eq, H, list_elem_of_In, elem_of_seqZ. lia.
Qed.
Lemma iftype_set x : 0 <= x < 32 -> bf_set 7 1 1 (bf_set 0 5 x 0) = 0x80 + x /\ bf_set 6 1 1 (bf_set 0 5 x 0) = 0x40 + x /\
  bf_set 0 5 x 0 = x.
Proof.
  intros Hx. assert (H : forallb (fun x => (bf_set 7 1 1 (bf_set 0 5 x 0) =? 0x80 + x) &&
    (bf_set 6 1 1 (bf_set 0 5 x 0) =? 0x40 + x) && (bf_set 0 5 x 0 =? x)) (seqZ 0 32) = true) by reflexivity.
  rewrite forallb_forall in H. specialize (H x). rewrite !andb_true_iff, !Z.eqb_eq in H.
  destruct H as [[??]?]; [|done]. apply list_elem_of_In, elem_of_seqZ. lia.
Qed.
Lemma pdn_set x : 0 <= x < 8 -> bf_set 0 3 x 0 = x.
Proof.
  intros Hx. assert (H : forallb (fun x => bf_set 0 3 x 0 =? x) (seqZ 0 8) = true) by reflexivity.
  rewrite forallb_forall in H. apply Z.eqb_eq, H, list_elem_of_In, elem_of_seqZ. lia.
Qed.

Lemma byte_item_eq n type len v :
  byte_ok type -> byte_ok v ->
  byte_item (5 + Z.of_nat n) type len v = Ok (OK, type :: be_store 2 len ++ 0 :: v :: replicate n 0).
Proof.
  intros Ht Hv. unfold byte_item, bzero. replace (Z.to_nat (5 + Z.of_nat n)) with (5 + n)%nat by lia.
  cbn [Nat.add replicate]. rewrite set_head_eq by done. res_simpl.
  destruct (be_store_2 len) as (x & y & ->). rewrite wr_ok by (cbn [app length]; unfold o_body; lia). res_simpl.
  cbn [le_store]. rewrite Z.mod_small by done. reflexivity.
Qed.

Lemma digits_item_ok type n v :
  byte_ok type -> 0 < n < 256 -> 0 <= v < 2 ^ 64 -> v < 10 ^ (2 * n) ->
  exists d, digits_item type n v = Ok (OK, type :: be_store 2 n ++ 0 :: d) /\ zlen d = n /\ bytes_ok d /\
    gtpc_digits_get false d n = Ok v.
Proof.
  intros Ht Hn Hv Hf. unfold digits_item.
  assert (Eb : bzero (4 + n) = [0; 0; 0; 0] ++ bzero n).
  { unfold bzero. replace (Z.to_nat (4 + n)) with (4 + Z.to_nat n)%nat by lia. done. }
  rewrite Eb. change (drop 4 ([0; 0; 0; 0] ++ bzero n)) with (bzero n).
  assert (Lz : zlen (bzero n) = n) by (unfold bzero; rewrite length_replicate; lia).
  destruct (gtpc_digits_set_ok (bzero n) n v) as (d & -> & Ld & Hd & Hg); [done..|lia|]. res_simpl.
  rewrite wr_bytes_ok by (rewrite ?length_app; cbn [length]; unfold o_body; lia). res_simpl. cbn [negb Z.eqb OK].
  assert (Es : splice o_body d ([0; 0; 0; 0] ++ bzero n) = 0 :: 0 :: 0 :: 0 :: d).
  { unfold splice, o_body. change (Z.to_nat 4) with 4%nat. cbn [app take firstn]. do 4 f_equal. cbn [Nat.add drop].
    rewrite drop_ge by (unfold bzero in *; lia). by rewrite app_nil_r. }
  rewrite Es, set_head_eq by done. res_simpl. by exists d.
Qed.

Lemma gtpc_ambr_set_eq uplink downlink :
  gtpc_ambr_set uplink downlink = Ok (OK, GTPC_TYPE_AMBR :: be_store 2 8 ++ 0 :: be_store 4 uplink ++ be_store 4 downlink).
Proof.
  unfold gtpc_ambr_set, wr, htonl. rewrite !le_store_bswap.
  destruct (be_store_4 uplink) as (?&?&?&?&->), (be_store_4 downlink) as (?&?&?&?&->). reflexivity.
Qed.

Lemma gtpc_charging_id_set_eq cid :
  gtpc_charging_id_set cid = Ok (OK, GTPC_TYPE_CHARGING_ID :: be_store 2 4 ++ 0 :: be_store 4 cid).
Proof.
  unfold gtpc_charging_id_set, wr, htonl. rewrite !le_store_bswap.
  destruct (be_store_4 cid) as (?&?&?&?&->). reflexivity.
Qed.

Lemma gtpc_ebi_set_eq inst ebi :
  0 <= inst < 16 -> 0 <= ebi < 16 ->
  gtpc_ebi_set inst ebi = Ok (OK, GTPC_TYPE_EBI :: be_store 2 1 ++ [inst; ebi]).
Proof.
  intros Hi He. unfold gtpc_ebi_set, bzero. change (replicate (Z.to_nat sizeof_gtpc_ebi) 0) with ([0; 0; 0] ++ 0 :: [0]).
  change o_ie_inst with (zlen [0; 0; 0]). pose proof (nibble_set inst Hi) as Ei. pose proof (nibble_set ebi He) as Ee.
  rewrite wr_bits_at, Ei by lia. res_simpl. cbn [app]. rewrite set_head_eq by (unfold byte_ok, GTPC_TYPE_EBI; lia). res_simpl.
  destruct (be_store_2 1) as (x & y & ->). change (GTPC_TYPE_EBI :: [x; y] ++ [inst; 0]) with ([GTPC_TYPE_EBI; x; y; inst] ++ 0 :: []).
  change o_body with (zlen [GTPC_TYPE_EBI; x; y; inst]). rewrite wr_bits_at, Ee by lia. reflexivity.
Qed.

(** The address part of an F-TEID. *)
Lemma gtpc_f_teid_set_v4 inst iftype teid a v6 :
  0 <= inst < 16 -> 0 <= iftype < 32 -> 4 <= zlen a ->
  gtpc_f_teid_set inst iftype teid (Some a) v6 =
    Ok (OK, GTPC_TYPE_F_TEID :: be_store 2 9 ++ inst :: (0x80 + iftype) :: be_store 4 teid ++ slice 0 4 a ++ bzero 12).
Proof.
  intros Hi Hf Ha. unfold gtpc_f_teid_set. pose proof (nibble_set inst Hi) as Ei.
  destruct (iftype_set iftype Hf) as (E7 & _ & E5).
  assert (La : zlen (slice 0 4 a) = 4) by (apply zlen_slice; lia).
  replace (match v6 with Some _ | None => _ end) with
    (b ← wr 1 (bzero sizeof_gtpc_f_teid) o_ie_type GTPC_TYPE_F_TEID;
     b ← wr_bits b o_ie_inst 0 4 inst; b ← wr 4 b o_f_teid_key (htonl teid); b ← wr_bits b o_body 0 5 iftype;
     b ← wr_bits b o_body 7 1 1; a ← rd_bytes 4 a 0; b ← wr_bytes b o_f_teid_blk a;
     b ← wr 2 b o_ie_length (htons 9); Ok (OK, b)) by by destruct v6.
  rewrite rd_bytes_ok by lia. destruct (slice 0 4 a) as [|a0 [|a1 [|a2 [|a3 [|]]]]]; cbn [length] in La; try lia.
  change (wr 1 (bzero sizeof_gtpc_f_teid) o_ie_type GTPC_TYPE_F_TEID) with
    (Ok ([GTPC_TYPE_F_TEID; 0; 0] ++ 0 :: bzero 21)). res_simpl.
  change o_ie_inst with (zlen [GTPC_TYPE_F_TEID; 0; 0]). rewrite wr_bits_at, Ei by lia. res_simpl.
  rewrite wr_htonl. destruct (be_store_4 teid) as (t0 & t1 & t2 & t3 & ->).
  change (wr_bytes ([GTPC_TYPE_F_TEID; 0; 0] ++ inst :: bzero 21) o_f_teid_key [t0; t1; t2; t3]) with
    (Ok ([GTPC_TYPE_F_TEID; 0; 0; inst] ++ 0 :: [t0; t1; t2; t3] ++ bzero 16)). res_simpl.
  change o_body with (zlen [GTPC_TYPE_F_TEID; 0; 0; inst]). rewrite wr_bits_at by lia. res_simpl.
  rewrite wr_bits_at by lia. rewrite E7. reflexivity.
Qed.

Lemma gtpc_f_teid_set_v6 inst iftype teid a :
  0 <= inst < 16 -> 0 <= iftype < 32 -> 16 <= zlen a ->
  gtpc_f_teid_set inst iftype teid None (Some a) =
    Ok (OK, GTPC_TYPE_F_TEID :: be_store 2 21 ++ inst :: (0x40 + iftype) :: be_store 4 teid ++ slice 0 16 a).
Proof.
  intros Hi Hf Ha. unfold gtpc_f_teid_set. pose proof (nibble_set inst Hi) as Ei.
  destruct (iftype_set iftype Hf) as (_ & E6 & E5).
  assert (La : zlen (slice 0 16 a) = 16) by (apply zlen_slice; lia).
  rewrite rd_bytes_ok by lia.
  change (wr 1 (bzero sizeof_gtpc_f_teid) o_ie_type GTPC_TYPE_F_TEID) with
    (Ok ([GTPC_TYPE_F_TEID; 0; 0] ++ 0 :: bzero 21)). res_simpl.
  change o_ie_inst with (zlen [GTPC_TYPE_F_TEID; 0; 0]). rewrite wr_bits_at, Ei by lia. res_simpl.
  rewrite wr_htonl. destruct (be_store_4 teid) as (t0 & t1 & t2 & t3 & ->).
  change (wr_bytes ([GTPC_TYPE_F_TEID; 0; 0] ++ inst :: bzero 21) o_f_teid_key [t0; t1; t2; t3]) with
    (Ok ([GTPC_TYPE_F_TEID; 0; 0; inst] ++ 0 :: [t0; t1; t2; t3] ++ bzero 16)). res_simpl.
  change o_body with (zlen [GTPC_TYPE_F_TEID; 0; 0; inst]). rewrite wr_bits_at by lia. res_simpl.
  rewrite wr_bits_at by lia. rewrite E6. res_simpl.
  generalize dependent (slice 0 16 a). intros l La.
  rewrite wr_bytes_ok by (cbn [app length]; unfold o_f_teid_blk; rewrite ?La; vm_compute; congruence). res_simpl.
  assert (Es : splice o_f_teid_blk l ([GTPC_TYPE_F_TEID; 0; 0; inst] ++ 64 + iftype :: [t0; t1; t2; t3] ++ bzero 16) =
    [GTPC_TYPE_F_TEID; 0; 0; inst] ++ 64 + iftype :: [t0; t1; t2; t3] ++ l).
  { unfold splice, o_f_teid_blk. change (Z.to_nat 9) with 9%nat. cbn [app take firstn]. do 9 f_equal.
    replace (length l) with 16%nat by lia. cbn. by rewrite app_nil_r. }
  rewrite Es, wr_ok by (cbn [app length]; szlia). reflexivity.
Qed.

Lemma gtpc_paa_set_eq pdntype paa len :
  0 <= pdntype < 8 -> 0 <= len <= GTPC_PAA_ADRS_LEN -> len <= zlen paa ->
  gtpc_paa_set pdntype paa len =
    Ok (OK, GTPC_TYPE_PAA :: be_store 2 (len + 1) ++ 0 :: pdntype :: slice 0 len paa ++ bzero (GTPC_PAA_ADRS_LEN - len)).
Proof.
  intros Hp Hl Ha. unfold gtpc_paa_set. rewrite Z.gtb_ltb, (proj2 (Z.ltb_ge _ _)) by lia.
  change (bzero sizeof_gtpc_paa) with (0 :: 0 :: 0 :: 0 :: 0 :: bzero 21).
  rewrite set_head_eq by (unfold byte_ok, GTPC_TYPE_PAA; lia). res_simpl.
  destruct (be_store_2 (len + 1)) as (x & y & ->).
  change (GTPC_TYPE_PAA :: [x; y] ++ 0 :: 0 :: bzero 21) with ([GTPC_TYPE_PAA; x; y; 0] ++ 0 :: bzero 21).
  change o_body with (zlen [GTPC_TYPE_PAA; x; y; 0]). rewrite wr_bits_at, pdn_set by (rewrite ?pdn_set; lia). res_simpl.
  rewrite rd_bytes_ok by lia. res_simpl. assert (Ll : zlen (slice 0 len paa) = len) by (apply zlen_slice; lia).
  change GTPC_PAA_ADRS_LEN with 21 in *. assert (Lz : zlen (bzero 21) = 21) by done.
  rewrite wr_bytes_ok by (cbn [app length]; unfold o_paa; lia). res_simpl. do 2 f_equal.
  unfold splice, o_paa. change (Z.to_nat 5) with 5%nat. cbn [app take firstn Nat.add drop]. do 5 f_equal.
  rewrite firstn_O. cbn [app]. f_equal. unfold bzero. rewrite drop_replicate. f_equal. lia.
Qed.

Lemma gtpc_bearer_qos_set_eq flags qci mu md gu gd :
  byte_ok flags -> byte_ok qci -> 0 <= mu < 2 ^ 64 -> 0 <= md < 2 ^ 64 -> 0 <= gu < 2 ^ 64 -> 0 <= gd < 2 ^ 64 ->
  gtpc_gtpc_bearer_qos_set flags qci mu md gu gd =
    Ok (OK, GTPC_TYPE_BEARER_QOS :: be_store 2 22 ++ 0 :: flags :: qci ::
            be_store 5 mu ++ be_store 5 md ++ be_store 5 gu ++ be_store 5 gd).
Proof.
  intros Hf Hq H1 H2 H3 H4. unfold gtpc_gtpc_bearer_qos_set. rewrite !rate_bytes_eq by done.
  unfold wr. change (le_store 1 flags) with [flags mod 256]. change (le_store 1 qci) with [qci mod 256].
  rewrite !Z.mod_small by done.
  assert (E5 : forall v, exists a b c d e, be_store 5 v = [a; b; c; d; e]) by (intros; eexists _, _, _, _, _; reflexivity).
  destruct (E5 mu) as (?&?&?&?&?&->), (E5 md) as (?&?&?&?&?&->), (E5 gu) as (?&?&?&?&?&->), (E5 gd) as (?&?&?&?&?&->).
  reflexivity.
Qed.

Lemma gtpc_pco_set_eq a b c d e opts pco len :
  zlen opts = GTPC_PCO_LEN -> 0 <= len < GTPC_PCO_LEN -> len <= zlen pco ->
  gtpc_pco_set (a :: b :: c :: d :: e :: opts) pco len =
    Ok (OK, GTPC_TYPE_PCO :: be_store 2 len ++ d :: e :: slice 0 len pco ++ bzero (GTPC_PCO_LEN - len)).
Proof.
  intros Ho Hl Hp. unfold gtpc_pco_set.
  assert (Lz : length (bzero GTPC_PCO_LEN) = 253%nat) by done. change GTPC_PCO_LEN with 253 in *.
  rewrite wr_bytes_ok by (cbn [length]; unfold o_pco; lia). res_simpl.
  rewrite (proj2 (Z.leb_gt 253 len)) by lia.
  assert (E1 : forall x y z u v (bs l : list Z), (length bs <= length l)%nat ->
    splice o_pco bs (x :: y :: z :: u :: v :: l) = x :: y :: z :: u :: v :: bs ++ drop (length bs) l).
  { intros. unfold splice, o_pco. change (Z.to_nat 5) with 5%nat. cbn [app take firstn Nat.add drop].
    by rewrite firstn_O. }
  rewrite E1 by lia. rewrite (drop_ge opts), app_nil_r by lia.
  rewrite set_head_eq by (unfold byte_ok, GTPC_TYPE_PCO; lia). res_simpl.
  rewrite rd_bytes_ok by lia. res_simpl. assert (Ll : zlen (slice 0 len pco) = len) by (apply zlen_slice; lia).
  destruct (be_store_2 len) as (x & y & ->). cbn [app].
  rewrite wr_bytes_ok by (cbn [length]; unfold o_pco; lia). res_simpl. rewrite E1 by lia.
  do 8 f_equal. unfold bzero. rewrite drop_replicate. do 2 f_equal. lia.
Qed.

(** ** Iteration

    A callback is local on the items of [P] when it looks at the item it is given,
    not at the bytes behind it. *)
Section visit.
Context {S : Type} (callback : Z -> list Z -> Z -> S -> res (Z * S)) (P : Z * list Z -> Prop).

Definition local_callback : Prop :=
  forall ty d len arg, 0 <= len <= zlen d -> bytes_ok d -> P (ty, slice 0 len d) ->
    callback ty d len arg = callback ty (slice 0 len d) len arg.

(** The callback on a list of items, until it fails. *)
Fixpoint visit (its : list (Z * list Z)) (arg : S) : res (Z * S) :=
  match its with
  | [] => Ok (OK, arg)
  | (ty, bs) :: its =>
    '(rc, arg) ← callback ty bs (zlen bs) arg;
    if negb (rc =? OK) then Ok (ERR, arg) else visit its arg
  end.

Hypothesis Hloc : local_callback.

Lemma iterate_items_visit b l o e arg :
  0 <= o -> e <= zlen b -> bytes_ok b -> tiles o l e -> Forall (fun it => 0 <= i_type it < 256) l ->
  Forall P (item_bytes b <$> l) ->
  iterate_items callback b l arg = visit (item_bytes b <$> l) arg.
Proof.
  revert o arg. induction l as [|it l IH]; intros o arg Ho He Hb Ht Hty HP; [done|].
  apply Forall_cons_1 in HP as [HP1 HP].
  destruct Ht as (<- & Hl & Ht). apply Forall_cons_1 in Hty as [Hty1 Hty]. pose proof (tiles_le _ _ _ Ht).
  cbn [iterate_items fmap list_fmap]. unfold item_bytes at 1. cbn [visit].
  rewrite wrap_small by done.
  rewrite Hloc by (rewrite ?length_drop, ?slice_drop by lia; done || lia || by apply Forall_drop). rewrite slice_drop, zlen_slice by lia.
  destruct (callback _ _ _ _) as [[rc arg']|]; [|done]. res_simpl. destruct (negb _); [done|].
  apply (IH (i_offset it + i_length it)); [lia|done..].
Qed.

Lemma iterate_children_visit fuel item len cur it its arg :
  bytes_ok item -> 0 <= cur -> len < 2 ^ 16 -> 4 + len <= zlen item ->
  tiled item (4 + cur) (it :: its) (4 + len) -> Forall P (it :: its) -> (length its < fuel)%nat ->
  iterate_children callback fuel item len cur arg = visit (it :: its) arg.
Proof.
  intros Hb Hc Hl Hz. revert fuel cur it arg Hc. induction its as [|it' its IH]; intros fuel cur it arg Hc Ht HP Hk.
  all: apply Forall_cons_1 in HP as [HP1 HP].
  all: destruct fuel as [|fuel]; [lia|]; destruct Ht as (-> & Hn & H3 & Hin & Ht); pose proof (tiled_le _ _ _ _ Ht).
  all: cbn [iterate_children visit]; rewrite (proj2 (Z.leb_gt len cur)) by lia.
  all: change (o_body + cur) with (4 + cur).
  all: destruct (rd_be item (4 + cur + o_ie_length)) as (v & -> & Ev); [szlia|szlia|done|].
  all: change (4 + cur + o_ie_type) with (4 + cur + 0); rewrite Z.add_0_r, rd_byte by lia; res_simpl; rewrite Ev.
  all: fold (item_len item (4 + cur)).
  all: rewrite Hloc by (rewrite ?length_drop, ?slice_drop by lia; done || lia || by apply Forall_drop); rewrite slice_drop, zlen_slice by lia.
  all: destruct (callback _ _ _ _) as [[rc arg']|]; [|done]; res_simpl; destruct (negb _); [done|].
  all: rewrite wrap_small, Z.gtb_ltb, (proj2 (Z.ltb_ge _ _)) by lia.
  - cbn in Ht. rewrite (proj2 (Z.eqb_eq _ len)) by lia. done.
  - pose proof Ht as (_ & Hp & _ & _ & Ht'). pose proof (tiled_le _ _ _ _ Ht').
    rewrite (proj2 (Z.eqb_neq _ len)) by lia.
    apply IH; [lia|by rewrite Z.add_assoc|done|cbn in Hk; lia].
Qed.
End visit.

(** ** Bearer contexts *)
Record ctx_wf (item : list Z) (cs : list (list Z)) : Prop := {
  ctx_size : zlen item = sizeof_gtpc_bearer_ctx;
  ctx_bytes : bytes_ok item;
  ctx_type : slice 0 1 item = [GTPC_TYPE_BEARER_CTX];
  ctx_fits : zlen (concat cs) < sizeof_bearer_child;
  ctx_len : be_load (slice o_ie_length 2 item) = zlen (concat cs);
  ctx_off : le_load (slice o_bearer_offset 2 item) = zlen (concat cs);
  ctx_children : slice o_body (zlen (concat cs)) item = concat cs;
}.

Ltac ctxlia := unfold o_ie_length, o_body, o_bearer_offset, sizeof_gtpc_bearer_ctx, sizeof_bearer_child in *; lia.

Lemma gtpc_bearer_ctx_set_ok : exists item, gtpc_bearer_ctx_set = Ok (OK, item) /\ ctx_wf item [].
Proof.
  eexists. split; [vm_compute; reflexivity|]. split; try reflexivity.
  apply bytes_okb_ok. vm_compute. reflexivity.
Qed.

Lemma gtpc_bearer_ctx_add_child_ok item cs child len :
  ctx_wf item cs -> 0 <= len <= zlen child -> bytes_ok child ->
  zlen (concat cs) + len < sizeof_bearer_child ->
  exists item', gtpc_bearer_ctx_add_child item child len = Ok (OK, item') /\ ctx_wf item' (cs ++ [slice 0 len child]).
Proof.
  intros [Hs Hb Ht Hf Hl Ho Hc] Hlen Hbc Hfit. unfold gtpc_bearer_ctx_add_child.
  set (n := zlen (concat cs)) in *. assert (Lc : zlen (slice 0 len child) = len) by (apply zlen_slice; lia).
  rewrite (rd_ok 2 item o_bearer_offset) by ctxlia. res_simpl. change (Z.of_nat 2) with 2.
  rewrite Ho, (proj2 (Z.leb_gt _ _)) by lia.
  destruct (rd_be item o_ie_length) as (v & -> & Ev); [ctxlia|ctxlia|done|]. res_simpl. rewrite Ev, Hl.
  rewrite wr_ok by ctxlia. res_simpl. unfold htons. rewrite le_store_bswap, rd_bytes_ok by lia. res_simpl.
  pose proof (length_be_store 2 (n + len)) as L2. pose proof (length_le_store 2 (u16 (n + len))) as L2'.
  set (b1 := splice o_ie_length (be_store 2 (n + len)) item).
  assert (L1 : length b1 = length item) by (unfold b1; apply length_splice; ctxlia).
  rewrite wr_bytes_ok by ctxlia. res_simpl.
  set (b2 := splice (o_body + n) (slice 0 len child) b1).
  assert (Lb2 : length b2 = length b1) by (unfold b2; apply length_splice; ctxlia).
  rewrite wr_ok by ctxlia. res_simpl. rewrite wrap_small in * by ctxlia.
  set (b3 := splice o_bearer_offset (le_store 2 (n + len)) b2).
  assert (Lb3 : length b3 = length b2) by (unfold b3; apply length_splice; ctxlia).
  assert (En : zlen (concat (cs ++ [slice 0 len child])) = n + len).
  { rewrite concat_app, length_app. cbn [concat]. rewrite app_nil_r. lia. }
  exists b3. split; [done|]. split; rewrite ?En.
  - lia.
  - unfold b3, b2, b1. repeat apply Forall_splice; auto using le_store_ok, be_store_ok, Forall_slice.
  - unfold b3. rewrite slice_splice_disj by ctxlia. unfold b2. rewrite slice_splice_disj by ctxlia. unfold b1.
    rewrite slice_splice_disj by ctxlia. done.
  - lia.
  - unfold b3. rewrite slice_splice_disj by ctxlia. unfold b2. rewrite slice_splice_disj by ctxlia. unfold b1.
    rewrite slice_splice_eq by ctxlia. apply be_store_load. cbn. ctxlia.
  - unfold b3. rewrite slice_splice_eq by ctxlia. rewrite le_load_store. apply Z.mod_small. cbn. ctxlia.
  - rewrite slice_app_split by ctxlia. rewrite concat_app. cbn [concat]. rewrite app_nil_r. f_equal.
    + unfold b3. rewrite slice_splice_disj by ctxlia. unfold b2. rewrite slice_splice_disj by ctxlia. unfold b1.
    rewrite slice_splice_disj by ctxlia. done.
    + unfold b3. rewrite slice_splice_disj by ctxlia. unfold b2. apply slice_splice_eq; ctxlia.
Qed.

Lemma gtpc_bearer_ctx_add_child_refused item cs child len :
  ctx_wf item cs -> sizeof_bearer_child <= zlen (concat cs) + len ->
  gtpc_bearer_ctx_add_child item child len = Ok (ERR, item).
Proof.
  intros [] Hl. unfold gtpc_bearer_ctx_add_child. rewrite (rd_ok 2 item o_bearer_offset) by ctxlia. res_simpl. change (Z.of_nat 2) with 2.
  by rewrite ctx_off0, (proj2 (Z.leb_le _ _)) by lia.
Qed.

(** A bearer context is itself an item. *)
Lemma ctx_tlv item cs :
  ctx_wf item cs ->
  gtpc_bearer_ctx_length item = Ok (4 + zlen (concat cs)) /\
  tlv_ok (GTPC_TYPE_BEARER_CTX, slice 0 (4 + zlen (concat cs)) item).
Proof.
  intros []. split.
  - unfold gtpc_bearer_ctx_length. rewrite rd_ok by ctxlia. res_simpl. change (Z.of_nat 2) with 2.
    rewrite ctx_off0, wrap_small by (unfold sizeof_gtpc_comm_header; ctxlia). f_equal. unfold sizeof_gtpc_comm_header. lia.
  - unfold tlv_ok. cbn [fst snd]. rewrite zlen_slice by ctxlia. split; [ctxlia|]. split; [by apply Forall_slice|].
    rewrite !slice_slice by lia. split; [done|]. change (0 + 1) with o_ie_length. lia.
Qed.

Lemma ctx_iterate {S} (callback : Z -> list Z -> Z -> S -> res (Z * S)) P item rest its arg :
  local_callback callback P -> ctx_wf item its.*2 -> Forall tlv_ok its -> Forall P its -> its <> [] -> (length its <= 255)%nat ->
  bytes_ok rest ->
  gtpc_iterate_bearer_ctx_item callback (slice 0 (4 + zlen (concat its.*2)) item ++ rest) arg =
    visit callback its arg.
Proof.
  intros Hloc [] Hi HP Hne Hk Hr. destruct its as [|it its]; [done|]. unfold gtpc_iterate_bearer_ctx_item.
  set (n := zlen (concat (it :: its).*2)) in *. set (b := slice 0 (4 + n) item ++ rest).
  assert (Lb : zlen (slice 0 (4 + n) item) = 4 + n) by (apply zlen_slice; ctxlia).
  assert (Lb' : 4 + n <= zlen b) by (unfold b; rewrite length_app; lia).
  assert (Hb : bytes_ok b) by (apply Forall_app_2; [by apply Forall_slice|done]).
  assert (Es : forall q m, 0 <= q -> 0 <= m -> q + m <= 4 + n -> slice q m b = slice q m item).
  { intros. unfold b. rewrite slice_app_l by lia. by rewrite slice_slice by lia. }
  destruct (rd_be b o_ie_length) as (v & -> & Ev); [ctxlia|ctxlia|done|]. res_simpl.
  rewrite Ev, Es, ctx_len0 by ctxlia.
  eapply iterate_children_visit; [done|done|lia|ctxlia|lia| |done|unfold GTPC_CAPABILITY_ITEM_COUNT; cbn in Hk; lia].
  apply (tlvs_tiled b (4 + 0)); [lia|done|lia|]. rewrite Es by lia. done.
Qed.

(** Children added one after the other. *)
Definition add_children (its : list (Z * list Z)) (item : list Z) : res (list Z) :=
  foldM (fun item it => '(_, item) ← gtpc_bearer_ctx_add_child item it.2 (zlen it.2); Ok item) its item.

Lemma add_children_ok its cs item :
  ctx_wf item cs -> Forall tlv_ok its -> zlen (concat cs) + zlen (concat its.*2) < sizeof_bearer_child ->
  exists item', add_children its item = Ok item' /\ ctx_wf item' (cs ++ its.*2).
Proof.
  intros Hw Hi. revert cs item Hw. induction Hi as [|[t bs] its (Hl & Hb & _) _ IH]; intros cs item Hw Hf.
  { exists item. by rewrite app_nil_r. }
  cbn [fmap list_fmap concat snd] in *. rewrite length_app in Hf. unfold add_children. cbn [foldM snd].
  destruct (gtpc_bearer_ctx_add_child_ok item cs bs (zlen bs) Hw) as (item1 & -> & Hw1); [lia|done|lia|]. res_simpl.
  rewrite slice_0_all in Hw1. destruct (IH (cs ++ [bs]) item1 Hw1) as (item' & E & Hw').
  { rewrite concat_app, length_app. cbn [concat]. rewrite app_nil_r. lia. }
  exists item'. rewrite <-app_assoc in Hw'. done.
Qed.

Lemma tlvs_count its : Forall tlv_ok its -> 4 * zlen its <= zlen (concat its.*2).
Proof.
  induction 1 as [|[t bs] its (Hl & _) _ IH]; cbn [fmap list_fmap concat snd length]; [lia|].
  cbn [fst snd] in Hl. rewrite length_app. lia.
Qed.

Module Properties.

(** round trip: a 64-bit number with at most [2 * n] decimal digits packed into
    [n] bytes, two digits a byte, is read back unchanged ([errno] clear); a longer
    one is refused. *)
Theorem digits_roundtrip (d : list Z) (n v : Z) :
  zlen d = n -> 0 < n -> 0 <= v < 2 ^ 64 ->
  (v < 10 ^ (2 * n) ->
     exists b, gtpc_digits_set d n v = Ok (OK, b) /\ zlen b = n /\ gtpc_digits_get false b n = Ok v) /\
  (10 ^ (2 * n) <= v -> exists b, gtpc_digits_set d n v = Ok (ERR, b)).
Proof.
  intros Hd Hn Hv. split; intros Hb.
  - destruct (gtpc_digits_set_ok d n v Hd Hv Hb Hn) as (b & E & Lb & _ & Eg). by exists b.
  - eexists. by apply gtpc_digits_set_err.
Qed.

Lemma digits_roundtrip_witness :
  exists b, gtpc_digits_set (bzero 8) 8 440101234567890 = Ok (OK, b) /\ zlen b = 8 /\
    gtpc_digits_get false b 8 = Ok 440101234567890.
Proof. apply (digits_roundtrip (bzero 8) 8 440101234567890); [reflexivity|lia|lia|vm_compute; reflexivity]. Defined.

(** every setter succeeds on arguments in range and writes exactly the bytes of
    3GPP TS 29.274: type, big-endian length, instance and value, the rest of the
    structure zero. *)
Theorem setters_encode (inst small iftype teid up down v rmu rmd rgu rgd : Z) (a4 a16 : list Z) :
  0 <= inst < 16 -> 0 <= small < 8 -> 0 <= iftype < 32 -> byte_ok v ->
  0 <= rmu < 2 ^ 64 -> 0 <= rmd < 2 ^ 64 -> 0 <= rgu < 2 ^ 64 -> 0 <= rgd < 2 ^ 64 ->
  4 <= zlen a4 -> 16 <= zlen a16 ->
  gtpc_recovery_set v = Ok (OK, [3; 0; 1; 0; v]) /\
  gtpc_cause_set v = Ok (OK, [2; 0; 2; 0; v; 0; 0; 0; 0; 0]) /\
  gtpc_apn_restriction_set v = Ok (OK, [127; 0; 1; 0; v]) /\
  gtpc_ebi_set inst small = Ok (OK, [73; 0; 1; inst; small]) /\
  gtpc_ambr_set up down = Ok (OK, [72; 0; 8; 0] ++ be_store 4 up ++ be_store 4 down) /\
  gtpc_charging_id_set teid = Ok (OK, [94; 0; 4; 0] ++ be_store 4 teid) /\
  gtpc_f_teid_set inst iftype teid (Some a4) None =
    Ok (OK, [87; 0; 9; inst; 0x80 + iftype] ++ be_store 4 teid ++ slice 0 4 a4 ++ bzero 12) /\
  gtpc_f_teid_set inst iftype teid None (Some a16) =
    Ok (OK, [87; 0; 21; inst; 0x40 + iftype] ++ be_store 4 teid ++ slice 0 16 a16) /\
  gtpc_f_teid_set inst iftype teid None None = Ok (ERR, bzero sizeof_gtpc_f_teid) /\
  gtpc_paa_set small a4 4 = Ok (OK, [79; 0; 5; 0; small] ++ slice 0 4 a4 ++ bzero 17) /\
  gtpc_gtpc_bearer_qos_set v small rmu rmd rgu rgd =
    Ok (OK, [80; 0; 22; 0; v; small] ++ be_store 5 rmu ++ be_store 5 rmd ++ be_store 5 rgu ++ be_store 5 rgd).
Proof.
  intros. assert (byte_ok small) by (unfold byte_ok; lia).
  split; [by apply (byte_item_eq 0)|]. split; [by apply (byte_item_eq 5)|]. split; [by apply (byte_item_eq 0)|].
  split; [apply gtpc_ebi_set_eq; lia|]. split; [apply gtpc_ambr_set_eq|]. split; [apply gtpc_charging_id_set_eq|].
  split; [by apply gtpc_f_teid_set_v4|]. split; [by apply gtpc_f_teid_set_v6|]. split; [done|].
  split; [apply (gtpc_paa_set_eq small a4 4); [done|unfold GTPC_PAA_ADRS_LEN; lia|lia]|by apply gtpc_bearer_qos_set_eq].
Qed.

Lemma setters_encode_witness :
  gtpc_f_teid_set 2 5 0x01020304 (Some [10; 0; 0; 1]) None =
    Ok (OK, [87; 0; 9; 2; 0x85] ++ be_store 4 0x01020304 ++ [10; 0; 0; 1] ++ bzero 12).
Proof.
  apply (setters_encode 2 1 5 0x01020304 0 0 1 0 0 0 0 [10; 0; 0; 1] (bzero 16));
    try (unfold byte_ok; lia); vm_compute; congruence.
Defined.

(** round trip: a bearer context filled with any well-formed children that fit,
    cut to its length and found again inside a message, is a well-formed item, and
    iterating over it with a callback that is local on them calls the callback on
    exactly those children in order. *)
Theorem bearer_context_roundtrip {S} (callback : Z -> list Z -> Z -> S -> res (Z * S)) (P : Z * list Z -> Prop)
    (its : list (Z * list Z)) (rest : list Z) (arg : S) :
  local_callback callback P -> Forall tlv_ok its -> Forall P its -> its <> [] ->
  zlen (concat its.*2) < sizeof_bearer_child -> bytes_ok rest ->
  exists item0 item n,
    gtpc_bearer_ctx_set = Ok (OK, item0) /\ add_children its item0 = Ok item /\
    gtpc_bearer_ctx_length item = Ok n /\ tlv_ok (GTPC_TYPE_BEARER_CTX, slice 0 n item) /\
    gtpc_iterate_bearer_ctx_item callback (slice 0 n item ++ rest) arg = visit callback its arg.
Proof.
  intros Hloc Hi HP Hne Hf Hr. destruct gtpc_bearer_ctx_set_ok as (item0 & E0 & Hw0).
  destruct (add_children_ok its [] item0 Hw0 Hi) as (item & Ea & Hw); [done|]. cbn [app] in Hw.
  destruct (ctx_tlv item _ Hw) as [El Ht]. exists item0, item, (4 + zlen (concat its.*2)).
  do 4 (split; [done|]). apply (ctx_iterate _ P); try done.
  pose proof (tlvs_count its Hi). unfold sizeof_bearer_child in Hf. lia.
Qed.

(** A callback that records the items it is given. *)
Definition record (ty : Z) (d : list Z) (len : Z) (arg : list (Z * list Z)) : res (Z * list (Z * list Z)) :=
  Ok (OK, arg ++ [(ty, slice 0 len d)]).

Lemma bearer_context_roundtrip_witness :
  exists item0 item n,
    gtpc_bearer_ctx_set = Ok (OK, item0) /\ add_children [(3, [3; 0; 1; 0; 7]); (73, [73; 0; 1; 0; 5])] item0 = Ok item /\
    gtpc_bearer_ctx_length item = Ok n /\ tlv_ok (GTPC_TYPE_BEARER_CTX, slice 0 n item) /\
    gtpc_iterate_bearer_ctx_item record (slice 0 n item ++ [9; 9]) [] = Ok (OK, [(3, [3; 0; 1; 0; 7]); (73, [73; 0; 1; 0; 5])]).
Proof.
  apply (bearer_context_roundtrip record (fun _ => True) [(3, [3; 0; 1; 0; 7]); (73, [73; 0; 1; 0; 5])] [9; 9] []).
  - intros ty d len arg Hl _ _. unfold record. by rewrite slice_slice by lia.
  - repeat (apply Forall_cons_2; [split; [cbn; lia|split; [apply bytes_okb_ok; reflexivity|split; reflexivity]]|]).
    apply Forall_nil_2.
  - by repeat constructor.
  - done.
  - vm_compute. reflexivity.
  - apply bytes_okb_ok. reflexivity.
Defined.
End Properties.
