(* ===== verification/GtpcParse.v ===== *)
(** * Parsing of GTP-C messages

    The parse state of ctrlplane/inc/gtpc_def.h and the callbacks that fill it:
    [on_gtpc_parse_root], [on_gtpc_parse_bearer_context],
    [gtpc_iterate_pco_ipcp_item] and [gtpc_private_extension_set] of
    ctrlplane/src/pkt/gtpc_item_func.c, and [on_gtpcv1_parse_root] of
    gtpc_item_func_v1.c.

    The item structures embedded in the parse state are byte blocks, one per
    field ([ie]); an access outside a field is undefined.  Where the items of a
    message belong is a table of its own ([root_homes], [bearer_homes]), and the
    callbacks file them by it. *)

From S2P Require Import Prelude TextParse Gtpc GtpcItems.

(** ** Flags *)
Definition HAVE_MSISDN := Z.shiftl 1 31.
Definition HAVE_FTEID_C := Z.shiftl 1 30.
Definition HAVE_FTEID_U := Z.shiftl 1 29.
Definition HAVE_AMBR := Z.shiftl 1 28.
Definition HAVE_BQOS := Z.shiftl 1 27.
Definition HAVE_RECORD := Z.shiftl 1 26.
Definition HAVE_IMSI := Z.shiftl 1 25.
Definition HAVE_RECOVERY := Z.shiftl 1 24.
Definition HAVE_CAUSE := Z.shiftl 1 23.
Definition HAVE_MEI := Z.shiftl 1 22.
Definition HAVE_CHRGID := Z.shiftl 1 21.
Definition HAVE_EBI := Z.shiftl 1 20.
Definition HAVE_PCO := Z.shiftl 1 19.
Definition HAVE_PAA := Z.shiftl 1 18.
Definition HAVE_APN_R := Z.shiftl 1 17.
Definition HAVE_BQOS_R := Z.shiftl 1 16.
Definition HAVE_BCTX := Z.shiftl 1 15.
Definition HAVE_EBI_B := Z.shiftl 1 14.
Definition HAVE_AMBR_R := Z.shiftl 1 13.
Definition HAVE_PDN := Z.shiftl 1 12.
Definition HAVE_RAT := Z.shiftl 1 11.
Definition HAVE_V1 := Z.shiftl 1 1.
Definition HAVE_V1_MSISDN := Z.shiftl 1 30.
Definition HAVE_V1_TEID_DATA := Z.shiftl 1 29.
Definition HAVE_V1_TEID_CTRL := Z.shiftl 1 28.
Definition HAVE_V1_IPADR_DATA := Z.shiftl 1 27.
Definition HAVE_V1_IPADR_CTRL := Z.shiftl 1 26.
Definition HAVE_V1_IMSI := Z.shiftl 1 25.
Definition HAVE_V1_QOS := Z.shiftl 1 24.
Definition HAVE_V1_PCO := Z.shiftl 1 23.
Definition HAVE_V1_NSAPI := Z.shiftl 1 22.
Definition HAVE_V1_CAUSE := Z.shiftl 1 21.
Definition HAVE_PCO_IPCP_P_DNS := Z.shiftl 1 10.
Definition HAVE_PCO_IPCP_S_DNS := Z.shiftl 1 9.
Definition HAVE_PCO_IPV4_LINK_MTU := Z.shiftl 1 8.
Definition HAVE_PCO_NONIP_LINK_MTU := Z.shiftl 1 7.
Definition HAVE_PCO_DNS_IPV4 := Z.shiftl 1 6.
Definition HAVE_PCO_DNS_IPV6 := Z.shiftl 1 5.
Definition HAVE_RES_ORDER := Z.shiftl 1 0.
Definition INCLUDED_ALL :=
  Z.lor HAVE_MSISDN (Z.lor HAVE_FTEID_C (Z.lor HAVE_FTEID_U (Z.lor HAVE_AMBR_R HAVE_BQOS))).

Definition GTPC_PCO_IPCP := 0x8021.
Definition GTPC_PCO_DNS6 := 0x0003.
Definition GTPC_PCO_DNS := 0x000d.
Definition GTPC_PCO_IPV4_LINK_MTU := 0x0010.
Definition GTPC_PCO_NONIP_LINK_MTU := 0x0015.
Definition GTPC_PCO_IPCP_CFG_PRIMARY_DNS := 0x81.
Definition GTPC_PCO_IPCP_CFG_SECONDARY_DNS := 0x83.
Definition sizeof_gtpc_pco_ipcp_cfg := 16.
Definition o_ipcp_length := 2.
Definition o_ipcp_opt0 := 4.
Definition o_ipcp_opt1 := 10.

Definition GTPC_V1_IE_CAUSE := 1.
Definition GTPC_V1_IE_IMSI := 2.
Definition GTPC_V1_IE_TEID_DATA_I := 16.
Definition GTPC_V1_IE_TEID_CTRL_PLANE := 17.
Definition GTPC_V1_IE_NSAPI := 20.
Definition GTPC_V1_IE_PCO := 132.
Definition GTPC_V1_IE_GSN_ADDRESS := 133.
Definition GTPC_V1_IE_MSISDN := 134.
Definition GTPC_V1_IE_QOS := 135.

Definition GTPC_PRIVATE_EXT_SIZE := 32.
Definition GTPC_PRIVATE_EXT_MAGIC := 0xdeadbeaf.
Definition GTPC_PRIVATE_EXT_VENDERID := 0.

(** ** The parse state *)
Inductive ie :=
| msisdn | c_teid | u_teid | ambr | bqos | imsi | recovery | cause | mei | charg | ebi_r | pco | paa
| apn_r | bqos_r | ebi_b | ambr_r | pdn | rat | qos.
#[export] Instance ie_eq_dec : EqDecision ie.
Proof. solve_decision. Defined.
Definition sizeof_ie (f : ie) : Z :=
  match f with
  | msisdn => sizeof_gtpc_msisdn
  | c_teid | u_teid => sizeof_gtpc_f_teid
  | ambr | ambr_r => sizeof_gtpc_ambr
  | bqos | bqos_r => sizeof_gtpc_bearer_qos
  | imsi => sizeof_gtpc_imsi
  | recovery => sizeof_gtpc_recovery
  | cause => sizeof_gtpc_cause
  | mei => sizeof_gtpc_mei
  | charg => sizeof_gtpc_charging_id
  | ebi_r | ebi_b => sizeof_gtpc_ebi
  | pco => sizeof_gtpc_pco
  | paa => sizeof_gtpc_paa
  | apn_r => sizeof_gtpc_apn_restriction
  | pdn => sizeof_gtpc_pdn_type
  | rat => sizeof_gtpc_rat
  | qos => 256
  end.

(** The fields the parser and the private extension use; the ones only the event
    handlers fill are not part of it. *)
Record gtpc_parse_state := mk_parse_state {
  flag : Z;
  flag_v1 : Z;
  ies : ie -> list Z;
  qos_len : Z;
  nsapi : Z;
  cause_v1 : Z;
  pgw_teid : Z;
  ue_ipv_n : list Z;       (* struct in_addr, in memory order *)
  pgw_u_ipv_n : list Z;
}.
(** [bzero(&parse_state, sizeof(parse_state))]. *)
Definition parse_state0 : gtpc_parse_state :=
  mk_parse_state 0 0 (fun f => bzero (sizeof_ie f)) 0 0 0 0 (bzero 4) (bzero 4).

Definition or_flag (m : Z) (cs : gtpc_parse_state) : gtpc_parse_state :=
  mk_parse_state (Z.lor (flag cs) m) (flag_v1 cs) (ies cs) (qos_len cs) (nsapi cs) (cause_v1 cs)
    (pgw_teid cs) (ue_ipv_n cs) (pgw_u_ipv_n cs).
Definition or_flag_v1 (m : Z) (cs : gtpc_parse_state) : gtpc_parse_state :=
  mk_parse_state (flag cs) (Z.lor (flag_v1 cs) m) (ies cs) (qos_len cs) (nsapi cs) (cause_v1 cs)
    (pgw_teid cs) (ue_ipv_n cs) (pgw_u_ipv_n cs).
Definition set_ie (f : ie) (b : list Z) (cs : gtpc_parse_state) : gtpc_parse_state :=
  mk_parse_state (flag cs) (flag_v1 cs) (fun g => if decide (g = f) then b else ies cs g)
    (qos_len cs) (nsapi cs) (cause_v1 cs) (pgw_teid cs) (ue_ipv_n cs) (pgw_u_ipv_n cs).
Definition set_v1 (ql ns ca : Z) (cs : gtpc_parse_state) : gtpc_parse_state :=
  mk_parse_state (flag cs) (flag_v1 cs) (ies cs) ql ns ca (pgw_teid cs) (ue_ipv_n cs) (pgw_u_ipv_n cs).

(** [memcpy(&cs->f + at, d + from, n)]. *)
Definition copy_ie (f : ie) (at_ : Z) (d : list Z) (from n : Z) (cs : gtpc_parse_state) : res gtpc_parse_state :=
  bs ← rd_bytes n d from;
  b ← wr_bytes (ies cs f) at_ bs;
  Ok (set_ie f b cs).

(** ** Bearer context and protocol configuration options *)
(** The common shape of a branch: refuse the size, or note the item and copy it. *)
Definition take_ie (fits : bool) (have : Z) (f : ie) (d : list Z) (len : Z) (cs : gtpc_parse_state)
    : res (Z * gtpc_parse_state) :=
  if fits then cs ← copy_ie f 0 d 0 len (or_flag have cs); Ok (OK, cs) else Ok (OK, cs).

Definition f_teid_fits (len : Z) : bool := (len =? sizeof_gtpc_f_teid) || (len =? sizeof_gtpc_f_teid - 12).
Definition on_gtpc_parse_bearer_context (type : Z) (d : list Z) (len : Z) (cs : gtpc_parse_state)
    : res (Z * gtpc_parse_state) :=
  if type =? GTPC_TYPE_F_TEID then take_ie (f_teid_fits len) HAVE_FTEID_U u_teid d len cs else
  if type =? GTPC_TYPE_BEARER_QOS then take_ie (len =? sizeof_gtpc_bearer_qos) HAVE_BQOS bqos d len cs else
  if type =? GTPC_TYPE_EBI then take_ie (len =? sizeof_gtpc_ebi) HAVE_EBI_B ebi_b d len cs else
  if type =? GTPC_TYPE_AMBR then take_ie (len =? sizeof_gtpc_ambr) HAVE_AMBR ambr d len cs else
  Ok (OK, cs).

(** [d] is the block from the IPCP configuration on. *)
Definition ipcp_opt (type : Z) (cs : gtpc_parse_state) : gtpc_parse_state :=
  if type =? GTPC_PCO_IPCP_CFG_PRIMARY_DNS then or_flag_v1 HAVE_PCO_IPCP_P_DNS (or_flag HAVE_PCO_IPCP_P_DNS cs)
  else if type =? GTPC_PCO_IPCP_CFG_SECONDARY_DNS then or_flag_v1 HAVE_PCO_IPCP_S_DNS (or_flag HAVE_PCO_IPCP_S_DNS cs)
  else cs.
Definition gtpc_iterate_pco_ipcp_item (d : list Z) (cs : gtpc_parse_state) : res (Z * gtpc_parse_state) :=
  l ← rd 2 d o_ipcp_length;
  if negb (htons l =? sizeof_gtpc_pco_ipcp_cfg) then Ok (ERR, cs) else
  t0 ← rd 1 d o_ipcp_opt0;
  t1 ← rd 1 d o_ipcp_opt1;
  Ok (OK, ipcp_opt t1 (ipcp_opt t0 cs)).

(** The flag an option of the given protocol identifier asks for. *)
Definition pco_flag (id : Z) : Z :=
  if id =? GTPC_PCO_DNS then HAVE_PCO_DNS_IPV4 else
  if id =? GTPC_PCO_DNS6 then HAVE_PCO_DNS_IPV6 else
  if id =? GTPC_PCO_IPV4_LINK_MTU then HAVE_PCO_IPV4_LINK_MTU else
  if id =? GTPC_PCO_NONIP_LINK_MTU then HAVE_PCO_NONIP_LINK_MTU else 0.
(** The loop over the options, at most 255 rounds; [v1] is the version of
    [on_gtpcv1_parse_root]. *)
Fixpoint pco_loop (v1 : bool) (rounds : nat) (len off : Z) (cs : gtpc_parse_state) : res (Z * gtpc_parse_state) :=
  match rounds with
  | O => Ok (OK, cs)
  | S rounds =>
    if len <=? off then Ok (OK, cs) else
    pilen ← rd 1 (ies cs pco) (o_pco + off + 2);
    type ← rd 2 (ies cs pco) (o_pco + off);
    let id := ntohs type in
    let cs :=
      if v1 then or_flag_v1 (pco_flag id) cs
      else if (pilen =? 0) || (Z.land (flag cs) HAVE_RES_ORDER =? HAVE_RES_ORDER) then or_flag (pco_flag id) cs
      else cs in
    '(rc, cs) ← (if id =? GTPC_PCO_IPCP then gtpc_iterate_pco_ipcp_item (drop (Z.to_nat (o_pco + off + 3)) (ies cs pco)) cs
                 else Ok (OK, cs));
    if negb (rc =? OK) then Ok (OK, cs) else
    pco_loop v1 rounds len (off + u16 (3 + pilen)) cs
  end.

(** ** The root callback, version 2 *)
Definition on_gtpc_parse_root (type : Z) (d : list Z) (len : Z) (cs : gtpc_parse_state)
    : res (Z * gtpc_parse_state) :=
  if type =? GTPC_TYPE_MSISDN then take_ie (len <=? sizeof_gtpc_msisdn) HAVE_MSISDN msisdn d len cs else
  if type =? GTPC_TYPE_IMSI then take_ie (len <=? sizeof_gtpc_imsi) HAVE_IMSI imsi d len cs else
  if type =? GTPC_TYPE_RECOVERY then take_ie (len =? sizeof_gtpc_recovery) HAVE_RECOVERY recovery d len cs else
  if type =? GTPC_TYPE_CAUSE then
    take_ie ((len =? sizeof_gtpc_cause) || (len =? sizeof_gtpc_cause - 4)) HAVE_CAUSE cause d len cs else
  if type =? GTPC_TYPE_MEI then take_ie (len <=? sizeof_gtpc_mei) HAVE_MEI mei d len cs else
  if type =? GTPC_TYPE_F_TEID then take_ie (f_teid_fits len) HAVE_FTEID_C c_teid d len cs else
  if type =? GTPC_TYPE_AMBR then take_ie (len =? sizeof_gtpc_ambr) HAVE_AMBR_R ambr_r d len cs else
  if type =? GTPC_TYPE_CHARGING_ID then take_ie (len =? sizeof_gtpc_charging_id) HAVE_CHRGID charg d len cs else
  if type =? GTPC_TYPE_EBI then take_ie (len =? sizeof_gtpc_ebi) HAVE_EBI ebi_r d len cs else
  if type =? GTPC_TYPE_RAT_TYPE then take_ie (len =? sizeof_gtpc_rat) HAVE_RAT rat d len cs else
  if type =? GTPC_TYPE_PCO then
    if sizeof_gtpc_pco <=? len then Ok (OK, cs) else
    cs ← copy_ie pco 0 d 0 len (or_flag HAVE_PCO cs);
    l ← rd 2 (ies cs pco) o_ie_length;
    pco_loop false 255 (u64 (ntohs l - 2)) 0 cs else
  if type =? GTPC_TYPE_PAA then take_ie (len <=? sizeof_gtpc_paa) HAVE_PAA paa d len cs else
  if type =? GTPC_TYPE_APN_RESTRICTION then
    take_ie (len =? sizeof_gtpc_apn_restriction) HAVE_APN_R apn_r d len cs else
  if type =? GTPC_TYPE_BEARER_QOS then take_ie (len =? sizeof_gtpc_bearer_qos) HAVE_BQOS_R bqos_r d len cs else
  if type =? GTPC_TYPE_PDN_TYPE then take_ie (len =? sizeof_gtpc_pdn_type) HAVE_PDN pdn d len cs else
  if type =? GTPC_TYPE_BEARER_CTX then
    gtpc_iterate_bearer_ctx_item on_gtpc_parse_bearer_context d (or_flag HAVE_BCTX cs) else
  Ok (OK, cs).

(** ** The root callback, version 1: [len] does not count the item header *)
Definition on_gtpcv1_parse_root (type : Z) (d : option (list Z)) (len : Z) (cs : gtpc_parse_state)
    : res (Z * gtpc_parse_state) :=
  match d with
  | None => Ok (ERR, cs)
  | Some d =>
    if len =? 0 then Ok (ERR, cs) else
    let cs := or_flag_v1 HAVE_V1 cs in
    if type =? GTPC_V1_IE_CAUSE then
      if negb (len =? 1) then Ok (OK, cs) else
      c ← rd 1 d 1; Ok (OK, set_v1 (qos_len cs) (nsapi cs) c (or_flag_v1 HAVE_V1_CAUSE cs)) else
    if type =? GTPC_V1_IE_TEID_CTRL_PLANE then
      if negb (len =? 4) then Ok (OK, cs) else
      cs ← copy_ie c_teid o_f_teid_key d 1 len (or_flag_v1 HAVE_V1_TEID_CTRL cs); Ok (OK, cs) else
    if type =? GTPC_V1_IE_TEID_DATA_I then
      if negb (len =? 4) then Ok (OK, cs) else
      cs ← copy_ie u_teid o_f_teid_key d 1 len (or_flag_v1 HAVE_V1_TEID_DATA cs); Ok (OK, cs) else
    if type =? GTPC_V1_IE_IMSI then
      if negb (len =? GTPC_IMSI_LEN) then Ok (OK, cs) else
      cs ← copy_ie imsi o_body d 1 GTPC_IMSI_LEN (or_flag_v1 HAVE_V1_IMSI cs); Ok (OK, cs) else
    if type =? GTPC_V1_IE_MSISDN then
      if negb (len =? 1 + GTPC_MSISDN_LEN) then Ok (OK, cs) else
      cs ← copy_ie msisdn o_body d 4 GTPC_MSISDN_LEN (or_flag_v1 HAVE_V1_MSISDN cs); Ok (OK, cs) else
    if type =? GTPC_V1_IE_GSN_ADDRESS then
      if negb (len =? 4) then Ok (OK, cs) else
      if negb (Z.land (flag_v1 cs) HAVE_V1_IPADR_CTRL =? 0) then
        cs ← copy_ie u_teid o_f_teid_blk d 3 len (or_flag_v1 HAVE_V1_IPADR_DATA cs); Ok (OK, cs)
      else
        cs ← copy_ie c_teid o_f_teid_blk d 3 len (or_flag_v1 HAVE_V1_IPADR_CTRL cs); Ok (OK, cs) else
    if type =? GTPC_V1_IE_QOS then
      if negb (len <? 256) then Ok (OK, cs) else
      cs ← copy_ie qos 0 d 3 len (set_ie qos (bzero 256) cs);
      Ok (OK, or_flag_v1 HAVE_V1_QOS (set_v1 (u8 len) (nsapi cs) (cause_v1 cs) cs)) else
    if type =? GTPC_V1_IE_NSAPI then
      if negb (len =? 1) then Ok (OK, cs) else
      v ← rd 1 d 1; Ok (OK, set_v1 (qos_len cs) (bf_get 0 4 v) (cause_v1 cs) (or_flag_v1 HAVE_V1_NSAPI cs)) else
    if type =? GTPC_V1_IE_PCO then
      if sizeof_gtpc_pco <=? len then Ok (OK, cs) else
      cs ← copy_ie pco o_pco_head d 3 len (or_flag_v1 HAVE_V1_PCO cs);
      pco_loop true 255 (len - 1) 0 cs else
    Ok (ERR, cs)
  end.

(** ** Private extension: what the gateway tells the other planes *)
Definition o_pe_magic := 8.
Definition o_pe_value (i : Z) : Z := 12 + 4 * i.
Definition gtpc_private_extension_set (cs : gtpc_parse_state) : res (Z * list Z) :=
  let b := bzero GTPC_PRIVATE_EXT_SIZE in
  b ← set_head b GTPC_TYPE_PRIVATE_EXTENSION (GTPC_PRIVATE_EXT_SIZE - sizeof_gtpc_comm_header);
  b ← wr 4 b o_pe_magic GTPC_PRIVATE_EXT_MAGIC;
  b ← wr 2 b o_body (htons GTPC_PRIVATE_EXT_VENDERID);
  k ← rd 4 (ies cs u_teid) o_f_teid_key;
  b ← wr 4 b (o_pe_value 1) k;
  b ← wr 4 b (o_pe_value 3) (pgw_teid cs);
  a ← rd_bytes 4 (ue_ipv_n cs) 0; b ← wr_bytes b (o_pe_value 2) a;
  a ← rd_bytes 4 (ies cs u_teid) o_f_teid_blk; b ← wr_bytes b (o_pe_value 0) a;
  a ← rd_bytes 4 (pgw_u_ipv_n cs) 0; b ← wr_bytes b (o_pe_value 4) a;
  Ok (OK, b).

(** ** Well-formed parse states *)
Definition state_wf (cs : gtpc_parse_state) : Prop :=
  forall f, zlen (ies cs f) = sizeof_ie f /\ bytes_ok (ies cs f).
(** Flags are only added. *)
Definition grows (cs cs' : gtpc_parse_state) : Prop :=
  Z.land (flag cs) (flag cs') = flag cs /\ Z.land (flag_v1 cs) (flag_v1 cs') = flag_v1 cs.

Lemma parse_state0_wf : state_wf parse_state0.
Proof.
  intros f. split; [by destruct f|]. apply Forall_replicate. unfold byte_ok. lia.
Qed.

Lemma ies_set_same f b cs : ies (set_ie f b cs) f = b.
Proof. cbn. by rewrite decide_True. Qed.
Lemma ies_set_other f g b cs : g <> f -> ies (set_ie f b cs) g = ies cs g.
Proof. intros. cbn. by rewrite decide_False. Qed.

Lemma land_lor_absorb a m : Z.land a (Z.lor a m) = a.
Proof.
  apply Z.bits_inj'. intros i Hi. rewrite Z.land_spec, Z.lor_spec.
  by destruct (Z.testbit a i), (Z.testbit m i).
Qed.

Lemma grows_refl cs : grows cs cs.
Proof. unfold grows. by rewrite !Z.land_diag. Qed.
Lemma grows_trans cs1 cs2 cs3 : grows cs1 cs2 -> grows cs2 cs3 -> grows cs1 cs3.
Proof.
  intros [H1 H1'] [H2 H2']. split.
  - rewrite <-H1 at 1. rewrite <-Z.land_assoc, H2. done.
  - rewrite <-H1' at 1. rewrite <-Z.land_assoc, H2'. done.
Qed.
Lemma grows_or m cs : grows cs (or_flag m cs).
Proof. split; cbn; [apply land_lor_absorb|apply Z.land_diag]. Qed.
Lemma grows_or_v1 m cs : grows cs (or_flag_v1 m cs).
Proof. split; cbn; [apply Z.land_diag|apply land_lor_absorb]. Qed.

(** What every step of the parser keeps. *)
Definition same_tunnel (cs cs' : gtpc_parse_state) : Prop :=
  pgw_teid cs' = pgw_teid cs /\ ue_ipv_n cs' = ue_ipv_n cs /\ pgw_u_ipv_n cs' = pgw_u_ipv_n cs.
Definition keeps (cs cs' : gtpc_parse_state) : Prop :=
  (state_wf cs -> state_wf cs') /\ grows cs cs' /\ same_tunnel cs cs'.

Lemma keeps_refl cs : keeps cs cs.
Proof. split; [done|]. split; [apply grows_refl|done]. Qed.
Lemma keeps_trans cs1 cs2 cs3 : keeps cs1 cs2 -> keeps cs2 cs3 -> keeps cs1 cs3.
Proof.
  intros (H1 & G1 & T1 & U1 & V1) (H2 & G2 & T2 & U2 & V2). split; [auto|]. split; [by eapply grows_trans|].
  unfold same_tunnel. by rewrite T2, U2, V2.
Qed.
Lemma keeps_or m cs : keeps cs (or_flag m cs).
Proof. split; [done|]. split; [apply grows_or|done]. Qed.
Lemma keeps_or_v1 m cs : keeps cs (or_flag_v1 m cs).
Proof. split; [done|]. split; [apply grows_or_v1|done]. Qed.
Lemma keeps_set_v1 ql ns ca cs : keeps cs (set_v1 ql ns ca cs).
Proof. split; [done|]. split; [split; cbn; apply Z.land_diag|done]. Qed.
#[export] Hint Resolve keeps_refl keeps_or keeps_or_v1 keeps_set_v1 : pgw.

Lemma keeps_set_ie f b cs : zlen b = sizeof_ie f -> bytes_ok b -> keeps cs (set_ie f b cs).
Proof.
  intros Hl Hb. split; [|split; [split; cbn; apply Z.land_diag|done]]. intros Hw g. cbn.
  destruct (decide (g = f)) as [->|]; [done|apply Hw].
Qed.

Lemma copy_ie_keeps f a d from n cs cs' :
  bytes_ok d -> state_wf cs -> copy_ie f a d from n cs = Ok cs' -> keeps cs cs'.
Proof.
  intros Hd Hw. unfold copy_ie.
  destruct (rd_bytes n d from) as [bs|] eqn:E1; [|done]. apply rd_bytes_inv in E1 as (? & ? & ? & ->). res_simpl.
  destruct (wr_bytes _ _ _) as [b|] eqn:E2; [|done]. res_simpl. intros [= <-].
  destruct (Hw f) as [Hl Hb]. unfold wr_bytes in E2. case_match eqn:E3; [|done]. injection E2 as <-.
  unfold inside in E3. to_prop. apply keeps_set_ie.
  - rewrite length_splice by lia. done.
  - apply Forall_splice; [by apply Forall_slice|done].
Qed.

Lemma take_ie_keeps fits have f d len cs rc cs' :
  bytes_ok d -> state_wf cs -> take_ie fits have f d len cs = Ok (rc, cs') -> rc = OK /\ keeps cs cs'.
Proof.
  intros Hd Hw. unfold take_ie. destruct fits; [|intros [= <- <-]; auto with pgw].
  destruct (copy_ie _ _ _ _ _ _) as [cs1|] eqn:E; [|done]. res_simpl. intros [= <- <-]. split; [done|].
  eapply keeps_trans; [apply keeps_or|]. by eapply copy_ie_keeps.
Qed.

Lemma bearer_context_keeps type d len cs rc cs' :
  bytes_ok d -> state_wf cs -> on_gtpc_parse_bearer_context type d len cs = Ok (rc, cs') -> rc = OK /\ keeps cs cs'.
Proof.
  intros Hd Hw. unfold on_gtpc_parse_bearer_context.
  repeat (case_if; [by apply take_ie_keeps|]). intros [= <- <-]. auto with pgw.
Qed.

Lemma ipcp_opt_keeps t cs : keeps cs (ipcp_opt t cs).
Proof.
  unfold ipcp_opt. repeat case_if; try apply keeps_refl;
    (eapply keeps_trans; [apply keeps_or|apply keeps_or_v1]).
Qed.

Lemma ipcp_keeps d cs rc cs' :
  gtpc_iterate_pco_ipcp_item d cs = Ok (rc, cs') -> (rc = OK \/ rc = ERR) /\ keeps cs cs' /\ ies cs' = ies cs.
Proof.
  unfold gtpc_iterate_pco_ipcp_item. destruct (rd 2 d _) as [l|]; [|done]. res_simpl.
  case_if; [intros [= <- <-]; auto with pgw|].
  destruct (rd 1 d o_ipcp_opt0) as [t0|]; [|done]. destruct (rd 1 d o_ipcp_opt1) as [t1|]; [|done]. res_simpl.
  intros [= <- <-]. split; [by left|]. split.
  - eapply keeps_trans; apply ipcp_opt_keeps.
  - unfold ipcp_opt. by repeat case_if.
Qed.

Lemma pco_loop_keeps v1 rounds len off cs rc cs' :
  pco_loop v1 rounds len off cs = Ok (rc, cs') -> rc = OK /\ keeps cs cs'.
Proof.
  revert off cs. induction rounds as [|rounds IH]; intros off cs; cbn [pco_loop].
  { intros [= <- <-]. auto with pgw. }
  case_if; [intros [= <- <-]; auto with pgw|].
  destruct (rd 1 _ _) as [pilen|]; [|done]. destruct (rd 2 _ _) as [type|]; [|done]. res_simpl.
  set (cs1 := if v1 then _ else _). assert (H1 : keeps cs cs1) by (unfold cs1; repeat case_if; auto with pgw).
  case_if.
  - destruct (gtpc_iterate_pco_ipcp_item _ _) as [[rc2 cs2]|] eqn:E2; [|done]. res_simpl.
    apply ipcp_keeps in E2 as (_ & H2 & _). pose proof (keeps_trans _ _ _ H1 H2). case_if.
    + intros [= <- <-]. done.
    + intros [-> H3]%IH. split; [done|]. by eapply keeps_trans.
  - res_simpl. cbn [negb Z.eqb OK]. intros [-> H3]%IH. split; [done|]. by eapply keeps_trans.
Qed.

Lemma iterate_children_keeps fuel item len cur cs rc cs' :
  bytes_ok item -> state_wf cs ->
  iterate_children on_gtpc_parse_bearer_context fuel item len cur cs = Ok (rc, cs') ->
  (rc = OK \/ rc = ERR) /\ keeps cs cs'.
Proof.
  intros Hb. revert cur cs. induction fuel as [|fuel IH]; intros cur cs Hw; cbn [iterate_children].
  { intros [= <- <-]. auto with pgw. }
  case_if; [intros [= <- <-]; auto with pgw|].
  destruct (rd 2 _ _) as [l|]; [|done]. destruct (rd 1 _ _) as [ty|]; [|done]. res_simpl.
  destruct (on_gtpc_parse_bearer_context _ _ _ _) as [[rc1 cs1]|] eqn:E1; [|done]. res_simpl.
  apply bearer_context_keeps in E1 as [-> H1]; [|by apply Forall_drop|done]. cbn [negb Z.eqb OK].
  repeat (case_if; [intros [= <- <-]; auto|]). intros [Hrc H2]%IH; [|by apply H1].
  split; [done|]. by eapply keeps_trans.
Qed.

Lemma parse_root_keeps type d len cs rc cs' :
  bytes_ok d -> state_wf cs -> on_gtpc_parse_root type d len cs = Ok (rc, cs') ->
  (rc = OK \/ rc = ERR) /\ keeps cs cs'.
Proof.
  intros Hd Hw. unfold on_gtpc_parse_root.
  assert (Ht : forall fits have f, take_ie fits have f d len cs = Ok (rc, cs') -> (rc = OK \/ rc = ERR) /\ keeps cs cs').
  { intros fits have f E. apply take_ie_keeps in E as [-> ?]; auto. }
  do 10 (case_if; [apply Ht|]). case_if.
  { case_if; [intros [= <- <-]; auto with pgw|].
    destruct (copy_ie _ _ _ _ _ _) as [cs1|] eqn:Ecp; [|done]. res_simpl.
    apply copy_ie_keeps in Ecp; [|done|done]. destruct (rd 2 _ _) as [l|]; [|done]. res_simpl.
    intros [-> H2]%pco_loop_keeps. split; [by left|].
    eapply keeps_trans; [apply keeps_or|]. by eapply keeps_trans. }
  do 4 (case_if; [apply Ht|]). case_if; [|intros [= <- <-]; auto with pgw].
  unfold gtpc_iterate_bearer_ctx_item. destruct (rd 2 _ _) as [l|]; [|done]. res_simpl.
  intros [Hrc H2]%iterate_children_keeps; [|done|done]. split; [done|].
  eapply keeps_trans; [apply keeps_or|done].
Qed.

Lemma v1_copy_keeps m f a d from n cs rc cs' :
  bytes_ok d -> state_wf cs ->
  (cs ← copy_ie f a d from n (or_flag_v1 m cs); Ok (OK, cs)) = Ok (rc, cs') -> rc = OK /\ keeps cs cs'.
Proof.
  intros Hd Hw. destruct (copy_ie _ _ _ _ _ _) as [cs1|] eqn:E1; [|done]. res_simpl. intros [= <- <-].
  split; [done|]. eapply keeps_trans; [apply (keeps_or_v1 m)|]. by eapply copy_ie_keeps.
Qed.

Lemma v1_value_keeps (r : res Z) m (set : Z -> gtpc_parse_state -> gtpc_parse_state) cs rc cs' :
  (forall v c, keeps c (set v c)) ->
  (v ← r; Ok (OK, set v (or_flag_v1 m cs))) = Ok (rc, cs') -> rc = OK /\ keeps cs cs'.
Proof.
  intros Hs. destruct r as [v|]; [|done]. res_simpl. intros [= <- <-]. split; [done|].
  eapply keeps_trans; [apply (keeps_or_v1 m)|apply Hs].
Qed.

Lemma parse_root_v1_keeps type d len cs rc cs' :
  bytes_ok d -> state_wf cs -> on_gtpcv1_parse_root type (Some d) len cs = Ok (rc, cs') ->
  (rc = OK \/ rc = ERR) /\ keeps cs cs'.
Proof.
  intros Hd Hw. unfold on_gtpcv1_parse_root. case_if; [intros [= <- <-]; auto with pgw|].
  set (cs0 := or_flag_v1 HAVE_V1 cs). assert (H0 : keeps cs cs0) by (unfold cs0; auto with pgw).
  assert (Hw0 : state_wf cs0) by done. clearbody cs0.
  assert (Hk : rc = OK /\ keeps cs0 cs' -> (rc = OK \/ rc = ERR) /\ keeps cs cs').
  { intros [-> H1]. split; [by left|]. by eapply keeps_trans. }
  assert (Hstop : Ok (OK, cs0) = Ok (rc, cs') -> (rc = OK \/ rc = ERR) /\ keeps cs cs') by (intros [= <- <-]; auto).
  case_if; [case_if; [exact Hstop|]|].
  { intros Er. apply Hk. eapply (v1_value_keeps _ HAVE_V1_CAUSE (fun v c => set_v1 (qos_len c) (nsapi c) v c)); [auto with pgw|exact Er]. }
  do 4 (case_if; [case_if; [exact Hstop|intros Er; apply Hk; by eapply v1_copy_keeps]|]).
  case_if; [case_if; [exact Hstop|case_if; intros Er; apply Hk; by eapply v1_copy_keeps]|].
  case_if; [case_if; [exact Hstop|]|].
  { destruct (copy_ie _ _ _ _ _ _) as [cs1|] eqn:Ecp; [|done]. res_simpl. intros [= <- <-]. apply Hk. split; [done|].
    assert (Hz : keeps cs0 (set_ie qos (bzero 256) cs0)).
    { apply keeps_set_ie; [done|]. apply Forall_replicate. unfold byte_ok. lia. }
    apply copy_ie_keeps in Ecp; [|done|by apply Hz]. eapply keeps_trans; [exact Hz|]. eapply keeps_trans; [exact Ecp|].
    eapply keeps_trans; [apply keeps_set_v1|apply keeps_or_v1]. }
  case_if; [case_if; [exact Hstop|]|].
  { intros Er. apply Hk. eapply (v1_value_keeps _ HAVE_V1_NSAPI (fun v c => set_v1 (qos_len c) (bf_get 0 4 v) (cause_v1 c) c)); [auto with pgw|exact Er]. }
  case_if; [|intros [= <- <-]; auto]. case_if; [exact Hstop|].
  destruct (copy_ie _ _ _ _ _ _) as [cs1|] eqn:Ecp; [|done]. res_simpl. apply copy_ie_keeps in Ecp; [|done|done].
  intros [-> H2]%pco_loop_keeps. apply Hk. split; [done|].
  eapply keeps_trans; [apply (keeps_or_v1 HAVE_V1_PCO)|]. by eapply keeps_trans.
Qed.

(** ** Locality *)
Lemma rd_bytes_prefix n d : 0 <= n <= zlen d -> rd_bytes n (slice 0 n d) 0 = rd_bytes n d 0.
Proof.
  intros Hn. rewrite !rd_bytes_ok by (rewrite ?zlen_slice; lia). by rewrite slice_slice by lia.
Qed.

Lemma take_ie_prefix fits have f d len cs :
  0 <= len <= zlen d -> take_ie fits have f d len cs = take_ie fits have f (slice 0 len d) len cs.
Proof. intros Hl. unfold take_ie, copy_ie. by rewrite rd_bytes_prefix. Qed.

Lemma bearer_context_local : local_callback on_gtpc_parse_bearer_context (fun _ => True).
Proof.
  intros ty d len cs Hl _ _. unfold on_gtpc_parse_bearer_context.
  by repeat (case_if; [by apply take_ie_prefix|]).
Qed.

(** The items a well-behaved peer sends: well-formed, and a bearer context holds
    well-formed children. *)
Definition sound_item (it : Z * list Z) : Prop :=
  bytes_ok it.2 /\
  (it.1 = GTPC_TYPE_BEARER_CTX -> exists item its, ctx_wf item its.*2 /\ Forall tlv_ok its /\ its <> [] /\
     (length its <= 255)%nat /\ it.2 = slice 0 (4 + zlen (concat its.*2)) item).

Lemma bearer_item_visit bs rest cs :
  bytes_ok rest -> sound_item (GTPC_TYPE_BEARER_CTX, bs) ->
  exists its, gtpc_iterate_bearer_ctx_item on_gtpc_parse_bearer_context (bs ++ rest) cs =
    visit on_gtpc_parse_bearer_context its cs /\
  gtpc_iterate_bearer_ctx_item on_gtpc_parse_bearer_context bs cs = visit on_gtpc_parse_bearer_context its cs.
Proof.
  intros Hr [_ Hs]. destruct (Hs eq_refl) as (item & its & Hw & Hi & Hne & Hk & E). cbn [snd] in E.
  exists its. rewrite E. assert (HT : Forall (fun _ => True) its) by (apply Forall_true; done). split.
  - by apply (ctx_iterate _ (fun _ => True)); [apply bearer_context_local|..].
  - rewrite <-(app_nil_r (slice 0 _ item)).
    by apply (ctx_iterate _ (fun _ => True)); [apply bearer_context_local|..].
Qed.


Lemma parse_root_local : local_callback on_gtpc_parse_root sound_item.
Proof.
  intros ty d len cs Hl Hb HP. unfold on_gtpc_parse_root.
  do 10 (case_if; [by apply take_ie_prefix|]). case_if.
  { unfold copy_ie. by rewrite rd_bytes_prefix. }
  do 4 (case_if; [by apply take_ie_prefix|]). case_if; [|done].
  assert (Et : ty = GTPC_TYPE_BEARER_CTX) by (by apply Z.eqb_eq). rewrite Et in HP.
  destruct (bearer_item_visit (slice 0 len d) (drop (Z.to_nat len) d) (or_flag HAVE_BCTX cs)) as (its & Ev1 & Ev2);
    [by apply Forall_drop|done|].
  rewrite Ev2, <-Ev1. f_equal. unfold slice. cbn [Z.to_nat drop]. by rewrite take_drop.
Qed.

(** The callback on a received packet is the callback on its items. *)
Lemma iterate_root_visit hl base p cs :
  pkt_wf hl base p -> Forall tlv_ok (contents p) -> Forall sound_item (contents p) ->
  gtpc_iterate_item on_gtpc_parse_root (Some p) cs = visit on_gtpc_parse_root (contents p) cs.
Proof.
  intros Hw Ht Hs. pose proof (wf_off _ _ _ Hw). pose proof (wf_hl _ _ _ Hw). pose proof (wf_size _ _ _ Hw).
  unfold gtpc_iterate_item, contents. eapply (iterate_items_visit on_gtpc_parse_root sound_item); [apply parse_root_local|..].
  - instantiate (1 := hl). lia.
  - instantiate (1 := offset p). szlia.
  - by destruct Hw.
  - by destruct Hw.
  - apply Forall_forall. intros it Hin. rewrite Forall_forall in Ht.
    destruct (Ht (item_bytes (packet p) it)) as (_ & Hb & E & _).
    { unfold contents. by apply list_elem_of_fmap_2. }
    cbn [item_bytes fst snd] in *. apply (Forall_slice _ 0 1) in Hb. rewrite E in Hb. by apply Forall_inv in Hb.
  - done.
Qed.

(** ** Visiting items *)
Definition got (have : Z) (f : ie) (bs : list Z) (cs : gtpc_parse_state) : gtpc_parse_state :=
  set_ie f (splice 0 bs (ies cs f)) (or_flag have cs).

Lemma got_wf have f bs cs : state_wf cs -> bytes_ok bs -> zlen bs <= sizeof_ie f -> state_wf (got have f bs cs).
Proof.
  intros Hw Hb Hl. destruct (Hw f) as [Hf Hfb]. unfold got. apply keeps_set_ie; [| |done].
  - rewrite length_splice by (cbn; lia). done.
  - by apply Forall_splice.
Qed.

Lemma take_ie_got have f bs cs :
  state_wf cs -> zlen bs <= sizeof_ie f -> take_ie true have f bs (zlen bs) cs = Ok (OK, got have f bs cs).
Proof.
  intros Hw Hl. unfold take_ie, copy_ie. rewrite rd_bytes_ok by lia. res_simpl. rewrite slice_0_all.
  rewrite wr_bytes_ok by (rewrite ?(proj1 (Hw f)); cbn; destruct (Hw f); lia). done.
Qed.

Lemma visit_got cb ty bs its have f cs :
  cb ty bs (zlen bs) cs = take_ie true have f bs (zlen bs) cs -> state_wf cs -> zlen bs <= sizeof_ie f ->
  visit cb ((ty, bs) :: its) cs = visit cb its (got have f bs cs).
Proof. intros E Hw Hl. cbn [visit]. by rewrite E, take_ie_got. Qed.

(** A field that was copied holds the bytes of its item. *)
Lemma got_same have f bs cs p n :
  state_wf cs -> zlen bs <= sizeof_ie f -> 0 <= p -> 0 <= n -> p + n <= zlen bs ->
  slice p n (ies (got have f bs cs) f) = slice p n bs.
Proof.
  intros Hw Hl ???. unfold got. rewrite ies_set_same. destruct (Hw f).
  rewrite slice_splice_inside by lia. by rewrite Z.sub_0_r.
Qed.
Lemma got_other have f g bs cs : g <> f -> ies (got have f bs cs) g = ies cs g.
Proof. intros. unfold got. by rewrite ies_set_other. Qed.

(** ** A create session request, as a serving gateway builds it *)
Definition sent (b : list Z) : res (list Z) := l ← item_length b; Ok (slice 0 l b).
Definition create_session_request (im ms cteid up down ebi uteid flags qci mu md gu gd : Z) (cip uip : list Z)
    : res (list (Z * list Z)) :=
  '(_, b) ← gtpc_imsi_set im; i_imsi ← sent b;
  '(_, b) ← gtpc_msisdn_set ms; i_msisdn ← sent b;
  '(_, b) ← gtpc_f_teid_set 0 6 cteid (Some cip) None; i_cteid ← sent b;
  '(_, b) ← gtpc_ambr_set up down; i_ambr ← sent b;
  '(_, b) ← gtpc_ebi_set 0 ebi; i_ebi ← sent b;
  '(_, b) ← gtpc_f_teid_set 2 4 uteid (Some uip) None; i_uteid ← sent b;
  '(_, b) ← gtpc_gtpc_bearer_qos_set flags qci mu md gu gd; i_qos ← sent b;
  '(_, ctx) ← gtpc_bearer_ctx_set;
  ctx ← add_children [(GTPC_TYPE_EBI, i_ebi); (GTPC_TYPE_F_TEID, i_uteid); (GTPC_TYPE_BEARER_QOS, i_qos)] ctx;
  n ← gtpc_bearer_ctx_length ctx;
  Ok [(GTPC_TYPE_IMSI, i_imsi); (GTPC_TYPE_MSISDN, i_msisdn); (GTPC_TYPE_F_TEID, i_cteid);
      (GTPC_TYPE_AMBR, i_ambr); (GTPC_TYPE_BEARER_CTX, slice 0 n ctx)].

(** An item on the wire: header and value. *)
Definition wire (type inst : Z) (v : list Z) : list Z := type :: be_store 2 (zlen v) ++ inst :: v.

Lemma zlen_wire type inst v : zlen (wire type inst v) = 4 + zlen v.
Proof. unfold wire. cbn [length]. rewrite length_app, length_be_store. cbn [length]. lia. Qed.

Lemma wire_ok type inst v : byte_ok type -> byte_ok inst -> bytes_ok v -> bytes_ok (wire type inst v).
Proof.
  intros. unfold wire. constructor; [done|]. apply Forall_app_2; [apply be_store_ok|]. by constructor.
Qed.

(** A block that starts with an item is sent as that item. *)
Lemma sent_wire type inst v rest :
  byte_ok type -> byte_ok inst -> bytes_ok v -> bytes_ok rest -> zlen v < 2 ^ 15 ->
  sent (wire type inst v ++ rest) = Ok (wire type inst v) /\ tlv_ok (type, wire type inst v).
Proof.
  intros Ht Hi Hv Hr Hl.
  destruct (headed_tlv type (zlen v) (wire type inst v ++ rest)) as (Htlv & El & _); [|apply Forall_app_2; [by apply wire_ok|done]|lia|].
  { exists inst, (v ++ rest). split; [|rewrite length_app; lia]. unfold wire. cbn [app]. by rewrite <-app_assoc. }
  unfold sent. rewrite El. res_simpl. rewrite <-(zlen_wire type inst v) in *.
  rewrite slice_app_l in * by lia. rewrite slice_0_all in *. done.
Qed.
Lemma sent_wire_all type inst v :
  byte_ok type -> byte_ok inst -> bytes_ok v -> zlen v < 2 ^ 15 ->
  sent (wire type inst v) = Ok (wire type inst v) /\ tlv_ok (type, wire type inst v).
Proof.
  intros Ht Hi Hv Hl. rewrite <-(app_nil_r (wire type inst v)) at 1. by apply sent_wire; [..|constructor|].
Qed.

Lemma slice_wire type inst v p n :
  4 <= p -> 0 <= n -> slice p n (wire type inst v) = slice (p - 4) n v.
Proof.
  intros. unfold wire. destruct (be_store_2 (zlen v)) as (x & y & ->).
  change (type :: [x; y] ++ inst :: v) with ([type; x; y; inst] ++ v). rewrite slice_app_r by (cbn; lia). done.
Qed.

Record request_ok_args (im ms ebi flags qci mu md gu gd : Z) (cip uip : list Z) : Prop := {
  ra_im : 0 <= im < 10 ^ 16;
  ra_ms : 0 <= ms < 10 ^ 12;
  ra_ebi : 0 <= ebi < 16;
  ra_flags : byte_ok flags;
  ra_qci : byte_ok qci;
  ra_rates : Forall (fun r => 0 <= r < 2 ^ 64) [mu; md; gu; gd];
  ra_cip : zlen cip = 4 /\ bytes_ok cip;
  ra_uip : zlen uip = 4 /\ bytes_ok uip;
}.

(** The values of the bearer's items. *)
Definition teid_value (iftype teid : Z) (ip : list Z) : list Z := (0x80 + iftype) :: be_store 4 teid ++ ip.
Definition qos_value (flags qci mu md gu gd : Z) : list Z :=
  flags :: qci :: be_store 5 mu ++ be_store 5 md ++ be_store 5 gu ++ be_store 5 gd.
Definition bearer_items (ebi uteid flags qci mu md gu gd : Z) (uip : list Z) : list (Z * list Z) :=
  [(GTPC_TYPE_EBI, wire GTPC_TYPE_EBI 0 [ebi]); (GTPC_TYPE_F_TEID, wire GTPC_TYPE_F_TEID 2 (teid_value 4 uteid uip));
   (GTPC_TYPE_BEARER_QOS, wire GTPC_TYPE_BEARER_QOS 0 (qos_value flags qci mu md gu gd))].

Lemma f_teid_sent inst iftype teid ip :
  0 <= inst < 16 -> 0 <= iftype < 32 -> zlen ip = 4 -> bytes_ok ip ->
  exists b, gtpc_f_teid_set inst iftype teid (Some ip) None = Ok (OK, b) /\
    sent b = Ok (wire GTPC_TYPE_F_TEID inst (teid_value iftype teid ip)) /\
    tlv_ok (GTPC_TYPE_F_TEID, wire GTPC_TYPE_F_TEID inst (teid_value iftype teid ip)).
Proof.
  intros Hi Hf Hl Hb. rewrite gtpc_f_teid_set_v4 by lia. eexists. split; [done|].
  assert (Ea : slice 0 4 ip = ip) by (rewrite <-Hl; apply slice_0_all). rewrite Ea.
  assert (Lv : zlen (teid_value iftype teid ip) = 9).
  { unfold teid_value. cbn [length]. rewrite length_app, length_be_store. lia. }
  replace (GTPC_TYPE_F_TEID :: be_store 2 9 ++ inst :: 128 + iftype :: be_store 4 teid ++ ip ++ bzero 12) with
    (wire GTPC_TYPE_F_TEID inst (teid_value iftype teid ip) ++ bzero 12).
  - apply sent_wire; unfold byte_ok, GTPC_TYPE_F_TEID; try lia.
    + unfold teid_value. constructor; [unfold byte_ok; lia|]. apply Forall_app_2; [apply be_store_ok|done].
    + apply Forall_replicate. unfold byte_ok. lia.
  - unfold wire. rewrite Lv. unfold teid_value. cbn [app]. rewrite <-!app_assoc. cbn [app]. by rewrite <-app_assoc.
Qed.

Lemma digits_sent type n v :
  byte_ok type -> 0 < n < 256 -> 0 <= v < 2 ^ 64 -> v < 10 ^ (2 * n) ->
  exists d, digits_item type n v = Ok (OK, wire type 0 d) /\ sent (wire type 0 d) = Ok (wire type 0 d) /\
    tlv_ok (type, wire type 0 d) /\ zlen d = n /\ gtpc_digits_get false d n = Ok v.
Proof.
  intros Ht Hn Hv Hf. destruct (digits_item_ok type n v Ht Hn Hv Hf) as (d & E & Ld & Hd & Eg).
  exists d. rewrite E. assert (E0 : type :: be_store 2 n ++ 0 :: d = wire type 0 d) by (unfold wire; by rewrite Ld).
  rewrite E0. split; [done|]. destruct (sent_wire_all type 0 d) as [-> ?]; [done|unfold byte_ok; lia|done|lia|]. done.
Qed.

(** The children fit, and are well-formed. *)
Lemma bearer_items_ok ebi uteid flags qci mu md gu gd uip :
  0 <= ebi < 16 -> byte_ok flags -> byte_ok qci -> zlen uip = 4 -> bytes_ok uip ->
  Forall tlv_ok (bearer_items ebi uteid flags qci mu md gu gd uip) /\
  zlen (concat (bearer_items ebi uteid flags qci mu md gu gd uip).*2) = 44 /\
  sent (wire GTPC_TYPE_EBI 0 [ebi]) = Ok (wire GTPC_TYPE_EBI 0 [ebi]) /\
  sent (wire GTPC_TYPE_BEARER_QOS 0 (qos_value flags qci mu md gu gd)) =
    Ok (wire GTPC_TYPE_BEARER_QOS 0 (qos_value flags qci mu md gu gd)) /\
  zlen (qos_value flags qci mu md gu gd) = 22.
Proof.
  intros He Hf Hq Lu Hu. assert (B0 : byte_ok 0) by (unfold byte_ok; lia).
  destruct (f_teid_sent 2 4 uteid uip) as (_ & _ & _ & Tu); [lia|lia|done|done|].
  destruct (sent_wire_all GTPC_TYPE_EBI 0 [ebi]) as [Se Te];
    [unfold byte_ok, GTPC_TYPE_EBI; lia|done|constructor; [unfold byte_ok; lia|constructor]|cbn; lia|].
  assert (Lq : zlen (qos_value flags qci mu md gu gd) = 22).
  { unfold qos_value. cbn [length]. rewrite !length_app, !length_be_store. lia. }
  destruct (sent_wire_all GTPC_TYPE_BEARER_QOS 0 (qos_value flags qci mu md gu gd)) as [Sq Tq];
    [unfold byte_ok, GTPC_TYPE_BEARER_QOS; lia|done| |lia|].
  { unfold qos_value. do 2 (constructor; [done|]). repeat apply Forall_app_2; apply be_store_ok. }
  split; [unfold bearer_items; repeat (constructor; [done|]); constructor|]. split; [|done].
  unfold bearer_items. cbn [fmap list_fmap snd concat]. rewrite !length_app, !Nat2Z.inj_add, !zlen_wire, Lq.
  unfold teid_value. cbn [length]. rewrite length_app, length_be_store. lia.
Qed.

Definition request_items (cteid up down : Z) (cip di dm bctx : list Z) : list (Z * list Z) :=
  [(GTPC_TYPE_IMSI, wire GTPC_TYPE_IMSI 0 di); (GTPC_TYPE_MSISDN, wire GTPC_TYPE_MSISDN 0 dm);
   (GTPC_TYPE_F_TEID, wire GTPC_TYPE_F_TEID 0 (teid_value 6 cteid cip));
   (GTPC_TYPE_AMBR, wire GTPC_TYPE_AMBR 0 (be_store 4 up ++ be_store 4 down)); (GTPC_TYPE_BEARER_CTX, bctx)].

(** The request is a list of well-formed items with these values. *)
Lemma create_session_request_ok im ms cteid up down ebi uteid flags qci mu md gu gd cip uip :
  request_ok_args im ms ebi flags qci mu md gu gd cip uip ->
  let bi := bearer_items ebi uteid flags qci mu md gu gd uip in
  exists di dm ctx,
    let its := request_items cteid up down cip di dm (slice 0 (4 + zlen (concat bi.*2)) ctx) in
    create_session_request im ms cteid up down ebi uteid flags qci mu md gu gd cip uip = Ok its /\
    zlen di = GTPC_IMSI_LEN /\ gtpc_digits_get false di GTPC_IMSI_LEN = Ok im /\
    zlen dm = GTPC_MSISDN_LEN /\ gtpc_digits_get false dm GTPC_MSISDN_LEN = Ok ms /\
    ctx_wf ctx bi.*2 /\ Forall tlv_ok bi /\ Forall tlv_ok its.
Proof.
  intros [Him Hms Hebi Hfl Hqci Hr [Lc Hc] [Lu Hu]] bi. rewrite !Forall_cons in Hr. destruct Hr as (? & ? & ? & ? & _).
  assert (B0 : byte_ok 0) by (unfold byte_ok; lia).
  destruct (digits_sent GTPC_TYPE_IMSI GTPC_IMSI_LEN im) as (di & Ei & Si & Ti & Ldi & Gi);
    [unfold byte_ok, GTPC_TYPE_IMSI; lia|unfold GTPC_IMSI_LEN; lia|lia|unfold GTPC_IMSI_LEN; lia|].
  destruct (digits_sent GTPC_TYPE_MSISDN GTPC_MSISDN_LEN ms) as (dm & Em & Sm & Tm & Ldm & Gm);
    [unfold byte_ok, GTPC_TYPE_MSISDN; lia|unfold GTPC_MSISDN_LEN; lia|lia|unfold GTPC_MSISDN_LEN; lia|].
  destruct (f_teid_sent 0 6 cteid cip) as (bc & Ec & Sc & Tc); [lia|lia|done|done|].
  destruct (f_teid_sent 2 4 uteid uip) as (bu & Eu & Su & _); [lia|lia|done|done|].
  destruct (sent_wire_all GTPC_TYPE_AMBR 0 (be_store 4 up ++ be_store 4 down)) as [Sa Ta];
    [unfold byte_ok, GTPC_TYPE_AMBR; lia|done|apply Forall_app_2; apply be_store_ok|rewrite length_app, !length_be_store; lia|].
  destruct (bearer_items_ok ebi uteid flags qci mu md gu gd uip) as (Hbi & Lbi & Se & Sq & Lq); [done..|]. fold bi in Hbi, Lbi.
  destruct gtpc_bearer_ctx_set_ok as (ctx0 & E0 & Hw0).
  destruct (add_children_ok bi [] ctx0 Hw0 Hbi) as (ctx & Ea & Hw); [rewrite Lbi; unfold sizeof_bearer_child; cbn; lia|].
  cbn [app] in Hw. destruct (ctx_tlv ctx _ Hw) as [El Tx].
  exists di, dm, ctx. split; [|split_and!; try done; unfold request_items; repeat (constructor; [done|]); constructor].
  unfold create_session_request, gtpc_imsi_set, gtpc_msisdn_set.
  rewrite Ei. res_simpl. rewrite Si. res_simpl. rewrite Em. res_simpl. rewrite Sm. res_simpl.
  rewrite Ec. res_simpl. rewrite Sc. res_simpl. rewrite gtpc_ambr_set_eq. res_simpl.
  change (GTPC_TYPE_AMBR :: be_store 2 8 ++ 0 :: be_store 4 up ++ be_store 4 down) with
    (wire GTPC_TYPE_AMBR 0 (be_store 4 up ++ be_store 4 down)). rewrite Sa. res_simpl.
  rewrite gtpc_ebi_set_eq by lia. res_simpl.
  change (GTPC_TYPE_EBI :: be_store 2 1 ++ [0; ebi]) with (wire GTPC_TYPE_EBI 0 [ebi]). rewrite Se. res_simpl.
  rewrite Eu. res_simpl. rewrite Su. res_simpl. rewrite gtpc_bearer_qos_set_eq by done. res_simpl.
  match goal with |- context [sent ?b] => replace b with (wire GTPC_TYPE_BEARER_QOS 0 (qos_value flags qci mu md gu gd)) end;
    [|unfold wire; by rewrite Lq].
  rewrite Sq. res_simpl. rewrite E0. res_simpl. fold (bearer_items ebi uteid flags qci mu md gu gd uip). fold bi.
  rewrite Ea. res_simpl. rewrite El. done.
Qed.

(** What the parser holds after the request. *)
Definition understood (cs0 : gtpc_parse_state) (cteid up down ebi uteid flags qci mu md gu gd : Z) (cip uip di dm : list Z) : gtpc_parse_state :=
  got HAVE_BQOS bqos (wire GTPC_TYPE_BEARER_QOS 0 (qos_value flags qci mu md gu gd))
   (got HAVE_FTEID_U u_teid (wire GTPC_TYPE_F_TEID 2 (teid_value 4 uteid uip))
     (got HAVE_EBI_B ebi_b (wire GTPC_TYPE_EBI 0 [ebi]) (or_flag HAVE_BCTX
       (got HAVE_AMBR_R ambr_r (wire GTPC_TYPE_AMBR 0 (be_store 4 up ++ be_store 4 down))
         (got HAVE_FTEID_C c_teid (wire GTPC_TYPE_F_TEID 0 (teid_value 6 cteid cip))
           (got HAVE_MSISDN msisdn (wire GTPC_TYPE_MSISDN 0 dm)
             (got HAVE_IMSI imsi (wire GTPC_TYPE_IMSI 0 di) cs0))))))).

Lemma visit_create_session cs0 cteid up down ebi uteid flags qci mu md gu gd cip uip di dm ctx :
  let bi := bearer_items ebi uteid flags qci mu md gu gd uip in
  state_wf cs0 -> zlen di = GTPC_IMSI_LEN -> zlen dm = GTPC_MSISDN_LEN -> zlen cip = 4 -> zlen uip = 4 -> 
  zlen (qos_value flags qci mu md gu gd) = 22 ->
  ctx_wf ctx bi.*2 -> Forall tlv_ok bi ->
  Forall tlv_ok (request_items cteid up down cip di dm (slice 0 (4 + zlen (concat bi.*2)) ctx)) ->
  visit on_gtpc_parse_root (request_items cteid up down cip di dm (slice 0 (4 + zlen (concat bi.*2)) ctx)) cs0 =
    Ok (OK, understood cs0 cteid up down ebi uteid flags qci mu md gu gd cip uip di dm) /\
  state_wf (understood cs0 cteid up down ebi uteid flags qci mu md gu gd cip uip di dm).
Proof.
  intros bi Hcs0 Ldi Ldm Lc Lu Lq Hw Hbi Hits. unfold request_items in *.
  apply Forall_cons_1 in Hits as [(_ & B1 & _) Hits]. apply Forall_cons_1 in Hits as [(_ & B2 & _) Hits].
  apply Forall_cons_1 in Hits as [(_ & B3 & _) Hits]. apply Forall_cons_1 in Hits as [(_ & B4 & _) _].
  pose proof Hbi as Hbi'. unfold bi, bearer_items in Hbi'.
  apply Forall_cons_1 in Hbi' as [(_ & B5 & _) Hbi']. apply Forall_cons_1 in Hbi' as [(_ & B6 & _) Hbi'].
  apply Forall_cons_1 in Hbi' as [(_ & B7 & _) _]. cbn [snd] in *.
  assert (Lt : forall i t ip, zlen ip = 4 -> zlen (teid_value i t ip) = 9).
  { intros i t ip L. unfold teid_value. cbn [length]. rewrite length_app, length_be_store. lia. }
  assert (La : zlen (be_store 4 up ++ be_store 4 down) = 8) by (rewrite length_app, !length_be_store; lia).
  assert (W1 := got_wf HAVE_IMSI imsi _ _ Hcs0 B1). rewrite zlen_wire, Ldi in W1. specialize (W1 ltac:(done)).
  assert (W2 := got_wf HAVE_MSISDN msisdn _ _ W1 B2). rewrite zlen_wire, Ldm in W2. specialize (W2 ltac:(done)).
  assert (W3 := got_wf HAVE_FTEID_C c_teid _ _ W2 B3). rewrite zlen_wire, Lt in W3 by done. specialize (W3 ltac:(done)).
  assert (W4 := got_wf HAVE_AMBR_R ambr_r _ _ W3 B4). rewrite zlen_wire, La in W4. specialize (W4 ltac:(done)).
  match type of W4 with state_wf ?c => assert (W5 : state_wf (or_flag HAVE_BCTX c)) by done end.
  assert (W6 := got_wf HAVE_EBI_B ebi_b _ _ W5 B5). rewrite zlen_wire in W6. specialize (W6 ltac:(done)).
  assert (W7 := got_wf HAVE_FTEID_U u_teid _ _ W6 B6). rewrite zlen_wire, Lt in W7 by done. specialize (W7 ltac:(done)).
  assert (W8 := got_wf HAVE_BQOS bqos _ _ W7 B7). rewrite zlen_wire, Lq in W8. specialize (W8 ltac:(done)).
  split; [|exact W8].
  rewrite (visit_got _ _ _ _ HAVE_IMSI imsi); [|by rewrite zlen_wire, Ldi|exact Hcs0|by rewrite zlen_wire, Ldi].
  rewrite (visit_got _ _ _ _ HAVE_MSISDN msisdn); [|by rewrite zlen_wire, Ldm|exact W1|by rewrite zlen_wire, Ldm].
  rewrite (visit_got _ _ _ _ HAVE_FTEID_C c_teid); [|by rewrite zlen_wire, Lt|exact W2|by rewrite zlen_wire, Lt].
  rewrite (visit_got _ _ _ _ HAVE_AMBR_R ambr_r); [|by rewrite zlen_wire, La|exact W3|by rewrite zlen_wire, La].
  cbn [visit]. match goal with |- context [on_gtpc_parse_root _ ?b _ ?c] =>
    change (on_gtpc_parse_root GTPC_TYPE_BEARER_CTX b (zlen b) c) with
      (gtpc_iterate_bearer_ctx_item on_gtpc_parse_bearer_context b (or_flag HAVE_BCTX c)) end.
  rewrite <-(app_nil_r (slice 0 _ ctx)), (ctx_iterate _ (fun _ => True));
    [|apply bearer_context_local|exact Hw|exact Hbi|by apply Forall_true|done|cbn; lia|constructor].
  unfold bi, bearer_items.
  rewrite (visit_got _ _ _ _ HAVE_EBI_B ebi_b); [|by rewrite zlen_wire|exact W5|by rewrite zlen_wire].
  rewrite (visit_got _ _ _ _ HAVE_FTEID_U u_teid); [|by rewrite zlen_wire, Lt|exact W6|by rewrite zlen_wire, Lt].
  rewrite (visit_got _ _ _ _ HAVE_BQOS bqos); [|by rewrite zlen_wire, Lq|exact W7|by rewrite zlen_wire, Lq].
  reflexivity.
Qed.

(** Reading the state the parser leaves. *)
Lemma slice_copied t i v b p k :
  4 + zlen v <= zlen b -> 4 <= p -> 0 <= k -> p + k <= 4 + zlen v ->
  slice p k (splice 0 (wire t i v) b) = slice (p - 4) k v.
Proof.
  intros.
  rewrite slice_splice_inside by (rewrite ?zlen_wire; lia). rewrite slice_wire by lia. f_equal. lia.
Qed.

Lemma teid_value_fields iftype teid ip :
  zlen ip = 4 -> slice 1 4 (teid_value iftype teid ip) = be_store 4 teid /\ slice 5 4 (teid_value iftype teid ip) = ip /\
  zlen (teid_value iftype teid ip) = 9.
Proof.
  intros L. unfold teid_value. destruct (be_store_4 teid) as (a & b & c & d & ->). split; [done|]. split; [|cbn [app length]; lia].
  change (128 + iftype :: [a; b; c; d] ++ ip) with ([128 + iftype; a; b; c; d] ++ ip).
  rewrite slice_app_r by (cbn; lia). change (5 - zlen [128 + iftype; a; b; c; d]) with 0. rewrite <-L. apply slice_0_all.
Qed.

Lemma understood_fields cs0 cteid up down ebi uteid flags qci mu md gu gd cip uip di dm :
  state_wf cs0 -> zlen di = GTPC_IMSI_LEN -> zlen dm = GTPC_MSISDN_LEN -> zlen cip = 4 -> zlen uip = 4 ->
  let cs := understood cs0 cteid up down ebi uteid flags qci mu md gu gd cip uip di dm in
  slice o_body GTPC_IMSI_LEN (ies cs imsi) = di /\ slice o_body GTPC_MSISDN_LEN (ies cs msisdn) = dm /\
  slice o_f_teid_key 4 (ies cs c_teid) = be_store 4 cteid /\ slice o_f_teid_blk 4 (ies cs c_teid) = cip /\
  slice o_f_teid_key 4 (ies cs u_teid) = be_store 4 uteid /\ slice o_f_teid_blk 4 (ies cs u_teid) = uip /\
  slice o_body 4 (ies cs ambr_r) = be_store 4 up /\ slice o_ambr_downlink 4 (ies cs ambr_r) = be_store 4 down.
Proof.
  intros Hcs0 Li Lm Lc Lu cs.
  change (ies cs imsi) with (splice 0 (wire GTPC_TYPE_IMSI 0 di) (ies cs0 imsi)).
  change (ies cs msisdn) with (splice 0 (wire GTPC_TYPE_MSISDN 0 dm) (ies cs0 msisdn)).
  change (ies cs c_teid) with (splice 0 (wire GTPC_TYPE_F_TEID 0 (teid_value 6 cteid cip)) (ies cs0 c_teid)).
  change (ies cs u_teid) with (splice 0 (wire GTPC_TYPE_F_TEID 2 (teid_value 4 uteid uip)) (ies cs0 u_teid)).
  change (ies cs ambr_r) with (splice 0 (wire GTPC_TYPE_AMBR 0 (be_store 4 up ++ be_store 4 down)) (ies cs0 ambr_r)).
  destruct (teid_value_fields 6 cteid cip Lc) as (K1 & B1 & L1), (teid_value_fields 4 uteid uip Lu) as (K2 & B2 & L2).
  assert (L3 : zlen (be_store 4 up ++ be_store 4 down) = 8) by (rewrite length_app, !length_be_store; lia).
  unfold o_body, o_f_teid_key, o_f_teid_blk, o_ambr_downlink, sizeof_gtpc_imsi, sizeof_gtpc_msisdn, sizeof_gtpc_f_teid,
    sizeof_gtpc_ambr in *.
  rewrite !slice_copied by (first [rewrite (proj1 (Hcs0 imsi))|rewrite (proj1 (Hcs0 msisdn))|rewrite (proj1 (Hcs0 c_teid))|rewrite (proj1 (Hcs0 u_teid))|rewrite (proj1 (Hcs0 ambr_r))|idtac]; unfold sizeof_ie, sizeof_gtpc_imsi, sizeof_gtpc_msisdn, sizeof_gtpc_f_teid, sizeof_gtpc_ambr; lia). cbn [Z.sub Z.add Z.opp Z.pos_sub Pos.add]. rewrite <-Li, <-Lm.
  split; [apply slice_0_all|]. split; [apply slice_0_all|]. do 4 (split; [done|]).
  destruct (be_store_4 up) as (?&?&?&?&->), (be_store_4 down) as (?&?&?&?&->). done.
Qed.

Lemma digits_get_field b n d v :
  slice o_body n b = d -> zlen d = n -> 0 <= n -> o_body + n <= zlen b ->
  gtpc_digits_get false d n = Ok v -> gtpc_digits_get false (drop 4 b) n = Ok v.
Proof.
  intros Es Ld Hn Hb. unfold gtpc_digits_get. unfold o_body in *.
  rewrite !rd_bytes_ok by (rewrite ?length_drop; lia). change 4%nat with (Z.to_nat 4). rewrite slice_drop, Es by lia.
  replace (slice 0 n d) with d by (rewrite <-Ld; symmetry; apply slice_0_all). done.
Qed.

(** ** Protocol configuration options *)
Definition pco_option (o : Z * list Z) : list Z := be_store 2 o.1 ++ zlen o.2 :: o.2.
(** An option as peers send them; an IPCP option holds a configuration of two
    addresses. *)
Definition option_ok (o : Z * list Z) : Prop :=
  0 <= o.1 < 2 ^ 16 /\ zlen o.2 < 256 /\ bytes_ok o.2 /\
  (o.1 = GTPC_PCO_IPCP -> zlen o.2 = sizeof_gtpc_pco_ipcp_cfg /\
     be_load (slice o_ipcp_length 2 o.2) = sizeof_gtpc_pco_ipcp_cfg).
(** What an option asks for. *)
Definition option_effect (cs : gtpc_parse_state) (o : Z * list Z) : gtpc_parse_state :=
  let cs := if (zlen o.2 =? 0) || (Z.land (flag cs) HAVE_RES_ORDER =? HAVE_RES_ORDER)
            then or_flag (pco_flag o.1) cs else cs in
  if o.1 =? GTPC_PCO_IPCP
  then ipcp_opt (item_type o.2 o_ipcp_opt1) (ipcp_opt (item_type o.2 o_ipcp_opt0) cs) else cs.

Lemma ies_ipcp_opt t cs : ies (ipcp_opt t cs) = ies cs.
Proof. unfold ipcp_opt. by repeat case_if. Qed.
Lemma ies_option_effect cs o : ies (option_effect cs o) = ies cs.
Proof. unfold option_effect. repeat case_if; rewrite ?ies_ipcp_opt; done. Qed.

Lemma length_pco_option o : zlen (pco_option o) = 3 + zlen o.2.
Proof. unfold pco_option. rewrite length_app, length_be_store. cbn [length]. lia. Qed.

Lemma rd_drop n b k p : 0 <= k -> 0 <= p -> k + p + Z.of_nat n <= zlen b -> rd n (drop (Z.to_nat k) b) p = rd n b (k + p).
Proof.
  intros. rewrite !rd_ok by (rewrite ?length_drop; lia). do 2 f_equal. unfold slice. rewrite drop_drop. f_equal. f_equal. lia.
Qed.

(** The IPCP configuration found at [k]. *)
Lemma ipcp_at b k c cs :
  bytes_ok b -> 0 <= k -> k + zlen c <= zlen b -> slice k (zlen c) b = c -> zlen c = sizeof_gtpc_pco_ipcp_cfg ->
  be_load (slice o_ipcp_length 2 c) = sizeof_gtpc_pco_ipcp_cfg ->
  gtpc_iterate_pco_ipcp_item (drop (Z.to_nat k) b) cs =
    Ok (OK, ipcp_opt (item_type c o_ipcp_opt1) (ipcp_opt (item_type c o_ipcp_opt0) cs)).
Proof.
  intros Hb Hk Hin Es Lc El. unfold gtpc_iterate_pco_ipcp_item. unfold sizeof_gtpc_pco_ipcp_cfg in Lc.
  assert (Ex : forall p n, 0 <= p -> 0 <= n -> p + n <= 16 -> slice (k + p) n b = slice p n c).
  { intros. rewrite <-Es, slice_slice by lia. done. }
  rewrite !rd_drop by (unfold o_ipcp_length, o_ipcp_opt0, o_ipcp_opt1; lia).
  destruct (rd_be b (k + o_ipcp_length)) as (v & -> & Ev); [unfold o_ipcp_length; lia|unfold o_ipcp_length; lia|done|].
  res_simpl. change (htons v) with (ntohs v). rewrite Ev, Ex, El by (unfold o_ipcp_length; lia). cbn [negb Z.eqb Pos.eqb sizeof_gtpc_pco_ipcp_cfg].
  rewrite !rd_byte by (unfold o_ipcp_opt0, o_ipcp_opt1; lia). res_simpl. unfold item_type.
  rewrite !Ex by (unfold o_ipcp_opt0, o_ipcp_opt1; lia). done.
Qed.

Lemma pco_loop_options opts rounds off cs :
  bytes_ok (ies cs pco) -> Forall option_ok opts -> 0 <= off -> (length opts <= rounds)%nat ->
  o_pco + off + zlen (concat (pco_option <$> opts)) <= zlen (ies cs pco) ->
  slice (o_pco + off) (zlen (concat (pco_option <$> opts))) (ies cs pco) = concat (pco_option <$> opts) ->
  pco_loop false rounds (off + zlen (concat (pco_option <$> opts)) - 1) off cs = Ok (OK, foldl option_effect cs opts).
Proof.
  intros Hb Ho. revert rounds off cs Hb. induction Ho as [|o opts (Hid & Hl & Hc & Hip) Ho IH]; intros rounds off cs Hb Hoff Hr Hin Es.
  { destruct rounds; cbn [pco_loop]; [done|]. rewrite (proj2 (Z.leb_le _ _)) by (cbn; lia). done. }
  destruct rounds as [|rounds]; [cbn in Hr; lia|]. cbn [fmap list_fmap concat foldl pco_loop] in *.
  pose proof (length_pco_option o) as Lo. rewrite length_app, Nat2Z.inj_add in *. unfold o_pco in *.
  set (L := zlen (concat (pco_option <$> opts))) in *.
  rewrite slice_app_split in Es by lia. apply app_inj_1 in Es as [Es1 Es2]; [|rewrite length_slice; lia].
  assert (Ex : forall p n, 0 <= p -> 0 <= n -> p + n <= 3 + zlen o.2 -> slice (5 + off + p) n (ies cs pco) = slice p n (pco_option o)).
  { intros. rewrite <-Es1, slice_slice by lia. done. }
  rewrite (proj2 (Z.leb_gt _ _)) by lia. rewrite rd_byte by lia. res_simpl.
  destruct (rd_be (ies cs pco) (5 + off)) as (v & -> & Ev); [lia|lia|done|]. res_simpl.
  assert (Eid : ntohs v = o.1).
  { rewrite Ev. rewrite <-(Z.add_0_r (5 + off)), Ex by lia. unfold pco_option. rewrite slice_app_l by (rewrite ?length_be_store; lia).
    change 2 with (zlen (be_store 2 o.1)). rewrite slice_0_all. by apply be_store_load. }
  assert (Epl : item_type (ies cs pco) (5 + off + 2) = zlen o.2).
  { unfold item_type. rewrite Ex by lia. unfold pco_option. rewrite slice_app_r by (rewrite length_be_store; lia).
    rewrite length_be_store. change (slice (2 - Z.of_nat 2) 1 (zlen o.2 :: o.2)) with [zlen o.2]. cbn [le_load]. lia. }
  rewrite Eid, Epl. set (cs1 := if (zlen o.2 =? 0) || _ then _ else _).
  assert (Ei1 : ies cs1 = ies cs) by (unfold cs1; by case_if).
  assert (Enext : (if o.1 =? GTPC_PCO_IPCP then gtpc_iterate_pco_ipcp_item (drop (Z.to_nat (5 + off + 3)) (ies cs1 pco)) cs1
                   else Ok (OK, cs1)) = Ok (OK, option_effect cs o)).
  { unfold option_effect. fold cs1. destruct (Z.eqb_spec o.1 GTPC_PCO_IPCP) as [Ei|]; [|done]. destruct (Hip Ei) as [Lc El].
    rewrite Ei1. apply ipcp_at; [done|lia|lia| |done|done].
    rewrite Ex by lia. unfold pco_option. rewrite slice_app_r by (rewrite length_be_store; lia). rewrite length_be_store.
    change (3 - Z.of_nat 2) with 1. change (zlen o.2 :: o.2) with ([zlen o.2] ++ o.2). rewrite slice_app_r by (cbn; lia).
    change (1 - zlen [zlen o.2]) with 0. apply slice_0_all. }
  rewrite Enext. res_simpl. cbn [negb Z.eqb OK]. rewrite wrap_small by lia.
  replace (off + (zlen (pco_option o) + L) - 1) with (off + (3 + zlen o.2) + L - 1) by lia.
  apply IH; rewrite ?ies_option_effect; [done|lia|cbn in Hr; lia|lia|].
  replace (5 + (off + (3 + zlen o.2))) with (5 + off + zlen (pco_option o)) by lia. done.
Qed.

Lemma options_count opts : 3 * zlen opts <= zlen (concat (pco_option <$> opts)).
Proof.
  induction opts as [|o opts IH]; cbn [fmap list_fmap concat length]; [lia|].
  rewrite length_app. pose proof (length_pco_option o). lia.
Qed.

(** ** The request, as any parse state receives it *)
Lemma land_lor_superset f m k : Z.land m k = k -> Z.land (Z.lor f m) k = k.
Proof.
  intros E. rewrite Z.land_lor_distr_l, E. apply Z.bits_inj'. intros i Hi. rewrite Z.lor_spec, Z.land_spec.
  by destruct (Z.testbit f i), (Z.testbit k i).
Qed.

Lemma land_weaken f k j : Z.land f k = k -> Z.land k j = j -> Z.land f j = j.
Proof. intros E1 E2. rewrite <-E2 at 1. by rewrite Z.land_assoc, E1. Qed.

Lemma create_session_request_visits im ms cteid up down ebi uteid flags qci mu md gu gd cip uip :
  request_ok_args im ms ebi flags qci mu md gu gd cip uip ->
  exists its, create_session_request im ms cteid up down ebi uteid flags qci mu md gu gd cip uip = Ok its /\
    Forall tlv_ok its /\ Forall sound_item its /\ (length its <= 255)%nat /\ 12 + zlen (concat its.*2) < ETHER_MAX_LEN /\
    forall cs0, state_wf cs0 -> exists cs, visit on_gtpc_parse_root its cs0 = Ok (OK, cs) /\ state_wf cs /\
      Z.land (flag cs) (Z.lor HAVE_IMSI INCLUDED_ALL) = Z.lor HAVE_IMSI INCLUDED_ALL /\
      gtpc_digits_get false (drop 4 (ies cs imsi)) GTPC_IMSI_LEN = Ok im /\
      gtpc_digits_get false (drop 4 (ies cs msisdn)) GTPC_MSISDN_LEN = Ok ms /\
      slice o_f_teid_key 4 (ies cs c_teid) = be_store 4 cteid /\ slice o_f_teid_blk 4 (ies cs c_teid) = cip /\
      slice o_f_teid_key 4 (ies cs u_teid) = be_store 4 uteid /\ slice o_f_teid_blk 4 (ies cs u_teid) = uip /\
      slice o_body 4 (ies cs ambr_r) = be_store 4 up /\ slice o_ambr_downlink 4 (ies cs ambr_r) = be_store 4 down.
Proof.
  intros Ha. pose proof Ha as [_ _ He Hf Hq _ [Lc _] [Lu Hu]].
  destruct (create_session_request_ok im ms cteid up down ebi uteid flags qci mu md gu gd cip uip Ha)
    as (di & dm & ctx & E & Ldi & Gi & Ldm & Gm & Hw & Hbi & Hits).
  destruct (bearer_items_ok ebi uteid flags qci mu md gu gd uip) as (_ & Lbi & _ & _ & Lq); [done..|].
  pose proof (fun cs0 H => visit_create_session cs0 cteid up down ebi uteid flags qci mu md gu gd cip uip di dm ctx H Ldi Ldm Lc Lu Lq Hw Hbi Hits) as Hv.
  pose proof (fun cs0 H => understood_fields cs0 cteid up down ebi uteid flags qci mu md gu gd cip uip di dm H Ldi Ldm Lc Lu) as Hfs.
  set (bi := bearer_items ebi uteid flags qci mu md gu gd uip) in *.
  set (its := request_items cteid up down cip di dm (slice 0 (4 + zlen (concat bi.*2)) ctx)) in *.
  exists its. do 2 (split; [done|]). split; [|split; [cbn; lia|split]].
  - apply Forall_forall. intros it Hin. pose proof Hits as Hits'. rewrite Forall_forall in Hits'.
    destruct (Hits' it Hin) as (_ & Hb & _). split; [done|]. intros Et. exists ctx, bi. do 3 (split; [done|]). split; [cbn; lia|].
    unfold its, request_items in Hin. repeat (apply elem_of_cons in Hin as [->|Hin]; [first [discriminate Et|reflexivity]|]).
    by apply elem_of_nil in Hin.
  - unfold its, request_items. cbn [fmap list_fmap snd concat]. rewrite !length_app, !Nat2Z.inj_add, !zlen_wire, Ldi, Ldm, Lbi.
    destruct (teid_value_fields 6 cteid cip Lc) as (_ & _ & ->). rewrite length_app, !length_be_store. destruct Hw as [Hsz _ _ _ _ _ _].
    rewrite zlen_slice by (rewrite ?Hsz; vm_compute; intuition congruence). vm_compute. reflexivity.
  - intros cs0 Hcs0. destruct (Hv cs0 Hcs0) as [Ev Hcs]. destruct (Hfs cs0 Hcs0) as (Fi & Fm & Hfields).
    eexists. split; [exact Ev|]. split; [exact Hcs|]. split.
    { unfold understood, got. cbn [flag set_ie or_flag]. rewrite <-!Z.lor_assoc. apply land_lor_superset. vm_compute. reflexivity. }
    destruct (Hcs imsi) as [Li _], (Hcs msisdn) as [Lm _].
    split; [apply (digits_get_field _ _ di); [done|done|done|by rewrite Li|done]|].
    split; [apply (digits_get_field _ _ dm); [done|done|done|by rewrite Lm|done]|]. done.
Qed.

(** ** Where the items of a message belong

    A table of the types and their fields, at the top of a message and in a bearer
    context, the flag of each field and the sizes an item for it may have. *)
Definition root_homes : list (Z * ie) :=
  [(GTPC_TYPE_IMSI, imsi); (GTPC_TYPE_CAUSE, cause); (GTPC_TYPE_RECOVERY, recovery); (GTPC_TYPE_APN_RESTRICTION, apn_r);
   (GTPC_TYPE_AMBR, ambr_r); (GTPC_TYPE_EBI, ebi_r); (GTPC_TYPE_MEI, mei); (GTPC_TYPE_MSISDN, msisdn); (GTPC_TYPE_PAA, paa);
   (GTPC_TYPE_BEARER_QOS, bqos_r); (GTPC_TYPE_RAT_TYPE, rat); (GTPC_TYPE_F_TEID, c_teid); (GTPC_TYPE_CHARGING_ID, charg);
   (GTPC_TYPE_PDN_TYPE, pdn)].
Definition bearer_homes : list (Z * ie) :=
  [(GTPC_TYPE_AMBR, ambr); (GTPC_TYPE_EBI, ebi_b); (GTPC_TYPE_BEARER_QOS, bqos); (GTPC_TYPE_F_TEID, u_teid)].
Definition flag_of (f : ie) : Z :=
  match f with
  | msisdn => HAVE_MSISDN | c_teid => HAVE_FTEID_C | u_teid => HAVE_FTEID_U | ambr => HAVE_AMBR | bqos => HAVE_BQOS
  | imsi => HAVE_IMSI | recovery => HAVE_RECOVERY | cause => HAVE_CAUSE | mei => HAVE_MEI | charg => HAVE_CHRGID
  | ebi_r => HAVE_EBI | pco => HAVE_PCO | paa => HAVE_PAA | apn_r => HAVE_APN_R | bqos_r => HAVE_BQOS_R
  | ebi_b => HAVE_EBI_B | ambr_r => HAVE_AMBR_R | pdn => HAVE_PDN | rat => HAVE_RAT | qos => 0
  end.
(** Numbers and addresses may be shorter than the field; an F-TEID may lack the twelve
    bytes a second address adds, a cause the offending item; else the size is the field's. *)
Definition size_fits (f : ie) (n : Z) : bool :=
  match f with
  | msisdn | imsi | mei | paa => n <=? sizeof_ie f
  | c_teid | u_teid => (n =? sizeof_ie f) || (n =? sizeof_ie f - 12)
  | cause => (n =? sizeof_ie f) || (n =? sizeof_ie f - 4)
  | _ => n =? sizeof_ie f
  end.
Definition filed (homes : list (Z * ie)) (it : Z * list Z) : list (ie * list Z) :=
  match find (fun h => it.1 =? h.1) homes with
  | Some (_, f) => if size_fits f (zlen it.2) then [(f, it.2)] else []
  | None => []
  end.

(** An item with its children: those of a bearer context. *)
Definition entry : Type := (Z * list Z) * list (Z * list Z).
Record entry_ok (e : entry) : Prop := {
  eo_tlv : tlv_ok e.1;
  eo_pco : e.1.1 <> GTPC_TYPE_PCO;
  eo_kids : if e.1.1 =? GTPC_TYPE_BEARER_CTX
            then exists block, ctx_wf block e.2.*2 /\ Forall tlv_ok e.2 /\ e.2 <> [] /\ (length e.2 <= 255)%nat /\
                   e.1.2 = slice 0 (4 + zlen (concat e.2.*2)) block
            else e.2 = [];
}.
(** What an entry brings, in order, and the flags it sets. *)
Definition arrivals (e : entry) : list (ie * list Z) :=
  if e.1.1 =? GTPC_TYPE_BEARER_CTX then e.2 ≫= filed bearer_homes else filed root_homes e.1.
Definition marks (e : entry) : list Z :=
  (if e.1.1 =? GTPC_TYPE_BEARER_CTX then [HAVE_BCTX] else []) ++ (flag_of <$> (arrivals e).*1).
Definition overlay (b : list Z) (items : list (list Z)) : list Z := foldl (fun b bs => splice 0 bs b) b items.
Definition of_field (f : ie) (l : list (ie * list Z)) : list (list Z) := (filter (fun a => a.1 = f) l).*2.

Definition file_all (cs : gtpc_parse_state) (l : list (ie * list Z)) : gtpc_parse_state :=
  foldl (fun c a => got (flag_of a.1) a.1 a.2 c) cs l.
Definition fits_all (l : list (ie * list Z)) : Prop := Forall (fun a => zlen a.2 <= sizeof_ie a.1 /\ bytes_ok a.2) l.
Lemma size_fits_le f n : size_fits f n = true -> n <= sizeof_ie f.
Proof. destruct f; cbn [size_fits]; intros H; to_prop; try lia; destruct H; to_prop; lia. Qed.
Lemma filed_fits homes it : bytes_ok it.2 -> fits_all (filed homes it).
Proof.
  intros Hb. unfold filed. destruct (find _ _) as [[t f]|]; [|constructor]. destruct (size_fits f _) eqn:Ef; [|constructor].
  constructor; [|constructor]. split; [by apply size_fits_le|done].
Qed.
Lemma file_all_wf l cs : fits_all l -> state_wf cs -> state_wf (file_all cs l).
Proof. intros Hl. revert cs. induction Hl as [|[f bs] l [H1 H2] _ IH]; intros cs Hw; [done|]. apply IH. by apply got_wf. Qed.
Lemma file_all_app cs l1 l2 : file_all cs (l1 ++ l2) = file_all (file_all cs l1) l2.
Proof. apply foldl_app. Qed.
Lemma file_all_ies l cs f : ies (file_all cs l) f = overlay (ies cs f) (of_field f l).
Proof.
  revert cs. induction l as [|[g bs] l IH]; intros cs; [done|]. unfold file_all, of_field in *. cbn [foldl]. rewrite IH.
  destruct (decide (g = f)) as [->|Hn].
  - rewrite filter_cons_True by done. cbn [fmap list_fmap overlay foldl]. unfold got. by rewrite ies_set_same.
  - rewrite filter_cons_False by done. by rewrite got_other.
Qed.
Lemma file_all_flag l cs : flag (file_all cs l) = foldl Z.lor (flag cs) (flag_of <$> l.*1) /\ flag_v1 (file_all cs l) = flag_v1 cs.
Proof. revert cs. induction l as [|[g bs] l IH]; intros cs; [done|]. unfold file_all in *. cbn [foldl fmap list_fmap fst snd]. destruct (IH (got (flag_of g) g bs cs)) as [-> ->]. done. Qed.

(** One item, by its type. *)
Lemma take_filed f bs cs : state_wf cs ->
  take_ie (size_fits f (zlen bs)) (flag_of f) f bs (zlen bs) cs = Ok (OK, file_all cs (if size_fits f (zlen bs) then [(f, bs)] else [])).
Proof.
  intros Hw. destruct (size_fits f (zlen bs)) eqn:Ef; [|done]. by apply take_ie_got; [|apply size_fits_le].
Qed.
Ltac by_type f := match goal with |- context [?t =? ?c] => destruct (Z.eqb_spec t c) as [->|?]; [match goal with H : state_wf _ |- _ => exact (take_filed f _ _ H) end|] end.
Lemma find_none (t : Z) (homes : list (Z * ie)) : Forall (fun h => t <> h.1) homes -> find (fun h => t =? h.1) homes = None.
Proof. induction 1 as [|h homes Hh _ IH]; [done|]. cbn [find]. by rewrite (proj2 (Z.eqb_neq _ _)). Qed.
Lemma bearer_item t bs cs : state_wf cs ->
  on_gtpc_parse_bearer_context t bs (zlen bs) cs = Ok (OK, file_all cs (filed bearer_homes (t, bs))).
Proof.
  intros Hw. unfold on_gtpc_parse_bearer_context. by_type u_teid. by_type bqos. by_type ebi_b. by_type ambr.
  unfold filed. rewrite find_none by (repeat constructor; done). done.
Qed.
Lemma root_item t bs cs : state_wf cs -> t <> GTPC_TYPE_PCO -> t <> GTPC_TYPE_BEARER_CTX ->
  on_gtpc_parse_root t bs (zlen bs) cs = Ok (OK, file_all cs (filed root_homes (t, bs))).
Proof.
  intros Hw Hp Hc. unfold on_gtpc_parse_root. by_type msisdn. by_type imsi. by_type recovery. by_type cause. by_type mei. by_type c_teid.
  by_type ambr_r. by_type charg. by_type ebi_r. by_type rat. rewrite (proj2 (Z.eqb_neq t GTPC_TYPE_PCO)) by done. by_type paa. by_type apn_r.
  by_type bqos_r. by_type pdn. rewrite (proj2 (Z.eqb_neq t GTPC_TYPE_BEARER_CTX)) by done.
  unfold filed. rewrite find_none by (repeat constructor; done). done.
Qed.
Lemma visit_bearer kids cs : state_wf cs -> Forall tlv_ok kids ->
  visit on_gtpc_parse_bearer_context kids cs = Ok (OK, file_all cs (kids ≫= filed bearer_homes)) /\ fits_all (kids ≫= filed bearer_homes).
Proof.
  intros Hw Hk. revert cs Hw. induction Hk as [|[t bs] kids (_ & Hb & _) _ IH]; intros cs Hw; [split; [done|constructor]|]. cbn [visit]. rewrite bearer_item by done.
  res_simpl. cbn [negb Z.eqb OK]. pose proof (filed_fits bearer_homes (t, bs) Hb) as Hf.
  destruct (IH (file_all cs (filed bearer_homes (t, bs)))) as [-> Hr]; [by apply file_all_wf|]. cbn [mbind list_bind]. split; [by rewrite file_all_app|].
  by apply Forall_app_2.
Qed.
(** An entry. *)
Definition filed_entry (cs : gtpc_parse_state) (e : entry) : gtpc_parse_state :=
  file_all (if e.1.1 =? GTPC_TYPE_BEARER_CTX then or_flag HAVE_BCTX cs else cs) (arrivals e).
Lemma root_entry e cs : state_wf cs -> entry_ok e ->
  on_gtpc_parse_root e.1.1 e.1.2 (zlen e.1.2) cs = Ok (OK, filed_entry cs e) /\ state_wf (filed_entry cs e).
Proof.
  intros Hw [Ht Hp Hk]. destruct e as [[t bs] kids]. unfold filed_entry, arrivals. cbn [fst snd] in *. destruct Ht as (_ & Hb & _).
  destruct (Z.eqb_spec t GTPC_TYPE_BEARER_CTX) as [->|Hn].
  - destruct Hk as (block & Hc & Ho & Hne & Hl & Eb). destruct (visit_bearer kids (or_flag HAVE_BCTX cs) Hw Ho) as [Ev Hf]. split; [|by apply file_all_wf].
    change (on_gtpc_parse_root GTPC_TYPE_BEARER_CTX bs (zlen bs) cs) with (gtpc_iterate_bearer_ctx_item on_gtpc_parse_bearer_context bs (or_flag HAVE_BCTX cs)).
    rewrite Eb, <-(app_nil_r (slice 0 _ block)), (ctx_iterate _ (fun _ => True));
      [exact Ev|apply bearer_context_local|exact Hc|exact Ho|by apply Forall_true|done|done|constructor].
  - split; [by apply root_item|]. apply file_all_wf; [by apply filed_fits|done].
Qed.
Lemma visit_entries es cs : state_wf cs -> Forall entry_ok es ->
  visit on_gtpc_parse_root es.*1 cs = Ok (OK, foldl filed_entry cs es) /\ state_wf (foldl filed_entry cs es).
Proof.
  intros Hw He. revert cs Hw. induction He as [|e es He _ IH]; intros cs Hw; [done|]. destruct (root_entry e cs Hw He) as [E Hw'].
  cbn [fmap list_fmap foldl]. destruct e as [[t bs] kids]. cbn [fst snd visit] in *. rewrite E. res_simpl. cbn [negb Z.eqb OK]. by apply IH.
Qed.
Lemma filed_entries_state es cs f :
  ies (foldl filed_entry cs es) f = overlay (ies cs f) (of_field f (es ≫= arrivals)) /\
  flag (foldl filed_entry cs es) = foldl Z.lor (flag cs) (es ≫= marks) /\ flag_v1 (foldl filed_entry cs es) = flag_v1 cs.
Proof.
  revert cs. induction es as [|e es IH]; intros cs; [done|]. cbn [foldl]. destruct (IH (filed_entry cs e)) as (-> & -> & ->). clear IH.
  unfold filed_entry. rewrite file_all_ies. destruct (file_all_flag (arrivals e) (if e.1.1 =? GTPC_TYPE_BEARER_CTX then or_flag HAVE_BCTX cs else cs)) as [-> ->].
  cbn [mbind list_bind]. unfold of_field, overlay. rewrite filter_app, fmap_app, !foldl_app. unfold marks at 2. rewrite foldl_app.
  by destruct (e.1.1 =? GTPC_TYPE_BEARER_CTX).
Qed.
Lemma entries_sound es : Forall entry_ok es -> Forall tlv_ok es.*1 /\ Forall sound_item es.*1.
Proof.
  intros He. split; apply Forall_fmap; (eapply Forall_impl; [exact He|]); intros e [Ht Hp Hk]; [exact Ht|]. cbn. destruct Ht as (_ & Hb & _).
  split; [exact Hb|]. intros Et. rewrite Et in Hk. change (GTPC_TYPE_BEARER_CTX =? GTPC_TYPE_BEARER_CTX) with true in Hk. destruct Hk as (block & H1 & H2 & H3 & H4 & H5).
  by exists block, e.2.
Qed.
Lemma overlay_last items bs b n : last items = Some bs -> zlen b = n -> Forall (fun x : list Z => zlen x <= n) items ->
  slice 0 (zlen bs) (overlay b items) = bs.
Proof.
  intros Hl Hb Hi. revert b Hb. induction Hi as [|x items Hx Hi IH]; intros b Hb; [done|]. cbn [overlay foldl].
  assert (Hs : zlen (splice 0 x b) = n) by (rewrite length_splice by lia; done). destruct items as [|y items].
  - injection Hl as ->. cbn [foldl]. apply slice_splice_same; lia.
  - apply IH; [exact Hl|done].
Qed.

Lemma filed_le homes it f x : (f, x) ∈ filed homes it -> zlen x <= sizeof_ie f.
Proof.
  unfold filed. destruct (find _ _) as [[t f']|]; [|by intros ?%elem_of_nil]. destruct (size_fits f' _) eqn:Ef; [|by intros ?%elem_of_nil].
  intros E%list_elem_of_singleton. injection E as -> ->. by apply size_fits_le.
Qed.
Lemma arrivals_fit es f : Forall (fun x => zlen x <= sizeof_ie f) (of_field f (es ≫= arrivals)).
Proof.
  unfold of_field. apply Forall_fmap, Forall_forall. intros [g x] [Hg Hin]%list_elem_of_filter. cbn in Hg |- *. subst g.
  apply list_elem_of_bind in Hin as (e & Hin & _). unfold arrivals in Hin. destruct (e.1.1 =? _); [|by eapply filed_le].
  apply list_elem_of_bind in Hin as (kid & Hin & _). by eapply filed_le.
Qed.

Module Properties.

(** C7: round trip of a whole message: a create session request built with the
    setters, appended to a packet, converted to bytes, received and parsed, is
    understood: every mandatory item is flagged present, and the parse state holds
    the subscriber numbers, tunnel identifiers, addresses and rates that went in. *)
Theorem create_session_understood (malloc : nat -> bool) (s : gtp_memory)
    (im ms cteid up down ebi uteid flags qci mu md gu gd : Z) (cip uip : list Z) :
  (forall n, malloc n = true) -> request_ok_args im ms ebi flags qci mu md gu gd cip uip ->
  exists its p0 s0 p s1 conv s2 p' s3 cs,
    create_session_request im ms cteid up down ebi uteid flags qci mu md gu gd cip uip = Ok its /\
    gtpc_alloc_packet malloc GTPC_CREATE_SESSION_REQ s = Ok (OK, Some p0, s0) /\
    append_all malloc (to_request <$> its) (Some p0, s0) = Ok (Some p, s1) /\
    gtpc_convert_to_packet malloc p s1 = Ok (Some conv, s2) /\
    gtpc_alloc_packet_from_payload malloc None (Some (data conv)) (datalen conv) s2 = Ok (OK, Some p', s3) /\
    gtpc_iterate_item on_gtpc_parse_root (Some p') parse_state0 = Ok (OK, cs) /\
    Z.land (flag cs) INCLUDED_ALL = INCLUDED_ALL /\
    gtpc_digits_get false (drop 4 (ies cs imsi)) GTPC_IMSI_LEN = Ok im /\
    gtpc_digits_get false (drop 4 (ies cs msisdn)) GTPC_MSISDN_LEN = Ok ms /\
    slice o_f_teid_key 4 (ies cs c_teid) = be_store 4 cteid /\ slice o_f_teid_blk 4 (ies cs c_teid) = cip /\
    slice o_f_teid_key 4 (ies cs u_teid) = be_store 4 uteid /\ slice o_f_teid_blk 4 (ies cs u_teid) = uip /\
    slice o_body 4 (ies cs ambr_r) = be_store 4 up /\ slice o_ambr_downlink 4 (ies cs ambr_r) = be_store 4 down.
Proof.
  intros Hm Ha. destruct (create_session_request_visits im ms cteid up down ebi uteid flags qci mu md gu gd cip uip Ha)
    as (its & E & Hits & Hs & Hk & Hl & Hv).
  destruct (built_message_parses malloc GTPC_CREATE_SESSION_REQ its s) as
    (p0 & s0 & p & s1 & conv & s2 & p' & s3 & E0 & E1 & E2 & _ & E3 & Ec & Hwp); [done..|].
  destruct (Hv parse_state0 parse_state0_wf) as (cs & Ev & _ & Hfl & Hcs).
  exists its, p0, s0, p, s1, conv, s2, p', s3, cs. do 5 (split; [done|]).
  split; [|split; [by apply (land_weaken _ _ _ Hfl)|done]]. rewrite (iterate_root_visit (gtpc_type_headerlen GTPC_CREATE_SESSION_REQ) 4), Ec by (rewrite ?Ec; done). done.
Qed.

Lemma create_session_understood_witness :
  exists its p0 s0 p s1 conv s2 p' s3 cs,
    create_session_request 440101234567890 819012345678 17 100 200 5 18 0 9 0 0 0 0 [10; 0; 0; 1] [10; 0; 0; 2] = Ok its /\
    gtpc_alloc_packet (fun _ => true) GTPC_CREATE_SESSION_REQ memory0 = Ok (OK, Some p0, s0) /\
    append_all (fun _ => true) (to_request <$> its) (Some p0, s0) = Ok (Some p, s1) /\
    gtpc_convert_to_packet (fun _ => true) p s1 = Ok (Some conv, s2) /\
    gtpc_alloc_packet_from_payload (fun _ => true) None (Some (data conv)) (datalen conv) s2 = Ok (OK, Some p', s3) /\
    gtpc_iterate_item on_gtpc_parse_root (Some p') parse_state0 = Ok (OK, cs) /\
    Z.land (flag cs) INCLUDED_ALL = INCLUDED_ALL /\
    gtpc_digits_get false (drop 4 (ies cs imsi)) GTPC_IMSI_LEN = Ok 440101234567890 /\
    gtpc_digits_get false (drop 4 (ies cs msisdn)) GTPC_MSISDN_LEN = Ok 819012345678 /\
    slice o_f_teid_key 4 (ies cs c_teid) = be_store 4 17 /\ slice o_f_teid_blk 4 (ies cs c_teid) = [10; 0; 0; 1] /\
    slice o_f_teid_key 4 (ies cs u_teid) = be_store 4 18 /\ slice o_f_teid_blk 4 (ies cs u_teid) = [10; 0; 0; 2] /\
    slice o_body 4 (ies cs ambr_r) = be_store 4 100 /\ slice o_ambr_downlink 4 (ies cs ambr_r) = be_store 4 200.
Proof.
  apply (create_session_understood (fun _ => true) _ 440101234567890 819012345678 17 100 200 5 18 0 9 0 0 0 0
           [10; 0; 0; 1] [10; 0; 0; 2]); [reflexivity|].
  constructor; try (unfold byte_ok; lia); try (split; [reflexivity|apply bytes_okb_ok; reflexivity]).
  repeat (apply Forall_cons_2; [lia|]). apply Forall_nil_2.
Defined.


(** A recovery item comes twice, then with a byte too many; an item of a type nobody
    knows and a bearer context with the identity of the bearer follow. *)
Definition recovery_again (n : Z) (extra : list Z) : list Z := [GTPC_TYPE_RECOVERY; 0; 1 + zlen extra; 0; n] ++ extra.
Definition bearer_identity : Z * list Z := (GTPC_TYPE_EBI, [GTPC_TYPE_EBI; 0; 1; 0; 5]).
Definition bearer_block : list Z := [GTPC_TYPE_BEARER_CTX; 0; 5; 0] ++ bearer_identity.2 ++ bzero (sizeof_bearer_child - 5) ++ [5; 0].
Definition filed_message : list entry :=
  [((GTPC_TYPE_RECOVERY, recovery_again 7 []), []); ((GTPC_TYPE_RECOVERY, recovery_again 8 []), []);
   ((GTPC_TYPE_RECOVERY, recovery_again 9 [1]), []); ((251, [251; 0; 2; 0; 1; 2]), []);
   ((GTPC_TYPE_BEARER_CTX, slice 0 9 bearer_block), [bearer_identity])].
Definition filed_payload : list Z :=
  let body := concat filed_message.*1.*2 in [0x48; 32] ++ be_store 2 (8 + zlen body) ++ bzero 8 ++ body.


(** the options of a configuration request: on a PCO item with any sequence of
    well-formed options that fits the structure, the parser visits each option once,
    in order, stays inside the structure, and flags exactly what the options ask
    for (addresses and MTU when the content is empty or a response is parsed, the
    name servers of an IPCP configuration). *)
Theorem pco_options_flagged (inst h : Z) (opts : list (Z * list Z)) (cs : gtpc_parse_state) :
  let bs := wire GTPC_TYPE_PCO inst (h :: concat (pco_option <$> opts)) in
  byte_ok inst -> byte_ok h -> Forall option_ok opts -> opts <> [] ->
  zlen (concat (pco_option <$> opts)) < GTPC_PCO_LEN -> state_wf cs ->
  on_gtpc_parse_root GTPC_TYPE_PCO bs (zlen bs) cs = Ok (OK, foldl option_effect (got HAVE_PCO pco bs cs) opts).
Proof.
  intros bs Hi Hh Ho Hne Hl Hw. set (e := concat (pco_option <$> opts)) in *. unfold GTPC_PCO_LEN in Hl.
  assert (He : bytes_ok e).
  { unfold e. clear -Ho. induction Ho as [|o opts (Hid & Hl & Hc & _) _ IH]; cbn [fmap list_fmap concat]; [constructor|].
    apply Forall_app_2; [|done]. unfold pco_option. apply Forall_app_2; [apply be_store_ok|]. constructor; [unfold byte_ok; lia|done]. }
  assert (Lb : zlen bs = 5 + zlen e) by (unfold bs; rewrite zlen_wire; cbn [length]; lia).
  assert (Hb : bytes_ok bs) by (apply wire_ok; [unfold byte_ok, GTPC_TYPE_PCO; lia|done|by constructor]).
  assert (Hg : state_wf (got HAVE_PCO pco bs cs)) by (apply got_wf; [done|done|unfold sizeof_ie, sizeof_gtpc_pco, GTPC_PCO_LEN; lia]).
  change (on_gtpc_parse_root GTPC_TYPE_PCO bs (zlen bs) cs) with
    (if sizeof_gtpc_pco <=? zlen bs then Ok (OK, cs) else
     cs ← copy_ie pco 0 bs 0 (zlen bs) (or_flag HAVE_PCO cs); l ← rd 2 (ies cs pco) o_ie_length;
     pco_loop false 255 (u64 (ntohs l - 2)) 0 cs).
  rewrite (proj2 (Z.leb_gt _ _)) by (unfold sizeof_gtpc_pco, GTPC_PCO_LEN; lia).
  assert (Ec : copy_ie pco 0 bs 0 (zlen bs) (or_flag HAVE_PCO cs) = Ok (got HAVE_PCO pco bs cs)).
  { destruct (Hw pco) as [Lp _]. unfold sizeof_ie, sizeof_gtpc_pco, GTPC_PCO_LEN in Lp. unfold copy_ie.
    rewrite rd_bytes_ok by lia. res_simpl. rewrite slice_0_all. rewrite wr_bytes_ok by (cbn; lia). done. }
  rewrite Ec. res_simpl. destruct (Hg pco) as [Lg Hgb]. unfold sizeof_ie, sizeof_gtpc_pco, GTPC_PCO_LEN in Lg.
  destruct (rd_be (ies (got HAVE_PCO pco bs cs) pco) o_ie_length) as (v & -> & Ev); [szlia|szlia|done|]. res_simpl.
  rewrite got_same in Ev by (done || (unfold sizeof_ie, sizeof_gtpc_pco, GTPC_PCO_LEN; szlia)).
  assert (Ev' : ntohs v = 1 + zlen e).
  { rewrite Ev. unfold bs, wire, o_ie_length. set (n := zlen (h :: e)).
    change (GTPC_TYPE_PCO :: be_store 2 n ++ inst :: h :: e) with ([GTPC_TYPE_PCO] ++ be_store 2 n ++ inst :: h :: e).
    rewrite slice_app_r by (cbn; lia). change (1 - zlen [GTPC_TYPE_PCO]) with 0. rewrite slice_app_l by (rewrite ?length_be_store; lia).
    change 2 with (zlen (be_store 2 n)) at 1. rewrite slice_0_all. unfold n. cbn [length]. rewrite be_store_load; cbn; lia. }
  pose proof (options_count opts) as Hcount. fold e in Hcount.
  assert (Hne' : 3 <= zlen e) by (destruct opts; [done|cbn [length] in Hcount; lia]).
  rewrite Ev', wrap_small by lia. replace (1 + zlen e - 2) with (0 + zlen e - 1) by lia. unfold e.
  apply pco_loop_options; fold e; [done|done|lia|lia|unfold o_pco; lia|].
  rewrite got_same by (unfold o_pco, sizeof_ie, sizeof_gtpc_pco, GTPC_PCO_LEN; (done || lia)).
  unfold bs. rewrite slice_wire by (unfold o_pco; lia). change (h :: e) with ([h] ++ e). unfold o_pco.
  rewrite slice_app_r by (cbn; lia). change (5 + 0 - 4 - zlen [h]) with 0. apply slice_0_all.
Qed.

Lemma pco_options_flagged_witness :
  let opts := [(GTPC_PCO_DNS, []); (GTPC_PCO_IPV4_LINK_MTU, []); (0x0023, [1; 2])] in
  let bs := wire GTPC_TYPE_PCO 0 (0x80 :: concat (pco_option <$> opts)) in
  on_gtpc_parse_root GTPC_TYPE_PCO bs (zlen bs) parse_state0 =
    Ok (OK, foldl option_effect (got HAVE_PCO pco bs parse_state0) opts).
Proof.
  intros opts. apply (pco_options_flagged 0 0x80 opts parse_state0); try (unfold byte_ok; lia).
  - unfold opts. repeat (apply Forall_cons_2;
      [split; [vm_compute; split; congruence|split; [reflexivity|split; [apply bytes_okb_ok; reflexivity|discriminate]]]|]). apply Forall_nil_2.
  - discriminate.
  - vm_compute. reflexivity.
  - apply parse_state0_wf.
Defined.

(** GTP-C version 1 sends the control and the user address as two items of the
    same type: the parser files the first as the control address and the second as
    the user address, and flags both. *)
Theorem v1_addresses_in_order (a b : list Z) (cs : gtpc_parse_state) :
  let gsn ip := GTPC_V1_IE_GSN_ADDRESS :: be_store 2 4 ++ ip in
  zlen a = 4 -> zlen b = 4 -> state_wf cs -> Z.land (flag_v1 cs) HAVE_V1_IPADR_CTRL = 0 ->
  exists cs1 cs2,
    on_gtpcv1_parse_root GTPC_V1_IE_GSN_ADDRESS (Some (gsn a)) 4 cs = Ok (OK, cs1) /\
    on_gtpcv1_parse_root GTPC_V1_IE_GSN_ADDRESS (Some (gsn b)) 4 cs1 = Ok (OK, cs2) /\
    slice o_f_teid_blk 4 (ies cs2 c_teid) = a /\ slice o_f_teid_blk 4 (ies cs2 u_teid) = b /\
    flag_v1 cs2 = Z.lor (flag_v1 cs) (Z.lor HAVE_V1 (Z.lor HAVE_V1_IPADR_CTRL HAVE_V1_IPADR_DATA)).
Proof.
  intros gsn La Lb Hw Hf. destruct (Hw c_teid) as [Lc _], (Hw u_teid) as [Lu _].
  change (sizeof_ie c_teid) with 25 in Lc. change (sizeof_ie u_teid) with 25 in Lu.
  assert (Hcopy : forall f ip c, zlen ip = 4 -> zlen (ies c f) = 25 ->
    copy_ie f o_f_teid_blk (gsn ip) 3 4 c = Ok (set_ie f (splice o_f_teid_blk ip (ies c f)) c)).
  { intros f ip c Lip Lf. unfold copy_ie, gsn. destruct (be_store_2 4) as (x & y & ->).
    change (GTPC_V1_IE_GSN_ADDRESS :: [x; y] ++ ip) with ([GTPC_V1_IE_GSN_ADDRESS; x; y] ++ ip).
    rewrite rd_bytes_ok by (rewrite ?length_app; cbn [length]; lia). res_simpl. rewrite slice_app_r by (cbn; lia).
    change (3 - zlen [GTPC_V1_IE_GSN_ADDRESS; x; y]) with 0. replace 4 with (zlen ip) at 1 by lia. rewrite slice_0_all.
    rewrite wr_bytes_ok by (unfold o_f_teid_blk; lia). done. }
  assert (Hstep : forall f ip c, flag_v1 c = f ->
    on_gtpcv1_parse_root GTPC_V1_IE_GSN_ADDRESS (Some (gsn ip)) 4 c =
      (if negb (Z.land (Z.lor f HAVE_V1) HAVE_V1_IPADR_CTRL =? 0)
       then cs ← copy_ie u_teid o_f_teid_blk (gsn ip) 3 4 (or_flag_v1 HAVE_V1_IPADR_DATA (or_flag_v1 HAVE_V1 c)); Ok (OK, cs)
       else cs ← copy_ie c_teid o_f_teid_blk (gsn ip) 3 4 (or_flag_v1 HAVE_V1_IPADR_CTRL (or_flag_v1 HAVE_V1 c)); Ok (OK, cs))).
  { intros f ip c <-. reflexivity. }
  set (c1 := or_flag_v1 HAVE_V1_IPADR_CTRL (or_flag_v1 HAVE_V1 cs)).
  set (cs1 := set_ie c_teid (splice o_f_teid_blk a (ies c1 c_teid)) c1).
  set (c2 := or_flag_v1 HAVE_V1_IPADR_DATA (or_flag_v1 HAVE_V1 cs1)).
  exists cs1, (set_ie u_teid (splice o_f_teid_blk b (ies c2 u_teid)) c2). split; [|split].
  - rewrite (Hstep (flag_v1 cs)) by done. rewrite Z.land_lor_distr_l, Hf.
    change (negb (Z.lor 0 (Z.land HAVE_V1 HAVE_V1_IPADR_CTRL) =? 0)) with false. cbn match. fold c1.
    rewrite (Hcopy c_teid a c1 La Lc). reflexivity.
  - rewrite (Hstep (flag_v1 cs1)) by done. rewrite (proj2 (Z.eqb_neq _ 0)); cbn [negb].
    2: { change (flag_v1 cs1) with (Z.lor (Z.lor (flag_v1 cs) HAVE_V1) HAVE_V1_IPADR_CTRL).
         rewrite !Z.land_lor_distr_l, Hf. vm_compute. done. }
    fold c2. rewrite (Hcopy u_teid b c2 Lb Lu). reflexivity.
  - cbn. split; [by apply slice_splice_eq; unfold o_f_teid_blk; lia|].
    split; [rewrite !decide_True, !decide_False by done; by apply slice_splice_eq; unfold o_f_teid_blk; lia|].
    rewrite <-!Z.lor_assoc. f_equal.
Qed.

Lemma v1_addresses_in_order_witness :
  let gsn ip := GTPC_V1_IE_GSN_ADDRESS :: be_store 2 4 ++ ip in
  exists cs1 cs2,
    on_gtpcv1_parse_root GTPC_V1_IE_GSN_ADDRESS (Some (gsn [10; 0; 0; 1])) 4 parse_state0 = Ok (OK, cs1) /\
    on_gtpcv1_parse_root GTPC_V1_IE_GSN_ADDRESS (Some (gsn [10; 0; 0; 2])) 4 cs1 = Ok (OK, cs2) /\
    slice o_f_teid_blk 4 (ies cs2 c_teid) = [10; 0; 0; 1] /\ slice o_f_teid_blk 4 (ies cs2 u_teid) = [10; 0; 0; 2] /\
    flag_v1 cs2 = Z.lor 0 (Z.lor HAVE_V1 (Z.lor HAVE_V1_IPADR_CTRL HAVE_V1_IPADR_DATA)).
Proof.
  apply (v1_addresses_in_order [10; 0; 0; 1] [10; 0; 0; 2] parse_state0); [reflexivity|reflexivity|apply parse_state0_wf|reflexivity].
Defined.

(** the private extension carries, in this order, the user-plane address and
    tunnel key of the serving gateway, the address and tunnel identifier of the
    user and the address of this gateway, in an item of 32 bytes. *)
Theorem private_extension_layout (cs : gtpc_parse_state) :
  state_wf cs -> zlen (ue_ipv_n cs) = 4 -> zlen (pgw_u_ipv_n cs) = 4 ->
  gtpc_private_extension_set cs =
    Ok (OK, [255; 0; 28; 0; 0; 0; 0; 0; 0xaf; 0xbe; 0xad; 0xde] ++ slice o_f_teid_blk 4 (ies cs u_teid) ++
            slice o_f_teid_key 4 (ies cs u_teid) ++ ue_ipv_n cs ++ le_store 4 (pgw_teid cs) ++ pgw_u_ipv_n cs).
Proof.
  intros Hw Lu Lp. destruct (Hw u_teid) as [Lt Ht]. change (sizeof_ie u_teid) with 25 in Lt.
  unfold gtpc_private_extension_set. rewrite rd_ok by (unfold o_f_teid_key; lia).
  rewrite !rd_bytes_ok by (unfold o_f_teid_blk; lia). res_simpl. unfold wr.
  change (Z.of_nat 4) with 4.
  assert (Lk : length (slice o_f_teid_key 4 (ies cs u_teid)) = 4%nat) by (rewrite length_slice; unfold o_f_teid_key; lia).
  assert (Ek := le_store_load _ (Forall_slice byte_ok o_f_teid_key 4 _ Ht)). rewrite Lk in Ek. rewrite Ek.
  assert (Lb : length (slice o_f_teid_blk 4 (ies cs u_teid)) = 4%nat) by (rewrite length_slice; unfold o_f_teid_blk; lia).
  replace (slice 0 4 (ue_ipv_n cs)) with (ue_ipv_n cs) by (rewrite <-Lu; symmetry; apply slice_0_all).
  replace (slice 0 4 (pgw_u_ipv_n cs)) with (pgw_u_ipv_n cs) by (rewrite <-Lp; symmetry; apply slice_0_all).
  destruct (slice o_f_teid_blk 4 (ies cs u_teid)) as [|? [|? [|? [|? [|]]]]]; cbn [length] in Lb; try lia.
  destruct (slice o_f_teid_key 4 (ies cs u_teid)) as [|? [|? [|? [|? [|]]]]]; cbn [length] in Lk; try lia.
  destruct (ue_ipv_n cs) as [|? [|? [|? [|? [|]]]]]; cbn [length] in Lu; try lia.
  destruct (pgw_u_ipv_n cs) as [|? [|? [|? [|? [|]]]]]; cbn [length] in Lp; try lia.
  cbn [le_store]. reflexivity.
Qed.

Lemma private_extension_layout_witness :
  gtpc_private_extension_set parse_state0 = Ok (OK, [255; 0; 28; 0; 0; 0; 0; 0; 0xaf; 0xbe; 0xad; 0xde] ++ bzero 20).
Proof. apply (private_extension_layout parse_state0); [apply parse_state0_wf|reflexivity|reflexivity]. Defined.

(** An empty PCO (only its header byte) makes the unsigned option length wrap, and
    the option loop runs behind the structure. *)
Theorem empty_pco_overreads :
  on_gtpc_parse_root GTPC_TYPE_PCO [78; 0; 1; 0; 0x80] 5 parse_state0 = Fault Undefined.
Proof. vm_compute. reflexivity. Qed.

(** The version 1 branch compares the value alone with the size of the version 2
    structure: a value of 255 bytes passes, and is copied over the end of the field. *)
Theorem v1_pco_overruns :
  on_gtpcv1_parse_root GTPC_V1_IE_PCO (Some (GTPC_V1_IE_PCO :: be_store 2 255 ++ bzero 255)) 255 parse_state0 = Fault Undefined.
Proof. vm_compute. reflexivity. Qed.
End Properties.
