(* ===== verification/CtrlNode.v ===== *)
(** * Control plane: node queues, peer cache, properties, receive path

    ctrlplane/src/cmn: the two packet queues of a node ([pgw_enq], [pgw_deq_burst]),
    the cache of serving gateways ([pgw_create_sgw_peers] and its companions, the
    list build), the properties of an instance, [pgw_send]; the receive callback of
    cmn/start.c and the routing of received packets in pgw/event/event_rx.c.

    Every access to a queue or a list happens under its mutex, so an operation is
    one step.  As in Gtpc, [malloc n] says whether the n-th allocation succeeds.
    A [sockaddr_in] is its 16 bytes. *)

From S2P Require Import Prelude TextParse Gtpc.

(** ** Constants *)
Definition NOTFOUND := -2.
Definition ON := 0x80000000.
Definition RING_SIZE_MAX := 20 * 1024.
Definition PCKTLEN_UDP := 2048.
Definition GTPC_PORT := 2123.
Definition GTPU1_PORT := 2152.
Definition GTPC_V1_NSE_MASK := 7.
Definition PGWSEND_RETRY_CNT := 10.

(** The build option of the control plane: one or two create session nodes. *)
Class CtrlBuild := { SINGLE_CREATE_SESSION : bool }.

Section node_index.
Context `{B : CtrlBuild}.
Definition PGW_NODE_GTPU_ECHO_REQ : nat := 0.
Definition PGW_NODE_GTPC_ECHO_REQ : nat := 1.
Definition PGW_NODE_TIMER : nat := 2.
Definition PGW_NODE_GTPC_CREATE_SESSION_REQ : nat := 3.
Definition PGW_NODE_GTPC_CREATE_SESSION_REQ_MAX : nat := if SINGLE_CREATE_SESSION then 4 else 5.
Definition PGW_NODE_GTPC_MODIFY_BEARER_REQ : nat := PGW_NODE_GTPC_CREATE_SESSION_REQ_MAX.
Definition PGW_NODE_GTPC_OTHER_REQ : nat := S PGW_NODE_GTPC_MODIFY_BEARER_REQ.
Definition PGW_NODE_GTPU_OTHER_REQ : nat := S PGW_NODE_GTPC_OTHER_REQ.
Definition PGW_NODE_TX : nat := S PGW_NODE_GTPU_OTHER_REQ.
Definition PGW_NODE_COUNT : nat := S PGW_NODE_TX.
End node_index.

(** ** Queues *)
Inductive ORDERBY := INGRESS | EGRESS.
#[export] Instance orderby_eq_dec : EqDecision ORDERBY.
Proof. solve_decision. Defined.

(** A queue with its drop and element counters ([size_t]). *)
Record queue := mk_queue { q_packets : list packet_t; q_drops : Z; q_count : Z }.
(** The queues of a node. *)
Record node := mk_node { ingress : queue; egress : queue }.
Definition queue0 : queue := mk_queue [] 0 0.
Definition node0 : node := mk_node queue0 queue0.
Definition queue_of (order : ORDERBY) (n : node) : queue :=
  match order with INGRESS => ingress n | EGRESS => egress n end.
Definition set_queue (order : ORDERBY) (q : queue) (n : node) : node :=
  match order with INGRESS => mk_node q (egress n) | EGRESS => mk_node (ingress n) q end.

Definition enq_queue (packet : packet_t) (q : queue) : queue :=
  if RING_SIZE_MAX <=? q_count q then mk_queue (q_packets q) (u64 (q_drops q + 1)) (q_count q)
  else mk_queue (q_packets q ++ [packet]) (q_drops q) (u64 (q_count q + 1)).
Definition pgw_enq (order : ORDERBY) (packet : packet_t) (n : node) : Z * node :=
  (OK, set_queue order (enq_queue packet (queue_of order n)) n).

(** The removal loop: it tests the burst length after it has taken a packet. *)
Fixpoint deq_loop (length ret : Z) (q : list packet_t) : list packet_t * list packet_t :=
  match q with
  | [] => ([], [])
  | cur :: q =>
    let ret := ret + 1 in
    if length <=? ret then ([cur], q)
    else let '(l, q) := deq_loop length ret q in (cur :: l, q)
  end.
Definition deq_queue (length : Z) (q : queue) : list packet_t * queue :=
  let '(l, rest) := deq_loop length 0 (q_packets q) in
  (l, mk_queue rest (q_drops q) (u64 (q_count q - zlen l))).
Definition pgw_deq_burst (order : ORDERBY) (length : Z) (n : node) : list packet_t * node :=
  let '(l, q) := deq_queue length (queue_of order n) in (l, set_queue order q n).

(** ** The cache of serving gateways *)
Record sgw_peer := mk_peer { ip : Z; counter : Z; expire : Z }.
Record sgw_peers := mk_peers { peers : list sgw_peer; p_count : Z; updated : Z }.

Section cache.
Variable malloc : nat -> bool.
Implicit Types (s : gtp_memory).

Definition pgw_create_sgw_peers (now : Z) s : Z * option sgw_peers * gtp_memory :=
  if malloc (mallocs s) then (OK, Some (mk_peers [] 0 (u32 now)), next_malloc s)
  else (ERR, None, next_malloc s).
Definition pgw_free_sgw_peers (pp : option sgw_peers) : Z * option sgw_peers :=
  match pp with None => (ERR, None) | Some _ => (OK, None) end.

(** The update loop: the first entry of the address, if there is one. *)
Fixpoint update_peer (f : sgw_peer -> sgw_peer) (ip_ : Z) (l : list sgw_peer) : option (list sgw_peer) :=
  match l with
  | [] => None
  | p :: l => if ip p =? ip_ then Some (f p :: l) else cons p <$> update_peer f ip_ l
  end.
Definition pgw_set_sgw_peer (pp : option sgw_peers) (ip_ counter_ expire_ : Z) s : Z * option sgw_peers * gtp_memory :=
  match pp with
  | None => (ERR, pp, s)
  | Some t =>
    if ip_ =? 0 then (ERR, pp, s) else
    match update_peer (fun p => mk_peer (ip p) counter_ expire_) ip_ (peers t) with
    | Some l => (OK, Some (mk_peers l (p_count t) (updated t)), s)
    | None =>
      if malloc (mallocs s) then
        (OK, Some (mk_peers (peers t ++ [mk_peer ip_ counter_ expire_]) (u32 (p_count t + 1)) (updated t)), next_malloc s)
      else (ERR, pp, next_malloc s)
    end
  end.

(** The callback may write to the entry it gets. *)
Section get.
Context {U : Type} (callback : U -> sgw_peer -> U * sgw_peer).
Fixpoint visit_all (l : list sgw_peer) (u : U) : list sgw_peer * U :=
  match l with
  | [] => ([], u)
  | p :: l => let '(u, p) := callback u p in let '(l, u) := visit_all l u in (p :: l, u)
  end.
Fixpoint visit_one (ip_ : Z) (l : list sgw_peer) (u : U) : bool * list sgw_peer * U :=
  match l with
  | [] => (false, [], u)
  | p :: l =>
    if ip p =? ip_ then let '(u, p) := callback u p in (true, p :: l, u)
    else let '(e, l, u) := visit_one ip_ l u in (e, p :: l, u)
  end.
Definition pgw_get_sgw_peer (pp : option sgw_peers) (ip_ : Z) (u : U) : Z * option sgw_peers * U :=
  match pp with
  | None => (ERR, pp, u)
  | Some t =>
    let '(exists_, l, u) :=
      if ip_ =? 2 ^ 32 - 1 then let '(l, u) := visit_all (peers t) u in (negb (zlen l =? 0), l, u)
      else visit_one ip_ (peers t) u in
    (if exists_ : bool then OK else ERR, Some (mk_peers l (p_count t) (updated t)), u)
  end.
End get.

Fixpoint remove_peer (ip_ : Z) (l : list sgw_peer) : list sgw_peer :=
  match l with
  | [] => []
  | p :: l => if ip p =? ip_ then l else p :: remove_peer ip_ l
  end.
Definition pgw_delete_sgw_peer (pp : option sgw_peers) (ip_ : Z) : Z * option sgw_peers :=
  match pp with
  | None => (ERR, pp)
  | Some t => (OK, Some (mk_peers (remove_peer ip_ (peers t)) (p_count t) (updated t)))
  end.

(** ** Properties: identifier, length and the copy of the value with its NUL *)
Record property := mk_property { id : Z; p_data : list Z; p_length : Z }.
Fixpoint remove_property (id_ : Z) (l : list property) : list property :=
  match l with
  | [] => []
  | p :: l => if id p =? id_ then l else p :: remove_property id_ l
  end.
(** [value] is the block from the pointer on. *)
Definition pgw_set_property (pinst : option (list property)) (id_ : Z) (value : option (list Z)) (length : Z) s
    : res (Z * option (list property) * gtp_memory) :=
  match pinst, value with
  | Some l, Some v =>
    if length =? 0 then Ok (ERR, pinst, s) else
    let l := remove_property id_ l in
    if negb (malloc (mallocs s)) then Ok (ERR, Some l, next_malloc s) else
    let s := next_malloc s in
    if negb (malloc (mallocs s)) then Ok (ERR, Some l, next_malloc s) else
    d ← rd_bytes length v 0;
    b ← wr_bytes (bzero (length + 1)) 0 d;
    Ok (OK, Some (l ++ [mk_property id_ b length]), next_malloc s)
  | _, _ => Ok (ERR, pinst, s)
  end.
Fixpoint pgw_get_property (l : list property) (id_ : Z) : option (list Z * Z) :=
  match l with
  | [] => None
  | it :: l => if id it =? id_ then Some (p_data it, p_length it) else pgw_get_property l id_
  end.
End cache.

(** ** Servers and the instance *)
Record server := mk_server {
  srv_addr : list Z;        (* sockaddr_in *)
  srv_sock : Z;
  srv_port : Z;
  srv_ip : cstring;
  server_id : cstring;
}.
Record handle := mk_handle {
  flags : Z;
  nodes : list node;
  server_gtpc : server;
  server_gtpu : server;
  ext_set_num : Z;
  pgw_unit_num : Z;
}.
Definition set_nodes (l : list node) (h : handle) : handle :=
  mk_handle (flags h) l (server_gtpc h) (server_gtpu h) (ext_set_num h) (pgw_unit_num h).
Definition sin_port (a : list Z) : list Z := slice 2 2 a.
Definition sin_addr (a : list Z) : list Z := slice 4 4 a.

(** [pgw_enq] on a node of the instance; its callers panic on an error. *)
Definition enq_node (k : nat) (order : ORDERBY) (p : packet_t) (h : handle) : res (Z * handle) :=
  n ← deref (nodes h !! k);
  let '(rc, n) := pgw_enq order p n in
  if negb (rc =? OK) then Fault RtePanic else Ok (rc, set_nodes (<[k := n]> (nodes h)) h).

(** ** Receiving: [__on_receive] of cmn/start.c

    [rbuf] is the uninitialised buffer on the stack, [dgram] the datagram at the
    head of the socket.  The result is what the callback gets, or nothing. *)
Definition recvfrom (rbuf dgram : list Z) (n : Z) : res (Z * list Z) :=
  let bs := take (Z.to_nat n) dgram in
  b ← wr_bytes rbuf 0 bs; Ok (zlen bs, b).
Definition on_receive (pserver : server) (rbuf dgram : list Z) : res (option (list Z * Z)) :=
  '(rlen, rbuf) ← recvfrom rbuf dgram (sizeof_gtpc_header - 4);
  if negb (rlen =? sizeof_gtpc_header - 4) then Ok None else
  l ← rd 2 rbuf o_length;
  if (ntohs l <? 4) || (ETHER_MAX_LEN <? ntohs l) then Ok None else
  len ← (if srv_port pserver =? GTPU1_PORT then
           v ← gtpu_validate_header rbuf;
           if negb (v =? OK) then Ok None else Ok (Some (8 + ntohs l))
         else if srv_port pserver =? GTPC_PORT then
           v ← gtpc_validate_header rbuf;
           if negb (v =? OK) then Ok None else Ok (Some (4 + ntohs l))
         else Ok (Some sizeof_gtpc_header));
  match len with
  | None => Ok None
  | Some len =>
    '(rlen, rbuf) ← recvfrom rbuf dgram len;
    if (rlen <? 4) || negb (rlen =? len) then Ok None else Ok (Some (rbuf, rlen))
  end.

(** ** Routing: event_rx.c *)
Section rx.
Context `{B : CtrlBuild} (malloc : nat -> bool).

Definition rx_route (port : Z) (b : list Z) : res (option nat) :=
  if port =? GTPU1_PORT then
    f ← rd 1 b o_flags;
    if bf_get 5 3 f =? GTPU_VERSION_1 then
      t ← rd 1 b o_type;
      Ok (Some (if (t =? GTPU_ECHO_REQ) || (t =? GTPU_ECHO_RES) then PGW_NODE_GTPU_ECHO_REQ
                else PGW_NODE_GTPU_OTHER_REQ))
    else Ok None
  else if port =? GTPC_PORT then
    f ← rd 1 b o_flags;
    if v2_version f =? GTPC_VERSION_2 then
      t ← rd 1 b o_type;
      if is_echo t then Ok (Some PGW_NODE_GTPC_ECHO_REQ) else
      if t =? GTPC_CREATE_SESSION_REQ then
        q ← rd 4 b 8;
        Ok (Some (PGW_NODE_GTPC_CREATE_SESSION_REQ + Z.to_nat (q mod
              Z.of_nat (PGW_NODE_GTPC_CREATE_SESSION_REQ_MAX - PGW_NODE_GTPC_CREATE_SESSION_REQ)))%nat) else
      if t =? GTPC_MODIFY_BEARER_REQ then Ok (Some PGW_NODE_GTPC_MODIFY_BEARER_REQ) else
      if existsb (Z.eqb t) [GTPC_DELETE_SESSION_REQ; GTPC_DELETE_BEARER_REQ; GTPC_SUSPEND_NOTIFICATION;
                            GTPC_RESUME_NOTIFICATION] then Ok (Some PGW_NODE_GTPC_OTHER_REQ) else Ok None
    else if bf_get 5 3 f =? GTPC_VERSION_1 then
      if negb (Z.land f GTPC_V1_NSE_MASK =? 0) then Ok (Some PGW_NODE_GTPC_OTHER_REQ) else Ok None
    else Ok None
  else Ok None.

Definition event_rx (pinst : handle) (d : list Z) (len : Z) (saddr : list Z) (saddrlen : Z)
    (caddr : list Z) (caddrlen : Z) (pserver : server) (s : gtp_memory) : res (Z * handle * gtp_memory) :=
  if Z.land (flags pinst) ON =? ON then
    match pgw_alloc_packet malloc len s with
    | (rc, None, s) => Fault RtePanic
    | (rc, Some pkt, s) =>
      bs ← rd_bytes len d 0; b ← wr_bytes (data pkt) 0 bs;
      sa ← copy_addr (p_saddr pkt) saddr sizeof_sockaddr_in;
      ca ← copy_addr (p_caddr pkt) caddr sizeof_sockaddr_in;
      let pkt := mk_packet_t (datalen pkt) b sa saddrlen ca caddrlen in
      k ← rx_route (srv_port pserver) b;
      match k with
      | Some k => '(rc, h) ← enq_node k INGRESS pkt pinst; Ok (rc, h, s)
      | None => Ok (ERR, pinst, (pgw_free_packet (Some pkt) s).2)
      end
    end
  else Ok (ERR, pinst, s).
End rx.

(** ** The database

    The MySQL client is a parameter: what [mysql_query] returns for a statement,
    whether resetting a prepared statement and binding its key succeed, and the
    rows its execution fetches (nothing when it fails before the first fetch). *)
Inductive stmt :=
| CREATE_SESSION_IMSI_LOOKUP | CREATE_SESSION_MSISDN_LOOKUP | MODIFY_BEARER_LOOKUP | DELETE_SESSION_LOOKUP
| DELETE_SESSION_LOOKUP_V1 | ICMPV6_RA_LOOKUP | KEEPALIVE_LOOKUP.
(** [record_t]: a number, or a string of at most 511 characters. *)
Inductive record := NVal (n : Z) | SVal (s : cstring).
(** The two views of the union; the rest of it is zero. *)
Definition nval (r : record) : Z :=
  match r with NVal n => n | SVal s => le_load (take 8 s) end.
Definition sval (r : record) : cstring :=
  match r with SVal s => s | NVal n => until_nul (le_store 8 n) end.

Class Database (D : Type) := {
  db_query : cstring -> D -> Z * D;
  db_bind : stmt -> Z -> D -> bool;
  db_select : stmt -> Z -> D -> option (list (list record)) * D;
}.

(** [pgw_mysql_execute]: the callback on every row; its result is not looked at. *)
Definition pgw_mysql_execute {D U} `{Database D} (st : stmt) (key : Z) (callback : list record -> U -> U) (u : U) (db : D)
    : Z * U * D :=
  match db_select st key db with
  | (None, db) => (ERR, u, db)
  | (Some rows, db) => (OK, foldl (fun u r => callback r u) u rows, db)
  end.

(** [inet_ntoa] of the four bytes of an [in_addr]; [%d]. *)
Definition inet_ntoa (a : list Z) : cstring :=
  match a with
  | [x; y; z; u] => print_u x ++ lit "." ++ print_u y ++ lit "." ++ print_u z ++ lit "." ++ print_u u
  | _ => []
  end.
Definition print_int (v : Z) : cstring := if v <? 0 then lit "-" ++ print_u (- v) else print_u v.

Definition KEEPALIVE_STAT_ERR := -1.
Definition KEEPALIVE_STAT_WAIT := 1.
Definition KEEPALIVE_STAT_OK := 2.
Definition INVALID_STATUS_SQL (stat : Z) (src_ip : cstring) (src_port : Z) (id_ : cstring) : cstring :=
  lit "UPDATE  keepalive SET stat = " ++ print_int stat ++ lit ", updated_at = NOW() WHERE src_ip='" ++ src_ip ++
  lit "' AND src_port= " ++ print_u src_port ++ lit " AND server_id='" ++ id_ ++ lit "' ".
Definition CHANGE_STATUS_SQL (stat : Z) (src_ip : cstring) (src_port : Z) (dst_ip : cstring) (dst_port : Z)
    (id_ : cstring) : cstring :=
  lit "UPDATE  keepalive SET stat = " ++ print_int stat ++ lit ", updated_at = NOW() WHERE src_ip='" ++ src_ip ++
  lit "' AND src_port= " ++ print_u src_port ++ lit " AND  dst_ip='" ++ dst_ip ++ lit "' AND dst_port= " ++
  print_u dst_port ++ lit " AND server_id='" ++ id_ ++ lit "' ".

(** ** Sending: cmn/send.c and event_tx.c

    [env n] is what the n-th round of a send loop sees: [select] failed (interrupted
    or not), timed out, or returned a descriptor set, with the result of [sendto]
    when the socket is in it.  [wire] is what has been sent: socket, destination,
    bytes. *)
Inductive send_round :=
| SelFailed (eintr : bool)
| SelTimeout
| SelReady (isset : bool) (sent : Z).
Abbreviation datagrams := (list (Z * list Z * list Z)).

Section tx.
Variable env : nat -> send_round.

Fixpoint send_loop (fuel : nat) (sock : Z) (caddr : list Z) (d : list Z) (n : nat) (retrycnt allsend : Z)
    (wire : datagrams) : res (Z * nat * datagrams) :=
  match fuel with
  | O => Fault Undefined
  | S fuel =>
    if PGWSEND_RETRY_CNT <? retrycnt then Ok (ERR, S n, wire) else
    let retrycnt := retrycnt + 1 in
    match env n with
    | SelFailed true => send_loop fuel sock caddr d (S n) retrycnt allsend wire
    | SelFailed false => Ok (ERR, S n, wire)
    | SelTimeout => Ok (OK, S n, wire)
    | SelReady false _ => send_loop fuel sock caddr d (S n) retrycnt allsend wire
    | SelReady true sent =>
      let sendlen := Z.min sent (zlen d - allsend) in
      if sendlen <? 0 then Ok (ERR, S n, wire) else
      let wire := wire ++ [(sock, caddr, slice allsend sendlen d)] in
      let allsend := allsend + sendlen in
      if zlen d <=? allsend then Ok (OK, S n, wire)
      else send_loop fuel sock caddr d (S n) retrycnt allsend wire
    end
  end.
(** Twelve rounds are enough: the twelfth finds the retry count exceeded. *)
Definition pgw_send_sock (sock : Z) (caddr d : list Z) (n : nat) (wire : datagrams) :=
  send_loop 12 sock caddr d n 0 0 wire.
Definition pgw_send (pinst : handle) (saddr caddr d : list Z) (n : nat) (wire : datagrams)
    : res (Z * nat * datagrams) :=
  let is_server srv := bool_decide (sin_addr (srv_addr srv) = sin_addr saddr) &&
                       bool_decide (sin_port (srv_addr srv) = sin_port saddr) in
  if is_server (server_gtpc pinst) then send_loop 12 (srv_sock (server_gtpc pinst)) caddr d n 0 0 wire else
  if is_server (server_gtpu pinst) then send_loop 12 (srv_sock (server_gtpu pinst)) caddr d n 0 0 wire else
  Ok (NOTFOUND, n, wire).

Context {D : Type} `{Database D} `{B : CtrlBuild}.
(** The sockets of the transmit node. *)
Record txnode_ext := mk_txnode { sock_gtpc : Z; sock_gtpu : Z }.

(** What a round of [event_tx] works on; [tx_ret] is the result of the last send. *)
Record tx_state := mk_tx { tx_db : D; tx_mem : gtp_memory; tx_ret : Z; tx_round : nat; tx_wire : datagrams }.

(** The timer node's packets leave through the sockets of the transmit node. *)
Definition tx_send (pinst : handle) (tnep : txnode_ext) (timer : bool) (pkt : packet_t) (x : tx_state)
    : res tx_state :=
  let d := take (Z.to_nat (datalen pkt)) (data pkt) in
  '(ret, n, wire) ←
    (if timer then
       let '(sock, ret) :=
         if bool_decide (sin_port (p_saddr pkt) = le_store 2 (htons GTPU1_PORT)) then (sock_gtpu tnep, tx_ret x)
         else if bool_decide (sin_port (p_saddr pkt) = le_store 2 (htons GTPC_PORT)) then (sock_gtpc tnep, tx_ret x)
         else (-1, NOTFOUND) in
       if negb (sock =? -1) then pgw_send_sock sock (p_caddr pkt) d (tx_round x) (tx_wire x)
       else Ok (ret, tx_round x, tx_wire x)
     else pgw_send pinst (p_saddr pkt) (p_caddr pkt) d (tx_round x) (tx_wire x));
  Ok (mk_tx (tx_db x) (tx_mem x) ret n wire).
Definition tx_one (pinst : handle) (tnep : txnode_ext) (timer : bool) (x : tx_state) (pkt : packet_t) : res tx_state :=
  x ← tx_send pinst tnep timer pkt x;
  let db := if tx_ret x =? NOTFOUND then
      (db_query (snprintf 255 (INVALID_STATUS_SQL KEEPALIVE_STAT_ERR (inet_ntoa (sin_addr (p_saddr pkt)))
         (ntohs (le_load (sin_port (p_saddr pkt)))) (server_id (server_gtpc pinst)))) (tx_db x)).2
    else tx_db x in
  Ok (mk_tx db (pgw_free_packet (Some pkt) (tx_mem x)).2 (tx_ret x) (tx_round x) (tx_wire x)).

Definition tx_index : list nat := seq 0 PGW_NODE_TX.
Definition tx_node (tnep : txnode_ext) (a : handle * Z * tx_state) (k : nat) : res (handle * Z * tx_state) :=
  let '(pinst, sent, x) := a in
  n ← deref (nodes pinst !! k);
  let '(pkts, n) := pgw_deq_burst EGRESS 32 n in
  let pinst := set_nodes (<[k := n]> (nodes pinst)) pinst in
  x ← foldM (tx_one pinst tnep (bool_decide (k = PGW_NODE_TIMER))) pkts x;
  Ok (pinst, sent + zlen pkts, x).
Definition event_tx (pinst : handle) (tnep : txnode_ext) (x : tx_state) : res (Z * handle * tx_state) :=
  '(pinst, sent, x) ← foldM (tx_node tnep) tx_index
      (pinst, 0, mk_tx (tx_db x) (tx_mem x) ERR (tx_round x) (tx_wire x));
  Ok (if 0 <? sent then OK else ERR, pinst, x).
End tx.

(** ** Queues as bounded FIFOs *)
Inductive queue_op := Enq (order : ORDERBY) (p : packet_t) | Deq (order : ORDERBY) (length : Z).
(** One operation of any thread: what it delivers, and the node after it. *)
Definition queue_step (n : node) (op : queue_op) : list packet_t * node :=
  match op with
  | Enq o p => ([], (pgw_enq o p n).2)
  | Deq o len => pgw_deq_burst o len n
  end.
Fixpoint queue_run (n : node) (ops : list queue_op) : list (list packet_t) * node :=
  match ops with
  | [] => ([], n)
  | op :: ops => let '(l, n) := queue_step n op in let '(ls, n) := queue_run n ops in (l :: ls, n)
  end.

(** The specification: two bounded lists. *)
Definition fifo : Type := ORDERBY -> list packet_t.
Definition fifo_set (o : ORDERBY) (l : list packet_t) (f : fifo) : fifo := fun o' => if decide (o' = o) then l else f o'.
Definition fifo_step (f : fifo) (op : queue_op) : list packet_t * fifo :=
  match op with
  | Enq o p => ([], if zlen (f o) <? RING_SIZE_MAX then fifo_set o (f o ++ [p]) f else f)
  | Deq o len => (take (Z.to_nat len) (f o), fifo_set o (drop (Z.to_nat len) (f o)) f)
  end.
Fixpoint fifo_run (f : fifo) (ops : list queue_op) : list (list packet_t) * fifo :=
  match ops with
  | [] => ([], f)
  | op :: ops => let '(l, f) := fifo_step f op in let '(ls, f) := fifo_run f ops in (l :: ls, f)
  end.
Definition abs (n : node) : fifo := fun o => q_packets (queue_of o n).
(** The element counter is the number of elements, and the ring is not exceeded. *)
Definition queue_wf (q : queue) : Prop := q_count q = zlen (q_packets q) /\ q_count q <= RING_SIZE_MAX.
Definition node_wf (n : node) : Prop := forall o, queue_wf (queue_of o n).
Definition op_ok (op : queue_op) : Prop := match op with Enq _ _ => True | Deq _ len => 1 <= len end.

Lemma deq_loop_eq len ret q : ret < len -> deq_loop len ret q = (take (Z.to_nat (len - ret)) q, drop (Z.to_nat (len - ret)) q).
Proof.
  revert ret. induction q as [|p q IH]; intros ret Hr; cbn [deq_loop]; [by rewrite take_nil, drop_nil|].
  case_if; to_prop.
  - replace (len - ret) with 1 by lia. done.
  - rewrite IH by lia. replace (Z.to_nat (len - ret)) with (S (Z.to_nat (len - (ret + 1)))) by lia. done.
Qed.

Lemma queue_of_set o o' q n : queue_of o' (set_queue o q n) = if decide (o' = o) then q else queue_of o' n.
Proof. by destruct o, o'. Qed.

Lemma node_wf_set o q n : node_wf n -> queue_wf q -> node_wf (set_queue o q n).
Proof. intros Hn Hq o'. rewrite queue_of_set. case_decide; [done|apply Hn]. Qed.

Lemma node0_wf : node_wf node0.
Proof. by intros []. Qed.

Lemma enq_queue_ok p q : queue_wf q ->
  queue_wf (enq_queue p q) /\
  q_packets (enq_queue p q) = (if zlen (q_packets q) <? RING_SIZE_MAX then q_packets q ++ [p] else q_packets q).
Proof.
  intros [Hc Hm]. unfold enq_queue, RING_SIZE_MAX in *. case_if; to_prop.
  - rewrite (proj2 (Z.ltb_ge _ _)) by lia. done.
  - rewrite (proj2 (Z.ltb_lt _ _)) by lia. unfold queue_wf, RING_SIZE_MAX. cbn [q_count q_packets].
    rewrite length_app. cbn [length]. rewrite wrap_small by lia. split; [lia|done].
Qed.

Lemma deq_queue_ok len q : queue_wf q -> 1 <= len ->
  let '(l, q') := deq_queue len q in
  queue_wf q' /\ l = take (Z.to_nat len) (q_packets q) /\ q_packets q' = drop (Z.to_nat len) (q_packets q) /\
  q_drops q' = q_drops q.
Proof.
  intros [Hc Hm] Hl. unfold deq_queue. rewrite deq_loop_eq by lia. rewrite Z.sub_0_r.
  split; [|done]. unfold queue_wf, RING_SIZE_MAX in *. cbn [q_count q_packets].
  rewrite length_take, length_drop, wrap_small by lia. lia.
Qed.

(** Functions are compared pointwise. *)
Definition fifo_eq (f g : fifo) : Prop := forall o, f o = g o.
#[export] Instance fifo_step_proper op : Proper (fifo_eq ==> fun a b => a.1 = b.1 /\ fifo_eq a.2 b.2) (fun f => fifo_step f op).
Proof.
  intros f g E. destruct op as [o p|o len]; cbn; rewrite E.
  - split; [done|]. case_if; [|done]. intros o'. unfold fifo_set. by case_decide.
  - split; [done|]. intros o'. unfold fifo_set. by case_decide.
Qed.

Lemma fifo_run_proper ops f g : fifo_eq f g ->
  (fifo_run f ops).1 = (fifo_run g ops).1 /\ fifo_eq (fifo_run f ops).2 (fifo_run g ops).2.
Proof.
  revert f g. induction ops as [|op ops IH]; intros f g E; cbn [fifo_run]; [done|].
  destruct (fifo_step_proper op f g E) as [E1 E2]. destruct (fifo_step f op), (fifo_step g op). cbn in E1, E2.
  destruct (IH _ _ E2) as [E3 E4]. destruct (fifo_run f0 ops), (fifo_run f1 ops). cbn in *. by subst.
Qed.

Lemma queue_step_refines n op : node_wf n -> op_ok op ->
  node_wf (queue_step n op).2 /\ (queue_step n op).1 = (fifo_step (abs n) op).1 /\
  fifo_eq (abs (queue_step n op).2) (fifo_step (abs n) op).2.
Proof.
  intros Hn Hop. destruct op as [o p|o len]; cbn [queue_step fifo_step].
  - destruct (enq_queue_ok p (queue_of o n) (Hn o)) as [Hw Ep]. unfold pgw_enq. cbn [snd fst].
    split; [by apply node_wf_set|]. split; [done|]. intros o'. unfold abs. rewrite queue_of_set.
    destruct (zlen (q_packets (queue_of o n)) <? RING_SIZE_MAX); unfold fifo_set; case_decide; subst; by rewrite ?Ep.
  - pose proof (deq_queue_ok len (queue_of o n) (Hn o) Hop) as H. unfold pgw_deq_burst.
    destruct (deq_queue len (queue_of o n)) as [l q']. destruct H as (Hw & El & Ep & _). cbn [snd fst].
    split; [by apply node_wf_set|]. split; [done|]. intros o'. unfold abs, fifo_set. rewrite queue_of_set.
    by case_decide.
Qed.

Lemma queue_run_refines ops n : node_wf n -> Forall op_ok ops ->
  node_wf (queue_run n ops).2 /\ (queue_run n ops).1 = (fifo_run (abs n) ops).1 /\
  fifo_eq (abs (queue_run n ops).2) (fifo_run (abs n) ops).2.
Proof.
  revert n. induction ops as [|op ops IH]; intros n Hn Ho; cbn [queue_run fifo_run]; [done|].
  inversion_clear Ho as [|? ? Hop Hops]. destruct (queue_step_refines n op Hn Hop) as (H1 & H2 & H3).
  destruct (queue_step n op) as [l n1]. cbn [fst snd] in *. destruct (fifo_step (abs n) op) as [l' f1]. cbn [fst snd] in *.
  destruct (IH n1 H1 Hops) as (H4 & H5 & H6), (fifo_run_proper ops _ _ H3) as [H7 H8].
  destruct (queue_run n1 ops), (fifo_run (abs n1) ops), (fifo_run f1 ops). cbn [fst snd] in *.
  split; [done|]. split; [congruence|]. intros o. by rewrite H6, H8.
Qed.

(** What a direction has accepted and what it has delivered over a run. *)
Fixpoint accepted (o : ORDERBY) (f : fifo) (ops : list queue_op) : list packet_t :=
  match ops with
  | [] => []
  | op :: ops =>
    (match op with
     | Enq o' p => if decide (o' = o) then if zlen (f o) <? RING_SIZE_MAX then [p] else [] else []
     | Deq _ _ => []
     end) ++ accepted o (fifo_step f op).2 ops
  end.
Fixpoint delivered (o : ORDERBY) (ops : list queue_op) (outs : list (list packet_t)) : list packet_t :=
  match ops, outs with
  | Deq o' _ :: ops, l :: outs => (if decide (o' = o) then l else []) ++ delivered o ops outs
  | _ :: ops, _ :: outs => delivered o ops outs
  | _, _ => []
  end.

Lemma fifo_order o ops f :
  f o ++ accepted o f ops = delivered o ops (fifo_run f ops).1 ++ (fifo_run f ops).2 o.
Proof.
  revert f. induction ops as [|op ops IH]; intros f; cbn [fifo_run accepted delivered]; [by rewrite app_nil_r|].
  specialize (IH (fifo_step f op).2). destruct (fifo_step f op) as [l f1] eqn:E. cbn [snd] in *.
  destruct (fifo_run f1 ops) as [ls f2]. cbn [fst snd] in *.
  destruct op as [o' p|o' len]; cbn in E; injection E as <- <-; cbn [delivered].
  - rewrite <-IH. destruct (zlen (f o') <? RING_SIZE_MAX) eqn:Er; unfold fifo_set; repeat case_decide; subst; rewrite ?Er;
      try done; by rewrite <-app_assoc.
  - rewrite <-app_assoc, <-IH. unfold fifo_set. repeat case_decide; subst; try done.
    cbn [app]. by rewrite app_assoc, take_drop.
Qed.

(** ** The peer cache as a map *)
Definition peer_map (l : list sgw_peer) : gmap Z (Z * Z) := list_to_map ((fun p => (ip p, (counter p, expire p))) <$> l).
Definition peers_wf (l : list sgw_peer) : Prop := NoDup (ip <$> l).

Lemma peers_wf_cons p l : peers_wf (p :: l) <-> (ip p ∉ ip <$> l) /\ peers_wf l.
Proof. unfold peers_wf. rewrite fmap_cons. apply NoDup_cons. Qed.

Lemma peer_map_cons p l : peer_map (p :: l) = <[ip p := (counter p, expire p)]> (peer_map l).
Proof. done. Qed.

Lemma peer_map_None l k : k ∉ ip <$> l -> peer_map l !! k = None.
Proof.
  intros Hk. unfold peer_map. apply not_elem_of_list_to_map_1. by rewrite <-list_fmap_compose.
Qed.

Lemma update_peer_ok f k l :
  (forall p, ip (f p) = ip p) -> peers_wf l ->
  match update_peer f k l with
  | Some l' => exists p, p ∈ l /\ ip p = k /\ ip <$> l' = ip <$> l /\
      peer_map l' = <[k := (counter (f p), expire (f p))]> (peer_map l) /\ peer_map l !! k = Some (counter p, expire p)
  | None => k ∉ ip <$> l
  end.
Proof.
  intros Hf. induction l as [|p l IH]; intros Hw; cbn [update_peer]; [cbn; set_solver|].
  apply peers_wf_cons in Hw as [Hp Hw]. specialize (IH Hw). case_if; to_prop.
  - exists p. split; [set_solver|]. split; [done|]. rewrite !fmap_cons, Hf. split; [done|].
    rewrite !peer_map_cons, Hf, E, insert_insert_eq. split; [done|]. by rewrite lookup_insert_eq.
  - destruct (update_peer f k l) as [l'|]; cbn [fmap option_fmap option_map].
    + destruct IH as (q & Hq & Hk & Hi & Hm & Hl). exists q. split; [set_solver|]. split; [done|].
      rewrite !fmap_cons, Hi. split; [done|]. rewrite !peer_map_cons, Hm, lookup_insert_ne by done.
      split; [by rewrite insert_insert_ne|done].
    + rewrite fmap_cons, not_elem_of_cons. done.
Qed.

Lemma visit_one_ok {U} (callback : U -> sgw_peer -> U * sgw_peer) k l u :
  visit_one callback k l u =
    match update_peer (fun p => (callback u p).2) k l with
    | Some l' => (true, l', match find (fun p => ip p =? k) l with Some p => (callback u p).1 | None => u end)
    | None => (false, l, u)
    end.
Proof.
  induction l as [|p l IH]; cbn [visit_one update_peer find]; [done|].
  case_if; [by destruct (callback u p)|]. rewrite IH.
  by destruct (update_peer (fun p0 => (callback u p0).2) k l).
Qed.

Lemma find_peer k l p : peers_wf l -> p ∈ l -> ip p = k -> find (fun p => ip p =? k) l = Some p.
Proof.
  induction l as [|q l IH]; intros Hw Hp Hk; [by apply elem_of_nil in Hp|]. apply peers_wf_cons in Hw as [Hq Hw]. cbn [find].
  apply elem_of_cons in Hp as [->|Hp]; [by rewrite (proj2 (Z.eqb_eq _ _))|].
  rewrite (proj2 (Z.eqb_neq _ _)); [by apply IH|]. intros E. apply Hq, list_elem_of_fmap. exists p. by rewrite E.
Qed.

Lemma remove_peer_ok k l : peers_wf l ->
  peers_wf (remove_peer k l) /\ peer_map (remove_peer k l) = delete k (peer_map l) /\ ip <$> remove_peer k l ⊆ ip <$> l.
Proof.
  induction l as [|p l IH]; intros Hw; cbn [remove_peer].
  { split; [done|]. split; [|done]. symmetry. apply delete_empty. }
  apply peers_wf_cons in Hw as [Hp Hw]. destruct (IH Hw) as (H1 & H2 & H3). case_if; to_prop.
  - split; [done|]. rewrite peer_map_cons, <-E, delete_insert_eq, delete_id by by apply peer_map_None.
    split; [done|]. rewrite ?fmap_cons. set_solver.
  - split; [apply peers_wf_cons; split; [set_solver|done]|]. rewrite !peer_map_cons, H2, delete_insert_ne by done.
    split; [done|]. rewrite ?fmap_cons. set_solver.
Qed.

(** The callback of the echo node (event_gtpc_echo.c): report the entry, extend it. *)
Definition on_sgw_peer_find_extend (in_expire : Z) (u : option (Z * Z)) (p : sgw_peer) : option (Z * Z) * sgw_peer :=
  (Some (counter p, expire p), mk_peer (ip p) (counter p) in_expire).

Inductive peer_op := PSet (k c e : Z) | PGet (k e : Z) | PDel (k : Z).
Definition peer_step (malloc : nat -> bool) (t : sgw_peers) (s : gtp_memory) (op : peer_op)
    : Z * option (Z * Z) * option sgw_peers * gtp_memory :=
  match op with
  | PSet k c e => let '(rc, t, s) := pgw_set_sgw_peer malloc (Some t) k c e s in (rc, None, t, s)
  | PGet k e => let '(rc, t, u) := pgw_get_sgw_peer (on_sgw_peer_find_extend e) (Some t) k None in (rc, u, t, s)
  | PDel k => let '(rc, t) := pgw_delete_sgw_peer (Some t) k in (rc, None, t, s)
  end.
(** The specification on a finite map. *)
Definition map_step (m : gmap Z (Z * Z)) (op : peer_op) : Z * option (Z * Z) * gmap Z (Z * Z) :=
  match op with
  | PSet k c e => if k =? 0 then (ERR, None, m) else (OK, None, <[k := (c, e)]> m)
  | PGet k e => match m !! k with
                | Some (c, x) => (OK, Some (c, x), <[k := (c, e)]> m)
                | None => (ERR, None, m)
                end
  | PDel k => (OK, None, delete k m)
  end.
Definition peer_op_ok (op : peer_op) : Prop := match op with PGet k _ => k <> 2 ^ 32 - 1 | _ => True end.

Lemma peer_step_refines malloc t s op :
  (forall n, malloc n = true) -> peers_wf (peers t) -> peer_op_ok op ->
  exists t' s', peer_step malloc t s op = ((map_step (peer_map (peers t)) op).1, Some t', s') /\
    peers_wf (peers t') /\ peer_map (peers t') = (map_step (peer_map (peers t)) op).2.
Proof.
  intros Hm Hw Hop. destruct op as [k c e|k e|k]; cbn [peer_step map_step].
  - unfold pgw_set_sgw_peer. case_if; to_prop; [by eexists _, _|].
    pose proof (update_peer_ok (fun p => mk_peer (ip p) c e) k (peers t) (fun _ => eq_refl) Hw) as H.
    destruct (update_peer _ k (peers t)) as [l|].
    + destruct H as (p & _ & _ & Hi & Hmap & _). eexists _, _. split; [done|]. cbn [peers]. split; [unfold peers_wf; by rewrite Hi|done].
    + rewrite Hm. eexists _, _. split; [done|]. cbn [peers]. split.
      * unfold peers_wf. rewrite fmap_app. apply NoDup_app. split; [done|]. split; [|apply NoDup_singleton].
        intros x Hx Hx'. apply list_elem_of_singleton in Hx'. by subst.
      * unfold peer_map. rewrite fmap_app. cbn [fmap list_fmap]. rewrite list_to_map_app. cbn [list_to_map foldr].
        rewrite <-insert_union_r by by apply peer_map_None. by rewrite map_union_empty.
  - unfold pgw_get_sgw_peer. rewrite (proj2 (Z.eqb_neq _ _)) by done. rewrite visit_one_ok.
    pose proof (update_peer_ok (fun p => mk_peer (ip p) (counter p) e) k (peers t) (fun _ => eq_refl) Hw) as H.
    change (fun p => (on_sgw_peer_find_extend e None p).2) with (fun p => mk_peer (ip p) (counter p) e).
    destruct (update_peer _ k (peers t)) as [l|].
    + destruct H as (p & Hp & Hk & Hi & Hmap & Hl). rewrite Hl, (find_peer k _ p) by done. eexists _, _.
      split; [done|]. cbn [peers]. split; [unfold peers_wf; by rewrite Hi|done].
    + rewrite (peer_map_None _ _ H). by eexists _, _.
  - destruct (remove_peer_ok k (peers t) Hw) as (H1 & H2 & _). by eexists _, _.
Qed.

(** ** Properties, receiving *)
Lemma get_remove_ne k j l : k <> j -> pgw_get_property (remove_property k l) j = pgw_get_property l j.
Proof.
  intros Hn. induction l as [|p l IH]; cbn [remove_property pgw_get_property]; [done|].
  destruct (id p =? k) eqn:E; to_prop; cbn [pgw_get_property]; [by rewrite (proj2 (Z.eqb_neq _ _)) by congruence|].
  by rewrite IH.
Qed.

Lemma get_remove_eq k l : NoDup (id <$> l) -> pgw_get_property (remove_property k l) k = None.
Proof.
  induction l as [|p l IH]; intros Hn; cbn [remove_property pgw_get_property]; [done|].
  rewrite fmap_cons in Hn. apply NoDup_cons in Hn as [Hp Hn]. destruct (id p =? k) eqn:E; to_prop.
  - subst k. clear IH. induction l as [|q l IH]; cbn [pgw_get_property]; [done|].
    rewrite fmap_cons, not_elem_of_cons in Hp. rewrite fmap_cons in Hn. apply NoDup_cons in Hn as [_ Hn].
    destruct Hp as [Hpq Hp]. rewrite (proj2 (Z.eqb_neq _ _)) by congruence. by apply IH.
  - cbn [pgw_get_property]. rewrite (proj2 (Z.eqb_neq _ _)) by done. by apply IH.
Qed.

Lemma get_app l p k : pgw_get_property (l ++ [p]) k =
  match pgw_get_property l k with Some v => Some v | None => if id p =? k then Some (p_data p, p_length p) else None end.
Proof.
  induction l as [|q l IH]; cbn [app pgw_get_property]; [done|]. by destruct (id q =? k).
Qed.

Lemma remove_property_ids k l : NoDup (id <$> l) ->
  NoDup (id <$> remove_property k l) /\ (k ∉ id <$> remove_property k l) /\ id <$> remove_property k l ⊆ id <$> l.
Proof.
  induction l as [|p l IH]; intros Hn; cbn [remove_property].
  { split; [constructor|]. split; [apply not_elem_of_nil|done]. }
  rewrite fmap_cons in Hn. apply NoDup_cons in Hn as [Hp Hn]. destruct (IH Hn) as (H1 & H2 & H3).
  case_if; to_prop.
  - subst. split; [done|]. split; [done|]. rewrite fmap_cons. set_solver.
  - rewrite !fmap_cons. split; [apply NoDup_cons; split; [set_solver|done]|]. split; [|set_solver].
    apply not_elem_of_cons. split; [congruence|done].
Qed.

Lemma rd_ext n p b b' :
  0 <= p -> p + Z.of_nat n <= 4 -> 4 <= zlen b -> 4 <= zlen b' -> slice 0 4 b = slice 0 4 b' -> rd n b p = rd n b' p.
Proof.
  intros Hp Hn Hb Hb' E. rewrite !rd_ok by lia. do 2 f_equal.
  assert (H : forall l : list Z, slice p (Z.of_nat n) l = slice p (Z.of_nat n) (slice 0 4 l)).
  { intros l. by rewrite slice_slice by lia. }
  by rewrite H, E, <-H.
Qed.

Lemma validate_ext b b' : 4 <= zlen b -> 4 <= zlen b' -> slice 0 4 b = slice 0 4 b' ->
  gtpc_validate_header b = gtpc_validate_header b' /\ gtpu_validate_header b = gtpu_validate_header b'.
Proof.
  intros Hb Hb' E. unfold gtpc_validate_header, gtpu_validate_header.
  rewrite (rd_ext 2 o_length b b'), (rd_ext 1 o_flags b b'), (rd_ext 1 o_type b b') by (unfold o_length, o_flags, o_type; lia || done).
  done.
Qed.

Lemma recvfrom_eq rbuf dgram n :
  0 <= n <= zlen rbuf -> recvfrom rbuf dgram n = Ok (Z.min n (zlen dgram), splice 0 (take (Z.to_nat n) dgram) rbuf).
Proof.
  intros Hn. unfold recvfrom. rewrite wr_bytes_ok by (rewrite ?length_take; lia). res_simpl. rewrite length_take.
  do 2 f_equal. lia.
Qed.

(** The header of a datagram of at least eight bytes, read in the buffer. *)
Lemma peeked (rbuf dgram : list Z) n :
  8 <= n <= zlen rbuf -> n <= zlen dgram ->
  zlen (splice 0 (take (Z.to_nat n) dgram) rbuf) = zlen rbuf /\
  slice 0 n (splice 0 (take (Z.to_nat n) dgram) rbuf) = slice 0 n dgram /\
  slice 0 4 (splice 0 (take (Z.to_nat n) dgram) rbuf) = slice 0 4 dgram.
Proof.
  intros Hn Hd. assert (Lt : zlen (take (Z.to_nat n) dgram) = n) by (rewrite length_take; lia).
  assert (E : slice 0 n (splice 0 (take (Z.to_nat n) dgram) rbuf) = slice 0 n dgram).
  { rewrite slice_splice_eq by lia. unfold slice. by rewrite drop_0. }
  split; [rewrite length_splice; lia|]. split; [done|].
  assert (H : forall l : list Z, slice 0 4 l = slice 0 4 (slice 0 n l)) by (intros l; by rewrite slice_slice by lia).
  by rewrite H, E, <-H.
Qed.

(** The length of a message, by the port it came in on. *)
Definition message_length (port : Z) (dgram : list Z) : Z :=
  if port =? GTPU1_PORT then 8 + be_load (slice 2 2 dgram)
  else if port =? GTPC_PORT then 4 + be_load (slice 2 2 dgram) else sizeof_gtpc_header.
(** The datagrams that are passed on. *)
Definition acceptable (port : Z) (dgram : list Z) : Prop :=
  8 <= zlen dgram /\ 4 <= be_load (slice 2 2 dgram) <= ETHER_MAX_LEN /\ message_length port dgram <= zlen dgram /\
  (if port =? GTPU1_PORT then gtpu_validate_header dgram = Ok OK
   else if port =? GTPC_PORT then gtpc_validate_header dgram = Ok OK else True).

Lemma rd_length b b' : 4 <= zlen b -> 4 <= zlen b' -> slice 0 4 b = slice 0 4 b' -> bytes_ok b' ->
  exists l, rd 2 b o_length = Ok l /\ ntohs l = be_load (slice 2 2 b').
Proof.
  intros Hb Hb' E Hok. rewrite (rd_ext 2 o_length b b') by (unfold o_length; lia || done). unfold o_length.
  rewrite rd_ok by lia. eexists. split; [done|]. change (Z.of_nat 2) with 2. unfold ntohs, be_load.
  rewrite bswap_load; [done|apply Forall_slice; done|]. rewrite length_slice; lia.
Qed.

Lemma validate_total b : 4 <= zlen b ->
  (gtpc_validate_header b = Ok OK \/ gtpc_validate_header b = Ok ERR) /\
  (gtpu_validate_header b = Ok OK \/ gtpu_validate_header b = Ok ERR).
Proof.
  intros Hb. unfold gtpc_validate_header, gtpu_validate_header, o_length, o_flags, o_type.
  rewrite !rd_ok by lia. res_simpl. split; repeat case_if; auto.
Qed.

Lemma on_receive_spec (pserver : server) rbuf dgram :
  zlen rbuf = PCKTLEN_UDP -> bytes_ok dgram ->
  exists r, on_receive pserver rbuf dgram = Ok r /\
    match r with
    | Some (b, n) => acceptable (srv_port pserver) dgram /\ n = message_length (srv_port pserver) dgram /\
        zlen b = PCKTLEN_UDP /\ slice 0 n b = slice 0 n dgram
    | None => ~ acceptable (srv_port pserver) dgram
    end.
Proof.
  intros Hr Hd. unfold on_receive, sizeof_gtpc_header, PCKTLEN_UDP in *. rewrite recvfrom_eq by lia. res_simpl.
  destruct (Z.min (12 - 4) (zlen dgram) =? 12 - 4) eqn:E8; to_prop; cbn [negb];
    [|eexists; split; [done|]; unfold acceptable; intros [H _]; lia].
  destruct (peeked rbuf dgram (12 - 4)) as (Lb & _ & E4); [lia|lia|]. set (b := splice 0 _ rbuf) in *.
  destruct (rd_length b dgram) as (l & -> & El); [lia|lia|done|done|]. res_simpl. rewrite El.
  destruct ((_ <? 4) || _) eqn:E; to_prop.
  { eexists; split; [done|]. unfold acceptable. intros (_ & H & _). destruct E as [E|E]; to_prop; lia. }
  destruct (validate_ext b dgram) as [-> ->]; [lia|lia|done|]. destruct (validate_total dgram) as [Vc Vu]; [lia|].
  assert (Hlen : be_load (slice 2 2 dgram) <= 1514) by (unfold ETHER_MAX_LEN in *; lia).
  assert (Hfin : forall len, 8 <= len <= 1522 -> len = message_length (srv_port pserver) dgram ->
    (if srv_port pserver =? GTPU1_PORT then gtpu_validate_header dgram = Ok OK
     else if srv_port pserver =? GTPC_PORT then gtpc_validate_header dgram = Ok OK else True) ->
    exists r, ('(rlen, rbuf) ← recvfrom b dgram len;
       if (rlen <? 4) || negb (rlen =? len) then Ok None else Ok (Some (rbuf, rlen))) = Ok r /\
    match r with
    | Some (b, n) => acceptable (srv_port pserver) dgram /\ n = message_length (srv_port pserver) dgram /\
        zlen b = 2048 /\ slice 0 n b = slice 0 n dgram
    | None => ~ acceptable (srv_port pserver) dgram
    end).
  { intros len Hlen1 -> Hv. set (len := message_length _ _) in *. rewrite recvfrom_eq by lia. res_simpl.
    destruct (_ || _) eqn:E; to_prop; eexists; (split; [done|]).
    - unfold acceptable. fold len. intros (_ & _ & Hx & _). destruct E as [E|E]; to_prop; lia.
    - destruct (peeked b dgram len) as (Lb' & Es & _); [lia|lia|].
      replace (Z.min len (zlen dgram)) with len by lia. split; [|split; [done|]; split; [lia|done]].
      unfold acceptable. fold len. split; [lia|]. split; [unfold ETHER_MAX_LEN; lia|]. split; [lia|done]. }
  unfold message_length, sizeof_gtpc_header in Hfin |- *.
  destruct (srv_port pserver =? GTPU1_PORT) eqn:Eu.
  { destruct Vu as [Vu|Vu]; rewrite Vu; res_simpl.
    - change (negb (OK =? OK)) with false. cbn match. res_simpl. apply Hfin; [lia|done|done].
    - change (negb (ERR =? OK)) with true. cbn match. res_simpl. eexists; split; [done|]. unfold acceptable.
      rewrite Eu. intros (_ & _ & _ & Hx). rewrite Vu in Hx; discriminate Hx. }
  destruct (srv_port pserver =? GTPC_PORT) eqn:Ec.
  { destruct Vc as [Vc|Vc]; rewrite Vc; res_simpl.
    - change (negb (OK =? OK)) with false. cbn match. res_simpl. apply Hfin; [lia|done|done].
    - change (negb (ERR =? OK)) with true. cbn match. res_simpl. eexists; split; [done|]. unfold acceptable.
      rewrite Eu, Ec. intros (_ & _ & _ & Hx). rewrite Vc in Hx; discriminate Hx. }
  res_simpl. apply Hfin; [lia|done|done].
Qed.

(** ** Routing and sending *)
Section routing.
Context `{B : CtrlBuild}.

Lemma rx_route_total port b : 12 <= zlen b -> bytes_ok b ->
  exists k, rx_route port b = Ok k /\ match k with Some i => (i < PGW_NODE_TX)%nat /\ i <> PGW_NODE_TIMER | None => True end.
Proof.
  intros Hb Hok. unfold rx_route, o_flags, o_type. rewrite !rd_ok by lia. res_simpl.
  set (q := le_load (slice 8 (Z.of_nat 4) b)). clearbody q.
  assert (Hq : forall m, (0 < m)%nat -> (Z.to_nat (q mod Z.of_nat m) < m)%nat).
  { intros m Hm. pose proof (Z.mod_pos_bound q (Z.of_nat m)). lia. }
  unfold PGW_NODE_TX, PGW_NODE_GTPU_OTHER_REQ, PGW_NODE_GTPC_OTHER_REQ, PGW_NODE_GTPC_MODIFY_BEARER_REQ,
    PGW_NODE_GTPC_CREATE_SESSION_REQ_MAX, PGW_NODE_GTPC_CREATE_SESSION_REQ, PGW_NODE_GTPC_ECHO_REQ,
    PGW_NODE_GTPU_ECHO_REQ, PGW_NODE_TIMER.
  pose proof (Hq 1%nat) as H1. pose proof (Hq 2%nat) as H2. clear Hq.
  destruct SINGLE_CREATE_SESSION; cbn [Nat.sub] in *; repeat case_if; eexists; (split; [reflexivity|]); try done; split; lia.
Qed.

(** The node a received packet goes to, and the instance after it. *)
Definition queued (h : handle) (k : nat) (pkt : packet_t) : handle :=
  set_nodes (alter (fun n => mk_node (enq_queue pkt (ingress n)) (egress n)) k (nodes h)) h.

Lemma enq_node_eq k pkt h : (k < length (nodes h))%nat -> enq_node k INGRESS pkt h = Ok (OK, queued h k pkt).
Proof.
  intros Hk. unfold enq_node, queued. destruct (lookup_lt_is_Some_2 (nodes h) k Hk) as [n En]. rewrite En. res_simpl.
  unfold pgw_enq. cbn match. change (negb (OK =? OK)) with false. cbn match. do 3 f_equal.
  apply list_eq. intros i. destruct (decide (i = k)) as [->|].
  - rewrite list_lookup_insert_eq by done. rewrite list_lookup_alter_eq, En. done.
  - rewrite list_lookup_insert_ne, list_lookup_alter_ne by done. done.
Qed.

Lemma copy_addr_eq a b : zlen a = 16 -> zlen b = 16 -> copy_addr a b sizeof_sockaddr_in = Ok b.
Proof.
  intros Ha Hb. unfold copy_addr, sizeof_sockaddr_in. rewrite rd_bytes_ok by lia. res_simpl.
  replace (slice 0 16 b) with b by (rewrite <-Hb at 1; symmetry; apply slice_0_all). rewrite wr_bytes_ok by lia.
  f_equal. unfold splice. change (Z.to_nat 0) with O. rewrite drop_ge by lia. by rewrite app_nil_r.
Qed.

Lemma event_rx_eq malloc pinst d len sa sl ca cl pserver s :
  malloc (mallocs s) = true -> Z.land (flags pinst) ON = ON -> length (nodes pinst) = PGW_NODE_COUNT ->
  12 <= len <= zlen d -> bytes_ok d -> zlen sa = 16 -> zlen ca = 16 ->
  exists k, rx_route (srv_port pserver) (slice 0 len d) = Ok k /\
    event_rx malloc pinst d len sa sl ca cl pserver s =
      match k with
      | Some k => Ok (OK, queued pinst k (mk_packet_t len (slice 0 len d) sa sl ca cl), count_pgw 1 0 0 (next_malloc s))
      | None => Ok (ERR, pinst, count_pgw 0 1 0 (count_pgw 1 0 0 (next_malloc s)))
      end.
Proof.
  intros Hm Hf Hn Hl Hd Hsa Hca. destruct (rx_route_total (srv_port pserver) (slice 0 len d)) as (k & Ek & Hk).
  { rewrite zlen_slice; lia. } { by apply Forall_slice. }
  exists k. split; [done|]. unfold event_rx. rewrite Hf, Z.eqb_refl. unfold pgw_alloc_packet. rewrite Hm. cbn match.
  cbn [data p_saddr p_caddr datalen]. rewrite rd_bytes_ok by lia. res_simpl.
  assert (Lz : zlen (bzero len) = len) by (unfold bzero; rewrite length_replicate; lia).
  rewrite wr_bytes_ok by (rewrite ?zlen_slice; lia). res_simpl.
  replace (splice 0 (slice 0 len d) (bzero len)) with (slice 0 len d)
    by (unfold splice; change (Z.to_nat 0) with O; rewrite drop_ge, app_nil_r; [done|]; rewrite length_slice; lia).
  rewrite !copy_addr_eq by done. res_simpl. rewrite Ek. res_simpl. destruct k as [k|]; [|done].
  destruct Hk as [Hk _]. rewrite enq_node_eq; [done|]. rewrite Hn. unfold PGW_NODE_COUNT. lia.
Qed.
End routing.

Section sending.
Variable env : nat -> send_round.

(** What has been sent of [d] by a send loop that started after [a] bytes. *)
Definition partly_sent (sock : Z) (caddr d : list Z) (a a' : Z) (l : datagrams) : Prop :=
  Forall (fun x => x.1 = (sock, caddr)) l /\ concat l.*2 = slice a (a' - a) d /\ a <= a' <= zlen d.

Lemma partly_nil sock caddr d a : 0 <= a <= zlen d -> partly_sent sock caddr d a a [].
Proof. intros. split; [constructor|]. rewrite Z.sub_diag, slice_nil. split; [done|lia]. Qed.

Lemma partly_cons sock caddr d a m a' l :
  0 <= a -> 0 <= m -> partly_sent sock caddr d (a + m) a' l ->
  partly_sent sock caddr d a a' ((sock, caddr, slice a m d) :: l).
Proof.
  intros Ha Hm (H1 & H2 & H3). split; [by constructor|]. split; [|lia]. cbn [fmap list_fmap concat snd].
  rewrite H2. replace (a' - a) with (m + (a' - (a + m))) by lia. rewrite slice_app_split by lia. done.
Qed.

Lemma send_loop_total fuel sock caddr d n r a wire :
  0 <= r <= 11 -> 0 <= a <= zlen d -> 12 <= Z.of_nat fuel + r ->
  exists rc n' l a', send_loop env fuel sock caddr d n r a wire = Ok (rc, n', wire ++ l) /\
    (rc = OK \/ rc = ERR) /\ partly_sent sock caddr d a a' l /\ (n < n' <= n + Z.to_nat (12 - r))%nat /\
    (rc = OK -> a' = zlen d \/ exists i, (n <= i < n')%nat /\ env i = SelTimeout).
Proof.
  revert n r a wire. induction fuel as [|fuel IH]; intros n r a wire Hr Ha Hf; [lia|]. cbn [send_loop].
  unfold PGWSEND_RETRY_CNT. case_if; to_prop.
  { exists ERR, (S n), [], a. rewrite app_nil_r. do 2 (split; [by auto|]). split; [by apply partly_nil|]. split; [lia|done]. }
  assert (Hrec : forall a1 l0 w, a <= a1 <= zlen d -> w = wire ++ l0 ->
    (forall a' l, partly_sent sock caddr d a1 a' l -> partly_sent sock caddr d a a' (l0 ++ l)) ->
    exists rc n' l a', send_loop env fuel sock caddr d (S n) (r + 1) a1 w = Ok (rc, n', wire ++ l) /\
      (rc = OK \/ rc = ERR) /\ partly_sent sock caddr d a a' l /\ (n < n' <= n + Z.to_nat (12 - r))%nat /\
      (rc = OK -> a' = zlen d \/ exists i, (n <= i < n')%nat /\ env i = SelTimeout)).
  { intros a1 l0 w Ha1 -> Hp. destruct (IH (S n) (r + 1) a1 (wire ++ l0)) as (rc & n' & l & a' & -> & Hrc & Hs & Hn & Hok); [lia..|].
    exists rc, n', (l0 ++ l), a'. rewrite <-app_assoc. do 2 (split; [done|]). split; [by apply Hp|]. split; [lia|].
    intros ->. destruct (Hok eq_refl) as [|(i & Hi & Ei)]; [by left|right]. exists i. split; [lia|done]. }
  assert (Hdone : forall rc l a', (rc = OK \/ rc = ERR) -> partly_sent sock caddr d a a' l ->
    (rc = OK -> a' = zlen d \/ env n = SelTimeout) ->
    exists rc0 n' l0 a0, Ok (rc, S n, wire ++ l) = Ok (rc0, n', wire ++ l0) /\
      (rc0 = OK \/ rc0 = ERR) /\ partly_sent sock caddr d a a0 l0 /\ (n < n' <= n + Z.to_nat (12 - r))%nat /\
      (rc0 = OK -> a0 = zlen d \/ exists i, (n <= i < n')%nat /\ env i = SelTimeout)).
  { intros rc l a' Hrc Hp Hok. exists rc, (S n), l, a'. do 3 (split; [done|]). split; [lia|].
    intros Er. destruct (Hok Er) as [|Et]; [by left|right]. exists n. split; [lia|done]. }
  destruct (env n) as [[]| |[] sent] eqn:En.
  - apply (Hrec a []); [lia|by rewrite app_nil_r|done].
  - pose proof (Hdone ERR [] a) as Hw; rewrite app_nil_r in Hw; apply Hw; [by right|by apply partly_nil|done].
  - pose proof (Hdone OK [] a) as Hw; rewrite app_nil_r in Hw; apply Hw; [by left|by apply partly_nil|by right].
  - case_if; to_prop.
    { pose proof (Hdone ERR [] a) as Hw; rewrite app_nil_r in Hw; apply Hw; [by right|by apply partly_nil|done]. }
    set (m := Z.min sent (zlen d - a)) in *. case_if; to_prop.
    + apply (Hdone OK _ (a + m)); [by left| |intros _; left; lia]. apply partly_cons; [lia|lia|apply partly_nil; lia].
    + apply (Hrec (a + m) [(sock, caddr, slice a m d)]); [lia|done|]. intros a' l Hl. apply partly_cons; [lia|lia|done].
  - apply (Hrec a []); [lia|by rewrite app_nil_r|done].
Qed.
End sending.

Section transmit.
Variable env : nat -> send_round.
Context {D : Type} `{Database D} `{B : CtrlBuild}.
Implicit Types (x : tx_state (D := D)).

(** The socket a packet leaves through. *)
Definition is_server (a : list Z) (srv : server) : bool :=
  bool_decide (sin_addr (srv_addr srv) = sin_addr a) && bool_decide (sin_port (srv_addr srv) = sin_port a).
Definition source_sock (pinst : handle) (tnep : txnode_ext) (timer : bool) (pkt : packet_t) : option Z :=
  if timer then
    if bool_decide (sin_port (p_saddr pkt) = le_store 2 (htons GTPU1_PORT)) then Some (sock_gtpu tnep)
    else if bool_decide (sin_port (p_saddr pkt) = le_store 2 (htons GTPC_PORT)) then Some (sock_gtpc tnep) else None
  else if is_server (p_saddr pkt) (server_gtpc pinst) then Some (srv_sock (server_gtpc pinst))
  else if is_server (p_saddr pkt) (server_gtpu pinst) then Some (srv_sock (server_gtpu pinst)) else None.
Definition sends (pinst : handle) (tnep : txnode_ext) (timer : bool) (pkts : list packet_t) : datagrams :=
  pkts ≫= fun pkt => match source_sock pinst tnep timer pkt with
                     | Some sock => [(sock, p_caddr pkt, data pkt)]
                     | None => []
                     end.

(** Sockets that take whole datagrams, as UDP sockets do. *)
Definition sockets_ready : Prop := forall n, exists sent, env n = SelReady true sent /\ 65536 <= sent.
Definition sendable (pkt : packet_t) : Prop := datalen pkt = zlen (data pkt) /\ zlen (data pkt) < 65536.

Lemma send_ready sock caddr d n wire :
  sockets_ready -> zlen d < 65536 -> send_loop env 12 sock caddr d n 0 0 wire = Ok (OK, S n, wire ++ [(sock, caddr, d)]).
Proof.
  intros Hr Hd. destruct (Hr n) as (sent & En & Hs). generalize 11%nat. intros fuel. cbn [send_loop]. unfold PGWSEND_RETRY_CNT. cbn match. rewrite En.
  replace (Z.min sent (zlen d - 0)) with (zlen d) by lia. rewrite ?(proj2 (Z.ltb_ge _ _)) by lia.
  rewrite (proj2 (Z.leb_le _ _)) by lia. by rewrite slice_0_all.
Qed.

Lemma tx_one_ready pinst tnep timer x pkt :
  sockets_ready -> sendable pkt -> sock_gtpc tnep <> -1 -> sock_gtpu tnep <> -1 ->
  exists x', tx_one env pinst tnep timer x pkt = Ok x' /\
    tx_wire x' = tx_wire x ++ sends pinst tnep timer [pkt] /\ tx_mem x' = count_pgw 0 1 0 (tx_mem x).
Proof.
  intros Hr [Hl Hd] Hc Hu. unfold tx_one, tx_send, sends, source_sock. cbn [mbind list_bind app].
  replace (take (Z.to_nat (datalen pkt)) (data pkt)) with (data pkt) by (rewrite take_ge; [done|lia]).
  unfold pgw_send, pgw_send_sock. destruct timer.
  - case_bool_decide; [|case_bool_decide].
    + rewrite (proj2 (Z.eqb_neq _ _)) by done. cbn [negb]. rewrite send_ready by done. res_simpl. by eexists.
    + rewrite (proj2 (Z.eqb_neq _ _)) by done. cbn [negb]. rewrite send_ready by done. res_simpl. by eexists.
    + cbn. eexists. split; [done|]. by rewrite app_nil_r.
  - fold (is_server (p_saddr pkt) (server_gtpc pinst)) (is_server (p_saddr pkt) (server_gtpu pinst)).
    destruct (is_server _ (server_gtpc pinst)); [|destruct (is_server _ (server_gtpu pinst))].
    + rewrite send_ready by done. res_simpl. by eexists.
    + rewrite send_ready by done. res_simpl. by eexists.
    + res_simpl. eexists. split; [done|]. by rewrite app_nil_r.
Qed.

Fixpoint frees (n : nat) (s : gtp_memory) : gtp_memory :=
  match n with O => s | S n => frees n (count_pgw 0 1 0 s) end.

Lemma frees_add a b s : frees b (frees a s) = frees (a + b) s.
Proof. revert s. induction a as [|a IH]; intros s; cbn [frees Nat.add]; [done|apply IH]. Qed.

Lemma tx_burst_ready pinst tnep timer pkts x :
  sockets_ready -> Forall sendable pkts -> sock_gtpc tnep <> -1 -> sock_gtpu tnep <> -1 ->
  exists x', foldM (tx_one env pinst tnep timer) pkts x = Ok x' /\
    tx_wire x' = tx_wire x ++ sends pinst tnep timer pkts /\ tx_mem x' = frees (length pkts) (tx_mem x).
Proof.
  intros Hr Hp Hc Hu. revert x. induction Hp as [|pkt pkts Hpkt _ IH]; intros x; cbn [foldM length frees].
  { exists x. by rewrite app_nil_r. }
  destruct (tx_one_ready pinst tnep timer x pkt) as (x1 & -> & E1 & M1); [done..|]. res_simpl.
  destruct (IH x1) as (x' & -> & E2 & M2). exists x'. split; [done|]. rewrite E2, E1, M2, M1, <-app_assoc. split; [|done].
  f_equal. unfold sends. cbn [mbind list_bind]. by rewrite app_nil_r.
Qed.

(** The burst a node gives up, and the node after it. *)
Definition burst (n : node) : list packet_t := take 32 (q_packets (egress n)).
Definition drain (n : node) : node := (pgw_deq_burst EGRESS 32 n).2.
Definition drain_nodes (idx : list nat) (l : list node) : list node := foldl (fun l k => alter drain k l) l idx.
Definition bursts (idx : list nat) (l : list node) : list (nat * list packet_t) :=
  (fun k => (k, default [] (burst <$> l !! k))) <$> idx.

Lemma tx_node_eq tnep pinst sent x k n :
  nodes pinst !! k = Some n ->
  tx_node env tnep (pinst, sent, x) k =
    (x' ← foldM (tx_one env (set_nodes (alter drain k (nodes pinst)) pinst) tnep (bool_decide (k = PGW_NODE_TIMER))) (burst n) x;
     Ok (set_nodes (alter drain k (nodes pinst)) pinst, sent + zlen (burst n), x')).
Proof.
  intros En. unfold tx_node. rewrite En. res_simpl. unfold pgw_deq_burst, deq_queue. cbn [queue_of].
  rewrite deq_loop_eq by lia. change (Z.to_nat (32 - 0)) with 32%nat.
  assert (E : <[k := set_queue EGRESS (mk_queue (drop 32 (q_packets (egress n))) (q_drops (egress n))
      (u64 (q_count (egress n) - zlen (burst n)))) n]> (nodes pinst) = alter drain k (nodes pinst)).
  { apply list_eq. intros i. destruct (decide (i = k)) as [->|].
    - rewrite list_lookup_insert_eq by (by eapply lookup_lt_Some). rewrite list_lookup_alter_eq, En. cbn. f_equal.
      unfold drain, pgw_deq_burst, deq_queue. cbn [queue_of]. rewrite deq_loop_eq by lia. done.
    - by rewrite list_lookup_insert_ne, list_lookup_alter_ne. }
  fold (burst n). rewrite E. done.
Qed.

Lemma bursts_alter k idx l : k ∉ idx -> bursts idx (alter drain k l) = bursts idx l.
Proof.
  intros Hk. unfold bursts. apply list_fmap_ext. intros i j Hj. apply list_elem_of_lookup_2 in Hj.
  rewrite list_lookup_alter_ne; [done|]. intros ->. done.
Qed.

Definition all_sends (pinst : handle) (tnep : txnode_ext) (bs : list (nat * list packet_t)) : datagrams :=
  bs ≫= fun b => sends pinst tnep (bool_decide (b.1 = PGW_NODE_TIMER)) b.2.

Lemma tx_nodes_ready tnep idx pinst sent x :
  sockets_ready -> sock_gtpc tnep <> -1 -> sock_gtpu tnep <> -1 -> NoDup idx ->
  (forall k, k ∈ idx -> (k < length (nodes pinst))%nat) ->
  Forall (fun n => Forall sendable (q_packets (egress n))) (nodes pinst) ->
  exists x', foldM (tx_node env tnep) idx (pinst, sent, x) =
      Ok (set_nodes (drain_nodes idx (nodes pinst)) pinst, sent + zlen (concat (bursts idx (nodes pinst)).*2), x') /\
    tx_wire x' = tx_wire x ++ all_sends pinst tnep (bursts idx (nodes pinst)) /\
    tx_mem x' = frees (length (concat (bursts idx (nodes pinst)).*2)) (tx_mem x).
Proof.
  intros Hr Hc Hu Hnd. revert pinst sent x. induction Hnd as [|k idx Hk Hnd IH]; intros pinst sent x Hlt Hs; cbn [foldM].
  { exists x. rewrite Z.add_0_r, app_nil_r. by destruct pinst. }
  destruct (lookup_lt_is_Some_2 (nodes pinst) k) as [n En]; [apply Hlt; by left|]. rewrite (tx_node_eq _ _ _ _ _ n) by done.
  assert (Hb : Forall sendable (burst n)) by (apply Forall_take; rewrite Forall_lookup in Hs; by apply (Hs k)).
  set (h := set_nodes (alter drain k (nodes pinst)) pinst).
  destruct (tx_burst_ready h tnep (bool_decide (k = PGW_NODE_TIMER)) (burst n) x) as (x1 & -> & W1 & M1); [done..|]. res_simpl.
  destruct (IH h (sent + zlen (burst n)) x1) as (x' & E & W & M).
  { intros j Hj. unfold h. cbn [nodes set_nodes]. rewrite length_alter. apply Hlt. by right. }
  { unfold h. cbn [nodes set_nodes]. rewrite Forall_lookup in *. intros i m Hi. destruct (decide (i = k)) as [->|Hik].
    - rewrite list_lookup_alter_eq, En in Hi. injection Hi as <-. unfold drain, pgw_deq_burst, deq_queue.
      cbn [queue_of]. rewrite deq_loop_eq by lia. cbn [set_queue q_packets egress snd]. apply Forall_drop. by apply (Hs k).
    - rewrite list_lookup_alter_ne in Hi by done. by apply (Hs i). }
  unfold h in *. cbn [nodes set_nodes] in *. rewrite bursts_alter in E, W, M by done.
  assert (Eb : bursts (k :: idx) (nodes pinst) = (k, burst n) :: bursts idx (nodes pinst)).
  { unfold bursts. rewrite fmap_cons, En. done. }
  exists x'. rewrite E, Eb, W, W1, M, M1. cbn [fmap list_fmap concat snd]. rewrite length_app, <-app_assoc.
  split; [do 3 f_equal; lia|]. split; [done|]. apply frees_add.
Qed.

(** Rounds of the transmit node. *)
Fixpoint tx_rounds (m : nat) (pinst : handle) (tnep : txnode_ext) (x : tx_state) : res (handle * tx_state) :=
  match m with
  | O => Ok (pinst, x)
  | S m => '(_, pinst, x) ← event_tx env pinst tnep x; tx_rounds m pinst tnep x
  end.
(** Everything that waits on the nodes of an index list. *)
Definition waiting (idx : list nat) (l : list node) : list (nat * list packet_t) :=
  (fun k => (k, default [] ((fun n => q_packets (egress n)) <$> l !! k))) <$> idx.
Definition backlog (l : list node) (m : nat) : Prop :=
  forall k n, (k < PGW_NODE_TX)%nat -> l !! k = Some n -> (length (q_packets (egress n)) <= 32 * m)%nat.

Lemma egress_drain n : q_packets (egress (drain n)) = drop 32 (q_packets (egress n)).
Proof. unfold drain, pgw_deq_burst, deq_queue. cbn [queue_of]. rewrite deq_loop_eq by lia. done. Qed.

Lemma drain_nodes_lookup idx l i : NoDup idx ->
  drain_nodes idx l !! i = (fun n => if decide (i ∈ idx) then drain n else n) <$> l !! i.
Proof.
  intros Hnd. revert l. induction Hnd as [|k idx Hk _ IH]; intros l; unfold drain_nodes in *; cbn [foldl].
  { destruct (l !! i); cbn [fmap option_fmap option_map]; [|done]. rewrite decide_False by apply not_elem_of_nil. done. }
  rewrite IH. destruct (decide (i = k)) as [->|Hik].
  - rewrite list_lookup_alter_eq. destruct (l !! k); cbn; [|done]. rewrite decide_False, decide_True by (done || by left). done.
  - rewrite list_lookup_alter_ne by done. destruct (l !! i); cbn; [|done]. f_equal.
    destruct (decide (i ∈ idx)) as [Hi|Hi]; [rewrite decide_True by (by right); done|].
    rewrite decide_False; [done|]. rewrite not_elem_of_cons. done.
Qed.

Lemma sends_app pinst tnep t a b : sends pinst tnep t (a ++ b) = sends pinst tnep t a ++ sends pinst tnep t b.
Proof. unfold sends. apply bind_app. Qed.

Lemma waiting_split pinst tnep idx l : NoDup idx ->
  all_sends pinst tnep (waiting idx l) ≡ₚ
  all_sends pinst tnep (bursts idx l) ++ all_sends pinst tnep (waiting idx (drain_nodes idx l)).
Proof.
  intros Hnd. assert (Hj0 : forall js, (forall k, k ∈ js -> k ∈ idx) -> all_sends pinst tnep (waiting js l) ≡ₚ
    all_sends pinst tnep (bursts js l) ++ all_sends pinst tnep (waiting js (drain_nodes idx l))); [|by apply Hj0].
  induction js as [|k js IH]; intros Hj; [done|]. unfold all_sends, waiting, bursts in *.
  rewrite !fmap_cons, !bind_cons. cbn [fst snd]. rewrite IH by (intros; apply Hj; by right).
  assert (Ek : drain_nodes idx l !! k = drain <$> l !! k).
  { rewrite drain_nodes_lookup by done. destruct (l !! k); cbn [fmap option_fmap option_map]; [|done].
    rewrite decide_True; [done|]. apply Hj. by left. }
  rewrite Ek. destruct (l !! k) as [n|]; cbn [default fmap option_fmap option_map]; [|solve_Permutation].
  rewrite egress_drain. replace (sends pinst tnep (bool_decide (k = PGW_NODE_TIMER)) (q_packets (egress n)))
    with (sends pinst tnep (bool_decide (k = PGW_NODE_TIMER)) (burst n ++ drop 32 (q_packets (egress n))))
    by (unfold burst; by rewrite take_drop).
  rewrite sends_app.
  solve_Permutation.
Qed.

Lemma tx_rounds_drain tnep m pinst x :
  sockets_ready -> sock_gtpc tnep <> -1 -> sock_gtpu tnep <> -1 -> length (nodes pinst) = PGW_NODE_COUNT ->
  Forall (fun n => Forall sendable (q_packets (egress n))) (nodes pinst) -> backlog (nodes pinst) m ->
  exists h x', tx_rounds m pinst tnep x = Ok (h, x') /\
    (forall k n, (k < PGW_NODE_TX)%nat -> nodes h !! k = Some n -> q_packets (egress n) = []) /\
    tx_wire x' ≡ₚ tx_wire x ++ all_sends pinst tnep (waiting tx_index (nodes pinst)).
Proof.
  intros Hr Hc Hu. revert pinst x. induction m as [|m IH]; intros pinst x Hn Hs Hm; cbn [tx_rounds].
  { assert (Hz : forall k n, (k < PGW_NODE_TX)%nat -> nodes pinst !! k = Some n -> q_packets (egress n) = []).
    { intros k n Hk Ek. specialize (Hm k n Hk Ek). destruct (q_packets (egress n)); [done|cbn in Hm; lia]. }
    exists pinst, x. split; [done|]. split; [done|]. unfold all_sends, waiting.
    assert (Hi : forall k, k ∈ tx_index -> (k < PGW_NODE_TX)%nat) by (intros k; unfold tx_index; rewrite elem_of_seq; lia).
    induction tx_index as [|k idx IHk]; [by rewrite app_nil_r|]. rewrite fmap_cons, bind_cons. cbn [fst snd].
    assert (IHk' := IHk (fun k Hk => Hi k (list_elem_of_further _ _ _ Hk))).
    destruct (nodes pinst !! k) as [n|] eqn:Ek; cbn [default fmap option_fmap option_map]; [|exact IHk'].
    rewrite (Hz k n) by (done || (apply Hi; by left)). exact IHk'. }
  assert (Hnd : NoDup tx_index) by apply NoDup_seq.
  destruct (tx_nodes_ready tnep tx_index pinst 0 (mk_tx (tx_db x) (tx_mem x) ERR (tx_round x) (tx_wire x))) as (x1 & E & W & _); [done..| |done|].
  { intros k Hk. unfold tx_index in Hk. rewrite elem_of_seq in Hk. rewrite Hn. unfold PGW_NODE_COUNT. lia. }
  unfold event_tx. rewrite E. res_simpl. set (h := set_nodes (drain_nodes tx_index (nodes pinst)) pinst).
  destruct (IH h x1) as (h' & x' & E2 & Hk & W2).
  - unfold h. cbn [nodes set_nodes]. rewrite <-Hn. clear. unfold drain_nodes. generalize (nodes pinst).
    induction tx_index as [|k idx IHk]; intros l; cbn [foldl]; [done|]. by rewrite IHk, length_alter.
  - unfold h. cbn [nodes set_nodes]. rewrite Forall_lookup in *. intros i n Hi. rewrite drain_nodes_lookup in Hi by done.
    destruct (nodes pinst !! i) as [n0|] eqn:Ei; [|done]. injection Hi as <-.
    case_decide; [rewrite egress_drain; apply Forall_drop|]; by apply (Hs i).
  - intros k n Hk Ek. unfold h in Ek. cbn [nodes set_nodes] in Ek. rewrite drain_nodes_lookup in Ek by done.
    destruct (nodes pinst !! k) as [n0|] eqn:E0; [|done]. injection Ek as <-. specialize (Hm k n0 Hk E0).
    rewrite decide_True by (unfold tx_index; rewrite elem_of_seq; lia). rewrite egress_drain, length_drop. lia.
  - exists h', x'. split; [done|]. split; [done|]. rewrite W2, W, (waiting_split pinst) by done. unfold h. cbn [nodes set_nodes].
    by rewrite <-app_assoc.
Qed.
End transmit.

Fixpoint peer_run (malloc : nat -> bool) (t : sgw_peers) (s : gtp_memory) (ops : list peer_op)
    : list (Z * option (Z * Z)) * option sgw_peers :=
  match ops with
  | [] => ([], Some t)
  | op :: ops =>
    let '(rc, u, t', s) := peer_step malloc t s op in
    match t' with
    | Some t' => let '(l, t'') := peer_run malloc t' s ops in ((rc, u) :: l, t'')
    | None => ([(rc, u)], None)
    end
  end.
Fixpoint map_run (m : gmap Z (Z * Z)) (ops : list peer_op) : list (Z * option (Z * Z)) * gmap Z (Z * Z) :=
  match ops with
  | [] => ([], m)
  | op :: ops => let '(r, m) := map_step m op in let '(l, m) := map_run m ops in (r :: l, m)
  end.

Module Properties.

(** C20: the two queues of a node are bounded first-in first-out lists: whatever the
    threads of the process do, in any order, the packets delivered and left waiting
    are those of two lists of at most RING_SIZE_MAX packets, the counters are the
    lengths, and each direction delivers exactly what it accepted, in that order. *)
Theorem queues_refine_fifos (ops : list queue_op) :
  Forall op_ok ops ->
  let run := queue_run node0 ops in
  let spec := fifo_run (fun _ => []) ops in
  run.1 = spec.1 /\
  forall o, q_packets (queue_of o run.2) = spec.2 o /\ q_count (queue_of o run.2) = zlen (spec.2 o) /\
    zlen (spec.2 o) <= RING_SIZE_MAX /\
    accepted o (fun _ => []) ops = delivered o ops run.1 ++ q_packets (queue_of o run.2).
Proof.
  intros Ho run spec. destruct (queue_run_refines ops node0 node0_wf Ho) as (Hw & E1 & E2).
  destruct (fifo_run_proper ops (abs node0) (fun _ => [])) as [E3 E4]; [by intros []|].
  fold run in Hw, E1, E2. fold spec in E3, E4. split; [congruence|]. intros o. pose proof (fifo_order o ops (fun _ => [])) as Hf.
  fold spec in Hf. cbn [app] in Hf. assert (E : q_packets (queue_of o run.2) = spec.2 o) by (rewrite <-E4, <-E2; done).
  destruct (Hw o) as [Hc Hm]. rewrite E in *. split; [done|]. split; [done|]. split; [lia|]. rewrite Hf. congruence.
Qed.

Definition ping : packet_t := mk_packet_t 2 [64; 1] (bzero 16) 16 (bzero 16) 16.
Lemma queues_refine_fifos_witness :
  let ops := [Enq INGRESS ping; Enq EGRESS ping; Enq INGRESS ping; Deq INGRESS 32; Deq EGRESS 1] in
  (queue_run node0 ops).1 = (fifo_run (fun _ => []) ops).1.
Proof. apply queues_refine_fifos. repeat (apply Forall_cons_2; [cbn; lia|]). apply Forall_nil_2. Defined.

(** the cache of serving gateways behaves as a finite map from addresses to
    counter and expiry, over any sequence of set, get and delete. *)
Theorem peer_cache_refines_map (malloc : nat -> bool) (now : Z) (s : gtp_memory) (ops : list peer_op) :
  (forall n, malloc n = true) -> Forall peer_op_ok ops ->
  exists t s' t', pgw_create_sgw_peers malloc now s = (OK, Some t, s') /\
    peer_run malloc t s' ops = ((map_run ∅ ops).1, Some t') /\ peer_map (peers t') = (map_run ∅ ops).2.
Proof.
  intros Hm Ho. unfold pgw_create_sgw_peers. rewrite Hm.
  assert (H : forall t s, peers_wf (peers t) -> exists t', peer_run malloc t s ops = ((map_run (peer_map (peers t)) ops).1, Some t') /\
    peer_map (peers t') = (map_run (peer_map (peers t)) ops).2).
  { clear now s. induction Ho as [|op ops Hop _ IH]; intros t s Hw; cbn [peer_run map_run]; [by exists t|].
    destruct (peer_step_refines malloc t s op Hm Hw Hop) as (t1 & s1 & -> & Hw1 & E1).
    destruct (map_step (peer_map (peers t)) op) as [[rc u] m1]. cbn [fst snd] in *.
    destruct (IH t1 s1 Hw1) as (t' & -> & E2). rewrite E1 in E2 |- *. destruct (map_run m1 ops) as [l m2]. by exists t'. }
  destruct (H (mk_peers [] 0 (u32 now)) (next_malloc s)) as (t' & E1 & E2); [constructor|]. by eexists _, _, t'.
Qed.

Lemma peer_cache_refines_map_witness :
  exists t s' t', pgw_create_sgw_peers (fun _ => true) 100 memory0 = (OK, Some t, s') /\
    peer_run (fun _ => true) t s' [PSet 7 1 10; PGet 7 20; PGet 8 20; PDel 7; PGet 7 30] =
      ([(OK, None); (OK, Some (1, 10)); (ERR, None); (OK, None); (ERR, None)], Some t') /\ peer_map (peers t') = ∅.
Proof.
  apply (peer_cache_refines_map (fun _ => true) 100 memory0 [PSet 7 1 10; PGet 7 20; PGet 8 20; PDel 7; PGet 7 30]);
    [reflexivity|]. repeat (apply Forall_cons_2; [cbn; lia|]). apply Forall_nil_2.
Defined.

(** a property that has been set is read back with its value, length and a
    terminating NUL, and no other property changes. *)
Theorem property_roundtrip (malloc : nat -> bool) (l : list property) (k n : Z) (v : list Z) (s : gtp_memory) :
  (forall n, malloc n = true) -> NoDup (id <$> l) -> 0 < n <= zlen v ->
  exists l' s', pgw_set_property malloc (Some l) k (Some v) n s = Ok (OK, Some l', s') /\ NoDup (id <$> l') /\
    pgw_get_property l' k = Some (slice 0 n v ++ [0], n) /\
    forall j, j <> k -> pgw_get_property l' j = pgw_get_property l j.
Proof.
  intros Hm Hn Hl. unfold pgw_set_property. rewrite (proj2 (Z.eqb_neq _ _)) by lia. rewrite !Hm. cbn [negb].
  rewrite rd_bytes_ok by lia. res_simpl.
  assert (Lz : zlen (bzero (n + 1)) = n + 1) by (unfold bzero; rewrite length_replicate; lia).
  rewrite wr_bytes_ok by (rewrite ?zlen_slice; lia). res_simpl.
  destruct (remove_property_ids k l Hn) as (H1 & H2 & _). eexists _, _. split; [done|]. split; [|split].
  - rewrite fmap_app. apply NoDup_app. split; [done|]. split; [|apply NoDup_singleton].
    intros x Hx Hx'. apply list_elem_of_singleton in Hx'. by subst.
  - rewrite get_app, get_remove_eq by done. cbn [id p_data p_length]. rewrite Z.eqb_refl. do 2 f_equal.
    unfold splice, bzero. change (Z.to_nat 0) with O. rewrite firstn_O; cbn [app Nat.add]. f_equal. rewrite drop_replicate.
    rewrite length_slice by lia. replace (Z.to_nat (n + 1) - Z.to_nat n)%nat with 1%nat by lia. done.
  - intros j Hj. rewrite get_app, get_remove_ne by done. cbn [id]. rewrite (proj2 (Z.eqb_neq _ _)) by done.
    by destruct (pgw_get_property l j).
Qed.

Lemma property_roundtrip_witness :
  exists l' s', pgw_set_property (fun _ => true) (Some [mk_property 1 [49; 0] 1]) 2 (Some [50; 51; 52]) 2 memory0 =
      Ok (OK, Some l', s') /\ pgw_get_property l' 2 = Some ([50; 51; 0], 2).
Proof.
  destruct (property_roundtrip (fun _ => true) [mk_property 1 [49; 0] 1] 2 2 [50; 51; 52] memory0) as (l' & s' & E & _ & G & _).
  - reflexivity.
  - apply NoDup_singleton.
  - cbn. lia.
  - exists l', s'. split; [exact E|exact G].
Defined.

(** The receive callback never leaves its buffer, whatever arrives, and passes
    on exactly the datagrams with a valid header and a length they cover, cut to
    that length. *)
Theorem receive_is_exact (pserver : server) (rbuf dgram : list Z) :
  zlen rbuf = PCKTLEN_UDP -> bytes_ok dgram ->
  exists r, on_receive pserver rbuf dgram = Ok r /\
    match r with
    | Some (b, n) => acceptable (srv_port pserver) dgram /\ n = message_length (srv_port pserver) dgram /\
        zlen b = PCKTLEN_UDP /\ slice 0 n b = slice 0 n dgram
    | None => ~ acceptable (srv_port pserver) dgram
    end.
Proof. apply on_receive_spec. Qed.

Definition gtpc_server : server := mk_server ([2; 0; 8; 75; 10; 0; 0; 9] ++ bzero 8) 5 GTPC_PORT (lit "10.0.0.9") (lit "a00000").
Definition gtpu_server : server := mk_server ([2; 0; 8; 104; 10; 0; 0; 9] ++ bzero 8) 6 GTPU1_PORT (lit "10.0.0.9") (lit "a00000").
Definition echo_message : list Z := [0x40; 1; 0; 9; 0; 0; 1; 0; 3; 0; 1; 0; 8].
Lemma receive_is_exact_witness :
  exists r, on_receive gtpc_server (bzero 2048) echo_message = Ok r /\
    match r with
    | Some (b, n) => acceptable GTPC_PORT echo_message /\ n = message_length GTPC_PORT echo_message /\
        zlen b = PCKTLEN_UDP /\ slice 0 n b = slice 0 n echo_message
    | None => ~ acceptable GTPC_PORT echo_message
    end.
Proof. apply (receive_is_exact gtpc_server (bzero 2048) echo_message); [reflexivity|apply bytes_okb_ok; reflexivity]. Defined.

(** a received packet has one owner: the router copies it whole, and either
    appends it to the ingress queue of exactly one node, which is neither the timer
    nor the transmit node, or frees it and reports an error. *)
Theorem received_packet_has_one_owner `{B : CtrlBuild} (malloc : nat -> bool) (pinst : handle) (d sa ca : list Z)
    (len sl cl : Z) (pserver : server) (s : gtp_memory) :
  malloc (mallocs s) = true -> Z.land (flags pinst) ON = ON -> length (nodes pinst) = PGW_NODE_COUNT ->
  12 <= len <= zlen d -> bytes_ok d -> zlen sa = 16 -> zlen ca = 16 ->
  let pkt := mk_packet_t len (slice 0 len d) sa sl ca cl in
  (exists k, (k < PGW_NODE_TX)%nat /\ k <> PGW_NODE_TIMER /\
     event_rx malloc pinst d len sa sl ca cl pserver s = Ok (OK, queued pinst k pkt, count_pgw 1 0 0 (next_malloc s))) \/
  event_rx malloc pinst d len sa sl ca cl pserver s = Ok (ERR, pinst, count_pgw 0 1 0 (count_pgw 1 0 0 (next_malloc s))).
Proof.
  intros Hm Hf Hn Hl Hd Hsa Hca pkt. destruct (event_rx_eq malloc pinst d len sa sl ca cl pserver s) as (k & Ek & E); [done..|].
  destruct (rx_route_total (srv_port pserver) (slice 0 len d)) as (k' & Ek' & Hk); [rewrite zlen_slice; lia|by apply Forall_slice|].
  rewrite Ek in Ek'. injection Ek' as <-. destruct k as [k|]; [left; exists k; destruct Hk; done|by right].
Qed.

#[local] Instance two_nodes : CtrlBuild := { SINGLE_CREATE_SESSION := false }.
Definition instance0 : handle := mk_handle ON (replicate PGW_NODE_COUNT node0) gtpc_server gtpu_server 1 1.
Lemma received_packet_has_one_owner_witness :
  let pkt := mk_packet_t 13 echo_message (bzero 16) 16 (bzero 16) 16 in
  (exists k, (k < PGW_NODE_TX)%nat /\ k <> PGW_NODE_TIMER /\
     event_rx (fun _ => true) instance0 (echo_message ++ bzero 3) 13 (bzero 16) 16 (bzero 16) 16 gtpc_server memory0 =
       Ok (OK, queued instance0 k pkt, count_pgw 1 0 0 (next_malloc memory0))) \/
  event_rx (fun _ => true) instance0 (echo_message ++ bzero 3) 13 (bzero 16) 16 (bzero 16) 16 gtpc_server memory0 =
    Ok (ERR, instance0, count_pgw 0 1 0 (count_pgw 1 0 0 (next_malloc memory0))).
Proof.
  apply (received_packet_has_one_owner (fun _ => true) instance0 (echo_message ++ bzero 3) (bzero 16) (bzero 16) 13 16 16
           gtpc_server memory0); try reflexivity; [cbn; lia|apply bytes_okb_ok; reflexivity].
Defined.

(** sending returns after at most twelve calls of [select], whatever the socket
    does; what went out is the start of the packet in order, all of it when the
    result is OK, unless a [select] timed out. *)
Theorem pgw_send_terminates (env : nat -> send_round) (sock : Z) (caddr d : list Z) (n : nat) (wire : datagrams) :
  exists rc n' l a, pgw_send_sock env sock caddr d n wire = Ok (rc, n', wire ++ l) /\ (n < n' <= n + 12)%nat /\
    (rc = OK \/ rc = ERR) /\ partly_sent sock caddr d 0 a l /\
    (rc = OK -> a = zlen d \/ exists i, (n <= i < n')%nat /\ env i = SelTimeout).
Proof.
  unfold pgw_send_sock. destruct (send_loop_total env 12 sock caddr d n 0 0 wire) as (rc & n' & l & a & E & Hrc & Hp & Hn & Hok);
    [lia|lia|lia|]. exists rc, n', l, a. change (Z.to_nat (12 - 0)) with 12%nat in Hn. done.
Qed.

(** C21: progress of the transmit node: with sockets that take whole datagrams, as
    many rounds as the longest queue needs at 32 packets a round empty the egress
    queues, and every packet with a known source has been sent once. *)
Theorem transmit_drains {D} `{Database D} `{B : CtrlBuild} (env : nat -> send_round) (tnep : txnode_ext) (m : nat)
    (pinst : handle) (x : tx_state (D := D)) :
  sockets_ready env -> sock_gtpc tnep <> -1 -> sock_gtpu tnep <> -1 -> length (nodes pinst) = PGW_NODE_COUNT ->
  Forall (fun n => Forall sendable (q_packets (egress n))) (nodes pinst) -> backlog (nodes pinst) m ->
  exists h x', tx_rounds env m pinst tnep x = Ok (h, x') /\
    (forall k n, (k < PGW_NODE_TX)%nat -> nodes h !! k = Some n -> q_packets (egress n) = []) /\
    tx_wire x' ≡ₚ tx_wire x ++ all_sends pinst tnep (waiting tx_index (nodes pinst)).
Proof. apply tx_rounds_drain. Qed.

(** A database that records the statements and has no rows. *)
#[local] Instance log_db : Database (list cstring) := {
  db_query q db := (0, db ++ [q]);
  db_bind _ _ _ := true;
  db_select _ _ db := (Some [], db);
}.
Definition ready_env (n : nat) : send_round := SelReady true 65536.
Definition reply_packet : packet_t := mk_packet_t 13 echo_message (srv_addr gtpc_server) 16 (bzero 16) 16.
Definition instance1 : handle :=
  set_nodes (alter (fun n => (pgw_enq EGRESS reply_packet n).2) PGW_NODE_GTPC_ECHO_REQ (nodes instance0)) instance0.
Lemma transmit_drains_witness :
  exists h x', tx_rounds ready_env 1 instance1 (mk_txnode 7 8) (mk_tx (D := list cstring) [] memory0 ERR 0 []) = Ok (h, x') /\
    (forall k n, (k < PGW_NODE_TX)%nat -> nodes h !! k = Some n -> q_packets (egress n) = []) /\
    tx_wire x' ≡ₚ [(5, bzero 16, echo_message)].
Proof.
  destruct (transmit_drains ready_env (mk_txnode 7 8) 1 instance1 (mk_tx (D := list cstring) [] memory0 ERR 0 []))
    as (h & x' & E & Hq & W).
  - intros n. exists 65536. split; [reflexivity|lia].
  - discriminate.
  - discriminate.
  - reflexivity.
  - unfold instance1, instance0. cbn. repeat (apply Forall_cons_2; [|]); try apply Forall_nil_2; cbn; try apply Forall_nil_2.
    split; [reflexivity|cbn; lia].
  - intros k n Hk Ek. unfold instance1, instance0 in Ek. cbn in Ek.
    do 9 (destruct k as [|k]; [injection Ek as <-; apply Nat.leb_le; reflexivity|cbn in Ek]). discriminate Ek.
  - exists h, x'. split; [exact E|]. split; [exact Hq|]. etrans; [exact W|]. vm_compute. reflexivity.
Defined.

(** A [select] that times out counts as success, and nothing was sent. *)
Theorem timeout_reported_as_sent :
  pgw_send_sock (fun _ => SelTimeout) 5 (bzero 16) echo_message 0 [] = Ok (OK, 1%nat, []).
Proof. reflexivity. Qed.

(** A create session request of eight bytes is valid for the receive callback, and
    the router reads its sequence number behind the packet. *)
Theorem short_create_session_overreads :
  let d := [0x48; 32; 0; 4; 0; 0; 0; 1] in
  (exists b, on_receive gtpc_server (bzero 2048) d = Ok (Some (b, 8))) /\
  event_rx (fun _ => true) instance0 d 8 (bzero 16) 16 (bzero 16) 16 gtpc_server memory0 = Fault Undefined.
Proof. split; [eexists; vm_compute; reflexivity|vm_compute; reflexivity]. Qed.

(** The count of the peer cache is not decremented by a delete. *)
Theorem peer_count_grows :
  exists t s t', pgw_set_sgw_peer (fun _ => true) (Some (mk_peers [] 0 0)) 7 1 1 memory0 = (OK, Some t, s) /\
    pgw_delete_sgw_peer (Some t) 7 = (OK, Some t') /\ peers t' = [] /\ p_count t' = 1.
Proof. by eexists _, _, _. Qed.

(** A set that runs out of memory has already dropped the previous value. *)
Theorem failed_set_loses_property :
  exists s, pgw_set_property (fun _ => false) (Some [mk_property 1 [49; 0] 1]) 1 (Some [50]) 1 memory0 = Ok (ERR, Some [], s).
Proof. by eexists. Qed.
End Properties.
