(* ===== verification/CtrlSession.v ===== *)
(** * Control plane: session management, GTP-C version 2

    The request handlers of ctrlplane/src/pgw/event: create session, modify bearer,
    delete session, delete bearer, suspend and resume notification, and the
    dispatcher event_gtpc_other.c.  Each parses a request, looks the session up and
    updates it in the database, and puts a response on the egress queue of its node.

    The database is the interface of CtrlNode; SQL statements are the texts the code
    builds.  A handler threads the allocation counters, the node and the database
    ([ctx]).  [erange] tells whether [errno] is ERANGE when digits are read (see
    GtpcItems). *)

From S2P Require Import Prelude TextParse Gtpc GtpcItems GtpcParse CtrlNode.

(** ** Constants *)
Definition GTPC_SUSPEND_ACK := 163.
Definition GTPC_RESUME_ACK := 165.
Definition GTPC_CAUSE_REQUEST_ACCEPTED := 16.
Definition GTPC_CAUSE_REQUEST_DENIED_APN_ACCESS := 93.
Definition GTPC_INSTANCE_ORDER_0 := 0.
Definition GTPC_INSTANCE_ORDER_1 := 1.
Definition GTPC_INSTANCE_ORDER_2 := 2.
Definition GTPC_FTEIDIF_S5S8_PGW_GTPU := 5.
Definition GTPC_FTEIDIF_S5S8_PGW_GTPC := 7.
Definition GTPC_PDN_IPV4 := 1.
Definition GTPC_PDN_IPV6 := 2.
Definition GTPC_PDN_IPV4V6 := 3.
Definition GTPC_PAA_PDNTYPE_IPV4 := 1.
Definition GTPC_PAA_PDNTYPE_IPV6 := 2.
Definition GTPC_PAA_PDNTYPE_BOTH := 3.
Definition GTPC_APN_RESTRICTION := 0.
Definition GTPC_BQOS_FLAG := 4.
Definition GTPC_BQOS_QCI := 9.
Definition PGW_IP8 := 10.
Definition PCO_ALL : Z :=
  Z.lor (Z.lor HAVE_PCO_IPV4_LINK_MTU HAVE_PCO_NONIP_LINK_MTU) (Z.lor HAVE_PCO_DNS_IPV6 HAVE_PCO_DNS_IPV4).
Definition HAVE_PCO_DNS_IPV64 : Z := Z.lor HAVE_PCO_DNS_IPV4 HAVE_PCO_DNS_IPV6.
Definition HAVE_PCO_IPCP_DNS : Z := Z.lor HAVE_PCO_IPCP_S_DNS HAVE_PCO_IPCP_P_DNS.
Definition PCO_DNS_IPV6_VAL : list Z :=
  [0x00; 0x03; 0x10; 0x20; 0x01; 0x48; 0x60; 0x48; 0x60; 0; 0; 0; 0; 0; 0; 0; 0; 0x88; 0x88;
   0x00; 0x03; 0x10; 0x20; 0x01; 0x48; 0x60; 0x48; 0x60; 0; 0; 0; 0; 0; 0; 0; 0; 0x88; 0x44].
Definition PCO_DNS_IPV4_VAL : list Z := [0x00; 0x0d; 0x04; 8; 8; 8; 8; 0x00; 0x0d; 0x04; 8; 8; 4; 4].
Definition PCO_DNS_IPV64_VAL : list Z := PCO_DNS_IPV6_VAL ++ PCO_DNS_IPV4_VAL.
Definition PCO_MTU_IPV4_VAL : list Z := [0x00; 0x10; 0x02; 0x05; 0xb8].
Definition PCO_MTU_NONIP_VAL : list Z := [0x00; 0x15; 0x02; 0x05; 0xb8].
Definition PCO_DNS_IPCP_IPV4_VAL : list Z :=
  [0x80; 0x21; 0x10; 0x03; 0x00; 0x00; 0x10; 0x81; 0x06; 8; 8; 8; 8; 0x83; 0x06; 8; 8; 4; 4].

(** The restart counter of this gateway and the dual-stack build option. *)
Class PgwBuild := { PGW_RECOVERY_COUNT : Z; IPV64 : bool }.

(** ** Statements

    [%u] prints a U32, [%llu] a U64. *)
Definition llu (v : Z) : cstring := print_digits 20 v [].
Definition CREATE_SESSION_PGWIP_UPD_SQL (c u : cstring) (imsi : Z) : cstring :=
  lit "UPDATE tunnel SET pgw_gtpc_ipv='" ++ c ++ lit "',pgw_gtpu_ipv='" ++ u ++ lit "' WHERE imsi= " ++ llu imsi.
Definition CREATE_SESSION_IMSI_MSISDN_UPD_SQL (msisdn imsi : Z) : cstring :=
  lit "UPDATE tunnel SET msisdn=" ++ llu msisdn ++ lit " WHERE imsi = " ++ llu imsi.
Definition set_tunnel (cteid : Z) (cip : cstring) (uteid : Z) (uip : cstring) : cstring :=
  lit "UPDATE tunnel SET `sgw_gtpc_teid`=" ++ print_u cteid ++ lit ", `sgw_gtpc_ipv`='" ++ cip ++
  lit "', `sgw_gtpu_teid`=" ++ print_u uteid ++ lit ", `sgw_gtpu_ipv`='" ++ uip ++ lit "', ".
Definition set_restart (r : option Z) : cstring :=
  match r with Some r => lit ", `restart_counter`=" ++ print_u r | None => [] end.
(** With and without the restart counter (CREATE_SESSION_UPD_R_SQL, CREATE_SESSION_UPD_SQL). *)
Definition CREATE_SESSION_UPD_SQL cteid cip uteid uip (qci ebi teid : Z) (r : option Z) (imsi : Z) : cstring :=
  set_tunnel cteid cip uteid uip ++ lit " `qci`=" ++ print_u qci ++ lit ", `active` = 1, `ebi`=" ++ print_u ebi ++
  lit ", `pgw_teid`=" ++ print_u teid ++ lit ", `latest_gtp_version`=2" ++ set_restart r ++
  lit "  WHERE imsi = " ++ llu imsi ++ lit " ".
(** The four forms of the modify bearer update (MODIFY_BEARER[_RAT]_UPD[_R]_SQL). *)
Definition MODIFY_BEARER_UPD_SQL cteid cip uteid uip (teid : Z) (rat r : option Z) (imsi : Z) : cstring :=
  lit "UPDATE tunnel SET `sgw_gtpc_teid`=" ++ print_u cteid ++ lit ", `sgw_gtpc_ipv`='" ++ cip ++
  lit "',  `sgw_gtpu_teid`=" ++ print_u uteid ++ lit ", `sgw_gtpu_ipv`='" ++ uip ++ lit "', `pgw_teid`=" ++ print_u teid ++
  lit ", " ++ (match rat with Some v => lit "`rat`=" ++ print_u v ++ lit "," | None => [] end) ++
  lit " `active` = 1, `latest_gtp_version`=2" ++ set_restart r ++ lit "  WHERE imsi = " ++ llu imsi ++ lit " ".
Definition MODIFY_BEARER_RATONLY_UPD_SQL (rat : Z) (r : option Z) (imsi : Z) : cstring :=
  lit "UPDATE tunnel SET `rat`=" ++ print_u rat ++ lit ",`active` = 1, `latest_gtp_version`=2" ++
  (match r with Some _ => set_restart r ++ lit " " | None => [] end) ++ lit " WHERE imsi = " ++ llu imsi ++ lit " ".
Definition MODIFY_BEARER_EBI_UPD_SQL (ebi imsi : Z) : cstring :=
  lit "UPDATE tunnel SET `ebi`=" ++ print_u ebi ++ lit " WHERE imsi = " ++ llu imsi ++ lit " ".
Definition DELETE_SESSION_UPD_SQL (teid ebi : Z) : cstring :=
  lit "UPDATE tunnel SET `active` = 0 WHERE pgw_teid = " ++ print_u teid ++ lit " AND ebi = " ++ print_u ebi ++ lit " ".
Definition SUSPEND_NOTIFY_UPD_SQL (teid : Z) : cstring :=
  lit "UPDATE tunnel SET active=0, `latest_gtp_version`=2 WHERE pgw_teid = " ++ print_u teid.
Definition RESUME_NOTIFY_UPD_SQL (imsi : Z) : cstring :=
  lit "UPDATE tunnel SET active=1, `latest_gtp_version`=2 WHERE imsi = " ++ llu imsi.

(** ** The processing container: the parse state and the fields of [gtpc_parse_state]
    the parsers do not touch *)
Record session := mk_session {
  ps : gtpc_parse_state;
  gtph_seqno : Z;
  gtph_teid : Z;
  ue_ipv : list Z;          (* char[32] *)
  pgw_u_ipv : list Z;
  pgw_c_ipv : list Z;
  pgw_c_ipv_n : list Z;     (* struct in_addr *)
  sgw_c_teid : Z;
  imsi_num : Z;
  msisdn_num_ : Z;
  bitrate_s5 : Z;
  bitrate_sgi : Z;
  dns : list Z;             (* the bytes decoded, at most 15 *)
  ebi : Z;
}.
Definition session0 : session :=
  mk_session parse_state0 0 0 (bzero 32) (bzero 32) (bzero 32) (bzero 4) 0 0 0 0 0 [] 0.
Definition set_ps (p : gtpc_parse_state) (cs : session) : session :=
  mk_session p (gtph_seqno cs) (gtph_teid cs) (ue_ipv cs) (pgw_u_ipv cs) (pgw_c_ipv cs) (pgw_c_ipv_n cs) (sgw_c_teid cs)
    (imsi_num cs) (msisdn_num_ cs) (bitrate_s5 cs) (bitrate_sgi cs) (dns cs) (ebi cs).
Definition set_header (seqno teid : Z) (cs : session) : session :=
  mk_session (ps cs) seqno teid (ue_ipv cs) (pgw_u_ipv cs) (pgw_c_ipv cs) (pgw_c_ipv_n cs) (sgw_c_teid cs)
    (imsi_num cs) (msisdn_num_ cs) (bitrate_s5 cs) (bitrate_sgi cs) (dns cs) (ebi cs).
Definition set_sgw_c_teid (teid : Z) (cs : session) : session :=
  mk_session (ps cs) (gtph_seqno cs) (gtph_teid cs) (ue_ipv cs) (pgw_u_ipv cs) (pgw_c_ipv cs) (pgw_c_ipv_n cs) teid
    (imsi_num cs) (msisdn_num_ cs) (bitrate_s5 cs) (bitrate_sgi cs) (dns cs) (ebi cs).
Definition set_tunnel_fields (teid : Z) (ue u : list Z) (p : gtpc_parse_state) : gtpc_parse_state :=
  mk_parse_state (flag p) (flag_v1 p) (ies p) (qos_len p) (nsapi p) (cause_v1 p) teid ue u.

(** *** Fields of the items the handlers read *)
Definition have (m : Z) (cs : session) : bool := Z.land (flag (ps cs)) m =? m.
Definition any_of (m : Z) (cs : session) : bool := negb (Z.land (flag (ps cs)) m =? 0).
Definition field (n : nat) (f : ie) (p : Z) (cs : session) : Z := le_load (slice p (Z.of_nat n) (ies (ps cs) f)).
Definition teid_grekey (f : ie) (cs : session) : Z := field 4 f o_f_teid_key cs.
Definition teid_blk (f : ie) (cs : session) : list Z := slice o_f_teid_blk 4 (ies (ps cs) f).
Definition ebi_low (f : ie) (cs : session) : Z := low (field 1 f o_body cs).
Definition pdn_type (cs : session) : Z := bf_get 0 3 (field 1 pdn o_body cs).

(** ** Reading a tunnel row: [on_tunnel_record] *)

(** [inet_aton]: up to four numbers in C notation, the last one filling the rest of
    the address; nothing when the text is no address. *)
Definition hexval (c : Z) : option Z :=
  if isdigit c then Some (c - 48) else
  if (97 <=? c) && (c <=? 102) then Some (c - 87) else
  if (65 <=? c) && (c <=? 70) then Some (c - 55) else None.
Fixpoint read_number (base acc : Z) (s : cstring) : Z * cstring :=
  match s with
  | c :: s' => match hexval c with
               | Some d => if d <? base then read_number base (acc * base + d) s' else (acc, s)
               | None => (acc, s)
               end
  | [] => (acc, [])
  end.
Definition read_part (s : cstring) : option (Z * cstring) :=
  match s with
  | c :: s' =>
    if isdigit c then
      Some (if c =? 48 then
              match s' with
              | x :: s'' => if (x =? 120) || (x =? 88) then read_number 16 0 s'' else read_number 8 0 s
              | [] => (0, [])
              end
            else read_number 10 0 s)
    else None
  | [] => None
  end.
Fixpoint read_parts (fuel : nat) (s : cstring) : option (list Z * cstring) :=
  match fuel with
  | O => None
  | S fuel =>
    match read_part s with
    | None => None
    | Some (v, c :: s') => if c =? 46 then (fun '(l, r) => (v :: l, r)) <$> read_parts fuel s' else Some ([v], c :: s')
    | Some (v, []) => Some ([v], [])
    end
  end.
Definition inet_aton (s : cstring) : option (list Z) :=
  match read_parts 4 s with
  | Some (l, rest) =>
    if match rest with [] => true | c :: _ => isspace c end then
      let lead := removelast l in
      let last := List.last l 0 in
      if forallb (fun v => v <? 256) lead && (last <? 256 ^ (4 - zlen lead)) then
        Some (lead ++ reverse (le_store (4 - length lead) last))
      else None
    else None
  | None => None
  end.
(** [inet_aton(s, &addr)]: the address is left alone when there is none. *)
Definition aton (s : cstring) (addr : list Z) : list Z := default addr (inet_aton s).

(** [strncpy(a, s, MIN(sizeof(a) - 1, strlen(s)))]: no terminator is written. *)
Definition STRMINCPY (a : list Z) (s : cstring) : list Z := splice 0 (take (length a - 1) s) a.

(** [sscanf("%2hhx")] at a position; the target keeps its zero when nothing matches. *)
Definition scan_hex2 (s : cstring) : Z :=
  match take 2 (skip_space s) with
  | [] => 0
  | c :: s' =>
    if (c =? 43) || (c =? 45) then
      match s' with d :: _ => match hexval d with Some v => if c =? 45 then u8 (- v) else v | None => 0 end | [] => 0 end
    else match hexval c with
         | None => 0
         | Some v => match s' with
                     | d :: _ => match hexval d with Some w => v * 16 + w | None => if (c =? 48) && ((d =? 120) || (d =? 88)) then 0 else v end
                     | [] => v
                     end
         end
  end.
Definition decode_dns (s : cstring) : list Z :=
  let n := zlen s in
  if (0 <? n) && (n mod 2 =? 0) && (n / 2 <? 256)
  then (fun i => scan_hex2 (drop (2 * i) s)) <$> seq 0 (Z.to_nat (n / 2)) else [].

Definition on_tunnel_record (rec : list record) (cs : session) : session :=
  match rec with
  | [r_teid; r_ue; r_s5; r_sgi; r_u; r_c; r_dns; r_ebi; r_imsi; r_msisdn; r_sgw] =>
    let ue := STRMINCPY (ue_ipv cs) (sval r_ue) in
    let u := STRMINCPY (pgw_u_ipv cs) (sval r_u) in
    let c := STRMINCPY (pgw_c_ipv cs) (sval r_c) in
    let p := set_tunnel_fields (u32 (nval r_teid)) (aton (until_nul ue) (ue_ipv_n (ps cs)))
               (aton (until_nul u) (pgw_u_ipv_n (ps cs))) (ps cs) in
    mk_session (or_flag HAVE_RECORD p) (gtph_seqno cs) (gtph_teid cs) ue u c (aton (until_nul c) (pgw_c_ipv_n cs))
      (u32 (nval r_sgw)) (nval r_imsi) (nval r_msisdn) (nval r_s5) (nval r_sgi)
      (decode_dns (take 31 (sval r_dns))) (u8 (nval r_ebi))
  | _ => cs
  end.

(** ** Handlers

    What a handler works on: the allocation counters, its node and the database. *)
Record ctx {D : Type} := mk_ctx { c_mem : gtp_memory; c_node : node; c_db : D }.
Arguments ctx : clear implicits.
Definition set_mem {D} (s : gtp_memory) (c : ctx D) : ctx D := mk_ctx _ s (c_node c) (c_db c).
Definition set_node {D} (n : node) (c : ctx D) : ctx D := mk_ctx _ (c_mem c) n (c_db c).
Definition set_db {D} (db : D) (c : ctx D) : ctx D := mk_ctx _ (c_mem c) (c_node c) db.

(** An item to append: type, block, length. *)
Definition item : Type := Z * list Z * Z.
(** [if (setter(&b, ...) != OK){ break; }]: nothing when the loop is left. *)
Definition or_break {A} (m : res (Z * list Z)) (k : list Z -> res (option A)) : res (option A) :=
  '(rc, b) ← m; if negb (rc =? OK) then Ok None else k b.
Notation "x ⇐ m ; k" := (or_break m (fun x => k)) (at level 20, m at level 100, k at level 200, right associativity).
Definition entry (type : Z) (b : list Z) (len : list Z -> res Z) : res item := l ← len b; Ok (type, b, l).

(** *** The answer to PCO options: [setup_pco]; an ERR is [None] *)
Definition o_seqno := 8.
Definition o_teid := 4.
Section setup.
Context `{B : PgwBuild}.
Definition pco_dns_answer (cs : session) : list Z :=
  if have HAVE_PCO_DNS_IPV64 cs then
    if have HAVE_PDN cs then
      if IPV64 then PCO_DNS_IPV64_VAL
      else if pdn_type cs =? GTPC_PDN_IPV4V6 then PCO_DNS_IPV4_VAL else PCO_DNS_IPV64_VAL
    else PCO_DNS_IPV64_VAL
  else if have HAVE_PCO_DNS_IPV6 cs then PCO_DNS_IPV6_VAL
  else if have HAVE_PCO_DNS_IPV4 cs then PCO_DNS_IPV4_VAL else [].
(** The options and whether they set the extension bit. *)
Definition pco_mtu_answer (cs : session) : list Z :=
  if have HAVE_PCO_NONIP_LINK_MTU cs then PCO_MTU_NONIP_VAL
  else if have HAVE_PCO_IPV4_LINK_MTU cs then PCO_MTU_IPV4_VAL else [].
Definition pco_ipcp_answer (cs : session) : list Z :=
  if have HAVE_PCO_IPCP_DNS cs then PCO_DNS_IPCP_IPV4_VAL else [].
Definition setup_pco (cs : session) : res (option (list Z)) :=
  if any_of PCO_ALL cs then
    let buf := pco_dns_answer cs in
    let mtu := pco_mtu_answer cs in
    let ipcp := pco_ipcp_answer cs in
    let pcolen := zlen (buf ++ mtu ++ ipcp) in
    pcobuffer ← wr_bytes (bzero 255) 0 (buf ++ mtu ++ ipcp);
    pco ← (if 0 <? zlen (mtu ++ ipcp) then wr_bits (bzero sizeof_gtpc_pco) o_pco_head 7 1 1
           else Ok (bzero sizeof_gtpc_pco));
    if 1 <? pcolen then
      '(rc, pco) ← gtpc_pco_set pco pcobuffer (pcolen + 1);
      Ok (if rc =? OK then Some pco else None)
    else Ok None
  else Ok None.
(** The PCO item, when there is one. *)
Definition pco_entry (pco : option (list Z)) : res (list item) :=
  match pco with Some b => e ← entry GTPC_TYPE_PCO b gtpc_pco_length; Ok [e] | None => Ok [] end.
End setup.

Section handlers.
Variable malloc : nat -> bool.
Context {D : Type} `{DB : Database D} `{B : PgwBuild}.
Implicit Types (c : ctx D) (cs : session) (rpckt : gtp_packet).

(** *** Answering a request *)
(** The appends of a response, up to the first one that fails. *)
Fixpoint append_list (l : list item) (p : gtp_packet) (s : gtp_memory) : res (bool * gtp_packet * gtp_memory) :=
  match l with
  | [] => Ok (true, p, s)
  | (ty, b, len) :: l =>
    '(rc, pp, s) ← gtpc_append_item malloc (Some p) ty (Some b) len s;
    p ← deref pp;
    if negb (rc =? OK) then Ok (false, p, s) else append_list l p s
  end.
(** Build the response of a type from its items, release the request, send the
    response back to where the request came from. *)
Definition respond (type : Z) (items : res (option (list item))) (teid : Z) rpckt cs c : res (Z * ctx D) :=
  '(_, lpckt, s) ← gtpc_alloc_packet malloc type (c_mem c);
  '(success, lpckt, s) ←
    (match lpckt with
     | None => Ok (false, None, s)
     | Some p =>
       l ← items;
       match l with
       | None => Ok (false, Some p, s)
       | Some l => '(ok, p, s) ← append_list l p s; Ok (ok, Some p, s)
       end
     end);
  lpckt ← (match lpckt with
           | Some p => p ← gtpc_copy_packet_addr p rpckt; Ok (Some p)
           | None => Ok None
           end);
  '(_, _, s) ← gtpc_free_packet (Some rpckt) s;
  if negb success then Ok (ERR, set_mem s c) else
  p ← deref lpckt;
  '(cpckt, s) ← gtpc_convert_to_packet malloc p s;
  match cpckt with
  | None => Fault RtePanic
  | Some cpckt =>
    b ← wr 4 (data cpckt) o_teid teid;
    q ← rd 4 b o_seqno;
    b ← wr 4 b o_seqno (bf_set 0 24 (gtph_seqno cs) q);
    let cpckt := pgw_swap_address (mk_packet_t (datalen cpckt) b (p_saddr cpckt) (p_saddrlen cpckt)
                                     (p_caddr cpckt) (p_caddrlen cpckt)) in
    let '(rc, n) := pgw_enq EGRESS cpckt (c_node c) in
    if negb (rc =? OK) then Fault RtePanic else Ok (OK, mk_ctx _ s n (c_db c))
  end.

(** *** Reading a request *)
(** Parse it, keep the addresses it came with, its sequence number and tunnel
    identifier; [None] when it is refused. *)
Definition read_request (teid : bool) (pckt : packet_t) c : res (option (gtp_packet * session) * ctx D) :=
  '(rc, pp, s) ← gtpc_alloc_packet_from_payload malloc None (Some (data pckt)) (datalen pckt) (c_mem c);
  let c := set_mem s c in
  if negb (rc =? OK) then Ok (None, c) else
  p ← deref pp;
  sa ← copy_addr (saddr p) (p_saddr pckt) (p_saddrlen pckt);
  ca ← copy_addr (caddr p) (p_caddr pckt) (p_caddrlen pckt);
  let p := mk_packet (items p) (count p) (length_ p) (offset p) (packet p) sa (p_saddrlen pckt) ca (p_caddrlen pckt) in
  q ← rd 4 (data pckt) o_seqno;
  t ← (if teid then t ← rd 4 (data pckt) o_teid; Ok (ntohl t) else Ok 0);
  '(_, st) ← gtpc_iterate_item on_gtpc_parse_root (Some p) parse_state0;
  Ok (Some (p, set_header (bf_get 0 24 q) t (set_ps st session0)), c).

(** *** The database *)
Definition lookup_tunnel (st : stmt) (key : Z) cs c : res (session * ctx D) :=
  if negb (db_bind st key (c_db c)) then Fault RtePanic else
  let '(_, cs, db) := pgw_mysql_execute st key on_tunnel_record cs (c_db c) in Ok (cs, set_db db c).
Definition query (sql : cstring) c : Z * ctx D :=
  let '(rc, db) := db_query (snprintf 511 sql) (c_db c) in (rc, set_db db c).

(** The bearer id becomes the high nibble of the tunnel identifier. *)
Definition prefix_ebi (cs : session) : session :=
  let p := ps cs in
  let teid := Z.lor (Z.land (pgw_teid p) 0x0fffffff) (Z.land 0xf0000000 (Z.shiftl (Z.land (ebi_low ebi_b cs) 0xf) 28)) in
  set_ps (set_tunnel_fields teid (ue_ipv_n p) (pgw_u_ipv_n p) p) cs.
Definition restart_of (cs : session) : option Z :=
  if any_of HAVE_RECOVERY cs then Some (field 1 recovery o_body cs) else None.
(** The addresses of the serving gateway as text ([cip], [uip]). *)
Definition sgw_ip (f : ie) (cs : session) : cstring := snprintf 31 (inet_ntoa (teid_blk f cs)).

(** The burst loop of the request nodes: the result of the handler is not looked at. *)
Definition request_burst (on : packet_t -> ctx D -> res (Z * ctx D)) c : res (Z * ctx D) :=
  let '(pkts, n) := pgw_deq_burst INGRESS 32 (c_node c) in
  let c := set_node n c in
  if 0 <? zlen pkts then
    c ← foldM (fun c pkt => '(_, c) ← on pkt c; Ok (set_mem (pgw_free_packet (Some pkt) (c_mem c)).2 c)) pkts c;
    Ok (OK, c)
  else Ok (ERR, c).
End handlers.

(** ** Create session: event_gtpc_create_session.c *)
Module CreateSession.
Section create_session.
Variable malloc : nat -> bool.
Context {D : Type} `{DB : Database D} `{B : PgwBuild}.
(** Whether [errno] is ERANGE when the first and the second number is read. *)
Variables erange erange' : bool.
Implicit Types (c : ctx D) (cs : session) (rpckt : gtp_packet) (pinst : handle).

(** The address of the user equipment: 2401:f100:XY00::/40 and 10.0.0.0/8, the last
    three octets from the database; nothing when that address has a first octet. *)
Definition ipv6_init pinst : list Z :=
  [0x40; 0x24; 0x01; 0xf1; 0x00;
   Z.lor (Z.shiftl (Z.land 0x0f (ext_set_num pinst)) 4) (Z.land 0x0f (pgw_unit_num pinst)); 0x00; 0x00; 0x00;
   0x00; 0x00; 0x00; 0x00; 0x00; 0x00; 0x00; 0x01].
Definition paa_of pinst cs : res (option (list Z)) :=
  if have HAVE_PDN cs then
    let ueipv := ntohl (le_load (ue_ipv_n (ps cs))) in
    if negb (Z.shiftr ueipv 24 =? 0) then Ok None else
    let ue := le_store 4 (htonl (Z.lor ueipv (Z.shiftl PGW_IP8 24))) in
    ipv6 ← wr_bytes (ipv6_init pinst) 6 (slice 1 3 ue);
    b ⇐ (if pdn_type cs =? GTPC_PDN_IPV4 then gtpc_paa_set GTPC_PAA_PDNTYPE_IPV4 ue 4
         else if pdn_type cs =? GTPC_PDN_IPV6 then gtpc_paa_set GTPC_PAA_PDNTYPE_IPV6 ipv6 17
         else if IPV64 then gtpc_paa_set GTPC_PAA_PDNTYPE_BOTH (ipv6 ++ ue) 21
         else gtpc_paa_set GTPC_PAA_PDNTYPE_IPV4 ue 4);
    Ok (Some b)
  else b ⇐ gtpc_paa_set GTPC_PAA_PDNTYPE_IPV4 (le_store 4 0) 4; Ok (Some b).

Definition accept_items pinst cs : res (option (list item)) :=
  cause ⇐ gtpc_cause_set GTPC_CAUSE_REQUEST_ACCEPTED;
  pgw_c_fteid ⇐ gtpc_f_teid_set GTPC_INSTANCE_ORDER_1 GTPC_FTEIDIF_S5S8_PGW_GTPC (pgw_teid (ps cs))
                  (Some (pgw_c_ipv_n cs)) None;
  paa_ue ← paa_of pinst cs;
  match paa_ue with
  | None => Ok None
  | Some paa_ue =>
    apn ⇐ gtpc_apn_restriction_set GTPC_APN_RESTRICTION;
    ambr ⇐ gtpc_ambr_set (ntohl (field 4 ambr_r o_body cs)) (ntohl (field 4 ambr_r o_ambr_downlink cs));
    pco ← setup_pco cs;
    pgw_u_fteid ⇐ gtpc_f_teid_set GTPC_INSTANCE_ORDER_2 GTPC_FTEIDIF_S5S8_PGW_GTPU (pgw_teid (ps cs))
                    (Some (pgw_u_ipv_n (ps cs))) None;
    ebi ⇐ gtpc_ebi_set GTPC_INSTANCE_ORDER_0 (ebi_low ebi_b cs);
    bearer_qos ⇐ gtpc_gtpc_bearer_qos_set GTPC_BQOS_FLAG GTPC_BQOS_QCI 0 0 0 0;
    chrg ⇐ gtpc_charging_id_set (pgw_teid (ps cs));
    recovery ⇐ gtpc_recovery_set PGW_RECOVERY_COUNT;
    private_ext ⇐ gtpc_private_extension_set (ps cs);
    bctx ⇐ gtpc_bearer_ctx_set;
    l ← gtpc_cause_length cause;
    bctx ⇐ gtpc_bearer_ctx_add_child bctx cause l;
    l ← gtpc_ebi_length ebi;
    bctx ⇐ gtpc_bearer_ctx_add_child bctx ebi l;
    l ← gtpc_f_teid_length pgw_u_fteid;
    bctx ⇐ gtpc_bearer_ctx_add_child bctx pgw_u_fteid l;
    l ← gtpc_charging_id_length chrg;
    bctx ⇐ gtpc_bearer_ctx_add_child bctx chrg l;
    e1 ← entry GTPC_TYPE_CAUSE cause gtpc_cause_length;
    e2 ← entry GTPC_TYPE_F_TEID pgw_c_fteid gtpc_f_teid_length;
    e3 ← entry GTPC_TYPE_PAA paa_ue gtpc_paa_length;
    e4 ← entry GTPC_TYPE_APN_RESTRICTION apn gtpc_apn_restriction_length;
    e5 ← entry GTPC_TYPE_AMBR ambr gtpc_ambr_length;
    e6 ← pco_entry pco;
    e7 ← entry GTPC_TYPE_BEARER_CTX bctx gtpc_bearer_ctx_length;
    e8 ← entry GTPC_TYPE_RECOVERY recovery gtpc_recovery_length;
    Ok (Some ([e1; e2; e3; e4; e5] ++ e6 ++
              [e7; e8; (GTPC_TYPE_PRIVATE_EXTENSION, private_ext, GTPC_PRIVATE_EXT_SIZE)]))
  end.
Definition accept_ pinst rpckt cs c : res (Z * ctx D) :=
  respond malloc GTPC_CREATE_SESSION_RES (accept_items pinst cs) (teid_grekey c_teid cs) rpckt cs c.

Definition denied_items : res (option (list item)) :=
  cause ⇐ gtpc_cause_set GTPC_CAUSE_REQUEST_DENIED_APN_ACCESS;
  bctx ⇐ gtpc_bearer_ctx_set;
  ebi ⇐ gtpc_ebi_set GTPC_INSTANCE_ORDER_0 0;
  l ← gtpc_cause_length cause;
  bctx ⇐ gtpc_bearer_ctx_add_child bctx cause l;
  l ← gtpc_ebi_length ebi;
  bctx ⇐ gtpc_bearer_ctx_add_child bctx ebi l;
  e1 ← entry GTPC_TYPE_CAUSE cause gtpc_cause_length;
  e2 ← entry GTPC_TYPE_BEARER_CTX bctx gtpc_bearer_ctx_length;
  Ok (Some [e1; e2]).
Definition denied_ rpckt cs c : res (Z * ctx D) :=
  respond malloc GTPC_CREATE_SESSION_RES denied_items (teid_grekey c_teid cs) rpckt cs c.

(** What happens between the lookup and the answer: [None] means denied. *)
Definition update_session (imsi_ : Z) cs c : bool * session * ctx D :=
  let cs := prefix_ebi cs in
  let '(rc, c) := query (CREATE_SESSION_UPD_SQL (teid_grekey c_teid cs) (sgw_ip c_teid cs) (teid_grekey u_teid cs)
                           (sgw_ip u_teid cs) (field 1 bqos o_qos_qci cs) (ebi_low ebi_b cs) (pgw_teid (ps cs))
                           (restart_of cs) imsi_) c in
  (rc =? 0, cs, c).

Definition _on_create_session pinst (pckt : packet_t) c : res (Z * ctx D) :=
  '(r, c) ← read_request malloc false pckt c;
  match r with
  | None => Ok (ERR, c)
  | Some (parsed, cs) =>
    if negb (have INCLUDED_ALL cs) then denied_ parsed cs c else
    msisdn_n ← gtpc_digits_get erange (drop 4 (ies (ps cs) msisdn)) GTPC_MSISDN_LEN;
    imsi_n ← gtpc_digits_get erange' (drop 4 (ies (ps cs) imsi)) GTPC_IMSI_LEN;
    let '(rc, c) := query (CREATE_SESSION_PGWIP_UPD_SQL (srv_ip (server_gtpc pinst)) (srv_ip (server_gtpc pinst)) imsi_n) c in
    if negb (rc =? 0) then denied_ parsed cs c else
    let '(rc, c) := if negb (imsi_n =? 0) && negb (msisdn_n =? 0)
                    then query (CREATE_SESSION_IMSI_MSISDN_UPD_SQL msisdn_n imsi_n) c else (0, c) in
    if negb (rc =? 0) then denied_ parsed cs c else
    '(cs, c) ← lookup_tunnel CREATE_SESSION_IMSI_LOOKUP imsi_n cs c;
    '(cs, imsi_n, c) ←
      (if any_of HAVE_RECORD cs then Ok (cs, imsi_n, c) else
       '(cs, c) ← lookup_tunnel CREATE_SESSION_MSISDN_LOOKUP msisdn_n cs c; Ok (cs, imsi_num cs, c));
    if negb (any_of HAVE_RECORD cs) then denied_ parsed cs c else
    let '(ok, cs, c) := update_session imsi_n cs c in
    if ok then accept_ pinst parsed cs c else denied_ parsed cs c
  end.
Definition event_gtpc_create_session_req pinst c : res (Z * ctx D) := request_burst (_on_create_session pinst) c.
End create_session.
End CreateSession.

(** ** Modify bearer: event_gtpc_modify_bearer.c *)
Module ModifyBearer.
Section modify_bearer.
Variable malloc : nat -> bool.
Context {D : Type} `{DB : Database D} `{B : PgwBuild}.
Implicit Types (c : ctx D) (cs : session) (rpckt : gtp_packet).

(** The request moves both tunnels, as opposed to a change of the radio access only. *)
Definition both_teids cs : bool := negb (teid_grekey c_teid cs =? 0) && negb (teid_grekey u_teid cs =? 0).

Definition accept_items cs : res (option (list item)) :=
  cause ⇐ gtpc_cause_set GTPC_CAUSE_REQUEST_ACCEPTED;
  msisdn ⇐ gtpc_msisdn_set (msisdn_num_ cs);
  pco ← setup_pco cs;
  ebi ⇐ gtpc_ebi_set GTPC_INSTANCE_ORDER_0 (ebi_low ebi_b cs);
  ebi_lnk ⇐ gtpc_ebi_set GTPC_INSTANCE_ORDER_0 5;
  chrg ⇐ gtpc_charging_id_set (pgw_teid (ps cs));
  recovery ⇐ gtpc_recovery_set PGW_RECOVERY_COUNT;
  private_ext ⇐ gtpc_private_extension_set (ps cs);
  apn ⇐ gtpc_apn_restriction_set GTPC_APN_RESTRICTION;
  ambr ⇐ gtpc_ambr_set (ntohl (field 4 ambr_r o_body cs)) (ntohl (field 4 ambr_r o_ambr_downlink cs));
  bctx ⇐ gtpc_bearer_ctx_set;
  l ← gtpc_cause_length cause;
  bctx ⇐ gtpc_bearer_ctx_add_child bctx cause l;
  l ← gtpc_ebi_length ebi;
  bctx ⇐ gtpc_bearer_ctx_add_child bctx ebi l;
  l ← gtpc_charging_id_length chrg;
  bctx ⇐ gtpc_bearer_ctx_add_child bctx chrg l;
  e1 ← entry GTPC_TYPE_CAUSE cause gtpc_cause_length;
  e2 ← entry GTPC_TYPE_MSISDN msisdn gtpc_msisdn_length;
  e3 ← entry GTPC_TYPE_EBI ebi_lnk gtpc_ebi_length;
  e4 ← entry GTPC_TYPE_APN_RESTRICTION apn gtpc_apn_restriction_length;
  e5 ← pco_entry pco;
  e6 ← entry GTPC_TYPE_BEARER_CTX bctx gtpc_bearer_ctx_length;
  e7 ← entry GTPC_TYPE_RECOVERY recovery gtpc_recovery_length;
  Ok (Some ([e1; e2; e3; e4] ++ e5 ++ [e6; e7] ++
            (if both_teids cs then [(GTPC_TYPE_PRIVATE_EXTENSION, private_ext, GTPC_PRIVATE_EXT_SIZE)] else []))).
Definition accept_ rpckt cs c : res (Z * ctx D) :=
  respond malloc GTPC_MODIFY_BEARER_RES (accept_items cs) (sgw_c_teid cs) rpckt cs c.

Definition denied_items : res (option (list item)) :=
  cause ⇐ gtpc_cause_set GTPC_CAUSE_REQUEST_DENIED_APN_ACCESS;
  e1 ← entry GTPC_TYPE_CAUSE cause gtpc_cause_length;
  Ok (Some [e1]).
Definition denied_ rpckt cs c : res (Z * ctx D) :=
  respond malloc GTPC_MODIFY_BEARER_RES denied_items (sgw_c_teid cs) rpckt cs c.

Definition rat_of cs : option Z := if any_of HAVE_RAT cs then Some (field 1 rat o_body cs) else None.
(** The updates of the tunnel: the new tunnels, or the radio access, then the
    bearer id; the result says whether the request is accepted. *)
Definition update_tunnel cs c : bool * session * ctx D :=
  if both_teids cs then
    let '(rc, c) := query (MODIFY_BEARER_UPD_SQL (teid_grekey c_teid cs) (sgw_ip c_teid cs) (teid_grekey u_teid cs)
                             (sgw_ip u_teid cs) (pgw_teid (ps cs)) (rat_of cs) (restart_of cs) (imsi_num cs)) c in
    if rc =? 0 then (true, set_sgw_c_teid (teid_grekey c_teid cs) cs, c) else (false, cs, c)
  else match rat_of cs with
       | Some r => let '(rc, c) := query (MODIFY_BEARER_RATONLY_UPD_SQL r (restart_of cs) (imsi_num cs)) c in
                   (rc =? 0, cs, c)
       | None => (true, cs, c)
       end.
Definition update_ebi cs c : bool * ctx D :=
  if any_of HAVE_EBI_B cs then
    let '(rc, c) := query (MODIFY_BEARER_EBI_UPD_SQL (ebi_low ebi_b cs) (imsi_num cs)) c in (rc =? 0, c)
  else (true, c).

Definition _on_modify_bearer (pckt : packet_t) c : res (Z * ctx D) :=
  '(r, c) ← read_request malloc true pckt c;
  match r with
  | None => Ok (ERR, c)
  | Some (parsed, cs) =>
    '(cs, c) ← lookup_tunnel MODIFY_BEARER_LOOKUP (gtph_teid cs) cs c;
    if negb (any_of HAVE_RECORD cs) then denied_ parsed cs c else
    let cs := prefix_ebi cs in
    let '(ok, cs, c) := update_tunnel cs c in
    if negb ok then denied_ parsed cs c else
    let '(ok, c) := update_ebi cs c in
    if negb ok then denied_ parsed cs c else accept_ parsed cs c
  end.
Definition event_gtpc_modify_bearer_req c : res (Z * ctx D) := request_burst _on_modify_bearer c.
End modify_bearer.
End ModifyBearer.

(** ** The requests of the other node

    Delete session, delete bearer, suspend and resume notification share their
    course: look the session up by the tunnel identifier of the request, run one
    statement, accept or deny. *)
Section simple_request.
Variable malloc : nat -> bool.
Context {D : Type} `{DB : Database D}.
Definition by_teid (guard : session -> bool) (sql : session -> res cstring)
    (accept denied : gtp_packet -> session -> ctx D -> res (Z * ctx D)) (pckt : packet_t) (c : ctx D) : res (Z * ctx D) :=
  '(r, c) ← read_request malloc true pckt c;
  match r with
  | None => Ok (ERR, c)
  | Some (parsed, cs) =>
    if negb (guard cs) then denied parsed cs c else
    '(cs, c) ← lookup_tunnel DELETE_SESSION_LOOKUP (gtph_teid cs) cs c;
    if negb (any_of HAVE_RECORD cs) then denied parsed cs c else
    q ← sql cs;
    let '(rc, c) := query q c in
    if negb (rc =? 0) then denied parsed cs c else accept parsed cs c
  end.
End simple_request.

(** *** event_gtpc_delete_session.c *)
Module DeleteSession.
Section delete_session.
Variable malloc : nat -> bool.
Context {D : Type} `{DB : Database D} `{B : PgwBuild}.
Implicit Types (c : ctx D) (cs : session) (rpckt : gtp_packet).
Definition accept_items cs : res (option (list item)) :=
  cause ⇐ gtpc_cause_set GTPC_CAUSE_REQUEST_ACCEPTED;
  recovery ⇐ gtpc_recovery_set PGW_RECOVERY_COUNT;
  pco ← setup_pco cs;
  e1 ← entry GTPC_TYPE_CAUSE cause gtpc_cause_length;
  e2 ← pco_entry pco;
  e3 ← entry GTPC_TYPE_RECOVERY recovery gtpc_recovery_length;
  Ok (Some ([e1] ++ e2 ++ [e3])).
Definition accept_ rpckt cs c : res (Z * ctx D) :=
  respond malloc GTPC_DELETE_SESSION_RES (accept_items cs) (sgw_c_teid cs) rpckt cs c.
Definition denied_items : res (option (list item)) :=
  cause ⇐ gtpc_cause_set GTPC_CAUSE_REQUEST_DENIED_APN_ACCESS;
  recovery ⇐ gtpc_recovery_set PGW_RECOVERY_COUNT;
  e1 ← entry GTPC_TYPE_CAUSE cause gtpc_cause_length;
  e2 ← entry GTPC_TYPE_RECOVERY recovery gtpc_recovery_length;
  Ok (Some [e1; e2]).
Definition denied_ rpckt cs c : res (Z * ctx D) :=
  respond malloc GTPC_DELETE_SESSION_RES denied_items (sgw_c_teid cs) rpckt cs c.
Definition event_gtpc_delete_session_req (pckt : packet_t) c : res (Z * ctx D) :=
  by_teid malloc (fun _ => true) (fun cs => Ok (DELETE_SESSION_UPD_SQL (gtph_teid cs) (ebi_low ebi_r cs)))
    accept_ denied_ pckt c.
End delete_session.
End DeleteSession.

(** *** event_gtpc_delete_bearer.c *)
Module DeleteBearer.
Section delete_bearer.
Variable malloc : nat -> bool.
Context {D : Type} `{DB : Database D} `{B : PgwBuild}.
Implicit Types (c : ctx D) (cs : session) (rpckt : gtp_packet).
Definition accept_items cs : res (option (list item)) :=
  cause ⇐ gtpc_cause_set GTPC_CAUSE_REQUEST_ACCEPTED;
  ebi_ ⇐ gtpc_ebi_set GTPC_INSTANCE_ORDER_0 (ebi cs);
  pco ← setup_pco cs;
  e1 ← entry GTPC_TYPE_CAUSE cause gtpc_cause_length;
  e2 ← entry GTPC_TYPE_EBI ebi_ gtpc_ebi_length;
  e3 ← pco_entry pco;
  Ok (Some ([e1; e2] ++ e3)).
Definition accept_ rpckt cs c : res (Z * ctx D) :=
  respond malloc GTPC_DELETE_BEARER_RES (accept_items cs) (sgw_c_teid cs) rpckt cs c.
(** The type of the refusal is that of a delete session response. *)
Definition denied_items cs : res (option (list item)) :=
  cause ⇐ gtpc_cause_set GTPC_CAUSE_REQUEST_DENIED_APN_ACCESS;
  ebi_ ⇐ gtpc_ebi_set GTPC_INSTANCE_ORDER_0 (ebi cs);
  recovery ⇐ gtpc_recovery_set PGW_RECOVERY_COUNT;
  e1 ← entry GTPC_TYPE_CAUSE cause gtpc_cause_length;
  e2 ← entry GTPC_TYPE_EBI ebi_ gtpc_ebi_length;
  e3 ← entry GTPC_TYPE_RECOVERY recovery gtpc_recovery_length;
  e4 ← pco_entry (if have HAVE_PCO cs then Some (ies (ps cs) pco) else None);
  Ok (Some ([e1; e2; e3] ++ e4)).
Definition denied_ rpckt cs c : res (Z * ctx D) :=
  respond malloc GTPC_DELETE_SESSION_RES (denied_items cs) (sgw_c_teid cs) rpckt cs c.
Definition event_gtpc_delete_bearer_req (pckt : packet_t) c : res (Z * ctx D) :=
  by_teid malloc (fun _ => true) (fun cs => Ok (DELETE_SESSION_UPD_SQL (gtph_teid cs) (ebi_low ebi_r cs)))
    accept_ denied_ pckt c.
End delete_bearer.
End DeleteBearer.

(** *** event_gtpc_suspend_notification.c and event_gtpc_resume_notification.c *)
Module Notification.
Section notification.
Variable malloc : nat -> bool.
Context {D : Type} `{DB : Database D}.
Implicit Types (c : ctx D) (cs : session) (rpckt : gtp_packet).
Definition cause_items (cause : Z) : res (option (list item)) :=
  cause ⇐ gtpc_cause_set cause;
  e1 ← entry GTPC_TYPE_CAUSE cause gtpc_cause_length;
  Ok (Some [e1]).
Definition suspend_accept rpckt cs c : res (Z * ctx D) :=
  respond malloc GTPC_SUSPEND_ACK (cause_items GTPC_CAUSE_REQUEST_ACCEPTED) (sgw_c_teid cs) rpckt cs c.
Definition suspend_denied rpckt cs c : res (Z * ctx D) :=
  respond malloc GTPC_SUSPEND_ACK (cause_items GTPC_CAUSE_REQUEST_DENIED_APN_ACCESS) (sgw_c_teid cs) rpckt cs c.
Definition event_gtpc_suspend_notification_req (pckt : packet_t) c : res (Z * ctx D) :=
  by_teid malloc (fun _ => true) (fun cs => Ok (SUSPEND_NOTIFY_UPD_SQL (gtph_teid cs))) suspend_accept suspend_denied pckt c.

Definition resume_accept rpckt cs c : res (Z * ctx D) :=
  respond malloc GTPC_RESUME_ACK (cause_items GTPC_CAUSE_REQUEST_ACCEPTED) (sgw_c_teid cs) rpckt cs c.
Definition resume_denied rpckt cs c : res (Z * ctx D) :=
  respond malloc GTPC_RESUME_ACK (cause_items GTPC_CAUSE_REQUEST_DENIED_APN_ACCESS) (sgw_c_teid cs) rpckt cs c.
Definition event_gtpc_resume_notification_req (erange : bool) (pckt : packet_t) c : res (Z * ctx D) :=
  by_teid malloc (have HAVE_IMSI)
    (fun cs => n ← gtpc_digits_get erange (drop 4 (ies (ps cs) imsi)) GTPC_IMSI_LEN; Ok (RESUME_NOTIFY_UPD_SQL n))
    resume_accept resume_denied pckt c.
End notification.
End Notification.

(** *** event_gtpc_other.c; the version 1 handler is an argument *)
Section other.
Variable malloc : nat -> bool.
Context {D : Type} `{DB : Database D} `{B : PgwBuild}.
Variables (erange : bool) (event_gtpc_v1_any_req : packet_t -> ctx D -> res (Z * ctx D)).
Definition on_other (pckt : packet_t) (c : ctx D) : res (Z * ctx D) :=
  f ← rd 1 (data pckt) o_flags;
  if v2_version f =? GTPC_VERSION_2 then
    t ← rd 1 (data pckt) o_type;
    if t =? GTPC_DELETE_SESSION_REQ then DeleteSession.event_gtpc_delete_session_req malloc pckt c else
    if t =? GTPC_DELETE_BEARER_REQ then DeleteBearer.event_gtpc_delete_bearer_req malloc pckt c else
    if t =? GTPC_RESUME_NOTIFICATION then Notification.event_gtpc_resume_notification_req malloc erange pckt c else
    if t =? GTPC_SUSPEND_NOTIFICATION then Notification.event_gtpc_suspend_notification_req malloc pckt c else
    Ok (OK, c)
  else event_gtpc_v1_any_req pckt c.
Definition event_gtpc_other_req (c : ctx D) : res (Z * ctx D) := request_burst on_other c.
End other.

(** ** A request that has been read *)
Section reading.
Variable malloc : nat -> bool.

Lemma append_item_inv hl base p ty d len s pp s' :
  pkt_wf hl base p -> bytes_ok d -> 0 <= len ->
  gtpc_append_item malloc (Some p) ty (Some d) len s = Ok (OK, pp, s') ->
  exists p', pp = Some p' /\ pkt_wf hl base p' /\ same_frame hl p p' /\ s' = next_malloc s.
Proof.
  intros Hw Hd Hl. unfold gtpc_append_item. repeat (case_if; [done|]). to_prop.
  destruct (append p ty d len) as [p'|] eqn:Ea; [|done]. rewrite (wf_cap _ _ _ Hw) in *.
  assert (Hz : len <= zlen d).
  { clear -Ea. unfold append in Ea. destruct (rd_bytes len d 0) eqn:Er; [|done]. apply rd_bytes_inv in Er. lia. }
  destruct (append_ok hl base p ty d len) as (p1 & Ea1 & Hw' & _ & _ & Hf); [done|lia|lia|lia|done|].
  rewrite Ea1 in Ea. injection Ea as ->. res_simpl.
  intros [= <- <-]. by exists p'.
Qed.

Lemma parse_items_inv hl fuel payload len off p s pp s' :
  pkt_wf hl 4 p -> bytes_ok payload -> parse_items malloc fuel payload len off p s = Ok (OK, pp, s') ->
  exists p', pp = Some p' /\ pkt_wf hl 4 p' /\ same_frame hl p p' /\ same_counts s s'.
Proof.
  intros Hw Hb. assert (Hno : forall p1 s1, release p1 s1 = Ok (OK, pp, s') -> False).
  { intros p1 s1. unfold release. by destruct (gtpc_free_packet (Some p1) s1) as [[[??]?]|]. }
  revert off p s Hw. induction fuel as [|fuel IH]; intros off p s Hw; cbn [parse_items]; [by intros ?%Hno|].
  case_if; [by intros ?%Hno|]. destruct (rd 2 _ _) as [l|]; [|done]. destruct (rd 1 _ _) as [ty|]; [|done]. res_simpl.
  destruct (gtpc_append_item _ _ _ _ _ _) as [[[rc pp1] s1]|] eqn:Ea; [|done]. res_simpl.
  destruct pp1 as [p1|]; [|done]. res_simpl. case_if; [by intros ?%Hno|]. to_prop. subst rc.
  apply (append_item_inv hl 4) in Ea as (p1' & [= <-] & Hw1 & Hf1 & ->); [|done|by apply Forall_drop|apply wrap_range; lia].
  case_if; [done|]. case_if.
  - intros [= <- <-]. by exists p1.
  - intros (p' & -> & Hw' & Hf' & Hs)%IH; [|done]. exists p'. split; [done|]. split; [done|]. split; [by eapply same_frame_trans|done].
Qed.

Lemma from_payload_inv payload len s pp s' :
  bytes_ok payload -> gtpc_alloc_packet_from_payload malloc None (Some payload) len s = Ok (OK, pp, s') ->
  exists type p, pp = Some p /\ pkt_wf (gtpc_type_headerlen type) 4 p /\
    same_frame (gtpc_type_headerlen type) (new_packet (gtpc_type_headerlen type) (v2_block type)) p /\
    same_counts (count_gtp 0 1 0 s) s'.
Proof.
  intros Hb. unfold gtpc_alloc_packet_from_payload. case_if; [done|].
  destruct (gtpc_validate_header payload) as [v|]; [|done]. res_simpl. case_if; [done|].
  destruct (rd 2 payload o_length) as [l|]; [|done]. res_simpl. case_if; [done|].
  destruct (rd 1 payload o_type) as [type|]; [|done]. res_simpl. case_if; [done|].
  destruct (malloc (mallocs s)) eqn:Em; [|unfold gtpc_alloc_packet; by rewrite Em].
  rewrite gtpc_alloc_packet_eq by done. res_simpl. cbn [negb Z.eqb OK].
  pose proof (v2_packet_wf type) as Hw. intros H. exists type. revert H. case_if; intros H.
  - injection H as <- <-. eexists. split; [done|]. split; [done|]. split; [apply same_frame_refl|done].
  - apply (parse_items_inv (gtpc_type_headerlen type)) in H as (p' & -> & Hw' & Hf & Hs); [|done|done]. by exists p'.
Qed.
End reading.

(** *** Addresses from the database *)
Lemma hexval_range c d : hexval c = Some d -> 0 <= d < 16.
Proof. unfold hexval, isdigit. repeat case_if; to_prop; intros; simplify_eq; lia. Qed.

Lemma read_number_nonneg base acc s : 0 <= base -> 0 <= acc -> 0 <= (read_number base acc s).1.
Proof.
  intros Hb. revert acc. induction s as [|c s IH]; intros acc Ha; cbn [read_number]; [done|].
  destruct (hexval c) as [d|] eqn:E; [|done]. apply hexval_range in E. case_if; [|done]. apply IH. nia.
Qed.

Lemma read_part_nonneg s v r : read_part s = Some (v, r) -> 0 <= v.
Proof.
  intros H. assert (Hv : v = (default (0, []) (read_part s)).1) by by rewrite H. rewrite Hv. clear Hv H.
  unfold read_part. destruct s as [|c s]; [done|]. case_if; [|done]. unfold default. cbn [from_option].
  case_if; [|apply read_number_nonneg; lia]. destruct s as [|x s]; [done|]. case_if; apply read_number_nonneg; lia.
Qed.

Lemma read_parts_ok fuel s l r : read_parts fuel s = Some (l, r) ->
  l <> [] /\ (length l <= fuel)%nat /\ Forall (fun v => 0 <= v) l.
Proof.
  revert s l r. induction fuel as [|fuel IH]; intros s l r; cbn [read_parts]; [done|].
  destruct (read_part s) as [[v t]|] eqn:E; [|done]. apply read_part_nonneg in E.
  assert (Hone : forall r', Some ([v], r') = Some (l, r) -> l <> [] /\ (length l <= S fuel)%nat /\ Forall (fun v => 0 <= v) l).
  { intros r' [= <- _]. split; [done|]. split; [cbn; lia|]. by repeat constructor. }
  destruct t as [|c t]; [apply Hone|]. case_if; [|apply Hone].
  destruct (read_parts fuel t) as [[l' r']|] eqn:E'; [|done]. cbn. intros [= <- <-].
  apply IH in E' as (_ & Hl & Hf). split; [done|]. split; [cbn; lia|]. by constructor.
Qed.

Definition addr_ok (a : list Z) : Prop := zlen a = 4 /\ bytes_ok a.

Lemma inet_aton_ok s a : inet_aton s = Some a -> addr_ok a.
Proof.
  unfold inet_aton. destruct (read_parts 4 s) as [[l r]|] eqn:E; [|done].
  apply read_parts_ok in E as (Hne & Hl & Hf). case_match; [|done]. case_if; [|done]. to_prop. intros [= <-].
  destruct (exists_last Hne) as (lead & x & ->). rewrite removelast_last in *. rewrite length_app in Hl. cbn [length] in Hl.
  rewrite Forall_app in Hf. destruct Hf as [Hf _]. split.
  - rewrite length_app, length_reverse, length_le_store. lia.
  - apply Forall_app_2; [|apply Forall_reverse_iff, le_store_ok]. rewrite Forall_forall in *. intros v Hv.
    rewrite forallb_forall in H0. specialize (Hf v Hv). apply list_elem_of_In, H0 in Hv. unfold byte_ok. to_prop. lia.
Qed.

Lemma aton_ok s a : addr_ok a -> addr_ok (aton s a).
Proof. intros Ha. unfold aton. destruct (inet_aton s) eqn:E; cbn; [by eapply inet_aton_ok|done]. Qed.

(** *** Well-formed sessions *)
Record session_wf (cs : session) : Prop := {
  ses_state : state_wf (ps cs);
  ses_ue : addr_ok (ue_ipv_n (ps cs));
  ses_u : addr_ok (pgw_u_ipv_n (ps cs));
  ses_c : addr_ok (pgw_c_ipv_n cs);
}.
(** What the database callback leaves of a session: the request's own part. *)
Definition same_request (cs cs' : session) : Prop :=
  gtph_seqno cs' = gtph_seqno cs /\ gtph_teid cs' = gtph_teid cs /\ ies (ps cs') = ies (ps cs).

Lemma on_tunnel_record_ok rec cs : session_wf cs -> session_wf (on_tunnel_record rec cs) /\ same_request cs (on_tunnel_record rec cs).
Proof.
  intros [Hs Hue Hu Hc]. unfold on_tunnel_record. repeat case_match; try (split; [by split|done]).
  split; [|done]. split; cbn [ps or_flag set_tunnel_fields ue_ipv_n pgw_u_ipv_n pgw_c_ipv_n]; try by apply aton_ok.
  intros f. apply Hs.
Qed.

Lemma same_request_trans a b c : same_request a b -> same_request b c -> same_request a c.
Proof. intros (?&?&?) (?&?&?). unfold same_request. split_and!; congruence. Qed.

Lemma records_ok rows cs : session_wf cs ->
  session_wf (foldl (fun u r => on_tunnel_record r u) cs rows) /\
  same_request cs (foldl (fun u r => on_tunnel_record r u) cs rows).
Proof.
  revert cs. induction rows as [|r rows IH]; intros cs Hw; cbn [foldl]; [done|].
  destruct (on_tunnel_record_ok r cs Hw) as [H1 H2]. destruct (IH _ H1) as [H3 H4].
  split; [done|by eapply same_request_trans].
Qed.

Section session_lemmas.
Variable malloc : nat -> bool.
Context {D : Type} `{DB : Database D}.
Implicit Types (c : ctx D) (cs : session).

Lemma lookup_tunnel_ok st key cs c : (forall st k db, db_bind st k db = true) -> session_wf cs ->
  exists cs' db, lookup_tunnel st key cs c = Ok (cs', set_db db c) /\ session_wf cs' /\ same_request cs cs'.
Proof.
  intros Hb Hw. unfold lookup_tunnel, pgw_mysql_execute. rewrite Hb. cbn [negb].
  destruct (db_select st key (c_db c)) as [[rows|] db].
  - destruct (records_ok rows cs Hw) as [H1 H2]. by eexists _, db.
  - by exists cs, db.
Qed.

Lemma iterate_keeps hl base p st rc st' :
  pkt_wf hl base p -> state_wf st -> gtpc_iterate_item on_gtpc_parse_root (Some p) st = Ok (rc, st') ->
  state_wf st' /\ same_tunnel st st'.
Proof.
  intros [_ Hb _ _ _ _ _ _ _]. unfold gtpc_iterate_item. generalize (items p). intros l. revert st.
  induction l as [|it l IH]; intros st Hw; cbn [iterate_items]; [intros [= <- <-]; done|].
  destruct (on_gtpc_parse_root _ _ _ _) as [[rc1 st1]|] eqn:E; [|done]. res_simpl.
  apply parse_root_keeps in E as (_ & Hk & _ & T1 & U1 & V1); [|by apply Forall_drop|done]. specialize (Hk Hw). case_if.
  - intros [= <- <-]. done.
  - intros [H2 (T2 & U2 & V2)]%IH; [|done]. split; [done|]. unfold same_tunnel. by rewrite T2, U2, V2.
Qed.
End session_lemmas.

(** *** What a response looks like on the wire *)
Definition seqno_bytes (seqno : Z) : list Z := le_store 4 (bf_set 0 24 seqno 0).
Definition reply_bytes (type teid seqno : Z) (its : list (Z * list Z)) : list Z :=
  0x48 :: type :: be_store 2 (8 + zlen (concat its.*2)) ++ le_store 4 teid ++ seqno_bytes seqno ++ concat its.*2.
(** The response to a request: sent from the address it arrived at to where it came from. *)
Definition reply (type teid seqno : Z) (its : list (Z * list Z)) (rpckt : gtp_packet) : packet_t :=
  mk_packet_t (12 + zlen (concat its.*2)) (reply_bytes type teid seqno its)
    (caddr rpckt) (caddrlen rpckt) (saddr rpckt) (saddrlen rpckt).
Definition sent_item (e : item) : Z * list Z := (e.1.1, slice 0 e.2 e.1.2).
Definition item_ok (e : item) : Prop := 0 < e.2 <= zlen e.1.2 /\ bytes_ok e.1.2.
(** A computation of items that ends with these on the wire. *)
Definition builds (m : res (option (list item))) (its : list (Z * list Z)) : Prop :=
  exists l, m = Ok (Some l) /\ Forall item_ok l /\ sent_item <$> l = its.

Definition net_addr (a : list Z) (len : Z) : Prop := zlen a = sizeof_sockaddr_in /\ len = sizeof_sockaddr_in.
Definition net_addrs (p : gtp_packet) : Prop := net_addr (saddr p) (saddrlen p) /\ net_addr (caddr p) (caddrlen p).

Lemma splice_addr (a b : list Z) : zlen a = sizeof_sockaddr_in -> zlen b = sizeof_sockaddr_in -> splice 0 (slice 0 sizeof_sockaddr_in a) b = a.
Proof.
  intros Ha Hb. replace (slice 0 sizeof_sockaddr_in a) with a by (rewrite <-Ha; symmetry; apply slice_0_all).
  apply splice_all. lia.
Qed.

Lemma explode12 (b : list Z) n : 12 <= n <= zlen b -> exists h0 h1 h2 h3 h4 h5 h6 h7 h8 h9 h10 h11,
  slice 0 n b = [h0; h1; h2; h3; h4; h5; h6; h7; h8; h9; h10; h11] ++ slice 12 (n - 12) b /\
  slice 0 2 b = [h0; h1] /\ slice 2 2 b = [h2; h3] /\ slice 4 8 b = [h4; h5; h6; h7; h8; h9; h10; h11].
Proof.
  intros Hn. do 12 (destruct b as [|? b]; [cbn [length] in Hn; lia|]).
  do 12 eexists. split; [|done].
  match goal with |- slice 0 n ?l = ?h ++ _ => change l with (h ++ b) end.
  replace n with (12 + (n - 12)) at 1 by lia. rewrite slice_app_split by lia. f_equal.
Qed.

Lemma v2_block_head type : is_echo type = false -> slice 0 2 (v2_block type) = [0x48; type mod 256] /\ slice 4 8 (v2_block type) = bzero 8.
Proof.
  intros He. unfold v2_block. rewrite He. remember (type mod 256) as t eqn:Et. clear Et. split; vm_compute; reflexivity.
Qed.

Lemma be_store_of l : bytes_ok l -> be_store (length l) (be_load l) = l.
Proof.
  intros Hl. unfold be_store, be_load. rewrite <-(length_reverse l), le_store_load by by apply Forall_reverse_iff.
  apply reverse_involutive.
Qed.

Section responding.
Variable malloc : nat -> bool.
Context {D : Type} `{DB : Database D}.
Hypothesis Hm : forall n, malloc n = true.
Implicit Types (c : ctx D) (cs : session).

Lemma append_list_ok hl base l p s :
  pkt_wf hl base p -> Forall item_ok l -> offset p + zlen (concat (sent_item <$> l).*2) < ETHER_MAX_LEN ->
  exists p' s', append_list malloc l p s = Ok (true, p', s') /\ pkt_wf hl base p' /\
    contents p' = contents p ++ (sent_item <$> l) /\ same_frame hl p p' /\ same_counts s s'.
Proof.
  intros Hw Hl. revert p s Hw. induction Hl as [|[[ty b] len] l [Hlen Hb] Hl IH]; intros p s Hw Hfit; cbn [append_list].
  { exists p, s. rewrite app_nil_r. done. }
  rewrite !fmap_cons in Hfit. cbn [sent_item fst snd concat] in *. rewrite length_app, Nat2Z.inj_add, zlen_slice in Hfit by lia.
  destruct (gtpc_append_item_ok malloc hl base p ty b len s) as (p1 & -> & Hw1 & Hc & Ho & Hf); [done|lia|done| |done|].
  { unfold room. rewrite (proj2 (Z.eqb_neq _ _)), (proj2 (Z.ltb_lt _ _)) by lia. done. }
  res_simpl. cbn [negb Z.eqb OK]. destruct (IH p1 (next_malloc s) Hw1) as (p' & s' & -> & Hw' & Hc' & Hf' & Hs); [lia|].
  exists p', s'. rewrite Hc', Hc, <-app_assoc. split; [done|]. split; [done|]. split; [done|].
  split; [by eapply same_frame_trans|done].
Qed.

Lemma respond_ok type m its teid rpckt cs c hl base :
  is_echo type = false -> byte_ok type -> builds m its -> 12 + zlen (concat its.*2) < ETHER_MAX_LEN ->
  pkt_wf hl base rpckt -> net_addrs rpckt ->
  exists s, respond malloc type m teid rpckt cs c =
      Ok (OK, mk_ctx _ s (pgw_enq EGRESS (reply type teid (gtph_seqno cs) its rpckt) (c_node c)).2 (c_db c)) /\
    same_counts (count_gtp 0 0 1 (count_pgw 1 0 0 (count_gtp 0 0 1 (count_gtp 0 1 0 (c_mem c))))) s.
Proof.
  intros He Ht (l & -> & Hl & <-) Hfit Hr [[La Ls] [Lc Lcl]]. unfold respond.
  rewrite gtpc_alloc_packet_eq by done. res_simpl.
  pose proof (v2_packet_wf type) as Hw. unfold gtpc_type_headerlen in Hw. rewrite He in Hw. unfold gtpc_type_headerlen. rewrite He.
  destruct (append_list_ok sizeof_gtpc_header 4 l (new_packet sizeof_gtpc_header (v2_block type))
    (count_gtp 0 1 0 (next_malloc (c_mem c)))) as (p & s & -> & Hw' & Hc & Hf & Hs); [done|done|exact Hfit|]. res_simpl.
  destruct Hf as (F2 & F8 & Fs & Fsl & Fc & Fcl). unfold gtpc_copy_packet_addr. rewrite Fs, Fc, Ls, Lcl.
  rewrite !copy_addr_ok by (done || unfold sizeof_sockaddr_in; lia). res_simpl. rewrite !splice_addr by done.
  rewrite (gtpc_free_packet_ok hl base) by done. res_simpl. cbn [negb].
  set (q := mk_packet _ _ _ _ _ _ _ _ _).
  assert (Hq : pkt_wf sizeof_gtpc_header 4 q) by (destruct Hw'; by split).
  rewrite (gtpc_convert_to_packet_ok malloc sizeof_gtpc_header 4) by (done || (unfold addrs_ok, sizeof_sockaddr_in in *; cbn; lia)).
  res_simpl. cbn [q data datalen p_saddr p_saddrlen p_caddr p_caddrlen offset packet saddr caddr saddrlen caddrlen].
  rewrite !splice_addr by done.
  pose proof (body_contents _ _ _ Hw') as Hb. rewrite Hc in Hb. change (contents (new_packet _ _)) with (@nil (Z * list Z)) in Hb.
  cbn [app] in Hb. unfold body in Hb. pose proof (wf_off _ _ _ Hw') as Ho. pose proof (wf_size _ _ _ Hw') as Hz.
  unfold sizeof_gtpc_header in *.
  assert (Lo : offset p = 12 + zlen (concat (sent_item <$> l).*2)).
  { rewrite <-Hb, zlen_slice by szlia. lia. }
  pose proof (wf_len _ _ _ Hw') as Hlen. pose proof (wf_bytes _ _ _ Hw') as Hbytes.
  destruct (explode12 (packet p) (offset p)) as (h0 & h1 & h2 & h3 & h4 & h5 & h6 & h7 & h8 & h9 & h10 & h11 & E & E2 & El & E8); [szlia|].
  rewrite Hb in E. rewrite E. cbn [new_packet packet] in F2, F8. change (12 - 4) with 8 in F8.
  destruct (v2_block_head type He) as [V2 V8]. rewrite E2, V2, Z.mod_small in F2 by done. rewrite E8, V8 in F8.
  injection F2 as -> ->. injection F8 as -> -> -> -> -> -> -> ->.
  change o_length with 2 in Hlen. rewrite El in Hlen. unfold ntohs in Hlen.
  assert (B2 : bytes_ok [h2; h3]) by (rewrite <-El; by apply Forall_slice). rewrite bswap_load in Hlen by done.
  assert (Eh : [h2; h3] = be_store 2 (8 + zlen (concat (sent_item <$> l).*2))).
  { rewrite <-(be_store_of [h2; h3]) by done. rewrite Hlen. cbn [length]. f_equal. lia. }
  unfold o_teid, o_seqno. rewrite wr_ok by (rewrite ?length_app; cbn [length]; lia). res_simpl.
  pose proof (length_le_store 4 teid) as L4.
  destruct (le_store 4 teid) as [|t0 [|t1 [|t2 [|t3 [|]]]]] eqn:Et4; cbn [length] in L4; try lia.
  change (splice 4 [t0; t1; t2; t3] ([72; type; h2; h3; 0; 0; 0; 0; 0; 0; 0; 0] ++ concat (sent_item <$> l).*2)) with
    ([72; type; h2; h3; t0; t1; t2; t3; 0; 0; 0; 0] ++ concat (sent_item <$> l).*2).
  rewrite rd_ok by (rewrite ?length_app; cbn [length]; lia). res_simpl.
  change (le_load (slice 8 (Z.of_nat 4) ([72; type; h2; h3; t0; t1; t2; t3; 0; 0; 0; 0] ++ concat (sent_item <$> l).*2))) with 0.
  rewrite wr_ok by (rewrite ?length_app; cbn [length]; lia). res_simpl. fold (seqno_bytes (gtph_seqno cs)).
  eexists. split.
  - unfold pgw_enq. cbn match. change (negb (OK =? OK)) with false. cbn match. cbn [snd]. do 4 f_equal.
    unfold reply, reply_bytes, pgw_swap_address. cbn [datalen data p_saddr p_saddrlen p_caddr p_caddrlen].
    rewrite Ls, Lcl, Lo, <-Eh, Et4. f_equal.
  - destruct Hs as (S1 & S2 & S3 & S4 & S5 & S6 & S7). unfold same_counts, count_gtp, count_pgw, next_malloc in *.
    cbn in *. rewrite S1, S2, S3, S4, S5, S6, S7. done.
Qed.
End responding.

(** *** Items *)
(** A block that holds an item, with what is behind it. *)
Definition holds (b : list Z) (type inst : Z) (v : list Z) : Prop :=
  exists rest, b = wire type inst v ++ rest /\ bytes_ok b /\ zlen v < 2 ^ 15.
Definition makes (m : res (Z * list Z)) (type inst : Z) (v : list Z) : Prop :=
  exists b, m = Ok (OK, b) /\ holds b type inst v.

Lemma holds_intro type inst v rest :
  byte_ok type -> byte_ok inst -> bytes_ok v -> bytes_ok rest -> zlen v < 2 ^ 15 -> holds (wire type inst v ++ rest) type inst v.
Proof. intros. exists rest. split; [done|]. split; [|done]. apply Forall_app_2; [by apply wire_ok|done]. Qed.
Lemma holds_all type inst v :
  byte_ok type -> byte_ok inst -> bytes_ok v -> zlen v < 2 ^ 15 -> holds (wire type inst v) type inst v.
Proof. intros. rewrite <-(app_nil_r (wire type inst v)). apply holds_intro; done. Qed.

Lemma holds_entry b type inst v : byte_ok type -> holds b type inst v ->
  item_length b = Ok (4 + zlen v) /\ entry type b item_length = Ok (type, b, 4 + zlen v) /\
  item_ok (type, b, 4 + zlen v) /\ slice 0 (4 + zlen v) b = wire type inst v.
Proof.
  intros Ht (rest & -> & Hb & Hl).
  destruct (headed_tlv type (zlen v) (wire type inst v ++ rest)) as (_ & El & Hz); [|done|lia|].
  { exists inst, (v ++ rest). split; [|rewrite length_app; lia]. unfold wire. cbn [app]. by rewrite <-app_assoc. }
  split; [done|]. unfold entry. rewrite El. res_simpl. split; [done|]. split.
  - split; cbn [fst snd]; [lia|done].
  - rewrite slice_app_l by (rewrite ?zlen_wire; lia). rewrite <-(zlen_wire type inst v). apply slice_0_all.
Qed.

Ltac bytes := repeat first [ apply be_store_ok | apply le_store_ok | apply Forall_app_2 | apply Forall_cons_2 | apply Forall_nil_2
  | apply Forall_replicate | apply Forall_slice | assumption | progress unfold byte_ok | lia ].

Lemma byte_item_mod size type len v : byte_item size type len v = byte_item size type len (v mod 256).
Proof. unfold byte_item, wr. cbn [le_store]. by rewrite Z.mod_mod by lia. Qed.
Lemma byte_mod v : byte_ok (v mod 256).
Proof. unfold byte_ok. apply Z.mod_pos_bound. lia. Qed.

Lemma cause_makes v : makes (gtpc_cause_set v) GTPC_TYPE_CAUSE 0 [v mod 256; 0].
Proof.
  unfold gtpc_cause_set. rewrite byte_item_mod. change sizeof_gtpc_cause with (5 + Z.of_nat 5).
  rewrite byte_item_eq by (apply byte_mod || (unfold byte_ok, GTPC_TYPE_CAUSE; lia)). eexists. split; [done|].
  apply (holds_intro GTPC_TYPE_CAUSE 0 [v mod 256; 0] (replicate 4 0)); unfold GTPC_TYPE_CAUSE; pose proof (byte_mod v); bytes.
  cbn. lia.
Qed.
Lemma recovery_makes v : makes (gtpc_recovery_set v) GTPC_TYPE_RECOVERY 0 [v mod 256].
Proof.
  unfold gtpc_recovery_set. rewrite byte_item_mod. change sizeof_gtpc_recovery with (5 + Z.of_nat 0).
  rewrite byte_item_eq by (apply byte_mod || (unfold byte_ok, GTPC_TYPE_RECOVERY; lia)). eexists. split; [done|].
  apply (holds_all GTPC_TYPE_RECOVERY 0 [v mod 256]); unfold GTPC_TYPE_RECOVERY; pose proof (byte_mod v); bytes. cbn. lia.
Qed.
Lemma apn_makes v : makes (gtpc_apn_restriction_set v) GTPC_TYPE_APN_RESTRICTION 0 [v mod 256].
Proof.
  unfold gtpc_apn_restriction_set. rewrite byte_item_mod. change sizeof_gtpc_apn_restriction with (5 + Z.of_nat 0).
  rewrite byte_item_eq by (apply byte_mod || (unfold byte_ok, GTPC_TYPE_APN_RESTRICTION; lia)). eexists. split; [done|].
  apply (holds_all GTPC_TYPE_APN_RESTRICTION 0 [v mod 256]); unfold GTPC_TYPE_APN_RESTRICTION; pose proof (byte_mod v); bytes.
  cbn. lia.
Qed.
Lemma f_teid_makes inst iftype teid a : 0 <= inst < 16 -> 0 <= iftype < 32 -> addr_ok a ->
  makes (gtpc_f_teid_set inst iftype teid (Some a) None) GTPC_TYPE_F_TEID inst (teid_value iftype teid a).
Proof.
  intros Hi Hf [La Ha]. rewrite gtpc_f_teid_set_v4 by lia. eexists. split; [done|].
  replace (slice 0 4 a) with a by (rewrite <-La; symmetry; apply slice_0_all).
  assert (Lv : zlen (teid_value iftype teid a) = 9).
  { unfold teid_value. cbn [length]. rewrite length_app, length_be_store. lia. }
  replace (GTPC_TYPE_F_TEID :: be_store 2 9 ++ inst :: 128 + iftype :: be_store 4 teid ++ a ++ bzero 12) with
    (wire GTPC_TYPE_F_TEID inst (teid_value iftype teid a) ++ bzero 12).
  - apply holds_intro; [..|lia]; unfold GTPC_TYPE_F_TEID, teid_value; bytes.
  - unfold wire. rewrite Lv. unfold teid_value. cbn [app]. rewrite <-!app_assoc. cbn [app]. by rewrite <-app_assoc.
Qed.
Lemma ambr_makes u d : makes (gtpc_ambr_set u d) GTPC_TYPE_AMBR 0 (be_store 4 u ++ be_store 4 d).
Proof.
  rewrite gtpc_ambr_set_eq. eexists. split; [done|].
  apply (holds_all GTPC_TYPE_AMBR 0 (be_store 4 u ++ be_store 4 d)); unfold GTPC_TYPE_AMBR; bytes.
  rewrite length_app, !length_be_store. lia.
Qed.
Lemma charging_makes v : makes (gtpc_charging_id_set v) GTPC_TYPE_CHARGING_ID 0 (be_store 4 v).
Proof.
  rewrite gtpc_charging_id_set_eq. eexists. split; [done|].
  apply (holds_all GTPC_TYPE_CHARGING_ID 0 (be_store 4 v)); unfold GTPC_TYPE_CHARGING_ID; bytes. rewrite length_be_store. lia.
Qed.
Lemma ebi_makes inst v : 0 <= inst < 16 -> 0 <= v < 16 -> makes (gtpc_ebi_set inst v) GTPC_TYPE_EBI inst [v].
Proof.
  intros Hi Hv. rewrite gtpc_ebi_set_eq by done. eexists. split; [done|].
  apply (holds_all GTPC_TYPE_EBI inst [v]); unfold GTPC_TYPE_EBI; bytes. cbn. lia.
Qed.
Lemma paa_makes t a : 0 <= t < 8 -> bytes_ok a -> zlen a <= GTPC_PAA_ADRS_LEN -> makes (gtpc_paa_set t a (zlen a)) GTPC_TYPE_PAA 0 (t :: a).
Proof.
  intros Ht Ha Hl. rewrite gtpc_paa_set_eq by lia. eexists. split; [done|]. rewrite slice_0_all.
  replace (zlen a + 1) with (zlen (t :: a)) by (cbn [length]; lia).
  replace (GTPC_TYPE_PAA :: be_store 2 (zlen (t :: a)) ++ 0 :: t :: a ++ bzero (GTPC_PAA_ADRS_LEN - zlen a)) with
    (wire GTPC_TYPE_PAA 0 (t :: a) ++ bzero (GTPC_PAA_ADRS_LEN - zlen a)) by (unfold wire; cbn [app]; by rewrite <-app_assoc).
  unfold GTPC_PAA_ADRS_LEN in *. apply holds_intro; unfold GTPC_TYPE_PAA; bytes. cbn [length]. lia.
Qed.
Lemma msisdn_makes v : 0 <= v < 10 ^ 12 ->
  exists d, makes (gtpc_msisdn_set v) GTPC_TYPE_MSISDN 0 d /\ zlen d = GTPC_MSISDN_LEN /\ gtpc_digits_get false d GTPC_MSISDN_LEN = Ok v.
Proof.
  intros Hv. destruct (digits_item_ok GTPC_TYPE_MSISDN GTPC_MSISDN_LEN v) as (d & E & Ld & Hd & Hg);
    [unfold byte_ok, GTPC_TYPE_MSISDN; lia|unfold GTPC_MSISDN_LEN; lia|lia|unfold GTPC_MSISDN_LEN; lia|].
  exists d. split; [|done]. exists (wire GTPC_TYPE_MSISDN 0 d). split; [by unfold gtpc_msisdn_set; rewrite E; unfold wire; rewrite Ld|].
  apply holds_all; unfold GTPC_TYPE_MSISDN, GTPC_MSISDN_LEN in *; bytes.
Qed.
(** The value of the private extension. *)
Definition private_value (st : gtpc_parse_state) : list Z :=
  [0; 0; 0; 0; 0xaf; 0xbe; 0xad; 0xde] ++ slice o_f_teid_blk 4 (ies st u_teid) ++
  slice o_f_teid_key 4 (ies st u_teid) ++ ue_ipv_n st ++ le_store 4 (pgw_teid st) ++ pgw_u_ipv_n st.
Lemma private_size cs : session_wf cs -> zlen (private_value (ps cs)) = 28.
Proof.
  intros [Hs [Lue Hue] [Lu Hu] _]. destruct (Hs u_teid) as [Lt Ht]. change (sizeof_ie u_teid) with 25 in Lt.
  unfold private_value. rewrite !length_app, !Nat2Z.inj_add, !zlen_slice, length_le_store by (unfold o_f_teid_blk, o_f_teid_key; lia).
  cbn [length]. lia.
Qed.
Lemma private_wire cs : session_wf cs ->
  gtpc_private_extension_set (ps cs) = Ok (OK, wire GTPC_TYPE_PRIVATE_EXTENSION 0 (private_value (ps cs))).
Proof.
  intros Hw. pose proof (private_size cs Hw) as L. destruct Hw as [Hs [Lue Hue] [Lu Hu] _].
  rewrite Properties.private_extension_layout by done. unfold wire. by rewrite L.
Qed.
Lemma private_makes cs : session_wf cs ->
  makes (gtpc_private_extension_set (ps cs)) GTPC_TYPE_PRIVATE_EXTENSION 0 (private_value (ps cs)) /\ zlen (private_value (ps cs)) = 28.
Proof.
  intros Hw. pose proof (private_size cs Hw) as L. pose proof (private_wire cs Hw) as E.
  destruct Hw as [Hs [Lue Hue] [Lu Hu] _]. destruct (Hs u_teid) as [Lt Ht].
  split; [|done]. eexists. split; [exact E|].
  apply holds_all; [..|lia]; unfold GTPC_TYPE_PRIVATE_EXTENSION, private_value; bytes.
Qed.

(** *** Bearer contexts *)
Definition context (b : list Z) (vs : list (list Z)) : Prop := ctx_wf b vs /\ slice 3 1 b = [0].

Lemma wr_bytes_inv b p bs b' : wr_bytes b p bs = Ok b' -> b' = splice p bs b /\ 0 <= p /\ p + zlen bs <= zlen b.
Proof. unfold wr_bytes, inside. case_if; [|done]. to_prop. intros [= <-]. split; [done|lia]. Qed.

Lemma context_set : exists b, gtpc_bearer_ctx_set = Ok (OK, b) /\ context b [].
Proof.
  destruct gtpc_bearer_ctx_set_ok as (b & E & Hw). exists b. split; [done|]. split; [done|].
  vm_compute in E. injection E as <-. reflexivity.
Qed.

Lemma context_add b vs child type inst v :
  context b vs -> byte_ok type -> holds child type inst v -> zlen (concat vs) + (4 + zlen v) < sizeof_bearer_child ->
  exists b', gtpc_bearer_ctx_add_child b child (4 + zlen v) = Ok (OK, b') /\ context b' (vs ++ [wire type inst v]).
Proof.
  intros [Hw Hi] Ht Hc Hf. destruct (holds_entry child type inst v Ht Hc) as (_ & _ & [Hl Hb] & Es). cbn [fst snd] in Hl, Hb.
  destruct (gtpc_bearer_ctx_add_child_ok b vs child (4 + zlen v) Hw) as (b' & E & Hw'); [lia|done|done|].
  rewrite Es in Hw'. exists b'. split; [done|]. split; [done|]. rewrite <-Hi.
  unfold gtpc_bearer_ctx_add_child in E. destruct (rd 2 b o_bearer_offset) as [o|] eqn:Eo; [|done].
  apply (rd_range 2 b) in Eo; [|by destruct Hw].
  cbn [mbind res_bind] in E. destruct (_ <=? _); [done|]. destruct (rd 2 b o_ie_length) as [l|]; [|done]. cbn [mbind res_bind] in E.
  destruct (wr 2 b _ _) as [b1|] eqn:E1; [|done]. cbn [mbind res_bind] in E. apply wr_bytes_inv in E1 as (-> & _ & L1).
  pose proof (length_le_store 2 (htons (ntohs l + (4 + zlen v)))) as K1. set (x1 := le_store 2 (htons _)) in *. clearbody x1.
  destruct (rd_bytes _ _ _) as [d|]; [|done]. cbn [mbind res_bind] in E.
  destruct (wr_bytes _ _ d) as [b2|] eqn:E2; [|done]. cbn [mbind res_bind] in E. apply wr_bytes_inv in E2 as (-> & _ & L2).
  destruct (wr 2 _ o_bearer_offset _) as [b3|] eqn:E3; [|done]. cbn [mbind res_bind] in E. apply wr_bytes_inv in E3 as (-> & _ & L3).
  pose proof (length_le_store 2 (u16 (o + (4 + zlen v)))) as K3. set (x3 := le_store 2 (u16 _)) in *. clearbody x3.
  injection E as <-. unfold o_ie_length, o_body, o_bearer_offset, sizeof_bearer_child in *.
  rewrite (slice_splice_disj 3 1 (4 + 256)) by lia. rewrite (slice_splice_disj 3 1 (4 + o)) by lia.
  by rewrite slice_splice_disj by lia.
Qed.

Lemma context_entry b vs : context b vs ->
  let v := concat vs in
  entry GTPC_TYPE_BEARER_CTX b gtpc_bearer_ctx_length = Ok (GTPC_TYPE_BEARER_CTX, b, 4 + zlen v) /\
  item_ok (GTPC_TYPE_BEARER_CTX, b, 4 + zlen v) /\ slice 0 (4 + zlen v) b = wire GTPC_TYPE_BEARER_CTX 0 v.
Proof.
  intros [Hw Hi] v. destruct (ctx_tlv b vs Hw) as [El _]. unfold entry. rewrite El. res_simpl. split; [done|].
  destruct Hw as [Hs Hb Ht Hf Hl Ho Hc]. unfold o_ie_length, o_body, o_bearer_offset, sizeof_gtpc_bearer_ctx, sizeof_bearer_child in *.
  split; [split; cbn [fst snd]; [fold v in Hf; lia|done]|].
  rewrite slice_app_split by lia. change (slice 0 4 b) with (slice 0 (1 + (2 + 1)) b). rewrite !slice_app_split by lia.
  change (0 + 4) with 4. change (0 + 1 + 2) with 3. fold v in Hc. rewrite Ht, Hi, Hc. unfold wire. cbn [app]. f_equal. rewrite <-app_assoc. f_equal.
  rewrite <-(be_store_of (slice (0 + 1) 2 b)) by by apply Forall_slice. rewrite length_slice by lia.
  change (0 + 1) with 1. rewrite Hl. done.
Qed.

(** *** The answer to configuration options *)
Section pco_answer.
Context `{B : PgwBuild}.
Definition pco_options (cs : session) : list Z := pco_dns_answer cs ++ pco_mtu_answer cs ++ pco_ipcp_answer cs.
Definition pco_head (cs : session) : Z := if 0 <? zlen (pco_mtu_answer cs ++ pco_ipcp_answer cs) then 0x80 else 0.
(** The PCO item of a response, if there is one. *)
Definition pco_reply (cs : session) : list (Z * list Z) :=
  if any_of PCO_ALL cs then [(GTPC_TYPE_PCO, wire GTPC_TYPE_PCO 0 (pco_head cs :: pco_options cs))] else [].

Lemma have_bit i cs : 0 <= i -> have (2 ^ i) cs = false -> Z.land (flag (ps cs)) (2 ^ i) = 0.
Proof.
  intros Hi. unfold have. generalize (flag (ps cs)). intros v.
  assert (E : Z.land v (2 ^ i) = if Z.testbit v i then 2 ^ i else 0).
  { apply Z.bits_inj'. intros j Hj. rewrite Z.land_spec, Z.pow2_bits_eqb by done.
    destruct (Z.eqb_spec i j) as [->|].
    - destruct (Z.testbit v j) eqn:E; [by rewrite Z.pow2_bits_true|by rewrite Z.bits_0].
    - rewrite andb_false_r. destruct (Z.testbit v i); [by rewrite Z.pow2_bits_false|by rewrite Z.bits_0]. }
  rewrite E. destruct (Z.testbit v i); [by rewrite Z.eqb_refl|done].
Qed.

Lemma pco_answered cs : any_of PCO_ALL cs = true -> 5 <= zlen (pco_options cs).
Proof.
  unfold any_of, pco_options. rewrite negb_true_iff, Z.eqb_neq, !length_app. intros Hn.
  destruct (have HAVE_PCO_NONIP_LINK_MTU cs) eqn:E1; [unfold pco_mtu_answer; rewrite E1; cbn; lia|].
  destruct (have HAVE_PCO_IPV4_LINK_MTU cs) eqn:E2; [unfold pco_mtu_answer; rewrite E1, E2; cbn; lia|].
  assert (Hd : have HAVE_PCO_DNS_IPV6 cs = true \/ have HAVE_PCO_DNS_IPV4 cs = true).
  { destruct (have HAVE_PCO_DNS_IPV6 cs) eqn:E3; [by left|]. destruct (have HAVE_PCO_DNS_IPV4 cs) eqn:E4; [by right|].
    destruct Hn. unfold PCO_ALL. rewrite !Z.land_lor_distr_r.
    by rewrite (have_bit 8), (have_bit 7), (have_bit 6), (have_bit 5). }
  assert (5 <= zlen (pco_dns_answer cs)); [|lia]. unfold pco_dns_answer. repeat case_if; cbn; try lia; by destruct Hd.
Qed.

Lemma pco_lengths cs : zlen (pco_dns_answer cs) <= 52 /\ zlen (pco_mtu_answer cs) <= 5 /\ zlen (pco_ipcp_answer cs) <= 19 /\
  bytes_ok (pco_options cs).
Proof.
  unfold pco_options. assert (bytes_ok (pco_dns_answer cs) /\ bytes_ok (pco_mtu_answer cs) /\ bytes_ok (pco_ipcp_answer cs)) as (?&?&?).
  { unfold pco_dns_answer, pco_mtu_answer, pco_ipcp_answer.
    split; [|split]; repeat case_if; apply bytes_okb_ok; reflexivity. }
  split; [unfold pco_dns_answer; repeat case_if; cbn; lia|]. split; [unfold pco_mtu_answer; repeat case_if; cbn; lia|].
  split; [unfold pco_ipcp_answer; repeat case_if; cbn; lia|]. by repeat apply Forall_app_2.
Qed.

Lemma setup_pco_ok cs :
  if any_of PCO_ALL cs then exists b, setup_pco cs = Ok (Some b) /\ holds b GTPC_TYPE_PCO 0 (pco_head cs :: pco_options cs)
  else setup_pco cs = Ok None.
Proof.
  unfold setup_pco. destruct (any_of PCO_ALL cs) eqn:Ha; [|done]. apply pco_answered in Ha.
  destruct (pco_lengths cs) as (L1 & L2 & L3 & Hb). fold (pco_options cs).
  assert (Lo : zlen (pco_options cs) <= 76) by (unfold pco_options; rewrite !length_app; lia).
  assert (Lz : zlen (bzero 255) = 255) by done.
  rewrite wr_bytes_ok by lia. res_simpl.
  set (buf := splice 0 (pco_options cs) (bzero 255)).
  assert (Lb : zlen buf = 255) by (unfold buf; rewrite length_splice; lia).
  assert (Es : slice 0 (zlen (pco_options cs) + 1) buf = pco_options cs ++ [0]).
  { rewrite slice_app_split by lia. unfold buf at 1. rewrite slice_splice_eq by lia. f_equal.
    unfold buf. rewrite slice_splice_disj by lia. unfold bzero, slice. rewrite drop_replicate, take_replicate.
    replace (_ `min` _)%nat with 1%nat by lia. done. }
  rewrite (proj2 (Z.ltb_lt 1 _)) by lia.
  assert (Eh : (if 0 <? zlen (pco_mtu_answer cs ++ pco_ipcp_answer cs) then wr_bits (bzero sizeof_gtpc_pco) o_pco_head 7 1 1
                else Ok (bzero sizeof_gtpc_pco)) = Ok (0 :: 0 :: 0 :: 0 :: pco_head cs :: bzero GTPC_PCO_LEN)).
  { unfold pco_head. destruct (0 <? _); vm_compute; reflexivity. }
  rewrite Eh. res_simpl. unfold GTPC_PCO_LEN in *.
  rewrite gtpc_pco_set_eq by (unfold GTPC_PCO_LEN; lia || done). res_simpl. change (OK =? OK) with true. cbn match.
  rewrite Es. eexists. split; [done|].
  replace (zlen (pco_options cs) + 1) with (zlen (pco_head cs :: pco_options cs)) by (cbn [length]; lia).
  match goal with |- holds ?b _ _ _ => replace b with
    (wire GTPC_TYPE_PCO 0 (pco_head cs :: pco_options cs) ++ [0] ++ bzero (GTPC_PCO_LEN - zlen (pco_head cs :: pco_options cs))) end.
  - apply holds_intro; unfold GTPC_TYPE_PCO, pco_head; [bytes|bytes| |bytes|cbn [length]; lia].
    apply Forall_cons_2; [|done]. case_if; bytes.
  - unfold wire. cbn [app]. by rewrite <-!app_assoc.
Qed.
End pco_answer.

(** ** The responses *)
Lemma or_break_ok {A} b (k : list Z -> res (option A)) : or_break (Ok (OK, b)) k = k b.
Proof. done. Qed.
(** Run a setter that is known to succeed, and look up the entry of what it made. *)
Ltac set_item H b Hb := destruct H as (b & ? & Hb); match goal with E : _ = Ok (OK, b) |- _ => rewrite E, or_break_ok; clear E end.
Lemma byte_const v : (0 <=? v) && (v <? 256) = true -> byte_ok v.
Proof. intros. to_prop. unfold byte_ok. lia. Qed.
Ltac use_entry H Ee Ei Es := apply holds_entry in H as (? & Ee & Ei & Es); [|by apply byte_const].
Ltac lengths := change gtpc_cause_length with item_length in *; change gtpc_recovery_length with item_length in *;
  change gtpc_ebi_length with item_length in *; change gtpc_f_teid_length with item_length in *;
  change gtpc_charging_id_length with item_length in *; change gtpc_paa_length with item_length in *;
  change gtpc_apn_restriction_length with item_length in *; change gtpc_ambr_length with item_length in *;
  change gtpc_msisdn_length with item_length in *; change gtpc_pco_length with item_length in *.
Ltac all_items := repeat first [assumption | apply Forall_app_2 | apply Forall_cons_2 | apply Forall_nil_2].
Lemma sent_eq type b n w : slice 0 n b = w -> sent_item (type, b, n) = (type, w).
Proof. by intros <-. Qed.

Definition named (type inst : Z) (v : list Z) : Z * list Z := (type, wire type inst v).
Definition cause_reply (cause : Z) : Z * list Z := named GTPC_TYPE_CAUSE 0 [cause; 0].
Definition context_reply (its : list (Z * list Z)) : Z * list Z := named GTPC_TYPE_BEARER_CTX 0 (concat its.*2).

Section responses.
Context `{B : PgwBuild}.
Definition recovery_reply : Z * list Z := named GTPC_TYPE_RECOVERY 0 [PGW_RECOVERY_COUNT mod 256].

Lemma pco_entry_ok cs : exists l, (pco ← setup_pco cs; pco_entry pco) = Ok l /\ Forall item_ok l /\ sent_item <$> l = pco_reply cs.
Proof.
  pose proof (setup_pco_ok cs) as H. unfold pco_reply. destruct (any_of PCO_ALL cs).
  - destruct H as (b & -> & Hb). res_simpl. unfold pco_entry.
    apply holds_entry in Hb as (_ & Ee & Ei & Es); [|by apply byte_const].
    change gtpc_pco_length with item_length. rewrite Ee. res_simpl. eexists. split; [done|]. split; [all_items|].
    unfold sent_item. cbn [fmap list_fmap fst snd]. by rewrite Es.
  - rewrite H. by exists [].
Qed.

Lemma cause_items_build v : builds (Notification.cause_items v) [cause_reply (v mod 256)].
Proof.
  unfold Notification.cause_items. set_item (cause_makes v) b Hb. apply holds_entry in Hb as (_ & Ee & Ei & Es); [|by apply byte_const].
  change gtpc_cause_length with item_length. rewrite Ee. res_simpl. eexists. split; [done|]. split; [all_items|].
  rewrite fmap_cons, (sent_eq _ _ _ _ Es). done.
Qed.

Lemma delete_session_accept_build cs :
  builds (DeleteSession.accept_items cs) ([cause_reply GTPC_CAUSE_REQUEST_ACCEPTED] ++ pco_reply cs ++ [recovery_reply]).
Proof.
  unfold DeleteSession.accept_items. set_item (cause_makes GTPC_CAUSE_REQUEST_ACCEPTED) b1 H1.
  set_item (recovery_makes PGW_RECOVERY_COUNT) b2 H2. destruct (pco_entry_ok cs) as (lp & Ep & Hp & Esp).
  apply holds_entry in H1 as (_ & Ee1 & Ei1 & Es1); [|by apply byte_const].
  apply holds_entry in H2 as (_ & Ee2 & Ei2 & Es2); [|by apply byte_const].
  change gtpc_cause_length with item_length. change gtpc_recovery_length with item_length. rewrite Ee1, Ee2.
  destruct (setup_pco cs) as [pco|]; [|done]. cbn [mbind res_bind] in Ep. res_simpl. rewrite Ep. res_simpl.
  eexists. split; [done|]. split; [all_items|].
  rewrite !fmap_app, Esp, !fmap_cons, (sent_eq _ _ _ _ Es1), (sent_eq _ _ _ _ Es2). done.
Qed.

Lemma delete_session_denied_build :
  builds DeleteSession.denied_items [cause_reply GTPC_CAUSE_REQUEST_DENIED_APN_ACCESS; recovery_reply].
Proof.
  unfold DeleteSession.denied_items. set_item (cause_makes GTPC_CAUSE_REQUEST_DENIED_APN_ACCESS) b1 H1.
  set_item (recovery_makes PGW_RECOVERY_COUNT) b2 H2. use_entry H1 Ee1 Ei1 Es1. use_entry H2 Ee2 Ei2 Es2.
  lengths. rewrite Ee1, Ee2. res_simpl. eexists. split; [done|]. split; [all_items|].
  rewrite !fmap_cons, (sent_eq _ _ _ _ Es1), (sent_eq _ _ _ _ Es2). done.
Qed.

Definition ebi_reply (v : Z) : Z * list Z := named GTPC_TYPE_EBI 0 [v].

Lemma ebi_wrap inst v : gtpc_ebi_set inst v = gtpc_ebi_set inst (v mod 16).
Proof.
  unfold gtpc_ebi_set, wr_bits. destruct (rd 1 _ o_ie_inst); [|done]. res_simpl.
  destruct (wr 1 _ _ _); [|done]. res_simpl. destruct (set_head _ _ _) as [b|]; [|done]. res_simpl.
  destruct (rd 1 b o_body) as [x|]; [|done]. res_simpl.
  replace (bf_set 0 4 (v mod 16) x) with (bf_set 0 4 v x); [done|]. unfold bf_set, wrap. change (2 ^ 4) with 16.
  by rewrite Z.mod_mod by lia.
Qed.
Lemma ebi_makes_any v : makes (gtpc_ebi_set GTPC_INSTANCE_ORDER_0 v) GTPC_TYPE_EBI 0 [v mod 16].
Proof. rewrite ebi_wrap. apply ebi_makes; [unfold GTPC_INSTANCE_ORDER_0; lia|apply Z.mod_pos_bound; lia]. Qed.

Lemma delete_bearer_accept_build cs :
  builds (DeleteBearer.accept_items cs)
    ([cause_reply GTPC_CAUSE_REQUEST_ACCEPTED; ebi_reply (ebi cs mod 16)] ++ pco_reply cs).
Proof.
  unfold DeleteBearer.accept_items. set_item (cause_makes GTPC_CAUSE_REQUEST_ACCEPTED) b1 H1.
  set_item (ebi_makes_any (ebi cs)) b2 H2. destruct (pco_entry_ok cs) as (lp & Ep & Hp & Esp).
  use_entry H1 Ee1 Ei1 Es1. use_entry H2 Ee2 Ei2 Es2. lengths. rewrite Ee1, Ee2.
  destruct (setup_pco cs) as [pco|]; [|done]. cbn [mbind res_bind] in Ep. res_simpl. rewrite Ep. res_simpl.
  eexists. split; [done|]. split; [all_items|].
  rewrite !fmap_app, Esp, !fmap_cons, (sent_eq _ _ _ _ Es1), (sent_eq _ _ _ _ Es2). done.
Qed.

(** The PCO of the request goes back in a refused delete bearer request. *)
Definition pco_echo (cs : session) : list (Z * list Z) :=
  if have HAVE_PCO cs then
    match item_length (ies (ps cs) pco) with Ok l => [(GTPC_TYPE_PCO, slice 0 l (ies (ps cs) pco))] | Fault _ => [] end
  else [].
Definition pco_fits (cs : session) : Prop :=
  exists l, item_length (ies (ps cs) pco) = Ok l /\ 0 < l <= sizeof_gtpc_pco.

Lemma delete_bearer_denied_build cs : session_wf cs -> pco_fits cs ->
  builds (DeleteBearer.denied_items cs)
    ([cause_reply GTPC_CAUSE_REQUEST_DENIED_APN_ACCESS; ebi_reply (ebi cs mod 16); recovery_reply] ++ pco_echo cs).
Proof.
  intros [Hs _ _ _] Hf. destruct (Hs pco) as [Lp Hp]. unfold DeleteBearer.denied_items, pco_echo.
  set_item (cause_makes GTPC_CAUSE_REQUEST_DENIED_APN_ACCESS) b1 H1. set_item (ebi_makes_any (ebi cs)) b2 H2.
  set_item (recovery_makes PGW_RECOVERY_COUNT) b3 H3. use_entry H1 Ee1 Ei1 Es1. use_entry H2 Ee2 Ei2 Es2. use_entry H3 Ee3 Ei3 Es3.
  lengths. rewrite Ee1, Ee2, Ee3. res_simpl. destruct Hf as (l & El & Hl). destruct (have HAVE_PCO cs).
  - cbn [pco_entry]. unfold entry. lengths. rewrite El. res_simpl.
    eexists. split; [done|]. split; [all_items; split; cbn [fst snd]; [change (sizeof_ie pco) with sizeof_gtpc_pco in Lp; lia|done]|].
    rewrite !fmap_app, !fmap_cons, (sent_eq _ _ _ _ Es1), (sent_eq _ _ _ _ Es2), (sent_eq _ _ _ _ Es3). done.
  - cbn [pco_entry]. res_simpl. eexists. split; [done|]. split; [all_items|].
    rewrite !fmap_app, !fmap_cons, (sent_eq _ _ _ _ Es1), (sent_eq _ _ _ _ Es2), (sent_eq _ _ _ _ Es3). done.
Qed.

Lemma modify_bearer_denied_build : builds ModifyBearer.denied_items [cause_reply GTPC_CAUSE_REQUEST_DENIED_APN_ACCESS].
Proof. apply (cause_items_build GTPC_CAUSE_REQUEST_DENIED_APN_ACCESS). Qed.

Definition charging_reply (cs : session) : Z * list Z := named GTPC_TYPE_CHARGING_ID 0 (be_store 4 (pgw_teid (ps cs))).
Definition private_reply (cs : session) : Z * list Z := named GTPC_TYPE_PRIVATE_EXTENSION 0 (private_value (ps cs)).
Definition modify_reply (d : list Z) (cs : session) : list (Z * list Z) :=
  [cause_reply GTPC_CAUSE_REQUEST_ACCEPTED; named GTPC_TYPE_MSISDN 0 d; ebi_reply 5;
   named GTPC_TYPE_APN_RESTRICTION 0 [GTPC_APN_RESTRICTION]] ++ pco_reply cs ++
  [context_reply [cause_reply GTPC_CAUSE_REQUEST_ACCEPTED; ebi_reply (ebi_low ebi_b cs); charging_reply cs]; recovery_reply] ++
  (if ModifyBearer.both_teids cs then [private_reply cs] else []).

Lemma ebi_low_range f cs : 0 <= ebi_low f cs < 16.
Proof. unfold ebi_low, low, bf_get. apply wrap_range. lia. Qed.

(** Three children of a context: what a context holds after they were added. *)
Lemma context_three b c1 c2 c3 t1 t2 t3 v1 v2 v3 :
  context b [] -> byte_ok t1 -> byte_ok t2 -> byte_ok t3 -> holds c1 t1 0 v1 -> holds c2 t2 0 v2 -> holds c3 t3 0 v3 ->
  zlen v1 + zlen v2 + zlen v3 < 200 ->
  exists b1 b2 b3, gtpc_bearer_ctx_add_child b c1 (4 + zlen v1) = Ok (OK, b1) /\
    gtpc_bearer_ctx_add_child b1 c2 (4 + zlen v2) = Ok (OK, b2) /\
    gtpc_bearer_ctx_add_child b2 c3 (4 + zlen v3) = Ok (OK, b3) /\ context b3 [wire t1 0 v1; wire t2 0 v2; wire t3 0 v3].
Proof.
  intros Hb T1 T2 T3 H1 H2 H3 Hf. unfold sizeof_bearer_child.
  destruct (context_add b [] c1 t1 0 v1 Hb T1 H1) as (b1 & E1 & K1); [cbn [concat length]; unfold sizeof_bearer_child; lia|].
  destruct (context_add b1 _ c2 t2 0 v2 K1 T2 H2) as (b2 & E2 & K2).
  { cbn [app concat]. rewrite app_nil_r, zlen_wire. unfold sizeof_bearer_child. lia. }
  destruct (context_add b2 _ c3 t3 0 v3 K2 T3 H3) as (b3 & E3 & K3).
  { cbn [app concat]. rewrite app_nil_r, length_app, Nat2Z.inj_add, !zlen_wire. unfold sizeof_bearer_child. lia. }
  exists b1, b2, b3. cbn [app] in K3. done.
Qed.

Lemma modify_bearer_accept_build cs : session_wf cs -> 0 <= msisdn_num_ cs < 10 ^ 12 ->
  exists d, zlen d = GTPC_MSISDN_LEN /\ gtpc_digits_get false d GTPC_MSISDN_LEN = Ok (msisdn_num_ cs) /\
    builds (ModifyBearer.accept_items cs) (modify_reply d cs).
Proof.
  intros Hs Hm. destruct (msisdn_makes (msisdn_num_ cs) Hm) as (d & Hd & Ld & Gd). exists d. split; [done|]. split; [done|].
  unfold ModifyBearer.accept_items, modify_reply. set_item (cause_makes GTPC_CAUSE_REQUEST_ACCEPTED) b1 H1. set_item Hd b2 H2.
  destruct (pco_entry_ok cs) as (lp & Ep & Hp & Esp).
  destruct (setup_pco cs) as [pco|]; [|done]. cbn [mbind res_bind] in Ep. res_simpl.
  set_item (ebi_makes GTPC_INSTANCE_ORDER_0 (ebi_low ebi_b cs) ltac:(unfold GTPC_INSTANCE_ORDER_0; lia) (ebi_low_range ebi_b cs)) b3 H3.
  set_item (ebi_makes GTPC_INSTANCE_ORDER_0 5 ltac:(unfold GTPC_INSTANCE_ORDER_0; lia) ltac:(lia)) b4 H4.
  set_item (charging_makes (pgw_teid (ps cs))) b5 H5. set_item (recovery_makes PGW_RECOVERY_COUNT) b6 H6.
  destruct (private_makes cs Hs) as [Hpv Lpv]. set_item Hpv b7 H7. set_item (apn_makes GTPC_APN_RESTRICTION) b8 H8.
  set_item (ambr_makes (ntohl (field 4 ambr_r o_body cs)) (ntohl (field 4 ambr_r o_ambr_downlink cs))) b9 H9.
  set_item context_set b10 H10. change GTPC_INSTANCE_ORDER_0 with 0 in *.
  destruct (context_three b10 b1 b3 b5 _ _ _ _ _ _ H10 (byte_const GTPC_TYPE_CAUSE eq_refl) (byte_const GTPC_TYPE_EBI eq_refl)
    (byte_const GTPC_TYPE_CHARGING_ID eq_refl) H1 H3 H5) as (x1 & x2 & x3 & X1 & X2 & X3 & Hx);
    [cbn [length]; rewrite length_be_store; lia|].
  use_entry H1 Ee1 Ei1 Es1. use_entry H2 Ee2 Ei2 Es2. use_entry H3 Ee3 Ei3 Es3. use_entry H4 Ee4 Ei4 Es4. use_entry H5 Ee5 Ei5 Es5.
  use_entry H6 Ee6 Ei6 Es6. use_entry H7 Ee7 Ei7 Es7. use_entry H8 Ee8 Ei8 Es8. apply context_entry in Hx as (Eex & Eix & Esx).
  lengths. repeat match goal with H : item_length _ = Ok _ |- _ => rewrite H; clear H end. res_simpl.
  rewrite X1, or_break_ok. res_simpl. rewrite X2, or_break_ok. res_simpl. rewrite X3, or_break_ok. res_simpl.
  rewrite Ee1, Ee2, Ee4, Ee8, Ee6. res_simpl. rewrite Ep. res_simpl. rewrite Eex. res_simpl.
  rewrite Lpv in Ei7, Es7. change (4 + 28) with GTPC_PRIVATE_EXT_SIZE in *.
  eexists. split; [done|]. split.
  { destruct (ModifyBearer.both_teids cs); all_items. }
  rewrite !fmap_app, Esp, !fmap_cons, (sent_eq _ _ _ _ Es1), (sent_eq _ _ _ _ Es2), (sent_eq _ _ _ _ Es4), (sent_eq _ _ _ _ Es8),
    (sent_eq _ _ _ _ Esx), (sent_eq _ _ _ _ Es6).
  destruct (ModifyBearer.both_teids cs); [rewrite fmap_cons, (sent_eq _ _ _ _ Es7)|]; done.
Qed.

Lemma create_denied_build : builds CreateSession.denied_items
  [cause_reply GTPC_CAUSE_REQUEST_DENIED_APN_ACCESS;
   context_reply [cause_reply GTPC_CAUSE_REQUEST_DENIED_APN_ACCESS; ebi_reply 0]].
Proof.
  unfold CreateSession.denied_items. set_item (cause_makes GTPC_CAUSE_REQUEST_DENIED_APN_ACCESS) b1 H1. set_item context_set b2 H2.
  set_item (ebi_makes_any 0) b3 H3.
  destruct (context_add b2 [] b1 GTPC_TYPE_CAUSE 0 _ H2 (byte_const GTPC_TYPE_CAUSE eq_refl) H1) as (x1 & X1 & K1); [cbn; unfold sizeof_bearer_child; lia|].
  destruct (context_add x1 _ b3 GTPC_TYPE_EBI 0 _ K1 (byte_const GTPC_TYPE_EBI eq_refl) H3) as (x2 & X2 & K2); [vm_compute; reflexivity|].
  use_entry H1 Ee1 Ei1 Es1. use_entry H3 Ee3 Ei3 Es3. apply context_entry in K2 as (Eex & Eix & Esx).
  lengths. repeat match goal with H : item_length _ = Ok _ |- _ => rewrite H; clear H end. res_simpl.
  rewrite X1, or_break_ok. res_simpl. rewrite X2, or_break_ok. res_simpl. rewrite Ee1. res_simpl. rewrite Eex. res_simpl.
  eexists. split; [done|]. split; [all_items|]. rewrite !fmap_cons, (sent_eq _ _ _ _ Es1), (sent_eq _ _ _ _ Esx). done.
Qed.

(** *** The address of the user equipment *)
Definition unit_octet (pinst : handle) : Z :=
  Z.lor (Z.shiftl (Z.land 0x0f (ext_set_num pinst)) 4) (Z.land 0x0f (pgw_unit_num pinst)).
Definition ue_addr (a : list Z) : list Z := PGW_IP8 :: slice 1 3 a.
Definition ue_addr6 (pinst : handle) (a : list Z) : list Z :=
  [0x40; 0x24; 0x01; 0xf1; 0x00; unit_octet pinst] ++ slice 1 3 a ++ [0; 0; 0; 0; 0; 0; 0; 1].
Definition paa_value (pinst : handle) (cs : session) : list Z :=
  let a := ue_ipv_n (ps cs) in
  if have HAVE_PDN cs then
    if pdn_type cs =? GTPC_PDN_IPV4 then GTPC_PAA_PDNTYPE_IPV4 :: ue_addr a
    else if pdn_type cs =? GTPC_PDN_IPV6 then GTPC_PAA_PDNTYPE_IPV6 :: ue_addr6 pinst a
    else if IPV64 then GTPC_PAA_PDNTYPE_BOTH :: ue_addr6 pinst a ++ ue_addr a
    else GTPC_PAA_PDNTYPE_IPV4 :: ue_addr a
  else GTPC_PAA_PDNTYPE_IPV4 :: [0; 0; 0; 0].
(** The database holds the last three octets; a session with another first octet
    is not answered when the request names a PDN type. *)
Definition answerable (cs : session) : bool := negb (have HAVE_PDN cs) || bool_decide (slice 0 1 (ue_ipv_n (ps cs)) = [0]).

Lemma unit_octet_ok pinst : byte_ok (unit_octet pinst).
Proof.
  unfold unit_octet, byte_ok. set (a := Z.land 15 (ext_set_num pinst)). set (b := Z.land 15 (pgw_unit_num pinst)).
  assert (Ha : 0 <= a < 16). { unfold a. rewrite Z.land_comm. change 15 with (Z.ones 4). rewrite Z.land_ones by lia. apply Z.mod_pos_bound. lia. }
  assert (Hb : 0 <= b < 16). { unfold b. rewrite Z.land_comm. change 15 with (Z.ones 4). rewrite Z.land_ones by lia. apply Z.mod_pos_bound. lia. }
  assert (H : forallb (fun a => forallb (fun b => (0 <=? Z.lor (Z.shiftl a 4) b) && (Z.lor (Z.shiftl a 4) b <? 256)) (seqZ 0 16)) (seqZ 0 16) = true)
    by reflexivity.
  rewrite forallb_forall in H. specialize (H a). rewrite forallb_forall in H. specialize (H ltac:(apply list_elem_of_In, elem_of_seqZ; lia) b).
  specialize (H ltac:(apply list_elem_of_In, elem_of_seqZ; lia)). to_prop. lia.
Qed.

Lemma ue_octets a0 a1 a2 a3 : bytes_ok [a0; a1; a2; a3] ->
  let v := ntohl (le_load [a0; a1; a2; a3]) in
  (Z.shiftr v 24 =? 0) = (a0 =? 0) /\
  (a0 = 0 -> le_store 4 (htonl (Z.lor v (Z.shiftl PGW_IP8 24))) = [PGW_IP8; a1; a2; a3]).
Proof.
  intros Hb v. assert (Ev : v = a0 * 2 ^ 24 + (a1 * 2 ^ 16 + a2 * 2 ^ 8 + a3)).
  { unfold v, ntohl. rewrite bswap_load by done. unfold be_load. cbn [reverse rev_append le_load]. lia. }
  rewrite !Forall_cons in Hb. destruct Hb as (H0 & H1 & H2 & H3 & _). unfold byte_ok in *.
  assert (Hs : Z.shiftr v 24 = a0).
  { rewrite Z.shiftr_div_pow2, Ev by lia. symmetry. apply Z.div_unique with (a1 * 2 ^ 16 + a2 * 2 ^ 8 + a3); lia. }
  rewrite Hs. split; [done|]. intros ->. unfold htonl. rewrite le_store_bswap.
  assert (El : Z.lor v (Z.shiftl PGW_IP8 24) = be_load [PGW_IP8; a1; a2; a3]).
  { rewrite Z.lor_comm, lor_high_low by lia. unfold be_load, PGW_IP8. cbn [reverse rev_append le_load]. lia. }
  rewrite El. change 4%nat with (length [PGW_IP8; a1; a2; a3]). apply be_store_of. unfold PGW_IP8. repeat constructor; unfold byte_ok; lia.
Qed.

Lemma paa_of_ok pinst cs : session_wf cs ->
  if answerable cs then exists b, CreateSession.paa_of pinst cs = Ok (Some b) /\ holds b GTPC_TYPE_PAA 0 (paa_value pinst cs)
  else CreateSession.paa_of pinst cs = Ok None.
Proof.
  intros [_ [La Ha] _ _]. unfold CreateSession.paa_of, answerable, paa_value.
  destruct (have HAVE_PDN cs); cbn [negb orb].
  2: { destruct (paa_makes GTPC_PAA_PDNTYPE_IPV4 [0; 0; 0; 0]) as (b & E & Hb);
         [unfold GTPC_PAA_PDNTYPE_IPV4; lia|bytes|cbn; unfold GTPC_PAA_ADRS_LEN; lia|].
       change (le_store 4 0) with [0; 0; 0; 0]. cbn [length] in E. change (Z.of_nat 4) with 4 in E. rewrite E, or_break_ok. by exists b. }
  set (a := ue_ipv_n (ps cs)) in *. clearbody a.
  destruct a as [|a0 [|a1 [|a2 [|a3 [|]]]]]; cbn [length] in La; try lia.
  destruct (ue_octets a0 a1 a2 a3 Ha) as [E0 Eu]. cbv zeta. rewrite E0. change (slice 0 1 [a0; a1; a2; a3]) with [a0].
  destruct (Z.eqb_spec a0 0) as [->|Hn]; cbn [negb].
  2: { rewrite bool_decide_eq_false_2; [done|]. intros [= ->]. done. }
  rewrite bool_decide_eq_true_2 by done. rewrite Eu by done.
  change (slice 1 3 [PGW_IP8; a1; a2; a3]) with [a1; a2; a3]. unfold ue_addr, ue_addr6. change (slice 1 3 [0; a1; a2; a3]) with [a1; a2; a3].
  change (wr_bytes (CreateSession.ipv6_init pinst) 6 [a1; a2; a3]) with
    (Ok ([0x40; 0x24; 0x01; 0xf1; 0x00; unit_octet pinst] ++ [a1; a2; a3] ++ [0; 0; 0; 0; 0; 0; 0; 1])). res_simpl.
  rewrite !Forall_cons in Ha. destruct Ha as (_ & B1 & B2 & B3 & _). pose proof (unit_octet_ok pinst) as Bu.
  set (v6 := [0x40; 0x24; 0x01; 0xf1; 0x00; unit_octet pinst] ++ [a1; a2; a3] ++ [0; 0; 0; 0; 0; 0; 0; 1]).
  assert (Hv4 : bytes_ok [PGW_IP8; a1; a2; a3]) by (unfold PGW_IP8; bytes).
  assert (Hv6 : bytes_ok v6) by (unfold v6; bytes).
  assert (Hm : forall t x n, 0 <= t < 8 -> bytes_ok x -> n = zlen x -> zlen x <= 21 ->
    exists b, (b ⇐ gtpc_paa_set t x n; Ok (Some b)) = Ok (Some b) /\ holds b GTPC_TYPE_PAA 0 (t :: x)).
  { intros t x n Ht Hx -> Hl. destruct (paa_makes t x Ht Hx) as (b & E & Hb); [done|]. rewrite E, or_break_ok. by exists b. }
  unfold GTPC_PAA_PDNTYPE_IPV4, GTPC_PAA_PDNTYPE_IPV6, GTPC_PAA_PDNTYPE_BOTH.
  repeat case_if; apply Hm; try lia; try done; try (apply Forall_app_2; done); cbn; lia.
Qed.

Definition accept_reply (pinst : handle) (cs : session) : list (Z * list Z) :=
  [cause_reply GTPC_CAUSE_REQUEST_ACCEPTED;
   named GTPC_TYPE_F_TEID 1 (teid_value GTPC_FTEIDIF_S5S8_PGW_GTPC (pgw_teid (ps cs)) (pgw_c_ipv_n cs));
   named GTPC_TYPE_PAA 0 (paa_value pinst cs); named GTPC_TYPE_APN_RESTRICTION 0 [GTPC_APN_RESTRICTION];
   named GTPC_TYPE_AMBR 0 (slice o_body 8 (ies (ps cs) ambr_r))] ++ pco_reply cs ++
  [context_reply [cause_reply GTPC_CAUSE_REQUEST_ACCEPTED; ebi_reply (ebi_low ebi_b cs);
     named GTPC_TYPE_F_TEID 2 (teid_value GTPC_FTEIDIF_S5S8_PGW_GTPU (pgw_teid (ps cs)) (pgw_u_ipv_n (ps cs))); charging_reply cs];
   recovery_reply; private_reply cs].

Lemma be_of_field f p cs : session_wf cs -> 0 <= p -> p + 4 <= sizeof_ie f ->
  be_store 4 (ntohl (field 4 f p cs)) = slice p 4 (ies (ps cs) f).
Proof.
  intros Hs Hp Hl. destruct (ses_state _ Hs f) as [L Hb]. unfold field, ntohl. change (Z.of_nat 4) with 4.
  assert (Hs4 : length (slice p 4 (ies (ps cs) f)) = 4%nat) by (rewrite length_slice; lia).
  rewrite bswap_load by (done || by apply Forall_slice). rewrite <-Hs4 at 1. apply be_store_of. by apply Forall_slice.
Qed.

Lemma accept_build pinst cs : session_wf cs ->
  if answerable cs then builds (CreateSession.accept_items pinst cs) (accept_reply pinst cs)
  else CreateSession.accept_items pinst cs = Ok None.
Proof.
  intros Hs. unfold CreateSession.accept_items, accept_reply. set_item (cause_makes GTPC_CAUSE_REQUEST_ACCEPTED) b1 H1.
  set_item (f_teid_makes GTPC_INSTANCE_ORDER_1 GTPC_FTEIDIF_S5S8_PGW_GTPC (pgw_teid (ps cs)) (pgw_c_ipv_n cs)
    ltac:(unfold GTPC_INSTANCE_ORDER_1; lia) ltac:(unfold GTPC_FTEIDIF_S5S8_PGW_GTPC; lia) (ses_c _ Hs)) b2 H2.
  pose proof (paa_of_ok pinst cs Hs) as Hp. destruct (answerable cs); [|by rewrite Hp].
  destruct Hp as (b3 & Ep3 & H3). rewrite Ep3. clear Ep3. res_simpl. set_item (apn_makes GTPC_APN_RESTRICTION) b4 H4.
  set_item (ambr_makes (ntohl (field 4 ambr_r o_body cs)) (ntohl (field 4 ambr_r o_ambr_downlink cs))) b5 H5.
  rewrite !be_of_field in H5 by (done || (unfold o_body, o_ambr_downlink; lia) || (vm_compute; congruence)).
  rewrite <-slice_app_split in H5 by (unfold o_body; lia). change (4 + 4) with 8 in H5.
  destruct (pco_entry_ok cs) as (lp & Ep & Hp & Esp).
  destruct (setup_pco cs) as [pco|]; [|done]. cbn [mbind res_bind] in Ep. res_simpl.
  set_item (f_teid_makes GTPC_INSTANCE_ORDER_2 GTPC_FTEIDIF_S5S8_PGW_GTPU (pgw_teid (ps cs)) (pgw_u_ipv_n (ps cs))
    ltac:(unfold GTPC_INSTANCE_ORDER_2; lia) ltac:(unfold GTPC_FTEIDIF_S5S8_PGW_GTPU; lia) (ses_u _ Hs)) b6 H6.
  set_item (ebi_makes GTPC_INSTANCE_ORDER_0 (ebi_low ebi_b cs) ltac:(unfold GTPC_INSTANCE_ORDER_0; lia) (ebi_low_range ebi_b cs)) b7 H7.
  rewrite gtpc_bearer_qos_set_eq by (unfold byte_ok, GTPC_BQOS_FLAG, GTPC_BQOS_QCI; lia). rewrite or_break_ok.
  set_item (charging_makes (pgw_teid (ps cs))) b8 H8. set_item (recovery_makes PGW_RECOVERY_COUNT) b9 H9.
  destruct (private_makes cs Hs) as [Hpv Lpv]. set_item Hpv b10 H10. set_item context_set b11 H11.
  change GTPC_INSTANCE_ORDER_0 with 0 in *. change GTPC_INSTANCE_ORDER_1 with 1 in *. change GTPC_INSTANCE_ORDER_2 with 2 in *.
  assert (Lt : zlen (teid_value GTPC_FTEIDIF_S5S8_PGW_GTPU (pgw_teid (ps cs)) (pgw_u_ipv_n (ps cs))) = 9).
  { apply teid_value_fields. apply (ses_u _ Hs). }
  destruct (context_add b11 [] b1 GTPC_TYPE_CAUSE 0 _ H11 (byte_const GTPC_TYPE_CAUSE eq_refl) H1) as (x1 & X1 & K1); [cbn; unfold sizeof_bearer_child; lia|].
  destruct (context_add x1 _ b7 GTPC_TYPE_EBI 0 _ K1 (byte_const GTPC_TYPE_EBI eq_refl) H7) as (x2 & X2 & K2).
  { cbn [app concat]. rewrite app_nil_r, zlen_wire. cbn [length]. unfold sizeof_bearer_child. lia. }
  destruct (context_add x2 _ b6 GTPC_TYPE_F_TEID 2 _ K2 (byte_const GTPC_TYPE_F_TEID eq_refl) H6) as (x3 & X3 & K3).
  { cbn [app concat]. rewrite app_nil_r, length_app, Nat2Z.inj_add, !zlen_wire, Lt. cbn [length]. unfold sizeof_bearer_child. lia. }
  destruct (context_add x3 _ b8 GTPC_TYPE_CHARGING_ID 0 _ K3 (byte_const GTPC_TYPE_CHARGING_ID eq_refl) H8) as (x4 & X4 & K4).
  { cbn [app concat]. rewrite app_nil_r, !length_app, !Nat2Z.inj_add, !zlen_wire, Lt, length_be_store. cbn [length]. unfold sizeof_bearer_child. lia. }
  use_entry H1 Ee1 Ei1 Es1. use_entry H2 Ee2 Ei2 Es2. use_entry H3 Ee3 Ei3 Es3. use_entry H4 Ee4 Ei4 Es4. use_entry H5 Ee5 Ei5 Es5.
  use_entry H6 Ee6 Ei6 Es6. use_entry H7 Ee7 Ei7 Es7. use_entry H8 Ee8 Ei8 Es8. use_entry H9 Ee9 Ei9 Es9. use_entry H10 Ee10 Ei10 Es10.
  apply context_entry in K4 as (Eex & Eix & Esx). cbn [app] in Eex, Eix, Esx.
  lengths. repeat match goal with H : item_length _ = Ok _ |- _ => rewrite H; clear H end. res_simpl.
  rewrite X1, or_break_ok. res_simpl. rewrite X2, or_break_ok. res_simpl. rewrite X3, or_break_ok. res_simpl.
  rewrite X4, or_break_ok. res_simpl.
  rewrite Ee1, Ee2, Ee3, Ee4, Ee5, Ee9. res_simpl. rewrite Ep. res_simpl. rewrite Eex. res_simpl.
  rewrite Lpv in Ei10, Es10. change (4 + 28) with GTPC_PRIVATE_EXT_SIZE in *.
  eexists. split; [done|]. split; [all_items|].
  rewrite !fmap_app, Esp, !fmap_cons, (sent_eq _ _ _ _ Es1), (sent_eq _ _ _ _ Es2), (sent_eq _ _ _ _ Es3), (sent_eq _ _ _ _ Es4),
    (sent_eq _ _ _ _ Es5), (sent_eq _ _ _ _ Esx), (sent_eq _ _ _ _ Es9), (sent_eq _ _ _ _ Es10). done.
Qed.
End responses.
