(* ===== verification/CtrlAnswers.v ===== *)
(** * Control plane: every request is answered

    What the request handlers of CtrlSession do with a request that has been read:
    which statements they run, which response they put on the egress queue of the
    node, and what stays allocated.  The decision of each handler is stated as a
    function of the session and the database alone ([..._verdict]); the theorems
    relate the handlers to it. *)

From S2P Require Import Prelude TextParse Gtpc GtpcItems GtpcParse CtrlNode CtrlSession.

(** ** Handling a request *)
(** A packet as the receive callback hands it over. *)
Record from_network (pckt : packet_t) : Prop := {
  net_s : net_addr (p_saddr pckt) (p_saddrlen pckt);
  net_c : net_addr (p_caddr pckt) (p_caddrlen pckt);
  net_data : bytes_ok (data pckt);
}.
Definition request_seqno (pckt : packet_t) : Z := bf_get 0 24 (le_load (slice o_seqno 4 (data pckt))).
Definition request_teid (pckt : packet_t) : Z := be_load (slice o_teid 4 (data pckt)).
Definition response (pckt : packet_t) (type teid : Z) (its : list (Z * list Z)) : packet_t :=
  mk_packet_t (12 + zlen (concat its.*2)) (reply_bytes type teid (request_seqno pckt) its)
    (p_caddr pckt) (p_caddrlen pckt) (p_saddr pckt) (p_saddrlen pckt).

(** The packets allocated and not yet released: parsed ones, generic ones. *)
Definition outstanding (s : gtp_memory) : Z * Z :=
  (u64 (gtp_memory_alloc_count s - gtp_memory_free_count s), u64 (pgw_memory_alloc_count s - pgw_memory_free_count s)).
Definition answered {D} (c c' : ctx D) (pckt : packet_t) (type teid : Z) (its : list (Z * list Z)) : Prop :=
  c_node c' = (pgw_enq EGRESS (response pckt type teid its) (c_node c)).2 /\
  outstanding (c_mem c') = ((outstanding (c_mem c)).1, u64 ((outstanding (c_mem c)).2 + 1)) /\
  gtp_memory_status_count (c_mem c') = u64 (gtp_memory_status_count (c_mem c)).
(** Nothing is sent, and a packet stays behind. *)
Definition unanswered {D} (c c' : ctx D) : Prop :=
  c_node c' = c_node c /\ outstanding (c_mem c') = (u64 ((outstanding (c_mem c)).1 + 1), (outstanding (c_mem c)).2).

Section handling.
Variable malloc : nat -> bool.
Context {D : Type} `{DB : Database D} `{B : PgwBuild}.
Hypothesis Hm : forall n, malloc n = true.
Hypothesis Hbind : forall st k db, db_bind st k db = true.
Implicit Types (c : ctx D) (cs : session).

(** What is known of a request that has been read. *)
Record read_ok (t : bool) (pckt : packet_t) c (p : gtp_packet) cs c1 : Prop := {
  ro_pkt : exists hl base, pkt_wf hl base p;
  ro_saddr : saddr p = p_saddr pckt /\ saddrlen p = p_saddrlen pckt;
  ro_caddr : caddr p = p_caddr pckt /\ caddrlen p = p_caddrlen pckt;
  ro_net : net_addrs p;
  ro_wf : session_wf cs;
  ro_seq : gtph_seqno cs = request_seqno pckt;
  ro_teid : t = true -> gtph_teid cs = request_teid pckt;
  ro_node : c_node c1 = c_node c;
  ro_db : c_db c1 = c_db c;
  ro_mem : same_counts (count_gtp 0 1 0 (c_mem c)) (c_mem c1);
}.

Lemma read_request_inv t pckt c p cs c1 :
  from_network pckt -> read_request malloc t pckt c = Ok (Some (p, cs), c1) -> read_ok t pckt c p cs c1.
Proof.
  intros [[Ls Es] [Lc Ec] Hd]. unfold read_request.
  destruct (gtpc_alloc_packet_from_payload _ _ _ _ _) as [[[rc pp] s]|] eqn:Ea; [|done]. res_simpl. case_if; [done|]. to_prop. subst rc.
  apply from_payload_inv in Ea as (type & p0 & -> & Hw & (_ & _ & Fs & _ & Fc & _) & Hs); [|done]. res_simpl.
  cbn [new_packet saddr caddr] in Fs, Fc. rewrite Fs, Fc, Es, Ec.
  rewrite !copy_addr_ok by (done || unfold sizeof_sockaddr_in; lia). res_simpl. rewrite !splice_addr by done.
  destruct (rd 4 (data pckt) o_seqno) as [q|] eqn:Eq; [|done]. apply rd_inv in Eq as (_ & _ & ->). res_simpl.
  set (p1 := mk_packet _ _ _ _ _ _ _ _ _). assert (Hw1 : pkt_wf (gtpc_type_headerlen type) 4 p1) by (destruct Hw; by split).
  destruct (if t then _ else _) as [tv|] eqn:Et; [|done]. res_simpl.
  destruct (gtpc_iterate_item _ _ _) as [[rc st]|] eqn:Ei; [|done]. res_simpl. intros [= <- <- <-].
  destruct (iterate_keeps _ _ _ _ _ _ Hw1 parse_state0_wf Ei) as [Hst (_ & Hue & Hu)].
  assert (A0 : addr_ok (bzero 4)) by (split; [done|apply Forall_replicate; unfold byte_ok; lia]).
  split; cbn [saddr saddrlen caddr caddrlen p1 gtph_seqno gtph_teid set_header set_ps c_node c_db c_mem set_mem ps]; try done.
  - by eexists _, _.
  - split; cbn [ps set_header set_ps pgw_c_ipv_n session0]; try done; [by rewrite Hue|by rewrite Hu].
  - intros ->. destruct (rd 4 (data pckt) o_teid) as [v|] eqn:Ev; [|done]. apply rd_inv in Ev as (_ & Lv & ->).
    cbn [mbind res_bind] in Et. injection Et as <-. unfold ntohl. unfold o_teid in *. change (Z.of_nat 4) with 4 in *.
    apply bswap_load; [by apply Forall_slice|rewrite length_slice; lia].
Qed.

(** With memory to spare, what is read does not depend on the state of the handler. *)
Definition seen (r : res (Z * option gtp_packet * gtp_memory)) : res (Z * option gtp_packet) :=
  match r with Ok (rc, pp, _) => Ok (rc, pp) | Fault f => Fault f end.

Lemma parse_items_seen fuel payload len off p s s' :
  seen (parse_items malloc fuel payload len off p s) = seen (parse_items malloc fuel payload len off p s').
Proof.
  assert (Hrel : forall p s s', seen (release p s) = seen (release p s')).
  { intros. unfold release, gtpc_free_packet. by destruct (rd_bytes _ _ _). }
  revert off p s s'. induction fuel as [|fuel IH]; intros off p s s'; cbn [parse_items]; [apply Hrel|].
  case_if; [apply Hrel|]. destruct (rd 2 _ _) as [l|]; [|done]. destruct (rd 1 _ _) as [ty|]; [|done]. res_simpl.
  set (hlen := u16 (ntohs l + sizeof_gtpc_comm_header)). unfold gtpc_append_item. rewrite !Hm. cbn [negb].
  destruct (hlen =? 0); [apply Hrel|]. destruct (length_ p <=? offset p + hlen); [apply Hrel|]. destruct (append _ _ _ _) as [p'|]; [|done]. res_simpl. cbn [negb Z.eqb OK].
  case_if; [done|]. case_if; [done|]. apply IH.
Qed.

Lemma read_anywhere t pckt c c' p cs c1 :
  read_request malloc t pckt c = Ok (Some (p, cs), c1) -> exists c1', read_request malloc t pckt c' = Ok (Some (p, cs), c1').
Proof.
  assert (Hs : seen (gtpc_alloc_packet_from_payload malloc None (Some (data pckt)) (datalen pckt) (c_mem c)) =
    seen (gtpc_alloc_packet_from_payload malloc None (Some (data pckt)) (datalen pckt) (c_mem c'))).
  { unfold gtpc_alloc_packet_from_payload. generalize GTPC_CAPABILITY_ITEM_COUNT. intros fuel. case_if; [reflexivity|]. destruct (gtpc_validate_header _) as [v|]; [|cbn [mbind res_bind seen]; reflexivity]. res_simpl. case_if; [reflexivity|].
    destruct (rd 2 _ _) as [l|]; [|cbn [mbind res_bind seen]; reflexivity]. res_simpl. case_if; [reflexivity|]. destruct (rd 1 _ _) as [type|]; [|cbn [mbind res_bind seen]; reflexivity]. res_simpl. case_if; [reflexivity|].
    rewrite !gtpc_alloc_packet_eq by done. res_simpl. cbn [negb Z.eqb OK]. case_if; [reflexivity|]. apply parse_items_seen. }
  unfold read_request. destruct (gtpc_alloc_packet_from_payload _ _ _ _ (c_mem c)) as [[[rc pp] s]|]; [|done].
  destruct (gtpc_alloc_packet_from_payload _ _ _ _ (c_mem c')) as [[[rc' pp'] s']|]; [|done]. injection Hs as <- <-. res_simpl.
  case_if; [done|]. destruct pp as [p0|]; [|done]. res_simpl.
  destruct (copy_addr (saddr p0) _ _) as [sa|]; [|discriminate]. res_simpl.
  destruct (copy_addr (caddr p0) _ _) as [ca|]; [|discriminate]. res_simpl.
  destruct (rd 4 _ o_seqno) as [q|]; [|discriminate]. res_simpl. destruct (if t then _ else _) as [tv|]; [|discriminate]. res_simpl.
  destruct (gtpc_iterate_item _ _ _) as [[rc1 st]|]; [|discriminate]. res_simpl.
  intros [= <- <- <-]. by eexists.
Qed.

Lemma outstanding_answer s s1 s2 :
  same_counts (count_gtp 0 1 0 s) s1 ->
  same_counts (count_gtp 0 0 1 (count_pgw 1 0 0 (count_gtp 0 0 1 (count_gtp 0 1 0 s1)))) s2 ->
  outstanding s2 = ((outstanding s).1, u64 ((outstanding s).2 + 1)) /\
  gtp_memory_status_count s2 = u64 (gtp_memory_status_count s).
Proof.
  intros (A1 & A2 & A3 & A4 & A5 & A6 & A7) (B1 & B2 & B3 & B4 & B5 & B6 & B7).
  unfold outstanding, count_gtp, count_pgw in *. cbn in *.
  rewrite B1, B2, B3, B5, B6, A1, A2, A3, A5, A6, ?Z.add_0_r. unfold wrap.
  rewrite !Zmod_mod, !Zplus_mod_idemp_l, !Zminus_mod_idemp_l, !Zminus_mod_idemp_r.
  split; [|done]. f_equal; [|f_equal; lia]. rewrite <-Zminus_mod_idemp_r at 1. rewrite !Zplus_assoc_reverse, Zplus_mod_idemp_l, Zminus_mod_idemp_r. f_equal. lia.
Qed.

Lemma respond_answers t pckt c p cs c1 c2 cs2 type m its teid :
  read_ok t pckt c p cs c1 -> c_node c2 = c_node c1 -> c_mem c2 = c_mem c1 -> gtph_seqno cs2 = gtph_seqno cs ->
  is_echo type = false -> byte_ok type -> builds m its -> 12 + zlen (concat its.*2) < ETHER_MAX_LEN ->
  exists c', respond malloc type m teid p cs2 c2 = Ok (OK, c') /\ answered c c' pckt type teid its /\ c_db c' = c_db c2.
Proof.
  intros [(hl & base & Hw) [Es1 Es2] [Ec1 Ec2] Hn Hs Hq _ Hnode _ Hmem] N2 M2 Q2 He Ht Hb Hf.
  destruct (respond_ok malloc Hm type m its teid p cs2 c2 hl base He Ht Hb Hf Hw Hn) as (s & -> & Hc).
  rewrite M2 in Hc. destruct (outstanding_answer _ _ _ Hmem Hc) as [O1 O2].
  eexists. split; [done|]. split; [|done]. split; [|by split]. cbn [c_node]. rewrite N2, Hnode. do 2 f_equal.
  unfold reply, response. by rewrite Q2, Hq, Es1, Es2, Ec1, Ec2.
Qed.

(** Messages and their sizes. *)
Definition total (its : list (Z * list Z)) : Z := zlen (concat its.*2).
Lemma total_cons type inst v its : total (named type inst v :: its) = 4 + zlen v + total its.
Proof. unfold total, named. cbn [fmap list_fmap concat snd]. rewrite length_app, Nat2Z.inj_add, zlen_wire. done. Qed.
Lemma total_app a b : total (a ++ b) = total a + total b.
Proof. unfold total. rewrite fmap_app, concat_app, length_app. lia. Qed.
Lemma total_nil : total [] = 0.
Proof. done. Qed.
Lemma total_pco cs : 0 <= total (pco_reply cs) <= 81.
Proof.
  unfold pco_reply. destruct (pco_lengths cs) as (L1 & L2 & L3 & _). case_if; [|rewrite total_nil; lia].
  fold (named GTPC_TYPE_PCO 0 (pco_head cs :: pco_options cs)). rewrite total_cons, total_nil. unfold pco_options.
  cbn [length]. rewrite !length_app. lia.
Qed.


(** *** Decisions *)
Definition select (st : stmt) (key : Z) cs (db : D) : session * D :=
  let '(rows, db) := db_select st key db in (foldl (fun u r => on_tunnel_record r u) cs (default [] rows), db).
Definition run (sql : cstring) (db : D) : bool * D := let '(rc, db) := db_query (snprintf 511 sql) db in (rc =? 0, db).
(** Look up, run one statement. *)
Definition simple_verdict (guard : session -> bool) (sql : session -> cstring) cs (db : D) : bool * session * D :=
  if guard cs then
    let '(cs, db) := select DELETE_SESSION_LOOKUP (gtph_teid cs) cs db in
    if any_of HAVE_RECORD cs then let '(ok, db) := run (sql cs) db in (ok, cs, db) else (false, cs, db)
  else (false, cs, db).

Lemma lookup_select st key cs c : session_wf cs ->
  exists cs' db, select st key cs (c_db c) = (cs', db) /\ lookup_tunnel st key cs c = Ok (cs', set_db db c) /\
    session_wf cs' /\ same_request cs cs'.
Proof.
  intros Hw. unfold lookup_tunnel, pgw_mysql_execute, select. rewrite Hbind. cbn [negb].
  destruct (db_select st key (c_db c)) as [[rows|] db]; cbn [default from_option id foldl].
  - destruct (records_ok rows cs Hw) as [H1 H2]. by eexists _, db.
  - by exists cs, db.
Qed.

Lemma query_run sql c : exists rc db, query sql c = (rc, set_db db c) /\ run sql (c_db c) = (rc =? 0, db).
Proof. unfold query, run. destruct (db_query _ _) as [rc db]. by exists rc, db. Qed.

(** A response that fits a packet. *)
Record message (type : Z) (m : res (option (list item))) (its : list (Z * list Z)) : Prop := {
  msg_plain : is_echo type = false;
  msg_type : byte_ok type;
  msg_builds : builds m its;
  msg_fits : 12 + total its < ETHER_MAX_LEN;
}.

Lemma message_sent t pckt c p cs c1 c2 cs2 type m its teid :
  read_ok t pckt c p cs c1 -> c_node c2 = c_node c1 -> c_mem c2 = c_mem c1 -> gtph_seqno cs2 = gtph_seqno cs ->
  message type m its ->
  exists c', respond malloc type m teid p cs2 c2 = Ok (OK, c') /\ answered c c' pckt type teid its /\ c_db c' = c_db c2.
Proof. intros ? ? ? ? []. by eapply respond_answers. Qed.

(** What the four short handlers share. *)
Lemma by_teid_verdict guard sql sqlv tyA tyD mA mD rA rD pckt c p cs c1 :
  (forall cs', session_wf cs' -> same_request cs cs' ->
     sql cs' = Ok (sqlv cs') /\ message tyA (mA cs') (rA cs') /\ message tyD (mD cs') (rD cs')) ->
  from_network pckt -> read_request malloc true pckt c = Ok (Some (p, cs), c1) ->
  let '(ok, cs', db) := simple_verdict guard sqlv cs (c_db c) in
  exists c', by_teid malloc guard sql (fun rp s x => respond malloc tyA (mA s) (sgw_c_teid s) rp s x)
      (fun rp s x => respond malloc tyD (mD s) (sgw_c_teid s) rp s x) pckt c = Ok (OK, c') /\
    answered c c' pckt (if ok then tyA else tyD) (sgw_c_teid cs') (if ok then rA cs' else rD cs') /\ c_db c' = db.
Proof.
  intros Hall Hn Er. pose proof (read_request_inv _ _ _ _ _ _ Hn Er) as Hr. unfold by_teid, simple_verdict. rewrite Er. res_simpl.
  pose proof (ro_wf _ _ _ _ _ _ Hr) as Hw. rewrite <-(ro_db _ _ _ _ _ _ Hr).
  destruct (guard cs); cbn [negb].
  2: { destruct (Hall cs Hw) as (_ & _ & Hd); [done|]. by eapply message_sent. }
  destruct (lookup_select DELETE_SESSION_LOOKUP (gtph_teid cs) cs c1 Hw) as (cs' & db & -> & -> & Hw' & Hs). res_simpl.
  destruct (Hall cs' Hw' Hs) as (Hq & Ha & Hd). destruct Hs as (Hs & _).
  destruct (any_of HAVE_RECORD cs'); cbn [negb]; [|by eapply message_sent].
  rewrite Hq. res_simpl. destruct (query_run (sqlv cs') (set_db db c1)) as (rc & db' & -> & E). cbn [c_db set_db] in E. rewrite E.
  destruct (rc =? 0); cbn [negb]; by eapply message_sent.
Qed.

(** *** The messages *)
Ltac sizes := unfold cause_reply, recovery_reply, ebi_reply, charging_reply, context_reply;
  rewrite ?total_app; rewrite ?total_cons, ?total_nil; cbn [length].
Ltac plain_message := split; [done|by apply byte_const| |].

Definition accepted : Z * list Z := cause_reply GTPC_CAUSE_REQUEST_ACCEPTED.
Definition refused : Z * list Z := cause_reply GTPC_CAUSE_REQUEST_DENIED_APN_ACCESS.

Lemma cause_message type v : is_echo type = false -> byte_ok type -> byte_ok v ->
  message type (Notification.cause_items v) [cause_reply v].
Proof.
  intros He Ht Hv. split; [done|done| |sizes; unfold ETHER_MAX_LEN; lia].
  pose proof (cause_items_build v) as H. by rewrite Z.mod_small in H.
Qed.
Lemma delete_session_accept_message cs :
  message GTPC_DELETE_SESSION_RES (DeleteSession.accept_items cs) ([accepted] ++ pco_reply cs ++ [recovery_reply]).
Proof.
  plain_message; [apply delete_session_accept_build|]. pose proof (total_pco cs). unfold accepted. sizes. unfold ETHER_MAX_LEN. lia.
Qed.
Lemma delete_session_denied_message :
  message GTPC_DELETE_SESSION_RES DeleteSession.denied_items [refused; recovery_reply].
Proof. plain_message; [apply delete_session_denied_build|]. unfold refused. sizes. unfold ETHER_MAX_LEN. lia. Qed.
Lemma delete_bearer_accept_message cs :
  message GTPC_DELETE_BEARER_RES (DeleteBearer.accept_items cs) ([accepted; ebi_reply (ebi cs mod 16)] ++ pco_reply cs).
Proof.
  plain_message; [apply delete_bearer_accept_build|]. pose proof (total_pco cs). unfold accepted. sizes. unfold ETHER_MAX_LEN. lia.
Qed.
Lemma total_echo cs : session_wf cs -> pco_fits cs -> total (pco_echo cs) <= sizeof_gtpc_pco.
Proof.
  intros [Hs _ _ _] (l & El & Hl). destruct (Hs pco) as [Lp _]. unfold pco_echo. rewrite El.
  case_if; [|rewrite total_nil; by vm_compute].
  unfold total. cbn [fmap list_fmap concat snd]. rewrite app_nil_r, zlen_slice by (change (sizeof_ie pco) with sizeof_gtpc_pco in Lp; lia). lia.
Qed.
Lemma delete_bearer_denied_message cs : session_wf cs -> pco_fits cs ->
  message GTPC_DELETE_SESSION_RES (DeleteBearer.denied_items cs) ([refused; ebi_reply (ebi cs mod 16); recovery_reply] ++ pco_echo cs).
Proof.
  intros Hw Hf. plain_message; [by apply delete_bearer_denied_build|]. pose proof (total_echo cs Hw Hf). unfold refused. sizes.
  unfold ETHER_MAX_LEN. change sizeof_gtpc_pco with 258 in *. lia.
Qed.
Lemma modify_bearer_accept_message cs : session_wf cs -> 0 <= msisdn_num_ cs < 10 ^ 12 ->
  exists d, zlen d = GTPC_MSISDN_LEN /\ gtpc_digits_get false d GTPC_MSISDN_LEN = Ok (msisdn_num_ cs) /\
    message GTPC_MODIFY_BEARER_RES (ModifyBearer.accept_items cs) (modify_reply d cs).
Proof.
  intros Hw Hms. destruct (modify_bearer_accept_build cs Hw Hms) as (d & Ld & Gd & Hb). exists d. split; [done|]. split; [done|].
  plain_message; [done|]. pose proof (total_pco cs). unfold modify_reply. unfold GTPC_MSISDN_LEN in Ld.
  destruct (private_makes cs Hw) as [_ Lpv]. sizes.
  change (zlen (concat ?x.*2)) with (total x). sizes. rewrite length_be_store, Ld.
  case_if; unfold private_reply; sizes; rewrite ?Lpv; unfold ETHER_MAX_LEN; lia.
Qed.
Lemma modify_bearer_denied_message : message GTPC_MODIFY_BEARER_RES ModifyBearer.denied_items [refused].
Proof. by apply cause_message; apply byte_const || done. Qed.
Lemma create_denied_message : message GTPC_CREATE_SESSION_RES CreateSession.denied_items [refused; context_reply [refused; ebi_reply 0]].
Proof.
  plain_message; [apply create_denied_build|]. unfold refused. sizes. change (zlen (concat ?x.*2)) with (total x). sizes.
  unfold ETHER_MAX_LEN. lia.
Qed.
Lemma paa_size pinst cs : session_wf cs -> zlen (paa_value pinst cs) <= 22.
Proof.
  intros [_ [La _] _ _]. assert (Ls : length (slice 1 3 (ue_ipv_n (ps cs))) = 3%nat) by (rewrite length_slice; lia).
  unfold paa_value, ue_addr6, ue_addr.
  repeat case_if; cbn [length app]; rewrite ?length_app; cbn [length]; rewrite ?length_app, ?Ls; cbn [length Nat.add]; lia.
Qed.
Lemma create_accept_message pinst cs : session_wf cs -> answerable cs = true ->
  message GTPC_CREATE_SESSION_RES (CreateSession.accept_items pinst cs) (accept_reply pinst cs).
Proof.
  intros Hw Ha. pose proof (accept_build pinst cs Hw) as Hb. rewrite Ha in Hb. plain_message; [done|].
  pose proof (total_pco cs). pose proof (paa_size pinst cs Hw). destruct (private_makes cs Hw) as [_ Lpv].
  assert (Lu : forall t v, zlen (teid_value t v (pgw_u_ipv_n (ps cs))) = 9) by (intros; apply teid_value_fields, (ses_u _ Hw)).
  assert (Lc : forall t v, zlen (teid_value t v (pgw_c_ipv_n cs)) = 9) by (intros; apply teid_value_fields, (ses_c _ Hw)).
  destruct (ses_state _ Hw ambr_r) as [Lr _]. change (sizeof_ie ambr_r) with sizeof_gtpc_ambr in Lr.
  unfold accept_reply, private_reply. sizes. change (zlen (concat ?x.*2)) with (total x). sizes.
  rewrite Lpv, Lu, Lc, length_be_store, zlen_slice by (unfold o_body, sizeof_gtpc_ambr in *; lia). unfold ETHER_MAX_LEN. lia.
Qed.

(** *** Create session *)
(** The number a digit string holds. *)
Definition number (erange : bool) (f : ie) (n : Z) cs : Z :=
  match gtpc_digits_get erange (drop 4 (ies (ps cs) f)) n with Ok v => v | Fault _ => 0 end.
Lemma number_ok erange f n cs : session_wf cs -> 0 <= n -> 4 + n <= sizeof_ie f ->
  gtpc_digits_get erange (drop 4 (ies (ps cs) f)) n = Ok (number erange f n cs).
Proof.
  intros Hw Hn Hl. destruct (ses_state _ Hw f) as [L _]. unfold number, gtpc_digits_get.
  rewrite rd_bytes_ok by (rewrite ?length_drop; lia). res_simpl. by destruct (_ || _).
Qed.

Definition create_verdict (erange erange' : bool) (pinst : handle) cs (db : D) : bool * session * D :=
  if negb (have INCLUDED_ALL cs) then (false, cs, db) else
  let ms := number erange msisdn GTPC_MSISDN_LEN cs in
  let im := number erange' imsi GTPC_IMSI_LEN cs in
  let '(ok, db) := run (CREATE_SESSION_PGWIP_UPD_SQL (srv_ip (server_gtpc pinst)) (srv_ip (server_gtpc pinst)) im) db in
  if negb ok then (false, cs, db) else
  let '(ok, db) := if negb (im =? 0) && negb (ms =? 0) then run (CREATE_SESSION_IMSI_MSISDN_UPD_SQL ms im) db else (true, db) in
  if negb ok then (false, cs, db) else
  let '(cs, db) := select CREATE_SESSION_IMSI_LOOKUP im cs db in
  let '(cs, im, db) := if any_of HAVE_RECORD cs then (cs, im, db)
                       else let '(cs, db) := select CREATE_SESSION_MSISDN_LOOKUP ms cs db in (cs, imsi_num cs, db) in
  if negb (any_of HAVE_RECORD cs) then (false, cs, db) else
  let cs := prefix_ebi cs in
  let '(ok, db) := run (CREATE_SESSION_UPD_SQL (teid_grekey c_teid cs) (sgw_ip c_teid cs) (teid_grekey u_teid cs)
                          (sgw_ip u_teid cs) (field 1 bqos o_qos_qci cs) (ebi_low ebi_b cs) (pgw_teid (ps cs))
                          (restart_of cs) im) db in
  (ok, cs, db).

Lemma prefix_ebi_ok cs : session_wf cs -> session_wf (prefix_ebi cs) /\ same_request cs (prefix_ebi cs).
Proof. intros [Hs Hue Hu Hc]. split; [|done]. by split. Qed.

Lemma teid_of_request f cs cs' : same_request cs cs' -> teid_grekey f cs' = teid_grekey f cs.
Proof. intros (_ & _ & E). unfold teid_grekey, field. by rewrite E. Qed.

(** Leaving the loop of a response: nothing is sent, the response is not released. *)
Lemma respond_broken t pckt c p cs c1 c2 cs2 type m teid :
  read_ok t pckt c p cs c1 -> c_node c2 = c_node c1 -> c_mem c2 = c_mem c1 -> m = Ok None ->
  exists c', respond malloc type m teid p cs2 c2 = Ok (ERR, c') /\ unanswered c c' /\ c_db c' = c_db c2.
Proof.
  intros [(hl & base & Hw) _ _ [[La Ls] [Lc Lcl]] _ _ _ Hnode _ Hmem] N2 M2 ->. unfold respond.
  rewrite gtpc_alloc_packet_eq by done. res_simpl. unfold gtpc_copy_packet_addr. cbn [new_packet saddr caddr]. rewrite Ls, Lcl.
  rewrite !copy_addr_ok by (done || unfold sizeof_sockaddr_in; lia). res_simpl.
  rewrite (gtpc_free_packet_ok hl base) by done. res_simpl. cbn [negb].
  eexists. split; [done|]. split; [|done]. split; [by rewrite <-Hnode, <-N2|].
  destruct Hmem as (_ & A2 & A3 & _ & A5 & A6 & _). unfold outstanding, set_mem, count_gtp, next_malloc in *. cbn in *.
  rewrite M2, A2, A3, A5, A6, ?Z.add_0_r. unfold wrap.
  rewrite ?Zmod_mod, ?Zplus_mod_idemp_l, ?Zminus_mod_idemp_l, ?Zminus_mod_idemp_r. f_equal.
  rewrite <-Zminus_mod_idemp_r at 1. rewrite ?Zplus_mod_idemp_l, Zminus_mod_idemp_r. f_equal. lia.
Qed.

Lemma create_denies pckt c p cs c1 : read_ok false pckt c p cs c1 ->
  forall c2 cs', c_node c2 = c_node c1 -> c_mem c2 = c_mem c1 -> same_request cs cs' ->
  exists rc c', CreateSession.denied_ malloc p cs' c2 = Ok (rc, c') /\ c_db c' = c_db c2 /\ rc = OK /\
    answered c c' pckt GTPC_CREATE_SESSION_RES (teid_grekey c_teid cs) [refused; context_reply [refused; ebi_reply 0]].
Proof.
  intros Hr c2 cs' Hc Hme Hs. unfold CreateSession.denied_. rewrite (teid_of_request _ _ _ Hs). destruct Hs as (Hs & _).
  destruct (message_sent _ _ _ _ _ _ c2 cs' _ _ _ (teid_grekey c_teid cs) Hr Hc Hme Hs create_denied_message) as (c' & -> & Ha & Hd).
  by eexists _, _.
Qed.

(** The lookup by MSISDN, when the one by IMSI found nothing. *)
Lemma second_lookup ms im cs c : session_wf cs -> exists cs' im' db',
  (if any_of HAVE_RECORD cs then Ok (cs, im, c)
   else '(s, x) ← lookup_tunnel CREATE_SESSION_MSISDN_LOOKUP ms cs c; Ok (s, imsi_num s, x)) = Ok (cs', im', set_db db' c) /\
  (if any_of HAVE_RECORD cs then (cs, im, c_db c)
   else let '(s, db) := select CREATE_SESSION_MSISDN_LOOKUP ms cs (c_db c) in (s, imsi_num s, db)) = (cs', im', db') /\
  session_wf cs' /\ same_request cs cs'.
Proof.
  intros Hw. case_if; [exists cs, im, (c_db c); by destruct c|].
  destruct (lookup_select CREATE_SESSION_MSISDN_LOOKUP ms cs c Hw) as (cs4 & db4 & -> & -> & Hw4 & Hs4). res_simpl.
  by exists cs4, (imsi_num cs4), db4.
Qed.

Lemma create_session_ok erange erange' pinst pckt c p cs c1 :
  from_network pckt -> read_request malloc false pckt c = Ok (Some (p, cs), c1) ->
  let '(ok, cs', db) := create_verdict erange erange' pinst cs (c_db c) in
  exists rc c', CreateSession._on_create_session malloc erange erange' pinst pckt c = Ok (rc, c') /\ c_db c' = db /\
    (if ok && negb (answerable cs') then rc = ERR /\ unanswered c c'
     else rc = OK /\ answered c c' pckt GTPC_CREATE_SESSION_RES (teid_grekey c_teid cs)
                      (if ok then accept_reply pinst cs' else [refused; context_reply [refused; ebi_reply 0]])).
Proof.
  intros Hn Er. pose proof (read_request_inv _ _ _ _ _ _ Hn Er) as Hr. unfold CreateSession._on_create_session, create_verdict.
  rewrite Er. res_simpl. pose proof (ro_wf _ _ _ _ _ _ Hr) as Hw. rewrite <-(ro_db _ _ _ _ _ _ Hr).
  pose proof (create_denies pckt c p cs c1 Hr) as Hden.
  destruct (have INCLUDED_ALL cs); cbn [negb]; [|by apply Hden].
  rewrite (number_ok erange msisdn), (number_ok erange' imsi) by (done || (vm_compute; congruence)). res_simpl.
  set (ms := number erange msisdn _ cs). set (im := number erange' imsi _ cs).
  destruct (query_run (CREATE_SESSION_PGWIP_UPD_SQL (srv_ip (server_gtpc pinst)) (srv_ip (server_gtpc pinst)) im) c1)
    as (rc & db1 & -> & ->). destruct (rc =? 0); cbn [negb]; [|by apply Hden].
  assert (H2 : exists rc db2, (if negb (im =? 0) && negb (ms =? 0) then query (CREATE_SESSION_IMSI_MSISDN_UPD_SQL ms im) (set_db db1 c1)
      else (0, set_db db1 c1)) = (rc, set_db db2 c1) /\
    (if negb (im =? 0) && negb (ms =? 0) then run (CREATE_SESSION_IMSI_MSISDN_UPD_SQL ms im) db1 else (true, db1)) = (rc =? 0, db2)).
  { case_if; [|by exists 0, db1].
    destruct (query_run (CREATE_SESSION_IMSI_MSISDN_UPD_SQL ms im) (set_db db1 c1)) as (rc' & db' & E1 & E2). by exists rc', db'. }
  destruct H2 as (rc2 & db2 & -> & ->). destruct (rc2 =? 0); cbn [negb]; [|by apply Hden].
  destruct (lookup_select CREATE_SESSION_IMSI_LOOKUP im cs (set_db db2 c1) Hw) as (cs3 & db3 & E3 & -> & Hw3 & Hs3). res_simpl.
  cbn [c_db set_db] in E3. rewrite E3.
  destruct (second_lookup ms im cs3 (set_db db3 c1) Hw3) as (cs4 & im4 & db4 & E4 & E4' & Hw4 & Hs34). cbn [c_db set_db] in E4'.
  change (set_db db3 (set_db db2 c1)) with (set_db db3 c1). rewrite E4, E4'. res_simpl.
  pose proof (same_request_trans _ _ _ Hs3 Hs34) as Hs4.
  destruct (any_of HAVE_RECORD cs4); cbn [negb]; [|by apply Hden].
  unfold CreateSession.update_session. destruct (prefix_ebi_ok cs4 Hw4) as [Hw5 Hs5].
  assert (Hs : same_request cs (prefix_ebi cs4)) by by eapply same_request_trans. clear Hs5. set (cs5 := prefix_ebi cs4) in *.
  match goal with |- context [query ?q ?x] => destruct (query_run q x) as (rc5 & db5 & -> & E5) end.
  cbn [c_db set_db] in E5. rewrite E5. destruct (rc5 =? 0); cbn [andb]; [|by apply Hden].
  unfold CreateSession.accept_. rewrite (teid_of_request _ _ _ Hs).
  match goal with |- context [respond _ _ _ _ _ _ ?x] => set (c5 := x) end.
  destruct (answerable cs5) eqn:Ean; cbn [negb].
  - destruct (message_sent _ _ _ _ _ _ c5 cs5 _ _ _ (teid_grekey c_teid cs) Hr eq_refl eq_refl
      (proj1 Hs) (create_accept_message pinst cs5 Hw5 Ean)) as (c' & -> & Ha & Hd). by eexists _, _.
  - pose proof (accept_build pinst cs5 Hw5) as Hb. rewrite Ean in Hb.
    destruct (respond_broken _ _ _ _ _ _ c5 cs5 GTPC_CREATE_SESSION_RES _ (teid_grekey c_teid cs) Hr eq_refl eq_refl Hb)
      as (c' & -> & Hu & Hd). by eexists _, _.
Qed.

(** An accepted session is well formed when the request was. *)
Lemma create_verdict_wf erange erange' pinst cs db cs' db' :
  session_wf cs -> create_verdict erange erange' pinst cs db = (true, cs', db') -> session_wf cs'.
Proof.
  intros Hw. unfold create_verdict. destruct (have INCLUDED_ALL cs); cbn [negb]; [|done].
  set (im := number erange' imsi _ cs). set (ms := number erange msisdn _ cs).
  destruct (run _ db) as [[] db1]; cbn [negb]; [|done].
  destruct (if negb (im =? 0) && negb (ms =? 0) then _ else _) as [[] db2]; cbn [negb]; [|done].
  assert (Hsel : forall st k (c : session) d (c' : session) d', session_wf c -> select st k c d = (c', d') -> session_wf c').
  { intros st k c d c' d' Hc. destruct (lookup_select st k c (mk_ctx D memory0 node0 d) Hc) as (c2 & d2 & E & _ & Hc2 & _).
    cbn [c_db] in E. rewrite E. by intros [= <- <-]. }
  destruct (select _ im cs db2) as [cs3 db3] eqn:E3. apply Hsel in E3 as Hw3; [|done].
  assert (H4 : exists cs4 im4 db4, (if any_of HAVE_RECORD cs3 then (cs3, im, db3)
      else let '(s, d) := select CREATE_SESSION_MSISDN_LOOKUP ms cs3 db3 in (s, imsi_num s, d)) = (cs4, im4, db4) /\ session_wf cs4).
  { destruct (any_of HAVE_RECORD cs3); [by exists cs3, im, db3|].
    destruct (select _ ms cs3 db3) as [cs4 db4] eqn:E4. exists cs4, (imsi_num cs4), db4. split; [done|]. by eapply Hsel. }
  destruct H4 as (cs4 & im4 & db4 & -> & Hw4). destruct (any_of HAVE_RECORD cs4); cbn [negb]; [|done].
  destruct (run _ db4) as [ok db5]. intros [= _ <- _]. by apply prefix_ebi_ok.
Qed.

(** *** Modify bearer *)
Definition modify_verdict cs (db : D) : bool * session * D :=
  let '(cs, db) := select MODIFY_BEARER_LOOKUP (gtph_teid cs) cs db in
  if negb (any_of HAVE_RECORD cs) then (false, cs, db) else
  let cs := prefix_ebi cs in
  let '(ok, cs, db) :=
    if ModifyBearer.both_teids cs then
      let '(ok, db) := run (MODIFY_BEARER_UPD_SQL (teid_grekey c_teid cs) (sgw_ip c_teid cs) (teid_grekey u_teid cs)
                              (sgw_ip u_teid cs) (pgw_teid (ps cs)) (ModifyBearer.rat_of cs) (restart_of cs) (imsi_num cs)) db in
      (ok, if ok then set_sgw_c_teid (teid_grekey c_teid cs) cs else cs, db)
    else match ModifyBearer.rat_of cs with
         | Some r => let '(ok, db) := run (MODIFY_BEARER_RATONLY_UPD_SQL r (restart_of cs) (imsi_num cs)) db in (ok, cs, db)
         | None => (true, cs, db)
         end in
  if negb ok then (false, cs, db) else
  let '(ok, db) := if any_of HAVE_EBI_B cs then run (MODIFY_BEARER_EBI_UPD_SQL (ebi_low ebi_b cs) (imsi_num cs)) db else (true, db) in
  (ok, cs, db).

Lemma update_tunnel_run cs c : session_wf cs -> exists ok cs' db, ModifyBearer.update_tunnel cs c = (ok, cs', set_db db c) /\
  (if ModifyBearer.both_teids cs then
     let '(ok, db) := run (MODIFY_BEARER_UPD_SQL (teid_grekey c_teid cs) (sgw_ip c_teid cs) (teid_grekey u_teid cs)
                             (sgw_ip u_teid cs) (pgw_teid (ps cs)) (ModifyBearer.rat_of cs) (restart_of cs) (imsi_num cs)) (c_db c) in
     (ok, if ok then set_sgw_c_teid (teid_grekey c_teid cs) cs else cs, db)
   else match ModifyBearer.rat_of cs with
        | Some r => let '(ok, db) := run (MODIFY_BEARER_RATONLY_UPD_SQL r (restart_of cs) (imsi_num cs)) (c_db c) in (ok, cs, db)
        | None => (true, cs, c_db c)
        end) = (ok, cs', db) /\ session_wf cs' /\ same_request cs cs'.
Proof.
  intros Hw. unfold ModifyBearer.update_tunnel. case_if.
  - match goal with |- context [query ?q ?x] => destruct (query_run q x) as (rc & db & -> & ->) end.
    destruct (rc =? 0); eexists _, _, _; (split; [done|]); (split; [done|]); [|done]. split; [|done]. destruct Hw. by split.
  - destruct (ModifyBearer.rat_of cs) as [r|]; [|exists true, cs, (c_db c); by destruct c].
    match goal with |- context [query ?q ?x] => destruct (query_run q x) as (rc & db & -> & ->) end. by eexists _, _, _.
Qed.

Lemma update_ebi_run cs c : exists ok db, ModifyBearer.update_ebi cs c = (ok, set_db db c) /\
  (if any_of HAVE_EBI_B cs then run (MODIFY_BEARER_EBI_UPD_SQL (ebi_low ebi_b cs) (imsi_num cs)) (c_db c) else (true, c_db c)) = (ok, db).
Proof.
  unfold ModifyBearer.update_ebi. case_if; [|exists true, (c_db c); by destruct c].
  match goal with |- context [query ?q ?x] => destruct (query_run q x) as (rc & db & -> & ->) end. by eexists _, _.
Qed.

(** A number of more than twelve digits does not fit an MSISDN. *)
Lemma long_msisdn cs : 10 ^ 12 <= msisdn_num_ cs < 2 ^ 64 -> ModifyBearer.accept_items cs = Ok None.
Proof.
  intros Hn. unfold ModifyBearer.accept_items. destruct (cause_makes GTPC_CAUSE_REQUEST_ACCEPTED) as (b & -> & _).
  rewrite or_break_ok. unfold gtpc_msisdn_set, digits_item.
  rewrite gtpc_digits_set_err by (done || (unfold GTPC_MSISDN_LEN; change (10 ^ (2 * 6)) with (10 ^ 12); lia)). done.
Qed.

Lemma modify_denies pckt c p cs c1 : read_ok true pckt c p cs c1 ->
  forall c2 cs', c_node c2 = c_node c1 -> c_mem c2 = c_mem c1 -> same_request cs cs' ->
  exists rc c', ModifyBearer.denied_ malloc p cs' c2 = Ok (rc, c') /\ c_db c' = c_db c2 /\ rc = OK /\
    answered c c' pckt GTPC_MODIFY_BEARER_RES (sgw_c_teid cs') [refused].
Proof.
  intros Hr c2 cs' Hc Hme (Hs & _). unfold ModifyBearer.denied_.
  destruct (message_sent _ _ _ _ _ _ c2 cs' _ _ _ (sgw_c_teid cs') Hr Hc Hme Hs modify_bearer_denied_message) as (c' & -> & Ha & Hd).
  by eexists _, _.
Qed.

Lemma modify_bearer_ok pckt c p cs c1 :
  from_network pckt -> read_request malloc true pckt c = Ok (Some (p, cs), c1) ->
  let '(ok, cs', db) := modify_verdict cs (c_db c) in 0 <= msisdn_num_ cs' < 2 ^ 64 ->
  exists rc c', ModifyBearer._on_modify_bearer malloc pckt c = Ok (rc, c') /\ c_db c' = db /\
    if negb ok then rc = OK /\ answered c c' pckt GTPC_MODIFY_BEARER_RES (sgw_c_teid cs') [refused]
    else if msisdn_num_ cs' <? 10 ^ 12 then rc = OK /\
      exists d, zlen d = GTPC_MSISDN_LEN /\ gtpc_digits_get false d GTPC_MSISDN_LEN = Ok (msisdn_num_ cs') /\
        answered c c' pckt GTPC_MODIFY_BEARER_RES (sgw_c_teid cs') (modify_reply d cs')
    else rc = ERR /\ unanswered c c'.
Proof.
  intros Hn Er. pose proof (read_request_inv _ _ _ _ _ _ Hn Er) as Hr. unfold ModifyBearer._on_modify_bearer, modify_verdict.
  rewrite Er. res_simpl. pose proof (ro_wf _ _ _ _ _ _ Hr) as Hw. rewrite <-(ro_db _ _ _ _ _ _ Hr).
  pose proof (modify_denies pckt c p cs c1 Hr) as Hden.
  destruct (lookup_select MODIFY_BEARER_LOOKUP (gtph_teid cs) cs c1 Hw) as (cs2 & db2 & -> & -> & Hw2 & Hs2). res_simpl.
  destruct (any_of HAVE_RECORD cs2); cbn [negb]; [|intros _; by apply Hden].
  destruct (prefix_ebi_ok cs2 Hw2) as [Hw3 Hs3]. pose proof (same_request_trans _ _ _ Hs2 Hs3) as Hs. clear Hs2 Hs3.
  destruct (update_tunnel_run (prefix_ebi cs2) (set_db db2 c1) Hw3) as (ok & cs4 & db4 & E4 & E4' & Hw4 & Hs4).
  pose proof (same_request_trans _ _ _ Hs Hs4) as Hs5. cbn [c_db set_db] in E4'. rewrite E4, E4'.
  destruct ok; cbn [negb]; [|intros _; by apply Hden].
  destruct (update_ebi_run cs4 (set_db db4 (set_db db2 c1))) as (ok & db5 & -> & E5). cbn [c_db set_db] in E5. rewrite E5.
  destruct ok; cbn [negb]; [|intros _; by apply Hden]. intros Hms. unfold ModifyBearer.accept_.
  match goal with |- context [respond _ _ _ _ _ _ ?x] => set (c5 := x) end. case_if; to_prop.
  - destruct (modify_bearer_accept_message cs4 Hw4 ltac:(lia)) as (d & Ld & Gd & Hmsg).
    destruct (message_sent _ _ _ _ _ _ c5 cs4 _ _ _ (sgw_c_teid cs4) Hr eq_refl eq_refl (proj1 Hs5) Hmsg) as (c' & -> & Ha & Hd).
    eexists _, _. split; [done|]. split; [done|]. split; [done|]. by exists d.
  - destruct (respond_broken _ _ _ _ _ _ c5 cs4 GTPC_MODIFY_BEARER_RES _ (sgw_c_teid cs4) Hr eq_refl eq_refl
      (long_msisdn cs4 ltac:(lia))) as (c' & -> & Hu & Hd). by eexists _, _.
Qed.

(** *** The requests of the other node *)
Inductive other_request := DeleteSessionReq | DeleteBearerReq | SuspendReq | ResumeReq.
Definition request_type (r : other_request) : Z :=
  match r with
  | DeleteSessionReq => GTPC_DELETE_SESSION_REQ | DeleteBearerReq => GTPC_DELETE_BEARER_REQ
  | SuspendReq => GTPC_SUSPEND_NOTIFICATION | ResumeReq => GTPC_RESUME_NOTIFICATION
  end.
(** Only a resume notification needs the IMSI. *)
Definition request_guard (r : other_request) cs : bool := match r with ResumeReq => have HAVE_IMSI cs | _ => true end.
Definition request_sql (erange : bool) (r : other_request) cs : cstring :=
  match r with
  | DeleteSessionReq | DeleteBearerReq => DELETE_SESSION_UPD_SQL (gtph_teid cs) (ebi_low ebi_r cs)
  | SuspendReq => SUSPEND_NOTIFY_UPD_SQL (gtph_teid cs)
  | ResumeReq => RESUME_NOTIFY_UPD_SQL (number erange imsi GTPC_IMSI_LEN cs)
  end.
Definition response_type (r : other_request) (ok : bool) : Z :=
  match r with
  | DeleteSessionReq => GTPC_DELETE_SESSION_RES
  | DeleteBearerReq => if ok then GTPC_DELETE_BEARER_RES else GTPC_DELETE_SESSION_RES
  | SuspendReq => GTPC_SUSPEND_ACK
  | ResumeReq => GTPC_RESUME_ACK
  end.
Definition response_items (r : other_request) (ok : bool) cs : list (Z * list Z) :=
  match r, ok with
  | DeleteSessionReq, true => [accepted] ++ pco_reply cs ++ [recovery_reply]
  | DeleteSessionReq, false => [refused; recovery_reply]
  | DeleteBearerReq, true => [accepted; ebi_reply (ebi cs mod 16)] ++ pco_reply cs
  | DeleteBearerReq, false => [refused; ebi_reply (ebi cs mod 16); recovery_reply] ++ pco_echo cs
  | _, true => [accepted]
  | _, false => [refused]
  end.

Lemma other_request_ok erange v1 r pckt c p cs c1 f :
  from_network pckt -> read_request malloc true pckt c = Ok (Some (p, cs), c1) -> pco_fits cs ->
  rd 1 (data pckt) o_flags = Ok f -> v2_version f = GTPC_VERSION_2 -> rd 1 (data pckt) o_type = Ok (request_type r) ->
  let '(ok, cs', db) := simple_verdict (request_guard r) (request_sql erange r) cs (c_db c) in
  exists c', on_other malloc erange v1 pckt c = Ok (OK, c') /\
    answered c c' pckt (response_type r ok) (sgw_c_teid cs') (response_items r ok cs') /\ c_db c' = db.
Proof.
  intros Hn Er Hf Ef Ev Et. unfold on_other. rewrite Ef, Et. res_simpl. rewrite Ev, Z.eqb_refl.
  assert (Hp : forall cs', same_request cs cs' -> pco_fits cs').
  { intros cs' (_ & _ & E). unfold pco_fits. by rewrite E. }
  assert (Hi : forall cs', session_wf cs' -> gtpc_digits_get erange (drop 4 (ies (ps cs') imsi)) GTPC_IMSI_LEN =
    Ok (number erange imsi GTPC_IMSI_LEN cs')) by (intros; apply number_ok; [done|done|by vm_compute]).
  assert (HL : forall r' guard sql mA mD, guard = request_guard r' ->
    (forall cs', session_wf cs' -> same_request cs cs' -> sql cs' = Ok (request_sql erange r' cs') /\
       message (response_type r' true) (mA cs') (response_items r' true cs') /\
       message (response_type r' false) (mD cs') (response_items r' false cs')) ->
    let '(ok, cs', db) := simple_verdict (request_guard r') (request_sql erange r') cs (c_db c) in
    exists c', by_teid malloc guard sql (fun rp s x => respond malloc (response_type r' true) (mA s) (sgw_c_teid s) rp s x)
        (fun rp s x => respond malloc (response_type r' false) (mD s) (sgw_c_teid s) rp s x) pckt c = Ok (OK, c') /\
      answered c c' pckt (response_type r' ok) (sgw_c_teid cs') (response_items r' ok cs') /\ c_db c' = db).
  { intros r' guard sql mA mD -> Hall. pose proof (by_teid_verdict (request_guard r') sql (request_sql erange r') (response_type r' true)
      (response_type r' false) mA mD (response_items r' true) (response_items r' false) pckt c p cs c1 Hall Hn Er) as H.
    by destruct (simple_verdict _ _ _ _) as [[[] cs'] db]. }
  destruct r.
  - apply (HL DeleteSessionReq (fun _ => true) _ DeleteSession.accept_items (fun _ => DeleteSession.denied_items)); [done|].
    intros cs' Hw Hs. split; [done|]. split; [apply delete_session_accept_message|apply delete_session_denied_message].
  - apply (HL DeleteBearerReq (fun _ => true) _ DeleteBearer.accept_items DeleteBearer.denied_items); [done|].
    intros cs' Hw Hs. split; [done|]. split; [apply delete_bearer_accept_message|apply delete_bearer_denied_message; [done|by apply Hp]].
  - apply (HL SuspendReq (fun _ => true) _ (fun _ => Notification.cause_items GTPC_CAUSE_REQUEST_ACCEPTED)
      (fun _ => Notification.cause_items GTPC_CAUSE_REQUEST_DENIED_APN_ACCESS)); [done|].
    intros cs' Hw Hs. split; [done|]. split; apply cause_message; done || by apply byte_const.
  - apply (HL ResumeReq (have HAVE_IMSI) _ (fun _ => Notification.cause_items GTPC_CAUSE_REQUEST_ACCEPTED)
      (fun _ => Notification.cause_items GTPC_CAUSE_REQUEST_DENIED_APN_ACCESS)); [done|].
    intros cs' Hw Hs. rewrite Hi by done. split; [done|]. split; apply cause_message; done || by apply byte_const.
Qed.
End handling.

(** *** A burst *)
Section burst.
Context {D : Type}.
Implicit Types (c : ctx D).
(** One answer goes out and one packet more is allocated: the request is released by the loop. *)
Definition one_answer c c' (r : packet_t) : Prop :=
  c_node c' = (pgw_enq EGRESS r (c_node c)).2 /\
  outstanding (c_mem c') = ((outstanding (c_mem c)).1, u64 ((outstanding (c_mem c)).2 + 1)).

Lemma answered_one c c' pckt type teid its : answered c c' pckt type teid its -> one_answer c c' (response pckt type teid its).
Proof. by intros (? & ? & _). Qed.

Lemma enq_room p q : 0 <= q_count q < RING_SIZE_MAX ->
  q_packets (enq_queue p q) = q_packets q ++ [p] /\ q_count (enq_queue p q) = q_count q + 1.
Proof.
  intros Hq. unfold enq_queue. rewrite (proj2 (Z.leb_gt _ _)) by lia. split; [done|]. cbn [q_count].
  apply wrap_small. unfold RING_SIZE_MAX in Hq. lia.
Qed.

Lemma outstanding_release s s' : outstanding s' = ((outstanding s).1, u64 ((outstanding s).2 + 1)) ->
  outstanding (count_pgw 0 1 0 s') = outstanding s.
Proof.
  unfold outstanding, count_pgw. cbn. intros [= E1 E2]. rewrite E1. f_equal. revert E2. rewrite ?Z.add_0_r. unfold wrap.
  rewrite Zminus_mod_idemp_l, Zminus_mod_idemp_r, Zplus_mod_idemp_l. intros E2.
  replace (pgw_memory_alloc_count s' - (pgw_memory_free_count s' + 1)) with
    ((pgw_memory_alloc_count s' - pgw_memory_free_count s') - 1) by lia.
  rewrite <-Zminus_mod_idemp_l, E2, Zminus_mod_idemp_l. f_equal. lia.
Qed.

Lemma burst_fold (on : packet_t -> ctx D -> res (Z * ctx D)) (P : packet_t -> packet_t -> Prop) pkts c :
  (forall pkt c0, pkt ∈ pkts -> exists rc c' r, on pkt c0 = Ok (rc, c') /\ P pkt r /\ one_answer c0 c' r) ->
  0 <= q_count (egress (c_node c)) -> q_count (egress (c_node c)) + zlen pkts <= RING_SIZE_MAX ->
  exists c' rs, foldM (fun c pkt => '(_, c) ← on pkt c; Ok (set_mem (pgw_free_packet (Some pkt) (c_mem c)).2 c)) pkts c = Ok c' /\
    Forall2 P pkts rs /\ q_packets (egress (c_node c')) = q_packets (egress (c_node c)) ++ rs /\
    ingress (c_node c') = ingress (c_node c) /\ outstanding (c_mem c') = outstanding (c_mem c).
Proof.
  revert c. induction pkts as [|pkt pkts IH]; intros c Hon Hq Hr; cbn [foldM length] in *.
  { exists c, []. rewrite app_nil_r. by repeat split. }
  destruct (Hon pkt c) as (rc & c1 & r & -> & Hp & Hn & Ho); [by left|]. res_simpl. cbn [pgw_free_packet snd].
  destruct (enq_room r (egress (c_node c))) as [Q1 Q2]; [lia|].
  destruct (IH (set_mem (count_pgw 0 1 0 (c_mem c1)) c1)) as (c' & rs & E & HP & He & Hi & Ho').
  { intros pkt' c0 Hin. apply Hon. by right. }
  1,2: cbn [set_mem c_node]; rewrite Hn; cbn [pgw_enq snd set_queue queue_of egress]; lia.
  cbn [set_mem c_node c_mem] in He, Hi, Ho'. rewrite Hn in He, Hi. cbn [pgw_enq snd set_queue queue_of egress ingress] in He, Hi.
  rewrite Q1, <-app_assoc in He. rewrite (outstanding_release _ _ Ho) in Ho'.
  exists c', (r :: rs). split; [done|]. split; [by constructor|]. by split.
Qed.

Lemma burst_answered (on : packet_t -> ctx D -> res (Z * ctx D)) (P : packet_t -> packet_t -> Prop) c :
  let pkts := take 32 (q_packets (ingress (c_node c))) in
  (forall pkt c0, pkt ∈ pkts -> exists rc c' r, on pkt c0 = Ok (rc, c') /\ P pkt r /\ one_answer c0 c' r) ->
  pkts <> [] -> 0 <= q_count (egress (c_node c)) -> q_count (egress (c_node c)) + 32 <= RING_SIZE_MAX ->
  exists c' rs, request_burst on c = Ok (OK, c') /\ Forall2 P pkts rs /\
    q_packets (egress (c_node c')) = q_packets (egress (c_node c)) ++ rs /\
    q_packets (ingress (c_node c')) = drop 32 (q_packets (ingress (c_node c))) /\ outstanding (c_mem c') = outstanding (c_mem c).
Proof.
  intros pkts Hon Hne Hq Hr. unfold request_burst, pgw_deq_burst, deq_queue. cbn [queue_of]. rewrite deq_loop_eq by lia.
  change (Z.to_nat (32 - 0)) with 32%nat. fold pkts.
  assert (Hp : 0 < zlen pkts) by (destruct pkts; [done|cbn [length]; lia]). rewrite (proj2 (Z.ltb_lt _ _)) by done.
  assert (Hle : zlen pkts <= 32) by (unfold pkts; rewrite length_take; lia).
  match goal with |- context [set_node ?n c] => set (c0 := set_node n c) end.
  destruct (burst_fold on P pkts c0) as (c' & rs & -> & HP & He & Hi & Ho); [done|cbn; lia|cbn; lia|]. res_simpl.
  exists c', rs. split; [done|]. split; [done|]. split; [done|]. rewrite Hi. done.
Qed.
End burst.

(** *** The tunnel identifier and the session found *)
Lemma prefixed_teid cs : 0 <= ebi_low ebi_b cs < 16 ->
  pgw_teid (ps (prefix_ebi cs)) = ebi_low ebi_b cs * 2 ^ 28 + pgw_teid (ps cs) mod 2 ^ 28.
Proof.
  intros He. cbn [prefix_ebi ps set_ps set_tunnel_fields pgw_teid]. change 0x0fffffff with (Z.ones 28). rewrite Z.land_ones by lia.
  assert (E : forallb (fun e => Z.land 0xf0000000 (Z.shiftl (Z.land e 0xf) 28) =? Z.shiftl e 28) (seqZ 0 16) = true) by reflexivity.
  rewrite forallb_forall in E. specialize (E (ebi_low ebi_b cs)). rewrite (proj1 (Z.eqb_eq _ _) (E ltac:(apply list_elem_of_In, elem_of_seqZ; lia))).
  rewrite Z.lor_comm, lor_high_low by (try apply Z.mod_pos_bound; lia). done.
Qed.

Lemma record_found row cs : length row = 11%nat -> any_of HAVE_RECORD (on_tunnel_record row cs) = true.
Proof.
  intros Hl. do 12 (destruct row as [|? row]; try discriminate Hl). unfold any_of. cbn [on_tunnel_record ps or_flag flag].
  rewrite Z.land_lor_distr_l, Z.land_diag. apply negb_true_iff, Z.eqb_neq. rewrite Z.lor_eq_0_iff. intros [_ H]. done.
Qed.

Module Properties.
Section claims.
Variable malloc : nat -> bool.
Context {D : Type} `{DB : Database D} `{B : PgwBuild}.

(** C23: every create session request that parses is answered exactly once, or the
    handler says it failed: a request the decision accepts (all mandatory items, all
    statements succeed, a session found by IMSI or MSISDN) gets one accepting
    response with the addresses and tunnel identifiers of the session, any other one
    the refusal; responses go back to the sender with the sequence number of the
    request and the tunnel identifier it announced, and the allocations balance.
    The one exception is an accepted session whose address does not fit 10.0.0.0/8. *)
Theorem create_session_answered (erange erange' : bool) (pinst : handle) (pckt : packet_t) (c c1 : ctx D) (p : gtp_packet) (cs : session) :
  (forall n, malloc n = true) -> (forall st k db, db_bind st k db = true) -> from_network pckt ->
  read_request malloc false pckt c = Ok (Some (p, cs), c1) ->
  let '(ok, cs', db) := create_verdict erange erange' pinst cs (c_db c) in
  exists rc c', CreateSession._on_create_session malloc erange erange' pinst pckt c = Ok (rc, c') /\ c_db c' = db /\
    (if ok && negb (answerable cs') then rc = ERR /\ unanswered c c'
     else rc = OK /\ answered c c' pckt GTPC_CREATE_SESSION_RES (teid_grekey c_teid cs)
                      (if ok then accept_reply pinst cs' else [refused; context_reply [refused; ebi_reply 0]])).
Proof. intros Hm Hb. by apply create_session_ok. Qed.

(** C24: an accepted create session request: with all mandatory items, statements
    that succeed and one session under the IMSI, the handler runs the statements in
    order (gateway addresses, subscriber number, lookup, tunnels), the tunnel
    identifier it hands out is the stored one with the bearer id in its top four
    bits, and the response is the accepting one for that session. *)
Theorem create_session_accepts (erange erange' : bool) (pinst : handle) (pckt : packet_t) (c c1 : ctx D) (p : gtp_packet) (cs : session)
    (row : list record) :
  let im := number erange' imsi GTPC_IMSI_LEN cs in
  let ms := number erange msisdn GTPC_MSISDN_LEN cs in
  let gw := srv_ip (server_gtpc pinst) in
  let cs' := prefix_ebi (on_tunnel_record row cs) in
  let exec q db := (db_query (snprintf 511 q) db).2 in
  let db1 := exec (CREATE_SESSION_PGWIP_UPD_SQL gw gw im) (c_db c) in
  let db2 := if negb (im =? 0) && negb (ms =? 0) then exec (CREATE_SESSION_IMSI_MSISDN_UPD_SQL ms im) db1 else db1 in
  let db3 := (db_select CREATE_SESSION_IMSI_LOOKUP im db2).2 in
  (forall n, malloc n = true) -> (forall st k db, db_bind st k db = true) -> (forall q db, (db_query q db).1 = 0) ->
  from_network pckt -> read_request malloc false pckt c = Ok (Some (p, cs), c1) -> have INCLUDED_ALL cs = true ->
  (db_select CREATE_SESSION_IMSI_LOOKUP im db2).1 = Some [row] -> length row = 11%nat -> answerable cs' = true ->
  pgw_teid (ps cs') = ebi_low ebi_b cs * 2 ^ 28 + pgw_teid (ps (on_tunnel_record row cs)) mod 2 ^ 28 /\
  exists c', CreateSession._on_create_session malloc erange erange' pinst pckt c = Ok (OK, c') /\
    answered c c' pckt GTPC_CREATE_SESSION_RES (teid_grekey c_teid cs) (accept_reply pinst cs') /\
    c_db c' = exec (CREATE_SESSION_UPD_SQL (teid_grekey c_teid cs) (sgw_ip c_teid cs) (teid_grekey u_teid cs) (sgw_ip u_teid cs)
                      (field 1 bqos o_qos_qci cs) (ebi_low ebi_b cs) (pgw_teid (ps cs')) (restart_of cs') im) db3.
Proof.
  intros im ms gw cs' exec db1 db2 db3 Hm Hb Hq Hn Er Hinc Hsel Hl Ha. pose proof (read_request_inv _ _ _ _ _ _ _ Hn Er) as Hr.
  pose proof (ro_wf _ _ _ _ _ _ Hr) as Hw. destruct (on_tunnel_record_ok row cs Hw) as [_ Hs].
  assert (Eb : ebi_low ebi_b (on_tunnel_record row cs) = ebi_low ebi_b cs) by (unfold ebi_low, field; by rewrite (proj2 (proj2 Hs))).
  split; [unfold cs'; by rewrite prefixed_teid, Eb by apply ebi_low_range|].
  pose proof (create_session_ok malloc Hm Hb erange erange' pinst pckt c p cs c1 Hn Er) as H.
  assert (Hrun : forall q db, run q db = (true, exec q db)).
  { intros q db. unfold run, exec. specialize (Hq (snprintf 511 q) db). destruct (db_query _ _) as [rc db']. cbn in Hq. by rewrite Hq. }
  revert H. unfold create_verdict. rewrite Hinc. cbn [negb]. rewrite Hrun. cbn [negb].
  assert (E2 : (if negb (im =? 0) && negb (ms =? 0) then run (CREATE_SESSION_IMSI_MSISDN_UPD_SQL ms im) db1 else (true, db1)) = (true, db2)).
  { unfold db2. rewrite Hrun. by destruct (_ && _). }
  fold im ms gw db1. rewrite E2. cbn [negb]. unfold select, db3. destruct (db_select CREATE_SESSION_IMSI_LOOKUP im db2) as [rows db].
  cbn [fst snd] in Hsel |- *. rewrite Hsel. cbn [default from_option Datatypes.id foldl]. rewrite record_found by done. cbv beta iota zeta. rewrite record_found by done. cbn [negb]. fold cs'.
  rewrite Hrun. cbv beta iota zeta. cbn [andb]. rewrite Ha. cbn [negb]. intros (rc & c' & E & Hd & -> & Hans). exists c'. split; [done|]. split; [done|].
  assert (Ei : ies (ps cs') = ies (ps cs)) by apply Hs.
  rewrite Hd. unfold teid_grekey, sgw_ip, teid_blk, ebi_low, field. by rewrite Ei.
Qed.

(** modify bearer: a request that parses is refused or accepted as the decision
    on the session says, with one response to the tunnel of the serving gateway; the
    accepting response carries the subscriber number of the session as digits that
    read back as that number; a number of more than twelve digits leaves the request
    without a response and one packet allocated. *)
Theorem modify_bearer_answered (pckt : packet_t) (c c1 : ctx D) (p : gtp_packet) (cs : session) :
  (forall n, malloc n = true) -> (forall st k db, db_bind st k db = true) -> from_network pckt ->
  read_request malloc true pckt c = Ok (Some (p, cs), c1) ->
  let '(ok, cs', db) := modify_verdict cs (c_db c) in 0 <= msisdn_num_ cs' < 2 ^ 64 ->
  exists rc c', ModifyBearer._on_modify_bearer malloc pckt c = Ok (rc, c') /\ c_db c' = db /\
    if negb ok then rc = OK /\ answered c c' pckt GTPC_MODIFY_BEARER_RES (sgw_c_teid cs') [refused]
    else if msisdn_num_ cs' <? 10 ^ 12 then rc = OK /\
      exists d, zlen d = GTPC_MSISDN_LEN /\ gtpc_digits_get false d GTPC_MSISDN_LEN = Ok (msisdn_num_ cs') /\
        answered c c' pckt GTPC_MODIFY_BEARER_RES (sgw_c_teid cs') (modify_reply d cs')
    else rc = ERR /\ unanswered c c'.
Proof. intros Hm Hb. by apply modify_bearer_ok. Qed.

(** The requests the other node answers: they parse, and ask for one of the four. *)
Definition other_ready (pkt : packet_t) : Prop :=
  from_network pkt /\
  (exists r f, rd 1 (data pkt) o_flags = Ok f /\ v2_version f = GTPC_VERSION_2 /\ rd 1 (data pkt) o_type = Ok (request_type r)) /\
  exists (c0 : ctx D) p cs c1, read_request malloc true pkt c0 = Ok (Some (p, cs), c1) /\ pco_fits cs.
Definition other_answer (pkt r : packet_t) : Prop :=
  exists rq ok teid its, rd 1 (data pkt) o_type = Ok (request_type rq) /\ r = response pkt (response_type rq ok) teid its.

(** a burst of the other node (delete session, delete bearer, suspend, resume):
    the first 32 requests of the queue are taken and each gets exactly one response,
    in the order of the requests, to the sender, with the sequence number of the
    request and the type the protocol pairs with it (apart from a refused delete
    bearer); nothing stays allocated but the responses, whatever the database says. *)
Theorem other_burst_answered (erange : bool) (v1 : packet_t -> ctx D -> res (Z * ctx D)) (c : ctx D) :
  let pkts := take 32 (q_packets (ingress (c_node c))) in
  (forall n, malloc n = true) -> (forall st k db, db_bind st k db = true) ->
  Forall other_ready pkts -> pkts <> [] -> 0 <= q_count (egress (c_node c)) -> q_count (egress (c_node c)) + 32 <= RING_SIZE_MAX ->
  exists c' rs, event_gtpc_other_req malloc erange v1 c = Ok (OK, c') /\ Forall2 other_answer pkts rs /\
    q_packets (egress (c_node c')) = q_packets (egress (c_node c)) ++ rs /\
    q_packets (ingress (c_node c')) = drop 32 (q_packets (ingress (c_node c))) /\ outstanding (c_mem c') = outstanding (c_mem c).
Proof.
  intros pkts Hm Hb Hall Hne H0 Hr. apply burst_answered; [|done..]. fold pkts. intros pkt c0 Hin.
  rewrite Forall_forall in Hall. destruct (Hall pkt Hin) as (Hn & (r & f & Ef & Ev & Et) & c' & p & cs & c2 & Er' & Hf).
  destruct (read_anywhere malloc Hm true pkt c' c0 p cs c2 Er') as (c1 & Er). clear c' c2 Er'.
  pose proof (other_request_ok malloc Hm Hb erange v1 r pkt c0 p cs c1 f Hn Er Hf Ef Ev Et) as H.
  destruct (simple_verdict _ _ _ _) as [[ok cs'] db]. destruct H as (c' & -> & Ha & _).
  exists OK, c'. eexists. split; [done|]. split; [|by apply answered_one]. by exists r, ok, (sgw_c_teid cs'), (response_items r ok cs').
Qed.

(** each request of the other node runs exactly the statement of its kind on the
    session found under the tunnel identifier of the request, and is accepted when
    the session exists and the statement succeeds, refused otherwise (a resume
    notification without IMSI is refused before the database is asked). *)
Theorem other_request_decided (erange : bool) (v1 : packet_t -> ctx D -> res (Z * ctx D)) (r : other_request) (f : Z)
    (pckt : packet_t) (c c1 : ctx D) (p : gtp_packet) (cs : session) :
  (forall n, malloc n = true) -> (forall st k db, db_bind st k db = true) -> from_network pckt ->
  read_request malloc true pckt c = Ok (Some (p, cs), c1) -> pco_fits cs ->
  rd 1 (data pckt) o_flags = Ok f -> v2_version f = GTPC_VERSION_2 -> rd 1 (data pckt) o_type = Ok (request_type r) ->
  let '(ok, cs', db) := simple_verdict (request_guard r) (request_sql erange r) cs (c_db c) in
  exists c', on_other malloc erange v1 pckt c = Ok (OK, c') /\
    answered c c' pckt (response_type r ok) (sgw_c_teid cs') (response_items r ok cs') /\ c_db c' = db.
Proof. intros Hm Hb Hn Er Hp Ef Ev Et. by eapply other_request_ok. Qed.
End claims.

(** *** Examples *)
#[local] Instance build0 : PgwBuild := { PGW_RECOVERY_COUNT := 7; IPV64 := true }.
Definition tunnel_row : list record :=
  [NVal 77; SVal (lit "0.1.2.3"); NVal 0; NVal 0; SVal (lit "10.9.9.1"); SVal (lit "10.9.9.2"); SVal (lit ""); NVal 5;
   NVal 440101234567890; NVal 819012345678; NVal 99].
#[local] Instance session_db : Database (list cstring) := {
  db_query q db := (0, db ++ [q]);
  db_bind _ _ _ := true;
  db_select _ _ db := (Some [tunnel_row], db);
}.
Definition all_true (_ : nat) : bool := true.
Definition create_bytes : list Z := Eval vm_compute in
  match create_session_request 440101234567890 819012345678 17 100 200 5 18 0 9 0 0 0 0 [10; 0; 0; 1] [10; 0; 0; 2] with
  | Ok its => let body := concat its.*2 in [0x48; 32] ++ be_store 2 (8 + zlen body) ++ [0; 0; 0; 0; 0; 1; 2; 0] ++ body
  | Fault _ => []
  end.
Definition packet_of (bs : list Z) : packet_t := mk_packet_t (zlen bs) bs (bzero 16) 16 (replicate 16 1) 16.
Definition server0 : server := mk_server ([2; 0; 8; 75; 10; 0; 0; 9] ++ bzero 8) 5 GTPC_PORT (lit "10.0.0.9") (lit "a00000").
Definition gateway : handle := mk_handle ON [] server0 server0 1 1.
Definition ctx0 : ctx (list cstring) := mk_ctx _ memory0 node0 [].
Lemma packet_of_network bs : bytes_okb bs = true -> from_network (packet_of bs).
Proof. intros Hb. split; [done|done|by apply bytes_okb_ok]. Qed.

Definition read_to (t : bool) (bs : list Z) (P : session -> bool) : bool :=
  match read_request all_true t (packet_of bs) ctx0 with Ok (Some (_, cs), _) => P cs | _ => false end.

Lemma create_session_answered_witness : exists p cs c1, read_request all_true false (packet_of create_bytes) ctx0 = Ok (Some (p, cs), c1) /\
  let '(ok, cs', db) := create_verdict false false gateway cs (c_db ctx0) in
  exists rc c', CreateSession._on_create_session all_true false false gateway (packet_of create_bytes) ctx0 = Ok (rc, c') /\ c_db c' = db /\
    (if ok && negb (answerable cs') then rc = ERR /\ unanswered ctx0 c'
     else rc = OK /\ answered ctx0 c' (packet_of create_bytes) GTPC_CREATE_SESSION_RES (teid_grekey c_teid cs)
                      (if ok then accept_reply gateway cs' else [refused; context_reply [refused; ebi_reply 0]])).
Proof.
  assert (H : read_to false create_bytes (fun _ => true) = true) by (vm_compute; reflexivity). unfold read_to in H.
  destruct (read_request all_true false (packet_of create_bytes) ctx0) as [[[[p cs]|] c1]|] eqn:E; try discriminate H.
  exists p, cs, c1. split; [reflexivity|].
  apply (create_session_answered all_true false false gateway (packet_of create_bytes) ctx0 c1 p cs);
    [reflexivity|reflexivity|apply packet_of_network; reflexivity|exact E].
Defined.

Lemma create_session_accepts_witness : exists p cs c1 c',
  read_request all_true false (packet_of create_bytes) ctx0 = Ok (Some (p, cs), c1) /\
  CreateSession._on_create_session all_true false false gateway (packet_of create_bytes) ctx0 = Ok (OK, c') /\
  answered ctx0 c' (packet_of create_bytes) GTPC_CREATE_SESSION_RES (teid_grekey c_teid cs)
    (accept_reply gateway (prefix_ebi (on_tunnel_record tunnel_row cs))).
Proof.
  assert (H : read_to false create_bytes (fun cs => have INCLUDED_ALL cs && answerable (prefix_ebi (on_tunnel_record tunnel_row cs))) = true)
    by (vm_compute; reflexivity). unfold read_to in H.
  destruct (read_request all_true false (packet_of create_bytes) ctx0) as [[[[p cs]|] c1]|] eqn:E; try discriminate H.
  apply andb_prop in H as [H1 H2].
  destruct (create_session_accepts all_true false false gateway (packet_of create_bytes) ctx0 c1 p cs tunnel_row) as (_ & c' & E' & Ha & _);
    [reflexivity|reflexivity|reflexivity|apply packet_of_network; reflexivity|exact E|exact H1|reflexivity|reflexivity|exact H2|].
  exists p, cs, c1, c'. split; [reflexivity|]. split; assumption.
Defined.

Definition delete_bytes (seqno : Z) : list Z := [0x48; 36; 0; 13; 0; 0; 0; 77; 0; 0; seqno; 0; 73; 0; 1; 0; 5].
Definition modify_bytes : list Z := [0x48; 34; 0; 13; 0; 0; 0; 77; 0; 0; 9; 0; 73; 0; 1; 0; 5].

Lemma modify_bearer_answered_witness : exists p cs c1, read_request all_true true (packet_of modify_bytes) ctx0 = Ok (Some (p, cs), c1) /\
  let '(ok, cs', db) := modify_verdict cs (c_db ctx0) in
  exists rc c', ModifyBearer._on_modify_bearer all_true (packet_of modify_bytes) ctx0 = Ok (rc, c') /\ c_db c' = db /\
    if negb ok then rc = OK /\ answered ctx0 c' (packet_of modify_bytes) GTPC_MODIFY_BEARER_RES (sgw_c_teid cs') [refused]
    else if msisdn_num_ cs' <? 10 ^ 12 then rc = OK /\
      exists d, zlen d = GTPC_MSISDN_LEN /\ gtpc_digits_get false d GTPC_MSISDN_LEN = Ok (msisdn_num_ cs') /\
        answered ctx0 c' (packet_of modify_bytes) GTPC_MODIFY_BEARER_RES (sgw_c_teid cs') (modify_reply d cs')
    else rc = ERR /\ unanswered ctx0 c'.
Proof.
  assert (H : read_to true modify_bytes (fun cs => let '(_, cs', _) := modify_verdict cs (c_db ctx0) in
    (0 <=? msisdn_num_ cs') && (msisdn_num_ cs' <? 2 ^ 64)) = true) by (vm_compute; reflexivity). unfold read_to in H.
  destruct (read_request all_true true (packet_of modify_bytes) ctx0) as [[[[p cs]|] c1]|] eqn:E; try discriminate H.
  exists p, cs, c1. split; [reflexivity|].
  pose proof (modify_bearer_answered all_true (packet_of modify_bytes) ctx0 c1 p cs (fun _ => eq_refl) (fun _ _ _ => eq_refl)
    (packet_of_network modify_bytes eq_refl) E) as T.
  destruct (modify_verdict cs (c_db ctx0)) as [[ok cs'] db]. apply T. apply andb_prop in H as [H1 H2].
  split; [apply Z.leb_le, H1|apply Z.ltb_lt, H2].
Defined.

Definition burst_ctx : ctx (list cstring) :=
  mk_ctx _ memory0 (mk_node (mk_queue [packet_of (delete_bytes 1); packet_of (delete_bytes 2)] 0 2) queue0) [].
Definition pco_fitsb (cs : session) : bool :=
  match item_length (ies (ps cs) pco) with Ok l => (0 <? l) && (l <=? sizeof_gtpc_pco) | Fault _ => false end.
Lemma pco_fitsb_ok cs : pco_fitsb cs = true -> pco_fits cs.
Proof. unfold pco_fitsb, pco_fits. destruct (item_length _) as [l|]; [|done]. intros H. to_prop. exists l. by split. Qed.
Lemma delete_ready seqno : bytes_okb (delete_bytes seqno) && read_to true (delete_bytes seqno) pco_fitsb = true ->
  other_ready all_true (D := list cstring) (packet_of (delete_bytes seqno)).
Proof.
  intros [Hb H]%andb_prop. split; [by apply packet_of_network|]. split.
  - exists DeleteSessionReq, 0x48. split; [reflexivity|]. split; reflexivity.
  - unfold read_to in H. destruct (read_request all_true true _ ctx0) as [[[[p cs]|] c1]|] eqn:E; try done.
    exists ctx0, p, cs, c1. split; [done|by apply pco_fitsb_ok].
Qed.
Lemma other_burst_answered_witness :
  exists c' rs, event_gtpc_other_req all_true false (fun _ x => Ok (ERR, x)) burst_ctx = Ok (OK, c') /\
    Forall2 other_answer [packet_of (delete_bytes 1); packet_of (delete_bytes 2)] rs /\
    q_packets (egress (c_node c')) = rs /\ q_packets (ingress (c_node c')) = [] /\
    outstanding (c_mem c') = outstanding (c_mem burst_ctx).
Proof.
  apply (other_burst_answered all_true false (fun _ x => Ok (ERR, x)) burst_ctx); [reflexivity|reflexivity| |discriminate|vm_compute; congruence..].
  apply Forall_cons_2; [apply delete_ready; vm_compute; reflexivity|]. apply Forall_cons_2; [apply delete_ready; vm_compute; reflexivity|]. apply Forall_nil_2.
Defined.

Lemma other_request_decided_witness : exists p cs c1,
  read_request all_true true (packet_of (delete_bytes 3)) ctx0 = Ok (Some (p, cs), c1) /\
  let '(ok, cs', db) := simple_verdict (request_guard DeleteSessionReq) (request_sql false DeleteSessionReq) cs (c_db ctx0) in
  exists c', on_other all_true false (fun _ x => Ok (ERR, x)) (packet_of (delete_bytes 3)) ctx0 = Ok (OK, c') /\
    answered ctx0 c' (packet_of (delete_bytes 3)) (response_type DeleteSessionReq ok) (sgw_c_teid cs') (response_items DeleteSessionReq ok cs') /\
    c_db c' = db.
Proof.
  assert (H : read_to true (delete_bytes 3) pco_fitsb = true) by (vm_compute; reflexivity). unfold read_to in H.
  destruct (read_request all_true true (packet_of (delete_bytes 3)) ctx0) as [[[[p cs]|] c1]|] eqn:E; try discriminate H.
  exists p, cs, c1. split; [reflexivity|].
  apply (other_request_decided all_true (DB := session_db) false (fun _ x => Ok (ERR, x)) DeleteSessionReq 0x48 _ _ c1 p cs (fun _ => eq_refl) (fun _ _ _ => eq_refl)
    (packet_of_network (delete_bytes 3) eq_refl) E (pco_fitsb_ok cs H)); reflexivity.
Defined.
End Properties.
