(* ===== verification/CtrlKeepalive.v ===== *)
(** * Control plane: echo and keepalive

    event_gtpc_echo.c, event_gtpu_echo.c and event_timer.c of
    ctrlplane/src/pgw/event.  The timer node sends an echo request to every peer of
    the keepalive table and marks the peer as waited for; the echo nodes answer the
    requests of others, mark a peer as alive when its response arrives, and watch the
    restart counters of the serving gateways.

    [now] is what [time(NULL)] returns.  The loop-carried variables of the echo node
    (the restart counter) and the static sequence numbers of the timer are part of the
    state. *)

From S2P Require Import Prelude TextParse Gtpc GtpcItems GtpcParse CtrlNode CtrlSession CtrlAnswers.

(** ** Constants and statements *)
Definition GTPU_SEQ_1 := 1.
Definition GTPU_EXTEND_0 := 0.
Definition GTP_ECHO_SEQNUM_MIN := 0x0001.
Definition GTP_ECHO_SEQNUM_MAX := 0x7fff.
Definition KEEPALIVE_PROTO_GTPU := 0.
Definition KEEPALIVE_PROTO_GTPC := 1.
Definition KEEPALIVE_SERVER_TYPE_MASTER := 0.
Definition sizeof_gtpu_header := 8.
Definition AF_INET := 2.
(** The restart counter of a request that carries none, [(U32)-1]. *)
Definition NO_COUNTER := 2 ^ 32 - 1.
Definition ECHO_RESTART_UPD_SQL (ip_ : cstring) (counter_ : Z) : cstring :=
  lit "UPDATE tunnel SET active=0, `latest_gtp_version`=2 WHERE sgw_gtpc_ipv = '" ++ ip_ ++
  lit "' AND `restart_counter` < " ++ print_u counter_.

(** ** Text addresses: [inet_pton(AF_INET, ...)]

    Octets [done] are complete, [cur] is being read, [saw] tells whether it has a
    digit; a leading zero is refused. *)
Fixpoint pton_loop (s : cstring) (done : list Z) (cur : Z) (saw : bool) : option (list Z) :=
  match s with
  | [] => if saw && (zlen done =? 3) then Some (done ++ [cur]) else None
  | c :: s =>
    if isdigit c then
      if saw && (cur =? 0) then None else
      if 255 <? cur * 10 + (c - 48) then None else
      if negb saw && (zlen done =? 4) then None else pton_loop s done (cur * 10 + (c - 48)) true
    else if (c =? 46) && saw then
      if zlen done =? 3 then None else pton_loop s (done ++ [cur]) 0 false
    else None
  end.
Definition inet_pton (s : cstring) (addr : list Z) : list Z := default addr (pton_loop s [] 0 false).

(** A [sockaddr_in] filled member by member over zeros. *)
Definition sockaddr (port : Z) (addr : list Z) : list Z :=
  le_store 2 AF_INET ++ le_store 2 (htons (u16 port)) ++ addr ++ bzero 8.
(** [%s] of a character array: undefined without a terminator inside it. *)
Definition cstr (b : list Z) : res cstring := if existsb (Z.eqb 0) b then Ok (until_nul b) else Fault Undefined.

(** ** The echo nodes *)
Record echo_state {D : Type} := mk_echo { e_ctx : ctx D; e_peers : option sgw_peers; restart_counter : Z }.
Arguments echo_state : clear implicits.

Section echo.
Variable malloc : nat -> bool.
Context {D : Type} `{DB : Database D}.
Variables (now : Z) (pinst : handle).
Implicit Types (c : ctx D) (pkt : packet_t).

(** [_observer_sgw_peers]: a peer that is not cached is filed; one whose counter
    differs from the cached one has restarted, its sessions end. *)
Definition observer_sgw_peers (ipv4 counter_ : Z) (pp : option sgw_peers) c : res (option sgw_peers * ctx D) :=
  if (ipv4 =? 0) || (counter_ =? NO_COUNTER) then Ok (pp, c) else
  match pp with
  | None => Ok (pp, c)
  | Some _ =>
    let '(rc, pp, found) := pgw_get_sgw_peer (on_sgw_peer_find_extend now) pp ipv4 None in
    match (if rc =? OK then found else None) with
    | None =>
      let '(rc, pp, s) := pgw_set_sgw_peer malloc pp ipv4 counter_ now (c_mem c) in
      if negb (rc =? OK) then Fault RtePanic else Ok (pp, set_mem s c)
    | Some (ot_counter, _) =>
      if negb (ot_counter =? counter_) then
        let '(_, db) := db_query (snprintf 255 (ECHO_RESTART_UPD_SQL (inet_ntoa (le_store 4 ipv4)) counter_)) (c_db c) in
        Ok (pp, set_db db c)
      else Ok (pp, c)
    end
  end.

Definition with_data (b : list Z) pkt : packet_t :=
  mk_packet_t (datalen pkt) b (p_saddr pkt) (p_saddrlen pkt) (p_caddr pkt) (p_caddrlen pkt).
(** The request goes back as it is and once more as a response. *)
Definition echo_back (response_type : Z) pkt c : res (ctx D) :=
  '(rc, copy, s) ← pgw_duplicate_packet malloc pkt (c_mem c);
  match copy with
  | None => Fault RtePanic
  | Some copy =>
    let '(_, n) := pgw_enq EGRESS (pgw_swap_address copy) (c_node c) in
    b ← wr 1 (data pkt) o_type response_type;
    let '(_, n) := pgw_enq EGRESS (pgw_swap_address (with_data b pkt)) n in
    Ok (mk_ctx _ s n (c_db c))
  end.
(** A response marks its sender, the destination of the request, as alive. *)
Definition echo_alive pkt c : ctx D :=
  let '(_, db) := db_query (snprintf 1023 (CHANGE_STATUS_SQL KEEPALIVE_STAT_OK
                    (inet_ntoa (sin_addr (p_caddr pkt))) (ntohs (le_load (sin_port (p_caddr pkt))))
                    (inet_ntoa (sin_addr (p_saddr pkt))) (ntohs (le_load (sin_port (p_saddr pkt))))
                    (server_id (server_gtpc pinst)))) (c_db c) in
  mk_ctx _ (pgw_free_packet (Some pkt) (c_mem c)).2 (c_node c) db.

(** The recovery item of a request: its counter is read and set to zero. *)
Definition take_recovery (at_ : Z) (b : list Z) (counter_ : Z) : res (Z * list Z) :=
  ty ← rd 1 b (at_ + o_ie_type);
  if ty =? GTPC_TYPE_RECOVERY then
    r ← rd 1 b (at_ + o_body); b ← wr 1 b (at_ + o_body) 0; Ok (r, b)
  else Ok (counter_, b).
Definition echo_counter (b : list Z) (counter_ : Z) : res (Z * list Z) :=
  f ← rd 1 b o_flags;
  l ← rd 2 b o_length;
  if negb (v2_teid f =? 0) then
    if ntohs l =? sizeof_gtpc_header - 4 + sizeof_gtpc_recovery then take_recovery sizeof_gtpc_header b counter_
    else Ok (counter_, b)
  else
    if ntohs l =? sizeof_gtpc_header - 8 + sizeof_gtpc_recovery then take_recovery (sizeof_gtpc_header - 4) b counter_
    else Ok (counter_, b).

Definition gtpc_echo (st : echo_state D) pkt : res (echo_state D) :=
  t ← rd 1 (data pkt) o_type;
  if t =? GTPC_ECHO_REQ then
    '(counter_, b) ← echo_counter (data pkt) (restart_counter st);
    '(pp, c) ← (if negb (counter_ =? NO_COUNTER) then
                  observer_sgw_peers (le_load (sin_addr (p_saddr pkt))) counter_ (e_peers st) (e_ctx st)
                else Ok (e_peers st, e_ctx st));
    c ← echo_back GTPC_ECHO_RES (with_data b pkt) c;
    Ok (mk_echo _ c pp counter_)
  else if t =? GTPC_ECHO_RES then Ok (mk_echo _ (echo_alive pkt (e_ctx st)) (e_peers st) (restart_counter st))
  else Ok st.
Definition event_gtpc_echo_req (pp : option sgw_peers) c : res (Z * option sgw_peers * ctx D) :=
  let '(pkts, n) := pgw_deq_burst INGRESS 32 (c_node c) in
  let c := set_node n c in
  if 0 <? zlen pkts then
    st ← foldM gtpc_echo pkts (mk_echo _ c pp NO_COUNTER); Ok (OK, e_peers st, e_ctx st)
  else Ok (ERR, pp, c).

Definition gtpu_echo c pkt : res (ctx D) :=
  t ← rd 1 (data pkt) o_type;
  if t =? GTPU_ECHO_REQ then echo_back GTPU_ECHO_RES pkt c
  else if t =? GTPU_ECHO_RES then Ok (echo_alive pkt c)
  else Ok c.
Definition event_gtpu_echo_req c : res (Z * ctx D) :=
  let '(pkts, n) := pgw_deq_burst INGRESS 32 (c_node c) in
  let c := set_node n c in
  if 0 <? zlen pkts then c ← foldM gtpu_echo pkts c; Ok (OK, c) else Ok (ERR, c).
End echo.

(** ** The timer node *)
(** [upkey_t]: the key of a keepalive row; the status it is set to is always WAIT. *)
Record upkey := mk_upkey { src_ip : list Z; src_port : Z; dst_ip : list Z; dst_port : Z; next_status : Z }.
Record timer_state {D : Type} := mk_timer { t_ctx : ctx D; upkeys : list upkey; gtpc_seqnum : Z; gtpu_seqnum : Z }.
Arguments timer_state : clear implicits.

(** [BE24]: the three low bytes in the opposite order. *)
Definition BE24 (len : Z) : Z := be_load (slice 0 3 (le_store 4 len)).
Definition next_seqnum (n : Z) : Z := if GTP_ECHO_SEQNUM_MAX <=? u32 (n + 1) then GTP_ECHO_SEQNUM_MIN else u32 (n + 1).
(** A string member of [upkey_t], 64 bytes of the 512 of the column. *)
Definition key_ip (r : record) : list Z := take 64 (sval r ++ bzero 512).

Section timer.
Variable malloc : nat -> bool.
Context {D : Type} `{DB : Database D}.
Variable pinst : handle.

Definition gtpc_echo_request (b : list Z) (seq : Z) : res (list Z) :=
  b ← wr_bits b o_flags 5 3 GTPC_VERSION_2;
  b ← wr_bits b o_flags 3 1 GTPC_TEID_OFF;
  b ← wr_bits b o_flags 4 1 GTPC_PIGGY_OFF;
  b ← wr 1 b o_type GTPC_ECHO_REQ;
  b ← wr 2 b o_length (htons (sizeof_gtpc_recovery + 4));
  q ← rd 4 b o_teid;
  b ← wr 4 b o_teid (bf_set 0 24 (BE24 seq) q);
  b ← wr 1 b (sizeof_gtpc_header - 4 + o_ie_type) GTPC_TYPE_RECOVERY;
  b ← wr 2 b (sizeof_gtpc_header - 4 + o_ie_length) (htons 1);
  wr 1 b (sizeof_gtpc_header - 4 + o_body) 8.
Definition gtpu_echo_request (b : list Z) (seq : Z) : res (list Z) :=
  b ← wr_bits b o_flags 0 1 GTPU_NPDU_OFF;
  b ← wr_bits b o_flags 1 1 GTPU_SEQ_1;
  b ← wr_bits b o_flags 2 1 GTPU_EXTEND_0;
  b ← wr_bits b o_flags 4 1 GTPU_PROTO_GTP;
  b ← wr_bits b o_flags 5 3 GTPU_VERSION_1;
  b ← wr 1 b o_type GTPU_ECHO_REQ;
  b ← wr 2 b o_length (htons 4);
  b ← wr 4 b o_teid 0;
  wr 4 b sizeof_gtpu_header (htons (u16 seq)).

Definition on_rec (st : timer_state D) (rec : list record) : res (timer_state D) :=
  match rec with
  | [r_dip; r_dport; r_sip; r_sport; r_proto; _; _; _; r_type] =>
    if negb (nval r_type =? KEEPALIVE_SERVER_TYPE_MASTER) then Ok st else
    let len := sizeof_gtpc_header + sizeof_gtpc_recovery - 4 in
    match pgw_alloc_packet malloc len (c_mem (t_ctx st)) with
    | (_, None, _) => Fault RtePanic
    | (_, Some pkt, s) =>
      let ca := sockaddr (nval r_dport) (inet_pton (sval r_dip) (bzero 4)) in
      let sa := sockaddr (nval r_sport) (inet_pton (sval r_sip) (bzero 4)) in
      if negb (malloc (mallocs s)) then Fault RtePanic else
      let s := next_malloc s in
      let keys := upkeys st ++ [mk_upkey (key_ip r_sip) (u32 (nval r_sport)) (key_ip r_dip) (u32 (nval r_dport)) KEEPALIVE_STAT_WAIT] in
      let send b n (cq uq : Z) :=
        let '(_, nd) := pgw_enq EGRESS (mk_packet_t n b sa sizeof_sockaddr_in ca sizeof_sockaddr_in) (c_node (t_ctx st)) in
        mk_timer _ (mk_ctx _ s nd (c_db (t_ctx st))) keys cq uq in
      if nval r_proto =? KEEPALIVE_PROTO_GTPC then
        b ← gtpc_echo_request (data pkt) (gtpc_seqnum st);
        Ok (send b len (next_seqnum (gtpc_seqnum st)) (gtpu_seqnum st))
      else if nval r_proto =? KEEPALIVE_PROTO_GTPU then
        b ← gtpu_echo_request (data pkt) (gtpu_seqnum st);
        Ok (send b (sizeof_gtpu_header + 4) (gtpc_seqnum st) (next_seqnum (gtpu_seqnum st)))
      else Fault RtePanic
    end
  | _ => Ok st
  end.

(** The update loop: each key is taken off the list. *)
Fixpoint update_keys (keys : list upkey) (db : D) : res D :=
  match keys with
  | [] => Ok db
  | cur :: keys =>
    si ← cstr (src_ip cur);
    di ← cstr (dst_ip cur);
    let '(rc, db) := db_query (snprintf 1023 (CHANGE_STATUS_SQL KEEPALIVE_STAT_WAIT si (src_port cur) di (dst_port cur)
                                                (server_id (server_gtpc pinst)))) db in
    if negb (rc =? 0) then Fault RtePanic else update_keys keys db
  end.
(** [event_timer]; its result is ERR on every path. *)
Definition event_timer (st : timer_state D) : res (Z * timer_state D) :=
  match db_select KEEPALIVE_LOOKUP 0 (c_db (t_ctx st)) with
  | (None, _) => Fault RtePanic
  | (Some rows, db) =>
    st ← foldM on_rec rows (mk_timer _ (set_db db (t_ctx st)) (upkeys st) (gtpc_seqnum st) (gtpu_seqnum st));
    db ← update_keys (upkeys st) (c_db (t_ctx st));
    Ok (ERR, mk_timer _ (set_db db (t_ctx st)) [] (gtpc_seqnum st) (gtpu_seqnum st))
  end.
End timer.

(** ** Addresses as text *)
Definition octet_text (x : Z) : cstring :=
  if x <? 10 then [48 + x] else if x <? 100 then [48 + x / 10; 48 + x mod 10]
  else [48 + x / 100; 48 + x / 10 mod 10; 48 + x mod 10].
Lemma print_octet x : byte_ok x -> print_u x = octet_text x.
Proof.
  intros Hx. assert (H : forallb (fun x => bool_decide (print_u x = octet_text x)) (seqZ 0 256) = true) by (vm_compute; reflexivity).
  rewrite forallb_forall in H. apply (bool_decide_eq_true_1 _), H, list_elem_of_In, elem_of_seqZ. unfold byte_ok in Hx. lia.
Qed.

Lemma digit_char d : 0 <= d < 10 -> isdigit (48 + d) = true.
Proof. intros. unfold isdigit. apply andb_true_intro. split; apply Z.leb_le; lia. Qed.

Lemma pton_octet x s done : byte_ok x -> zlen done <= 3 ->
  pton_loop (print_u x ++ s) done 0 false = pton_loop s done x true.
Proof.
  intros Hx Hd. unfold byte_ok in Hx. rewrite print_octet by done. unfold octet_text.
  assert (Hstep : forall d cur saw r, 0 <= d < 10 -> saw && (cur =? 0) = false -> cur * 10 + d <= 255 ->
    pton_loop (48 + d :: r) done cur saw = pton_loop r done (cur * 10 + d) true).
  { intros d cur saw r H1 H2 H3. cbn [pton_loop]. rewrite digit_char by done. rewrite H2.
    replace (48 + d - 48) with d by lia. rewrite (proj2 (Z.ltb_ge _ _)) by lia.
    rewrite (proj2 (Z.eqb_neq (zlen done) 4)) by lia. by rewrite andb_false_r. }
  repeat case_if; to_prop; cbn [app].
  - rewrite Hstep by (done || lia). f_equal.
  - rewrite Hstep by (done || Z.to_euclidean_division_equations; lia).
    rewrite Hstep by (first [apply Z.eqb_neq | idtac]; Z.to_euclidean_division_equations; lia). f_equal. Z.to_euclidean_division_equations; lia.
  - rewrite Hstep by (done || Z.to_euclidean_division_equations; lia).
    rewrite Hstep by (first [apply Z.eqb_neq | idtac]; Z.to_euclidean_division_equations; lia).
    rewrite Hstep by (first [apply Z.eqb_neq | idtac]; Z.to_euclidean_division_equations; lia). f_equal. Z.to_euclidean_division_equations; lia.
Qed.

Lemma inet_pton_ntoa a d : addr_ok a -> inet_pton (inet_ntoa a) d = a.
Proof.
  intros [La Ha]. destruct a as [|x [|y [|z [|u [|]]]]]; cbn [length] in La; try lia.
  rewrite !Forall_cons in Ha. destruct Ha as (Hx & Hy & Hz & Hu & _).
  assert (Hdot : forall s done cur, zlen done < 3 -> pton_loop (lit "." ++ s) done cur true = pton_loop s (done ++ [cur]) 0 false).
  { intros s done cur Hd. change (lit ".") with [46]. cbn [app pton_loop]. change (isdigit 46) with false. cbn match.
    cbn [Z.eqb Pos.eqb andb]. by rewrite (proj2 (Z.eqb_neq _ _)) by lia. }
  unfold inet_pton, inet_ntoa. rewrite pton_octet, Hdot, pton_octet, Hdot, pton_octet, Hdot by (done || cbn; lia).
  rewrite <-(app_nil_r (print_u u)), pton_octet by (done || cbn; lia). done.
Qed.

(** ** The echo nodes, specified *)
(** Where a request carries its recovery item: behind the header, as the last item. *)
Definition recovery_at (b : list Z) : option Z :=
  let at_ := if v2_teid (le_load (slice o_flags 1 b)) =? 0 then 8 else 12 in
  if (zlen b =? at_ + 5) && (le_load (slice at_ 1 b) =? GTPC_TYPE_RECOVERY) then Some at_ else None.
Definition reported (b : list Z) (k : Z) : Z :=
  match recovery_at b with Some a => le_load (slice (a + 4) 1 b) | None => k end.
Definition cleared (b : list Z) : list Z :=
  match recovery_at b with Some a => splice (a + 4) [0] b | None => b end.
(** A message as the receive callback passes it on: its length is the one it declares. *)
Definition declared (b : list Z) : Prop := bytes_ok b /\ 8 <= zlen b /\ be_load (slice o_length 2 b) + 4 = zlen b.
Definition echo_pair (b : list Z) (response_type : Z) (pkt : packet_t) : list packet_t :=
  pgw_swap_address <$> [with_data b pkt; with_data (splice o_type [response_type] b) pkt].

Lemma take_recovery_eq a b k : 0 <= a -> a + 5 <= zlen b ->
  take_recovery a b k = Ok (if le_load (slice a 1 b) =? GTPC_TYPE_RECOVERY then (le_load (slice (a + 4) 1 b), splice (a + 4) [0] b) else (k, b)).
Proof.
  intros Ha Hl. unfold take_recovery, o_ie_type, o_body. rewrite Z.add_0_r, (rd_ok 1 b a) by lia. res_simpl. change (Z.of_nat 1) with 1.
  case_if; [|done]. rewrite rd_ok by lia. res_simpl. rewrite wr_ok by lia. done.
Qed.

Lemma echo_counter_eq b k : declared b -> echo_counter b k = Ok (reported b k, cleared b).
Proof.
  intros (Hb & H8 & Hl). unfold echo_counter, reported, cleared, recovery_at, o_flags.
  rewrite (rd_ok 1 b 0) by lia. res_simpl. destruct (rd_be b o_length) as (v & -> & Ev); [unfold o_length; lia|unfold o_length; lia|done|]. res_simpl.
  rewrite Ev. change (Z.of_nat 1) with 1. unfold sizeof_gtpc_header, sizeof_gtpc_recovery.
  assert (En : forall x y, y = x + 4 -> (be_load (slice o_length 2 b) =? x) = (zlen b =? y)).
  { intros x y ->. rewrite <-Hl. destruct (Z.eqb_spec (be_load (slice o_length 2 b)) x), (Z.eqb_spec (be_load (slice o_length 2 b) + 4) (x + 4)); lia || done. }
  rewrite (En (12 - 4 + 5) (12 + 5)), (En (12 - 8 + 5) (8 + 5)) by lia.
  destruct (v2_teid _ =? 0); cbn [negb].
  all: match goal with |- context [zlen ?x =? ?n] => destruct (zlen x =? n) eqn:El end; [|done]; to_prop.
  all: rewrite take_recovery_eq by lia; cbn [andb]; by destruct (le_load _ =? GTPC_TYPE_RECOVERY).
Qed.

Lemma outstanding_alloc s s' : same_counts (count_pgw 1 0 0 s) s' ->
  outstanding s' = ((outstanding s).1, u64 ((outstanding s).2 + 1)).
Proof.
  intros (_ & B2 & B3 & _ & B5 & B6 & _). unfold outstanding, count_pgw in *. cbn in *. rewrite B2, B3, B5, B6, ?Z.add_0_r. f_equal.
  unfold wrap. rewrite Zplus_mod_idemp_l, Zminus_mod_idemp_l, Zminus_mod_idemp_r. f_equal. lia.
Qed.

Section echo_proofs.
Variable malloc : nat -> bool.
Context {D : Type} `{DB : Database D}.
Hypothesis Hm : forall n, malloc n = true.
Variables (now : Z) (pinst : handle).
Implicit Types (c : ctx D) (m : gmap Z (Z * Z)).

(** What a request with counter [k] does to the cache and the database. *)
Definition observe (ipv4 k : Z) (mdb : gmap Z (Z * Z) * D) : gmap Z (Z * Z) * D :=
  let '(m, db) := mdb in
  match m !! ipv4 with
  | None => (<[ipv4 := (k, now)]> m, db)
  | Some (k0, _) => (<[ipv4 := (k0, now)]> m,
      if k0 =? k then db else (db_query (snprintf 255 (ECHO_RESTART_UPD_SQL (inet_ntoa (le_store 4 ipv4)) k)) db).2)
  end.

Lemma set_peer_counts t k x e s : exists t', pgw_set_sgw_peer malloc (Some t) k x e s = (if k =? 0 then ERR else OK, Some t', s) \/
  pgw_set_sgw_peer malloc (Some t) k x e s = (OK, Some t', next_malloc s).
Proof.
  unfold pgw_set_sgw_peer. case_if; [by eexists; left|]. destruct (update_peer _ _ _); [by eexists; left|]. rewrite Hm.
  eexists. by right.
Qed.

Lemma observer_ok ipv4 k t c :
  peers_wf (peers t) -> ipv4 <> 0 -> ipv4 <> 2 ^ 32 - 1 -> k <> NO_COUNTER ->
  exists t' c', observer_sgw_peers malloc now ipv4 k (Some t) c = Ok (Some t', c') /\ peers_wf (peers t') /\
    (peer_map (peers t'), c_db c') = observe ipv4 k (peer_map (peers t), c_db c) /\
    c_node c' = c_node c /\ same_counts (c_mem c) (c_mem c').
Proof.
  intros Hw H0 H1 Hk. unfold observer_sgw_peers, observe.
  rewrite (proj2 (Z.eqb_neq _ _) H0), (proj2 (Z.eqb_neq _ _) Hk). cbn [orb].
  destruct (peer_step_refines malloc t (c_mem c) (PGet ipv4 now) Hm Hw H1) as (t1 & s1 & E1 & Hw1 & M1).
  cbn [peer_step map_step] in E1, M1. destruct (pgw_get_sgw_peer _ _ _ _) as [[rc pp] found]. injection E1 as E1 -> _.
  destruct (peer_map (peers t) !! ipv4) as [[k0 x]|] eqn:Em; cbn [fst snd] in E1, M1; injection E1 as -> ->.
  - change (OK =? OK) with true. cbn match. destruct (k0 =? k); cbn [negb]; [exists t1, c; rewrite M1; done|].
    destruct (db_query _ _) as [rc db]. exists t1, (set_db db c). rewrite M1. done.
  - change (ERR =? OK) with false. cbn match.
    destruct (peer_step_refines malloc t1 (c_mem c) (PSet ipv4 k now) Hm Hw1 I) as (t2 & s2 & E2 & Hw2 & M2).
    cbn [peer_step map_step] in E2, M2. rewrite (proj2 (Z.eqb_neq _ _) H0) in E2, M2. cbn [fst snd] in E2, M2.
    pose proof (set_peer_counts t1 ipv4 k now (c_mem c)) as Hc.
    destruct (pgw_set_sgw_peer _ _ _ _ _ _) as [[rc pp] s]. injection E2 as -> -> _. change (OK =? OK) with true. cbn [negb].
    exists t2, (set_mem s c). split; [done|]. split; [done|]. rewrite M2, M1. split; [done|]. split; [done|]. cbn [set_mem c_mem].
    destruct Hc as (t' & [[= _ _ ->]|[= _ ->]]); done.
Qed.

Lemma echo_back_ok ty pkt c : from_network pkt -> datalen pkt = zlen (data pkt) -> 8 <= zlen (data pkt) -> byte_ok ty ->
  exists s, echo_back malloc ty pkt c =
      Ok (mk_ctx _ s (foldl (fun n p => (pgw_enq EGRESS p n).2) (c_node c) (echo_pair (data pkt) ty pkt)) (c_db c)) /\
    same_counts (count_pgw 1 0 0 (c_mem c)) s.
Proof.
  intros [[Ls Es] [Lc Ec] Hd] Hl H8 Ht. unfold echo_back, pgw_duplicate_packet, pgw_alloc_packet. rewrite Hm.
  cbn [p_saddr p_caddr data]. rewrite !copy_addr_eq by done. res_simpl.
  rewrite rd_bytes_ok by lia. res_simpl. rewrite Hl, slice_0_all. rewrite wr_bytes_ok by (unfold bzero; rewrite ?length_replicate; lia). res_simpl.
  rewrite splice_all by (unfold bzero; rewrite length_replicate; lia). rewrite wr_ok by (unfold o_type; lia). res_simpl.
  change (le_store 1 ty) with [ty mod 256]. rewrite Z.mod_small by done. exists (count_pgw 1 0 0 (next_malloc (c_mem c))). split; [|done].
  unfold echo_pair, with_data. rewrite Hl. done.
Qed.

Lemma echo_alive_ok pkt c : outstanding (c_mem (echo_alive pinst pkt c)) =
    ((outstanding (c_mem c)).1, u64 ((outstanding (c_mem c)).2 - 1)) /\ c_node (echo_alive pinst pkt c) = c_node c.
Proof.
  unfold echo_alive. destruct (db_query _ _) as [rc db]. split; [|done]. unfold outstanding, count_pgw. cbn. f_equal. unfold wrap.
  rewrite ?Z.add_0_r, ?Zminus_mod_idemp_l, ?Zminus_mod_idemp_r. f_equal. lia.
Qed.

(** A request the echo node may get. *)
Record echo_request (pkt : packet_t) : Prop := {
  er_net : from_network pkt;
  er_len : datalen pkt = zlen (data pkt);
  er_decl : declared (data pkt);
  er_type : le_load (slice o_type 1 (data pkt)) = GTPC_ECHO_REQ;
  er_peer : le_load (sin_addr (p_saddr pkt)) <> 0 /\ le_load (sin_addr (p_saddr pkt)) <> 2 ^ 32 - 1;
}.
Definition echo_spec (st : gmap Z (Z * Z) * D * Z) (pkt : packet_t) : gmap Z (Z * Z) * D * Z :=
  let '(mdb, k) := st in
  let k := reported (data pkt) k in
  (if k =? NO_COUNTER then mdb else observe (le_load (sin_addr (p_saddr pkt))) k mdb, k).
Definition send_all (n : node) (l : list packet_t) : node := foldl (fun n p => (pgw_enq EGRESS p n).2) n l.

Lemma cleared_ok b : bytes_ok b -> bytes_ok (cleared b) /\ zlen (cleared b) = zlen b.
Proof.
  intros Hb. unfold cleared, recovery_at. set (a := if _ =? 0 then 8 else 12). assert (Ha : 0 <= a) by (unfold a; case_if; lia).
  destruct (_ && _) eqn:E; [|done]. apply andb_prop in E as [E _]. to_prop. split.
  - apply Forall_splice; [|done]. apply Forall_cons_2; [unfold byte_ok; lia|apply Forall_nil_2].
  - rewrite length_splice by (cbn [length]; lia). done.
Qed.

Lemma gtpc_echo_ok (st : echo_state D) t pkt :
  e_peers st = Some t -> peers_wf (peers t) -> echo_request pkt ->
  exists st' t', gtpc_echo malloc now pinst st pkt = Ok st' /\ e_peers st' = Some t' /\ peers_wf (peers t') /\
    (peer_map (peers t'), c_db (e_ctx st'), restart_counter st') =
      echo_spec (peer_map (peers t), c_db (e_ctx st), restart_counter st) pkt /\
    c_node (e_ctx st') = send_all (c_node (e_ctx st)) (echo_pair (cleared (data pkt)) GTPC_ECHO_RES pkt) /\
    outstanding (c_mem (e_ctx st')) = ((outstanding (c_mem (e_ctx st))).1, u64 ((outstanding (c_mem (e_ctx st))).2 + 1)).
Proof.
  intros Ep Hw [Hn Hl Hd Ht [H0 H1]]. pose proof Hd as (Hb & H8 & _). destruct (cleared_ok _ Hb) as [Hcb Hcl].
  unfold gtpc_echo. rewrite rd_ok by (unfold o_type; lia). res_simpl. change (Z.of_nat 1) with 1. rewrite Ht.
  change (GTPC_ECHO_REQ =? GTPC_ECHO_REQ) with true. cbn match. rewrite echo_counter_eq by done. res_simpl. unfold echo_spec.
  set (k := reported (data pkt) (restart_counter st)).
  assert (Hobs : exists t1 c1, (if negb (k =? NO_COUNTER) then observer_sgw_peers malloc now (le_load (sin_addr (p_saddr pkt))) k (e_peers st) (e_ctx st)
      else Ok (e_peers st, e_ctx st)) = Ok (Some t1, c1) /\ peers_wf (peers t1) /\
    (peer_map (peers t1), c_db c1) = (if k =? NO_COUNTER then (peer_map (peers t), c_db (e_ctx st))
      else observe (le_load (sin_addr (p_saddr pkt))) k (peer_map (peers t), c_db (e_ctx st))) /\
    c_node c1 = c_node (e_ctx st) /\ same_counts (c_mem (e_ctx st)) (c_mem c1)).
  { rewrite Ep. destruct (k =? NO_COUNTER) eqn:Ek; cbn [negb]; [by exists t, (e_ctx st)|]. to_prop. by apply observer_ok. }
  destruct Hobs as (t1 & c1 & -> & Hw1 & M1 & N1 & S1). res_simpl.
  destruct (echo_back_ok GTPC_ECHO_RES (with_data (cleared (data pkt)) pkt) c1) as (s & -> & S2).
  { destruct Hn. by split. }
  { cbn [with_data datalen data]. by rewrite Hcl. }
  { cbn [with_data data]. by rewrite Hcl. }
  { by apply byte_const. }
  res_simpl. eexists _, t1. split; [done|]. cbn [e_ctx e_peers restart_counter c_db c_node c_mem]. split; [done|]. split; [done|].
  split; [by rewrite <-M1|]. split; [by rewrite N1|].
  rewrite (outstanding_alloc _ _ S2). destruct S1 as (_ & A2 & A3 & _ & A5 & A6 & _). unfold outstanding. by rewrite A2, A3, A5, A6.
Qed.

Lemma send_all_room n l : 0 <= q_count (egress n) -> q_count (egress n) + zlen l <= RING_SIZE_MAX ->
  q_packets (egress (send_all n l)) = q_packets (egress n) ++ l /\ q_count (egress (send_all n l)) = q_count (egress n) + zlen l /\
  ingress (send_all n l) = ingress n.
Proof.
  revert n. induction l as [|p l IH]; intros n H0 Hr; cbn [send_all foldl length] in *; [rewrite app_nil_r; lia || (split; [done|]; split; [lia|done])|].
  destruct (enq_room p (egress n)) as [Q1 Q2]; [lia|]. destruct (IH (pgw_enq EGRESS p n).2) as (E1 & E2 & E3); [cbn; lia|cbn; lia|].
  unfold send_all in *. rewrite E1, E2, E3. cbn [pgw_enq snd set_queue queue_of egress ingress]. rewrite Q1, Q2, <-app_assoc.
  split; [done|]. split; [lia|done].
Qed.

Definition echo_replies (pkts : list packet_t) : list packet_t :=
  concat ((fun p => echo_pair (cleared (data p)) GTPC_ECHO_RES p) <$> pkts).

Lemma echo_fold pkts (st : echo_state D) t :
  e_peers st = Some t -> peers_wf (peers t) -> Forall echo_request pkts ->
  exists st' t', foldM (gtpc_echo malloc now pinst) pkts st = Ok st' /\ e_peers st' = Some t' /\ peers_wf (peers t') /\
    (peer_map (peers t'), c_db (e_ctx st'), restart_counter st') =
      foldl echo_spec (peer_map (peers t), c_db (e_ctx st), restart_counter st) pkts /\
    c_node (e_ctx st') = send_all (c_node (e_ctx st)) (echo_replies pkts) /\
    outstanding (c_mem (e_ctx st')) = ((outstanding (c_mem (e_ctx st))).1, u64 ((outstanding (c_mem (e_ctx st))).2 + zlen pkts)).
Proof.
  intros Ep Hw Hall. revert st t Ep Hw. induction Hall as [|pkt pkts Hp _ IH]; intros st t Ep Hw; cbn [foldM foldl].
  { exists st, t. split; [done|]. split; [done|]. split; [done|]. split; [done|]. split; [done|].
    unfold outstanding. cbn [fst snd length]. rewrite Z.add_0_r. f_equal. unfold wrap. by rewrite Zmod_mod. }
  destruct (gtpc_echo_ok st t pkt Ep Hw Hp) as (st1 & t1 & -> & E1 & W1 & M1 & N1 & O1). res_simpl.
  destruct (IH st1 t1 E1 W1) as (st' & t' & -> & E' & W' & M' & N' & O'). exists st', t'. split; [done|]. split; [done|]. split; [done|].
  split; [by rewrite M', M1|]. split.
  - rewrite N', N1. unfold send_all, echo_replies. rewrite fmap_cons. cbn [concat]. by rewrite foldl_app.
  - rewrite O', O1. cbn [fst snd length]. f_equal. unfold wrap. rewrite Zplus_mod_idemp_l. f_equal. lia.
Qed.
End echo_proofs.

(** ** Probes *)
(** A row of the keepalive table that asks for probing. *)
Record poll := mk_poll { po_dst : list Z; po_dport : Z; po_src : list Z; po_sport : Z; po_gtpc : bool }.
Definition poll_ok (p : poll) : Prop :=
  addr_ok (po_dst p) /\ addr_ok (po_src p) /\ 0 <= po_dport p < 2 ^ 16 /\ 0 <= po_sport p < 2 ^ 16.
Definition to_row (p : poll) : list record :=
  [SVal (inet_ntoa (po_dst p)); NVal (po_dport p); SVal (inet_ntoa (po_src p)); NVal (po_sport p);
   NVal (if po_gtpc p then KEEPALIVE_PROTO_GTPC else KEEPALIVE_PROTO_GTPU); NVal 0; NVal 1; SVal []; NVal KEEPALIVE_SERVER_TYPE_MASTER].
Definition sockaddr_of (a : list Z) (port : Z) : list Z := [2; 0] ++ be_store 2 port ++ a ++ bzero 8.
(** The probes on the wire. *)
Definition gtpc_probe (seq : Z) : list Z := [0x40; 1; 0; 9] ++ be_store 3 seq ++ [0; 3; 0; 1; 0; 8].
Definition gtpu_probe (seq : Z) : list Z := [0x32; 1; 0; 4; 0; 0; 0; 0] ++ be_store 2 seq ++ [0; 0].
Definition probe (p : poll) (cq uq : Z) : packet_t :=
  let sa := sockaddr_of (po_src p) (po_sport p) in
  let ca := sockaddr_of (po_dst p) (po_dport p) in
  if po_gtpc p then mk_packet_t 13 (gtpc_probe cq) sa 16 ca 16
  else mk_packet_t 12 (gtpu_probe uq ++ [0]) sa 16 ca 16.

(** Run a closed step of a chain. *)
Ltac run_step := match goal with |- (?m ≫= _) = _ => let r := eval vm_compute in m in change m with r end; res_simpl.

(** Stored in a wider field, a number has zero bytes behind it. *)
Lemma le_store_padded (l : list Z) k : bytes_ok l -> le_store (length l + k) (le_load l) = l ++ replicate k 0.
Proof.
  intros Hl. assert (E : le_load l = le_load (l ++ replicate k 0)).
  { rewrite le_load_app. assert (Z0 : le_load (replicate k 0) = 0) by (induction k as [|k IH]; cbn [replicate le_load]; lia). rewrite Z0. lia. }
  rewrite E. replace (length l + k)%nat with (length (l ++ replicate k 0)) by (rewrite length_app, length_replicate; done).
  apply le_store_load, Forall_app_2; [done|]. apply Forall_replicate. unfold byte_ok. lia.
Qed.
Lemma seqno_word seq : 0 <= seq < 2 ^ 24 -> le_store 4 (bf_set 0 24 (BE24 seq) 0) = be_store 3 seq ++ [0].
Proof.
  intros Hs. unfold BE24. change (slice 0 3 (le_store 4 seq)) with (le_store 3 seq).
  change (be_load (le_store 3 seq)) with (le_load (be_store 3 seq)).
  pose proof (le_load_range (be_store 3 seq) (be_store_ok 3 seq)) as Hr. rewrite length_be_store in Hr. change (256 ^ Z.of_nat 3) with (2 ^ 24) in Hr.
  unfold bf_set. rewrite Z.land_0_l, Z.lor_0_l, Z.shiftl_0_r, wrap_small by lia. apply (le_store_padded (be_store 3 seq) 1), be_store_ok.
Qed.
Lemma gtpc_echo_request_eq seq : 0 <= seq < 2 ^ 24 -> gtpc_echo_request (bzero 13) seq = Ok (gtpc_probe seq).
Proof.
  intros Hs. unfold gtpc_echo_request, gtpc_probe. do 6 run_step.
  change (wr 4 ?b ?p ?v) with (wr_bytes b p (le_store 4 v)). rewrite seqno_word by done.
  pose proof (length_be_store 3 seq) as L. destruct (be_store 3 seq) as [|x [|y [|z [|]]]]; try discriminate L. reflexivity.
Qed.
Lemma gtpu_echo_request_eq seq : 0 <= seq < 2 ^ 16 -> gtpu_echo_request (bzero 13) seq = Ok (gtpu_probe seq ++ [0]).
Proof.
  intros Hs. unfold gtpu_echo_request, gtpu_probe. do 8 run_step. rewrite wrap_small by lia.
  change (wr 4 ?b ?p ?v) with (wr_bytes b p (le_store 4 v)). change (htons seq) with (le_load (be_store 2 seq)).
  change 4%nat with (length (be_store 2 seq) + 2)%nat at 1. rewrite le_store_padded by apply be_store_ok.
  pose proof (length_be_store 2 seq) as L. destruct (be_store 2 seq) as [|x [|y [|]]]; try discriminate L. reflexivity.
Qed.

Section timer_proofs.
Variable malloc : nat -> bool.
Context {D : Type} `{DB : Database D}.
Hypothesis Hm : forall n, malloc n = true.
Variable pinst : handle.

(** The sequence numbers stay inside their range. *)
Definition seq_ok (n : Z) : Prop := GTP_ECHO_SEQNUM_MIN <= n < GTP_ECHO_SEQNUM_MAX.
Lemma next_seqnum_ok n : seq_ok n -> seq_ok (next_seqnum n).
Proof.
  unfold seq_ok, next_seqnum, GTP_ECHO_SEQNUM_MIN, GTP_ECHO_SEQNUM_MAX. intros Hn. rewrite wrap_small by lia. case_if; to_prop; lia.
Qed.

(** The probes of a run of the timer, with the sequence numbers they take. *)
Fixpoint probes (l : list poll) (cq uq : Z) : list packet_t :=
  match l with
  | [] => []
  | p :: l => probe p cq uq :: probes l (if po_gtpc p then next_seqnum cq else cq) (if po_gtpc p then uq else next_seqnum uq)
  end.
Fixpoint seqs_after (l : list poll) (cq uq : Z) : Z * Z :=
  match l with
  | [] => (cq, uq)
  | p :: l => seqs_after l (if po_gtpc p then next_seqnum cq else cq) (if po_gtpc p then uq else next_seqnum uq)
  end.
Definition key_of (p : poll) : upkey :=
  mk_upkey (take 64 (inet_ntoa (po_src p) ++ bzero 512)) (po_sport p) (take 64 (inet_ntoa (po_dst p) ++ bzero 512)) (po_dport p) KEEPALIVE_STAT_WAIT.
Definition wait_sql (p : poll) : cstring :=
  CHANGE_STATUS_SQL KEEPALIVE_STAT_WAIT (inet_ntoa (po_src p)) (po_sport p) (inet_ntoa (po_dst p)) (po_dport p) (server_id (server_gtpc pinst)).

Lemma sockaddr_eq port a : addr_ok a -> 0 <= port < 2 ^ 16 -> sockaddr port (inet_pton (inet_ntoa a) (bzero 4)) = sockaddr_of a port.
Proof.
  intros Ha Hp. unfold sockaddr, sockaddr_of. rewrite inet_pton_ntoa by done. rewrite wrap_small by lia. unfold htons.
  by rewrite le_store_bswap.
Qed.

Lemma on_rec_ok (st : timer_state D) p : poll_ok p -> seq_ok (gtpc_seqnum st) -> seq_ok (gtpu_seqnum st) ->
  exists s, on_rec malloc st (to_row p) =
    Ok (mk_timer _ (mk_ctx _ s (pgw_enq EGRESS (probe p (gtpc_seqnum st) (gtpu_seqnum st)) (c_node (t_ctx st))).2 (c_db (t_ctx st)))
          (upkeys st ++ [key_of p]) (if po_gtpc p then next_seqnum (gtpc_seqnum st) else gtpc_seqnum st)
          (if po_gtpc p then gtpu_seqnum st else next_seqnum (gtpu_seqnum st))) /\
    same_counts (count_pgw 1 0 0 (c_mem (t_ctx st))) s.
Proof.
  intros (Hd & Hs & Hdp & Hsp) Hc Hu. unfold on_rec, to_row. cbn [nval sval]. change (KEEPALIVE_SERVER_TYPE_MASTER =? KEEPALIVE_SERVER_TYPE_MASTER) with true.
  cbn [negb]. unfold pgw_alloc_packet. rewrite !Hm. cbn [negb]. rewrite !sockaddr_eq by done. unfold key_ip. cbn [sval].
  rewrite (wrap_small 32 (po_sport p)), (wrap_small 32 (po_dport p)) by lia. unfold seq_ok, GTP_ECHO_SEQNUM_MIN, GTP_ECHO_SEQNUM_MAX in Hc, Hu.
  exists (next_malloc (count_pgw 1 0 0 (next_malloc (c_mem (t_ctx st))))). split; [|done]. unfold probe, key_of. destruct (po_gtpc p).
  - change (KEEPALIVE_PROTO_GTPC =? KEEPALIVE_PROTO_GTPC) with true. cbn match.
    cbn [data]. change (sizeof_gtpc_header + sizeof_gtpc_recovery - 4) with 13. rewrite gtpc_echo_request_eq by lia. done.
  - change (KEEPALIVE_PROTO_GTPU =? KEEPALIVE_PROTO_GTPC) with false. change (KEEPALIVE_PROTO_GTPU =? KEEPALIVE_PROTO_GTPU) with true. cbn match.
    cbn [data]. change (sizeof_gtpc_header + sizeof_gtpc_recovery - 4) with 13. rewrite gtpu_echo_request_eq by lia. done.
Qed.

Lemma on_rec_fold l (st : timer_state D) : Forall poll_ok l -> seq_ok (gtpc_seqnum st) -> seq_ok (gtpu_seqnum st) ->
  exists s, foldM (on_rec malloc) (to_row <$> l) st =
    Ok (mk_timer _ (mk_ctx _ s (send_all (c_node (t_ctx st)) (probes l (gtpc_seqnum st) (gtpu_seqnum st))) (c_db (t_ctx st)))
          (upkeys st ++ (key_of <$> l)) (seqs_after l (gtpc_seqnum st) (gtpu_seqnum st)).1 (seqs_after l (gtpc_seqnum st) (gtpu_seqnum st)).2) /\
    outstanding s = ((outstanding (c_mem (t_ctx st))).1, u64 ((outstanding (c_mem (t_ctx st))).2 + zlen l)) /\
    seq_ok (seqs_after l (gtpc_seqnum st) (gtpu_seqnum st)).1 /\ seq_ok (seqs_after l (gtpc_seqnum st) (gtpu_seqnum st)).2.
Proof.
  intros Hl. revert st. induction Hl as [|p l Hp _ IH]; intros st Hc Hu; cbn [foldM fmap list_fmap].
  { exists (c_mem (t_ctx st)). rewrite app_nil_r. split; [by destruct st as [[] ? ? ?]|]. cbn [length seqs_after fst snd]. split; [|done].
    unfold outstanding. cbn [fst snd]. rewrite Z.add_0_r. f_equal. unfold wrap. by rewrite Zmod_mod. }
  destruct (on_rec_ok st p Hp Hc Hu) as (s & -> & Hs). res_simpl.
  match goal with |- context [foldM _ _ ?x] => destruct (IH x) as (s' & -> & Ho & Hq) end;
    [cbn [gtpc_seqnum gtpu_seqnum]; destruct (po_gtpc p); auto using next_seqnum_ok..|].
  exists s'. cbn [t_ctx upkeys gtpc_seqnum gtpu_seqnum c_node c_db c_mem] in *. split; [by rewrite <-app_assoc|]. split; [|done].
  rewrite Ho, (outstanding_alloc _ _ Hs). cbn [fst snd length]. f_equal. unfold wrap. rewrite Zplus_mod_idemp_l. f_equal. lia.
Qed.

Lemma ntoa_text a : addr_ok a -> zlen (inet_ntoa a) <= 15 /\ Forall (fun c => c <> 0) (inet_ntoa a).
Proof.
  intros [La Ha]. destruct a as [|x [|y [|z [|u [|]]]]]; cbn [length] in La; try lia.
  rewrite !Forall_cons in Ha. destruct Ha as (Hx & Hy & Hz & Hu & _).
  assert (Hone : forall v, byte_ok v -> zlen (print_u v) <= 3 /\ Forall (fun c => c <> 0) (print_u v)).
  { intros v Hv. rewrite print_octet by done. unfold octet_text, byte_ok in *. repeat case_if; to_prop;
      (split; [cbn [length]; lia|]); repeat (apply Forall_cons_2; [Z.to_euclidean_division_equations; lia|]); apply Forall_nil_2. }
  destruct (Hone x Hx), (Hone y Hy), (Hone z Hz), (Hone u Hu). unfold inet_ntoa. change (lit ".") with [46]. split.
  - rewrite !length_app. cbn [length]. lia.
  - assert (Hd : Forall (fun c => c <> 0) [46]) by (apply Forall_cons_2; [lia|apply Forall_nil_2]). rewrite !Forall_app. done.
Qed.

Lemma until_nul_app s r : Forall (fun c => c <> 0) s -> until_nul (s ++ 0 :: r) = s.
Proof. induction 1 as [|x s Hx _ IH]; cbn [app until_nul]; [done|]. rewrite (proj2 (Z.eqb_neq _ _) Hx). by f_equal. Qed.

Lemma cstr_key a : addr_ok a -> cstr (take 64 (inet_ntoa a ++ bzero 512)) = Ok (inet_ntoa a).
Proof.
  intros Ha. destruct (ntoa_text a Ha) as [Hl Hn]. set (s := inet_ntoa a) in *.
  assert (E : take 64 (s ++ bzero 512) = s ++ 0 :: replicate (63 - length s) 0).
  { unfold bzero. change (Z.to_nat 512) with 512%nat. rewrite take_app_ge by lia. f_equal.
    rewrite take_replicate. replace ((64 - length s) `min` 512)%nat with (S (63 - length s)) by lia. done. }
  rewrite E. unfold cstr. replace (existsb _ _) with true; [by rewrite until_nul_app|].
  symmetry. apply existsb_exists. exists 0. split; [|done]. apply in_or_app. right. by left.
Qed.

Lemma update_keys_ok l (db : D) : (forall q db, (db_query q db).1 = 0) -> Forall poll_ok l ->
  update_keys pinst (key_of <$> l) db = Ok (foldl (fun db p => (db_query (snprintf 1023 (wait_sql p)) db).2) db l).
Proof.
  intros Hq Hl. revert db. induction Hl as [|p l (Hd & Hs & _) _ IH]; intros db; cbn [fmap list_fmap update_keys foldl]; [done|].
  cbn [key_of src_ip dst_ip src_port dst_port]. rewrite !cstr_key by done. res_simpl.
  change (CHANGE_STATUS_SQL _ _ _ _ _ _) with (wait_sql p). specialize (Hq (snprintf 1023 (wait_sql p)) db).
  destruct (db_query _ _) as [rc db']. cbn [fst] in Hq. rewrite Hq. cbn [Z.eqb negb snd]. apply IH.
Qed.
End timer_proofs.

(** ** A probe and its answer *)
(** What arrives of a packet that was sent. *)
Definition on_wire (pkt : packet_t) : packet_t :=
  mk_packet_t (datalen pkt) (slice 0 (datalen pkt) (data pkt)) (p_saddr pkt) (p_saddrlen pkt) (p_caddr pkt) (p_caddrlen pkt).
Lemma sockaddr_fields a port : addr_ok a -> 0 <= port < 2 ^ 16 ->
  zlen (sockaddr_of a port) = 16 /\ sin_addr (sockaddr_of a port) = a /\ ntohs (le_load (sin_port (sockaddr_of a port))) = port.
Proof.
  intros [La _] Hp. pose proof (length_be_store 2 port) as L2. unfold sockaddr_of, sin_addr, sin_port. split.
  { rewrite !length_app, L2. unfold bzero. rewrite length_replicate. cbn [length]. lia. }
  destruct a as [|x [|y [|z [|u [|]]]]]; cbn [length] in La; try lia. pose proof (be_store_load 2 port) as Hb. change (256 ^ Z.of_nat 2) with (2 ^ 16) in Hb.
  pose proof (be_store_ok 2 port) as Ho. destruct (be_store 2 port) as [|b0 [|b1 [|]]]; try discriminate L2. split; [reflexivity|].
  change (slice 2 2 ([2; 0] ++ [b0; b1] ++ [x; y; z; u] ++ bzero 8)) with [b0; b1]. unfold ntohs. by rewrite bswap_load, Hb by done.
Qed.

Lemma probe_request p cq uq : poll_ok p -> po_gtpc p = true -> seq_ok cq ->
  le_load (po_src p) <> 0 -> le_load (po_src p) <> 2 ^ 32 - 1 -> on_wire (probe p cq uq) = probe p cq uq /\ echo_request (probe p cq uq).
Proof.
  intros (Hd & Hs & Hdp & Hsp) Hg _ H0 H1. unfold probe. rewrite Hg.
  destruct (sockaddr_fields (po_src p) (po_sport p) Hs Hsp) as (L1 & A1 & _). destruct (sockaddr_fields (po_dst p) (po_dport p) Hd Hdp) as (L2 & _ & _).
  pose proof (length_be_store 3 cq) as L3. pose proof (be_store_ok 3 cq) as Hb. unfold gtpc_probe.
  destruct (be_store 3 cq) as [|x [|y [|z [|]]]]; try discriminate L3. split; [reflexivity|].
  split; cbn [datalen data p_saddr p_saddrlen p_caddr p_caddrlen]; [split; cbn [data p_saddr p_saddrlen p_caddr p_caddrlen]; [done|done|]|done| |done|by rewrite A1].
  - rewrite !Forall_app. split; [apply bytes_okb_ok; done|]. split; [done|apply bytes_okb_ok; done].
  - split; [|split; done]. rewrite !Forall_app. split; [apply bytes_okb_ok; done|]. split; [done|apply bytes_okb_ok; done].
Qed.

Section closing.
Variable malloc : nat -> bool.
Context {D : Type} `{DB : Database D}.
Hypothesis Hm : forall n, malloc n = true.

Definition ok_sql (pinst : handle) (p : poll) : cstring :=
  CHANGE_STATUS_SQL KEEPALIVE_STAT_OK (inet_ntoa (po_src p)) (po_sport p) (inet_ntoa (po_dst p)) (po_dport p) (server_id (server_gtpc pinst)).

(** A response to a probe, whatever its bytes: its sender is the destination of the probe. *)
Lemma alive_statement pinst b n p (c : ctx D) : poll_ok p ->
  c_db (echo_alive pinst (mk_packet_t n b (sockaddr_of (po_dst p) (po_dport p)) 16 (sockaddr_of (po_src p) (po_sport p)) 16) c) =
    (db_query (snprintf 1023 (ok_sql pinst p)) (c_db c)).2.
Proof.
  intros (Hd & Hs & Hdp & Hsp). unfold echo_alive. cbn [p_saddr p_caddr].
  destruct (sockaddr_fields (po_src p) (po_sport p) Hs Hsp) as (_ & -> & ->). destruct (sockaddr_fields (po_dst p) (po_dport p) Hd Hdp) as (_ & -> & ->).
  change (CHANGE_STATUS_SQL _ _ _ _ _ _) with (ok_sql pinst p). by destruct (db_query _ _).
Qed.

Lemma gtpc_closes now now' peer pinst p cq uq (st st2 : echo_state D) t :
  poll_ok p -> po_gtpc p = true -> seq_ok cq -> le_load (po_src p) <> 0 -> le_load (po_src p) <> 2 ^ 32 - 1 ->
  e_peers st = Some t -> peers_wf (peers t) -> 0 <= q_count (egress (c_node (e_ctx st))) -> q_count (egress (c_node (e_ctx st))) + 2 <= RING_SIZE_MAX ->
  exists st1 q r st3, gtpc_echo malloc now peer st (on_wire (probe p cq uq)) = Ok st1 /\
    q_packets (egress (c_node (e_ctx st1))) = q_packets (egress (c_node (e_ctx st))) ++ [q; r] /\
    gtpc_echo malloc now' pinst st2 (on_wire r) = Ok st3 /\
    c_db (e_ctx st3) = (db_query (snprintf 1023 (ok_sql pinst p)) (c_db (e_ctx st2))).2.
Proof.
  intros Hp Hg Hs H0 H1 Ep Hw Hq Hr. destruct (probe_request p cq uq Hp Hg Hs H0 H1) as [-> Hreq].
  destruct (gtpc_echo_ok malloc Hm now peer st t (probe p cq uq) Ep Hw Hreq) as (st1 & t1 & E1 & _ & _ & _ & N1 & _).
  exists st1. do 2 eexists. pose proof Hreq as [_ Hl (Hb & H8 & _) _ _]. destruct (cleared_ok _ Hb) as [_ Hcl].
  assert (Hn : exists st3, gtpc_echo malloc now' pinst st2 (on_wire (pgw_swap_address (with_data (splice o_type [GTPC_ECHO_RES] (cleared (data (probe p cq uq))))
      (probe p cq uq)))) = Ok st3 /\ c_db (e_ctx st3) = (db_query (snprintf 1023 (ok_sql pinst p)) (c_db (e_ctx st2))).2).
  { set (b := splice o_type [GTPC_ECHO_RES] (cleared (data (probe p cq uq)))).
    assert (Lb : zlen b = zlen (data (probe p cq uq))) by (unfold b; rewrite length_splice by (unfold o_type; cbn [length]; lia); done).
    assert (Ew : on_wire (pgw_swap_address (with_data b (probe p cq uq))) =
      mk_packet_t 13 b (sockaddr_of (po_dst p) (po_dport p)) 16 (sockaddr_of (po_src p) (po_sport p)) 16).
    { unfold on_wire, pgw_swap_address, with_data. cbn [datalen data p_saddr p_saddrlen p_caddr p_caddrlen]. rewrite Hl, <-Lb, slice_0_all, Lb.
      unfold probe in *. rewrite Hg in *. cbn [datalen] in Hl. cbn [data] in *. rewrite <-Hl. done. }
    rewrite Ew. unfold gtpc_echo. cbn [data]. rewrite rd_ok by (unfold o_type; lia). res_simpl. change (Z.of_nat 1) with 1.
    assert (Es : slice o_type 1 b = [GTPC_ECHO_RES]) by (apply (slice_splice_same o_type [GTPC_ECHO_RES]); unfold o_type; cbn [length]; lia).
    rewrite Es.
    change (le_load [GTPC_ECHO_RES] =? GTPC_ECHO_REQ) with false. change (le_load [GTPC_ECHO_RES] =? GTPC_ECHO_RES) with true. cbn match.
    eexists. split; [done|]. cbn [e_ctx]. by apply alive_statement. }
  destruct Hn as (st3 & E3 & D3). exists st3. split; [done|]. split; [|by split].
  rewrite N1. destruct (send_all_room (c_node (e_ctx st)) (echo_pair (cleared (data (probe p cq uq))) GTPC_ECHO_RES (probe p cq uq))) as (-> & _); [done|done|done].
Qed.

Lemma gtpu_closes peer pinst p cq uq (c c2 : ctx D) :
  poll_ok p -> po_gtpc p = false -> 0 <= q_count (egress (c_node c)) -> q_count (egress (c_node c)) + 2 <= RING_SIZE_MAX ->
  exists c1 q r c3, gtpu_echo malloc peer c (on_wire (probe p cq uq)) = Ok c1 /\
    q_packets (egress (c_node c1)) = q_packets (egress (c_node c)) ++ [q; r] /\
    gtpu_echo malloc pinst c2 (on_wire r) = Ok c3 /\
    c_db c3 = (db_query (snprintf 1023 (ok_sql pinst p)) (c_db c2)).2.
Proof.
  intros Hp Hg Hq Hr. pose proof Hp as (Hd & Hs & Hdp & Hsp).
  destruct (sockaddr_fields (po_src p) (po_sport p) Hs Hsp) as (L1 & _). destruct (sockaddr_fields (po_dst p) (po_dport p) Hd Hdp) as (L2 & _).
  assert (Ew : on_wire (probe p cq uq) = mk_packet_t 12 (gtpu_probe uq) (sockaddr_of (po_src p) (po_sport p)) 16 (sockaddr_of (po_dst p) (po_dport p)) 16 /\
    bytes_ok (gtpu_probe uq) /\ exists x y, gtpu_probe uq = [0x32; 1; 0; 4; 0; 0; 0; 0; x; y; 0; 0]).
  { unfold on_wire, probe. rewrite Hg. cbn [datalen data p_saddr p_saddrlen p_caddr p_caddrlen]. pose proof (length_be_store 2 uq) as L.
    pose proof (be_store_ok 2 uq) as Ho. unfold gtpu_probe. destruct (be_store 2 uq) as [|x [|y [|]]]; try discriminate L. split; [reflexivity|].
    split; [|by exists x, y]. rewrite !Forall_app. split; [by apply bytes_okb_ok|]. split; [done|by apply bytes_okb_ok]. }
  destruct Ew as (-> & Hb & x & y & Ex).
  destruct (echo_back_ok malloc Hm GTPU_ECHO_RES (mk_packet_t 12 (gtpu_probe uq) (sockaddr_of (po_src p) (po_sport p)) 16 (sockaddr_of (po_dst p) (po_dport p)) 16) c)
    as (s & E & _); [by split|by rewrite Ex|by rewrite Ex|by apply byte_const|].
  unfold gtpu_echo at 1. cbn [data]. assert (Et : rd 1 (gtpu_probe uq) o_type = Ok GTPU_ECHO_REQ) by by rewrite Ex.
  rewrite Et. res_simpl. change (GTPU_ECHO_REQ =? GTPU_ECHO_REQ) with true. cbn match. rewrite E.
  eexists _, _, _, _. split; [done|]. cbn [c_node]. fold (send_all (c_node c)).
  match goal with |- context [foldl ?f (c_node c) ?l] => change (foldl f (c_node c) l) with (send_all (c_node c) l); destruct (send_all_room (c_node c) l) as (-> & _); [done|done|] end.
  split; [reflexivity|]. unfold gtpu_echo. cbn [data echo_pair on_wire pgw_swap_address with_data datalen p_saddr p_saddrlen p_caddr p_caddrlen]. rewrite Ex.
  cbn. split; [reflexivity|]. by apply alive_statement.
Qed.
End closing.

Module Properties.
Section claims.
Variable malloc : nat -> bool.
Context {D : Type} `{DB : Database D}.

(** C29: a burst of GTP-C echo requests: every request goes back to its sender twice, as
    it came and as the response, with the restart counter cleared, in the order of the
    requests; the cache of serving gateways and the database change as the sequence of
    observations says: an unknown gateway is filed, a known one gets a new expiry, and
    one whose counter differs from the filed one has its sessions ended. *)
Theorem echo_burst_refines (now : Z) (pinst : handle) (t : sgw_peers) (c : ctx D) :
  let pkts := take 32 (q_packets (ingress (c_node c))) in
  (forall n, malloc n = true) -> peers_wf (peers t) -> Forall echo_request pkts -> pkts <> [] ->
  0 <= q_count (egress (c_node c)) -> q_count (egress (c_node c)) + 64 <= RING_SIZE_MAX ->
  exists t' c', event_gtpc_echo_req malloc now pinst (Some t) c = Ok (OK, Some t', c') /\ peers_wf (peers t') /\
    (peer_map (peers t'), c_db c') = (foldl (echo_spec now) (peer_map (peers t), c_db c, NO_COUNTER) pkts).1 /\
    q_packets (egress (c_node c')) = q_packets (egress (c_node c)) ++ echo_replies pkts /\
    q_packets (ingress (c_node c')) = drop 32 (q_packets (ingress (c_node c))) /\
    outstanding (c_mem c') = ((outstanding (c_mem c)).1, u64 ((outstanding (c_mem c)).2 + zlen pkts)).
Proof.
  intros pkts Hm Hw Hall Hne H0 Hr. unfold event_gtpc_echo_req, pgw_deq_burst, deq_queue. cbn [queue_of]. rewrite deq_loop_eq by lia.
  change (Z.to_nat (32 - 0)) with 32%nat. fold pkts.
  assert (Hp : 0 < zlen pkts) by (destruct pkts; [done|cbn [length]; lia]). rewrite (proj2 (Z.ltb_lt _ _)) by done.
  assert (Hle : zlen pkts <= 32) by (unfold pkts; rewrite length_take; lia).
  match goal with |- context [set_node ?n c] => set (c0 := set_node n c) end.
  destruct (echo_fold malloc Hm now pinst pkts (mk_echo _ c0 (Some t) NO_COUNTER) t) as (st & t' & -> & Ep & Hw' & M & N & O); [done..|]. res_simpl.
  cbn [e_ctx restart_counter] in *. exists t', (e_ctx st). rewrite Ep. split; [done|]. split; [done|]. change (c_db c0) with (c_db c) in M. rewrite <-M. split; [done|].
  assert (Hlen : zlen (echo_replies pkts) = 2 * zlen pkts).
  { clear. unfold echo_replies. induction pkts as [|p l IH]; [done|]. rewrite fmap_cons. cbn [concat]. rewrite length_app. cbn [echo_pair fmap list_fmap length] in *. lia. }
  destruct (send_all_room (c_node c0) (echo_replies pkts)) as (E1 & _ & E3); [done|change (egress (c_node c0)) with (egress (c_node c)); lia|].
  rewrite N, E1, E3. done.
Qed.

(** a run of the timer: every master row of the keepalive table gets one echo
    request, GTP-C or GTP-U as the row says, to its destination from its source,
    numbered in sequence, and is marked as waited for; no key stays behind, and the
    sequence numbers stay in their range. *)
Theorem timer_probes_all (pinst : handle) (l : list poll) (st : timer_state D) (db1 : D) :
  (forall n, malloc n = true) -> (forall q db, (db_query q db).1 = 0) ->
  db_select KEEPALIVE_LOOKUP 0 (c_db (t_ctx st)) = (Some (to_row <$> l), db1) ->
  Forall poll_ok l -> upkeys st = [] -> seq_ok (gtpc_seqnum st) -> seq_ok (gtpu_seqnum st) ->
  0 <= q_count (egress (c_node (t_ctx st))) -> q_count (egress (c_node (t_ctx st))) + zlen l <= RING_SIZE_MAX ->
  exists st', event_timer malloc pinst st = Ok (ERR, st') /\ upkeys st' = [] /\
    q_packets (egress (c_node (t_ctx st'))) = q_packets (egress (c_node (t_ctx st))) ++ probes l (gtpc_seqnum st) (gtpu_seqnum st) /\
    c_db (t_ctx st') = foldl (fun db p => (db_query (snprintf 1023 (wait_sql pinst p)) db).2) db1 l /\
    (gtpc_seqnum st', gtpu_seqnum st') = seqs_after l (gtpc_seqnum st) (gtpu_seqnum st) /\
    seq_ok (gtpc_seqnum st') /\ seq_ok (gtpu_seqnum st').
Proof.
  intros Hm Hq Hsel Hl Hk Hc Hu H0 Hr. unfold event_timer. rewrite Hsel.
  destruct (on_rec_fold malloc Hm l (mk_timer _ (set_db db1 (t_ctx st)) (upkeys st) (gtpc_seqnum st) (gtpu_seqnum st)))
    as (s & -> & _ & S1 & S2); [done..|]. res_simpl. cbn [upkeys t_ctx c_db c_node gtpc_seqnum gtpu_seqnum] in *. rewrite Hk. cbn [app].
  change (c_db (set_db db1 (t_ctx st))) with db1. rewrite update_keys_ok by done. res_simpl. eexists. split; [done|]. split; [done|].
  cbn [t_ctx c_db c_node gtpc_seqnum gtpu_seqnum set_db]. destruct (send_all_room (c_node (t_ctx st)) (probes l (gtpc_seqnum st) (gtpu_seqnum st))) as (E & _); [done| |].
  { assert (Lp : forall l cq uq, length (probes l cq uq) = length l) by (induction l0 as [|p l0 IH]; intros; cbn [probes length]; [done|by rewrite IH]). by rewrite Lp. }
  split; [done|]. split; [done|]. split; [by destruct (seqs_after _ _ _)|done].
Qed.

(** a keepalive round trip: the probe of a row, received by another gateway that runs
    this code, is answered, and the answer, received back, marks exactly that row as
    alive: the row the timer marked as waited for, for GTP-C and for GTP-U. *)
Theorem keepalive_closes (now now' : Z) (peer pinst : handle) (p : poll) (cq uq : Z) (st st2 : echo_state D) (t : sgw_peers) :
  (forall n, malloc n = true) -> poll_ok p -> seq_ok cq -> le_load (po_src p) <> 0 -> le_load (po_src p) <> 2 ^ 32 - 1 ->
  e_peers st = Some t -> peers_wf (peers t) ->
  0 <= q_count (egress (c_node (e_ctx st))) -> q_count (egress (c_node (e_ctx st))) + 2 <= RING_SIZE_MAX ->
  if po_gtpc p then
    exists st1 q r st3, gtpc_echo malloc now peer st (on_wire (probe p cq uq)) = Ok st1 /\
      q_packets (egress (c_node (e_ctx st1))) = q_packets (egress (c_node (e_ctx st))) ++ [q; r] /\
      gtpc_echo malloc now' pinst st2 (on_wire r) = Ok st3 /\
      c_db (e_ctx st3) = (db_query (snprintf 1023 (ok_sql pinst p)) (c_db (e_ctx st2))).2
  else
    exists c1 q r c3, gtpu_echo malloc peer (e_ctx st) (on_wire (probe p cq uq)) = Ok c1 /\
      q_packets (egress (c_node c1)) = q_packets (egress (c_node (e_ctx st))) ++ [q; r] /\
      gtpu_echo malloc pinst (e_ctx st2) (on_wire r) = Ok c3 /\
      c_db c3 = (db_query (snprintf 1023 (ok_sql pinst p)) (c_db (e_ctx st2))).2.
Proof.
  intros Hm Hp Hs H0 H1 Ep Hw Hq Hr. destruct (po_gtpc p) eqn:Hg; [by eapply gtpc_closes|by apply gtpu_closes].
Qed.
End claims.

(** *** Examples *)
Definition always (_ : nat) : bool := true.
#[local] Instance keepalive_db : Database (list cstring) := {
  db_query q db := (0, db ++ [q]);
  db_bind _ _ _ := true;
  db_select _ _ db := (Some (to_row <$> [mk_poll [10; 0; 0; 2] 2123 [10; 0; 0; 1] 2123 true; mk_poll [10; 0; 0; 2] 2152 [10; 0; 0; 1] 2152 false]), db);
}.
Definition echo_gateway : handle :=
  mk_handle ON [] (mk_server (sockaddr_of [10; 0; 0; 1] 2123) 5 GTPC_PORT (lit "10.0.0.1") (lit "gw"))
    (mk_server (sockaddr_of [10; 0; 0; 1] 2152) 6 GTPU1_PORT (lit "10.0.0.1") (lit "gw")) 1 1.
Definition poll1 : poll := mk_poll [10; 0; 0; 2] 2123 [10; 0; 0; 1] 2123 true.
Definition idle (l : list packet_t) : ctx (list cstring) := mk_ctx _ memory0 (mk_node (mk_queue l 0 (zlen l)) queue0) [].
Lemma poll1_ok : poll_ok poll1.
Proof. split; [split; [done|by apply bytes_okb_ok]|]. split; [split; [done|by apply bytes_okb_ok]|]. cbn. lia. Qed.

Lemma echo_burst_refines_witness : exists t' c',
  event_gtpc_echo_req always 1000 echo_gateway (Some (mk_peers [] 0 0)) (idle [probe poll1 1 1]) = Ok (OK, Some t', c') /\
  peer_map (peers t') = {[16777226 := (8, 1000)]} /\ q_packets (egress (c_node c')) = echo_replies [probe poll1 1 1].
Proof.
  destruct (echo_burst_refines always 1000 echo_gateway (mk_peers [] 0 0) (idle [probe poll1 1 1])) as (t' & c' & E & _ & M & Q & _);
    [reflexivity|apply NoDup_nil_2| |discriminate|vm_compute; congruence|vm_compute; congruence|].
  - apply Forall_cons_2; [|apply Forall_nil_2]. apply probe_request; [apply poll1_ok|reflexivity|split; vm_compute; congruence|vm_compute; congruence|vm_compute; congruence].
  - exists t', c'. split; [exact E|]. split; [|exact Q]. injection M as M _. rewrite M. vm_compute. reflexivity.
Defined.

Lemma timer_probes_all_witness : exists st',
  event_timer always echo_gateway (mk_timer _ (idle []) [] 1 1) = Ok (ERR, st') /\ upkeys st' = [] /\
  length (q_packets (egress (c_node (t_ctx st')))) = 2%nat /\ seq_ok (gtpc_seqnum st') /\ seq_ok (gtpu_seqnum st').
Proof.
  destruct (timer_probes_all always echo_gateway [poll1; mk_poll [10; 0; 0; 2] 2152 [10; 0; 0; 1] 2152 false] (mk_timer _ (idle []) [] 1 1) [])
    as (st' & E & K & Q & _ & _ & S1 & S2); [reflexivity|reflexivity|reflexivity| |reflexivity|split; vm_compute; congruence|split; vm_compute; congruence|vm_compute; congruence|vm_compute; congruence|].
  - apply Forall_cons_2; [apply poll1_ok|]. apply Forall_cons_2; [|apply Forall_nil_2].
    split; [split; [reflexivity|apply bytes_okb_ok; reflexivity]|]. split; [split; [reflexivity|apply bytes_okb_ok; reflexivity]|]. cbn. lia.
  - exists st'. split; [exact E|]. split; [exact K|]. split; [rewrite Q; reflexivity|]. split; assumption.
Defined.

Lemma keepalive_closes_witness : exists st1 q r st3,
  gtpc_echo always 1000 echo_gateway (mk_echo _ (idle []) (Some (mk_peers [] 0 0)) NO_COUNTER) (on_wire (probe poll1 1 1)) = Ok st1 /\
  q_packets (egress (c_node (e_ctx st1))) = [] ++ [q; r] /\
  gtpc_echo always 2000 echo_gateway (mk_echo _ (idle []) None NO_COUNTER) (on_wire r) = Ok st3 /\
  c_db (e_ctx st3) = [snprintf 1023 (ok_sql echo_gateway poll1)].
Proof.
  pose proof (keepalive_closes always (DB := keepalive_db) 1000 2000 echo_gateway echo_gateway poll1 1 1
    (mk_echo _ (idle []) (Some (mk_peers [] 0 0)) NO_COUNTER) (mk_echo _ (idle []) None NO_COUNTER) (mk_peers [] 0 0)) as T.
  cbn [po_gtpc poll1] in T. apply T; [reflexivity|apply poll1_ok|split; vm_compute; congruence|vm_compute; congruence|
    vm_compute; congruence|reflexivity|apply NoDup_nil_2|vm_compute; congruence|vm_compute; congruence].
Defined.

(** A request without a recovery item is observed with the counter of the request
    before it in the burst, which came from another gateway: the sessions of a gateway
    that did not restart are ended. *)
Definition plain_request : packet_t := mk_packet_t 8 [0x40; 1; 0; 4; 0; 0; 9; 0] (sockaddr_of [10; 0; 0; 7] 2123) 16 (sockaddr_of [10; 0; 0; 2] 2123) 16.
Lemma stale_counter_ends_sessions :
  match event_gtpc_echo_req always 1000 echo_gateway (Some (mk_peers [mk_peer (le_load [10; 0; 0; 7]) 3 0] 1 0)) (idle [probe poll1 1 1; plain_request]) with
  | Ok (_, _, c) => c_db c = [ECHO_RESTART_UPD_SQL (lit "10.0.0.7") 8]
  | Fault _ => False
  end.
Proof. vm_compute. reflexivity. Qed.
End Properties.
