(* ===== verification/CtrlRouter.v ===== *)
(** * Control plane: router advertisements and error indications

    event_gtpu_other.c of ctrlplane/src/pgw/event: the node that gets the GTP-U
    messages other than echoes.  A G-PDU that carries an ICMPv6 router solicitation is
    answered with a router advertisement for the prefix of its session; an error
    indication ends the session it names.

    [mlen], the least length of a solicitation, is a variable of the burst loop that
    an error indication overwrites: it is part of the loop's state.  The buffer of the
    checksum is not: the part the checksum covers is rewritten for each packet.  The
    checksum functions of the file are the ones of the data plane (Packet.v). *)

From S2P Require Import Prelude TextParse Packet Gtpc GtpcItems GtpcParse CtrlNode CtrlSession CtrlAnswers CtrlKeepalive.

(** ** Constants and layouts *)
Definition IPP_ICMP6 := 58.
Definition IPV6_VERSION := 0x60.
Definition GTPU_G_PDU := 255.
Definition GTPU_ERR_IND := 26.
Definition ND_ROUTER_SOLICIT := 133.
Definition ND_ROUTER_ADVERT := 134.
Definition ND_RA_FLAG_OTHER := 0x40.
Definition ND_RA_FLAG_RTPREF_LOW := 0x18.
Definition ND_OPT_MTU := 5.
Definition ND_OPT_PREFIX_INFORMATION := 3.
Definition ND_OPT_PI_FLAG_AUTO := 0x40.
Definition sizeof_ip6_hdr := 40.
Definition sizeof_icmp6_hdr := 8.
Definition sizeof_nd_router_advert := 16.
Definition sizeof_nd_opt_mtu := 8.
Definition sizeof_nd_opt_prefix_info := 32.
Definition sizeof_err_indication := 12.
(** Positions in the packet: the headers, then the members. *)
Definition at_ip6 := sizeof_gtpu_header.
Definition at_icmp6 := at_ip6 + sizeof_ip6_hdr.
Definition at_mtu := at_icmp6 + sizeof_nd_router_advert.
Definition at_prefix := at_mtu + sizeof_nd_opt_mtu.
Definition o_vfc := at_ip6.
Definition o_plen := at_ip6 + 4.
Definition o_nxt := at_ip6 + 6.
Definition o_ip6_src := at_ip6 + 8.
Definition o_ip6_dst := at_ip6 + 24.
Definition o_icmp6_cksum := at_icmp6 + 2.
Definition o_nd_opt_pi_prefix := at_prefix + 16.

Definition ipv6_src_addr : list Z := [0xfe; 0x80; 0; 0; 0; 0; 0; 0; 0; 0; 0; 0; 0; 0; 0; 0x02].
Definition ipv6_dst_addr : list Z := [0xff; 0x02; 0; 0; 0; 0; 0; 0; 0; 0; 0; 0; 0; 0; 0; 0x01].
Definition ERROR_IND_UPD_SQL (teid : Z) (ip_ : cstring) : cstring :=
  lit "UPDATE tunnel SET `active` = 0 WHERE sgw_gtpu_teid = " ++ print_u teid ++ lit " AND sgw_gtpu_ipv = '" ++ ip_ ++ lit "' ".

(** ** A burst of messages *)
Section other.
Variable malloc : nat -> bool.
Context {D : Type} `{DB : Database D}.
Variable pinst : handle.
Implicit Types (c : ctx D) (pkt : packet_t).

(** The test on a G-PDU; what is read behind a short packet is a fault. *)
Definition is_solicit (mlen : Z) (b : list Z) : res bool :=
  l ← rd 2 b o_length;
  if ntohs l <? mlen then Ok false else
  v ← rd 1 b o_vfc;
  if negb (v =? IPV6_VERSION) then Ok false else
  n ← rd 1 b o_nxt;
  if negb (n =? IPP_ICMP6) then Ok false else
  p ← rd 2 b o_plen;
  if ntohs p <? sizeof_icmp6_hdr then Ok false else
  t ← rd 1 b at_icmp6;
  Ok (t =? ND_ROUTER_SOLICIT).

(** The advertisement is written over the copy of the solicitation. *)
Definition advert_len := sizeof_nd_router_advert + sizeof_nd_opt_mtu + sizeof_nd_opt_prefix_info.
Definition write_advert (b : list Z) : res (list Z) :=
  b ← wr_bytes b o_ip6_src ipv6_src_addr;
  b ← wr_bytes b o_ip6_dst ipv6_dst_addr;
  b ← wr 2 b o_plen (htons advert_len);
  b ← wr 1 b at_icmp6 ND_ROUTER_ADVERT;
  b ← wr 2 b o_icmp6_cksum 0;
  b ← wr 1 b (at_icmp6 + 4) 0x40;
  b ← wr 1 b (at_icmp6 + 5) (Z.lor ND_RA_FLAG_OTHER ND_RA_FLAG_RTPREF_LOW);
  b ← wr 2 b (at_icmp6 + 6) (htons 1800);
  b ← wr 4 b (at_icmp6 + 8) 0;
  b ← wr 4 b (at_icmp6 + 12) 0;
  b ← wr_bytes b at_mtu (bzero sizeof_nd_opt_mtu);
  b ← wr 1 b at_mtu ND_OPT_MTU;
  b ← wr 1 b (at_mtu + 1) (Z.shiftr sizeof_nd_opt_mtu 3);
  b ← wr 4 b (at_mtu + 4) (htonl 1500);
  b ← wr_bytes b at_prefix (bzero sizeof_nd_opt_prefix_info);
  b ← wr 1 b at_prefix ND_OPT_PREFIX_INFORMATION;
  b ← wr 1 b (at_prefix + 1) (Z.shiftr sizeof_nd_opt_prefix_info 3);
  b ← wr 1 b (at_prefix + 2) 64;
  b ← wr 1 b (at_prefix + 3) ND_OPT_PI_FLAG_AUTO;
  b ← wr 4 b (at_prefix + 4) (htonl 86400);
  b ← wr 4 b (at_prefix + 8) (htonl 43200);
  wr 2 b o_length (htons (sizeof_ip6_hdr + advert_len)).
(** The /64 of a session: the unit of the gateway, then the last three octets of the
    session's address. *)
Definition prefix_of (ueipv : list Z) : list Z :=
  [0x24; 0x01; 0xf1; 0x00; Z.lor (Z.shiftl (Z.land 0x0f (ext_set_num pinst)) 4) (Z.land 0x0f (pgw_unit_num pinst))] ++
  slice 1 3 ueipv ++ bzero 8.
(** [icmpv6_pseudo_header_t]. *)
Definition pseudo_header (plen nxt : Z) : list Z :=
  ipv6_src_addr ++ ipv6_dst_addr ++ le_store 2 plen ++ le_store 2 (htons nxt).
Definition finish_advert (b : list Z) (ueipv : list Z) : res (list Z) :=
  b ← wr_bytes b o_nd_opt_pi_prefix (prefix_of ueipv);
  plen ← rd 2 b o_plen;
  nxt ← rd 1 b o_nxt;
  icmp ← rd_bytes (ntohs plen) b at_icmp6;
  let buffer := pseudo_header plen nxt ++ icmp in
  checksum ← _checksum buffer (36 + ntohs plen) 0;
  wr 2 b o_icmp6_cksum (_wrapsum checksum).

(** Whether the burst loop goes on. *)
Inductive turn := Next | Leave.
Definition on_solicit pkt c : res (turn * ctx D) :=
  match pgw_alloc_packet malloc (sizeof_gtpu_header + sizeof_ip6_hdr + advert_len) (c_mem c) with
  | (_, None, _) => Fault RtePanic
  | (_, Some packet, s) =>
    let c := set_mem s c in
    bs ← rd_bytes (Z.min (datalen pkt) (datalen packet)) (data pkt) 0;
    b ← wr_bytes (data packet) 0 bs;
    sa ← copy_addr (p_saddr packet) (p_saddr pkt) (p_saddrlen pkt);
    ca ← copy_addr (p_caddr packet) (p_caddr pkt) (p_caddrlen pkt);
    b ← write_advert b;
    l ← rd 2 b o_length;
    let send b := pgw_swap_address (mk_packet_t (ntohs l + sizeof_gtpu_header) b sa (p_saddrlen pkt) ca (p_caddrlen pkt)) in
    t ← rd 4 b o_teid;
    '(cs, c) ← lookup_tunnel ICMPV6_RA_LOOKUP (ntohl t) session0 c;
    if any_of HAVE_RECORD cs then
      let ueipv := ntohl (le_load (ue_ipv_n (ps cs))) in
      b ← wr 4 b o_teid (sgw_c_teid cs);
      if negb (Z.shiftr ueipv 24 =? 0) then Ok (Leave, c) else
      b ← finish_advert b (le_store 4 (htonl (Z.lor ueipv (Z.shiftl PGW_IP8 24))));
      let '(rc, n) := pgw_enq EGRESS (send b) (c_node c) in
      if negb (rc =? OK) then Fault RtePanic else Ok (Next, set_node n c)
    else Ok (Next, set_mem (pgw_free_packet (Some packet) (c_mem c)).2 c)
  end.

(** An error indication: its length is the one its flags say. *)
Definition errind_at (f : Z) : Z := sizeof_gtpu_header + (if negb (Z.land f 7 =? 0) then 4 else 0).
Definition on_error_indication (mlen : Z) pkt c : res (ctx D) :=
  if mlen + sizeof_err_indication =? datalen pkt then
    t ← rd 4 (data pkt) (mlen + 1);
    a ← rd_bytes 4 (data pkt) (mlen + 8);
    let cip := snprintf 31 (inet_ntoa a) in
    let '(_, c) := query (ERROR_IND_UPD_SQL (ntohl t) cip) c in Ok c
  else Ok c.

Definition gtpu_other (mlen : Z) pkt c : res (turn * Z * ctx D) :=
  ty ← rd 1 (data pkt) o_type;
  step ←
    (if ty =? GTPU_G_PDU then
       rs ← is_solicit mlen (data pkt);
       if (rs : bool) then '(tn, c) ← on_solicit pkt c; Ok (tn, mlen, c) else Ok (Next, mlen, c)
     else if ty =? GTPU_ERR_IND then
       f ← rd 1 (data pkt) o_flags;
       let mlen := errind_at f in
       c ← on_error_indication mlen pkt c; Ok (Next, mlen, c)
     else Ok (Next, mlen, c));
  match (step : turn * Z * ctx D) with
  | (Leave, mlen, c) => Ok (Leave, mlen, c)
  | (Next, mlen, c) => Ok (Next, mlen, set_mem (pgw_free_packet (Some pkt) (c_mem c)).2 c)
  end.
Fixpoint gtpu_other_loop (pkts : list packet_t) (mlen : Z) c : res (ctx D) :=
  match pkts with
  | [] => Ok c
  | pkt :: pkts =>
    '(tn, mlen, c) ← gtpu_other mlen pkt c;
    match tn with Next => gtpu_other_loop pkts mlen c | Leave => Ok c end
  end.
Definition event_gtpu_other_req c : res (Z * ctx D) :=
  let '(pkts, n) := pgw_deq_burst INGRESS 32 (c_node c) in
  let c := set_node n c in
  if 0 <? zlen pkts then c ← gtpu_other_loop pkts (sizeof_icmp6_hdr + sizeof_ip6_hdr) c; Ok (OK, c) else Ok (ERR, c).
End other.

(** ** What an advertisement is

    [req] is the solicitation: its GTP-U flags, version and flow, hop limit and ICMP
    code are kept. *)
Definition octet (i : nat) (b : list Z) : Z := nth i b 0.
Definition icmp_advert (code : Z) (cksum prefix : list Z) : list Z :=
  [ND_ROUTER_ADVERT; code] ++ cksum ++ [0x40; 0x58; 7; 8; 0; 0; 0; 0; 0; 0; 0; 0] ++
  [ND_OPT_MTU; 1; 0; 0; 0; 0; 5; 220] ++
  [ND_OPT_PREFIX_INFORMATION; 4; 64; ND_OPT_PI_FLAG_AUTO; 0; 1; 81; 128; 0; 0; 168; 192; 0; 0; 0; 0] ++ prefix ++ bzero 8.
Definition icmp_pseudo : list Z := ipv6_src_addr ++ ipv6_dst_addr ++ [0; 56; 0; IPP_ICMP6].
Definition advert (req tid prefix : list Z) : list Z :=
  let icmp0 := icmp_advert (octet 49 req) [0; 0] prefix in
  [octet 0 req; octet 1 req; 0; 96] ++ tid ++
  [octet 8 req; octet 9 req; octet 10 req; octet 11 req; 0; 56; octet 14 req; octet 15 req] ++ ipv6_src_addr ++ ipv6_dst_addr ++
  icmp_advert (octet 49 req) (be_store 2 (rfc1071 (icmp_pseudo ++ icmp0))) prefix.

(** A list of known length is made of its elements. *)
Ltac explode b H := let K := fresh in
  assert (K := f_equal Z.to_nat H); rewrite Nat2Z.id in K; cbv in K; clear H;
  repeat (destruct b as [|? b]; [discriminate K|apply Nat.succ_inj in K]); destruct b; [|discriminate K]; clear K.

Definition skeleton (b : list Z) : list Z :=
  [octet 0 b; octet 1 b; 0; 96; octet 4 b; octet 5 b; octet 6 b; octet 7 b;
   octet 8 b; octet 9 b; octet 10 b; octet 11 b; 0; 56; octet 14 b; octet 15 b] ++ ipv6_src_addr ++ ipv6_dst_addr ++
  icmp_advert (octet 49 b) [0; 0] (bzero 8).
Lemma write_advert_ok b : zlen b = 104 -> write_advert b = Ok (skeleton b).
Proof. intros H. explode b H. reflexivity. Qed.

Lemma icmp_advert_ok code cksum prefix :
  byte_ok code -> bytes_ok cksum -> bytes_ok prefix -> bytes_ok (icmp_advert code cksum prefix).
Proof. intros. unfold icmp_advert, ND_ROUTER_ADVERT, ND_OPT_MTU, ND_OPT_PREFIX_INFORMATION, ND_OPT_PI_FLAG_AUTO. bytes. Qed.
Lemma icmp_pseudo_ok : bytes_ok icmp_pseudo /\ Nat.Even (length icmp_pseudo).
Proof. split; [by apply bytes_okb_ok|by exists 18%nat]. Qed.

Definition advertised (pinst : handle) (a : list Z) : list Z := [0x24; 0x01; 0xf1; 0x00; unit_octet pinst] ++ slice 1 3 a.

(** The second half of the construction: the prefix of the session and the checksum. *)
Section layout.
Variables (x0 x1 y0 y1 y2 y3 x8 x9 x10 x11 x15 code : Z).
Definition laid_out (cksum prefix : list Z) : list Z :=
  [x0; x1; 0; 96; y0; y1; y2; y3; x8; x9; x10; x11; 0; 56; IPP_ICMP6; x15] ++ ipv6_src_addr ++ ipv6_dst_addr ++
  icmp_advert code cksum prefix.
Lemma laid_out_reads p : length p = 8%nat ->
  rd 2 (laid_out [0; 0] p) o_plen = Ok 14336 /\ rd 1 (laid_out [0; 0] p) o_nxt = Ok IPP_ICMP6 /\
  rd_bytes 56 (laid_out [0; 0] p) at_icmp6 = Ok (icmp_advert code [0; 0] p).
Proof. intros H. do 8 (destruct p as [|? p]; [discriminate H|]). destruct p; [|discriminate H]. done. Qed.
Lemma laid_out_prefix pinst a0 a1 a2 a3 :
  wr_bytes (laid_out [0; 0] (bzero 8)) o_nd_opt_pi_prefix (prefix_of pinst [a0; a1; a2; a3]) =
  Ok (laid_out [0; 0] (advertised pinst [a0; a1; a2; a3])).
Proof. reflexivity. Qed.
Lemma laid_out_cksum p v : length p = 8%nat ->
  wr 2 (laid_out [0; 0] p) o_icmp6_cksum (_wrapsum v) = Ok (laid_out (be_store 2 (Z.land v 0xffff)) p).
Proof.
  intros H. do 8 (destruct p as [|? p]; [discriminate H|]). destruct p; [|discriminate H].
  rewrite wr_ok by (vm_compute; congruence). unfold _wrapsum, htons. rewrite le_store_bswap.
  pose proof (length_be_store 2 (Z.land v 0xffff)) as L. destruct (be_store 2 _) as [|? [|? [|]]]; try discriminate L. reflexivity.
Qed.
Lemma finish_laid_out pinst a0 a1 a2 a3 v : let p := advertised pinst [a0; a1; a2; a3] in
  _checksum (icmp_pseudo ++ icmp_advert code [0; 0] p) 92 0 = Ok v ->
  finish_advert pinst (laid_out [0; 0] (bzero 8)) [a0; a1; a2; a3] = Ok (laid_out (be_store 2 (Z.land v 0xffff)) p).
Proof.
  intros p. unfold finish_advert. generalize _checksum. intros ck Hc. rewrite laid_out_prefix. fold p. res_simpl.
  destruct (laid_out_reads p eq_refl) as (-> & E2 & E3). res_simpl. rewrite E2. res_simpl.
  replace (ntohs 14336) with 56 by reflexivity.
  rewrite E3. res_simpl. replace (pseudo_header 14336 IPP_ICMP6) with icmp_pseudo by reflexivity. replace (36 + 56) with 92 by reflexivity. rewrite Hc. res_simpl.
  by apply laid_out_cksum.
Qed.
End layout.

Lemma finish_advert_ok pinst b tid a0 a1 a2 a3 : bytes_ok b -> zlen b = 104 -> bytes_ok [a0; a1; a2; a3] -> zlen tid = 4 ->
  octet 14 b = IPP_ICMP6 ->
  finish_advert pinst (splice o_teid tid (skeleton b)) [a0; a1; a2; a3] = Ok (advert b tid (advertised pinst [a0; a1; a2; a3])).
Proof.
  intros Hb Hl Ha Ht Hn. assert (Hc : byte_ok (octet 49 b)).
  { unfold octet. apply (proj1 (List.Forall_nth _ _) Hb). lia. }
  assert (Hu : bytes_ok (advertised pinst [a0; a1; a2; a3])).
  { pose proof (unit_octet_ok pinst). rewrite !Forall_cons in Ha. destruct Ha as (_ & A1 & A2 & A3 & _). unfold advertised. change (slice 1 3 [a0; a1; a2; a3]) with [a1; a2; a3]. bytes. }
  set (p := advertised pinst [a0; a1; a2; a3]) in *.
  destruct (checksum_ref (icmp_pseudo ++ icmp_advert (octet 49 b) [0; 0] p)) as (v & Ev & Hv).
  { apply Forall_app_2; [apply icmp_pseudo_ok|]. apply icmp_advert_ok; [done|by apply bytes_okb_ok|done]. }
  { exists 46%nat. reflexivity. }
  { reflexivity. }
  assert (E92 : zlen (icmp_pseudo ++ icmp_advert (octet 49 b) [0; 0] p) = 92) by reflexivity. rewrite E92 in Ev.
  destruct tid as [|y0 [|y1 [|y2 [|y3 [|]]]]]; cbn [length] in Ht; try lia.
  replace (splice o_teid [y0; y1; y2; y3] (skeleton b)) with
    (laid_out (octet 0 b) (octet 1 b) y0 y1 y2 y3 (octet 8 b) (octet 9 b) (octet 10 b) (octet 11 b) (octet 15 b) (octet 49 b) [0; 0] (bzero 8)).
  2: { unfold skeleton, laid_out. rewrite Hn. reflexivity. }
  rewrite (finish_laid_out _ _ _ _ _ _ _ _ _ _ _ _ pinst a0 a1 a2 a3 v Ev). fold p. unfold advert. rewrite Hv, Hn. reflexivity.
Qed.

(** ** Fates of a G-PDU *)
(** A G-PDU as the receive callback passes it on. *)
Record gpdu (pkt : packet_t) : Prop := {
  gp_net : from_network pkt;
  gp_len : datalen pkt = zlen (data pkt);
  gp_decl : 8 <= zlen (data pkt) /\ be_load (slice o_length 2 (data pkt)) + 8 = zlen (data pkt);
  gp_type : octet 1 (data pkt) = GTPU_G_PDU;
}.
Definition solicitation (b : list Z) : bool :=
  (48 <=? be_load (slice o_length 2 b)) && (octet 8 b =? IPV6_VERSION) && (octet 14 b =? IPP_ICMP6) &&
  (8 <=? be_load (slice 12 2 b)) && (octet 48 b =? ND_ROUTER_SOLICIT).

Lemma rd_octet b (i : nat) : Z.of_nat i < zlen b -> rd 1 b (Z.of_nat i) = Ok (octet i b).
Proof.
  intros Hi. rewrite rd_ok by lia. unfold octet. rewrite <-(take_drop i b) at 1. rewrite slice_app_r by (rewrite length_take; lia).
  rewrite length_take, Nat.min_l, Z.sub_diag by lia. rewrite <-(take_drop i b) at 2.
  rewrite app_nth2, length_take, Nat.min_l, Nat.sub_diag by (rewrite ?length_take; lia).
  destruct (drop i b) as [|x r] eqn:E; [apply (f_equal length) in E; rewrite length_drop in E; cbn [length] in E; lia|].
  change (slice 0 (Z.of_nat 1) (x :: r)) with [x]. cbn [le_load nth]. f_equal. lia.
Qed.

Lemma is_solicit_ok pkt : gpdu pkt -> is_solicit 48 (data pkt) = Ok (solicitation (data pkt)).
Proof.
  intros [[_ _ Hb] _ [H8 Hl] _]. unfold is_solicit, solicitation. set (b := data pkt) in *. clearbody b.
  destruct (rd_be b o_length) as (v & -> & Ev); [unfold o_length; lia|unfold o_length; lia|done|]. res_simpl. rewrite Ev, Z.ltb_antisym.
  destruct (48 <=? _) eqn:E1; [|done]. to_prop. cbn [negb andb].
  change o_vfc with (Z.of_nat 8). rewrite rd_octet by lia. res_simpl. destruct (_ =? IPV6_VERSION); [|done]. cbn [negb andb].
  change o_nxt with (Z.of_nat 14). rewrite rd_octet by lia. res_simpl. destruct (_ =? IPP_ICMP6); [|done]. cbn [negb andb].
  destruct (rd_be b o_plen) as (w & -> & Ew); [unfold o_plen, at_ip6, sizeof_gtpu_header; lia|unfold o_plen, at_ip6, sizeof_gtpu_header; lia|done|].
  res_simpl. rewrite Ew, Z.ltb_antisym. change o_plen with 12. change sizeof_icmp6_hdr with 8. destruct (8 <=? _); [|done]. cbn [negb andb].
  change at_icmp6 with (Z.of_nat 48). rewrite rd_octet by lia. done.
Qed.

(** A G-PDU is answered with an advertisement, or dropped; a solicitation of a session
    outside the address pool ends the burst. *)
Inductive fate := Answered (p : packet_t) | Dropped | Stuck.
(** What a fate adds to the packets in use. *)
Definition balance (f : fate) : Z := match f with Answered _ => 0 | Dropped => -1 | Stuck => 1 end.
Definition replies (l : list fate) : list packet_t := omap (fun f => match f with Answered p => Some p | _ => None end) l.
Definition balances (l : list fate) : Z := foldr (fun f x => balance f + x) 0 l.

(** [k] more packets are in use. *)
Definition used (s s' : gtp_memory) (k : Z) : Prop := outstanding s' = ((outstanding s).1, u64 ((outstanding s).2 + k)).
Lemma used_alloc s : used s (count_pgw 1 0 0 (next_malloc s)) 1.
Proof. by apply outstanding_alloc. Qed.
Lemma used_free s : used s (count_pgw 0 1 0 s) (-1).
Proof.
  unfold used, outstanding, count_pgw. cbn. f_equal. unfold wrap. rewrite ?Z.add_0_r, Zminus_mod_idemp_l, Zminus_mod_idemp_r, Zplus_mod_idemp_l. f_equal. lia.
Qed.
Lemma used_trans s s' s'' k k' : used s s' k -> used s' s'' k' -> used s s'' (k + k').
Proof. unfold used. intros -> ->. cbn [fst snd]. f_equal. unfold wrap. rewrite Zplus_mod_idemp_l. f_equal. lia. Qed.
Lemma used_0 s : used s s 0.
Proof. unfold used, outstanding. cbn [fst snd]. rewrite Z.add_0_r. f_equal. unfold wrap. by rewrite Zmod_mod. Qed.

(** The one's complement sum over an advertisement and its pseudo header is all ones. *)
Definition checksum_valid (b : list Z) : Prop := oc_sum (be_words (icmp_pseudo ++ drop 48 b)) = 0xffff.
Lemma advert_valid req tid p : bytes_ok req -> (49 < length req)%nat -> zlen tid = 4 -> bytes_ok p -> length p = 8%nat ->
  checksum_valid (advert req tid p).
Proof.
  intros Hr Hl Ht Hp Lp. assert (Hc : byte_ok (octet 49 req)) by (unfold octet; apply (proj1 (List.Forall_nth _ _) Hr); lia).
  unfold checksum_valid, advert. destruct tid as [|y0 [|y1 [|y2 [|y3 [|]]]]]; cbn [length] in Ht; try lia. revert Hc. generalize (octet 49 req) as code.
  intros code Hc. set (ck := be_store 2 _). cbn [app ipv6_src_addr ipv6_dst_addr drop].
  assert (Hb : bytes_ok (icmp_pseudo ++ icmp_advert code [0; 0] p)).
  { apply Forall_app_2; [apply icmp_pseudo_ok|]. apply icmp_advert_ok; [done|by apply bytes_okb_ok|done]. }
  assert (Le : zlen (icmp_pseudo ++ icmp_advert code [0; 0] p) = 92) by (unfold icmp_advert; rewrite !length_app, Lp; reflexivity).
  destruct (checksum_ref (icmp_pseudo ++ icmp_advert code [0; 0] p)) as (v & Ev & Hv); [done|exists 46%nat; lia|lia|].
  unfold icmp_advert in *. set (l2 := [0x40; 0x58; 7; 8; 0; 0; 0; 0; 0; 0; 0; 0] ++ _) in *.
  assert (Esh : forall x, icmp_pseudo ++ [ND_ROUTER_ADVERT; code] ++ x ++ l2 = (icmp_pseudo ++ [ND_ROUTER_ADVERT; code]) ++ x ++ l2) by (intros; by rewrite <-app_assoc).
  rewrite drop_0, (Esh ck). rewrite (Esh [0; 0]) in *.
  assert (L2 : zlen l2 = 52) by (rewrite !length_app in Le; cbn [length] in Le; change (length icmp_pseudo) with 36%nat in Le; lia).
  replace ck with (le_store 2 (_wrapsum v)).
  - apply stored_checksum_valid; [done|by exists 19%nat|exists 26%nat; lia| |].
    + rewrite L2. reflexivity.
    + rewrite L2. rewrite Le in Ev. exact Ev.
  - unfold _wrapsum, htons. rewrite le_store_bswap, Hv. unfold ck. by rewrite (Esh [0; 0]).
Qed.

Section router_proofs.
Variable malloc : nat -> bool.
Context {D : Type} `{DB : Database D}.
Hypothesis Hm : forall n, malloc n = true.
Hypothesis Hbind : forall st k (db : D), db_bind st k db = true.
Variable pinst : handle.
Implicit Types (c : ctx D) (pkt : packet_t).

Definition found pkt (db : D) : session * D :=
  let '(rows, db) := db_select ICMPV6_RA_LOOKUP (be_load (slice o_teid 4 (data pkt))) db in
  (foldl (fun u r => on_tunnel_record r u) session0 (default [] rows), db).
Definition advertisement pkt (cs : session) : packet_t :=
  mk_packet_t 104 (advert (data pkt) (le_store 4 (sgw_c_teid cs)) (advertised pinst (ue_ipv_n (ps cs))))
    (p_caddr pkt) (p_caddrlen pkt) (p_saddr pkt) (p_saddrlen pkt).
Definition fate_of pkt (db : D) : fate * D :=
  if solicitation (data pkt) then
    let '(cs, db) := found pkt db in
    (if any_of HAVE_RECORD cs then
       if octet 0 (ue_ipv_n (ps cs)) =? 0 then Answered (advertisement pkt cs) else Stuck
     else Dropped, db)
  else (Dropped, db).
Fixpoint fates (pkts : list packet_t) (db : D) : list fate * D :=
  match pkts with
  | [] => ([], db)
  | pkt :: pkts =>
    let '(f, db) := fate_of pkt db in
    match f with Stuck => ([Stuck], db) | _ => let '(l, db) := fates pkts db in (f :: l, db) end
  end.

Lemma session0_wf : session_wf session0.
Proof. split; [apply parse_state0_wf|split; [done|by apply bytes_okb_ok]..]. Qed.
Lemma found_ok pkt c : let '(cs, db) := found pkt (c_db c) in
  lookup_tunnel ICMPV6_RA_LOOKUP (be_load (slice o_teid 4 (data pkt))) session0 c = Ok (cs, set_db db c) /\ session_wf cs.
Proof.
  unfold found, lookup_tunnel, pgw_mysql_execute. rewrite Hbind. cbn [negb]. destruct (db_select _ _ _) as [[rows|] db]; cbn [default].
  - split; [done|]. apply (records_ok rows session0 session0_wf).
  - split; [done|]. apply session0_wf.
Qed.

(** The copy of a solicitation keeps its first 56 octets. *)
Lemma copied (d : list Z) : bytes_ok d -> 56 <= zlen d ->
  let b := splice 0 (slice 0 (Z.min (zlen d) 104) d) (bzero 104) in
  rd_bytes (Z.min (zlen d) 104) d 0 = Ok (slice 0 (Z.min (zlen d) 104) d) /\
  wr_bytes (bzero 104) 0 (slice 0 (Z.min (zlen d) 104) d) = Ok b /\
  bytes_ok b /\ zlen b = 104 /\ forall i, (i < 56)%nat -> octet i b = octet i d.
Proof.
  intros Hd Hl b. assert (Ln : zlen (slice 0 (Z.min (zlen d) 104) d) = Z.min (zlen d) 104) by (apply zlen_slice; lia).
  split; [apply rd_bytes_ok; lia|]. assert (L0 : zlen (bzero 104) = 104) by reflexivity. split; [apply wr_bytes_ok; lia|].
  split; [apply Forall_splice; [by apply Forall_slice|by apply bytes_okb_ok]|].
  split; [unfold b; rewrite length_splice by lia; done|].
  intros i Hi. unfold octet, b, splice. change (Z.to_nat 0) with O. rewrite take_0, app_nil_l, app_nth1 by lia.
  unfold slice. change (Z.to_nat 0) with O. rewrite drop_0. rewrite <-(take_drop (Z.to_nat (Z.min (zlen d) 104)) d) at 3.
  rewrite app_nth1; [done|]. rewrite length_take. lia.
Qed.

Lemma advert_same b d tid p : (forall i, (i < 56)%nat -> octet i b = octet i d) -> advert b tid p = advert d tid p.
Proof. intros E. unfold advert. rewrite !E by lia. done. Qed.
Lemma skeleton_tid b d : zlen b = 104 -> bytes_ok d -> 56 <= zlen d -> (forall i, (i < 56)%nat -> octet i b = octet i d) ->
  exists t, rd 4 (skeleton b) o_teid = Ok t /\ ntohl t = be_load (slice o_teid 4 d).
Proof.
  intros Hb Hd Hl E. rewrite rd_ok by (vm_compute; congruence). eexists. split; [done|].
  change (slice o_teid (Z.of_nat 4) (skeleton b)) with [octet 4 b; octet 5 b; octet 6 b; octet 7 b]. rewrite !E by lia.
  do 8 (destruct d as [|? d]; [cbn [length] in Hl; lia|]). change (slice o_teid 4 _) with [z3; z4; z5; z6].
  unfold octet. cbn [nth]. unfold ntohl. apply bswap_load; [|done]. rewrite !Forall_cons in Hd. destruct Hd as (_ & _ & _ & _ & B0 & B1 & B2 & B3 & _). bytes.
Qed.

Lemma on_solicit_ok pkt c : gpdu pkt -> solicitation (data pkt) = true ->
  let '(f, db) := fate_of pkt (c_db c) in exists s,
  on_solicit malloc pinst pkt c =
    Ok (match f with Stuck => Leave | _ => Next end,
        mk_ctx _ s (match f with Answered p => (pgw_enq EGRESS p (c_node c)).2 | _ => c_node c end) db) /\
  used (c_mem c) s (match f with Dropped => 0 | _ => 1 end).
Proof.
  intros [[[Ls Es] [Lc Ec] Hd] Hl [H8 Hdecl] _] Hs. unfold fate_of. rewrite Hs. unfold solicitation in Hs. to_prop.
  destruct (copied (data pkt) Hd) as (E1 & E2 & Hb & Lb & Eo); [lia|]. set (b := splice 0 _ _) in *. clearbody b.
  destruct (skeleton_tid b (data pkt) Lb Hd) as (t & Et & Ht); [lia|done|].
  unfold on_solicit, pgw_alloc_packet. rewrite Hm. cbn [datalen data p_saddr p_caddr]. change (sizeof_gtpu_header + sizeof_ip6_hdr + advert_len) with 104.
  rewrite Hl, E1. res_simpl. rewrite E2. res_simpl. rewrite Es, Ec, !copy_addr_eq by done. res_simpl. rewrite write_advert_ok by done. res_simpl.
  assert (El : rd 2 (skeleton b) o_length = Ok (htons 96)) by reflexivity. rewrite El. res_simpl. rewrite Et. res_simpl. rewrite Ht.
  match goal with |- context [set_mem ?s c] => set (s1 := s) end.
  pose proof (found_ok pkt (set_mem s1 c)) as Hf. change (c_db (set_mem s1 c)) with (c_db c) in Hf. destruct (found pkt (c_db c)) as [cs db].
  destruct Hf as [-> [_ [La Ha] _ _]]. res_simpl. destruct (any_of HAVE_RECORD cs).
  2: { eexists. split; [reflexivity|]. apply (used_trans _ _ _ 1 (-1) (used_alloc _) (used_free _)). }
  rewrite wr_ok by (vm_compute; congruence). res_simpl.
  set (a := ue_ipv_n (ps cs)) in *. unfold advertisement. rewrite Es, Ec. fold a. clearbody a. destruct a as [|a0 [|a1 [|a2 [|a3 [|]]]]]; cbn [length] in La; try lia.
  destruct (ue_octets a0 a1 a2 a3 Ha) as [E0 Eu]. rewrite E0. unfold octet. cbn [nth]. destruct (Z.eqb_spec a0 0) as [->|Hn]; cbn [negb].
  2: { eexists. split; [reflexivity|]. apply used_alloc. }
  rewrite Eu by done. rewrite finish_advert_ok; [|done|done| |by rewrite length_le_store|].
  - res_simpl. rewrite (advert_same b (data pkt)) by done. eexists. split; [reflexivity|apply used_alloc].
  - rewrite !Forall_cons in Ha. destruct Ha as (_ & B1 & B2 & B3 & _). unfold PGW_IP8. bytes.
  - rewrite Eo by lia. done.
Qed.

Lemma gtpu_other_ok pkt c : gpdu pkt ->
  let '(f, db) := fate_of pkt (c_db c) in exists s,
  gtpu_other malloc pinst 48 pkt c =
    Ok (match f with Stuck => Leave | _ => Next end, 48,
        mk_ctx _ s (match f with Answered p => (pgw_enq EGRESS p (c_node c)).2 | _ => c_node c end) db) /\
  used (c_mem c) s (balance f).
Proof.
  intros Hg. pose proof Hg as [_ _ [H8 _] Ht]. unfold gtpu_other. change o_type with (Z.of_nat 1). rewrite rd_octet by lia. res_simpl.
  rewrite Ht. change (GTPU_G_PDU =? GTPU_G_PDU) with true. cbn match. rewrite is_solicit_ok by done. res_simpl.
  destruct (solicitation (data pkt)) eqn:Es.
  - pose proof (on_solicit_ok pkt c Hg Es) as H. destruct (fate_of pkt (c_db c)) as [f db]. destruct H as (s & -> & Hs). res_simpl.
    destruct f; cbn [balance] in *; (eexists; split; [reflexivity|]).
    + apply (used_trans _ _ _ 1 (-1) Hs (used_free _)).
    + apply (used_trans _ _ _ 0 (-1) Hs (used_free _)).
    + done.
  - unfold fate_of. rewrite Es. cbn match. eexists. split; [destruct c; reflexivity|apply used_free].
Qed.

Lemma gtpu_other_loop_ok pkts c : Forall gpdu pkts ->
  let '(l, db) := fates pkts (c_db c) in exists s,
  gtpu_other_loop malloc pinst pkts 48 c = Ok (mk_ctx _ s (send_all (c_node c) (replies l)) db) /\ used (c_mem c) s (balances l).
Proof.
  intros H. revert c. induction H as [|pkt pkts Hp _ IH]; intros c; cbn [fates gtpu_other_loop].
  { exists (c_mem c). split; [by destruct c|apply used_0]. }
  pose proof (gtpu_other_ok pkt c Hp) as Hs. destruct (fate_of pkt (c_db c)) as [f db]. destruct Hs as (s & -> & Hu). res_simpl.
  destruct f as [p| |].
  3: { exists s. split; [done|]. cbn [balances foldr balance] in *. done. }
  all: match goal with |- context [gtpu_other_loop _ _ _ _ ?c1] => specialize (IH c1) end; cbn [c_db c_mem c_node] in IH;
    destruct (fates pkts db) as [l db']; destruct IH as (s' & -> & Hu'); exists s'; (split; [reflexivity|exact (used_trans _ _ _ _ _ Hu Hu')]).
Qed.

Lemma replies_valid pkts (db : D) : Forall gpdu pkts ->
  Forall (fun r => datalen r = 104 /\ checksum_valid (data r)) (replies (fates pkts db).1).
Proof.
  intros H. revert db. induction H as [|pkt pkts Hp _ IH]; intros db; cbn [fates]; [constructor|].
  destruct (fate_of pkt db) as [f db1] eqn:Ef. destruct f as [p| |]; [| |constructor]; specialize (IH db1); destruct (fates pkts db1) as [l db2];
    cbn [fst replies omap list_omap] in *; [|exact IH]. constructor; [|exact IH].
  unfold fate_of in Ef. destruct (solicitation (data pkt)) eqn:Es; [|discriminate Ef].
  pose proof (found_ok pkt (mk_ctx _ memory0 (mk_node queue0 queue0) db)) as Hf. cbn [c_db] in Hf. destruct (found pkt db) as [cs db3].
  destruct Hf as [_ [_ [La Ha] _ _]]. destruct (any_of _ _); [|discriminate Ef]. destruct (octet 0 _ =? 0); [|discriminate Ef]. injection Ef as <- _.
  destruct Hp as [[_ _ Hd] _ [H8 Hl] _]. unfold solicitation in Es. to_prop. split; [done|]. apply advert_valid; [done|lia|by rewrite length_le_store| |].
  - pose proof (unit_octet_ok pinst). unfold advertised. apply Forall_app_2; [bytes|]. by apply Forall_slice.
  - unfold advertised. rewrite length_app. assert (zlen (slice 1 3 (ue_ipv_n (ps cs))) = 3) by (apply zlen_slice; lia). cbn [length]. lia.
Qed.
Lemma length_replies pkts (db : D) : zlen (replies (fates pkts db).1) <= zlen pkts.
Proof.
  revert db. induction pkts as [|pkt pkts IH]; intros db; cbn [fates]; [done|]. destruct (fate_of pkt db) as [f db1]. specialize (IH db1).
  destruct f as [p| |]; [| |cbn [fst replies omap list_omap length]; lia]; destruct (fates pkts db1) as [l db2]; cbn [fst replies omap list_omap length] in *; lia.
Qed.

(** *** Error indications *)
Record error_indication pkt : Prop := {
  ei_net : from_network pkt;
  ei_len : datalen pkt = zlen (data pkt);
  ei_decl : 8 <= zlen (data pkt);
  ei_type : octet 1 (data pkt) = GTPU_ERR_IND;
}.
(** The statement it runs, when it has the length of an error indication. *)
Definition errind_sql (b : list Z) : option cstring :=
  let at_ := if Z.land (octet 0 b) 7 =? 0 then 8 else 12 in
  if zlen b =? at_ + 12 then
    Some (snprintf 511 (ERROR_IND_UPD_SQL (be_load (slice (at_ + 1) 4 b)) (snprintf 31 (inet_ntoa (slice (at_ + 8) 4 b)))))
  else None.
Definition run_sql (db : D) (q : cstring) : D := (db_query q db).2.

Lemma errind_ok mlen pkt c : error_indication pkt -> exists mlen' s,
  gtpu_other malloc pinst mlen pkt c = Ok (Next, mlen', mk_ctx _ s (c_node c) (foldl run_sql (c_db c) (option_list (errind_sql (data pkt))))) /\
  used (c_mem c) s (-1).
Proof.
  intros [[_ _ Hd] Hl H8 Ht]. unfold gtpu_other. change o_type with (Z.of_nat 1). rewrite rd_octet by lia. res_simpl. rewrite Ht.
  change (GTPU_ERR_IND =? GTPU_G_PDU) with false. change (GTPU_ERR_IND =? GTPU_ERR_IND) with true. cbn match.
  change o_flags with (Z.of_nat 0). rewrite rd_octet by lia. res_simpl. unfold on_error_indication, errind_sql, errind_at.
  set (at_ := if Z.land (octet 0 (data pkt)) 7 =? 0 then 8 else 12).
  assert (Ea : sizeof_gtpu_header + (if negb (Z.land (octet 0 (data pkt)) 7 =? 0) then 4 else 0) = at_) by (unfold at_, sizeof_gtpu_header; by destruct (_ =? 0)).
  rewrite Ea. assert (Hat : 8 <= at_ <= 12) by (unfold at_; case_if; lia). clearbody at_. rewrite Hl, Z.eqb_sym. unfold sizeof_err_indication.
  destruct (zlen (data pkt) =? at_ + 12) eqn:El.
  2: { res_simpl. eexists _, _. split; [destruct c; reflexivity|apply used_free]. }
  to_prop. rewrite (rd_ok 4 (data pkt)) by lia. res_simpl. rewrite rd_bytes_ok by lia. res_simpl.
  assert (En : ntohl (le_load (slice (at_ + 1) (Z.of_nat 4) (data pkt))) = be_load (slice (at_ + 1) 4 (data pkt))).
  { unfold ntohl. apply bswap_load; [by apply Forall_slice|]. apply Nat2Z.inj. rewrite zlen_slice by lia. done. }
  rewrite En. unfold query.
  match goal with |- context [foldl run_sql ?d (option_list (Some ?q))] => change (foldl run_sql d (option_list (Some q))) with (run_sql d q) end. unfold run_sql. destruct (db_query _ _) as [rc db]. res_simpl.
  eexists _, _. split; [destruct c; reflexivity|apply used_free].
Qed.

Lemma errind_loop_ok pkts mlen c : Forall error_indication pkts -> exists s,
  gtpu_other_loop malloc pinst pkts mlen c = Ok (mk_ctx _ s (c_node c) (foldl run_sql (c_db c) (omap (fun p => errind_sql (data p)) pkts))) /\
  used (c_mem c) s (- zlen pkts).
Proof.
  intros H. revert mlen c. induction H as [|pkt pkts Hp _ IH]; intros mlen c; cbn [gtpu_other_loop].
  { exists (c_mem c). split; [by destruct c|apply used_0]. }
  destruct (errind_ok mlen pkt c Hp) as (mlen' & s & -> & Hu). res_simpl.
  match goal with |- context [gtpu_other_loop _ _ _ _ ?c1] => destruct (IH mlen' c1) as (s' & -> & Hu') end. exists s'. cbn [c_node c_db c_mem] in *.
  split; [|replace (- zlen (pkt :: pkts)) with (-1 + - zlen pkts) by (cbn [length]; lia); exact (used_trans _ _ _ _ _ Hu Hu')].
  cbn [omap list_omap]. by destruct (errind_sql (data pkt)).
Qed.
End router_proofs.

Module Properties.
Section claims.
Variable malloc : nat -> bool.
Context {D : Type} `{DB : Database D}.

(** a burst of G-PDUs: every router solicitation of a known session gets one router
    advertisement, in order, sent back to where the solicitation came from, with the
    /64 of the session's address and a valid ICMPv6 checksum; every other G-PDU is
    dropped and freed.  A session outside the address pool ends the burst with its
    packets still allocated. *)
Theorem solicitations_answered (pinst : handle) (c : ctx D) :
  let pkts := take 32 (q_packets (ingress (c_node c))) in
  let '(l, db) := fates pinst pkts (c_db c) in
  (forall n, malloc n = true) -> (forall st k (db : D), db_bind st k db = true) -> Forall gpdu pkts -> pkts <> [] ->
  0 <= q_count (egress (c_node c)) -> q_count (egress (c_node c)) + 32 <= RING_SIZE_MAX ->
  exists c', event_gtpu_other_req malloc pinst c = Ok (OK, c') /\ c_db c' = db /\
    q_packets (egress (c_node c')) = q_packets (egress (c_node c)) ++ replies l /\
    q_packets (ingress (c_node c')) = drop 32 (q_packets (ingress (c_node c))) /\
    Forall (fun r => datalen r = 104 /\ checksum_valid (data r)) (replies l) /\
    used (c_mem c) (c_mem c') (balances l).
Proof.
  intros pkts. destruct (fates pinst pkts (c_db c)) as [l db] eqn:Ef. intros Hm Hbind Hall Hne H0 Hr.
  unfold event_gtpu_other_req, pgw_deq_burst, deq_queue. cbn [queue_of]. rewrite deq_loop_eq by lia.
  change (Z.to_nat (32 - 0)) with 32%nat. fold pkts. assert (Hp : 0 < zlen pkts) by (destruct pkts; [done|cbn [length]; lia]).
  rewrite (proj2 (Z.ltb_lt _ _)) by done. match goal with |- context [set_node ?n c] => set (c0 := set_node n c) end.
  change (sizeof_icmp6_hdr + sizeof_ip6_hdr) with 48. pose proof (gtpu_other_loop_ok malloc Hm Hbind pinst pkts c0 Hall) as H. change (c_db c0) with (c_db c) in H. rewrite Ef in H.
  destruct H as (s & -> & Hu). res_simpl. eexists. split; [done|]. cbn [c_db c_node c_mem]. split; [done|].
  pose proof (length_replies pinst pkts (c_db c)) as Hl. pose proof (replies_valid Hbind pinst pkts (c_db c) Hall) as Hv. rewrite Ef in Hl, Hv. cbn [fst] in Hl, Hv.
  assert (Hle : zlen pkts <= 32) by (unfold pkts; rewrite length_take; lia).
  destruct (send_all_room (c_node c0) (replies l)) as (E1 & _ & E3); [done|change (egress (c_node c0)) with (egress (c_node c)); lia|].
  rewrite E1, E3. done.
Qed.

(** C30: a burst of error indications: each one of the right length runs the statement
    that ends the session of its tunnel and peer, in order, whatever the database
    answers; nothing is sent and every packet is freed. *)
Theorem error_indications_end_sessions (pinst : handle) (c : ctx D) :
  let pkts := take 32 (q_packets (ingress (c_node c))) in
  Forall error_indication pkts -> pkts <> [] ->
  exists c', event_gtpu_other_req malloc pinst c = Ok (OK, c') /\
    c_db c' = foldl run_sql (c_db c) (omap (fun p => errind_sql (data p)) pkts) /\
    egress (c_node c') = egress (c_node c) /\ q_packets (ingress (c_node c')) = drop 32 (q_packets (ingress (c_node c))) /\
    used (c_mem c) (c_mem c') (- zlen pkts).
Proof.
  intros pkts Hall Hne. unfold event_gtpu_other_req, pgw_deq_burst, deq_queue. cbn [queue_of]. rewrite deq_loop_eq by lia.
  change (Z.to_nat (32 - 0)) with 32%nat. fold pkts. assert (Hp : 0 < zlen pkts) by (destruct pkts; [done|cbn [length]; lia]).
  rewrite (proj2 (Z.ltb_lt _ _)) by done. match goal with |- context [set_node ?n c] => set (c0 := set_node n c) end.
  destruct (errind_loop_ok malloc pinst pkts (sizeof_icmp6_hdr + sizeof_ip6_hdr) c0 Hall) as (s & -> & Hu). res_simpl.
  eexists. split; [done|]. done.
Qed.
End claims.

(** The prefix advertised is the prefix of the address the session was given when it was
    created. *)
Lemma advertised_is_announced pinst a : addr_ok a -> advertised pinst a = slice 1 8 (ue_addr6 pinst a).
Proof. intros [La _]. destruct a as [|? [|? [|? [|? [|]]]]]; cbn [length] in La; try lia. reflexivity. Qed.

(** *** Examples *)
Import CtrlKeepalive.Properties.
Definition tunnel_row (ue : cstring) : list record :=
  [NVal 7; SVal ue; NVal 1; NVal 1; SVal (lit "10.0.0.1"); SVal (lit "10.0.0.1"); SVal []; NVal 5; NVal 1; NVal 1; NVal 0x04030201].
#[local] Instance router_db : Database (list cstring) := {
  db_query q db := (0, db ++ [q]);
  db_bind _ _ _ := true;
  db_select _ key db := (if key =? 7 then Some [tunnel_row (lit "0.1.2.3")] else if key =? 8 then Some [tunnel_row (lit "1.1.2.3")] else None, db);
}.
Definition from_peer (b : list Z) : packet_t := mk_packet_t (zlen b) b (sockaddr_of [10; 0; 0; 7] 2152) 16 (sockaddr_of [10; 0; 0; 2] 2152) 16.
Definition solicit (tid : Z) : packet_t :=
  from_peer ([0x30; 255; 0; 48] ++ be_store 4 tid ++ [0x60; 0; 0; 0; 0; 8; 58; 255] ++ bzero 16 ++ ipv6_dst_addr ++ [133; 0; 0; 0; 0; 0; 0; 0]).
Definition lost_tunnel : packet_t := from_peer [0x32; 26; 0; 16; 0; 0; 0; 0; 0; 1; 0; 0; 16; 1; 2; 3; 4; 133; 0; 4; 10; 0; 0; 9].
Definition short_gpdu : packet_t := from_peer [0x30; 255; 0; 12; 0; 0; 0; 7; 0x60; 0; 0; 0; 0; 8; 58; 255; 0; 0; 0; 0].
Definition outcome (m : res (Z * ctx (list cstring))) : res (list packet_t * list cstring * (Z * Z)) :=
  '(_, c) ← m; Ok (q_packets (egress (c_node c)), c_db c, outstanding (c_mem c)).
Lemma from_peer_net b : bytes_ok b -> from_network (from_peer b).
Proof. intros Hb. split; [by split|by split|exact Hb]. Qed.
Lemma solicit_gpdu tid : gpdu (solicit tid).
Proof.
  pose proof (length_be_store 4 tid) as L. pose proof (be_store_ok 4 tid) as B. unfold solicit.
  destruct (be_store 4 tid) as [|t0 [|t1 [|t2 [|t3 [|]]]]]; try discriminate L. split; [apply from_peer_net|done|by split|done].
  unfold ipv6_dst_addr. rewrite !Forall_cons in B. destruct B as (B0 & B1 & B2 & B3 & _). bytes.
Qed.

Lemma solicitations_answered_witness : exists c',
  event_gtpu_other_req always echo_gateway (idle [solicit 7; solicit 9]) = Ok (OK, c') /\
  length (q_packets (egress (c_node c'))) = 1%nat /\ used memory0 (c_mem c') (-1).
Proof.
  destruct (solicitations_answered always echo_gateway (idle [solicit 7; solicit 9])) as (c' & E & _ & Q & _ & _ & U);
    [reflexivity|reflexivity| |discriminate|vm_compute; congruence|vm_compute; congruence|].
  - apply Forall_cons_2; [apply solicit_gpdu|]. apply Forall_cons_2; [apply solicit_gpdu|apply Forall_nil_2].
  - exists c'. split; [exact E|]. split; [rewrite Q; vm_compute; reflexivity|exact U].
Defined.

Lemma error_indications_end_sessions_witness : exists c',
  event_gtpu_other_req always echo_gateway (idle [lost_tunnel]) = Ok (OK, c') /\
  c_db c' = [ERROR_IND_UPD_SQL 0x01020304 (lit "10.0.0.9")] /\ used memory0 (c_mem c') (-1).
Proof.
  destruct (error_indications_end_sessions always echo_gateway (idle [lost_tunnel])) as (c' & E & Q & _ & _ & U).
  - apply Forall_cons_2; [|apply Forall_nil_2]. split; [apply from_peer_net, bytes_okb_ok; reflexivity|reflexivity|vm_compute; congruence|reflexivity].
  - discriminate.
  - exists c'. split; [exact E|]. split; [rewrite Q; vm_compute; reflexivity|exact U].
Defined.

(** After an error indication a G-PDU of twenty bytes is taken for a solicitation, and
    its ICMP header is read behind its end. *)
Lemma short_gpdu_overread :
  outcome (event_gtpu_other_req always echo_gateway (idle [short_gpdu])) = Ok ([], [], (0, 2 ^ 64 - 1)) /\
  event_gtpu_other_req always echo_gateway (idle [lost_tunnel; short_gpdu]) = Fault Undefined.
Proof. vm_compute. split; reflexivity. Qed.

(** The solicitation of a session outside the pool takes the next one with it: neither
    is answered, and no packet is freed. *)
Lemma stuck_burst_leaks :
  outcome (event_gtpu_other_req always echo_gateway (idle [solicit 8; solicit 7])) = Ok ([], [], (0, 1)).
Proof. vm_compute. reflexivity. Qed.
End Properties.
