(* ===== verification/CtrlV1.v ===== *)
(** * Control plane: session management, GTP-C version 1

    event_gtpc_v1_any.c of ctrlplane/src/pgw/event: the table of information elements,
    the loops over extension headers and elements, and the create, update and delete
    PDP context handlers with their responses.

    Offsets and lengths are 16-bit variables of the code and wrap as they do there.  The
    two loops need not end on every message, so they carry a bound on their rounds:
    [Ok None] says that the loop is still running when the rounds are used up.
    [erange] and [erange'] are as in CtrlSession; [stack] is the byte an uninitialised structure
    leaves in the reserved bits of the NSAPI element. *)

From S2P Require Import Prelude TextParse Gtpc GtpcItems GtpcParse CtrlNode CtrlSession CtrlAnswers CtrlKeepalive.

(** ** Constants and statements *)
Definition GTPC_UNKNOWN := 0.
Definition GTPC_V1_CAUSE_ACCEPTED := 0x80.
Definition GTPC_V1_CAUSE_NO_RESOURCE_AVAILABLE := 0xC7.
Definition GTPC_V1_EUA_ORGANIZATION_IETF := 1.
Definition GTPC_V1_EUA_NUMBER_IP := 0x21.
Definition GTPC_V1_MSG_ECHO_REQ := 1.
Definition GTPC_V1_MSG_NODE_ALIVE_REQ := 4.
Definition GTPC_V1_MSG_REDIRECTION_REQ := 6.
Definition GTPC_V1_MSG_CREATE_PDP_CONTEXT_REQ := 16.
Definition GTPC_V1_MSG_UPDATE_PDP_CONTEXT_REQ := 18.
Definition GTPC_V1_MSG_DELETE_PDP_CONTEXT_REQ := 20.
Definition GTPC_V1_MSG_INITIATE_PDP_CONTEXT_ACTIVATION_REQ := 22.
Definition GTPC_V1_MSG_PDU_NOTIFICATION_REQ := 27.
Definition GTPC_V1_MSG_PDU_NOTIFICATION_REJECT_REQ := 29.
Definition GTPC_V1_IE_REORDERING_REQ := 8.
Definition GTPC_V1_IE_RECOVERY := 14.
Definition GTPC_V1_IE_CHARGING_ID := 127.
Definition GTPC_V1_IE_END_USER_ADDRESS := 128.
Definition GTPC_V1_IE_BEARER_CTRL_MODE := 184.
Definition GTPC_V1_IE_CHARGING_GATEWAY_ADDRESS := 251.
Definition GTPC_V1_IE_PRIVATE_EXTENSION := 255.
Definition all_of : list Z -> Z := foldr Z.lor 0.
Definition REQUIRED_CREATE_PDP :=
  all_of [HAVE_V1; HAVE_V1_MSISDN; HAVE_V1_TEID_DATA; HAVE_V1_TEID_CTRL; HAVE_V1_IPADR_DATA; HAVE_V1_IPADR_CTRL; HAVE_V1_IMSI].
Definition REQUIRED_UPDATE_PDP := all_of [HAVE_V1; HAVE_V1_TEID_DATA; HAVE_V1_IPADR_DATA; HAVE_V1_IPADR_CTRL].
Definition REQUIRED_DELETE_PDP := all_of [HAVE_V1; HAVE_V1_NSAPI].
Definition CREATE_PDP_CONTEXT_UPD_SQL cteid cip uteid uip (qci ebi teid imsi imsi' : Z) : cstring :=
  set_tunnel cteid cip uteid uip ++ lit " `qci`=" ++ print_u qci ++ lit ", `active` = 1, `ebi`=" ++ print_u ebi ++
  lit ", `pgw_teid`=" ++ print_u teid ++ lit ", `imsi`=" ++ llu imsi ++ lit ", `rat`=1 ,`latest_gtp_version`=1  WHERE imsi = " ++
  llu imsi' ++ lit " ".
Definition UPDATE_PDP_CONTEXT_UPD_SQL cteid cip uteid uip (imsi : Z) : cstring :=
  set_tunnel cteid cip uteid uip ++ lit " `rat`=1, `active` = 1, `latest_gtp_version`=1  WHERE imsi = " ++ llu imsi ++ lit " ".

(** ** The table of information elements

    For a byte: the type (0 when there is none), the length (0 when it is in the
    message) and whether the element is parsed. *)
Definition fixed_v1 : list (Z * Z) :=
  [(1, 2); (2, 9); (3, 7); (4, 5); (5, 5); (8, 2); (9, 29); (11, 2); (12, 4); (13, 2); (14, 2); (15, 2); (16, 5); (17, 5);
   (18, 6); (19, 2); (20, 2); (21, 2); (22, 10); (23, 2); (24, 2); (25, 3); (26, 3); (27, 3); (28, 3); (29, 2); (127, 5)].
Definition parsed_v1 : list Z :=
  [GTPC_V1_IE_CAUSE; GTPC_V1_IE_IMSI; GTPC_V1_IE_TEID_DATA_I; GTPC_V1_IE_TEID_CTRL_PLANE; GTPC_V1_IE_NSAPI; GTPC_V1_IE_PCO;
   GTPC_V1_IE_GSN_ADDRESS; GTPC_V1_IE_MSISDN; GTPC_V1_IE_QOS].
Definition msgs_gtpc_v1 (t : Z) : Z * Z * bool :=
  match find (fun e => e.1 =? t) fixed_v1 with
  | Some (_, len) => (t, len, existsb (Z.eqb t) parsed_v1)
  | None =>
    if ((GTPC_V1_IE_END_USER_ADDRESS <=? t) && (t <=? GTPC_V1_IE_BEARER_CTRL_MODE)) ||
       (t =? GTPC_V1_IE_CHARGING_GATEWAY_ADDRESS) || (t =? GTPC_V1_IE_PRIVATE_EXTENSION)
    then (t, 0, existsb (Z.eqb t) parsed_v1) else (0, 0, false)
  end.

(** ** Reading a request *)
(** The loop over the extension headers. *)
Fixpoint skip_extensions (fuel : nat) (b : list Z) (len off : Z) : res (option Z) :=
  if len <=? off then Ok (Some off) else
  match fuel with
  | O => Ok None
  | S fuel =>
    e ← rd 1 b off;
    let off := u16 (off + Z.shiftl e 2) in
    x ← rd 1 b (off - 1);
    if x =? 0 then Ok (Some off) else skip_extensions fuel b len off
  end.

(** The length an element takes, and the length its parser gets. *)
Definition element_len (b : list Z) (off len : Z) : res (Z * Z) :=
  if len <=? 0 then e ← rd 2 b (off + 1); Ok (u16 (ntohs e + 3), ntohs e) else Ok (len, len - 1).
Fixpoint parse_v1 (fuel : nat) (b : list Z) (len off : Z) (cs : gtpc_parse_state) : res (option (Z * gtpc_parse_state)) :=
  if len <=? off then Ok (Some (OK, cs)) else
  match fuel with
  | O => Ok None
  | S fuel =>
    t ← rd 1 b off;
    let '(type, mlen, parser) := msgs_gtpc_v1 t in
    if type =? 0 then Ok (Some (ERR, cs)) else
    '(extlen, datalen) ← element_len b off mlen;
    '(rc, cs) ← (if parser : bool then on_gtpcv1_parse_root type (Some (drop (Z.to_nat off) b)) datalen cs else Ok (0, cs));
    if negb (rc =? 0) then Ok (Some (ERR, cs)) else
    parse_v1 fuel b len (u16 (off + extlen)) cs
  end.

(** The request, or nothing when it is refused. *)
Definition read_v1 (fuel : nat) (pckt : packet_t) : res (option (option session)) :=
  let b := data pckt in
  f ← rd 1 b o_flags;
  seqno ← (if negb (bf_get 1 1 f =? 0) then s ← rd 2 b sizeof_gtpc_v1_header; Ok (ntohs s) else Ok 0);
  let off := sizeof_gtpc_v1_header +
    (if negb (bf_get 1 1 f =? 0) || negb (bf_get 0 1 f =? 0) || negb (bf_get 2 1 f =? 0) then 4 else 0) in
  off ← (if negb (bf_get 2 1 f =? 0) then skip_extensions fuel b (datalen pckt) off else Ok (Some off));
  match off with
  | None => Ok None
  | Some off =>
    r ← parse_v1 fuel b (datalen pckt) off parse_state0;
    match (r : option (Z * gtpc_parse_state)) with
    | None => Ok None
    | Some (rc, st) =>
      if negb (rc =? OK) then Ok (Some None) else
      tid ← rd 4 b o_teid;
      Ok (Some (Some (set_header seqno tid (set_ps st session0))))
    end
  end.
Definition is_request_v1 (t : Z) : bool :=
  existsb (Z.eqb t)
    [GTPC_V1_MSG_ECHO_REQ; GTPC_V1_MSG_NODE_ALIVE_REQ; GTPC_V1_MSG_REDIRECTION_REQ; GTPC_V1_MSG_CREATE_PDP_CONTEXT_REQ;
     GTPC_V1_MSG_UPDATE_PDP_CONTEXT_REQ; GTPC_V1_MSG_DELETE_PDP_CONTEXT_REQ; GTPC_V1_MSG_INITIATE_PDP_CONTEXT_ACTIVATION_REQ;
     GTPC_V1_MSG_PDU_NOTIFICATION_REQ; GTPC_V1_MSG_PDU_NOTIFICATION_REJECT_REQ].

(** *** Flags of version 1 *)
Definition have_v1 (m : Z) (cs : session) : bool := Z.land (flag_v1 (ps cs)) m =? m.
Definition any_of_v1 (m : Z) (cs : session) : bool := negb (Z.land (flag_v1 (ps cs)) m =? 0).

(** ** The elements of the responses *)
Definition block (b : list Z) : item := (0, b, zlen b).
Definition seqno_blocks (cs : session) : list item := [block (le_store 2 (htons (gtph_seqno cs))); block [0; 0]].
Definition cause_block (v : Z) : item := block [GTPC_V1_IE_CAUSE; v].
Definition teid_block (type : Z) (cs : session) : item := block (type :: le_store 4 (htonl (pgw_teid (ps cs)))).
Definition charging_block : item := block (GTPC_V1_IE_CHARGING_ID :: le_store 4 0).
Definition gsn_block (a : list Z) : res item :=
  a ← rd_bytes 4 a 0; Ok (block (GTPC_V1_IE_GSN_ADDRESS :: le_store 2 (htons 4) ++ a)).
(** The address of the user equipment, with the first octet of the pool. *)
Definition endua_block (cs : session) : res item :=
  f ← wr_bits [0] 0 4 4 0xf;
  f ← wr_bits f 0 0 4 GTPC_V1_EUA_ORGANIZATION_IETF;
  let ueipv := htonl (Z.lor (ntohl (le_load (ue_ipv_n (ps cs)))) (Z.shiftl PGW_IP8 24)) in
  Ok (block (GTPC_V1_IE_END_USER_ADDRESS :: le_store 2 (htons 6) ++ f ++ [GTPC_V1_EUA_NUMBER_IP] ++ le_store 4 ueipv)).
Definition nsapi_block (stack : Z) (cs : session) : res (list item) :=
  if any_of_v1 HAVE_V1_NSAPI cs then b ← wr_bits [GTPC_V1_IE_NSAPI; stack] 1 0 4 (nsapi (ps cs)); Ok [block b] else Ok [].
(** The element is appended in three parts. *)
Definition qos_blocks (cs : session) : list item :=
  if any_of_v1 HAVE_V1_QOS cs then
    [block [GTPC_V1_IE_QOS]; block (le_store 2 (htons (qos_len (ps cs)))); (0, ies (ps cs) qos, qos_len (ps cs))]
  else [].

(** [setup_pco_v1]; an ERR is [None].  The structure is type, length, header and 253 options. *)
Definition pco_dns_v1 (cs : session) : list Z :=
  if have_v1 HAVE_PCO_DNS_IPV64 cs then PCO_DNS_IPV4_VAL
  else if have_v1 HAVE_PCO_DNS_IPV6 cs then PCO_DNS_IPV6_VAL
  else if have_v1 HAVE_PCO_DNS_IPV4 cs then PCO_DNS_IPV4_VAL else [].
Definition pco_mtu_v1 (cs : session) : list Z :=
  if have_v1 HAVE_PCO_NONIP_LINK_MTU cs then PCO_MTU_NONIP_VAL
  else if have_v1 HAVE_PCO_IPV4_LINK_MTU cs then PCO_MTU_IPV4_VAL else [].
Definition pco_ipcp_v1 (cs : session) : list Z :=
  if have_v1 HAVE_PCO_IPCP_DNS cs then PCO_DNS_IPCP_IPV4_VAL else [].
Definition setup_pco_v1 (cs : session) : res (option (list Z)) :=
  if any_of_v1 (Z.lor PCO_ALL HAVE_PCO_IPCP_DNS) cs then
    let dns := pco_dns_v1 cs in
    let ext := pco_mtu_v1 cs ++ pco_ipcp_v1 cs in
    let pcolen := zlen (dns ++ ext) in
    pcobuffer ← wr_bytes (bzero 255) 0 (dns ++ ext);
    pco ← (if 0 <? zlen ext then wr_bits (bzero (4 + GTPC_PCO_LEN)) 3 7 1 1 else Ok (bzero (4 + GTPC_PCO_LEN)));
    if 1 <? pcolen then
      pco ← wr_bytes pco 4 (bzero GTPC_PCO_LEN);
      if GTPC_PCO_LEN <=? pcolen + 1 then Ok None else
      pco ← wr 1 pco 0 GTPC_V1_IE_PCO;
      pco ← wr 2 pco 1 (htons (pcolen + 1));
      opts ← rd_bytes pcolen pcobuffer 0;
      pco ← wr_bytes pco 4 opts;
      Ok (Some pco)
    else Ok None
  else Ok None.
Definition pco_blocks (cs : session) : res (list item) :=
  if any_of_v1 HAVE_V1_PCO cs then
    pco ← setup_pco_v1 cs;
    match pco with
    | Some b => l ← rd 2 b 1; Ok [(0, b, u16 (ntohs l + 3))]
    | None => Ok []
    end
  else Ok [].

Section handlers.
Variable malloc : nat -> bool.
Context {D : Type} `{DB : Database D}.
Variables (erange erange' : bool) (stack : Z).
Implicit Types (c : ctx D) (cs : session) (rpckt : gtp_packet).

(** *** Answering *)
Definition set_packet (b : list Z) (p : gtp_packet) : gtp_packet :=
  mk_packet (items p) (count p) (length_ p) (offset p) b (saddr p) (saddrlen p) (caddr p) (caddrlen p).
Definition respond_v1 (type : Z) (items : res (list item)) (teid : Z) rpckt c : res (Z * ctx D) :=
  '(rc, lpckt, s) ← gtpc_v1_alloc_packet malloc type (c_mem c);
  if negb (rc =? OK) then Fault RtePanic else
  p ← deref lpckt;
  p ← gtpc_copy_packet_addr p rpckt;
  '(_, _, s) ← gtpc_free_packet (Some rpckt) s;
  l ← items;
  '(ok, p, s) ← append_list malloc l p s;
  if negb ok then Fault RtePanic else
  b ← wr 4 (packet p) o_teid (htonl teid);
  '(cpckt, s) ← gtpc_convert_to_packet malloc (set_packet b p) s;
  match cpckt with
  | None => Fault RtePanic
  | Some cpckt =>
    let '(rc, n) := pgw_enq EGRESS (pgw_swap_address cpckt) (c_node c) in
    if negb (rc =? OK) then Fault RtePanic else Ok (OK, mk_ctx _ s n (c_db c))
  end.

Definition create_items cs : res (list item) :=
  ns ← nsapi_block stack cs;
  ua ← endua_block cs;
  pc ← pco_blocks cs;
  gc ← gsn_block (pgw_c_ipv_n cs);
  gu ← gsn_block (pgw_u_ipv_n (ps cs));
  Ok (seqno_blocks cs ++ [cause_block GTPC_V1_CAUSE_ACCEPTED; block [GTPC_V1_IE_REORDERING_REQ; 0]; block [GTPC_V1_IE_RECOVERY; 1];
        teid_block GTPC_V1_IE_TEID_DATA_I cs; teid_block GTPC_V1_IE_TEID_CTRL_PLANE cs] ++ ns ++ [charging_block; ua] ++ pc ++
      [gc; gu; gc; gu] ++ qos_blocks cs).
Definition _accept_create_pdp_ctx (type : Z) rpckt cs c : res (Z * ctx D) :=
  let cs := set_sgw_c_teid (ntohl (teid_grekey c_teid cs)) cs in
  respond_v1 type (create_items cs) (sgw_c_teid cs) rpckt c.
Definition update_items cs : res (list item) :=
  pc ← pco_blocks cs;
  gc ← gsn_block (pgw_c_ipv_n cs);
  gu ← gsn_block (pgw_u_ipv_n (ps cs));
  Ok (seqno_blocks cs ++ [cause_block GTPC_V1_CAUSE_ACCEPTED; block [GTPC_V1_IE_RECOVERY; 1];
        teid_block GTPC_V1_IE_TEID_DATA_I cs; teid_block GTPC_V1_IE_TEID_CTRL_PLANE cs; charging_block] ++ pc ++ [gc; gu] ++ qos_blocks cs).
Definition _accept_update_pdp_ctx (type : Z) rpckt cs c : res (Z * ctx D) :=
  respond_v1 type (update_items cs) (sgw_c_teid cs) rpckt c.
Definition delete_items cs : res (list item) :=
  pc ← pco_blocks cs; Ok (seqno_blocks cs ++ [cause_block GTPC_V1_CAUSE_ACCEPTED] ++ pc).
Definition _accept_delete_pdp_ctx (type : Z) rpckt cs c : res (Z * ctx D) :=
  let cs := set_sgw_c_teid (ntohl (sgw_c_teid cs)) cs in
  respond_v1 type (delete_items cs) (sgw_c_teid cs) rpckt c.
Definition denied_items cs : list item := seqno_blocks cs ++ [cause_block GTPC_V1_CAUSE_NO_RESOURCE_AVAILABLE].
Definition _denied (type : Z) rpckt cs c : res (Z * ctx D) :=
  let cs := set_sgw_c_teid (ntohl (teid_grekey c_teid cs)) cs in
  respond_v1 type (Ok (denied_items cs)) (sgw_c_teid cs) rpckt c.

(** *** The updates *)
Definition _on_create_pdp_ctx cs c : res (Z * session * ctx D) :=
  _ ← gtpc_digits_get erange (drop 4 (ies (ps cs) msisdn)) GTPC_MSISDN_LEN;
  imsi_n ← gtpc_digits_get erange' (drop 4 (ies (ps cs) imsi)) GTPC_IMSI_LEN;
  '(cs, c) ← lookup_tunnel CREATE_SESSION_IMSI_LOOKUP imsi_n cs c;
  if negb (any_of HAVE_RECORD cs) then Ok (ERR, cs, c) else
  let '(rc, c) := query (CREATE_PDP_CONTEXT_UPD_SQL (teid_grekey c_teid cs) (sgw_ip c_teid cs) (teid_grekey u_teid cs) (sgw_ip u_teid cs)
                           0 0 (pgw_teid (ps cs)) imsi_n imsi_n) c in
  Ok (if rc =? 0 then OK else ERR, cs, c).
Definition _on_update_pdp_ctx cs c : res (Z * session * ctx D) :=
  '(cs, c) ← lookup_tunnel MODIFY_BEARER_LOOKUP (ntohl (gtph_teid cs)) cs c;
  if negb (any_of HAVE_RECORD cs) then Ok (ERR, cs, c) else
  if have_v1 (Z.lor HAVE_V1_TEID_DATA HAVE_V1_TEID_CTRL) cs then
    let '(rc, c) := query (UPDATE_PDP_CONTEXT_UPD_SQL (teid_grekey c_teid cs) (sgw_ip c_teid cs) (teid_grekey u_teid cs) (sgw_ip u_teid cs)
                             (imsi_num cs)) c in
    if negb (rc =? 0) then Ok (ERR, cs, c) else Ok (OK, set_sgw_c_teid (ntohl (teid_grekey c_teid cs)) cs, c)
  else Ok (OK, set_sgw_c_teid (ntohl (sgw_c_teid cs)) cs, c).
Definition _on_delete_pdp_ctx cs c : res (Z * session * ctx D) :=
  '(cs, c) ← lookup_tunnel DELETE_SESSION_LOOKUP (gtph_teid cs) cs c;
  if negb (any_of HAVE_RECORD cs) then Ok (ERR, cs, c) else
  let '(rc, c) := query (DELETE_SESSION_UPD_SQL (gtph_teid cs) (nsapi (ps cs))) c in
  Ok (if rc =? 0 then OK else ERR, cs, c).

(** *** The handler *)
(** Check what a request must have, update, answer. *)
Definition pdp_context (required : Z) (on : session -> ctx D -> res (Z * session * ctx D))
    (accept : Z -> gtp_packet -> session -> ctx D -> res (Z * ctx D)) (type : Z) rpckt cs c : res (Z * ctx D) :=
  if negb (have_v1 required cs) then _denied type rpckt cs c else
  '(rc, cs, c) ← on cs c;
  if rc =? OK then accept type rpckt cs c else _denied type rpckt cs c.
Definition answer_v1 (t : Z) (pckt : packet_t) cs c : res (Z * ctx D) :=
  if negb (is_request_v1 t) then Ok (ERR, c) else
  let type := u8 (t + 1) in
  '(rc, pp, s) ← gtpc_alloc_packet malloc GTPC_UNKNOWN (c_mem c);
  let c := set_mem s c in
  if negb (rc =? OK) then Ok (ERR, c) else
  p ← deref pp;
  sa ← copy_addr (saddr p) (p_saddr pckt) (p_saddrlen pckt);
  ca ← copy_addr (caddr p) (p_caddr pckt) (p_caddrlen pckt);
  let p := mk_packet (items p) (count p) (length_ p) (offset p) (packet p) sa (p_saddrlen pckt) ca (p_caddrlen pckt) in
  if t =? GTPC_V1_MSG_CREATE_PDP_CONTEXT_REQ then
    pdp_context REQUIRED_CREATE_PDP _on_create_pdp_ctx _accept_create_pdp_ctx type p cs c
  else if t =? GTPC_V1_MSG_UPDATE_PDP_CONTEXT_REQ then
    pdp_context REQUIRED_UPDATE_PDP _on_update_pdp_ctx _accept_update_pdp_ctx type p cs c
  else if t =? GTPC_V1_MSG_DELETE_PDP_CONTEXT_REQ then
    pdp_context REQUIRED_DELETE_PDP _on_delete_pdp_ctx _accept_delete_pdp_ctx type p cs c
  else _denied type p cs c.
Definition event_gtpc_v1_any_req (fuel : nat) (pckt : packet_t) c : res (option (Z * ctx D)) :=
  r ← read_v1 fuel pckt;
  match (r : option (option session)) with
  | None => Ok None
  | Some None => Ok (Some (ERR, c))
  | Some (Some cs) => t ← rd 1 (data pckt) o_type; r ← answer_v1 t pckt cs c; Ok (Some r)
  end.
End handlers.

(** ** What parsing leaves

    The quality of service profile has its length, the NSAPI four bits. *)
Definition qos_wf (cs : gtpc_parse_state) : Prop :=
  (Z.land (flag_v1 cs) HAVE_V1_QOS <> 0 -> 0 < qos_len cs < 256) /\ 0 <= nsapi cs < 16.
Definition quiet (cs cs' : gtpc_parse_state) : Prop :=
  qos_len cs' = qos_len cs /\ nsapi cs' = nsapi cs /\ Z.land (flag_v1 cs') HAVE_V1_QOS = Z.land (flag_v1 cs) HAVE_V1_QOS.
Lemma quiet_refl cs : quiet cs cs.
Proof. done. Qed.
Lemma quiet_trans a b c : quiet a b -> quiet b c -> quiet a c.
Proof. unfold quiet. intros (-> & -> & ->) (-> & -> & ->). done. Qed.
Lemma quiet_or m cs : Z.land m HAVE_V1_QOS = 0 -> quiet cs (or_flag_v1 m cs).
Proof. intros H. split; [done|]. split; [done|]. cbn [flag_v1 or_flag_v1]. by rewrite Z.land_lor_distr_l, H, Z.lor_0_r. Qed.
Lemma quiet_copy f a d from n cs cs' : copy_ie f a d from n cs = Ok cs' -> quiet cs cs'.
Proof.
  unfold copy_ie. destruct (rd_bytes _ _ _) as [bs|]; [|done]. res_simpl. destruct (wr_bytes _ _ _) as [b|]; [|done]. res_simpl.
  by intros [= <-].
Qed.
Lemma quiet_qos cs cs' : quiet cs cs' -> qos_wf cs -> qos_wf cs'.
Proof. unfold quiet, qos_wf. intros (-> & -> & ->). done. Qed.
Lemma pco_flag_quiet id : Z.land (pco_flag id) HAVE_V1_QOS = 0.
Proof. unfold pco_flag. repeat case_if; reflexivity. Qed.
Lemma quiet_ipcp t cs : quiet cs (ipcp_opt t cs).
Proof.
  unfold ipcp_opt. repeat case_if; try apply quiet_refl.
  all: eapply quiet_trans; [|by apply quiet_or]; done.
Qed.

Lemma quiet_pco rounds len off cs rc cs' : pco_loop true rounds len off cs = Ok (rc, cs') -> quiet cs cs'.
Proof.
  revert off cs. induction rounds as [|rounds IH]; intros off cs; cbn [pco_loop]; [by intros [= _ <-]|].
  case_if; [by intros [= _ <-]|]. destruct (rd 1 _ _) as [pilen|]; [|done]. destruct (rd 2 _ _) as [ty|]; [|done]. res_simpl.
  set (cs1 := or_flag_v1 (pco_flag (ntohs ty)) cs).
  assert (H1 : quiet cs cs1) by (apply quiet_or, pco_flag_quiet). clearbody cs1.
  destruct (if _ =? GTPC_PCO_IPCP then _ else _) as [[rc2 cs2]|] eqn:E2; [|done]. res_simpl.
  assert (H2 : quiet cs1 cs2).
  { revert E2. case_if; [|by intros [= _ <-]]. unfold gtpc_iterate_pco_ipcp_item. destruct (rd 2 _ _) as [l|]; [|done]. res_simpl.
    case_if; [by intros [= _ <-]|]. destruct (rd 1 _ o_ipcp_opt0) as [t0|]; [|done]. destruct (rd 1 _ o_ipcp_opt1) as [t1|]; [|done]. res_simpl.
    intros [= _ <-]. eapply quiet_trans; apply quiet_ipcp. }
  case_if; [intros [= _ <-]; by eapply quiet_trans|]. intros H3%IH. eapply quiet_trans; [exact H1|]. by eapply quiet_trans.
Qed.

Lemma v1_element_qos type d len cs rc cs' :
  0 <= len -> on_gtpcv1_parse_root type (Some d) len cs = Ok (rc, cs') -> qos_wf cs -> qos_wf cs'.
Proof.
  intros Hlen. unfold on_gtpcv1_parse_root. case_if; [by intros [= _ <-]|]. to_prop.
  set (cs0 := or_flag_v1 HAVE_V1 cs). assert (H0 : quiet cs cs0) by by apply quiet_or.
  intros Er Hq. apply (quiet_qos _ _ H0) in Hq. clearbody cs0. clear H0. revert Er.
  assert (Hstop : forall rc0, Ok (rc0, cs0) = Ok (rc, cs') -> qos_wf cs') by by intros rc0 [= _ <-].
  assert (Hcopy : forall m f a d from n, Z.land m HAVE_V1_QOS = 0 ->
    (cs ← copy_ie f a d from n (or_flag_v1 m cs0); Ok (OK, cs)) = Ok (rc, cs') -> qos_wf cs').
  { intros m f a d1 from n Hm. destruct (copy_ie _ _ _ _ _ _) as [c1|] eqn:Ec; [|done]. res_simpl. intros [= _ <-].
    eapply quiet_qos; [|exact Hq]. eapply quiet_trans; [by apply (quiet_or m)|by eapply quiet_copy]. }
  case_if; [case_if; [exact (Hstop _)|]|].
  { destruct (rd 1 d 1) as [v|]; [|done]. res_simpl. intros [= _ <-]. eapply quiet_qos; [|exact Hq]. by apply (quiet_or HAVE_V1_CAUSE). }
  do 4 (case_if; [case_if; [exact (Hstop _)|by apply Hcopy]|]).
  case_if; [case_if; [exact (Hstop _)|case_if; by apply Hcopy]|].
  case_if.
  { case_if; [exact (Hstop _)|]. to_prop. destruct (copy_ie _ _ _ _ _ _) as [c1|] eqn:Ec; [|done]. res_simpl. intros [= _ <-].
    apply quiet_copy in Ec. destruct Ec as (_ & En & _). cbn [nsapi set_ie] in En. destruct Hq as [_ Hn].
    split; cbn [qos_len nsapi or_flag_v1 set_v1]; [|by rewrite En]. intros _. rewrite wrap_small; lia. }
  case_if; [case_if; [exact (Hstop _)|]|].
  { destruct (rd 1 d 1) as [v|]; [|done]. res_simpl. intros [= _ <-]. destruct Hq as [Hl Hn].
    split; cbn [qos_len nsapi or_flag_v1 set_v1 flag_v1].
    - rewrite Z.land_lor_distr_l. change (Z.land HAVE_V1_NSAPI HAVE_V1_QOS) with 0. by rewrite Z.lor_0_r.
    - unfold bf_get. apply (wrap_range 4). lia. }
  case_if; [case_if; [exact (Hstop _)|]|exact (Hstop _)].
  destruct (copy_ie _ _ _ _ _ _) as [c1|] eqn:Ec; [|done]. res_simpl. intros Ep%quiet_pco.
  eapply quiet_qos; [|exact Hq]. eapply quiet_trans; [by apply (quiet_or HAVE_V1_PCO)|]. eapply quiet_trans; [by eapply quiet_copy|exact Ep].
Qed.

Lemma parse_v1_keeps fuel b len off cs rc cs' :
  bytes_ok b -> parse_v1 fuel b len off cs = Ok (Some (rc, cs')) -> state_wf cs -> qos_wf cs ->
  state_wf cs' /\ qos_wf cs' /\ same_tunnel cs cs'.
Proof.
  intros Hb. revert off cs. induction fuel as [|fuel IH]; intros off cs; cbn [parse_v1].
  { case_if; [|done]. intros [= _ <-] Hw Hq. done. }
  case_if; [intros [= _ <-] Hw Hq; done|]. destruct (rd 1 b off) as [t|]; [|done]. res_simpl.
  destruct (msgs_gtpc_v1 t) as [[type mlen] parser]. case_if; [intros [= _ <-] Hw Hq; done|].
  destruct (element_len b off mlen) as [[extlen dlen]|] eqn:El; [|done]. res_simpl.
  assert (Hd : 0 <= dlen).
  { revert El. unfold element_len. case_if; [|intros [= _ <-]; to_prop; lia]. destruct (rd 2 _ _) as [e|]; [|done]. res_simpl. intros [= _ <-].
    apply (bswap_range 2). }
  destruct (if parser then _ else _) as [[rc1 cs1]|] eqn:Ep; [|done]. res_simpl.
  assert (Hstep : state_wf cs -> qos_wf cs -> state_wf cs1 /\ qos_wf cs1 /\ same_tunnel cs cs1).
  { intros Hw Hq. destruct parser; [|by injection Ep as _ <-]. pose proof (v1_element_qos _ _ _ _ _ _ Hd Ep Hq) as Hq1.
    apply parse_root_v1_keeps in Ep as [_ (Hs & _ & Ht)]; [|by apply Forall_drop|done]. split; [by apply Hs|done]. }
  case_if; [intros [= _ <-]; exact Hstep|]. intros Er Hw Hq. destruct (Hstep Hw Hq) as (Hw1 & Hq1 & T1).
  destruct (IH _ _ Er Hw1 Hq1) as (Hw2 & Hq2 & T2). split; [done|]. split; [done|]. destruct T1 as (? & ? & ?), T2 as (? & ? & ?). split_and!; congruence.
Qed.

(** A session as the handlers get it. *)
Record v1_session (cs : session) : Prop := {
  v1_wf : session_wf cs;
  v1_qos : qos_wf (ps cs);
}.
Lemma read_v1_session fuel pckt cs : bytes_ok (data pckt) -> read_v1 fuel pckt = Ok (Some (Some cs)) -> v1_session cs.
Proof.
  intros Hb. unfold read_v1. destruct (rd 1 _ _) as [f|]; [|done]. res_simpl. match goal with |- context [if ?x then ?a else Ok 0] => destruct (if x then a else Ok 0) as [seqno|] end; [|done]. res_simpl.
  match goal with |- context [if ?x then skip_extensions ?a ?b ?c ?d else ?e] => destruct (if x then skip_extensions a b c d else e) as [[off|]|] end; [|done|done]. res_simpl.
  destruct (parse_v1 _ _ _ _ _) as [[[rc st]|]|] eqn:Ep; [|done|done]. res_simpl. case_if; [done|].
  destruct (rd 4 _ _) as [tid|]; [|done]. res_simpl. intros [= <-].
  destruct (parse_v1_keeps _ _ _ _ _ _ _ Hb Ep parse_state0_wf) as (Hw & Hq & _ & Hue & Hu); [split; [done|cbn; lia]|].
  assert (A0 : addr_ok (bzero 4)) by (split; [done|by apply bytes_okb_ok]).
  split; [|done]. split; cbn [ps set_header set_ps pgw_c_ipv_n session0]; [done|by rewrite Hue|by rewrite Hu|done].
Qed.

(** ** A response on the wire *)
Definition v1_bytes (type : Z) (tid body : list Z) : list Z := [0x32; type] ++ be_store 2 (zlen body) ++ tid ++ body.
Definition v1_reply (type : Z) (tid body : list Z) (pckt : packet_t) : packet_t :=
  mk_packet_t (8 + zlen body) (v1_bytes type tid body) (p_caddr pckt) (p_caddrlen pckt) (p_saddr pckt) (p_saddrlen pckt).
(** The bytes of the items of a response. *)
Definition sent (l : list item) : list Z := concat (sent_item <$> l).*2.

Lemma tid_written (p : gtp_packet) (tid : list Z) : pkt_wf 8 8 p -> zlen tid = 4 -> bytes_ok tid ->
  pkt_wf 8 8 (set_packet (splice 4 tid (packet p)) p) /\
  slice 0 (offset p) (splice 4 tid (packet p)) = slice 0 2 (packet p) ++ be_store 2 (offset p - 8) ++ tid ++ body 8 p.
Proof.
  intros Hw Ht Hb. pose proof (wf_size _ _ _ Hw) as Hz. pose proof (wf_off _ _ _ Hw) as Ho. unfold ETHER_MAX_LEN in *. split.
  - destruct Hw as [Hs Hbs Hmg Hc Hof Hh Hl Hti Hco]. split; cbn [set_packet packet length_ offset items count]; try done.
    + rewrite length_splice by lia. done.
    + by apply Forall_splice.
    + rewrite slice_splice_disj by (unfold ETHER_MAX_LEN in *; lia). done.
    + unfold o_length. rewrite slice_splice_disj by lia. done.
  - replace (offset p) with (2 + (2 + (4 + (offset p - 8)))) at 1 by lia. rewrite slice_app_split by lia.
    rewrite slice_app_split by lia. rewrite slice_app_split by lia. change (0 + 2) with 2. change (2 + 2) with 4. change (4 + 4) with 8.
    rewrite !slice_splice_disj by lia. rewrite (slice_splice_eq 4 4) by lia. f_equal. unfold body. rewrite (slice_splice_disj 8) by lia. f_equal.
    pose proof (wf_len _ _ _ Hw) as Hl. unfold o_length, ntohs in Hl. rewrite bswap_load in Hl; [| |rewrite length_slice; lia].
    + rewrite <-Hl. symmetry. replace 2%nat with (length (slice 2 2 (packet p))) by (rewrite length_slice; lia). apply be_store_of, Forall_slice. by destruct Hw.
    + apply Forall_slice. by destruct Hw.
Qed.

Section responding_v1.
Variable malloc : nat -> bool.
Context {D : Type} `{DB : Database D}.
Hypothesis Hm : forall n, malloc n = true.
Implicit Types (c : ctx D).

(** The packet the request's addresses are kept in. *)
Record holder (pckt : packet_t) (p : gtp_packet) : Prop := {
  h_wf : exists hl base, pkt_wf hl base p;
  h_saddr : saddr p = p_saddr pckt /\ saddrlen p = p_saddrlen pckt;
  h_caddr : caddr p = p_caddr pckt /\ caddrlen p = p_caddrlen pckt;
}.

Lemma respond_v1_ok type l teid pckt p c : byte_ok type -> from_network pckt -> holder pckt p ->
  Forall item_ok l -> 8 + zlen (sent l) < ETHER_MAX_LEN ->
  exists s, respond_v1 malloc type (Ok l) teid p c =
      Ok (OK, mk_ctx _ s (pgw_enq EGRESS (v1_reply type (be_store 4 teid) (sent l) pckt) (c_node c)).2 (c_db c)) /\
    same_counts (count_gtp 0 0 1 (count_pgw 1 0 0 (count_gtp 0 0 1 (count_gtp 0 1 0 (c_mem c))))) s.
Proof.
  intros Ht [[Ls Es] [Lc Ec] _] [(hl & base & Hw) [S1 S2] [C1 C2]] Hl Hfit. unfold respond_v1.
  rewrite gtpc_v1_alloc_packet_eq by done. res_simpl. cbn [negb Z.eqb OK].
  unfold gtpc_copy_packet_addr. cbn [new_packet saddr caddr items count length_ offset packet]. rewrite S1, S2, C1, C2, Es, Ec.
  rewrite !copy_addr_ok by (done || unfold sizeof_sockaddr_in; lia). res_simpl. rewrite !splice_addr by done.
  rewrite (gtpc_free_packet_ok hl base) by done. res_simpl.
  match goal with |- context [append_list _ _ ?p ?s] => set (p0 := p); set (s0 := s) end.
  assert (Hw0 : pkt_wf sizeof_gtpc_v1_header 8 p0) by (destruct (v1_packet_wf type); by split).
  destruct (append_list_ok malloc Hm sizeof_gtpc_v1_header 8 l p0 s0) as (p1 & s1 & -> & Hw1 & Hc & Hf & Hs); [done|done|exact Hfit|]. res_simpl. cbn [negb].
  destruct Hf as (F2 & _ & Fs & Fsl & Fc & Fcl). change (contents p0) with (@nil (Z * list Z)) in Hc. cbn [app] in Hc.
  pose proof (body_contents _ _ _ Hw1) as Hb. rewrite Hc in Hb. fold (sent l) in Hb. pose proof (wf_off _ _ _ Hw1) as Ho. pose proof (wf_size _ _ _ Hw1) as Hz.
  change sizeof_gtpc_v1_header with 8 in *. unfold ETHER_MAX_LEN in *.
  assert (Lo : offset p1 - 8 = zlen (sent l)) by (rewrite <-Hb; unfold body; rewrite zlen_slice; lia).
  rewrite wr_ok by (unfold o_teid; lia). res_simpl. unfold htonl. rewrite le_store_bswap. unfold o_teid.
  destruct (tid_written p1 (be_store 4 teid)) as [Hw2 Ed]; [done|by rewrite length_be_store|apply be_store_ok|].
  set (p2 := set_packet _ p1) in *.
  rewrite (gtpc_convert_to_packet_ok malloc 8 8) by (done || (unfold addrs_ok, sizeof_sockaddr_in in *; cbn [p2 set_packet saddr caddr saddrlen caddrlen]; rewrite Fs, Fc, Fsl, Fcl; cbn; lia)).
  res_simpl. cbn [p2 set_packet offset packet saddr caddr saddrlen caddrlen]. rewrite Fs, Fc, Fsl, Fcl, Ed, Hb, F2, Lo. cbn [p0 saddr caddr saddrlen caddrlen packet].
  rewrite !splice_addr by done. unfold pgw_enq. cbn match. cbn [negb Z.eqb OK]. eexists. split.
  - cbn [snd]. do 4 f_equal. unfold v1_reply, v1_bytes, pgw_swap_address. cbn [datalen data p_saddr p_saddrlen p_caddr p_caddrlen]. rewrite Es, Ec. f_equal. f_equal; [lia|].
    f_equal. unfold v1_block. rewrite Z.mod_small by done. done.
  - destruct Hs as (G1 & G2 & G3 & G4 & G5 & G6 & G7). unfold same_counts, count_gtp, count_pgw, next_malloc in *. cbn in *.
    rewrite G1, G2, G3, G4, G5, G6, G7. done.
Qed.
End responding_v1.

(** ** The elements on the wire *)
Definition emits (l : list item) (bs : list Z) : Prop := Forall item_ok l /\ sent l = bs.
Lemma emits_nil : emits [] [].
Proof. split; [constructor|done]. Qed.
Lemma emits_app l l' bs bs' : emits l bs -> emits l' bs' -> emits (l ++ l') (bs ++ bs').
Proof. intros [H <-] [H' <-]. split; [by apply Forall_app_2|]. unfold sent. by rewrite !fmap_app, concat_app. Qed.
Lemma emits_cons e l bs bs' : emits [e] bs -> emits l bs' -> emits (e :: l) (bs ++ bs').
Proof. apply (emits_app [e]). Qed.
Lemma emits_block b : b <> [] -> bytes_ok b -> emits [block b] b.
Proof.
  intros Hn Hb. split.
  - apply Forall_cons_2; [|apply Forall_nil_2]. split; [|done]. cbn. destruct b; [done|cbn [length]; lia].
  - unfold sent. cbn [fmap list_fmap concat block sent_item fst snd]. by rewrite slice_0_all, app_nil_r.
Qed.

Definition seq_part (cs : session) : list Z := be_store 2 (gtph_seqno cs) ++ [0; 0].
Definition teid_part (type : Z) (cs : session) : list Z := type :: be_store 4 (pgw_teid (ps cs)).
Definition nsapi_part (stack : Z) (cs : session) : list Z :=
  if any_of_v1 HAVE_V1_NSAPI cs then [GTPC_V1_IE_NSAPI; bf_set 0 4 (nsapi (ps cs)) stack mod 256] else [].
Definition address_part (a : list Z) : list Z :=
  [GTPC_V1_IE_END_USER_ADDRESS; 0; 6; 0xf1; GTPC_V1_EUA_NUMBER_IP] ++ Z.lor PGW_IP8 (nth 0 a 0) :: slice 1 3 a.
Definition gsn_part (a : list Z) : list Z := [GTPC_V1_IE_GSN_ADDRESS; 0; 4] ++ a.
Definition qos_part (cs : session) : list Z :=
  if any_of_v1 HAVE_V1_QOS cs then
    GTPC_V1_IE_QOS :: be_store 2 (qos_len (ps cs)) ++ slice 0 (qos_len (ps cs)) (ies (ps cs) qos)
  else [].
Definition pco_part (cs : session) : list Z :=
  let ext := pco_mtu_v1 cs ++ pco_ipcp_v1 cs in
  let opts := pco_dns_v1 cs ++ ext in
  if any_of_v1 HAVE_V1_PCO cs && any_of_v1 (Z.lor PCO_ALL HAVE_PCO_IPCP_DNS) cs && (1 <? zlen opts) then
    GTPC_V1_IE_PCO :: be_store 2 (zlen opts + 1) ++ (if 0 <? zlen ext then 0x80 else 0) :: opts
  else [].

Lemma seqno_emits cs : emits (seqno_blocks cs) (seq_part cs).
Proof.
  unfold seqno_blocks, seq_part, htons. rewrite le_store_bswap. apply emits_cons; apply emits_block; try done.
  - apply be_store_ok.
  - by apply bytes_okb_ok.
Qed.
Lemma teid_emits type cs : byte_ok type -> emits [teid_block type cs] (teid_part type cs).
Proof. intros Ht. unfold teid_block, teid_part, htonl. rewrite le_store_bswap. apply emits_block; [done|bytes]. Qed.
Lemma nsapi_emits stack cs : exists l, nsapi_block stack cs = Ok l /\ emits l (nsapi_part stack cs) /\ zlen (nsapi_part stack cs) <= 2.
Proof.
  unfold nsapi_block, nsapi_part. destruct (any_of_v1 _ _); [|by eexists; split; [done|]; split; [apply emits_nil|]].
  assert (E : forall v x, wr_bits [GTPC_V1_IE_NSAPI; v] 1 0 4 x = Ok [GTPC_V1_IE_NSAPI; bf_set 0 4 x v mod 256]).
  { intros v x. unfold wr_bits. rewrite rd_ok by (cbn; lia). res_simpl. change (slice 1 (Z.of_nat 1) [GTPC_V1_IE_NSAPI; v]) with [v].
    cbn [le_load]. rewrite Z.mul_0_r, Z.add_0_r. reflexivity. }
  rewrite E. res_simpl. eexists. split; [done|]. split; [|done]. apply emits_block; [done|].
  apply Forall_cons_2; [unfold GTPC_V1_IE_NSAPI, byte_ok; lia|]. apply Forall_cons_2; [apply byte_mod|apply Forall_nil_2].
Qed.
Lemma gsn_emits a : addr_ok a -> exists e, gsn_block a = Ok e /\ emits [e] (gsn_part a).
Proof.
  intros [La Ha]. unfold gsn_block. rewrite rd_bytes_ok by lia. res_simpl. eexists. split; [done|].
  replace (slice 0 4 a) with a by (rewrite <-La; symmetry; apply slice_0_all). apply (emits_block (gsn_part a)); [done|].
  unfold gsn_part, GTPC_V1_IE_GSN_ADDRESS. bytes.
Qed.
Lemma qos_emits cs : v1_session cs -> emits (qos_blocks cs) (qos_part cs) /\ zlen (qos_part cs) <= 258.
Proof.
  intros [[Hs _ _ _] [Hq _]]. unfold qos_blocks, qos_part, any_of_v1 in *. destruct (Z.eqb_spec (Z.land (flag_v1 (ps cs)) HAVE_V1_QOS) 0) as [E|E]; cbn [negb].
  { split; [apply emits_nil|done]. }
  specialize (Hq E). destruct (Hs qos) as [Lq Bq]. cbn [sizeof_ie] in Lq. unfold htons. rewrite le_store_bswap. split.
  - apply (emits_cons _ _ [GTPC_V1_IE_QOS]); [apply emits_block; [done|by apply bytes_okb_ok]|]. apply emits_cons.
    + by apply emits_block; [|apply be_store_ok].
    + split; [apply Forall_cons_2; [|apply Forall_nil_2]; split; [cbn [fst snd]; lia|done]|]. unfold sent. cbn [fmap list_fmap concat sent_item fst snd]. apply app_nil_r.
  - cbn [length]. rewrite length_app, length_be_store. pose proof (zlen_slice 0 (qos_len (ps cs)) (ies (ps cs) qos)) as Ls. cbn in *. lia.
Qed.

Lemma pool_octets a0 a1 a2 a3 : bytes_ok [a0; a1; a2; a3] ->
  le_store 4 (htonl (Z.lor (ntohl (le_load [a0; a1; a2; a3])) (Z.shiftl PGW_IP8 24))) = [Z.lor PGW_IP8 a0; a1; a2; a3].
Proof.
  intros Hb. unfold htonl, ntohl. rewrite le_store_bswap, bswap_load by done.
  rewrite !Forall_cons in Hb. destruct Hb as (H0 & H1 & H2 & H3 & _). unfold byte_ok in *.
  assert (Ho : 0 <= Z.lor PGW_IP8 a0 < 256).
  { assert (H : forallb (fun x => (0 <=? Z.lor PGW_IP8 x) && (Z.lor PGW_IP8 x <? 256)) (seqZ 0 256) = true) by reflexivity.
    rewrite forallb_forall in H. specialize (H a0 ltac:(apply list_elem_of_In, elem_of_seqZ; lia)). to_prop. lia. }
  assert (El : Z.lor (be_load [a0; a1; a2; a3]) (Z.shiftl PGW_IP8 24) = be_load [Z.lor PGW_IP8 a0; a1; a2; a3]).
  { assert (Eb : forall x, be_load [x; a1; a2; a3] = Z.lor (Z.shiftl x 24) (a1 * 2 ^ 16 + a2 * 2 ^ 8 + a3)).
    { intros x. rewrite lor_high_low by lia. unfold be_load. cbn [reverse rev_append le_load]. lia. }
    rewrite !Eb, Z.shiftl_lor. rewrite (Z.lor_comm (Z.shiftl PGW_IP8 24)), <-!Z.lor_assoc. f_equal. apply Z.lor_comm. }
  rewrite El. change 4%nat with (length [Z.lor PGW_IP8 a0; a1; a2; a3]). apply be_store_of. bytes.
Qed.
Lemma address_emits cs : addr_ok (ue_ipv_n (ps cs)) -> exists e, endua_block cs = Ok e /\ emits [e] (address_part (ue_ipv_n (ps cs))).
Proof.
  intros [La Ha]. unfold endua_block. change (wr_bits [0] 0 4 4 0xf) with (Ok [0xf0]). res_simpl.
  change (wr_bits [0xf0] 0 0 4 GTPC_V1_EUA_ORGANIZATION_IETF) with (Ok [0xf1]). res_simpl.
  destruct (ue_ipv_n (ps cs)) as [|a0 [|a1 [|a2 [|a3 [|]]]]]; cbn [length] in La; try lia. rewrite pool_octets by done.
  eexists. split; [done|]. apply (emits_block (address_part [a0; a1; a2; a3])); [done|].
  unfold address_part, GTPC_V1_IE_END_USER_ADDRESS, GTPC_V1_EUA_NUMBER_IP. cbn [nth]. change (slice 1 3 [a0; a1; a2; a3]) with [a1; a2; a3].
  pose proof (be_store_ok 4 (Z.lor (be_load [a0; a1; a2; a3]) (Z.shiftl PGW_IP8 24))) as Hp. pose proof (pool_octets a0 a1 a2 a3 Ha) as E.
  unfold htonl, ntohl in E. rewrite le_store_bswap, bswap_load in E by done. rewrite E, !Forall_cons in Hp. destruct Hp as (P0 & P1 & P2 & P3 & _). bytes.
Qed.

Lemma pco_emits cs : exists l, pco_blocks cs = Ok l /\ emits l (pco_part cs) /\ zlen (pco_part cs) <= 66.
Proof.
  assert (Hok : forall b n, 0 < n <= zlen b -> bytes_ok b -> forall bs, slice 0 n b = bs -> emits [(0, b, n)] bs).
  { intros b n Hn Hb bs <-. split; [apply Forall_cons_2; [by split|apply Forall_nil_2]|]. unfold sent. cbn [fmap list_fmap concat sent_item fst snd]. apply app_nil_r. }
  unfold pco_blocks, pco_part, setup_pco_v1, pco_dns_v1, pco_mtu_v1, pco_ipcp_v1.
  generalize (any_of_v1 HAVE_V1_PCO cs), (any_of_v1 (Z.lor PCO_ALL HAVE_PCO_IPCP_DNS) cs), (have_v1 HAVE_PCO_DNS_IPV64 cs),
    (have_v1 HAVE_PCO_DNS_IPV6 cs), (have_v1 HAVE_PCO_DNS_IPV4 cs), (have_v1 HAVE_PCO_NONIP_LINK_MTU cs), (have_v1 HAVE_PCO_IPV4_LINK_MTU cs),
    (have_v1 HAVE_PCO_IPCP_DNS cs).
  intros b1 b2 d64 d6 d4 mn m4 ip. destruct b1; [|eexists; split; [reflexivity|]; split; [apply emits_nil|reflexivity || (cbn; lia)]].
  destruct b2; [|eexists; split; [reflexivity|]; split; [apply emits_nil|cbn; lia]].
  destruct d64; [|destruct d6; [|destruct d4]]; (destruct mn; [|destruct m4]); destruct ip.
  all: eexists; split; [vm_compute; reflexivity|]; split; [|vm_compute; congruence].
  all: first [ apply emits_nil | apply Hok; [vm_compute; split; congruence|apply bytes_okb_ok; reflexivity|reflexivity] ].
Qed.

(** *** The responses *)
Definition create_body (stack : Z) (cs : session) : list Z :=
  seq_part cs ++ [GTPC_V1_IE_CAUSE; GTPC_V1_CAUSE_ACCEPTED] ++ [GTPC_V1_IE_REORDERING_REQ; 0] ++ [GTPC_V1_IE_RECOVERY; 1] ++
  teid_part GTPC_V1_IE_TEID_DATA_I cs ++ teid_part GTPC_V1_IE_TEID_CTRL_PLANE cs ++ nsapi_part stack cs ++
  [GTPC_V1_IE_CHARGING_ID; 0; 0; 0; 0] ++ address_part (ue_ipv_n (ps cs)) ++ pco_part cs ++
  gsn_part (pgw_c_ipv_n cs) ++ gsn_part (pgw_u_ipv_n (ps cs)) ++ gsn_part (pgw_c_ipv_n cs) ++ gsn_part (pgw_u_ipv_n (ps cs)) ++ qos_part cs.
Definition update_body (cs : session) : list Z :=
  seq_part cs ++ [GTPC_V1_IE_CAUSE; GTPC_V1_CAUSE_ACCEPTED] ++ [GTPC_V1_IE_RECOVERY; 1] ++
  teid_part GTPC_V1_IE_TEID_DATA_I cs ++ teid_part GTPC_V1_IE_TEID_CTRL_PLANE cs ++ [GTPC_V1_IE_CHARGING_ID; 0; 0; 0; 0] ++
  pco_part cs ++ gsn_part (pgw_c_ipv_n cs) ++ gsn_part (pgw_u_ipv_n (ps cs)) ++ qos_part cs.
Definition delete_body (cs : session) : list Z := seq_part cs ++ [GTPC_V1_IE_CAUSE; GTPC_V1_CAUSE_ACCEPTED] ++ pco_part cs.
Definition denied_body (cs : session) : list Z := seq_part cs ++ [GTPC_V1_IE_CAUSE; GTPC_V1_CAUSE_NO_RESOURCE_AVAILABLE].

(** Items that end as [bs] and fit a packet. *)
Definition makes_v1 (m : res (list item)) (bs : list Z) : Prop :=
  exists l, m = Ok l /\ emits l bs /\ 8 + zlen bs < ETHER_MAX_LEN.
Ltac constant := apply emits_block; [done|by apply bytes_okb_ok].

Lemma makes_create stack cs : v1_session cs -> makes_v1 (create_items stack cs) (create_body stack cs).
Proof.
  intros Hv. pose proof Hv as [[_ Hue [Lu Bu] [Lc Bc]] _]. unfold create_items, create_body.
  destruct (nsapi_emits stack cs) as (ns & -> & Ens & Lns). destruct (address_emits cs Hue) as (ua & -> & Eua).
  destruct (pco_emits cs) as (pc & -> & Epc & Lpc). destruct (gsn_emits (pgw_c_ipv_n cs)) as (gc & -> & Egc); [done|].
  destruct (gsn_emits (pgw_u_ipv_n (ps cs))) as (gu & -> & Egu); [done|]. destruct (qos_emits cs Hv) as [Eq Lq]. res_simpl.
  eexists. split; [done|]. split.
  - apply emits_app; [apply seqno_emits|]. apply emits_cons; [constant|]. apply emits_cons; [constant|]. apply emits_cons; [constant|].
    apply emits_cons; [by apply teid_emits, byte_const|]. apply emits_cons; [by apply teid_emits, byte_const|].
    apply emits_app; [done|]. apply emits_cons; [constant|]. apply emits_cons; [done|]. apply emits_app; [done|].
    do 4 (apply emits_cons; [done|]). done.
  - unfold seq_part, teid_part, gsn_part, address_part, ETHER_MAX_LEN. destruct Hue as [La _].
    assert (zlen (slice 1 3 (ue_ipv_n (ps cs))) = 3) by (apply zlen_slice; lia).
    repeat first [rewrite length_app|progress cbn [length]|rewrite length_be_store]. lia.
Qed.
Lemma makes_update cs : v1_session cs -> makes_v1 (update_items cs) (update_body cs).
Proof.
  intros Hv. pose proof Hv as [[_ _ [Lu Bu] [Lc Bc]] _]. unfold update_items, update_body.
  destruct (pco_emits cs) as (pc & -> & Epc & Lpc). destruct (gsn_emits (pgw_c_ipv_n cs)) as (gc & -> & Egc); [done|].
  destruct (gsn_emits (pgw_u_ipv_n (ps cs))) as (gu & -> & Egu); [done|]. destruct (qos_emits cs Hv) as [Eq Lq]. res_simpl.
  eexists. split; [done|]. split.
  - apply emits_app; [apply seqno_emits|]. apply emits_cons; [constant|]. apply emits_cons; [constant|].
    apply emits_cons; [by apply teid_emits, byte_const|]. apply emits_cons; [by apply teid_emits, byte_const|]. apply emits_cons; [constant|].
    apply emits_app; [done|]. do 2 (apply emits_cons; [done|]). done.
  - unfold seq_part, teid_part, gsn_part, ETHER_MAX_LEN.
    repeat first [rewrite length_app|progress cbn [length]|rewrite length_be_store]. lia.
Qed.
Lemma makes_delete cs : makes_v1 (delete_items cs) (delete_body cs).
Proof.
  unfold delete_items, delete_body. destruct (pco_emits cs) as (pc & -> & Epc & Lpc). res_simpl. eexists. split; [done|]. split.
  - apply emits_app; [apply seqno_emits|]. apply emits_cons; [constant|done].
  - unfold seq_part, ETHER_MAX_LEN. repeat first [rewrite length_app|progress cbn [length]|rewrite length_be_store]. lia.
Qed.
Lemma makes_denied cs : makes_v1 (Ok (denied_items cs)) (denied_body cs).
Proof.
  unfold denied_items, denied_body. eexists. split; [done|]. split.
  - apply emits_app; [apply seqno_emits|constant].
  - unfold seq_part. by rewrite !length_app, length_be_store.
Qed.

(** ** Decisions *)
Section deciding.
Variable malloc : nat -> bool.
Context {D : Type} `{DB : Database D}.
Variables (erange erange' : bool) (stack : Z).
Hypothesis Hm : forall n, malloc n = true.
Hypothesis Hbind : forall st k (db : D), db_bind st k db = true.
Implicit Types (c : ctx D) (cs : session).

Definition create_v1 cs (db : D) : bool * session * D :=
  let im := number erange' imsi GTPC_IMSI_LEN cs in
  let '(cs, db) := select CREATE_SESSION_IMSI_LOOKUP im cs db in
  if any_of HAVE_RECORD cs then
    let '(ok, db) := run (CREATE_PDP_CONTEXT_UPD_SQL (teid_grekey c_teid cs) (sgw_ip c_teid cs) (teid_grekey u_teid cs) (sgw_ip u_teid cs)
                            0 0 (pgw_teid (ps cs)) im im) db in (ok, cs, db)
  else (false, cs, db).
Definition update_v1 cs (db : D) : bool * session * D :=
  let '(cs, db) := select MODIFY_BEARER_LOOKUP (ntohl (gtph_teid cs)) cs db in
  if any_of HAVE_RECORD cs then
    if have_v1 (Z.lor HAVE_V1_TEID_DATA HAVE_V1_TEID_CTRL) cs then
      let '(ok, db) := run (UPDATE_PDP_CONTEXT_UPD_SQL (teid_grekey c_teid cs) (sgw_ip c_teid cs) (teid_grekey u_teid cs) (sgw_ip u_teid cs)
                              (imsi_num cs)) db in
      (ok, if ok then set_sgw_c_teid (ntohl (teid_grekey c_teid cs)) cs else cs, db)
    else (true, set_sgw_c_teid (ntohl (sgw_c_teid cs)) cs, db)
  else (false, cs, db).
Definition delete_v1 cs (db : D) : bool * session * D :=
  let '(cs, db) := select DELETE_SESSION_LOOKUP (gtph_teid cs) cs db in
  if any_of HAVE_RECORD cs then
    let '(ok, db) := run (DELETE_SESSION_UPD_SQL (gtph_teid cs) (nsapi (ps cs))) db in (ok, cs, db)
  else (false, cs, db).
(** What a request must have, the decision, and the tunnel identifier and elements of
    the accepting response. *)
Definition kind_v1 (t : Z) : option (Z * (session -> D -> bool * session * D) * (session -> list Z * list Z)) :=
  if t =? GTPC_V1_MSG_CREATE_PDP_CONTEXT_REQ then
    Some (REQUIRED_CREATE_PDP, create_v1, fun cs => (be_store 4 (ntohl (teid_grekey c_teid cs)), create_body stack cs))
  else if t =? GTPC_V1_MSG_UPDATE_PDP_CONTEXT_REQ then
    Some (REQUIRED_UPDATE_PDP, update_v1, fun cs => (be_store 4 (sgw_c_teid cs), update_body cs))
  else if t =? GTPC_V1_MSG_DELETE_PDP_CONTEXT_REQ then
    Some (REQUIRED_DELETE_PDP, delete_v1, fun cs => (be_store 4 (ntohl (sgw_c_teid cs)), delete_body cs))
  else None.
Definition refusal_v1 cs : list Z * list Z := (be_store 4 (ntohl (teid_grekey c_teid cs)), denied_body cs).
Definition verdict_v1 (t : Z) cs (db : D) : list Z * list Z * D :=
  match kind_v1 t with
  | Some (required, decide_, accept) =>
    if have_v1 required cs then
      let '(ok, cs, db) := decide_ cs db in (if ok then accept cs else refusal_v1 cs, db)
    else (refusal_v1 cs, db)
  | None => (refusal_v1 cs, db)
  end.

Lemma record_v1 r cs : v1_session cs -> v1_session (on_tunnel_record r cs).
Proof.
  intros [Hw Hq]. split; [by apply on_tunnel_record_ok|]. unfold on_tunnel_record. by repeat case_match.
Qed.
Lemma select_v1 st key cs c : v1_session cs -> exists cs' db, select st key cs (c_db c) = (cs', db) /\
  lookup_tunnel st key cs c = Ok (cs', set_db db c) /\ v1_session cs' /\ same_request cs cs'.
Proof.
  intros Hv. destruct (lookup_select Hbind st key cs c (v1_wf _ Hv)) as (cs' & db & E & El & _ & Hr). exists cs', db.
  split; [done|]. split; [done|]. split; [|done]. unfold select in E. destruct (db_select st key (c_db c)) as [rows db']. injection E as <- _.
  generalize (default [] rows). intros l. clear -Hv. revert cs Hv. induction l as [|r l IH]; intros cs Hv; cbn [foldl]; [done|]. by apply IH, record_v1.
Qed.
Lemma set_teid_v1 x cs : v1_session cs -> v1_session (set_sgw_c_teid x cs).
Proof. intros [[Hs Hue Hu Hc] Hq]. split; [by split|done]. Qed.

Lemma create_v1_ok cs c : v1_session cs -> let '(ok, cs', db) := create_v1 cs (c_db c) in
  _on_create_pdp_ctx erange erange' cs c = Ok (if ok then OK else ERR, cs', set_db db c) /\ v1_session cs'.
Proof.
  intros Hv. unfold create_v1, _on_create_pdp_ctx.
  rewrite (number_ok erange msisdn), (number_ok erange' imsi) by (apply Hv || (vm_compute; congruence)). res_simpl.
  set (im := number erange' imsi _ cs). destruct (select_v1 CREATE_SESSION_IMSI_LOOKUP im cs c Hv) as (cs1 & db1 & -> & -> & Hv1 & _). res_simpl.
  destruct (any_of HAVE_RECORD cs1); cbn [negb]; [|done].
  match goal with |- context [query ?q ?x] => destruct (query_run q x) as (rc & db2 & -> & E) end. cbn [c_db set_db] in E. rewrite E.
  by destruct (rc =? 0).
Qed.
Lemma update_v1_ok cs c : v1_session cs -> let '(ok, cs', db) := update_v1 cs (c_db c) in
  _on_update_pdp_ctx cs c = Ok (if ok then OK else ERR, cs', set_db db c) /\ v1_session cs'.
Proof.
  intros Hv. unfold update_v1, _on_update_pdp_ctx.
  destruct (select_v1 MODIFY_BEARER_LOOKUP (ntohl (gtph_teid cs)) cs c Hv) as (cs1 & db1 & -> & -> & Hv1 & _). res_simpl.
  destruct (any_of HAVE_RECORD cs1); cbn [negb]; [|done]. destruct (have_v1 _ cs1); [|split; [done|by apply set_teid_v1]].
  match goal with |- context [query ?q ?x] => destruct (query_run q x) as (rc & db2 & -> & E) end. cbn [c_db set_db] in E. rewrite E.
  destruct (rc =? 0); cbn [negb]; [|done]. split; [done|by apply set_teid_v1].
Qed.
Lemma delete_v1_ok cs c : v1_session cs -> let '(ok, cs', db) := delete_v1 cs (c_db c) in
  _on_delete_pdp_ctx cs c = Ok (if ok then OK else ERR, cs', set_db db c) /\ v1_session cs'.
Proof.
  intros Hv. unfold delete_v1, _on_delete_pdp_ctx.
  destruct (select_v1 DELETE_SESSION_LOOKUP (gtph_teid cs) cs c Hv) as (cs1 & db1 & -> & -> & Hv1 & _). res_simpl.
  destruct (any_of HAVE_RECORD cs1); cbn [negb]; [|done].
  match goal with |- context [query ?q ?x] => destruct (query_run q x) as (rc & db2 & -> & E) end. cbn [c_db set_db] in E. rewrite E.
  by destruct (rc =? 0).
Qed.

(** One response is sent, and the packets in use are one more. *)
Definition answers_v1 (pckt : packet_t) (type : Z) (tid body : list Z) (db : D) c c' : Prop :=
  c_node c' = (pgw_enq EGRESS (v1_reply type tid body pckt) (c_node c)).2 /\ c_db c' = db /\
  outstanding (c_mem c') = ((outstanding (c_mem c)).1, u64 ((outstanding (c_mem c)).2 + 1)).

Lemma respond_v1_answers type m bs teid pckt p db c c1 : byte_ok type -> from_network pckt -> holder pckt p -> makes_v1 m bs ->
  c_node c1 = c_node c -> c_db c1 = db -> same_counts (count_gtp 0 1 0 (c_mem c)) (c_mem c1) ->
  exists c', respond_v1 malloc type m teid p c1 = Ok (OK, c') /\ answers_v1 pckt type (be_store 4 teid) bs db c c'.
Proof.
  intros Ht Hn Hh (l & -> & [Hi <-] & Hf) Ec Ed Em. destruct (respond_v1_ok malloc Hm type l teid pckt p c1) as (s & -> & Hs); [done..|].
  eexists. split; [done|]. split; [by rewrite <-Ec|]. split; [done|]. by apply (outstanding_answer _ (c_mem c1)).
Qed.

Lemma pdp_context_ok required on decide_ accept (tidf : session -> Z) (bodyf : session -> list Z) type pckt p cs c c1 :
  (forall cs c, v1_session cs -> let '(ok, cs', db) := decide_ cs (c_db c) in
     on cs c = Ok (if ok : bool then OK else ERR, cs', set_db db c) /\ v1_session cs') ->
  (forall p cs c, exists m, accept type p cs c = respond_v1 malloc type m (tidf cs) p c /\ (v1_session cs -> makes_v1 m (bodyf cs))) ->
  byte_ok type -> from_network pckt -> holder pckt p -> v1_session cs ->
  c_node c1 = c_node c -> c_db c1 = c_db c -> same_counts (count_gtp 0 1 0 (c_mem c)) (c_mem c1) ->
  let '(r, db) := (if have_v1 required cs then let '(ok, cs, db) := decide_ cs (c_db c) in
                     (if ok : bool then (be_store 4 (tidf cs), bodyf cs) else refusal_v1 cs, db) else (refusal_v1 cs, c_db c)) in
  exists c', pdp_context malloc required on accept type p cs c1 = Ok (OK, c') /\ answers_v1 pckt type r.1 r.2 db c c'.
Proof.
  intros Hon Hacc Ht Hn Hh Hv Ec Ed Em. unfold pdp_context.
  destruct (have_v1 required cs); cbn [negb]; [|by apply respond_v1_answers; [..|apply makes_denied|done|done|done]].
  specialize (Hon cs c1 Hv). rewrite Ed in Hon. destruct (decide_ cs (c_db c)) as [[ok cs'] db]. destruct Hon as [-> Hv']. res_simpl.
  destruct ok; cbn [Z.eqb OK ERR].
  - destruct (Hacc p cs' (set_db db c1)) as (m & -> & Hmk). cbn [fst snd]. by apply respond_v1_answers; [..|apply Hmk|done|done|done].
  - by apply respond_v1_answers; [..|apply makes_denied|done|done|done].
Qed.

Lemma answer_v1_ok t pckt cs c : is_request_v1 t = true -> from_network pckt -> v1_session cs ->
  let '(r, db) := verdict_v1 t cs (c_db c) in
  exists c', answer_v1 malloc erange erange' stack t pckt cs c = Ok (OK, c') /\ answers_v1 pckt (t + 1) r.1 r.2 db c c'.
Proof.
  intros Hr Hn Hv. pose proof Hn as [[Ls Es] [Lc Ec] _]. unfold answer_v1, verdict_v1. rewrite Hr. cbn [negb].
  assert (Ht : u8 (t + 1) = t + 1 /\ byte_ok (t + 1)).
  { unfold is_request_v1 in Hr. apply existsb_exists in Hr as (x & Hx & ->%Z.eqb_eq). repeat (destruct Hx as [<-|Hx]; [split; [done|vm_compute; split; congruence]|]). done. }
  destruct Ht as [-> Ht]. rewrite gtpc_alloc_packet_eq by done. res_simpl. cbn [negb Z.eqb OK]. cbn [new_packet saddr caddr items count length_ offset packet].
  rewrite Es, Ec, !copy_addr_ok by (done || unfold sizeof_sockaddr_in; lia). res_simpl. rewrite !splice_addr by done.
  set (p := mk_packet _ _ _ _ _ _ _ _ _). set (c1 := set_mem _ c).
  assert (Hh : holder pckt p) by (split; [eexists _, _; destruct (v2_packet_wf GTPC_UNKNOWN); by split|by rewrite Es|by rewrite Ec]).
  unfold kind_v1. case_if; [|case_if; [|case_if]].
  - apply (pdp_context_ok _ _ create_v1 _ (fun cs => ntohl (teid_grekey c_teid cs)) (create_body stack)); try done; [apply create_v1_ok|].
    intros p1 cs1 c2. eexists. split; [reflexivity|]. exact (makes_create stack cs1).
  - apply (pdp_context_ok _ _ update_v1 _ sgw_c_teid update_body); try done; [apply update_v1_ok|].
    intros p1 cs1 c2. eexists. split; [reflexivity|]. apply makes_update.
  - apply (pdp_context_ok _ _ delete_v1 _ (fun cs => ntohl (sgw_c_teid cs)) delete_body); try done; [apply delete_v1_ok|].
    intros p1 cs1 c2. eexists. split; [reflexivity|]. intros _. exact (makes_delete cs1).
  - by apply respond_v1_answers; [..|apply makes_denied|done|done|done].
Qed.
End deciding.

(** ** Messages made of well-formed elements *)
Definition variable_v1 (t : Z) : bool := (msgs_gtpc_v1 t).1.2 <=? 0.
Definition wire_v1 (e : Z * list Z) : list Z := e.1 :: (if variable_v1 e.1 then be_store 2 (zlen e.2) else []) ++ e.2.
Record element_ok (e : Z * list Z) : Prop := {
  el_type : (msgs_gtpc_v1 e.1).1.1 = e.1 /\ 0 < e.1 < 256;
  el_len : variable_v1 e.1 = false -> zlen e.2 = (msgs_gtpc_v1 e.1).1.2 - 1;
  el_bytes : bytes_ok e.2;
}.
(** The elements are handed to the parser one after the other. *)
Fixpoint visit_v1 (els : list (Z * list Z)) (cs : gtpc_parse_state) : res (Z * gtpc_parse_state) :=
  match els with
  | [] => Ok (OK, cs)
  | e :: els =>
    '(rc, cs) ← (if (msgs_gtpc_v1 e.1).2 then on_gtpcv1_parse_root e.1 (Some (wire_v1 e)) (zlen e.2) cs else Ok (0, cs));
    if negb (rc =? 0) then Ok (ERR, cs) else visit_v1 els cs
  end.

Lemma rd_bytes_app n a b p : 0 <= p -> 0 <= n -> p + n <= zlen a -> rd_bytes n (a ++ b) p = rd_bytes n a p.
Proof. intros. rewrite !rd_bytes_ok by (rewrite ?length_app; lia). by rewrite slice_app_l by lia. Qed.
Lemma rd_app n a b p : 0 <= p -> p + Z.of_nat n <= zlen a -> rd n (a ++ b) p = rd n a p.
Proof. intros. rewrite !rd_ok by (rewrite ?length_app; lia). by rewrite slice_app_l by lia. Qed.
Lemma copy_ie_app f at_ a b from n cs : 0 <= from -> 0 <= n -> from + n <= zlen a ->
  copy_ie f at_ (a ++ b) from n cs = copy_ie f at_ a from n cs.
Proof. intros. unfold copy_ie. by rewrite rd_bytes_app by lia. Qed.

Lemma zlen_wire_v1 e : zlen (wire_v1 e) = (if variable_v1 e.1 then 3 else 1) + zlen e.2.
Proof. unfold wire_v1. cbn [length]. rewrite length_app. destruct (variable_v1 e.1); rewrite ?length_be_store; cbn [length]; lia. Qed.

(** A parser does not look behind its element. *)
Lemma parse_root_v1_local e rest cs : element_ok e ->
  on_gtpcv1_parse_root e.1 (Some (wire_v1 e ++ rest)) (zlen e.2) cs = on_gtpcv1_parse_root e.1 (Some (wire_v1 e)) (zlen e.2) cs.
Proof.
  intros [_ Hlen _]. pose proof (zlen_wire_v1 e) as Lw. destruct e as [t v]. cbn [fst snd] in *. set (w := wire_v1 (t, v)) in *. clearbody w.
  unfold on_gtpcv1_parse_root. case_if; [done|]. generalize (or_flag_v1 HAVE_V1 cs). intros cs0. to_prop.
  case_if. { case_if; [done|]. to_prop. subst t. change (variable_v1 GTPC_V1_IE_CAUSE) with false in *. by rewrite rd_app by lia. }
  do 3 (case_if; [case_if; [done|]; to_prop; match goal with E : t = ?k |- _ => subst t; change (variable_v1 k) with false in * end;
    by rewrite copy_ie_app by (unfold GTPC_IMSI_LEN in *; lia)|]).
  case_if. { case_if; [done|]. to_prop. subst t. change (variable_v1 GTPC_V1_IE_MSISDN) with true in *.
    by rewrite copy_ie_app by (unfold GTPC_MSISDN_LEN in *; lia). }
  case_if. { case_if; [done|]. to_prop. subst t. change (variable_v1 GTPC_V1_IE_GSN_ADDRESS) with true in *.
    by case_if; rewrite copy_ie_app by lia. }
  case_if. { case_if; [done|]. to_prop. subst t. change (variable_v1 GTPC_V1_IE_QOS) with true in *. by rewrite copy_ie_app by lia. }
  case_if. { case_if; [done|]. to_prop. subst t. change (variable_v1 GTPC_V1_IE_NSAPI) with false in *. by rewrite rd_app by lia. }
  case_if; [|done]. case_if; [done|]. to_prop. subst t. change (variable_v1 GTPC_V1_IE_PCO) with true in *. by rewrite copy_ie_app by lia.
Qed.

Definition wires (els : list (Z * list Z)) : list Z := concat (wire_v1 <$> els).

(** One round per element. *)
Lemma parse_v1_visits els : forall pre fuel cs, Forall element_ok els -> (length els <= fuel)%nat -> zlen (pre ++ wires els) < 2 ^ 16 ->
  parse_v1 fuel (pre ++ wires els) (zlen (pre ++ wires els)) (zlen pre) cs =
    match visit_v1 els cs with Ok r => Ok (Some r) | Fault f => Fault f end.
Proof.
  induction els as [|e els IH]; intros pre fuel cs Hall Hf Hl.
  { unfold wires. cbn [fmap list_fmap concat visit_v1]. rewrite app_nil_r. destruct fuel; cbn [parse_v1]; by rewrite Z.leb_refl. }
  apply Forall_cons_1 in Hall as [He Hall]. pose proof He as [[Ht Hr] Hlen Hb]. pose proof (zlen_wire_v1 e) as Lw.
  destruct fuel as [|fuel]; [cbn [length] in Hf; lia|]. cbn [parse_v1 visit_v1].
  unfold wires in *. rewrite fmap_cons in *. cbn [concat] in *. set (rest := concat (wire_v1 <$> els)) in *.
  assert (Hpos : 1 <= zlen (wire_v1 e)) by (unfold wire_v1; cbn [length]; lia).
  rewrite !length_app in Hl. rewrite (proj2 (Z.leb_gt _ _)) by (rewrite ?length_app; lia).
  assert (E1 : rd 1 (pre ++ wire_v1 e ++ rest) (zlen pre) = Ok e.1).
  { rewrite rd_ok by (rewrite ?length_app; lia). rewrite slice_app_r, Z.sub_diag by lia. unfold wire_v1. cbn [app].
    change (slice 0 (Z.of_nat 1) (e.1 :: ?x)) with [e.1]. cbn [le_load]. f_equal. lia. }
  rewrite E1. res_simpl. unfold variable_v1 in *. destruct (msgs_gtpc_v1 e.1) as [[ty mlen] parser] eqn:Em. cbn [fst snd] in *. subst ty.
  rewrite (proj2 (Z.eqb_neq e.1 0)) by lia.
  assert (E2 : element_len (pre ++ wire_v1 e ++ rest) (zlen pre) mlen = Ok (zlen (wire_v1 e), zlen e.2)).
  { unfold element_len. destruct (mlen <=? 0) eqn:Ev; cbn [negb].
    - assert (Hw : wire_v1 e = [e.1] ++ be_store 2 (zlen e.2) ++ e.2) by (unfold wire_v1, variable_v1; by rewrite Em; cbn [fst snd]; rewrite Ev).
      rewrite rd_ok by (rewrite ?length_app; lia). res_simpl. rewrite slice_app_r by lia. replace (zlen pre + 1 - zlen pre) with 1 by lia.
      rewrite Hw, <-!app_assoc, (slice_app_r 1 _ [e.1]) by (cbn; lia). change (1 - zlen [e.1]) with 0.
      rewrite (slice_app_l 0 (Z.of_nat 2)) by (rewrite ?length_be_store; lia).
      replace (slice 0 (Z.of_nat 2) (be_store 2 (zlen e.2))) with (be_store 2 (zlen e.2)) by (rewrite <-(slice_0_all (be_store 2 (zlen e.2))) at 1; by rewrite length_be_store).
      unfold ntohs. rewrite bswap_load by (apply be_store_ok || apply length_be_store). rewrite be_store_load by lia.
      rewrite wrap_small by lia. do 2 f_equal. rewrite !length_app, length_be_store. cbn [length]. lia.
    - specialize (Hlen eq_refl). do 2 f_equal; lia. }
  rewrite E2. res_simpl. rewrite Nat2Z.id, drop_app_length, parse_root_v1_local by done.
  destruct (if parser then _ else _) as [[rc cs1]|]; [|done]. res_simpl. case_if; [done|].
  rewrite wrap_small by lia. rewrite app_assoc. replace (zlen pre + zlen (wire_v1 e)) with (zlen (pre ++ wire_v1 e)) by (rewrite length_app; lia).
  apply IH; [done|cbn [length] in Hf; lia|]. rewrite !length_app. lia.
Qed.

(** A message with a sequence number and no extension header. *)
Definition v1_message (t : Z) (tid : list Z) (seqno : Z) (els : list (Z * list Z)) : list Z :=
  ([0x32; t] ++ be_store 2 (4 + zlen (wires els)) ++ tid ++ be_store 2 seqno ++ [0; 0]) ++ wires els.
Definition whole (b : list Z) (pckt : packet_t) : Prop := data pckt = b /\ datalen pckt = zlen b.

Lemma read_message fuel t tid seqno els pckt :
  whole (v1_message t tid seqno els) pckt -> zlen tid = 4 -> 0 <= seqno < 2 ^ 16 -> Forall element_ok els -> (length els <= fuel)%nat ->
  12 + zlen (wires els) < 2 ^ 16 ->
  read_v1 fuel pckt = match visit_v1 els parse_state0 with
                      | Ok (rc, st) => Ok (Some (if rc =? OK then Some (set_header seqno (le_load tid) (set_ps st session0)) else None))
                      | Fault f => Fault f
                      end.
Proof.
  intros [Ed El] Ht Hs Hall Hf Hl. unfold read_v1. rewrite Ed, El. unfold v1_message.
  pose proof (length_be_store 2 (4 + zlen (wires els))) as L1. destruct (be_store 2 (4 + zlen (wires els))) as [|l0 [|l1 [|]]]; try discriminate L1.
  pose proof (length_be_store 2 seqno) as L2. pose proof (be_store_load 2 seqno ltac:(cbn; lia)) as E2. pose proof (be_store_ok 2 seqno) as B2.
  destruct (be_store 2 seqno) as [|s0 [|s1 [|]]]; try discriminate L2.
  destruct tid as [|t0 [|t1 [|t2 [|t3 [|]]]]]; cbn [length] in Ht; try lia.
  set (pre := [0x32; t] ++ [l0; l1] ++ [t0; t1; t2; t3] ++ [s0; s1] ++ [0; 0]). assert (Lp : zlen pre = 12) by done.
  rewrite (rd_app 1 pre) by (rewrite ?Lp; unfold o_flags; lia). change (rd 1 pre o_flags) with (Ok 0x32). res_simpl. change (bf_get 1 1 0x32 =? 0) with false. change (bf_get 2 1 0x32 =? 0) with true.
  cbn [negb orb]. rewrite (rd_app 2 pre) by (rewrite ?Lp; unfold sizeof_gtpc_v1_header; lia).
  change (rd 2 pre sizeof_gtpc_v1_header) with (Ok (le_load [s0; s1])). res_simpl. unfold ntohs. rewrite bswap_load by done. rewrite E2.
  change (sizeof_gtpc_v1_header + 4) with (zlen pre). rewrite parse_v1_visits; [|done|done|rewrite length_app; lia].
  destruct (visit_v1 els parse_state0) as [[rc st]|]; [|done]. res_simpl. destruct (rc =? OK); cbn [negb]; [|done].
  rewrite (rd_app 4 pre) by (rewrite ?Lp; unfold o_teid; lia). reflexivity.
Qed.

(** A create PDP context request: the mandatory elements and the NSAPI. *)
Definition create_elements (im ud ct ns gc gu ms : list Z) : list (Z * list Z) :=
  [(GTPC_V1_IE_IMSI, im); (GTPC_V1_IE_TEID_DATA_I, ud); (GTPC_V1_IE_TEID_CTRL_PLANE, ct); (GTPC_V1_IE_NSAPI, ns);
   (GTPC_V1_IE_GSN_ADDRESS, gc); (GTPC_V1_IE_GSN_ADDRESS, gu); (GTPC_V1_IE_MSISDN, ms)].

(** What an element leaves: its value in a field, and its flag. *)
Definition got_v1 (f : ie) (a : Z) (v : list Z) (m : Z) (cs : gtpc_parse_state) : gtpc_parse_state :=
  set_ie f (splice a v (ies cs f)) (or_flag_v1 m (or_flag_v1 HAVE_V1 cs)).
Definition sized (cs : gtpc_parse_state) : Prop := forall f, zlen (ies cs f) = sizeof_ie f.
Lemma got_sized f a v m cs : 0 <= a -> a + zlen v <= sizeof_ie f -> sized cs -> sized (got_v1 f a v m cs).
Proof.
  intros Ha Hl Hs g. unfold got_v1. destruct (decide (g = f)) as [->|Hn]; [rewrite ies_set_same|rewrite ies_set_other by done].
  - rewrite length_splice by (rewrite ?Hs; lia). apply Hs.
  - apply Hs.
Qed.
Lemma got_v1_same f a v m cs : ies (got_v1 f a v m cs) f = splice a v (ies cs f).
Proof. apply ies_set_same. Qed.
Lemma got_v1_other f a v m cs g : g <> f -> ies (got_v1 f a v m cs) g = ies cs g.
Proof. intros. unfold got_v1. by rewrite ies_set_other. Qed.

Lemma copy_v1 f a d from n v m cs : 0 <= from -> 0 <= n -> from + n <= zlen d -> 0 <= a -> a + n <= sizeof_ie f -> sized cs -> slice from n d = v ->
  (cs ← copy_ie f a d from n (or_flag_v1 m (or_flag_v1 HAVE_V1 cs)); Ok (OK, cs)) = Ok (OK, got_v1 f a v m cs).
Proof.
  intros Hf Hn Hd Ha Hl Hs <-. unfold copy_ie. rewrite rd_bytes_ok by lia. res_simpl.
  rewrite wr_bytes_ok; [done|lia|]. rewrite zlen_slice by lia. cbn [ies or_flag_v1]. rewrite Hs. lia.
Qed.

Lemma imsi_v1 im cs : zlen im = 8 -> sized cs ->
  on_gtpcv1_parse_root GTPC_V1_IE_IMSI (Some (wire_v1 (GTPC_V1_IE_IMSI, im))) (zlen im) cs = Ok (OK, got_v1 imsi o_body im HAVE_V1_IMSI cs).
Proof.
  intros L Hs. unfold on_gtpcv1_parse_root. rewrite L. apply (copy_v1 imsi o_body _ 1 GTPC_IMSI_LEN); try done.
  - rewrite zlen_wire_v1. cbn [snd]. by rewrite L.
  - change (wire_v1 (GTPC_V1_IE_IMSI, im)) with ([GTPC_V1_IE_IMSI] ++ im). rewrite slice_app_r by done. change (1 - zlen [GTPC_V1_IE_IMSI]) with 0.
    change GTPC_IMSI_LEN with 8. rewrite <-L. apply slice_0_all.
Qed.
Lemma teid_v1 (data_ : bool) v cs : let t := if data_ then GTPC_V1_IE_TEID_DATA_I else GTPC_V1_IE_TEID_CTRL_PLANE in zlen v = 4 -> sized cs ->
  on_gtpcv1_parse_root t (Some (wire_v1 (t, v))) (zlen v) cs =
    Ok (OK, got_v1 (if data_ then u_teid else c_teid) o_f_teid_key v (if data_ then HAVE_V1_TEID_DATA else HAVE_V1_TEID_CTRL) cs).
Proof.
  intros t L Hs. unfold on_gtpcv1_parse_root. rewrite L. assert (Lw : zlen (wire_v1 (t, v)) = 5) by (rewrite zlen_wire_v1; cbn [snd]; rewrite L; by destruct data_).
  assert (Es : slice 1 4 (wire_v1 (t, v)) = v).
  { replace (wire_v1 (t, v)) with ([t] ++ v) by by destruct data_. rewrite slice_app_r by done. change (1 - zlen [t]) with 0. rewrite <-L. apply slice_0_all. }
  destruct data_.
  - apply (copy_v1 u_teid o_f_teid_key _ 1 4); try done. by rewrite Lw.
  - apply (copy_v1 c_teid o_f_teid_key _ 1 4); try done. by rewrite Lw.
Qed.
Lemma gsn_v1 v cs : zlen v = 4 -> sized cs ->
  on_gtpcv1_parse_root GTPC_V1_IE_GSN_ADDRESS (Some (wire_v1 (GTPC_V1_IE_GSN_ADDRESS, v))) (zlen v) cs =
    Ok (OK, if Z.land (Z.lor (flag_v1 cs) HAVE_V1) HAVE_V1_IPADR_CTRL =? 0 then got_v1 c_teid o_f_teid_blk v HAVE_V1_IPADR_CTRL cs
            else got_v1 u_teid o_f_teid_blk v HAVE_V1_IPADR_DATA cs).
Proof.
  intros L Hs. assert (Lw : zlen (wire_v1 (GTPC_V1_IE_GSN_ADDRESS, v)) = 7) by (rewrite zlen_wire_v1; cbn [snd]; by rewrite L).
  assert (Es : slice 3 4 (wire_v1 (GTPC_V1_IE_GSN_ADDRESS, v)) = v).
  { replace (wire_v1 (GTPC_V1_IE_GSN_ADDRESS, v)) with ([GTPC_V1_IE_GSN_ADDRESS; 0; 4] ++ v) by (unfold wire_v1; cbn [snd]; rewrite L; done).
    rewrite slice_app_r by done. change (3 - zlen [GTPC_V1_IE_GSN_ADDRESS; 0; 4]) with 0. rewrite <-L. apply slice_0_all. }
  unfold on_gtpcv1_parse_root. rewrite L. set (w := wire_v1 _) in *. clearbody w.
  transitivity (if negb (Z.land (flag_v1 (or_flag_v1 HAVE_V1 cs)) HAVE_V1_IPADR_CTRL =? 0)
    then cs ← copy_ie u_teid o_f_teid_blk w 3 4 (or_flag_v1 HAVE_V1_IPADR_DATA (or_flag_v1 HAVE_V1 cs)); Ok (OK, cs)
    else cs ← copy_ie c_teid o_f_teid_blk w 3 4 (or_flag_v1 HAVE_V1_IPADR_CTRL (or_flag_v1 HAVE_V1 cs)); Ok (OK, cs)); [reflexivity|].
  cbn [flag_v1 or_flag_v1]. destruct (_ =? 0); cbn [negb]; apply copy_v1; try done; by rewrite Lw.
Qed.
Lemma msisdn_v1 m0 ms cs : zlen ms = GTPC_MSISDN_LEN -> sized cs ->
  on_gtpcv1_parse_root GTPC_V1_IE_MSISDN (Some (wire_v1 (GTPC_V1_IE_MSISDN, m0 :: ms))) (zlen (m0 :: ms)) cs =
    Ok (OK, got_v1 msisdn o_body ms HAVE_V1_MSISDN cs).
Proof.
  intros L Hs. assert (L7 : zlen (m0 :: ms) = 7) by (cbn [length]; unfold GTPC_MSISDN_LEN in L; lia).
  unfold on_gtpcv1_parse_root. rewrite L7. apply (copy_v1 msisdn o_body _ 4 GTPC_MSISDN_LEN); try done.
  - rewrite zlen_wire_v1. cbn [snd]. by rewrite L7.
  - replace (wire_v1 (GTPC_V1_IE_MSISDN, m0 :: ms)) with ([GTPC_V1_IE_MSISDN; 0; 7; m0] ++ ms) by (unfold wire_v1; cbn [snd]; rewrite L7; done).
    rewrite slice_app_r by done. change (4 - zlen [GTPC_V1_IE_MSISDN; 0; 7; m0]) with 0. rewrite <-L. apply slice_0_all.
Qed.
Lemma nsapi_v1 n cs :
  on_gtpcv1_parse_root GTPC_V1_IE_NSAPI (Some (wire_v1 (GTPC_V1_IE_NSAPI, [n]))) (zlen [n]) cs =
    Ok (OK, set_v1 (qos_len cs) (bf_get 0 4 (n + 256 * 0)) (cause_v1 cs) (or_flag_v1 HAVE_V1_NSAPI (or_flag_v1 HAVE_V1 cs))).
Proof. reflexivity. Qed.

Lemma visit_create im ud ct n gc gu m0 ms :
  zlen im = 8 -> zlen ud = 4 -> zlen ct = 4 -> zlen gc = 4 -> zlen gu = 4 -> zlen ms = GTPC_MSISDN_LEN ->
  exists st, visit_v1 (create_elements im ud ct [n] gc gu (m0 :: ms)) parse_state0 = Ok (OK, st) /\
    Z.land (flag_v1 st) REQUIRED_CREATE_PDP = REQUIRED_CREATE_PDP /\
    slice o_body 8 (ies st imsi) = im /\ slice o_body GTPC_MSISDN_LEN (ies st msisdn) = ms /\
    slice o_f_teid_key 4 (ies st c_teid) = ct /\ slice o_f_teid_blk 4 (ies st c_teid) = gc /\
    slice o_f_teid_key 4 (ies st u_teid) = ud /\ slice o_f_teid_blk 4 (ies st u_teid) = gu /\ nsapi st = bf_get 0 4 n.
Proof.
  intros L1 L2 L3 L4 L5 L6. assert (S0 : sized parse_state0) by (intros f; apply (parse_state0_wf f)).
  unfold create_elements. cbn [visit_v1 fst snd].
  repeat match goal with |- context [(msgs_gtpc_v1 ?k).2] => change (msgs_gtpc_v1 k).2 with true end. cbn match.
  rewrite (imsi_v1 im parse_state0) by done. res_simpl. set (s1 := got_v1 imsi _ _ _ _).
  assert (S1 : sized s1) by (apply got_sized; [done|by rewrite L1|done]). cbn [negb Z.eqb OK].
  rewrite (teid_v1 true ud s1) by done. res_simpl. set (s2 := got_v1 u_teid _ _ _ _).
  assert (S2 : sized s2) by (apply got_sized; [done|by rewrite L2|done]). cbn [negb Z.eqb OK].
  rewrite (teid_v1 false ct s2) by done. res_simpl. set (s3 := got_v1 c_teid _ _ _ _).
  assert (S3 : sized s3) by (apply got_sized; [done|by rewrite L3|done]). cbn [negb Z.eqb OK].
  rewrite (nsapi_v1 n s3). res_simpl. set (s4 := set_v1 _ _ _ _). assert (S4 : sized s4) by (intros f; apply (S3 f)). cbn [negb Z.eqb OK].
  rewrite (gsn_v1 gc s4) by done. res_simpl. change (Z.land (Z.lor (flag_v1 s4) HAVE_V1) HAVE_V1_IPADR_CTRL =? 0) with true. cbn match.
  set (s5 := got_v1 c_teid _ _ _ _). assert (S5 : sized s5) by (apply got_sized; [done|by rewrite L4|done]). cbn [negb Z.eqb OK].
  rewrite (gsn_v1 gu s5) by done. res_simpl. change (Z.land (Z.lor (flag_v1 s5) HAVE_V1) HAVE_V1_IPADR_CTRL =? 0) with false. cbn match.
  set (s6 := got_v1 u_teid _ _ _ _). assert (S6 : sized s6) by (apply got_sized; [done|by rewrite L5|done]). cbn [negb Z.eqb OK].
  rewrite (msisdn_v1 m0 ms s6) by done. res_simpl. cbn [negb Z.eqb OK].
  eexists. split; [done|]. split; [reflexivity|].
  assert (E4 : ies s4 = ies s3) by done.
  assert (Lk : forall f, zlen (ies s1 f) = sizeof_ie f) by apply S1.
  rewrite got_v1_same, !(got_v1_other msisdn) by done. unfold s6. rewrite got_v1_same, !(got_v1_other u_teid) by done. unfold s5. rewrite got_v1_same, !(got_v1_other c_teid) by done.
  rewrite E4. unfold s3. rewrite got_v1_same, !(got_v1_other c_teid) by done. unfold s2. rewrite got_v1_same, !(got_v1_other u_teid) by done. unfold s1. rewrite got_v1_same, !(got_v1_other imsi) by done.
  pose proof (S0 imsi) as Li. pose proof (S0 msisdn) as Lm. pose proof (S0 c_teid) as Lc. pose proof (S0 u_teid) as Lu.
  unfold o_body, o_f_teid_key, o_f_teid_blk, GTPC_MSISDN_LEN in *. cbn [sizeof_ie] in Li, Lm, Lc, Lu.
  unfold sizeof_gtpc_imsi, sizeof_gtpc_msisdn, sizeof_gtpc_f_teid, GTPC_IMSI_LEN, GTPC_MSISDN_LEN in *.
  assert (Hlen : forall p (v b : list Z), 0 <= p -> p + zlen v <= zlen b -> zlen (splice p v b) = zlen b) by (intros; by rewrite length_splice by lia).
  split_and!; try (apply slice_splice_eq; rewrite ?Hlen; lia).
  - rewrite slice_splice_disj by (rewrite ?Hlen; lia). apply slice_splice_eq; lia.
  - rewrite slice_splice_disj by (rewrite ?Hlen; lia). apply slice_splice_eq; lia.
  - transitivity (bf_get 0 4 (n + 256 * 0)); [done|]. by rewrite Z.mul_0_r, Z.add_0_r.
Qed.

Module Properties.
Section claims.
Variable malloc : nat -> bool.
Context {D : Type} `{DB : Database D}.

(** a message made of well-formed elements is read in at most one round per element,
    whatever elements and values they are: the result is that of handing the elements to
    the parser in order, with the sequence number and the tunnel identifier of the
    header, or a refusal when the parser refuses one. *)
Theorem v1_message_read (fuel : nat) (t : Z) (tid : list Z) (seqno : Z) (els : list (Z * list Z)) (pckt : packet_t) :
  whole (v1_message t tid seqno els) pckt -> zlen tid = 4 -> 0 <= seqno < 2 ^ 16 -> Forall element_ok els -> (length els <= fuel)%nat ->
  12 + zlen (wires els) < 2 ^ 16 ->
  read_v1 fuel pckt = match visit_v1 els parse_state0 with
                      | Ok (rc, st) => Ok (Some (if rc =? OK then Some (set_header seqno (le_load tid) (set_ps st session0)) else None))
                      | Fault f => Fault f
                      end.
Proof. apply read_message. Qed.

(** C40: a create PDP context request is understood: the subscriber numbers, both tunnel
    identifiers with their addresses, the NSAPI, the sequence number and the header's
    tunnel identifier that were sent are the ones in the session, and the session has
    everything such a request must have. *)
Theorem create_pdp_understood (fuel : nat) (tid im ud ct gc gu ms : list Z) (seqno n m0 : Z) (pckt : packet_t) :
  let els := create_elements im ud ct [n] gc gu (m0 :: ms) in
  whole (v1_message GTPC_V1_MSG_CREATE_PDP_CONTEXT_REQ tid seqno els) pckt -> Forall (fun e => bytes_ok e.2) els ->
  zlen tid = 4 -> 0 <= seqno < 2 ^ 16 -> zlen im = 8 -> zlen ud = 4 -> zlen ct = 4 -> zlen gc = 4 -> zlen gu = 4 ->
  zlen ms = GTPC_MSISDN_LEN -> (7 <= fuel)%nat ->
  exists cs, read_v1 fuel pckt = Ok (Some (Some cs)) /\ have_v1 REQUIRED_CREATE_PDP cs = true /\
    gtph_seqno cs = seqno /\ gtph_teid cs = le_load tid /\ nsapi (ps cs) = bf_get 0 4 n /\
    slice o_body 8 (ies (ps cs) imsi) = im /\ slice o_body GTPC_MSISDN_LEN (ies (ps cs) msisdn) = ms /\
    slice o_f_teid_key 4 (ies (ps cs) c_teid) = ct /\ teid_blk c_teid cs = gc /\
    slice o_f_teid_key 4 (ies (ps cs) u_teid) = ud /\ teid_blk u_teid cs = gu.
Proof.
  intros els Hw Hb Ht Hs L1 L2 L3 L4 L5 L6 Hf.
  destruct (visit_create im ud ct n gc gu m0 ms L1 L2 L3 L4 L5 L6) as (st & Ev & F1 & E1 & E2 & E3 & E4 & E5 & E6 & E7).
  assert (Hall : Forall element_ok els).
  { unfold els, create_elements in *. rewrite !Forall_cons in *. cbn [snd] in Hb. destruct Hb as (?&?&?&?&?&?&?&_).
    split_and!; try apply Forall_nil_2; (split; cbn [fst snd]; [vm_compute; done|intros Hv; first [discriminate Hv|etransitivity; [eassumption|reflexivity]|reflexivity]|done]). }
  assert (Hl : 12 + zlen (wires els) < 2 ^ 16).
  { unfold els, create_elements, wires, GTPC_MSISDN_LEN in *. cbn [fmap list_fmap concat]. rewrite !length_app, !Nat2Z.inj_add, !zlen_wire_v1. cbn [fst snd length].
    repeat case_if; lia. }
  rewrite (read_message fuel GTPC_V1_MSG_CREATE_PDP_CONTEXT_REQ tid seqno els) by (done || exact Hf). fold els in Ev. rewrite Ev.
  change (OK =? OK) with true. cbn match. eexists. split; [reflexivity|]. unfold have_v1, teid_blk. cbn [ps set_header set_ps gtph_seqno gtph_teid].
  split; [by rewrite F1, Z.eqb_refl|]. done.
Qed.

(** C31: every version 1 request that is read gets exactly one response, back to where it
    came from, with the sequence number of the request: create, update and delete PDP
    context run their statement on the session they name and are accepted with the
    elements of that session when it succeeds; anything else is refused.  The handler
    ends with one packet more in use, the response. *)
Theorem v1_request_answered (erange erange' : bool) (stack : Z) (fuel : nat) (t : Z) (pckt : packet_t) (cs : session) (c : ctx D) :
  (forall n, malloc n = true) -> (forall st k (db : D), db_bind st k db = true) -> from_network pckt ->
  read_v1 fuel pckt = Ok (Some (Some cs)) -> rd 1 (data pckt) o_type = Ok t -> is_request_v1 t = true ->
  let '(r, db) := verdict_v1 erange' stack t cs (c_db c) in
  exists c', event_gtpc_v1_any_req malloc erange erange' stack fuel pckt c = Ok (Some (OK, c')) /\
    c_node c' = (pgw_enq EGRESS (v1_reply (t + 1) r.1 r.2 pckt) (c_node c)).2 /\ c_db c' = db /\
    outstanding (c_mem c') = ((outstanding (c_mem c)).1, u64 ((outstanding (c_mem c)).2 + 1)).
Proof.
  intros Hm Hb Hn Er Et Hr. unfold event_gtpc_v1_any_req. rewrite Er. res_simpl. rewrite Et. res_simpl.
  pose proof (answer_v1_ok malloc erange erange' stack Hm Hb t pckt cs c Hr Hn (read_v1_session fuel pckt cs (net_data _ Hn) Er)) as H.
  destruct (verdict_v1 _ _ _ _ _) as [r db]. destruct H as (c' & -> & H). res_simpl. by exists c'.
Qed.
End claims.

(** *** Examples *)
Import CtrlKeepalive.Properties.
Definition pdp_row : list record :=
  [NVal 7; SVal (lit "0.1.2.3"); NVal 1; NVal 1; SVal (lit "10.0.0.1"); SVal (lit "10.0.0.1"); SVal []; NVal 5; NVal 1; NVal 1; NVal 9].
(** The database notes the keys it is asked for and the statements. *)
#[local] Instance pdp_db : Database (list cstring) := {
  db_query q db := (0, db ++ [q]);
  db_bind _ _ _ := true;
  db_select _ key db := (Some [pdp_row], db ++ [llu key]);
}.
Definition from_sgsn (b : list Z) : packet_t := mk_packet_t (zlen b) b (sockaddr_of [10; 0; 0; 7] 2123) 16 (sockaddr_of [10; 0; 0; 2] 2123) 16.
Definition some_imsi : list Z := [0x21; 0x43; 0x65; 0x87; 0x09; 0x21; 0x43; 0xf5].
Definition some_create : list (Z * list Z) :=
  create_elements some_imsi [1; 2; 3; 4] [5; 6; 7; 8] [5] [10; 0; 0; 7] [10; 0; 0; 8] [0x91; 0x18; 0x09; 0x21; 0x43; 0x65; 0x87].
Definition create_pdp : packet_t := from_sgsn (v1_message GTPC_V1_MSG_CREATE_PDP_CONTEXT_REQ [0; 0; 0; 0] 0x1234 some_create).
Lemma from_sgsn_net b : bytes_ok b -> from_network (from_sgsn b).
Proof. intros Hb. split; [by split|by split|exact Hb]. Qed.
Lemma some_create_ok : Forall element_ok some_create.
Proof.
  unfold some_create, create_elements. repeat (apply Forall_cons_2; [split; [vm_compute; done|intros Hv; first [discriminate Hv|reflexivity]|by apply bytes_okb_ok]|]).
  apply Forall_nil_2.
Qed.

Lemma v1_message_read_witness : exists st, visit_v1 some_create parse_state0 = Ok (OK, st) /\
  read_v1 7 create_pdp = Ok (Some (Some (set_header 0x1234 0 (set_ps st session0)))).
Proof.
  destruct (visit_create some_imsi [1; 2; 3; 4] [5; 6; 7; 8] 5 [10; 0; 0; 7] [10; 0; 0; 8] 0x91 [0x18; 0x09; 0x21; 0x43; 0x65; 0x87]) as (st & E & _);
    [reflexivity..|]. exists st. split; [exact E|].
  pose proof (v1_message_read 7 GTPC_V1_MSG_CREATE_PDP_CONTEXT_REQ [0; 0; 0; 0] 0x1234 some_create create_pdp) as T.
  change (visit_v1 some_create parse_state0) with (visit_v1 (create_elements some_imsi [1; 2; 3; 4] [5; 6; 7; 8] [5] [10; 0; 0; 7] [10; 0; 0; 8] [0x91; 0x18; 0x09; 0x21; 0x43; 0x65; 0x87]) parse_state0) in T.
  rewrite E in T. apply T; [split; reflexivity|reflexivity|lia|apply some_create_ok|cbn; lia|vm_compute; reflexivity].
Defined.

Lemma create_pdp_understood_witness : exists cs, read_v1 10 create_pdp = Ok (Some (Some cs)) /\ have_v1 REQUIRED_CREATE_PDP cs = true /\
  gtph_seqno cs = 0x1234 /\ slice o_body 8 (ies (ps cs) imsi) = some_imsi /\ teid_blk u_teid cs = [10; 0; 0; 8].
Proof.
  destruct (create_pdp_understood 10 [0; 0; 0; 0] some_imsi [1; 2; 3; 4] [5; 6; 7; 8] [10; 0; 0; 7] [10; 0; 0; 8]
    [0x18; 0x09; 0x21; 0x43; 0x65; 0x87] 0x1234 5 0x91 create_pdp) as (cs & E & R & S & _ & _ & I & _ & _ & _ & _ & G).
  - split; reflexivity.
  - repeat (apply Forall_cons_2; [by apply bytes_okb_ok|]). apply Forall_nil_2.
  - reflexivity.
  - lia.
  - reflexivity.
  - reflexivity.
  - reflexivity.
  - reflexivity.
  - reflexivity.
  - reflexivity.
  - lia.
  - exists cs. split; [exact E|]. split; [exact R|]. split; [exact S|]. split; [exact I|exact G].
Defined.

(** A delete PDP context request and the session it is read as. *)
Definition delete_pdp : packet_t := from_sgsn (v1_message GTPC_V1_MSG_DELETE_PDP_CONTEXT_REQ [0; 0; 0; 7] 0x1234 [(GTPC_V1_IE_NSAPI, [5])]).
Definition delete_session_v1 : session :=
  set_header 0x1234 0x07000000 (set_ps (set_v1 0 5 0 (or_flag_v1 HAVE_V1_NSAPI (or_flag_v1 HAVE_V1 parse_state0))) session0).
Lemma delete_read fuel : (1 <= fuel)%nat -> read_v1 fuel delete_pdp = Ok (Some (Some delete_session_v1)).
Proof.
  intros Hf. rewrite (read_message fuel GTPC_V1_MSG_DELETE_PDP_CONTEXT_REQ [0; 0; 0; 7] 0x1234 [(GTPC_V1_IE_NSAPI, [5])]); [reflexivity|by split|done|lia| |done|done].
  apply Forall_cons_2; [|apply Forall_nil_2]. split; [vm_compute; done|done|by apply bytes_okb_ok].
Qed.
Lemma v1_request_answered_witness :
  let '(r, db) := verdict_v1 false 0 GTPC_V1_MSG_DELETE_PDP_CONTEXT_REQ delete_session_v1 (c_db (idle [])) in
  exists c', event_gtpc_v1_any_req always false false 0 1 delete_pdp (idle []) = Ok (Some (OK, c')) /\
    c_node c' = (pgw_enq EGRESS (v1_reply 21 r.1 r.2 delete_pdp) (c_node (idle []))).2 /\ c_db c' = db /\
    outstanding (c_mem c') = ((outstanding memory0).1, u64 ((outstanding memory0).2 + 1)).
Proof.
  apply (v1_request_answered always (DB := pdp_db) false false 0 1 GTPC_V1_MSG_DELETE_PDP_CONTEXT_REQ delete_pdp delete_session_v1 (idle []));
    [reflexivity|reflexivity|apply from_sgsn_net, bytes_okb_ok; reflexivity|apply delete_read; lia|reflexivity|reflexivity].
Defined.
(** The session is looked for under the byte-swapped tunnel identifier, 0x07000000 for
    7; an update of the same session looks for 7. *)
Lemma delete_key_is_swapped :
  (delete_v1 delete_session_v1 []).2 = [llu 0x07000000; DELETE_SESSION_UPD_SQL 0x07000000 5] /\
  (update_v1 delete_session_v1 []).2 = [llu 7].
Proof. split; vm_compute; reflexivity. Qed.

(** An element whose length makes its size zero modulo 2^16 is visited for ever. *)
Definition empty_element : packet_t := from_sgsn ([0x32; 16; 0; 7; 0; 0; 0; 0; 0; 1; 0; 0] ++ [GTPC_V1_IE_END_USER_ADDRESS; 0xff; 0xfd]).
Lemma element_loop_never_ends fuel : read_v1 fuel empty_element = Ok None.
Proof.
  assert (H : forall fuel, parse_v1 fuel (data empty_element) 15 12 parse_state0 = Ok None) by (induction fuel0 as [|fuel0 IH]; [reflexivity|exact IH]).
  change (read_v1 fuel empty_element) with (r ← parse_v1 fuel (data empty_element) 15 12 parse_state0;
    match (r : option (Z * gtpc_parse_state)) with None => Ok None | Some (rc, st) => if negb (rc =? OK) then Ok (Some None)
      else Ok (Some (Some (set_header 1 0 (set_ps st session0)))) end). by rewrite H.
Qed.
(** So is an extension header of length zero. *)
Definition empty_extension : packet_t := from_sgsn ([0x36; 16; 0; 5; 0; 0; 0; 0; 0; 1; 0; 0xc0] ++ [0]).
Lemma extension_loop_never_ends fuel : skip_extensions fuel (data empty_extension) 13 12 = Ok None /\ read_v1 fuel empty_extension = Ok None.
Proof.
  assert (H : forall fuel, skip_extensions fuel (data empty_extension) 13 12 = Ok None) by (induction fuel0 as [|fuel0 IH]; [reflexivity|exact IH]).
  split; [apply H|]. unfold read_v1. change (rd 1 (data empty_extension) o_flags) with (Ok 0x36). res_simpl.
  change (rd 2 (data empty_extension) sizeof_gtpc_v1_header) with (Ok 256). change (datalen empty_extension) with 13. cbn. by rewrite H.
Qed.
(** The value of an element is read without a look at the end of the packet. *)
Lemma short_element_overread :
  read_v1 10 (from_sgsn ([0x32; 16; 0; 8; 0; 0; 0; 0; 0; 1; 0; 0] ++ [GTPC_V1_IE_GSN_ADDRESS; 0; 4; 10])) = Fault Undefined.
Proof. vm_compute. reflexivity. Qed.
End Properties.
