(* ===== verification/ProxyRoutes.v ===== *)
(** * Control plane proxy: configuration, routes, sessions and statistics

    config.cc, general_config.cc, database_config.cc, database_connection.cc, route.cc,
    routes.cc, proxy_stats.cc and proxy_utils.cc of ctrlplane/src/proxy: the key/value
    configuration file, the connections to the two databases, the routing cache by group,
    the session cache by sequence number and tunnel identifier, the statistics by peer.

    The MySQL client and the socket calls are parameters; [now] is what [time(NULL)]
    returns.  A failed [ASSERT] is a [pgw_panic].  The maps of the standard library are
    finite maps; the one loop over a map whose result could depend on its order adds
    numbers modulo 2^64. *)

From S2P Require Import Prelude TextParse Gtpc GtpcItems GtpcParse CtrlNode CtrlSession CtrlKeepalive.

(** ** proxy_def.hpp *)
Definition PSTAT_COUNT_DC := 0.
Definition PSTAT_PID := 1.
Definition PSTAT_UPTIME := 2.
Definition PSTAT_TIME := 3.
Definition PSTAT_VERSION := 4.
Definition PSTAT_BYTES_REQUEST := 5.
Definition PSTAT_BYTES_RESPONSE := 6.
Definition PSTAT_COUNT_REQUEST := 7.
Definition PSTAT_COUNT_RESPONSE := 8.
Definition PSTAT_COUNT_DELAY := 9.
Definition PSTAT_REJECTED_REQUEST := 10.
Definition PSTAT_REJECTED_RESPONSE := 11.
Definition PSTAT_COUNT_SESSION := 12.
Definition PSTAT_COUNT_MAX := 128.
Definition PSTAT_RTYPE_MASK (a : Z) : Z := Z.land a 0xFF000000.
Definition PSTAT_RTYPE_GROUPID := Z.shiftl 1 31.
Definition PSTAT_RTYPE_IP := Z.shiftl 1 30.
Definition PSTAT_MAGIC := 0xdeadbeaf.
Definition PSTAT_REQUEST := 0x80.
Definition PSTAT_KEYLEN := 64.
Definition PSTAT_DVERSION := 1000000.
(** proxy_stats_header_t, packed. *)
Definition sizeof_proxy_stats_header := 16.
Definition o_ps_magic := 0.
Definition o_ps_type := 4.
Definition o_ps_length := 5.
Definition o_ps_extlength := 7.
Definition o_ps_time := 12.
Definition sizeof_proxy_stats_request_data := PSTAT_KEYLEN.
Definition o_pr_type := 0.
Definition o_pr_groupid := 4.
Definition o_pr_ip := 8.
Definition sizeof_proxy_stats_result_counter := 8 * PSTAT_COUNT_MAX.

(** ** The C library *)
(** One call of [strtok]: the token, and where the next call goes on. *)
Section strtok.
Variable delim : Z -> bool.
Fixpoint skip_delim (s : cstring) : cstring :=
  match s with c :: s' => if delim c then skip_delim s' else s | [] => [] end.
Fixpoint cut_token (s : cstring) : cstring * cstring :=
  match s with
  | [] => ([], [])
  | c :: s => if delim c then ([], s) else let '(t, r) := cut_token s in (c :: t, r)
  end.
Definition strtok (s : cstring) : option (cstring * cstring) :=
  match skip_delim s with [] => None | s => Some (cut_token s) end.
End strtok.

(** ** config.cc *)
Module Config.
Record Config := mk_config { keyvalues_ : gmap cstring cstring }.
Definition delim (c : Z) : bool := existsb (Z.eqb c) [32; 61; 58; 10].
Definition one_line (line : list Z) (kv : gmap cstring cstring) : gmap cstring cstring :=
  match strtok delim (until_nul line) with
  | None => kv
  | Some (token, rest) =>
    let key := take 127 token in
    match strtok delim rest with
    | None => kv
    | Some (token, _) =>
      let val := take 127 token in
      if negb (char_at 0 key =? 35) then <[key := val]> kv else kv
    end
  end.
(** Every round takes a character at least: the length of the file bounds them. *)
Fixpoint load_lines (fuel : nat) (fp : list Z) (kv : gmap cstring cstring) : gmap cstring cstring :=
  match fuel with
  | O => kv
  | S fuel => match fgets 511 fp with
              | None => kv
              | Some (line, fp) => load_lines fuel fp (one_line line kv)
              end
  end.
(** [fp] is the content of the file, nothing when it cannot be opened. *)
Definition loadConfig (fp : option (list Z)) (c : Config) : res Config :=
  match fp with
  | None => Fault RtePanic
  | Some fp => Ok (mk_config (load_lines (length fp) fp (keyvalues_ c)))
  end.
Definition Config_new (fp : option (list Z)) : res Config := loadConfig fp (mk_config ∅).
Definition GetInt (key : cstring) (c : Config) : Z :=
  match keyvalues_ c !! key with Some v => atoi v | None => -1 end.
Definition GetText (key : cstring) (c : Config) : option cstring := keyvalues_ c !! key.
End Config.

(** general_config.cc: the accessors panic on a zero or a null pointer. *)
Module GeneralConfig.
Definition get_port (key : cstring) (c : Config.Config) : res Z :=
  let ret := Config.GetInt key c in
  _ ← require (negb (ret =? 0)) RtePanic; Ok ret.
Definition get_text (key : cstring) (c : Config.Config) : res cstring :=
  match Config.GetText key c with Some s => Ok s | None => Fault RtePanic end.
Definition ExtPort := get_port (lit "EXT_PORT").
Definition ExtIf := get_text (lit "EXT_IF").
Definition ExtIp := get_text (lit "EXT_IP").
Definition IntPort := get_port (lit "INT_PORT").
Definition IntIf := get_text (lit "INT_IF").
Definition IntIp := get_text (lit "INT_IP").
Definition StatsPort := get_port (lit "STS_PORT").
Definition StatsIf := get_text (lit "STS_IF").
Definition StatsIp := get_text (lit "STS_IP").
End GeneralConfig.

(** database_config.cc: the same keys with a suffix for each database. *)
Module DatabaseConfig.
Record DatabaseConfig := mk_dbconfig { config_ : Config.Config; suffix_ : cstring }.
Definition DatabaseConfig_new (fp : option (list Z)) (suffix : cstring) : res DatabaseConfig :=
  c ← Config.Config_new fp; Ok (mk_dbconfig c suffix).
Definition Port (d : DatabaseConfig) : Z := Config.GetInt (lit "PORT" ++ suffix_ d) (config_ d).
Definition Host (d : DatabaseConfig) : option cstring := Config.GetText (lit "HOST" ++ suffix_ d) (config_ d).
Definition User (d : DatabaseConfig) : option cstring := Config.GetText (lit "USER" ++ suffix_ d) (config_ d).
Definition Pswd (d : DatabaseConfig) : option cstring := Config.GetText (lit "PSWD" ++ suffix_ d) (config_ d).
Definition Inst (d : DatabaseConfig) : option cstring := Config.GetText (lit "INST" ++ suffix_ d) (config_ d).
End DatabaseConfig.

(** ** database_connection.cc

    The MySQL client: what a connection answers to a statement (nothing when the query
    or fetching its result fails; otherwise the number of columns and the rows, with
    null fields), to a ping, and whether a connection is made. *)
Class Mysql (C : Type) := {
  mysql_query : cstring -> C -> option (Z * list (list (option cstring))) * C;
  mysql_ping : C -> bool * C;
  mysql_real_connect : option cstring -> option cstring -> option cstring -> option cstring -> Z -> option C;
}.

Module DatabaseConnection.
Section connection.
Context {C : Type} `{Mysql C}.
Definition DatabaseConnection_new (cfg : DatabaseConfig.DatabaseConfig) : res C :=
  match mysql_real_connect (DatabaseConfig.Host cfg) (DatabaseConfig.User cfg) (DatabaseConfig.Pswd cfg)
          (DatabaseConfig.Inst cfg) (u32 (DatabaseConfig.Port cfg)) with
  | Some con => Ok con
  | None => Fault RtePanic
  end.

Section select.
Context {S : Type} (fnc : list (option cstring) -> Z -> S -> res (Z * S)).
Fixpoint each_row (rows : list (list (option cstring))) (coln : Z) (dat : S) : res S :=
  match rows with
  | [] => Ok dat
  | row :: rows =>
    '(rc, dat) ← fnc row coln dat;
    if negb (rc =? OK) then Ok dat else each_row rows coln dat
  end.
Definition Select (sql : cstring) (dat : S) (con : C) : res (Z * S * C) :=
  match mysql_query sql con with
  | (None, con) => Ok (ERR, dat, con)
  | (Some (coln, rows), con) => dat ← each_row rows coln dat; Ok (OK, dat, con)
  end.
End select.
Definition Execute (sql : cstring) (con : C) : Z * C :=
  match mysql_query sql con with (None, con) => (ERR, con) | (Some _, con) => (OK, con) end.
Definition Ping (con : C) : Z * C := let '(ok, con) := mysql_ping con in (if ok then OK else ERR, con).
End connection.
End DatabaseConnection.

(** [row[i]], and what it points to. *)
Definition row_field (row : list (option cstring)) (i : nat) : res cstring :=
  o ← deref (row !! i); deref o.

(** ** route.cc: a destination inside, a peer outside, a session *)
Record RouteInt := mk_route_int { ri_host_ : cstring; ri_cnt_ : Z; ri_port_ : Z }.
Record RouteExt := mk_route_ext { re_host_ : list Z; re_cnt_ : Z; re_sock_ : Z }.
Record RouteSession := mk_route_session {
  rs_host_ : list Z; rs_imsi_ : Z; rs_seqno_ : Z; rs_teid_ : Z; rs_created_ : Z }.

(** ** proxy_stats.cc *)
Module ProxyStat.
Record ProxyStat := mk_stat {
  ip_ : Z; group_ : Z;
  req_bytes_ : Z; req_cnt_ : Z; res_bytes_ : Z; res_cnt_ : Z; delay_ : Z;
  req_reject_bytes_ : Z; res_reject_bytes_ : Z; req_reject_cnt_ : Z; res_reject_cnt_ : Z;
  created_ : Z }.
Definition ProxyStat_new (now ip group req_cnt res_cnt delay req_bytes res_bytes : Z) : ProxyStat :=
  mk_stat ip group req_bytes req_cnt res_bytes res_cnt delay 0 0 0 0 (u32 now).
Definition Clear (now : Z) (s : ProxyStat) : ProxyStat :=
  mk_stat (ip_ s) (group_ s) 0 0 0 0 0 0 0 0 0 (u32 now).
Definition Add (now req_bytes res_bytes delay : Z) (s : ProxyStat) : ProxyStat :=
  mk_stat (ip_ s) (group_ s)
    (u64 (req_bytes_ s + req_bytes)) (if negb (req_bytes =? 0) then u64 (req_cnt_ s + 1) else req_cnt_ s)
    (u64 (res_bytes_ s + res_bytes)) (if negb (res_bytes =? 0) then u64 (res_cnt_ s + 1) else res_cnt_ s)
    (u64 (delay_ s + delay))
    (req_reject_bytes_ s) (res_reject_bytes_ s) (req_reject_cnt_ s) (res_reject_cnt_ s) (u32 now).
(** The count of responses tests the member, not the argument. *)
Definition Reject (now req_reject_bytes res_reject_bytes : Z) (s : ProxyStat) : ProxyStat :=
  let rq := u64 (req_reject_bytes_ s + req_reject_bytes) in
  let rs := u64 (res_reject_bytes_ s + res_reject_bytes) in
  mk_stat (ip_ s) (group_ s) (req_bytes_ s) (req_cnt_ s) (res_bytes_ s) (res_cnt_ s) (delay_ s)
    rq rs
    (if negb (req_reject_bytes =? 0) then u64 (req_reject_cnt_ s + 1) else req_reject_cnt_ s)
    (if negb (rs =? 0) then u64 (res_reject_cnt_ s + 1) else res_reject_cnt_ s) (u32 now).
End ProxyStat.
Import ProxyStat.

(** ** proxy_utils.cc *)
(** The socket calls: the descriptor of the n-th [socket], whether setting it up and
    binding it succeed. *)
Record sockets := mk_sockets { sys_socket : nat -> Z; sys_nonblock : Z -> bool; sys_bind : Z -> list Z -> bool }.
Definition CreateSocket (os : sockets) (n : nat) (ip : cstring) (port : Z) : res Z :=
  let sock := sys_socket os n in
  _ ← require (0 <=? sock) RtePanic;
  if negb (sys_nonblock os sock) then Ok (-1) else
  let addr := sockaddr port (inet_pton ip (bzero 4)) in
  if negb (sys_bind os sock addr) then Ok (-1) else Ok sock.

(** [ReadArgs]: the options [getopt] finds, each with its argument, into the log level
    and the buffer of the configuration's name. *)
Definition PGW_LOG_LEVEL_ALL := 4.
Definition PGW_LOG_LEVEL_MAX := 5.
Definition read_arg (cfglen : Z) (a : Z * list Z) (opt : Z * option cstring) : Z * list Z :=
  let '(level, cfg) := a in
  match opt with
  | (108, Some arg) =>
    let v := atoi arg in (if (v <? 0) || (PGW_LOG_LEVEL_MAX <? v) then PGW_LOG_LEVEL_ALL else v, cfg)
  | (99, Some arg) => (level, splice 0 (take (Z.to_nat (Z.min cfglen (zlen arg))) arg) cfg)
  | _ => (level, cfg)
  end.
Definition ReadArgs (opts : list (Z * option cstring)) (cfg : list Z) (cfglen : Z) : Z * list Z :=
  foldl (read_arg cfglen) (PGW_LOG_LEVEL_ALL, cfg) opts.

(** ** routes.cc *)
Module Routes.
Record Routes {C : Type} := mk_routes {
  con_ : option C; con_n_ : option C;
  grouproutes_ : gmap Z (list RouteInt);
  sgw_routes_ : gmap Z RouteExt;
  session_ : gmap Z RouteSession;
  stats_ : gmap Z ProxyStat;
  extsock_ : Z; intsock_ : Z; stssock_ : Z;
  uptime_ : Z }.
Arguments Routes : clear implicits.

Section routes.
Context {C : Type} `{M : Mysql C}.
Implicit Types (r : Routes C).

Definition set_con c cn r : Routes C :=
  mk_routes _ c cn (grouproutes_ r) (sgw_routes_ r) (session_ r) (stats_ r) (extsock_ r) (intsock_ r) (stssock_ r) (uptime_ r).
Definition set_groups g r : Routes C :=
  mk_routes _ (con_ r) (con_n_ r) g (sgw_routes_ r) (session_ r) (stats_ r) (extsock_ r) (intsock_ r) (stssock_ r) (uptime_ r).
Definition set_sgw g r : Routes C :=
  mk_routes _ (con_ r) (con_n_ r) (grouproutes_ r) g (session_ r) (stats_ r) (extsock_ r) (intsock_ r) (stssock_ r) (uptime_ r).
Definition set_sessions g r : Routes C :=
  mk_routes _ (con_ r) (con_n_ r) (grouproutes_ r) (sgw_routes_ r) g (stats_ r) (extsock_ r) (intsock_ r) (stssock_ r) (uptime_ r).
Definition set_stats g r : Routes C :=
  mk_routes _ (con_ r) (con_n_ r) (grouproutes_ r) (sgw_routes_ r) (session_ r) g (extsock_ r) (intsock_ r) (stssock_ r) (uptime_ r).
Definition set_socks e i s r : Routes C :=
  mk_routes _ (con_ r) (con_n_ r) (grouproutes_ r) (sgw_routes_ r) (session_ r) (stats_ r) e i s (uptime_ r).

(** The constructor; [init] is the count of initialisations of the process. *)
Definition Routes_new (now init : Z) : Z * Routes C :=
  (init + 1, mk_routes _ None None ∅ ∅ ∅ ∅ (-1) (-1) (-1) (u32 now)).

(** One row of the routing table, into the list of its group. *)
Definition on_route (row : list (option cstring)) (coln : Z) (g : gmap Z (list RouteInt)) : res (Z * gmap Z (list RouteInt)) :=
  if negb (coln =? 2) then Ok (ERR, g) else
  f0 ← row_field row 0;
  let gid := atoi f0 in
  f1 ← row_field row 1;
  let route := mk_route_int (until_nul f1) 0 GTPC_PORT in
  Ok (OK, <[gid := default [] (g !! gid) ++ [route]]> g).
Definition Cache r : res (Z * Routes C) :=
  con ← (match con_ r with Some c => Ok c | None => Fault RtePanic end);
  _ ← require (bool_decide (is_Some (con_n_ r))) RtePanic;
  '(_, g, con) ← DatabaseConnection.Select on_route (lit "SELECT `pgw_group_id`, `dst_ip` FROM proxy") ∅ con;
  Ok (OK, set_groups g (set_con (Some con) (con_n_ r) r)).

Definition Init (os : sockets) (cfg cfg_n : DatabaseConfig.DatabaseConfig) (gencfg : Config.Config) (init : Z) r
    : res (Z * Z * Routes C) :=
  let init := init + 1 in
  _ ← require (init =? 2) RtePanic;
  con ← DatabaseConnection.DatabaseConnection_new cfg;
  con_n ← DatabaseConnection.DatabaseConnection_new cfg_n;
  '(_, r) ← Cache (set_con (Some con) (Some con_n) r);
  _ ← GeneralConfig.ExtIf gencfg; ip ← GeneralConfig.ExtIp gencfg; port ← GeneralConfig.ExtPort gencfg;
  ext ← CreateSocket os 0 ip port;
  _ ← GeneralConfig.IntIf gencfg; ip ← GeneralConfig.IntIp gencfg; port ← GeneralConfig.IntPort gencfg;
  int ← CreateSocket os 1 ip port;
  _ ← GeneralConfig.StatsIf gencfg; ip ← GeneralConfig.StatsIp gencfg; port ← GeneralConfig.StatsPort gencfg;
  sts ← CreateSocket os 2 ip port;
  Ok (OK, init, set_socks ext int sts r).

Definition KeepAlive r : res (Z * Routes C) :=
  con ← (match con_ r with Some c => Ok c | None => Fault RtePanic end);
  con_n ← (match con_n_ r with Some c => Ok c | None => Fault RtePanic end);
  let '(_, con) := DatabaseConnection.Ping con in
  let '(_, con_n) := DatabaseConnection.Ping con_n in
  Ok (OK, set_con (Some con) (Some con_n) r).

Definition FindInternlRouteByGroupFromCache (gid : Z) r : Z * list RouteInt :=
  match grouproutes_ r !! gid with
  | Some (x :: l) => (OK, x :: l)
  | _ => (ERR, [])
  end.

Definition on_group (row : list (option cstring)) (coln : Z) (fgid : Z) : res (Z * Z) :=
  if negb (coln =? 1) then Ok (ERR, fgid) else
  f0 ← row_field row 0; Ok (OK, atoi f0).
Definition group_sql (imsi : Z) : cstring :=
  lit "SELECT `pgw_group_id` FROM subscribers WHERE imsi = " ++ llu imsi.
(** The group is assigned whether one was found or not. *)
Definition FindGroupByImsi (imsi : Z) r : res (Z * Z * Routes C) :=
  con_n ← (match con_n_ r with Some c => Ok c | None => Fault RtePanic end);
  '(_, fgid, con_n) ← DatabaseConnection.Select on_group (group_sql imsi) (-1) con_n;
  Ok (if fgid =? -1 then ERR else OK, fgid, set_con (con_ r) (Some con_n) r).

(** The key of the session cache: U64 arithmetic on U32 arguments. *)
Definition session_key (seqno teid : Z) : Z := Z.lor (Z.shiftl seqno 32) teid.
Definition FindSessionBySeqnoTeid (seqno teid : Z) r : option RouteSession := session_ r !! session_key seqno teid.
Definition SetSession (now imsi seqno teid : Z) (addr : list Z) r : Z * Routes C :=
  let key := session_key seqno teid in
  (OK, match session_ r !! key with
       | Some _ => r
       | None => set_sessions (<[key := mk_route_session addr imsi seqno teid (u32 now)]> (session_ r)) r
       end).
Definition s_addr (addr : list Z) : Z := le_load (sin_addr addr).
Definition SetExtRoute (addr : list Z) r : Z * Routes C :=
  (OK, set_sgw (<[s_addr addr := mk_route_ext addr 0 (extsock_ r)]> (sgw_routes_ r)) r).

(** [ADDCOUNT]: what one entry adds. *)
Definition ADDCOUNT (e : Z) (i : ProxyStat) (sessions : Z) (c : Z) : Z :=
  if e =? PSTAT_BYTES_REQUEST then u64 (c + req_bytes_ i) else
  if e =? PSTAT_BYTES_RESPONSE then u64 (c + res_bytes_ i) else
  if e =? PSTAT_COUNT_REQUEST then u64 (c + req_cnt_ i) else
  if e =? PSTAT_COUNT_RESPONSE then u64 (c + res_cnt_ i) else
  if e =? PSTAT_COUNT_DELAY then u64 (c + delay_ i) else
  if e =? PSTAT_REJECTED_REQUEST then u64 (c + req_reject_cnt_ i) else
  if e =? PSTAT_REJECTED_RESPONSE then u64 (c + res_reject_cnt_ i) else
  if e =? PSTAT_COUNT_SESSION then u64 (c + sessions) else c.
Definition ALL_IP := 2 ^ 32 - 1.
Definition ALL_GROUP := 2 ^ 16 - 1.
Definition stat_selects (ip group key : Z) : bool :=
  let k_ip := Z.land (Z.shiftr key 32) 0xFFFFFFFF in
  let k_group := Z.land (Z.shiftr key 16) 0xFFFF in
  if negb (ip =? ALL_IP) && negb (group =? ALL_GROUP) then (ip =? k_ip) && (group =? k_group)
  else if negb (ip =? ALL_IP) && (group =? ALL_GROUP) then ip =? k_ip
  else true.
Definition StatCount (pid now : Z) (e ip group : Z) r : Z :=
  if e =? PSTAT_PID then u64 pid else
  if e =? PSTAT_UPTIME then uptime_ r else
  if e =? PSTAT_TIME then u64 now else
  if e =? PSTAT_VERSION then PSTAT_DVERSION else
  map_fold (fun key i c => if stat_selects ip group key then ADDCOUNT e i (Z.of_nat (size (session_ r))) c else c)
    0 (stats_ r).

(** The map is looked up with the address alone. *)
Definition StatAdd (now ip group req_bytes res_bytes delay : Z) r : Routes C :=
  let one b := if b =? 0 then 0 else 1 in
  set_stats (<[ip := match stats_ r !! ip with
                     | None => ProxyStat_new now ip group (one req_bytes) (one res_bytes) delay req_bytes res_bytes
                     | Some s => Add now req_bytes res_bytes delay s
                     end]> (stats_ r)) r.
Definition StatReject (now ip group req_reject_bytes res_reject_bytes : Z) r : Routes C :=
  set_stats (<[ip := Reject now req_reject_bytes res_reject_bytes
                       (default (ProxyStat_new now ip group 0 0 0 0 0) (stats_ r !! ip))]> (stats_ r)) r.
Definition StatExpire (now elapsed : Z) r : Routes C :=
  set_stats (filter (fun kv => ~ created_ kv.2 < u32 (u32 now - elapsed)) (stats_ r)) r.
End routes.
End Routes.

(** proxy_entry.cc up to the event loop: nothing when there is no configuration file on
    the command line.  [files] opens a file by its name. *)
Definition start {C : Type} `{M : Mysql C} (os : sockets) (opts : list (Z * option cstring)) (files : cstring -> option (list Z)) (now : Z)
    : res (option (Routes.Routes C)) :=
  let '(_, cfgf) := ReadArgs opts (bzero 128) 127 in
  if char_at 0 cfgf =? 0 then Ok None else
  let fp := files (until_nul cfgf) in
  local_dbcfg ← DatabaseConfig.DatabaseConfig_new fp [];
  nwsv_dbcfg ← DatabaseConfig.DatabaseConfig_new fp (lit "_N");
  gencfg ← Config.Config_new fp;
  let '(init, routes) := Routes.Routes_new now 0 in
  '(_, _, routes) ← Routes.Init os local_dbcfg nwsv_dbcfg gencfg init routes;
  Ok (Some routes).

(** ** Reading a configuration back *)
Definition setting (kv : cstring * cstring) : list Z := kv.1 ++ 61 :: kv.2 ++ [10].
Definition word (s : cstring) : Prop :=
  s <> [] /\ zlen s <= 127 /\ Forall (fun c => Config.delim c = false /\ c <> 0) s.
Definition setting_ok (kv : cstring * cstring) : Prop := word kv.1 /\ word kv.2 /\ char_at 0 kv.1 <> 35.

Lemma cut_word delim s c rest :
  Forall (fun x => delim x = false) s -> delim c = true -> cut_token delim (s ++ c :: rest) = (s, rest).
Proof.
  intros Hs Hc. induction Hs as [|x s Hx Hs IH]; cbn [app cut_token]; [by rewrite Hc|].
  rewrite Hx, IH. done.
Qed.
Lemma strtok_word delim s c rest :
  s <> [] -> Forall (fun x => delim x = false) s -> delim c = true -> strtok delim (s ++ c :: rest) = Some (s, rest).
Proof.
  intros Hne Hs Hc. unfold strtok. destruct s as [|x s]; [done|]. cbn [app skip_delim].
  rewrite (Forall_inv Hs). change (x :: s ++ c :: rest) with ((x :: s) ++ c :: rest). by rewrite cut_word.
Qed.
Lemma word_chars s : word s -> Forall (fun c => Config.delim c = false) s /\ Forall (fun c => c <> 10) s /\ Forall (fun c => c <> 0) s.
Proof.
  intros (_ & _ & H). split_and!; eapply Forall_impl; try exact H; cbn; intros c [Hd Hz]; [done| |done].
  intros ->. discriminate Hd.
Qed.

Lemma one_line_setting kv m : setting_ok kv -> Config.one_line (setting kv) m = <[kv.1 := kv.2]> m.
Proof.
  intros ([Hk1 [Hk2 Hk3]] & [Hv1 [Hv2 Hv3]] & Hc). unfold Config.one_line, setting.
  destruct (word_chars kv.1) as (Kd & _ & Kz); [done|]. destruct (word_chars kv.2) as (Vd & _ & Vz); [done|].
  rewrite until_nul_all.
  2: { apply Forall_app_2; [done|]. constructor; [done|]. apply Forall_app_2; [done|]. by constructor. }
  rewrite strtok_word by done. rewrite strtok_word by done.
  rewrite !take_ge by lia. by rewrite (proj2 (Z.eqb_neq _ _)) by done.
Qed.

Lemma fgets_setting kv rest : setting_ok kv -> fgets 511 (setting kv ++ rest) = Some (setting kv, rest).
Proof.
  intros (Hk & Hv & _). pose proof (word_chars _ Hk) as (_ & K & _). pose proof (word_chars _ Hv) as (_ & V & _).
  destruct Hk as (_ & Lk & _), Hv as (_ & Lv & _). unfold fgets, setting.
  assert (E : (kv.1 ++ 61 :: kv.2 ++ [10]) ++ rest = (kv.1 ++ 61 :: kv.2) ++ 10 :: rest)
    by (rewrite <-!app_assoc; cbn [app]; by rewrite <-app_assoc).
  rewrite E. rewrite get_line_newline.
  - destruct ((kv.1 ++ 61 :: kv.2) ++ 10 :: rest) eqn:En; [by destruct kv.1|]. by rewrite <-app_assoc.
  - apply Forall_app_2; [done|]. by constructor.
  - rewrite length_app. cbn [length]. lia.
Qed.

Lemma load_settings fuel kvs m :
  Forall setting_ok kvs -> (length (concat (setting <$> kvs)) <= fuel)%nat ->
  Config.load_lines fuel (concat (setting <$> kvs)) m = foldl (fun m kv => <[kv.1 := kv.2]> m) m kvs.
Proof.
  intros Hok. revert fuel m. induction Hok as [|kv kvs Hkv Hok IH]; intros fuel m Hf; [by destruct fuel|].
  cbn [fmap list_fmap concat] in *. rewrite length_app in Hf. assert (1 <= length (setting kv))%nat by (unfold setting; rewrite length_app; cbn [length]; lia).
  destruct fuel as [|fuel]; [lia|]. cbn [Config.load_lines]. rewrite fgets_setting by done. rewrite one_line_setting by done.
  cbn [foldl]. apply IH. lia.
Qed.

(** ** What the statistics account for *)
Definition total (f : ProxyStat -> Z) (m : gmap Z ProxyStat) : Z := map_fold (fun _ i c => u64 (c + f i)) 0 m.

Lemma total_new f m k i : m !! k = None -> total f (<[k := i]> m) = u64 (total f m + f i).
Proof.
  intros Hk. unfold total. rewrite (map_fold_insert_L (fun _ i c => u64 (c + f i))); [done| |done]. intros j1 j2 z1 z2 y _ _ _.
  rewrite !wrap_add_l. f_equal. lia.
Qed.
Lemma total_u64 f m : u64 (total f m) = total f m.
Proof.
  induction m as [|k i m Hk _] using map_ind; [done|]. rewrite total_new by done. by rewrite wrap_wrap.
Qed.
(** An entry that is made or changed changes the total by as much. *)
Lemma total_update f m k s d :
  u64 (from_option f 0 (m !! k) + d) = u64 (f s) -> total f (<[k := s]> m) = u64 (total f m + d).
Proof.
  intros E. destruct (m !! k) as [s0|] eqn:Hk; cbn [from_option] in E.
  - rewrite <-(insert_delete_id m k s0) at 2 by done. rewrite <-insert_delete_eq.
    rewrite !total_new by apply lookup_delete_eq. rewrite wrap_add_l, <-Z.add_assoc.
    rewrite <-(wrap_add_r 64 _ (f s)), <-(wrap_add_r 64 _ (f s0 + d)). by rewrite E.
  - rewrite total_new by done. rewrite <-(wrap_add_r 64 _ (f s)), <-E, wrap_add_r. f_equal.
Qed.

(** Traffic that is let through or turned away. *)
Inductive traffic :=
| Passed (now ip group req_bytes res_bytes delay : Z)
| Turned (now ip group req_bytes res_bytes : Z).
Definition account {C} (r : Routes.Routes C) (t : traffic) : Routes.Routes C :=
  match t with
  | Passed now ip group rq rs d => Routes.StatAdd now ip group rq rs d r
  | Turned now ip group rq rs => Routes.StatReject now ip group rq rs r
  end.
(** What a counter owes to it. *)
Definition charge (e : Z) (t : traffic) : Z :=
  let one b := if b =? 0 then 0 else 1 in
  match t with
  | Passed _ _ _ rq rs d =>
    if e =? PSTAT_BYTES_REQUEST then rq else if e =? PSTAT_BYTES_RESPONSE then rs else
    if e =? PSTAT_COUNT_REQUEST then one rq else if e =? PSTAT_COUNT_RESPONSE then one rs else
    if e =? PSTAT_COUNT_DELAY then d else 0
  | Turned _ _ _ rq rs => if e =? PSTAT_REJECTED_REQUEST then one rq else 0
  end.
Definition charges (e : Z) (l : list traffic) : Z := foldr (fun t a => charge e t + a) 0 l.
Definition sound_counters : list Z :=
  [PSTAT_BYTES_REQUEST; PSTAT_BYTES_RESPONSE; PSTAT_COUNT_REQUEST; PSTAT_COUNT_RESPONSE; PSTAT_COUNT_DELAY; PSTAT_REJECTED_REQUEST].
Definition field_of (e : Z) : ProxyStat -> Z :=
  if e =? PSTAT_BYTES_REQUEST then req_bytes_ else if e =? PSTAT_BYTES_RESPONSE then res_bytes_ else
  if e =? PSTAT_COUNT_REQUEST then req_cnt_ else if e =? PSTAT_COUNT_RESPONSE then res_cnt_ else
  if e =? PSTAT_COUNT_DELAY then delay_ else req_reject_cnt_.

Section accounting.
Context {C : Type}.
Implicit Types (r : Routes.Routes C).

Ltac each_counter H := unfold sound_counters in H;
  repeat (apply elem_of_cons in H as [->|H]; [|]); [..|by apply elem_of_nil in H].

Lemma count_total e pid now r :
  e ∈ sound_counters -> Routes.StatCount pid now e Routes.ALL_IP Routes.ALL_GROUP r = total (field_of e) (Routes.stats_ r).
Proof. intros He. each_counter He; reflexivity. Qed.

Lemma account_total e r t :
  e ∈ sound_counters -> total (field_of e) (Routes.stats_ (account r t)) = u64 (total (field_of e) (Routes.stats_ r) + charge e t).
Proof.
  intros He. destruct t; cbn [account Routes.StatAdd Routes.StatReject Routes.stats_ Routes.set_stats]; apply total_update;
    destruct (Routes.stats_ r !! ip) as [s|]; cbn [from_option default]; each_counter He;
    cbn; repeat case_if; rewrite ?wrap_wrap by lia; f_equal; lia.
Qed.

Lemma account_all e l r :
  e ∈ sound_counters ->
  total (field_of e) (Routes.stats_ (foldl account r l)) = u64 (total (field_of e) (Routes.stats_ r) + charges e l).
Proof.
  intros He. revert r. induction l as [|t l IH]; intros r; cbn [foldl charges foldr]; [by rewrite Z.add_0_r, total_u64|].
  rewrite IH, account_total by done. rewrite wrap_add_l. f_equal. unfold charges. lia.
Qed.
End accounting.

(** ** The routing table *)
Definition table_row (x : cstring * cstring) : list (option cstring) := [Some x.1; Some x.2].
Definition routes_of (gid : Z) (rows : list (cstring * cstring)) : list RouteInt :=
  (fun x => mk_route_int (until_nul x.2) 0 GTPC_PORT) <$> filter (fun x => atoi x.1 = gid) rows.
Definition add_route (g : gmap Z (list RouteInt)) (x : cstring * cstring) : gmap Z (list RouteInt) :=
  <[atoi x.1 := default [] (g !! atoi x.1) ++ [mk_route_int (until_nul x.2) 0 GTPC_PORT]]> g.

Lemma each_row_routes rows g :
  DatabaseConnection.each_row Routes.on_route (table_row <$> rows) 2 g = Ok (foldl add_route g rows).
Proof.
  revert g. induction rows as [|x rows IH]; intros g; [done|]. cbn [fmap list_fmap DatabaseConnection.each_row].
  change (Routes.on_route (table_row x) 2 g) with (Ok (OK, add_route g x)). res_simpl. apply IH.
Qed.
Lemma add_route_lookup g x gid :
  default [] (add_route g x !! gid) = default [] (g !! gid) ++ routes_of gid [x].
Proof.
  unfold add_route, routes_of. cbn [filter list_filter]. destruct (decide (atoi x.1 = gid)) as [<-|Hn].
  - rewrite lookup_insert_eq. done.
  - rewrite lookup_insert_ne by done. by rewrite app_nil_r.
Qed.
Lemma routes_cached rows g gid :
  default [] (foldl add_route g rows !! gid) = default [] (g !! gid) ++ routes_of gid rows.
Proof.
  revert g. induction rows as [|x rows IH]; intros g; cbn [foldl]; [by rewrite app_nil_r|].
  rewrite IH, add_route_lookup, <-app_assoc. f_equal. unfold routes_of. by rewrite <-fmap_app, <-filter_app.
Qed.

Module Properties.

(** the routing table is cached by group: after the table of the database is read, the
    destinations found for a group are those of its rows, in the order of the rows, and a
    group without rows is not found. *)
Theorem routing_table_cached (C : Type) (M : Mysql C) (con con' con_n : C) (rows : list (cstring * cstring)) (r : Routes.Routes C) :
  Routes.con_ r = Some con -> Routes.con_n_ r = Some con_n ->
  mysql_query (lit "SELECT `pgw_group_id`, `dst_ip` FROM proxy") con = (Some (2, table_row <$> rows), con') ->
  exists r', Routes.Cache r = Ok (OK, r') /\
    (forall gid, Routes.FindInternlRouteByGroupFromCache gid r' =
       match routes_of gid rows with [] => (ERR, []) | l => (OK, l) end) /\
    Routes.session_ r' = Routes.session_ r /\ Routes.stats_ r' = Routes.stats_ r.
Proof.
  intros Ec En Eq. unfold Routes.Cache. rewrite Ec. res_simpl. rewrite En. res_simpl.
  unfold DatabaseConnection.Select. rewrite Eq, each_row_routes. res_simpl. eexists. split; [reflexivity|]. split; [|done].
  intros gid. unfold Routes.FindInternlRouteByGroupFromCache. cbn [Routes.grouproutes_ Routes.set_groups].
  pose proof (routes_cached rows ∅ gid) as E. rewrite lookup_empty in E. cbn [default app] in E.
  destruct (foldl add_route ∅ rows !! gid) as [l|]; cbn in E; rewrite <-E; [by destruct l|done].
Qed.

#[local] Instance two_gateways : Mysql unit := {
  mysql_query _ c := (Some (2, table_row <$> [(lit "4", lit "10.0.0.5"); (lit "1", lit "10.0.0.6"); (lit "4", lit "10.0.0.7")]), c);
  mysql_ping c := (true, c);
  mysql_real_connect _ _ _ _ _ := Some tt;
}.
Lemma routing_table_cached_witness :
  exists r', Routes.Cache (Routes.set_con (Some tt) (Some tt) (Routes.Routes_new 100 0).2) = Ok (OK, r') /\
    Routes.FindInternlRouteByGroupFromCache 4 r' =
      (OK, [mk_route_int (lit "10.0.0.5") 0 2123; mk_route_int (lit "10.0.0.7") 0 2123]) /\
    Routes.FindInternlRouteByGroupFromCache 2 r' = (ERR, []).
Proof.
  destruct (routing_table_cached unit two_gateways tt tt tt [(lit "4", lit "10.0.0.5"); (lit "1", lit "10.0.0.6"); (lit "4", lit "10.0.0.7")]
    (Routes.set_con (Some tt) (Some tt) (Routes.Routes_new 100 0).2)) as (r' & E & H & _); [reflexivity|reflexivity|reflexivity|].
  exists r'. split; [exact E|]. split; [rewrite (H 4)|rewrite (H 2)]; vm_compute; reflexivity.
Defined.

(** A table that cannot be read leaves no route at all: the cache is emptied first. *)
Theorem failed_reload_drops_routes (C : Type) (M : Mysql C) (con con' con_n : C) (r : Routes.Routes C) :
  Routes.con_ r = Some con -> Routes.con_n_ r = Some con_n ->
  mysql_query (lit "SELECT `pgw_group_id`, `dst_ip` FROM proxy") con = (None, con') ->
  exists r', Routes.Cache r = Ok (OK, r') /\ forall gid, Routes.FindInternlRouteByGroupFromCache gid r' = (ERR, []).
Proof.
  intros Ec En Eq. unfold Routes.Cache. rewrite Ec. res_simpl. rewrite En. res_simpl.
  unfold DatabaseConnection.Select. rewrite Eq. res_simpl. eexists. split; [reflexivity|]. intros gid.
  unfold Routes.FindInternlRouteByGroupFromCache. cbn [Routes.grouproutes_ Routes.set_groups]. by rewrite lookup_empty.
Qed.

(** C34: round trip of the proxy's configuration: a file with one KEY=VALUE line per
    setting, of words of at most 127 characters, is loaded as the map of the settings, a
    later line replacing an earlier one of the same key, and [GetText] gives each value
    back. *)
Theorem config_roundtrip (kvs : list (cstring * cstring)) :
  Forall setting_ok kvs ->
  exists c, Config.Config_new (Some (concat (setting <$> kvs))) = Ok c /\
    Config.keyvalues_ c = list_to_map (reverse kvs) /\
    forall k v, NoDup kvs.*1 -> (k, v) ∈ kvs -> Config.GetText k c = Some v.
Proof.
  intros H. eexists. split; [unfold Config.Config_new, Config.loadConfig; rewrite load_settings by done; reflexivity|].
  cbn [Config.keyvalues_ Config.GetText].
  assert (E : foldl (fun m kv => <[kv.1 := kv.2]> m) ∅ kvs = (list_to_map (reverse kvs) : gmap cstring cstring)).
  { clear H. induction kvs as [|kv kvs IH] using rev_ind; [done|]. rewrite foldl_snoc, reverse_snoc, IH. by destruct kv. }
  split; [exact E|]. intros k v Hn Hin. unfold Config.GetText. cbn [Config.keyvalues_]. rewrite E. apply elem_of_list_to_map_1.
  - rewrite fmap_reverse, reverse_Permutation. done.
  - by rewrite elem_of_reverse.
Qed.

Definition some_settings : list (cstring * cstring) := [(lit "EXT_PORT", lit "2123"); (lit "EXT_IP", lit "10.0.0.1")].
Lemma config_roundtrip_witness :
  exists c, Config.Config_new (Some (concat (setting <$> some_settings))) = Ok c /\
    Config.GetText (lit "EXT_IP") c = Some (lit "10.0.0.1").
Proof.
  destruct (config_roundtrip some_settings) as (c & E & _ & Hg).
  - assert (W : forall s, s <> [] -> zlen s <= 127 -> forallb (fun c => negb (Config.delim c) && negb (c =? 0)) s = true -> word s).
    { intros s H1 H2 H3. split; [done|]. split; [done|]. apply Is_true_eq_left, forallb_True in H3.
      eapply Forall_impl; [exact H3|]. intros c Hc. apply Is_true_eq_true, andb_prop in Hc as [Hd Hz].
      split; [by destruct (Config.delim c)|by destruct (Z.eqb_spec c 0)]. }
    repeat (apply Forall_cons_2; [split_and!; [apply W..|]; vm_compute; congruence|]). apply Forall_nil_2.
  - exists c. split; [exact E|]. apply Hg; [|right; left].
    vm_compute. repeat constructor; intros H; repeat (apply elem_of_cons in H as [H|H]; [discriminate H|]); by apply elem_of_nil in H.
Defined.

(** the statistics account for all traffic: over any sequence of passed and rejected
    messages, from any state, the totals of request and response bytes, of requests and
    responses, of delay and of rejected requests grow by exactly what the messages owe
    them, modulo 2^64. *)
Theorem statistics_account (C : Type) (e pid now : Z) (l : list traffic) (r : Routes.Routes C) :
  e ∈ sound_counters ->
  Routes.StatCount pid now e Routes.ALL_IP Routes.ALL_GROUP (foldl account r l) =
  u64 (Routes.StatCount pid now e Routes.ALL_IP Routes.ALL_GROUP r + charges e l).
Proof. intros He. rewrite !count_total by done. by apply account_all. Qed.

Definition fresh_routes : Routes.Routes unit := (Routes.Routes_new 100 0).2.
Definition two_peers : list traffic := [Passed 100 7 0 40 0 0; Passed 101 9 0 60 0 0; Turned 102 7 0 8 0; Passed 103 7 0 0 30 0].
Lemma statistics_account_witness :
  Routes.StatCount 1 104 PSTAT_BYTES_REQUEST Routes.ALL_IP Routes.ALL_GROUP (foldl account fresh_routes two_peers) = 100.
Proof.
  pose proof (statistics_account unit PSTAT_BYTES_REQUEST 1 104 two_peers fresh_routes) as H.
  rewrite H; [vm_compute; reflexivity|left].
Defined.

(** A port that is not configured is not noticed: the accessor gives -1. *)
Theorem missing_port_accepted (c : Config.Config) :
  Config.keyvalues_ c !! lit "EXT_PORT" = None -> GeneralConfig.ExtPort c = Ok (-1).
Proof. intros E. unfold GeneralConfig.ExtPort, GeneralConfig.get_port, Config.GetInt. by rewrite E. Qed.

(** The entries are filed under the address alone and looked for in the upper half of
    the key: a query for an address finds nothing. *)
Theorem address_filter_finds_nothing (pid now e ip group : Z) (r : Routes.Routes unit) :
  e ∈ sound_counters -> 0 < ip < Routes.ALL_IP -> (forall k s, Routes.stats_ r !! k = Some s -> 0 <= k < 2 ^ 32) ->
  Routes.StatCount pid now e ip group r = 0.
Proof.
  intros He Hip Hk. assert (E : Routes.StatCount pid now e ip group r =
    map_fold (fun key i c => if Routes.stat_selects ip group key then Routes.ADDCOUNT e i (Z.of_nat (size (Routes.session_ r))) c else c) 0 (Routes.stats_ r)).
  { unfold sound_counters in He. repeat (apply elem_of_cons in He as [->|He]; [reflexivity|]). by apply elem_of_nil in He. }
  rewrite E. clear E. revert Hk. generalize (Routes.stats_ r) as m. intros m Hk.
  refine (map_fold_weak_ind (fun c m => (forall k s, m !! k = Some s -> 0 <= k < 2 ^ 32) -> c = 0) _ 0 _ _ m Hk); [done|].
  intros k s m' c Hn IH Hk'. rewrite IH.
  2: { intros k' s' E. apply (Hk' k' s'). rewrite lookup_insert_ne; [done|]. intros ->. congruence. }
  pose proof (Hk' k s (lookup_insert_eq _ _ _)) as Hr.
  assert (Es : Routes.stat_selects ip group k = false); [|by rewrite Es].
  unfold Routes.stat_selects. rewrite Z.shiftr_div_pow2, Z.div_small by lia. rewrite Z.land_0_l.
  rewrite (proj2 (Z.eqb_neq ip Routes.ALL_IP)) by lia. cbn [negb andb]. rewrite (proj2 (Z.eqb_neq ip 0)) by lia. by destruct (group =? _).
Qed.

(** The session count is added once for every peer; a rejected request is counted as a
    rejected response too once a response has been rejected. *)
Example sessions_counted_per_peer :
  let r := (Routes.SetSession 100 1 5 6 (bzero 16) (foldl account fresh_routes two_peers)).2 in
  size (Routes.session_ r) = 1%nat /\ Routes.StatCount 1 104 PSTAT_COUNT_SESSION Routes.ALL_IP Routes.ALL_GROUP r = 2.
Proof. vm_compute. done. Qed.
Example request_counted_as_response :
  let r := foldl account fresh_routes [Turned 100 7 0 0 8; Turned 101 7 0 8 0] in
  Routes.StatCount 1 104 PSTAT_REJECTED_RESPONSE Routes.ALL_IP Routes.ALL_GROUP r = 2.
Proof. vm_compute. done. Qed.
End Properties.
