(* ===== verification/ProxyEvents.v ===== *)
(** * Control plane proxy: the events

    proxy_event.cc and the loop of proxy_entry.cc: a datagram from a serving gateway, one
    from a gateway behind the proxy, a query of the statistics, the timer.

    [malloc] and [erange] are as in Gtpc and GtpcItems, [env] as in CtrlNode.  A socket is
    the queue of datagrams waiting on it, each with the address it came from; the handlers
    look at the first with [MSG_PEEK] and take it with a second [recvfrom].  What a handler
    finds in its uninitialised variables is a parameter, [frame].  Reading through the
    header pointer before it is set is undefined behaviour, also in the arguments of a log
    line.  As in CtrlV1, [Ok None] says that a loop over a version 1 message is still
    running after [fuel] rounds. *)

From S2P Require Import Prelude TextParse Gtpc GtpcItems GtpcParse CtrlNode CtrlSession CtrlAnswers CtrlKeepalive CtrlV1 ProxyRoutes.
Import Routes.

Definition GTPC_V1_MSG_DELETE_PDP_CONTEXT_RES := 21.

(** ** Sockets *)
Abbreviation inbox := (list (list Z * list Z)).
Definition sock_recv (peek : bool) (n : Z) (rbuf : list Z) (q : inbox) : res (Z * list Z * option (list Z) * inbox) :=
  match q with
  | [] => Ok (-1, rbuf, None, [])
  | (d, from) :: rest =>
    '(rlen, b) ← recvfrom rbuf d n;
    Ok (rlen, b, Some from, if peek then q else rest)
  end.

(** The uninitialised variables of a handler. *)
Record frame := mk_frame { f_rbuf : list Z; f_cs : gtpc_parse_state; f_gid : Z; f_sa : list Z }.

Record proxy {C : Type} := mk_proxy {
  px_routes : Routes C;
  px_mem : gtp_memory;
  px_round : nat;
  px_wire : datagrams;
  px_counter : Z;            (* the static counters of OnTimeOut *)
  px_counter_session : Z;
  px_reload : Z }.
Arguments proxy : clear implicits.

(** ** _ModifyEchoReq and _ParseImsi *)
Definition clear_recovery (at_ : Z) (b : list Z) : res (list Z) :=
  t ← rd 1 b at_;
  if t =? GTPC_TYPE_RECOVERY then wr 1 b (at_ + 4) 0 else Ok b.
Definition _ModifyEchoReq (b : list Z) : res (list Z) :=
  f ← rd 1 b o_flags;
  l ← rd 2 b o_length;
  b ← (if negb (v2_teid f =? 0) then
         if ntohs l =? sizeof_gtpc_header - 4 + sizeof_gtpc_recovery then clear_recovery sizeof_gtpc_header b else Ok b
       else
         if ntohs l =? sizeof_gtpc_header - 8 + sizeof_gtpc_recovery then clear_recovery (sizeof_gtpc_header - 4) b else Ok b);
  wr 1 b o_type GTPC_ECHO_RES.

Section events.
Variables (malloc : nat -> bool) (erange : bool) (env : nat -> send_round).
Context {C : Type} `{M : Mysql C}.
Implicit Types (p : proxy C) (q : inbox) (s : gtp_memory) (b : list Z).

Definition parse_imsi_v2 b (rlen : Z) (cs : gtpc_parse_state) s : res (Z * gtpc_parse_state * gtp_memory) :=
  '(rc, parsed_pkt, s) ← gtpc_alloc_packet_from_payload malloc None (Some b) rlen s;
  if negb (rc =? OK) then Ok (ERR, cs, s) else
  '(_, cs) ← gtpc_iterate_item on_gtpc_parse_root parsed_pkt cs;
  if negb (Z.land (flag cs) HAVE_IMSI =? HAVE_IMSI) then Ok (ERR, cs, s) else
  '(_, _, s) ← gtpc_free_packet parsed_pkt s;
  if negb (Z.land (flag cs) HAVE_FTEID_C =? HAVE_FTEID_C) then Ok (ERR, cs, s) else
  Ok (OK, cs, s).
Definition parse_imsi_v1 (fuel : nat) b (rlen : Z) (cs : gtpc_parse_state) : res (option (Z * gtpc_parse_state)) :=
  f ← rd 1 b o_flags;
  let off := sizeof_gtpc_v1_header + (if negb (Z.land f GTPC_V1_NSE_MASK =? 0) then 4 else 0) in
  off ← (if negb (bf_get 2 1 f =? 0) then skip_extensions fuel b rlen off else Ok (Some off));
  match off with
  | None => Ok None
  | Some off =>
    r ← parse_v1 fuel b rlen off cs;
    Ok (match (r : option (Z * gtpc_parse_state)) with
        | None => None
        | Some (rc, cs) =>
          Some (if negb (rc =? OK) || negb (Z.land (flag_v1 cs) HAVE_V1_IMSI =? HAVE_V1_IMSI) then ERR else OK, cs)
        end)
  end.
(** The subscriber number is set only on success. *)
Definition _ParseImsi (fuel : nat) b (rlen : Z) (cs : gtpc_parse_state) s
    : res (option (Z * Z * gtpc_parse_state * gtp_memory)) :=
  f ← rd 1 b o_flags;
  r ← (if v2_version f =? GTPC_VERSION_2 then x ← parse_imsi_v2 b rlen cs s; Ok (Some x)
       else r ← parse_imsi_v1 fuel b rlen cs;
            Ok (match (r : option (Z * gtpc_parse_state)) with None => None | Some x => Some (x, s) end));
  match (r : option (Z * gtpc_parse_state * gtp_memory)) with
  | None => Ok None
  | Some (rc, cs, s) =>
    if negb (rc =? OK) then Ok (Some (ERR, 0, cs, s)) else
    v ← gtpc_digits_get erange (drop 4 (ies cs imsi)) GTPC_IMSI_LEN;
    Ok (Some (OK, v, cs, s))
  end.

(** ** Helpers of the handlers *)
Definition set_routes (r : Routes C) p : proxy C :=
  mk_proxy _ r (px_mem p) (px_round p) (px_wire p) (px_counter p) (px_counter_session p) (px_reload p).
Definition set_mem s p : proxy C :=
  mk_proxy _ (px_routes p) s (px_round p) (px_wire p) (px_counter p) (px_counter_session p) (px_reload p).
Definition set_timer (c cs reload : Z) p : proxy C :=
  mk_proxy _ (px_routes p) (px_mem p) (px_round p) (px_wire p) c cs reload.
(** [pgw_send_sock]. *)
Definition send_sock (sock : Z) (addr d : list Z) p : res (Z * proxy C) :=
  '(rc, n, w) ← pgw_send_sock env sock addr d (px_round p) (px_wire p);
  Ok (rc, mk_proxy _ (px_routes p) (px_mem p) n w (px_counter p) (px_counter_session p) (px_reload p)).
Definition stat_add (now : Z) (addr : list Z) (gid rq rs : Z) p : proxy C :=
  set_routes (StatAdd now (s_addr addr) (u16 gid) rq rs 0 (px_routes p)) p.
Definition stat_reject (now : Z) (addr : list Z) (gid rq rs : Z) p : proxy C :=
  set_routes (StatReject now (s_addr addr) (u16 gid) (u64 rq) (u64 rs) (px_routes p)) p.

(** The length of the message by its header; nothing when the header is refused. *)
Definition announced b : res (option Z) :=
  l ← rd 2 b o_length;
  if (ntohs l <? 4) || (ETHER_MAX_LEN <? ntohs l) then Ok None else
  v ← gtpc_validate_header b;
  if negb (v =? OK) then Ok None else
  f ← rd 1 b o_flags;
  Ok (Some (4 + ntohs l +
        (if (bf_get 5 3 f =? GTPC_VERSION_1) && negb (Z.land f GTPC_V1_NSE_MASK =? 0) then 4 else 0))).
(** The messages a side may send: one request of version 2 and echo, the PDP context
    messages of version 1. *)
Definition allowed (v2_type : Z) b : res bool :=
  f ← rd 1 b o_flags;
  t ← rd 1 b o_type;
  Ok (if v2_version f =? GTPC_VERSION_2 then (t =? v2_type) || (t =? GTPC_ECHO_REQ)
      else if bf_get 5 3 f =? GTPC_VERSION_1 then
        (GTPC_V1_MSG_CREATE_PDP_CONTEXT_REQ <=? t) && (t <=? GTPC_V1_MSG_DELETE_PDP_CONTEXT_RES)
      else false).

(** ** Proxy::OnRecieveExt *)
(** From the accepted message on: echo, or the request to the gateway of its group.
    [None] in the result is the error path, with the group it has by then. *)
Definition relay_request (fuel : nat) (now : Z) (fr : frame) (ssa b : list Z) (len : Z) p
    : res (option (proxy C * option Z)) :=
  r ← _ParseImsi fuel b len (f_cs fr) (px_mem p);
  match (r : option (Z * Z * gtpc_parse_state * gtp_memory)) with
  | None => Ok None
  | Some (rc, imsi_num, cs, s) =>
    let p := set_mem s p in
    if negb (rc =? OK) then Ok (Some (p, Some (f_gid fr))) else
    '(rc, gid, r) ← FindGroupByImsi imsi_num (px_routes p);
    let p := set_routes r p in
    if negb (rc =? OK) then Ok (Some (p, Some gid)) else
    match FindInternlRouteByGroupFromCache gid (px_routes p) with
    | (_, []) => Ok (Some (p, Some gid))
    | (_, route :: _) =>
      teid ← rd 4 (ies cs c_teid) o_f_teid_key;
      seq ← rd 4 b 8;
      let '(_, r) := SetSession now imsi_num (bf_get 0 24 seq) teid ssa (px_routes p) in
      let p := set_routes r p in
      let caddr := sockaddr (ri_port_ route) (inet_pton (ri_host_ route) (bzero 4)) in
      '(rc, p) ← send_sock (intsock_ r) caddr (slice 0 len b) p;
      if negb (rc =? OK) then Ok (Some (p, Some gid)) else
      Ok (Some (stat_add now ssa gid len 0 p, None))
    end
  end.
Definition answer_echo (sock now : Z) (fr : frame) (ssa addr b : list Z) (len rq rs : Z) p : res (proxy C * option Z) :=
  b ← _ModifyEchoReq b;
  '(rc, p) ← send_sock sock ssa (slice 0 len b) p;
  if negb (rc =? OK) then Ok (p, Some (f_gid fr)) else
  Ok (stat_add now addr (f_gid fr) rq rs p, None).
Definition OnRecieveExt (fuel : nat) (now : Z) (fr : frame) (sockname : bool) p q : res (option (proxy C * inbox)) :=
  '(rlen, b, from, q) ← sock_recv true (sizeof_gtpc_header - 4) (f_rbuf fr) q;
  if negb (rlen =? sizeof_gtpc_header - 4) then Fault Undefined else
  let ssa := default (bzero sizeof_sockaddr_in) from in
  let error gid rlen p q := Ok (Some (stat_reject now ssa gid rlen 0 p, q)) in
  a ← announced b;
  match a with
  | None => error (f_gid fr) rlen p q
  | Some len =>
    '(rlen, b, _, q) ← sock_recv false len b q;
    let drop_next b q p :=
      '(_, _, from, q) ← sock_recv false 4 b q;
      Ok (Some (stat_reject now (default ssa from) 0 rlen 0 p, q)) in
    if (rlen <? 4) || negb (rlen =? len) then drop_next b q p else
    if negb sockname then drop_next b q p else
    let p := set_routes (SetExtRoute ssa (px_routes p)).2 p in
    ok ← allowed GTPC_CREATE_SESSION_REQ b;
    if negb ok then error (f_gid fr) rlen p q else
    t ← rd 1 b o_type;
    r ← (if t =? GTPC_ECHO_REQ then
           x ← answer_echo (extsock_ (px_routes p)) now fr ssa ssa b len len 0 p; Ok (Some x)
         else relay_request fuel now fr ssa b len p);
    match (r : option (proxy C * option Z)) with
    | None => Ok None
    | Some (p, None) => Ok (Some (p, q))
    | Some (p, Some gid) => error gid rlen p q
    end
  end.

(** ** Proxy::OnRecieveInt *)
Definition relay_response (now : Z) (fr : frame) (sa b : list Z) (len : Z) p : res (proxy C * option Z) :=
  seqno ← rd 4 b 8;
  teid ← rd 4 b o_teid;
  match FindSessionBySeqnoTeid seqno teid (px_routes p) with
  | None => Ok (p, Some (f_gid fr))
  | Some sess =>
    '(rc, p) ← send_sock (extsock_ (px_routes p)) (rs_host_ sess) (slice 0 len b) p;
    if negb (rc =? OK) then Ok (p, Some (f_gid fr)) else
    '(_, _, s) ← gtpc_free_packet None (px_mem p);
    Ok (stat_add now sa (f_gid fr) 0 len (set_mem s p), None)
  end.
Definition OnRecieveInt (now : Z) (fr : frame) (sockname : option (list Z)) p q : res (proxy C * inbox) :=
  '(rlen, b, from, q) ← sock_recv true (sizeof_gtpc_header - 4) (f_rbuf fr) q;
  if negb (rlen =? sizeof_gtpc_header - 4) then Fault Undefined else
  let ssa := default (bzero sizeof_sockaddr_in) from in
  let error sa rlen p q := Ok (stat_reject now sa (f_gid fr) 0 rlen p, q) in
  a ← announced b;
  match a with
  | None => error (f_sa fr) rlen p q
  | Some len =>
    '(rlen, b, _, q) ← sock_recv false len b q;
    if (rlen <? 4) || negb (rlen =? len) then
      '(_, _, _, q) ← sock_recv false 4 b q; error (f_sa fr) rlen p q else
    match sockname with
    | None => error (f_sa fr) rlen p q
    | Some sa =>
      ok ← allowed GTPC_CREATE_SESSION_RES b;
      if negb ok then error sa rlen p q else
      f ← rd 1 b o_flags;
      t ← rd 1 b o_type;
      '(p, r) ← (if (v2_version f =? GTPC_VERSION_2) && (t =? GTPC_ECHO_REQ)
                 then answer_echo (intsock_ (px_routes p)) now fr ssa sa b len 0 len p
                 else relay_response now fr sa b len p);
      match (r : option Z) with
      | None => Ok (p, q)
      | Some _ => error sa rlen p q
      end
    end
  end.

(** ** Proxy::OnRecieveStats *)
Definition stat_filter b : res (Z * Z) :=
  t ← rd 4 b (sizeof_proxy_stats_header + o_pr_type);
  ip ← rd 4 b (sizeof_proxy_stats_header + o_pr_ip);
  g ← rd 4 b (sizeof_proxy_stats_header + o_pr_groupid);
  Ok (if PSTAT_RTYPE_MASK t =? Z.lor PSTAT_RTYPE_GROUPID PSTAT_RTYPE_IP then (ip, u16 g)
      else if PSTAT_RTYPE_MASK t =? PSTAT_RTYPE_IP then (ip, ALL_GROUP) else (ALL_IP, ALL_GROUP)).
Definition stat_values (pid now ip group : Z) p : list Z :=
  concat ((fun n => le_store 8 (XHTONLL (StatCount pid now (Z.of_nat n) ip group (px_routes p)))) <$> seq 0 (Z.to_nat PSTAT_COUNT_MAX)).
Definition OnRecieveStats (pid now : Z) (fr : frame) (sockname : bool) p q : res (proxy C * inbox) :=
  '(rlen, b, from, q) ← sock_recv true sizeof_proxy_stats_header (f_rbuf fr) q;
  if negb (rlen =? sizeof_proxy_stats_header) then Ok (p, q) else
  let ssa := default (f_sa fr) from in
  l ← rd 2 b o_ps_length;
  if negb (ntohs l =? sizeof_proxy_stats_request_data) then Ok (p, q) else
  '(rlen, b, _, q) ← sock_recv false (ntohs l) b q;
  if negb (rlen =? ntohs l) || negb sockname then '(_, _, _, q) ← sock_recv false 4 b q; Ok (p, q) else
  m ← rd 4 b o_ps_magic;
  if negb (m =? PSTAT_MAGIC) then Ok (p, q) else
  t ← rd 1 b o_ps_type;
  if negb (Z.land t 0xF0 =? PSTAT_REQUEST) then Ok (p, q) else
  e ← rd 1 b o_ps_extlength;
  if negb (e =? 0) then Ok (p, q) else
  '(ip, group) ← stat_filter b;
  let reslen := sizeof_proxy_stats_header + sizeof_proxy_stats_result_counter in
  b ← wr 4 b o_ps_magic PSTAT_MAGIC;
  b ← wr 2 b o_ps_length (htons reslen);
  b ← wr 1 b o_ps_type (Z.land t 0x0F);
  b ← wr 1 b o_ps_extlength 0;
  b ← wr 4 b o_ps_time now;
  b ← wr_bytes b sizeof_proxy_stats_header (stat_values pid now ip group p);
  '(_, p) ← send_sock (stssock_ (px_routes p)) ssa (slice 0 reslen b) p;
  Ok (p, q).

(** ** Proxy::OnTimeOut and Proxy::Signal *)
Definition OnTimeOut (now : Z) p : res (proxy C) :=
  let c := px_counter p in
  p ← (if 6000 <? c then
         '(_, r) ← KeepAlive (px_routes p);
         '(_, r) ← (if negb (px_reload p =? 0) then Cache r else Ok (OK, r));
         Ok (set_timer 0 (px_counter_session p) 0 (set_routes r p))
       else Ok (set_timer (u64 (c + 1)) (px_counter_session p) (px_reload p) p));
  let cs := px_counter_session p in
  if 360000 <? cs then
    '(_, r) ← KeepAlive (px_routes p);
    (* the counter is zero when the age is computed from it *)
    Ok (set_timer (px_counter p) 0 (px_reload p) (set_routes (StatExpire now (0 / 100) r) p))
  else Ok (set_timer (px_counter p) (u64 (cs + 1)) (px_reload p) p).
Definition Signal p : proxy C := set_timer (px_counter p) (px_counter_session p) (px_reload p + 1) p.

(** ** The event loop: the sockets and the proxy, one event after another *)
Record system := mk_system { sy_proxy : proxy C; sy_ext : inbox; sy_int : inbox; sy_sts : inbox }.
Inductive event :=
| FromOutside (d from : list Z)            (* a datagram arrives on a socket *)
| FromInside (d from : list Z)
| FromStats (d from : list Z)
| Ext (now : Z) (fr : frame) (sockname : bool)
| Int (now : Z) (fr : frame) (sockname : option (list Z))
| Sts (now : Z) (fr : frame) (sockname : bool)
| TimeOut (now : Z)
| Sigusr2.
Definition step (fuel : nat) (pid : Z) (y : system) (e : event) : res (option system) :=
  let p := sy_proxy y in
  match e with
  | FromOutside d from => Ok (Some (mk_system p (sy_ext y ++ [(d, from)]) (sy_int y) (sy_sts y)))
  | FromInside d from => Ok (Some (mk_system p (sy_ext y) (sy_int y ++ [(d, from)]) (sy_sts y)))
  | FromStats d from => Ok (Some (mk_system p (sy_ext y) (sy_int y) (sy_sts y ++ [(d, from)])))
  | Ext now fr sockname =>
    r ← OnRecieveExt fuel now fr sockname p (sy_ext y);
    Ok (match (r : option (proxy C * inbox)) with None => None | Some (p, q) => Some (mk_system p q (sy_int y) (sy_sts y)) end)
  | Int now fr sockname =>
    '(p, q) ← OnRecieveInt now fr sockname p (sy_int y); Ok (Some (mk_system p (sy_ext y) q (sy_sts y)))
  | Sts now fr sockname =>
    '(p, q) ← OnRecieveStats pid now fr sockname p (sy_sts y); Ok (Some (mk_system p (sy_ext y) (sy_int y) q))
  | TimeOut now => p ← OnTimeOut now p; Ok (Some (mk_system p (sy_ext y) (sy_int y) (sy_sts y)))
  | Sigusr2 => Ok (Some (mk_system (Signal p) (sy_ext y) (sy_int y) (sy_sts y)))
  end.
Fixpoint run (fuel : nat) (pid : Z) (y : system) (es : list event) : res (option system) :=
  match es with
  | [] => Ok (Some y)
  | e :: es =>
    r ← step fuel pid y e;
    match (r : option system) with None => Ok None | Some y => run fuel pid y es end
  end.
End events.
Arguments system : clear implicits.

(** ** Messages of version 2 on the wire *)
Definition v2_message (t : Z) (tid seq : list Z) (spare : Z) (body : list Z) : list Z :=
  ([0x48; t] ++ be_store 2 (8 + zlen body) ++ tid ++ seq ++ [spare]) ++ body.
(** The receive buffer after the message: what was in it is still behind. *)
Definition in_buffer (m rbuf : list Z) : list Z := m ++ drop (length m) rbuf.

Lemma recv_peek d from q rbuf n :
  0 <= n <= zlen d -> n <= zlen rbuf ->
  sock_recv true n rbuf ((d, from) :: q) = Ok (n, in_buffer (take (Z.to_nat n) d) rbuf, Some from, (d, from) :: q).
Proof.
  intros Hn Hr. unfold sock_recv, recvfrom. assert (L : zlen (take (Z.to_nat n) d) = n) by (rewrite length_take; lia).
  rewrite wr_bytes_ok by lia. res_simpl. rewrite L. unfold in_buffer, splice. change (Z.to_nat 0) with O. done.
Qed.
Lemma recv_rest d from q rbuf n :
  0 <= n <= zlen d -> zlen d <= zlen rbuf ->
  sock_recv false (zlen d) (in_buffer (take (Z.to_nat n) d) rbuf) ((d, from) :: q) = Ok (zlen d, in_buffer d rbuf, Some from, q).
Proof.
  intros Hn Hr. unfold sock_recv, recvfrom. rewrite Nat2Z.id, firstn_all.
  assert (L : zlen (in_buffer (take (Z.to_nat n) d) rbuf) = zlen rbuf).
  { unfold in_buffer. rewrite length_app, length_drop, length_take. lia. }
  rewrite wr_bytes_ok by lia. res_simpl. unfold in_buffer, splice. change (Z.to_nat 0) with O. rewrite take_0. cbn [app].
  rewrite drop_app_ge by (rewrite length_take; lia). rewrite drop_drop, length_take. repeat f_equal. lia.
Qed.

Lemma zlen_v2 t tid seq spare body :
  zlen tid = 4 -> zlen seq = 3 -> zlen (v2_message t tid seq spare body) = 12 + zlen body.
Proof. intros. unfold v2_message. rewrite !length_app, length_be_store. cbn [length]. lia. Qed.

(** The header of a received message. *)
Lemma v2_header t tid seq spare body :
  zlen tid = 4 -> zlen seq = 3 -> 8 + zlen body < 2 ^ 16 ->
  exists l0 l1 t0 t1 t2 t3 s0 s1 s2,
    v2_message t tid seq spare body = [0x48; t; l0; l1; t0; t1; t2; t3; s0; s1; s2; spare] ++ body /\
    be_store 2 (8 + zlen body) = [l0; l1] /\ tid = [t0; t1; t2; t3] /\ seq = [s0; s1; s2] /\
    ntohs (le_load [l0; l1]) = 8 + zlen body.
Proof.
  intros Ht Hs Hl. unfold v2_message. pose proof (be_store_load 2 (8 + zlen body) ltac:(cbn; lia)) as E.
  pose proof (be_store_ok 2 (8 + zlen body)) as B.
  destruct (be_store_2 (8 + zlen body)) as (l0 & l1 & E2). rewrite E2 in *.
  destruct tid as [|t0 [|t1 [|t2 [|t3 [|]]]]]; cbn [length] in Ht; try lia.
  destruct seq as [|s0 [|s1 [|s2 [|]]]]; cbn [length] in Hs; try lia.
  exists l0, l1, t0, t1, t2, t3, s0, s1, s2. split; [done|]. split; [done|]. do 2 (split; [done|]).
  unfold ntohs. by rewrite bswap_load.
Qed.

Lemma rd_v2 n t l0 l1 rest p v :
  0 <= p -> p + Z.of_nat n <= 4 -> rd n [0x48; t; l0; l1] p = Ok v -> rd n ([0x48; t; l0; l1] ++ rest) p = Ok v.
Proof. intros ?? E. by rewrite (rd_app n [0x48; t; l0; l1]) by (cbn; lia). Qed.

Lemma announced_v2 t l0 l1 rest n :
  ntohs (le_load [l0; l1]) = n -> byte_ok t -> 4 <= n <= ETHER_MAX_LEN -> gtpc_type_issupported t = true ->
  announced ([0x48; t; l0; l1] ++ rest) = Ok (Some (4 + n)).
Proof.
  intros En Ht Hn Hs. assert (Et : le_load [t] = t) by (cbn; lia).
  assert (R2 : rd 2 ([0x48; t; l0; l1] ++ rest) o_length = Ok (le_load [l0; l1])) by (apply rd_v2; [unfold o_length; lia..|reflexivity]).
  assert (R0 : rd 1 ([0x48; t; l0; l1] ++ rest) o_flags = Ok 0x48) by (apply rd_v2; [unfold o_flags; lia..|reflexivity]).
  assert (R1 : rd 1 ([0x48; t; l0; l1] ++ rest) o_type = Ok t) by (apply rd_v2; [unfold o_type; lia..|by rewrite <-Et at 2]).
  unfold announced, gtpc_validate_header. rewrite R2. res_simpl. rewrite En.
  rewrite (proj2 (Z.ltb_ge n 4)), (proj2 (Z.ltb_ge ETHER_MAX_LEN n)) by lia. cbn [orb].
  unfold sizeof_gtpc_comm_header. rewrite (proj2 (Z.ltb_ge n 4)) by lia. rewrite R0. res_simpl.
  change (v2_version 0x48 =? GTPC_VERSION_2) with true. change (v2_piggy 0x48 =? GTPC_PIGGY_OFF) with true. cbn [negb andb].
  rewrite R1. res_simpl. rewrite Hs. cbn [negb].
  assert (Hh : (gtpc_type_headerlen t >? sizeof_gtpc_header) = false) by (unfold gtpc_type_headerlen; case_if; reflexivity).
  rewrite Hh. cbn [negb Z.eqb OK]. change (bf_get 5 3 0x48 =? GTPC_VERSION_1) with false. cbn [andb]. by rewrite Z.add_0_r.
Qed.

Lemma allowed_v2 v t l0 l1 rest :
  byte_ok t -> allowed v ([0x48; t; l0; l1] ++ rest) = Ok ((t =? v) || (t =? GTPC_ECHO_REQ)).
Proof.
  intros Ht. assert (Et : le_load [t] = t) by (cbn; lia). unfold allowed.
  rewrite (rd_v2 1 t l0 l1 rest o_flags 0x48) by (reflexivity || (unfold o_flags; lia)). res_simpl.
  rewrite (rd_v2 1 t l0 l1 rest o_type t) by ((unfold o_type; lia) || (by rewrite <-Et at 2)). done.
Qed.

(** ** The subscriber and the tunnel of a create session request *)
Section parsing.
Variables (malloc : nat -> bool).

Lemma outstanding_taken s s' : same_counts (count_gtp 0 1 0 s) s' -> outstanding (count_gtp 0 0 1 s') = outstanding s.
Proof.
  intros (_ & A2 & A3 & _ & A5 & A6 & _). unfold outstanding, count_gtp in *. cbn in *. rewrite A2, A3, A5, A6, ?Z.add_0_r. f_equal.
  rewrite wrap_wrap, wrap_add_l by lia. unfold wrap. rewrite Zminus_mod_idemp_l, Zminus_mod_idemp_r. f_equal. lia.
Qed.

(** What the proxy reads off a create session request, whatever the parse state was. *)
Lemma parse_imsi_request fuel im ms cteid up down ebi uteid flags qci mu md gu gd cip uip :
  (forall n, malloc n = true) -> request_ok_args im ms ebi flags qci mu md gu gd cip uip ->
  exists its, create_session_request im ms cteid up down ebi uteid flags qci mu md gu gd cip uip = Ok its /\
    12 + zlen (concat its.*2) < ETHER_MAX_LEN /\ bytes_ok (concat its.*2) /\
    forall tid seq spare rbuf cs0 s, let m := v2_message GTPC_CREATE_SESSION_REQ tid seq spare (concat its.*2) in
      bytes_ok tid -> bytes_ok seq -> byte_ok spare -> zlen tid = 4 -> zlen seq = 3 -> bytes_ok rbuf -> state_wf cs0 ->
      exists cs s', _ParseImsi malloc false fuel (in_buffer m rbuf) (zlen m) cs0 s = Ok (Some (OK, im, cs, s')) /\
        state_wf cs /\ slice o_f_teid_key 4 (ies cs c_teid) = be_store 4 cteid /\ outstanding s' = outstanding s.
Proof.
  intros Hm Ha. destruct (create_session_request_visits im ms cteid up down ebi uteid flags qci mu md gu gd cip uip Ha)
    as (its & E & Hits & Hs & Hk & Hl & Hv).
  assert (Hb : bytes_ok (concat its.*2)).
  { apply Forall_concat, Forall_fmap. eapply Forall_impl; [exact Hits|]. by intros x (_ & ? & _). }
  exists its. do 3 (split; [done|]). intros tid seq spare rbuf cs0 s m Bt Bs Bp Lt Ls Br Hcs.
  set (body := concat its.*2) in *.
  destruct (v2_header GTPC_CREATE_SESSION_REQ tid seq spare body Lt Ls) as (l0&l1&t0&t1&t2&t3&s0&s1&s2&Em&El&Et&Es&En);
    [unfold ETHER_MAX_LEN in Hl; lia|].
  assert (Lm : zlen m = 12 + zlen body) by (by apply zlen_v2).
  assert (Bm : bytes_ok m).
  { unfold m, v2_message. repeat (apply Forall_app_2); try done; [by repeat constructor|apply be_store_ok|by constructor]. }
  set (b := in_buffer m rbuf). assert (Bb : bytes_ok b) by (apply Forall_app_2; [done|by apply Forall_drop]).
  assert (Lb : zlen m <= zlen b) by (unfold b, in_buffer; rewrite length_app; lia).
  assert (Eb : b = [0x48; GTPC_CREATE_SESSION_REQ; l0; l1] ++ ([t0; t1; t2; t3; s0; s1; s2; spare] ++ body) ++ drop (length m) rbuf).
  { unfold b, in_buffer, m. rewrite Em. by rewrite <-!app_assoc. }
  assert (R0 : rd 1 b o_flags = Ok 0x48) by (rewrite Eb; apply rd_v2; [unfold o_flags; lia..|reflexivity]).
  unfold _ParseImsi. rewrite R0. res_simpl.
  change (v2_version 0x48 =? GTPC_VERSION_2) with true. cbn match. unfold parse_imsi_v2.
  assert (Ety : item_type b o_type = GTPC_CREATE_SESSION_REQ) by (rewrite Eb; reflexivity).
  destruct (from_payload_complete malloc None b its s) as (p' & s' & Ep & Ec & Hw & Hsc); rewrite ?Ety; fold body;
    change (gtpc_type_headerlen GTPC_CREATE_SESSION_REQ) with 12 in *; try done; [|lia| |].
  { split; [|split].
    - pose proof (announced_v2 GTPC_CREATE_SESSION_REQ l0 l1 (([t0; t1; t2; t3; s0; s1; s2; spare] ++ body) ++ drop (length m) rbuf) _ En) as Hann.
      rewrite <-Eb in Hann. unfold announced in Hann. destruct (gtpc_validate_header_total b) as (rc & Erc & [->| ->]); [lia|done|done|].
      exfalso. specialize (Hann ltac:(unfold byte_ok, GTPC_CREATE_SESSION_REQ; lia) ltac:(unfold ETHER_MAX_LEN in *; lia) eq_refl).
      destruct (rd_be b o_length) as (v & Ev1 & _); [unfold o_length; lia|unfold o_length; lia|done|]. rewrite Ev1 in Hann. revert Hann. res_simpl.
      case_if; [discriminate|]. rewrite Erc. res_simpl. discriminate.
    - rewrite Eb. change (slice o_length 2 _) with [l0; l1] at 1. rewrite <-El. change (be_load (be_store 2 (8 + zlen body)) + 4 = 12 + zlen body).
      rewrite be_store_load by (cbn; unfold ETHER_MAX_LEN in *; lia). lia.
    - rewrite Ety. change (gtpc_type_headerlen GTPC_CREATE_SESSION_REQ) with 12. lia. }
  { rewrite Eb. change ([0x48; GTPC_CREATE_SESSION_REQ; l0; l1] ++ ([t0; t1; t2; t3; s0; s1; s2; spare] ++ body) ++ drop (length m) rbuf)
      with ([0x48; GTPC_CREATE_SESSION_REQ; l0; l1; t0; t1; t2; t3; s0; s1; s2; spare] ++ body ++ drop (length m) rbuf).
    rewrite slice_app_r by (cbn; lia). change (12 - zlen _) with 0. rewrite slice_app_l by lia. apply slice_0_all. }
  rewrite Ety in Ep, Hw. change (gtpc_type_headerlen GTPC_CREATE_SESSION_REQ) with 12 in Ep, Hw. fold body in Ep. rewrite <-Lm in Ep. rewrite Ep. res_simpl.
  change (OK =? OK) with true. cbn [negb]. destruct (Hv cs0 Hcs) as (cs & Ev & Hcs' & Hfl & Gi & _ & Gt & _).
  rewrite (iterate_root_visit 12 4), Ec, Ev by (rewrite ?Ec; done). res_simpl.
  rewrite (land_weaken _ _ HAVE_IMSI Hfl eq_refl), (land_weaken _ _ HAVE_FTEID_C Hfl eq_refl), !Z.eqb_refl. cbn [negb].
  rewrite (gtpc_free_packet_ok 12 4) by done. res_simpl. rewrite Gi. res_simpl.
  eexists _, _. split; [reflexivity|]. split; [done|]. split; [done|].
  by apply outstanding_taken.
Qed.
End parsing.

(** ** A request through the proxy, and its answer *)
Section relaying.
Variables (malloc : nat -> bool) (env : nat -> send_round).
Context {C : Type} `{M : Mysql C}.
Implicit Types (p : proxy C) (q : inbox).
Hypothesis Hsend : sockets_ready env.

Definition frame_ok (fr : frame) : Prop :=
  bytes_ok (f_rbuf fr) /\ zlen (f_rbuf fr) = PCKTLEN_UDP /\ state_wf (f_cs fr).
(** What the proxy keeps of an accepted request. *)
Definition remembered (now im seqno teid : Z) (from : list Z) (m : gmap Z RouteSession) : gmap Z RouteSession :=
  match m !! session_key seqno teid with
  | Some _ => m
  | None => <[session_key seqno teid := mk_route_session from im seqno teid (u32 now)]> m
  end.

Lemma send_sock_ready sock addr d p :
  zlen d < 65536 -> send_sock env sock addr d p =
    Ok (OK, mk_proxy _ (px_routes p) (px_mem p) (S (px_round p)) (px_wire p ++ [(sock, addr, d)])
              (px_counter p) (px_counter_session p) (px_reload p)).
Proof. intros. unfold send_sock, pgw_send_sock. by rewrite send_ready. Qed.

Lemma seq_bits s0 s1 s2 x : byte_ok s0 -> byte_ok s1 -> byte_ok s2 -> byte_ok x ->
  bf_get 0 24 (le_load [s0; s1; s2; x]) = le_load [s0; s1; s2].
Proof.
  unfold byte_ok. intros. unfold bf_get. rewrite Z.shiftr_0_r. cbn [le_load]. unfold wrap.
  replace (s0 + 256 * (s1 + 256 * (s2 + 256 * (x + 256 * 0)))) with (s0 + 256 * (s1 + 256 * (s2 + 256 * 0)) + x * 2 ^ 24) by lia.
  rewrite Z_mod_plus_full. apply Z.mod_small. lia.
Qed.

Lemma SetSession_routes now im seqno teid from (r : Routes C) :
  let r' := (SetSession now im seqno teid from r).2 in
  SetSession now im seqno teid from r = (OK, r') /\
  r' = set_sessions (remembered now im seqno teid from (session_ r)) r.
Proof.
  split; [done|]. unfold SetSession, remembered. cbn [snd]. destruct (session_ r !! _); [by destruct r|done].
Qed.

(** A message is received whole; the handler goes on with it at the head of its buffer. *)
Lemma receive_v2 t tid seq spare body rbuf from q :
  zlen tid = 4 -> zlen seq = 3 -> zlen rbuf = PCKTLEN_UDP -> 12 + zlen body < ETHER_MAX_LEN -> byte_ok t -> gtpc_type_issupported t = true ->
  let m := v2_message t tid seq spare body in
  exists b0, sock_recv true (sizeof_gtpc_header - 4) rbuf ((m, from) :: q) = Ok (8, b0, Some from, (m, from) :: q) /\
    announced b0 = Ok (Some (zlen m)) /\
    sock_recv false (zlen m) b0 ((m, from) :: q) = Ok (zlen m, in_buffer m rbuf, Some from, q) /\
    (forall v, allowed v (in_buffer m rbuf) = Ok ((t =? v) || (t =? GTPC_ECHO_REQ))) /\
    rd 1 (in_buffer m rbuf) o_type = Ok t /\ rd 1 (in_buffer m rbuf) o_flags = Ok 0x48 /\
    rd 4 (in_buffer m rbuf) o_teid = Ok (le_load tid) /\ rd 4 (in_buffer m rbuf) 8 = Ok (le_load (seq ++ [spare])) /\
    slice 0 (zlen m) (in_buffer m rbuf) = m /\ zlen m = 12 + zlen body.
Proof.
  intros Lt Ls Lr Hl Ht Hs m. unfold ETHER_MAX_LEN, PCKTLEN_UDP in *. assert (Lm : zlen m = 12 + zlen body) by (by apply zlen_v2).
  assert (Tt : le_load [t] = t) by (cbn; lia).
  destruct (v2_header t tid seq spare body Lt Ls) as (l0&l1&t0&t1&t2&t3&s0&s1&s2&Em&El&Et&Es&En); [lia|]. fold m in Em.
  exists (in_buffer (take (Z.to_nat 8) m) rbuf). change (sizeof_gtpc_header - 4) with 8.
  split; [apply recv_peek; lia|]. split.
  { replace (zlen m) with (4 + (8 + zlen body)) by lia. rewrite Em. change (take (Z.to_nat 8) _) with ([0x48; t; l0; l1] ++ [t0; t1; t2; t3]).
    unfold in_buffer. rewrite <-app_assoc. apply announced_v2; [done|done|unfold ETHER_MAX_LEN; lia|done]. }
  split; [apply recv_rest; lia|].
  assert (Eb : in_buffer m rbuf = [0x48; t; l0; l1] ++ [t0; t1; t2; t3; s0; s1; s2; spare] ++ body ++ drop (length m) rbuf).
  { unfold in_buffer. rewrite Em at 1. rewrite <-!app_assoc. done. }
  split; [intros v; rewrite Eb; by apply allowed_v2|].
  split; [rewrite Eb; apply rd_v2; [unfold o_type; lia..|by rewrite <-Tt at 2]|].
  split; [rewrite Eb; apply rd_v2; [unfold o_flags; lia..|done]|].
  rewrite Eb, app_assoc. rewrite Et, Es.
  split; [by rewrite (rd_app 4 ([0x48; t; l0; l1] ++ [t0; t1; t2; t3; s0; s1; s2; spare])) by (unfold o_teid; cbn; lia)|].
  split; [by rewrite (rd_app 4 ([0x48; t; l0; l1] ++ [t0; t1; t2; t3; s0; s1; s2; spare])) by (cbn; lia)|].
  split; [|done]. rewrite <-app_assoc, <-Eb. unfold in_buffer. rewrite slice_app_l by lia. apply slice_0_all.
Qed.

(** The proxy knows where the subscriber's group is served. *)
Definition routed (im : Z) (route : RouteInt) p : Prop :=
  exists cn cn' g more, con_n_ (px_routes p) = Some cn /\ mysql_query (group_sql im) cn = (Some (1, [[Some g]]), cn') /\
    atoi g <> -1 /\ grouproutes_ (px_routes p) !! atoi g = Some (route :: more).
Definition destination (route : RouteInt) : list Z := sockaddr (ri_port_ route) (inet_pton (ri_host_ route) (bzero 4)).

Lemma group_found im route p :
  routed im route p -> exists gid r more, FindGroupByImsi im (px_routes p) = Ok (OK, gid, r) /\
    FindInternlRouteByGroupFromCache gid r = (OK, route :: more) /\
    session_ r = session_ (px_routes p) /\ extsock_ r = extsock_ (px_routes p) /\ intsock_ r = intsock_ (px_routes p).
Proof.
  intros (cn & cn' & g & more & Ec & Eq & Hg & Er). exists (atoi g), (set_con (con_ (px_routes p)) (Some cn') (px_routes p)), more.
  unfold FindGroupByImsi. rewrite Ec. res_simpl. unfold DatabaseConnection.Select. rewrite Eq.
  change (DatabaseConnection.each_row on_group [[Some g]] 1 (-1)) with (Ok (atoi g)). res_simpl.
  rewrite (proj2 (Z.eqb_neq _ _)) by done. split; [done|].
  unfold FindInternlRouteByGroupFromCache. cbn [grouproutes_ set_con]. by rewrite Er.
Qed.

(** A create session request goes to the gateway of its group, and is remembered. *)
Lemma ext_relays fuel now fr from p q im ms cteid up down ebi uteid flags qci mu md gu gd cip uip route :
  (forall n, malloc n = true) -> frame_ok fr -> request_ok_args im ms ebi flags qci mu md gu gd cip uip -> routed im route p ->
  exists its, create_session_request im ms cteid up down ebi uteid flags qci mu md gu gd cip uip = Ok its /\
    forall tid seq spare, let m := v2_message GTPC_CREATE_SESSION_REQ tid seq spare (concat its.*2) in
      bytes_ok tid -> bytes_ok seq -> byte_ok spare -> zlen tid = 4 -> zlen seq = 3 ->
      exists p', OnRecieveExt malloc false env fuel now fr true p ((m, from) :: q) = Ok (Some (p', q)) /\
        px_wire p' = px_wire p ++ [(intsock_ (px_routes p), destination route, m)] /\
        session_ (px_routes p') = remembered now im (le_load seq) (le_load (be_store 4 cteid)) from (session_ (px_routes p)) /\
        extsock_ (px_routes p') = extsock_ (px_routes p) /\ outstanding (px_mem p') = outstanding (px_mem p).
Proof.
  intros Hm (Hr & Lr & Hcs) Ha Hroute.
  destruct (parse_imsi_request malloc fuel im ms cteid up down ebi uteid flags qci mu md gu gd cip uip Hm Ha) as (its & E & Hl & Hb & Hp).
  exists its. split; [done|]. intros tid seq spare m Bt Bs Bp Lt Ls.
  destruct (receive_v2 GTPC_CREATE_SESSION_REQ tid seq spare (concat its.*2) (f_rbuf fr) from q Lt Ls Lr Hl)
    as (b0 & R1 & Hann & R2 & Hal & Hty & _ & _ & Hseq & Hsl & Lm); [unfold byte_ok, GTPC_CREATE_SESSION_REQ; lia|done|]. fold m in R1, Hann, R2, Hal, Hty, Hseq, Hsl, Lm.
  destruct (Hp tid seq spare (f_rbuf fr) (f_cs fr) (px_mem p)) as (cs & s' & Ep & Hcs' & Et & Eo); [done..|]. fold m in Ep.
  set (p1 := set_mem s' (set_routes (SetExtRoute from (px_routes p)).2 p)).
  destruct (group_found im route p1) as (gid & r & more & Eg & Ei & Es & Ex & Ein); [done|].
  unfold OnRecieveExt. rewrite R1. res_simpl. change (8 =? sizeof_gtpc_header - 4) with true. cbn [negb default].
  rewrite Hann. res_simpl. rewrite R2. res_simpl. rewrite (proj2 (Z.ltb_ge (zlen m) 4)), Z.eqb_refl by lia. cbn [orb negb].
  rewrite Hal. res_simpl. change ((GTPC_CREATE_SESSION_REQ =? GTPC_CREATE_SESSION_REQ) || _) with true. cbn [negb].
  rewrite Hty. res_simpl. change (GTPC_CREATE_SESSION_REQ =? GTPC_ECHO_REQ) with false. cbn match.
  unfold relay_request. cbn [px_mem set_routes]. rewrite Ep. res_simpl. change (OK =? OK) with true. cbn [negb].
  change (set_mem s' (set_routes _ p)) with p1. rewrite Eg. res_simpl. cbn [Z.eqb OK negb px_routes set_routes]. rewrite Ei. cbn match.
  pose proof (proj1 (Hcs' c_teid)) as Lc. change (sizeof_ie c_teid) with 25 in Lc.
  rewrite (rd_ok 4 (ies cs c_teid)) by (unfold o_f_teid_key; lia). change (Z.of_nat 4) with 4. rewrite Et. res_simpl.
  rewrite Hseq. res_simpl.
  assert (Eseq : bf_get 0 24 (le_load (seq ++ [spare])) = le_load seq).
  { destruct seq as [|s0 [|s1 [|s2 [|]]]]; cbn [length] in Ls; try lia. rewrite !Forall_cons in Bs. destruct Bs as (?&?&?&_). by apply seq_bits. }
  rewrite Eseq. destruct (SetSession_routes now im (le_load seq) (le_load (be_store 4 cteid)) from r) as [E1 E2].
  change (Datatypes.id from) with from. rewrite E1. rewrite send_sock_ready by (rewrite Hsl, Lm; unfold ETHER_MAX_LEN in Hl; lia). res_simpl. cbn [Z.eqb OK negb].
  eexists. split; [reflexivity|]. cbn [px_wire px_routes px_mem stat_add set_routes StatAdd set_stats session_ extsock_]. rewrite Hsl, E2.
  cbn [set_sessions intsock_ session_ extsock_]. rewrite Es, Ex, Ein. done.
Qed.

(** An answer goes back to where the request of its sequence number and tunnel came from. *)
Lemma int_relays now fr sa from p q seq tid body sess :
  zlen (f_rbuf fr) = PCKTLEN_UDP -> bytes_ok seq -> zlen tid = 4 -> zlen seq = 3 -> 12 + zlen body < ETHER_MAX_LEN ->
  session_ (px_routes p) !! session_key (le_load seq) (le_load tid) = Some sess ->
  let m := v2_message GTPC_CREATE_SESSION_RES tid seq 0 body in
  exists p', OnRecieveInt env now fr (Some sa) p ((m, from) :: q) = Ok (p', q) /\
    px_wire p' = px_wire p ++ [(extsock_ (px_routes p), rs_host_ sess, m)] /\
    session_ (px_routes p') = session_ (px_routes p) /\ outstanding (px_mem p') = outstanding (px_mem p).
Proof.
  intros Lr Bs Lt Ls Hl Hsess m.
  destruct (receive_v2 GTPC_CREATE_SESSION_RES tid seq 0 body (f_rbuf fr) from q Lt Ls Lr Hl)
    as (b0 & R1 & Hann & R2 & Hal & Hty & Hf & Htid & Hseq & Hsl & Lm); [unfold byte_ok, GTPC_CREATE_SESSION_RES; lia|done|].
  fold m in R1, Hann, R2, Hal, Hty, Hf, Htid, Hseq, Hsl, Lm.
  unfold OnRecieveInt. rewrite R1. res_simpl. change (8 =? sizeof_gtpc_header - 4) with true. cbn [negb].
  rewrite Hann. res_simpl. rewrite R2. res_simpl. rewrite (proj2 (Z.ltb_ge (zlen m) 4)), Z.eqb_refl by lia. cbn [orb negb].
  rewrite Hal. res_simpl. change ((GTPC_CREATE_SESSION_RES =? GTPC_CREATE_SESSION_RES) || _) with true. cbn [negb].
  rewrite Hf. res_simpl. rewrite Hty. res_simpl. change (GTPC_CREATE_SESSION_RES =? GTPC_ECHO_REQ) with false. rewrite andb_false_r.
  unfold relay_response. rewrite Hseq. res_simpl. rewrite Htid. res_simpl. unfold FindSessionBySeqnoTeid.
  assert (Eseq : le_load (seq ++ [0]) = le_load seq).
  { destruct seq as [|s0 [|s1 [|s2 [|]]]]; cbn [length] in Ls; try lia. cbn. lia. }
  rewrite Eseq, Hsess. rewrite send_sock_ready by (rewrite Hsl, Lm; unfold ETHER_MAX_LEN in Hl; lia). res_simpl. cbn [Z.eqb OK negb].
  eexists. split; [reflexivity|]. cbn [px_wire px_routes px_mem stat_add set_routes set_mem StatAdd set_stats session_]. by rewrite Hsl.
Qed.
End relaying.

(** ** Where the proxy sends to

    Partial correctness of a computation: what holds of its result when it has one. *)
Definition ends {A} (P : A -> Prop) (m : res A) : Prop := match m with Ok a => P a | Fault _ => True end.
Lemma ends_bind {A B} (P : B -> Prop) (m : res A) (k : A -> res B) :
  ends (fun a => ends P (k a)) m -> ends P (m ≫= k).
Proof. destruct m; cbn; auto. Qed.
Lemma ends_any {A} (P : A -> Prop) (m : res A) : (forall a, P a) -> ends P m.
Proof. destruct m; cbn; auto. Qed.
Lemma ends_mono {A} (P Q : A -> Prop) (m : res A) : ends P m -> (forall a, P a -> Q a) -> ends Q m.
Proof. destruct m; cbn; auto. Qed.
(** Walk through a computation whose intermediate results do not matter. *)
Ltac pass := apply ends_bind, ends_any; intro.
Ltac walk := repeat first
  [ done | progress cbn [ends] | case_if | match goal with
    | |- ends _ (_ ≫= _) => pass
    | |- ends _ (let '_ := ?x in _) => destruct x
    | |- ends _ (match ?x with _ => _ end) => destruct x
    end ].

Section destinations.
Variables (malloc : nat -> bool) (erange : bool) (env : nat -> send_round).
Context {C : Type} `{M : Mysql C}.
Implicit Types (p : proxy C) (q : inbox).
(** The addresses the outside socket has received from. *)
Variable A : list (list Z).

Definition known p : Prop := forall k s, session_ (px_routes p) !! k = Some s -> rs_host_ s ∈ A.
(** What a handler may do: sockets and sessions stay, what is new comes from [A]. *)
Definition moves p p' : Prop :=
  extsock_ (px_routes p') = extsock_ (px_routes p) /\ intsock_ (px_routes p') = intsock_ (px_routes p) /\
  stssock_ (px_routes p') = stssock_ (px_routes p) /\
  session_ (px_routes p) ⊆ session_ (px_routes p') /\ (known p -> known p') /\
  exists l, px_wire p' = px_wire p ++ l /\
    (known p -> forall sock addr d, (sock, addr, d) ∈ l -> sock = extsock_ (px_routes p) -> addr ∈ A).
Definition separate p : Prop :=
  extsock_ (px_routes p) <> intsock_ (px_routes p) /\ extsock_ (px_routes p) <> stssock_ (px_routes p).

#[local] Instance moves_refl : Reflexive moves.
Proof. intros p. split_and!; [done..|]. exists []. split; [by rewrite app_nil_r|]. intros _ sock addr d H. by apply elem_of_nil in H. Qed.
#[local] Instance moves_trans : Transitive moves.
Proof.
  intros p1 p2 p3 (E1 & I1 & S1 & Q1 & K1 & l1 & W1 & A1) (E2 & I2 & S2 & Q2 & K2 & l2 & W2 & A2).
  split_and!; [congruence..|by etransitivity|auto|]. exists (l1 ++ l2). split; [by rewrite W2, W1, app_assoc|].
  intros Hk sock addr d [H|H]%elem_of_app He; [by eapply A1|]. eapply A2; [auto|done|congruence].
Qed.
Lemma moves_separate p p' : moves p p' -> separate p -> separate p'.
Proof. intros (E & I & S & _) [H1 H2]. unfold separate. by rewrite E, I, S. Qed.

(** Changes that keep the sockets, the sessions and the wire. *)
Definition same_sessions (r r' : Routes C) : Prop :=
  extsock_ r' = extsock_ r /\ intsock_ r' = intsock_ r /\ stssock_ r' = stssock_ r /\ session_ r' = session_ r.
Lemma moves_same p p' : same_sessions (px_routes p) (px_routes p') -> px_wire p' = px_wire p -> moves p p'.
Proof.
  intros (E1 & E2 & E3 & E4) W. split_and!; [done..|by rewrite E4|unfold known; by rewrite E4|].
  exists []. split; [by rewrite app_nil_r|]. intros _ sock addr d H. by apply elem_of_nil in H.
Qed.
Lemma moves_routes r p : same_sessions (px_routes p) r -> moves p (set_routes r p).
Proof. intros. by apply moves_same. Qed.
Lemma same_sessions_refl (r : Routes C) : same_sessions r r.
Proof. done. Qed.

Lemma send_loop_sends fuel sock addr d n r a w :
  ends (fun x => exists l, x.2 = w ++ l /\ forall sock' addr' d', (sock', addr', d') ∈ l -> sock' = sock /\ addr' = addr)
    (send_loop env fuel sock addr d n r a w).
Proof.
  assert (H0 : forall w : datagrams, exists l, w = w ++ l /\ forall sock' addr' d', (sock', addr', d') ∈ l -> sock' = sock /\ addr' = addr).
  { intros w0. exists []. split; [by rewrite app_nil_r|]. intros ??? H. by apply elem_of_nil in H. }
  assert (H1 : forall bs, exists l, w ++ [(sock, addr, bs)] = w ++ l /\ forall sock' addr' d', (sock', addr', d') ∈ l -> sock' = sock /\ addr' = addr).
  { intros bs. eexists. split; [done|]. intros ??? H%list_elem_of_singleton. by injection H as -> -> ->. }
  revert n r a w H1. induction fuel as [|fuel IH]; intros n r a w H1; [done|]. cbn [send_loop].
  case_if; [by apply H0|]. destruct (env n) as [[]| |[] sent]; [by apply IH|by apply H0..| |by apply IH].
  case_if; [by apply H0|]. case_if; [apply H1|]. set (bs := slice _ _ _).
  eapply ends_mono; [apply IH|].
  - intros bs'. eexists. split; [done|]. intros ??? H%list_elem_of_singleton. by injection H as -> -> ->.
  - intros [[rc n'] w'] (l & -> & Hl). cbn [snd].
    exists ((sock, addr, bs) :: l). split; [by rewrite <-app_assoc|]. intros ??? [H|H]%elem_of_cons; [by injection H as -> -> ->|by eapply Hl].
Qed.

Lemma send_sock_moves sock addr d p :
  sock <> extsock_ (px_routes p) \/ (known p -> addr ∈ A) ->
  ends (fun x => moves p x.2 /\ px_routes x.2 = px_routes p) (send_sock env sock addr d p).
Proof.
  intros Ha. unfold send_sock, pgw_send_sock. apply ends_bind. eapply ends_mono; [apply send_loop_sends|].
  intros [[rc n] w] (l & W & Hl). cbn [snd] in W. subst w. cbn [ends]. split; [|done]. split_and!; [done..|].
  exists l. split; [done|]. intros Hk sock' addr' d' H He. destruct (Hl _ _ _ H) as [-> ->]. destruct Ha; [done|auto].
Qed.

Lemma stat_add_moves now addr gid rq rs p : moves p (stat_add now addr gid rq rs p).
Proof. by apply moves_routes. Qed.
Lemma stat_reject_moves now addr gid rq rs p : moves p (stat_reject now addr gid rq rs p).
Proof. by apply moves_routes. Qed.
Lemma set_mem_moves s p : moves p (set_mem s p).
Proof. by apply moves_same. Qed.
Lemma group_same im (r : Routes C) : ends (fun x => same_sessions r x.2) (FindGroupByImsi im r).
Proof. unfold FindGroupByImsi. pass. pass. destruct a0 as [[? ?] ?]. by cbn. Qed.

Lemma remember_moves now im seqno teid from p :
  from ∈ A -> moves p (set_routes (SetSession now im seqno teid from (px_routes p)).2 p).
Proof.
  intros Hf. destruct (SetSession_routes now im seqno teid from (px_routes p)) as [_ ->].
  unfold remembered. destruct (session_ (px_routes p) !! session_key seqno teid) as [s|] eqn:E.
  - by apply moves_routes.
  - split_and!; [done..| | |].
    + cbn. by apply insert_subseteq.
    + intros Hk k s. cbn. intros [[_ <-]|[_ H]]%lookup_insert_Some; [done|by eapply Hk].
    + exists []. split; [by rewrite app_nil_r|]. intros _ sock addr d H. by apply elem_of_nil in H.
Qed.

Lemma answer_echo_moves sock now fr ssa addr b len rq rs p :
  sock <> extsock_ (px_routes p) \/ (known p -> ssa ∈ A) ->
  ends (fun x => moves p x.1) (answer_echo env sock now fr ssa addr b len rq rs p).
Proof.
  intros Ha. unfold answer_echo. pass. apply ends_bind. eapply ends_mono; [by apply send_sock_moves|].
  intros [rc p1] [H _]. case_if; [done|]. cbn. etransitivity; [exact H|apply stat_add_moves].
Qed.

(** Queues of datagrams from known addresses. *)
Definition heard q : Prop := Forall (fun x => x.2 ∈ A) q.
Lemma sock_recv_heard peek n rbuf q :
  heard q -> ends (fun x => heard x.2 /\ (x.1.1.1 = -1 \/ exists from, x.1.2 = Some from /\ from ∈ A)) (sock_recv peek n rbuf q).
Proof.
  intros Hq. destruct q as [|[d from] q]; [split; [done|by left]|]. apply Forall_cons in Hq as [Hf Hq]. unfold sock_recv. pass.
  destruct a as [rlen b]. cbn. split; [by destruct peek; [apply Forall_cons|]|]. right. by exists from.
Qed.

Lemma relay_request_moves fuel now fr ssa b len p :
  ssa ∈ A -> separate p ->
  ends (fun x => forall p' g, x = Some (p', g) -> moves p p') (relay_request malloc erange env fuel now fr ssa b len p).
Proof.
  intros Hs Hsep. unfold relay_request. pass. destruct a as [[[[rc im] cs] s]|]; [|done].
  pose proof (set_mem_moves s p) as M1. set (p1 := set_mem s p) in *. case_if; [by intros ?? [= <- <-]|].
  apply ends_bind. eapply ends_mono; [apply group_same|]. intros [[rc1 gid] r1] Hr. cbn [snd] in Hr.
  assert (M2 : moves p (set_routes r1 p1)) by (etransitivity; [exact M1|by apply moves_routes]).
  set (p2 := set_routes r1 p1) in *. case_if; [by intros ?? [= <- <-]|].
  destruct (FindInternlRouteByGroupFromCache _ _) as [? [|route l]]; [by intros ?? [= <- <-]|].
  pass. pass. destruct (SetSession _ _ _ _ _ _) as [? r3] eqn:Er.
  assert (M3 : moves p2 (set_routes r3 p2)).
  { replace r3 with ((SetSession now im (bf_get 0 24 a0) a ssa (px_routes p2)).2) by (by rewrite Er). by apply remember_moves. }
  assert (M4 : moves p (set_routes r3 p2)) by (by etransitivity).
  apply ends_bind. eapply ends_mono; [apply send_sock_moves; left|].
  { pose proof (moves_separate _ _ M4 Hsep) as [H _]. cbn [px_routes set_routes] in *. congruence. }
  intros [rc2 p4] [M5 _]. cbn [snd] in M5. assert (M6 : moves p p4) by (by etransitivity).
  case_if; cbn; intros ?? [= <- <-]; [done|]. etransitivity; [exact M6|apply stat_add_moves].
Qed.

Lemma ext_moves fuel now fr sockname p q :
  separate p -> heard q ->
  ends (fun x => forall p' q', x = Some (p', q') -> moves p p' /\ heard q') (OnRecieveExt malloc erange env fuel now fr sockname p q).
Proof.
  intros Hsep Hq. unfold OnRecieveExt. apply ends_bind. eapply ends_mono; [by apply sock_recv_heard|].
  intros [[[rlen b] from] q1] [Hq1 Hfrom]. cbn [fst snd] in *. case_if; [done|].
  assert (Hrej : forall addr gid rl p1 q2, moves p p1 -> heard q2 ->
    forall p' q', Some (stat_reject now addr gid rl 0 p1, q2) = Some (p', q') -> moves p p' /\ heard q').
  { intros addr gid rl p1 q2 Hm Hh p' q' [= <- <-]. split; [|done]. etransitivity; [exact Hm|apply stat_reject_moves]. }
  destruct Hfrom as [->|(ssa & -> & Hfrom)]; [discriminate E|]. cbn [default]. change (Datatypes.id ssa) with ssa.
  pass. destruct a as [len|]; [|by refine (Hrej _ _ _ _ _ _ _)].
  apply ends_bind. eapply ends_mono; [by apply sock_recv_heard|]. intros [[[rlen2 b2] from2] q2] [Hq2 _]. cbn [fst snd] in *.
  assert (Hdrop : ends (fun x => forall p' q', x = Some (p', q') -> moves p p' /\ heard q')
    ('(_, _, from, q) ← sock_recv false 4 b2 q2; Ok (Some (stat_reject now (default ssa from) 0 rlen2 0 p, q)))).
  { apply ends_bind. eapply ends_mono; [by apply sock_recv_heard|]. intros [[[? ?] ?] q3] [Hq3 _]. by refine (Hrej _ _ _ _ _ _ _). }
  case_if; [exact Hdrop|]. case_if; [exact Hdrop|]. clear Hdrop.
  pose proof (moves_routes (SetExtRoute ssa (px_routes p)).2 p ltac:(done)) as M1. set (p1 := set_routes _ p) in *.
  pose proof (moves_separate _ _ M1 Hsep) as Hsep1.
  pass. case_if; [by refine (Hrej _ _ _ _ _ _ _)|]. pass. apply ends_bind. eapply (ends_mono (fun x => forall p' g, x = Some (p', g) -> moves p1 p')).
  - case_if; [|by apply relay_request_moves]. apply ends_bind. eapply ends_mono; [apply answer_echo_moves; by right|].
    intros [p2 g2] M2. by intros ?? [= <- <-].
  - intros [[p2 [gid|]]|] H; [| |done]; specialize (H _ _ eq_refl); (assert (M2 : moves p p2) by (by etransitivity)).
    + by refine (Hrej _ _ _ _ _ _ _).
    + by intros ?? [= <- <-].
Qed.

Lemma relay_response_moves now fr sa b len p : ends (fun x => moves p x.1) (relay_response env now fr sa b len p).
Proof.
  unfold relay_response. pass. pass. unfold FindSessionBySeqnoTeid.
  destruct (session_ (px_routes p) !! _) as [sess|] eqn:Es; [|cbn; reflexivity].
  apply ends_bind. eapply ends_mono; [apply send_sock_moves; right; intros Hk; by eapply Hk|].
  intros [rc p1] [M1 _]. cbn [snd] in M1. case_if; [exact M1|]. pass. destruct a1 as [[? ?] s1]. cbn.
  etransitivity; [exact M1|]. etransitivity; [apply (set_mem_moves s1)|apply stat_add_moves].
Qed.

(** Queues of a socket other than the outside one: nothing is known of their senders. *)
Lemma int_moves now fr sockname p q :
  separate p -> ends (fun x => moves p x.1) (OnRecieveInt env now fr sockname p q).
Proof.
  intros [Hi _]. unfold OnRecieveInt. pass. destruct a as [[[rlen b] from] q1]. case_if; [done|].
  assert (Hrej : forall addr rl p1 q2, moves p p1 -> moves p (stat_reject now addr (f_gid fr) 0 rl p1, q2 : inbox).1).
  { intros addr rl p1 q2 Hm. etransitivity; [exact Hm|apply stat_reject_moves]. }
  pass. destruct a as [len|]; [|by apply Hrej]. pass. destruct a as [[[rlen2 b2] from2] q2].
  case_if; [pass; destruct a as [[[? ?] ?] q3]; by apply Hrej|].
  destruct sockname as [sa|]; [|by apply Hrej]. pass. case_if; [by apply Hrej|]. pass. pass. apply ends_bind.
  eapply (ends_mono (fun x => moves p x.1)).
  - case_if; [apply answer_echo_moves; left; congruence|apply relay_response_moves].
  - intros [p1 [g|]] M1; cbn [fst] in M1; [by apply Hrej|done].
Qed.

Lemma sts_moves pid now fr sockname p q :
  separate p -> ends (fun x => moves p x.1) (OnRecieveStats env pid now fr sockname p q).
Proof.
  intros [_ Hs]. unfold OnRecieveStats. pass. destruct a as [[[rlen b] from] q1]. case_if; [cbn; reflexivity|]. pass. case_if; [cbn; reflexivity|].
  pass. destruct a0 as [[[rlen2 b2] from2] q2]. case_if; [pass; destruct a0 as [[[? ?] ?] ?]; cbn; reflexivity|].
  pass. case_if; [cbn; reflexivity|]. pass. case_if; [cbn; reflexivity|]. pass. case_if; [cbn; reflexivity|]. pass. destruct a3 as [ip group]. do 6 pass.
  apply ends_bind. eapply ends_mono; [apply send_sock_moves; left; congruence|]. intros [rc p1] [M1 _]. exact M1.
Qed.

Lemma timer_moves now p : ends (moves p) (OnTimeOut now p).
Proof.
  assert (Hk : forall r : Routes C, ends (fun x => same_sessions r x.2) (KeepAlive r)).
  { intros r. unfold KeepAlive. pass. pass. by destruct (DatabaseConnection.Ping a), (DatabaseConnection.Ping a0). }
  assert (Hc : forall r : Routes C, ends (fun x => same_sessions r x.2) (Cache r)).
  { intros r. unfold Cache. pass. pass. pass. by destruct a1 as [[? ?] ?]. }
  unfold OnTimeOut. apply ends_bind. eapply (ends_mono (moves p)).
  - case_if; [|by apply moves_same]. apply ends_bind. eapply ends_mono; [apply Hk|]. intros [? r1] H1. cbn [snd] in H1.
    apply ends_bind. eapply (ends_mono (fun x => same_sessions (px_routes p) x.2)).
    + case_if; [|done]. eapply ends_mono; [apply Hc|]. intros [? r2] (A1 & A2 & A3 & A4). cbn [snd] in *.
      destruct H1 as (B1 & B2 & B3 & B4). unfold same_sessions. cbn [snd]. split_and!; congruence.
    + intros [? r2] H2. by apply moves_same.
  - intros p1 M1. case_if; [|cbn; etransitivity; [exact M1|by apply moves_same]].
    apply ends_bind. eapply ends_mono; [apply Hk|]. intros [? r1] H1. cbn. etransitivity; [exact M1|by apply moves_same].
Qed.

(** Runs of the event loop. *)
Definition outside (es : list event) : Prop := forall d from, FromOutside d from ∈ es -> from ∈ A.
Definition sound y : Prop := separate (sy_proxy y) /\ heard (sy_ext y).
Lemma step_moves fuel pid (y : system C) e :
  sound y -> (forall d from, e = FromOutside d from -> from ∈ A) ->
  ends (fun x => forall y', x = Some y' -> moves (sy_proxy y) (sy_proxy y') /\ sound y') (step malloc erange env fuel pid y e).
Proof.
  intros [Hs Hq] He.
  assert (Hsame : forall p' ext int sts, moves (sy_proxy y) p' -> heard ext ->
    forall y', Some (mk_system p' ext int sts) = Some y' -> moves (sy_proxy y) (sy_proxy y') /\ sound y').
  { intros p' ext int sts Hm Hh y' [= <-]. split; [done|]. split; [by eapply moves_separate|done]. }
  destruct e as [d from|d from|d from|now fr nm|now fr nm|now fr nm|now|]; cbn [step].
  - refine (Hsame _ _ _ _ _ _); [done|]. apply Forall_app_2; [done|]. constructor; [by eapply He|constructor].
  - by refine (Hsame _ _ _ _ _ _).
  - by refine (Hsame _ _ _ _ _ _).
  - apply ends_bind. eapply ends_mono; [by apply ext_moves|]. intros [[p' q']|] H; [|done].
    destruct (H _ _ eq_refl). by refine (Hsame _ _ _ _ _ _).
  - apply ends_bind. eapply ends_mono; [by apply int_moves|]. intros [p' q'] H. by refine (Hsame _ _ _ _ _ _).
  - apply ends_bind. eapply ends_mono; [by apply sts_moves|]. intros [p' q'] H. by refine (Hsame _ _ _ _ _ _).
  - apply ends_bind. eapply ends_mono; [apply timer_moves|]. intros p' H. by refine (Hsame _ _ _ _ _ _).
  - refine (Hsame _ _ _ _ _ _); [by apply moves_same|done].
Qed.

Lemma run_moves fuel pid es (y : system C) :
  sound y -> outside es ->
  ends (fun x => forall y', x = Some y' -> moves (sy_proxy y) (sy_proxy y') /\ sound y') (run malloc erange env fuel pid y es).
Proof.
  revert y. induction es as [|e es IH]; intros y Hs Ho; cbn [run]; [by intros ? [= <-]|].
  apply ends_bind. eapply ends_mono; [apply step_moves; [done|]|].
  { intros d from ->. apply (Ho d). left. }
  intros [y1|] H; [|done]. destruct (H _ eq_refl) as [M1 S1].
  eapply ends_mono; [apply IH; [done|]|].
  { intros d from Hin. apply (Ho d). by right. }
  intros x Hx y' E. destruct (Hx _ E) as [M2 S2]. split; [by etransitivity|done].
Qed.
End destinations.

Module Properties.

(** C32: a request through the proxy and back.  A create session request of a serving
    gateway, built with the setters, with any sequence number and header, that arrives
    outside for a subscriber whose group is served, is sent unchanged to the first gateway
    of the group; a response with the same sequence number, carrying the control tunnel
    identifier of the request in its header, that arrives inside is then sent unchanged to
    the serving gateway the request came from.  Both datagrams are consumed, nothing else
    is sent, and no memory is held.  The proxy must not hold a session of this sequence
    number and tunnel identifier already.  The uninitialised variables may hold anything. *)
Theorem proxy_relays_session (malloc : nat -> bool) (env : nat -> send_round) (C : Type) (M : Mysql C) (fuel : nat) (pid t1 t2 : Z)
    (fr1 fr2 : frame) (p : proxy C) (sts : inbox) (im ms cteid up down ebi uteid flags qci mu md gu gd : Z) (cip uip : list Z)
    (route : RouteInt) (sgw pgw own : list Z) (tid seq rbody : list Z) (spare : Z) :
  (forall n, malloc n = true) -> sockets_ready env -> frame_ok fr1 -> frame_ok fr2 ->
  request_ok_args im ms ebi flags qci mu md gu gd cip uip -> routed im route p ->
  bytes_ok tid -> bytes_ok seq -> byte_ok spare -> zlen tid = 4 -> zlen seq = 3 -> 12 + zlen rbody < ETHER_MAX_LEN ->
  session_ (px_routes p) !! session_key (le_load seq) (le_load (be_store 4 cteid)) = None ->
  exists its y', create_session_request im ms cteid up down ebi uteid flags qci mu md gu gd cip uip = Ok its /\
    let request := v2_message GTPC_CREATE_SESSION_REQ tid seq spare (concat its.*2) in
    let response := v2_message GTPC_CREATE_SESSION_RES (be_store 4 cteid) seq 0 rbody in
    run malloc false env fuel pid (mk_system p [] [] sts)
      [FromOutside request sgw; Ext t1 fr1 true; FromInside response pgw; Int t2 fr2 (Some own)] = Ok (Some y') /\
    px_wire (sy_proxy y') = px_wire p ++ [(intsock_ (px_routes p), destination route, request);
                                          (extsock_ (px_routes p), sgw, response)] /\
    sy_ext y' = [] /\ sy_int y' = [] /\ outstanding (px_mem (sy_proxy y')) = outstanding (px_mem p).
Proof.
  intros Hm Hsend F1 (_ & L2 & _) Ha Hroute Bt Bs Bp Lt Ls Hl Hnew.
  destruct (ext_relays malloc env Hsend fuel t1 fr1 sgw p [] im ms cteid up down ebi uteid flags qci mu md gu gd cip uip route Hm F1 Ha Hroute)
    as (its & E & Hext).
  destruct (Hext tid seq spare Bt Bs Bp Lt Ls) as (p1 & E1 & W1 & S1 & X1 & O1). unfold remembered in S1. rewrite Hnew in S1.
  destruct (int_relays env Hsend t2 fr2 own pgw p1 [] seq (be_store 4 cteid) rbody
    (mk_route_session sgw im (le_load seq) (le_load (be_store 4 cteid)) (u32 t1))) as (p2 & E2 & W2 & S2 & O2);
    [done|done|by rewrite length_be_store|done|done|by rewrite S1, lookup_insert_eq|].
  exists its, (mk_system p2 [] [] sts). split; [done|].
  do 4 (cbn [run step sy_proxy sy_ext sy_int sy_sts app]; rewrite ?E1, ?E2; res_simpl). cbn [run]. split; [done|].
  split; [by rewrite W2, W1, X1, <-app_assoc|]. do 2 (split; [done|]). by rewrite O2.
Qed.

(** C33: the proxy sends outside only to addresses that have sent to it.  Over any sequence
    of events - datagrams of any content on any socket, any answers of the databases and
    the sockets, any content of the uninitialised variables - that starts without
    sessions, everything that is sent from the outside socket goes to the source of a
    datagram that arrived there; and a session once made is never changed or removed. *)
Theorem proxy_answers_requesters (malloc : nat -> bool) (erange : bool) (env : nat -> send_round) (C : Type) (M : Mysql C)
    (fuel : nat) (pid : Z) (es : list event) (p : proxy C) (y' : system C) :
  separate p -> session_ (px_routes p) = ∅ -> run malloc erange env fuel pid (mk_system p [] [] []) es = Ok (Some y') ->
  exists l, px_wire (sy_proxy y') = px_wire p ++ l /\
    (forall addr d, (extsock_ (px_routes p), addr, d) ∈ l -> exists d', FromOutside d' addr ∈ es) /\
    forall es2 y2, run malloc erange env fuel pid y' es2 = Ok (Some y2) ->
      session_ (px_routes (sy_proxy y')) ⊆ session_ (px_routes (sy_proxy y2)).
Proof.
  intros Hs H0 Er.
  set (froms := omap (fun e => match e with FromOutside _ from => Some from | _ => None end) : list event -> list (list Z)).
  assert (Hfr : forall es from, from ∈ froms es <-> exists d, FromOutside d from ∈ es).
  { intros es0 from. unfold froms. rewrite list_elem_of_omap. split.
    - intros (e & Hin & E). destruct e; try discriminate E. injection E as ->. by eexists.
    - intros (d & Hin). by exists (FromOutside d from). }
  pose proof (run_moves malloc erange env (froms es) fuel pid es (mk_system p [] [] [])) as H. rewrite Er in H. cbn [ends] in H.
  destruct (H ltac:(split; [done|constructor]) ltac:(intros d from Hin; apply Hfr; by exists d) _ eq_refl) as [(_ & _ & _ & _ & _ & l & W & Hl) [Hs' _]].
  exists l. split; [done|]. split.
  { intros addr d Hin. apply Hfr. apply (Hl ltac:(intros k s; cbn; by rewrite H0, lookup_empty) _ _ _ Hin eq_refl). }
  intros es2 y2 Er2. pose proof (run_moves malloc erange env (froms es2 ++ (sy_ext y').*2) fuel pid es2 y') as H2. rewrite Er2 in H2. cbn [ends] in H2.
  destruct (H2 ltac:(split; [done|apply Forall_forall; intros x Hx; apply elem_of_app; right; by apply list_elem_of_fmap_2])
              ltac:(intros d from Hin; apply elem_of_app; left; apply Hfr; by exists d) _ eq_refl) as [(_ & _ & _ & Q & _) _]. exact Q.
Qed.

(** *** Examples *)
Import CtrlNode.Properties CtrlKeepalive.Properties.
#[export] Instance one_group : Mysql unit := {
  mysql_query _ c := (Some (1, [[Some (lit "4")]]), c);
  mysql_ping c := (true, c);
  mysql_real_connect _ _ _ _ _ := Some tt;
}.
Definition some_route : RouteInt := mk_route_int (lit "10.0.0.5") 0 GTPC_PORT.
Definition routes0 : Routes unit := mk_routes _ (Some tt) (Some tt) {[ 4 := [some_route] ]} ∅ ∅ ∅ 3 4 5 0.
Definition proxy0 : proxy unit := mk_proxy _ routes0 memory0 0 [] 0 0 0.
Definition clean_frame : frame := mk_frame (bzero PCKTLEN_UDP) parse_state0 0 (bzero 16).
Definition sgw_addr : list Z := sockaddr_of [10; 0; 0; 7] 2123.
Definition pgw_addr : list Z := sockaddr_of [10; 0; 0; 5] 2123.
Lemma ready_sockets : sockets_ready ready_env.
Proof. intros n. exists 65536. split; [done|lia]. Qed.
Lemma clean_frame_ok : frame_ok clean_frame.
Proof. split; [apply Forall_replicate; unfold byte_ok; lia|]. split; [done|]. apply parse_state0_wf. Qed.

Lemma proxy_relays_session_witness :
  exists its y', create_session_request 440101234567890 819012345678 17 100 200 5 18 0 9 0 0 0 0 [10; 0; 0; 1] [10; 0; 0; 2] = Ok its /\
    let request := v2_message GTPC_CREATE_SESSION_REQ [0; 0; 0; 0] [1; 2; 3] 0 (concat its.*2) in
    let response := v2_message GTPC_CREATE_SESSION_RES (be_store 4 17) [1; 2; 3] 0 [2; 0; 2; 0; 16; 0] in
    run always false ready_env 8 77 (mk_system proxy0 [] [] [])
      [FromOutside request sgw_addr; Ext 100 clean_frame true; FromInside response pgw_addr; Int 100 clean_frame (Some pgw_addr)] = Ok (Some y') /\
    px_wire (sy_proxy y') = [(4, pgw_addr, request); (3, sgw_addr, response)].
Proof.
  destruct (proxy_relays_session always ready_env unit one_group 8 77 100 100 clean_frame clean_frame proxy0 []
    440101234567890 819012345678 17 100 200 5 18 0 9 0 0 0 0 [10; 0; 0; 1] [10; 0; 0; 2] some_route sgw_addr pgw_addr pgw_addr
    [0; 0; 0; 0] [1; 2; 3] [2; 0; 2; 0; 16; 0] 0) as (its & y' & E & Er & W & _).
  - done.
  - apply ready_sockets.
  - apply clean_frame_ok.
  - apply clean_frame_ok.
  - constructor; try (unfold byte_ok; lia); try (split; [reflexivity|apply bytes_okb_ok; reflexivity]).
    repeat (apply Forall_cons_2; [lia|]). apply Forall_nil_2.
  - exists tt, tt, (lit "4"), []. split_and!; [done|done|vm_compute; congruence|done].
  - by apply bytes_okb_ok.
  - by apply bytes_okb_ok.
  - unfold byte_ok; lia.
  - done.
  - done.
  - vm_compute. reflexivity.
  - done.
  - exists its, y'. split; [exact E|]. split; [exact Er|]. exact W.
Defined.

Definition echo_outside : list Z := [0x40; 1; 0; 9; 0; 0; 1; 0; 3; 0; 1; 0; 8].
Definition echo_events : list event := [FromOutside echo_outside sgw_addr; Ext 100 clean_frame true].
Lemma proxy_answers_requesters_witness :
  exists y' l, run always false ready_env 8 77 (mk_system proxy0 [] [] []) echo_events = Ok (Some y') /\
    px_wire (sy_proxy y') = l /\ (forall addr d, (3, addr, d) ∈ l -> exists d', FromOutside d' addr ∈ echo_events) /\
    l = [(3, sgw_addr, [0x40; 2; 0; 9; 0; 0; 1; 0; 3; 0; 1; 0; 0])].
Proof.
  destruct (run always false ready_env 8 77 (mk_system proxy0 [] [] []) echo_events) as [[y'|]|] eqn:E; [|vm_compute in E; discriminate E..].
  destruct (proxy_answers_requesters always false ready_env unit one_group 8 77 echo_events proxy0 y') as (l & W & Hl & _);
    [split; vm_compute; congruence|reflexivity|exact E|].
  exists y', l. split; [reflexivity|]. split; [exact W|]. split; [exact Hl|].
  change (px_wire (sy_proxy y') = l) in W. rewrite <-W. vm_compute in E. injection E as <-. vm_compute. reflexivity.
Defined.

(** A datagram of less than eight bytes, or none at all: the error path reads through the
    header pointer before it is set. *)
Theorem short_datagram_undefined (C : Type) (M : Mysql C) malloc erange env fuel now fr sockname (p : proxy C) d from q :
  zlen d < 8 -> zlen (f_rbuf fr) = PCKTLEN_UDP ->
  OnRecieveExt malloc erange env fuel now fr sockname p ((d, from) :: q) = Fault Undefined.
Proof.
  intros Hd Hr. unfold OnRecieveExt, sock_recv, recvfrom. change (sizeof_gtpc_header - 4) with 8. unfold PCKTLEN_UDP in Hr.
  rewrite wr_bytes_ok by (rewrite ?length_take; lia). res_simpl.
  rewrite (proj2 (Z.eqb_neq _ 8)) by (rewrite length_take; lia). done.
Qed.

(** A datagram with a refused header is looked at and left where it is: it stays at the
    head of the socket. *)
Theorem refused_header_stays (C : Type) (M : Mysql C) malloc erange env fuel now fr sockname (p : proxy C) d from q :
  8 <= zlen d -> zlen (f_rbuf fr) = PCKTLEN_UDP -> announced (in_buffer (take (Z.to_nat 8) d) (f_rbuf fr)) = Ok None ->
  exists p', OnRecieveExt malloc erange env fuel now fr sockname p ((d, from) :: q) = Ok (Some (p', (d, from) :: q)).
Proof.
  intros Hd Hr Ha. unfold OnRecieveExt. change (sizeof_gtpc_header - 4) with 8. unfold PCKTLEN_UDP in Hr. rewrite recv_peek by lia. res_simpl.
  change (8 =? 8) with true. cbn [negb]. rewrite Ha. res_simpl. by eexists.
Qed.

(** A datagram shorter than its header says takes the next one with it. *)
Example short_message_swallows_next :
  exists p', OnRecieveExt always false ready_env 8 100 clean_frame true proxy0
    [([0x40; 1; 0; 9; 0; 0; 1; 0], pgw_addr); (echo_outside, sgw_addr)] = Ok (Some (p', [])) /\ px_wire p' = [].
Proof. vm_compute. eexists. split; reflexivity. Qed.

(** A session is never replaced: the answer to a later request of the same key goes to
    the earlier peer. *)
Theorem stale_session_kept (C : Type) now imsi seqno teid addr s (r : Routes C) :
  session_ r !! session_key seqno teid = Some s ->
  FindSessionBySeqnoTeid seqno teid (SetSession now imsi seqno teid addr r).2 = Some s.
Proof. intros E. unfold SetSession, FindSessionBySeqnoTeid. by rewrite E. Qed.

(** A request without a subscriber number leaks the parsed message; and what the
    uninitialised parse state holds can stand for the items that are not there. *)
Definition no_imsi : list Z := [0x48; 32; 0; 13; 0; 0; 0; 1; 0; 0; 1; 0; 3; 0; 1; 0; 8].
Definition stale_state : gtpc_parse_state := or_flag (Z.lor HAVE_IMSI HAVE_FTEID_C) parse_state0.
Example missing_imsi_leaks :
  match _ParseImsi always false 8 (in_buffer no_imsi (bzero PCKTLEN_UDP)) 17 parse_state0 memory0 with
  | Ok (Some (rc, _, _, s)) => rc = ERR /\ outstanding s = (1, 0)
  | _ => False
  end.
Proof. vm_compute. done. Qed.
Example stale_state_accepted :
  match _ParseImsi always false 8 (in_buffer no_imsi (bzero PCKTLEN_UDP)) 17 stale_state memory0 with
  | Ok (Some (rc, _, _, _)) => rc = OK
  | _ => False
  end.
Proof. vm_compute. done. Qed.

(** The age at which statistics expire is computed from the counter that has just been
    reset: every entry that was not touched in this second goes. *)
Theorem timer_expires_everything (C : Type) (M : Mysql C) now (p p' : proxy C) :
  0 <= px_counter p <= 6000 -> 360000 < px_counter_session p -> OnTimeOut now p = Ok p' ->
  forall k s, stats_ (px_routes p') !! k = Some s -> u32 now <= ProxyStat.created_ s.
Proof.
  intros Hc Hs. unfold OnTimeOut. rewrite (proj2 (Z.ltb_ge 6000 _)) by lia. res_simpl. cbn [px_counter_session set_timer].
  rewrite (proj2 (Z.ltb_lt 360000 _)) by lia. destruct (KeepAlive _) as [[rc r]|]; [|discriminate]. res_simpl. intros [= <-] k s.
  cbn [px_routes set_timer set_routes StatExpire set_stats stats_]. intros [_ H]%map_lookup_filter_Some. cbn [snd] in H.
  change (0 / 100) with 0 in H. rewrite Z.sub_0_r, wrap_wrap in H by lia. lia.
Qed.
End Properties.
