(* ===== verification/Tap.v ===== *)
(** * The tap cores

    [CoreTapRx] and [CoreTapTx] of dataplane/src/core/core_taprx.cc and
    core_taptx.cc: the data plane's door to the host stack, and with it to the
    control plane.  The receive core reads a frame from the tap device, hands it
    to the transmit core and, when it is a GTP-C response that ends in the
    control plane's private extension, puts a copy on every warm-up ring of the
    PGW workers.  The transmit core writes what the workers could not handle to
    the tap device, under a rate limit.

    The tap device is the kernel's: what [select] and [read] deliver, what
    [write] answers and the cycle counter are arguments.  The memory pool is the
    list of free buffers it will hand out. *)

From S2P Require Import Prelude Dpdk Packet LookupTpl CoreBase TextParse PgwBase.
From S2P Require Gtpc GtpcItems GtpcParse.

Definition TAPDUPLICTE_MAX := 2.
Definition GTPC_PRIVATE_EXT_MAGIC := 0xdeadbeaf.
Definition GTPC_PRIVATE_EXT_VENDERID := 0.
Definition GTPC_CREATE_SESSION_RES := 33.
Definition GTPC_MODIFY_BEARER_RES := 35.
Definition MAX_PACKET_SZ := 2048.
Definition MAXPACKET_PER_SECOND := 1000000.
Definition MIXIPGW_IFNAMSIZ := 16.
Definition sizeof_gtpc_hdr := 12.
Definition sizeof_gtpc_comm_header := 4.
(** Offsets in [private_extension_hdr]. *)
Definition o_pe_length := 1.
Definition o_pe_venderid := 4.
Definition o_pe_magic := 8.

(** ** [CoreTapRx] *)
Module CoreTapRx.
(** The arrays of rings hold [length] entries, the counts of the code. *)
Record CoreTapRx := mk {
  core : CoreInterface rte_mbuf;
  tap_nm_ : cstring;
  tap_fd_ : Z;
  mpl_ : option Z;
  ring_test_from_ : option Z;
  ring_tap_ingress_ : list (option Z);
  ring_tap_egress_ : list (option Z);
}.

Section rx.
Context `{D : Dpdk} `{B : Build}.
Implicit Types (x : CoreTapRx) (w : world rte_mbuf) (m : rte_mbuf) (pool : list rte_mbuf).

Definition ingress_ring_count_ x : Z := zlen (ring_tap_ingress_ x).
Definition egress_ring_count_ x : Z := zlen (ring_tap_egress_ x).

(** [open] is the answer of opening the tap device. *)
Definition construct (c : CoreInterface rte_mbuf) (ifnm : cstring) (mpl : option Z) (open : Z) : res CoreTapRx :=
  let nm := take (Z.to_nat (Z.min (zlen ifnm) (MIXIPGW_IFNAMSIZ - 1))) ifnm in
  if TEST_MODE then Ok (mk c nm (-1) mpl None [] [])
  else if open <? 0 then Fault RteExit
  else Ok (mk c nm open mpl None [] []).

Definition GetType : TYPE := TAPRX.

Definition BeforeCycle x : res Z :=
  if negb (egress_ring_count_ x =? TAPDUPLICTE_MAX) then Fault RtePanic else Ok 0.

Definition SetP (key : KEY) (p : option Z) x : CoreTapRx :=
  if bool_decide (key = OPT)
  then mk (core x) (tap_nm_ x) (tap_fd_ x) p (ring_test_from_ x) (ring_tap_ingress_ x) (ring_tap_egress_ x)
  else x.

Definition GetN (key : KEY) x : Z :=
  if bool_decide (key = OPT) then u32 (tap_fd_ x) else CoreInterface.GetN key (core x).

(** A ring beyond the second of its direction is not taken. *)
Definition push (rings : list (option Z)) (ring : option Z) : list (option Z) :=
  if zlen rings <? TAPDUPLICTE_MAX then rings ++ [ring] else rings.

Definition SetRingAddr (order : ORDER) (ring : option Z) x : res CoreTapRx :=
  let y c test ing egr := mk c (tap_nm_ x) (tap_fd_ x) (mpl_ x) test ing egr in
  match order with
  | TO => Ok (y (CoreInterface.set_rings (ring_fm_ (core x)) ring (core x)) (ring_test_from_ x)
                (ring_tap_ingress_ x) (ring_tap_egress_ x))
  | TO_00 => Ok (y (core x) (ring_test_from_ x) (push (ring_tap_ingress_ x) ring) (ring_tap_egress_ x))
  | TO_01 => Ok (y (core x) (ring_test_from_ x) (ring_tap_ingress_ x) (push (ring_tap_egress_ x) ring))
  | FROM => Ok (y (core x) ring (ring_tap_ingress_ x) (ring_tap_egress_ x))
  | _ => Fault RteExit
  end.

(** Copy the frame into a buffer and make it a packet of one segment. *)
Definition fill (frame : list Z) (len : Z) m : res rte_mbuf :=
  _ ← require (len <=? zlen frame) Undefined;
  m ← st_bytes m (mtod m) (slice 0 len frame);
  Ok (set_packet_type (Z.lor RTE_PTYPE_L3_IPV4 RTE_PTYPE_L4_UDP)
        (set_bounds (data_off m) (u16 len) (u16 len) (set_segs 1 None m))).

(** [rte_pktmbuf_alloc]. *)
Definition alloc pool : option rte_mbuf * list rte_mbuf :=
  match pool with [] => (None, []) | m :: pool' => (Some m, pool') end.

(** One copy for one warm-up ring: the null test of the new buffer comes only
    after its use. *)
Definition duplicate (frame : list Z) (len : Z) (s : world rte_mbuf * list rte_mbuf) (ring : option Z)
    : res (world rte_mbuf * list rte_mbuf) :=
  let '(w, pool) := s in
  let a := alloc pool in
  mi ← deref a.1;
  mi ← fill frame len mi;
  e ← w_enqueue ring mi w;
  let '(ret, w) := e in
  Ok (if negb (ret =? 0) then w_free [mi] w else w, a.2).

(** Does the packet end in a private extension of the control plane? *)
Definition announces (len : Z) m : res bool :=
  gtpctype ← is_gtpc m;
  if (gtpctype =? GTPC_CREATE_SESSION_RES) || (gtpctype =? GTPC_MODIFY_BEARER_RES) then
    let baselen := sizeof_ether_hdr + sizeof_ipv4_hdr + sizeof_udp_hdr + sizeof_gtpc_hdr in
    if PgwCycle.GTPC_PRIVATE_EXT_SIZE + baselen <? u32 len then
      let pehdr := mtod_offset m (len - PgwCycle.GTPC_PRIVATE_EXT_SIZE) in
      l ← ld 2 m (pehdr + o_pe_length);
      if ntohs l =? PgwCycle.GTPC_PRIVATE_EXT_SIZE - sizeof_gtpc_comm_header then
        magic ← ld 4 m (pehdr + o_pe_magic);
        if magic =? GTPC_PRIVATE_EXT_MAGIC then
          v ← ld 2 m (pehdr + o_pe_venderid);
          Ok (v =? htons GTPC_PRIVATE_EXT_VENDERID)
        else Ok false
      else Ok false
    else Ok false
  else Ok false.

(** Hand the packet itself to the transmit core. *)
Definition forward (ring : option Z) m w : res (Z * world rte_mbuf) :=
  e ← w_enqueue ring m w;
  let '(ret, w) := e in
  if ret =? -105 then Ok (-1, w_free [m] w)       (* ENOBUFS *)
  else if ret <? 0 then Fault RteExit
  else Ok (0, w).

(** What one cycle reads: in a test build the packet at the head of the test
    ring; otherwise the frame of the tap device, [None] when [select] or [read]
    answers 0 or an error.  A result on the left ends the cycle with that code. *)
Definition input (frame : option (list Z)) x (s : world rte_mbuf * list rte_mbuf)
    : res ((Z + rte_mbuf * list Z * Z) * (world rte_mbuf * list rte_mbuf)) :=
  let '(w, pool) := s in
  if TEST_MODE then
    r ← w_dequeue_burst (ring_test_from_ x) 1 w;
    match r.1 with
    | [m] => Ok (inr (m, drop (Z.to_nat (mtod m)) (buf m), pkt_len m), (r.2, pool))
    | _ => Ok (inl 0, (r.2, pool))
    end
  else
    match frame with
    | None | Some [] => Ok (inl (-1), s)
    | Some f =>
        let rbf := take (Z.to_nat MAX_PACKET_SZ) f in
        match alloc pool with
        | (None, _) => Fault RteExit
        | (Some m, pool) =>
            m ← fill rbf (zlen rbf) m;
            Ok (inr (m, rbf, zlen rbf), (w, pool))
        end
    end.

Definition Cycle (frame : option (list Z)) (cnt : Z) x (s : world rte_mbuf * list rte_mbuf)
    : res (Z * (world rte_mbuf * list rte_mbuf)) :=
  i ← input frame x s;
  match i with
  | (inl rc, s) => Ok (rc, s)
  | (inr (m, rbf, len), s) =>
      dup ← announces len m;
      s ← (if dup : bool then
             s ← foldM (duplicate rbf (pkt_len m)) (ring_tap_egress_ x) s;
             foldM (duplicate rbf (pkt_len m)) (ring_tap_ingress_ x) s
           else Ok s);
      r ← forward (ring_to_ (core x)) m s.1;
      Ok (r.1, (r.2, s.2))
  end.
End rx.
End CoreTapRx.

(** ** [CoreTapTx] *)
Module CoreTapTx.
Record CoreTapTx := mk {
  core : CoreInterface rte_mbuf;
  tap_fd_ : Z;
  ring_tap_ingress_ : list (option Z);
  ring_tap_egress_ : list (option Z);
  cur_cycle_ : Z;
  cur_count_ : Z;
  mpl_ : option Z;
  wire : list (list Z);       (* the frames the device accepted, in order *)
}.

Section tx.
Context `{D : Dpdk} `{B : Build}.
Implicit Types (x : CoreTapTx) (w : world rte_mbuf) (m : rte_mbuf).

Definition construct (c : CoreInterface rte_mbuf) (mpl : option Z) (tap_fd rdtsc : Z) : CoreTapTx :=
  mk c tap_fd [] [] rdtsc 0 mpl [].

Definition GetType : TYPE := TAPTX.

Definition SetP (key : KEY) (p : option Z) x : CoreTapTx :=
  if bool_decide (key = OPT)
  then mk (core x) (tap_fd_ x) (ring_tap_ingress_ x) (ring_tap_egress_ x) (cur_cycle_ x) (cur_count_ x) p (wire x)
  else x.

Definition SetRingAddr (order : ORDER) (ring : option Z) x : res CoreTapTx :=
  let y c ing egr := mk c (tap_fd_ x) ing egr (cur_cycle_ x) (cur_count_ x) (mpl_ x) (wire x) in
  match order with
  | TO => Ok (y (CoreInterface.set_rings (ring_fm_ (core x)) ring (core x)) (ring_tap_ingress_ x) (ring_tap_egress_ x))
  | FROM_00 => Ok (y (core x) (CoreTapRx.push (ring_tap_ingress_ x) ring) (ring_tap_egress_ x))
  | TO_00 => Ok (y (core x) (ring_tap_ingress_ x) (CoreTapRx.push (ring_tap_egress_ x) ring))
  | _ => Fault RteExit
  end.

(** [write] answers the number of bytes the device took, or -1. *)
Variable write : list Z -> Z.

(** One packet: written, counted, freed. *)
Definition write_one (s : CoreTapTx * world rte_mbuf) m : res (CoreTapTx * world rte_mbuf) :=
  let '(x, w) := s in
  _ ← require (in_buf (mtod m) (data_len m) m) Undefined;
  let ret := write (pkt_data m) in
  let count a b c d k := CoreInterface.set_counter (CoreCounter.Inc a b c d (counter_ k)) k in
  let y c n out := mk c (tap_fd_ x) (ring_tap_ingress_ x) (ring_tap_egress_ x) (cur_cycle_ x) n (mpl_ x) out in
  let x :=
    if 0 <? ret then y (count 0 0 ret 1 (core x)) (u64 (cur_count_ x + 1)) (wire x ++ [pkt_data m])
    else if ret <? 0 then y (count (data_len m) 1 0 0 (core x)) (cur_count_ x) (wire x)
    else x in
  Ok (x, w_free [m] w).

(** One ring: over the limit what it holds is dropped. *)
Definition drain_ring (s : CoreTapTx * world rte_mbuf) (ring : option Z) : res (CoreTapTx * world rte_mbuf) :=
  let '(x, w) := s in
  r ← w_dequeue_burst ring (burst_fm_ (core x)) w;
  let '(input, w) := r in
  _ ← require (zlen input <=? DEFAULT_MBUF_ARRAY_SIZE) Undefined;
  if zlen input =? 0 then Ok (x, w)
  else if MAXPACKET_PER_SECOND <? cur_count_ x then Ok (x, w_free input w)
  else foldM write_one input (x, w).

(** [rte_get_tsc_hz() + 1000000 - 1) / 1000000 * 1000000] cycles. *)
Definition drain_tsc (hz : Z) : Z := u64 (u64 (hz + 1000000 - 1) / 1000000 * 1000000).

(** The count starts again when a second has passed. *)
Definition tick (hz rdtsc : Z) x : CoreTapTx :=
  if u64 (cur_cycle_ x + drain_tsc hz) <? rdtsc
  then mk (core x) (tap_fd_ x) (ring_tap_ingress_ x) (ring_tap_egress_ x) rdtsc 0 (mpl_ x) (wire x)
  else x.

Definition Cycle (hz rdtsc cnt : Z) (s : CoreTapTx * world rte_mbuf) : res (Z * (CoreTapTx * world rte_mbuf)) :=
  s ← foldM drain_ring (ring_tap_ingress_ s.1) s;
  Ok (0, (tick hz rdtsc s.1, s.2)).
End tx.
End CoreTapTx.

(** ** Frames *)

(** The GTP-C message type of a frame, 0 for any other frame. *)
Definition gtpc_type (f : list Z) : Z :=
  if (byte_at 23 f =? IPPROTO_UDP) && (be16_at 36 f =? GTPC_PORT) && negb (ETHER_MAX_LEN <? be16_at 44 f) &&
     (bf_get 5 3 (byte_at 42 f) =? GTPC_VERSION_2) && (bf_get 4 1 (byte_at 42 f) =? GTPC_PIGGY_OFF)
  then byte_at 43 f else 0.

(** A Create Session or Modify Bearer Response that ends in a private extension. *)
Definition session_response (f : list Z) : bool :=
  (86 <? zlen f) && ((gtpc_type f =? GTPC_CREATE_SESSION_RES) || (gtpc_type f =? GTPC_MODIFY_BEARER_RES)).
Definition ends_in_extension (f : list Z) : bool :=
  (be16_at (zlen f - 31) f =? 28) && (le_load (slice (zlen f - 24) 4 f) =? GTPC_PRIVATE_EXT_MAGIC) &&
  (be16_at (zlen f - 28) f =? GTPC_PRIVATE_EXT_VENDERID).
Definition announcement (f : list Z) : bool := session_response f && ends_in_extension f.

(** A buffer of the pool: room for the largest frame. *)
Record tap_buf (m : rte_mbuf) : Prop := {
  tb_off : 0 <= data_off m;
  tb_room : data_off m + MAX_PACKET_SZ <= zlen (buf m);
  tb_bytes : bytes_ok (buf m);
}.

Section frames.
Context `{DpdkOk} `{B : Build}.
Implicit Types (w : world rte_mbuf) (m : rte_mbuf) (f : list Z) (pool : list rte_mbuf).

(** A packet that holds exactly the frame. *)
Record framed f m : Prop := {
  fr_buf : tap_buf m;
  fr_data : pkt_data m = f;
  fr_dlen : data_len m = zlen f;
  fr_plen : pkt_len m = zlen f;
  fr_type : packet_type m = Z.lor RTE_PTYPE_L3_IPV4 RTE_PTYPE_L4_UDP;
  fr_size : zlen f <= MAX_PACKET_SZ;
}.

Lemma fill_ok f m :
  tap_buf m -> bytes_ok f -> zlen f <= MAX_PACKET_SZ ->
  exists m', CoreTapRx.fill f (zlen f) m = Ok m' /\ framed f m' /\ m_addr m' = m_addr m.
Proof.
  intros [Ho Hr Hb] Hf Hl. unfold MAX_PACKET_SZ in *. unfold CoreTapRx.fill, require. rewrite Z.leb_refl. res_simpl.
  rewrite slice_0_all, st_bytes_ok by (unfold mtod; lia). res_simpl. eexists. split; [done|]. split; [|done].
  assert (Hz : zlen (splice (mtod m) f (buf m)) = zlen (buf m)) by (rewrite length_splice; unfold mtod; lia).
  rewrite !wrap_small by lia. constructor; cbn; try done.
  - constructor; cbn; [done|unfold MAX_PACKET_SZ; rewrite Hz; lia|]. by apply Forall_splice.
  - unfold pkt_data. cbn. rewrite slice_splice_same by (unfold mtod; lia). done.
Qed.

(** What the loads of the packet see of the frame. *)
Lemma head_framed f m n : framed f m -> 0 <= n <= zlen f -> head_bytes n m = slice 0 n f.
Proof.
  intros [[]] Hn. unfold head_bytes. rewrite <-fr_data0. unfold pkt_data. rewrite slice_slice by lia. by rewrite Z.add_0_r.
Qed.

Lemma load_framed f m n k :
  framed f m -> 0 <= k -> k + Z.of_nat n <= zlen f ->
  ld n m (mtod m + k) = Ok (le_load (slice k (Z.of_nat n) f)).
Proof.
  intros [[]] Hk Hn. unfold mtod, MAX_PACKET_SZ in *. rewrite ld_ok by lia. do 2 f_equal. rewrite <-fr_data0.
  unfold pkt_data. by rewrite slice_slice by lia.
Qed.

Lemma is_gtpc_head m :
  tap_buf m -> packet_type m = Z.lor RTE_PTYPE_L3_IPV4 RTE_PTYPE_L4_UDP ->
  is_gtpc m = Ok (gtpc_type (head_bytes 48 m)).
Proof.
  intros [Ho Hr Hb] Ht. unfold MAX_PACKET_SZ in *. unfold is_gtpc, gtpc_type. autounfold with pkt.
  rewrite Ht, Z.lor_comm, is_ipv4_ipv4. add_consts.
  rewrite (ld1_head 48 m 23) by lia. res_simpl. destruct (_ =? IPPROTO_UDP); [|done].
  ld16 m 36 GTPC_PORT 48. destruct (_ =? GTPC_PORT); cbn [andb]; [|done].
  assert (E2 : ld 2 m (data_off m + 44) = Ok (le_load (slice 44 2 (head_bytes 48 m))))
    by (rewrite ld_ok by lia; unfold head_bytes; by rewrite slice_slice by lia).
  assert (L2 : length (slice 44 2 (head_bytes 48 m)) = 2%nat)
    by (unfold head_bytes; rewrite length_slice; [done|lia|lia|rewrite zlen_slice; lia]).
  assert (B2 : bytes_ok (slice 44 2 (head_bytes 48 m))) by (unfold head_bytes; by apply Forall_slice, Forall_slice).
  rewrite E2. res_simpl. change (ntohs ?x) with (htons x). rewrite htons_load by done. fold (be16_at 44 (head_bytes 48 m)).
  assert (Hn : 0 <= be16_at 44 (head_bytes 48 m)) by (apply be_load_range; done).
  rewrite (proj2 (Z.ltb_ge _ 0)) by lia. cbn [orb]. destruct (ETHER_MAX_LEN <? _); cbn [negb andb]; [done|].
  rewrite (ld1_head 48 m 42) by lia. res_simpl.
  destruct (_ =? GTPC_VERSION_2); cbn [negb orb andb]; [|done].
  destruct (_ =? GTPC_PIGGY_OFF); cbn [negb orb andb]; [|done].
  by rewrite (ld1_head 48 m 43) by lia.
Qed.

Lemma gtpc_type_head f : 48 <= zlen f -> gtpc_type (slice 0 48 f) = gtpc_type f.
Proof. intros. unfold gtpc_type, byte_at, be16_at. by rewrite !slice_slice by lia. Qed.

(** The decision depends on the frame alone. *)
Lemma announces_eq f m : framed f m -> bytes_ok f -> CoreTapRx.announces (zlen f) m = Ok (announcement f).
Proof.
  intros Hf Hb. pose proof (fr_size _ _ Hf) as Hs. unfold MAX_PACKET_SZ in Hs.
  unfold CoreTapRx.announces. rewrite is_gtpc_head by apply Hf. res_simpl.
  rewrite wrap_small by lia. unfold announcement, session_response.
  change (PgwCycle.GTPC_PRIVATE_EXT_SIZE + _) with 86. destruct (86 <? zlen f) eqn:E; to_prop; cbn [andb]; [|by case_if].
  rewrite (head_framed f m 48), gtpc_type_head by (done || lia).
  destruct (_ || _); cbn [andb]; [|done].
  assert (H2 : forall k, 0 <= k -> k + 2 <= zlen f -> length (slice k 2 f) = 2%nat) by (intros; rewrite length_slice by lia; done).
  unfold mtod_offset. change (data_off m) with (mtod m). unfold o_pe_length, o_pe_magic, o_pe_venderid.
  rewrite <-!Z.add_assoc, !(load_framed f m) by (done || (unfold PgwCycle.GTPC_PRIVATE_EXT_SIZE; lia)). res_simpl.
  unfold ends_in_extension, be16_at. change (Z.of_nat 2) with 2. change (Z.of_nat 4) with 4.
  unfold PgwCycle.GTPC_PRIVATE_EXT_SIZE.
  replace (zlen f - 32 + 1) with (zlen f - 31) by lia. replace (zlen f - 32 + 8) with (zlen f - 24) by lia.
  replace (zlen f - 32 + 4) with (zlen f - 28) by lia.
  change (ntohs ?x) with (htons x). rewrite htons_load by (apply H2 || apply Forall_slice; done || lia).
  change (32 - sizeof_gtpc_comm_header) with 28. destruct (_ =? 28); cbn [andb]; [|done].
  destruct (_ =? GTPC_PRIVATE_EXT_MAGIC); cbn [andb]; [|done].
  by rewrite eqb_htons by (apply H2 || apply Forall_slice || unfold GTPC_PRIVATE_EXT_VENDERID; done || lia).
Qed.
End frames.

(** ** The copies for the warm-up rings *)
Section copies.
Context `{DpdkOk} `{B : Build}.
Implicit Types (w : world rte_mbuf) (m : rte_mbuf) (f : list Z) (pool : list rte_mbuf) (r : option Z).

(** Ring [r] received one packet with the frame, or was full. *)
Definition arrives f r w w' : Prop :=
  if 0 <? w_room r w then exists m, framed f m /\ w_objs r w' = w_objs r w ++ [m]
  else w_objs r w' = w_objs r w.

(** Buffers are neither lost nor invented. *)
Definition balanced w pool w' pool' : Prop :=
  addrs (w_all w') ++ addrs pool' ≡ₚ addrs (w_all w) ++ addrs pool.

Lemma w_enqueue_keeps p m w ret w' : w_enqueue p m w = Ok (ret, w') -> w_keeps w w'.
Proof. unfold w_enqueue. destruct (w_ring p w); res_simpl; intros; simplify_eq/=. apply w_keeps_set. Qed.

(** A packet offered to a ring and freed when the ring is full: the ring has it
    or the store has freed it. *)
Lemma offer_ok f r m w :
  w_valid r w -> framed f m ->
  exists ret w1, w_enqueue r m w = Ok (ret, w1) /\ (ret =? 0) = (0 <? w_room r w) /\ ret <= 0 /\
    (forall w2, w2 = (if ret =? 0 then w1 else w_free [m] w1) ->
      w_keeps w w2 /\ w_all w2 ≡ₚ m :: w_all w /\ arrives f r w w2 /\
      forall q, q <> r -> w_ring q w2 = w_ring q w).
Proof.
  intros Hv Hm. destruct (w_enqueue_spec r m w Hv) as (ret & w1 & E & [_ Hq] & Hv1 & Hc).
  pose proof (w_enqueue_keeps _ _ _ _ _ E) as Hk. pose proof (w_all_enqueue _ _ _ _ _ E) as Ha.
  exists ret, w1. split; [done|]. destruct Hc as [(-> & Ho & Hr)|(Hn & Ho & Hr)].
  - rewrite (proj2 (Z.ltb_lt _ _)) by lia. split; [done|]. split; [lia|]. intros w2 ->.
    destruct Ha as [[_ Ha]|[? _]]; [|lia]. change (0 =? 0) with true. cbn iota. split_and!; [done|done| |done].
    unfold arrives. rewrite (proj2 (Z.ltb_lt _ _)) by lia. by exists m.
  - rewrite Hr, (proj2 (Z.eqb_neq _ _)) in * by lia. split; [done|]. split; [lia|]. intros w2 ->.
    destruct Ha as [[? _]|[_ Ha]]; [lia|]. split_and!; [|by rewrite w_all_free, Ha| |done].
    + eapply w_keeps_trans; [done|apply w_keeps_free].
    + unfold arrives. rewrite Hr. done.
Qed.

Lemma duplicate_ok f r m pool w :
  w_valid r w -> tap_buf m -> bytes_ok f -> zlen f <= MAX_PACKET_SZ ->
  exists w', CoreTapRx.duplicate f (zlen f) (w, m :: pool) r = Ok (w', pool) /\
    w_keeps w w' /\ balanced w (m :: pool) w' pool /\ arrives f r w w' /\
    forall q, q <> r -> w_ring q w' = w_ring q w.
Proof.
  intros Hv Hm Hb Hl. destruct (fill_ok f m Hm Hb Hl) as (m' & Ef & Hf & Ea).
  destruct (offer_ok f r m' w Hv Hf) as (ret & w1 & Ee & _ & _ & Hw).
  unfold CoreTapRx.duplicate. cbn [CoreTapRx.alloc fst snd]. res_simpl. rewrite Ef. res_simpl. rewrite Ee. res_simpl.
  eexists. split; [reflexivity|].
  destruct (Hw (if negb (ret =? 0) then w_free [m'] w1 else w1)) as (Hk & Hp & Harr & Hq); [by destruct (ret =? 0)|].
  split_and!; [done| |done|done]. unfold balanced. rewrite Hp. cbn. rewrite Ea. by rewrite Permutation_middle.
Qed.

Lemma arrives_frame f r w0 w w' w1 :
  w_ring r w = w_ring r w0 -> w_ring r w1 = w_ring r w' -> arrives f r w w' -> arrives f r w0 w1.
Proof. unfold arrives, w_room, w_objs. intros E0 E1. by rewrite E0, E1. Qed.

(** One copy for each ring of a list of different rings. *)
Lemma duplicates_ok f rs pool w :
  Forall (fun r => w_valid r w) rs -> NoDup rs -> (length rs <= length pool)%nat -> Forall tap_buf pool ->
  bytes_ok f -> zlen f <= MAX_PACKET_SZ ->
  exists w', foldM (CoreTapRx.duplicate f (zlen f)) rs (w, pool) = Ok (w', drop (length rs) pool) /\
    w_keeps w w' /\ balanced w pool w' (drop (length rs) pool) /\ (forall r, r ∈ rs -> arrives f r w w') /\
    forall q, q ∉ rs -> w_ring q w' = w_ring q w.
Proof.
  intros Hv Hnd Hlen Hp Hb Hl. revert pool w Hv Hlen Hp.
  induction rs as [|r rs IH]; intros pool w Hv Hlen Hp.
  { exists w. split; [done|]. split; [apply w_keeps_refl|]. split; [unfold balanced; reflexivity|]. split; [|done]. intros r Hr. by apply elem_of_nil in Hr. }
  destruct pool as [|m pool]; [cbn in Hlen; lia|]. inversion Hv as [|?? Hr Hrs]; subst. inversion Hp; subst.
  apply NoDup_cons in Hnd as [Hnin Hnd].
  destruct (duplicate_ok f r m pool w) as (w1 & E1 & Hk1 & Hb1 & Ha1 & Hq1); [done..|].
  destruct (IH Hnd pool w1) as (w2 & E2 & Hk2 & Hb2 & Ha2 & Hq2); [|cbn in Hlen; lia|done|].
  { eapply Forall_impl; [exact Hrs|]. intros q. apply Hk1. }
  exists w2. cbn [foldM length drop]. rewrite E1. res_simpl. split; [exact E2|].
  split_and!; [by eapply w_keeps_trans|unfold balanced in *; by rewrite Hb2| |].
  - intros q [->|Hin]%elem_of_cons.
    + by eapply arrives_frame; [done|apply Hq2|].
    + eapply arrives_frame; [|done|by apply Ha2]. symmetry. rewrite Hq1; [done|congruence].
  - intros q Hq. apply not_elem_of_cons in Hq as [? ?]. rewrite Hq2, Hq1; done.
Qed.
End copies.

(** ** The transmit core *)
Section tap_tx.
Context `{DpdkOk} `{B : Build}.
Import CoreTapTx.
Implicit Types (x : CoreTapTx) (w : world rte_mbuf) (m : rte_mbuf).

Definition writable m : Prop := in_buf (mtod m) (data_len m) m = true.
Record tap_tx_ok x w : Prop := {
  ttx_rings : Forall (fun r => w_valid r w) (ring_tap_ingress_ x);
  ttx_burst : 0 <= burst_fm_ (core x) <= DEFAULT_MBUF_ARRAY_SIZE;
  ttx_pkts : Forall writable (w_all w);
}.

(** [x'] follows [x] within a period: at most [n] more frames are on the wire, and
    the count says how many. *)
Record writes (n : Z) x x' : Prop := {
  wr_rings : ring_tap_ingress_ x' = ring_tap_ingress_ x;
  wr_burst : burst_fm_ (core x') = burst_fm_ (core x);
  wr_cycle : cur_cycle_ x' = cur_cycle_ x;
  wr_wire : exists l, wire x' = wire x ++ l /\ cur_count_ x' = cur_count_ x + zlen l /\ zlen l <= n;
}.

Lemma writes_refl x : writes 0 x x.
Proof. constructor; [done..|]. exists []. rewrite app_nil_r. cbn [length]. split_and!; [done|lia|lia]. Qed.
Lemma writes_trans n n' x1 x2 x3 : writes n x1 x2 -> writes n' x2 x3 -> writes (n + n') x1 x3.
Proof.
  intros [? ? ? (l & El & Cl & Nl)] [? ? ? (l' & El' & Cl' & Nl')]. constructor; [congruence..|].
  exists (l ++ l'). rewrite El', El, Cl', Cl, app_assoc, length_app. split_and!; [done|lia|lia].
Qed.
Lemma writes_le n n' x x' : writes n x x' -> n <= n' -> writes n' x x'.
Proof. intros [? ? ? (l & ? & ? & ?)] ?. constructor; [done..|]. exists l. split_and!; [done|done|lia]. Qed.

Lemma write_one_ok write m x w :
  writable m -> 0 <= cur_count_ x < 2 ^ 64 - 1 ->
  exists x', write_one write (x, w) m = Ok (x', w_free [m] w) /\ writes 1 x x'.
Proof.
  intros Hm Hc. unfold write_one, require. rewrite Hm. res_simpl. eexists. split; [reflexivity|].
  repeat case_if; (constructor; [done..|]).
  - exists [pkt_data m]. cbn [wire cur_count_ length]. rewrite wrap_small by lia. split_and!; [done|lia|lia].
  - exists []. cbn [wire cur_count_]. rewrite app_nil_r. cbn [length]. split_and!; [done|lia|lia].
  - exists []. cbn [wire cur_count_]. rewrite app_nil_r. cbn [length]. split_and!; [done|lia|lia].
Qed.

Lemma write_all_ok write l x w :
  Forall writable l -> 0 <= cur_count_ x -> cur_count_ x + zlen l < 2 ^ 64 ->
  exists x' w', foldM (write_one write) l (x, w) = Ok (x', w') /\ writes (zlen l) x x' /\
    w_keeps w w' /\ w_all w' ≡ₚ l ++ w_all w.
Proof.
  intros Hl. revert x w. induction Hl as [|m l Hm _ IH]; intros x w H0 Hc.
  { exists x, w. split; [done|]. split; [apply writes_refl|]. split; [apply w_keeps_refl|done]. }
  cbn [length] in Hc. destruct (write_one_ok write m x w Hm) as (x1 & E & Hw); [lia|].
  pose proof Hw as [_ _ _ (lw & _ & Clw & Nlw)].
  destruct (IH x1 (w_free [m] w)) as (x2 & w2 & E2 & Hw2 & Hk & Hp); [lia|lia|].
  exists x2, w2. cbn [foldM]. rewrite E. res_simpl. split; [exact E2|]. split_and!.
  - eapply writes_le; [eapply writes_trans; [exact Hw|exact Hw2]|cbn [length]; lia].
  - eapply w_keeps_trans; [apply w_keeps_free|done].
  - rewrite Hp, w_all_free. cbn. by rewrite Permutation_middle.
Qed.

Lemma tap_tx_ok_step x w x' w' n :
  tap_tx_ok x w -> writes n x x' -> w_keeps w w' -> w_all w' ≡ₚ w_all w -> tap_tx_ok x' w'.
Proof.
  intros [Hr Hb Hp] [Er Eb _ _] Hk Ha. constructor; rewrite ?Er, ?Eb; [|done|by rewrite Ha].
  eapply Forall_impl; [exact Hr|]. intros r. apply Hk.
Qed.

Lemma tap_drain_ok write r x w :
  tap_tx_ok x w -> w_valid r w -> 0 <= cur_count_ x <= MAXPACKET_PER_SECOND + burst_fm_ (core x) ->
  exists x' w', drain_ring write (x, w) r = Ok (x', w') /\ tap_tx_ok x' w' /\ w_keeps w w' /\
    w_all w' ≡ₚ w_all w /\ writes (burst_fm_ (core x)) x x' /\
    cur_count_ x' <= MAXPACKET_PER_SECOND + burst_fm_ (core x).
Proof.
  intros Hok Hv Hc. pose proof Hok as [Hr Hb Hp]. unfold MAXPACKET_PER_SECOND, DEFAULT_MBUF_ARRAY_SIZE in *.
  assert (H0 : 0 <= burst_fm_ (core x)) by lia. unfold drain_ring.
  destruct (w_dequeue_spec r _ w H0 Hv) as (w1 & E & _ & _ & _). rewrite E. res_simpl.
  destruct (w_all_dequeue _ _ _ _ _ H0 E) as [Hall Hlen]. set (got := take _ _) in *.
  assert (Hk : w_keeps w w1).
  { unfold w_dequeue_burst in E. destruct (w_ring _ w); res_simpl; simplify_eq/=. apply w_keeps_set. }
  unfold require, DEFAULT_MBUF_ARRAY_SIZE. rewrite (proj2 (Z.leb_le _ _)) by lia. res_simpl.
  assert (Hw : Forall writable (got ++ w_all w1)) by (by rewrite <-Hall). apply Forall_app in Hw as [Hg _].
  assert (Hdone : forall x' w', w_keeps w1 w' -> w_all w' ≡ₚ got ++ w_all w1 -> writes (burst_fm_ (core x)) x x' ->
    tap_tx_ok x' w' /\ w_keeps w w' /\ w_all w' ≡ₚ w_all w).
  { intros x' w' Hk' Ha' Hws. assert (Ea : w_all w' ≡ₚ w_all w) by (by rewrite Ha', Hall).
    assert (w_keeps w w') by (by eapply w_keeps_trans). split; [by eapply tap_tx_ok_step|done]. }
  assert (Hnone : writes (burst_fm_ (core x)) x x) by (eapply writes_le; [apply writes_refl|lia]).
  case_if; to_prop; [|case_if; to_prop].
  - exists x, w1. split; [done|]. assert (Eg : got = []) by (destruct got; [done|cbn [length] in *; lia]).
    destruct (Hdone x w1) as (? & ? & ?); [apply w_keeps_refl|by rewrite Eg|done|]. split_and!; try done. lia.
  - exists x, (w_free got w1). split; [done|]. unfold MAXPACKET_PER_SECOND in *.
    destruct (Hdone x (w_free got w1)) as (? & ? & ?); [apply w_keeps_free|apply w_all_free|done|]. split_and!; try done; lia.
  - unfold MAXPACKET_PER_SECOND in *. destruct (write_all_ok write got x w1 Hg) as (x' & w' & Ef & Hws & Hk' & Ha'); [lia|lia|].
    rewrite Ef. assert (Hws' : writes (burst_fm_ (core x)) x x') by (eapply writes_le; [done|lia]).
    destruct (Hdone x' w' Hk' Ha' Hws') as (? & ? & ?). exists x', w'. split; [done|].
    destruct Hws as [_ _ _ (l & _ & Cl & Nl)]. split_and!; try done. lia.
Qed.

Lemma tap_drain_all_ok write x w :
  tap_tx_ok x w -> 0 <= cur_count_ x <= MAXPACKET_PER_SECOND + burst_fm_ (core x) ->
  exists x' w', foldM (drain_ring write) (ring_tap_ingress_ x) (x, w) = Ok (x', w') /\ tap_tx_ok x' w' /\
    w_keeps w w' /\ w_all w' ≡ₚ w_all w /\ writes (zlen (ring_tap_ingress_ x) * burst_fm_ (core x)) x x' /\
    cur_count_ x' <= MAXPACKET_PER_SECOND + burst_fm_ (core x).
Proof.
  intros Hok Hc. pose proof (ttx_rings _ _ Hok) as Hr. revert Hr. generalize (ring_tap_ingress_ x). intros rs.
  revert x w Hok Hc. induction rs as [|r rs IH]; intros x w Hok Hc Hr.
  { exists x, w. split; [done|]. split; [done|]. split; [apply w_keeps_refl|]. split; [done|].
    split; [|lia]. apply writes_refl. }
  inversion Hr as [|?? Hv Hrs]; subst.
  destruct (tap_drain_ok write r x w Hok Hv Hc) as (x1 & w1 & E & Hok1 & Hk1 & Ha1 & Hw1 & Hc1).
  pose proof Hw1 as [_ Eb _ (l & _ & Cl & _)].
  destruct (IH x1 w1 Hok1) as (x2 & w2 & E2 & Hok2 & Hk2 & Ha2 & Hw2 & Hc2); [rewrite Eb; lia| |].
  { eapply Forall_impl; [exact Hrs|]. intros q. apply Hk1. }
  exists x2, w2. cbn [foldM]. rewrite E. res_simpl. split; [exact E2|]. rewrite Eb in *.
  split_and!; [done|by eapply w_keeps_trans|by rewrite Ha2| |done].
  eapply writes_le; [by eapply writes_trans|cbn [length]; lia].
Qed.
End tap_tx.

(** ** Properties *)
Module Properties.

(** The receive core as the application connects it: different rings, all
    created. *)
Definition tap_rings (x : CoreTapRx.CoreTapRx) : list (option Z) :=
  CoreTapRx.ring_tap_egress_ x ++ CoreTapRx.ring_tap_ingress_ x.
Record tap_ok `{Dpdk} (x : CoreTapRx.CoreTapRx) (w : world rte_mbuf) : Prop := {
  tap_valid : Forall (fun r => w_valid r w) (ring_to_ (CoreTapRx.core x) :: tap_rings x);
  tap_nodup : NoDup (ring_to_ (CoreTapRx.core x) :: tap_rings x);
  tap_few : zlen (tap_rings x) <= 2 * TAPDUPLICTE_MAX;
}.

Section properties.
Context `{DpdkOk} `{B : Build}.
Implicit Types (w : world rte_mbuf) (f : list Z) (pool : list rte_mbuf) (x : CoreTapRx.CoreTapRx).

(** [rte_ring_sp_enqueue] answers -ENOBUFS when the ring is full. *)
Definition enobufs : Prop :=
  forall (r : ring rte_mbuf) m, rte_ring_free_count r = 0 -> (rte_ring_sp_enqueue r m).1 = -105.

Lemma forward_ok f r m w :
  enobufs -> w_valid r w -> framed f m ->
  exists w', CoreTapRx.forward r m w = Ok (if 0 <? w_room r w then 0 else -1, w') /\
    w_all w' ≡ₚ m :: w_all w /\ arrives f r w w' /\ forall q, q <> r -> w_ring q w' = w_ring q w.
Proof.
  intros Henb Hv Hf. destruct (offer_ok f r m w Hv Hf) as (ret & w1 & E & Er & Hle & Hw).
  unfold CoreTapRx.forward. rewrite E. res_simpl. rewrite <-Er.
  destruct (Hw _ eq_refl) as (_ & Hp & Ha & Hq). destruct (ret =? 0) eqn:E0; to_prop.
  - subst ret. exists w1. done.
  - assert (ret = -105) as ->; [|exists (w_free [m] w1); done].
    unfold w_enqueue, w_room in *. destruct (w_ring r w) as [rg|]; res_simpl; simplify_eq/=.
    apply Henb. pose proof (free_count_nonneg rg). symmetry in Er. apply Z.ltb_ge in Er. lia.
Qed.

(** the copies for an announced session, none otherwise. *)
Lemma copies_ok f x pool w :
  tap_ok x w -> (length (tap_rings x) <= length pool)%nat -> Forall tap_buf pool -> bytes_ok f -> zlen f <= MAX_PACKET_SZ ->
  exists w' pool',
    (if announcement f then
       s ← foldM (CoreTapRx.duplicate f (zlen f)) (CoreTapRx.ring_tap_egress_ x) (w, pool);
       foldM (CoreTapRx.duplicate f (zlen f)) (CoreTapRx.ring_tap_ingress_ x) s
     else Ok (w, pool)) = Ok (w', pool') /\ w_keeps w w' /\ balanced w pool w' pool' /\
    (forall r, r ∈ tap_rings x -> if announcement f then arrives f r w w' else w_objs r w' = w_objs r w) /\
    forall q, q ∉ tap_rings x -> w_ring q w' = w_ring q w.
Proof.
  intros [Hv Hnd _] Hlen Hp Hb Hl. destruct (announcement f).
  - apply NoDup_cons in Hnd as [_ Hnd]. inversion Hv as [|?? _ Hvs]; subst.
    destruct (duplicates_ok f (tap_rings x) pool w Hvs Hnd Hlen Hp Hb Hl) as (w' & E & Hk & Hbal & Ha & Hq).
    unfold tap_rings in E. rewrite foldM_app in E. exists w', (drop (length (tap_rings x)) pool).
    split; [exact E|]. done.
  - exists w, pool. split; [done|]. split; [apply w_keeps_refl|]. split; [unfold balanced; reflexivity|]. done.
Qed.

Lemma tap_frame_ok f x w pool cnt :
  enobufs -> TEST_MODE = false -> tap_ok x w -> Forall tap_buf pool -> (length (tap_rings x) < length pool)%nat ->
  bytes_ok f -> 0 < zlen f <= MAX_PACKET_SZ ->
  let to := ring_to_ (CoreTapRx.core x) in
  exists w' pool',
    CoreTapRx.Cycle (Some f) cnt x (w, pool) = Ok (if 0 <? w_room to w then 0 else -1, (w', pool')) /\
    arrives f to w w' /\
    (forall r, r ∈ tap_rings x -> if announcement f then arrives f r w w' else w_objs r w' = w_objs r w) /\
    (forall q, q <> to -> q ∉ tap_rings x -> w_ring q w' = w_ring q w) /\
    balanced w pool w' pool'.
Proof.
  intros Henb Ht Hok Hp Hlen Hb [Hpos Hl] to. pose proof Hok as [Hv Hnd _].
  destruct pool as [|m pool]; [cbn in Hlen; lia|]. inversion Hp as [|?? Hm Hps]; subst.
  apply NoDup_cons in Hnd as [Hnin _]. inversion Hv as [|?? Hvto _]; subst.
  destruct (fill_ok f m Hm Hb Hl) as (m' & Ef & Hf & Ea).
  unfold CoreTapRx.Cycle, CoreTapRx.input. rewrite Ht. res_simpl.
  assert (Htk : take (Z.to_nat MAX_PACKET_SZ) f = f) by (apply take_ge; unfold MAX_PACKET_SZ in *; lia).
  destruct f as [|b f']; [cbn in Hpos; lia|]. rewrite Htk. cbn [CoreTapRx.alloc]. rewrite Ef. res_simpl.
  set (g := b :: f') in *. rewrite (announces_eq g m' Hf Hb). res_simpl. rewrite (fr_plen _ _ Hf).
  destruct (copies_ok g x pool w Hok ltac:(cbn in Hlen; lia) Hps Hb Hl) as (w1 & pool1 & E & Hk & Hbal & Ha & Hq).
  cbn [fst snd] in E. rewrite E. res_simpl.
  destruct (forward_ok g to m' w1 Henb (Hk _ Hvto) Hf) as (w2 & E2 & Hp2 & Ha2 & Hq2).
  fold to. rewrite E2. res_simpl.
  assert (Hto : w_ring to w1 = w_ring to w) by (by apply Hq).
  exists w2, pool1. split; [unfold w_room; by rewrite Hto|].
  split; [by eapply arrives_frame|].
  assert (Hne : forall r, r ∈ tap_rings x -> r <> to) by (intros r Hr ->; done).
  split; [intros r Hr; specialize (Ha r Hr)|split].
  - destruct (announcement g).
    + eapply arrives_frame; [done|apply Hq2; by apply Hne|done].
    + rewrite <-Ha. unfold w_objs. rewrite Hq2 by (by apply Hne). done.
  - intros q Hn Hni. rewrite Hq2, Hq; done.
  - unfold balanced in *. rewrite Hp2. cbn. rewrite Hbal, Ea. by rewrite Permutation_middle.
Qed.

(** C35: one cycle of the tap receive core on a frame of the host stack: the
    frame goes to the transmit core and, exactly when it is a Create Session or
    Modify Bearer Response that ends in the control plane's private extension,
    as a separate copy to every warm-up ring of the PGW workers; a full ring
    costs only its own packet, no other ring changes, and no buffer is lost. *)
Theorem tap_frame_distributed f x w pool cnt :
  enobufs -> TEST_MODE = false -> tap_ok x w -> Forall tap_buf pool -> (length (tap_rings x) < length pool)%nat ->
  bytes_ok f -> 0 < zlen f <= MAX_PACKET_SZ ->
  let to := ring_to_ (CoreTapRx.core x) in
  exists w' pool',
    CoreTapRx.Cycle (Some f) cnt x (w, pool) = Ok (if 0 <? w_room to w then 0 else -1, (w', pool')) /\
    arrives f to w w' /\
    (forall r, r ∈ tap_rings x -> if announcement f then arrives f r w w' else w_objs r w' = w_objs r w) /\
    (forall q, q <> to -> q ∉ tap_rings x -> w_ring q w' = w_ring q w) /\
    balanced w pool w' pool'.
Proof. exact (tap_frame_ok f x w pool cnt). Qed.

(** The words of the private extension as the workers read them. *)
Lemma ext_value_eq f pre ext m i :
  framed f m -> f = pre ++ ext -> zlen ext = 32 -> 0 <= i < 5 ->
  PgwCycle.ext_value i m = Ok (le_load (slice (12 + 4 * i) 4 ext)).
Proof.
  intros Hf -> Hl Hi. pose proof (fr_size _ _ Hf) as Hs. unfold MAX_PACKET_SZ in Hs.
  unfold PgwCycle.ext_value, mtod_offset, PgwCycle.GTPC_PRIVATE_EXT_SIZE. rewrite (fr_plen _ _ Hf).
  rewrite length_app, Nat2Z.inj_add in *. rewrite wrap_small by lia.
  change (data_off m) with (mtod m). rewrite <-!Z.add_assoc, (load_framed (pre ++ ext)) by (done || rewrite ?length_app; lia).
  rewrite slice_app_r by lia. do 3 f_equal. lia.
Qed.

(** The session the control plane announces. *)
Definition announced (cs : GtpcParse.gtpc_parse_state) (t : lookup_t) : Prop :=
  ue_ipv4 t = le_load (GtpcParse.ue_ipv_n cs) /\ ue_teid t = u32 (GtpcParse.pgw_teid cs) /\
  sgw_gtpu_ipv4 t = le_load (slice GtpcItems.o_f_teid_blk 4 (GtpcParse.ies cs GtpcParse.u_teid)) /\
  sgw_gtpu_teid t = le_load (slice GtpcItems.o_f_teid_key 4 (GtpcParse.ies cs GtpcParse.u_teid)) /\
  pgw_gtpu_ipv4 t = le_load (GtpcParse.pgw_u_ipv_n cs).

(** A parse state that announces: its addresses are IPv4 addresses. *)
Record announcing (cs : GtpcParse.gtpc_parse_state) : Prop := {
  an_wf : GtpcParse.state_wf cs;
  an_ue : zlen (GtpcParse.ue_ipv_n cs) = 4 /\ bytes_ok (GtpcParse.ue_ipv_n cs);
  an_pgw : zlen (GtpcParse.pgw_u_ipv_n cs) = 4 /\ bytes_ok (GtpcParse.pgw_u_ipv_n cs);
}.

Lemma extension_values cs ext :
  announcing cs -> GtpcParse.gtpc_private_extension_set cs = Ok (Gtpc.OK, ext) ->
  bytes_ok ext /\ zlen ext = 32 /\
  (forall pre, ends_in_extension (pre ++ ext) = true) /\
  forall f pre m itm, framed f m -> f = pre ++ ext ->
    exists t, PgwCycle.warmup_item itm m = Ok t /\ announced cs t.
Proof.
  intros [Hw [Lu Bu] [Lp Bp]]. rewrite GtpcParse.Properties.private_extension_layout by done.
  intros Eext. apply (f_equal (fun r => match r with Ok q => q.2 | Fault _ => [] end)) in Eext. cbn [snd] in Eext.
  destruct (Hw GtpcParse.u_teid) as [Lt Ht]. change (GtpcParse.sizeof_ie GtpcParse.u_teid) with 25 in Lt.
  revert Eext. set (sip := slice GtpcItems.o_f_teid_blk 4 (GtpcParse.ies cs GtpcParse.u_teid)).
  set (skey := slice GtpcItems.o_f_teid_key 4 (GtpcParse.ies cs GtpcParse.u_teid)). intros Eext.
  assert (Ls : zlen sip = 4) by (unfold sip; rewrite zlen_slice; unfold GtpcItems.o_f_teid_blk; lia).
  assert (Lk : zlen skey = 4) by (unfold skey; rewrite zlen_slice; unfold GtpcItems.o_f_teid_key; lia).
  assert (Ek : length (le_store 4 (GtpcParse.pgw_teid cs)) = 4%nat) by apply length_le_store.
  assert (Ev : le_load (le_store 4 (GtpcParse.pgw_teid cs)) = u32 (GtpcParse.pgw_teid cs)) by (rewrite le_load_store; done).
  assert (Le : zlen ext = 32) by (rewrite <-Eext; rewrite !length_app, Ek; cbn [length]; lia).
  assert (Be : bytes_ok ext).
  { rewrite <-Eext. repeat (apply Forall_app_2; [first [done|by apply Forall_slice|apply le_store_ok|idtac]|]); [|done].
    repeat (constructor; [unfold byte_ok; lia|]). constructor. }
  assert (Hh : forall p n, 0 <= p -> 0 <= n -> p + n <= 12 -> slice p n ext = slice p n [255; 0; 28; 0; 0; 0; 0; 0; 175; 190; 173; 222])
    by (intros; rewrite <-Eext; apply slice_app_l; cbn [length]; lia).
  split; [exact Be|split; [exact Le|split]].
  - intros pre. unfold ends_in_extension, be16_at. rewrite length_app, Nat2Z.inj_add, !slice_app_r by lia.
    replace (zlen pre + zlen ext - 31 - zlen pre) with 1 by lia. replace (zlen pre + zlen ext - 24 - zlen pre) with 8 by lia.
    replace (zlen pre + zlen ext - 28 - zlen pre) with 4 by lia. rewrite !Hh by lia. reflexivity.
  - intros f pre m itm Hf Ef. unfold PgwCycle.warmup_item. rewrite !(ext_value_eq f pre ext) by (done || lia). res_simpl.
    eexists. split; [reflexivity|]. unfold announced. cbn [ue_ipv4 ue_teid sgw_gtpu_ipv4 sgw_gtpu_teid pgw_gtpu_ipv4]. rewrite <-Ev.
    fold sip skey. rewrite <-Eext. clearbody sip skey. generalize (le_store 4 (GtpcParse.pgw_teid cs)) Ek. intros k Lkk.
    revert Ls Lk Lu Lp Lkk. generalize (GtpcParse.ue_ipv_n cs) (GtpcParse.pgw_u_ipv_n cs). clear. intros ue pg Ls Lk Lu Lp Lkk.
    do 5 (destruct sip as [|? sip]; try (cbn [length] in Ls; lia)). do 5 (destruct skey as [|? skey]; try (cbn [length] in Lk; lia)).
    do 5 (destruct ue as [|? ue]; try (cbn [length] in Lu; lia)). do 5 (destruct k as [|? k]; try (cbn [length] in Lkk; lia)).
    do 5 (destruct pg as [|? pg]; try (cbn [length] in Lp; lia)). done.
Qed.

(** A worker that looks at its warm-up ring in the next cycle. *)
Record warmup_due `{!PgwWorker W} (y : W) (r : Z) : Prop := {
  due_lens : forall b, base (set_base b y) = b;
  due_lens2 : forall b b', set_base b (set_base b' y) = set_base b y;
  due_ring : ring_warmup_ (base y) = Some r;
  due_burst : 0 < burst_fm_ (PgwBase.core (base y)) <= DEFAULT_MBUF_ARRAY_SIZE;
  due_count : 14000000 / burst_fm_ (PgwBase.core (base y)) < warmup_count_ (base y);
  due_map : findtype_ (base y) <> 0;
}.

(** The session of the only packet on the ring is found after the warm-up. *)
Lemma warmup_finds `{!PgwWorker W} (y : W) r m w uninit t :
  warmup_due y r -> w_valid (Some r) w -> w_objs (Some r) w = [m] ->
  PgwCycle.warmup_item uninit m = Ok t -> PgwCycle.complete_item t = true ->
  0 <= PgwBase.Properties.session_key GetType t < 2 ^ 32 ->
  exists y' w', PgwCycle.warmup uninit (y, w) = Ok (y', w') /\ w_objs (Some r) w' = [] /\
    CorePgwBaseWorker.Find (PgwBase.Properties.session_key GetType t) (base y') = Ok (0, Some t).
Proof.
  intros [Hl Hl2 Hr Hb Hc Hm] Hv Ho Hi Hcomp Hk. unfold PgwCycle.warmup, require.
  rewrite (proj2 (Z.eqb_neq _ _)) by lia. cbn [negb]. res_simpl. rewrite (proj2 (Z.ltb_lt _ _) Hc). cbn [ring_warmup_ set_warmup_count]. rewrite Hr.
  assert (H0 : 0 <= burst_fm_ (PgwBase.core (base y))) by lia.
  destruct (w_dequeue_spec (Some r) _ w H0 Hv) as (w1 & E & _ & _ & Hdrop).
  rewrite E. res_simpl. rewrite Ho in *. rewrite take_ge, drop_ge in * by (cbn [length]; lia).
  change (zlen [m] <=? DEFAULT_MBUF_ARRAY_SIZE) with true. cbn [foldM]. res_simpl.
  set (b0 := set_warmup_count 0 _). set (ncore := CorePgwBaseWorker.GetN _ _).
  destruct (PgwBase.Properties.warmup_files_session uninit t ncore (set_base b0 y) w1 m) as (y' & Ew & Ef).
  - intros b. by rewrite Hl2, Hl.
  - rewrite Hl. exact Hm.
  - done.
  - done.
  - done.
  - rewrite Ew. res_simpl. exists y', (w_free [m] w1). split; [done|]. split; [by rewrite w_objs_free|done].
Qed.

(** With no free buffer the copy is written through a null pointer: the test of
    the new buffer comes after its use. *)
Lemma duplicate_without_buffer frame len w ring :
  CoreTapRx.duplicate frame len (w, []) ring = Fault Undefined.
Proof. reflexivity. Qed.

(** one cycle of the tap transmit core: it returns, what the worker rings held
    is on the way back to the pool, and the invariant of the rate limit holds. *)
Theorem tap_tx_conserves (write : list Z -> Z) (hz rdtsc cnt : Z) (x : CoreTapTx.CoreTapTx) w :
  let limit := MAXPACKET_PER_SECOND + burst_fm_ (CoreTapTx.core x) in
  tap_tx_ok x w -> 0 <= CoreTapTx.cur_count_ x <= limit ->
  exists (x' : CoreTapTx.CoreTapTx) w', CoreTapTx.Cycle write hz rdtsc cnt (x, w) = Ok (0, (x', w')) /\ tap_tx_ok x' w' /\
    w_all w' ≡ₚ w_all w /\ CoreTapTx.wire x `prefix_of` CoreTapTx.wire x' /\ 0 <= CoreTapTx.cur_count_ x' <= limit.
Proof.
  intros limit Hok Hc. destruct (tap_drain_all_ok write x w Hok Hc) as (x1 & w1 & E & Hok1 & _ & Ha & Hw & Hc1).
  destruct Hw as [_ _ _ (l & El & Cl & _)]. unfold CoreTapTx.Cycle. cbn [fst]. rewrite E. res_simpl.
  pose proof (ttx_burst _ _ Hok) as Hb. unfold limit, MAXPACKET_PER_SECOND in *.
  exists (CoreTapTx.tick hz rdtsc x1), w1. split; [done|]. unfold CoreTapTx.tick. destruct Hok1.
  assert (CoreTapTx.wire x `prefix_of` CoreTapTx.wire x1) by (exists l; done).
  case_if; cbn; (split; [constructor; done|]); (split; [done|]); (split; [done|]); lia.
Qed.

(** The cycles of one period, whatever the workers queue in between. *)
Inductive period (hz : Z) (x : CoreTapTx.CoreTapTx) : CoreTapTx.CoreTapTx -> Prop :=
| period_start : period hz x x
| period_cycle y w write rdtsc cnt y' w' :
    period hz x y -> tap_tx_ok y w ->
    (u64 (CoreTapTx.cur_cycle_ y + CoreTapTx.drain_tsc hz) <? rdtsc) = false ->
    CoreTapTx.Cycle write hz rdtsc cnt (y, w) = Ok (0, (y', w')) -> period hz x y'.

(** C36: the rate limit of the tap transmit core: in any number of cycles within
    one second, over any traffic, at most 1000000 frames and one burst are written
    to the host stack. *)
Theorem tap_rate_limited (hz : Z) (x y : CoreTapTx.CoreTapTx) :
  period hz x y -> CoreTapTx.cur_count_ x = 0 -> 0 <= burst_fm_ (CoreTapTx.core x) ->
  exists l, CoreTapTx.wire y = CoreTapTx.wire x ++ l /\
    zlen l <= MAXPACKET_PER_SECOND + burst_fm_ (CoreTapTx.core x).
Proof.
  intros Hp Hc Hb0.
  assert (H1 : CoreTapTx.cur_cycle_ y = CoreTapTx.cur_cycle_ x /\ burst_fm_ (CoreTapTx.core y) = burst_fm_ (CoreTapTx.core x) /\
    exists l, CoreTapTx.wire y = CoreTapTx.wire x ++ l /\ CoreTapTx.cur_count_ y = zlen l /\
      zlen l <= MAXPACKET_PER_SECOND + burst_fm_ (CoreTapTx.core x)).
  { induction Hp as [|y w write rdtsc cnt y' w' _ (Ec & Eb & l & El & Cl & Nl) Hok Ht E].
    - split; [done|]. split; [done|]. exists []. rewrite app_nil_r. cbn [length]. unfold MAXPACKET_PER_SECOND. split_and!; [done|lia|lia].
    - destruct (tap_drain_all_ok write y w Hok) as (y1 & w1 & E1 & _ & _ & _ & Hw & Hc1); [rewrite Eb; lia|].
      destruct Hw as [_ Eb1 Ec1 (l1 & El1 & Cl1 & _)]. unfold CoreTapTx.Cycle in E. cbn [fst] in E. rewrite E1 in E. revert E.
      res_simpl. unfold CoreTapTx.tick. rewrite Ec1, Ht. intros [= <- <-]. rewrite Ec1, Eb1.
      split; [done|]. split; [done|]. exists (l ++ l1). rewrite El1, El, app_assoc, length_app.
      rewrite Eb in Hc1. split_and!; [done|lia|lia]. }
  destruct H1 as (_ & _ & l & El & _ & Nl). by exists l.
Qed.
End properties.

(** The core between a transmit ring and four warm-up rings, one of them full. *)
#[local] Instance plain_build : Build := {|
  ARCH := 11; TEST_MODE := false; CANNOT_USE_GRE := false; COUNTER_RX := false;
  TUNNEL_RX := false; NON_SUPPORTED_ERRIND := true |}.
Definition tap_packet (a : Z) : rte_mbuf := mk_mbuf a (repeat 0 2048) 0 0 0 1 None 0 0.
Definition tap_world : @world DpdkModel.dpdk rte_mbuf :=
  @mk_world DpdkModel.dpdk rte_mbuf
    (<[1 := (9%nat, []) : DpdkModel.queue rte_mbuf]> (<[2 := (9%nat, []) : DpdkModel.queue rte_mbuf]>
    (<[3 := (0%nat, []) : DpdkModel.queue rte_mbuf]> (<[4 := (9%nat, []) : DpdkModel.queue rte_mbuf]>
      {[ 5 := (9%nat, []) : DpdkModel.queue rte_mbuf ]})))) [].
Definition tap_core : CoreTapRx.CoreTapRx :=
  CoreTapRx.mk (mk_core 0 0 1 0 0 0 0 0 0 4 3 None (Some 1) [] 0 CoreCounter.Clear) [116; 97; 112; 48] 7 None None
    [Some 2; Some 3] [Some 4; Some 5].

Lemma tap_packet_buf a : tap_buf (tap_packet a).
Proof.
  constructor; [done|vm_compute; congruence|]. apply bytes_okb_ok. vm_compute. reflexivity.
Qed.

Lemma tap_core_ok : @tap_ok DpdkModel.dpdk tap_core tap_world.
Proof.
  constructor; [|apply (bool_decide_unpack _); vm_compute; exact I|vm_compute; congruence].
  repeat (constructor; [eexists; vm_compute; reflexivity|]). constructor.
Qed.

Lemma model_enobufs : @enobufs DpdkModel.dpdk.
Proof. intros r m Hr. cbn in *. rewrite (proj2 (Z.eqb_eq _ _) Hr). reflexivity. Qed.

(** A Modify Bearer Response that ends in the extension. *)
Definition response_frame : list Z :=
  repeat 0 23 ++ [17] ++ repeat 0 12 ++ [8; 75] ++ repeat 0 4 ++ [0x48; 35; 0; 60] ++ repeat 0 20 ++
  [255; 0; 28; 0; 0; 0; 0; 0; 175; 190; 173; 222] ++ repeat 1 20.

Lemma tap_frame_distributed_witness :
  announcement response_frame = true /\
  exists w' pool', CoreTapRx.Cycle (D := DpdkModel.dpdk) (Some response_frame) 0 tap_core (tap_world, tap_packet <$> [1; 2; 3; 4; 5; 6]) = Ok (0, (w', pool')) /\
    (forall r, r ∈ [Some 1; Some 2; Some 4; Some 5] -> exists m, framed (D := DpdkModel.dpdk) response_frame m /\ w_objs r w' = [m]) /\
    w_objs (Some 3) w' = [].
Proof.
  split; [reflexivity|].
  destruct (tap_frame_distributed (D := DpdkModel.dpdk) response_frame tap_core tap_world (tap_packet <$> [1; 2; 3; 4; 5; 6]) 0)
    as (w' & pool' & E & Hto & Hr & _ & _).
  - exact model_enobufs.
  - reflexivity.
  - exact tap_core_ok.
  - repeat (constructor; [apply tap_packet_buf|]). constructor.
  - cbn. lia.
  - apply bytes_okb_ok. vm_compute. reflexivity.
  - vm_compute. split; congruence.
  - exists w', pool'. split; [exact E|]. change (announcement response_frame) with true in Hr. cbv iota in Hr. split.
    + intros r Hin. repeat (apply elem_of_cons in Hin as [->|Hin]); [exact Hto|refine (Hr (Some 2) _); by apply (bool_decide_unpack _)|refine (Hr (Some 4) _); by apply (bool_decide_unpack _)|
        refine (Hr (Some 5) _); by apply (bool_decide_unpack _)|by apply elem_of_nil in Hin].
    + refine (Hr (Some 3) _). by apply (bool_decide_unpack _).
Defined.

Definition tap_tx0 : CoreTapTx.CoreTapTx :=
  CoreTapTx.mk (mk_core 0 0 1 0 0 0 0 0 0 4 3 None None [] 0 CoreCounter.Clear) 7 [Some 2] [] 1000 0 None [].
Definition queued_world : @world DpdkModel.dpdk rte_mbuf :=
  @mk_world DpdkModel.dpdk rte_mbuf {[ 2 := (9%nat, [mk_mbuf 1 [7; 8; 9] 1 2 2 1 None 0 0]) : DpdkModel.queue rte_mbuf ]} [].
Definition tap_tx1 : CoreTapTx.CoreTapTx :=
  match CoreTapTx.Cycle (fun f => zlen f) 2000000000 1500 0 (tap_tx0, queued_world) with Ok (_, (x, _)) => x | _ => tap_tx0 end.

Lemma tap_tx0_ok : @tap_tx_ok DpdkModel.dpdk tap_tx0 queued_world.
Proof.
  constructor; [repeat (constructor; [eexists; vm_compute; reflexivity|]); constructor|vm_compute; split; congruence|].
  constructor; [reflexivity|constructor].
Qed.

Lemma tap_rate_limited_witness :
  CoreTapTx.wire tap_tx1 = [[8; 9]] /\
  exists l, CoreTapTx.wire tap_tx1 = [] ++ l /\ zlen l <= MAXPACKET_PER_SECOND + 4.
Proof.
  split; [vm_compute; reflexivity|].
  destruct (tap_tx_conserves (D := DpdkModel.dpdk) (fun f => zlen f) 2000000000 1500 0 tap_tx0 queued_world tap_tx0_ok)
    as (x' & w' & E & _); [vm_compute; split; congruence|].
  apply (tap_rate_limited (D := DpdkModel.dpdk) 2000000000 tap_tx0 tap_tx1); [|reflexivity|vm_compute; congruence].
  unfold tap_tx1. rewrite E.
  eapply (@period_cycle DpdkModel.dpdk 2000000000 tap_tx0 tap_tx0 queued_world); [apply period_start|exact tap_tx0_ok| |exact E].
  vm_compute. reflexivity.
Defined.
End Properties.
