(* ===== verification/SessionFlow.v ===== *)
(** * From the subscriber's request to the user plane

    The composition of the two planes: a Create Session Request is answered by
    the control plane (CtrlSession, CtrlAnswers), its response crosses the host
    stack and the tap device, the tap core duplicates it to the warm-up rings
    (Tap), and the PGW workers file the session it announces (PgwBase), where the
    packets of the user find it.

    The host stack is the kernel's: it is assumed to put the 42 bytes of
    Ethernet, IP and UDP header of its choice, with the GTP-C port, before the
    payload, and nothing behind it. *)

From S2P Require Import Prelude Dpdk Packet LookupTpl CoreBase PgwBase Tap.
From S2P Require IngressTunnel.
From S2P Require Import TextParse Gtpc GtpcItems GtpcParse CtrlNode CtrlSession CtrlAnswers.

(** ** Frames *)
Record host_header (hdr : list Z) : Prop := {
  hh_len : zlen hdr = 42;
  hh_bytes : bytes_ok hdr;
  hh_udp : byte_at 23 hdr = Packet.IPPROTO_UDP;
  hh_port : be16_at 36 hdr = Packet.GTPC_PORT;
}.

Section frames.
Context {D : Type} `{DB : Database D} `{PB : PgwBuild}.

Lemma builds_bytes m its : builds m its -> bytes_ok (concat its.*2).
Proof.
  intros (l & _ & Hl & <-). clear m. induction Hl as [|e l [_ He] _ IH]; cbn; [done|].
  apply Forall_app_2; [by apply Forall_slice|done].
Qed.

Lemma reply_bytes_ok type teid seqno its :
  byte_ok type -> bytes_ok (concat its.*2) -> bytes_ok (reply_bytes type teid seqno its).
Proof.
  intros Ht Hb. unfold reply_bytes. constructor; [unfold byte_ok; lia|]. constructor; [done|].
  repeat apply Forall_app_2; [apply be_store_ok|apply le_store_ok|apply le_store_ok|done].
Qed.

(** A message of the control plane in a frame of the host stack. *)
Lemma gtpc_type_reply hdr type teid seqno its :
  host_header hdr -> 8 + total its <= Packet.ETHER_MAX_LEN -> byte_ok type ->
  gtpc_type (hdr ++ reply_bytes type teid seqno its) = type.
Proof.
  intros [Lh _ Hu Hp] Hl Ht. unfold gtpc_type, byte_at, be16_at in *. unfold Packet.ETHER_MAX_LEN in *.
  assert (E' : forall p n, 42 <= p -> slice p n (hdr ++ reply_bytes type teid seqno its) = slice (p - 42) n (reply_bytes type teid seqno its))
    by (intros; rewrite slice_app_r by lia; by rewrite Lh).
  rewrite (slice_app_l 23), (slice_app_l 36) by lia. rewrite Hu, Hp, !E' by lia. unfold reply_bytes.
  change (zlen (concat its.*2)) with (total its). assert (H0 : 0 <= total its) by (unfold total; lia).
  pose proof (be_store_load 2 (8 + total its)) as El. destruct (be_store_2 (8 + total its)) as (a & b & Eb). rewrite Eb in *.
  change (42 - 42) with 0. change (43 - 42) with 1. change (44 - 42) with 2.
  set (l := 72 :: type :: [a; b] ++ _). change (slice 0 1 l) with [72]. change (slice 1 1 l) with [type]. change (slice 2 2 l) with [a; b].
  rewrite El by (change (256 ^ Z.of_nat 2) with 65536; lia).
  rewrite (proj2 (Z.ltb_ge _ _)) by lia. transitivity (be_load [type]); [reflexivity|].
  unfold be_load. change (reverse [type]) with [type]. cbn [le_load]. lia.
Qed.
End frames.

(** ** What the accepting answer carries *)
Section answer.
Context {D : Type} `{DB : Database D} `{PB : PgwBuild}.
Hypothesis Hbind : forall st k db, db_bind st k db = true.

(** Its frame is the announcement of the session. *)
Lemma answer_announces hdr teid seqno pinst cs :
  host_header hdr -> session_wf cs -> answerable cs = true ->
  let f := hdr ++ reply_bytes GTPC_CREATE_SESSION_RES teid seqno (accept_reply pinst cs) in
  let ext := wire GTPC_TYPE_PRIVATE_EXTENSION 0 (private_value (ps cs)) in
  bytes_ok f /\ 0 < zlen f <= MAX_PACKET_SZ /\ (exists pre, f = pre ++ ext) /\ session_response f = true.
Proof.
  intros Hh Hw Ha f ext. destruct (create_accept_message pinst cs Hw Ha) as [_ Ht Hbld Hfit].
  pose proof (builds_bytes _ _ Hbld) as Hb. pose proof (hh_len _ Hh) as Lh. pose proof (private_size cs Hw) as Lp.
  set (its := accept_reply pinst cs) in *. unfold ETHER_MAX_LEN in Hfit.
  assert (Lf : zlen f = 54 + total its).
  { unfold f, reply_bytes, seqno_bytes, total. cbn [length]. rewrite !length_app. cbn [length].
    rewrite !length_app, length_be_store, !length_le_store. lia. }
  assert (Hits : exists front, its = cause_reply GTPC_CAUSE_REQUEST_ACCEPTED :: front ++ [private_reply cs]).
  { unfold its, accept_reply. eexists (_ :: _ :: _ :: _ :: pco_reply cs ++ [_; _]). cbn [app]. rewrite <-app_assoc. reflexivity. }
  destruct Hits as (front & Eits).
  assert (Htot : 38 <= total its).
  { rewrite Eits. change (cause_reply ?c :: ?l) with ([cause_reply c] ++ l). rewrite !total_app. unfold cause_reply, private_reply.
    rewrite !total_cons, !total_nil, Lp. unfold total. cbn [length]. lia. }
  assert (Htype : gtpc_type f = GTPC_CREATE_SESSION_RES).
  { apply gtpc_type_reply; [done|unfold Packet.ETHER_MAX_LEN; lia|done]. }
  split_and!.
  - apply Forall_app_2; [apply Hh|]. by apply reply_bytes_ok.
  - lia.
  - unfold MAX_PACKET_SZ. lia.
  - exists (hdr ++ ([72; GTPC_CREATE_SESSION_RES] ++ be_store 2 (8 + zlen (concat its.*2)) ++ le_store 4 teid ++ seqno_bytes seqno ++
              concat (cause_reply GTPC_CAUSE_REQUEST_ACCEPTED :: front).*2)).
    unfold f, reply_bytes. rewrite Eits at 2. unfold ext, private_reply, named.
    change (cause_reply ?c :: front ++ ?r) with ((cause_reply c :: front) ++ r). rewrite fmap_app, concat_app. cbn [fmap list_fmap concat snd]. by rewrite app_nil_r, <-!app_assoc.
  - unfold session_response. rewrite Lf, Htype, (proj2 (Z.ltb_lt _ _)) by lia. reflexivity.
Qed.
End answer.

(** ** The whole way *)
Module Properties.
(** No field of the announced session is zero: the workers skip such messages. *)
Definition session_complete (st : gtpc_parse_state) : bool :=
  negb (le_load (ue_ipv_n st) =? 0) && negb (u32 (pgw_teid st) =? 0) &&
  negb (le_load (slice o_f_teid_blk 4 (ies st u_teid)) =? 0) && negb (le_load (slice o_f_teid_key 4 (ies st u_teid)) =? 0) &&
  negb (le_load (pgw_u_ipv_n st) =? 0).

Lemma announced_complete st t :
  Tap.Properties.announced st t -> PgwCycle.complete_item t = session_complete st.
Proof. intros (E1 & E2 & E3 & E4 & E5). unfold PgwCycle.complete_item, session_complete. by rewrite E1, E2, E3, E4, E5. Qed.

Lemma announced_key st t ty :
  addr_ok (ue_ipv_n st) -> Tap.Properties.announced st t -> 0 <= PgwBase.Properties.session_key ty t < 2 ^ 32.
Proof.
  intros [L Hb] (E1 & E2 & _). unfold PgwBase.Properties.session_key. case_bool_decide; rewrite ?E1, ?E2.
  - pose proof (le_load_range _ Hb) as R. by rewrite L in R.
  - apply wrap_range. lia.
Qed.

Section properties.
Context {D : Type} `{DB : Database D} `{PB : PgwBuild}.
Context {DP : Dpdk} {DPO : DpdkOk DP} `{B : Build} {W : Type} `{!PgwWorker W}.

(** A frame on the warm-up ring of a worker: after the next warm-up the worker
    finds the session. *)
Lemma announced_found hdr teid seqno pinst cs (f := hdr ++ reply_bytes GTPC_CREATE_SESSION_RES teid seqno (accept_reply pinst cs))
    (y : W) r w w' uninit :
  host_header hdr -> session_wf cs -> answerable cs = true -> session_complete (ps cs) = true ->
  Tap.Properties.warmup_due y r -> w_objs (Some r) w = [] -> 0 < w_room (Some r) w ->
  arrives f (Some r) w w' ->
  exists y' w'' t, PgwCycle.warmup uninit (y, w') = Ok (y', w'') /\ Tap.Properties.announced (ps cs) t /\
    CorePgwBaseWorker.Find (PgwBase.Properties.session_key GetType t) (base y') = Ok (0, Some t).
Proof.
  intros Hh Hw Ha Hc Hdue Ho Hroom Harr. destruct (answer_announces hdr teid seqno pinst cs Hh Hw Ha) as (_ & _ & (pre & Epre) & _).
  fold f in Epre. unfold arrives in Harr. rewrite (proj2 (Z.ltb_lt _ _) Hroom) in Harr. destruct Harr as (m & Hm & Hobj).
  rewrite Ho in Hobj. cbn [app] in Hobj.
  assert (Hv : w_valid (Some r) w') by (unfold w_objs, w_valid in *; destruct (w_ring (Some r) w'); [by eexists|done]).
  pose proof Hw as [Hs [Lue Hue] [Lu Hu] _].
  destruct (Tap.Properties.extension_values (ps cs) _
    (Tap.Properties.Build_announcing _ Hs (conj Lue Hue) (conj Lu Hu)) (private_wire cs Hw))
    as (_ & _ & _ & Hval).
  destruct (Hval f pre m uninit Hm Epre) as (t & Ei & Hann).
  destruct (Tap.Properties.warmup_finds y r m w' uninit t Hdue Hv Hobj Ei) as (y' & w'' & E & _ & Ef).
  - by rewrite (announced_complete _ _ Hann).
  - by eapply announced_key; [exact (conj Lue Hue)|].
  - exists y', w'', t. done.
Qed.

(** C3: from the subscriber's request to the user plane: when the control plane
    accepts a Create Session Request, the response it sends, arriving at the data
    plane in a frame of the host stack, makes every PGW worker whose warm-up ring
    has room find the session of the user from its next warm-up on, with the
    addresses and tunnel identifiers the response announces. *)
Theorem created_session_is_served (malloc : nat -> bool) (erange erange' : bool) (pinst : handle) (pckt : packet_t) (c c1 : ctx D)
    (p : gtp_packet) (cs cs' : session) (db : D) (hdr : list Z) (cnt : Z) (x : CoreTapRx.CoreTapRx) (w : world rte_mbuf)
    (pool : list rte_mbuf) (y : W) (r : Z) (uninit : lookup_t) :
  (forall n, malloc n = true) -> (forall st k db, db_bind st k db = true) -> from_network pckt ->
  read_request malloc false pckt c = Ok (Some (p, cs), c1) ->
  create_verdict erange erange' pinst cs (c_db c) = (true, cs', db) -> answerable cs' = true -> session_complete (ps cs') = true ->
  host_header hdr -> Tap.Properties.enobufs -> TEST_MODE = false -> Tap.Properties.tap_ok x w -> Forall tap_buf pool ->
  (length (Tap.Properties.tap_rings x) < length pool)%nat -> Some r ∈ Tap.Properties.tap_rings x ->
  Tap.Properties.warmup_due y r -> w_objs (Some r) w = [] -> 0 < w_room (Some r) w ->
  exists c' resp w' pool' y' w'' t,
    CreateSession._on_create_session malloc erange erange' pinst pckt c = Ok (OK, c') /\
    c_node c' = (pgw_enq EGRESS resp (c_node c)).2 /\
    CoreTapRx.Cycle (Some (hdr ++ data resp)) cnt x (w, pool) =
      Ok (if 0 <? w_room (ring_to_ (CoreTapRx.core x)) w then 0 else -1, (w', pool')) /\
    PgwCycle.warmup uninit (y, w') = Ok (y', w'') /\ Tap.Properties.announced (ps cs') t /\
    CorePgwBaseWorker.Find (PgwBase.Properties.session_key GetType t) (base y') = Ok (0, Some t).
Proof.
  intros Hm Hb Hn Er Ev Ha Hc Hh Henb Ht Hok Hpool Hlen Hr Hdue Ho Hroom.
  pose proof (read_request_inv _ _ _ _ _ _ _ Hn Er) as Hread. pose proof (ro_wf _ _ _ _ _ _ Hread) as Hw.
  pose proof (create_verdict_wf Hb _ _ _ _ _ _ _ Hw Ev) as Hw'.
  pose proof (create_session_ok malloc Hm Hb erange erange' pinst pckt c p cs c1 Hn Er) as H. rewrite Ev, Ha in H. cbn [negb andb] in H.
  destruct H as (rc0 & c' & Ec & _ & -> & Hans). destruct Hans as (Henq & _).
  set (resp := response pckt GTPC_CREATE_SESSION_RES (teid_grekey c_teid cs) (accept_reply pinst cs')) in *.
  destruct (answer_announces hdr (teid_grekey c_teid cs) (request_seqno pckt) pinst cs' Hh Hw' Ha) as (Hfb & Hfl & (pre & Epre) & Hresp).
  change (hdr ++ reply_bytes _ _ _ _) with (hdr ++ data resp) in *.
  pose proof Hw' as [Hs [Lue Hue] [Lu Hu] _].
  destruct (Tap.Properties.extension_values (ps cs') _ (Tap.Properties.Build_announcing _ Hs (conj Lue Hue) (conj Lu Hu)) (private_wire cs' Hw'))
    as (_ & _ & Hends & _).
  assert (Hann : announcement (hdr ++ data resp) = true) by (unfold announcement; by rewrite Hresp, Epre, Hends).
  destruct (Tap.Properties.tap_frame_ok (hdr ++ data resp) x w pool cnt Henb Ht Hok Hpool Hlen Hfb Hfl)
    as (w' & pool' & Ecyc & _ & Harr & _). specialize (Harr _ Hr). rewrite Hann in Harr.
  destruct (announced_found hdr (teid_grekey c_teid cs) (request_seqno pckt) pinst cs' y r w w' uninit Hh Hw' Ha Hc Hdue Ho Hroom Harr)
    as (y' & w'' & t & Hwarm & Han & Hf).
  by exists c', resp, w', pool', y', w'', t.
Qed.
End properties.

(** *** Example: the gateway and the request of CtrlAnswers, the tap core of Tap,
    an ingress worker on ring 4. *)
#[local] Instance build0 : PgwBuild := { PGW_RECOVERY_COUNT := 7; IPV64 := true }.
#[local] Instance plain_build : Build := {|
  ARCH := 11; TEST_MODE := false; CANNOT_USE_GRE := false; COUNTER_RX := false;
  TUNNEL_RX := false; NON_SUPPORTED_ERRIND := true |}.
#[local] Existing Instance CtrlAnswers.Properties.session_db.
#[local] Existing Instance DpdkModel.dpdk.
Import CtrlAnswers.Properties.
Definition udp_header : list Z := repeat 0 23 ++ [17] ++ repeat 0 12 ++ [8; 75] ++ repeat 0 4.
Definition waiting_worker : PgwBase :=
  mk_base (mk_core 0 0 1 0 0 0 0 0 0 4 3 (Some 1) (Some 2) [] 0 CoreCounter.Clear) 3500001 0 0 0 0 0 1 0
    (Lookup.Create 64) ∅ None (Some 4) zero_lookup 0 0 0 0 0.
#[local] Instance waiting : PgwWorker PgwBase :=
  IngressTunnel.CorePgwIngressTunnelWorker.ingress_worker (D := DpdkModel.dpdk).

Lemma waiting_due : Tap.Properties.warmup_due (D := DpdkModel.dpdk) waiting_worker 4.
Proof. by constructor; try (vm_compute; (congruence || (split; congruence))). Qed.

Lemma udp_header_ok : host_header udp_header.
Proof. constructor; [reflexivity|apply bytes_okb_ok; vm_compute; reflexivity|reflexivity|reflexivity]. Qed.

Definition served (cs : session) : bool :=
  let '(ok, cs', _) := create_verdict false false gateway cs (c_db ctx0) in
  ok && answerable cs' && session_complete (ps cs').

Lemma created_session_is_served_witness : exists p cs c1 cs' db,
  read_request all_true false (packet_of create_bytes) ctx0 = Ok (Some (p, cs), c1) /\
  create_verdict false false gateway cs (c_db ctx0) = (true, cs', db) /\
  exists resp w' pool' y' w'' t,
    CoreTapRx.Cycle (D := DpdkModel.dpdk) (Some (udp_header ++ data resp)) 0 Tap.Properties.tap_core
      (Tap.Properties.tap_world, Tap.Properties.tap_packet <$> [1; 2; 3; 4; 5; 6]) = Ok (0, (w', pool')) /\
    PgwCycle.warmup (D := DpdkModel.dpdk) zero_lookup (waiting_worker, w') = Ok (y', w'') /\
    Tap.Properties.announced (ps cs') t /\ CorePgwBaseWorker.Find (ue_teid t) y' = Ok (0, Some t).
Proof.
  assert (H : read_to false create_bytes served = true) by (vm_compute; reflexivity). unfold read_to, served in H.
  destruct (read_request all_true false (packet_of create_bytes) ctx0) as [[[[p cs]|] c1]|] eqn:E; try discriminate H.
  destruct (create_verdict false false gateway cs (c_db ctx0)) as [[ok cs'] db] eqn:Ev.
  apply andb_prop in H as [[Hok H2]%andb_prop H3]. subst ok.
  exists p, cs, c1, cs', db. split; [reflexivity|]. split; [exact Ev|].
  destruct (created_session_is_served (DP := DpdkModel.dpdk) all_true false false gateway (packet_of create_bytes) ctx0 c1 p cs cs' db
    udp_header 0 Tap.Properties.tap_core Tap.Properties.tap_world (Tap.Properties.tap_packet <$> [1; 2; 3; 4; 5; 6])
    waiting_worker 4 zero_lookup) as (c' & resp & w' & pool' & y' & w'' & t & _ & _ & Ecyc & Ew & Ha & Hf).
  - reflexivity.
  - reflexivity.
  - apply packet_of_network. vm_compute. reflexivity.
  - exact E.
  - exact Ev.
  - exact H2.
  - exact H3.
  - exact udp_header_ok.
  - exact Tap.Properties.model_enobufs.
  - reflexivity.
  - exact Tap.Properties.tap_core_ok.
  - repeat (constructor; [apply Tap.Properties.tap_packet_buf|]). constructor.
  - cbn. lia.
  - apply (bool_decide_unpack _). vm_compute. exact I.
  - exact waiting_due.
  - reflexivity.
  - reflexivity.
  - exists resp, w', pool', y', w'', t.
    split; [exact Ecyc|]. split; [exact Ew|]. split; [exact Ha|exact Hf].
Defined.
End Properties.
