(* ===== verification/App.v ===== *)
(** * The application: cores, rings between them, configuration

    [App] of dataplane/src/app/app.cc, with [StaticConf] of
    dataplane/src/conf/static_conf.cc and the registration of [AppV2]
    (app_v2.cc): the map of the cores, the software rings [Connect] lays between
    them, [Commit], and the configuration file [LoadConfig] reads and
    [SwapConfig] hands to the cores.  How the cores run is in AppRun, the
    architectures that are built with these calls in Arch.

    [AnyCore] is a pointer to a [CoreInterface]: one constructor per class, the
    virtual functions by case.  Of a PGW worker only the base is kept, all that
    these operations touch.  A ring is named by the pointer [rte_ring_create]
    answers; what the n-th call answers is an argument. *)

From S2P Require Import Prelude Dpdk Packet LookupTpl CoreBase TextParse PgwBase.
From S2P Require Import CapsuleWorkers RxTx Counter Transfer Tap.

(** ** [StaticConf] *)
Definition NIC_RXRING := 1024.
Definition NIC_TXRING := 1024.
Definition WORKER_RXRING := 4096.
Definition WORKER_TXRING := 4096.
Definition NIC_RXBURST := 128.
Definition NIC_TXBURST := 128.
Definition WORKER_RX_ENQ_BURST := 128.
Definition WORKER_RX_DEQ_BURST := 16.
Definition WORKER_TX_ENQ_BURST := 4.
Definition WORKER_TX_DEQ_BURST := 4.

Record StaticConf := mk_conf {
  nic_rx_ring_size_ : Z; nic_tx_ring_size_ : Z; rx_ring_size_ : Z; tx_ring_size_ : Z;
  burst_size_rx_read_ : Z; burst_size_rx_enq_ : Z; burst_size_rx_deq_ : Z;
  burst_size_tx_enq_ : Z; burst_size_tx_deq_ : Z; burst_size_tx_write_ : Z;
}.
Definition StaticConf_new : StaticConf :=
  mk_conf NIC_RXRING NIC_TXRING WORKER_RXRING WORKER_TXRING NIC_RXBURST WORKER_RX_ENQ_BURST
    WORKER_RX_DEQ_BURST WORKER_TX_ENQ_BURST WORKER_TX_DEQ_BURST NIC_TXBURST.

(** ** The cores behind the interface *)
Inductive pgw_class :=
| IngressTunnelWorker | EgressTunnelWorker | IngressDistributorWorker | EgressDistributorWorker
| IngressWorker | EgressWorker.
Inductive counter_class := PlainCounter | IngressCounter | EgressCounter.
Inductive AnyCore :=
| ARx (x : CoreRx.CoreRx)
| ARxDistributor (x : CoreRxDistributor.CoreRxDistributor)
| ATx (x : CoreTx.CoreTx)
| ATapRx (x : CoreTapRx.CoreTapRx)
| ATapTx (x : CoreTapTx.CoreTapTx)
| APgw (k : pgw_class) (b : PgwBase)
| AEncap (x : CoreEncapWorker.EncapWorker)
| AGtpu2Gre (x : CoreGtpu2GreWorker.Gtpu2GreWorker)
| AGreterm (x : CoreGretermWorker.GretermWorker)
| ACounter (k : counter_class) (x : CounterWorker)
| ALog (x : CoreCounterLogWorker.LogWorker)
| ATransfer (x : CoreTransferWorker.TransferWorker).

Section cores.
Context `{D : Dpdk} `{B : Build}.
Implicit Types (c : AnyCore).

Definition GetType c : TYPE :=
  match c with
  | ARx _ => CoreRx.GetType
  | ARxDistributor _ => CoreRxDistributor.GetType
  | ATx _ => CoreTx.GetType
  | ATapRx _ => CoreTapRx.GetType
  | ATapTx _ => CoreTapTx.GetType
  | APgw (IngressTunnelWorker | IngressDistributorWorker | IngressWorker) _ => PGW_INGRESS
  | APgw (EgressTunnelWorker | EgressDistributorWorker | EgressWorker) _ => PGW_EGRESS
  | AEncap _ => CoreEncapWorker.GetType
  | AGtpu2Gre _ => CoreGtpu2GreWorker.GetType
  | AGreterm _ => CoreGretermWorker.GetType
  | ACounter PlainCounter _ => CoreCounterWorker.GetType
  | ACounter _ _ => CoreCounterIngressWorker.GetType
  | ALog _ => CoreCounterLogWorker.GetType
  | ATransfer _ => CoreTransferWorker.GetType
  end.

Definition GetObjectName c : cstring :=
  lit match c with
  | ARx _ => "CoreRx"
  | ARxDistributor _ => "CoreRxDistributor"
  | ATx _ => "CoreTx"
  | ATapRx _ => "CoreTapRx"
  | ATapTx _ => "CoreTapTx"
  | APgw IngressTunnelWorker _ => "CorePgwIngressTunnelWorker"
  | APgw EgressTunnelWorker _ => "CorePgwEgressTunnelWorker"
  | APgw IngressDistributorWorker _ => "CorePgwIngressDistributorWorker"
  | APgw EgressDistributorWorker _ => "CorePgwEgressDistributorWorker"
  | APgw IngressWorker _ => "CorePgwIngressWorker"
  | APgw EgressWorker _ => "CorePgwEgressWorker"
  | AEncap _ => "CoreEncapWorker"
  | AGtpu2Gre _ => "CoreGtpu2GreWorker"
  | AGreterm _ => "CoreGretermWorker"
  | ACounter _ _ => "CoreCounterWorker"
  | ALog _ => "CoreCounterLogWorker"
  | ATransfer _ => "CoreTransferWorker"
  end.

(** The [CoreInterface] part of a core, read and changed. *)
Definition read_core (f : forall A, CoreInterface A -> Z) c : Z :=
  match c with
  | ARx x => f _ (rcore (CoreRx.rx x))
  | ARxDistributor x => f _ (rcore (CoreRxDistributor.rx x))
  | ATx x => f _ (CoreTx.tcore x)
  | ATapRx x => f _ (CoreTapRx.core x)
  | ATapTx x => f _ (CoreTapTx.core x)
  | APgw _ b => f _ (core b)
  | AEncap x => f _ (CoreEncapWorker.ecore x)
  | AGtpu2Gre x => f _ (CoreGtpu2GreWorker.gcore x)
  | AGreterm x => f _ (CoreGretermWorker.tcore x)
  | ACounter _ x => f _ (ccore x)
  | ALog x => f _ (CoreCounterLogWorker.gcore x)
  | ATransfer x => f _ (CoreTransferWorker.tcore x)
  end.
Definition on_core (f : forall A, CoreInterface A -> CoreInterface A) c : AnyCore :=
  match c with
  | ARx x => ARx (CoreRx.mk (RxBuffers.set_rcore (f _ (rcore (CoreRx.rx x))) (CoreRx.rx x)) (CoreRx.type_ x) (CoreRx.ring_test_from_ x))
  | ARxDistributor x => let s := CoreRxDistributor.rx x in
      ARxDistributor (CoreRxDistributor.mk (RxBuffers.set_rcore (f _ (rcore s)) s) (CoreRxDistributor.ring_tap_tx_ x) (CoreRxDistributor.ring_test_from_ x))
  | ATx x => ATx (CoreTx.mk (f _ (CoreTx.tcore x)) (CoreTx.ring_tx_ x) (CoreTx.ring_test_to_ x) (CoreTx.debug_flag_ x) (CoreTx.wire x))
  | ATapRx x => ATapRx (CoreTapRx.mk (f _ (CoreTapRx.core x)) (CoreTapRx.tap_nm_ x) (CoreTapRx.tap_fd_ x) (CoreTapRx.mpl_ x)
                  (CoreTapRx.ring_test_from_ x) (CoreTapRx.ring_tap_ingress_ x) (CoreTapRx.ring_tap_egress_ x))
  | ATapTx x => ATapTx (CoreTapTx.mk (f _ (CoreTapTx.core x)) (CoreTapTx.tap_fd_ x) (CoreTapTx.ring_tap_ingress_ x)
                  (CoreTapTx.ring_tap_egress_ x) (CoreTapTx.cur_cycle_ x) (CoreTapTx.cur_count_ x) (CoreTapTx.mpl_ x) (CoreTapTx.wire x))
  | APgw k b => APgw k (set_core (f _ (core b)) b)
  | AEncap x => AEncap (CoreEncapWorker.set_ecore (f _ (CoreEncapWorker.ecore x)) x)
  | AGtpu2Gre x => AGtpu2Gre (CoreGtpu2GreWorker.mk_g2g (f _ (CoreGtpu2GreWorker.gcore x)) (CoreGtpu2GreWorker.pgwipv4_ x))
  | AGreterm x => AGreterm (CoreGretermWorker.mk_greterm (f _ (CoreGretermWorker.tcore x)) (CoreGretermWorker.opt_ x))
  | ACounter k x => ACounter k (CoreCounterWorker.set_ccore (f _ (ccore x)) x)
  | ALog x => ALog (CoreCounterLogWorker.set_gcore (f _ (CoreCounterLogWorker.gcore x)) x)
  | ATransfer x => ATransfer (CoreTransferWorker.set_tcore (f _ (CoreTransferWorker.tcore x)) x)
  end.

Definition GetN (key : KEY) c : Z :=
  match c with
  | ATapRx x => CoreTapRx.GetN key x
  | APgw _ b => CorePgwBaseWorker.GetN key b
  | AEncap x => CoreEncapWorker.GetN key x
  | AGtpu2Gre x => CoreGtpu2GreWorker.GetN key x
  | ALog x => CoreCounterLogWorker.GetN key x
  | ATransfer x => CoreTransferWorker.GetN key x
  | _ => read_core (fun _ i => CoreInterface.GetN key i) c
  end.
Definition SetN (key : KEY) (v : Z) c : AnyCore :=
  match c with
  | APgw k b => APgw k (CorePgwBaseWorker.SetN key v b)
  | AGtpu2Gre x => AGtpu2Gre (CoreGtpu2GreWorker.SetN key v x)
  | _ => on_core (fun _ i => CoreInterface.SetN key v i) c
  end.
(** The memory pool; the classes without a pool only log it. *)
Definition SetP (key : KEY) (p : option Z) c : AnyCore :=
  match c with
  | ATapRx x => ATapRx (CoreTapRx.SetP key p x)
  | ATapTx x => ATapTx (CoreTapTx.SetP key p x)
  | _ => c
  end.
Definition SetRingAddr (order : ORDER) (ring : option Z) c : res AnyCore :=
  match c with
  | ARx x => x ← CoreRx.SetRingAddr order ring x; Ok (ARx x)
  | ARxDistributor x => x ← CoreRxDistributor.SetRingAddr order ring x; Ok (ARxDistributor x)
  | ATx x => x ← CoreTx.SetRingAddr order ring x; Ok (ATx x)
  | ATapRx x => x ← CoreTapRx.SetRingAddr order ring x; Ok (ATapRx x)
  | ATapTx x => x ← CoreTapTx.SetRingAddr order ring x; Ok (ATapTx x)
  | APgw k b => b ← CorePgwBaseWorker.SetRingAddr order ring b; Ok (APgw k b)
  | AEncap x => x ← CoreEncapWorker.SetRingAddr order ring x; Ok (AEncap x)
  | AGtpu2Gre x => x ← CoreGtpu2GreWorker.SetRingAddr order ring x; Ok (AGtpu2Gre x)
  | AGreterm x => x ← CoreGretermWorker.SetRingAddr order ring x; Ok (AGreterm x)
  | ACounter k x => x ← CoreCounterWorker.SetRingAddr order ring x; Ok (ACounter k x)
  | ALog x => x ← CoreCounterLogWorker.SetRingAddr order ring x; Ok (ALog x)
  | ATransfer x => x ← CoreTransferWorker.SetRingAddr order ring x; Ok (ATransfer x)
  end.
End cores.

(** ** The configuration of the process: the variables app.cc keeps outside the
    class, by the key of the configuration file. *)
Record Statics := mk_statics {
  s_PGW_LOG_LEVEL : Z;
  s_CONF_TMP_ : StaticConf;
  s_FLUSH_COUNTER : Z; s_FLUSH_ENCAP : Z; s_FLUSH_GRETERM : Z; s_FLUSH_PGW_IE : Z;
  s_FLUSH_RX : Z; s_FLUSH_RX_DIST : Z; s_FLUSH_TX : Z;
  s_POLICER_CIR : Z; s_POLICER_CBS : Z; s_POLICER_EIR : Z; s_POLICER_EBS : Z;
}.
Definition _FLUSH_RX_ := 100000.
Definition _FLUSH_TX_ := 100000.
Definition _FLUSH_WORKER_ := 100000.
Definition POLICER_CIR_DEFAULT := 128.
Definition POLICER_CBS_DEFAULT := 12500.
Definition POLICER_EIR_DEFAULT := 128.
Definition POLICER_EBS_DEFAULT := 12500.
Definition RTE_LOG_DEBUG := 8.
Definition statics0 : Statics :=
  mk_statics (RTE_LOG_DEBUG + 1) StaticConf_new _FLUSH_WORKER_ _FLUSH_TX_ _FLUSH_TX_ _FLUSH_TX_ _FLUSH_RX_ _FLUSH_RX_
    _FLUSH_TX_ POLICER_CIR_DEFAULT POLICER_CBS_DEFAULT POLICER_EIR_DEFAULT POLICER_EBS_DEFAULT.

Inductive CFG :=
| CFG_LOGLEVEL
| CFG_BURST_RX_READ | CFG_BURST_RX_ENQ | CFG_BURST_RX_DEQ | CFG_BURST_TX_ENQ | CFG_BURST_TX_DEQ | CFG_BURST_TX_WRITE
| CFG_FLUSH_COUNTER | CFG_FLUSH_ENCAP | CFG_FLUSH_GRETERM | CFG_FLUSH_PGW_IE | CFG_FLUSH_RX | CFG_FLUSH_RX_DIST | CFG_FLUSH_TX
| CFG_POLICER_CIR | CFG_POLICER_CBS | CFG_POLICER_EIR | CFG_POLICER_EBS.
#[export] Instance CFG_eq_dec : EqDecision CFG.
Proof. solve_decision. Defined.

Definition cfg_name (k : CFG) : cstring :=
  lit match k with
  | CFG_LOGLEVEL => "loglevel"
  | CFG_BURST_RX_READ => "burst_size_rx_read"
  | CFG_BURST_RX_ENQ => "burst_size_rx_enq"
  | CFG_BURST_RX_DEQ => "burst_size_rx_deq"
  | CFG_BURST_TX_ENQ => "burst_size_tx_enq"
  | CFG_BURST_TX_DEQ => "burst_size_tx_deq"
  | CFG_BURST_TX_WRITE => "burst_size_tx_write"
  | CFG_FLUSH_COUNTER => "flush_counter"
  | CFG_FLUSH_ENCAP => "flush_encap"
  | CFG_FLUSH_GRETERM => "flush_greterm"
  | CFG_FLUSH_PGW_IE => "flush_pgw_ie"
  | CFG_FLUSH_RX => "flush_rx"
  | CFG_FLUSH_RX_DIST => "flush_rx_dist"
  | CFG_FLUSH_TX => "flush_tx"
  | CFG_POLICER_CIR => "policer_cir"
  | CFG_POLICER_CBS => "policer_cbs"
  | CFG_POLICER_EIR => "policer_eir"
  | CFG_POLICER_EBS => "policer_ebs"
  end.

(** The variable a key stands for, read and assigned. *)
Definition cfg_get (k : CFG) (s : Statics) : Z :=
  match k with
  | CFG_LOGLEVEL => s_PGW_LOG_LEVEL s
  | CFG_BURST_RX_READ => burst_size_rx_read_ (s_CONF_TMP_ s)
  | CFG_BURST_RX_ENQ => burst_size_rx_enq_ (s_CONF_TMP_ s)
  | CFG_BURST_RX_DEQ => burst_size_rx_deq_ (s_CONF_TMP_ s)
  | CFG_BURST_TX_ENQ => burst_size_tx_enq_ (s_CONF_TMP_ s)
  | CFG_BURST_TX_DEQ => burst_size_tx_deq_ (s_CONF_TMP_ s)
  | CFG_BURST_TX_WRITE => burst_size_tx_write_ (s_CONF_TMP_ s)
  | CFG_FLUSH_COUNTER => s_FLUSH_COUNTER s
  | CFG_FLUSH_ENCAP => s_FLUSH_ENCAP s
  | CFG_FLUSH_GRETERM => s_FLUSH_GRETERM s
  | CFG_FLUSH_PGW_IE => s_FLUSH_PGW_IE s
  | CFG_FLUSH_RX => s_FLUSH_RX s
  | CFG_FLUSH_RX_DIST => s_FLUSH_RX_DIST s
  | CFG_FLUSH_TX => s_FLUSH_TX s
  | CFG_POLICER_CIR => s_POLICER_CIR s
  | CFG_POLICER_CBS => s_POLICER_CBS s
  | CFG_POLICER_EIR => s_POLICER_EIR s
  | CFG_POLICER_EBS => s_POLICER_EBS s
  end.
Definition cfg_set (k : CFG) (v : Z) (s : Statics) : Statics :=
  let y k' := if decide (k = k') then v else cfg_get k' s in
  let c := s_CONF_TMP_ s in
  mk_statics (y CFG_LOGLEVEL)
    (mk_conf (nic_rx_ring_size_ c) (nic_tx_ring_size_ c) (rx_ring_size_ c) (tx_ring_size_ c)
       (y CFG_BURST_RX_READ) (y CFG_BURST_RX_ENQ) (y CFG_BURST_RX_DEQ)
       (y CFG_BURST_TX_ENQ) (y CFG_BURST_TX_DEQ) (y CFG_BURST_TX_WRITE))
    (y CFG_FLUSH_COUNTER) (y CFG_FLUSH_ENCAP) (y CFG_FLUSH_GRETERM) (y CFG_FLUSH_PGW_IE)
    (y CFG_FLUSH_RX) (y CFG_FLUSH_RX_DIST) (y CFG_FLUSH_TX)
    (y CFG_POLICER_CIR) (y CFG_POLICER_CBS) (y CFG_POLICER_EIR) (y CFG_POLICER_EBS).

(** The order in which the names are compared. *)
Definition cfg_keys : list CFG :=
  [CFG_LOGLEVEL; CFG_BURST_RX_READ; CFG_BURST_RX_ENQ; CFG_BURST_RX_DEQ; CFG_BURST_TX_ENQ; CFG_BURST_TX_DEQ; CFG_BURST_TX_WRITE;
   CFG_FLUSH_COUNTER; CFG_FLUSH_ENCAP; CFG_FLUSH_GRETERM; CFG_FLUSH_PGW_IE; CFG_FLUSH_RX; CFG_FLUSH_RX_DIST; CFG_FLUSH_TX;
   CFG_POLICER_CIR; CFG_POLICER_CBS; CFG_POLICER_EIR; CFG_POLICER_EBS].
Definition cfg_of (f : cstring) : option CFG := snd <$> list_find (fun k => cfg_name k = f) cfg_keys.
(** [s_PGW_LOG_LEVEL] is an [int], the others are cast to [uint32_t]. *)
Definition cfg_cast (k : CFG) (v : Z) : Z := match k with CFG_LOGLEVEL => v | _ => u32 v end.

(** ** [LoadConfig] *)

(** One line of the file, in the buffer [f]. *)
Definition load_line (line : list Z) (s : Statics) : Statics :=
  let f := until_nul line in
  match strchr f 61 with
  | None => s
  | Some p =>
      let val := drop (S p) f in
      let f := take p f in
      let f := match strchr f 10 with Some p2 => take p2 f | None => f end in
      match cfg_of f with Some k => cfg_set k (cfg_cast k (atoi val)) s | None => s end
  end.
(** The lines of the file, [fgets] with a buffer of 128 bytes. *)
Fixpoint load_lines (fuel : nat) (file : list Z) (s : Statics) : Statics :=
  match fuel with
  | O => s
  | S fuel' => match fgets 128 file with None => s | Some (line, rest) => load_lines fuel' rest (load_line line s) end
  end.
(** [file] is what the file of the process holds, [None] when it does not open. *)
Definition LoadConfig (file : option (list Z)) (s : Statics) : Statics :=
  match file with None => s | Some f => load_lines (length f) f s end.

(** ** [SwapConfig]: the variables handed to the cores *)

(** The burst sizes, by the type of the core. *)
Definition burst_from (t : TYPE) : CFG :=
  match t with
  | RX | TAPRX | PGW_INGRESS => CFG_BURST_RX_READ
  | WORKER | COUNTER | WORKER_TRANSFER => CFG_BURST_RX_DEQ
  | TX | TAPTX | PGW_EGRESS => CFG_BURST_TX_DEQ
  end.
Definition burst_to (t : TYPE) : CFG :=
  match t with
  | RX | TAPRX | PGW_INGRESS => CFG_BURST_RX_ENQ
  | WORKER | COUNTER | WORKER_TRANSFER => CFG_BURST_TX_ENQ
  | TX | TAPTX | PGW_EGRESS => CFG_BURST_TX_WRITE
  end.
(** The flush delay, by the name of the class. *)
Definition flush_delays : list (string * CFG) :=
  [("CoreCounterWorker", CFG_FLUSH_COUNTER); ("CoreEncapWorker", CFG_FLUSH_ENCAP); ("CoreGretermWorker", CFG_FLUSH_GRETERM);
   ("CoreGtpu2GreWorker", CFG_FLUSH_COUNTER); ("CorePgwEgressDistributorWorker", CFG_FLUSH_PGW_IE);
   ("CorePgwEgressWorker", CFG_FLUSH_PGW_IE); ("CorePgwIngressDistributorWorker", CFG_FLUSH_PGW_IE);
   ("CorePgwEgressTunnelWorker", CFG_FLUSH_PGW_IE); ("CorePgwIngressTunnelWorker", CFG_FLUSH_PGW_IE);
   ("CorePgwIngressWorker", CFG_FLUSH_PGW_IE); ("CoreRx", CFG_FLUSH_RX); ("CoreRxDistributor", CFG_FLUSH_RX);
   ("CoreTapRx", CFG_FLUSH_RX); ("CoreTapTx", CFG_FLUSH_TX); ("CoreTransferWorker", CFG_FLUSH_COUNTER); ("CoreTx", CFG_FLUSH_TX)]%string.
Definition flush_delay (objnm : cstring) : option CFG :=
  (fun x => x.2.2) <$> list_find (fun x => lit x.1 = objnm) flush_delays.

Section swap.
Context `{D : Dpdk} `{B : Build}.
Implicit Types (c : AnyCore).

Definition swap_core (s : Statics) c : AnyCore :=
  let c := SetN BURST_FROM (cfg_get (burst_from (GetType c)) s) c in
  let c := SetN BURST_TO (cfg_get (burst_to (GetType c)) s) c in
  let c := match flush_delay (GetObjectName c) with Some k => SetN FLUSH_DELAY (cfg_get k s) c | None => c end in
  let c := SetN POLICER_CIR (s_POLICER_CIR s) c in
  let c := SetN POLICER_CBS (s_POLICER_CBS s) c in
  let c := SetN POLICER_EIR (s_POLICER_EIR s) c in
  SetN POLICER_EBS (s_POLICER_EBS s) c.
End swap.

(** ** The application

    A core is named by its id: the pointers of [vcores_] are to cores of [cores_].
    [calls_] counts the calls of [rte_ring_create]. *)
Record App := mk_app {
  cores_ : gmap Z AnyCore;
  vcores_ : gmap Z Z;
  mpools_ : gmap Z Z;
  stat_ : Z;
  cnt_rx_ : Z; cnt_tx_ : Z; cnt_pgw_ingress_ : Z; cnt_pgw_egress_ : Z;
  conf_ : StaticConf;
  calls_ : nat;
}.
Definition App_new : App := mk_app ∅ ∅ ∅ 0 0 0 0 0 StaticConf_new 0.

(** The environment: the socket of a core, the pool of a socket ([None] when it
    cannot be created), the ring the n-th call of [rte_ring_create] answers. *)
Class Eal := {
  rte_lcore_to_socket_id : Z -> Z;
  rte_pktmbuf_pool : Z -> option Z;
  rte_ring_create : cstring -> Z -> Z -> nat -> option Z;
}.

Section app.
Context `{D : Dpdk} `{B : Build} `{E : Eal}.
Implicit Types (c : AnyCore) (a : App).

Definition set_cores (m : gmap Z AnyCore) a : App :=
  mk_app m (vcores_ a) (mpools_ a) (stat_ a) (cnt_rx_ a) (cnt_tx_ a) (cnt_pgw_ingress_ a) (cnt_pgw_egress_ a) (conf_ a) (calls_ a).

Definition SwapConfig (s : Statics) a : App := set_cores (swap_core s <$> cores_ a) a.

Definition Find (lcore : Z) (ext : bool) a : option AnyCore :=
  if negb ext then cores_ a !! lcore else l ← vcores_ a !! lcore; cores_ a !! l.

(** The types that use a second core, named by [GetN(OPT)]. *)
Definition two_cores (t : TYPE) : bool :=
  match t with WORKER_TRANSFER | PGW_EGRESS | PGW_INGRESS => true | _ => false end.

(** The pool of a socket, made when the socket is new. *)
Definition pool_of (sock : Z) (pools : gmap Z Z) : res (Z * gmap Z Z) :=
  match pools !! sock with
  | Some p => Ok (p, pools)
  | None => match rte_pktmbuf_pool sock with Some p => Ok (p, <[sock := p]> pools) | None => Fault RtePanic end
  end.

Definition Add (corei : option AnyCore) a : res App :=
  match corei with
  | None => Fault RtePanic
  | Some c =>
      if negb (stat_ a =? 0) then Fault RtePanic else
      let lcore := GetN LCORE c in
      if bool_decide (is_Some (Find lcore false a)) || (lcore =? 0) then Fault RtePanic else
      let vcores := if two_cores (GetType c) then <[GetN OPT c := lcore]> (vcores_ a) else vcores_ a in
      p ← pool_of (rte_lcore_to_socket_id lcore) (mpools_ a);
      let '(pool, pools) := p in
      Ok (mk_app (<[lcore := SetP OPT (Some pool) c]> (cores_ a)) vcores pools (stat_ a) (cnt_rx_ a) (cnt_tx_ a)
            (cnt_pgw_ingress_ a) (cnt_pgw_egress_ a) (conf_ a) (calls_ a))
  end.

(** The socket of a core: the second version of the application stores it. *)
Definition sock_of c : Z :=
  if (15 <=? ARCH) && (ARCH <=? 21) then GetN SOCKET c else rte_lcore_to_socket_id (GetN LCORE c).

(** The name of a ring. *)
Definition ring_name (sock : Z) (fm : string) (lcore_fm : Z) (to : string) (lcore_to : Z) : cstring :=
  snprintf 128 (lit "node_" ++ print_u sock ++ lit "_" ++ lit fm ++ lit "_" ++ print_u lcore_fm ++ lit "_" ++ lit to ++
                lit "_" ++ print_u lcore_to).

(** The ring of a connection: its name, the core whose socket it lies on, and
    the directions it is given to both cores. *)
Record wire := mk_wire { w_fm : string; w_to : string; w_sock_fm : bool; w_order_fm : ORDER; w_order_to : ORDER }.
Definition connection (type_fm type_to : TYPE) : option wire :=
  match type_fm, type_to with
  | RX, WORKER => Some (mk_wire "rx" "worker" true TO FROM)
  | WORKER, TX => Some (mk_wire "worker" "tx" false TO FROM)
  | (WORKER | COUNTER), WORKER_TRANSFER => Some (mk_wire "worker" "trans" false TO FROM)
  | PGW_INGRESS, TAPTX => Some (mk_wire "pgw_i" "tap_tx" false EXTEND FROM_00)
  | PGW_INGRESS, TX => Some (mk_wire "pgw_i" "tx" false TO FROM)
  | TAPRX, PGW_INGRESS => Some (mk_wire "tap_rx" "pgw_i" false TO_00 FROM_00)
  | RX, PGW_INGRESS => Some (mk_wire "rx" "pgw_i" false TO FROM)
  | RX, TAPTX => Some (mk_wire "rx" "tap_tx" false EXTEND FROM_00)
  | TAPRX, TX => Some (mk_wire "tap_rx" "tx" false TO FROM)
  | TAPRX, PGW_EGRESS => Some (mk_wire "tap_rx" "pgw_e" false TO_01 FROM_00)
  | RX, PGW_EGRESS => Some (mk_wire "rx" "pgw_e" false TO FROM)
  | PGW_EGRESS, TX => Some (mk_wire "pgw_e" "tx" false TO FROM)
  | PGW_EGRESS, TAPTX => Some (mk_wire "pgw_e" "tap_tx" false EXTEND FROM_00)
  | PGW_INGRESS, COUNTER => Some (mk_wire "pgw_i" "counter_i" false TO FROM)
  | PGW_EGRESS, COUNTER => Some (mk_wire "pgw_e" "counter_e" false TO FROM)
  | COUNTER, TX => Some (mk_wire "counter" "nictx" false EXTEND FROM)
  | _, _ => None
  end.
(** A transfer worker is given the inner end of a second ring as well. *)
Definition inner_ring (type_to : TYPE) : bool := bool_decide (type_to = WORKER_TRANSFER).

Definition Connect (core_fm core_to size : Z) a : res App :=
  if negb (stat_ a =? 0) then Fault RtePanic else
  match cores_ a !! core_fm, cores_ a !! core_to with
  | Some pcore_fm, Some pcore_to =>
      let type_fm := GetType pcore_fm in
      let type_to := GetType pcore_to in
      let lcore_fm := GetN LCORE pcore_fm in
      let lcore_to := GetN LCORE pcore_to in
      if bool_decide (type_fm = type_to) then Fault RteExit else
      if bool_decide (type_fm = RX) && bool_decide (type_to = TX) then Fault RteExit else
      match connection type_fm type_to with
      | None => Fault RteExit
      | Some (mk_wire fm to on_fm ofm oto) =>
          let sock := if on_fm then sock_of pcore_fm else sock_of pcore_to in
          let ring := rte_ring_create (ring_name sock fm lcore_fm to lcore_to) size sock (calls_ a) in
          let ring_int := rte_ring_create (ring_name sock "trans" lcore_fm "int" lcore_to) size sock (S (calls_ a)) in
          if negb (bool_decide (is_Some ring)) then Fault RteExit else
          if inner_ring type_to && negb (bool_decide (is_Some ring_int)) then Fault RteExit else
          pcore_fm ← SetRingAddr ofm ring pcore_fm;
          pcore_to ← SetRingAddr oto ring pcore_to;
          pcore_to ← (if inner_ring type_to then SetRingAddr TO ring_int pcore_to else Ok pcore_to);
          Ok (mk_app (<[core_to := pcore_to]> (<[core_fm := pcore_fm]> (cores_ a))) (vcores_ a) (mpools_ a) (stat_ a) (cnt_rx_ a)
                (cnt_tx_ a) (cnt_pgw_ingress_ a) (cnt_pgw_egress_ a) (conf_ a)
                (calls_ a + (if inner_ring type_to then 2 else 1)))
      end
  | _, _ => Fault RteExit
  end.

(** How many cores of a type there are. *)
Definition count_type (t : TYPE) (m : gmap Z AnyCore) : Z := Z.of_nat (size (filter (fun x => GetType x.2 = t) m)).

(** [APP_STAT_SET_USE] for every core: [1ULL << lcore]. *)
Definition SET_USE (used lcore : Z) : res Z :=
  if (lcore <? 0) || (63 <? lcore) then Fault Undefined else Ok (Z.lor used (Z.shiftl 1 lcore)).

(** The numbers of cores by type, given to a core. *)
Definition set_counts (rx tx pi pe : Z) c : AnyCore :=
  SetN CNT_PGW_EGRESS pe (SetN CNT_PGW_INGRESS pi (SetN CNT_TX tx (SetN CNT_RX rx c))).

(** [used] is the mask [s_core_used_]. *)
Definition Commit (cnf : option StaticConf) (a : App) (s : Statics) (used : Z) : res (App * Statics * Z) :=
  let m := cores_ a in
  let rx := u32 (cnt_rx_ a + count_type RX m) in
  let tx := u32 (cnt_tx_ a + count_type TX m) in
  let pi := u32 (cnt_pgw_ingress_ a + count_type PGW_INGRESS m) in
  let pe := u32 (cnt_pgw_egress_ a + count_type PGW_EGRESS m) in
  used ← foldM SET_USE (map_to_list m).*1 used;
  let conf := default (conf_ a) cnf in
  let s := mk_statics (s_PGW_LOG_LEVEL s) conf (s_FLUSH_COUNTER s) (s_FLUSH_ENCAP s) (s_FLUSH_GRETERM s) (s_FLUSH_PGW_IE s)
             (s_FLUSH_RX s) (s_FLUSH_RX_DIST s) (s_FLUSH_TX s) (s_POLICER_CIR s) (s_POLICER_CBS s) (s_POLICER_EIR s) (s_POLICER_EBS s) in
  let a := SwapConfig s (mk_app (set_counts rx tx pi pe <$> m) (vcores_ a) (mpools_ a) (stat_ a) rx tx pi pe conf (calls_ a)) in
  Ok (mk_app (cores_ a) (vcores_ a) (mpools_ a) (stat_ a + 1) (cnt_rx_ a) (cnt_tx_ a) (cnt_pgw_ingress_ a) (cnt_pgw_egress_ a)
        (conf_ a) (calls_ a), s, used).
End app.

(** ** The second version: groups of cores on one processor *)
Record AppV2 := mk_v2 { as_app : App; vcores_map_ : gmap Z (list Z) }.

Section v2.
Context `{D : Dpdk} `{B : Build} `{E : Eal}.

(** One core of a group: nothing is checked. *)
Definition add_core (coreid : Z) (a : App) (c : AnyCore) : res App :=
  let lcore := GetN LCORE c in
  let sock := rte_lcore_to_socket_id coreid in
  let c := SetN SOCKET sock c in
  let vcores := if two_cores (GetType c) then <[GetN OPT c := lcore]> (vcores_ a) else vcores_ a in
  p ← pool_of sock (mpools_ a);
  let '(pool, pools) := p in
  Ok (mk_app (<[lcore := SetP OPT (Some pool) c]> (cores_ a)) vcores pools (stat_ a) (cnt_rx_ a) (cnt_tx_ a)
        (cnt_pgw_ingress_ a) (cnt_pgw_egress_ a) (conf_ a) (calls_ a)).
Definition AddCores (coreid : Z) (cores : list AnyCore) (v : AppV2) : res AppV2 :=
  a ← foldM (add_core coreid) cores (as_app v);
  Ok (mk_v2 a (<[coreid := GetN LCORE <$> cores]> (vcores_map_ v))).
Definition ConnectV2 (core_fm core_to size : Z) (v : AppV2) : res AppV2 :=
  a ← Connect core_fm core_to size (as_app v); Ok (mk_v2 a (vcores_map_ v)).
(** [used_v2] is the mask of app_v2.cc, [used] that of app.cc. *)
Definition CommitV2 (cnf : option StaticConf) (v : AppV2) (s : Statics) (used used_v2 : Z) : res (AppV2 * Statics * Z * Z) :=
  used_v2 ← foldM SET_USE (map_to_list (vcores_map_ v)).*1 used_v2;
  r ← Commit cnf (as_app v) s used;
  let '(a, s, used) := r in Ok (mk_v2 a (vcores_map_ v), s, used, used_v2).
End v2.

(** ** The network interfaces

    What DPDK is asked to do, in order; [answer] is what it answers. *)
Inductive dev_op :=
| DevConfigure (port rxq txq : Z)
| AdjustDesc (port rxd txd : Z)
| Promiscuous (port : Z)
| RxQueueSetup (port queue size sock pool : Z)
| VlanOffload (port : Z)
| TxQueueSetup (port queue size sock : Z)
| SetMtu (port mtu : Z)
| DevStart (port : Z).
Class Nic := {
  answer : dev_op -> Z;
  adjusted : Z -> Z -> Z -> Z * Z;      (* the ring sizes the device takes *)
  link_up : Z -> nat -> bool;           (* the link of a port at the n-th look *)
  secondary_process : bool;
}.

Section nic.
Context `{D : Dpdk} `{B : Build} `{E : Eal} `{N : Nic}.
Implicit Types (log : list dev_op).

(** [WaitLinkup]: 301 looks, a second apart. *)
Fixpoint wait_link (rest : nat) (port : Z) (count : nat) : bool :=
  match rest with O => false | S rest => if link_up port count then true else wait_link rest port (S count) end.
Definition WaitLinkup (port : Z) : res unit := require (wait_link 301 port 0) RtePanic.

(** A call whose answer may be refused. *)
Definition dev (o : dev_op) (refused : Z -> bool) log : res (list dev_op) :=
  if refused (answer o) then Fault RtePanic else Ok (log ++ [o]).
Definition negative (z : Z) : bool := z <? 0.
Definition nonzero (z : Z) : bool := negb (z =? 0).

Definition nic_sock (c : AnyCore) : Z := sock_of c.

(** The queue of one more receive core; the state is the port and the socket of
    the last core and the log. *)
Definition bind_sub (a : App) (cores : option (list Z)) (rxd pool : Z) (s : Z * Z * list dev_op) (n : nat) : res (Z * Z * list dev_op) :=
  let '(_, log) := s in
  cores ← deref cores;
  core ← deref (cores !! n);
  match cores_ a !! core with
  | None => Fault RteExit
  | Some pcore =>
      let port := GetN PORT pcore in
      let sock := nic_sock pcore in
      log ← dev (RxQueueSetup port (GetN QUEUE pcore) (u16 rxd) sock pool) negative log;
      Ok (port, sock, log)
  end.

Definition BindNic (core rxq txq rxringsize txringsize : Z) (cores : option (list Z)) (a : App) : res (list dev_op) :=
  if stat_ a =? 0 then Fault RtePanic else
  let none := u32 (-1) in
  core ← (if core =? none then
            match cores with
            | None => Fault RtePanic
            | Some l => c0 ← deref (l !! 0%nat); if c0 =? none then Fault RtePanic else Ok c0
            end
          else if bool_decide (is_Some cores) then Fault RtePanic
          else if rxq <? 1 then Fault RtePanic else Ok core);
  match cores_ a !! core with
  | None => Fault RteExit
  | Some pcore =>
      let type := GetType pcore in
      let port := GetN PORT pcore in
      let queue := GetN QUEUE pcore in
      let sock := nic_sock pcore in
      if (15 <=? ARCH) && (ARCH <=? 21) && secondary_process then _ ← WaitLinkup port; Ok []
      else if negb (bool_decide (type = RX) || bool_decide (type = TX)) then Fault RteExit
      else
        log ← dev (DevConfigure port (u8 rxq) (u8 txq)) negative [];
        log ← dev (AdjustDesc port (u16 rxringsize) (u16 txringsize)) nonzero log;
        let '(rxd, txd) := adjusted port (u16 rxringsize) (u16 txringsize) in
        let log := log ++ [Promiscuous port] in
        match mpools_ a !! sock with
        | None => Fault RtePanic
        | Some pool =>
            log ← dev (RxQueueSetup port queue (u16 rxd) sock pool) negative log;
            s ← foldM (bind_sub a cores rxd pool) (seq 1 (Z.to_nat (rxq - 1))) (port, sock, log);
            let '(port, sock, log) := s in
            log ← dev (VlanOffload port) nonzero log;
            log ← foldM (fun log n => dev (TxQueueSetup port (u8 n) (u16 txd) sock) negative log) (seqZ 0 txq) log;
            log ← dev (SetMtu port 1554) negative log;
            log ← dev (DevStart port) negative log;
            _ ← WaitLinkup port;
            Ok log
        end
  end.
End nic.

(** ** The ends of the rings

    The rings a core takes packets from and puts packets on.  A transfer worker
    has both ends of its inner ring: its two threads. *)
Definition some_rings (l : list (option Z)) : list Z := omap (fun r => r) l.

Section ends.
Context `{B : Build}.
Definition reads (c : AnyCore) : list Z :=
  some_rings match c with
  | ARx x => if TEST_MODE then [CoreRx.ring_test_from_ x] else []
  | ARxDistributor x => if TEST_MODE then [CoreRxDistributor.ring_test_from_ x] else []
  | ATx x => CoreTx.ring_tx_ x
  | ATapRx x => if TEST_MODE then [CoreTapRx.ring_test_from_ x] else []
  | ATapTx x => CoreTapTx.ring_tap_ingress_ x
  | APgw _ b => [ring_fm_ (core b); ring_warmup_ b]
  | AEncap x => [ring_fm_ (CoreEncapWorker.ecore x)]
  | AGtpu2Gre x => [ring_fm_ (CoreGtpu2GreWorker.gcore x)]
  | AGreterm x => [ring_fm_ (CoreGretermWorker.tcore x)]
  | ACounter _ x => [ring_fm_ (ccore x)]
  | ALog x => [ring_fm_ (CoreCounterLogWorker.gcore x); ring_to_ (CoreCounterLogWorker.gcore x)]
  | ATransfer x => [ring_fm_ (CoreTransferWorker.tcore x); ring_to_ (CoreTransferWorker.tcore x)]
  end.
Definition writes (c : AnyCore) : list Z :=
  some_rings match c with
  | ARx x => ring_rx_ (CoreRx.rx x)
  | ARxDistributor x => CoreRxDistributor.ring_tap_tx_ x :: ring_rx_ (CoreRxDistributor.rx x)
  | ATx x => if TEST_MODE then [CoreTx.ring_test_to_ x] else []
  | ATapRx x => ring_to_ (CoreTapRx.core x) :: CoreTapRx.ring_tap_ingress_ x ++ CoreTapRx.ring_tap_egress_ x
  | ATapTx x => []
  | APgw _ b => [ring_to_ (core b); ring_err_ind_ b]
  | AEncap x => [ring_to_ (CoreEncapWorker.ecore x)]
  | AGtpu2Gre x => [ring_to_ (CoreGtpu2GreWorker.gcore x)]
  | AGreterm x => [ring_to_ (CoreGretermWorker.tcore x)]
  | ACounter _ x => [ring_to_ (ccore x); ring_pass_through_ x]
  | ALog x => [ring_to_ (CoreCounterLogWorker.gcore x)]
  | ATransfer x => [ring_to_ (CoreTransferWorker.tcore x)]
  end.
End ends.

(** ** Properties of the wiring *)
Section wiring.
Context `{D : Dpdk} `{B : Build} `{E : Eal}.
Implicit Types (c : AnyCore) (a : App) (q r : Z).

Lemma some_rings_app l k : some_rings (l ++ k) = some_rings l ++ some_rings k.
Proof. apply omap_app. Qed.

Lemma elem_some_rings q l : q ∈ some_rings l <-> Some q ∈ l.
Proof.
  unfold some_rings. rewrite list_elem_of_omap. split; [intros (x & Hx & ->); done|]. intros H. by exists (Some q).
Qed.

(** A slot of a core before and after it was given a ring. *)
Definition grows (l l' : list Z) r : Prop := forall q, q ∈ l' -> q = r \/ q ∈ l.

Lemma push_grows l r q : Some q ∈ CoreTapRx.push l (Some r) -> q = r \/ Some q ∈ l.
Proof.
  unfold CoreTapRx.push. case_if; [|by right]. rewrite elem_of_app, list_elem_of_singleton. intros [H|[= ->]]; [by right|by left].
Qed.

Lemma read_core_on f g c :
  (forall A (i : CoreInterface A), f _ (g _ i) = f _ i) -> read_core f (on_core g c) = read_core f c.
Proof. intros H. destruct c; cbn; try apply H. Qed.

(** The core after a ring was given, by class and direction. *)
Ltac ring_cases E c o :=
  destruct c, o; try discriminate; cbn in E;
  repeat match type of E with context [if ?b then _ else _] => destruct b eqn:? end; try discriminate; injection E as <-.
Ltac ring_ends :=
  unfold reads, writes, grows; cbn -[omap some_rings];
  repeat match goal with H : TEST_MODE = _ |- _ => rewrite H end;
  intros; try match goal with |- context [if TEST_MODE then _ else _] => destruct TEST_MODE end; rewrite ?elem_some_rings, ?elem_of_cons, ?elem_of_app, ?list_elem_of_singleton in *;
  repeat match goal with
  | H : _ ∈ some_rings _ |- _ => rewrite elem_some_rings in H
  | H : Some _ ∈ CoreTapRx.push _ _ |- _ => apply push_grows in H
  | H : _ ∈ _ ++ _ |- _ => rewrite elem_of_app in H
  | H : _ ∈ _ :: _ |- _ => rewrite elem_of_cons in H
  | H : _ ∈ [] |- _ => by apply elem_of_nil in H
  | H : _ \/ _ |- _ => destruct H as [H|H]
  | H : Some _ = Some _ |- _ => injection H as ->
  end; auto 6.

(** What a ring given to a core changes: nothing but the ends of rings. *)
Lemma SetRingAddr_frame o r c c' :
  SetRingAddr o (Some r) c = Ok c' ->
  GetType c' = GetType c /\ GetObjectName c' = GetObjectName c /\ GetN LCORE c' = GetN LCORE c /\ GetN OPT c' = GetN OPT c /\
  GetN SOCKET c' = GetN SOCKET c.
Proof.
  intros E0. ring_cases E0 c o; done.
Qed.

Definition is_out (o : ORDER) : bool := match o with TO | EXTEND | TO_00 | TO_01 => true | _ => false end.
Definition is_in (o : ORDER) : bool := match o with FROM | FROM_00 => true | _ => false end.

Lemma out_ends o r c c' :
  is_out o = true -> GetType c <> WORKER_TRANSFER -> SetRingAddr o (Some r) c = Ok c' ->
  reads c' = reads c /\ grows (writes c) (writes c') r.
Proof. intros Ho Ht E0. ring_cases E0 c o; try done; (split; [done|]); ring_ends. Qed.

Lemma in_ends o r c c' :
  is_in o = true -> SetRingAddr o (Some r) c = Ok c' -> writes c' = writes c /\ grows (reads c) (reads c') r.
Proof. intros Ho E0. ring_cases E0 c o; (split; [done|]); ring_ends. Qed.

Lemma inner_ends r c c' :
  GetType c = WORKER_TRANSFER -> SetRingAddr TO (Some r) c = Ok c' -> grows (reads c) (reads c') r /\ grows (writes c) (writes c') r.
Proof.
  intros Ht E0. destruct c as [| | | | |[] ?| | | |[] ?| |]; try discriminate; cbn in E0; injection E0 as <-; split; ring_ends.
Qed.

(** ** Connections *)
Lemma connection_orders t t' x : connection t t' = Some x -> is_out (w_order_fm x) = true /\ is_in (w_order_to x) = true.
Proof. destruct t, t'; try discriminate; intros [= <-]; done. Qed.
Lemma connection_types t t' x : connection t t' = Some x -> t <> WORKER_TRANSFER /\ t <> t' /\ (t, t') <> (RX, TX).
Proof. destruct t, t'; try discriminate; done. Qed.

(** What a successful call did. *)
Lemma Connect_inv fm to size a a' :
  Connect fm to size a = Ok a' ->
  stat_ a = 0 /\ exists cf ct cf' ct1 ct' x nm nm' sock r,
    cores_ a !! fm = Some cf /\ cores_ a !! to = Some ct /\ connection (GetType cf) (GetType ct) = Some x /\
    rte_ring_create nm size sock (calls_ a) = Some r /\
    SetRingAddr (w_order_fm x) (Some r) cf = Ok cf' /\ SetRingAddr (w_order_to x) (Some r) ct = Ok ct1 /\
    (if inner_ring (GetType ct)
     then exists ri, rte_ring_create nm' size sock (S (calls_ a)) = Some ri /\ SetRingAddr TO (Some ri) ct1 = Ok ct'
     else ct' = ct1) /\
    a' = mk_app (<[to := ct']> (<[fm := cf']> (cores_ a))) (vcores_ a) (mpools_ a) (stat_ a) (cnt_rx_ a)
                (cnt_tx_ a) (cnt_pgw_ingress_ a) (cnt_pgw_egress_ a) (conf_ a)
                (calls_ a + (if inner_ring (GetType ct) then 2 else 1)).
Proof.
  unfold Connect. destruct (stat_ a =? 0) eqn:Es; cbn [negb]; [|done].
  destruct (cores_ a !! fm) as [cf|] eqn:Ef; [|done]. destruct (cores_ a !! to) as [ct|] eqn:Et; [|done].
  do 2 (case_if; [done|]). destruct (connection _ _) as [[wf wt on ofm oto]|] eqn:Ec; [|done].
  set (sock := if on then _ else _). set (nm := ring_name sock wf _ wt _). set (nm' := ring_name sock "trans" _ "int" _).
  destruct (rte_ring_create nm size sock (calls_ a)) as [r|] eqn:Er; cbn; [|done].
  case_if; [done|].
  destruct (SetRingAddr ofm (Some r) cf) as [cf'|] eqn:Ef'; cbn; [|done].
  destruct (SetRingAddr oto (Some r) ct) as [ct1|] eqn:Et'; cbn; [|done].
  destruct (inner_ring (GetType ct)) eqn:Ei; cbn [andb] in *.
  - destruct (rte_ring_create nm' size sock (S (calls_ a))) as [ri|] eqn:Eri; cbn in *; [|done].
    destruct (SetRingAddr TO (Some ri) ct1) as [ct'|] eqn:Eto; cbn; [|done]. intros [= <-].
    split; [lia|]. exists cf, ct, cf', ct1, ct', (mk_wire wf wt on ofm oto), nm, nm', sock, r. do 6 (split; [done|]).
    rewrite Ei. split; [by exists ri|done].
  - cbn. intros [= <-]. split; [lia|]. exists cf, ct, cf', ct1, ct1, (mk_wire wf wt on ofm oto), nm, nm', sock, r. by rewrite Ei.
Qed.

(** *** When a connection is made *)

(** A plain receive core has no ring to the tap. *)
Definition plain_rx c : bool := match c with ARx _ => true | _ => false end.
Definition connectable cf ct : bool :=
  match connection (GetType cf) (GetType ct) with
  | None => false
  | Some _ => negb (plain_rx cf && bool_decide (GetType ct = TAPTX))
  end.
(** The tap cores keep two rings of a kind and ignore the others. *)
Definition room_fm (o : ORDER) c : bool :=
  match c, o with
  | ATapRx x, TO_00 => zlen (CoreTapRx.ring_tap_ingress_ x) <? TAPDUPLICTE_MAX
  | ATapRx x, TO_01 => zlen (CoreTapRx.ring_tap_egress_ x) <? TAPDUPLICTE_MAX
  | _, _ => true
  end.
Definition room_to c : bool :=
  match c with ATapTx x => zlen (CoreTapTx.ring_tap_ingress_ x) <? TAPDUPLICTE_MAX | _ => true end.

Lemma out_accepted ring c t' x :
  connection (GetType c) t' = Some x -> negb (plain_rx c && bool_decide (t' = TAPTX)) = true ->
  exists c', SetRingAddr (w_order_fm x) ring c = Ok c'.
Proof.
  intros Ec Hp. destruct c as [| | | | |[] ?| | | |[] ?| |], t'; try discriminate Ec; try discriminate Hp;
    injection Ec as <-; cbn; eauto.
Qed.
Lemma in_accepted ring t c x : connection t (GetType c) = Some x -> exists c', SetRingAddr (w_order_to x) ring c = Ok c'.
Proof.
  intros Ec. destruct t, c as [| | | | |[] ?| | | |[] ?| |]; try discriminate Ec; injection Ec as <-; cbn; eauto.
Qed.
Lemma inner_accepted ring c : GetType c = WORKER_TRANSFER -> exists c', SetRingAddr TO ring c = Ok c'.
Proof. destruct c as [| | | | |[] ?| | | |[] ?| |]; try discriminate; cbn; eauto. Qed.

Lemma elem_push r l : (zlen l <? TAPDUPLICTE_MAX) = true -> Some r ∈ CoreTapRx.push l (Some r).
Proof. unfold CoreTapRx.push. intros ->. apply elem_of_app. right. by apply list_elem_of_singleton. Qed.
Lemma elem_snoc r (l : list (option Z)) : Some r ∈ l ++ [Some r].
Proof. apply elem_of_app. right. by apply list_elem_of_singleton. Qed.

(** The new ring is an end of both cores. *)
Lemma out_gets r c c' t' x :
  connection (GetType c) t' = Some x -> SetRingAddr (w_order_fm x) (Some r) c = Ok c' -> room_fm (w_order_fm x) c = true ->
  r ∈ writes c'.
Proof.
  intros Ec E0 Hr. destruct c as [| | | | |[] ?| | | |[] ?| |], t'; try discriminate Ec; injection Ec as <-; cbn in E0, Hr;
    try discriminate; injection E0 as <-; unfold writes; rewrite elem_some_rings; cbn -[CoreTapRx.push];
    rewrite ?elem_of_cons, ?elem_of_app, ?list_elem_of_singleton; auto using elem_snoc, elem_push.
Qed.
Lemma in_gets r t c c1 x :
  connection t (GetType c) = Some x -> SetRingAddr (w_order_to x) (Some r) c = Ok c1 -> room_to c = true ->
  r ∈ reads c1 /\ (forall ri c', GetType c = WORKER_TRANSFER -> SetRingAddr TO (Some ri) c1 = Ok c' -> r ∈ reads c').
Proof.
  intros Ec E0 Hr. destruct t, c as [| | | | |[] ?| | | |[] ?| |]; try discriminate Ec; injection Ec as <-; cbn in E0, Hr;
    try discriminate; injection E0 as <-; (split; [|intros ri c' Ht E1; try discriminate Ht; injection E1 as <-]);
    unfold reads; rewrite elem_some_rings; cbn -[CoreTapRx.push]; rewrite ?elem_of_cons; auto using elem_snoc, elem_push.
Qed.

(** The rings can be made: the outcome of [Connect] is decided by the cores. *)
Lemma Connect_outcome fm to size a cf ct :
  (forall nm size sock k, is_Some (rte_ring_create nm size sock k)) ->
  stat_ a = 0 -> cores_ a !! fm = Some cf -> cores_ a !! to = Some ct ->
  if connectable cf ct then exists a', Connect fm to size a = Ok a' else Connect fm to size a = Fault RteExit.
Proof.
  intros Hring Hst Ef Et. unfold connectable, Connect. rewrite Hst, Ef, Et. cbn [Z.eqb negb].
  destruct (connection (GetType cf) (GetType ct)) as [[wf wt on ofm oto]|] eqn:Ec;
    [|cbv iota; destruct (bool_decide (_ = GetType ct)); [done|]; by destruct (_ && _)].
  pose proof (connection_types _ _ _ Ec) as (_ & Hne & Hrt). rewrite (bool_decide_false (GetType cf = GetType ct)) by done.
  assert (Hx : bool_decide (GetType cf = RX) && bool_decide (GetType ct = TX) = false).
  { apply andb_false_iff. destruct (decide (GetType cf = RX)) as [E1|]; [right|left]; apply bool_decide_false; [|done].
    intros E2. by rewrite E1, E2 in Hrt. }
  rewrite Hx. set (sock := if on then _ else _). set (nm := ring_name sock wf _ wt _). set (nm' := ring_name sock "trans" _ "int" _).
  destruct (Hring nm size sock (calls_ a)) as [r Er]. destruct (Hring nm' size sock (S (calls_ a))) as [ri Eri]. rewrite Er, Eri.
  rewrite (bool_decide_true (is_Some (Some r))), (bool_decide_true (is_Some (Some ri))) by eauto. cbn [negb]. rewrite andb_false_r.
  destruct (negb (plain_rx cf && bool_decide (GetType ct = TAPTX))) eqn:Hp.
  - destruct (out_accepted (Some r) _ _ _ Ec Hp) as [cf' Ecf]. destruct (in_accepted (Some r) _ _ _ Ec) as [ct1 Ect]. cbn in Ecf, Ect.
    rewrite Ecf. cbn. rewrite Ect. cbn. destruct (SetRingAddr_frame _ _ _ _ Ect) as [Tt _].
    unfold inner_ring. destruct (decide (GetType ct = WORKER_TRANSFER)) as [Hi|Hi]; [rewrite bool_decide_true by done|rewrite bool_decide_false by done].
    + destruct (inner_accepted (Some ri) ct1) as [ct' Eto]; [by rewrite Tt|]. rewrite Eto. by eexists.
    + by eexists.
  - apply negb_false_iff, andb_true_iff in Hp as [Hp1 Hp2%bool_decide_eq_true]. destruct cf; try discriminate Hp1. rewrite Hp2 in Ec.
    injection Ec as <- <- <- <- <-. done.
Qed.

(** *** Where the new ring goes

    The places for rings a core has, and for every pair of types that is supported the
    place of the first core that is to feed a place of the second. *)
Inductive slot := INPUT | OUTPUT | WARMUP | TAP | PASS_THROUGH | TAP_INGRESS | TAP_EGRESS.
#[local] Instance slot_eq_dec : EqDecision slot.
Proof. solve_decision. Defined.
Definition rings (s : slot) c : list (option Z) :=
  match c, s with
  | ARx x, OUTPUT => ring_rx_ (CoreRx.rx x)
  | ARxDistributor x, OUTPUT => ring_rx_ (CoreRxDistributor.rx x)
  | ARxDistributor x, TAP => [CoreRxDistributor.ring_tap_tx_ x]
  | ATx x, INPUT => CoreTx.ring_tx_ x
  | ATapRx x, OUTPUT => [ring_to_ (CoreTapRx.core x)]
  | ATapRx x, TAP_INGRESS => CoreTapRx.ring_tap_ingress_ x
  | ATapRx x, TAP_EGRESS => CoreTapRx.ring_tap_egress_ x
  | ATapTx x, INPUT => CoreTapTx.ring_tap_ingress_ x
  | APgw _ b, INPUT => [ring_fm_ (core b)]
  | APgw _ b, OUTPUT => [ring_to_ (core b)]
  | APgw _ b, WARMUP => [ring_warmup_ b]
  | APgw _ b, TAP => [ring_err_ind_ b]
  | AEncap x, INPUT => [ring_fm_ (CoreEncapWorker.ecore x)]
  | AEncap x, OUTPUT => [ring_to_ (CoreEncapWorker.ecore x)]
  | AGtpu2Gre x, INPUT => [ring_fm_ (CoreGtpu2GreWorker.gcore x)]
  | AGtpu2Gre x, OUTPUT => [ring_to_ (CoreGtpu2GreWorker.gcore x)]
  | AGreterm x, INPUT => [ring_fm_ (CoreGretermWorker.tcore x)]
  | AGreterm x, OUTPUT => [ring_to_ (CoreGretermWorker.tcore x)]
  | ACounter _ x, INPUT => [ring_fm_ (ccore x)]
  | ACounter _ x, OUTPUT => [ring_to_ (ccore x)]
  | ACounter _ x, PASS_THROUGH => [ring_pass_through_ x]
  | ALog x, INPUT => [ring_fm_ (CoreCounterLogWorker.gcore x)]
  | ALog x, OUTPUT => [ring_to_ (CoreCounterLogWorker.gcore x)]
  | ATransfer x, INPUT => [ring_fm_ (CoreTransferWorker.tcore x)]
  | ATransfer x, OUTPUT => [ring_to_ (CoreTransferWorker.tcore x)]
  | _, _ => []
  end.
Definition plugs : list ((TYPE * TYPE) * (slot * slot)) :=
  [((RX, WORKER), (OUTPUT, INPUT)); ((RX, PGW_INGRESS), (OUTPUT, INPUT)); ((RX, PGW_EGRESS), (OUTPUT, INPUT)); ((RX, TAPTX), (TAP, INPUT));
   ((TAPRX, PGW_INGRESS), (TAP_INGRESS, WARMUP)); ((TAPRX, PGW_EGRESS), (TAP_EGRESS, WARMUP)); ((TAPRX, TX), (OUTPUT, INPUT));
   ((PGW_INGRESS, TX), (OUTPUT, INPUT)); ((PGW_INGRESS, COUNTER), (OUTPUT, INPUT)); ((PGW_INGRESS, TAPTX), (TAP, INPUT));
   ((PGW_EGRESS, TX), (OUTPUT, INPUT)); ((PGW_EGRESS, COUNTER), (OUTPUT, INPUT)); ((PGW_EGRESS, TAPTX), (TAP, INPUT));
   ((WORKER, TX), (OUTPUT, INPUT)); ((WORKER, WORKER_TRANSFER), (OUTPUT, INPUT)); ((COUNTER, WORKER_TRANSFER), (OUTPUT, INPUT));
   ((COUNTER, TX), (PASS_THROUGH, INPUT))].
Definition plug_types (t t' : TYPE) : option (slot * slot) :=
  snd <$> find (fun p => bool_decide (p.1.1 = t) && bool_decide (p.1.2 = t')) plugs.
(** A receive core that does not distribute has no way to the tap. *)
Definition plug cf ct : option (slot * slot) :=
  if plain_rx cf && bool_decide (GetType ct = TAPTX) then None else plug_types (GetType cf) (GetType ct).
(** The tap cores keep two rings of a kind and ignore the others. *)
Definition has_room (s : slot) c : bool :=
  match c, s with
  | ATapRx _, (TAP_INGRESS | TAP_EGRESS) | ATapTx _, INPUT => zlen (rings s c) <? 2
  | _, _ => true
  end.
(** What a place holds when it has been given [r]. *)
Definition given (s : slot) r c : list (option Z) :=
  match c, s with
  | (ARx _ | ARxDistributor _), OUTPUT | ATx _, INPUT => rings s c ++ [Some r]
  | ATapRx _, (TAP_INGRESS | TAP_EGRESS) | ATapTx _, INPUT => if has_room s c then rings s c ++ [Some r] else rings s c
  | _, _ => [Some r]
  end.

Lemma plug_connection t t' : match plug_types t t' with Some _ => exists x, connection t t' = Some x | None => connection t t' = None end.
Proof. destruct t, t'; vm_compute; (done || by eexists). Qed.
Lemma connectable_plug cf ct : connectable cf ct = bool_decide (is_Some (plug cf ct)).
Proof.
  unfold connectable, plug. pose proof (plug_connection (GetType cf) (GetType ct)) as H. destruct (plug_types _ _) as [p|].
  - destruct H as [x ->]. destruct (_ && _); done.
  - rewrite H. by destruct (_ && _).
Qed.

Ltac plug_cases c t Ec Ep E0 :=
  destruct c as [| | | | |[] ?| | | |[] ?| |], t; try discriminate Ec; vm_compute in Ep; injection Ep as <- <-; injection Ec as <-; cbn in E0;
  try discriminate E0; injection E0 as <-.
Lemma plug_fm r c c' t so si x :
  connection (GetType c) t = Some x -> plug_types (GetType c) t = Some (so, si) -> SetRingAddr (w_order_fm x) (Some r) c = Ok c' ->
  rings so c' = given so r c /\ (forall s, s <> so -> rings s c' = rings s c) /\ has_room so c = room_fm (w_order_fm x) c.
Proof. intros Ec Ep E0. plug_cases c t Ec Ep E0; (split; [reflexivity|split; [by intros []|reflexivity]]). Qed.
Lemma plug_to r c c' t so si x :
  connection t (GetType c) = Some x -> plug_types t (GetType c) = Some (so, si) -> SetRingAddr (w_order_to x) (Some r) c = Ok c' ->
  rings si c' = given si r c /\ (forall s, s <> si -> rings s c' = rings s c) /\ has_room si c = room_to c.
Proof. intros Ec Ep E0. plug_cases c t Ec Ep E0; (split; [reflexivity|split; [by intros []|reflexivity]]). Qed.
Lemma plug_inner r c c' : GetType c = WORKER_TRANSFER -> SetRingAddr TO (Some r) c = Ok c' ->
  rings OUTPUT c' = [Some r] /\ forall s, s <> OUTPUT -> rings s c' = rings s c.
Proof.
  intros Ht E0. destruct c as [| | | | |[] ?| | | |[] ?| |]; try discriminate Ht; cbn in E0; injection E0 as <-; (split; [reflexivity|by intros []]).
Qed.
(** Without room nothing is written or read that was not before. *)
Lemma full_fm r c c' t x : connection (GetType c) t = Some x -> SetRingAddr (w_order_fm x) (Some r) c = Ok c' ->
  room_fm (w_order_fm x) c = false -> writes c' = writes c.
Proof.
  intros Ec E0 Hr. destruct c as [| | | | |[] ?| | | |[] ?| |], t; try discriminate Ec; injection Ec as <-; try discriminate Hr; cbn in E0, Hr;
    injection E0 as <-; unfold writes; cbn; unfold CoreTapRx.push; by rewrite Hr.
Qed.
Lemma full_to r c c' t x : connection t (GetType c) = Some x -> SetRingAddr (w_order_to x) (Some r) c = Ok c' ->
  room_to c = false -> reads c' = reads c.
Proof.
  intros Ec E0 Hr. destruct c as [| | | | |[] ?| | | |[] ?| |], t; try discriminate Ec; injection Ec as <-; try discriminate Hr; cbn in E0, Hr;
    injection E0 as <-; unfold reads; cbn; unfold CoreTapRx.push; by rewrite Hr.
Qed.
(** ** One producer and one consumer *)

(** The rings made by the first [n] calls. *)
Definition made (n : nat) q : Prop := exists nm size sock k, (k < n)%nat /\ rte_ring_create nm size sock k = Some q.
Definition fresh_rings : Prop := forall nm size sock k nm' size' sock' k' q,
  rte_ring_create nm size sock k = Some q -> rte_ring_create nm' size' sock' k' = Some q -> k = k'.

(** No ring is an end of two cores; every end is a ring that was made. *)
Definition single (f : AnyCore -> list Z) (m : gmap Z AnyCore) : Prop :=
  forall l1 l2 c1 c2 q, m !! l1 = Some c1 -> m !! l2 = Some c2 -> q ∈ f c1 -> q ∈ f c2 -> l1 = l2.
Definition bound (n : nat) (f : AnyCore -> list Z) (m : gmap Z AnyCore) : Prop :=
  forall l c q, m !! l = Some c -> q ∈ f c -> made n q.

Lemma made_mono n n' q : (n <= n')%nat -> made n q -> made n' q.
Proof. intros Hn (nm & s & k & i & Hi & E0). exists nm, s, k, i. split; [lia|done]. Qed.

Lemma single_insert f n n' m l c :
  single f m -> bound n f m -> (n <= n')%nat ->
  (forall q, q ∈ f c -> (exists c0, m !! l = Some c0 /\ q ∈ f c0) \/ (~ made n q /\ made n' q)) ->
  single f (<[l := c]> m) /\ bound n' f (<[l := c]> m).
Proof.
  intros Hs Hb Hn Hc. split.
  - intros l1 l2 c1 c2 q. rewrite !lookup_insert_Some.
    intros [[<- <-]|[? H1]] [[<- <-]|[? H2]] Q1 Q2; try done.
    + apply Hc in Q1 as [(c0 & H0 & Q0)|[Hq _]]; [by eapply Hs|]. destruct Hq. by eapply Hb.
    + apply Hc in Q2 as [(c0 & H0 & Q0)|[Hq _]]; [by eapply Hs|]. destruct Hq. by eapply Hb.
    + by eapply Hs.
  - intros l' c' q. rewrite lookup_insert_Some. intros [[<- <-]|[_ H']] Q.
    + apply Hc in Q as [(c0 & H0 & Q0)|[_ Hq]]; [|done]. eapply made_mono, Hb; done.
    + eapply made_mono, Hb; done.
Qed.

Lemma single_fmap f g n m :
  (forall c, f (g c) = f c) -> single f m -> bound n f m -> single f (g <$> m) /\ bound n f (g <$> m).
Proof.
  intros Hg Hs Hb. split.
  - intros l1 l2 c1 c2 q. rewrite !lookup_fmap_Some. intros (d1 & <- & H1) (d2 & <- & H2). rewrite !Hg. by eapply Hs.
  - intros l c q. rewrite lookup_fmap_Some. intros (d & <- & H'). rewrite Hg. by eapply Hb.
Qed.

Record wired a : Prop := mk_wired {
  one_reader : single reads (cores_ a);
  one_writer : single writes (cores_ a);
  made_reads : bound (calls_ a) reads (cores_ a);
  made_writes : bound (calls_ a) writes (cores_ a);
}.

(** A core as its constructor leaves it: no ring yet. *)
Definition unconnected c : Prop := reads c = [] /\ writes c = [].

Lemma SetN_ends k v c : reads (SetN k v c) = reads c /\ writes (SetN k v c) = writes c.
Proof. destruct c; split; try reflexivity; cbn; unfold CoreGtpu2GreWorker.SetN; by case_if. Qed.
Lemma SetP_ends k p c : reads (SetP k p c) = reads c /\ writes (SetP k p c) = writes c.
Proof. destruct c; try done; cbn; unfold CoreTapRx.SetP, CoreTapTx.SetP; by destruct (bool_decide (k = OPT)). Qed.

Lemma wired_insert a a' l c :
  wired a -> cores_ a' = <[l := c]> (cores_ a) -> calls_ a' = calls_ a -> reads c = [] -> writes c = [] -> wired a'.
Proof.
  intros [H1 H2 H3 H4] Em En Hr Hw.
  destruct (single_insert reads (calls_ a) (calls_ a) (cores_ a) l c) as [S1 B1]; try done; [rewrite Hr; by intros q ?%elem_of_nil|].
  destruct (single_insert writes (calls_ a) (calls_ a) (cores_ a) l c) as [S2 B2]; try done; [rewrite Hw; by intros q ?%elem_of_nil|].
  constructor; rewrite Em, ?En; done.
Qed.

Lemma wired_fmap a a' g :
  wired a -> cores_ a' = g <$> cores_ a -> calls_ a' = calls_ a -> (forall c, reads (g c) = reads c /\ writes (g c) = writes c) ->
  wired a'.
Proof.
  intros [H1 H2 H3 H4] Em En Hg.
  destruct (single_fmap reads g (calls_ a) (cores_ a)) as [S1 B1]; [apply Hg|done|done|].
  destruct (single_fmap writes g (calls_ a) (cores_ a)) as [S2 B2]; [apply Hg|done|done|].
  constructor; rewrite Em, ?En; done.
Qed.

Lemma swap_core_ends s c : reads (swap_core s c) = reads c /\ writes (swap_core s c) = writes c.
Proof.
  unfold swap_core. destruct (flush_delay _); rewrite !(proj1 (SetN_ends _ _ _)), !(proj2 (SetN_ends _ _ _)); done.
Qed.

Lemma wired_swap s a : wired a -> wired (SwapConfig s a).
Proof. intros H1. by refine (wired_fmap a _ (swap_core s) H1 _ _ (swap_core_ends s)). Qed.

Hypothesis Hfresh : fresh_rings.

Lemma wired_connect fm to size a a' : wired a -> Connect fm to size a = Ok a' -> wired a'.
Proof.
  intros [H1 H2 H3 H4] (Hst & cf & ct & cf' & ct1 & ct' & x & nm & nm' & sock & r & Ef & Et & Ec & Er & Ef' & Et1 & Ei & ->)%Connect_inv.
  apply connection_types in Ec as Hty. destruct Hty as (Hnt & Hne & _). apply connection_orders in Ec as [Ho Hi].
  assert (Hl : fm <> to) by (intros ->; naive_solver).
  destruct (out_ends _ _ _ _ Ho Hnt Ef') as [Rf Wf]. destruct (in_ends _ _ _ _ Hi Et1) as [Wt Rt].
  set (n := calls_ a) in *. assert (Hr : ~ made n r /\ made (n + 1) r).
  { split; [|exists nm, size, sock, n; split; [lia|done]]. intros (nm2 & s2 & k2 & i & Hin & E2). pose proof (Hfresh _ _ _ _ _ _ _ _ _ Er E2). lia. }
  set (k := if inner_ring (GetType ct) then 2%nat else 1%nat).
  assert (Hk : (n + 1 <= n + k)%nat) by (unfold k; destruct (inner_ring _); lia).
  assert (Hct : (forall q, q ∈ reads ct' -> q ∈ reads ct \/ (~ made n q /\ made (n + k) q)) /\
                (forall q, q ∈ writes ct' -> q ∈ writes ct \/ (~ made (n + 1) q /\ made (n + k) q))).
  { revert Ei. unfold k. destruct (inner_ring (GetType ct)) eqn:Eit.
    - apply bool_decide_eq_true in Eit. intros (ri & Eri & Eto).
      assert (Hri : ~ made (n + 1) ri /\ made (n + 2) ri).
      { split; [|exists nm', size, sock, (S n); split; [lia|done]]. intros (nm2 & s2 & k2 & i & Hin & E2).
        pose proof (Hfresh _ _ _ _ _ _ _ _ _ Eri E2). lia. }
      destruct (inner_ends ri ct1 ct') as [Ri Wi]; [rewrite (proj1 (SetRingAddr_frame _ _ _ _ Et1)); done|done|].
      split; intros q Hq.
      + apply Ri in Hq as [->|Hq]; [right; split; [|apply Hri]; intros Hm; apply Hri; eapply made_mono, Hm; lia|].
        apply Rt in Hq as [->|Hq]; [right; split; [apply Hr|]; eapply made_mono, (proj2 Hr); lia|by left].
      + apply Wi in Hq as [->|Hq]; [by right|]. rewrite Wt in Hq. by left.
    - intros ->. split; intros q Hq; [|rewrite Wt in Hq; by left]. apply Rt in Hq as [->|Hq]; [by right|by left]. }
  destruct Hct as [Rct Wct]. set (m1 := <[fm := cf']> (cores_ a)).
  assert (Em1 : m1 !! to = Some ct) by (unfold m1; by rewrite lookup_insert_ne).
  destruct (single_insert reads n n (cores_ a) fm cf') as [S1 B1]; try done; [rewrite Rf; left; by exists cf|].
  destruct (single_insert writes n (n + 1) (cores_ a) fm cf') as [S2 B2]; try done; [lia|intros q [->|Hq]%Wf; [by right|left; by exists cf]|].
  destruct (single_insert reads n (n + k) m1 to ct') as [S3 B3]; try done; [lia|intros q [Hq|Hq]%Rct; [left; by exists ct|by right]|].
  destruct (single_insert writes (n + 1) (n + k) m1 to ct') as [S4 B4]; try done; [intros q [Hq|Hq]%Wct; [left; by exists ct|by right]].
Qed.

Lemma pool_of_ok sock pools p : pool_of sock pools = Ok p -> p.2 = pools \/ exists q, p.2 = <[sock := q]> pools.
Proof. unfold pool_of. repeat case_match; intros [= <-]; [by left|right; by eexists]. Qed.

Lemma wired_add c a a' : wired a -> unconnected c -> Add (Some c) a = Ok a' -> wired a'.
Proof.
  intros Hw [Hr Hwr]. unfold Add. do 2 (case_if; [done|]).
  destruct (pool_of _ _) as [[pool pools]|]; cbn; [|done]. intros [= <-].
  eapply wired_insert; [done|reflexivity|done| |]; rewrite ?(proj1 (SetP_ends _ _ _)), ?(proj2 (SetP_ends _ _ _)); done.
Qed.

Lemma wired_add_core coreid c a a' : wired a -> unconnected c -> add_core coreid a c = Ok a' -> wired a'.
Proof.
  intros Hw [Hr Hwr]. unfold add_core. destruct (pool_of _ _) as [[pool pools]|]; cbn; [|done]. intros [= <-].
  eapply wired_insert; [done|reflexivity|done| |];
    rewrite ?(proj1 (SetP_ends _ _ _)), ?(proj2 (SetP_ends _ _ _)), ?(proj1 (SetN_ends _ _ _)), ?(proj2 (SetN_ends _ _ _)); done.
Qed.

Lemma wired_commit cnf a s used out : wired a -> Commit cnf a s used = Ok out -> wired out.1.1.
Proof.
  intros H1. unfold Commit. destruct (foldM SET_USE _ _) as [used'|]; cbn [mbind res_bind]; [|done]. intros [= <-]. cbn [fst].
  eapply (wired_fmap a _ (swap_core _ ∘ set_counts _ _ _ _) H1); [cbn; rewrite map_fmap_compose; reflexivity|reflexivity|].
  intros c. unfold compose. rewrite (proj1 (swap_core_ends _ _)), (proj2 (swap_core_ends _ _)). unfold set_counts.
  by rewrite !(proj1 (SetN_ends _ _ _)), !(proj2 (SetN_ends _ _ _)).
Qed.

(** Everything the configuration of a process does with the application. *)
Inductive built : App -> Prop :=
| built_new : built App_new
| built_add c a a' : built a -> unconnected c -> Add (Some c) a = Ok a' -> built a'
| built_group coreid c a a' : built a -> unconnected c -> add_core coreid a c = Ok a' -> built a'
| built_connect fm to size a a' : built a -> Connect fm to size a = Ok a' -> built a'
| built_commit cnf s used a out : built a -> Commit cnf a s used = Ok out -> built out.1.1
| built_swap s a : built a -> built (SwapConfig s a).

Lemma built_wired a : built a -> wired a.
Proof.
  induction 1 as [|c a a' _ IH Hc H1|g c a a' _ IH Hc H1|fm to size a a' _ IH H1|cnf s used a out _ IH H1|s a _ IH].
  - constructor; intros ?; [intros l2 c1 c2 q| intros l2 c1 c2 q|intros c q|intros c q]; cbn; by rewrite lookup_empty.
  - by eapply wired_add.
  - by eapply wired_add_core.
  - by eapply wired_connect.
  - by eapply wired_commit.
  - by apply wired_swap.
Qed.

(** The core that was given the ring, and the one that was given its other end. *)
Definition plugged (s : slot) r c c' : Prop :=
  GetType c' = GetType c /\ rings s c' = given s r c /\
  forall s', s' <> s -> ~ (GetType c = WORKER_TRANSFER /\ s' = OUTPUT) -> rings s' c' = rings s' c.
(** The ends a new ring has: written by [fm] and read by [to], as far as they had room. *)
Lemma ring_ends_fm r c c' t x so si :
  connection (GetType c) t = Some x -> plug_types (GetType c) t = Some (so, si) -> SetRingAddr (w_order_fm x) (Some r) c = Ok c' ->
  r ∉ writes c -> r ∉ reads c -> plugged so r c c' /\ (r ∈ writes c' <-> has_room so c = true) /\ r ∉ reads c'.
Proof.
  intros Ec Ep E0 Hw Hr. destruct (plug_fm _ _ _ _ _ _ _ Ec Ep E0) as (P1 & P2 & P3). rewrite P3.
  destruct (connection_types _ _ _ Ec) as (Hnt & _). destruct (connection_orders _ _ _ Ec) as [Ho _].
  destruct (out_ends _ _ _ _ Ho Hnt E0) as [-> _]. split; [|split; [|done]].
  - split; [apply (SetRingAddr_frame _ _ _ _ E0)|]. split; [done|]. intros s' Hs _. by apply P2.
  - destruct (room_fm _ c) eqn:Hroom; [split; [done|]; intros _; by eapply out_gets|]. by rewrite (full_fm _ _ _ _ _ Ec E0 Hroom).
Qed.
Lemma ring_ends_to r c c1 t x so si :
  connection t (GetType c) = Some x -> plug_types t (GetType c) = Some (so, si) -> SetRingAddr (w_order_to x) (Some r) c = Ok c1 ->
  r ∉ writes c -> r ∉ reads c ->
  (plugged si r c c1 /\ (r ∈ reads c1 <-> has_room si c = true) /\ r ∉ writes c1) /\
  forall ri c', GetType c = WORKER_TRANSFER -> SetRingAddr TO (Some ri) c1 = Ok c' -> ri <> r ->
    plugged si r c c' /\ (r ∈ reads c' <-> has_room si c = true) /\ (r ∉ writes c') /\ rings OUTPUT c' = [Some ri].
Proof.
  intros Ec Ep E0 Hw Hr. destruct (plug_to _ _ _ _ _ _ _ Ec Ep E0) as (P1 & P2 & P3). rewrite P3.
  destruct (connection_orders _ _ _ Ec) as [_ Hi]. destruct (in_ends _ _ _ _ Hi E0) as [Ew _].
  pose proof (proj1 (SetRingAddr_frame _ _ _ _ E0)) as Et1.
  assert (Hrd : r ∈ reads c1 <-> room_to c = true).
  { destruct (room_to c) eqn:Hroom; [by destruct (in_gets r t c c1 x Ec E0 Hroom) as [Hin _]|]. by rewrite (full_to _ _ _ _ _ Ec E0 Hroom). }
  split; [split; [|by rewrite Ew]|].
  - split; [done|]. split; [done|]. intros s' Hs _. by apply P2.
  - intros ri c' Ht E1 Hne. destruct (inner_ends ri c1 c') as [Gr Gw]; [by rewrite Et1|done|].
    destruct (plug_inner ri c1 c') as [Q1 Q2]; [by rewrite Et1|done|]. pose proof (proj1 (SetRingAddr_frame _ _ _ _ E1)) as Et2.
    assert (Hsi : si = INPUT) by (rewrite Ht in Ep; destruct t; vm_compute in Ep; congruence).
    split; [|split; [|split; [|done]]].
    + split; [congruence|]. split; [rewrite Q2 by (by rewrite Hsi); done|]. intros s' Hs Hn. rewrite Q2 by (intros ->; apply Hn; done). by apply P2.
    + split; [|intros Hroom; by destruct (in_gets r t c c1 x Ec E0 Hroom) as [_ Hin]; eapply Hin]. intros H'. apply Hrd. apply Gr in H' as [->|H']; done.
    + intros H'. apply Gw in H' as [->|H']; [done|]. by rewrite Ew in H'.
Qed.
Lemma Connect_ring fm to size a a' cf ct so si :
  built a -> Connect fm to size a = Ok a' -> cores_ a !! fm = Some cf -> cores_ a !! to = Some ct -> plug cf ct = Some (so, si) ->
  exists nm sock r cf' ct', cores_ a' = <[to := ct']> (<[fm := cf']> (cores_ a)) /\
    rte_ring_create nm size sock (calls_ a) = Some r /\
    (forall l c, cores_ a !! l = Some c -> (r ∉ reads c) /\ (r ∉ writes c)) /\
    plugged so r cf cf' /\ plugged si r ct ct' /\
    forall l c, cores_ a' !! l = Some c ->
      (r ∈ writes c <-> l = fm /\ has_room so cf = true) /\ (r ∈ reads c <-> l = to /\ has_room si ct = true).
Proof.
  intros Hb Ea Ef Et Ep. destruct (built_wired a Hb) as [_ _ B1 B2]. unfold plug in Ep. destruct (_ && _); [done|].
  apply Connect_inv in Ea as (_ & cf0 & ct0 & cf' & ct1 & ct' & x & nm & nm' & sock & r & Ef0 & Et0 & Ec & Er & Ef' & Et1 & Ei & ->).
  rewrite Ef in Ef0. injection Ef0 as <-. rewrite Et in Et0. injection Et0 as <-.
  assert (Hnew : forall l c, cores_ a !! l = Some c -> (r ∉ reads c) /\ (r ∉ writes c)).
  { intros l c Hc. assert (Hm : ~ made (calls_ a) r).
    { intros (nm2 & s2 & k2 & i & Hin & E2). pose proof (Hfresh _ _ _ _ _ _ _ _ _ Er E2). lia. }
    split; intros Hin; apply Hm; [by eapply B1|by eapply B2]. }
  destruct (Hnew _ _ Ef) as [Rf Wf]. destruct (Hnew _ _ Et) as [Rt Wt].
  destruct (ring_ends_fm r cf cf' _ x so si Ec Ep Ef' Wf Rf) as (Pf & Ewf & Erf).
  destruct (ring_ends_to r ct ct1 _ x so si Ec Ep Et1 Wt Rt) as [H1 H2].
  assert (Hct : plugged si r ct ct' /\ (r ∈ reads ct' <-> has_room si ct = true) /\ (r ∉ writes ct')).
  { revert Ei. destruct (inner_ring (GetType ct)) eqn:Eit; [|by intros ->]. apply bool_decide_eq_true in Eit. intros (ri & Eri & Eto).
    destruct (H2 ri ct' Eit Eto) as (Q1 & Q2 & Q3 & _); [|done]. intros ->. pose proof (Hfresh _ _ _ _ _ _ _ _ _ Er Eri). lia. }
  destruct Hct as (Pt & Ert & Ewt). destruct (connection_types _ _ _ Ec) as (_ & Hne & _). assert (Hl : fm <> to) by (intros ->; congruence).
  exists nm, sock, r, cf', ct'. split; [done|]. split; [done|]. split; [done|]. split; [done|]. split; [done|]. cbn [cores_].
  intros l c. rewrite lookup_insert_Some, lookup_insert_Some. intros [[<- <-]|[Hlt [[<- <-]|[Hlf Hc]]]].
  - rewrite Ert. split; [split; [done|intros [-> _]; done]|tauto].
  - rewrite Ewf. split; [tauto|split; [done|intros [-> _]; done]].
  - destruct (Hnew _ _ Hc). split; (split; [done|intros [-> _]; done]).
Qed.
End wiring.

(** ** Properties of the configuration *)
Section config.
Context `{D : Dpdk} `{B : Build}.
Implicit Types (c : AnyCore) (s : Statics) (k : CFG).

Lemma cfg_get_set k k' v s : cfg_get k' (cfg_set k v s) = if decide (k = k') then v else cfg_get k' s.
Proof. by destruct k'. Qed.

(** *** Reading the file *)
Definition cfg_line (x : CFG * Z) : list Z := cfg_name x.1 ++ 61 :: print_u x.2 ++ [10].
Definition int_range (v : Z) : Prop := 0 <= v < 2 ^ 31.

Lemma digits_value_stop ds acc rest :
  Forall (fun y => isdigit y = true) ds -> digits_value acc (ds ++ 10 :: rest) = foldl (fun a y => 10 * a + (y - 48)) acc ds.
Proof. intros Hd. revert acc. induction Hd as [|y ds Hy _ IH]; intros acc; cbn; [done|]. by rewrite Hy, IH. Qed.

Lemma strtol10_digit y l :
  isdigit y = true -> strtol10 (y :: l) = Z.max (- 2 ^ 63) (Z.min (digits_value 0 (y :: l)) (2 ^ 63 - 1)).
Proof.
  unfold isdigit. intros [H1 H2]%andb_true_iff. to_prop.
  assert (y = 48 \/ y = 49 \/ y = 50 \/ y = 51 \/ y = 52 \/ y = 53 \/ y = 54 \/ y = 55 \/ y = 56 \/ y = 57) as H by lia.
  by repeat destruct H as [->|H]; subst.
Qed.

Lemma print_u_ok v :
  int_range v -> atoi (print_u v ++ [10]) = v /\ Forall (fun y => isdigit y = true) (print_u v) /\ (length (print_u v) <= 10)%nat.
Proof.
  intros Hv. unfold int_range in Hv. pose proof (length_print_digits 10 v []) as Hl. cbn [length] in Hl. unfold print_u, atoi.
  destruct (print_digits_value 10 v []) as (ds & E0 & Hd & Hs); [lia|cbn; lia|]. rewrite app_nil_r in E0. rewrite E0 in *.
  split; [|split; [done|lia]]. destruct ds as [|y ds]; [by subst v|].
  apply Forall_cons in Hd as Hd'. cbn [app]. rewrite strtol10_digit by apply Hd'.
  change (y :: ds ++ [10]) with ((y :: ds) ++ 10 :: []). rewrite digits_value_stop by done. fold (digits_of (y :: ds)). rewrite Hs.
  rewrite Z.min_l, Z.max_r by lia. unfold signed. cbv zeta. rewrite wrap_small by lia.
  change (2 ^ (32 - 1)) with (2 ^ 31). by rewrite (proj2 (Z.ltb_lt _ _)) by lia.
Qed.

Lemma cfg_name_ok k :
  Forall (fun y => y <> 0 /\ y <> 10 /\ (y =? 61) = false /\ (y =? 10) = false) (cfg_name k) /\ (length (cfg_name k) <= 19)%nat /\
  cfg_of (cfg_name k) = Some k.
Proof.
  split; [|split].
  - destruct k; apply (bool_decide_unpack _); vm_compute; exact I.
  - destruct k; vm_compute; lia.
  - destruct k; vm_compute; reflexivity.
Qed.
Lemma digit_plain y : isdigit y = true -> y <> 0 /\ y <> 10.
Proof. unfold isdigit. intros [H1 H2]%andb_true_iff. to_prop. lia. Qed.

Lemma cfg_line_ok x :
  int_range x.2 ->
  exists l, cfg_line x = l ++ [10] /\ Forall (fun y => y <> 10) l /\ Forall (fun y => y <> 0) (cfg_line x) /\ (length l < 127)%nat /\
    forall s, load_line (cfg_line x) s = cfg_set x.1 x.2 s.
Proof.
  destruct x as [k v]. cbn [fst snd]. intros Hv. destruct (print_u_ok v Hv) as (Ha & Hd & Hl). destruct (cfg_name_ok k) as (Hn & Hln & Hk).
  unfold cfg_line. cbn [fst snd]. exists (cfg_name k ++ 61 :: print_u v).
  assert (Hdp : Forall (fun y => y <> 0 /\ y <> 10) (print_u v)) by (eapply Forall_impl; [exact Hd|apply digit_plain]).
  assert (H0 : Forall (fun y => y <> 0) (cfg_name k ++ 61 :: print_u v ++ [10])).
  { apply Forall_app. split; [eapply Forall_impl; [exact Hn|naive_solver]|]. constructor; [done|]. apply Forall_app.
    split; [eapply Forall_impl; [exact Hdp|naive_solver]|by constructor]. }
  split; [by rewrite <-app_assoc|]. split; [|split; [done|split]].
  - apply Forall_app. split; [eapply Forall_impl; [exact Hn|naive_solver]|]. constructor; [done|]. eapply Forall_impl; [exact Hdp|naive_solver].
  - rewrite length_app. cbn [length]. lia.
  - intros s. unfold load_line. rewrite until_nul_all by done.
    rewrite strchr_app by (unfold no_char; eapply Forall_impl; [exact Hn|naive_solver]).
    rewrite take_app_length. replace (S (length (cfg_name k))) with (length (cfg_name k) + 1)%nat by lia. rewrite drop_past, Ha.
    assert (Hs : strchr (cfg_name k) 10 = None) by (apply find_char_none; eapply Forall_impl; [exact Hn|naive_solver]).
    rewrite Hs, Hk. unfold int_range in Hv. destruct k; cbn [cfg_cast]; rewrite ?wrap_small by lia; done.
Qed.

(** The file is read to its end, whatever it holds: each line is shorter than
    the file by at least a character. *)
Lemma get_line_shorter room f : f <> [] -> (0 < room)%nat -> (length (get_line room f).2 < length f)%nat.
Proof.
  revert room. induction f as [|y f IH]; intros [|room] Hf Hr; try done; try lia. cbn. destruct (y =? 10); cbn; [lia|].
  destruct (get_line room f) as [l r] eqn:E0. cbn. destruct f as [|z f].
  - destruct room; cbn in E0; injection E0 as <- <-; cbn; lia.
  - destruct room; [cbn in E0; injection E0 as <- <-; cbn; lia|]. specialize (IH (S room) ltac:(done) ltac:(lia)). rewrite E0 in IH. cbn in IH |- *. lia.
Qed.
Lemma load_lines_enough f s n n' : (length f <= n)%nat -> (length f <= n')%nat -> load_lines n f s = load_lines n' f s.
Proof.
  revert f s n'. induction n as [|n IH]; intros f s n' Hn Hn'.
  - destruct f; [|cbn in Hn; lia]. by destruct n'.
  - destruct n' as [|n']; [destruct f; [done|cbn in Hn'; lia]|]. cbn [load_lines].
    destruct (fgets 128 f) as [[line rest]|] eqn:E0; [|done].
    unfold fgets in E0. destruct f as [|y f]; [done|]. change (Z.to_nat (128 - 1)) with 127%nat in E0.
    pose proof (get_line_shorter 127 (y :: f) ltac:(done) ltac:(lia)) as Hl. apply (inj Some) in E0. rewrite E0 in Hl.
    cbn [length snd] in Hl, Hn, Hn'. apply IH; lia.
Qed.

Lemma LoadConfig_lines settings s :
  Forall (fun x : CFG * Z => int_range x.2) settings ->
  LoadConfig (Some (concat (cfg_line <$> settings))) s = foldl (fun s x => cfg_set x.1 x.2 s) s settings.
Proof.
  intros Hs. unfold LoadConfig. revert s. induction Hs as [|x l Hx _ IH]; intros s; [done|].
  destruct (cfg_line_ok x Hx) as (ln & El & H10 & _ & Hlen & Hload).
  cbn [fmap list_fmap concat foldl]. rewrite <-(IH (cfg_set x.1 x.2 s)). rewrite El, <-app_assoc. cbn [app].
  set (rest := concat _). destruct (length (ln ++ 10 :: rest)) as [|n] eqn:En; [rewrite length_app in En; cbn in En; lia|].
  cbn [load_lines]. unfold fgets. destruct (ln ++ 10 :: rest) as [|y f] eqn:Ef; [done|]. rewrite <-Ef. change (Z.to_nat (128 - 1)) with 127%nat.
  rewrite get_line_newline by done. rewrite <-El, Hload. apply load_lines_enough; [|lia].
  rewrite <-Ef, length_app in En. cbn in En. lia.
Qed.

(** The last setting of a key counts. *)
Definition value_of k (settings : list (CFG * Z)) s : Z :=
  foldl (fun v x => if decide (x.1 = k) then x.2 else v) (cfg_get k s) settings.
Lemma value_of_ok k settings s : cfg_get k (foldl (fun s x => cfg_set x.1 x.2 s) s settings) = value_of k settings s.
Proof.
  unfold value_of. revert s. induction settings as [|x l IH]; intros s; [done|]. cbn [foldl]. rewrite IH, cfg_get_set. done.
Qed.

(** *** What a core is given *)
Definition flush_delay_of c : Z := read_core (fun _ i => flush_delay_ i) c.
Definition policer_of c : option (Z * Z * Z * Z) :=
  match c with APgw _ b => Some (policer_cir_ b, policer_cbs_ b, policer_eir_ b, policer_ebs_ b) | _ => None end.
Definition settable (k : KEY) : bool :=
  match k with CNT_RX | CNT_TX | CNT_WORKER | BURST_FROM | BURST_TO | CNT_PGW_INGRESS | CNT_PGW_EGRESS | SOCKET => true | _ => false end.

Lemma SetN_class (k : KEY) v c :
  GetType (SetN k v c) = GetType c /\ GetObjectName (SetN k v c) = GetObjectName c /\
  GetN LCORE (SetN k v c) = GetN LCORE c.
Proof.
  destruct c; try done. cbn. unfold CoreGtpu2GreWorker.SetN. by destruct (bool_decide (k = OPT)).
Qed.
Lemma GetN_SetN (k k' : KEY) v c : settable k' = true -> GetN k' (SetN k v c) = if decide (k = k') then v else GetN k' c.
Proof.
  intros Hs. destruct c; try (destruct k'; try discriminate Hs; destruct k; reflexivity).
Qed.
Lemma flush_SetN (k : KEY) v c : flush_delay_of (SetN k v c) = if decide (k = FLUSH_DELAY) then v else flush_delay_of c.
Proof. destruct c; destruct k; reflexivity. Qed.

Lemma swap_core_spec s c :
  let c' := swap_core s c in
  GetType c' = GetType c /\ GetObjectName c' = GetObjectName c /\ GetN LCORE c' = GetN LCORE c /\
  GetN BURST_FROM c' = cfg_get (burst_from (GetType c)) s /\ GetN BURST_TO c' = cfg_get (burst_to (GetType c)) s /\
  flush_delay_of c' = (match flush_delay (GetObjectName c) with Some k => cfg_get k s | None => flush_delay_of c end) /\
  (forall p, policer_of c = Some p -> policer_of c' = Some (s_POLICER_CIR s, s_POLICER_CBS s, s_POLICER_EIR s, s_POLICER_EBS s)).
Proof.
  unfold swap_core. rewrite !(proj1 (SetN_class _ _ _)), !(proj1 (proj2 (SetN_class _ _ _))).
  destruct (flush_delay (GetObjectName c)) as [k|]; cbn zeta;
    rewrite !(proj1 (SetN_class _ _ _)), !(proj1 (proj2 (SetN_class _ _ _))), !(proj2 (proj2 (SetN_class _ _ _))), !GetN_SetN, !flush_SetN by done;
    (do 6 (split; [done|])); intros p; destruct c; done.
Qed.
(** *** Commit *)
Lemma set_use_ok l used :
  Forall (fun i => 0 <= i < 64) l ->
  exists used', foldM SET_USE l used = Ok used' /\
    forall i, 0 <= i -> Z.testbit used' i = Z.testbit used i || bool_decide (i ∈ l).
Proof.
  intros Hl. revert used. induction Hl as [|x l Hx _ IH]; intros used; [exists used; split; [done|]; intros; by rewrite orb_false_r|].
  assert (Hu : SET_USE used x = Ok (Z.lor used (Z.shiftl 1 x)))
    by (unfold SET_USE; by rewrite (proj2 (Z.ltb_ge x 0)), (proj2 (Z.ltb_ge 63 x)) by lia).
  cbn [foldM]. rewrite Hu. cbn [mbind res_bind].
  destruct (IH (Z.lor used (Z.shiftl 1 x))) as (used' & E0 & Ht). exists used'. split; [done|]. intros i Hi. rewrite Ht by done.
  rewrite Z.lor_spec, Z.shiftl_1_l, <-orb_assoc. f_equal. rewrite (bool_decide_ext (i ∈ x :: l) (i = x \/ i ∈ l)) by apply elem_of_cons.
  rewrite bool_decide_or, Z.pow2_bits_eqb by lia. f_equal. destruct (Z.eqb_spec x i); by case_bool_decide.
Qed.

Lemma set_counts_spec rx tx pi pe c :
  let c' := set_counts rx tx pi pe c in
  GetType c' = GetType c /\ GetObjectName c' = GetObjectName c /\ GetN LCORE c' = GetN LCORE c /\ GetN CNT_RX c' = rx /\ GetN CNT_TX c' = tx /\
  GetN CNT_PGW_INGRESS c' = pi /\ GetN CNT_PGW_EGRESS c' = pe.
Proof.
  unfold set_counts. rewrite !(proj1 (SetN_class _ _ _)), !(proj1 (proj2 (SetN_class _ _ _))), !(proj2 (proj2 (SetN_class _ _ _))).
  by rewrite !GetN_SetN by done.
Qed.

Lemma swap_core_counts s (k : KEY) c : k ∈ [CNT_RX; CNT_TX; CNT_PGW_INGRESS; CNT_PGW_EGRESS] -> GetN k (swap_core s c) = GetN k c.
Proof.
  intros Hk. assert (settable k = true /\ k <> BURST_FROM /\ k <> BURST_TO /\ k <> FLUSH_DELAY /\
    k <> POLICER_CIR /\ k <> POLICER_CBS /\ k <> POLICER_EIR /\ k <> POLICER_EBS) as (Hs & ? & ? & ? & ? & ? & ? & ?).
  { repeat (apply elem_of_cons in Hk as [->|Hk]; [done|]). by apply elem_of_nil in Hk. }
  unfold swap_core. destruct (flush_delay _); cbn zeta; rewrite !GetN_SetN by done; rewrite !decide_False by congruence; done.
Qed.

(** What every core knows after [Commit]. *)
Record prepared (a : App) (conf : StaticConf) c c' : Prop := {
  pr_type : GetType c' = GetType c;
  pr_rx : GetN CNT_RX c' = count_type RX (cores_ a);
  pr_tx : GetN CNT_TX c' = count_type TX (cores_ a);
  pr_ingress : GetN CNT_PGW_INGRESS c' = count_type PGW_INGRESS (cores_ a);
  pr_egress : GetN CNT_PGW_EGRESS c' = count_type PGW_EGRESS (cores_ a);
  pr_from : GetN BURST_FROM c' = cfg_get (burst_from (GetType c)) (mk_statics 0 conf 0 0 0 0 0 0 0 0 0 0 0);
  pr_to : GetN BURST_TO c' = cfg_get (burst_to (GetType c)) (mk_statics 0 conf 0 0 0 0 0 0 0 0 0 0 0);
}.

Lemma Commit_ok cnf a s used :
  (forall l, is_Some (cores_ a !! l) -> 0 <= l < 64) -> Z.of_nat (size (cores_ a)) < 2 ^ 32 ->
  cnt_rx_ a = 0 -> cnt_tx_ a = 0 -> cnt_pgw_ingress_ a = 0 -> cnt_pgw_egress_ a = 0 ->
  exists a' s' used', Commit cnf a s used = Ok (a', s', used') /\ stat_ a' = stat_ a + 1 /\
    (forall l, 0 <= l -> Z.testbit used' l = Z.testbit used l || bool_decide (is_Some (cores_ a !! l))) /\
    dom (cores_ a') = dom (cores_ a) /\
    (forall l c, cores_ a !! l = Some c -> exists c', cores_ a' !! l = Some c' /\ prepared a (default (conf_ a) cnf) c c').
Proof.
  intros Hk Hsz Hrx Htx Hpi Hpe. unfold Commit. rewrite Hrx, Htx, Hpi, Hpe, !Z.add_0_l.
  assert (Hct : forall t, u32 (count_type t (cores_ a)) = count_type t (cores_ a)).
  { intros t. rewrite wrap_small; [done|]. unfold count_type. split; [lia|]. pose proof (map_size_filter (fun x : Z * AnyCore => GetType x.2 = t) (cores_ a)) as Hle. lia. }
  rewrite !Hct. destruct (set_use_ok (map_to_list (cores_ a)).*1 used) as (used' & E0 & Ht).
  { apply Forall_forall. intros x Hx. apply Hk. apply list_elem_of_fmap in Hx as ([i c] & -> & Hx). apply elem_of_map_to_list in Hx. by eexists. }
  rewrite E0. cbn [mbind res_bind]. eexists _, _, used'. split; [reflexivity|]. split; [done|]. split; [|split].
  - intros l Hl. rewrite Ht by done. f_equal. apply bool_decide_ext. rewrite list_elem_of_fmap. split.
    + intros ([i c] & -> & Hx). apply elem_of_map_to_list in Hx. by eexists.
    + intros [c Hc]. exists (l, c). split; [done|]. by apply elem_of_map_to_list.
  - cbn. by rewrite !dom_fmap_L.
  - intros l c Hc. cbn. rewrite !lookup_fmap, Hc. cbn. eexists. split; [reflexivity|].
    match goal with |- prepared _ _ _ (swap_core ?st (set_counts ?rx ?tx ?pi ?pe _)) =>
      destruct (set_counts_spec rx tx pi pe c) as (T1 & _ & _ & K1 & K2 & K3 & K4); destruct (swap_core_spec st (set_counts rx tx pi pe c)) as (T2 & _ & _ & B1 & B2 & _) end.
    rewrite T1 in *. constructor; rewrite ?T2, ?B1, ?B2, ?swap_core_counts by (repeat constructor); try done; by destruct (GetType c).
Qed.
End config.

(** ** Claims *)
Module Properties.
Section properties.
Context `{D : Dpdk} `{B : Build} `{E : Eal}.
Implicit Types (c : AnyCore) (a : App) (s : Statics).

(** C6: every software ring has one producer and one consumer: whatever
    sequence of [Add], [AddCores], [Connect], [Commit] and [SwapConfig] built
    the application out of unconnected cores, no ring is read by two cores and
    none is written by two, which is what RING_F_SP_ENQ and RING_F_SC_DEQ ask for. *)
Theorem rings_have_single_ends a :
  fresh_rings -> built a ->
  forall r l1 l2 c1 c2, cores_ a !! l1 = Some c1 -> cores_ a !! l2 = Some c2 ->
    (r ∈ reads c1 -> r ∈ reads c2 -> l1 = l2) /\ (r ∈ writes c1 -> r ∈ writes c2 -> l1 = l2).
Proof.
  intros Hf Hb r l1 l2 c1 c2 H1 H2. destruct (built_wired Hf a Hb) as [Hr Hw _ _]. split; [by eapply Hr|by eapply Hw].
Qed.


(** [Commit] of an application: every core learns how many cores of each type
    there are and its burst sizes, the mask of used cores holds exactly the
    registered cores, and from then on [Add] and [Connect] panic. *)
Theorem commit_prepares_cores cnf a s used :
  stat_ a = 0 -> (forall l, is_Some (cores_ a !! l) -> 0 <= l < 64) -> Z.of_nat (size (cores_ a)) < 2 ^ 32 ->
  cnt_rx_ a = 0 -> cnt_tx_ a = 0 -> cnt_pgw_ingress_ a = 0 -> cnt_pgw_egress_ a = 0 ->
  exists a' s' used', Commit cnf a s used = Ok (a', s', used') /\
    (forall l, 0 <= l -> Z.testbit used' l = Z.testbit used l || bool_decide (is_Some (cores_ a !! l))) /\
    (forall l c, cores_ a !! l = Some c -> exists c', cores_ a' !! l = Some c' /\ prepared a (default (conf_ a) cnf) c c') /\
    (forall corei, Add corei a' = Fault RtePanic) /\ (forall fm to size, Connect fm to size a' = Fault RtePanic).
Proof.
  intros Hst Hk Hsz Hrx Htx Hpi Hpe. destruct (Commit_ok cnf a s used Hk Hsz Hrx Htx Hpi Hpe) as (a' & s' & used' & E0 & Hs' & Hu & _ & Hp).
  exists a', s', used'. rewrite Hst in Hs'. split; [done|]. split; [done|]. split; [done|]. split.
  - intros [c|]; [|done]. unfold Add. by rewrite Hs'.
  - intros fm to n. unfold Connect. by rewrite Hs'.
Qed.

(** C38: the configuration file reaches the cores: after [LoadConfig] of a file of
    settings, one per line, and [SwapConfig], every core has the burst sizes of
    its type and the flush delay of its class, and every PGW worker the policer
    values, each as its last setting in the file says and unchanged where the
    file does not set it. *)
Theorem config_file_reaches_cores settings s a l c :
  Forall (fun x : CFG * Z => int_range x.2) settings -> cores_ a !! l = Some c ->
  let v k := value_of k settings s in
  exists c', cores_ (SwapConfig (LoadConfig (Some (concat (cfg_line <$> settings))) s) a) !! l = Some c' /\
    GetType c' = GetType c /\ GetN BURST_FROM c' = v (burst_from (GetType c)) /\ GetN BURST_TO c' = v (burst_to (GetType c)) /\
    flush_delay_of c' = (match flush_delay (GetObjectName c) with Some k => v k | None => flush_delay_of c end) /\
    (forall p, policer_of c = Some p -> policer_of c' = Some (v CFG_POLICER_CIR, v CFG_POLICER_CBS, v CFG_POLICER_EIR, v CFG_POLICER_EBS)).
Proof.
  intros Hs Hc v. rewrite LoadConfig_lines by done. set (s' := foldl _ s settings).
  assert (Hv : forall k, cfg_get k s' = v k) by (intros k; apply value_of_ok).
  destruct (swap_core_spec s' c) as (T & _ & _ & B1 & B2 & F & P).
  exists (swap_core s' c). cbn [SwapConfig set_cores cores_]. rewrite lookup_fmap, Hc. split; [done|]. split; [done|].
  rewrite <-!Hv. split; [done|]. split; [done|]. split; [rewrite F; by destruct (flush_delay _)|]. done.
Qed.

(** *** What the modelling showed *)

Lemma flush_delay_keys nm k : flush_delay nm = Some k -> k <> CFG_FLUSH_RX_DIST.
Proof.
  unfold flush_delay. destruct (list_find _ _) as [[i [n k']]|] eqn:E0; [|done]. intros [= <-].
  apply list_find_Some in E0 as (Hl & _ & _). apply list_elem_of_lookup_2 in Hl.
  assert (Forall (fun x : string * CFG => x.2 <> CFG_FLUSH_RX_DIST) flush_delays) as Hf by (apply (bool_decide_unpack _); vm_compute; exact I).
  rewrite Forall_forall in Hf. exact (Hf _ Hl).
Qed.

(** The key flush_rx_dist is read and stored, and no core is given it. *)
Lemma flush_rx_dist_unused v s c : swap_core (cfg_set CFG_FLUSH_RX_DIST v s) c = swap_core s c.
Proof.
  unfold swap_core.
  assert (H1 : forall t, cfg_get (burst_from t) (cfg_set CFG_FLUSH_RX_DIST v s) = cfg_get (burst_from t) s) by (by intros []).
  assert (H2 : forall t, cfg_get (burst_to t) (cfg_set CFG_FLUSH_RX_DIST v s) = cfg_get (burst_to t) s) by (by intros []).
  rewrite H1, H2. destruct (flush_delay _) as [k|] eqn:Ek; [|done]. apply flush_delay_keys in Ek. rewrite cfg_get_set, decide_False by done. done.
Qed.

(** The database writers keep the flush delay their constructor left. *)
Lemma log_worker_flush_delay_unset s x : flush_delay_of (swap_core s (ALog x)) = flush_delay_of (ALog x).
Proof. reflexivity. Qed.

(** A burst size of 0 is taken from the file, and the warm-up of every PGW worker
    divides by it. *)
Lemma zero_burst_divides {W : Type} `{!PgwWorker W} s (k : pgw_class) (b : PgwBase) b' (y : W) w uninit :
  GetType (APgw k b) = PGW_INGRESS -> cfg_get CFG_BURST_RX_READ s = 0 -> swap_core s (APgw k b) = APgw k b' ->
  base y = b' -> PgwCycle.warmup uninit (y, w) = Fault Undefined.
Proof.
  intros Ht Hz Hs Hy. destruct (swap_core_spec s (APgw k b)) as (_ & _ & _ & Hb & _). cbv zeta in Hb. rewrite Hs, Ht in Hb.
  cbn [burst_from] in Hb. rewrite Hz in Hb. unfold PgwCycle.warmup. rewrite Hy. change (burst_fm_ (core b') = 0) in Hb. by rewrite Hb.
Qed.
End properties.

(** An encapsulation node: a receive core, a worker, a transmit core. *)
#[local] Existing Instance DpdkModel.dpdk.
#[local] Instance eal0 : Eal := {|
  rte_lcore_to_socket_id := fun l => l mod 2;
  rte_pktmbuf_pool := fun sock => Some (100 + sock);
  rte_ring_create := fun _ _ _ n => Some (Z.of_nat n + 1);
|}.
#[local] Instance plain_build : Build := {|
  ARCH := 9; TEST_MODE := false; CANNOT_USE_GRE := false; COUNTER_RX := false;
  TUNNEL_RX := true; NON_SUPPORTED_ERRIND := true |}.
Definition new_core (port lcore : Z) : CoreInterface rte_mbuf := mk_core port 0 lcore 0 0 0 0 0 0 0 0 None None [] 0 CoreCounter.Clear.
Definition get (a : App) (r : res App) : App := match r with Ok a => a | Fault _ => a end.
Definition rx1 : AnyCore := ARx (CoreRx.mk (RxBuffers.construct (new_core 0 1)) 255 None).
Definition wk3 : AnyCore := AGreterm (CoreGretermWorker.construct (new_core 0 3) 0).
Definition tx5 : AnyCore := ATx (CoreTx.construct (new_core 1 5) None 0).
Definition app1 : App := get App_new (Add (Some rx1) App_new).
Definition app2 : App := get app1 (Add (Some wk3) app1).
Definition app3 : App := get app2 (Add (Some tx5) app2).
Definition app4 : App := get app3 (Connect 1 3 4096 app3).
Definition app5 : App := get app4 (Connect 3 5 4096 app4).

Lemma fresh0 : fresh_rings.
Proof. intros nm size sock k nm' size' sock' k' q. cbn. intros [= <-] [= H]. lia. Qed.
Lemma built5 : built app5.
Proof.
  apply (built_connect 3 5 4096 app4); [|vm_compute; reflexivity]. apply (built_connect 1 3 4096 app3); [|vm_compute; reflexivity].
  apply (built_add tx5 app2); [|split; reflexivity|vm_compute; reflexivity].
  apply (built_add wk3 app1); [|split; reflexivity|vm_compute; reflexivity].
  apply (built_add rx1 App_new); [apply built_new|split; reflexivity|vm_compute; reflexivity].
Qed.

Definition core_at (l : Z) (a : App) : AnyCore := default rx1 (cores_ a !! l).

Lemma rings_have_single_ends_witness :
  writes (core_at 1 app5) = [1] /\ reads (core_at 3 app5) = [1] /\ writes (core_at 3 app5) = [2] /\ reads (core_at 5 app5) = [2] /\
  forall l c, cores_ app5 !! l = Some c -> 2 ∈ reads c -> l = 5.
Proof.
  do 4 (split; [vm_compute; reflexivity|]). intros l c Hc Hr.
  apply (proj1 (rings_have_single_ends app5 fresh0 built5 2 l 5 c (core_at 5 app5) Hc ltac:(vm_compute; reflexivity)) Hr).
  apply (bool_decide_unpack _). vm_compute. exact I.
Defined.

Lemma built3 : built app3.
Proof.
  apply (built_add tx5 app2); [|split; reflexivity|vm_compute; reflexivity].
  apply (built_add wk3 app1); [|split; reflexivity|vm_compute; reflexivity].
  apply (built_add rx1 App_new); [apply built_new|split; reflexivity|vm_compute; reflexivity].
Qed.

Lemma app5_keys l : is_Some (cores_ app5 !! l) -> l = 1 \/ l = 3 \/ l = 5.
Proof.
  intros H. apply elem_of_dom in H. assert (Hd : dom (cores_ app5) = ({[1; 3; 5]} : gset Z)) by (vm_compute; reflexivity).
  rewrite Hd, !elem_of_union, !elem_of_singleton in H. tauto.
Qed.

Lemma commit_prepares_cores_witness :
  exists a' s' used', Commit None app5 statics0 0 = Ok (a', s', used') /\ Z.testbit used' 3 = true /\ Z.testbit used' 4 = false /\
    (exists c, cores_ a' !! 3 = Some c /\ GetN CNT_RX c = 1 /\ GetN BURST_FROM c = 16) /\ Connect 1 3 4096 a' = Fault RtePanic.
Proof.
  destruct (commit_prepares_cores None app5 statics0 0) as (a' & s' & used' & E0 & Hu & Hc & _ & Hn);
    [reflexivity|intros l [->|[->| ->]]%app5_keys; lia|vm_compute; reflexivity|reflexivity..|].
  exists a', s', used'. split; [exact E0|]. split; [rewrite Hu by lia; vm_compute; reflexivity|]. split; [rewrite Hu by lia; vm_compute; reflexivity|].
  split; [|apply Hn]. destruct (Hc 3 (core_at 3 app5)) as (c' & Hc' & [_ Hrx _ _ _ Hf _]); [vm_compute; reflexivity|].
  exists c'. split; [exact Hc'|]. rewrite Hrx, Hf. split; vm_compute; reflexivity.
Defined.

Lemma config_file_reaches_cores_witness :
  let file := lit "burst_size_rx_deq=8
flush_greterm=500
burst_size_rx_deq=32
" in
  exists c, cores_ (SwapConfig (LoadConfig (Some file) statics0) app5) !! 3 = Some c /\
    GetN BURST_FROM c = 32 /\ GetN BURST_TO c = 4 /\ flush_delay_of c = 500.
Proof.
  cbv zeta. destruct (config_file_reaches_cores [(CFG_BURST_RX_DEQ, 8); (CFG_FLUSH_GRETERM, 500); (CFG_BURST_RX_DEQ, 32)] statics0 app5 3 (core_at 3 app5))
    as (c & Hc & _ & Hf & Ht & Hd & _); [repeat (constructor; [unfold int_range; cbn; lia|]); constructor|vm_compute; reflexivity|].
  exists c. split; [|split; [exact Hf|split; [exact Ht|exact Hd]]]. rewrite <-Hc. reflexivity.
Defined.
End Properties.
