(* ===== verification/AppRun.v ===== *)
(** * Running the application

    The state machine of dataplane/src/app/app.cc: the status word and the masks
    (app.hpp), the threads [App::Dispatch] runs on the cores (and
    [AppV2::DispatchV2] of app_v2.cc), the state changer on core 0, the signal
    handler.  A run is a sequence of events, each one step of one thread, in any
    order: reads and writes of the status words are atomic, as the sources make
    them, everything else may interleave.

    A burst is the [APP_STAT_BURST] calls of [Cycle] a core makes between two
    looks at the status; what a call does is in the files of the workers.  What
    matters here is that [SwapConfig] writes to the cores and must not run while
    one of them is in a burst.

    For the first version the Section [machine] runs these steps as the threads do,
    with the spin lock around every update of the words and the handlers of the
    signals, which run on the thread they interrupt and take the same lock. *)

From S2P Require Import Prelude Dpdk Packet CoreBase App.

(** ** The status word *)
Definition APP_STAT_DC := 1.
Definition APP_STAT_INIT := 2.
Definition APP_STAT_PREPARE := 4.
Definition APP_STAT_BUSYLOOP := 8.
Definition APP_STAT_CFGLOAD := 16.
Definition APP_STAT_CFGACK := 32.
Definition APP_STAT_CFGSWAP := 64.
Definition APP_STAT_SIGUSR1 := Z.shiftl 1 62.
Definition APP_STAT_SIGUSR2 := Z.shiftl 1 63.
Definition APP_STAT_EMASK := 0xFFFFFFFFFFFFFF00.
Definition APP_STAT_MASK := 0xFF.
Definition APP_STAT_ESIGMASK := 0x3FFFFFFFFFFFFFFF.
Definition APP_STAT_SIGMASK := 0xC000000000000000.

Definition HAVE_SIGNAL (status : Z) : bool := negb (Z.land APP_STAT_SIGMASK status =? 0).
Definition RESET_SIGNAL (status : Z) : Z := Z.land status APP_STAT_ESIGMASK.
Definition SET_SIGNAL (s status : Z) : Z := Z.lor (Z.land status APP_STAT_ESIGMASK) (Z.land s APP_STAT_SIGMASK).
Definition STAT (status : Z) : Z := Z.land APP_STAT_MASK status.
Definition SET (c status : Z) : Z := Z.lor (Z.land status APP_STAT_EMASK) (Z.land c APP_STAT_MASK).
(** [APP_STAT_SET_PREPARE] and [APP_STAT_SET_ACK]. *)
Definition SET_BIT (c mask : Z) : Z := Z.lor mask (Z.shiftl 1 c).

(** ** The state *)

(** Where the thread of a core is: before [BeforeCycle] has returned, at the look
    at the status, in a burst, or asleep with the status it saw. *)
Inductive core_pc := Starting | Looking | Bursting | Sleeping (stat : Z).
#[export] Instance core_pc_eq_dec : EqDecision core_pc.
Proof. solve_decision. Defined.

(** The calls the state changer still has to make in its round. *)
Inductive action := LOAD_CONFIG | SWAP_CONFIG | RESET_SIG | RESET_ACK | SET_STAT (c : Z).
#[export] Instance action_eq_dec : EqDecision action.
Proof. solve_decision. Defined.

Record state := mk_state {
  s_status_ : Z;
  s_core_used_ : Z;
  s_core_prepared_ : Z;
  s_core_ack_ : Z;
  signalled : Z;                (* the word the signal handler of app.cc writes *)
  threads : gmap Z core_pc;     (* the cores' threads *)
  vthreads : gmap Z bool;       (* the second cores: in a burst of VirtualCycle? *)
  todo : list action;
  conf : Statics;
  the_app : App;
  file : option (list Z);       (* the configuration file *)
}.

(** An event: what a thread does next takes effect, the file is changed. *)
Inductive event :=
| Prepare (l : Z)         (* BeforeCycle and APP_STAT_SET_PREPARE *)
| Look (l : Z)            (* read the status: into a burst or to sleep *)
| Finish (l : Z)          (* the burst or the sleep ends *)
| VLook (l : Z)
| VFinish (l : Z)
| Changer                 (* the next call of the state changer, or its next round *)
| SetSignal (s : Z)       (* the write of the signal handler *)
| Edit (f : option (list Z)).

Section run.
Context `{D : Dpdk} `{B : Build}.
(** The second version has its own status words and its own loop. *)
Variable v2 : bool.
Implicit Types (s : state) (l : Z).

Definition set_words (status prepared ack sig : Z) (t : gmap Z core_pc) s : state :=
  mk_state status (s_core_used_ s) prepared ack sig t (vthreads s) (todo s) (conf s) (the_app s) (file s).
Definition set_thread l (pc : core_pc) s : state :=
  set_words (s_status_ s) (s_core_prepared_ s) (s_core_ack_ s) (signalled s) (<[l := pc]> (threads s)) s.
Definition set_vthread l (b : bool) s : state :=
  mk_state (s_status_ s) (s_core_used_ s) (s_core_prepared_ s) (s_core_ack_ s) (signalled s) (threads s) (<[l := b]> (vthreads s)) (todo s)
    (conf s) (the_app s) (file s).
Definition set_changer (status ack : Z) (t : list action) (c : Statics) (a : App) s : state :=
  mk_state status (s_core_used_ s) (s_core_prepared_ s) ack (signalled s) (threads s) (vthreads s) t c a (file s).

(** The statuses in which a core works. *)
Definition works (stat : Z) : bool := (stat =? APP_STAT_BUSYLOOP) || (negb v2 && (stat =? APP_STAT_CFGLOAD)).

(** One round of the state changer: the calls it makes in the status it finds. *)
Definition round s : res (list action) :=
  let stat := STAT (s_status_ s) in
  if stat =? APP_STAT_DC then Ok [SET_STAT APP_STAT_INIT]
  else if stat =? APP_STAT_INIT then Ok (if s_core_used_ s =? s_core_prepared_ s then [SET_STAT APP_STAT_PREPARE] else [])
  else if stat =? APP_STAT_PREPARE then Ok [RESET_ACK; SET_STAT APP_STAT_BUSYLOOP]
  else if stat =? APP_STAT_BUSYLOOP then
    Ok (if HAVE_SIGNAL (s_status_ s) then (if v2 then [] else [SET_STAT APP_STAT_CFGLOAD]) else [])
  else if v2 then Fault RtePanic
  else if stat =? APP_STAT_CFGLOAD then Ok [LOAD_CONFIG; RESET_SIG; RESET_ACK; SET_STAT APP_STAT_CFGACK]
  else if stat =? APP_STAT_CFGACK then Ok (if s_core_used_ s =? s_core_ack_ s then [SET_STAT APP_STAT_CFGSWAP] else [])
  else if stat =? APP_STAT_CFGSWAP then Ok [SWAP_CONFIG; SET_STAT APP_STAT_PREPARE]
  else Fault RtePanic.

Definition act (a : action) s : state :=
  let same t c a' := set_changer (s_status_ s) (s_core_ack_ s) t c a' s in
  let rest := tail (todo s) in
  match a with
  | LOAD_CONFIG => same rest (LoadConfig (file s) (conf s)) (the_app s)
  | SWAP_CONFIG => same rest (conf s) (SwapConfig (conf s) (the_app s))
  | RESET_SIG => set_changer (RESET_SIGNAL (s_status_ s)) (s_core_ack_ s) rest (conf s) (the_app s) s
  | RESET_ACK => set_changer (s_status_ s) 0 rest (conf s) (the_app s) s
  | SET_STAT c => set_changer (SET c (s_status_ s)) (s_core_ack_ s) rest (conf s) (the_app s) s
  end.

(** What an event does; [None] when the thread is elsewhere. *)
Definition exec (e : event) s : option (res state) :=
  match e with
  | Prepare l =>
      match threads s !! l with
      | Some Starting => Some (Ok (set_words (s_status_ s) (SET_BIT l (s_core_prepared_ s)) (s_core_ack_ s) (signalled s)
                                     (<[l := Looking]> (threads s)) s))
      | _ => None
      end
  | Look l =>
      match threads s !! l with
      | Some Looking =>
          let stat := STAT (s_status_ s) in
          Some (Ok (set_thread l (if works stat then Bursting else Sleeping stat) s))
      | _ => None
      end
  | Finish l =>
      match threads s !! l with
      | Some Bursting => Some (Ok (set_thread l Looking s))
      | Some (Sleeping stat) =>
          let ack := if negb v2 && (stat =? APP_STAT_CFGACK) then SET_BIT l (s_core_ack_ s) else s_core_ack_ s in
          Some (Ok (set_words (s_status_ s) (s_core_prepared_ s) ack (signalled s) (<[l := Looking]> (threads s)) s))
      | _ => None
      end
  | VLook l =>
      match vthreads s !! l with
      | Some false => Some (Ok (set_vthread l (STAT (s_status_ s) =? APP_STAT_BUSYLOOP) s))
      | _ => None
      end
  | VFinish l => match vthreads s !! l with Some true => Some (Ok (set_vthread l false s)) | _ => None end
  | Changer =>
      match todo s with
      | [] => Some (t ← round s; Ok (set_changer (s_status_ s) (s_core_ack_ s) t (conf s) (the_app s) s))
      | a :: _ => Some (Ok (act a s))
      end
  | SetSignal g =>
      let status := if v2 then s_status_ s else SET_SIGNAL g (s_status_ s) in
      Some (Ok (set_words status (s_core_prepared_ s) (s_core_ack_ s) (SET_SIGNAL g (signalled s)) (threads s) s))
  | Edit f =>
      Some (Ok (mk_state (s_status_ s) (s_core_used_ s) (s_core_prepared_ s) (s_core_ack_ s) (signalled s) (threads s) (vthreads s)
                  (todo s) (conf s) (the_app s) f))
  end.
Definition step (e : event) s s' : Prop := exec e s = Some (Ok s').
Fixpoint exec_all (es : list event) s : option state :=
  match es with
  | [] => Some s
  | e :: es => match exec e s with Some (Ok s') => exec_all es s' | _ => None end
  end.

(** After [Commit]: the mask holds the cores, nothing has run. *)
Record starting s : Prop := mk_starting {
  st_status : s_status_ s = APP_STAT_DC;
  st_used : forall l, 0 <= l -> Z.testbit (s_core_used_ s) l = bool_decide (is_Some (threads s !! l));
  st_range : forall l, is_Some (threads s !! l) -> 0 <= l < 64;
  st_threads : forall l pc, threads s !! l = Some pc -> pc = Starting;
  st_ack : s_core_ack_ s = 0;
  st_todo : todo s = [];
}.

(** Runs through states in which [ok] holds. *)
Inductive reach (ok : state -> Prop) : state -> Prop :=
| reach_start s : starting s -> reach ok s
| reach_step e s s' : reach ok s -> ok s -> step e s s' -> reach ok s'.

(** The timing the design relies on: a core that goes to sleep for
    [APP_STAT_DELAY] microseconds in one reload is awake again when the state
    changer clears the acknowledgements of the next one, several of its rounds
    of milliseconds later. *)
Definition timely s : Prop :=
  todo s = [RESET_ACK; SET_STAT APP_STAT_CFGACK] -> forall l, threads s !! l <> Some (Sleeping APP_STAT_CFGACK).
End run.

(** ** The spin lock and the signals

    [APP_STAT_SET], [RESET_SIGNAL], [SET_PREPARE], [SET_ACK], [RESET_ACK] and
    [SET_SIGNAL] take [s_spinlock]: take it, write, give it back.  The handler of a
    signal runs on the thread it interrupts, which goes on when it has returned; a
    signal waits while its own handler runs. *)
Inductive thread := Core (l : Z) | Second (l : Z) | StateChanger.
#[export] Instance thread_eq_dec : EqDecision thread.
Proof. solve_decision. Defined.

(** [lock]: the thread that holds it, at which depth (0: the thread itself, [S n]: the
    handler of its n-th signal), and whether it has written; [handlers]: the signals
    being handled on each thread, the one that runs last. *)
Record machine := mk_machine { base : state; lock : option (thread * nat * bool); handlers : thread -> list Z }.
Definition depth (t : thread) (m : machine) : nat := length (handlers m t).
Definition set_handlers (t : thread) (gs : list Z) (hs : thread -> list Z) : thread -> list Z :=
  fun x => if decide (x = t) then gs else hs x.

(** What a thread does next, and what each handler on it does. *)
Definition event_of (l : Z) (pc : core_pc) : event := match pc with Starting => Prepare l | Looking => Look l | _ => Finish l end.
Definition thread_event (t : thread) (s : state) : option event :=
  match t with
  | Core l => event_of l <$> threads s !! l
  | Second l => (fun b : bool => if b then VFinish l else VLook l) <$> vthreads s !! l
  | StateChanger => Some Changer
  end.
Definition frame_event (t : thread) (d : nat) (m : machine) : option event :=
  match d with O => thread_event t (base m) | S k => SetSignal <$> handlers m t !! k end.
(** Whether it is one of the updates under the lock. *)
Definition locks (e : event) (s : state) : bool :=
  match e with
  | Prepare _ | SetSignal _ => true
  | Finish l => bool_decide (threads s !! l = Some (Sleeping APP_STAT_CFGACK))
  | Changer => match todo s with (RESET_SIG | RESET_ACK | SET_STAT _) :: _ => true | _ => false end
  | _ => false
  end.

Inductive mevent := Run (t : thread) | Deliver (t : thread) (g : Z) | NewFile (f : option (list Z)).

Section machine.
Context `{D : Dpdk} `{B : Build}.
Definition apply (e : event) (lk : option (thread * nat * bool)) (m : machine) : option (res machine) :=
  match exec false e (base m) with
  | Some r => Some (s ← r; Ok (mk_machine s lk (handlers m)))
  | None => None
  end.
(** The next step of what runs on a thread; [None] when it spins. *)
Definition run (t : thread) (m : machine) : option (res machine) :=
  let d := depth t m in
  if decide (lock m = Some (t, d, true)) then
    Some (Ok (mk_machine (base m) None (set_handlers t (take (pred d) (handlers m t)) (handlers m))))
  else
    match frame_event t d m with
    | None => None
    | Some e =>
        if locks e (base m) then
          match lock m with
          | None => Some (Ok (mk_machine (base m) (Some (t, d, false)) (handlers m)))
          | Some h => if decide (h = (t, d, false)) then apply e (Some (t, d, true)) m else None
          end
        else apply e (lock m) m
    end.
Definition mexec (e : mevent) (m : machine) : option (res machine) :=
  match e with
  | Run t => run t m
  | Deliver t g =>
      if bool_decide (g ∈ [APP_STAT_SIGUSR1; APP_STAT_SIGUSR2]) && bool_decide (is_Some (thread_event t (base m))) &&
         bool_decide (g ∉ handlers m t)
      then Some (Ok (mk_machine (base m) (lock m) (set_handlers t (handlers m t ++ [g]) (handlers m)))) else None
  | NewFile f => apply (Edit f) (lock m) m
  end.
Definition mstep (e : mevent) (m m' : machine) : Prop := mexec e m = Some (Ok m').
Fixpoint mexec_all (es : list mevent) (m : machine) : option machine :=
  match es with
  | [] => Some m
  | e :: es => match mexec e m with Some (Ok m') => mexec_all es m' | _ => None end
  end.
Inductive mreach (ok : state -> Prop) : machine -> Prop :=
| mreach_start m : starting (base m) -> lock m = None -> (forall t, handlers m t = []) -> mreach ok m
| mreach_step e m m' : mreach ok m -> ok (base m) -> mstep e m m' -> mreach ok m'.
End machine.

(** The holder of the lock is interrupted. *)
Definition tangled (m : machine) : Prop := exists t d w, lock m = Some (t, d, w) /\ (d < depth t m)%nat.
(** A second core that is in a burst when a reload begins has finished it when the state
    changer clears the acknowledgements. *)
Definition prompt (s : state) : Prop := todo s = [RESET_ACK; SET_STAT APP_STAT_CFGACK] -> forall l, vthreads s !! l <> Some true.

(** ** The words *)
Lemma land_MASK_E w : Z.land APP_STAT_MASK (Z.land w APP_STAT_EMASK) = 0.
Proof.
  rewrite (Z.land_comm w), Z.land_assoc. change (Z.land APP_STAT_MASK APP_STAT_EMASK) with 0. apply Z.land_0_l.
Qed.
Lemma STAT_SET c w : Z.land APP_STAT_MASK (Z.land c APP_STAT_MASK) = c -> STAT (SET c w) = c.
Proof. intros Hc. unfold STAT, SET. by rewrite Z.land_lor_distr_r, land_MASK_E, Z.lor_0_l. Qed.
Lemma STAT_RESET_SIGNAL w : STAT (RESET_SIGNAL w) = STAT w.
Proof.
  unfold STAT, RESET_SIGNAL. rewrite (Z.land_comm w), Z.land_assoc. done.
Qed.
Lemma STAT_SET_SIGNAL g w : STAT (SET_SIGNAL g w) = STAT w.
Proof.
  unfold STAT, SET_SIGNAL. rewrite Z.land_lor_distr_r, (Z.land_comm w), (Z.land_comm g), !Z.land_assoc.
  change (Z.land APP_STAT_MASK APP_STAT_ESIGMASK) with APP_STAT_MASK. change (Z.land APP_STAT_MASK APP_STAT_SIGMASK) with 0.
  by rewrite Z.land_0_l, Z.lor_0_r.
Qed.
Lemma HAVE_SIGNAL_SET c w : 0 <= c < 256 -> HAVE_SIGNAL (SET c w) = HAVE_SIGNAL w.
Proof.
  intros Hc. unfold HAVE_SIGNAL, SET. do 2 f_equal. rewrite Z.land_lor_distr_r, (Z.land_comm w), (Z.land_comm c), !Z.land_assoc.
  change (Z.land APP_STAT_SIGMASK APP_STAT_EMASK) with APP_STAT_SIGMASK. change (Z.land APP_STAT_SIGMASK APP_STAT_MASK) with 0.
  by rewrite Z.land_0_l, Z.lor_0_r.
Qed.
Lemma HAVE_SIGNAL_RESET w : HAVE_SIGNAL (RESET_SIGNAL w) = false.
Proof.
  unfold HAVE_SIGNAL, RESET_SIGNAL. rewrite (Z.land_comm w), Z.land_assoc. change (Z.land APP_STAT_SIGMASK APP_STAT_ESIGMASK) with 0.
  done.
Qed.
Lemma SET_BIT_spec c mask l : 0 <= c -> 0 <= l -> Z.testbit (SET_BIT c mask) l = Z.testbit mask l || (c =? l).
Proof. intros Hc Hl. unfold SET_BIT. rewrite Z.lor_spec, Z.shiftl_1_l, Z.pow2_bits_eqb by lia. done. Qed.

(** ** The invariant of the first version *)
Definition phases : list (Z * list action) :=
  [(APP_STAT_DC, []); (APP_STAT_DC, [SET_STAT APP_STAT_INIT]);
   (APP_STAT_INIT, []); (APP_STAT_INIT, [SET_STAT APP_STAT_PREPARE]);
   (APP_STAT_PREPARE, []); (APP_STAT_PREPARE, [RESET_ACK; SET_STAT APP_STAT_BUSYLOOP]); (APP_STAT_PREPARE, [SET_STAT APP_STAT_BUSYLOOP]);
   (APP_STAT_BUSYLOOP, []); (APP_STAT_BUSYLOOP, [SET_STAT APP_STAT_CFGLOAD]);
   (APP_STAT_CFGLOAD, []); (APP_STAT_CFGLOAD, [LOAD_CONFIG; RESET_SIG; RESET_ACK; SET_STAT APP_STAT_CFGACK]);
   (APP_STAT_CFGLOAD, [RESET_SIG; RESET_ACK; SET_STAT APP_STAT_CFGACK]); (APP_STAT_CFGLOAD, [RESET_ACK; SET_STAT APP_STAT_CFGACK]);
   (APP_STAT_CFGLOAD, [SET_STAT APP_STAT_CFGACK]);
   (APP_STAT_CFGACK, []); (APP_STAT_CFGACK, [SET_STAT APP_STAT_CFGSWAP]);
   (APP_STAT_CFGSWAP, []); (APP_STAT_CFGSWAP, [SWAP_CONFIG; SET_STAT APP_STAT_PREPARE]); (APP_STAT_CFGSWAP, [SET_STAT APP_STAT_PREPARE])].

(** The phases in which no core may be in a burst. *)
Definition quiet_phase (stat : Z) (t : list action) : bool :=
  (stat =? APP_STAT_DC) || (stat =? APP_STAT_INIT) || (stat =? APP_STAT_PREPARE) || (stat =? APP_STAT_CFGSWAP) ||
  ((stat =? APP_STAT_CFGACK) && negb (bool_decide (t = []))).
Definition no_burst (s : state) : Prop := forall l, threads s !! l <> Some Bursting.

Record inv (s : state) : Prop := mk_inv {
  inv_phase : (STAT (s_status_ s), todo s) ∈ phases;
  inv_used : forall l, 0 <= l -> Z.testbit (s_core_used_ s) l = bool_decide (is_Some (threads s !! l));
  inv_range : forall l, is_Some (threads s !! l) -> 0 <= l < 64;
  inv_quiet : quiet_phase (STAT (s_status_ s)) (todo s) = true -> no_burst s;
  inv_ack : STAT (s_status_ s) = APP_STAT_CFGACK ->
    forall l, 0 <= l -> Z.testbit (s_core_ack_ s) l = true -> threads s !! l <> Some Bursting;
  inv_cleared : STAT (s_status_ s) = APP_STAT_CFGLOAD -> todo s = [SET_STAT APP_STAT_CFGACK] ->
    s_core_ack_ s = 0 /\ forall l, threads s !! l <> Some (Sleeping APP_STAT_CFGACK);
}.

Section first.
Context `{D : Dpdk} `{B : Build}.
Implicit Types (s : state) (l : Z).

Lemma starting_inv s : starting s -> inv s.
Proof.
  intros [Hst Hu Hr Ht Ha Htd]. assert (Es : STAT (s_status_ s) = APP_STAT_DC) by (rewrite Hst; reflexivity).
  constructor; rewrite ?Es, ?Htd; try done.
  - by left.
  - intros _ l Hl. apply Ht in Hl. done.
Qed.

(** A step of a core's thread: the status and the calls to make stay, one thread
    moves between the looks, and into a burst only in a status that works. *)
Record thread_step s s' : Prop := mk_thread_step {
  ts_status : STAT (s_status_ s') = STAT (s_status_ s);
  ts_todo : todo s' = todo s;
  ts_used : s_core_used_ s' = s_core_used_ s;
  ts_dom : forall l, is_Some (threads s' !! l) <-> is_Some (threads s !! l);
  ts_burst : forall l, threads s' !! l = Some Bursting -> threads s !! l = Some Bursting \/ works false (STAT (s_status_ s)) = true;
  ts_sleep : forall l, threads s' !! l = Some (Sleeping APP_STAT_CFGACK) ->
    threads s !! l = Some (Sleeping APP_STAT_CFGACK) \/ STAT (s_status_ s) = APP_STAT_CFGACK;
  ts_ack : s_core_ack_ s' = s_core_ack_ s \/
    exists l, is_Some (threads s !! l) /\ threads s !! l = Some (Sleeping APP_STAT_CFGACK) /\ threads s' !! l = Some Looking /\
      s_core_ack_ s' = SET_BIT l (s_core_ack_ s);
}.

Lemma thread_step_inv s s' : inv s -> thread_step s s' -> inv s'.
Proof.
  intros [H1 H2 H3 H4 H5 H6] [T1 T2 T3 T4 T5 T6 T7].
  assert (Hw : works false APP_STAT_DC = false /\ works false APP_STAT_INIT = false /\ works false APP_STAT_PREPARE = false /\
    works false APP_STAT_CFGSWAP = false /\ works false APP_STAT_CFGACK = false) by done.
  constructor; rewrite ?T1, ?T2, ?T3; try done.
  - intros l Hl. rewrite H2 by done. apply bool_decide_ext. by rewrite T4.
  - intros l Hl. apply H3. by apply T4.
  - intros Hq l Hl. apply T5 in Hl as [Hl|Hl]; [by apply (H4 Hq l)|]. destruct Hw as (W1 & W2 & W3 & W4 & W5).
    unfold quiet_phase in Hq. repeat (apply orb_true_iff in Hq as [Hq|Hq]); [..|apply andb_true_iff in Hq as [Hq _]];
      apply Z.eqb_eq in Hq; rewrite Hq in Hl; congruence.
  - intros Es l Hl Hb Hl'. rewrite Es in *. apply T5 in Hl' as Hold. destruct Hold as [Hold|Hold]; [|by destruct Hw as (? & ? & ? & ? & ?); congruence].
    destruct T7 as [E0|(k & Hk & _ & Hk' & E0)]; rewrite E0 in Hb; [by eapply (H5 eq_refl l)|].
    assert (0 <= k < 64) by (by apply H3). rewrite SET_BIT_spec in Hb by lia. apply orb_true_iff in Hb as [Hb|Hb]; [by eapply (H5 eq_refl l)|].
    apply Z.eqb_eq in Hb. subst k. congruence.
  - intros Es Et. destruct (H6 Es Et) as [H7 H8]. split.
    + destruct T7 as [E0|(k & _ & Hk & _)]; [congruence|]. by destruct (H8 k).
    + intros l Hl. apply T6 in Hl as [Hl|Hl]; [by apply (H8 l)|]. rewrite Es in Hl. done.
Qed.

Lemma exec_thread_step e s s' : e <> Changer -> inv s -> step false e s s' -> thread_step s s'.
Proof.
  intros He Hi. unfold step, exec. destruct e as [l|l|l|l|l| |g|f]; try done.
  - destruct (threads s !! l) as [[]|] eqn:El; try done. intros [= <-]. constructor; cbn; try done; try (by left).
    + intros k. destruct (decide (l = k)) as [<-|]; [rewrite lookup_insert_eq, El; split; by eauto|by rewrite lookup_insert_ne].
    + intros k. rewrite lookup_insert_Some. naive_solver.
    + intros k. rewrite lookup_insert_Some. naive_solver.
  - destruct (threads s !! l) as [[]|] eqn:El; try done. intros [= <-]. constructor; cbn; try done; try (by left).
    + intros k. destruct (decide (l = k)) as [<-|]; [rewrite lookup_insert_eq, El; split; by eauto|by rewrite lookup_insert_ne].
    + intros k. rewrite lookup_insert_Some. intros [[<- Hk]|[_ Hk]]; [|by left]. right. by destruct (works false _).
    + intros k. rewrite lookup_insert_Some. intros [[<- Hk]|[_ Hk]]; [|by left]. right. destruct (works false _); congruence.
  - destruct (threads s !! l) as [[| | |stat]|] eqn:El; try done; intros [= <-]; constructor; cbn; try done; try (by left).
    + intros k. destruct (decide (l = k)) as [<-|]; [rewrite lookup_insert_eq, El; split; by eauto|by rewrite lookup_insert_ne].
    + intros k. rewrite lookup_insert_Some. naive_solver.
    + intros k. rewrite lookup_insert_Some. naive_solver.
    + intros k. destruct (decide (l = k)) as [<-|]; [rewrite lookup_insert_eq, El; split; by eauto|by rewrite lookup_insert_ne].
    + intros k. rewrite lookup_insert_Some. naive_solver.
    + intros k. rewrite lookup_insert_Some. naive_solver.
    + destruct (stat =? APP_STAT_CFGACK) eqn:Es; cbn [negb andb]; [|by left]. apply Z.eqb_eq in Es. subst stat. right. exists l.
      rewrite El. split; [by eauto|]. split; [done|]. by rewrite lookup_insert_eq.
  - destruct (vthreads s !! l) as [[]|]; try done. intros [= <-]. constructor; cbn; try done; by left.
  - destruct (vthreads s !! l) as [[]|]; try done. intros [= <-]. constructor; cbn; try done; by left.
  - intros [= <-]. constructor; cbn; try done; try (by left). by rewrite STAT_SET_SIGNAL.
  - intros [= <-]. constructor; cbn; try done; by left.
Qed.
(** All used cores have acknowledged: none is in a burst. *)
Lemma all_acked s : inv s -> STAT (s_status_ s) = APP_STAT_CFGACK -> s_core_used_ s = s_core_ack_ s -> no_burst s.
Proof.
  intros Hi Es Eu l Hl. assert (0 <= l < 64) by (apply (inv_range s Hi); by eauto).
  apply (inv_ack s Hi Es l); [lia| |done]. rewrite <-Eu, (inv_used s Hi) by lia. apply bool_decide_true. by eauto.
Qed.

(** A round of the state changer never meets an unknown status. *)
Lemma round_ok s : inv s -> exists t, round false s = Ok t.
Proof.
  intros Hi. pose proof (inv_phase s Hi) as Hp. unfold phases in Hp. unfold round.
  repeat (apply elem_of_cons in Hp as [[= E1 _]|Hp]; [rewrite E1; eexists; reflexivity|]). by apply elem_of_nil in Hp.
Qed.

Lemma changer_frame s s' : step false Changer s s' -> threads s' = threads s /\ s_core_used_ s' = s_core_used_ s.
Proof.
  unfold step, exec. destruct (todo s) as [|[| | | |c] t]; [destruct (round false s) as [t|]; [|done]|..]; by intros [= <-].
Qed.

Lemma changer_vthreads s s' : step false Changer s s' -> vthreads s' = vthreads s.
Proof.
  unfold step, exec. destruct (todo s) as [|[| | | |c] t]; [destruct (round false s) as [t|]; [|done]|..]; by intros [= <-].
Qed.

(** What a step of the state changer makes of the phase. *)
Lemma changer_step s s' :
  inv s -> timely s -> step false Changer s s' ->
  (STAT (s_status_ s'), todo s') ∈ phases /\
  (quiet_phase (STAT (s_status_ s')) (todo s') = true -> no_burst s) /\
  (STAT (s_status_ s') = APP_STAT_CFGACK -> forall l, 0 <= l -> Z.testbit (s_core_ack_ s') l = true -> threads s !! l <> Some Bursting) /\
  (STAT (s_status_ s') = APP_STAT_CFGLOAD -> todo s' = [SET_STAT APP_STAT_CFGACK] ->
    s_core_ack_ s' = 0 /\ forall l, threads s !! l <> Some (Sleeping APP_STAT_CFGACK)).
Proof.
  intros Hi Ht. pose proof Hi as [Hp _ _ Hq Ha Hc]. pose proof (all_acked s Hi) as Hall. unfold step, exec. unfold timely in Ht.
  unfold phases in Hp.
  repeat (apply elem_of_cons in Hp as [[= E1 E2]|Hp]; [|]); [..|by apply elem_of_nil in Hp]; rewrite E1, E2 in *; unfold round; rewrite ?E1;
    cbn [mbind res_bind Z.eqb Pos.eqb APP_STAT_DC APP_STAT_INIT APP_STAT_PREPARE APP_STAT_BUSYLOOP APP_STAT_CFGLOAD APP_STAT_CFGACK APP_STAT_CFGSWAP act];
    try (match goal with |- context [s_core_used_ s =? s_core_prepared_ s] => destruct (s_core_used_ s =? s_core_prepared_ s) end);
    try (match goal with |- context [HAVE_SIGNAL _] => destruct (HAVE_SIGNAL _) end);
    try (match goal with |- context [s_core_used_ s =? s_core_ack_ s] => destruct (s_core_used_ s =? s_core_ack_ s) eqn:Eu; to_prop end);
    intros [= <-]; cbn [set_changer s_status_ todo s_core_ack_]; rewrite ?E2, ?STAT_SET, ?STAT_RESET_SIGNAL, ?E1 by reflexivity; cbn [tail];
    (split; [apply (bool_decide_unpack _); vm_compute; exact I|]); (split; [|split]).
  all: try (intros Hd; vm_compute in Hd; discriminate Hd); try (intros _ Hd; discriminate Hd); try (intros _; by apply Hq).
  - intros _ _. by split; [|apply Ht].
  - intros _ l _ Hb. rewrite (proj1 (Hc eq_refl eq_refl)), Z.bits_0 in Hb. done.
  - intros _. by apply Hall.
  - intros _. by apply Ha.
  - intros _. by apply Ha.
Qed.

Lemma step_inv e s s' : inv s -> timely s -> step false e s s' -> inv s'.
Proof.
  intros Hi Ht Hs. assert (e = Changer \/ e <> Changer) as [->|He] by (destruct e; by auto).
  - destruct (changer_frame s s' Hs) as [Et Eu]. destruct (changer_step s s' Hi Ht Hs) as (C1 & C2 & C3 & C4).
    destruct Hi as [_ H2 H3 _ _ _]. constructor; unfold no_burst in *; rewrite ?Et, ?Eu; done.
  - eapply thread_step_inv; [done|]. by eapply exec_thread_step.
Qed.

Lemma reach_inv s : reach false timely s -> inv s.
Proof. induction 1; [by apply starting_inv|by eapply step_inv]. Qed.

(** ** A reload completes *)
Definition core_event (e : event) : Prop := match e with Prepare _ | Look _ | Finish _ | VLook _ | VFinish _ => True | _ => False end.

(** What the threads of the cores leave alone. *)
Record frame s s' : Prop := mk_frame {
  fr_status : s_status_ s' = s_status_ s;
  fr_todo : todo s' = todo s;
  fr_conf : conf s' = conf s;
  fr_app : the_app s' = the_app s;
  fr_file : file s' = file s;
  fr_used : s_core_used_ s' = s_core_used_ s;
  fr_dom : forall l, is_Some (threads s' !! l) <-> is_Some (threads s !! l);
  fr_acks : forall l, 0 <= l -> Z.testbit (s_core_ack_ s) l = true -> Z.testbit (s_core_ack_ s') l = true;
  fr_known : (forall l, is_Some (threads s !! l) -> 0 <= l) ->
    forall l, 0 <= l -> Z.testbit (s_core_ack_ s') l = true -> Z.testbit (s_core_ack_ s) l = true \/ is_Some (threads s !! l);
}.
Lemma frame_refl s : frame s s.
Proof. constructor; try done. by left. Qed.
Lemma frame_trans s1 s2 s3 : frame s1 s2 -> frame s2 s3 -> frame s1 s3.
Proof.
  intros [A1 A2 A3 A4 A5 A6 A7 A8 A9] [B1 B2 B3 B4 B5 B6 B7 B8 B9]. constructor; try congruence.
  - intros l. by rewrite B7, A7.
  - auto.
  - intros Hr l Hl Hb. apply B9 in Hb as [Hb|Hb]; [by apply A9|right; by apply A7| |done]. intros k Hk. apply Hr. by apply A7.
Qed.

Lemma dom_insert l pc (m : gmap Z core_pc) k : is_Some (m !! l) -> is_Some (<[l := pc]> m !! k) <-> is_Some (m !! k).
Proof. intros Hl. destruct (decide (l = k)) as [<-|]; [rewrite lookup_insert_eq; split; by eauto|by rewrite lookup_insert_ne]. Qed.

Lemma core_frame e s s' : core_event e -> step false e s s' -> frame s s'.
Proof.
  intros He. unfold step, exec. destruct e as [l|l|l|l|l| | |]; try done.
  - destruct (threads s !! l) as [[]|] eqn:El; try done. intros [= <-]. constructor; cbn; try done; [|by left]. intros k. apply dom_insert. by eauto.
  - destruct (threads s !! l) as [[]|] eqn:El; try done. intros [= <-]. constructor; cbn; try done; [|by left]. intros k. apply dom_insert. by eauto.
  - destruct (threads s !! l) as [[| | |stat]|] eqn:El; try done; intros [= <-]; constructor; cbn; try done; try (by left);
      try (intros k; apply dom_insert; by eauto).
    + intros k Hk Hb. destruct (stat =? APP_STAT_CFGACK); [|done]. destruct (decide (0 <= l)); [by rewrite SET_BIT_spec, Hb by lia|].
      unfold SET_BIT. by rewrite Z.lor_spec, Hb.
    + intros Hr k Hk Hb. destruct (stat =? APP_STAT_CFGACK); [|by left]. assert (0 <= l) by (apply Hr; by eauto). rewrite SET_BIT_spec in Hb by lia.
      apply orb_true_iff in Hb as [Hb|Hb%Z.eqb_eq]; [by left|right]. subst k. by eauto.
  - destruct (vthreads s !! l) as [[]|]; try done. intros [= <-]. constructor; try done. by left.
  - destruct (vthreads s !! l) as [[]|]; try done. intros [= <-]. constructor; try done. by left.
Qed.

Lemma exec_all_cons e es s s' : exec_all false (e :: es) s = Some s' -> exists s1, step false e s s1 /\ exec_all false es s1 = Some s'.
Proof. cbn. unfold step. destruct (exec false e s) as [[s1|]|]; try done. by exists s1. Qed.
Lemma exec_all_app es es' s s' : exec_all false (es ++ es') s = Some s' -> exists s1, exec_all false es s = Some s1 /\ exec_all false es' s1 = Some s'.
Proof.
  revert s. induction es as [|e es IH]; intros s; [by exists s|]. intros (s1 & E1 & E2)%exec_all_cons. apply IH in E2 as (s2 & E2 & E3).
  exists s2. split; [|done]. cbn. unfold step in E1. by rewrite E1.
Qed.
Lemma core_frames es s s' : Forall core_event es -> exec_all false es s = Some s' -> frame s s'.
Proof.
  intros He. revert s. induction He as [|e es He _ IH]; intros s; [intros [= <-]; apply frame_refl|].
  intros (s1 & E1 & E2)%exec_all_cons. eapply frame_trans; [by eapply core_frame|by apply IH].
Qed.

(** A core asleep with CFGACK acknowledges when it wakes. *)
Lemma sleeper_acks l es s s' :
  0 <= l -> Forall core_event es -> exec_all false es s = Some s' -> threads s !! l = Some (Sleeping APP_STAT_CFGACK) -> Finish l ∈ es ->
  Z.testbit (s_core_ack_ s') l = true.
Proof.
  intros Hl He. revert s. induction He as [|e es He Hes IH]; intros s E0 Ht Hin; [by apply elem_of_nil in Hin|].
  apply exec_all_cons in E0 as (s1 & E1 & E2).
  assert (e = Finish l \/ threads s1 !! l = Some (Sleeping APP_STAT_CFGACK)) as [->|Hk].
  { unfold step, exec in E1. destruct e as [k|k|k|k|k| | |]; try done.
    1-3: destruct (decide (k = l)) as [->|Hne]; [rewrite Ht in E1; first [discriminate E1|by left]|right];
         destruct (threads s !! k) as [[]|]; try done; injection E1 as <-; cbn; by rewrite lookup_insert_ne.
    all: right; destruct (vthreads s !! k) as [[]|]; try done; by injection E1 as <-. }
  - apply (fr_acks _ _ (core_frames _ _ _ Hes E2)); [done|]. unfold step, exec in E1. rewrite Ht in E1. injection E1 as <-. cbn.
    rewrite SET_BIT_spec, Z.eqb_refl by lia. apply orb_true_r.
  - apply (IH _ E2 Hk). apply elem_of_cons in Hin as [<-|Hin]; [|done]. unfold step, exec in E1. rewrite Ht in E1. injection E1 as <-.
    cbn in Hk. rewrite lookup_insert_eq in Hk. done.
Qed.

(** Every core takes a turn: it looks at the status, and what it then does ends. *)
Definition fair (K : gset Z) (es : list event) : Prop := forall l, l ∈ K -> exists a b c, es = a ++ Look l :: b ++ Finish l :: c.

(** The masks fit the cores. *)
Record masks (K : gset Z) s : Prop := mk_masks {
  ms_dom : dom (threads s) = K;
  ms_range : forall l, l ∈ K -> 0 <= l < 64;
  ms_used : forall l, 0 <= l -> Z.testbit (s_core_used_ s) l = bool_decide (l ∈ K);
  ms_ack : forall l, 0 <= l -> Z.testbit (s_core_ack_ s) l = true -> l ∈ K;
}.
Lemma frame_masks K s s' : frame s s' -> masks K s -> masks K s'.
Proof.
  intros [_ _ _ _ _ F6 F7 _ F9] [M1 M2 M3 M4]. constructor; [|done|by rewrite F6|].
  - rewrite <-M1. apply set_eq. intros l. by rewrite !elem_of_dom.
  - intros l Hl Hb. apply F9 in Hb as [Hb|Hb]; [by apply M4| |intros k Hk; apply M2; rewrite <-M1; by apply elem_of_dom|done].
    rewrite <-M1. by apply elem_of_dom.
Qed.

Lemma fair_acks K es s s' :
  masks K s -> STAT (s_status_ s) = APP_STAT_CFGACK -> Forall core_event es -> fair K es -> exec_all false es s = Some s' ->
  s_core_used_ s' = s_core_ack_ s'.
Proof.
  intros HM Hs He Hf E0. pose proof (core_frames _ _ _ He E0) as F. destruct (frame_masks K s s' F HM) as [_ M2 M3 M4].
  apply Z.bits_inj'. intros l Hl. rewrite M3 by done. case_bool_decide as Hd.
  - symmetry. destruct (Hf l Hd) as (a & b & c & ->). apply exec_all_app in E0 as (s1 & E1 & E2). apply exec_all_cons in E2 as (s2 & E2 & E3).
    apply Forall_app in He as [Ha Hb]. apply Forall_cons in Hb as [_ Hb].
    apply (sleeper_acks l (b ++ Finish l :: c) s2); [done|done|done| |apply elem_of_app; right; by left].
    pose proof (fr_status _ _ (core_frames _ _ _ Ha E1)) as Fs. unfold step, exec in E2.
    destruct (threads s1 !! l) as [[]|]; try done. injection E2 as <-. cbn. rewrite lookup_insert_eq, Fs, Hs. done.
  - symmetry. apply not_true_iff_false. intros Hb. by apply Hd, M4.
Qed.

(** The state changer's turns, anything of the cores' threads before each. *)
Definition turns (bgs : list (list event)) : list event := concat ((fun bg => bg ++ [Changer]) <$> bgs).

(** What the state changer knows. *)
Record knows (K : gset Z) (st : Z) (t : list action) (c : Statics) (a : App) (f : option (list Z)) s : Prop := mk_knows {
  kn_masks : masks K s;
  kn_status : s_status_ s = st; kn_todo : todo s = t; kn_conf : conf s = c; kn_app : the_app s = a; kn_file : file s = f;
}.

Lemma turn K st t c a f bg bgs s s' :
  knows K st t c a f s -> Forall core_event bg -> exec_all false (turns (bg :: bgs)) s = Some s' ->
  exists s1 s2, exec_all false bg s = Some s1 /\ knows K st t c a f s1 /\ step false Changer s1 s2 /\ exec_all false (turns bgs) s2 = Some s'.
Proof.
  intros [HM H1 H2 H3 H4 H5] Hbg E0. unfold turns in E0. cbn [fmap list_fmap concat] in E0. rewrite <-app_assoc in E0.
  apply exec_all_app in E0 as (s1 & E1 & E2). cbn [app] in E2. apply exec_all_cons in E2 as (s2 & E2 & E3).
  pose proof (core_frames _ _ _ Hbg E1) as F. exists s1, s2. split; [done|]. split; [|done]. pose proof (frame_masks K _ _ F HM).
  destruct F. constructor; [done|congruence..].
Qed.

Lemma act_turn K st x r c a f bg bgs s s' :
  knows K st (x :: r) c a f s -> Forall core_event bg -> exec_all false (turns (bg :: bgs)) s = Some s' ->
  exists s2, knows K (match x with RESET_SIG => RESET_SIGNAL st | SET_STAT k => SET k st | _ => st end) r
      (match x with LOAD_CONFIG => LoadConfig f c | _ => c end) (match x with SWAP_CONFIG => SwapConfig c a | _ => a end) f s2 /\
    exec_all false (turns bgs) s2 = Some s'.
Proof.
  intros Hk Hbg E0. destruct (turn _ _ _ _ _ _ _ _ _ _ Hk Hbg E0) as (s1 & s2 & _ & [[M1 M2 M3 M4] H1 H2 H3 H4 H5] & Hs & E2).
  exists s2. split; [|done]. unfold step, exec in Hs. rewrite H2 in Hs. injection Hs as <-.
  subst st c a f. destruct x; (constructor; [constructor; try done|try reflexivity..]); try (cbn; by rewrite H2).
  intros l _. cbn. by rewrite Z.bits_0.
Qed.

Lemma round_turn K st t c a f bg bgs s s' :
  knows K st [] c a f s -> Forall core_event bg -> exec_all false (turns (bg :: bgs)) s = Some s' ->
  (forall s1, exec_all false bg s = Some s1 -> knows K st [] c a f s1 -> round false s1 = Ok t) ->
  exists s2, knows K st t c a f s2 /\ exec_all false (turns bgs) s2 = Some s'.
Proof.
  intros Hk Hbg E0 Hr. destruct (turn _ _ _ _ _ _ _ _ _ _ Hk Hbg E0) as (s1 & s2 & E1 & Hk1 & Hs & E2). exists s2. split; [|done].
  pose proof (Hr s1 E1 Hk1) as Er. destruct Hk1 as [[M1 M2 M3 M4] H1 H2 H3 H4 H5]. unfold step, exec in Hs. rewrite H2, Er in Hs.
  cbn in Hs. injection Hs as <-. constructor; [constructor|..]; done.
Qed.

Lemma reload_ok K st c a f s bgs1 bg bgs2 s' :
  knows K st [] c a f s -> STAT st = APP_STAT_BUSYLOOP -> HAVE_SIGNAL st = true ->
  length bgs1 = 7%nat -> length bgs2 = 7%nat -> Forall (Forall core_event) (bgs1 ++ bg :: bgs2) -> fair K bg ->
  exec_all false (turns (bgs1 ++ bg :: bgs2)) s = Some s' ->
  exists st', knows K st' [] (LoadConfig f c) (SwapConfig (LoadConfig f c) a) f s' /\ STAT st' = APP_STAT_BUSYLOOP /\ HAVE_SIGNAL st' = false.
Proof.
  intros Hk Hs Hsig L1 L2 Hbg Hf E0.
  destruct bgs1 as [|b1 [|b2 [|b3 [|b4 [|b5 [|b6 [|b7 [|]]]]]]]]; try discriminate L1.
  destruct bgs2 as [|b8 [|b9 [|b10 [|b11 [|b12 [|b13 [|b14 [|]]]]]]]]; try discriminate L2. clear L1 L2. cbn [app] in *.
  rewrite !Forall_cons in Hbg. destruct Hbg as (B1 & B2 & B3 & B4 & B5 & B6 & B7 & Bf & B8 & B9 & B10 & B11 & B12 & B13 & B14 & _).
  eapply (round_turn K st [SET_STAT APP_STAT_CFGLOAD]) in E0 as (s1 & K1 & E1); [|done..|intros x _ [_ H1 _ _ _ _]; unfold round; by rewrite H1, Hs, Hsig].
  eapply act_turn in E1 as (s2 & K2 & E2); [|done..].
  eapply (round_turn K _ [LOAD_CONFIG; RESET_SIG; RESET_ACK; SET_STAT APP_STAT_CFGACK]) in E2 as (s3 & K3 & E3);
    [|done..|intros x _ [_ H1 _ _ _ _]; unfold round; rewrite H1, STAT_SET by reflexivity; reflexivity].
  eapply act_turn in E3 as (s4 & K4 & E4); [|done..]. eapply act_turn in E4 as (s5 & K5 & E5); [|done..].
  eapply act_turn in E5 as (s6 & K6 & E6); [|done..]. eapply act_turn in E6 as (s7 & K7 & E7); [|done..].
  eapply (round_turn K _ [SET_STAT APP_STAT_CFGSWAP]) in E7 as (s8 & K8 & E8); [|done..|].
  2: { intros x Ex [_ H1 _ _ _ _]. unfold round. rewrite H1, STAT_SET by reflexivity.
       rewrite (fair_acks K bg s7 x (kn_masks _ _ _ _ _ _ _ K7)); [rewrite (Z.eqb_refl (s_core_ack_ x)); reflexivity|rewrite (kn_status _ _ _ _ _ _ _ K7), STAT_SET by reflexivity; done|done..]. }
  eapply act_turn in E8 as (s9 & K9 & E9); [|done..].
  eapply (round_turn K _ [SWAP_CONFIG; SET_STAT APP_STAT_PREPARE]) in E9 as (s10 & K10 & E10);
    [|done..|intros x _ [_ H1 _ _ _ _]; unfold round; rewrite H1, STAT_SET by reflexivity; reflexivity].
  eapply act_turn in E10 as (s11 & K11 & E11); [|done..]. eapply act_turn in E11 as (s12 & K12 & E12); [|done..].
  eapply (round_turn K _ [RESET_ACK; SET_STAT APP_STAT_BUSYLOOP]) in E12 as (s13 & K13 & E13);
    [|done..|intros x _ [_ H1 _ _ _ _]; unfold round; rewrite H1, STAT_SET by reflexivity; reflexivity].
  eapply act_turn in E13 as (s14 & K14 & E14); [|done..]. eapply act_turn in E14 as (s15 & K15 & E15); [|done..].
  injection E15 as <-. eexists. split; [exact K15|]. cbn [app]. split; [by apply STAT_SET|].
  rewrite !HAVE_SIGNAL_SET by (vm_compute; split; congruence). apply HAVE_SIGNAL_RESET.
Qed.

Lemma reach_known s : reach false timely s -> forall l, 0 <= l -> Z.testbit (s_core_ack_ s) l = true -> is_Some (threads s !! l).
Proof.
  induction 1 as [s Hs|e s s' Hr IH Ht Hst].
  - intros l Hl. rewrite (st_ack s Hs), Z.bits_0. done.
  - pose proof (reach_inv s Hr) as Hi. assert (e = Changer \/ e <> Changer) as [->|He] by (destruct e; by auto).
    + destruct (changer_frame s s' Hst) as [Et _]. intros l Hl. rewrite Et. revert Hst. unfold step, exec.
      destruct (todo s) as [|[| | | |c] t]; [destruct (round false s) as [t|]; [|done]|..]; intros [= <-]; cbn; try apply IH; try done.
      by rewrite Z.bits_0.
    + destruct (exec_thread_step e s s' He Hi Hst) as [_ _ _ T4 _ _ T7]. intros l Hl Hb. apply T4.
      destruct T7 as [E0|(k & Hk & _ & _ & E0)]; rewrite E0 in Hb; [by apply IH|].
      assert (0 <= k < 64) by (by apply (inv_range s Hi)). rewrite SET_BIT_spec in Hb by lia.
      apply orb_true_iff in Hb as [Hb|Hb%Z.eqb_eq]; [by apply IH|by subst k].
Qed.

Lemma reach_masks s : reach false timely s -> masks (dom (threads s)) s.
Proof.
  intros Hr. pose proof (reach_inv s Hr) as Hi. constructor; [done|..].
  - intros l Hl. apply (inv_range s Hi). by apply elem_of_dom.
  - intros l Hl. rewrite (inv_used s Hi) by done. apply bool_decide_ext. by rewrite elem_of_dom.
  - intros l Hl Hb. apply elem_of_dom. by apply reach_known.
Qed.

(** The application changes only in [SwapConfig], and then no core works on it. *)
Lemma swap_quiet e s s' :
  inv s -> step false e s s' ->
  the_app s' = the_app s \/ (the_app s' = SwapConfig (conf s) (the_app s) /\ no_burst s).
Proof.
  intros Hi Hs. destruct e as [l|l|l|l|l| |g|f];
    try (left; by refine (fr_app _ _ (core_frame _ _ _ _ Hs))); try (unfold step, exec in Hs; injection Hs as <-; by left).
  pose proof (inv_phase s Hi) as Hp. unfold step, exec in Hs.
  destruct (todo s) as [|[| | | |c] t] eqn:Et; [destruct (round false s); [|done]; injection Hs as <-; by left|injection Hs as <-; by left| |injection Hs as <-; by left..].
  right. injection Hs as <-. split; [done|]. apply (inv_quiet s Hi). rewrite Et. unfold phases in Hp.
  repeat (apply elem_of_cons in Hp as [Hp|Hp]; [injection Hp as E1 E2; try discriminate E2; rewrite E1; reflexivity|]). by apply elem_of_nil in Hp.
Qed.

(** A thread has a next step wherever it is. *)
Lemma threads_run s l pc : threads s !! l = Some pc -> exists s', step false (event_of l pc) s s'.
Proof. intros Hl. destruct pc; cbn; unfold step, exec; rewrite Hl; by eexists. Qed.
Lemma changer_runs s : inv s -> exists s', step false Changer s s'.
Proof.
  intros Hi. unfold step, exec. destruct (todo s); [|by eexists]. destruct (round_ok s Hi) as [t ->]. by eexists.
Qed.
End first.

(** ** The machine *)
Section machine_facts.
Context `{D : Dpdk} `{B : Build}.
Implicit Types (m : machine) (t : thread).

Lemma apply_ok e lk m m' : apply e lk m = Some (Ok m') -> step false e (base m) (base m') /\ lock m' = lk /\ handlers m' = handlers m.
Proof. unfold apply, step. destruct (exec false e (base m)) as [[s|]|]; cbn; [|done..]. by intros [= <-]. Qed.
Lemma apply_does e lk m s : step false e (base m) s -> apply e lk m = Some (Ok (mk_machine s lk (handlers m))).
Proof. unfold apply, step. by intros ->. Qed.

(** The steps of a thread: it takes the lock, does what it does, gives the lock back. *)
Inductive run_step t m m' : Prop :=
| Takes e : frame_event t (depth t m) m = Some e -> locks e (base m) = true -> lock m = None ->
    base m' = base m -> lock m' = Some (t, depth t m, false) -> handlers m' = handlers m -> run_step t m m'
| Writes e : frame_event t (depth t m) m = Some e -> locks e (base m) = true -> lock m = Some (t, depth t m, false) ->
    step false e (base m) (base m') -> lock m' = Some (t, depth t m, true) -> handlers m' = handlers m -> run_step t m m'
| Leaves : lock m = Some (t, depth t m, true) -> base m' = base m -> lock m' = None ->
    handlers m' = set_handlers t (take (pred (depth t m)) (handlers m t)) (handlers m) -> run_step t m m'
| Works e : frame_event t (depth t m) m = Some e -> locks e (base m) = false -> lock m <> Some (t, depth t m, true) ->
    step false e (base m) (base m') -> lock m' = lock m -> handlers m' = handlers m -> run_step t m m'.
Lemma run_cases t m m' : mstep (Run t) m m' -> run_step t m m'.
Proof.
  unfold mstep. cbn [mexec]. unfold run. case_decide as Hl; [intros [= <-]; by apply Leaves|].
  destruct (frame_event t (depth t m) m) as [e|] eqn:He; [|done]. destruct (locks e (base m)) eqn:Hk.
  - destruct (lock m) as [h|] eqn:Hm; [|intros [= <-]; by eapply Takes].
    case_decide as Hh; [|done]. subst h. intros (H1 & H2 & H3)%apply_ok. by eapply Writes.
  - intros (H1 & H2 & H3)%apply_ok. by eapply Works.
Qed.

Lemma mstep_base e m m' : mstep e m m' -> base m' = base m \/ exists x, step false x (base m) (base m').
Proof.
  destruct e as [t|t g|f].
  - intros []%run_cases; by eauto.
  - unfold mstep. cbn [mexec]. destruct (_ && _); [|done]. intros [= <-]. by left.
  - unfold mstep. cbn [mexec]. intros (H1 & _)%apply_ok. by eauto.
Qed.
Lemma mreach_reach ok m : mreach ok m -> reach false ok (base m).
Proof.
  induction 1 as [m Hs _ _|e m m' _ IH Hok Hs]; [by apply reach_start|].
  destruct (mstep_base e m m' Hs) as [->|[x Hx]]; [done|]. by eapply reach_step.
Qed.

(** What belongs to a thread changes only in its own steps. *)
Definition own (t : thread) (e : event) : Prop :=
  match t, e with
  | Core l, (Prepare k | Look k | Finish k) => k = l
  | Second l, (VLook k | VFinish k) => k = l
  | StateChanger, Changer => True
  | _, _ => False
  end.
Lemma thread_event_own t s e : thread_event t s = Some e -> own t e.
Proof.
  destruct t as [l|l|]; cbn.
  - destruct (threads s !! l) as [[]|]; by intros [= <-].
  - destruct (vthreads s !! l) as [[]|]; by intros [= <-].
  - by intros [= <-].
Qed.
Lemma own_inj t t' e : own t e -> own t' e -> t = t'.
Proof. destruct t, t', e; cbn; congruence || done. Qed.
Lemma step_other t e s s' : step false e s s' -> ~ own t e ->
  thread_event t s' = thread_event t s /\ forall x, thread_event t s = Some x -> locks x s' = locks x s.
Proof.
  intros He Hn.
  assert (H : match t with Core l => threads s' !! l = threads s !! l | Second l => vthreads s' !! l = vthreads s !! l | StateChanger => todo s' = todo s end).
  { assert (e = Changer \/ e <> Changer) as [->|Hc] by (destruct e; by auto).
    { destruct t as [l|l|]; [by destruct (changer_frame s s' He) as [-> _]|by rewrite (changer_vthreads s s' He)|by destruct Hn]. }
    unfold step in He. destruct e as [k|k|k|k|k| |g|f]; try done; cbn in He;
      repeat match type of He with context [match ?x with _ => _ end] => destruct x; try discriminate He end; try injection He as <-;
      destruct t as [l|l|]; cbn in *; first [done|by rewrite lookup_insert_ne by congruence]. }
  destruct t as [l|l|]; cbn [thread_event]; rewrite ?H; (split; [done|]); intros x.
  - destruct (threads s !! l) as [[]|] eqn:El; intros [= <-]; cbn [event_of locks]; try done; by rewrite H, El.
  - destruct (vthreads s !! l) as [[]|]; by intros [= <-].
  - intros [= <-]. cbn [locks]. by rewrite H.
Qed.
Lemma step_thread_exists t e s s' : step false e s s' -> is_Some (thread_event t s) -> is_Some (thread_event t s').
Proof.
  intros He Ht. destruct t as [l|l|]; cbn [thread_event] in *; [| |by eexists]; apply fmap_is_Some; apply fmap_is_Some in Ht.
  all: assert (e = Changer \/ e <> Changer) as [->|Hc] by (destruct e; by auto);
    [by rewrite ?(changer_vthreads s s' He), ?(proj1 (changer_frame s s' He))|].
  all: unfold step in He; destruct e as [k|k|k|k|k| |g|f]; try done; cbn in He;
      repeat match type of He with context [match ?x with _ => _ end] => destruct x eqn:?; try discriminate He end; injection He as <-; cbn; try done;
      apply lookup_insert_is_Some'; by right.
Qed.

(** The holder of the lock is about to write, or has written. *)
Definition lock_inv m : Prop :=
  match lock m with
  | None => True
  | Some (t, d, w) => (d <= depth t m)%nat /\ (w = false -> exists e, frame_event t d m = Some e /\ locks e (base m) = true)
  end.
Lemma depth_push t x gs m : depth t (mk_machine (base m) (lock m) (set_handlers x (handlers m x ++ gs) (handlers m))) =
  (depth t m + if decide (t = x) then length gs else 0)%nat.
Proof. unfold depth, set_handlers. cbn [handlers]. destruct (decide (t = x)) as [->|]; [by rewrite length_app|lia]. Qed.
Lemma lock_inv_step e m m' : lock_inv m -> mstep e m m' -> lock_inv m'.
Proof.
  unfold lock_inv. intros Hi Hs.
  (* a step of another frame that leaves the lock alone *)
  assert (Hother : forall x, handlers m' = handlers m -> lock m' = lock m -> step false x (base m) (base m') ->
    (forall t d w, lock m = Some (t, d, w) -> d = 0%nat -> w = false -> ~ own t x) -> lock_inv m').
  { intros x Hh Hl Hx Hn. unfold lock_inv. rewrite Hl. destruct (lock m) as [[[t d] w]|] eqn:El; [|done]. destruct Hi as [Hd Hw].
    unfold depth. rewrite Hh. split; [exact Hd|]. intros ->. destruct (Hw eq_refl) as (y & Hy & Hk). exists y. destruct d as [|d].
    - destruct (step_other t x _ _ Hx (Hn t 0%nat false eq_refl eq_refl eq_refl)) as [E1 E2]. cbn [frame_event] in *. rewrite E1. split; [done|]. by rewrite (E2 y Hy).
    - cbn [frame_event] in *. rewrite Hh. split; [done|]. apply fmap_Some in Hy as (g & _ & ->). done. }
  fold (lock_inv m'). destruct e as [t|t g|f].
  - apply run_cases in Hs as [x Hx Hk Hl Hb Hl' Hh|x Hx Hk Hl Hb Hl' Hh|Hl Hb Hl' Hh|x Hx Hk Hl Hb Hl' Hh].
    + unfold lock_inv. rewrite Hl'. unfold depth. rewrite Hh. split; [done|]. intros _. exists x. rewrite Hb. split; [|done].
      unfold frame_event in *. by rewrite Hb, Hh.
    + unfold lock_inv. rewrite Hl'. unfold depth. rewrite Hh. done.
    + unfold lock_inv. by rewrite Hl'.
    + apply (Hother x); [done..|]. intros t' d' w' El -> -> Ho. rewrite El in Hi. destruct Hi as [_ Hw]. destruct (Hw eq_refl) as (y & Hy & Hky).
      cbn [frame_event] in Hy. destruct (depth t m) as [|k] eqn:Ed.
      * cbn [frame_event] in Hx. assert (t' = t) as -> by (eapply own_inj; [exact Ho|by eapply thread_event_own]). congruence.
      * cbn [frame_event] in Hx. apply fmap_Some in Hx as (z & _ & ->). by destruct t'.
  - unfold mstep in Hs. cbn [mexec] in Hs. destruct (_ && _); [|done]. injection Hs as <-. unfold lock_inv. cbn [lock].
    destruct (lock m) as [[[t' d] w]|] eqn:El; [|done]. destruct Hi as [Hd Hw]. rewrite <-El, depth_push. split; [lia|]. intros Ew. destruct (Hw Ew) as (y & Hy & Hk).
    exists y. split; [|done]. destruct d as [|d]; [done|]. cbn [frame_event handlers] in *. unfold set_handlers. case_decide; [|done]. subst t'.
    apply fmap_Some in Hy as (g' & Hg & ->). by rewrite lookup_app_l, Hg by (by apply lookup_lt_Some in Hg).
  - unfold mstep in Hs. cbn [mexec] in Hs. apply apply_ok in Hs as (Hx & Hl & Hh). apply (Hother (Edit f)); [done..|]. intros t d w _ _ _; destruct t; intros [].
Qed.
Lemma mreach_lock_inv ok m : mreach ok m -> lock_inv m.
Proof. induction 1 as [m _ Hl _|e m m' _ IH _ Hs]; [unfold lock_inv; by rewrite Hl|by eapply lock_inv_step]. Qed.

(** *** A signal on the holder of the lock *)
Lemma run_tangled t m m' : tangled m -> mstep (Run t) m m' ->
  lock m' = lock m /\ handlers m' = handlers m /\ exists e, locks e (base m) = false /\ frame_event t (depth t m) m = Some e /\ step false e (base m) (base m').
Proof.
  intros (t0 & d & w & Hl & Hd) [x Hx Hk H0 _ _ _|x Hx Hk H0 _ _ _|H0 _ _ _|x Hx Hk _ Hb Hl' Hh]%run_cases; [congruence| | |].
  - rewrite Hl in H0. injection H0 as -> -> _. lia.
  - rewrite Hl in H0. injection H0 as -> -> _. lia.
  - by eauto 10.
Qed.
(** What is not under the lock writes no word. *)
Lemma unlocked_words e s s' : locks e s = false -> step false e s s' ->
  s_status_ s' = s_status_ s /\ s_core_prepared_ s' = s_core_prepared_ s /\ s_core_ack_ s' = s_core_ack_ s.
Proof.
  unfold step. destruct e as [l|l|l|l|l| |g|f]; cbn [locks]; intros Hk He; try done; cbn in He.
  - destruct (threads s !! l) as [[]|]; try done. by injection He as <-.
  - destruct (threads s !! l) as [[| | |stat]|]; try done; injection He as <-; [done|]. cbn. rewrite bool_decide_eq_false in Hk.
    destruct (Z.eqb_spec stat APP_STAT_CFGACK) as [->|]; [by destruct Hk|done].
  - destruct (vthreads s !! l) as [[]|]; try done. by injection He as <-.
  - destruct (vthreads s !! l) as [[]|]; try done. by injection He as <-.
  - destruct (todo s) as [|[] t]; try done; [destruct (round false s) as [t|]; [|done]|..]; by injection He as <-.
  - by injection He as <-.
Qed.
Lemma tangled_step e m m' : tangled m -> mstep e m m' ->
  tangled m' /\ lock m' = lock m /\ s_status_ (base m') = s_status_ (base m) /\ s_core_prepared_ (base m') = s_core_prepared_ (base m) /\
  s_core_ack_ (base m') = s_core_ack_ (base m).
Proof.
  intros Ht Hs. destruct e as [t|t g|f].
  - destruct (run_tangled t m m' Ht Hs) as (Hl & Hh & e & Hk & _ & Hb). destruct (unlocked_words e _ _ Hk Hb) as (H1 & H2 & H3).
    split; [|done]. destruct Ht as (t0 & d & w & H0 & Hd). exists t0, d, w. unfold depth. by rewrite Hl, Hh.
  - unfold mstep in Hs. cbn [mexec] in Hs. destruct (_ && _); [|done]. injection Hs as <-. split; [|done].
    destruct Ht as (t0 & d & w & H0 & Hd). exists t0, d, w. split; [done|]. rewrite depth_push. lia.
  - unfold mstep in Hs. cbn [mexec] in Hs. apply apply_ok in Hs as (Hb & Hl & Hh). destruct (unlocked_words (Edit f) _ _ eq_refl Hb) as (H1 & H2 & H3).
    split; [|done]. destruct Ht as (t0 & d & w & H0 & Hd). exists t0, d, w. unfold depth. by rewrite Hl, Hh.
Qed.
(** Only a signal tangles the lock, and only one that arrives at its holder. *)
Lemma tangled_by_signal e m m' : lock_inv m -> mstep e m m' -> tangled m' ->
  tangled m \/ exists t g w, e = Deliver t g /\ lock m = Some (t, depth t m, w).
Proof.
  unfold tangled, depth. intros Hi Hs (t0 & d & w & Hl & Hd). destruct e as [t|t g|f].
  - left. apply run_cases in Hs as [x _ _ _ _ Hl' Hh|x _ _ _ _ Hl' Hh|_ _ Hl' _|x _ _ _ _ Hl' Hh];
      [rewrite Hl', Hh in *; injection Hl as <- <- _; unfold depth in Hd; lia..|congruence|]. exists t0, d, w. by rewrite <-Hl', <-Hh.
  - unfold mstep in Hs. cbn [mexec] in Hs. destruct (_ && _); [|done]. injection Hs as <-. cbn [lock] in Hl.
    fold (depth t0 (mk_machine (base m) (lock m) (set_handlers t (handlers m t ++ [g]) (handlers m)))) in Hd. rewrite depth_push in Hd. unfold depth in Hd.
    unfold lock_inv, depth in Hi. rewrite Hl in Hi. destruct Hi as [Hi _]. case_decide as Ht; [|left; exists t0, d, w; split; [done|lia]]. subst t0. cbn [length] in Hd.
    destruct (decide (d = length (handlers m t))) as [->|]; [right; by exists t, g, w|left; exists t, d, w; split; [done|lia]].
  - left. unfold mstep in Hs. cbn [mexec] in Hs. apply apply_ok in Hs as (_ & Hl' & Hh). exists t0, d, w. by rewrite <-Hl', <-Hh.
Qed.

(** *** Otherwise nobody is stuck *)
Lemma frame_runs s t m e : base m = s -> inv s -> frame_event t (depth t m) m = Some e -> exists s', step false e s s'.
Proof.
  intros <- Hi. destruct (depth t m) as [|k]; cbn [frame_event].
  - destruct t as [l|l|]; cbn [thread_event].
    + destruct (threads (base m) !! l) as [pc|] eqn:El; [|done]. intros [= <-]. by apply (threads_run _ l).
    + destruct (vthreads (base m) !! l) as [[]|] eqn:El; intros [= <-]; unfold step, exec; rewrite El; by eexists.
    + intros [= <-]. by apply changer_runs.
  - intros (g & _ & ->)%fmap_Some. by eexists.
Qed.
Lemma frame_exists t m : is_Some (thread_event t (base m)) -> is_Some (frame_event t (depth t m) m).
Proof.
  intros Ht. unfold depth. destruct (length (handlers m t)) as [|k] eqn:Ek; [done|]. cbn [frame_event]. apply fmap_is_Some. apply lookup_lt_is_Some_2. lia.
Qed.
(** Threads that run one after the other. *)
Definition runs (ts : list thread) m : option machine := mexec_all (Run <$> ts) m.
(** The thread gets to its next step, or its handler does. *)
Definition proceeds t m : Prop :=
  exists ts m1 m2 e, runs ts m = Some m1 /\ mstep (Run t) m1 m2 /\ frame_event t (depth t m1) m1 = Some e /\ step false e (base m1) (base m2).
Lemma proceeds_after t x m m' : mstep (Run x) m m' -> proceeds t m' -> proceeds t m.
Proof.
  intros Hs (ts & m1 & m2 & e & Hr & H). exists (x :: ts), m1, m2, e. split; [|done]. unfold runs. cbn [fmap list_fmap mexec_all].
  unfold mstep in Hs. by rewrite Hs.
Qed.

Lemma run_takes t m e : frame_event t (depth t m) m = Some e -> locks e (base m) = true -> lock m = None ->
  mstep (Run t) m (mk_machine (base m) (Some (t, depth t m, false)) (handlers m)).
Proof. intros He Hk Hl. unfold mstep. cbn [mexec]. unfold run. by rewrite decide_False, He, Hk, Hl by (by rewrite Hl). Qed.
Lemma run_writes t m e s : frame_event t (depth t m) m = Some e -> locks e (base m) = true -> lock m = Some (t, depth t m, false) ->
  step false e (base m) s -> mstep (Run t) m (mk_machine s (Some (t, depth t m, true)) (handlers m)).
Proof.
  intros He Hk Hl Hs. unfold mstep. cbn [mexec]. unfold run. rewrite decide_False, He, Hk, Hl by (rewrite Hl; congruence).
  rewrite decide_True by done. by apply apply_does.
Qed.
Lemma run_leaves t m : lock m = Some (t, depth t m, true) ->
  mstep (Run t) m (mk_machine (base m) None (set_handlers t (take (pred (depth t m)) (handlers m t)) (handlers m))).
Proof. intros Hl. unfold mstep. cbn [mexec]. unfold run. by rewrite decide_True. Qed.
Lemma run_works t m e s : frame_event t (depth t m) m = Some e -> locks e (base m) = false -> lock m <> Some (t, depth t m, true) ->
  step false e (base m) s -> mstep (Run t) m (mk_machine s (lock m) (handlers m)).
Proof. intros He Hk Hl Hs. unfold mstep. cbn [mexec]. unfold run. rewrite decide_False, He, Hk by done. by apply apply_does. Qed.

Lemma proceeds_free t m : inv (base m) -> lock m = None -> is_Some (thread_event t (base m)) -> proceeds t m.
Proof.
  intros Hi Hl Ht. destruct (frame_exists t m Ht) as [e He]. destruct (frame_runs _ t m e eq_refl Hi He) as [s Hs].
  destruct (locks e (base m)) eqn:Hk.
  - apply (proceeds_after t t _ _ (run_takes t m e He Hk Hl)). set (m1 := mk_machine (base m) _ _).
    exists [], m1, (mk_machine s (Some (t, depth t m, true)) (handlers m)), e. split; [done|]. split; [|done]. by apply (run_writes t m1 e s).
  - exists [], m, (mk_machine s (lock m) (handlers m)), e. split; [done|]. split; [|done]. apply (run_works t m e s); [done..| |done]. by rewrite Hl.
Qed.
Lemma proceeds_written t m x : inv (base m) -> lock m = Some (x, depth x m, true) -> is_Some (thread_event t (base m)) -> proceeds t m.
Proof. intros Hi Hl Ht. apply (proceeds_after t x _ _ (run_leaves x m Hl)). by apply proceeds_free. Qed.
Lemma mreach_timely_inv m : mreach timely m -> inv (base m).
Proof. intros H. by apply reach_inv, mreach_reach. Qed.
Lemma untangled_proceeds t m : mreach timely m -> timely (base m) -> ~ tangled m -> is_Some (thread_event t (base m)) -> proceeds t m.
Proof.
  intros Hr Hok Hn Ht. pose proof (mreach_timely_inv m Hr) as Hi. pose proof (mreach_lock_inv _ m Hr) as Hli.
  unfold lock_inv in Hli. destruct (lock m) as [[[x d] w]|] eqn:Hl; [|by apply proceeds_free]. destruct Hli as [Hd Hw].
  assert (d = depth x m) as ->. { destruct (decide (d = depth x m)); [done|]. destruct Hn. exists x, d, w. split; [done|lia]. }
  destruct w; [by apply (proceeds_written t m x)|]. destruct (Hw eq_refl) as (e & He & Hk).
  destruct (frame_runs _ x m e eq_refl Hi He) as [s Hs]. pose proof (run_writes x m e s He Hk Hl Hs) as Hx.
  destruct (decide (x = t)) as [->|Hne].
  - exists [], m, (mk_machine s (Some (t, depth t m, true)) (handlers m)), e. done.
  - apply (proceeds_after t x _ _ Hx). apply (proceeds_written t _ x); [|done|by eapply step_thread_exists].
    apply mreach_timely_inv. by eapply mreach_step.
Qed.

(** *** The second cores *)
Lemma reach_mono (ok ok' : state -> Prop) s : (forall s, ok s -> ok' s) -> reach false ok s -> reach false ok' s.
Proof. intros H. induction 1; [by apply reach_start|eapply reach_step; by eauto]. Qed.
Definition second_quiet (stat : Z) (t : list action) : bool :=
  (stat =? APP_STAT_CFGLOAD) && bool_decide (t = [SET_STAT APP_STAT_CFGACK]) || (stat =? APP_STAT_CFGACK) || (stat =? APP_STAT_CFGSWAP).
Definition no_second (s : state) : Prop := forall l, vthreads s !! l <> Some true.
Lemma second_step_quiet e s s' : inv s -> timely s -> prompt s -> step false e s s' ->
  (second_quiet (STAT (s_status_ s)) (todo s) = true -> no_second s) ->
  second_quiet (STAT (s_status_ s')) (todo s') = true -> no_second s'.
Proof.
  intros Hi Ht Hp Hs Hq Hq'. assert (e = Changer \/ e <> Changer) as [->|Hc] by (destruct e; by auto).
  - unfold no_second in *. rewrite (changer_vthreads _ _ Hs). pose proof (inv_phase s Hi) as Hph. unfold prompt in Hp. revert Hs Hq'. unfold step, exec.
    unfold phases in Hph. repeat (apply elem_of_cons in Hph as [[= E1 E2]|Hph]; [|]); [..|by apply elem_of_nil in Hph]; rewrite E1, E2 in *;
      try (intros; by apply Hq); try (intros; by apply Hp); unfold round; rewrite ?E1;
      cbn [mbind res_bind Z.eqb Pos.eqb APP_STAT_DC APP_STAT_INIT APP_STAT_PREPARE APP_STAT_BUSYLOOP APP_STAT_CFGLOAD APP_STAT_CFGACK APP_STAT_CFGSWAP act];
      try (match goal with |- context [s_core_used_ s =? s_core_prepared_ s] => destruct (s_core_used_ s =? s_core_prepared_ s) end);
      try (match goal with |- context [HAVE_SIGNAL _] => destruct (HAVE_SIGNAL _) end);
      intros [= <-]; cbn [set_changer s_status_ todo s_core_ack_]; rewrite ?E2, ?STAT_SET, ?STAT_RESET_SIGNAL, ?E1 by reflexivity; cbn [tail];
      intros Hd; vm_compute in Hd; discriminate Hd.
  - destruct (exec_thread_step e s s' Hc Hi Hs) as [T1 T2 _ _ _ _ _]. rewrite T1, T2 in Hq'. specialize (Hq Hq'). intros l Hl. apply (Hq l). revert Hs Hl.
    unfold step. destruct e as [k|k|k|k|k| |g|f]; try done; cbn.
    1-3: destruct (threads s !! k) as [[]|]; try done; by intros [= <-].
    + destruct (vthreads s !! k) as [[]|] eqn:Ek; try done. intros [= <-]. cbn. intros [[_ Hb]|[_ Hb]]%lookup_insert_Some; [|done].
      apply Z.eqb_eq in Hb. rewrite Hb in Hq'. cbn in Hq'. done.
    + destruct (vthreads s !! k) as [[]|] eqn:Ek; try done. intros [= <-]. cbn. by intros [[_ Hb]|[_ Hb]]%lookup_insert_Some.
    + by intros [= <-].
    + by intros [= <-].
Qed.
Lemma reach_second_quiet s : reach false (fun s => timely s /\ prompt s) s -> second_quiet (STAT (s_status_ s)) (todo s) = true -> no_second s.
Proof.
  induction 1 as [s Hs|e s s' Hr IH [Ht Hp] Hst].
  - rewrite (st_status s Hs). by intros Hd.
  - apply (second_step_quiet e s); [|done..]. apply reach_inv. eapply reach_mono; [|exact Hr]. by intros ? [].
Qed.
(** In [SwapConfig] the second cores stand still too, if they are prompt. *)
Lemma swap_phase s (r : list action) : inv s -> todo s = SWAP_CONFIG :: r -> STAT (s_status_ s) = APP_STAT_CFGSWAP.
Proof.
  intros Hi Et. pose proof (inv_phase s Hi) as Hp. rewrite Et in Hp. unfold phases in Hp.
  repeat (apply elem_of_cons in Hp as [Hp|Hp]; [injection Hp as E1 E2; try discriminate E2; exact E1|]). by apply elem_of_nil in Hp.
Qed.
Lemma swap_all_quiet e s s' : inv s -> step false e s s' ->
  the_app s' = the_app s \/
  (the_app s' = SwapConfig (conf s) (the_app s) /\ no_burst s /\ (reach false (fun s => timely s /\ prompt s) s -> no_second s)).
Proof.
  intros Hi Hs. destruct (swap_quiet e s s' Hi Hs) as [H|[H1 H2]]; [by left|].
  assert (e = Changer \/ e <> Changer) as [->|Hc] by (destruct e; by auto).
  - pose proof Hs as Hs0. unfold step, exec in Hs. destruct (todo s) as [|[| | | |c] t] eqn:Et;
      [destruct (round false s); [|done]; injection Hs as <-; by left|injection Hs as <-; by left| |injection Hs as <-; by left..].
    right. split; [done|]. split; [done|]. intros Hr. apply reach_second_quiet; [done|]. by rewrite (swap_phase s t Hi Et), Et.
  - left. destruct e as [l|l|l|l|l| |g|f]; try done; try (by refine (fr_app _ _ (core_frame _ _ _ _ Hs))); unfold step, exec in Hs; by injection Hs as <-.
Qed.
End machine_facts.

(** ** The second version *)
Section second.
Context `{D : Dpdk} `{B : Build}.
Definition keeps_config (a : action) : bool := match a with LOAD_CONFIG | SWAP_CONFIG => false | _ => true end.

(** Its state changer has no reload: the configuration stays what [Commit] made it. *)
Lemma v2_step e s s' :
  forallb keeps_config (todo s) = true -> step true e s s' ->
  forallb keeps_config (todo s') = true /\ conf s' = conf s /\ the_app s' = the_app s.
Proof.
  intros Ht. unfold step, exec. destruct e as [l|l|l|l|l| |g|f].
  1-3: destruct (threads s !! l) as [[]|]; try done; by intros [= <-].
  1-2: destruct (vthreads s !! l) as [[]|]; try done; by intros [= <-].
  2-3: by intros [= <-].
  destruct (todo s) as [|a t] eqn:Et.
  - unfold round. repeat (match goal with |- context [if ?b then _ else _] => destruct b end); intros [= <-]; done.
  - cbn in Ht. apply andb_true_iff in Ht as [Ha Ht]. intros [= <-]. destruct a; try done; cbn; by rewrite Et.
Qed.
Lemma v2_never_reloads es s s' : todo s = [] -> exec_all true es s = Some s' -> conf s' = conf s /\ the_app s' = the_app s.
Proof.
  intros Ht. assert (Hk : forallb keeps_config (todo s) = true) by (by rewrite Ht). clear Ht. revert s Hk.
  induction es as [|e es IH]; intros s Hk; [by intros [= <-]|]. cbn. destruct (exec true e s) as [[s1|]|] eqn:E0; try done. intros E1.
  destruct (v2_step e s s1 Hk E0) as (H1 & H2 & H3). destruct (IH s1 H1 E1) as [H4 H5]. split; congruence.
Qed.
End second.

(** ** Claims *)
Module Properties.
Section properties.
Context `{D : Dpdk} `{B : Build}.
Implicit Types (s : state) (l : Z).

(** C4: the configuration is swapped only while the cores stand still.  In every run of
    the machine, signals and spin lock included, in which the sleeps of one reload are
    over before the acknowledgements of the next are cleared: a step either leaves the
    application alone, or it is [SwapConfig] and no core is in a burst of [Cycle], nor a
    second core in one of [VirtualCycle] if the bursts those were in when the reload
    began were over by then.  Unless a signal has interrupted the holder of the spin
    lock, every thread gets to its next step; and only a signal that arrives at the
    thread that holds the lock makes it so. *)
Theorem swap_waits_for_cores m :
  mreach timely m -> timely (base m) ->
  (forall e m', mstep e m m' ->
     the_app (base m') = the_app (base m) \/
     (the_app (base m') = SwapConfig (conf (base m)) (the_app (base m)) /\ (forall l, threads (base m) !! l <> Some Bursting) /\
      (mreach (fun s => timely s /\ prompt s) m -> forall l, vthreads (base m) !! l <> Some true))) /\
  (~ tangled m -> forall t, is_Some (thread_event t (base m)) -> proceeds t m) /\
  (forall e m', mstep e m m' -> tangled m' -> tangled m \/ exists t g w, e = Deliver t g /\ lock m = Some (t, depth t m, w)).
Proof.
  intros Hr Ht. pose proof (mreach_timely_inv m Hr) as Hi. split; [|split].
  - intros e m' Hs. destruct (mstep_base e m m' Hs) as [->|[x Hx]]; [by left|]. destruct (swap_all_quiet x _ _ Hi Hx) as [H|(H1 & H2 & H3)]; [by left|].
    right. split; [done|]. split; [done|]. intros Hp. by apply H3, mreach_reach.
  - intros Hn t. by apply untangled_proceeds.
  - intros e m'. apply tangled_by_signal. by eapply mreach_lock_inv.
Qed.

(** C39: a reload completes: from a reachable busy loop with a signal pending,
    fifteen turns of the state changer, with any steps of the cores in between
    and one turn of every core while it waits for the acknowledgements, lead
    back to the busy loop with the signal taken, the file read and every core
    given the new configuration. *)
Theorem reload_completes s bgs1 bg bgs2 s' :
  reach false timely s -> STAT (s_status_ s) = APP_STAT_BUSYLOOP -> todo s = [] -> HAVE_SIGNAL (s_status_ s) = true ->
  length bgs1 = 7%nat -> length bgs2 = 7%nat -> Forall (Forall core_event) (bgs1 ++ bg :: bgs2) -> fair (dom (threads s)) bg ->
  exec_all false (turns (bgs1 ++ bg :: bgs2)) s = Some s' ->
  STAT (s_status_ s') = APP_STAT_BUSYLOOP /\ todo s' = [] /\ HAVE_SIGNAL (s_status_ s') = false /\
  conf s' = LoadConfig (file s) (conf s) /\ the_app s' = SwapConfig (LoadConfig (file s) (conf s)) (the_app s).
Proof.
  intros Hr Hst Ht Hsig L1 L2 Hbg Hf E0.
  assert (Hk : knows (dom (threads s)) (s_status_ s) [] (conf s) (the_app s) (file s) s) by (constructor; [by apply reach_masks|done..]).
  destruct (reload_ok _ _ _ _ _ _ _ _ _ _ Hk Hst Hsig L1 L2 Hbg Hf E0) as (st' & [_ H1 H2 H3 H4 _] & H5 & H6).
  rewrite H1. split_and!; done.
Qed.
End properties.

(** *** One core, one second core, two configuration files *)
#[local] Existing Instance DpdkModel.dpdk.
#[local] Existing Instance App.Properties.plain_build.
Definition file1 : list Z := TextParse.lit "burst_size_rx_deq=8".
Definition file2 : list Z := TextParse.lit "burst_size_rx_deq=32".
Definition start : state :=
  mk_state APP_STAT_DC 2 0 0 0 {[1 := Starting]} {[31 := false]} [] statics0 App.Properties.app5 (Some file1).
Definition changer (n : nat) : list event := replicate n Changer.
Definition after (es : list event) : state := default start (exec_all false es start).

(** Runs that keep to the timing, decided. *)
Definition timelyb (s : state) : bool :=
  negb (bool_decide (todo s = [RESET_ACK; SET_STAT APP_STAT_CFGACK])) ||
  forallb (fun x => negb (bool_decide (x.2 = Sleeping APP_STAT_CFGACK))) (map_to_list (threads s)).
Fixpoint timely_run (es : list event) (s : state) : bool :=
  match es with
  | [] => true
  | e :: es => timelyb s && match exec false e s with Some (Ok s') => timely_run es s' | _ => false end
  end.
Lemma timelyb_ok s : timelyb s = true -> timely s.
Proof.
  unfold timelyb, timely. intros Hb Ht l Hl. rewrite bool_decide_true in Hb by done. cbn in Hb. rewrite forallb_forall in Hb.
  assert (In (l, Sleeping APP_STAT_CFGACK) (map_to_list (threads s))) as Hin by (apply list_elem_of_In; by apply elem_of_map_to_list).
  apply Hb in Hin. cbn in Hin. by rewrite bool_decide_true in Hin.
Qed.
Lemma run_reach es s s' : reach false timely s -> timely_run es s = true -> exec_all false es s = Some s' -> reach false timely s'.
Proof.
  revert s. induction es as [|e es IH]; intros s Hr; cbn; [by intros _ [= <-]|]. intros [Ht Hrun]%andb_true_iff.
  destruct (exec false e s) as [[s1|]|] eqn:E0; try done. apply IH; [|done]. eapply reach_step; [done|by apply timelyb_ok|done].
Qed.
Lemma start_ok : starting start.
Proof.
  constructor; try reflexivity.
  - intros l Hl. change (s_core_used_ start) with (2 ^ 1). rewrite Z.pow2_bits_eqb by lia. cbn [threads start].
    rewrite (bool_decide_ext _ (1 = l)); [destruct (Z.eqb_spec 1 l); by case_bool_decide|].
    unfold is_Some. setoid_rewrite lookup_singleton_Some. naive_solver.
  - intros l [pc Hl]. cbn in Hl. apply lookup_singleton_Some in Hl as [<- _]. lia.
  - intros l pc Hl. cbn in Hl. by apply lookup_singleton_Some in Hl as [_ <-].
Qed.
Lemma after_reach es : timely_run es start = true -> bool_decide (is_Some (exec_all false es start)) = true -> reach false timely (after es).
Proof.
  intros Ht Hs. unfold after. destruct (exec_all false es start) as [s|] eqn:E0; [|done].
  by apply (run_reach es start s); [apply reach_start, start_ok|..].
Qed.

(** The node has booted, and a reload is asked for. *)
Definition boot : list event := Prepare 1 :: changer 7.
Definition asked : state := after (boot ++ [Look 1; SetSignal APP_STAT_SIGUSR1]).
Lemma asked_reach : reach false timely asked.
Proof. apply after_reach; vm_compute; reflexivity. Qed.

(** The same on the machine: the runs that keep to the timing, with second cores. *)
Definition promptb (s : state) : bool :=
  negb (bool_decide (todo s = [RESET_ACK; SET_STAT APP_STAT_CFGACK])) || forallb (fun x => negb x.2) (map_to_list (vthreads s)).
Fixpoint machine_run (es : list mevent) (m : machine) : option machine :=
  match es with
  | [] => Some m
  | e :: es => if timelyb (base m) && promptb (base m) then match mexec e m with Some (Ok m') => machine_run es m' | _ => None end else None
  end.
Lemma promptb_ok s : promptb s = true -> prompt s.
Proof.
  unfold promptb, prompt. intros Hb Ht l Hl. rewrite bool_decide_true in Hb by done. cbn in Hb. rewrite forallb_forall in Hb.
  assert (In (l, true) (map_to_list (vthreads s))) as Hin by (apply list_elem_of_In; by apply elem_of_map_to_list). by apply Hb in Hin.
Qed.
Lemma machine_run_reach es m m' : mreach (fun s => timely s /\ prompt s) m -> machine_run es m = Some m' -> mreach (fun s => timely s /\ prompt s) m'.
Proof.
  revert m. induction es as [|e es IH]; intros m Hr; cbn [machine_run]; [by intros [= <-]|]. destruct (timelyb _ && promptb _) eqn:Hb; [|done].
  apply andb_true_iff in Hb as [Hb1 Hb2]. destruct (mexec e m) as [[m1|]|] eqn:E0; try done. apply IH.
  eapply mreach_step; [done|split; [by apply timelyb_ok|by apply promptb_ok]|done].
Qed.
Lemma mreach_mono (ok ok' : state -> Prop) m : (forall s, ok s -> ok' s) -> mreach ok m -> mreach ok' m.
Proof. intros H. induction 1; [by apply mreach_start|eapply mreach_step; by eauto]. Qed.
Definition machine0 : machine := mk_machine start None (fun _ => []).
Definition after_m (es : list mevent) : machine := default machine0 (machine_run es machine0).
Lemma after_m_reach es : bool_decide (is_Some (machine_run es machine0)) = true -> mreach (fun s => timely s /\ prompt s) (after_m es).
Proof.
  intros Hs. unfold after_m. destruct (machine_run es machine0) as [m|] eqn:E0; [|done].
  by apply (machine_run_reach es machine0 m); [apply mreach_start; [exact start_ok|..]|].
Qed.

(** A reload on the machine: the node boots, a signal interrupts the burst of core 1, the
    cores finish theirs and acknowledge, the state changer is about to swap. *)
Definition machine_boot : list mevent := replicate 3 (Run (Core 1)) ++ replicate 15 (Run StateChanger).
Definition machine_reload : list mevent :=
  machine_boot ++ [Run (Core 1); Run (Second 31); Deliver (Core 1) APP_STAT_SIGUSR1] ++ replicate 3 (Run (Core 1)) ++
  replicate 4 (Run StateChanger) ++ [Run (Second 31)] ++ replicate 11 (Run StateChanger) ++ replicate 5 (Run (Core 1)) ++ replicate 5 (Run StateChanger).
Lemma swap_waits_for_cores_witness :
  let m := after_m machine_reload in
  todo (base m) = [SWAP_CONFIG; SET_STAT APP_STAT_PREPARE] /\ lock m = None /\ proceeds StateChanger m /\
  forall m', mstep (Run StateChanger) m m' ->
    the_app (base m') = the_app (base m) \/
    (the_app (base m') = SwapConfig (conf (base m)) (the_app (base m)) /\ (forall l, threads (base m) !! l <> Some Bursting) /\
     forall l, vthreads (base m) !! l <> Some true).
Proof.
  intros m. assert (Hr : mreach (fun s => timely s /\ prompt s) m) by (apply after_m_reach; vm_compute; reflexivity).
  assert (Hl : lock m = None) by (vm_compute; reflexivity). split; [vm_compute; reflexivity|]. split; [exact Hl|].
  destruct (swap_waits_for_cores m) as (H1 & H2 & _); [eapply mreach_mono; [|exact Hr]; by intros ? []|apply timelyb_ok; vm_compute; reflexivity|]. split.
  - apply H2; [|by eexists]. intros (t & d & w & E0 & _). rewrite Hl in E0. discriminate E0.
  - intros m' Hs. destruct (H1 _ m' Hs) as [H|(H3 & H4 & H5)]; [by left|right]. split; [exact H3|]. split; [exact H4|by apply H5].
Defined.

Lemma reload_completes_witness :
  exists s', exec_all false (turns (replicate 7 [] ++ [Finish 1; Look 1; Finish 1] :: replicate 7 [])) asked = Some s' /\
    STAT (s_status_ s') = APP_STAT_BUSYLOOP /\ the_app s' = SwapConfig (LoadConfig (Some file1) statics0) App.Properties.app5.
Proof.
  destruct (exec_all false (turns (replicate 7 [] ++ [Finish 1; Look 1; Finish 1] :: replicate 7 [])) asked) as [s'|] eqn:E0.
  - destruct (reload_completes asked (replicate 7 []) [Finish 1; Look 1; Finish 1] (replicate 7 []) s') as (H1 & _ & _ & _ & H2);
      [exact asked_reach|reflexivity..| | |exact E0|exists s'; split; [reflexivity|split; [exact H1|exact H2]]].
    + repeat (constructor; [repeat (constructor; [exact I|]); constructor|]). constructor.
    + intros l Hl. change (dom (threads asked)) with (dom (threads asked)) in Hl.
      assert (Hd : dom (threads asked) = ({[1]} : gset Z)) by (vm_compute; reflexivity). rewrite Hd in Hl. apply elem_of_singleton in Hl as ->.
      by exists [Finish 1], [], [].
  - exfalso. vm_compute in E0. discriminate E0.
Defined.

(** *** What the modelling showed *)

(** Without the timing: a core that sleeps through a whole reload acknowledges
    the next one before it has seen it, and [SwapConfig] runs in its burst. *)
Lemma late_sleeper_races :
  let s := after (boot ++ [SetSignal APP_STAT_SIGUSR1] ++ changer 7 ++ [Look 1; Finish 1; Look 1] ++ changer 8 ++
                  [SetSignal APP_STAT_SIGUSR1] ++ changer 6 ++ [Finish 1; Look 1] ++ changer 4) in
  todo s = [SWAP_CONFIG; SET_STAT APP_STAT_PREPARE] /\ threads s !! 1 = Some Bursting.
Proof. split; vm_compute; reflexivity. Qed.

(** The second cores are not waited for: [SwapConfig] runs in a burst of
    [VirtualCycle]. *)
Lemma second_core_not_waited_for :
  let es := boot ++ [VLook 31; SetSignal APP_STAT_SIGUSR1] ++ changer 7 ++ [Look 1; Finish 1] ++ changer 3 in
  timely_run es start = true /\ todo (after es) = [SWAP_CONFIG; SET_STAT APP_STAT_PREPARE] /\ vthreads (after es) !! 31 = Some true.
Proof. split_and!; vm_compute; reflexivity. Qed.

(** A signal at the holder of the lock: from then on no status, no acknowledgement and
    no preparation is ever written again, whatever the threads do; the node neither
    reloads nor finishes the reload it is in. *)
Lemma signal_in_lock_deadlocks m es m' : tangled m -> mexec_all es m = Some m' ->
  tangled m' /\ s_status_ (base m') = s_status_ (base m) /\ s_core_prepared_ (base m') = s_core_prepared_ (base m) /\ s_core_ack_ (base m') = s_core_ack_ (base m).
Proof.
  revert m. induction es as [|e es IH]; intros m Ht; cbn [mexec_all]; [by intros [= <-]|]. destruct (mexec e m) as [[m1|]|] eqn:E0; try done. intros E1.
  destruct (tangled_step e m m1 Ht E0) as (Ht1 & _ & H1 & H2 & H3). destruct (IH m1 Ht1 E1) as (H4 & H5 & H6 & H7). split; [done|]. repeat split; congruence.
Qed.
(** It takes one signal, while core 1 notes that it is prepared. *)
Lemma boot_can_deadlock : tangled (after_m [Run (Core 1); Deliver (Core 1) APP_STAT_SIGUSR1]).
Proof. exists (Core 1), 0%nat, false. split; vm_compute; [reflexivity|lia]. Qed.

(** A signal between the reading of the file and the reset of the signals is
    lost: the node is back in the busy loop with the older file. *)
Lemma signal_lost_in_reload :
  let es := boot ++ [SetSignal APP_STAT_SIGUSR1] ++ changer 4 ++ [Edit (Some file2); SetSignal APP_STAT_SIGUSR1] ++ changer 3 ++
            [Look 1; Finish 1] ++ changer 8 in
  timely_run es start = true /\ STAT (s_status_ (after es)) = APP_STAT_BUSYLOOP /\ HAVE_SIGNAL (s_status_ (after es)) = false /\
  burst_size_rx_deq_ (s_CONF_TMP_ (conf (after es))) = 8.
Proof. split_and!; vm_compute; reflexivity. Qed.
End Properties.
