(* ===== verification/CtrlApp.v ===== *)
(** * Control plane: the process

    ctrlplane/src/cmn/start.c and stop.c, ctrlplane/src/node, event_node_init.c,
    event_node_uninit.c and the event callback of ctrlplane/src/pgw/pgw.c: the
    servers and the nodes are started, every node prepares its statements and then
    calls [event_cb] again and again, the servers call it for what they receive and
    for the timer.  The file composes the handlers of the other control plane files:
    what happens between a datagram on the socket and the answer on the wire.

    A callback is one step: what callbacks on different threads share are the node
    queues and the allocation counters, each behind its mutex, and the database.
    The version 1 handler, which need not return (CtrlV1), is an argument. *)

From S2P Require Import Prelude TextParse Gtpc GtpcItems GtpcParse CtrlNode CtrlSession CtrlAnswers CtrlKeepalive CtrlRouter.

Definition MAX_DSTCNT := 16.
Definition INTERACTIVE_TIMEOUT := 60000000.
Definition INTERACTIVE_HALT := 1000.
(** [enum PROPERTY], the properties the process sets. *)
Definition DB_HOST := 37.
Definition DB_USER := 38.
Definition DB_PSWD := 39.
Definition DB_INST := 40.
Definition DB_PORT := 41.
Definition DB_FLAG := 42.
Definition NODE_CNT := 43.
Definition EXT_SET_NUMBER := 44.
Definition PGW_UNIT_NUMBER := 45.

(** ** Starting a server: [__start_udp_server]

    What the operating system answers: the descriptor of [socket], whether setting it
    non-blocking, [bind] and [pthread_create] succeed. *)
Record bring_up := mk_bring_up { su_socket : Z; su_nonblock : bool; su_bind : bool; su_thread : bool }.
Definition set_server (a : list Z) (sock : Z) (s : server) : server :=
  mk_server a sock (srv_port s) (srv_ip s) (server_id s).
Definition start_udp_server (u : bring_up) (s : server) : Z * server :=
  if su_socket u <? 0 then (ERR, set_server (srv_addr s) (su_socket u) s) else
  if negb (su_nonblock u) then (ERR, set_server (srv_addr s) (-1) s) else
  let a := sockaddr (srv_port s) (inet_pton (srv_ip s) (bzero 4)) in
  if negb (su_bind u) || negb (su_thread u) then (ERR, set_server a (-1) s) else (OK, set_server a (su_socket u) s).

(** ** Nodes

    [node_opt]: nothing, the prepared statements (the first of them is [stmt]), or the
    sockets of the transmit node. *)
Inductive node_opt := NoOpt | Statements (l : list stmt) | Sockets (t : txnode_ext).
Inductive thread := Started | Running | Stopped.
Record node_state := mk_ns { opt : node_opt; tocounter : Z; halt : bool; status : thread }.
Definition ns0 : node_state := mk_ns NoOpt 0 false Started.
Definition set_opt (o : node_opt) (st : thread) (s : node_state) : node_state := mk_ns o (tocounter s) (halt s) st.
Definition set_tocounter (t : Z) (s : node_state) : node_state := mk_ns (opt s) t (halt s) (status s).
Definition set_halt (s : node_state) : node_state := mk_ns (opt s) (tocounter s) true (status s).

(** Preparing a statement: it succeeds, the server has gone away (error 2006) and the
    second attempt succeeds or not, it fails, or there is no statement handle. *)
Inductive prepared := Prepared | GoneAway (again : bool) | PrepareFailed | NoHandle.
Definition prepares (r : prepared) : bool := match r with Prepared | GoneAway true => true | _ => false end.

Record process {D : Type} := mk_process {
  inst : handle; properties : list property; mem : gtp_memory; db : D;
  states : list node_state;
  peers_table : option sgw_peers;      (* of the GTP-C echo node *)
  keys : list upkey; gtpc_seq : Z; gtpu_seq : Z;   (* of the timer *)
  pings : Z; round : nat; wire : datagrams;
  closed : list Z;                     (* descriptors closed, in order *)
  leaked : list stmt;                  (* statements that were never closed *)
}.
Arguments process : clear implicits.

Section process.
Context `{B : CtrlBuild} `{PB : PgwBuild} {D : Type} `{DB : Database D}.
Variable malloc : nat -> bool.
Variable env : nat -> send_round.
Variables (erange erange' : bool) (now : Z).
Variable event_gtpc_v1_any_req : packet_t -> ctx D -> res (Z * ctx D).
Implicit Types (p : process D).

Definition set_inst (h : handle) p : process D :=
  mk_process D h (properties p) (mem p) (db p) (states p) (peers_table p) (keys p) (gtpc_seq p) (gtpu_seq p) (pings p) (round p)
    (wire p) (closed p) (leaked p).
Definition set_pmem (s : gtp_memory) p : process D :=
  mk_process D (inst p) (properties p) s (db p) (states p) (peers_table p) (keys p) (gtpc_seq p) (gtpu_seq p) (pings p) (round p)
    (wire p) (closed p) (leaked p).
Definition set_states (l : list node_state) p : process D :=
  mk_process D (inst p) (properties p) (mem p) (db p) l (peers_table p) (keys p) (gtpc_seq p) (gtpu_seq p) (pings p) (round p)
    (wire p) (closed p) (leaked p).
Definition set_peers (t : option sgw_peers) p : process D :=
  mk_process D (inst p) (properties p) (mem p) (db p) (states p) t (keys p) (gtpc_seq p) (gtpu_seq p) (pings p) (round p)
    (wire p) (closed p) (leaked p).
Definition set_ctx (k : nat) (c : ctx D) p : process D :=
  mk_process D (set_nodes (<[k := c_node c]> (nodes (inst p))) (inst p)) (properties p) (c_mem c) (c_db c) (states p) (peers_table p)
    (keys p) (gtpc_seq p) (gtpu_seq p) (pings p) (round p) (wire p) (closed p) (leaked p).
Definition set_timer (k : nat) (t : timer_state D) p : process D :=
  let p := set_ctx k (t_ctx t) p in
  mk_process D (inst p) (properties p) (mem p) (db p) (states p) (peers_table p) (upkeys t) (gtpc_seqnum t) (gtpu_seqnum t) (pings p)
    (round p) (wire p) (closed p) (leaked p).
Definition set_tx (h : handle) (x : tx_state (D := D)) p : process D :=
  mk_process D h (properties p) (tx_mem x) (tx_db x) (states p) (peers_table p) (keys p) (gtpc_seq p) (gtpu_seq p) (pings p)
    (tx_round x) (tx_wire x) (closed p) (leaked p).
Definition set_ping (n : Z) p : process D :=
  mk_process D (inst p) (properties p) (mem p) (db p) (states p) (peers_table p) (keys p) (gtpc_seq p) (gtpu_seq p) n (round p)
    (wire p) (closed p) (leaked p).
Definition set_closed (l : list Z) (ss : list stmt) p : process D :=
  mk_process D (inst p) (properties p) (mem p) (db p) (states p) (peers_table p) (keys p) (gtpc_seq p) (gtpu_seq p) (pings p) (round p)
    (wire p) (closed p ++ l) (leaked p ++ ss).

(** ** Starting the nodes: [node_start_paralell]

    [thread_ok n] is whether the n-th [pthread_create] succeeds. *)
Fixpoint start_nodes (thread_ok : nat -> bool) (cnt n : nat) p : res (Z * process D) :=
  match cnt with
  | O => Ok (OK, set_inst (mk_handle (Z.lor (flags (inst p)) ON) (nodes (inst p)) (server_gtpc (inst p)) (server_gtpu (inst p))
                   (ext_set_num (inst p)) (pgw_unit_num (inst p))) p)
  | S cnt =>
      if negb (malloc (mallocs (mem p))) then Fault RtePanic else
      let p := set_inst (set_nodes (nodes (inst p) ++ [node0]) (inst p)) (set_pmem (next_malloc (mem p)) p) in
      if negb (thread_ok n) then Ok (ERR, p) else start_nodes thread_ok cnt (S n) (set_states (states p ++ [ns0]) p)
  end.
Definition node_start_paralell (thread_ok : nat -> bool) p : res (Z * process D) :=
  match pgw_get_property (properties p) NODE_CNT with
  | None => Ok (ERR, p)
  | Some (v, _) =>
      cnt ← rd 4 v 0;
      if MAX_DSTCNT <? cnt then Ok (ERR, p) else
      let p := set_inst (mk_handle 0 (nodes (inst p)) (server_gtpc (inst p)) (server_gtpu (inst p))
                 (ext_set_num (inst p)) (pgw_unit_num (inst p))) p in
      start_nodes thread_ok (Z.to_nat cnt) 0 p
  end.
Definition set_servers (c u : server) (h : handle) : handle := mk_handle (flags h) (nodes h) c u (ext_set_num h) (pgw_unit_num h).
Definition pgw_start (uc uu : bring_up) (thread_ok : nat -> bool) p : res (Z * process D) :=
  let '(rc, c) := start_udp_server uc (server_gtpc (inst p)) in
  let p := set_inst (set_servers c (server_gtpu (inst p)) (inst p)) p in
  if negb (rc =? OK) then Ok (ERR, p) else
  let '(rc, u) := start_udp_server uu (server_gtpu (inst p)) in
  let p := set_inst (set_servers (server_gtpc (inst p)) u (inst p)) p in
  if negb (rc =? OK) then Ok (ERR, p) else
  '(rc, p) ← node_start_paralell thread_ok p;
  if negb (rc =? OK) then Ok (ERR, p) else Ok (OK, p).

(** ** A node begins: [node_thread] up to its loop, [event_node_init]

    [connect k] is whether the connection of the k-th node is made, [prepare k st]
    what preparing [st] on it answers. *)
Definition is_create (k : nat) : bool :=
  (PGW_NODE_GTPC_CREATE_SESSION_REQ <=? k)%nat && (k <? PGW_NODE_GTPC_CREATE_SESSION_REQ_MAX)%nat.
Definition stmts_of (k : nat) : list stmt :=
  if (k =? PGW_NODE_TIMER)%nat then [KEEPALIVE_LOOKUP]
  else if is_create k then [CREATE_SESSION_IMSI_LOOKUP; CREATE_SESSION_MSISDN_LOOKUP]
  else if (k =? PGW_NODE_GTPC_MODIFY_BEARER_REQ)%nat then [MODIFY_BEARER_LOOKUP]
  else if (k =? PGW_NODE_GTPC_OTHER_REQ)%nat then [DELETE_SESSION_LOOKUP; CREATE_SESSION_IMSI_LOOKUP; MODIFY_BEARER_LOOKUP]
  else if (k =? PGW_NODE_GTPU_OTHER_REQ)%nat then [ICMPV6_RA_LOOKUP] else [].
Definition set_state (k : nat) (s : node_state) p : process D := set_states (<[k := s]> (states p)) p.
Definition event_node_init (prepare : stmt -> prepared) (k : nat) (s : node_state) p : res (process D) :=
  if (k =? PGW_NODE_TX)%nat then
    if negb (malloc (mallocs (mem p))) then Fault RtePanic else
    let c := srv_sock (server_gtpc (inst p)) in
    let u := srv_sock (server_gtpu (inst p)) in
    if (c <? 0) || (u <? 0) then Fault RtePanic
    else Ok (set_state k (set_opt (Sockets (mk_txnode c u)) Running s) (set_pmem (next_malloc (mem p)) p))
  else if (k =? PGW_NODE_GTPC_ECHO_REQ)%nat then
    let '(rc, t, m) := pgw_create_sgw_peers malloc now (mem p) in
    if negb (rc =? OK) then Fault RtePanic else Ok (set_state k (set_opt NoOpt Running s) (set_peers t (set_pmem m p)))
  else match stmts_of k with
  | [] => Ok (set_state k (set_opt NoOpt Running s) p)
  | l =>
      if negb (malloc (mallocs (mem p))) then Fault RtePanic else
      if forallb (fun st => prepares (prepare st)) l
      then Ok (set_state k (set_opt (Statements l) Running s) (set_pmem (next_malloc (mem p)) p)) else Fault RtePanic
  end.
Definition DB_PROPERTIES : list Z := [DB_HOST; DB_USER; DB_PSWD; DB_INST; DB_PORT; DB_FLAG].
Definition node_begin (connect : bool) (prepare : stmt -> prepared) (k : nat) (s : node_state) p : res (process D) :=
  if existsb (fun i => negb (bool_decide (is_Some (pgw_get_property (properties p) i)))) DB_PROPERTIES then Fault RtePanic else
  if negb connect then Fault RtePanic else event_node_init prepare k s p.

(** ** A node ends: [event_node_uninit]; only the statement in [stmt] is closed. *)
Definition event_node_uninit (k : nat) (s : node_state) p : process D :=
  let p := match opt s with
           | Sockets t => set_closed [sock_gtpc t; sock_gtpu t] [] p
           | Statements l => set_closed [] (tail l) p
           | NoOpt => p
           end in
  let p := if (k =? PGW_NODE_GTPC_ECHO_REQ)%nat then set_peers (pgw_free_sgw_peers (peers_table p)).2 p else p in
  set_state k (set_opt NoOpt Stopped s) p.

(** ** [event_cb]

    The handlers of a node look up its statements in [node_opt]. *)
Definition statements (s : node_state) : res unit := match opt s with Statements _ => Ok tt | _ => Fault Undefined end.
Definition sockets (s : node_state) : res txnode_ext := match opt s with Sockets t => Ok t | _ => Fault Undefined end.
Definition with_node (k : nat) (f : ctx D -> res (Z * ctx D)) p : res (Z * process D) :=
  n ← deref (nodes (inst p) !! k);
  '(rc, c) ← f (mk_ctx D (mem p) n (db p));
  Ok (rc, set_ctx k c p).
Definition echo_node (k : nat) p : res (Z * process D) :=
  n ← deref (nodes (inst p) !! k);
  '(rc, t, c) ← event_gtpc_echo_req malloc now (inst p) (peers_table p) (mk_ctx D (mem p) n (db p));
  Ok (rc, set_peers t (set_ctx k c p)).
(** EVENT_ENTRY: the work of a node. *)
Definition entry (k : nat) (s : node_state) p : res (Z * process D) :=
  if (k =? PGW_NODE_TX)%nat then
    t ← sockets s;
    '(rc, h, x) ← event_tx env (inst p) t (mk_tx (db p) (mem p) ERR (round p) (wire p));
    Ok (rc, set_tx h x p)
  else if (k =? PGW_NODE_GTPU_ECHO_REQ)%nat then with_node k (event_gtpu_echo_req malloc (inst p)) p
  else if (k =? PGW_NODE_GTPC_ECHO_REQ)%nat then echo_node k p
  else if is_create k then statements s;; with_node k (CreateSession.event_gtpc_create_session_req malloc erange erange' (inst p)) p
  else if (k =? PGW_NODE_GTPC_MODIFY_BEARER_REQ)%nat then statements s;; with_node k (ModifyBearer.event_gtpc_modify_bearer_req malloc) p
  else if (k =? PGW_NODE_GTPC_OTHER_REQ)%nat then statements s;; with_node k (event_gtpc_other_req malloc erange event_gtpc_v1_any_req) p
  else if (k =? PGW_NODE_GTPU_OTHER_REQ)%nat then statements s;; with_node k (event_gtpu_other_req malloc (inst p)) p
  else if (k =? PGW_NODE_TIMER)%nat then Ok (ERR, p)
  else Fault RtePanic.
(** A node without work halts a little; after a minute it pings the database. *)
Definition rest (k : nat) (s : node_state) p : process D :=
  let t := u64 (tocounter s + INTERACTIVE_HALT) in
  if (k =? PGW_NODE_TIMER)%nat || negb (INTERACTIVE_TIMEOUT <? t) then set_state k (set_tocounter t s) p
  else set_state k (set_tocounter 0 s) (set_ping (pings p + 1) p).
Definition event_entry (k : nat) (s : node_state) p : res (process D) :=
  '(rc, p) ← entry k s p; Ok (if rc =? OK then p else rest k s p).

(** EVENT_GTPRX: a datagram from [peer] on the socket of a server, whose own address
    [getsockname] answers; [rbuf] is the buffer on the stack. *)
Definition receive (srv : server) (peer rbuf dgram : list Z) p : res (process D) :=
  r ← on_receive srv rbuf dgram;
  match r with
  | None => Ok p
  | Some (b, len) =>
      '(_, h, m) ← event_rx malloc (inst p) b len peer sizeof_sockaddr_in (srv_addr srv) sizeof_sockaddr_in srv (mem p);
      Ok (set_inst h (set_pmem m p))
  end.
(** EVENT_TIMER, on the thread of the main server. *)
Definition timer p : res (process D) :=
  match states p !! PGW_NODE_TIMER, nodes (inst p) !! PGW_NODE_TIMER with
  | Some s, Some n =>
      match opt s with
      | NoOpt => Ok p
      | _ => '(_, t) ← event_timer malloc (inst p) (mk_timer D (mk_ctx D (mem p) n (db p)) (keys p) (gtpc_seq p) (gtpu_seq p));
             Ok (set_timer PGW_NODE_TIMER t p)
      end
  | _, _ => Ok p
  end.

(** ** A run

    What can happen: a datagram arrives, the timer fires, a node begins, works once,
    is told to halt, ends. *)
Inductive event :=
| Datagram (gtpu : bool) (peer rbuf dgram : list Z)
| TimerFires
| Begin (k : nat) (connect : bool) (prepare : stmt -> prepared)
| Work (k : nat)
| Halt (k : nat)
| Finish (k : nat).
Definition server_of (gtpu : bool) (h : handle) : server := if gtpu then server_gtpu h else server_gtpc h.
(** [None]: the thread is elsewhere. *)
Definition exec (e : event) p : option (res (process D)) :=
  match e with
  | Datagram u peer rbuf d => Some (receive (server_of u (inst p)) peer rbuf d p)
  | TimerFires => Some (timer p)
  | Begin k cn pr => s ← states p !! k; match status s with Started => Some (node_begin cn pr k s p) | _ => None end
  | Work k => s ← states p !! k; match status s, halt s with Running, false => Some (event_entry k s p) | _, _ => None end
  | Halt k => s ← states p !! k; Some (Ok (set_state k (set_halt s) p))
  | Finish k => s ← states p !! k; match status s, halt s with Running, true => Some (Ok (event_node_uninit k s p)) | _, _ => None end
  end.
Fixpoint run (es : list event) p : option (res (process D)) :=
  match es with
  | [] => Some (Ok p)
  | e :: es => r ← exec e p; match r with Ok p => run es p | Fault f => Some (Fault f) end
  end.

(** ** Creating the instance: [pgw_create_instance] and [main]

    The command line and the constants of the build; [main] panics when a call fails. *)
Record config := mk_config { c_ipv4 : cstring; c_server_id : cstring; c_ext : Z; c_unit : Z;
  HOST : cstring; USER : cstring; PSWD : cstring; INST : cstring }.
Definition blank_server : server := mk_server (bzero sizeof_sockaddr_in) (-1) 0 [] [].
Definition pgw_create_instance (db0 : D) (s : gtp_memory) : option (process D) :=
  if malloc (mallocs s) then
    Some (mk_process D (mk_handle 0 [] blank_server blank_server 0 0) [] (next_malloc s) db0 [] None [] GTP_ECHO_SEQNUM_MIN GTP_ECHO_SEQNUM_MIN 0 0 [] [] [])
  else None.
Definition set_properties (l : list property) (s : gtp_memory) p : process D :=
  mk_process D (inst p) l s (db p) (states p) (peers_table p) (keys p) (gtpc_seq p) (gtpu_seq p) (pings p) (round p) (wire p) (closed p) (leaked p).
Definition set_property p (x : Z * list Z * Z) : res (process D) :=
  let '(k, v, n) := x in
  '(rc, l, s) ← pgw_set_property malloc (Some (properties p)) k (Some v) n (mem p);
  if negb (rc =? OK) then Fault RtePanic else Ok (set_properties (default [] l) s p).
Definition text_property (k : Z) (t : cstring) : Z * list Z * Z := (k, t ++ [0], zlen t).
Definition settings (f : config) : list (Z * list Z * Z) :=
  [(NODE_CNT, le_store 4 (Z.of_nat PGW_NODE_COUNT), 4); text_property DB_HOST (HOST f); text_property DB_USER (USER f);
   text_property DB_PSWD (PSWD f); text_property DB_INST (INST f); (DB_PORT, le_store 4 3306, 4); (DB_FLAG, le_store 4 0, 4);
   (EXT_SET_NUMBER, [c_ext f], 1); (PGW_UNIT_NUMBER, [c_unit f], 1)].
Definition named_server (f : config) (port : Z) (s : server) : server :=
  mk_server (srv_addr s) (srv_sock s) port (take 63 (c_ipv4 f)) (take 31 (c_server_id f)).
Definition main_setup (f : config) (db0 : D) : res (process D) :=
  match pgw_create_instance db0 memory0 with
  | None => Fault RtePanic
  | Some p =>
      p ← foldM set_property (settings f) p;
      let h := inst p in
      Ok (set_inst (mk_handle (flags h) (nodes h) (named_server f GTPC_PORT (server_gtpc h)) (named_server f GTPU1_PORT (server_gtpu h))
            (c_ext f) (c_unit f)) p)
  end.

(** [pgw_release_instance] closes both servers. *)
Definition pgw_release_instance p : list Z := closed p ++ [srv_sock (server_gtpc (inst p)); srv_sock (server_gtpu (inst p))].
End process.

(** ** Proofs *)
Section proofs.
Context `{B : CtrlBuild} `{PB : PgwBuild} {D : Type} `{DB : Database D}.
Variable malloc : nat -> bool.
Hypothesis Hm : forall n, malloc n = true.
Variable env : nat -> send_round.
Variables (erange erange' : bool) (now : Z).
Variable v1 : packet_t -> ctx D -> res (Z * ctx D).
Implicit Types (p : process D).

(** An event that happens is the first of a run. *)
Lemma run_cons e es p p1 : exec malloc env erange erange' now v1 e p = Some (Ok p1) ->
  run malloc env erange erange' now v1 (e :: es) p = run malloc env erange erange' now v1 es p1.
Proof. intros E. cbn [run]. by rewrite E. Qed.

(** *** One packet on a quiet node *)
Definition quiet_node (n : node) : Prop := forall o, q_packets (queue_of o n) = [] /\ q_count (queue_of o n) = 0.

(** *** Where the egress burst of a single packet goes *)
Lemma single_burst tnep (h : handle) idx (l : list node) k (resp : packet_t) :
  NoDup idx -> k ∈ idx ->
  (forall j n, l !! j = Some n -> q_packets (egress n) = if decide (j = k) then [resp] else []) -> is_Some (l !! k) ->
  all_sends h tnep (bursts idx l) = sends h tnep (bool_decide (k = PGW_NODE_TIMER)) [resp] /\
  concat (bursts idx l).*2 = [resp].
Proof.
  intros Hnd Hk Hl [nk Ek]. unfold all_sends, bursts.
  assert (Hnone : forall js, k ∉ js -> ((fun j => (j, default [] (burst <$> l !! j))) <$> js) ≫= (fun b => sends h tnep (bool_decide (b.1 = PGW_NODE_TIMER)) b.2) = []
      /\ concat (((fun j => (j, default [] (burst <$> l !! j))) <$> js).*2) = []).
  { induction js as [|j js IH]; [done|]. rewrite not_elem_of_cons. intros [Hj Hjs]. destruct (IH Hjs) as [I1 I2].
    rewrite !fmap_cons, bind_cons. cbn [fst snd concat]. rewrite I1, I2.
    assert (Ej : default [] (burst <$> l !! j) = []).
    { destruct (l !! j) as [n|] eqn:En; [|done]. cbn. unfold burst. rewrite (Hl _ _ En), decide_False by done. done. }
    by rewrite Ej. }
  induction Hnd as [|j js Hj Hnd IH]; [by apply not_elem_of_nil in Hk|].
  rewrite !fmap_cons, bind_cons. cbn [fst snd concat].
  destruct (decide (j = k)) as [->|Hne].
  - destruct (Hnone js Hj) as [-> ->]. rewrite Ek. cbn [fmap option_fmap option_map default]. unfold burst.
    rewrite (Hl _ _ Ek), decide_True by done. cbn [take from_option Datatypes.id]. by rewrite !app_nil_r.
  - apply elem_of_cons in Hk as [->|Hk]; [done|]. destruct (IH Hk) as [I1 I2]. rewrite I1, I2.
    assert (Ej : default [] (burst <$> l !! j) = []).
    { destruct (l !! j) as [n|] eqn:En; [|done]. cbn. unfold burst. rewrite (Hl _ _ En), decide_False by done. done. }
    by rewrite Ej.
Qed.

(** *** Receiving *)
Lemma event_rx_slice h b len sa sl ca cl srv s : 0 <= len <= zlen b ->
  event_rx malloc h b len sa sl ca cl srv s = event_rx malloc h (slice 0 len b) len sa sl ca cl srv s.
Proof.
  intros Hl. assert (E : rd_bytes len b 0 = rd_bytes len (slice 0 len b) 0).
  { rewrite !rd_bytes_ok by (rewrite ?zlen_slice by lia; lia). f_equal.
    rewrite <-(zlen_slice 0 len b) at 2 by lia. by rewrite slice_0_all. }
  unfold event_rx. case_if; [|done]. destruct (pgw_alloc_packet malloc len s) as [[rc [pkt|]] s']; [|done]. by rewrite E.
Qed.

Lemma receive_routed srv peer rbuf d p k :
  zlen rbuf = PCKTLEN_UDP -> bytes_ok d -> zlen peer = 16 -> zlen (srv_addr srv) = 16 -> acceptable (srv_port srv) d ->
  Z.land (flags (inst p)) ON = ON -> length (nodes (inst p)) = PGW_NODE_COUNT ->
  let len := message_length (srv_port srv) d in
  12 <= len -> rx_route (srv_port srv) (slice 0 len d) = Ok (Some k) ->
  receive malloc srv peer rbuf d p =
    Ok (set_inst (queued (inst p) k (mk_packet_t len (slice 0 len d) peer 16 (srv_addr srv) 16))
         (set_pmem (count_pgw 1 0 0 (next_malloc (mem p))) p)).
Proof.
  intros Hr Hd Hpe Hsa Hacc Hf Hn len Hlen Hrt. unfold receive.
  destruct (on_receive_spec srv rbuf d Hr Hd) as (r & -> & H). res_simpl. destruct r as [[b n]|]; [|done].
  destruct H as (_ & -> & Lb & Es). fold len in Es |- *.
  assert (Hfit : len <= 2048).
  { destruct Hacc as (_ & [_ Hb] & _). unfold ETHER_MAX_LEN in Hb. unfold len, message_length, sizeof_gtpc_header in *. repeat case_if; lia. }
  unfold PCKTLEN_UDP in Lb.
  assert (Hld : len <= zlen d) by (destruct Hacc as (_ & _ & H & _); exact H).
  rewrite event_rx_slice by lia. rewrite Es.
  destruct (event_rx_eq malloc (inst p) (slice 0 len d) len peer sizeof_sockaddr_in (srv_addr srv) sizeof_sockaddr_in srv (mem p))
    as (k' & Ek & ->); [done|done|done|rewrite zlen_slice by lia; lia|by apply Forall_slice|done|done|].
  assert (E2 : slice 0 len (slice 0 len d) = slice 0 len d).
  { rewrite <-(zlen_slice 0 len d) at 1 by lia. by rewrite slice_0_all. }
  rewrite E2 in Ek |- *. rewrite Hrt in Ek. injection Ek as <-. res_simpl. done.
Qed.

(** *** The work of a request node that has one request *)
Lemma work_one k on p n pkt rc c' :
  nodes (inst p) !! k = Some n -> q_packets (ingress n) = [pkt] ->
  on pkt (mk_ctx D (mem p) (pgw_deq_burst INGRESS 32 n).2 (db p)) = Ok (rc, c') ->
  with_node k (request_burst on) p = Ok (OK, set_ctx k (set_mem (pgw_free_packet (Some pkt) (c_mem c')).2 c') p).
Proof.
  intros En Eq Eon. unfold with_node. rewrite En. res_simpl. unfold request_burst. cbn [c_node].
  assert (Ed : pgw_deq_burst INGRESS 32 n = ([pkt], (pgw_deq_burst INGRESS 32 n).2)).
  { unfold pgw_deq_burst, deq_queue. cbn [queue_of]. rewrite deq_loop_eq by lia. change (Z.to_nat (32 - 0)) with 32%nat. by rewrite Eq. }
  rewrite Ed. change (0 <? zlen [pkt]) with true. cbn match. cbn [foldM]. unfold set_node. cbn [c_mem c_node c_db]. rewrite Eon. res_simpl. done.
Qed.

(** *** The transmit node *)
(** A packet with a known source leaves the database alone. *)
Definition known (h : handle) (t : txnode_ext) (timer : bool) (pkt : packet_t) : Prop := is_Some (source_sock h t timer pkt).
Lemma tx_one_db h t tm (x x' : tx_state (D := D)) pkt :
  sockets_ready env -> sendable pkt -> sock_gtpc t <> -1 -> sock_gtpu t <> -1 -> known h t tm pkt ->
  tx_one env h t tm x pkt = Ok x' -> tx_db x' = tx_db x.
Proof.
  intros Hr [Hl Hd] Hc Hu [sk Hk] E. revert Hk E. unfold known, source_sock, tx_one, tx_send.
  replace (take (Z.to_nat (datalen pkt)) (data pkt)) with (data pkt) by (rewrite take_ge; [done|lia]).
  unfold pgw_send, pgw_send_sock, is_server. destruct tm.
  - case_bool_decide; [|case_bool_decide]; intros [= <-]; rewrite (proj2 (Z.eqb_neq _ _)) by done; cbn [negb]; rewrite send_ready by done; res_simpl; by intros [= <-].
  - destruct (_ && _); [|destruct (_ && _)]; intros [= <-]; rewrite send_ready by done; res_simpl; by intros [= <-].
Qed.
Lemma tx_burst_db h t tm pkts (x x' : tx_state (D := D)) :
  sockets_ready env -> Forall sendable pkts -> sock_gtpc t <> -1 -> sock_gtpu t <> -1 -> Forall (known h t tm) pkts ->
  foldM (tx_one env h t tm) pkts x = Ok x' -> tx_db x' = tx_db x.
Proof.
  intros Hr Hs Hc Hu Hk. revert x. induction Hk as [|pkt pkts Hp _ IH]; intros x; cbn [foldM]; [by intros [= <-]|].
  apply Forall_cons in Hs as [Hs0 Hs]. destruct (tx_one env h t tm x pkt) as [x1|] eqn:E1; res_simpl; [|done].
  intros E. rewrite (IH Hs _ E). by eapply tx_one_db.
Qed.
Lemma tx_nodes_db t idx h sent x h' sent' x' :
  sockets_ready env -> sock_gtpc t <> -1 -> sock_gtpu t <> -1 -> NoDup idx ->
  (forall j n, nodes h !! j = Some n -> Forall (fun pkt => sendable pkt /\ known h t (bool_decide (j = PGW_NODE_TIMER)) pkt) (q_packets (egress n))) ->
  foldM (tx_node env t) idx (h, sent, x) = Ok (h', sent', x') -> tx_db x' = tx_db x.
Proof.
  intros Hr Hc Hu Hnd. revert h sent x. induction Hnd as [|k idx _ _ IH]; intros h sent x Hq; cbn [foldM]; [by intros [= _ _ <-]|].
  destruct (nodes h !! k) as [n|] eqn:En; [|unfold tx_node; rewrite En; done]. rewrite (tx_node_eq _ _ _ _ _ _ n) by done.
  assert (Hb : Forall (fun pkt => sendable pkt /\ known h t (bool_decide (k = PGW_NODE_TIMER)) pkt) (burst n)) by (apply Forall_take; by eapply Hq).
  apply Forall_and in Hb as [Hb1 Hb2].
  set (h1 := set_nodes (alter drain k (nodes h)) h).
  destruct (foldM (tx_one env h1 t (bool_decide (k = PGW_NODE_TIMER))) (burst n) x) as [x1|] eqn:E1; res_simpl; [|done].
  intros E. rewrite (IH h1 (sent + zlen (burst n)) x1); [|clear E|exact E].
  - by eapply tx_burst_db.
  - intros j m Hj. unfold h1 in Hj. cbn [nodes set_nodes] in Hj. destruct (decide (j = k)) as [->|Hne].
    + rewrite list_lookup_alter_eq, En in Hj. injection Hj as <-. rewrite egress_drain. apply Forall_drop. by apply (Hq k n).
    + rewrite list_lookup_alter_ne in Hj by done. by apply (Hq j m).
Qed.
Lemma ingress_drain n : ingress (drain n) = ingress n.
Proof. unfold drain, pgw_deq_burst, deq_queue. cbn [queue_of]. by rewrite deq_loop_eq by lia. Qed.
Lemma transmit_one s t p k resp :
  sockets_ready env -> sock_gtpc t <> -1 -> sock_gtpu t <> -1 -> opt s = Sockets t ->
  length (nodes (inst p)) = PGW_NODE_COUNT -> (k < PGW_NODE_TX)%nat -> k <> PGW_NODE_TIMER ->
  (forall j n, nodes (inst p) !! j = Some n -> q_packets (egress n) = if decide (j = k) then [resp] else []) -> sendable resp ->
  known (inst p) t false resp ->
  exists p', event_entry malloc env erange erange' now v1 PGW_NODE_TX s p = Ok p' /\
    wire p' = wire p ++ sends (inst p) t false [resp] /\ mem p' = count_pgw 0 1 0 (mem p) /\ db p' = db p /\
    (forall j n, (j < PGW_NODE_TX)%nat -> nodes (inst p') !! j = Some n ->
       q_packets (egress n) = [] /\ exists m, nodes (inst p) !! j = Some m /\ ingress n = ingress m).
Proof.
  intros Hr Hc Hu Eo Hn Hk Hkt Hq Hs Hkn. unfold event_entry, entry. rewrite Nat.eqb_refl. unfold sockets. rewrite Eo. res_simpl.
  assert (Hnd : NoDup tx_index) by apply NoDup_seq.
  assert (Hin : k ∈ tx_index) by (unfold tx_index; rewrite elem_of_seq; lia).
  destruct (lookup_lt_is_Some_2 (nodes (inst p)) k) as [n En]; [rewrite Hn; unfold PGW_NODE_COUNT; lia|].
  unfold event_tx. cbn [tx_db tx_mem tx_round tx_wire].
  destruct (tx_nodes_ready env t tx_index (inst p) 0 (mk_tx (db p) (mem p) ERR (round p) (wire p))) as (x & E & W & M); [done..| | |].
  { intros j Hj. unfold tx_index in Hj. rewrite elem_of_seq in Hj. rewrite Hn. unfold PGW_NODE_COUNT. lia. }
  { rewrite Forall_lookup. intros j m Hj. rewrite (Hq _ _ Hj). case_decide; [by constructor|constructor]. }
  destruct (single_burst t (inst p) tx_index (nodes (inst p)) k resp Hnd Hin Hq ltac:(by eexists)) as [E1 E2].
  assert (Edb : tx_db x = db p).
  { apply (tx_nodes_db t tx_index _ _ _ _ _ _ Hr Hc Hu Hnd) in E; [exact E|]. intros j m Hj. rewrite (Hq _ _ Hj).
    destruct (decide (j = k)) as [->|]; [|constructor]. constructor; [|constructor]. by rewrite bool_decide_false. }
  rewrite E. res_simpl. rewrite E2. change (0 <? 0 + zlen [resp]) with true. cbn match. change (OK =? OK) with true. cbn match.
  eexists. split; [done|]. cbn [set_tx Datatypes.id wire mem inst db]. rewrite W, M, E1, E2. rewrite bool_decide_false by done.
  cbn [tx_wire tx_mem length frees]. split; [done|]. split; [done|]. split; [exact Edb|].
  intros j m Hj Em. cbn [nodes set_nodes] in Em. rewrite drain_nodes_lookup in Em by done.
  destruct (nodes (inst p) !! j) as [n0|] eqn:E0; [|done]. injection Em as <-. rewrite decide_True by (unfold tx_index; rewrite elem_of_seq; lia).
  split; [|exists n0; split; [done|apply ingress_drain]]. rewrite egress_drain, (Hq _ _ E0). by destruct (decide (j = k)).
Qed.
End proofs.

(** ** From the socket to the wire *)
Section way.
Context `{B : CtrlBuild} `{PB : PgwBuild} {D : Type} `{DB : Database D}.
Variable malloc : nat -> bool.
Hypothesis Hm : forall n, malloc n = true.
Variable env : nat -> send_round.
Variables (erange erange' : bool) (now : Z).
Variable v1 : packet_t -> ctx D -> res (Z * ctx D).
Implicit Types (p : process D).

(** A process between two requests: everything is started, node [k] and the transmit
    node run, the sockets are open, the queues are empty. *)
Record idle (k : nat) (t : txnode_ext) (l : list stmt) p : Prop := {
  id_on : Z.land (flags (inst p)) ON = ON;
  id_nodes : length (nodes (inst p)) = PGW_NODE_COUNT;
  id_quiet : Forall quiet_node (nodes (inst p));
  id_node : exists to, states p !! k = Some (mk_ns (Statements l) to false Running);
  id_tx : exists to, states p !! PGW_NODE_TX = Some (mk_ns (Sockets t) to false Running);
  id_socks : sock_gtpc t <> -1 /\ sock_gtpu t <> -1;
  id_port : srv_port (server_gtpc (inst p)) = GTPC_PORT;
  id_addr : zlen (srv_addr (server_gtpc (inst p))) = 16;
}.
(** The context in which node [k] takes a request that has just arrived. *)
Definition at_work (k : nat) (pkt : packet_t) p : ctx D :=
  mk_ctx D (count_pgw 1 0 0 (next_malloc (mem p)))
    (pgw_deq_burst INGRESS 32 (mk_node (enq_queue pkt (ingress (nth k (nodes (inst p)) node0))) (egress (nth k (nodes (inst p)) node0)))).2 (db p).

Lemma is_create_below k : is_create k = true -> (k < PGW_NODE_TX)%nat /\ k <> PGW_NODE_TIMER /\ k <> PGW_NODE_GTPU_ECHO_REQ /\ k <> PGW_NODE_GTPC_ECHO_REQ.
Proof.
  unfold is_create, PGW_NODE_TX, PGW_NODE_GTPU_OTHER_REQ, PGW_NODE_GTPC_OTHER_REQ, PGW_NODE_GTPC_MODIFY_BEARER_REQ, PGW_NODE_TIMER,
    PGW_NODE_GTPU_ECHO_REQ, PGW_NODE_GTPC_ECHO_REQ, PGW_NODE_GTPC_CREATE_SESSION_REQ.
  intros [H1%Nat.leb_le H2%Nat.ltb_lt]%andb_prop. unfold PGW_NODE_GTPC_CREATE_SESSION_REQ_MAX in *. lia.
Qed.

(** The node after it has taken the request and put its answer. *)
Lemma node_after k n pkt resp : quiet_node n ->
  let n1 := mk_node (enq_queue pkt (ingress n)) (egress n) in
  let n2 := (pgw_enq EGRESS resp (pgw_deq_burst INGRESS 32 n1).2).2 in
  q_packets (ingress n1) = [pkt] /\ q_packets (egress n2) = [resp] /\ q_packets (ingress n2) = [] /\
  forall p, nodes (inst p) !! k = Some n ->
    at_work k pkt p = mk_ctx D (count_pgw 1 0 0 (next_malloc (mem p))) (pgw_deq_burst INGRESS 32 n1).2 (db p).
Proof.
  intros Hq n1 n2. destruct (Hq INGRESS) as [E1 E2]. destruct (Hq EGRESS) as [F1 F2]. cbn [queue_of] in *.
  assert (Eq1 : q_packets (ingress n1) = [pkt]) by (unfold n1, enq_queue; cbn [ingress]; rewrite E2; cbn [q_packets]; by rewrite E1).
  split; [done|]. split; [|split].
  - unfold n2, pgw_enq, pgw_deq_burst, deq_queue. cbn [queue_of]. rewrite deq_loop_eq by lia. cbn [set_queue egress ingress snd q_packets].
    unfold enq_queue. cbn [n1 egress]. rewrite F2. cbn [q_packets]. by rewrite F1.
  - unfold n2, pgw_enq, pgw_deq_burst, deq_queue. cbn [queue_of]. rewrite deq_loop_eq by lia. cbn [set_queue egress ingress snd q_packets].
    by rewrite Eq1.
  - intros p En. unfold at_work. by rewrite (nth_lookup_Some _ _ _ _ En).
Qed.

(** What a request handler answers to the one request of an idle process is sent. *)
Lemma answer_reaches_wire (on : handle -> packet_t -> ctx D -> res (Z * ctx D)) p k t l peer rbuf d rc c' resp :
  let srv := server_gtpc (inst p) in
  let len := message_length GTPC_PORT d in
  let pkt := mk_packet_t len (slice 0 len d) peer 16 (srv_addr srv) 16 in
  sockets_ready env -> idle k t l p -> zlen rbuf = PCKTLEN_UDP -> bytes_ok d -> zlen peer = 16 -> acceptable GTPC_PORT d -> 12 <= len ->
  (k < PGW_NODE_TX)%nat -> k <> PGW_NODE_TIMER -> rx_route GTPC_PORT (slice 0 len d) = Ok (Some k) ->
  (forall s p, opt s = Statements l -> entry malloc env erange erange' now v1 k s p = with_node k (request_burst (on (inst p))) p) ->
  on (queued (inst p) k pkt) pkt (at_work k pkt p) = Ok (rc, c') ->
  c_node c' = (pgw_enq EGRESS resp (c_node (at_work k pkt p))).2 -> used (c_mem (at_work k pkt p)) (c_mem c') 1 ->
  sendable resp -> p_saddr resp = srv_addr srv ->
  exists p', run malloc env erange erange' now v1 [Datagram false peer rbuf d; Work k; Work PGW_NODE_TX] p = Some (Ok p') /\
    wire p' = wire p ++ [(srv_sock srv, p_caddr resp, data resp)] /\ db p' = c_db c' /\ outstanding (mem p') = outstanding (mem p) /\
    forall j n, (j < PGW_NODE_TX)%nat -> nodes (inst p') !! j = Some n -> q_packets (egress n) = [] /\ q_packets (ingress n) = [].
Proof.
  intros srv len pkt Hr [Hon Hn Hq (to & Est) (to' & Etx) [Hsc Hsu] Hport Haddr] Hrb Hd Hpe Hacc H12 Hlt Hnt Hrt Hentry Eon Henq Hused Hsend Hsrc.
  pose proof (proj1 (Forall_lookup _ _) Hq) as Hqn.
  destruct (lookup_lt_is_Some_2 (nodes (inst p)) k) as [n En]; [rewrite Hn; unfold PGW_NODE_COUNT; lia|].
  destruct (node_after k n pkt resp (Hqn _ _ En)) as (Eq1 & Ee & Ei & Ewk). specialize (Ewk p En). rewrite Ewk in Henq, Eon, Hused. cbn [c_node c_mem] in Henq, Hused.
  set (p1 := set_inst (queued (inst p) k pkt) (set_pmem (count_pgw 1 0 0 (next_malloc (mem p))) p)).
  rewrite (run_cons malloc env erange erange' now v1 _ _ p p1);
    [|pose proof (receive_routed malloc Hm srv peer rbuf d p k) as HR; fold srv in Hport; rewrite Hport in HR; cbn [exec server_of]; fold srv; by rewrite HR].
  set (p2 := set_ctx k (set_mem (pgw_free_packet (Some pkt) (c_mem c')).2 c') p1).
  rewrite (run_cons malloc env erange erange' now v1 _ _ p1 p2).
  2: { cbn [exec]. change (states p1) with (states p). rewrite Est. cbn [mbind option_bind status halt]. unfold event_entry. rewrite Hentry by done.
    erewrite work_one; [done| |exact Eq1|exact Eon]. cbn [inst p1 set_inst set_pmem queued nodes set_nodes]. by rewrite list_lookup_alter_eq, En. }
  assert (En2 : nodes (inst p2) = <[k := c_node c']> (alter (fun n => mk_node (enq_queue pkt (ingress n)) (egress n)) k (nodes (inst p)))) by done.
  assert (Hl2 : forall j m, nodes (inst p2) !! j = Some m -> j = k /\ m = c_node c' \/ j <> k /\ nodes (inst p) !! j = Some m).
  { intros j m Hj. rewrite En2 in Hj. destruct (decide (j = k)) as [->|Hne].
    - rewrite list_lookup_insert_eq in Hj by (rewrite length_alter; by eapply lookup_lt_Some). left. by injection Hj as <-.
    - rewrite list_lookup_insert_ne, list_lookup_alter_ne in Hj by done. by right. }
  assert (Esrv : is_server (p_saddr resp) (server_gtpc (inst p2)) = true).
  { unfold is_server. rewrite Hsrc. change (server_gtpc (inst p2)) with srv. by rewrite !bool_decide_true by done. }
  rewrite <-Henq in Ee, Ei.
  destruct (transmit_one malloc env erange erange' now v1 (mk_ns (Sockets t) to' false Running) t p2 k resp) as (p3 & E3 & W3 & M3 & D3 & Q3); [done|done|done|done| |done|done| |done| |].
  - by rewrite En2, length_insert, length_alter.
  - intros j m Hj. destruct (Hl2 j m Hj) as [[-> ->]|[Hne Hj']]; [by rewrite decide_True by done|].
    rewrite decide_False by done. apply (Hqn _ _ Hj' EGRESS).
  - unfold known, source_sock. rewrite Esrv. by eexists.
  - exists p3. cbn [run exec]. change (states p2) with (states p). rewrite Etx. cbn [mbind option_bind status halt]. rewrite E3.
    split; [done|]. split; [|split; [by rewrite D3|split]].
    + rewrite W3. change (wire p2) with (wire p). unfold sends, source_sock. cbn [mbind list_bind app]. by rewrite Esrv.
    + assert (U : used (mem p) (mem p3) (1 + 1 + -1 + -1)).
      { eapply used_trans; [eapply used_trans; [eapply used_trans; [apply used_alloc|exact Hused]|apply used_free]|]. rewrite M3. apply used_free. }
      unfold used in U. rewrite U. unfold outstanding. cbn [fst snd]. f_equal. rewrite Z.add_0_r. unfold wrap. by rewrite Zmod_mod.
    + intros j m Hj Em. destruct (Q3 j m Hj Em) as (Q1 & m0 & Em0 & Eim). split; [done|]. rewrite Eim.
      destruct (Hl2 j m0 Em0) as [[-> ->]|[Hne Hj']]; [done|]. apply (Hqn _ _ Hj' INGRESS).
Qed.
End way.

(** ** Starting *)
Section boot.
Context `{B : CtrlBuild} `{PB : PgwBuild} {D : Type} `{DB : Database D}.
Variable malloc : nat -> bool.
Hypothesis Hm : forall n, malloc n = true.
Variable env : nat -> send_round.
Variables (erange erange' : bool) (now : Z).
Variable v1 : packet_t -> ctx D -> res (Z * ctx D).
Implicit Types (p : process D).

(** What a node has when it runs. *)
Definition opt_of (h : handle) (k : nat) : node_opt :=
  if (k =? PGW_NODE_TX)%nat then Sockets (mk_txnode (srv_sock (server_gtpc h)) (srv_sock (server_gtpu h)))
  else match stmts_of k with [] => NoOpt | l => Statements l end.
Definition running (h : handle) (k : nat) : node_state := mk_ns (opt_of h k) 0 false Running.

(** What stays the same while nodes begin. *)
Record same_process p p' : Prop := {
  sp_inst : inst p' = inst p;
  sp_props : properties p' = properties p;
  sp_db : db p' = db p;
  sp_wire : wire p' = wire p;
}.
Lemma same_process_trans p p' p'' : same_process p p' -> same_process p' p'' -> same_process p p''.
Proof. intros [A1 A2 A3 A4] [B1 B2 B3 B4]. split; congruence. Qed.

Lemma stmts_of_echo : stmts_of PGW_NODE_GTPC_ECHO_REQ = [].
Proof.
  unfold stmts_of, is_create, PGW_NODE_GTPU_OTHER_REQ, PGW_NODE_GTPC_OTHER_REQ, PGW_NODE_GTPC_MODIFY_BEARER_REQ, PGW_NODE_GTPC_CREATE_SESSION_REQ_MAX.
  by destruct SINGLE_CREATE_SESSION.
Qed.

Definition connected p : Prop := forall i, i ∈ DB_PROPERTIES -> is_Some (pgw_get_property (properties p) i).
Lemma begin_one k p pr :
  connected p -> 0 <= srv_sock (server_gtpc (inst p)) -> 0 <= srv_sock (server_gtpu (inst p)) -> (forall st, prepares (pr st) = true) ->
  states p !! k = Some ns0 ->
  exists p', exec malloc env erange erange' now v1 (Begin k true pr) p = Some (Ok p') /\ same_process p p' /\
    states p' = <[k := running (inst p) k]> (states p).
Proof.
  intros Hc Hsc Hsu Hp Es. cbn [exec]. rewrite Es. cbn [mbind option_bind status ns0]. unfold node_begin.
  assert (Ex : existsb (fun i => negb (bool_decide (is_Some (pgw_get_property (properties p) i)))) DB_PROPERTIES = false).
  { apply not_true_iff_false. rewrite existsb_exists. intros (i & Hi & E). apply list_elem_of_In in Hi. by rewrite bool_decide_true in E by (by apply Hc). }
  rewrite Ex. cbn [negb]. unfold event_node_init, running, opt_of.
  destruct (k =? PGW_NODE_TX)%nat eqn:Et.
  { rewrite Hm. cbn [negb]. rewrite !(proj2 (Z.ltb_ge _ _)) by done. cbn [orb]. eexists. split; [done|]. split; [by split|done]. }
  destruct (k =? PGW_NODE_GTPC_ECHO_REQ)%nat eqn:Ee.
  { apply Nat.eqb_eq in Ee as ->. rewrite stmts_of_echo. unfold pgw_create_sgw_peers. rewrite Hm. change (negb (OK =? OK)) with false. cbn match. eexists. split; [done|]. split; [by split|done]. }
  destruct (stmts_of k) as [|st l] eqn:El; [eexists; split; [done|]; split; [by split|done]|]. rewrite Hm. cbn [negb].
  assert (Ef : forallb (fun st => prepares (pr st)) (st :: l) = true) by (apply forallb_forall; intros; apply Hp).
  rewrite Ef. eexists. split; [done|]. split; [by split|done].
Qed.

Lemma begin_all (order : list nat) p pr :
  NoDup order -> connected p -> 0 <= srv_sock (server_gtpc (inst p)) -> 0 <= srv_sock (server_gtpu (inst p)) -> (forall k st, prepares (pr k st) = true) ->
  (forall k, k ∈ order -> states p !! k = Some ns0) ->
  exists p', run malloc env erange erange' now v1 ((fun k => Begin k true (pr k)) <$> order) p = Some (Ok p') /\ same_process p p' /\
    forall k, states p' !! k = if decide (k ∈ order) then Some (running (inst p) k) else states p !! k.
Proof.
  intros Hnd. revert p. induction Hnd as [|k order Hk Hnd IH]; intros p Hc Hsc Hsu Hp Hs.
  { exists p. split; [done|]. split; [done|]. intros k. rewrite decide_False by apply not_elem_of_nil. done. }
  destruct (begin_one k p (pr k) Hc Hsc Hsu (Hp k)) as (p1 & E1 & S1 & T1); [apply Hs; by left|].
  pose proof S1 as [I1 P1 _ _]. destruct (IH p1) as (p' & E & S & T).
  - intros i Hi. rewrite P1. by apply Hc.
  - by rewrite I1.
  - by rewrite I1.
  - done.
  - intros j Hj. rewrite T1. rewrite list_lookup_insert_ne; [apply Hs; by right|]. intros ->. done.
  - exists p'. rewrite fmap_cons, (run_cons malloc env erange erange' now v1 _ _ p p1 E1). split; [done|]. split; [by eapply same_process_trans|].
    intros j. rewrite T, T1, I1. destruct (decide (j = k)) as [->|Hne].
    + rewrite decide_False by done. rewrite decide_True by (by left). apply list_lookup_insert_eq. eapply lookup_lt_Some. apply Hs. by left.
    + rewrite list_lookup_insert_ne by done. case_decide as Hj.
      * rewrite decide_True by (by right). done.
      * rewrite decide_False; [done|]. rewrite not_elem_of_cons. done.
Qed.
(** *** The settings of [main] *)
Lemma set_property_ok k v n p : NoDup (id <$> properties p) -> 0 < n <= zlen v ->
  exists p', set_property malloc p (k, v, n) = Ok p' /\ NoDup (id <$> properties p') /\
    inst p' = inst p /\ db p' = db p /\ wire p' = wire p /\ states p' = states p /\
    pgw_get_property (properties p') k = Some (slice 0 n v ++ [0], n) /\
    forall j, j <> k -> pgw_get_property (properties p') j = pgw_get_property (properties p) j.
Proof.
  intros Hnd Hn. destruct (CtrlNode.Properties.property_roundtrip malloc (properties p) k n v (mem p) Hm Hnd Hn) as (l' & s' & E & N & G & O).
  unfold set_property. rewrite E. res_simpl. eexists. by split_and!.
Qed.
Lemma settings_ok l p : NoDup (id <$> properties p) -> NoDup (l.*1.*1) -> Forall (fun x : Z * list Z * Z => 0 < x.2 <= zlen x.1.2) l ->
  exists p', foldM (set_property malloc) l p = Ok p' /\ inst p' = inst p /\ db p' = db p /\ wire p' = wire p /\ states p' = states p /\
    (forall x, x ∈ l -> pgw_get_property (properties p') x.1.1 = Some (slice 0 x.2 x.1.2 ++ [0], x.2)) /\
    forall j, j ∉ l.*1.*1 -> pgw_get_property (properties p') j = pgw_get_property (properties p) j.
Proof.
  intros Hnd Hl Hv. revert p Hnd. induction Hv as [|[[k v] n] l Hx _ IH]; intros p Hnd.
  { exists p. split_and!; try done. by intros x Hx%elem_of_nil. }
  rewrite !fmap_cons in Hl. apply NoDup_cons in Hl as [Hk Hl]. cbn [fst snd] in *.
  destruct (set_property_ok k v n p Hnd Hx) as (p1 & E1 & N1 & I1 & D1 & W1 & T1 & G1 & O1).
  destruct (IH Hl p1 N1) as (p' & E & I & Dd & W & T & G & O). exists p'. cbn [foldM]. rewrite E1. res_simpl.
  split; [done|]. do 4 (split; [congruence|]). split.
  - intros x [->|Hx']%elem_of_cons; [|by apply G]. cbn [fst snd]. by rewrite O.
  - intros j. rewrite !fmap_cons, not_elem_of_cons. cbn [fst snd]. intros [Hj1 Hj2]. rewrite O by done. by apply O1.
Qed.

(** *** The servers and the nodes *)
Definition brought_up (u : bring_up) : Prop := 0 <= su_socket u /\ su_nonblock u = true /\ su_bind u = true /\ su_thread u = true.
Lemma start_udp_server_ok u s a : brought_up u -> addr_ok a -> srv_ip s = inet_ntoa a -> 0 <= srv_port s < 2 ^ 16 ->
  start_udp_server u s = (OK, set_server (sockaddr_of a (srv_port s)) (su_socket u) s).
Proof.
  intros (H1 & H2 & H3 & H4) Ha Hi Hp. unfold start_udp_server. rewrite (proj2 (Z.ltb_ge _ _)) by done. rewrite H2, H3, H4. cbn [negb orb].
  by rewrite Hi, sockaddr_eq.
Qed.
Lemma start_nodes_ok th cnt n p : (forall i, th i = true) ->
  exists p', start_nodes malloc th cnt n p = Ok (OK, p') /\ properties p' = properties p /\ db p' = db p /\ wire p' = wire p /\
    states p' = states p ++ replicate cnt ns0 /\
    inst p' = mk_handle (Z.lor (flags (inst p)) ON) (nodes (inst p) ++ replicate cnt node0) (server_gtpc (inst p)) (server_gtpu (inst p))
                (ext_set_num (inst p)) (pgw_unit_num (inst p)).
Proof.
  intros Ht. revert n p. induction cnt as [|cnt IH]; intros n p; cbn [start_nodes replicate].
  { eexists. split; [done|]. rewrite !app_nil_r. by split_and!. }
  rewrite Hm, Ht. cbn [negb]. match goal with |- context [start_nodes malloc th cnt (S n) ?q] => destruct (IH (S n) q) as (p' & -> & P & Dd & W & T & I) end.
  exists p'. split; [done|]. rewrite P, Dd, W, T, I. cbn [set_states set_inst set_pmem properties db wire states inst flags nodes set_nodes server_gtpc server_gtpu ext_set_num pgw_unit_num].
  rewrite <-!app_assoc. by split_and!.
Qed.
Lemma main_setup_ok f a db0 : addr_ok a -> c_ipv4 f = inet_ntoa a -> HOST f <> [] -> USER f <> [] -> PSWD f <> [] -> INST f <> [] ->
  exists p, main_setup malloc f db0 = Ok p /\ db p = db0 /\ wire p = [] /\ states p = [] /\
    (forall x, x ∈ settings f -> pgw_get_property (properties p) x.1.1 = Some (slice 0 x.2 x.1.2 ++ [0], x.2)) /\
    inst p = mk_handle 0 [] (mk_server (bzero sizeof_sockaddr_in) (-1) GTPC_PORT (inet_ntoa a) (take 31 (c_server_id f)))
               (mk_server (bzero sizeof_sockaddr_in) (-1) GTPU1_PORT (inet_ntoa a) (take 31 (c_server_id f))) (c_ext f) (c_unit f).
Proof.
  intros Ha Hip H1 H2 H3 H4. unfold main_setup, pgw_create_instance. rewrite Hm.
  match goal with |- context [foldM _ _ ?q] => destruct (settings_ok (settings f) q) as (p & E & I & Dd & W & T & G & _) end.
  - constructor.
  - unfold settings, text_property. cbn [fmap list_fmap fst snd]. by apply (bool_decide_unpack _).
  - assert (Ht : forall t : cstring, t <> [] -> 0 < zlen t <= zlen (t ++ [0])) by (intros [|c t] Hne; [done|]; rewrite length_app; cbn [length]; lia).
    unfold settings, text_property. repeat (apply Forall_cons; split; [cbn [fst snd]; first [by apply Ht|rewrite length_le_store; lia|cbn [length]; lia]|]). constructor.
  - rewrite E. res_simpl. eexists. split; [done|]. cbn [set_inst db wire states properties inst]. rewrite I, Dd, W, T.
    do 3 (split; [done|]). split; [exact G|]. cbn [inst flags nodes server_gtpc server_gtpu]. unfold named_server.
    rewrite Hip. rewrite (take_ge (inet_ntoa a)) by (destruct (ntoa_text a Ha); lia). done.
Qed.

Lemma node_count_read : rd 4 (slice 0 4 (le_store 4 (Z.of_nat PGW_NODE_COUNT)) ++ [0]) 0 = Ok (Z.of_nat PGW_NODE_COUNT) /\
  (MAX_DSTCNT <? Z.of_nat PGW_NODE_COUNT) = false.
Proof.
  unfold PGW_NODE_COUNT, PGW_NODE_TX, PGW_NODE_GTPU_OTHER_REQ, PGW_NODE_GTPC_OTHER_REQ, PGW_NODE_GTPC_MODIFY_BEARER_REQ,
    PGW_NODE_GTPC_CREATE_SESSION_REQ_MAX. by destruct SINGLE_CREATE_SESSION.
Qed.

Lemma pgw_start_ok a uc uu th p : addr_ok a -> brought_up uc -> brought_up uu -> (forall i, th i = true) ->
  srv_ip (server_gtpc (inst p)) = inet_ntoa a -> srv_ip (server_gtpu (inst p)) = inet_ntoa a ->
  srv_port (server_gtpc (inst p)) = GTPC_PORT -> srv_port (server_gtpu (inst p)) = GTPU1_PORT ->
  pgw_get_property (properties p) NODE_CNT = Some (slice 0 4 (le_store 4 (Z.of_nat PGW_NODE_COUNT)) ++ [0], 4) -> states p = [] -> nodes (inst p) = [] ->
  exists p', pgw_start malloc uc uu th p = Ok (OK, p') /\ properties p' = properties p /\ db p' = db p /\ wire p' = wire p /\
    states p' = replicate PGW_NODE_COUNT ns0 /\
    inst p' = mk_handle ON (replicate PGW_NODE_COUNT node0)
      (set_server (sockaddr_of a GTPC_PORT) (su_socket uc) (server_gtpc (inst p))) (set_server (sockaddr_of a GTPU1_PORT) (su_socket uu) (server_gtpu (inst p)))
      (ext_set_num (inst p)) (pgw_unit_num (inst p)).
Proof.
  intros Ha Huc Huu Ht Hic Hiu Hpc Hpu Hcnt Hs Hn. unfold pgw_start.
  rewrite (start_udp_server_ok uc _ a Huc Ha Hic) by (rewrite Hpc; done). change (negb (OK =? OK)) with false. cbn match.
  cbn [set_inst set_servers inst server_gtpc server_gtpu flags nodes ext_set_num pgw_unit_num].
  rewrite (start_udp_server_ok uu _ a Huu Ha Hiu) by (rewrite Hpu; done). change (negb (OK =? OK)) with false. cbn match.
  unfold node_start_paralell. cbn [set_inst properties]. rewrite Hcnt. destruct node_count_read as [Er El]. rewrite Er. res_simpl. rewrite El, Nat2Z.id.
  match goal with |- context [start_nodes malloc th ?c ?n ?q] => destruct (start_nodes_ok th c n q Ht) as (p' & -> & P & Dd & W & T & I) end.
  res_simpl. change (negb (OK =? OK)) with false. cbn match. exists p'. split; [done|]. rewrite P, Dd, W, T, I.
  cbn [set_inst set_servers properties db wire states inst flags nodes server_gtpc server_gtpu ext_set_num pgw_unit_num]. rewrite Hs, Hn, Hpc, Hpu. done.
Qed.
End boot.

Module Properties.
Section claims.
Context `{B : CtrlBuild} `{PB : PgwBuild} {D : Type} `{DB : Database D}.
Variable malloc : nat -> bool.
Variable env : nat -> send_round.
Implicit Types (p : process D).

(** A packet on a queue does not change what the gateway answers. *)
Lemma create_verdict_queued erange erange' h k pkt cs (db0 : D) :
  create_verdict erange erange' (queued h k pkt) cs db0 = create_verdict erange erange' h cs db0.
Proof. done. Qed.
Lemma accept_reply_queued h k pkt cs : accept_reply (queued h k pkt) cs = accept_reply h cs.
Proof. done. Qed.

(** Every answer of the handler fits a datagram. *)
Lemma answer_sendable erange erange' pinst pkt cs (db0 : D) :
  (forall st k db, db_bind st k db = true) -> session_wf cs ->
  let '(ok, cs', db') := create_verdict erange erange' pinst cs db0 in
  (ok = true -> answerable cs' = true) ->
  sendable (response pkt GTPC_CREATE_SESSION_RES (teid_grekey c_teid cs)
    (if ok then accept_reply pinst cs' else [refused; context_reply [refused; ebi_reply 0]])).
Proof.
  intros Hb Hw. pose proof (create_verdict_wf Hb erange erange' pinst cs db0) as Hv.
  destruct (create_verdict erange erange' pinst cs db0) as [[ok cs'] db']. intros Ha. set (its := if ok then _ else _).
  assert (Hf : zlen (concat its.*2) < 65000).
  { subst its. destruct ok; [|vm_compute; done].
    destruct (create_accept_message pinst cs') as [_ _ _ Hfit]; [by apply (Hv cs' db')|by apply Ha|].
    change (zlen (concat (accept_reply pinst cs').*2)) with (total (accept_reply pinst cs')). unfold ETHER_MAX_LEN in Hfit. lia. }
  assert (L : zlen (reply_bytes GTPC_CREATE_SESSION_RES (teid_grekey c_teid cs) (request_seqno pkt) its) = 12 + zlen (concat its.*2)).
  { unfold reply_bytes, seqno_bytes. cbn [length app]. rewrite !length_app, length_be_store, !length_le_store. lia. }
  split; cbn [datalen data response]; rewrite L; lia.
Qed.

(** C5: the process starts: with memory, a network and a database that work, [main] sets up
    the instance, [pgw_start] brings the two servers up on the configured address and the
    nine (or eight) nodes begin, in whatever order their threads run; then every node has
    the statements or sockets its handlers use, and the process is idle. *)
Theorem process_boots (now : Z) (erange erange' : bool) (v1 : packet_t -> ctx D -> res (Z * ctx D)) (f : config) (a : list Z) (db0 : D)
    (uc uu : bring_up) (th : nat -> bool) (order : list nat) (pr : nat -> stmt -> prepared) :
  (forall n, malloc n = true) -> addr_ok a -> c_ipv4 f = inet_ntoa a -> HOST f <> [] -> USER f <> [] -> PSWD f <> [] -> INST f <> [] ->
  brought_up uc -> brought_up uu -> (forall i, th i = true) -> (forall k st, prepares (pr k st) = true) ->
  order ≡ₚ seq 0 PGW_NODE_COUNT ->
  exists p0 p1 p, main_setup malloc f db0 = Ok p0 /\ pgw_start malloc uc uu th p0 = Ok (OK, p1) /\
    run malloc env erange erange' now v1 ((fun k => Begin k true (pr k)) <$> order) p1 = Some (Ok p) /\
    db p = db0 /\ wire p = [] /\ srv_addr (server_gtpc (inst p)) = sockaddr_of a GTPC_PORT /\ srv_addr (server_gtpu (inst p)) = sockaddr_of a GTPU1_PORT /\
    (forall k, (k < PGW_NODE_COUNT)%nat -> states p !! k = Some (running (inst p) k)) /\
    forall k, is_create k = true -> idle k (mk_txnode (su_socket uc) (su_socket uu)) (stmts_of k) p.
Proof.
  intros Hm Ha Hip H1 H2 H3 H4 Huc Huu Ht Hpr Hord.
  destruct (main_setup_ok malloc Hm f a db0 Ha Hip H1 H2 H3 H4) as (p0 & E0 & D0 & W0 & T0 & G0 & I0).
  destruct (pgw_start_ok malloc Hm a uc uu th p0 Ha Huc Huu Ht) as (p1 & E1 & P1 & D1 & W1 & T1 & I1); try (by rewrite I0); [by apply (G0 (NODE_CNT, _, 4)); left|done|].
  rewrite I0 in I1. cbn [server_gtpc server_gtpu ext_set_num pgw_unit_num set_server srv_port srv_ip server_id] in I1.
  destruct (begin_all malloc Hm env erange erange' now v1 order p1 pr) as (p & E & [I P Dd W] & T).
  - rewrite Hord. apply NoDup_seq.
  - intros i Hi. rewrite P1.
    assert (Hx : exists x, x ∈ settings f /\ x.1.1 = i).
    { assert (Hi' : i ∈ (settings f).*1.*1) by (unfold DB_PROPERTIES in Hi; unfold settings, text_property; cbn [fmap list_fmap fst snd]; revert Hi; rewrite !elem_of_cons; tauto).
      apply list_elem_of_fmap in Hi' as (y & -> & Hy). apply list_elem_of_fmap in Hy as (x & -> & Hx). by exists x. }
    destruct Hx as (x & Hx & <-). rewrite (G0 x Hx). by eexists.
  - rewrite I1. apply Huc.
  - rewrite I1. apply Huu.
  - done.
  - intros k Hk. rewrite Hord, elem_of_seq in Hk. rewrite T1. apply lookup_replicate_2. lia.
  - assert (Hall : forall k, (k < PGW_NODE_COUNT)%nat -> states p !! k = Some (running (inst p) k)).
    { intros k Hk. rewrite T, I. rewrite decide_True; [done|]. rewrite Hord, elem_of_seq. lia. }
    exists p0, p1, p. split; [done|]. split; [done|]. split; [done|]. split; [congruence|]. split; [congruence|].
    rewrite I, I1. split; [done|]. split; [done|]. rewrite <-I1, <-I. split; [done|]. intros k Hk.
    destruct (is_create_below k Hk) as (Hlt & Hnt & Hn0 & Hn1).
    assert (Ek : running (inst p) k = mk_ns (Statements (stmts_of k)) 0 false Running).
    { unfold running, opt_of. rewrite (proj2 (Nat.eqb_neq _ _)) by lia. unfold stmts_of. rewrite Hk. by rewrite (proj2 (Nat.eqb_neq _ _)). }
    assert (Et : running (inst p) PGW_NODE_TX = mk_ns (Sockets (mk_txnode (su_socket uc) (su_socket uu))) 0 false Running).
    { unfold running, opt_of. rewrite Nat.eqb_refl. by rewrite I, I1. }
    split; try (by rewrite I, I1).
    + rewrite I, I1. cbn [nodes]. by rewrite length_replicate.
    + rewrite I, I1. cbn [nodes]. apply Forall_replicate. by intros [].
    + exists 0. rewrite <-Ek. apply Hall. unfold PGW_NODE_COUNT. lia.
    + exists 0. rewrite <-Et. apply Hall. unfold PGW_NODE_COUNT. lia.
    + destruct Huc as [Hs _], Huu as [Hs' _]. cbn [sock_gtpc sock_gtpu]. lia.
    + rewrite I, I1. cbn [server_gtpc srv_addr set_server]. by destruct (sockaddr_fields a GTPC_PORT Ha) as (L & _).
Qed.

(** C1: a Create Session Request on the wire is answered on the wire: from an idle
    process, the datagram arriving on the GTP-C socket, one round of the node it is
    routed to and one round of the transmit node send exactly one datagram: from that
    socket, to the peer, the response the decision asks for, with the sequence number of
    the request; the database is the one the decision leaves, the queues are empty again
    and every packet that was allocated has been released. *)
Theorem request_answered_on_the_wire (erange erange' : bool) (now : Z) (v1 : packet_t -> ctx D -> res (Z * ctx D)) p (k : nat) (t : txnode_ext)
    (l : list stmt) (peer rbuf d : list Z) (pp : gtp_packet) (cs : session) (c1 : ctx D) :
  let srv := server_gtpc (inst p) in
  let len := message_length GTPC_PORT d in
  let pkt := mk_packet_t len (slice 0 len d) peer 16 (srv_addr srv) 16 in
  (forall n, malloc n = true) -> (forall st k db, db_bind st k db = true) -> sockets_ready env -> idle k t l p ->
  zlen rbuf = PCKTLEN_UDP -> bytes_ok d -> zlen peer = 16 -> acceptable GTPC_PORT d -> 12 <= len ->
  rx_route GTPC_PORT (slice 0 len d) = Ok (Some k) -> is_create k = true ->
  read_request malloc false pkt (at_work k pkt p) = Ok (Some (pp, cs), c1) ->
  let '(ok, cs', db') := create_verdict erange erange' (inst p) cs (db p) in
  (ok = true -> answerable cs' = true) ->
  let its := if ok then accept_reply (inst p) cs' else [refused; context_reply [refused; ebi_reply 0]] in
  exists p', run malloc env erange erange' now v1 [Datagram false peer rbuf d; Work k; Work PGW_NODE_TX] p = Some (Ok p') /\
    wire p' = wire p ++ [(srv_sock srv, peer, reply_bytes GTPC_CREATE_SESSION_RES (teid_grekey c_teid cs) (request_seqno pkt) its)] /\
    db p' = db' /\ outstanding (mem p') = outstanding (mem p) /\
    forall j n, (j < PGW_NODE_TX)%nat -> nodes (inst p') !! j = Some n -> q_packets (egress n) = [] /\ q_packets (ingress n) = [].
Proof.
  intros srv len pkt Hm Hb Hr Hi Hrb Hd Hpe Hacc H12 Hrt Hk Er. destruct (is_create_below k Hk) as (Hlt & Hnt & Hn0 & Hn1).
  assert (Hnet : from_network pkt) by (split; [split; [exact Hpe|done]|split; [apply (id_addr _ _ _ _ Hi)|done]|by apply Forall_slice]).
  pose proof (answer_sendable erange erange' (inst p) pkt cs (db p) Hb (ro_wf _ _ _ _ _ _ (read_request_inv _ _ _ _ _ _ _ Hnet Er))) as Hsend.
  pose proof (create_session_ok malloc Hm Hb erange erange' (queued (inst p) k pkt) pkt (at_work k pkt p) pp cs c1 Hnet Er) as H.
  rewrite create_verdict_queued in H. change (c_db (at_work k pkt p)) with (db p) in H.
  destruct (create_verdict erange erange' (inst p) cs (db p)) as [[ok cs'] db']. intros Ha its. rewrite accept_reply_queued in H.
  destruct H as (rc & c' & Ec & <- & H). assert (Hno : ok && negb (answerable cs') = false) by (destruct ok; [by rewrite Ha|done]).
  rewrite Hno in H. destruct H as (-> & Henq & Hout & _).
  apply (answer_reaches_wire malloc Hm env erange erange' now v1 (CreateSession._on_create_session malloc erange erange')
    p k t l peer rbuf d OK c' (response pkt GTPC_CREATE_SESSION_RES (teid_grekey c_teid cs) its));
    [done|exact Hi|done|done|done|done|done|done|done|done| |exact Ec|exact Henq|exact Hout|by apply Hsend|done].
  intros s q Es. unfold entry. rewrite !(proj2 (Nat.eqb_neq _ _)) by (done || lia). rewrite Hk. unfold statements. by rewrite Es.
Qed.

(** What the code does not close: of a node with several statements only the first,
    and the sockets of the transmit node twice. *)
Lemma only_first_statement_closed p s :
  opt s = Statements (stmts_of PGW_NODE_GTPC_OTHER_REQ) -> leaked p = [] ->
  leaked (event_node_uninit PGW_NODE_GTPC_OTHER_REQ s p) = [CREATE_SESSION_IMSI_LOOKUP; MODIFY_BEARER_LOOKUP].
Proof.
  intros Es El. unfold event_node_uninit. rewrite Es. unfold stmts_of, is_create, PGW_NODE_GTPU_OTHER_REQ, PGW_NODE_GTPC_OTHER_REQ,
    PGW_NODE_GTPC_MODIFY_BEARER_REQ, PGW_NODE_GTPC_CREATE_SESSION_REQ_MAX. destruct SINGLE_CREATE_SESSION; cbn; by rewrite El.
Qed.
Lemma sockets_closed_twice p s c u :
  opt s = Sockets (mk_txnode c u) -> srv_sock (server_gtpc (inst p)) = c -> srv_sock (server_gtpu (inst p)) = u -> closed p = [] ->
  pgw_release_instance (event_node_uninit PGW_NODE_TX s p) = [c; u; c; u].
Proof.
  intros Es Ec Eu El. unfold event_node_uninit, pgw_release_instance. rewrite Es.
  assert (En : (PGW_NODE_TX =? PGW_NODE_GTPC_ECHO_REQ)%nat = false) by (apply Nat.eqb_neq; unfold PGW_NODE_TX, PGW_NODE_GTPC_ECHO_REQ; unfold PGW_NODE_GTPU_OTHER_REQ; lia).
  rewrite En. cbn [set_state set_states set_closed closed inst sock_gtpc sock_gtpu]. by rewrite El, Ec, Eu.
Qed.
End claims.

(** *** Examples: the gateway and the request of CtrlAnswers *)
Import CtrlAnswers.Properties.
#[local] Existing Instance session_db.
#[local] Instance build0 : PgwBuild := { PGW_RECOVERY_COUNT := 7; IPV64 := true }.
#[local] Instance two_nodes : CtrlBuild := { SINGLE_CREATE_SESSION := false }.
Definition refuse (_ : packet_t) (c : ctx (list cstring)) : res (Z * ctx (list cstring)) := Ok (ERR, c).
Definition open_wire (_ : nat) : send_round := SelReady true 65536.
Definition config0 : config :=
  mk_config (lit "10.0.0.9") (lit "a00000") 1 2 (lit "127.0.0.1") (lit "mixipgw") (lit "password") (lit "mixipgw").
Definition up (sock : Z) : bring_up := mk_bring_up sock true true true.
Definition all_prepared (_ : nat) (_ : stmt) : prepared := Prepared.
Definition boot_order : list nat := [2; 8; 0; 1; 3; 7; 4; 6; 5]%nat.
Lemma process_boots_witness :
  exists p0 p1 p, main_setup all_true config0 [] = Ok p0 /\ pgw_start all_true (up 5) (up 6) all_true p0 = Ok (OK, p1) /\
    run all_true open_wire false false 0 refuse ((fun k => Begin k true (all_prepared k)) <$> boot_order) p1 = Some (Ok p) /\
    idle 3 (mk_txnode 5 6) [CREATE_SESSION_IMSI_LOOKUP; CREATE_SESSION_MSISDN_LOOKUP] p.
Proof.
  destruct (process_boots all_true open_wire 0 false false refuse config0 [10; 0; 0; 9] [] (up 5) (up 6) all_true boot_order all_prepared)
    as (p0 & p1 & p & E0 & E1 & E & _ & _ & _ & _ & _ & Hi);
    [reflexivity|split; [reflexivity|apply bytes_okb_ok; reflexivity]|reflexivity|discriminate|discriminate|discriminate|discriminate
    |vm_compute; repeat split; discriminate|vm_compute; repeat split; discriminate|reflexivity|reflexivity| |].
  - apply (bool_decide_unpack _). vm_compute. reflexivity.
  - exists p0, p1, p. split; [exact E0|]. split; [exact E1|]. split; [exact E|]. apply (Hi 3%nat). reflexivity.
Defined.

Definition idle_process : process (list cstring) :=
  let h := mk_handle ON (replicate PGW_NODE_COUNT node0) server0 (mk_server (sockaddr_of [10; 0; 0; 9] GTPU1_PORT) 6 GTPU1_PORT (lit "10.0.0.9") (lit "a00000")) 1 1 in
  mk_process _ h [] memory0 [] (running h <$> seq 0 PGW_NODE_COUNT) None [] 1 1 0 0 [] [] [].
Definition arrived : packet_t := mk_packet_t (zlen create_bytes) create_bytes (sockaddr_of [10; 0; 0; 7] 2123) 16 (srv_addr server0) 16.
Lemma request_answered_on_the_wire_witness : exists pp cs c1,
  read_request all_true false arrived (at_work 3 arrived idle_process) = Ok (Some (pp, cs), c1) /\
  let '(ok, cs', db') := create_verdict false false (inst idle_process) cs [] in
  let its := if ok then accept_reply (inst idle_process) cs' else [refused; context_reply [refused; ebi_reply 0]] in
  exists p', run all_true open_wire false false 0 refuse [Datagram false (sockaddr_of [10; 0; 0; 7] 2123) (bzero 2048) create_bytes; Work 3; Work PGW_NODE_TX]
      idle_process = Some (Ok p') /\
    wire p' = [(5, sockaddr_of [10; 0; 0; 7] 2123, reply_bytes GTPC_CREATE_SESSION_RES (teid_grekey c_teid cs) (request_seqno arrived) its)] /\
    db p' = db' /\ outstanding (mem p') = outstanding (mem idle_process) /\
    forall j n, (j < PGW_NODE_TX)%nat -> nodes (inst p') !! j = Some n -> q_packets (egress n) = [] /\ q_packets (ingress n) = [].
Proof.
  assert (H : match read_request all_true false arrived (at_work 3 arrived idle_process) with
              | Ok (Some (_, cs), _) => let '(ok, cs', _) := create_verdict false false (inst idle_process) cs [] in implb ok (answerable cs')
              | _ => false end = true) by (vm_compute; reflexivity).
  destruct (read_request all_true false arrived (at_work 3 arrived idle_process)) as [[[[pp cs]|] c1]|] eqn:E; try discriminate H.
  exists pp, cs, c1. split; [reflexivity|].
  pose proof (request_answered_on_the_wire all_true open_wire false false 0 refuse idle_process 3 (mk_txnode 5 6)
    [CREATE_SESSION_IMSI_LOOKUP; CREATE_SESSION_MSISDN_LOOKUP] (sockaddr_of [10; 0; 0; 7] 2123) (bzero 2048) create_bytes pp cs c1) as T.
  assert (Hid : idle 3 (mk_txnode 5 6) [CREATE_SESSION_IMSI_LOOKUP; CREATE_SESSION_MSISDN_LOOKUP] idle_process).
  { split; [reflexivity|reflexivity|apply Forall_replicate; intros []; split; reflexivity|exists 0; reflexivity|exists 0; reflexivity
      |split; discriminate|reflexivity|reflexivity]. }
  assert (Hacc : acceptable GTPC_PORT create_bytes) by (vm_compute; repeat split; discriminate).
  cbv zeta in T. change (message_length GTPC_PORT create_bytes) with (zlen create_bytes) in T.
  change (slice 0 (zlen create_bytes) create_bytes) with create_bytes in T. change (db idle_process) with (@nil cstring) in T.
  change (mk_packet_t (zlen create_bytes) create_bytes _ 16 _ 16) with arrived in T.
  specialize (T (fun _ => eq_refl) (fun _ _ _ => eq_refl) ltac:(intros n; exists 65536; split; [reflexivity|lia]) Hid eq_refl
    ltac:(apply bytes_okb_ok; reflexivity) eq_refl Hacc ltac:(vm_compute; discriminate) eq_refl eq_refl E). revert T.
  destruct (create_verdict false false (inst idle_process) cs []) as [[ok cs'] db']. intros T.
  apply T. intros ->. exact H.
Defined.
End Properties.
