(* ===== verification/DbMysql.v ===== *)
(** * Control plane: reading the database

    ctrlplane/src/db/mysql_execute.c and mysql_bind_init.c: a prepared statement is
    executed, its columns are bound to the buffers of a [dbbind], every row is
    fetched into them, turned into records and handed to a callback.

    The MySQL client is a parameter: whether its calls succeed, the description of
    the columns, and for every [mysql_stmt_fetch] its result and what it writes.  The
    buffers are one block of memory: a column that is longer than its buffer
    reaches into the next one. *)

From S2P Require Import Prelude TextParse Gtpc CtrlNode.

Definition MYSQL_MAXBIND := 64.
Definition MYSQL_MAXCOLLEN := 128.

(** [enum_field_types] of the client. *)
Definition MYSQL_TYPE_DECIMAL := 0.
Definition MYSQL_TYPE_TINY := 1.
Definition MYSQL_TYPE_SHORT := 2.
Definition MYSQL_TYPE_LONG := 3.
Definition MYSQL_TYPE_FLOAT := 4.
Definition MYSQL_TYPE_DOUBLE := 5.
Definition MYSQL_TYPE_TIMESTAMP := 7.
Definition MYSQL_TYPE_LONGLONG := 8.
Definition MYSQL_TYPE_INT24 := 9.
Definition MYSQL_TYPE_DATE := 10.
Definition MYSQL_TYPE_TIME := 11.
Definition MYSQL_TYPE_DATETIME := 12.
Definition MYSQL_TYPE_YEAR := 13.
Definition MYSQL_TYPE_NEWDATE := 14.
Definition MYSQL_TYPE_NEWDECIMAL := 246.
Definition MYSQL_TYPE_ENUM := 247.
Definition MYSQL_TYPE_STRING := 254.

(** The names with a 2 are enumerators, not macros: the [#ifdef]s are off. *)
Definition mysql_conv_type (e : Z) : Z :=
  if existsb (Z.eqb e) [MYSQL_TYPE_DECIMAL; MYSQL_TYPE_TINY; MYSQL_TYPE_SHORT; MYSQL_TYPE_LONG; MYSQL_TYPE_FLOAT;
       MYSQL_TYPE_DOUBLE; MYSQL_TYPE_LONGLONG; MYSQL_TYPE_INT24; MYSQL_TYPE_ENUM] then MYSQL_TYPE_LONGLONG
  else if existsb (Z.eqb e) [MYSQL_TYPE_DATE; MYSQL_TYPE_TIME; MYSQL_TYPE_DATETIME; MYSQL_TYPE_YEAR; MYSQL_TYPE_NEWDATE;
       MYSQL_TYPE_TIMESTAMP] then MYSQL_TYPE_DATE
  else if e =? MYSQL_TYPE_NEWDECIMAL then MYSQL_TYPE_NEWDECIMAL else MYSQL_TYPE_STRING.

(** A column as [mysql_fetch_fields] describes it. *)
Record field := mk_field { f_name : cstring; f_length : Z; f_type : Z }.
(** [colmn_t]: 64 bytes; [record_t]: the flag and the 512 bytes of the union. *)
Definition colmn0 : list Z := bzero 64.
Definition record_t : Type := Z * list Z.
Definition record0 : record_t := (0, bzero 512).
Definition SVAL_FLAG := 2 ^ 31.
(** What a callback sees of it. *)
Definition record_of (r : record_t) : record :=
  if r.1 =? 0 then NVal (le_load (take 8 r.2)) else SVal (until_nul r.2).

(** ** The buffers: [pgw_mysql_bind_init]

    Of the [dbbind]: the addresses [bind[n]] is given, as offsets into the object,
    its [buffer], [length], [error] and [is_null]. *)
Record bind_ptrs := mk_bp { b_buffer : Z; b_length : Z; b_error : Z; b_is_null : Z }.
Record layout := mk_layout { at_data : Z; at_length : Z; at_errn : Z; at_null : Z }.
Definition pgw_mysql_bind_init (o : layout) : Z * list bind_ptrs :=
  (OK, (fun n => mk_bp (at_data o + MYSQL_MAXCOLLEN * n) (at_length o + 8 * n) (at_errn o + n) (at_null o + n))
         <$> seqZ 0 MYSQL_MAXBIND).

(** The loop over the columns: an array is filled from its first slot on. *)
Definition put_all {A B} (g : nat * A -> B -> res B) (l : list A) (slots : list B) : res (list B) :=
  foldM (fun slots c => b ← deref (slots !! c.1); b ← g c b; Ok (<[c.1 := b]> slots)) (zip (seq 0 (length l)) l) slots.

(** ** One row

    [data] is the 64 buffers of 128 bytes in a row. *)
Definition buffer_at (n : nat) : Z := MYSQL_MAXCOLLEN * Z.of_nat n.
(** What a fetch writes: nothing for a NULL column. *)
Definition fetch_one (data : list Z) (c : nat * option (list Z)) : res (list Z) :=
  match c.2 with None => Ok data | Some bs => wr_bytes data (buffer_at c.1) bs end.
Definition fetch_row (row : list (option (list Z))) (data : list Z) : res (list Z) :=
  foldM fetch_one (zip (seq 0 (length row)) row) data.

(** [%0wd]. *)
Definition print_0d (w : nat) (v : Z) : cstring :=
  let v := signed 32 v in
  let sign := if v <? 0 then lit "-" else [] in
  let s := print_u (Z.abs v) in sign ++ replicate (w - length sign - length s) 48 ++ s.
(** The date in a [MYSQL_TIME]: its first six members. *)
Definition date_text (t : list Z) : res cstring :=
  y ← rd 4 t 0; mo ← rd 4 t 4; d ← rd 4 t 8; h ← rd 4 t 12; mi ← rd 4 t 16; s ← rd 4 t 20;
  Ok (print_0d 4 y ++ lit "/" ++ print_0d 2 mo ++ lit "/" ++ print_0d 2 d ++ lit " " ++ print_0d 2 h ++ lit ":" ++
      print_0d 2 mi ++ lit ":" ++ print_0d 2 s).

(** The record of one column. *)
Definition read_column (f : field) (n : nat) (data : list Z) : res record_t :=
  let et := mysql_conv_type (f_type f) in
  if et =? MYSQL_TYPE_STRING then
    bs ← rd_bytes (f_length f) data (buffer_at n);
    u ← wr_bytes (bzero 512) 0 bs;
    u ← wr 1 u (f_length f) 0;
    Ok (SVAL_FLAG, u)
  else if et =? MYSQL_TYPE_DATE then
    t ← date_text (drop (Z.to_nat (buffer_at n)) data);
    u ← wr_bytes (bzero 512) 0 (snprintf 511 t ++ [0]);
    Ok (SVAL_FLAG, u)
  else if et =? MYSQL_TYPE_NEWDECIMAL then
    bs ← rd_bytes (f_length f) data (buffer_at n);
    v ← wr_bytes (bzero 512) 0 bs;
    v ← wr 1 v (f_length f) 0;
    Ok (0, le_store 8 (strtoul10 (until_nul v)) ++ bzero 504)
  else
    v ← rd 8 data (buffer_at n);
    Ok (0, le_store 8 v ++ bzero 504).
Definition read_record (fields : list field) (data : list Z) : res (list record_t) :=
  put_all (fun c _ => read_column c.2 c.1 data) fields (replicate 64 record0).
Definition column_names (fields : list field) : res (list (list Z)) :=
  put_all (fun c b => b ← wr_bytes b 0 (f_name c.2); wr 1 b (zlen (f_name c.2)) 0) fields (replicate 64 colmn0).

(** ** [pgw_mysql_execute]

    The client's side of one execution. [cl_fetches]: the results of the fetches and
    what each of them writes; without one there is no more data. *)
Definition MYSQL_NO_DATA := 100.
Definition MYSQL_DATA_TRUNCATED := 101.
Record client := mk_client {
  cl_execute : bool; cl_metadata : option (list field); cl_fields : bool; cl_bind : bool; cl_store : bool;
  cl_fetches : list (Z * list (option (list Z)));
}.
Section execute.
Context {U : Type}.
Variable callback : option (Z -> Z -> list (list Z) -> list record_t -> U -> U).

(** The loop ends with the first fetch that does not return 0, whatever it returns. *)
Fixpoint fetch_all (fields : list field) (colmn : list (list Z)) (fetches : list (Z * list (option (list Z)))) (counter : Z)
    (data : list Z) (u : U) : res (list Z * U) :=
  match fetches with
  | [] => Ok (data, u)
  | (rc, row) :: fetches =>
      data ← fetch_row row data;
      if negb (rc =? 0) then Ok (data, u) else
      record ← read_record fields data;
      let u := match callback with Some cb => cb counter (zlen fields) colmn record u | None => u end in
      fetch_all fields colmn fetches (u32 (counter + 1)) data u
  end.

Definition pgw_mysql_execute (c : client) (data : list Z) (u : U) : res (Z * list Z * U) :=
  if negb (cl_execute c) then Ok (ERR, data, u) else
  match cl_metadata c with
  | None => Ok (ERR, data, u)
  | Some fields =>
      if zlen fields =? 0 then Ok (ERR, data, u) else
      if negb (cl_fields c) then Ok (ERR, data, u) else
      require (zlen fields <=? MYSQL_MAXBIND) Undefined;;
      if negb (cl_bind c) then Ok (ERR, data, u) else
      if negb (cl_store c) then Ok (ERR, data, u) else
      colmn ← column_names fields;
      '(data, u) ← fetch_all fields colmn (cl_fetches c) 0 data u;
      Ok (OK, data, u)
  end.
End execute.

(** ** What a column reads

    The cell [r] a column with description [f] stands for when the client writes [bs]. *)
Definition reads (f : field) (bs : list Z) (r : record) : Prop :=
  let et := mysql_conv_type (f_type f) in
  if et =? MYSQL_TYPE_STRING then
    zlen bs <= f_length f <= MYSQL_MAXCOLLEN /\ (zlen bs = f_length f \/ 0 ∈ bs) /\ r = SVal (until_nul bs)
  else if et =? MYSQL_TYPE_DATE then zlen bs = 24 /\ exists t, date_text bs = Ok t /\ r = SVal t
  else if et =? MYSQL_TYPE_NEWDECIMAL then
    zlen bs <= f_length f <= MYSQL_MAXCOLLEN /\ (zlen bs = f_length f \/ 0 ∈ bs) /\ r = NVal (strtoul10 (until_nul bs))
  else zlen bs = 8 /\ bytes_ok bs /\ r = NVal (le_load bs).
(** Rows of which every column is there and reads, with the records they stand for. *)
Definition row_reads (fields : list field) (row : list (option (list Z))) (rs : list record) : Prop :=
  exists bss, row = Some <$> bss /\ length bss = length fields /\ length rs = length fields /\
    forall n f bs r, fields !! n = Some f -> bss !! n = Some bs -> rs !! n = Some r -> reads f bs r.
Definition names_fit (fields : list field) : Prop := Forall (fun f => zlen (f_name f) < 64) fields.

(** ** Proofs *)
Lemma until_nul_cut bs rest : 0 ∈ bs -> until_nul (bs ++ rest) = until_nul bs.
Proof.
  induction bs as [|b bs IH]; [by intros ?%elem_of_nil|]. rewrite elem_of_cons. intros H. cbn [app until_nul].
  destruct (b =? 0) eqn:E; [done|]. destruct H as [<-|H]; [done|]. by rewrite IH.
Qed.
Lemma until_nul_end bs rest : until_nul (bs ++ 0 :: rest) = until_nul bs.
Proof. induction bs as [|b bs IH]; cbn [app until_nul]; [done|]. by rewrite IH. Qed.

Lemma splice_zero_end (l z : list Z) :
  splice (zlen l) [0] (splice 0 l z) = l ++ 0 :: drop (S (length l)) z.
Proof.
  unfold splice. change (Z.to_nat 0) with 0%nat. rewrite take_0, app_nil_l, Nat2Z.id, take_app_length.
  rewrite drop_app_ge by (cbn [length]; lia). rewrite drop_drop. cbn [app length]. do 3 f_equal. lia.
Qed.
Lemma length_bzero n : zlen (bzero n) = Z.max 0 n.
Proof. unfold bzero. rewrite length_replicate. lia. Qed.
(** A buffer of a string is copied to a cell, with a zero behind it. *)
Lemma copied_string data at_ len bs :
  0 <= at_ -> at_ + len <= zlen data -> zlen bs <= len <= 511 -> slice at_ (zlen bs) data = bs -> zlen bs = len \/ 0 ∈ bs ->
  exists b v u, rd_bytes len data at_ = Ok b /\ wr_bytes (bzero 512) 0 b = Ok v /\ wr 1 v len 0 = Ok u /\ until_nul u = until_nul bs.
Proof.
  intros H0 Hd Hl Hs Hor. set (rest := slice (at_ + zlen bs) (len - zlen bs) data).
  assert (E : slice at_ len data = bs ++ rest).
  { replace len with (zlen bs + (len - zlen bs)) at 1 by lia. rewrite slice_app_split by lia. by rewrite Hs. }
  assert (L : zlen (bs ++ rest) = len) by (rewrite <-E, zlen_slice by lia; done).
  assert (L2 : zlen rest = len - zlen bs) by (rewrite length_app in L; lia).
  exists (bs ++ rest), (splice 0 (bs ++ rest) (bzero 512)).
  assert (L1 : zlen (splice 0 (bs ++ rest) (bzero 512)) = 512) by (rewrite length_splice; rewrite ?length_bzero; lia).
  eexists. rewrite rd_bytes_ok, E by lia. split; [done|]. rewrite wr_bytes_ok by (rewrite ?length_bzero; lia).
  split; [done|]. rewrite wr_ok by (rewrite ?L1; lia). split; [done|].
  change (le_store 1 0) with [0]. rewrite <-L, splice_zero_end, <-app_assoc.
  destruct Hor as [Hn|H0']; [|by rewrite until_nul_cut]. assert (rest = []) as -> by (apply length_zero_iff_nil; lia).
  by rewrite app_nil_l, until_nul_end.
Qed.

(** An array filled from its first slot on. *)
Lemma put_all_from {A B} (g : nat * A -> B -> res B) (l : list A) (k : nat) (slots : list B) (rs : list B) :
  (k + length l <= length slots)%nat -> length rs = length l ->
  (forall i a b, l !! i = Some a -> slots !! (k + i)%nat = Some b -> exists r, rs !! i = Some r /\ g ((k + i)%nat, a) b = Ok r) ->
  foldM (fun slots c => b ← deref (slots !! c.1); b ← g c b; Ok (<[c.1 := b]> slots)) (zip (seq k (length l)) l) slots =
    Ok (take k slots ++ rs ++ drop (k + length l) slots).
Proof.
  revert k slots rs. induction l as [|a l IH]; intros k slots rs Hl Hr H.
  - destruct rs; [|done]. cbn [length seq zip foldM app]. by rewrite Nat.add_0_r, take_drop.
  - destruct rs as [|r rs]; [done|]. cbn [length] in *.
    destruct (lookup_lt_is_Some_2 slots k) as [b Eb]; [lia|].
    destruct (H 0%nat a b) as (r' & [= <-] & Eg); [done|by rewrite Nat.add_0_r|]. rewrite Nat.add_0_r in Eg.
    cbn [seq zip zip_with foldM]. cbn [fst snd]. rewrite Eb. cbn [deref]. res_simpl. rewrite Eg. res_simpl.
    rewrite (IH (S k) (<[k:=r]> slots) rs); [|rewrite length_insert; lia|lia|].
    + f_equal. rewrite (take_S_r _ _ r) by (apply list_lookup_insert_eq; lia).
      rewrite take_insert_ge by lia. rewrite drop_insert_lt by lia. rewrite <-app_assoc. cbn [app].
      by replace (S k + length l)%nat with (k + S (length l))%nat by lia.
    + intros i x y Hx Hy. rewrite list_lookup_insert_ne in Hy by lia. replace (S k + i)%nat with (k + S i)%nat in * by lia.
      exact (H (S i) x y Hx Hy).
Qed.
Lemma put_all_spec {A B} (g : nat * A -> B -> res B) (l : list A) (slots rs : list B) :
  (length l <= length slots)%nat -> length rs = length l ->
  (forall i a b, l !! i = Some a -> slots !! i = Some b -> exists r, rs !! i = Some r /\ g (i, a) b = Ok r) ->
  put_all g l slots = Ok (rs ++ drop (length l) slots).
Proof. intros Hl Hr H. unfold put_all. by rewrite (put_all_from g l 0 slots rs). Qed.

(** The buffers after a fetch. *)
Lemma fetch_from (bss : list (list Z)) k data :
  zlen data = MYSQL_MAXCOLLEN * MYSQL_MAXBIND -> (k + length bss <= 64)%nat -> Forall (fun bs => zlen bs <= MYSQL_MAXCOLLEN) bss ->
  exists data', foldM fetch_one (zip (seq k (length bss)) (Some <$> bss)) data = Ok data' /\ zlen data' = zlen data /\
    (forall p m, 0 <= p -> 0 <= m -> p + m <= buffer_at k -> slice p m data' = slice p m data) /\
    forall n bs, bss !! n = Some bs -> slice (buffer_at (k + n)) (zlen bs) data' = bs.
Proof.
  intros Hd Hk Hb. revert k data Hd Hk. induction Hb as [|bs bss Hbs Hb IH]; intros k data Hd Hk; [by exists data|].
  cbn [length] in Hk. cbn [length seq fmap list_fmap zip zip_with foldM]. change (fetch_one data (k, Some bs)) with (wr_bytes data (buffer_at k) bs).
  unfold MYSQL_MAXCOLLEN, MYSQL_MAXBIND in *.
  assert (Hin : 0 <= buffer_at k /\ buffer_at k + zlen bs <= zlen data /\ buffer_at (S k) = buffer_at k + 128)
    by (unfold buffer_at, MYSQL_MAXCOLLEN; lia).
  rewrite wr_bytes_ok by lia. res_simpl.
  destruct (IH (S k) (splice (buffer_at k) bs data)) as (data' & -> & L & Hp & Hn); [rewrite length_splice by lia; lia|lia|].
  rewrite length_splice in L by lia. exists data'. split; [done|]. split; [lia|]. split.
  - intros p m H0 H1 H2. rewrite Hp by lia. apply slice_splice_before; lia.
  - intros [|n] b E; cbn in E.
    + injection E as <-. rewrite Nat.add_0_r, Hp by lia. apply slice_splice_same; lia.
    + rewrite <-Nat.add_succ_comm. by apply Hn.
Qed.
Lemma fetch_row_spec (bss : list (list Z)) data :
  zlen data = MYSQL_MAXCOLLEN * MYSQL_MAXBIND -> (length bss <= 64)%nat -> Forall (fun bs => zlen bs <= MYSQL_MAXCOLLEN) bss ->
  exists data', fetch_row (Some <$> bss) data = Ok data' /\ zlen data' = zlen data /\
    forall n bs, bss !! n = Some bs -> slice (buffer_at n) (zlen bs) data' = bs.
Proof.
  intros Hd Hl Hb. destruct (fetch_from bss 0 data) as (data' & E & L & _ & H); [done..|].
  exists data'. unfold fetch_row. rewrite length_fmap. done.
Qed.

(** A column reads what the client has written for it. *)
Lemma date_text_at n data bs t : 0 <= n -> n + 24 <= zlen data -> zlen bs = 24 -> slice n 24 data = bs ->
  date_text bs = Ok t -> date_text (drop (Z.to_nat n) data) = Ok t.
Proof.
  intros H0 Hn Hb Hs. assert (L : zlen (drop (Z.to_nat n) data) = zlen data - n) by (rewrite length_drop; lia).
  assert (E : forall q, 0 <= q <= 20 -> rd 4 (drop (Z.to_nat n) data) q = rd 4 bs q).
  { intros q Hq. rewrite !rd_ok by lia. rewrite <-Hs, slice_slice by lia. f_equal. f_equal. unfold slice. rewrite drop_drop.
    f_equal. f_equal. lia. }
  unfold date_text. rewrite !E by lia. done.
Qed.
(** Text of at most [k] characters. *)
Definition text_ok (k : Z) (t : cstring) : Prop := zlen t <= k /\ Forall (fun c => c <> 0) t.
Lemma text_app k k' t t' : text_ok k t -> text_ok k' t' -> text_ok (k + k') (t ++ t').
Proof. intros [? ?] [? ?]. split; [rewrite length_app; lia|by apply Forall_app]. Qed.
Lemma print_digits_text fuel v acc : Forall (fun c => c <> 0) acc -> Forall (fun c => c <> 0) (print_digits fuel v acc).
Proof.
  revert v acc. induction fuel as [|fuel IH]; intros v acc Ha; cbn [print_digits]; [done|].
  assert (Forall (fun c => c <> 0) ((48 + v mod 10) :: acc)) by (constructor; [pose proof (Z.mod_pos_bound v 10); lia|done]).
  destruct (v <? 10); auto.
Qed.
Lemma print_0d_text w v : text_ok (Z.of_nat w + 11) (print_0d w v).
Proof.
  unfold print_0d. set (x := signed 32 v). pose proof (length_print_digits 10 (Z.abs x) []) as Hl. cbn [length] in Hl.
  split.
  - rewrite !length_app, length_replicate. unfold print_u. destruct (x <? 0); [change (length (lit "-")) with 1%nat|cbn [length]]; lia.
  - rewrite !Forall_app. repeat split.
    + destruct (x <? 0); [|done]. change (lit "-") with [45]. constructor; [lia|done].
    + apply Forall_replicate. lia.
    + by apply print_digits_text.
Qed.
Lemma date_text_short bs t : date_text bs = Ok t -> text_ok 110 t.
Proof.
  unfold date_text. intros H. repeat match type of H with (rd 4 bs ?q ≫= _) = _ => destruct (rd 4 bs q); cbn [mbind res_bind] in H; [|done] end.
  match type of H with Ok ?e = _ => assert (t = e) as -> by congruence end. assert (Hsep : forall s, s = lit "/" \/ s = lit " " \/ s = lit ":" -> text_ok 1 s).
  { intros s [->|[->| ->]]; (split; [done|]); vm_compute; (constructor; [done|constructor]). }
  split.
  - rewrite !length_app. repeat match goal with |- context [length (print_0d ?w ?v)] => pose proof (proj1 (print_0d_text w v)); generalize dependent (length (print_0d w v)); intros end.
    change (length (lit "/")) with 1%nat. change (length (lit " ")) with 1%nat. change (length (lit ":")) with 1%nat. lia.
  - rewrite !Forall_app. repeat split; try apply (print_0d_text _ _); eapply Hsep; tauto.
Qed.

Lemma strtoul10_range s : 0 <= strtoul10 s < 256 ^ 8.
Proof.
  unfold strtoul10. change (256 ^ 8) with (2 ^ 64).
  assert (Hd : forall l acc, 0 <= acc -> 0 <= digits_value acc l).
  { induction l as [|c l IH]; intros acc Ha; cbn [digits_value]; [done|]. destruct (isdigit c) eqn:E; [|done].
    unfold isdigit in E. to_prop. apply IH. lia. }
  destruct (match skip_space s with [] => _ | _ => _ end) as [neg l]. specialize (Hd l 0 ltac:(lia)). case_if; [lia|].
  apply Z.leb_gt in E. destruct neg; [apply wrap_range; lia|lia].
Qed.

Lemma read_column_spec f n data bs (r : record) :
  zlen data = MYSQL_MAXCOLLEN * MYSQL_MAXBIND -> (n < 64)%nat -> slice (buffer_at n) (zlen bs) data = bs ->
  reads f bs r -> exists c, read_column f n data = Ok c /\ record_of c = r.
Proof.
  intros Hd Hn Hs. unfold reads, read_column. set (et := mysql_conv_type (f_type f)).
  assert (Hat : 0 <= buffer_at n /\ buffer_at n + 128 <= zlen data) by (unfold buffer_at, MYSQL_MAXCOLLEN, MYSQL_MAXBIND in *; lia).
  unfold MYSQL_MAXCOLLEN. repeat case_if.
  - intros (H1 & H2 & ->). destruct (copied_string data (buffer_at n) (f_length f) bs) as (b & v & u & -> & F1 & F2 & Hu); [lia..|done|done|].
    res_simpl. rewrite F1. res_simpl. rewrite F2. res_simpl. eexists. split; [done|]. unfold record_of. cbn [fst snd].
    change (SVAL_FLAG =? 0) with false. by rewrite Hu.
  - intros (H1 & t & Ht & ->). rewrite H1 in Hs. rewrite (date_text_at _ _ bs t) by (try done; lia). res_simpl.
    destruct (date_text_short _ _ Ht) as [Hl Hz]. unfold snprintf. rewrite take_ge by lia.
    rewrite wr_bytes_ok by (rewrite ?length_bzero, ?length_app; cbn [length]; lia). res_simpl. eexists. split; [done|].
    unfold record_of. cbn [fst snd]. change (SVAL_FLAG =? 0) with false. cbn match. f_equal. unfold splice. change (Z.to_nat 0) with 0%nat.
    rewrite take_0, app_nil_l, <-app_assoc. cbn [app]. rewrite until_nul_end. by apply until_nul_all.
  - intros (H1 & H2 & ->). destruct (copied_string data (buffer_at n) (f_length f) bs) as (b & v & u & -> & F1 & F2 & Hu); [lia..|done|done|].
    res_simpl. rewrite F1. res_simpl. rewrite F2. res_simpl. eexists. split; [done|]. unfold record_of. cbn [fst snd].
    change (0 =? 0) with true. rewrite take_app_length' by (by rewrite length_le_store). rewrite Hu. f_equal. rewrite le_load_store. apply Z.mod_small, strtoul10_range.
  - intros (H1 & H2 & ->). rewrite rd_ok by lia. res_simpl. eexists. split; [done|]. unfold record_of. cbn [fst snd].
    change (0 =? 0) with true. rewrite take_app_length' by (by rewrite length_le_store). rewrite H1 in Hs. change (Z.of_nat 8) with 8. rewrite Hs.
    f_equal. rewrite le_load_store. apply Z.mod_small. pose proof (le_load_range bs H2). rewrite H1 in *. done.
Qed.

Lemma read_record_spec fields data bss rs :
  zlen data = MYSQL_MAXCOLLEN * MYSQL_MAXBIND -> (length fields <= 64)%nat -> length bss = length fields -> length rs = length fields ->
  (forall n bs, bss !! n = Some bs -> slice (buffer_at n) (zlen bs) data = bs) ->
  (forall n f bs r, fields !! n = Some f -> bss !! n = Some bs -> rs !! n = Some r -> reads f bs r) ->
  exists cells, read_record fields data = Ok (cells ++ replicate (64 - length fields) record0) /\ record_of <$> cells = rs.
Proof.
  intros Hd Hf Hb Hr Hs H.
  assert (Hc : forall n f, fields !! n = Some f -> exists c, read_column f n data = Ok c /\ rs !! n = Some (record_of c)).
  { intros n f En. pose proof (lookup_lt_Some _ _ _ En) as Hn.
    destruct (lookup_lt_is_Some_2 bss n) as [bs Eb]; [lia|]. destruct (lookup_lt_is_Some_2 rs n) as [r Er]; [lia|].
    destruct (read_column_spec f n data bs r) as (c & E & <-); [done|lia|by apply Hs|by eapply H|]. by exists c. }
  set (val := fun c : nat * field => match read_column c.2 c.1 data with Ok x => x | Fault _ => record0 end).
  assert (Hval : forall n f, fields !! n = Some f -> read_column f n data = Ok (val (n, f)) /\ rs !! n = Some (record_of (val (n, f)))).
  { intros n f En. destruct (Hc n f En) as (c & E & Er). unfold val. cbn [fst snd]. by rewrite E. }
  exists (imap (fun n f => val (n, f)) fields). split.
  - unfold read_record. rewrite (put_all_spec _ _ _ (imap (fun n f => val (n, f)) fields)).
    + by rewrite drop_replicate.
    + by rewrite length_replicate.
    + apply length_imap.
    + intros n f b En _. exists (val (n, f)). split; [by rewrite list_lookup_imap, En|]. cbn [fst snd]. by apply Hval.
  - apply list_eq_same_length with (length fields); [done|by rewrite length_fmap, length_imap|].
    intros n x y Hn Ex Ey. rewrite list_lookup_fmap, list_lookup_imap in Ex. destruct (fields !! n) as [f|] eqn:En; [|done].
    injection Ex as <-. destruct (Hval n f En) as [_ E]. congruence.
Qed.

Lemma column_names_spec fields : names_fit fields -> (length fields <= 64)%nat -> exists l, column_names fields = Ok l.
Proof.
  intros Hn Hl. unfold column_names. eexists. apply put_all_spec with
    (rs := (fun f => splice (zlen (f_name f)) (le_store 1 0) (splice 0 (f_name f) colmn0)) <$> fields); [by rewrite length_replicate|apply length_fmap|].
  intros i f b Ef Eb. apply lookup_replicate in Eb as [-> Hi]. eexists. rewrite list_lookup_fmap, Ef. split; [done|]. cbn [fst snd].
  pose proof (Forall_lookup_1 _ _ _ _ Hn Ef) as Hz. cbn beta in Hz. change (zlen colmn0) with 64.
  assert (L0 : zlen colmn0 = 64) by done.
  rewrite wr_bytes_ok by lia. res_simpl. rewrite wr_ok; [done|lia|]. rewrite length_splice by lia. lia.
Qed.

(** A callback of the handlers, which looks at the records of the columns only. *)
Definition on_records {U} (cb : list record -> U -> U) : Z -> Z -> list (list Z) -> list record_t -> U -> U :=
  fun _ n _ cells u => cb (record_of <$> take (Z.to_nat n) cells) u.

(** The fetches of an execution: rows, and one that ends them. *)
Definition gives (fields : list field) (fetches : list (Z * list (option (list Z)))) (rss : list (list record)) (last : Z) : Prop :=
  exists rows bss rest, fetches = (pair 0 <$> rows) ++ (last, Some <$> bss) :: rest /\ last <> 0 /\ Forall2 (row_reads fields) rows rss /\
    (length bss <= length fields)%nat /\ Forall (fun bs : list Z => zlen bs <= MYSQL_MAXCOLLEN) bss.

Lemma fetch_all_spec {U} (cb : list record -> U -> U) fields colmn fetches rss last counter data u :
  zlen data = MYSQL_MAXCOLLEN * MYSQL_MAXBIND -> (length fields <= 64)%nat -> gives fields fetches rss last ->
  exists data', fetch_all (Some (on_records cb)) fields colmn fetches counter data u = Ok (data', foldl (fun u r => cb r u) u rss) /\
    zlen data' = zlen data.
Proof.
  intros Hd Hf (rows & lbs & rest & -> & Hlast & Hr & Ll & Fl). revert counter data u Hd.
  induction Hr as [|row rs rows rss (bss & -> & Lb & Lr & Hrd) _ IH]; intros counter data u Hd.
  { cbn [fmap list_fmap app fetch_all]. destruct (fetch_row_spec lbs data) as (d1 & -> & L1 & _); [done|lia|done|]. res_simpl.
    rewrite (proj2 (Z.eqb_neq _ _) Hlast). by exists d1. }
  cbn [fmap list_fmap app fetch_all foldl].
  assert (Hlen : Forall (fun bs => zlen bs <= MYSQL_MAXCOLLEN) bss).
  { rewrite Forall_lookup. intros n bs Eb. pose proof (lookup_lt_Some _ _ _ Eb) as Hn.
    destruct (lookup_lt_is_Some_2 fields n) as [f Ef]; [lia|]. destruct (lookup_lt_is_Some_2 rs n) as [r Er]; [lia|].
    specialize (Hrd n f bs r Ef Eb Er). unfold reads in Hrd. unfold MYSQL_MAXCOLLEN in *. repeat case_match; lia. }
  destruct (fetch_row_spec bss data) as (d1 & -> & L1 & Hs); [done|lia|done|]. res_simpl. cbn [negb Z.eqb].
  destruct (read_record_spec fields d1 bss rs) as (cells & -> & Ec); [lia|done|done|done|done|done|]. res_simpl.
  destruct (IH (u32 (counter + 1)) d1 (cb rs u)) as (d2 & E2 & L2); [lia|]. exists d2. split; [|lia].
  unfold on_records at 2. rewrite Nat2Z.id, take_app_length' by (rewrite <-Lr, <-Ec; by rewrite length_fmap). rewrite Ec. exact E2.
Qed.

(** ** The abstract database of the handlers

    What the client does when [db_select] answers [r]. *)
Definition client_fails (c : client) : Prop :=
  cl_execute c = false \/ cl_metadata c = None \/ cl_metadata c = Some [] \/
  exists fields, cl_metadata c = Some fields /\ zlen fields <= MYSQL_MAXBIND /\ (cl_fields c = false \/ cl_bind c = false \/ cl_store c = false).
Definition client_answers (c : client) (r : option (list (list record))) : Prop :=
  match r with
  | None => client_fails c
  | Some rss =>
      cl_execute c = true /\ cl_fields c = true /\ cl_bind c = true /\ cl_store c = true /\
      exists fields last, cl_metadata c = Some fields /\ 0 < zlen fields <= MYSQL_MAXBIND /\ names_fit fields /\
        gives fields (cl_fetches c) rss last
  end.

Module Properties.

(** C26: [pgw_mysql_execute] is the execution the handlers are proved against, for
    results of at most 64 columns whose values are not NULL, whose numbers have eight
    bytes and whose strings are described as at most 128 long: the callback gets every
    row before the first fetch that does not return 0 once, in order, as records of
    the columns' values, and the result is OK, whatever that last fetch returned (no
    more data, a truncated row or an error).  When executing, describing, binding or
    storing fails, the callback gets nothing and the result is an error. *)
Theorem mysql_execute_delivers_rows {D U} `{Database D} (st : stmt) (key : Z) (cb : list record -> U -> U) (u : U) (db db' : D)
    (r : option (list (list record))) (c : client) (data : list Z) :
  db_select st key db = (r, db') -> client_answers c r -> zlen data = MYSQL_MAXCOLLEN * MYSQL_MAXBIND ->
  exists data', zlen data' = zlen data /\
    match CtrlNode.pgw_mysql_execute st key cb u db with
    | (rc, u', _) => pgw_mysql_execute (Some (on_records cb)) c data u = Ok (rc, data', u')
    end.
Proof.
  intros Es Hc Hd. unfold CtrlNode.pgw_mysql_execute. rewrite Es. unfold pgw_mysql_execute. destruct r as [rss|].
  - destruct Hc as (-> & -> & -> & -> & fields & last & -> & Hf & Hn & Hr). cbn [negb]. rewrite (proj2 (Z.eqb_neq _ _)) by lia.
    rewrite (proj2 (Z.leb_le _ _)) by lia. res_simpl. unfold MYSQL_MAXBIND in Hf.
    destruct (column_names_spec fields) as [l ->]; [done|lia|]. res_simpl.
    destruct (fetch_all_spec cb fields l (cl_fetches c) rss last 0 data u) as (d & -> & L); [done|lia|done|]. res_simpl. by exists d.
  - exists data. split; [done|]. unfold client_answers, client_fails in Hc.
    destruct (cl_execute c); [|done]. cbn [negb]. destruct Hc as [?|[->|[->|(fields & -> & Hf & Hc)]]]; [done..|].
    rewrite (proj2 (Z.leb_le _ _)) by lia. res_simpl.
    case_if; [done|]. destruct (cl_fields c), (cl_bind c), (cl_store c); cbn [negb]; try done. naive_solver.
Qed.

(** A table with one session: two numbers and an address. *)
#[local] Instance one_row : Database (list cstring) := {
  db_query q log := (0, log ++ [q]);
  db_bind _ _ _ := true;
  db_select _ key log := if key =? 7 then (Some [[NVal 513; SVal (lit "10.0.0.1")]; [NVal 7; SVal (lit "10.2.0.1")]], log) else (None, log);
}.
Definition columns1 : list field := [mk_field (lit "pgw_teid") 20 MYSQL_TYPE_LONGLONG; mk_field (lit "ue_ipv4") 15 253].
Definition client1 : client :=
  mk_client true (Some columns1) true true true
    [(0, [Some [1; 2; 0; 0; 0; 0; 0; 0]; Some (lit "10.0.0.1" ++ [0])]); (0, [Some [7; 0; 0; 0; 0; 0; 0; 0]; Some (lit "10.2.0.1" ++ [0])]);
     (MYSQL_NO_DATA, [])].
Lemma row_reads_two f1 f2 b1 b2 r1 r2 : reads f1 b1 r1 -> reads f2 b2 r2 -> row_reads [f1; f2] [Some b1; Some b2] [r1; r2].
Proof. intros H1 H2. exists [b1; b2]. repeat split. intros [|[|n]] f b r; [by intros [= <-] [= <-] [= <-]..|done]. Qed.
Lemma client1_answers : client_answers client1 (Some [[NVal 513; SVal (lit "10.0.0.1")]; [NVal 7; SVal (lit "10.2.0.1")]]).
Proof.
  repeat split. exists columns1, MYSQL_NO_DATA. split; [done|]. split; [done|]. split; [by repeat constructor|].
  assert (Hn : forall b, bytes_ok b -> zlen b = 8 -> reads (mk_field (lit "pgw_teid") 20 MYSQL_TYPE_LONGLONG) b (NVal (le_load b))) by done.
  assert (Hs : forall s, zlen s <= 14 -> until_nul s = s -> reads (mk_field (lit "ue_ipv4") 15 253) (s ++ [0]) (SVal s)).
  { intros s Hs Hu. unfold reads. cbn [f_type f_length]. change (mysql_conv_type 253 =? MYSQL_TYPE_STRING) with true. cbn match.
    rewrite length_app. cbn [length]. unfold MYSQL_MAXCOLLEN. repeat split; try lia. - right. apply elem_of_app. right. by left.
    - by rewrite until_nul_end, Hu. }
  exists (take 2 (cl_fetches client1)).*2, [], []. split; [done|]. split; [done|]. split; [|split; [apply Nat.le_0_l|done]].
  apply Forall2_cons_2; [|apply Forall2_cons_2; [|apply Forall2_nil_2]]; (apply row_reads_two; [|by apply Hs]).
  - by apply (Hn [1; 2; 0; 0; 0; 0; 0; 0]); [apply bytes_okb_ok|].
  - by apply (Hn [7; 0; 0; 0; 0; 0; 0; 0]); [apply bytes_okb_ok|].
Qed.
Lemma mysql_execute_delivers_rows_witness :
  exists data', zlen data' = 8192 /\
    pgw_mysql_execute (Some (on_records (fun r (l : list (list record)) => l ++ [r]))) client1 (bzero 8192) [] =
      Ok (0, data', [[NVal 513; SVal (lit "10.0.0.1")]; [NVal 7; SVal (lit "10.2.0.1")]]).
Proof.
  exact (mysql_execute_delivers_rows (D := list cstring) DELETE_SESSION_LOOKUP 7 (fun r (l : list (list record)) => l ++ [r]) [] [] []
    (Some [[NVal 513; SVal (lit "10.0.0.1")]; [NVal 7; SVal (lit "10.2.0.1")]]) client1 (bzero 8192) eq_refl client1_answers eq_refl).
Defined.

(** A NULL column is given the value the row before had: its flag is not looked at. *)
Lemma null_column_repeats_previous :
  exists data', pgw_mysql_execute (Some (on_records (fun r (l : list (list record)) => l ++ [r])))
    (mk_client true (Some columns1) true true true
      [(0, [Some [1; 2; 0; 0; 0; 0; 0; 0]; Some (lit "10.0.0.1" ++ [0])]); (0, [Some [7; 0; 0; 0; 0; 0; 0; 0]; None])]) (bzero 8192) [] =
      Ok (OK, data', [[NVal 513; SVal (lit "10.0.0.1")]; [NVal 7; SVal (lit "10.0.0.1")]]).
Proof. eexists. vm_compute. reflexivity. Qed.
(** A column of one byte is read as eight: the other seven are those of the string
    that was in the buffer before. *)
Lemma short_column_keeps_old_bytes f n data b :
  mysql_conv_type (f_type f) = MYSQL_TYPE_LONGLONG -> zlen data = 8192 -> (n < 64)%nat -> byte_ok b -> bytes_ok data ->
  exists c, (d ← fetch_one data (n, Some [b]); read_column f n d) = Ok c /\
    record_of c = NVal (b + 256 * le_load (slice (buffer_at n + 1) 7 data)).
Proof.
  intros Hf Hd Hn Hb Hdata. assert (Hat : 0 <= buffer_at n /\ buffer_at n + 128 <= zlen data) by (unfold buffer_at, MYSQL_MAXCOLLEN; lia).
  unfold fetch_one. cbn [fst snd]. rewrite wr_bytes_ok by (cbn [length]; lia). res_simpl.
  assert (L : zlen (splice (buffer_at n) [b] data) = zlen data) by (rewrite length_splice; cbn [length]; lia).
  unfold read_column. rewrite Hf. change (MYSQL_TYPE_LONGLONG =? _) with false at 1. cbn match.
  change (MYSQL_TYPE_LONGLONG =? MYSQL_TYPE_DATE) with false. change (MYSQL_TYPE_LONGLONG =? MYSQL_TYPE_NEWDECIMAL) with false. cbn match.
  rewrite rd_ok by lia. res_simpl. eexists. split; [done|]. unfold record_of. cbn [fst snd]. change (0 =? 0) with true. cbn match.
  rewrite take_app_length' by (by rewrite length_le_store). rewrite le_load_store.
  change (Z.of_nat 8) with (1 + 7). rewrite slice_app_split by lia. rewrite (slice_splice_eq _ 1) by (cbn [length]; lia).
  rewrite slice_splice_after by (cbn [length]; lia). cbn [app le_load]. f_equal. apply Z.mod_small.
  pose proof (le_load_range (b :: slice (buffer_at n + 1) 7 data)) as H. cbn [le_load length] in H.
  rewrite Nat2Z.inj_succ, zlen_slice in H by lia. apply H. constructor; [done|]. by apply Forall_slice.
Qed.
(** A column wider than its buffer takes in the bytes of the next column. *)
Lemma wide_column_runs_on :
  exists data', pgw_mysql_execute (Some (on_records (fun r (l : list (list record)) => l ++ [r])))
    (mk_client true (Some [mk_field (lit "a") 130 253; mk_field (lit "b") 8 253]) true true true
      [(0, [Some (replicate 130 65); Some (lit "xy" ++ [0])])]) (bzero 8192) [] =
      Ok (OK, data', [[SVal (replicate 128 65 ++ lit "xy"); SVal (lit "xy")]]).
Proof. eexists. vm_compute. reflexivity. Qed.
(** A fetch that fails ends the rows, and the result is OK. *)
Lemma failed_fetch_is_ok :
  exists data', pgw_mysql_execute (Some (on_records (fun r (l : list (list record)) => l ++ [r])))
    (mk_client true (Some columns1) true true true
      [(0, [Some [1; 2; 0; 0; 0; 0; 0; 0]; Some (lit "10.0.0.1" ++ [0])]); (1, []); (0, [Some [7; 0; 0; 0; 0; 0; 0; 0]; Some [0]])]) (bzero 8192) [] =
      Ok (OK, data', [[NVal 513; SVal (lit "10.0.0.1")]]).
Proof. eexists. vm_compute. reflexivity. Qed.

End Properties.
