(* ===== verification/DbSqlite.v ===== *)
(** * Control plane: the database of the local tests

    ctrlplane/src/db/driver_sqlite3.c and parse_sql.c: the functions of the MySQL
    client the control plane calls, over one sqlite3 file that all threads share.

    The library sqlite3 is the class [Sqlite]; [SqliteOk] is what its documentation
    promises of a prepared statement.  The database handles are objects of a heap:
    every thread holds a pointer to the same one.  The operations take the driver's
    mutex around what they do, and each is one step here. *)

From S2P Require Import Prelude TextParse Gtpc CtrlNode DbMysql.

Definition SQLITE_OK := 0.
Definition SQLITE_INTEGER := 1.
Definition SQLITE_TEXT := 3.
Definition SQLPARSE_ILEN := 32.

(** ** [pgw_parse_sql] *)

(** [strtok] with the separator " ": the token and what is left behind it. *)
Fixpoint skip_blanks (s : cstring) : cstring :=
  match s with c :: s' => if c =? 32 then skip_blanks s' else s | [] => [] end.
Fixpoint token (s : cstring) : cstring * cstring :=
  match s with
  | [] => ([], [])
  | c :: s' => if c =? 32 then ([], s') else let '(t, r) := token s' in (c :: t, r)
  end.
Definition strtok (s : cstring) : option (cstring * cstring) :=
  match skip_blanks s with [] => None | s => Some (token s) end.

(** [sqlparse_t]: 32 bytes of text and the length of the word. *)
Record sqlparse := mk_sqlparse { q : list Z; len : Z }.
Definition sqlparse0 : sqlparse := mk_sqlparse (bzero 32) 0.
Definition store_word (n : nat) (p : cstring) (parsed : list sqlparse) : res (list sqlparse) :=
  e ← deref (parsed !! n);
  b ← wr_bytes (q e) 0 (take (Z.to_nat (SQLPARSE_ILEN - 1)) p);
  Ok (<[n := mk_sqlparse b (zlen p)]> parsed).
(** The loop; [fuel] is the length of the text, of which every round takes something. *)
Fixpoint parse_loop (fuel : nat) (s : cstring) (cnt : nat) (count : nat) (parsed : list sqlparse) : res (nat * list sqlparse) :=
  match fuel, strtok s with
  | S fuel, Some (p, s) =>
      let cnt := S cnt in
      if (count <=? cnt + 1)%nat then Ok (cnt, parsed) else
      parsed ← store_word cnt p parsed;
      parse_loop fuel s cnt count parsed
  | _, _ => Ok (cnt, parsed)
  end.
(** [allocated]: whether [malloc] gives the copy of the text. *)
Definition pgw_parse_sql (allocated : bool) (sql : cstring) (parsed : option (list sqlparse)) (count : nat)
    : res (Z * option (list sqlparse)) :=
  match parsed, count, sql with
  | None, _, _ | _, O, _ | _, _, [] => Ok (ERR, parsed)
  | Some l, _, _ =>
      if negb allocated then Ok (ERR, parsed) else
      match strtok sql with
      | None => Ok (ERR, parsed)
      | Some (p, s) =>
          l ← store_word 0 p l;
          '(cnt, l) ← parse_loop (length s) s 0 count l;
          Ok (Z.of_nat cnt + 1, Some l)
      end
  end.

(** ** Statements that are skipped *)
Definition tolower (c : Z) : Z := if (65 <=? c) && (c <=? 90) then c + 32 else c.
(** [strncasecmp(a, b, n) == 0]. *)
Fixpoint strncaseeq (n : nat) (a b : cstring) : bool :=
  match n, a, b with
  | O, _, _ | _, [], [] => true
  | S n, x :: a, y :: b => (tolower x =? tolower y) && strncaseeq n a b
  | _, _, _ => false
  end.
Definition same_word (a b : cstring) : bool := (length a =? length b)%nat && strncaseeq (length b) a b.
Definition __skip_sql : list (cstring * cstring) := [(lit "DROP", lit "DATABASE"); (lit "CREATE", lit "DATABASE"); (lit "USE", [])].
Definition skips (first second : cstring) (e : cstring * cstring) : bool :=
  same_word first e.1 && same_word second e.2 || same_word first e.1 && bool_decide (e.2 = []).

(** ** The library *)
Record column := mk_column { c_name : option cstring; c_decl : option cstring }.
(** A value, as [sqlite3_column_text] and [sqlite3_column_int64] read it. *)
Record cell := mk_cell { c_text : option cstring; c_int : Z }.
(** [sqlite3_exec]: the names and the rows the callback is given, the result, the database. *)
Record exec_result (D : Type) := mk_exec { x_names : list cstring; x_rows : list (list (option cstring)); x_ok : bool; x_db : D }.
Arguments x_names {D}. Arguments x_rows {D}. Arguments x_ok {D}. Arguments x_db {D}.

Class Sqlite (D Q : Type) := {
  sq_empty : D;                                  (* no file *)
  sq_prepare : cstring -> D -> option Q;
  sq_columns : Q -> list column;
  sq_reset : Q -> Z * Q;
  sq_clear : Q -> Q;
  sq_bind_int64 : nat -> Z -> Q -> Z * Q;
  sq_step : Q -> D -> option (list cell) * Q * D;  (* a row, or anything but SQLITE_ROW *)
  sq_exec : cstring -> D -> exec_result D;
  sq_stopped : cstring -> nat -> D -> D;           (* the callback has stopped it at a row *)
}.

(** ** The driver's objects

    [record_t], [rec], [colmn] and [colmntype] are blocks of memory; what
    [realloc] adds to [rec] has never been set. *)
Record st := mk_st { dbh : option nat; rec : option (list record_t); rcnt : Z; counter : Z; clmncnt : nat;
  colmn : list (list Z); colmntype : list Z }.
Definition st0 : st := mk_st None None 0 0 0 (replicate 64 colmn0) (replicate 64 0).
Record st_stmt (Q : Type) := mk_stmt { s_dbh : option nat; s_sql : option cstring; s_stmt : option Q }.
Arguments mk_stmt {Q}. Arguments s_dbh {Q}. Arguments s_sql {Q}. Arguments s_stmt {Q}.
Record st_res := mk_res { r_rec : list (list Z); r_rcnt : Z; r_counter : Z; curpos : Z; r_clmncnt : nat;
  r_colmn : list (list Z); r_colmntype : list Z }.

(** [file]: the database; [instance] and [refs]: the static variables; [objs]: the
    handles; [conns]: the open connections; [live]: the statements of the library
    that are not finalized. *)
Record world (D : Type) := mk_world { file : D; instance : option nat; refs : Z; objs : gmap nat st; fresh : nat;
  conns : list nat; next_conn : nat; live : Z; mallocs : nat }.
Arguments mk_world {D}. Arguments file {D}. Arguments instance {D}. Arguments refs {D}. Arguments objs {D}. Arguments fresh {D}.
Arguments conns {D}. Arguments next_conn {D}. Arguments live {D}. Arguments mallocs {D}.
Definition set_file {D} (d : D) (w : world D) : world D :=
  mk_world d (instance w) (refs w) (objs w) (fresh w) (conns w) (next_conn w) (live w) (mallocs w).
Definition set_obj {D} (h : nat) (s : st) (w : world D) : world D :=
  mk_world (file w) (instance w) (refs w) (<[h := s]> (objs w)) (fresh w) (conns w) (next_conn w) (live w) (mallocs w).
Definition set_refs {D} (n : Z) (w : world D) : world D :=
  mk_world (file w) (instance w) n (objs w) (fresh w) (conns w) (next_conn w) (live w) (mallocs w).
Definition set_live {D} (n : Z) (w : world D) : world D :=
  mk_world (file w) (instance w) (refs w) (objs w) (fresh w) (conns w) (next_conn w) n (mallocs w).
Definition set_mallocs {D} (n : nat) (w : world D) : world D :=
  mk_world (file w) (instance w) (refs w) (objs w) (fresh w) (conns w) (next_conn w) (live w) n.
Definition set_dbh (c : option nat) (s : st) : st := mk_st c (rec s) (rcnt s) (counter s) (clmncnt s) (colmn s) (colmntype s).
Definition set_rec (r : option (list record_t)) (n : Z) (s : st) : st := mk_st (dbh s) r n (counter s) (clmncnt s) (colmn s) (colmntype s).
Definition set_counter (n : Z) (s : st) : st := mk_st (dbh s) (rec s) (rcnt s) n (clmncnt s) (colmn s) (colmntype s).
Definition set_colmn (c : list (list Z)) (s : st) : st := mk_st (dbh s) (rec s) (rcnt s) (counter s) (clmncnt s) c (colmntype s).
Definition set_types (n : nat) (t : list Z) (s : st) : st := mk_st (dbh s) (rec s) (rcnt s) (counter s) n (colmn s) t.

Section driver.
Context {D Q : Type} `{L : Sqlite D Q}.
Variable malloc : nat -> bool.
(** The 512 bytes [realloc] gives for a record. *)
Variable garbage : nat -> nat -> list Z.
Implicit Types (w : world D).

(** ** Connections *)
Definition __sqlite3_init w : option nat * world D :=
  match instance w with
  | Some h => (Some h, set_obj h st0 (set_refs (u32 (refs w + 1)) w))
  | None =>
      let w1 := set_refs 1 (set_mallocs (S (mallocs w)) w) in
      if malloc (mallocs w) then
        let h := fresh w in
        (Some h, mk_world (file w1) (Some h) (refs w1) (<[h := st0]> (objs w1)) (S h) (conns w1) (next_conn w1) (live w1) (mallocs w1))
      else (None, w1)
  end.
(** [sqlite3_open]: an open that fails mostly sets the connection too. *)
Inductive opened := Opened | OpenFailed (connection : bool).
Definition open_conn (h : nat) (s : st) w : world D :=
  mk_world (file w) (instance w) (refs w) (<[h := set_dbh (Some (next_conn w)) s]> (objs w)) (fresh w)
    (conns w ++ [next_conn w]) (S (next_conn w)) (live w) (mallocs w).
Definition __sqlite3_real_connect (o : opened) (handle : option nat) w : res (option nat * world D) :=
  match handle with
  | None => Ok (None, w)
  | Some h =>
      if bool_decide (handle <> instance w) then Ok (None, w) else
      s ← deref (objs w !! h);
      match dbh s, o with
      | Some _, _ => Ok (handle, w)
      | None, Opened => Ok (handle, open_conn h s w)
      | None, OpenFailed true => Ok (None, open_conn h s w)
      | None, OpenFailed false => Ok (None, w)
      end
  end.
(** [sqlite3_close] of a handle without connection does nothing; the handle itself is
    not freed. *)
Definition __sqlite3_close (handle : option nat) w : res (world D) :=
  if refs w =? 0 then
    h ← deref handle; s ← deref (objs w !! h);
    Ok (mk_world sq_empty None (refs w) (<[h := set_rec None 0 s]> (objs w)) (fresh w)
          (match dbh s with Some c => filter (fun x => x <> c) (conns w) | None => conns w end) (next_conn w) (live w) (mallocs w))
  else Ok (set_refs (refs w - 1) w).

(** ** Queries: [__sqlite3_query], [__sqlite3_callback_store] *)
Definition column_type (c : column) : Z :=
  match c_decl c with
  | None => SQLITE_INTEGER
  | Some cn => if strncaseeq 4 cn (lit "TEXT") then SQLITE_TEXT else SQLITE_INTEGER
  end.
Definition column_types (cols : list column) (types : list Z) : res (list Z) := put_all (fun c _ => Ok (column_type c.2)) cols types.
(** A name or a text is copied without its end. *)
Definition copy_text (room : nat) (s : cstring) (b : list Z) : res (list Z) := wr_bytes b 0 (take room s).
Definition store_cell (fresh_ : nat -> list Z) (vals : list (option cstring)) (recs : list record_t) (m : nat) : res (list record_t) :=
  v ← deref (vals !! m);
  u ← match v with Some s => copy_text 511 s (fresh_ m) | None => Ok (bzero 512) end;
  Ok (recs ++ [(SVAL_FLAG, u)]).
Definition __sqlite3_callback_store (vals : list (option cstring)) (columns : list cstring) (s : st) (k : nat) : res (Z * st) :=
  c ← (if counter s =? 0 then
         foldM (fun c n => x ← deref (columns !! n); b ← deref (c !! n); b ← copy_text 63 x b; Ok (<[n := b]> c))
           (seq 0 (clmncnt s)) (colmn s)
       else Ok (colmn s));
  let s := set_colmn c s in
  if negb (malloc k) then Ok (ERR, set_rec None (rcnt s) s) else
  l ← foldM (store_cell (garbage k) vals) (seq 0 (clmncnt s)) (default [] (rec s));
  Ok (OK, set_counter (u32 (counter s + 1)) (set_rec (Some l) (u32 (rcnt s + Z.of_nat (clmncnt s))) s)).
(** [sqlite3_exec] gives the rows to the callback until it refuses one; [Some n]: the
    n-th was refused. *)
Fixpoint exec_rows (names : list cstring) (rows : list (list (option cstring))) (n : nat) (s : st) (k : nat) : res (option nat * st * nat) :=
  match rows with
  | [] => Ok (None, s, k)
  | vals :: rows =>
      '(rc, s) ← __sqlite3_callback_store vals names s k;
      if rc =? OK then exec_rows names rows (S n) s (S k) else Ok (Some n, s, S k)
  end.
Definition word (parsed : option (list sqlparse)) (n : nat) : cstring := until_nul (q (nth n (default [] parsed) sqlparse0)).
Definition __sqlite3_query (handle : option nat) (sql : option cstring) w : res (Z * world D) :=
  match handle, sql with
  | Some h, Some sql =>
      if (length sql =? 0)%nat then Ok (ERR, w) else
      '(rc, parsed) ← pgw_parse_sql (malloc (mallocs w)) sql (Some (replicate 32 sqlparse0)) 31;
      let w := set_mallocs (S (mallocs w)) w in
      if rc <? 2 then Ok (ERR, w) else
      if existsb (skips (word parsed 0) (word parsed 1)) __skip_sql then Ok (OK, w) else
      s ← deref (objs w !! h);
      let s := set_counter 0 (set_rec None 0 s) in
      match dbh s, sq_prepare sql (file w) with
      | Some _, Some stmt =>
          t ← column_types (sq_columns stmt) (colmntype s);
          let s := set_types (length (sq_columns stmt)) t s in
          let x := sq_exec sql (file w) in
          '(stop, s, k) ← exec_rows (x_names x) (x_rows x) 0 s (mallocs w);
          let w := set_obj h s (set_mallocs k w) in
          match stop with
          | Some n => Ok (ERR, set_file (sq_stopped sql n (file w)) w)
          | None => Ok (if x_ok x then OK else ERR, set_file (x_db x) w)
          end
      | _, _ => Ok (ERR, set_obj h s w)
      end
  | _, _ => Ok (ERR, w)
  end.

(** ** Results *)
Definition __sqlite3_store_result (handle : option nat) w : res (option st_res * world D) :=
  match handle with
  | None => Ok (None, w)
  | Some h =>
      s ← deref (objs w !! h);
      match rec s with
      | None => Ok (None, w)
      | Some l =>
          if rcnt s =? 0 then Ok (None, w) else
          let k := mallocs w in
          if negb (malloc k) then Ok (None, set_mallocs (k + 1) w) else
          if negb (malloc (k + 1)%nat) then Ok (None, set_mallocs (k + 2) w) else
          rows ← foldM (fun rows n => r ← deref (l !! n); require (malloc (k + 2 + n)%nat) Undefined;; Ok (rows ++ [r.2]))
                   (seq 0 (Z.to_nat (rcnt s))) [];
          Ok (Some (mk_res rows (rcnt s) (counter s) 0 (clmncnt s) (colmn s) (colmntype s)), set_mallocs (k + 2 + Z.to_nat (rcnt s)) w)
      end
  end.
Definition __sqlite3_num_rows (r : option st_res) : Z := match r with None => 0 | Some r => r_counter r end.
(** The row is a pointer to its first value: an index of [rec]. *)
Definition __sqlite3_fetch_row (r : option st_res) : option nat * option st_res :=
  match r with
  | None => (None, r)
  | Some s =>
      if r_rcnt s <=? curpos s then (None, r)
      else (Some (Z.to_nat (curpos s)),
            Some (mk_res (r_rec s) (r_rcnt s) (r_counter s) (u32 (curpos s + Z.of_nat (r_clmncnt s))) (r_clmncnt s) (r_colmn s) (r_colmntype s)))
  end.
(** The test is the wrong way round: nothing is released, and a null pointer is followed. *)
Definition __sqlite3_free_result (r : option st_res) : res (option st_res) :=
  match r with None => Fault Undefined | Some _ => Ok r end.

(** ** Prepared statements *)
Definition __sqlite3_stmt_init (handle : option nat) w : res (option (st_stmt Q) * world D) :=
  match handle with
  | None => Ok (None, w)
  | Some h =>
      if bool_decide (handle <> instance w) then Ok (None, w) else
      s ← deref (objs w !! h);
      match dbh s with
      | None => Ok (None, w)
      | Some c => require (malloc (mallocs w)) Undefined;; Ok (Some (mk_stmt (Some c) None None), set_mallocs (S (mallocs w)) w)
      end
  end.
Definition __sqlite3_stmt_prepare (handle : option (st_stmt Q)) (query : option cstring) w : res (Z * option (st_stmt Q) * world D) :=
  match handle, query with
  | Some p, Some sql =>
      require (malloc (mallocs w)) Undefined;;
      let w := set_mallocs (S (mallocs w)) w in
      match sq_prepare sql (file w) with
      | Some s => Ok (OK, Some (mk_stmt (s_dbh p) (Some sql) (Some s)), set_live (live w + 1) w)
      | None => Ok (ERR, Some (mk_stmt (s_dbh p) (Some sql) None), w)
      end
  | _, _ => Ok (ERR, handle, w)
  end.
Definition __sqlite3_stmt_close (stmt : option (st_stmt Q)) w : Z * world D :=
  match stmt with
  | Some p => (OK, match s_stmt p with Some _ => set_live (live w - 1) w | None => w end)
  | None => (OK, w)
  end.
Definition __sqlite3_stmt_reset (stmt : option (st_stmt Q)) : res (Z * option (st_stmt Q)) :=
  p ← deref stmt;
  match s_stmt p with
  | None => Ok (SQLITE_OK, stmt)
  | Some s => let '(rc, s) := sq_reset s in Ok (rc, Some (mk_stmt (s_dbh p) (s_sql p) (Some s)))
  end.
(** A parameter of [bnd]: its type and the number its buffer points to. *)
Record bind := mk_bind { buffer_type : Z; buffer : option Z }.
(** The array ends with the first null buffer; [bnd] is the memory from the array on. *)
Fixpoint bind_loop (n : nat) (bnd : list bind) (s : Q) : res (Z * Q) :=
  match bnd with
  | [] => Fault Undefined
  | b :: bnd =>
      match buffer b with
      | None => Ok (OK, s)
      | Some v =>
          if buffer_type b =? MYSQL_TYPE_LONGLONG then
            let '(rc, s) := sq_bind_int64 (n + 1)%nat (signed 64 v) s in
            if negb (rc =? SQLITE_OK) then Ok (ERR, s) else bind_loop (S n) bnd s
          else bind_loop (S n) bnd s
      end
  end.
Definition __sqlite3_stmt_bind_param (stmt : option (st_stmt Q)) (bnd : option (list bind)) : res (Z * option (st_stmt Q)) :=
  match stmt, bnd with
  | Some p, Some bnd =>
      s ← deref (s_stmt p);
      '(rc, s) ← bind_loop 0 bnd (sq_clear s);
      Ok (rc, Some (mk_stmt (s_dbh p) (s_sql p) (Some s)))
  | _, _ => Ok (ERR, stmt)
  end.

(** ** [__sqlite3_execute] *)
Section execute.
Context {U : Type}.
Variable callback : option (Z -> Z -> list (list Z) -> list record_t -> U -> U).
Definition read_cell (types : list Z) (row : list cell) (c : nat * column) : res record_t :=
  ty ← deref (types !! c.1); v ← deref (row !! c.1);
  if ty =? SQLITE_TEXT then
    u ← match c_text v with Some s => copy_text 511 s (bzero 512) | None => Ok (bzero 512) end;
    Ok (SVAL_FLAG, u)
  else Ok (0, le_store 8 (u64 (c_int v)) ++ bzero 504).
(** [Ok None]: the fuel has run out and the statement still has rows. *)
Fixpoint step_loop (fuel : nat) (cols : list column) (types : list Z) (names : list (list Z)) (counter : Z) (s : Q) (d : D) (u : U)
    : res (option (Q * D * U)) :=
  match fuel with
  | O => Ok None
  | S fuel =>
      match sq_step s d with
      | (None, s, d) => Ok (Some (s, d, u))
      | (Some row, s, d) =>
          record ← put_all (fun c _ => read_cell types row c) cols (replicate 64 record0);
          let u := match callback with Some cb => cb counter (zlen cols) names record u | None => u end in
          step_loop fuel cols types names (u32 (counter + 1)) s d u
      end
  end.
Definition column_names (cols : list column) : res (list (list Z)) :=
  put_all (fun c b => match c_name c.2 with Some n => copy_text 63 n b | None => Ok b end) cols (replicate 64 colmn0).
Definition __sqlite3_execute (fuel : nat) (stmt : option (st_stmt Q)) (u : U) w : res (option (Z * option (st_stmt Q) * U * world D)) :=
  match stmt with
  | None => Ok (Some (ERR, stmt, u, w))
  | Some p =>
      match s_sql p, s_dbh p, s_stmt p with
      | None, _, _ | _, None, _ => Ok (Some (ERR, stmt, u, w))
      | _, _, None => Ok (Some (OK, stmt, u, w))
      | _, _, Some s =>
          let cols := sq_columns s in
          types ← column_types cols (replicate 64 0);
          names ← column_names cols;
          r ← step_loop fuel cols types names 0 s (file w) u;
          match r with
          | None => Ok None
          | Some (s, d, u) => Ok (Some (OK, Some (mk_stmt (s_dbh p) (s_sql p) (Some s)), u, set_file d w))
          end
      end
  end.
End execute.
End driver.

(** ** What the library promises

    [sq_program]: the text of a statement; [sq_result] and [sq_after]: the rows and the
    database when it has run with its first parameter bound; [sq_rows] and
    [sq_final]: what a statement that is under way still gives. *)
Class SqliteOk (D Q : Type) `{Sqlite D Q} := {
  sq_program : Q -> cstring;
  sq_cols : cstring -> list column;
  sq_result : cstring -> Z -> D -> list (list cell);
  sq_after : cstring -> Z -> D -> D;
  sq_rows : Q -> D -> list (list cell);
  sq_final : Q -> D -> D;
  prepare_program : forall sql d s, sq_prepare sql d = Some s -> sq_program s = sql;
  columns_program : forall s, sq_columns s = sq_cols (sq_program s);
  reset_program : forall s, sq_program (sq_reset s).2 = sq_program s;
  clear_program : forall s, sq_program (sq_clear s) = sq_program s;
  bind_program : forall n v s, sq_program (sq_bind_int64 n v s).2 = sq_program s;
  run_rows : forall s v d, let s' := (sq_bind_int64 1 v (sq_clear (sq_reset s).2)).2 in
    sq_rows s' d = sq_result (sq_program s) v d /\ sq_final s' d = sq_after (sq_program s) v d;
  step_rows : forall s d, match sq_rows s d with
    | [] => exists s', sq_step s d = (None, s', sq_final s d) /\ sq_program s' = sq_program s
    | r :: rs => length r = length (sq_columns s) /\ exists s' d', sq_step s d = (Some r, s', d') /\
        sq_rows s' d' = rs /\ sq_final s' d' = sq_final s d /\ sq_program s' = sq_program s
    end;
  exec_rows_fit : forall sql d s, sq_prepare sql d = Some s -> length (x_names (sq_exec sql d)) = length (sq_columns s) /\
    Forall (fun vals => length vals = length (sq_columns s)) (x_rows (sq_exec sql d));
}.

(** ** The abstract database of the handlers *)
Definition cell_record (c : column) (v : cell) : record :=
  if column_type c =? SQLITE_TEXT then SVal (until_nul (take 511 (default [] (c_text v)))) else NVal (u64 (c_int v)).
(** The words of a text are its pieces between blanks.  DROP DATABASE, CREATE DATABASE
    and USE, in any case, do not reach the library. *)
Fixpoint pieces (s : cstring) : list cstring :=
  match s with
  | [] => [[]]
  | c :: s => match pieces s with
              | p :: ps => if c =? 32 then [] :: p :: ps else (c :: p) :: ps
              | [] => []
              end
  end.
Definition words (s : cstring) : list cstring := filter (fun p => p <> []) (pieces s).
Definition upper (c : Z) : Z := if (97 <=? c) && (c <=? 122) then c - 32 else c.
Definition administrative (first second : cstring) : bool :=
  bool_decide (upper <$> first = lit "USE") ||
  (bool_decide (upper <$> first = lit "DROP") || bool_decide (upper <$> first = lit "CREATE")) && bool_decide (upper <$> second = lit "DATABASE").
Section database.
Context {D Q : Type} `{LO : SqliteOk D Q} (stmts : stmt -> cstring).
Definition query_result (sql : cstring) (d : D) : Z * D :=
  match words sql with
  | first :: second :: _ =>
      if administrative first second then (OK, d) else
      match sq_prepare sql d with
      | Some _ => let x := sq_exec sql d in (if x_ok x then OK else ERR, x_db x)
      | None => (ERR, d)
      end
  | _ => (ERR, d)
  end.
Definition sqlite_database : Database D := {|
  db_query := query_result;
  db_bind _ _ _ := true;
  db_select st key d :=
    let p := stmts st in let v := signed 64 key in
    (Some (zip_with cell_record (sq_cols p) <$> sq_result p v d), sq_after p v d);
|}.
End database.

(** ** Proofs *)
Section proofs.
Context {D Q : Type} `{LO : SqliteOk D Q}.
Implicit Types (w : world D).

Lemma copy_text_ok room (s b : list Z) : (room <= length b)%nat -> copy_text room s b = Ok (splice 0 (take room s) b).
Proof. intros. unfold copy_text. apply wr_bytes_ok; [lia|]. rewrite length_take. lia. Qed.
Lemma length_copied room (s b : list Z) : (room <= length b)%nat -> length (splice 0 (take room s) b) = length b.
Proof. intros. apply length_splice; [lia|]. rewrite length_take. lia. Qed.
Lemma column_types_ok cols types : (length cols <= length types)%nat ->
  column_types cols types = Ok ((column_type <$> cols) ++ drop (length cols) types).
Proof.
  intros Hl. apply put_all_spec; [done|apply length_fmap|]. intros i c b Ec _. eexists. rewrite list_lookup_fmap, Ec. done.
Qed.
Lemma column_names_ok cols : (length cols <= 64)%nat -> exists l, column_names cols = Ok l.
Proof.
  intros Hl. eexists. apply put_all_spec with
    (rs := (fun c => match c_name c with Some n => splice 0 (take 63 n) colmn0 | None => colmn0 end) <$> cols);
    [by rewrite length_replicate|apply length_fmap|].
  intros i c b Ec Eb. apply lookup_replicate in Eb as [-> _]. eexists. rewrite list_lookup_fmap, Ec. split; [done|]. cbn [fst snd].
  destruct (c_name c); [|done]. apply copy_text_ok. apply Nat.leb_le. reflexivity.
Qed.

Lemma read_row cols row types : (length cols <= 64)%nat -> length row = length cols ->
  types = (column_type <$> cols) ++ drop (length cols) (replicate 64 0) ->
  exists cells, put_all (fun c _ => read_cell types row c) cols (replicate 64 record0) = Ok (cells ++ replicate (64 - length cols) record0) /\
    record_of <$> cells = zip_with cell_record cols row /\ length cells = length cols.
Proof.
  intros Hl Hr ->.
  set (val := fun (c : column) (v : cell) => if column_type c =? SQLITE_TEXT then
     (SVAL_FLAG, match c_text v with Some s => splice 0 (take 511 s) (bzero 512) | None => bzero 512 end)
     else (0, le_store 8 (u64 (c_int v)) ++ bzero 504)).
  exists (zip_with val cols row).
  assert (Lz : length (zip_with val cols row) = length cols) by (rewrite length_zip_with; lia). split; [|split; [|done]].
  - rewrite (put_all_spec _ _ _ (zip_with val cols row)); [by rewrite drop_replicate|by rewrite length_replicate|done|].
    intros i c b Ec _. destruct (lookup_lt_is_Some_2 row i) as [v Ev]; [apply lookup_lt_Some in Ec; lia|].
    exists (val c v). rewrite lookup_zip_with, Ec, Ev. split; [done|]. unfold read_cell. cbn [fst snd].
    rewrite lookup_app_l by (rewrite length_fmap; by apply lookup_lt_Some in Ec). rewrite list_lookup_fmap, Ec, Ev. cbn [fmap option_fmap option_map]. res_simpl.
    unfold val. case_if; [|done]. destruct (c_text v); [|done]. rewrite copy_text_ok by (apply Nat.leb_le; reflexivity). done.
  - apply list_eq_same_length with (length cols); [rewrite length_zip_with; lia|by rewrite length_fmap|].
    intros i x y _ Ex Ey. rewrite list_lookup_fmap, lookup_zip_with in Ex. rewrite lookup_zip_with in Ey. destruct (cols !! i) as [c|]; [|done]. destruct (row !! i) as [v|]; [|done].
    change (Some (record_of (val c v)) = Some x) in Ex. change (Some (cell_record c v) = Some y) in Ey.
    assert (x = record_of (val c v)) as -> by congruence. assert (y = cell_record c v) as -> by congruence. unfold record_of, val, cell_record. destruct (column_type c =? SQLITE_TEXT).
    + cbn [fst snd]. change (SVAL_FLAG =? 0) with false. cbn match. f_equal. destruct (c_text v) as [s|]; [|done]. cbn [default from_option id].
      unfold splice. change (Z.to_nat 0) with 0%nat. rewrite take_0, app_nil_l, Nat.add_0_l.
      assert (length (take 511 s) < 512)%nat by (rewrite length_take; lia).
      destruct (drop (length (take 511 s)) (bzero 512)) as [|z l] eqn:Ez.
      { apply (f_equal length) in Ez. rewrite length_drop in Ez. change (length (bzero 512)) with 512%nat in Ez. cbn [length] in Ez. lia. }
      assert (z = 0) as ->; [|apply until_nul_end].
      assert (Hz : drop (length (take 511 s)) (bzero 512) !! 0%nat = Some z) by by rewrite Ez. rewrite lookup_drop in Hz.
      by apply lookup_replicate in Hz as [-> _].
    + cbn [fst snd]. change (0 =? 0) with true. cbn match. rewrite take_app_length' by (by rewrite length_le_store).
      rewrite le_load_store. f_equal. apply Z.mod_small. apply (wrap_range 64). lia.
Qed.

(** *** Executing a statement *)
Lemma step_loop_spec {U} (cb : list record -> U -> U) cols types names rows (fuel : nat) counter s d (u : U) :
  (length cols <= 64)%nat -> types = (column_type <$> cols) ++ drop (length cols) (replicate 64 0) ->
  sq_rows s d = rows -> sq_columns s = cols -> (length rows < fuel)%nat ->
  exists s', step_loop (Some (on_records cb)) fuel cols types names counter s d u =
      Ok (Some (s', sq_final s d, foldl (fun u r => cb r u) u (zip_with cell_record cols <$> rows))) /\
    sq_program s' = sq_program s.
Proof.
  intros Hl Ht. revert fuel counter s d u. induction rows as [|row rows IH]; intros fuel counter s d u Hr Hc Hf;
    (destruct fuel as [|fuel]; [cbn [length] in Hf; lia|]); cbn [step_loop]; pose proof (step_rows s d) as Hs; rewrite Hr in Hs.
  - destruct Hs as (s' & -> & Hp). by exists s'.
  - destruct Hs as (Lr & s' & d' & -> & Hrows & Hfin & Hp). rewrite Hc in Lr.
    destruct (read_row cols row types Hl Lr Ht) as (cells & -> & Ec & Lc). res_simpl.
    destruct (IH fuel (u32 (counter + 1)) s' d' (cb (zip_with cell_record cols row) u)) as (s2 & E2 & Hp2);
      [done|by rewrite !columns_program, Hp in *|cbn [length] in Hf; lia|].
    exists s2. split; [|by rewrite Hp2]. unfold on_records at 2. rewrite Nat2Z.id, take_app_length' by done. rewrite Ec, E2, Hfin. done.
Qed.
Lemma execute_spec {U} (cb : list record -> U -> U) (fuel : nat) c sql s w (u : U) :
  (length (sq_columns s) <= 64)%nat -> (length (sq_rows s (file w)) < fuel)%nat ->
  exists s', __sqlite3_execute (Some (on_records cb)) fuel (Some (mk_stmt (Some c) (Some sql) (Some s))) u w =
      Ok (Some (OK, Some (mk_stmt (Some c) (Some sql) (Some s')),
                foldl (fun u r => cb r u) u (zip_with cell_record (sq_columns s) <$> sq_rows s (file w)), set_file (sq_final s (file w)) w)) /\
    sq_program s' = sq_program s.
Proof.
  intros Hl Hf. unfold __sqlite3_execute. cbn [s_sql s_dbh s_stmt].
  rewrite column_types_ok by (by rewrite length_replicate). res_simpl. destruct (column_names_ok (sq_columns s) Hl) as [names ->]. res_simpl.
  destruct (step_loop_spec cb (sq_columns s) _ names _ fuel 0 s (file w) u Hl eq_refl eq_refl eq_refl Hf) as (s' & -> & Hp). res_simpl.
  by exists s'.
Qed.

(** *** A lookup as the handlers make it: reset, bind the key, execute *)
Definition lookup {U} (cb : list record -> U -> U) (fuel : nat) (bnd : list bind) (p : option (st_stmt Q)) (u : U) w
    : res (option (Z * option (st_stmt Q) * U * world D)) :=
  '(rc, p) ← __sqlite3_stmt_reset p;
  if negb (rc =? 0) then Fault RtePanic else
  '(rc, p) ← __sqlite3_stmt_bind_param p (Some bnd);
  if negb (rc =? 0) then Fault RtePanic else
  __sqlite3_execute (Some (on_records cb)) fuel p u w.
(** The array of one key, and a null buffer behind it. *)
Definition key_bind (key : Z) (behind : list bind) (t : Z) : list bind := mk_bind MYSQL_TYPE_LONGLONG (Some key) :: mk_bind t None :: behind.

Lemma reset_eq c sql s : (sq_reset s).1 = SQLITE_OK ->
  __sqlite3_stmt_reset (Some (mk_stmt c sql (Some s))) = Ok (OK, Some (mk_stmt c sql (Some (sq_reset s).2))).
Proof. intros H1. unfold __sqlite3_stmt_reset. cbn [deref mbind res_bind s_stmt s_dbh s_sql]. destruct (sq_reset s). cbn in *. by subst. Qed.
Lemma bind_eq c sql s key behind t : let s' := sq_bind_int64 1 (signed 64 key) (sq_clear s) in s'.1 = SQLITE_OK ->
  __sqlite3_stmt_bind_param (Some (mk_stmt c sql (Some s))) (Some (key_bind key behind t)) = Ok (OK, Some (mk_stmt c sql (Some s'.2))).
Proof.
  intros s' H1. unfold __sqlite3_stmt_bind_param, key_bind. cbn [deref mbind res_bind s_stmt s_dbh s_sql bind_loop buffer buffer_type].
  change (MYSQL_TYPE_LONGLONG =? MYSQL_TYPE_LONGLONG) with true. cbn match. cbn [Nat.add]. fold s'. destruct s' as [rc s2]. cbn in H1. by subst.
Qed.
Lemma lookup_spec {U} (cb : list record -> U -> U) (fuel : nat) key behind t c sql s w (u : U) :
  (sq_reset s).1 = SQLITE_OK -> (sq_bind_int64 1 (signed 64 key) (sq_clear (sq_reset s).2)).1 = SQLITE_OK ->
  (length (sq_cols (sq_program s)) <= 64)%nat -> (length (sq_result (sq_program s) (signed 64 key) (file w)) < fuel)%nat ->
  exists s', lookup cb fuel (key_bind key behind t) (Some (mk_stmt (Some c) (Some sql) (Some s))) u w =
      Ok (Some (OK, Some (mk_stmt (Some c) (Some sql) (Some s')),
                foldl (fun u r => cb r u) u (zip_with cell_record (sq_cols (sq_program s)) <$> sq_result (sq_program s) (signed 64 key) (file w)),
                set_file (sq_after (sq_program s) (signed 64 key) (file w)) w)) /\
    sq_program s' = sq_program s.
Proof.
  intros Hr Hb Hl Hf. destruct (run_rows s (signed 64 key) (file w)) as [Er Ef]. revert Hb Er Ef.
  set (s2 := sq_bind_int64 1 (signed 64 key) (sq_clear (sq_reset s).2)). intros Hb Er Ef.
  assert (Hp : sq_program s2.2 = sq_program s) by (unfold s2; by rewrite bind_program, clear_program, reset_program).
  unfold lookup. rewrite reset_eq by done. res_simpl. change (negb (OK =? 0)) with false. cbn match.
  rewrite (bind_eq (Some c) (Some sql) (sq_reset s).2 key behind t Hb). res_simpl. change (negb (OK =? 0)) with false. cbn match. fold s2.
  destruct (execute_spec cb fuel c sql s2.2 w u) as (s' & E & Hp'); [by rewrite columns_program, Hp|by rewrite Er|].
  exists s'. split; [|congruence]. rewrite columns_program, Hp, Er, Ef in E. exact E.
Qed.

(** The handlers bind an array of one key: the loop looks behind it. *)
Lemma bind_reads_behind_array con sql (s : Q) key :
  (sq_bind_int64 1 (signed 64 key) (sq_clear s)).1 = SQLITE_OK ->
  __sqlite3_stmt_bind_param (Some (mk_stmt con sql (Some s))) (Some [mk_bind MYSQL_TYPE_LONGLONG (Some key)]) = Fault Undefined.
Proof.
  intros Hb. unfold __sqlite3_stmt_bind_param. cbn [s_stmt deref]. res_simpl. cbn [bind_loop buffer buffer_type].
  change (MYSQL_TYPE_LONGLONG =? MYSQL_TYPE_LONGLONG) with true. cbn match. cbn [Nat.add].
  destruct (sq_bind_int64 1 (signed 64 key) (sq_clear s)) as [rc s2]. cbn in Hb. by subst.
Qed.
Lemma lookup_reads_behind {U} (cb : list record -> U -> U) (fuel : nat) key c sql s w (u : U) :
  (sq_reset s).1 = SQLITE_OK -> (sq_bind_int64 1 (signed 64 key) (sq_clear (sq_reset s).2)).1 = SQLITE_OK ->
  lookup cb fuel [mk_bind MYSQL_TYPE_LONGLONG (Some key)] (Some (mk_stmt c sql (Some s))) u w = Fault Undefined.
Proof.
  intros Hr Hb. unfold lookup. rewrite reset_eq by done. res_simpl. change (negb (OK =? 0)) with false. cbn match.
  by rewrite bind_reads_behind_array.
Qed.

(** *** Queries *)
Definition st_wf (s : st) : Prop := length (colmn s) = 64%nat /\ Forall (fun b : list Z => length b = 64%nat) (colmn s) /\ length (colmntype s) = 64%nat.
Lemma st0_wf : st_wf st0.
Proof. split; [done|]. split; [|done]. by apply Forall_replicate. Qed.

Definition cell_of (fresh_ : list Z) (v : option cstring) : record_t :=
  (SVAL_FLAG, match v with Some t => splice 0 (take 511 t) fresh_ | None => bzero 512 end).
Lemma store_cell_eq (fresh_ : nat -> list Z) vals recs m v : length (fresh_ m) = 512%nat -> vals !! m = Some v ->
  store_cell fresh_ vals recs m = Ok (recs ++ [cell_of (fresh_ m) v]).
Proof.
  intros Hf Ev. unfold store_cell. rewrite Ev. cbn [deref]. res_simpl. destruct v as [t|]; [|done].
  rewrite copy_text_ok by (rewrite Hf; lia). done.
Qed.
Lemma store_cells (fresh_ : nat -> list Z) (vals rest : list (option cstring)) k (acc : list record_t) :
  (forall m, length (fresh_ m) = 512%nat) -> drop k vals = rest ->
  foldM (store_cell fresh_ vals) (seq k (length rest)) acc = Ok (acc ++ imap (fun m v => cell_of (fresh_ (k + m)%nat) v) rest).
Proof.
  intros Hf. revert k acc. induction rest as [|v rest IH]; intros k acc Hd; cbn [length seq foldM imap].
  { by rewrite app_nil_r. }
  assert (Ev : vals !! k = Some v) by (rewrite <-(Nat.add_0_r k), <-lookup_drop, Hd; done).
  rewrite (store_cell_eq _ _ _ _ v) by done. res_simpl. rewrite IH.
  - rewrite <-app_assoc. cbn [app]. rewrite Nat.add_0_r. do 3 f_equal. apply imap_ext. intros i x _. unfold compose. by rewrite Nat.add_succ_r.
  - rewrite <-Nat.add_1_r, <-drop_drop, Hd. done.
Qed.
Lemma names_stored (columns : list cstring) l (c : list (list Z)) :
  Forall (fun n => (n < length columns /\ n < length c)%nat) l -> Forall (fun b : list Z => length b = 64%nat) c ->
  exists c', foldM (fun c n => x ← deref (columns !! n); b ← deref (c !! n); b ← copy_text 63 x b; Ok (<[n := b]> c)) l c = Ok c' /\
    length c' = length c /\ Forall (fun b : list Z => length b = 64%nat) c'.
Proof.
  intros Hl. revert c Hl. induction l as [|n l IH]; intros c Hl Hc; [by exists c|]. apply Forall_cons in Hl as [[Hn1 Hn2] Hl].
  destruct (lookup_lt_is_Some_2 columns n Hn1) as [x Ex]. destruct (lookup_lt_is_Some_2 c n Hn2) as [b Eb].
  pose proof (Forall_lookup_1 _ _ _ _ Hc Eb) as Lb. cbn beta in Lb.
  cbn [foldM]. rewrite Ex, Eb. cbn [deref]. res_simpl. rewrite copy_text_ok by lia. res_simpl.
  destruct (IH (<[n:=splice 0 (take 63 x) b]> c)) as (c' & -> & L & F).
  - rewrite length_insert. done.
  - apply Forall_insert; [done|]. by rewrite length_copied by lia.
  - exists c'. rewrite length_insert in L. done.
Qed.
(** The callback, as [sqlite3_exec] calls it. *)
Lemma callback_store_ok (malloc : nat -> bool) (garbage : nat -> nat -> list Z) vals columns s k :
  (forall n, malloc n = true) -> (forall i m, length (garbage i m) = 512%nat) -> st_wf s ->
  length vals = clmncnt s -> length columns = clmncnt s -> (clmncnt s <= 64)%nat ->
  exists c, __sqlite3_callback_store malloc garbage vals columns s k = Ok (OK,
      mk_st (dbh s) (Some (default [] (rec s) ++ imap (fun m v => cell_of (garbage k m) v) vals)) (u32 (rcnt s + zlen vals))
        (u32 (counter s + 1)) (clmncnt s) c (colmntype s)) /\
    length c = 64%nat /\ Forall (fun b : list Z => length b = 64%nat) c.
Proof.
  intros Hm Hg (L1 & F1 & L2) Hv Hc Hl. unfold __sqlite3_callback_store.
  destruct (names_stored columns (seq 0 (clmncnt s)) (colmn s)) as (c & Ec & Lc & Fc); [|done|].
  { apply Forall_seq. lia. }
  assert (Hnames : exists c', (if counter s =? 0 then
         foldM (fun c n => x ← deref (columns !! n); b ← deref (c !! n); b ← copy_text 63 x b; Ok (<[n := b]> c))
           (seq 0 (clmncnt s)) (colmn s) else Ok (colmn s)) = Ok c' /\ length c' = 64%nat /\ Forall (fun b : list Z => length b = 64%nat) c').
  { case_if; [exists c|exists (colmn s)]; repeat split; try done. lia. }
  destruct Hnames as (c' & -> & Lc' & Fc'). res_simpl. rewrite Hm. cbn [negb]. cbn [set_colmn clmncnt rec rcnt counter].
  replace (seq 0 (clmncnt s)) with (seq 0 (length vals)) by (by rewrite Hv).
  rewrite (store_cells (garbage k) vals vals 0) by done. res_simpl. exists c'. by rewrite Hv.
Qed.
Lemma exec_rows_ok (malloc : nat -> bool) (garbage : nat -> nat -> list Z) columns rows n s k :
  (forall n, malloc n = true) -> (forall i m, length (garbage i m) = 512%nat) -> st_wf s ->
  Forall (fun vals : list (option cstring) => length vals = clmncnt s) rows -> length columns = clmncnt s -> (clmncnt s <= 64)%nat ->
  u32 (counter s) = counter s -> u32 (rcnt s) = rcnt s ->
  exists s', exec_rows malloc garbage columns rows n s k = Ok (None, s', (k + length rows)%nat) /\ st_wf s' /\ dbh s' = dbh s /\
    clmncnt s' = clmncnt s /\ counter s' = u32 (counter s + zlen rows) /\
    rcnt s' = u32 (rcnt s + zlen rows * Z.of_nat (clmncnt s)) /\
    default [] (rec s') = default [] (rec s) ++ concat (imap (fun i vals => imap (fun m v => cell_of (garbage (k + i)%nat m) v) vals) rows) /\
    (is_Some (rec s) \/ rows <> [] -> is_Some (rec s')).
Proof.
  intros Hm Hg. revert n s k. induction rows as [|vals rows IH]; intros n s k Hw Hr Hc Hl H1 H2; cbn [exec_rows].
  { exists s. rewrite Nat.add_0_r. cbn [length imap concat]. rewrite !Z.add_0_r, app_nil_r. naive_solver. }
  apply Forall_cons in Hr as [Hv Hr].
  destruct (callback_store_ok malloc garbage vals columns s k) as (c & -> & Lc & Fc); [done..|]. res_simpl. change (OK =? OK) with true. cbn match.
  destruct Hw as (_ & _ & Lt).
  match goal with |- context [exec_rows _ _ _ _ _ ?x _] => destruct (IH (S n) x (S k)) as (s' & -> & Hw' & Hd & Hn & Hcn & Hrc & Hrec & Hsome); [done..|by apply wrap_wrap|by apply wrap_wrap|] end.
  cbn [dbh clmncnt counter rcnt rec] in *. exists s'. split; [cbn [length]; by rewrite Nat.add_succ_r|].
  split; [done|]. split; [done|]. split; [done|]. rewrite wrap_add_l in Hcn, Hrc. cbn [length]. split; [|split; [|split]].
  - rewrite Hcn. f_equal. lia.
  - rewrite Hrc. f_equal. rewrite Hv. lia.
  - match type of Hrec with _ = default [] (Some ?x) ++ _ => change (default [] (Some x)) with x in Hrec end.
    rewrite Hrec, <-app_assoc. cbn [imap concat]. rewrite Nat.add_0_r. do 3 f_equal. apply imap_ext. intros i x _.
    unfold compose. by rewrite Nat.add_succ_r.
  - intros _. apply Hsome. left. by eexists.
Qed.

(** *** Reading a result: all rows of [mysql_store_result] *)
Fixpoint fetch_rows (fuel : nat) (r : option st_res) : list (list (list Z)) :=
  match fuel, __sqlite3_fetch_row r with
  | S fuel, (Some k, Some r') => take (r_clmncnt r') (drop k (r_rec r')) :: fetch_rows fuel (Some r')
  | _, _ => []
  end.
Lemma fetch_rows_spec (fuel n : nat) (rows : list (list (list Z))) (done rest : list (list Z)) l cl ct cnt :
  (0 < n)%nat -> Forall (fun row : list (list Z) => length row = n) rows -> l = done ++ concat rows ++ rest -> rest = [] ->
  zlen l < 2 ^ 32 -> (length rows < fuel)%nat ->
  fetch_rows fuel (Some (mk_res l (zlen l) cnt (zlen done) n cl ct)) = rows.
Proof.
  intros Hn Hr. revert fuel done. induction Hr as [|row rows Lr Hr IH]; intros fuel done El -> Hl Hf; (destruct fuel as [|fuel]; [cbn [length] in Hf; lia|]);
    cbn [fetch_rows]; unfold __sqlite3_fetch_row; cbn [r_rcnt curpos r_clmncnt r_rec r_counter r_colmn r_colmntype].
  - cbn [concat] in El. rewrite !app_nil_r in El. subst l. by rewrite Z.leb_refl.
  - cbn [concat] in El. assert (L : (length l = length done + n + length (concat rows))%nat).
    { rewrite El, !length_app, Lr. cbn [length]. lia. }
    rewrite (proj2 (Z.leb_gt _ _)) by lia. rewrite (wrap_small 32) by lia.
    assert (E : zlen done + Z.of_nat n = zlen (done ++ row)) by (rewrite length_app; lia). f_equal.
    + cbn [r_clmncnt r_rec]. rewrite Nat2Z.id, El, drop_app_length, <-app_assoc, take_app_length' by done. done.
    + rewrite E. apply IH; [by rewrite El, <-!app_assoc|done|done|cbn [length] in Hf; lia].
Qed.
Lemma copy_records (malloc : nat -> bool) k (l : list record_t) (n : nat) acc rest : (forall n, malloc n = true) -> drop n l = rest ->
  foldM (fun rows n => r ← deref (l !! n); require (malloc (k + n)%nat) Undefined;; Ok (rows ++ [r.2])) (seq n (length rest)) acc =
    Ok (acc ++ rest.*2).
Proof.
  intros Hm. revert n acc. induction rest as [|r rest IH]; intros n acc Hd; cbn [length seq foldM fmap list_fmap]; [by rewrite app_nil_r|].
  assert (Er : l !! n = Some r) by (rewrite <-(Nat.add_0_r n), <-lookup_drop, Hd; done).
  unfold record_t in *. rewrite Er, Hm. cbn [deref]. res_simpl. rewrite IH; [by rewrite <-app_assoc|]. by rewrite <-Nat.add_1_r, <-drop_drop, Hd.
Qed.
Lemma imap_fmap_2 {A B C} (f : nat -> A -> B) (g : B -> C) l : g <$> imap f l = imap (fun i x => g (f i x)) l.
Proof. revert f. induction l as [|x l IH]; intros f; cbn [imap fmap list_fmap]; [done|]. f_equal. apply IH. Qed.
Lemma concat_fmap_2 {A B} (f : A -> B) (l : list (list A)) : fmap (M:=list) f (concat l) = concat (fmap (M:=list) (fun x : list A => fmap (M:=list) f x) l).
Proof. induction l as [|x l IH]; cbn [concat fmap list_fmap]; [done|]. rewrite fmap_app. by f_equal. Qed.

Definition parsed_wf (l : list sqlparse) : Prop := length l = 32%nat /\ Forall (fun e => length (q e) = 32%nat) l.
Lemma parsed0_wf : parsed_wf (replicate 32 sqlparse0).
Proof. split; [done|]. by apply Forall_replicate. Qed.
Lemma store_word_ok n p l : parsed_wf l -> (n < 32)%nat ->
  exists e, l !! n = Some e /\ let l' := <[n := mk_sqlparse (splice 0 (take 31 p) (q e)) (zlen p)]> l in store_word n p l = Ok l' /\ parsed_wf l'.
Proof.
  intros [Ll Fl] Hn. destruct (lookup_lt_is_Some_2 l n) as [e Ee]; [lia|]. exists e. split; [done|]. cbv zeta.
  pose proof (Forall_lookup_1 _ _ _ _ Fl Ee) as Le. cbn beta in Le. assert (Lt : (length (take 31 p) <= 31)%nat) by (rewrite length_take; lia).
  unfold store_word. rewrite Ee. cbn [deref]. res_simpl. change (Z.to_nat (SQLPARSE_ILEN - 1)) with 31%nat. rewrite wr_bytes_ok by lia. res_simpl.
  split; [done|]. split; [by rewrite length_insert|]. apply Forall_insert; [done|]. cbn [q]. rewrite length_splice by lia. done.
Qed.
(** *** Words *)
Definition is_word (x : cstring) : Prop := x <> [] /\ Forall (fun c => c <> 32 /\ c <> 0) x.
Lemma token_pieces s : exists ps, pieces s = (token s).1 :: ps /\ filter (fun p => p <> []) ps = words (token s).2 /\ (length (token s).2 <= length s)%nat.
Proof.
  induction s as [|c s (ps & E & Ew & Hl)]; [by exists []|]. cbn [pieces token]. rewrite E. destruct (Z.eqb_spec c 32) as [->|Hc].
  - exists ((token s).1 :: ps). cbn [fst snd]. split; [done|]. split; [unfold words; by rewrite E|cbn; lia].
  - exists ps. destruct (token s) as [t r]. cbn [fst snd length] in *. split; [done|]. split; [done|lia].
Qed.
(** [strtok] takes the words off one by one. *)
Lemma strtok_words s :
  match words s with
  | [] => strtok s = None
  | x :: ws => exists r, strtok s = Some (x, r) /\ words r = ws /\ (length r < length s)%nat
  end.
Proof.
  induction s as [|c s IH]; [done|]. destruct (token_pieces s) as (ps & E & Ew & Hl). unfold words, strtok in *. cbn [pieces skip_blanks].
  rewrite E in *. destruct (Z.eqb_spec c 32) as [->|Hc].
  - rewrite filter_cons_False by (intros []; done). destruct (filter _ (_ :: ps)) as [|x ws]; [done|].
    destruct IH as (r & IH & Er & Hr). exists r. split; [done|]. split; [done|cbn [length]; lia].
  - rewrite filter_cons_True by done. exists (token s).2. rewrite Ew. cbn [token]. rewrite (proj2 (Z.eqb_neq c 32)) by done.
    destruct (token s) as [t r]. split; [done|]. split; [done|cbn [length snd] in *; lia].
Qed.
Lemma length_words s : (length (words s) <= length s)%nat.
Proof.
  remember (words s) as ws eqn:E. revert s E. induction ws as [|x ws IH]; intros s E; [cbn; lia|]. pose proof (strtok_words s) as Hs.
  rewrite <-E in Hs. destruct Hs as (r & _ & Er & Hr). specialize (IH r (eq_sym Er)). cbn [length]. lia.
Qed.
Lemma words_ok s : Forall (fun c => c <> 0) s -> Forall is_word (words s).
Proof.
  intros Hs. assert (Hp : Forall (Forall (fun c => c <> 32 /\ c <> 0)) (pieces s)).
  { induction Hs as [|c s Hc _ IH]; cbn [pieces]; [by repeat constructor|]. destruct (pieces s) as [|p ps]; [done|].
    apply Forall_cons in IH as [Hp IH]. destruct (Z.eqb_spec c 32); [by repeat constructor|]. by repeat constructor. }
  apply Forall_forall. intros x [Hx Hin]%list_elem_of_filter. rewrite Forall_forall in Hp. by split; [|apply Hp].
Qed.
(** The slots from [n] on hold the words, cut to 31 characters. *)
Definition holds (n : nat) (ws : list cstring) (l : list sqlparse) : Prop :=
  forall i x, ws !! i = Some x -> exists e, l !! (n + i)%nat = Some e /\ until_nul (q e) = take 31 x /\ len e = zlen x.
Definition empty_from (n : nat) (l : list sqlparse) : Prop := forall i e, (n <= i)%nat -> l !! i = Some e -> e = sqlparse0.
Lemma store_word_spec n p l : parsed_wf l -> (n < 32)%nat -> is_word p -> empty_from n l ->
  exists l', store_word n p l = Ok l' /\ parsed_wf l' /\ empty_from (S n) l' /\ (forall i, i <> n -> l' !! i = l !! i) /\ holds n [p] l'.
Proof.
  intros Hl Hn [_ Hp] He. destruct (store_word_ok n p l Hl Hn) as (e & Ee & E & Hw). eexists. split; [exact E|]. split; [exact Hw|].
  rewrite (He n e) in * by done. destruct Hl as [Ll _]. split; [|split].
  - intros i e' Hi. rewrite list_lookup_insert_ne by lia. apply He. lia.
  - intros i Hi. by apply list_lookup_insert_ne.
  - intros [|i] x Hx; [|done]. injection Hx as <-. rewrite Nat.add_0_r, list_lookup_insert_eq by lia. eexists. split; [done|]. cbn [q len]. split; [|done].
    assert (Lt : (length (take 31 p) <= 31)%nat) by (rewrite length_take; lia).
    unfold splice. change (Z.to_nat 0) with 0%nat. rewrite take_0, app_nil_l, Nat.add_0_l. unfold sqlparse0. cbn [q].
    destruct (drop (length (take 31 p)) (bzero 32)) as [|z r] eqn:Ez.
    { apply (f_equal length) in Ez. rewrite length_drop in Ez. change (length (bzero 32)) with 32%nat in Ez. cbn [length] in Ez. lia. }
    assert (Hz : drop (length (take 31 p)) (bzero 32) !! 0%nat = Some z) by by rewrite Ez. rewrite lookup_drop in Hz.
    apply lookup_replicate in Hz as [-> _]. rewrite until_nul_end. apply until_nul_all. apply Forall_take.
    eapply Forall_impl; [exact Hp|]. by intros c [_ ?].
Qed.
Lemma parse_loop_spec ws (fuel cnt count : nat) s l :
  words s = ws -> Forall is_word ws -> parsed_wf l -> (length ws <= fuel)%nat -> (cnt + 1 < count <= 32)%nat -> empty_from (S cnt) l ->
  exists l', parse_loop fuel s cnt count l = Ok (Nat.min (cnt + length ws) (count - 1), l') /\
    (forall i, (i <= cnt)%nat -> l' !! i = l !! i) /\ holds (S cnt) (take (count - 2 - cnt) ws) l'.
Proof.
  intros Es Hw. revert fuel cnt s l Es. induction Hw as [|x ws Hx Hw IH]; intros fuel cnt s l Es Hl Hf Hc He;
    pose proof (strtok_words s) as Hs; rewrite Es in Hs.
  { exists l. split; [|split; [done|by rewrite take_nil]]. cbn [length]. rewrite Nat.add_0_r, Nat.min_l by lia.
    destruct fuel; [done|]. cbn [parse_loop]. by rewrite Hs. }
  destruct Hs as (r & Hs & Er & _). destruct fuel as [|fuel]; [cbn [length] in Hf; lia|]. cbn [parse_loop length] in *. rewrite Hs.
  destruct (Nat.leb_spec count (S cnt + 1)) as [Hle|Hlt].
  { exists l. replace (count - 2 - cnt)%nat with 0%nat by lia. split; [|done]. f_equal. f_equal. lia. }
  destruct (store_word_spec (S cnt) x l Hl) as (l1 & -> & Hl1 & He1 & Hother & Hhold); [lia|done|done|]. res_simpl.
  destruct (IH fuel (S cnt) r l1) as (l2 & E2 & Hkeep & Hrest); [done|done|lia|lia|done|]. exists l2. split; [|split].
  - rewrite E2. f_equal. f_equal. lia.
  - intros i Hi. rewrite Hkeep by lia. apply Hother. lia.
  - replace (count - 2 - cnt)%nat with (S (count - 2 - S cnt)) by lia. cbn [take]. intros [|i] y Hy.
    + injection Hy as <-. rewrite Nat.add_0_r, Hkeep by lia. destruct (Hhold 0%nat x eq_refl) as (e & Ee & H1). rewrite Nat.add_0_r in Ee. by exists e.
    + cbn in Hy. rewrite <-Nat.add_succ_comm. by apply Hrest.
Qed.
Lemma parse_words sql : Forall (fun c => c <> 0) sql ->
  exists l, pgw_parse_sql true sql (Some (replicate 32 sqlparse0)) 31 =
      Ok (match words sql with [] => ERR | ws => Z.of_nat (Nat.min (length ws) 31) end, Some l) /\ holds 0 (take 30 (words sql)) l.
Proof.
  intros Hz. pose proof (words_ok sql Hz) as Hw. unfold pgw_parse_sql. destruct sql as [|c sql]; [by eexists|].
  pose proof (strtok_words (c :: sql)) as Hs. destruct (words (c :: sql)) as [|x ws]; [rewrite Hs; by eexists|]. destruct Hs as (r & -> & Er & _).
  apply Forall_cons in Hw as [Hx Hw]. cbn [negb].
  destruct (store_word_spec 0 x (replicate 32 sqlparse0) parsed0_wf) as (l1 & E1 & Hl1 & He1 & _ & Hh1); [lia|done| |].
  { intros i e _ Hi. by apply lookup_replicate in Hi as [-> _]. }
  destruct (parse_loop_spec ws (length r) 0 31 r l1) as (l & E & Hkeep & Hrest); [done|done|done|rewrite <-Er; apply length_words|lia|done|].
  rewrite E1. res_simpl. rewrite E. res_simpl. exists l. split.
  - f_equal. f_equal. cbn [length]. lia.
  - change (take 30 (x :: ws)) with (x :: take 29 ws). intros [|i] y Hy.
    + injection Hy as <-. rewrite Hkeep by lia. by apply Hh1.
    + cbn in Hy. by apply Hrest.
Qed.
Lemma word_held n l ws x : holds 0 ws l -> ws !! n = Some x -> word (Some l) n = take 31 x.
Proof. intros Hh Hx. destruct (Hh n x Hx) as (e & He & <- & _). unfold word. cbn [default from_option id]. by erewrite nth_lookup_Some. Qed.

(** The table of skipped statements. *)
Lemma strncase_upper a e : length a = length e -> Forall (fun c => 65 <= c <= 90) e ->
  strncaseeq (length e) a e = bool_decide (upper <$> a = e).
Proof.
  intros Hl He. revert a Hl. induction He as [|y e Hy _ IH]; intros [|x a] Hl; try discriminate Hl; [done|]. injection Hl as Hl.
  cbn [length strncaseeq fmap list_fmap]. rewrite (IH a Hl). apply eq_true_iff_eq. rewrite andb_true_iff, !bool_decide_eq_true, Z.eqb_eq.
  assert (Hxy : tolower x = tolower y <-> upper x = y).
  { unfold tolower, upper. repeat case_match; to_prop; try lia. }
  rewrite Hxy. split; [by intros [-> ->]|by intros [= -> ->]].
Qed.
Lemma same_word_upper a e : (length e <= 30)%nat -> Forall (fun c => 65 <= c <= 90) e -> same_word (take 31 a) e = bool_decide (upper <$> a = e).
Proof.
  intros Hl He. unfold same_word. destruct (Nat.eqb_spec (length a) (length e)) as [Ha|Ha].
  - rewrite take_ge by lia. rewrite (proj2 (Nat.eqb_eq _ _)) by done. by apply strncase_upper.
  - rewrite (proj2 (Nat.eqb_neq _ _)) by (rewrite length_take; lia). symmetry. apply bool_decide_eq_false. intros E.
    apply (f_equal length) in E. by rewrite length_fmap in E.
Qed.
Lemma skips_administrative a b : b <> [] -> existsb (skips (take 31 a) (take 31 b)) __skip_sql = administrative a b.
Proof.
  intros Hb. unfold __skip_sql, skips, administrative. cbn [existsb fst snd].
  assert (Hcap : forall s, forallb (fun c => (65 <=? c) && (c <=? 90)) s = true -> Forall (fun c => 65 <= c <= 90) s).
  { intros s Hs. rewrite forallb_forall in Hs. apply Forall_forall. intros c Hc. apply list_elem_of_In, Hs in Hc. to_prop. lia. }
  rewrite !(same_word_upper a) by (try (apply Nat.leb_le; reflexivity); apply Hcap; reflexivity).
  rewrite (same_word_upper b (lit "DATABASE")) by (try (apply Nat.leb_le; reflexivity); apply Hcap; reflexivity).
  rewrite (bool_decide_false (lit "DATABASE" = [])) by discriminate. rewrite (bool_decide_true (([] : cstring) = [])) by done.
  repeat case_bool_decide; cbn [andb orb]; rewrite ?andb_false_r, ?andb_true_r, ?orb_true_r; done.
Qed.

(** What a query leaves alone. *)
Definition same_driver (h : nat) w w' : Prop :=
  instance w' = instance w /\ refs w' = refs w /\ fresh w' = fresh w /\ conns w' = conns w /\ next_conn w' = next_conn w /\
  live w' = live w /\ forall h', h' <> h -> objs w' !! h' = objs w !! h'.
(** Row by row, the values of a result in the memory of the handle. *)
Definition stored (garbage : nat -> nat -> list Z) (k : nat) (rows : list (list (option cstring))) : list (list record_t) :=
  imap (fun i vals => imap (fun m v => cell_of (garbage (k + i)%nat m) v) vals) rows.

Section query.
Variable malloc : nat -> bool.
Variable garbage : nat -> nat -> list Z.
Hypothesis Hm : forall n, malloc n = true.
Hypothesis Hg : forall i m, length (garbage i m) = 512%nat.

(** The query is handed to the library, which knows it as [p]. *)
Definition executes (sql : cstring) (d : D) (p : Q) : Prop :=
  exists first second rest, words sql = first :: second :: rest /\ administrative first second = false /\ sq_prepare sql d = Some p.
(** The handle after the rows of [sql] have been stored from the [k]-th allocation on. *)
Definition holds_rows (s : st) (n k : nat) (rows : list (list (option cstring))) : Prop :=
  clmncnt s = n /\ counter s = u32 (zlen rows) /\ rcnt s = u32 (zlen rows * Z.of_nat n) /\
  default [] (rec s) = concat (stored garbage k rows) /\ (rows <> [] -> is_Some (rec s)).

Lemma query_spec h s c sql w :
  Forall (fun c => c <> 0) sql -> objs w !! h = Some s -> st_wf s -> dbh s = Some c ->
  (forall p, sq_prepare sql (file w) = Some p -> (length (sq_columns p) <= 64)%nat) ->
  exists w' s', __sqlite3_query malloc garbage (Some h) (Some sql) w = Ok ((query_result sql (file w)).1, w') /\
    file w' = (query_result sql (file w)).2 /\ same_driver h w w' /\
    objs w' !! h = Some s' /\ st_wf s' /\ dbh s' = Some c /\
    (forall p, executes sql (file w) p -> holds_rows s' (length (sq_columns p)) (S (mallocs w)) (x_rows (sq_exec sql (file w)))).
Proof.
  intros Hz Hs Hw Hd Hc. unfold __sqlite3_query, query_result, executes. rewrite Hm.
  destruct (parse_words sql Hz) as (l & Ep & Hh). pose proof (words_ok sql Hz) as Hws. destruct sql as [|x sql].
  { cbn [length Nat.eqb]. exists w, s. do 6 (split; [done|]). intros p (f & g & r & E & _); discriminate E. }
  change ((length (x :: sql) =? 0)%nat) with false. cbn match. rewrite Ep. res_simpl.
  destruct (words (x :: sql)) as [|f [|g r]];
    [eexists _, s; do 6 (split; [done|]); intros p (? & ? & ? & E & _); discriminate E..|].
  rewrite (proj2 (Z.ltb_ge _ 2)) by (cbn [length]; lia). apply Forall_cons in Hws as [_ [[Hg0 _] _]%Forall_cons].
  rewrite (word_held 0 l _ f Hh), (word_held 1 l _ g Hh), (skips_administrative f g Hg0) by done.
  destruct (administrative f g) eqn:Ex; [eexists _, s; do 6 (split; [done|]); intros p (? & ? & ? & [= <- <- <-] & E & _); congruence|].
  cbn [set_mallocs objs file]. rewrite Hs. cbn [deref]. res_simpl. cbn [set_counter set_rec dbh]. rewrite Hd.
  destruct Hw as (L1 & F1 & L2). destruct (sq_prepare (x :: sql) (file w)) as [p|] eqn:Eq.
  2: { eexists _, _. split; [done|]. split; [done|]. split; [repeat split; intros; by apply lookup_insert_ne|]. cbn [objs set_obj].
       rewrite lookup_insert_eq. do 3 (split; [done|]). intros p (? & ? & ? & _ & _ & E). discriminate E. }
  specialize (Hc p eq_refl). rewrite column_types_ok by (cbn [set_counter set_rec colmntype]; lia). res_simpl.
  destruct (exec_rows_fit _ _ _ Eq) as [Hn Hr].
  match goal with |- context [exec_rows _ _ _ _ _ ?s1 _] =>
    destruct (exec_rows_ok malloc garbage (x_names (sq_exec (x :: sql) (file w))) (x_rows (sq_exec (x :: sql) (file w))) 0 s1 (S (mallocs w)))
      as (s' & E & Hw' & Hd' & Hrest) end; [done|done| |done|done|done|done|done|].
  { split; [done|]. split; [done|]. cbn [set_types set_counter set_rec colmntype]. rewrite length_app, length_fmap, length_drop. lia. }
  cbn [mallocs set_mallocs]. rewrite E. res_simpl. eexists _, s'. split; [reflexivity|]. split; [done|].
  split; [repeat split; intros; by apply lookup_insert_ne|]. split; [apply lookup_insert_eq|]. split; [done|]. split; [rewrite Hd'; exact Hd|].
  intros p' (_ & _ & _ & _ & _ & [= <-]). destruct Hrest as (H1 & H2 & H3 & H4 & H5). unfold holds_rows. cbn [set_types set_counter set_rec rec counter rcnt clmncnt] in *.
  split; [done|]. split; [done|]. split; [done|]. split; [exact H4|]. auto.
Qed.

(** Stored and fetched again. *)
Lemma stored_length k rows n : Forall (fun vals : list (option cstring) => length vals = n) rows ->
  Forall (fun row : list record_t => length row = n) (stored garbage k rows) /\ length (stored garbage k rows) = length rows /\
  length (concat (stored garbage k rows)) = (length rows * n)%nat.
Proof.
  intros Hr. assert (F : Forall (fun row : list record_t => length row = n) (stored garbage k rows)).
  { rewrite Forall_lookup. intros i row Hi. unfold stored in Hi. rewrite list_lookup_imap in Hi. destruct (rows !! i) as [vals|] eqn:Ei; [|done].
    injection Hi as <-. rewrite length_imap. by apply (Forall_lookup_1 _ _ _ _ Hr Ei). }
  assert (L : length (stored garbage k rows) = length rows) by apply length_imap. split; [done|]. split; [done|].
  rewrite <-L. clear L. induction F as [|r l Hl _ IH]; [done|]. cbn [concat length]. rewrite length_app, IH. lia.
Qed.
Lemma store_and_fetch h s n k rows w :
  objs w !! h = Some s -> holds_rows s n k rows -> Forall (fun vals : list (option cstring) => length vals = n) rows ->
  (0 < n)%nat -> rows <> [] -> zlen rows * Z.of_nat n < 2 ^ 32 ->
  exists r w', __sqlite3_store_result malloc (Some h) w = Ok (Some r, w') /\ __sqlite3_num_rows (Some r) = zlen rows /\
    fetch_rows (S (length rows)) (Some r) = (fun row => row.*2) <$> stored garbage k rows.
Proof.
  intros Hs (Hc & Hn & Hr & Hrec & Hsome) Hf Hpos Hne Hlim. destruct (Hsome Hne) as [l El]. rewrite El in Hrec. cbn in Hrec. subst l.
  destruct (stored_length k rows n Hf) as (F & L1 & L2).
  assert (Hrows : (0 < length rows)%nat) by (destruct rows; [done|cbn [length]; lia]).
  rewrite (wrap_small 32) in Hn by nia. rewrite (wrap_small 32) in Hr by nia.
  unfold __sqlite3_store_result. rewrite Hs. cbn [deref]. res_simpl. rewrite El, Hr. rewrite (proj2 (Z.eqb_neq _ _)) by nia.
  rewrite !Hm. cbn [negb]. replace (Z.to_nat (zlen rows * Z.of_nat n)) with (length (concat (stored garbage k rows))) by (rewrite L2; lia).
  rewrite (copy_records malloc (mallocs w + 2) _ 0 [] (concat (stored garbage k rows))) by done. res_simpl.
  eexists _, _. split; [done|]. split; [exact Hn|]. rewrite Hc. cbn [app].
  rewrite concat_fmap_2. set (l := concat _).
  assert (Ll : zlen l = zlen rows * Z.of_nat n).
  { unfold l. rewrite <-concat_fmap_2, length_fmap. transitivity (Z.of_nat (length rows * n)); [f_equal; exact L2|lia]. }
  rewrite <-Ll. change 0 with (zlen (@nil (list Z))).
  apply fetch_rows_spec with (rest := []); [done| |unfold l; by rewrite app_nil_r|done|lia|].
  2: { rewrite length_fmap. apply Nat.lt_succ_r, Nat.eq_le_incl. exact L1. }
  apply Forall_fmap. eapply Forall_impl; [exact F|]. intros row Hrow. unfold compose. by rewrite length_fmap.
Qed.
End query.
End proofs.

Module Properties.
Section properties.
Context {D Q : Type} `{LO : SqliteOk D Q}.
Implicit Types (w : world D).

(** A thread's handle is connected. *)
Definition connected (h : nat) w : Prop := exists s c, objs w !! h = Some s /\ st_wf s /\ dbh s = Some c.

(** C25: over a connected handle a query returns what the abstract database returns
    and leaves the file it leaves: a text of one word is refused, an administrative
    statement is left out, any other goes to the library.  A lookup (reset, bind,
    execute) whose array has a null buffer behind the key gives the callback exactly
    the rows of the abstract database, in order, terminates, and leaves a statement
    that can be executed again; with the array the handlers pass, which is of the key
    alone, binding reads behind it and the lookup is undefined. *)
Theorem sqlite_queries_and_lookups (stmts : stmt -> cstring) (malloc : nat -> bool) (garbage : nat -> nat -> list Z) (h : nat) w :
  (forall n, malloc n = true) -> (forall i m, length (garbage i m) = 512%nat) -> connected h w ->
  let DB := sqlite_database stmts in
  (forall sql, Forall (fun c => c <> 0) sql -> (forall p, sq_prepare sql (file w) = Some p -> (length (sq_columns p) <= 64)%nat) ->
     exists w', __sqlite3_query malloc garbage (Some h) (Some sql) w = Ok ((db_query sql (file w)).1, w') /\
       file w' = (db_query sql (file w)).2 /\ connected h w' /\ same_driver h w w') /\
  (forall U st key (cb : list record -> U -> U) (u : U) (fuel : nat) con sql s,
     sq_program s = stmts st -> (sq_reset s).1 = SQLITE_OK ->
     (sq_bind_int64 1 (signed 64 key) (sq_clear (sq_reset s).2)).1 = SQLITE_OK ->
     (length (sq_cols (stmts st)) <= 64)%nat -> (length (sq_result (stmts st) (signed 64 key) (file w)) < fuel)%nat ->
     let run bnd := lookup cb fuel bnd (Some (mk_stmt (Some con) (Some sql) (Some s))) u w in
     (forall behind t, match CtrlNode.pgw_mysql_execute st key cb u (file w) with
        | (rc, u', d') => exists s', run (key_bind key behind t) =
              Ok (Some (rc, Some (mk_stmt (Some con) (Some sql) (Some s')), u', set_file d' w)) /\ sq_program s' = stmts st
        end) /\
     run [mk_bind MYSQL_TYPE_LONGLONG (Some key)] = Fault Undefined).
Proof.
  intros Hm Hg (s & c & Hs & Hw & Hd) DB. split.
  - intros sql Hz Hc. destruct (query_spec malloc garbage Hm Hg h s c sql w) as (w' & s' & E & Ef & Hsame & Hs' & Hw' & Hd' & _); [done..|].
    exists w'. split; [exact E|]. split; [exact Ef|]. split; [|done]. by exists s', c.
  - intros U st key cb u fuel con sql p Hp Hr Hb Hl Hf run. split.
    + intros behind t. unfold CtrlNode.pgw_mysql_execute. unfold DB. cbn [db_select sqlite_database].
      rewrite <-Hp in *. destruct (lookup_spec cb fuel key behind t con sql p w u) as (s' & E & Hp'); [done..|].
      exists s'. split; [exact E|done].
    + by apply lookup_reads_behind.
Qed.

(** [mysql_query], [mysql_store_result] and [mysql_fetch_row] until it returns NULL
    give back the rows of a SELECT: as many, in order, every one with its columns; a
    value is the text over what the memory held, without an end of its own, and zeros
    for NULL. *)
Theorem stored_rows_are_fetched (malloc : nat -> bool) (garbage : nat -> nat -> list Z) (h : nat) sql p w :
  (forall n, malloc n = true) -> (forall i m, length (garbage i m) = 512%nat) -> connected h w -> Forall (fun c => c <> 0) sql ->
  executes sql (file w) p -> (0 < length (sq_columns p) <= 64)%nat ->
  let rows := x_rows (sq_exec sql (file w)) in
  rows <> [] -> zlen rows * Z.of_nat (length (sq_columns p)) < 2 ^ 32 ->
  exists rc w1 r w2, __sqlite3_query malloc garbage (Some h) (Some sql) w = Ok (rc, w1) /\
    __sqlite3_store_result malloc (Some h) w1 = Ok (Some r, w2) /\ __sqlite3_num_rows (Some r) = zlen rows /\
    fetch_rows (S (length rows)) (Some r) = (fun row => row.*2) <$> stored garbage (S (mallocs w)) rows.
Proof.
  intros Hm Hg (s & c & Hs & Hw & Hd) Hz Hx Hl rows Hne Hlim. pose proof Hx as (first & second & rest & _ & _ & Ep).
  destruct (query_spec malloc garbage Hm Hg h s c sql w) as (w1 & s1 & E1 & _ & _ & Hs1 & _ & _ & Hrows); [done..| |].
  { intros p' Ep'. assert (p' = p) as -> by congruence. lia. }
  destruct (exec_rows_fit _ _ _ Ep) as [_ Hfit].
  destruct (store_and_fetch malloc garbage Hm h s1 (length (sq_columns p)) (S (mallocs w)) rows w1) as (r & w2 & E2 & En & Ef);
    [done|by apply Hrows|done|lia|done|done|].
  by exists (query_result sql (file w)).1, w1, r, w2.
Qed.
End properties.

(** [pgw_parse_sql] returns the number of the words of a text, 31 at most, and leaves
    the first thirty in their slots, cut to 31 characters, with their lengths; a text
    without words is an error. *)
Theorem parse_sql_splits (sql : cstring) :
  Forall (fun c => c <> 0) sql ->
  exists l, pgw_parse_sql true sql (Some (replicate 32 sqlparse0)) 31 =
      Ok (match words sql with [] => ERR | ws => Z.of_nat (Nat.min (length ws) 31) end, Some l) /\
    holds 0 (take 30 (words sql)) l.
Proof. apply parse_words. Qed.

(** *** A table *)
(** Rows of a number and a text; every SELECT gives those of the bound number, a query
    that begins with DELETE empties the table. *)
Definition table : Type := list (Z * cstring).
Record query := mk_query { text : cstring; bound : Z; under_way : option table }.
Definition row_of (r : Z * cstring) : list cell := [mk_cell (Some (print_u r.1)) r.1; mk_cell (Some r.2) 0].
Definition left_rows (s : query) (d : table) : table := default (filter (fun r => r.1 = bound s) d) (under_way s).
Definition table_columns : list column := [mk_column (Some (lit "id")) (Some (lit "INTEGER")); mk_column (Some (lit "ip")) (Some (lit "text"))].
#[local] Instance table_sqlite : Sqlite table query := {
  sq_empty := [];
  sq_prepare sql _ := Some (mk_query sql 0 None);
  sq_columns _ := table_columns;
  sq_reset s := (0, mk_query (text s) (bound s) None);
  sq_clear s := mk_query (text s) 0 (under_way s);
  sq_bind_int64 _ v s := (0, mk_query (text s) v (under_way s));
  sq_step s d := match left_rows s d with
                 | [] => (None, mk_query (text s) (bound s) (Some []), d)
                 | r :: rs => (Some (row_of r), mk_query (text s) (bound s) (Some rs), d)
                 end;
  sq_exec sql d := if starts_with (lit "DELETE") sql then mk_exec _ [lit "id"; lit "ip"] [] true []
                   else mk_exec _ [lit "id"; lit "ip"] ((fun r => [Some (print_u r.1); Some r.2]) <$> d) true d;
  sq_stopped _ _ d := d;
}.
Lemma table_step (s : query) (d : table) :
  match row_of <$> left_rows s d with
  | [] => exists s', sq_step s d = (None, s', d) /\ text s' = text s
  | r :: rs => length r = length (sq_columns s) /\ exists s' d', sq_step s d = (Some r, s', d') /\ row_of <$> left_rows s' d' = rs /\
      d' = d /\ text s' = text s
  end.
Proof. cbn [sq_step table_sqlite]. destruct (left_rows s d) as [|r rs]; cbn [fmap list_fmap]; [by eexists|]. split; [done|]. by eexists _, d. Qed.
Lemma table_exec (sql : cstring) (d : table) (s : query) : sq_prepare sql d = Some s ->
  length (x_names (sq_exec sql d)) = length (sq_columns s) /\
  Forall (fun vals : list (option cstring) => length vals = length (sq_columns s)) (x_rows (sq_exec sql d)).
Proof.
  intros _. cbn [sq_exec table_sqlite]. destruct (starts_with _ _); (split; [done|]); [constructor|].
  apply Forall_fmap, Forall_true. done.
Qed.
#[local] Instance table_sqlite_ok : SqliteOk table query.
Proof.
  refine {| sq_program := text; sq_cols _ := table_columns; sq_result _ v d := row_of <$> filter (fun r => r.1 = v) d; sq_after _ _ d := d;
            sq_rows s d := row_of <$> left_rows s d; sq_final _ d := d; step_rows := table_step; exec_rows_fit := table_exec |};
    [by intros sql d s [= <-]|done..].
Defined.
Definition rows1 : table := [(7, lit "10.0.0.1"); (8, lit "10.0.0.2"); (7, lit "10.2.0.1")].
Definition world1 : world table := mk_world rows1 (Some 0%nat) 1 {[0%nat := set_dbh (Some 0%nat) st0]} 1 [0%nat] 1 0 1.
Lemma world1_connected : connected 0 world1.
Proof. exists (set_dbh (Some 0%nat) st0), 0%nat. split; [done|]. split; [exact st0_wf|done]. Qed.
Definition zeros (_ _ : nat) : list Z := bzero 512.

Ltac no_nul := repeat (apply Forall_cons_2; [discriminate|]); apply Forall_nil_2.
Lemma sqlite_queries_and_lookups_witness :
  let run bnd := lookup (fun r l => l ++ [r]) 4 bnd (Some (mk_stmt (Some 0%nat) (Some (lit "SELECT")) (Some (mk_query (lit "SELECT") 0 None)))) [] world1 in
  (exists w', __sqlite3_query (fun _ => true) zeros (Some 0%nat) (Some (lit "DELETE FROM tunnel")) world1 = Ok (OK, w') /\ file w' = []) /\
  (exists w', __sqlite3_query (fun _ => true) zeros (Some 0%nat) (Some (lit " drop  Database mixipgw")) world1 = Ok (OK, w') /\ file w' = rows1) /\
  (exists w', __sqlite3_query (fun _ => true) zeros (Some 0%nat) (Some (lit "DELETE")) world1 = Ok (ERR, w') /\ file w' = rows1) /\
  (exists s', run (key_bind 7 [] 0) =
    Ok (Some (OK, Some (mk_stmt (Some 0%nat) (Some (lit "SELECT")) (Some s')), [[NVal 7; SVal (lit "10.0.0.1")]; [NVal 7; SVal (lit "10.2.0.1")]], world1))) /\
  run [mk_bind MYSQL_TYPE_LONGLONG (Some 7)] = Fault Undefined.
Proof.
  destruct (sqlite_queries_and_lookups (fun _ => lit "SELECT") (fun _ => true) zeros 0 world1 (fun _ => eq_refl) (fun _ _ => eq_refl) world1_connected) as [Hq Hl].
  destruct (Hl _ DELETE_SESSION_LOOKUP 7 (fun r l => l ++ [r]) [] 4%nat 0%nat (lit "SELECT") (mk_query (lit "SELECT") 0 None)) as [Hr Hu];
    [reflexivity|reflexivity|reflexivity|apply Nat.leb_le; reflexivity|apply Nat.ltb_lt; reflexivity|].
  split; [|split; [|split; [|split]]].
  - destruct (Hq (lit "DELETE FROM tunnel")) as (w' & E & Ef & _); [no_nul|intros p [= <-]; apply Nat.leb_le; reflexivity|]. exists w'. split; [exact E|exact Ef].
  - destruct (Hq (lit " drop  Database mixipgw")) as (w' & E & Ef & _); [no_nul|intros p [= <-]; apply Nat.leb_le; reflexivity|]. exists w'. split; [exact E|exact Ef].
  - destruct (Hq (lit "DELETE")) as (w' & E & Ef & _); [no_nul|intros p [= <-]; apply Nat.leb_le; reflexivity|]. exists w'. split; [exact E|exact Ef].
  - destruct (Hr [] 0) as (s' & E & _). exists s'. exact E.
  - exact Hu.
Defined.
Lemma stored_rows_are_fetched_witness :
  exists rc w1 r w2, __sqlite3_query (fun _ => true) zeros (Some 0%nat) (Some (lit "SELECT * FROM tunnel")) world1 = Ok (rc, w1) /\
    __sqlite3_store_result (fun _ => true) (Some 0%nat) w1 = Ok (Some r, w2) /\ __sqlite3_num_rows (Some r) = 3 /\
    fmap (M:=list) until_nul <$> fetch_rows 4 (Some r) = [[lit "7"; lit "10.0.0.1"]; [lit "8"; lit "10.0.0.2"]; [lit "7"; lit "10.2.0.1"]].
Proof.
  destruct (stored_rows_are_fetched (fun _ => true) zeros 0 (lit "SELECT * FROM tunnel") (mk_query (lit "SELECT * FROM tunnel") 0 None) world1)
    as (rc & w1 & r & w2 & Eq & Es & En & Ef);
    [reflexivity|reflexivity|exact world1_connected|no_nul| |split; [apply Nat.ltb_lt|apply Nat.leb_le]; reflexivity|discriminate|reflexivity|].
  - exists (lit "SELECT"), (lit "*"), [lit "FROM"; lit "tunnel"]. split; [vm_compute; reflexivity|]. split; vm_compute; reflexivity.
  - exists rc, w1, r, w2. split; [exact Eq|]. split; [exact Es|]. split; [exact En|].
    assert (Hf : fetch_rows 4 (Some r) = (fun row : list record_t => row.*2) <$> stored zeros 2 ((fun r => [Some (print_u r.1); Some r.2]) <$> rows1)) by exact Ef.
    rewrite Hf. vm_compute. reflexivity.
Defined.
Lemma parse_sql_splits_witness :
  exists l, pgw_parse_sql true (lit "  UPDATE tunnel  SET ") (Some (replicate 32 sqlparse0)) 31 = Ok (3, Some l) /\
    holds 0 [lit "UPDATE"; lit "tunnel"; lit "SET"] l.
Proof. apply (parse_sql_splits (lit "  UPDATE tunnel  SET ")). no_nul. Defined.

(** *** The handle all threads share *)
Section threads.
Context {D Q : Type} `{L : Sqlite D Q}.
Variable malloc : nat -> bool.
Hypothesis Hm : forall n, malloc n = true.
Implicit Types (w : world D).
(** A thread begins: [DBPROVIDER_INIT], [DBPROVIDER_REAL_CONNECT]. *)
Definition begin_thread w : res (option nat * world D) := let '(h, w) := __sqlite3_init malloc w in __sqlite3_real_connect Opened h w.
Fixpoint begin_threads (n : nat) w : res (list (option nat) * world D) :=
  match n with
  | O => Ok ([], w)
  | S n => '(h, w) ← begin_thread w; '(hs, w) ← begin_threads n w; Ok (h :: hs, w)
  end.
(** [h] is the shared handle, [n] threads have it, the newest connection is the one in use. *)
Definition shared (h : nat) (n : Z) (cs : list nat) w : Prop :=
  instance w = Some h /\ refs w = n /\ conns w = cs /\ objs w !! h = Some (set_dbh (Some (next_conn w - 1)%nat) st0) /\ (0 < next_conn w)%nat.
Lemma begin_shared h n cs w : shared h n cs w -> 0 <= n < 2 ^ 32 - 1 ->
  exists w', begin_thread w = Ok (Some h, w') /\ shared h (n + 1) (cs ++ [next_conn w]) w' /\ next_conn w' = S (next_conn w).
Proof.
  intros (Hi & Hr & Hc & Ho & Hn) Hlim. unfold begin_thread, __sqlite3_init, __sqlite3_real_connect. rewrite Hi. cbn [set_obj set_refs instance objs].
  rewrite bool_decide_false by (rewrite ?Hi; tauto). rewrite lookup_insert_eq. cbn [deref]. res_simpl. cbn [dbh st0]. eexists. split; [reflexivity|]. split; [|done].
  unfold shared, open_conn. cbn [set_obj set_refs instance refs conns objs next_conn]. rewrite Hr, (wrap_small 32) by lia.
  rewrite lookup_insert_eq, Hc, Nat.sub_succ, Nat.sub_0_r. repeat split; [done|lia].
Qed.
(** [n] threads have one handle; each of them has opened a connection, of which only
    the last is in use: [__sqlite3_init] clears the handle the others work with. *)
Lemma threads_share_handle (n : nat) h k cs w : shared h k cs w -> 0 <= k -> k + Z.of_nat n < 2 ^ 32 ->
  exists w', begin_threads n w = Ok (replicate n (Some h), w') /\ shared h (k + Z.of_nat n) (cs ++ seq (next_conn w) n) w'.
Proof.
  revert k cs w. induction n as [|n IH]; intros k cs w Hs Hk Hlim; cbn [begin_threads replicate seq].
  { exists w. by rewrite app_nil_r, Z.add_0_r. }
  destruct (begin_shared h k cs w Hs) as (w1 & -> & Hs1 & Hn1); [lia|]. res_simpl.
  destruct (IH (k + 1) _ w1 Hs1) as (w2 & -> & Hs2); [lia..|]. res_simpl. exists w2. split; [done|].
  rewrite Hn1, <-app_assoc in Hs2. by replace (k + Z.of_nat (S n)) with (k + 1 + Z.of_nat n) by lia.
Qed.
(** After as many closes as threads nothing has been released: the release takes one more. *)
Fixpoint close_threads (n : nat) (h : nat) w : res (world D) :=
  match n with O => Ok w | S n => w ← __sqlite3_close (Some h) w; close_threads n h w end.
Lemma close_needs_one_more (n : nat) h cs w : shared h (Z.of_nat n) cs w ->
  exists w', close_threads n h w = Ok w' /\ shared h 0 cs w' /\ exists w2, __sqlite3_close (Some h) w' = Ok w2 /\ instance w2 = None.
Proof.
  revert w. induction n as [|n IH]; intros w Hs; cbn [close_threads].
  - exists w. split; [done|]. split; [done|]. destruct Hs as (_ & Hr & _ & Ho & _). unfold __sqlite3_close. rewrite Hr. cbn [deref].
    change (Z.of_nat 0 =? 0) with true. res_simpl. rewrite Ho. by eexists.
  - assert (E : __sqlite3_close (Some h) w = Ok (set_refs (Z.of_nat n) w)).
    { unfold __sqlite3_close. destruct Hs as (_ & -> & _). rewrite (proj2 (Z.eqb_neq _ _)) by lia. do 2 f_equal. lia. }
    rewrite E. res_simpl. apply IH. destruct Hs as (? & _ & ? & ? & ?). done.
Qed.
(** A failed open leaves a connection behind; the next call finds the handle connected. *)
Lemma failed_open_looks_connected h w : objs w !! h = Some st0 -> instance w = Some h ->
  exists w', __sqlite3_real_connect (OpenFailed true) (Some h) w = Ok (None, w') /\
    forall o, __sqlite3_real_connect o (Some h) w' = Ok (Some h, w').
Proof.
  intros Ho Hi. unfold __sqlite3_real_connect. rewrite Hi, bool_decide_false by tauto. rewrite Ho. cbn [deref]. res_simpl. cbn [dbh st0].
  eexists. split; [reflexivity|]. intros o. unfold open_conn. cbn [instance objs]. rewrite bool_decide_false by (rewrite ?Hi; tauto). rewrite lookup_insert_eq. done.
Qed.
(** Preparing a second statement in a handle leaves the first one to the library. *)
Lemma second_prepare_leaks p sql q1 w q2 : s_stmt p = Some q1 -> sq_prepare sql (file w) = Some q2 ->
  exists p' w', __sqlite3_stmt_prepare malloc (Some p) (Some sql) w = Ok (OK, p', w') /\ live w' = live w + 1 /\
    live (__sqlite3_stmt_close p' w').2 = live w.
Proof.
  intros _ Hp. unfold __sqlite3_stmt_prepare. rewrite Hm. cbn [require]. res_simpl. cbn [set_mallocs file]. rewrite Hp.
  eexists _, _. split; [reflexivity|]. split; [done|]. cbn [__sqlite3_stmt_close s_stmt snd set_live live set_mallocs]. lia.
Qed.
(** A statement of one word, COMMIT say, is refused before it reaches the library. *)
Lemma single_word_refused garbage h sql x w : Forall (fun c => c <> 0) sql -> words sql = [x] ->
  exists w', __sqlite3_query malloc garbage (Some h) (Some sql) w = Ok (ERR, w') /\ file w' = file w.
Proof.
  intros Hz Hx. destruct (parse_words sql Hz) as (l & E & _). rewrite Hx in E.
  unfold __sqlite3_query. rewrite Hm, E. destruct sql as [|c sql]; [discriminate Hx|]. cbn [length Nat.eqb]. res_simpl. by eexists.
Qed.
End threads.

(** [mysql_free_result] keeps what it is given, and follows a null pointer. *)
Lemma free_result_inverted : (forall r, __sqlite3_free_result (Some r) = Ok (Some r)) /\ __sqlite3_free_result None = Fault Undefined.
Proof. done. Qed.
(** In memory that is not zero a stored text has no end. *)
Lemma stored_text_has_no_end : until_nul (cell_of (replicate 512 7) (Some (lit "10.0.0.1"))).2 = lit "10.0.0.1" ++ replicate 504 7.
Proof. vm_compute. reflexivity. Qed.
(** With room for one word the result says two. *)
Lemma one_slot_says_two : exists l, pgw_parse_sql true (lit "a b c") (Some [sqlparse0]) 1 = Ok (2, Some l).
Proof. eexists. vm_compute. reflexivity. Qed.
End Properties.
