(* ===== verification/Binlog.v ===== *)
(** * The replication client

    binlog/lib_main.cc: [EventImpl] reads the events of a MySQL master and hands the
    column values of a row to a [Notify] of its caller, the data plane ([VirtualCycle])
    and the RADIUS server.

    The MySQL library decodes the events: what it found in one (the bitmaps of the
    columns, the bytes of the row images, the columns of the table) is the input.  The
    notifications are those of the data plane (PgwBase); the [Notify] is never null there.
    What [Read] prints is left out. *)

From S2P Require Import Prelude Dpdk Packet LookupTpl CoreBase TextParse Gtpc PgwBase DbMysql.
Import NotifyImpl.

(** [Log_event_type] *)
Definition ROTATE_EVENT := 4.
Definition FORMAT_DESCRIPTION_EVENT := 15.
Definition TABLE_MAP_EVENT := 19.
Definition WRITE_ROWS_EVENT := 30.
Definition UPDATE_ROWS_EVENT := 31.
Definition DELETE_ROWS_EVENT := 32.
Definition TRANSACTION_PAYLOAD_EVENT := 40.
Definition MYSQL_TYPE_VARCHAR := 15.
Definition MYSQL_TYPE_TIMESTAMP2 := 17.
Definition MYSQL_TYPE_VAR_STRING := 253.

(** A column of [table_def]; a rows event: which columns its images have, and the
    images ([m_cols_ai] is the after image of an update). *)
Record coldef := mk_coldef { ctype : Z; field_metadata : Z }.
Record rows_event := mk_rows { m_cols : list bool; m_cols_ai : list bool; m_rows_buf : list Z }.
Definition bits_set (m : list bool) : Z := zlen (filter (fun b : bool => b = true) m).

(** ** [ParseEvent::Parse] *)
(** One column at [p]: its notification, and where the next one is. *)
Definition parse_column (type_ i : Z) (c : coldef) (b : list Z) (p : Z) : res (list note * Z) :=
  if ctype c =? MYSQL_TYPE_LONGLONG then
    v ← rd 8 b p; Ok ([mk_note type_ i (TYPE_NUMERIC v)], p + 8)
  else if (ctype c =? MYSQL_TYPE_TIMESTAMP) || (ctype c =? MYSQL_TYPE_TIMESTAMP2) then Ok ([], p + 4)
  else if (ctype c =? MYSQL_TYPE_VARCHAR) || (ctype c =? MYSQL_TYPE_VAR_STRING) then
    if 256 <=? field_metadata c then Fault CppThrow else
    length ← rd 1 b p;
    bs ← rd_bytes (Z.min 255 length) b (p + 1);
    Ok ([mk_note type_ i (TYPE_TEXT (until_nul (bs ++ [0])))], p + (length + 1))
  else Fault CppThrow.
Fixpoint parse_image (type_ i : Z) (td : list coldef) (cols : list bool) (b : list Z) (p : Z) : res (list note * Z) :=
  match td with
  | [] => Ok ([], p)
  | c :: td =>
      if hd false cols then
        '(l, p) ← parse_column type_ i c b p;
        '(l', p) ← parse_image type_ (i + 1) td (tl cols) b p;
        Ok (l ++ l', p)
      else parse_image type_ (i + 1) td (tl cols) b p
  end.
Definition bitmap_size (m : list bool) : Z := (bits_set m + 7) / 8.
Definition Parse (type_ : Z) (e : rows_event) (td : list coldef) : res (bool * list note) :=
  '(l, p) ← parse_image type_ 0 td (m_cols e) (m_rows_buf e) (bitmap_size (m_cols e));
  if type_ =? UPDATE_ROWS_EVENT then
    '(l', _) ← parse_image type_ 0 td (m_cols_ai e) (m_rows_buf e) (p + bitmap_size (m_cols_ai e));
    Ok (true, l ++ l')
  else Ok (true, l).

(** ** [EventImpl] *)
(** What [mysql_binlog_fetch] brings; an event as the library decodes it. *)
Inductive payload := Plain | Table (m_tblnam : cstring) (td : list coldef) | Rows (e : rows_event).
Inductive fetched := FetchFailed | NoData | Fetched (type : Z) (ev : payload).
(** [des_ev_] and [tbl_ev_]: whether the description is there, the columns of the last table. *)
Record EventImpl := mk_event { table_ : cstring; des_ev_ : bool; tbl_ev_ : option (list coldef) }.
Definition event0 (table : option cstring) : EventImpl := mk_event (default [] table) false None.
(** [CreateEvent]: [connected] is whether every call of [Connect] succeeds. *)
Definition CreateEvent (connected : bool) (table : option cstring) : res EventImpl :=
  if connected then Ok (event0 table) else Fault CppThrow.
(** The constructor of a new description is given the one that has just been deleted. *)
Definition Read (f : fetched) (s : EventImpl) : res (Z * list note * EventImpl) :=
  match f with
  | FetchFailed | NoData => Fault CppThrow
  | Fetched type ev =>
      if type =? FORMAT_DESCRIPTION_EVENT then
        if des_ev_ s then Fault Undefined else Ok (0, [], mk_event (table_ s) true (tbl_ev_ s))
      else if type =? TABLE_MAP_EVENT then
        match ev with
        | Table _ td => Ok (0, [], if des_ev_ s then mk_event (table_ s) true (Some td) else s)
        | _ => Fault Undefined
        end
      else if (type =? WRITE_ROWS_EVENT) || (type =? UPDATE_ROWS_EVENT) || (type =? DELETE_ROWS_EVENT) then
        match tbl_ev_ s, ev with
        | None, _ => Ok (0, [], s)
        | Some td, Rows e => '(_, l) ← Parse type e td; Ok (0, l, s)
        | _, _ => Fault Undefined
        end
      else Ok (0, [], s)
  end.
(** [Read] again and again: the notifications of each call. *)
Fixpoint read_all (fs : list fetched) (s : EventImpl) : res (list (list note) * EventImpl) :=
  match fs with
  | [] => Ok ([], s)
  | f :: fs => '(_, l, s) ← Read f s; '(ls, s) ← read_all fs s; Ok (l :: ls, s)
  end.

(** ** Row images as the master writes them *)
Inductive field_value := VNum (v : Z) | VText (s : cstring) | VTime (t : list Z) | VAbsent.
Definition value_bytes (v : field_value) : list Z :=
  match v with VNum v => le_store 8 v | VText s => zlen s :: s | VTime t => t | VAbsent => [] end.
(** A value of a column that is not NULL and that the client supports. *)
Definition fits (c : coldef) (v : field_value) : Prop :=
  match v with
  | VNum v => ctype c = MYSQL_TYPE_LONGLONG /\ 0 <= v < 2 ^ 64
  | VText s => (ctype c = MYSQL_TYPE_VARCHAR \/ ctype c = MYSQL_TYPE_VAR_STRING) /\ field_metadata c < 256 /\ zlen s < 256 /\
      Forall (fun c => 0 < c < 256) s
  | VTime t => (ctype c = MYSQL_TYPE_TIMESTAMP \/ ctype c = MYSQL_TYPE_TIMESTAMP2) /\ zlen t = 4
  | VAbsent => True
  end.
Definition present (v : field_value) : bool := match v with VAbsent => false | _ => true end.
Definition cols_of (vs : list field_value) : list bool := present <$> vs.
(** The bitmap of the NULLs, all clear, and the values. *)
Definition image (vs : list field_value) : list Z := bzero (bitmap_size (cols_of vs)) ++ concat (value_bytes <$> vs).
Definition note_of (type_ i : Z) (v : field_value) : list note :=
  match v with VNum v => [mk_note type_ i (TYPE_NUMERIC v)] | VText s => [mk_note type_ i (TYPE_TEXT s)] | _ => [] end.
Fixpoint notes_of (type_ i : Z) (vs : list field_value) : list note :=
  match vs with [] => [] | v :: vs => note_of type_ i v ++ notes_of type_ (i + 1) vs end.

(** ** Proofs *)
Lemma parse_column_ok type_ i c v b pre rest : fits c v -> present v = true -> b = pre ++ value_bytes v ++ rest ->
  parse_column type_ i c b (zlen pre) = Ok (note_of type_ i v, zlen (pre ++ value_bytes v)).
Proof.
  intros Hf Hp ->. unfold parse_column. rewrite length_app. destruct v as [v|s|t|]; cbn [fits present value_bytes note_of] in *; [| | |done].
  - destruct Hf as [-> Hv]. change (MYSQL_TYPE_LONGLONG =? MYSQL_TYPE_LONGLONG) with true. cbn match.
    rewrite rd_ok by (rewrite ?length_app, ?length_le_store; lia). res_simpl. rewrite slice_app_r by lia. rewrite Z.sub_diag.
    rewrite slice_app_l by (rewrite ?length_le_store; lia).
    change (Z.of_nat 8) with (zlen (le_store 8 v)) at 1. rewrite slice_0_all, le_load_store, Z.mod_small by exact Hv.
    rewrite length_le_store. do 3 f_equal. lia.
  - destruct Hf as (Hc & Hm & Hl & Hs).
    assert (Ek : (ctype c =? MYSQL_TYPE_LONGLONG) = false /\ ((ctype c =? MYSQL_TYPE_TIMESTAMP) || (ctype c =? MYSQL_TYPE_TIMESTAMP2)) = false /\
      ((ctype c =? MYSQL_TYPE_VARCHAR) || (ctype c =? MYSQL_TYPE_VAR_STRING)) = true) by (destruct Hc as [-> | ->]; done).
    destruct Ek as (-> & -> & ->). rewrite (proj2 (Z.leb_gt _ _)) by lia.
    assert (E1 : rd 1 (pre ++ (zlen s :: s) ++ rest) (zlen pre) = Ok (zlen s)).
    { rewrite rd_ok by (rewrite ?length_app; cbn [length]; lia). rewrite slice_app_r by lia. rewrite Z.sub_diag. change (Z.of_nat 1) with 1.
      change (slice 0 1 ((zlen s :: s) ++ rest)) with [zlen s]. cbn [le_load]. f_equal. lia. }
    rewrite E1. res_simpl. rewrite Z.min_r by lia.
    assert (E2 : rd_bytes (zlen s) (pre ++ (zlen s :: s) ++ rest) (zlen pre + 1) = Ok s).
    { rewrite rd_bytes_ok by (rewrite ?length_app; cbn [length]; lia). rewrite slice_app_r by lia. f_equal.
      replace (zlen pre + 1 - zlen pre) with 1 by lia. unfold slice. change (Z.to_nat 1) with 1%nat. cbn [drop app]. by rewrite Nat2Z.id, drop_0, take_app_length. }
    rewrite E2. res_simpl. rewrite until_nul_end, until_nul_all by (eapply Forall_impl; [exact Hs|]; cbn; lia). cbn [length]. do 3 f_equal. lia.
  - destruct Hf as [Hc Hl]. assert (Ek : (ctype c =? MYSQL_TYPE_LONGLONG) = false /\
      ((ctype c =? MYSQL_TYPE_TIMESTAMP) || (ctype c =? MYSQL_TYPE_TIMESTAMP2)) = true) by (destruct Hc as [-> | ->]; done).
    destruct Ek as (-> & ->). do 3 f_equal. lia.
Qed.
Lemma parse_image_ok type_ td vs i b pre rest : Forall2 fits td vs -> b = pre ++ concat (value_bytes <$> vs) ++ rest ->
  parse_image type_ i td (cols_of vs) b (zlen pre) = Ok (notes_of type_ i vs, zlen (pre ++ concat (value_bytes <$> vs))).
Proof.
  intros Hf. revert i pre. induction Hf as [|c v td vs Hc Hf IH]; intros i pre Hb; cbn [parse_image notes_of cols_of fmap list_fmap concat] in *.
  { by rewrite app_nil_r. }
  cbn [hd tl]. rewrite <-app_assoc in Hb. destruct (present v) eqn:Ep.
  - rewrite (parse_column_ok type_ i c v b pre (concat (value_bytes <$> vs) ++ rest)) by done. res_simpl.
    fold (cols_of vs). rewrite (IH (i + 1) (pre ++ value_bytes v)) by (by rewrite <-app_assoc). res_simpl. by rewrite <-app_assoc.
  - assert (value_bytes v = []) as Ev by (by destruct v). assert (note_of type_ i v = []) as En by (by destruct v).
    rewrite Ev in *. rewrite En. cbn [app] in *. fold (cols_of vs). by apply IH.
Qed.
Lemma bitmap_nonneg m : 0 <= bitmap_size m.
Proof. unfold bitmap_size, bits_set. apply Z.div_pos; lia. Qed.
Lemma image_ok type_ td vs pre rest : Forall2 fits td vs ->
  parse_image type_ 0 td (cols_of vs) (pre ++ image vs ++ rest) (zlen pre + bitmap_size (cols_of vs)) =
    Ok (notes_of type_ 0 vs, zlen (pre ++ image vs)).
Proof.
  intros Hf. pose proof (bitmap_nonneg (cols_of vs)) as Hn. unfold image.
  assert (E : zlen pre + bitmap_size (cols_of vs) = zlen (pre ++ bzero (bitmap_size (cols_of vs)))) by (rewrite length_app, Nat2Z.inj_add, length_bzero; lia).
  rewrite E, (parse_image_ok type_ td vs 0 _ _ rest Hf) by (by rewrite <-!app_assoc). by rewrite <-!app_assoc.
Qed.

(** *** The record of the data plane *)
(** What the notifications of a row make of one member of the record, which only the
    column [k] writes. *)
Section member.
Context {T : Type} (pi : record -> T) (k : Z) (g : value -> T -> T).
Hypothesis Hother : forall n rec, clmnid n <> k -> pi (OnNotify n rec) = pi rec.
Hypothesis Hcolumn : forall n rec, clmnid n = k -> pi (OnNotify n rec) = g (val n) (pi rec).
Definition column_value (v : option field_value) (old : T) : T :=
  match v with Some (VNum v) => g (TYPE_NUMERIC v) old | Some (VText s) => g (TYPE_TEXT s) old | _ => old end.
Lemma fold_note_other type_ i v rec : i <> k -> pi (foldl (fun r n => OnNotify n r) rec (note_of type_ i v)) = pi rec.
Proof using Hother. intros Hi. destruct v; cbn [note_of foldl]; [by apply Hother|by apply Hother|done|done]. Qed.
Lemma fold_notes_below type_ i vs rec : k < i -> pi (foldl (fun r n => OnNotify n r) rec (notes_of type_ i vs)) = pi rec.
Proof using Hother.
  revert i rec. induction vs as [|v vs IH]; intros i rec Hi; cbn [notes_of]; [done|].
  rewrite foldl_app, IH by lia. apply fold_note_other. lia.
Qed.
Lemma fold_notes type_ i vs rec : i <= k ->
  pi (foldl (fun r n => OnNotify n r) rec (notes_of type_ i vs)) = column_value (vs !! Z.to_nat (k - i)) (pi rec).
Proof using Hother Hcolumn.
  revert i rec. induction vs as [|v vs IH]; intros i rec Hi; cbn [notes_of]; [by rewrite lookup_nil|]. rewrite foldl_app.
  destruct (decide (i = k)) as [->|Hne].
  - rewrite fold_notes_below by lia. rewrite Z.sub_diag. change (Z.to_nat 0) with 0%nat. cbn [lookup list_lookup column_value].
    destruct v; cbn [note_of foldl]; rewrite ?Hcolumn by done; done.
  - rewrite IH by lia. rewrite fold_note_other by done. replace (Z.to_nat (k - i)) with (S (Z.to_nat (k - (i + 1)))) by lia. done.
Qed.
End member.

(** A row of the table [tunnel]: the columns the data plane looks at. *)
Definition ip_text (a : list Z) : cstring :=
  match a with [x; y; z; u] => print_ipv4 x y z u | _ => [] end.
Record tunnel_row := mk_tunnel { ueipv4 : list Z; pgw_teid : Z; pgw_gtpu_ipv : list Z; tr_sgw_teid : Z; sgw_gtpu_ipv : list Z; tr_active : Z; tr_qos : Z }.
Definition is_row (r : tunnel_row) (vs : list field_value) : Prop :=
  vs !! 3%nat = Some (VText (ip_text (ueipv4 r))) /\ vs !! 4%nat = Some (VNum (pgw_teid r)) /\
  vs !! 6%nat = Some (VText (ip_text (pgw_gtpu_ipv r))) /\ vs !! 11%nat = Some (VNum (tr_sgw_teid r)) /\
  vs !! 12%nat = Some (VText (ip_text (sgw_gtpu_ipv r))) /\ vs !! 14%nat = Some (VNum (tr_active r)) /\ vs !! 18%nat = Some (VNum (tr_qos r)).
Definition address (a : list Z) : Prop := length a = 4%nat /\ bytes_ok a.
Definition session_over (r : tunnel_row) (t : lookup_t) : lookup_t :=
  set_lnk (wrap 1 (tr_active r)) (wrap 2 (tr_qos r)) (le_load (ueipv4 r)) (u32 (pgw_teid r)) (u32 (tr_sgw_teid r)) (le_load (sgw_gtpu_ipv r))
    (le_load (pgw_gtpu_ipv r)) t.
Definition session_of (r : tunnel_row) : lookup_t := session_over r zero_lookup.

Lemma column_ipv4_text a old : address a -> column_ipv4 (ip_text a) old = le_load a.
Proof.
  intros [La Ha]. destruct a as [|x [|y [|z [|u [|]]]]]; cbn [length] in La; try lia.
  rewrite !Forall_cons in Ha. destruct Ha as (Hx & Hy & Hz & Hu & _).
  unfold column_ipv4, ip_text. rewrite get_ipv4_print by (done || lia). change (0 =? 0) with true. cbn match.
  reflexivity.
Qed.

Definition num (v : value) (f : Z -> Z) (old : Z) : Z := match v with TYPE_NUMERIC v => f v | TYPE_TEXT _ => old end.
Definition txt (v : value) (old : Z) : Z := match v with TYPE_NUMERIC _ => old | TYPE_TEXT s => column_ipv4 s old end.
(** The members no notification touches. *)
Definition frame (t t' : lookup_t) : Prop :=
  t' = set_lnk (active t') (mode t') (ue_ipv4 t') (ue_teid t') (sgw_gtpu_teid t') (sgw_gtpu_ipv4 t') (pgw_gtpu_ipv4 t') t.
Lemma notify_frame ns rec : frame (lnk rec) (lnk (foldl (fun r n => OnNotify n r) rec ns)) /\ evt (foldl (fun r n => OnNotify n r) rec ns) = evt rec.
Proof.
  revert rec. induction ns as [|n ns IH]; intros rec; cbn [foldl]; [split; [by destruct rec as [? []]|done]|].
  destruct (IH (OnNotify n rec)) as [H1 H2].
  assert (Hn : frame (lnk rec) (lnk (OnNotify n rec)) /\ evt (OnNotify n rec) = evt rec).
  { destruct rec as [e []]. unfold OnNotify, frame. destruct (val n); repeat case_if; done. }
  destruct Hn as [H3 H4]. split; [|congruence]. unfold frame in *. rewrite H3 in H1. exact H1.
Qed.
Ltac member := intros n rec H; unfold OnNotify, T_PGW_TEID, T_SGW_GTPU_TEID, T_ACTIVE, T_QOS, T_SGW_GTPU_IPV, T_UEIPV4, T_PGW_GTPU_IPV in *;
  destruct (val n); repeat case_if; to_prop; try lia; done.
Lemma row_fills_record type_ vs r rec0 : is_row r vs -> address (ueipv4 r) -> address (pgw_gtpu_ipv r) -> address (sgw_gtpu_ipv r) ->
  foldl (fun rec n => OnNotify n rec) rec0 (notes_of type_ 0 vs) = mk_record (evt rec0) (session_over r (lnk rec0)).
Proof.
  intros (H3 & H4 & H6 & H11 & H12 & H14 & H18) Ha1 Ha2 Ha3.
  destruct (notify_frame (notes_of type_ 0 vs) rec0) as [Hf He].
  pose proof (fold_notes (fun rc => ue_ipv4 (lnk rc)) 3 txt ltac:(member) ltac:(member) type_ 0 vs rec0 ltac:(lia)) as F1.
  pose proof (fold_notes (fun rc => ue_teid (lnk rc)) 4 (fun v => num v u32) ltac:(member) ltac:(member) type_ 0 vs rec0 ltac:(lia)) as F2.
  pose proof (fold_notes (fun rc => pgw_gtpu_ipv4 (lnk rc)) 6 txt ltac:(member) ltac:(member) type_ 0 vs rec0 ltac:(lia)) as F3.
  pose proof (fold_notes (fun rc => sgw_gtpu_teid (lnk rc)) 11 (fun v => num v u32) ltac:(member) ltac:(member) type_ 0 vs rec0 ltac:(lia)) as F4.
  pose proof (fold_notes (fun rc => sgw_gtpu_ipv4 (lnk rc)) 12 txt ltac:(member) ltac:(member) type_ 0 vs rec0 ltac:(lia)) as F5.
  pose proof (fold_notes (fun rc => active (lnk rc)) 14 (fun v => num v (wrap 1)) ltac:(member) ltac:(member) type_ 0 vs rec0 ltac:(lia)) as F6.
  pose proof (fold_notes (fun rc => mode (lnk rc)) 18 (fun v => num v (wrap 2)) ltac:(member) ltac:(member) type_ 0 vs rec0 ltac:(lia)) as F7.
  destruct (foldl _ _ _) as [e t]. cbn [evt lnk] in *. subst e. f_equal. rewrite Hf. unfold session_over. unfold column_value in *.
  change (Z.to_nat (3 - 0)) with 3%nat in F1. rewrite H3 in F1. change (Z.to_nat (4 - 0)) with 4%nat in F2. rewrite H4 in F2.
  change (Z.to_nat (6 - 0)) with 6%nat in F3. rewrite H6 in F3. change (Z.to_nat (11 - 0)) with 11%nat in F4. rewrite H11 in F4.
  change (Z.to_nat (12 - 0)) with 12%nat in F5. rewrite H12 in F5. change (Z.to_nat (14 - 0)) with 14%nat in F6. rewrite H14 in F6.
  change (Z.to_nat (18 - 0)) with 18%nat in F7. rewrite H18 in F7. unfold txt, num in *.
  rewrite column_ipv4_text in F1, F3, F5 by done. by rewrite F1, F2, F3, F4, F5, F6, F7.
Qed.

Lemma read_map name td s : des_ev_ s = true -> Read (Fetched TABLE_MAP_EVENT (Table name td)) s = Ok (0, [], mk_event (table_ s) true (Some td)).
Proof. intros Hd. unfold Read. change (TABLE_MAP_EVENT =? FORMAT_DESCRIPTION_EVENT) with false. cbn match. by rewrite Hd. Qed.
Lemma read_rows type e td ok notes s : type = WRITE_ROWS_EVENT \/ type = UPDATE_ROWS_EVENT \/ type = DELETE_ROWS_EVENT ->
  tbl_ev_ s = Some td -> Parse type e td = Ok (ok, notes) -> Read (Fetched type (Rows e)) s = Ok (0, notes, s).
Proof.
  intros Ht Hs Hp. assert (Ek : (type =? FORMAT_DESCRIPTION_EVENT) = false /\ (type =? TABLE_MAP_EVENT) = false /\
    ((type =? WRITE_ROWS_EVENT) || (type =? UPDATE_ROWS_EVENT) || (type =? DELETE_ROWS_EVENT)) = true) by (destruct Ht as [->|[->| ->]]; done).
  unfold Read. destruct Ek as (-> & -> & ->). by rewrite Hs, Hp.
Qed.

Module Properties.

(** C27: after the description of the log and the map of a table, reading a rows event
    notifies the values of its row, column by column, in order, whatever columns the
    image has (for an update those of the image before and then those of the
    image after); for a row of the sessions the record the data plane keeps becomes
    the session of the row. *)
Theorem replicated_row_delivered (s : EventImpl) (name : cstring) (td : list coldef) (vs after : list field_value) (rest : list Z) (type : Z) :
  des_ev_ s = true -> Forall2 fits td vs -> Forall2 fits td after ->
  type = WRITE_ROWS_EVENT \/ type = UPDATE_ROWS_EVENT \/ type = DELETE_ROWS_EVENT ->
  let upd := type =? UPDATE_ROWS_EVENT in
  let images := if upd then image vs ++ image after else image vs in
  let notes := if upd then notes_of type 0 vs ++ notes_of type 0 after else notes_of type 0 vs in
  read_all [Fetched TABLE_MAP_EVENT (Table name td); Fetched type (Rows (mk_rows (cols_of vs) (cols_of after) (images ++ rest)))] s =
    Ok ([[]; notes], mk_event (table_ s) true (Some td)) /\
  forall r, is_row r (if upd then after else vs) -> address (ueipv4 r) -> address (pgw_gtpu_ipv r) -> address (sgw_gtpu_ipv r) ->
    foldl (fun rec n => OnNotify n rec) (mk_record 0 zero_lookup) notes = mk_record 0 (session_of r).
Proof.
  intros Hd Hv Ha Ht upd images notes.
  assert (Hp : Parse type (mk_rows (cols_of vs) (cols_of after) (images ++ rest)) td = Ok (true, notes)).
  { unfold Parse. cbn [m_cols m_cols_ai m_rows_buf]. unfold images, notes. fold upd. destruct upd eqn:Eu.
    - pose proof (image_ok type td vs [] (image after ++ rest) Hv) as E1. cbn [app length] in E1. rewrite Z.add_0_l in E1.
      rewrite <-app_assoc, E1. res_simpl. pose proof (image_ok type td after (image vs) rest Ha) as E2. rewrite E2. done.
    - pose proof (image_ok type td vs [] rest Hv) as E1. cbn [app length] in E1. rewrite Z.add_0_l in E1. rewrite E1. done. }
  split.
  - cbn [read_all]. rewrite read_map by done. res_simpl. by rewrite (read_rows type _ td true notes (mk_event (table_ s) true (Some td)) Ht eq_refl Hp).
  - intros r Hr H1 H2 H3. unfold notes. destruct upd; [rewrite foldl_app|].
    + destruct (notify_frame (notes_of type 0 vs) (mk_record 0 zero_lookup)) as [Hf He].
      rewrite (row_fills_record type after r _ Hr H1 H2 H3), He. f_equal. cbn [lnk] in Hf. rewrite Hf. done.
    + by rewrite (row_fills_record type vs r _ Hr H1 H2 H3).
Qed.

Definition tunnel_columns : list coldef :=
  (fun t => mk_coldef t 64) <$> [8; 8; 8; 15; 8; 8; 15; 8; 15; 8; 15; 8; 15; 8; 8; 17; 17; 8; 8].
Definition row1 : list field_value :=
  [VNum 1; VNum 440110000000001; VNum 819012345678; VText (lit "10.0.0.7"); VNum 0x47030000; VNum 5; VText (lit "192.168.0.1"); VNum 0; VText []; VNum 0;
   VText (lit "172.16.0.9"); VNum 0x1234; VText (lit "172.16.0.8"); VAbsent; VNum 1; VAbsent; VTime [1; 2; 3; 4]; VNum 9; VNum 2].
Definition tunnel1 : tunnel_row := mk_tunnel [10; 0; 0; 7] 0x47030000 [192; 168; 0; 1] 0x1234 [172; 16; 0; 8] 1 2.
Lemma row1_fits : Forall2 fits tunnel_columns row1.
Proof.
  assert (Ht : forall s, bool_decide (zlen s < 256 /\ Forall (fun c => 0 < c < 256) s) = true -> fits (mk_coldef 15 64) (VText s)).
  { intros s H. apply bool_decide_eq_true_1 in H as [H1 H2]. split; [by left|]. split; [reflexivity|done]. }
  assert (Hn : forall v, bool_decide (0 <= v < 2 ^ 64) = true -> fits (mk_coldef 8 64) (VNum v)).
  { intros v H. apply bool_decide_eq_true_1 in H. done. }
  repeat apply Forall2_cons_2; try (apply Ht; reflexivity); try (apply Hn; reflexivity); try exact I; [|apply Forall2_nil_2].
  split; [by right|done].
Qed.
Lemma replicated_row_delivered_witness :
  read_all [Fetched TABLE_MAP_EVENT (Table (lit "tunnel") tunnel_columns); Fetched WRITE_ROWS_EVENT (Rows (mk_rows (cols_of row1) [] (image row1)))]
    (mk_event (lit "tunnel") true None) = Ok ([[]; notes_of 30 0 row1], mk_event (lit "tunnel") true (Some tunnel_columns)) /\
  foldl (fun rec n => OnNotify n rec) (mk_record 0 zero_lookup) (notes_of 30 0 row1) =
    mk_record 0 (set_lnk 1 2 0x0700000a 0x47030000 0x1234 0x080010ac 0x0100a8c0 zero_lookup).
Proof.
  destruct (replicated_row_delivered (mk_event (lit "tunnel") true None) (lit "tunnel") tunnel_columns row1 row1 [] WRITE_ROWS_EVENT
    eq_refl row1_fits row1_fits (or_introl eq_refl)) as [H1 H2]. split.
  - refine (eq_trans _ H1). reflexivity.
  - refine (eq_trans (H2 tunnel1 _ _ _ _) _); [vm_compute; tauto|..|reflexivity]; (split; [reflexivity|by apply bytes_okb_ok]).
Defined.

(** The second description of the log is built from the deleted first one. *)
Lemma second_description_undefined table : read_all [Fetched FORMAT_DESCRIPTION_EVENT Plain; Fetched FORMAT_DESCRIPTION_EVENT Plain] (event0 table) = Fault Undefined.
Proof. reflexivity. Qed.
(** The name of the table does not matter: the rows of every table are notified. *)
Lemma table_name_ignored type e td t t' : tbl_ev_ t = Some td -> tbl_ev_ t' = Some td -> table_ t <> table_ t' -> des_ev_ t = des_ev_ t' ->
  match Read (Fetched type (Rows e)) t, Read (Fetched type (Rows e)) t' with
  | Ok (rc, l, _), Ok (rc', l', _) => rc = rc' /\ l = l'
  | Fault f, Fault f' => f = f'
  | _, _ => False
  end.
Proof.
  intros Ht Ht' _ Hd. unfold Read. rewrite Ht, Ht', Hd. repeat case_if; try done. destruct (Parse type e td) as [[b l]|]; done.
Qed.
(** A rows event has the images of all rows of a statement: only the first is read. *)
Lemma later_rows_ignored type td vs vs' : Forall2 fits td vs -> type <> UPDATE_ROWS_EVENT ->
  Parse type (mk_rows (cols_of vs) (cols_of vs) (image vs ++ image vs')) td = Parse type (mk_rows (cols_of vs) (cols_of vs) (image vs)) td.
Proof.
  intros Hf Ht. assert (E : forall rest, Parse type (mk_rows (cols_of vs) (cols_of vs) (image vs ++ rest)) td = Ok (true, notes_of type 0 vs)).
  { intros rest. unfold Parse. cbn [m_cols m_rows_buf]. pose proof (image_ok type td vs [] rest Hf) as E1. cbn [app length] in E1. rewrite Z.add_0_l in E1.
    rewrite E1. res_simpl. by rewrite (proj2 (Z.eqb_neq _ _) Ht). }
  specialize (E []) as E0. rewrite app_nil_r in E0. by rewrite E, E0.
Qed.
(** A NULL has no bytes in the image, and the bitmap that says so is skipped: the text
    behind it is read as the number. *)
Lemma null_column_misread :
  Parse WRITE_ROWS_EVENT (mk_rows [true; true] [] ([1] ++ value_bytes (VText (lit "1234567")))) [mk_coldef MYSQL_TYPE_LONGLONG 0; mk_coldef MYSQL_TYPE_VARCHAR 64] =
    Fault Undefined /\
  Parse WRITE_ROWS_EVENT (mk_rows [true] [] ([1] ++ value_bytes (VText (lit "1234567")))) [mk_coldef MYSQL_TYPE_LONGLONG 0] =
    Ok (true, [mk_note 30 0 (TYPE_NUMERIC (le_load (7 :: lit "1234567")))]).
Proof. split; vm_compute; reflexivity. Qed.
End Properties.
